(* ===== verification/_CoqProject ===== *)
-Q . S2P
Prelude.v
GoText.v
GoTime.v
Sha256.v
GoMime.v
GoJson.v
Core.v
Purchase.v
Decimal.v
Protection.v
Persistence.v
Stores.v
Projector.v
Repository.v
EntitlementStore.v
GoHttp.v
GoCodec.v
AesGcm.v
Keyring.v
Network.v
Credential.v
Runner.v
Refresh.v
Verification.v
Apple.v
GooglePlay.v
Huawei.v
Notifications.v
Webhooks.v
WebhookSdk.v
QueueStore.v
Worker.v
Frames.v
Identity.v
Catalog.v
Offering.v
PurchaseStore.v
OperationsStore.v
Auth.v
Credentials.v
RevenueCat.v
RevenueCatPlan.v
ImportStore.v
AppleReports.v
ReportStore.v
Revenue.v
FinancialReports.v
EntitlementSources.v
RevenueCatApply.v
Postgres.v
Processing.v
HttpCore.v
HttpAdmin.v
HttpApi.v
HttpRoutes.v
