(* ===== verification/Prelude.v ===== *)
(** * IAPStack: a verification library

    IAPStack is a server that verifies in-app purchases with Apple, Google and
    Huawei, keeps each customer's entitlements, and tells the application about
    changes by signed webhooks.  This library models the Go code of the server's
    core and of the Go SDK's webhook receiver, and proves what makes it correct.
    Paths below are relative to [src/].

    ** The program's parts and how they interact

    A client sends purchase evidence, or a provider sends a notification.  The
    verification service ([internal/verification]) resolves the application and
    customer, asks a store adapter ([internal/stores/apple], [googleplay],
    [huawei]) for the authoritative state, validates the answer against the
    request, protects every secret, and in one transaction stores the evidence and
    observations and refreshes the customer's entitlement projections; each changed
    projection becomes an outbox event of the same transaction.  Only after the
    commit is the provider told (acknowledgement).  Notifications and daily
    refreshes are records of durable queues ([internal/persistence/postgres/queue.go])
    run as River jobs by the worker ([internal/worker]); their handlers
    ([internal/processing]) bind them to a known customer and call the verification
    service, and save the next refresh.  Outbox events are delivered by
    [internal/webhooks] and received by [sdk/go/webhook.go].  Callers authenticate
    with bearer keys or sessions ([internal/auth]) kept by [postgres/operations.go].
    A former RevenueCat customer base is brought in by [internal/revenuecatimport]:
    the export is read, planned against the catalog and applied, one transaction a
    subscriber, as import grants ([postgres/import_grant.go]) that the projections
    then read as sources beside the purchase observations.  The stores' financial
    reports are uploaded to [internal/financialreports], kept by
    [postgres/financial_report.go] and summed into the recognized revenue of a project;
    offering documents ([internal/offering]) are served when the catalog confirms them.
    In front of all of it is the HTTP API ([internal/transport/httpapi]): it authenticates
    a caller, decodes and checks the request, calls one use case and answers.

    ** Files and what they model

    Foundations: this file (Go errors as [gerror], results, the error combinators
    and the [goerr]/[gobool] rewriting databases); [GoText] (UTF-8, [strings],
    [strconv], hex), [GoTime] (instants as nanoseconds since Go's zero time),
    [Sha256] (SHA-256 and HMAC, executable), [GoMime], [GoJson] (the JSON scanner
    and encoder), [GoHttp] (what is used of [net/http], [net/url], base64), [GoCodec]
    (the hex and base64 codings with their inverses).

    Data and contracts: [Core] ([internal/core/identifiers.go], [reference.go],
    [catalog.go]), [Purchase] ([internal/core/purchase.go]), [Decimal]
    ([internal/persistence/decimal.go]), [Protection] ([internal/protection]),
    [Persistence] ([internal/persistence/contracts.go], [identity.go]), [Stores]
    ([internal/stores/contracts.go] and its evidence, failures and registry),
    [Credential] ([internal/stores/credential.go]), [AesGcm] (AES-256-GCM and HKDF,
    executable) and [Keyring] ([internal/platform/protection]).

    Persistence: [Repository] (the repository interfaces as classes over a state,
    the transaction monad [Tx], and [EntitlementLaws], what an entitlement store
    promises), [EntitlementStore] ([postgres/entitlement.go], [outbox.go],
    [errors.go] over finite maps, an instance of the laws), [Runner]
    ([postgres/store.go]), [QueueStore] ([postgres/queue.go]), [Identity]
    ([postgres/identity.go], with what uses it of [control.go] and [catalog.go]),
    [Catalog] ([postgres/control.go] and [catalog.go], over the identity tables),
    [PurchaseStore] ([postgres/purchase.go], over the catalog's), [OperationsStore]
    ([postgres/operations.go]: API keys and webhook endpoints), [ImportStore]
    ([postgres/import_grant.go], over the catalog's), [EntitlementSources] (the source
    query of [postgres/entitlement.go], over the purchase and import tables),
    [ReportStore] and [Revenue] ([postgres/financial_report.go], over the catalog's), and
    [Postgres] (the repositories as views of one state).

    Use cases: [Projector] ([internal/verification/projector.go]), [Refresh]
    ([refresh.go] and the event of [service.go]), [Verification] ([service.go]),
    [Frames] (which relations on the store every use case keeps), [Worker]
    ([internal/worker/runner.go]), [Processing] ([internal/processing/handlers.go]
    and [internal/jobs/contracts.go]), [Webhooks] ([internal/webhooks/service.go]),
    [Auth] ([internal/auth]: keys, customer and dashboard sessions), [Credentials]
    ([internal/credentials] and [postgres/credential.go]), [AppleReports] and
    [FinancialReports] ([internal/financialreports]), [Offering] ([internal/offering] and
    [postgres/offering.go]), [RevenueCat]
    ([internal/revenuecatimport]: [parse.go], [read.go], [codes.go]), [RevenueCatPlan]
    ([mapping.go], [catalog.go], [decide.go], [plan.go], [report.go]) and
    [RevenueCatApply] ([apply.go], against the class [ImportRepository]).

    Outside world: [Network] (the address policy and restricted dialers of
    [internal/stores/huawei/network.go] and [internal/webhooks/network.go]), [Apple],
    [GooglePlay], [Huawei] (the adapters), [Notifications] (their callbacks),
    [WebhookSdk] ([sdk/go/webhook.go]), and the HTTP API ([internal/transport/httpapi]) over
    the services' interfaces: [HttpCore] (requests, replies, failures, the guards of
    [api.go] and [dashboard_session.go]), [HttpAdmin] (views and uploads), [HttpApi] (every
    handler) and [HttpRoutes] (the registry and its dispatch).

    ** Conventions

    A Go string or byte slice is a Coq [string] of bytes; an integer is a [Z] with
    its wrap-around written out where a computation can reach it ([wrap64]); a time
    is a [Z] of nanoseconds with [zeroTime = 0]; a nil pointer is [None]; an error
    result is [gerror] kept as format and arguments.  Code that threads state is a
    function into [result * state] ([Tx]).  Go's unspecified map iteration order is
    the class [GoMapRange].  Definitions are executable: the witnesses evaluate them.

    Parameters stand for what is not in [src/] or is not decided by it: the clock's
    readings, the HTTP transports, credentials from the credential service, key and
    certificate parsing, signatures, the JSON decoding of the packages' structs
    (classes [AppleLibrary], [GoogleLibrary], [HuaweiLibrary] and the
    [...NotificationLibrary] and [ProcessingLibrary] classes), CSV and time parsing of the exports
    ([ExportLibrary]), gzip ([GoGzip]), the file system of the offerings ([OfferingLibrary]),
    request bodies, multipart and URLs ([RequestDecoders], [MultipartLibrary], [UrlLibrary]),
    Argon2id and random bytes, random retry jitter, and the
    database driver's failures.  Laws about them are stated as classes
    ([ReadLaws], [EntitlementLaws], [Store], [QueueLaws], [ReconciliationLaws],
    [ReferenceLaws], [VerificationFrame], [ImportLaws], [ProtectionLaws],
    [FinancialReportLaws], [GoGzipLaws], [ApiAuthenticationLaws]); the PostgreSQL models discharge those of
    the repositories, and every witness instantiates them.

    ** What the theorems show

    - Use cases: an answer is stored only if it was validated against the request,
      all of it or nothing is stored, and the provider is told only after the commit
      ([verify_commits_then_completes], [reconcile_commits_then_completes],
      [transact_atomic], [refresh_applies]); a customer's sources are the latest row of
      every lineage of the customer's closure ([sources_are_latest]).
    - Access: a key keeps its role and scope and is only ever revoked, never the last
      administrator ([api_keys_lifecycle]); a bearer or session authenticates only as
      what it proves, and works until its key is revoked or it expires
      ([bearer_authentic], [bearer_round_trip], [sessions_authentic],
      [sessions_expire]).
    - Protection and credentials: a value opens only in its scope and as what was
      protected, also after the active key changes ([open_inverts_protect],
      [rotation_keeps_values]); a credential is what was stored for its application, and no
      update is lost ([credential_authentic], [credential_no_lost_update],
      [credential_round_trip]).
    - Financial reports: a consolidated report is accounted for exactly, the proceeds of
      the applications it covers are stored exactly, a report replaces only the one of its
      period, and revenue is the sum of what was accepted ([apple_totals_exact],
      [upload_stores_exactly], [supersede_replaces], [revenue_exact]); each call is logged
      once, in one line ([report_calls_logged]).
    - Offerings: what is served is valid and confirmed ([offering_served]).
    - HTTP API: a request is refused without effect or its caller proved what its operation
      needs ([api_authorized]); a customer's session acts for that customer alone, and
      shows what they have at that moment ([session_confined], [entitlements_shown]); an
      accepted callback is stored, a forged one changes nothing ([callbacks_stored]); no two
      routes match one request ([routes_disjoint]).
    - Import: every row of an export is kept ([csv_rows_kept]); a row's access is its
      decision table ([import_access_exact]); a subscriber is planned whole or refused,
      against the catalog, with unambiguous aliases ([subscriber_all_or_nothing],
      [imports_are_backed], [aliases_unambiguous]); it is written whole or not at all,
      reported as written, and settled ([apply_accounts], [subscriber_settled],
      [upsert_settles]).
    - Adapters: what the Apple, Google and Huawei adapters answer passes the
      validation of the service, comes from authenticated provider data, and grants
      access only while the provider's data does; failures are classified and
      retried as documented; Google purchases are acknowledged once each.
    - Notifications: a callback is accepted only when authenticated for the
      application, and is bound only to a customer it may concern
      ([google_notification_authentic], [google_command_bound] and their Apple and
      Huawei counterparts); the next daily refresh is saved before the provider
      is called, so the chain goes on whatever that call comes to, unless the worker's
      clock is before the refresh's own time ([refresh_chain_continues],
      [early_refresh_is_itself]).
    - Projections: the projector chooses the strongest current source for each
      entitlement whatever the order of its inputs, and keeps access another source
      still gives.
    - Identity: whatever order customers, aliases and merges come in, each external id
      has one owner, which resolution finds, and a recorded merge answers again
      ([identity_refines], [resolve_is_owner], [merge_is_idempotent]).
    - Catalog and purchases: configuration calls confirm and never rewrite
      ([configuration_is_confirmed]), loading the catalog is the reading of its tables
      ([catalog_products_loaded]); purchase history is append-only
      ([purchases_append_only]), saving again changes nothing ([saving_twice]), and what
      was saved is found by its references ([saved_reference_found]).
    - Queues and worker: the life of a record as a refinement of a four-state
      machine, the termination of every job's runs, and what each outcome leaves.
    - Webhooks: what is signed is what the receiver authenticates ([webhook_authentic]);
      an event is remembered only after its callback succeeded and is not handled again
      after that, however requests overlap ([webhook_handled_once]).
    - Values: observations, projections and decimals keep their invariants; exact
      conversions stay exact, and bounded ones fail instead of wrapping.

    ** Fuel and bounds

    [runes_fuel] and [valid_fuel] recurse at most once per byte and get the length;
    [digits] gets one more than the binary logarithm; JSON escaping gets the length;
    the transaction runner makes at most four attempts and the worker's runs are
    bounded by the attempts left plus twenty snoozes ([worker_terminates]); no other
    function runs out of fuel.

    ** Not modelled, and why

    The HTTP server around the API ([internal/transport/httpserver]), process assembly and
    configuration ([internal/app], [internal/platform], [cmd]) are I/O around the use
    cases.  Of PostgreSQL, [admin.go] is the text of counting queries that no modelled use
    case reads: the API's theorems take its answers as they come.  Metrics and logs, but for
    the log of the financial reports, have no effect on the use cases.  The release gate, the
    reference webhook receiver and the SDK's HTTP client are apart from the paths above. *)

From stdpp Require Export base decidable list option strings gmap sorting.
From Stdlib Require Export ZArith Lia.
#[export] Set Default Goal Selector "!".
#[export] Set Warnings "-register-all".

(** ** Go errors *)

(** One argument of a formatted message. *)
Inductive arg : Type :=
| AStr (s : string)
| AInt (z : Z).

(** A non-nil Go error.  [New] is [errors.New], [Errorf] and [Wrapf] are
    [fmt.Errorf] without and with a final [%w], [Joined] is the value
    [errors.Join] returns, [Sentinel] a package-level error variable,
    [Invalid] the value [validation.Wrap] builds and [Failure] a
    [*stores.Failure].  Messages are kept as format and arguments. *)
Inductive gerror : Type :=
| New (message : string)
| Errorf (format : string) (args : list arg)
| Wrapf (format : string) (args : list arg) (cause : gerror)
| Joined (errs : list gerror)
| Sentinel (name : string)
| Invalid (cause : gerror)
| Failure (provider operation kind : string) (retryAfter : Z) (cause : option gerror).

(** A Go [error] result: [None] is [nil]. *)
Abbreviation error := (option gerror).

(** A Go [(value, error)] result. *)
Inductive result (A : Type) : Type :=
| Ok (a : A)
| Err (e : gerror).
Arguments Ok {A} _.
Arguments Err {A} _.

(** [errors.Is] against a sentinel. *)
Fixpoint errors_Is (e : gerror) (target : string) {struct e} : bool :=
  match e with
  | New _ | Errorf _ _ => false
  | Wrapf _ _ cause => errors_Is cause target
  | Joined errs => existsb (fun e' => errors_Is e' target) errs
  | Sentinel name => String.eqb name target
  | Invalid cause => String.eqb target "validation.ErrInvalid" || errors_Is cause target
  | Failure _ _ _ _ (Some cause) => errors_Is cause target
  | Failure _ _ _ _ None => false
  end.

(** [if err := e; err != nil { return err }] followed by [k]. *)
Definition seq_err (e k : error) : error :=
  match e with Some x => Some x | None => k end.

(** [if b { return e }]. *)
Definition refuse_if (b : bool) (e : gerror) : error :=
  if b then Some e else None.

(** [if err := e; err != nil { return fmt.Errorf(format, args, err) }]. *)
Definition wrap_err (format : string) (args : list arg) (e : error) : error :=
  match e with Some x => Some (Wrapf format args x) | None => None end.

(** [errors.Join]: nil when every argument is nil. *)
Definition errors_Join (es : list error) : error :=
  match omap id es with
  | [] => None
  | errs => Some (Joined errs)
  end.

Definition bind_result {A B} (r : result A) (f : A -> result B) : result B :=
  match r with Ok a => f a | Err e => Err e end.

(** Return the error of a check, or go on. *)
Definition try_err {A} (e : error) (k : result A) : result A :=
  match e with Some x => Err x | None => k end.

(** Wrap the error of a result. *)
Definition wrap_result {A} (f : gerror -> gerror) (r : result A) : result A :=
  match r with Ok a => Ok a | Err e => Err (f e) end.

Declare Scope go_scope.
Delimit Scope go_scope with go.
Notation "e ;;? k" := (seq_err e k)
  (at level 100, right associativity) : go_scope.
Notation "'let*' x := r 'in' k" := (bind_result r (fun x => k))
  (at level 10, x pattern, r at level 100, k at level 200) : go_scope.
Notation "'try*' e 'in' k" := (try_err e k)
  (at level 10, e at level 100, k at level 200) : go_scope.
Open Scope go_scope.

(** ** Loops that stop at the first error *)

(** [for index, x := range l { if err := f(l[:index], x) ... }]: the body sees
    the elements already passed. *)
Fixpoint forPrefix {A} (f : list A -> A -> error) (seen l : list A) : error :=
  match l with
  | [] => None
  | x :: l' => f seen x ;;?
      forPrefix f (seen ++ [x]) l'
  end.

(** [for index, x := range l]: the body sees the index. *)
Definition forEach {A} (f : nat -> A -> error) (l : list A) : error :=
  forPrefix (fun seen x => f (length seen) x) [] l.

(** [for index, x := range l { y, err := f(index, x); if err != nil { return err };
    out = append(out, y) }]. *)
Fixpoint collectFrom {A B} (f : nat -> A -> result B) (index : nat) (l : list A) : result (list B) :=
  match l with
  | [] => Ok []
  | x :: l' =>
      let* y := f index x in
      let* ys := collectFrom f (S index) l' in
      Ok (y :: ys)
  end.
Definition collect {A B} (f : nat -> A -> result B) (l : list A) : result (list B) := collectFrom f 0 l.

(** ** Iteration over Go maps *)

(** Go leaves the order of [for k, v := range m] unspecified.  [map_range]
    returns the entries in the order chosen at one loop of the program ([site]);
    nothing is known of it but that it visits every entry once. *)
Class GoMapRange := {
  map_range : forall (site : nat) {A : Type}, list A -> list A;
  map_range_perm : forall site A (l : list A), Permutation (map_range site l) l
}.

(** Two concrete orders. *)
Definition range_in_order : GoMapRange :=
  {| map_range := fun _ _ l => l; map_range_perm := fun _ _ l => Permutation_refl l |}.
Definition range_reversed : GoMapRange :=
  {| map_range := fun _ A l => rev l;
     map_range_perm := fun _ _ l => Permutation_sym (Permutation_rev l) |}.

(** ** The error lemmas the components share *)

Create HintDb goerr.
Create HintDb gobool.

Section error_lemmas.
Context {A B : Type}.

Lemma seq_err_nil (e k : error) : (e ;;? k) = None <-> e = None /\ k = None.
Proof. destruct e; simpl; naive_solver. Qed.

Lemma refuse_if_nil (b : bool) e : refuse_if b e = None <-> b = false.
Proof. destruct b; naive_solver. Qed.

Lemma wrap_err_nil f args (e : error) : wrap_err f args e = None <-> e = None.
Proof. destruct e; naive_solver. Qed.

Lemma errors_Join_nil (es : list error) :
  errors_Join es = None <-> Forall (fun e => e = None) es.
Proof.
  unfold errors_Join. induction es as [|[e|] es IH]; simpl.
  - split; auto.
  - rewrite Forall_cons. naive_solver.
  - rewrite Forall_cons, <- IH. naive_solver.
Qed.

Lemma try_err_ok (e : error) (k : result A) a :
  try_err e k = Ok a <-> e = None /\ k = Ok a.
Proof. destruct e; simpl; naive_solver. Qed.

Lemma bind_result_ok (r : result A) (f : A -> result B) b :
  bind_result r f = Ok b <-> exists a, r = Ok a /\ f a = Ok b.
Proof. destruct r; simpl; naive_solver. Qed.

Lemma wrap_result_ok f (r : result A) a : wrap_result f r = Ok a <-> r = Ok a.
Proof. destruct r; simpl; naive_solver. Qed.

Lemma forPrefix_nil (f : list A -> A -> error) seen l :
  forPrefix f seen l = None <->
  forall i x, l !! i = Some x -> f (seen ++ take i l) x = None.
Proof.
  revert seen. induction l as [|y l IH]; intros seen; cbn [forPrefix].
  - split; [intros _ i x; rewrite lookup_nil; discriminate | reflexivity].
  - rewrite seq_err_nil, IH. split.
    + intros [Hy Hl] [|i] x Hx; simpl in *.
      * rewrite app_nil_r. congruence.
      * rewrite cons_middle, app_assoc. auto.
    + intros H. split.
      * specialize (H 0 y eq_refl). simpl in H. rewrite app_nil_r in H. exact H.
      * intros i x Hx. specialize (H (S i) x Hx). simpl in H.
        rewrite cons_middle, app_assoc in H. exact H.
Qed.

Lemma forEach_nil (f : nat -> A -> error) l :
  forEach f l = None <-> forall i x, l !! i = Some x -> f i x = None.
Proof.
  unfold forEach. rewrite forPrefix_nil. simpl. split; intros H i x Hx;
    specialize (H i x Hx); apply lookup_lt_Some in Hx;
    rewrite length_take_le in *; auto; lia.
Qed.

(** A loop that checks every element and refuses one equal to an earlier one. *)
Lemma forPrefix_check_dup (P : A -> Prop) (f : list A -> A -> error) l :
  (forall seen x, f seen x = None <-> P x /\ ~ In x seen) ->
  forPrefix f [] l = None <-> Forall P l /\ NoDup l.
Proof.
  intros Hf. rewrite forPrefix_nil. setoid_rewrite Hf. simpl. split.
  - intros H. split.
    + apply Forall_lookup. intros i x Hx. apply (H i x Hx).
    + apply NoDup_alt. intros i j x Hi Hj.
      destruct (Nat.lt_trichotomy i j) as [Hij|[Hij|Hij]]; [exfalso| done |exfalso].
      * apply (proj2 (H j x Hj)), list_elem_of_In, list_elem_of_lookup.
        exists i. rewrite lookup_take_lt; done.
      * apply (proj2 (H i x Hi)), list_elem_of_In, list_elem_of_lookup.
        exists j. rewrite lookup_take_lt; done.
  - intros [HP HD] i x Hx. split; [by eapply Forall_lookup_1|].
    rewrite <- list_elem_of_In, list_elem_of_lookup. intros [j Hj].
    assert (j < i) by (apply lookup_lt_Some in Hj; rewrite length_take in Hj; lia).
    rewrite lookup_take_lt in Hj by done.
    pose proof (NoDup_lookup _ _ _ _ HD Hj Hx). lia.
Qed.

(** A loop that checks every element and compares it with the earlier ones. *)
Lemma forPrefix_check_rel (P : A -> Prop) (R : A -> A -> bool) (f : list A -> A -> error) l :
  (forall seen x, f seen x = None <-> P x /\ existsb (R x) seen = false) ->
  forPrefix f [] l = None <->
  Forall P l /\ forall i j x y, l !! i = Some x -> l !! j = Some y -> j < i -> R x y = false.
Proof.
  intros Hf. rewrite forPrefix_nil. setoid_rewrite Hf. simpl.
  assert (He : forall i x, existsb (R x) (take i l) = false <->
                 forall j y, l !! j = Some y -> j < i -> R x y = false).
  { intros i x. split.
    - intros H j y Hj Hlt. apply not_true_iff_false. intros HR. apply not_true_iff_false in H.
      apply H, existsb_exists. exists y. split; [|done].
      apply list_elem_of_In, list_elem_of_lookup. exists j. by rewrite lookup_take_lt.
    - intros H. apply not_true_iff_false. intros (y & Hy & HR)%existsb_exists.
      apply list_elem_of_In, list_elem_of_lookup in Hy as [j Hj].
      apply lookup_take_Some in Hj as [Hj Hlt]. rewrite (H j y Hj Hlt) in HR. done. }
  setoid_rewrite He. split.
  - intros H. split; [apply Forall_lookup; intros i x Hx; apply (H i x Hx)|].
    intros i j x y Hx Hy Hlt. by apply (proj2 (H i x Hx) j y).
  - intros [HP HR] i x Hx. split; [by eapply Forall_lookup_1|]. eauto.
Qed.

End error_lemmas.

Lemma collect_Forall2 {A B} (f : nat -> A -> result B) (R : A -> B -> Prop) l ys :
  (forall i x y, f i x = Ok y -> R x y) -> collect f l = Ok ys -> Forall2 R l ys.
Proof.
  intros HR. unfold collect. generalize 0%nat. revert ys.
  induction l as [|x l IH]; intros ys i; cbn [collectFrom]; [intros [= <-]; constructor|].
  rewrite bind_result_ok. intros (y & Hy & H). apply bind_result_ok in H as (ys' & Hys & [= <-]).
  constructor; eauto.
Qed.

#[export] Hint Rewrite @seq_err_nil @refuse_if_nil @wrap_err_nil @errors_Join_nil
  @try_err_ok @bind_result_ok @wrap_result_ok @forEach_nil
  @Forall_cons @Forall_nil : goerr.

(** ** Filters *)

Lemma filter_true_all {A} (f : A -> bool) l : (forall x, In x l -> f x = true) -> List.filter f l = l.
Proof.
  induction l as [|x l IH]; intros H; [done|]. cbn. rewrite (H x) by by left. f_equal. apply IH. intros y Hy. apply H. by right.
Qed.

Lemma filter_false_none {A} (f : A -> bool) l : (forall x, In x l -> f x = false) -> List.filter f l = [].
Proof.
  induction l as [|x l IH]; intros H; [done|]. cbn. rewrite (H x) by by left. apply IH. intros y Hy. apply H. by right.
Qed.

(** ** Sums *)

Definition total_of {A} (f : A -> Z) (l : list A) : Z := foldr (fun x n => f x + n)%Z 0%Z l.

Lemma total_cons {A} (f : A -> Z) x l : total_of f (x :: l) = (f x + total_of f l)%Z.
Proof. done. Qed.

Lemma total_ext {A} (f g : A -> Z) l : (forall x, x ∈ l -> f x = g x) -> total_of f l = total_of g l.
Proof.
  induction l as [|x l IH]; intros H; [done|]. rewrite !total_cons, (H x) by (by left).
  by rewrite IH by (intros y Hy; apply H; by right).
Qed.

Lemma total_add {A} (f g : A -> Z) l : total_of (fun x => f x + g x)%Z l = (total_of f l + total_of g l)%Z.
Proof. induction l as [|x l IH]; [done|]. rewrite !total_cons, IH. lia. Qed.

Lemma total_zero {A} (l : list A) : total_of (fun _ => 0%Z) l = 0%Z.
Proof. by induction l. Qed.

Lemma total_app {A} (f : A -> Z) l1 l2 : total_of f (l1 ++ l2) = (total_of f l1 + total_of f l2)%Z.
Proof. induction l1 as [|x l1 IH]; [done|]. cbn [app]. rewrite !total_cons, IH. lia. Qed.

Lemma total_perm {A} (f : A -> Z) l1 l2 : Permutation l1 l2 -> total_of f l1 = total_of f l2.
Proof. induction 1; rewrite ?total_cons; lia. Qed.

(** ** Choosing the best element of a sequence *)

(** Keep the better of what was chosen and the next element. *)
Definition keep_better {A} (better : A -> A -> bool) (chosen : option A) (x : A) : option A :=
  match chosen with
  | None => Some x
  | Some y => if better x y then Some x else Some y
  end.

(** A strict weak order as a boolean test. *)
Class StrictWeakOrder {A} (better : A -> A -> bool) : Prop := {
  better_asym : forall a b, better a b = true -> better b a = false;
  better_negtrans : forall a b c, better a b = false -> better b c = false -> better a c = false
}.

Section choosing.
Context {A : Type} (better : A -> A -> bool) `{Hswo : !StrictWeakOrder better}.

Lemma better_irrefl a : better a a = false.
Proof.
  destruct (better a a) eqn:E; [|done]. by rewrite (better_asym _ _ E) in E.
Qed.

(** The chosen element comes from the sequence and nothing in it is better. *)
Lemma keep_better_fold l acc c :
  fold_left (keep_better better) l acc = Some c ->
  (acc = Some c \/ In c l) /\
  (forall x, In x l -> better x c = false) /\ (forall a, acc = Some a -> better a c = false).
Proof.
  revert acc. induction l as [|y l IH]; intros acc; simpl.
  - intros ->. split_and!; [by left|done|]. intros a [= <-]. apply better_irrefl.
  - intros H. destruct (IH _ H) as (Hc & Hl & Ha). unfold keep_better in Hc, Ha.
    destruct acc as [a|].
    + destruct (better y a) eqn:E.
      * specialize (Ha y eq_refl). split_and!; [naive_solver|naive_solver|].
        intros a' [= <-]. eapply better_negtrans; [|exact Ha]. by apply better_asym.
      * specialize (Ha a eq_refl). split_and!; [naive_solver| |naive_solver].
        intros x [<-|Hx]; [|auto]. by eapply better_negtrans.
    + specialize (Ha y eq_refl). split_and!; [naive_solver| |done].
      intros x [<-|Hx]; auto.
Qed.

Lemma keep_better_some l acc : l <> [] \/ acc <> None -> fold_left (keep_better better) l acc <> None.
Proof.
  revert acc. induction l as [|y l IH]; intros acc; simpl; [naive_solver|].
  intros _. apply IH. right. unfold keep_better. destruct acc as [a|]; [destruct (better y a)|]; done.
Qed.

(** The choice does not depend on the order when ties are equal elements. *)
Lemma keep_better_perm l1 l2 :
  Permutation l1 l2 ->
  (forall a b, In a l1 -> In b l1 -> better a b = false -> better b a = false -> a = b) ->
  fold_left (keep_better better) l1 None = fold_left (keep_better better) l2 None.
Proof.
  intros Hp Htie.
  destruct (fold_left (keep_better better) l1 None) as [c1|] eqn:E1;
    destruct (fold_left (keep_better better) l2 None) as [c2|] eqn:E2; [|exfalso|exfalso|done].
  - destruct (keep_better_fold _ _ _ E1) as (Hc1 & H1 & _), (keep_better_fold _ _ _ E2) as (Hc2 & H2 & _).
    assert (In c1 l1) by naive_solver.
    assert (In c2 l1) by (apply (Permutation_in _ (Permutation_sym Hp)); naive_solver).
    f_equal. apply Htie; auto. apply H2. by apply (Permutation_in _ Hp).
  - apply (keep_better_some l2 None); [|done]. left. intros ->. apply Permutation_sym in Hp.
    apply Permutation_nil in Hp. subst. done.
  - apply (keep_better_some l1 None); [|done]. left. intros ->.
    apply Permutation_nil in Hp. subst. done.
Qed.

End choosing.

(** ** Booleans and strings *)

Lemma eqb_str_true (a b : string) : String.eqb a b = true <-> a = b.
Proof. apply String.eqb_eq. Qed.

Lemma eqb_str_false (a b : string) : String.eqb a b = false <-> a <> b.
Proof. apply String.eqb_neq. Qed.

(** [slices.Contains] on strings. *)
Definition contains_str (l : list string) (s : string) : bool := existsb (String.eqb s) l.

Lemma contains_str_In l s : contains_str l s = true <-> In s l.
Proof.
  unfold contains_str. rewrite existsb_exists. split.
  - intros (x & Hx & He). apply String.eqb_eq in He. subst. done.
  - intros H. exists s. rewrite String.eqb_refl. done.
Qed.

Lemma contains_str_not_In l s : contains_str l s = false <-> ~ In s l.
Proof. rewrite <- contains_str_In. destruct (contains_str l s); naive_solver. Qed.

#[export] Hint Rewrite eqb_str_true eqb_str_false contains_str_In contains_str_not_In
  negb_true_iff negb_false_iff andb_true_iff andb_false_iff orb_true_iff orb_false_iff
  Z.eqb_eq Z.eqb_neq Z.ltb_lt Z.ltb_ge Z.leb_le Z.leb_gt Nat.eqb_eq Nat.eqb_neq : gobool.

(** ** Tactics *)

(** Turn boolean tests in the goal or a hypothesis into propositions. *)
Ltac bool_simpl := autorewrite with gobool.
Tactic Notation "bool_simpl" "in" "*" := autorewrite with gobool in *.

(** Turn [checks = None] and [computation = Ok _] into their conditions. *)
Ltac err_simpl := autorewrite with goerr gobool.
Tactic Notation "err_simpl" "in" hyp(H) := autorewrite with goerr gobool in H.

(** Split every conjunction and existential of the context. *)
Ltac splits_hyps :=
  repeat match goal with
  | H : _ /\ _ |- _ => destruct H
  | H : exists _, _ |- _ => destruct H
  end.

(** Case on the scrutinee of a match in a hypothesis, dropping impossible cases. *)
Tactic Notation "case_hyp" hyp(H) "as" ident(E) :=
  match type of H with
  | match ?x with _ => _ end = _ => destruct x eqn:E; try discriminate H
  end.
Tactic Notation "case_hyp" hyp(H) := let E := fresh "E" in case_hyp H as E.
