(* ===== verification/GoText.v ===== *)
(** The parts of Go's [unicode/utf8], [unicode], [strings], [strconv],
    [encoding/hex] and [sort] packages the sources use.

    A Go string and a Go byte slice are both a [string], a sequence of 8-bit
    characters; [bytes] gives the byte values. *)

From S2P Require Import Prelude.
From Stdlib Require Import Ascii String.
From stdpp Require Import base list strings.
Local Open Scope Z_scope.

(** ** Bytes *)

Definition byte_of (a : ascii) : Z := Z.of_N (N_of_ascii a).
Definition char_of (z : Z) : ascii := ascii_of_N (Z.to_N z).

Fixpoint bytes (s : string) : list Z :=
  match s with
  | EmptyString => []
  | String a s' => byte_of a :: bytes s'
  end.

Fixpoint of_bytes (l : list Z) : string :=
  match l with
  | [] => EmptyString
  | b :: l' => String (char_of b) (of_bytes l')
  end.

(** [len(s)]. *)
Definition len (s : string) : Z := Z.of_nat (String.length s).

Definition is_byte (b : Z) : Prop := 0 <= b < 256.

(** [s[:n]] for [n <= len(s)]. *)
Definition str_take (n : nat) (s : string) : string := of_bytes (take n (bytes s)).
Definition str_drop (n : nat) (s : string) : string := of_bytes (drop n (bytes s)).

(** ** [unicode/utf8] *)

Definition RuneError : Z := 65533. (* U+FFFD *)

Definition in_range (lo hi b : Z) : bool := (lo <=? b) && (b <=? hi).

(** Well-formed encodings of two, three and four bytes and their runes. *)
Definition enc2 (b0 b1 : Z) : bool := in_range 194 223 b0 && in_range 128 191 b1.
Definition enc3 (b0 b1 b2 : Z) : bool :=
  (((b0 =? 224) && in_range 160 191 b1) || ((b0 =? 237) && in_range 128 159 b1)
   || ((in_range 225 236 b0 || in_range 238 239 b0) && in_range 128 191 b1))
  && in_range 128 191 b2.
Definition enc4 (b0 b1 b2 b3 : Z) : bool :=
  (((b0 =? 240) && in_range 144 191 b1) || ((b0 =? 244) && in_range 128 143 b1)
   || (in_range 241 243 b0 && in_range 128 191 b1))
  && in_range 128 191 b2 && in_range 128 191 b3.
Definition rune2 (b0 b1 : Z) : Z := Z.lor (Z.shiftl (Z.land b0 31) 6) (Z.land b1 63).
Definition rune3 (b0 b1 b2 : Z) : Z :=
  Z.lor (Z.shiftl (Z.land b0 15) 12) (Z.lor (Z.shiftl (Z.land b1 63) 6) (Z.land b2 63)).
Definition rune4 (b0 b1 b2 b3 : Z) : Z :=
  Z.lor (Z.shiftl (Z.land b0 7) 18)
    (Z.lor (Z.shiftl (Z.land b1 63) 12) (Z.lor (Z.shiftl (Z.land b2 63) 6) (Z.land b3 63))).

(** The decoded rune and its width, [None] where the encoding is invalid. *)
Definition decode (l : list Z) : option (Z * nat) :=
  match l with
  | [] => None
  | b0 :: l1 =>
      if b0 <? 128 then Some (b0, 1%nat)
      else match l1 with
           | [] => None
           | b1 :: l2 =>
               if enc2 b0 b1 then Some (rune2 b0 b1, 2%nat)
               else match l2 with
                    | [] => None
                    | b2 :: l3 =>
                        if enc3 b0 b1 b2 then Some (rune3 b0 b1 b2, 3%nat)
                        else match l3 with
                             | [] => None
                             | b3 :: _ =>
                                 if enc4 b0 b1 b2 b3 then Some (rune4 b0 b1 b2 b3, 4%nat)
                                 else None
                             end
                    end
           end
  end.

(** [utf8.DecodeRune]. *)
Definition DecodeRune (l : list Z) : Z * nat :=
  match l with
  | [] => (RuneError, 0%nat)
  | _ => default (RuneError, 1%nat) (decode l)
  end.

(** [utf8.RuneStart]. *)
Definition RuneStart (b : Z) : bool := negb (Z.land b 192 =? 128).

(** The distance from the end of the first rune start in a window read backwards. *)
Fixpoint start_back (window : list Z) (k : nat) : option nat :=
  match window with
  | [] => None
  | b :: window' => if RuneStart b then Some k else start_back window' (S k)
  end.

(** [utf8.DecodeLastRune]: a rune start among the three bytes before the last
    one must open an encoding that ends with the slice. *)
Definition DecodeLastRune (l : list Z) : Z * nat :=
  match rev l with
  | [] => (RuneError, 0%nat)
  | b :: before =>
      if b <? 128 then (b, 1%nat)
      else match start_back (take 3 before) 2 with
           | None => (RuneError, 1%nat)
           | Some k =>
               let '(r, size) := DecodeRune (drop (length l - k) l) in
               if (size =? k)%nat then (r, size) else (RuneError, 1%nat)
           end
  end.

(** [for _, r := range s]: the runes of a string, [RuneError] for each byte of
    an invalid encoding.  The fuel is the length: every step consumes a byte. *)
Fixpoint runes_fuel (fuel : nat) (l : list Z) : list Z :=
  match fuel, l with
  | S fuel', _ :: _ => let '(r, size) := DecodeRune l in r :: runes_fuel fuel' (drop size l)
  | _, _ => []
  end.
Definition runes (s : string) : list Z := runes_fuel (String.length s) (bytes s).

(** [utf8.ValidString]. *)
Fixpoint valid_fuel (fuel : nat) (l : list Z) : bool :=
  match fuel, l with
  | S fuel', _ :: _ =>
      match decode l with Some (_, size) => valid_fuel fuel' (drop size l) | None => false end
  | _, _ => true
  end.
Definition ValidString (s : string) : bool := valid_fuel (String.length s) (bytes s).

(** ** [unicode] *)

(** [unicode.IsSpace]. *)
Definition IsSpace (r : Z) : bool :=
  in_range 9 13 r || (r =? 32) || (r =? 133) || (r =? 160) || (r =? 5760)
  || in_range 8192 8202 r || (r =? 8232) || (r =? 8233) || (r =? 8239)
  || (r =? 8287) || (r =? 12288).

(** [unicode.IsControl]: category Cc. *)
Definition IsControl (r : Z) : bool := in_range 0 31 r || in_range 127 159 r.

(** ** [strings] *)

Fixpoint trim_left (fuel : nat) (l : list Z) : list Z :=
  match fuel, l with
  | S fuel', _ :: _ =>
      let '(r, size) := DecodeRune l in
      if IsSpace r then trim_left fuel' (drop size l) else l
  | _, _ => l
  end.

Fixpoint trim_right (fuel : nat) (l : list Z) : list Z :=
  match fuel, l with
  | S fuel', _ :: _ =>
      let '(r, size) := DecodeLastRune l in
      if IsSpace r then trim_right fuel' (take (length l - size) l) else l
  | _, _ => l
  end.

Definition trim_bytes (l : list Z) : list Z :=
  let l := trim_left (length l) l in trim_right (length l) l.

(** [strings.TrimSpace]. *)
Definition TrimSpace (s : string) : string := of_bytes (trim_bytes (bytes s)).

(** [strings.Join]. *)
Definition Join (elems : list string) (sep : string) : string := String.concat sep elems.

(** [strings.ToLower] and [strings.ToUpper] on ASCII letters; the sources apply
    them to hexadecimal UUIDs and algorithm names. *)
Definition lower_byte (b : Z) : Z := if in_range 65 90 b then b + 32 else b.

(** ** [strconv] *)

Definition digit_char (d : Z) : ascii := char_of (48 + d).

(** The decimal digits of [0 <= z], least significant first, at most [fuel]. *)
Fixpoint digits_rev (fuel : nat) (z : Z) : list Z :=
  match fuel with
  | O => []
  | S fuel' => if z <? 10 then [z] else (z mod 10) :: digits_rev fuel' (z / 10)
  end.

(** Enough digits for every [z]: a number has at most [log2 z + 1] digits. *)
Definition digits (z : Z) : list Z := rev (digits_rev (S (Z.to_nat (Z.log2 z))) z).

Definition string_of_digits (ds : list Z) : string := of_bytes (map (fun d => 48 + d) ds).

(** [strconv.Itoa], [strconv.FormatInt(_, 10)] and [strconv.FormatUint(_, 10)]. *)
Definition FormatInt (z : Z) : string :=
  if z <? 0 then ("-" ++ string_of_digits (digits (- z)))%string
  else string_of_digits (digits z).

(** [strconv.FormatBool]. *)
Definition FormatBool (b : bool) : string := if b then "true" else "false".

(** The value of a digit string read left to right. *)
Definition value_of_digits (ds : list Z) : Z := fold_left (fun acc d => acc * 10 + d) ds 0.

(** ** [encoding/hex] *)

Definition hex_char (n : Z) : Z := if n <? 10 then 48 + n else 87 + n.
Definition hex_bytes (l : list Z) : list Z :=
  flat_map (fun b => [hex_char (b / 16); hex_char (b mod 16)]) l.

(** [hex.EncodeToString]. *)
Definition EncodeToString (s : string) : string := of_bytes (hex_bytes (bytes s)).

Definition is_hex (b : Z) : bool := in_range 48 57 b || in_range 65 70 b || in_range 97 102 b.

(** [hex.DecodeString] succeeds. *)
Definition hex_ok (l : list Z) : bool := Nat.even (length l) && forallb is_hex l.

(** ** Lemmas *)

Section bytes_lemmas.

Lemma byte_of_bound a : is_byte (byte_of a).
Proof. unfold is_byte, byte_of. pose proof (N_ascii_bounded a). lia. Qed.

Lemma char_of_byte a : char_of (byte_of a) = a.
Proof. unfold char_of, byte_of. rewrite N2Z.id. apply ascii_N_embedding. Qed.

Lemma byte_of_char b : is_byte b -> byte_of (char_of b) = b.
Proof.
  unfold is_byte, char_of, byte_of. intros H.
  rewrite N_ascii_embedding by lia. lia.
Qed.

Lemma of_bytes_bytes s : of_bytes (bytes s) = s.
Proof. induction s as [|a s IH]; simpl; [done|]. by rewrite char_of_byte, IH. Qed.

Lemma bytes_of_bytes l : Forall is_byte l -> bytes (of_bytes l) = l.
Proof. induction 1 as [|b l Hb Hl IH]; simpl; [done|]. by rewrite byte_of_char, IH. Qed.

Lemma bytes_bounded s : Forall is_byte (bytes s).
Proof. induction s; simpl; constructor; auto using byte_of_bound. Qed.

Lemma bytes_inj s1 s2 : bytes s1 = bytes s2 -> s1 = s2.
Proof. intros H. rewrite <- (of_bytes_bytes s1), <- (of_bytes_bytes s2). congruence. Qed.

Lemma length_bytes s : length (bytes s) = String.length s.
Proof. induction s; simpl; auto. Qed.

Lemma bytes_app s1 s2 : bytes (s1 ++ s2)%string = bytes s1 ++ bytes s2.
Proof.
  induction s1 as [|a s1 IH]; [done|].
  change (byte_of a :: bytes (s1 ++ s2)%string = byte_of a :: (bytes s1 ++ bytes s2)).
  by rewrite IH.
Qed.

Lemma bytes_nil s : bytes s = [] <-> s = EmptyString.
Proof. destruct s; simpl; naive_solver. Qed.

Lemma length_of_bytes l : String.length (of_bytes l) = length l.
Proof. induction l; simpl; auto. Qed.

End bytes_lemmas.

#[export] Hint Resolve byte_of_bound bytes_bounded : core.

Section utf8_lemmas.

(** Every case of the decoder in one place. *)
Lemma decode_ascii b l : 0 <= b < 128 -> decode (b :: l) = Some (b, 1%nat).
Proof.
  intros Hb. assert (Hlt : (b <? 128) = true) by lia.
  simpl. by rewrite Hlt.
Qed.

Lemma decode_size l r n : decode l = Some (r, n) -> (1 <= n <= length l)%nat.
Proof.
  intros H. unfold decode in H. repeat case_match; simplify_eq; simpl; lia.
Qed.

Lemma DecodeRune_size l : l <> [] -> (1 <= (DecodeRune l).2 <= length l)%nat.
Proof.
  intros Hl. unfold DecodeRune. destruct l as [|b l]; [done|].
  destruct (decode (b :: l)) as [[r n]|] eqn:E; simpl.
  - apply decode_size in E. done.
  - lia.
Qed.

Lemma DecodeRune_ascii b l : 0 <= b < 128 -> DecodeRune (b :: l) = (b, 1%nat).
Proof. intros Hb. unfold DecodeRune. by rewrite decode_ascii. Qed.

Lemma DecodeLastRune_ascii l b : b < 128 -> DecodeLastRune (l ++ [b]) = (b, 1%nat).
Proof.
  intros Hb. unfold DecodeLastRune. rewrite rev_app_distr. simpl.
  by assert ((b <? 128) = true) as -> by lia.
Qed.

Lemma start_back_ge w k j : start_back w k = Some j -> (k <= j)%nat.
Proof.
  revert k. induction w as [|b w IH]; intros k; simpl; [done|].
  case_match; intros Hj; simplify_eq; [lia|]. apply IH in Hj. lia.
Qed.

Lemma DecodeLastRune_size l : l <> [] -> (1 <= (DecodeLastRune l).2)%nat.
Proof.
  intros Hl. unfold DecodeLastRune. destruct (rev l) as [|b before] eqn:E.
  - apply (f_equal (@rev Z)) in E. rewrite rev_involutive in E. done.
  - case_match; simpl; [lia|].
    destruct (start_back _ _) as [k|] eqn:Hk; simpl; [|lia].
    apply start_back_ge in Hk. destruct (DecodeRune _) as [r n].
    destruct (Nat.eqb_spec n k) as [->|]; simpl; lia.
Qed.

(** ASCII strings are valid and their runes are their bytes. *)
Lemma valid_fuel_ascii fuel l : Forall (fun b => 0 <= b < 128) l -> valid_fuel fuel l = true.
Proof.
  revert l. induction fuel as [|fuel IH]; intros l Hl; [done|].
  destruct Hl as [|b l Hb Hl]; [done|].
  cbn [valid_fuel]. rewrite decode_ascii by done. simpl. by apply IH.
Qed.

Lemma runes_fuel_ascii l : Forall (fun b => 0 <= b < 128) l -> runes_fuel (length l) l = l.
Proof.
  induction 1 as [|b l Hb Hl IH]; [done|].
  cbn [length runes_fuel]. rewrite DecodeRune_ascii by done. cbn [skipn].
  by rewrite drop_0, IH.
Qed.

End utf8_lemmas.

Section trim_lemmas.

Lemma length_trim_left fuel l : (length (trim_left fuel l) <= length l)%nat.
Proof.
  revert l. induction fuel as [|fuel IH]; intros l; [done|].
  destruct l as [|b l]; [done|]. cbn [trim_left].
  destruct (DecodeRune (b :: l)) as [r n]. case_match; [|done].
  etrans; [apply IH|]. rewrite length_drop. lia.
Qed.

Lemma length_trim_right fuel l : (length (trim_right fuel l) <= length l)%nat.
Proof.
  revert l. induction fuel as [|fuel IH]; intros l; [done|].
  destruct l as [|b l]; [done|]. cbn [trim_right].
  destruct (DecodeLastRune (b :: l)) as [r n]. case_match; [|done].
  etrans; [apply IH|]. rewrite length_take. lia.
Qed.

Lemma trim_left_id b l :
  trim_left (length (b :: l)) (b :: l) = b :: l <-> IsSpace (DecodeRune (b :: l)).1 = false.
Proof.
  pose proof (DecodeRune_size (b :: l) ltac:(done)) as Hs.
  cbn [length trim_left]. destruct (DecodeRune (b :: l)) as [r n]. simpl in Hs |- *.
  destruct (IsSpace r); [|done]. split; [|done]. intros H.
  pose proof (length_trim_left (length l) (drop n (b :: l))) as Hl.
  rewrite H, length_drop in Hl. simpl in Hl. lia.
Qed.

Lemma trim_right_id b l :
  trim_right (length (b :: l)) (b :: l) = b :: l <-> IsSpace (DecodeLastRune (b :: l)).1 = false.
Proof.
  pose proof (DecodeLastRune_size (b :: l) ltac:(done)) as Hs.
  cbn [length trim_right]. destruct (DecodeLastRune (b :: l)) as [r n]. simpl in Hs.
  simpl (fst _). destruct (IsSpace r); [|done]. split; [|done]. intros H.
  pose proof (length_trim_right (length l) (take (length (b :: l) - n) (b :: l))) as Hl.
  cbn [length] in Hl. rewrite H, length_take in Hl. simpl in Hl. lia.
Qed.

(** [strings.TrimSpace(s) == s] for a non-empty [s]: neither end is a space. *)
Lemma TrimSpace_id s :
  s <> EmptyString ->
  TrimSpace s = s <->
  IsSpace (DecodeRune (bytes s)).1 = false /\ IsSpace (DecodeLastRune (bytes s)).1 = false.
Proof.
  intros Hs. destruct (bytes s) as [|b l] eqn:Hb; [by apply bytes_nil in Hb|].
  unfold TrimSpace, trim_bytes. rewrite Hb.
  rewrite <- trim_left_id, <- trim_right_id. split.
  - intros H. apply (f_equal bytes) in H.
    pose proof (length_trim_left (length (b :: l)) (b :: l)) as Hl.
    pose proof (length_trim_right (length (trim_left (length (b :: l)) (b :: l)))
                  (trim_left (length (b :: l)) (b :: l))) as Hr.
    set (t := trim_left (length (b :: l)) (b :: l)) in *.
    assert (Ht : length t = length (b :: l)).
    { apply (f_equal length) in H. rewrite length_bytes, length_of_bytes, Hb in H. lia. }
    assert (Hid : t = b :: l).
    { revert Ht. unfold t. cbn [length trim_left].
      pose proof (DecodeRune_size (b :: l) ltac:(done)) as Hsz.
      destruct (DecodeRune (b :: l)) as [r n]. destruct (IsSpace r); [|done].
      pose proof (length_trim_left (length l) (drop n (b :: l))) as Hl'.
      rewrite length_drop in Hl'. simpl in *. lia. }
    split; [done|]. rewrite Hid in *. rewrite bytes_of_bytes in H; [congruence|].
    clear H. assert (Hall : Forall is_byte (b :: l)) by (rewrite <- Hb; auto).
    generalize (length (b :: l)) as fuel. revert Hall. generalize (b :: l) as w.
    intros w Hw fuel. revert w Hw. induction fuel as [|fuel IH]; intros w Hw; [done|].
    destruct w as [|c w]; [done|]. cbn [trim_right].
    destruct (DecodeLastRune (c :: w)) as [r n]. case_match; [|done].
    apply IH. by apply Forall_take.
  - intros [-> Hr]. rewrite Hr, <- Hb. apply of_bytes_bytes.
Qed.

End trim_lemmas.

Section digits_lemmas.

Definition is_digit (d : Z) : Prop := 0 <= d < 10.

Definition rev_value (ds : list Z) : Z := fold_right (fun d acc => d + 10 * acc) 0 ds.

Lemma value_of_digits_rev ds : value_of_digits (rev ds) = rev_value ds.
Proof.
  unfold value_of_digits, rev_value.
  rewrite <- (rev_involutive ds) at 2. rewrite fold_left_rev_right. simpl.
  generalize (rev ds) at 1 2 as l, 0 as a. intros l.
  induction l as [|d l IH]; intros a; simpl; [done|]. rewrite <- IH. f_equal. lia.
Qed.

Lemma value_of_digits_app l1 l2 :
  value_of_digits (l1 ++ l2)
  = value_of_digits l1 * 10 ^ Z.of_nat (length l2) + value_of_digits l2.
Proof.
  assert (H : forall l a, fold_left (fun acc d => acc * 10 + d) l a
            = a * 10 ^ Z.of_nat (length l) + value_of_digits l).
  { unfold value_of_digits. induction l as [|d l IH]; intros a; cbn [fold_left length]; [simpl; lia|].
    rewrite (IH (a * 10 + d)), (IH (0 * 10 + d)), Nat2Z.inj_succ, Z.pow_succ_r by lia. ring. }
  unfold value_of_digits at 1. rewrite fold_left_app. apply H.
Qed.

Lemma value_of_zeros n : value_of_digits (replicate n 0) = 0.
Proof. unfold value_of_digits. induction n; simpl; auto. Qed.

Lemma value_of_digits_bound ds :
  Forall is_digit ds -> 0 <= value_of_digits ds < 10 ^ Z.of_nat (length ds).
Proof.
  induction ds as [|d ds IH] using rev_ind; intros H; [done|].
  apply Forall_app in H as [Hds Hd]. apply Forall_cons in Hd as [Hd _].
  specialize (IH Hds). rewrite value_of_digits_app, length_app.
  change (value_of_digits [d]) with d. simpl (length [d]). change (Z.of_nat 1) with 1.
  rewrite Nat2Z.inj_add, Z.pow_add_r by lia. unfold is_digit in Hd.
  change (Z.of_nat 1) with 1. lia.
Qed.

Lemma digits_rev_value fuel z :
  0 <= z < 2 ^ Z.of_nat fuel -> rev_value (digits_rev fuel z) = z.
Proof.
  revert z. induction fuel as [|fuel IH]; intros z Hz.
  - simpl in *. lia.
  - cbn [digits_rev]. destruct (Z.ltb_spec z 10); [simpl; lia|].
    cbn [rev_value fold_right]. fold (rev_value (digits_rev fuel (z / 10))).
    rewrite IH; [pose proof (Z.div_mod z 10); lia|].
    rewrite Nat2Z.inj_succ, Z.pow_succ_r in Hz by lia. split; [apply Z.div_pos; lia|].
    apply Z.div_lt_upper_bound; lia.
Qed.

Lemma digits_rev_digit fuel z : 0 <= z -> Forall is_digit (digits_rev fuel z).
Proof.
  revert z. induction fuel as [|fuel IH]; intros z Hz; cbn [digits_rev]; [constructor|].
  destruct (Z.ltb_spec z 10); repeat constructor; try (unfold is_digit; lia).
  - unfold is_digit. pose proof (Z.mod_pos_bound z 10). lia.
  - unfold is_digit. pose proof (Z.mod_pos_bound z 10). lia.
  - apply IH, Z.div_pos; lia.
Qed.

Lemma digits_fuel z : 0 <= z -> z < 2 ^ Z.of_nat (S (Z.to_nat (Z.log2 z))).
Proof.
  intros Hz. rewrite Nat2Z.inj_succ, Z2Nat.id by apply Z.log2_nonneg.
  destruct (Z.eq_dec z 0) as [->|Hne]; [done|]. apply Z.log2_spec. lia.
Qed.

Lemma digits_value z : 0 <= z -> value_of_digits (digits z) = z.
Proof.
  intros Hz. unfold digits. rewrite value_of_digits_rev. apply digits_rev_value.
  split; [done|]. by apply digits_fuel.
Qed.

Lemma digits_digit z : 0 <= z -> Forall is_digit (digits z).
Proof. intros Hz. unfold digits. apply Forall_rev. by apply digits_rev_digit. Qed.

Lemma digits_length z : (1 <= length (digits z))%nat.
Proof. unfold digits. rewrite length_rev. cbn [digits_rev]. case_match; simpl; lia. Qed.

(** More digits never shrink the printed length. *)
Lemma digits_length_bound z n : 0 <= z < 10 ^ Z.of_nat (S n) -> (length (digits z) <= S n)%nat.
Proof.
  unfold digits. rewrite length_rev.
  generalize (S (Z.to_nat (Z.log2 z))) as fuel. intros fuel. revert z n.
  induction fuel as [|fuel IH]; intros z n Hz; cbn [digits_rev]; [simpl; lia|].
  destruct (Z.ltb_spec z 10); simpl; [lia|]. destruct n as [|n].
  - change (10 ^ Z.of_nat 1) with 10 in Hz. lia.
  - apply le_n_S, IH. rewrite Nat2Z.inj_succ, Z.pow_succ_r in Hz by lia.
    split; [apply Z.div_pos; lia|]. apply Z.div_lt_upper_bound; lia.
Qed.

Lemma digit_byte d : is_digit d -> is_byte (48 + d).
Proof. unfold is_digit, is_byte. lia. Qed.

Lemma bytes_string_of_digits ds :
  Forall is_digit ds -> bytes (string_of_digits ds) = map (fun d => 48 + d) ds.
Proof.
  intros H. apply bytes_of_bytes. induction H; simpl; constructor; auto using digit_byte.
Qed.

Lemma string_of_digits_inj ds1 ds2 :
  Forall is_digit ds1 -> Forall is_digit ds2 ->
  string_of_digits ds1 = string_of_digits ds2 -> ds1 = ds2.
Proof.
  intros H1 H2 H. apply (f_equal bytes) in H.
  rewrite !bytes_string_of_digits in H by done.
  revert ds2 H2 H. induction H1 as [|d ds Hd Hds IH]; intros [|d2 ds2] H2 H; simpl in H;
    try discriminate; [done|]. apply Forall_cons in H2 as [_ H2].
  injection H as H' H. f_equal; [lia|auto].
Qed.

Lemma bytes_FormatInt z :
  bytes (FormatInt z) = if z <? 0 then 45 :: map (fun d => 48 + d) (digits (- z))
                        else map (fun d => 48 + d) (digits z).
Proof.
  unfold FormatInt. destruct (Z.ltb_spec z 0); [rewrite bytes_app|];
    rewrite bytes_string_of_digits; auto using digits_digit with lia;
    apply digits_digit; lia.
Qed.

(** The bytes of a printed integer: a sign or digits. *)
Lemma FormatInt_chars z : Forall (fun b => b = 45 \/ 48 <= b <= 57) (bytes (FormatInt z)).
Proof.
  assert (H : forall w, 0 <= w ->
            Forall (fun b => b = 45 \/ 48 <= b <= 57) (map (fun d => 48 + d) (digits w))).
  { intros w Hw. apply Forall_map. eapply Forall_impl; [by apply digits_digit|].
    unfold is_digit. simpl. lia. }
  rewrite bytes_FormatInt. destruct (Z.ltb_spec z 0); [constructor; [by left|]|]; apply H; lia.
Qed.

Lemma FormatInt_inj z1 z2 : FormatInt z1 = FormatInt z2 -> z1 = z2.
Proof.
  intros H. apply (f_equal bytes) in H. rewrite !bytes_FormatInt in H.
  assert (Hinj : forall a b, 0 <= a -> 0 <= b ->
            map (fun d => 48 + d) (digits a) = map (fun d => 48 + d) (digits b) -> a = b).
  { intros a b Ha Hb E. rewrite <- (digits_value a), <- (digits_value b) by done. f_equal.
    apply string_of_digits_inj; [by apply digits_digit..|].
    unfold string_of_digits. by rewrite E. }
  assert (Hneg : forall a l, 0 <= a -> map (fun d => 48 + d) (digits a) <> 45 :: l).
  { intros a l Ha E. pose proof (digits_digit a Ha) as Hd.
    destruct (digits a) as [|d ds]; [done|]. apply Forall_cons in Hd as [Hd _].
    unfold is_digit in Hd. simpl in E. injection E as E _. lia. }
  destruct (Z.ltb_spec z1 0), (Z.ltb_spec z2 0).
  - injection H as H. apply Hinj in H; lia.
  - symmetry in H. by apply Hneg in H; [|lia].
  - by apply Hneg in H; [|lia].
  - apply Hinj in H; lia.
Qed.

End digits_lemmas.

Section ascii_lemmas.

(** A string of printable ASCII bytes other than the space. *)
Definition graphic (b : Z) : bool := in_range 33 126 b.

Lemma graphic_bound b : graphic b = true -> 33 <= b <= 126.
Proof. unfold graphic, in_range. lia. Qed.

Lemma graphic_not_space b : graphic b = true -> IsSpace b = false.
Proof. intros H%graphic_bound. unfold IsSpace, in_range. lia. Qed.

Lemma graphic_not_control b : graphic b = true -> IsControl b = false.
Proof. intros H%graphic_bound. unfold IsControl, in_range. lia. Qed.

Lemma hex_char_graphic n : 0 <= n < 16 -> graphic (hex_char n) = true.
Proof. intros H. unfold graphic, in_range, hex_char. case_match; lia. Qed.

Lemma hex_bytes_graphic l : Forall is_byte l -> Forall (fun b => graphic b = true) (hex_bytes l).
Proof.
  induction 1 as [|b l Hb Hl IH]; simpl; [constructor|]. unfold is_byte in Hb.
  constructor; [|constructor; [|done]]; apply hex_char_graphic.
  - split; [apply Z.div_pos; lia|apply Z.div_lt_upper_bound; lia].
  - pose proof (Z.mod_pos_bound b 16). lia.
Qed.

Lemma graphic_byte b : graphic b = true -> is_byte b.
Proof. intros H%graphic_bound. unfold is_byte. lia. Qed.

Lemma length_hex_bytes l : length (hex_bytes l) = (2 * length l)%nat.
Proof. induction l; simpl; lia. Qed.

Lemma bytes_EncodeToString s : bytes (EncodeToString s) = hex_bytes (bytes s).
Proof.
  apply bytes_of_bytes. eapply Forall_impl; [apply hex_bytes_graphic; auto|].
  apply graphic_byte.
Qed.

Lemma hex_char_inj a b : 0 <= a < 16 -> 0 <= b < 16 -> hex_char a = hex_char b -> a = b.
Proof. unfold hex_char. repeat case_match; lia. Qed.

Lemma hex_bytes_inj l1 l2 :
  Forall is_byte l1 -> Forall is_byte l2 -> hex_bytes l1 = hex_bytes l2 -> l1 = l2.
Proof.
  intros H1. revert l2. induction H1 as [|b l Hb Hl IH]; intros [|b2 l2] H2 H; try done.
  apply Forall_cons in H2 as [Hb2 H2]. simpl in H. injection H as Hd Hm H.
  unfold is_byte in *. f_equal; [|auto].
  apply hex_char_inj in Hd; [|split; [apply Z.div_pos; lia|apply Z.div_lt_upper_bound; lia]..].
  apply hex_char_inj in Hm; [|apply Z.mod_pos_bound; lia..].
  rewrite (Z.div_mod b 16), (Z.div_mod b2 16) by lia. congruence.
Qed.

Lemma EncodeToString_inj s1 s2 : EncodeToString s1 = EncodeToString s2 -> s1 = s2.
Proof.
  intros H. apply bytes_inj, hex_bytes_inj; auto.
  rewrite <- !bytes_EncodeToString. congruence.
Qed.

End ascii_lemmas.

Section ascii_runes.

Lemma lor_ge_l a b : 0 <= a -> 0 <= b -> a <= Z.lor a b.
Proof.
  intros Ha Hb. apply Z.ldiff_le; [by apply Z.lor_nonneg|].
  apply Z.bits_inj'. intros n Hn.
  rewrite Z.ldiff_spec, Z.lor_spec, Z.bits_0. by destruct (Z.testbit a n), (Z.testbit b n).
Qed.

Lemma lor_ge_r a b : 0 <= a -> 0 <= b -> b <= Z.lor a b.
Proof. intros. rewrite Z.lor_comm. by apply lor_ge_l. Qed.

Lemma land_mod k x : 0 <= k -> Z.land x (Z.ones k) = x mod 2 ^ k.
Proof. apply Z.land_ones. Qed.

Lemma land_shift_bound x y k a :
  0 <= x -> 0 <= y -> 0 <= k -> a <= Z.land x y -> a * 2 ^ k <= Z.shiftl (Z.land x y) k.
Proof.
  intros Hx Hy Hk Ha. rewrite Z.shiftl_mul_pow2 by done.
  apply Z.mul_le_mono_nonneg_r; [apply Z.pow_nonneg; lia|done].
Qed.

Lemma shiftl_land_nonneg x y k : 0 <= x -> 0 <= Z.shiftl (Z.land x y) k.
Proof. intros. apply Z.shiftl_nonneg, Z.land_nonneg. by left. Qed.

Lemma land_nonneg_l x y : 0 <= x -> 0 <= Z.land x y.
Proof. intros. apply Z.land_nonneg. by left. Qed.

Lemma two_byte_ge b0 b1 :
  enc2 b0 b1 = true -> 128 <= rune2 b0 b1.
Proof.
  unfold enc2, in_range, rune2. intros H. assert (194 <= b0 <= 223 /\ 0 <= b1) as [H0 H1] by lia. etrans; [|apply lor_ge_l; [apply shiftl_land_nonneg; lia|by apply land_nonneg_l]].
  apply (land_shift_bound b0 31 6 2); [lia..|].
  change 31 with (Z.ones 5). rewrite land_mod by lia.
    change (2 ^ 5) with 32. Z.to_euclidean_division_equations; lia.
Qed.

Lemma three_byte_ge b0 b1 b2 :
  enc3 b0 b1 b2 = true -> 128 <= rune3 b0 b1 b2.
Proof.
  unfold enc3, in_range, rune3. intros H.
  assert (((b0 = 224 /\ 160 <= b1 <= 191) \/ 225 <= b0 <= 239) /\ 0 <= b1 /\ 0 <= b2)
    as (H0 & H1 & H2) by lia.
  assert (Hlow : 0 <= Z.lor (Z.shiftl (Z.land b1 63) 6) (Z.land b2 63)).
  { apply Z.lor_nonneg. auto using shiftl_land_nonneg, land_nonneg_l. }
  destruct H0 as [[-> Hb1]|Hb0].
  - etrans; [|apply lor_ge_r; [by apply shiftl_land_nonneg|done]].
    etrans; [|apply lor_ge_l; auto using shiftl_land_nonneg, land_nonneg_l].
    etrans; [|apply (land_shift_bound b1 63 6 32); [lia..|]]; [lia|].
    change 63 with (Z.ones 6). rewrite land_mod by lia.
    change (2 ^ 6) with 64. Z.to_euclidean_division_equations; lia.
  - etrans; [|apply lor_ge_l; [apply shiftl_land_nonneg; lia|done]].
    etrans; [|apply (land_shift_bound b0 15 12 1); [lia..|]]; [lia|].
    change 15 with (Z.ones 4). rewrite land_mod by lia.
    change (2 ^ 4) with 16. Z.to_euclidean_division_equations; lia.
Qed.

Lemma four_byte_ge b0 b1 b2 b3 :
  enc4 b0 b1 b2 b3 = true -> 128 <= rune4 b0 b1 b2 b3.
Proof.
  unfold enc4, in_range, rune4. intros H.
  assert (((b0 = 240 /\ 144 <= b1 <= 191) \/ 241 <= b0 <= 244) /\ 0 <= b1 /\ 0 <= b2 /\ 0 <= b3)
    as (H0 & H1 & H2 & H3) by lia.
  assert (Hlow : 0 <= Z.lor (Z.shiftl (Z.land b2 63) 6) (Z.land b3 63)).
  { apply Z.lor_nonneg. auto using shiftl_land_nonneg, land_nonneg_l. }
  assert (Hmid : 0 <= Z.lor (Z.shiftl (Z.land b1 63) 12)
                   (Z.lor (Z.shiftl (Z.land b2 63) 6) (Z.land b3 63))).
  { apply Z.lor_nonneg. auto using shiftl_land_nonneg. }
  destruct H0 as [[-> Hb1]|Hb0].
  - etrans; [|apply lor_ge_r; [by apply shiftl_land_nonneg|done]].
    etrans; [|apply lor_ge_l; auto using shiftl_land_nonneg].
    etrans; [|apply (land_shift_bound b1 63 12 16); [lia..|]]; [lia|].
    change 63 with (Z.ones 6). rewrite land_mod by lia.
    change (2 ^ 6) with 64. Z.to_euclidean_division_equations; lia.
  - etrans; [|apply lor_ge_l; [apply shiftl_land_nonneg; lia|done]].
    etrans; [|apply (land_shift_bound b0 7 18 1); [lia..|]]; [lia|].
    change 7 with (Z.ones 3). rewrite land_mod by lia.
    change (2 ^ 3) with 8. Z.to_euclidean_division_equations; lia.
Qed.

(** A multi-byte encoding never decodes to an ASCII rune. *)
Lemma decode_not_ascii b l r n : 128 <= b -> decode (b :: l) = Some (r, n) -> 128 <= r.
Proof.
  intros Hb H. unfold decode in H. assert ((b <? 128) = false) as E by lia. rewrite E in H.
  repeat case_match; simplify_eq; eauto using two_byte_ge, three_byte_ge, four_byte_ge.
Qed.

Lemma runes_fuel_only_ascii l :
  Forall is_byte l -> Forall (fun r => r < 128) (runes_fuel (length l) l) ->
  runes_fuel (length l) l = l.
Proof.
  induction 1 as [|b l Hb Hl IH]; [done|]. cbn [length runes_fuel].
  destruct (Z_lt_le_dec b 128) as [Hlt|Hge].
  - unfold is_byte in Hb. rewrite DecodeRune_ascii by lia. cbn [skipn]. rewrite drop_0.
    intros [_ H]%Forall_cons. by rewrite IH.
  - destruct (DecodeRune (b :: l)) as [r n] eqn:E. intros [Hr _]%Forall_cons. exfalso.
    unfold DecodeRune in E. destruct (decode (b :: l)) as [[r' n']|] eqn:D; simpl in E.
    + simplify_eq. apply decode_not_ascii in D; [lia|done].
    + simplify_eq. unfold RuneError in Hr. lia.
Qed.

(** A string whose runes are all ASCII is its bytes. *)
Lemma runes_only_ascii s : Forall (fun r => r < 128) (runes s) -> runes s = bytes s.
Proof.
  unfold runes. rewrite <- length_bytes. apply runes_fuel_only_ascii. auto.
Qed.

End ascii_runes.
