(* ===== verification/GoTime.v ===== *)
(** Go's [time.Time] and [time.Duration] as the sources use them.

    A time is its instant in nanoseconds since January 1 of year 1, UTC, the
    zero value of [time.Time]; a duration is a number of nanoseconds.  The
    location of a [time.Time] is not modelled: the sources compare instants
    ([Equal], [Before], [After]) and convert with [UTC] before they print. *)

From S2P Require Import Prelude GoText.
From stdpp Require Import base list strings.
Local Open Scope Z_scope.

Abbreviation time := Z.
Abbreviation duration := Z.

Definition Nanosecond : duration := 1.
Definition Microsecond : duration := 1000.
Definition Millisecond : duration := 1000000.
Definition Second : duration := 1000000000.
Definition Minute : duration := 60 * Second.
Definition Hour : duration := 60 * Minute.

Definition zeroTime : time := 0.
Definition IsZero (t : time) : bool := t =? 0.
Definition After (t u : time) : bool := u <? t.
Definition Before (t u : time) : bool := t <? u.
Definition Equal (t u : time) : bool := t =? u.

(** Seconds from year 1 to the Unix epoch. *)
Definition unixToInternal : Z := 62135596800.
Definition unixEpoch : time := unixToInternal * Second.

(** [time.UnixMilli(v)] and [t.UnixMilli()], [t.Unix()]. *)
Definition UnixMilli (v : Z) : time := unixEpoch + v * Millisecond.
Definition toUnixMilli (t : time) : Z := (t - unixEpoch) / Millisecond.
Definition toUnix (t : time) : Z := (t - unixEpoch) / Second.

(** [t.Truncate(d)] for [d > 0]: round down to a multiple since the zero time. *)
Definition Truncate (t : time) (d : duration) : time := t - t mod d.

(** ** Calendar of [t.Format(time.RFC3339Nano)] *)

Definition nanosPerDay : Z := 24 * Hour.

Definition is_leap (y : Z) : bool :=
  (y mod 4 =? 0) && (negb (y mod 100 =? 0) || (y mod 400 =? 0)).

(** The year of a day number (day 0 is January 1 of year 1) and the day in it. *)
Definition year_of_days (d : Z) : Z * Z :=
  let n400 := d / 146097 in
  let r400 := d mod 146097 in
  let n100 := Z.min (r400 / 36524) 3 in
  let r100 := r400 - n100 * 36524 in
  let n4 := r100 / 1461 in
  let r4 := r100 mod 1461 in
  let n1 := Z.min (r4 / 365) 3 in
  (400 * n400 + 100 * n100 + 4 * n4 + n1 + 1, r4 - n1 * 365).

Definition month_lengths (leap : bool) : list Z :=
  [31; if leap then 29 else 28; 31; 30; 31; 30; 31; 31; 30; 31; 30; 31].

(** The month (from 1) and day (from 1) of a day in the year. *)
Fixpoint month_of_day (lengths : list Z) (month yday : Z) : Z * Z :=
  match lengths with
  | [] => (month, yday + 1)
  | n :: rest => if yday <? n then (month, yday + 1) else month_of_day rest (month + 1) (yday - n)
  end.

(** A number printed with at least [width] digits. *)
Definition pad (width : nat) (z : Z) : string :=
  let ds := digits z in
  string_of_digits (replicate (width - length ds) 0 ++ ds).

(** The fraction of a second without its trailing zeros; empty when zero. *)
Fixpoint drop_zeros (l : list Z) : list Z :=
  match l with
  | 0 :: l' => drop_zeros l'
  | _ => l
  end.
Definition fraction (nanos : Z) : string :=
  if nanos =? 0 then EmptyString
  else let ds := digits nanos in
       ("." ++ string_of_digits (rev (drop_zeros (rev (replicate (9 - length ds) 0 ++ ds)))))%string.

Definition date_of (t : time) : Z * Z * Z :=
  let '(year, yday) := year_of_days (t / nanosPerDay) in
  let '(month, day) := month_of_day (month_lengths (is_leap year)) 1 yday in
  (year, month, day).

(** [t.UTC().Format(time.RFC3339Nano)] for a year of at most four digits. *)
Definition FormatRFC3339Nano (t : time) : string :=
  let '(year, month, day) := date_of t in
  let tod := t mod nanosPerDay in
  (pad 4 year ++ "-" ++ pad 2 month ++ "-" ++ pad 2 day ++ "T"
   ++ pad 2 (tod / Hour) ++ ":" ++ pad 2 (tod / Minute mod 60) ++ ":"
   ++ pad 2 (tod / Second mod 60) ++ fraction (tod mod Second) ++ "Z")%string.

(** [t.MarshalJSON()] without its quotes, for a time in a location whose offset
    from UTC at each instant is [zone] seconds: the year has four digits and the
    hours of the offset are below 24. *)
Definition zone_suffix (offset : Z) : string :=
  if offset =? 0 then "Z"
  else let minutes := Z.abs (Z.quot offset 60) in
       ((if (Z.quot offset 60 <? 0)%Z then "-" else "+") ++ pad 2 (minutes / 60)%Z ++ ":" ++ pad 2 (minutes mod 60)%Z)%string.

Definition MarshalTime (zone : time -> Z) (t : time) : result string :=
  let offset := zone t in
  let local := t + offset * Second in
  let '(year, month, day) := date_of local in
  let tod := local mod nanosPerDay in
  if (year <? 0) || (9999 <? year) then
    Err (New "Time.MarshalJSON: year outside of range [0,9999]")
  else if 24 <=? Z.abs (Z.quot offset 60) / 60 then
    Err (New "Time.MarshalJSON: timezone hour outside of range [0,23]")
  else Ok (pad 4 year ++ "-" ++ pad 2 month ++ "-" ++ pad 2 day ++ "T"
           ++ pad 2 (tod / Hour) ++ ":" ++ pad 2 (tod / Minute mod 60) ++ ":"
           ++ pad 2 (tod / Second mod 60) ++ fraction (tod mod Second) ++ zone_suffix offset)%string.

(** ** Lemmas *)

Lemma UnixMilli_roundtrip v : toUnixMilli (UnixMilli v) = v.
Proof.
  unfold toUnixMilli, UnixMilli, Millisecond.
  replace (unixEpoch + v * 1000000 - unixEpoch) with (v * 1000000) by lia.
  apply Z.div_mul. lia.
Qed.

Lemma UnixMilli_inj v w : UnixMilli v = UnixMilli w -> v = w.
Proof. unfold UnixMilli, Millisecond. lia. Qed.

(** A millisecond timestamp past the current millisecond is past the instant. *)
Lemma toUnixMilli_lt t v : toUnixMilli t < v -> t < UnixMilli v.
Proof.
  unfold toUnixMilli, UnixMilli, Millisecond. intros H.
  pose proof (Z.div_mod (t - unixEpoch) 1000000).
  pose proof (Z.mod_pos_bound (t - unixEpoch) 1000000). lia.
Qed.

Lemma UnixMilli_pos v : 0 < v -> 0 < UnixMilli v.
Proof. unfold UnixMilli, unixEpoch, unixToInternal, Second, Millisecond. lia. Qed.

Lemma Truncate_bounds t d : 0 < d -> Truncate t d <= t < Truncate t d + d.
Proof. intros Hd. unfold Truncate. pose proof (Z.mod_pos_bound t d Hd). lia. Qed.

Example format_epoch : FormatRFC3339Nano unixEpoch = "1970-01-01T00:00:00Z".
Proof. vm_compute. reflexivity. Qed.

Example format_leap_day :
  FormatRFC3339Nano (UnixMilli 1709251199120) = "2024-02-29T23:59:59.12Z".
Proof. vm_compute. reflexivity. Qed.

Example format_zero : FormatRFC3339Nano zeroTime = "0001-01-01T00:00:00Z".
Proof. vm_compute. reflexivity. Qed.

Example marshal_time_offset :
  MarshalTime (fun _ => -12600) (UnixMilli 1709251199120) = Ok "2024-02-29T20:29:59.12-03:30"%string.
Proof. vm_compute. reflexivity. Qed.

(** In UTC the marshalled text is the formatted one. *)
Lemma MarshalTime_utc t :
  0 <= (date_of t).1.1 <= 9999 -> MarshalTime (fun _ => 0) t = Ok (FormatRFC3339Nano t).
Proof.
  intros Hy. unfold MarshalTime, FormatRFC3339Nano. replace (t + 0 * Second) with t by (unfold Second; lia).
  destruct (date_of t) as [[y m] d]. simpl in Hy.
  destruct (Z.ltb_spec y 0); [lia|]. destruct (Z.ltb_spec 9999 y); [lia|]. reflexivity.
Qed.
