(* ===== verification/Sha256.v ===== *)
(** SHA-256 and HMAC-SHA-256 (Go's [crypto/sha256] and [crypto/hmac]), executable
    on byte strings.  The identities the sources derive are computed with these
    definitions; no property rests on an assumption about the hash unless its
    statement names one. *)

From S2P Require Import Prelude GoText.
From stdpp Require Import base list strings.
Local Open Scope Z_scope.

Definition w32 (x : Z) : Z := Z.land x 4294967295.
Definition add32 (x y : Z) : Z := w32 (x + y).
Definition rotr (n x : Z) : Z :=
  Z.lor (Z.shiftr x n) (w32 (Z.shiftl x (32 - n))).
Definition not32 (x : Z) : Z := Z.lxor x 4294967295.

Definition sha_k : list Z :=
  [1116352408; 1899447441; 3049323471; 3921009573; 961987163; 1508970993; 2453635748; 2870763221;
   3624381080; 310598401; 607225278; 1426881987; 1925078388; 2162078206; 2614888103; 3248222580;
   3835390401; 4022224774; 264347078; 604807628; 770255983; 1249150122; 1555081692; 1996064986;
   2554220882; 2821834349; 2952996808; 3210313671; 3336571891; 3584528711; 113926993; 338241895;
   666307205; 773529912; 1294757372; 1396182291; 1695183700; 1986661051; 2177026350; 2456956037;
   2730485921; 2820302411; 3259730800; 3345764771; 3516065817; 3600352804; 4094571909; 275423344;
   430227734; 506948616; 659060556; 883997877; 958139571; 1322822218; 1537002063; 1747873779;
   1955562222; 2024104815; 2227730452; 2361852424; 2428436474; 2756734187; 3204031479; 3329325298].

Record sha_state : Type := mk_sha {
  sha_a : Z; sha_b : Z; sha_c : Z; sha_d : Z; sha_e : Z; sha_f : Z; sha_g : Z; sha_h : Z }.

Definition sha_init : sha_state :=
  mk_sha 1779033703 3144134277 1013904242 2773480762 1359893119 2600822924 528734635 1541459225.

(** The big-endian words of a block. *)
Fixpoint be_words (l : list Z) : list Z :=
  match l with
  | a :: b :: c :: d :: l' =>
      Z.shiftl a 24 + Z.shiftl b 16 + Z.shiftl c 8 + d :: be_words l'
  | _ => []
  end.

Definition be_bytes (n : nat) (x : Z) : list Z :=
  rev (map (fun i => Z.land (Z.shiftr x (8 * Z.of_nat i)) 255) (seq 0 n)).

(** Message schedule: the words so far, latest first. *)
Fixpoint extend (n : nat) (ws : list Z) : list Z :=
  match n with
  | O => ws
  | S n' =>
      let w i := nth i ws 0 in
      let s0 := Z.lxor (Z.lxor (rotr 7 (w 14%nat)) (rotr 18 (w 14%nat))) (Z.shiftr (w 14%nat) 3) in
      let s1 := Z.lxor (Z.lxor (rotr 17 (w 1%nat)) (rotr 19 (w 1%nat))) (Z.shiftr (w 1%nat) 10) in
      extend n' (w32 (w 15%nat + s0 + w 6%nat + s1) :: ws)
  end.

Definition sha_round (s : sha_state) (kw : Z * Z) : sha_state :=
  let '(k, w) := kw in
  let e := sha_e s in
  let a := sha_a s in
  let s1 := Z.lxor (Z.lxor (rotr 6 e) (rotr 11 e)) (rotr 25 e) in
  let ch := Z.lxor (Z.land e (sha_f s)) (Z.land (not32 e) (sha_g s)) in
  let t1 := w32 (sha_h s + s1 + ch + k + w) in
  let s0 := Z.lxor (Z.lxor (rotr 2 a) (rotr 13 a)) (rotr 22 a) in
  let maj := Z.lxor (Z.lxor (Z.land a (sha_b s)) (Z.land a (sha_c s))) (Z.land (sha_b s) (sha_c s)) in
  let t2 := w32 (s0 + maj) in
  mk_sha (add32 t1 t2) a (sha_b s) (sha_c s) (add32 (sha_d s) t1) e (sha_f s) (sha_g s).

Definition sha_block (s : sha_state) (block : list Z) : sha_state :=
  let ws := rev (extend 48 (rev (be_words block))) in
  let r := fold_left sha_round (combine sha_k ws) s in
  mk_sha (add32 (sha_a s) (sha_a r)) (add32 (sha_b s) (sha_b r)) (add32 (sha_c s) (sha_c r))
    (add32 (sha_d s) (sha_d r)) (add32 (sha_e s) (sha_e r)) (add32 (sha_f s) (sha_f r))
    (add32 (sha_g s) (sha_g r)) (add32 (sha_h s) (sha_h r)).

(** The message with its padding: a one bit, zeros and the bit length. *)
Definition sha_pad (l : list Z) : list Z :=
  let n := length l in
  let zeros := ((119 - n mod 64) mod 64)%nat in
  l ++ [128] ++ replicate zeros 0 ++ be_bytes 8 (8 * Z.of_nat n).

Fixpoint sha_blocks (n : nat) (s : sha_state) (l : list Z) : sha_state :=
  match n with
  | O => s
  | S n' => sha_blocks n' (sha_block s (take 64 l)) (drop 64 l)
  end.

Definition sha_bytes (l : list Z) : list Z :=
  let p := sha_pad l in
  let s := sha_blocks (length p / 64) sha_init p in
  flat_map (be_bytes 4)
    [sha_a s; sha_b s; sha_c s; sha_d s; sha_e s; sha_f s; sha_g s; sha_h s].

(** [sha256.Sum256]. *)
Definition Sum256 (s : string) : string := of_bytes (sha_bytes (bytes s)).

(** [hmac.New(sha256.New, key)], [Write(message)], [Sum(nil)]. *)
Definition hmac_key (key : list Z) : list Z :=
  let k := if (64 <? length key)%nat then sha_bytes key else key in
  k ++ replicate (64 - length k) 0.
Definition HmacSha256 (key message : string) : string :=
  let k := hmac_key (bytes key) in
  let inner := sha_bytes (map (Z.lxor 54) k ++ bytes message) in
  of_bytes (sha_bytes (map (Z.lxor 92) k ++ inner)).

Lemma length_be_bytes n x : length (be_bytes n x) = n.
Proof. unfold be_bytes. by rewrite length_rev, length_map, length_seq. Qed.

Lemma be_bytes_bounded n x : Forall is_byte (be_bytes n x).
Proof.
  unfold be_bytes. apply Forall_rev, Forall_map, Forall_true. intros i. simpl. unfold is_byte.
  change 255 with (Z.ones 8). rewrite Z.land_ones by lia. apply Z.mod_pos_bound. lia.
Qed.

Lemma flat_be_bytes_bounded n l : Forall is_byte (flat_map (be_bytes n) l).
Proof.
  induction l as [|x l IH]; cbn [flat_map]; [constructor|].
  apply Forall_app. auto using be_bytes_bounded.
Qed.

Lemma sha_bytes_bounded l : Forall is_byte (sha_bytes l).
Proof. apply flat_be_bytes_bounded. Qed.

Lemma length_sha_bytes l : length (sha_bytes l) = 32%nat.
Proof. reflexivity. Qed.

Lemma bytes_Sum256 s : bytes (Sum256 s) = sha_bytes (bytes s).
Proof. apply bytes_of_bytes, sha_bytes_bounded. Qed.

Lemma length_Sum256 s : String.length (Sum256 s) = 32%nat.
Proof. by rewrite <- length_bytes, bytes_Sum256. Qed.

(** FIPS 180-4 and RFC 4231 test vectors. *)
Example sha_abc :
  EncodeToString (Sum256 "abc")
  = "ba7816bf8f01cfea414140de5dae2223b00361a396177a9cb410ff61f20015ad".
Proof. vm_compute. reflexivity. Qed.

Example sha_empty :
  EncodeToString (Sum256 EmptyString)
  = "e3b0c44298fc1c149afbf4c8996fb92427ae41e4649b934ca495991b7852b855".
Proof. vm_compute. reflexivity. Qed.

Example sha_two_blocks :
  EncodeToString (Sum256 "abcdbcdecdefdefgefghfghighijhijkijkljklmklmnlmnomnopnopq")
  = "248d6a61d20638b8e5c026930c3e6039a33ce45964ff2167f6ecedd419db06c1".
Proof. vm_compute. reflexivity. Qed.

Example hmac_jefe :
  EncodeToString (HmacSha256 "Jefe" "what do ya want for nothing?")
  = "5bdcc146bf60754e6a042426089575c75a003f089d2739839dec58b964ec3843".
Proof. vm_compute. reflexivity. Qed.
