(* ===== verification/GoMime.v ===== *)
(** [mime.ParseMediaType]: whether a content type is accepted.  The sources use
    only the error of the call, so the parsed values are not kept. *)

From S2P Require Import Prelude GoText.
From stdpp Require Import base list strings.
Local Open Scope Z_scope.

(** [isTSpecial] and [isTokenChar] of the package. *)
Definition isTSpecial (c : Z) : bool :=
  existsb (Z.eqb c) [40; 41; 60; 62; 64; 44; 59; 58; 92; 34; 47; 91; 93; 63; 61].
Definition isTokenChar (c : Z) : bool := in_range 33 126 c && negb (isTSpecial c).

Fixpoint consumeToken (l : list Z) : list Z * list Z :=
  match l with
  | [] => ([], [])
  | c :: l' => if isTokenChar c then let '(t, rest) := consumeToken l' in (c :: t, rest)
               else ([], l)
  end.

(** The rest of a quoted string after the opening quote; [None] when it is not closed. *)
Fixpoint consumeQuoted (l : list Z) (value : list Z) : option (list Z * list Z) :=
  match l with
  | [] => None
  | 34 :: rest => Some (value, rest)
  | 92 :: ((c :: rest) as l') =>
      if isTSpecial c then consumeQuoted rest (value ++ [c]) else consumeQuoted l' (value ++ [92])
  | c :: rest =>
      if (c =? 13) || (c =? 10) then None else consumeQuoted rest (value ++ [c])
  end.

(** [consumeValue]; [None] is the failure the caller detects by an unmoved rest. *)
Definition consumeValue (l : list Z) : option (list Z * list Z) :=
  match l with
  | [] => None
  | 34 :: rest => consumeQuoted rest []
  | _ => match consumeToken l with ([], _) => None | p => Some p end
  end.

Definition TrimLeftSpace (l : list Z) : list Z := trim_left (length l) l.

(** [consumeMediaParam]. *)
Definition consumeMediaParam (v : list Z) : option (list Z * list Z * list Z) :=
  match TrimLeftSpace v with
  | 59 :: rest =>
      match consumeToken (TrimLeftSpace rest) with
      | ([], _) => None
      | (param, rest) =>
          match TrimLeftSpace rest with
          | 61 :: rest =>
              '(value, rest) ← consumeValue (TrimLeftSpace rest);
              Some (map lower_byte param, value, rest)
          | _ => None
          end
      end
  | _ => None
  end.

(** The parameter loop; a repeated parameter must have the same value.  Every
    round consumes a byte, so the length of the text is enough fuel. *)
Fixpoint media_params (fuel : nat) (v : list Z) (seen : list (list Z * list Z)) : bool :=
  let v := TrimLeftSpace v in
  match fuel, v with
  | _, [] => true
  | O, _ => false
  | S fuel', _ =>
      match consumeMediaParam v with
      | None => bool_decide (trim_bytes v = [59])
      | Some (key, value, rest) =>
          if existsb (fun p => bool_decide (p.1 = key) && negb (bool_decide (p.2 = value))) seen
          then false
          else media_params fuel' rest (seen ++ [(key, value)])
      end
  end.

(** [checkMediaTypeDisposition]. *)
Definition checkMediaType (s : list Z) : bool :=
  match consumeToken s with
  | ([], _) => false
  | (_, []) => true
  | (_, 47 :: rest) =>
      match consumeToken rest with ([], _) => false | (_, []) => true | _ => false end
  | _ => false
  end.

(** [strings.ToLower] as far as it decides validity: two letters outside ASCII
    have ASCII lower cases, every other rune outside ASCII stays outside. *)
Definition lower_rune (r : Z) : Z :=
  if r =? 304 then 105 else if r =? 8490 then 107 else lower_byte r.

Fixpoint until_semicolon (l : list Z) : list Z * list Z :=
  match l with
  | [] => ([], [])
  | 59 :: _ => ([], l)
  | c :: l' => let '(base, rest) := until_semicolon l' in (c :: base, rest)
  end.

Fixpoint skip_spaces (l : list Z) : list Z :=
  match l with
  | r :: l' => if IsSpace r then skip_spaces l' else l
  | [] => []
  end.

(** [strings.TrimSpace(strings.ToLower(base))], as runes. *)
Definition lowered_base (base : list Z) : list Z :=
  rev (skip_spaces (rev (skip_spaces (map lower_rune (runes (of_bytes base)))))).

(** [_, _, err := mime.ParseMediaType(v); err == nil]. *)
Definition ParseMediaType_ok (v : string) : bool :=
  let '(base, rest) := until_semicolon (bytes v) in
  let mediatype := lowered_base base in
  forallb (fun r => r <? 128) mediatype && checkMediaType mediatype
  && media_params (String.length v) rest [].

Example media_type_plain : ParseMediaType_ok "application/json" = true.
Proof. vm_compute. reflexivity. Qed.

Example media_type_parameter : ParseMediaType_ok "Text/Plain; charset=utf-8;" = true.
Proof. vm_compute. reflexivity. Qed.

Example media_type_broken :
  map ParseMediaType_ok ["application/"; "a b/c"; "text/plain; charset"; "a/b; c=d; c=e"]%string
  = [false; false; false; false].
Proof. vm_compute. reflexivity. Qed.
