(* ===== verification/GoJson.v ===== *)
(** [encoding/json]: the scanner that decides whether a text is valid JSON, and
    the encoder of the objects the sources marshal. *)

From S2P Require Import Prelude GoText GoTime.
From stdpp Require Import base list strings.
Local Open Scope Z_scope.

(** ** The scanner

    One state per step function of the package's scanner.  [Literal] holds the
    bytes of [true], [false] or [null] still to come. *)
Inductive jstate : Type :=
| BeginValue | BeginValueOrEmpty | BeginString | BeginStringOrEmpty
| EndValue | EndTop
| InString | InStringEsc | InStringHex (remaining : nat)
| NumNeg | NumZero | NumInt | NumDot | NumFraction | NumE | NumESign | NumExponent
| Literal (rest : list Z).

(** The enclosing containers, innermost first. *)
Inductive jparse : Type := ParseObjectKey | ParseObjectValue | ParseArrayValue.

Definition is_space (c : Z) : bool := existsb (Z.eqb c) [32; 9; 13; 10].
Definition is_decimal (c : Z) : bool := in_range 48 57 c.
Definition maxNestingDepth : nat := 10000.

Definition push (p : jparse) (st : jstate) (stack : list jparse) : option (jstate * list jparse) :=
  if (maxNestingDepth <? S (length stack))%nat then None else Some (st, p :: stack).
Definition pop (stack : list jparse) : option (jstate * list jparse) :=
  match stack with
  | [] => None
  | [_] => Some (EndTop, [])
  | _ :: stack' => Some (EndValue, stack')
  end.

Definition stateBeginValue (c : Z) (stack : list jparse) : option (jstate * list jparse) :=
  if is_space c then Some (BeginValue, stack)
  else if c =? 123 then push ParseObjectKey BeginStringOrEmpty stack
  else if c =? 91 then push ParseArrayValue BeginValueOrEmpty stack
  else if c =? 34 then Some (InString, stack)
  else if c =? 45 then Some (NumNeg, stack)
  else if c =? 48 then Some (NumZero, stack)
  else if c =? 116 then Some (Literal [114; 117; 101], stack)
  else if c =? 102 then Some (Literal [97; 108; 115; 101], stack)
  else if c =? 110 then Some (Literal [117; 108; 108], stack)
  else if in_range 49 57 c then Some (NumInt, stack)
  else None.

Definition stateEndValue (c : Z) (stack : list jparse) : option (jstate * list jparse) :=
  match stack with
  | [] => if is_space c then Some (EndTop, []) else None
  | top :: rest =>
      if is_space c then Some (EndValue, stack)
      else match top with
           | ParseObjectKey => if c =? 58 then Some (BeginValue, ParseObjectValue :: rest) else None
           | ParseObjectValue =>
               if c =? 44 then Some (BeginString, ParseObjectKey :: rest)
               else if c =? 125 then pop stack else None
           | ParseArrayValue =>
               if c =? 44 then Some (BeginValue, stack)
               else if c =? 93 then pop stack else None
           end
  end.

(** The number states end a value at the first byte that cannot continue them. *)
Definition stateNumber (st : jstate) (c : Z) (stack : list jparse) : option (jstate * list jparse) :=
  match st with
  | NumNeg => if c =? 48 then Some (NumZero, stack)
              else if in_range 49 57 c then Some (NumInt, stack) else None
  | NumInt => if is_decimal c then Some (NumInt, stack)
              else if c =? 46 then Some (NumDot, stack)
              else if (c =? 101) || (c =? 69) then Some (NumE, stack)
              else stateEndValue c stack
  | NumZero => if c =? 46 then Some (NumDot, stack)
               else if (c =? 101) || (c =? 69) then Some (NumE, stack)
               else stateEndValue c stack
  | NumDot => if is_decimal c then Some (NumFraction, stack) else None
  | NumFraction => if is_decimal c then Some (NumFraction, stack)
                   else if (c =? 101) || (c =? 69) then Some (NumE, stack)
                   else stateEndValue c stack
  | NumE => if (c =? 43) || (c =? 45) then Some (NumESign, stack)
            else if is_decimal c then Some (NumExponent, stack) else None
  | NumESign => if is_decimal c then Some (NumExponent, stack) else None
  | NumExponent => if is_decimal c then Some (NumExponent, stack) else stateEndValue c stack
  | _ => None
  end.

Definition step (st : jstate) (stack : list jparse) (c : Z) : option (jstate * list jparse) :=
  match st with
  | BeginValue => stateBeginValue c stack
  | BeginValueOrEmpty =>
      if is_space c then Some (BeginValueOrEmpty, stack)
      else if c =? 93 then stateEndValue c stack else stateBeginValue c stack
  | BeginString =>
      if is_space c then Some (BeginString, stack)
      else if c =? 34 then Some (InString, stack) else None
  | BeginStringOrEmpty =>
      if is_space c then Some (BeginStringOrEmpty, stack)
      else if c =? 125 then stateEndValue c (ParseObjectValue :: drop 1 stack)
      else if c =? 34 then Some (InString, stack) else None
  | EndValue => stateEndValue c stack
  | EndTop => if is_space c then Some (EndTop, stack) else None
  | InString => if c =? 34 then Some (EndValue, stack)
                else if c =? 92 then Some (InStringEsc, stack)
                else if c <? 32 then None else Some (InString, stack)
  | InStringEsc => if existsb (Z.eqb c) [98; 102; 110; 114; 116; 92; 47; 34]
                   then Some (InString, stack)
                   else if c =? 117 then Some (InStringHex 3, stack) else None
  | InStringHex n => if is_hex c
                     then Some (match n with O => InString | S n' => InStringHex n' end, stack)
                     else None
  | Literal [] => None
  | Literal (b :: rest) =>
      if c =? b then Some (match rest with [] => EndValue | _ => Literal rest end, stack) else None
  | _ => stateNumber st c stack
  end.

Fixpoint scan (st : jstate) (stack : list jparse) (l : list Z) : option (jstate * list jparse) :=
  match l with
  | [] => Some (st, stack)
  | c :: l' => '(st', stack') ← step st stack c; scan st' stack' l'
  end.

(** [eof]: a space must end the top-level value. *)
Definition eof (st : jstate) (stack : list jparse) : bool :=
  match st with
  | EndTop => true
  | _ => match step st stack 32 with Some (EndTop, _) => true | _ => false end
  end.

(** [json.Valid]. *)
Definition json_valid (s : string) : bool :=
  match scan BeginValue [] (bytes s) with Some (st, stack) => eof st stack | None => false end.

(** The first byte of a value tells its kind. *)
Fixpoint first_byte (l : list Z) : option Z :=
  match l with
  | [] => None
  | c :: l' => if is_space c then first_byte l' else Some c
  end.

(** [json.Unmarshal] into a map of raw messages succeeds with a non-nil map.
    [null] is accepted by the decoder and leaves the map nil. *)
Definition json_object (s : string) : bool :=
  json_valid s && bool_decide (first_byte (bytes s) = Some 123).
Definition json_null (s : string) : bool :=
  json_valid s && bool_decide (first_byte (bytes s) = Some 110).

(** Only white space is left: a decoder that decodes again answers [io.EOF]. *)
Definition json_blank (s : string) : bool := forallb is_space (bytes s).

(** ** The encoder *)

(** The bytes [htmlSafeSet] leaves alone. *)
Definition htmlSafe (b : Z) : bool :=
  in_range 32 127 b && negb (existsb (Z.eqb b) [34; 92; 60; 62; 38]).

Definition escape_ascii (b : Z) : list Z :=
  if htmlSafe b then [b]
  else if (b =? 92) || (b =? 34) then [92; b]
  else if b =? 8 then [92; 98]
  else if b =? 12 then [92; 102]
  else if b =? 10 then [92; 110]
  else if b =? 13 then [92; 114]
  else if b =? 9 then [92; 116]
  else [92; 117; 48; 48; hex_char (b / 16); hex_char (b mod 16)].

(** [appendString] with HTML escaping: invalid UTF-8 becomes the replacement
    character and the two JavaScript line separators are escaped. *)
Fixpoint escape_fuel (fuel : nat) (l : list Z) : list Z :=
  match fuel, l with
  | S fuel', b :: l' =>
      if b <? 128 then escape_ascii b ++ escape_fuel fuel' l'
      else match decode l with
           | None => [92; 117; 102; 102; 102; 100] ++ escape_fuel fuel' l'
           | Some (r, size) =>
               (if (r =? 8232) || (r =? 8233)
                then [92; 117; 50; 48; 50; hex_char (Z.land r 15)] else take size l)
               ++ escape_fuel fuel' (drop size l)
           end
  | _, _ => []
  end.

Definition json_string (s : string) : list Z :=
  [34] ++ escape_fuel (String.length s) (bytes s) ++ [34].

(** A struct field: its name, and how its value is encoded. *)
Inductive jvalue : Type :=
| JStr (s : string)
| JInt (z : Z)
| JBool (b : bool)
| JNull.

Definition json_value (v : jvalue) : list Z :=
  match v with
  | JStr s => json_string s
  | JInt z => bytes (FormatInt z)
  | JBool b => if b then [116; 114; 117; 101] else [102; 97; 108; 115; 101]
  | JNull => [110; 117; 108; 108]
  end.

(** A byte slice: base64 text, or null when it is nil. *)
Definition json_bytes (encode : string -> string) (s : string) : jvalue :=
  match s with EmptyString => JNull | _ => JStr (encode s) end.

Fixpoint json_fields (fields : list (string * jvalue)) : list Z :=
  match fields with
  | [] => []
  | [(name, v)] => json_string name ++ [58] ++ json_value v
  | (name, v) :: fields' => json_string name ++ [58] ++ json_value v ++ [44] ++ json_fields fields'
  end.

(** [json.Marshal] of a struct of strings, integers, booleans, byte slices and times. *)
Definition json_marshal (fields : list (string * jvalue)) : string :=
  of_bytes ([123] ++ json_fields fields ++ [125]).

Example json_valid_samples :
  map json_valid ["{}"; "null"; "[1, -2.5e3]"; "[01]"; "nul"; "{} x"]%string
  = [true; true; true; false; false; false].
Proof. vm_compute. reflexivity. Qed.

(** ** Marshalled objects are valid JSON objects *)

Lemma scan_app st stack l1 l2 :
  scan st stack (l1 ++ l2) = '(st', stack') ← scan st stack l1; scan st' stack' l2.
Proof.
  revert st stack. induction l1 as [|c l1 IH]; intros st stack; simpl; [done|].
  destruct (step st stack c) as [[st' stack']|]; simpl; [apply IH|done].
Qed.

Lemma step_raw stack c : 32 <= c -> c <> 34 -> c <> 92 -> step InString stack c = Some (InString, stack).
Proof.
  intros H1 H2 H3. simpl. rewrite (proj2 (Z.eqb_neq c 34) H2), (proj2 (Z.eqb_neq c 92) H3).
  by rewrite (proj2 (Z.ltb_ge c 32) H1).
Qed.

Lemma scan_raw stack l :
  Forall (fun c => 32 <= c /\ c <> 34 /\ c <> 92) l -> scan InString stack l = Some (InString, stack).
Proof.
  induction 1 as [|c l (H1 & H2 & H3) _ IH]; [done|].
  cbn [scan]. rewrite step_raw by done. exact IH.
Qed.

Lemma hex_char_is_hex n : 0 <= n < 16 -> is_hex (hex_char n) = true.
Proof. intros H. unfold is_hex, in_range, hex_char. case_match; lia. Qed.

Lemma scan_unicode stack a b c d :
  is_hex a = true -> is_hex b = true -> is_hex c = true -> is_hex d = true ->
  scan InString stack [92; 117; a; b; c; d] = Some (InString, stack).
Proof. intros Ha Hb Hc Hd. simpl. rewrite Ha. simpl. rewrite Hb. simpl. rewrite Hc. simpl. by rewrite Hd. Qed.

Lemma scan_escape_ascii stack b :
  0 <= b < 128 -> scan InString stack (escape_ascii b) = Some (InString, stack).
Proof.
  intros Hb. unfold escape_ascii.
  destruct (htmlSafe b) eqn:Hsafe.
  { apply scan_raw. constructor; [|done]. unfold htmlSafe, in_range in Hsafe. simpl in Hsafe. lia. }
  destruct ((b =? 92) || (b =? 34)) eqn:E1; [assert (b = 92 \/ b = 34) as [-> | ->] by lia; done|].
  repeat (case_match; [done|]).
  apply scan_unicode; try reflexivity; apply hex_char_is_hex; [|apply Z.mod_pos_bound; lia].
  split; [apply Z.div_pos; lia|apply Z.div_lt_upper_bound; lia].
Qed.

(** The bytes of a decoded rune outside ASCII are all outside ASCII. *)
Lemma decode_bytes b l r n :
  128 <= b -> decode (b :: l) = Some (r, n) ->
  Forall (fun c => 32 <= c /\ c <> 34 /\ c <> 92) (take n (b :: l)).
Proof.
  intros Hb H. unfold decode in H. assert ((b <? 128) = false) as E by lia. rewrite E in H.
  unfold enc2, enc3, enc4, in_range in H.
  repeat case_match; simplify_eq; simpl; repeat constructor; lia.
Qed.

Lemma land15 r : 0 <= Z.land r 15 < 16.
Proof. change 15 with (Z.ones 4). rewrite Z.land_ones by lia. apply Z.mod_pos_bound. lia. Qed.

Lemma scan_escape stack fuel l :
  Forall is_byte l -> scan InString stack (escape_fuel fuel l) = Some (InString, stack).
Proof.
  revert l. induction fuel as [|fuel IH]; intros [|b l] Hl; try done.
  cbn [escape_fuel]. apply Forall_cons in Hl as Hbl. destruct Hbl as [Hb Hl']. unfold is_byte in Hb.
  destruct (Z.ltb_spec b 128).
  { rewrite scan_app, scan_escape_ascii by lia. simpl. auto. }
  destruct (decode (b :: l)) as [[r n]|] eqn:Hd.
  2: { rewrite scan_app, scan_unicode by reflexivity. simpl. auto. }
  rewrite scan_app. destruct ((r =? 8232) || (r =? 8233)).
  - rewrite scan_unicode by (try reflexivity; apply hex_char_is_hex, land15). simpl.
    apply IH. by apply Forall_drop.
  - rewrite scan_raw by (eapply decode_bytes; [|exact Hd]; lia). simpl.
    apply IH. by apply Forall_drop.
Qed.

Lemma scan_string st stack s :
  In st [BeginValue; BeginString; BeginStringOrEmpty] ->
  scan st stack (json_string s) = Some (EndValue, stack).
Proof.
  intros Hst. unfold json_string. rewrite scan_app.
  assert (scan st stack [34] = Some (InString, stack)) as -> by
    (simpl in Hst; decompose [or] Hst; subst; done).
  simpl. rewrite scan_app, scan_escape by apply bytes_bounded. done.
Qed.

(** ** Numbers and objects *)

Lemma digits_rev_last fuel z :
  0 < z < 2 ^ Z.of_nat fuel -> exists d, last (digits_rev fuel z) = Some d /\ 1 <= d < 10.
Proof.
  revert z. induction fuel as [|fuel IH]; intros z Hz; [simpl in Hz; lia|].
  cbn [digits_rev]. destruct (Z.ltb_spec z 10); [exists z; split; [done|lia]|].
  destruct (IH (z / 10)) as (d & Hd & Hr).
  - rewrite Nat2Z.inj_succ, Z.pow_succ_r in Hz by lia. Z.to_euclidean_division_equations; lia.
  - exists d. split; [|done]. rewrite last_cons, Hd. done.
Qed.

Lemma digits_head z : 0 < z -> exists d ds, digits z = d :: ds /\ 1 <= d < 10.
Proof.
  intros Hz. pose proof (digits_fuel z ltac:(lia)) as Hf.
  destruct (digits_rev_last _ z ltac:(split; [exact Hz|exact Hf])) as (d & Hd & Hr).
  apply last_Some in Hd as [l Hl]. unfold digits. rewrite Hl, rev_app_distr. simpl. eauto.
Qed.

Definition number_end (st : jstate) : Prop := st = NumZero \/ st = NumInt.

Lemma scan_digits stack ds :
  Forall is_digit ds -> scan NumInt stack (map (fun d => 48 + d) ds) = Some (NumInt, stack).
Proof.
  induction 1 as [|d ds Hd _ IH]; [done|]. cbn [map scan]. unfold is_digit in Hd.
  assert (step NumInt stack (48 + d) = Some (NumInt, stack)) as ->; [|exact IH].
  simpl. assert (is_decimal (48 + d) = true) as -> by (unfold is_decimal, in_range; lia). done.
Qed.

Lemma scan_natural st stack z :
  0 <= z -> In st [BeginValue; NumNeg] ->
  exists st', number_end st' /\ scan st stack (map (fun d => 48 + d) (digits z)) = Some (st', stack).
Proof.
  intros Hz Hst. destruct (Z.eq_dec z 0) as [->|Hne].
  { exists NumZero. split; [by left|]. simpl in Hst. decompose [or] Hst; subst; done. }
  destruct (digits_head z ltac:(lia)) as (d & ds & E & Hd).
  pose proof (digits_digit z Hz) as Hall. rewrite E in Hall. apply Forall_cons in Hall as [_ Hds].
  exists NumInt. split; [by right|]. rewrite E. cbn [map scan].
  assert (step st stack (48 + d) = Some (NumInt, stack)) as ->; [|by apply scan_digits].
  assert (In d [1; 2; 3; 4; 5; 6; 7; 8; 9]) as Hin by (simpl; lia).
  simpl in Hst, Hin. decompose [or] Hst; subst; try done; decompose [or] Hin; subst; done.
Qed.

Lemma scan_integer stack z :
  exists st', number_end st' /\ scan BeginValue stack (bytes (FormatInt z)) = Some (st', stack).
Proof.
  rewrite bytes_FormatInt. destruct (Z.ltb_spec z 0).
  - apply (scan_natural NumNeg stack (- z)); [lia|simpl; auto].
  - apply scan_natural; [lia|simpl; auto].
Qed.

(** After a value the scanner treats the next delimiter as [stateEndValue]. *)
Lemma scan_value stack v :
  exists st', scan BeginValue stack (json_value v) = Some (st', stack) /\
    forall c, In c [44; 125] -> step st' stack c = stateEndValue c stack.
Proof.
  destruct v as [s|z|[]|]; cbn [json_value]; try by exists EndValue.
  - exists EndValue. split; [apply scan_string; simpl; auto|done].
  - destruct (scan_integer stack z) as (st' & Hend & Hs). exists st'. split; [exact Hs|].
    intros c Hc. simpl in Hc. destruct Hend as [-> | ->]; decompose [or] Hc; subst; done.
Qed.

Lemma scan_field st name v :
  In st [BeginString; BeginStringOrEmpty] ->
  exists st', scan st [ParseObjectKey] (json_string name ++ [58] ++ json_value v)
              = Some (st', [ParseObjectValue]) /\
    forall c, In c [44; 125] -> step st' [ParseObjectValue] c = stateEndValue c [ParseObjectValue].
Proof.
  intros Hst. destruct (scan_value [ParseObjectValue] v) as (st' & Hs & Hc).
  exists st'. split; [|exact Hc].
  rewrite scan_app, scan_string by (simpl in *; tauto). simpl. exact Hs.
Qed.

Lemma scan_fields st fields :
  In st [BeginString; BeginStringOrEmpty] -> fields <> [] ->
  exists st', scan st [ParseObjectKey] (json_fields fields) = Some (st', [ParseObjectValue]) /\
    step st' [ParseObjectValue] 125 = Some (EndTop, []).
Proof.
  revert st. induction fields as [|[name v] fields IH]; intros st Hst Hne; [done|].
  destruct (scan_field st name v Hst) as (st1 & Hs & Hc).
  destruct fields as [|f fields].
  - exists st1. split; [exact Hs|]. rewrite Hc by (simpl; auto). done.
  - destruct (IH BeginString) as (st2 & Hs2 & Hc2); [simpl; auto|done|].
    exists st2. split; [|exact Hc2].
    change (json_fields ((name, v) :: f :: fields)) with
      (json_string name ++ [58] ++ json_value v ++ [44] ++ json_fields (f :: fields)).
    assert (json_string name ++ [58] ++ json_value v ++ [44] ++ json_fields (f :: fields) =
            (json_string name ++ [58] ++ json_value v) ++ [44] ++ json_fields (f :: fields)) as ->
      by (by rewrite <- !app_assoc).
    rewrite scan_app, Hs. cbn [mbind option_bind]. rewrite scan_app.
    cbn [scan]. rewrite Hc by (simpl; auto). exact Hs2.
Qed.

Lemma json_marshal_scan fields :
  fields <> [] -> scan BeginValue [] ([123] ++ json_fields fields ++ [125]) = Some (EndTop, []).
Proof.
  intros Hne. destruct (scan_fields BeginStringOrEmpty fields) as (st & Hs & Hc); [simpl; auto|done|].
  rewrite scan_app. change (scan BeginValue [] [123]) with (Some (BeginStringOrEmpty, [ParseObjectKey])).
  cbn [mbind option_bind]. rewrite scan_app, Hs. cbn [mbind option_bind scan]. by rewrite Hc.
Qed.

Ltac byte_list := rewrite ?Forall_cons, ?Forall_nil; unfold is_byte in *; repeat split; lia.

Lemma hex_char_byte n : 0 <= n < 16 -> 0 <= hex_char n < 256.
Proof. intros H. unfold hex_char. case_match; lia. Qed.

Lemma escape_ascii_bytes b : 0 <= b < 128 -> Forall is_byte (escape_ascii b).
Proof.
  intros Hb.
  pose proof (hex_char_byte (b / 16) ltac:(Z.to_euclidean_division_equations; lia)).
  pose proof (hex_char_byte (b mod 16) ltac:(Z.to_euclidean_division_equations; lia)).
  unfold escape_ascii. repeat case_match; byte_list.
Qed.

Lemma escape_fuel_bytes fuel l : Forall is_byte l -> Forall is_byte (escape_fuel fuel l).
Proof.
  revert l. induction fuel as [|fuel IH]; intros [|b l] Hl; try apply Forall_nil_2; auto.
  cbn [escape_fuel]. apply Forall_cons in Hl as Hbl. destruct Hbl as [Hb Hl'].
  destruct (Z.ltb_spec b 128).
  { apply Forall_app. split; [apply escape_ascii_bytes; unfold is_byte in Hb; lia|auto]. }
  destruct (decode (b :: l)) as [[r n]|]; apply Forall_app; split;
    try (apply IH; by apply Forall_drop); auto.
  - destruct (_ || _); [|by apply Forall_take].
    pose proof (hex_char_byte _ (land15 r)). byte_list.
  - byte_list.
Qed.

Lemma json_string_bytes s : Forall is_byte (json_string s).
Proof.
  unfold json_string. rewrite !Forall_app. split; [byte_list|].
  split; [apply escape_fuel_bytes, bytes_bounded|byte_list].
Qed.

Lemma json_fields_bytes fields : Forall is_byte (json_fields fields).
Proof.
  assert (Hv : forall v, Forall is_byte (json_value v)).
  { intros [s|z|[]|]; [apply json_string_bytes|apply bytes_bounded|cbn [json_value]; byte_list..]. }
  induction fields as [|[name v] [|f fields] IH]; [apply Forall_nil_2| |].
  - cbn [json_fields]. rewrite !Forall_app. split; [apply json_string_bytes|].
    split; [byte_list|apply Hv].
  - change (json_fields ((name, v) :: f :: fields)) with
      (json_string name ++ [58] ++ json_value v ++ [44] ++ json_fields (f :: fields)).
    rewrite !Forall_app. split; [apply json_string_bytes|]. split; [byte_list|].
    split; [apply Hv|]. split; [byte_list|done].
Qed.

Lemma bytes_json_marshal fields :
  bytes (json_marshal fields) = [123] ++ json_fields fields ++ [125].
Proof.
  apply bytes_of_bytes. rewrite !Forall_app. split; [byte_list|].
  split; [apply json_fields_bytes|byte_list].
Qed.

(** A marshalled struct is a JSON object. *)
Lemma json_marshal_object fields : fields <> [] -> json_object (json_marshal fields) = true.
Proof.
  intros Hne. unfold json_object, json_valid. rewrite bytes_json_marshal, json_marshal_scan by done.
  reflexivity.
Qed.
