(* ===== verification/Core.v ===== *)
(** The store-neutral domain model ([internal/core]): identifiers, references,
    catalog records, purchase observations and their validation, and the access
    decision shared by readers and webhooks. *)

From S2P Require Import Prelude GoText GoTime.
From stdpp Require Import base list strings.
Local Open Scope Z_scope.

(** ** Identifiers ([identifiers.go]) *)

Abbreviation ProjectID := string.
Abbreviation ApplicationID := string.
Abbreviation CustomerID := string.
Abbreviation ProductID := string.
Abbreviation EntitlementID := string.
Abbreviation ObservationID := string.
Abbreviation ProviderApplicationID := string.
Abbreviation ProviderProductID := string.

(* internal/core/identifiers.go: validateIdentifier *)
Definition validateIdentifier (name value : string) : error :=
  refuse_if (String.eqb value EmptyString) (Errorf "%s is required" [AStr name]) ;;?
  refuse_if (negb (ValidString value)) (Errorf "%s must be valid UTF-8" [AStr name]) ;;?
  refuse_if (negb (String.eqb (TrimSpace value) value))
    (Errorf "%s must not have leading or trailing whitespace" [AStr name]) ;;?
  refuse_if (existsb IsControl (runes value))
    (Errorf "%s must not contain control characters" [AStr name]).

(* internal/core/identifiers.go: ValidateExternalCustomerID *)
Definition ValidateExternalCustomerID (value : string) : error :=
  validateIdentifier "external customer ID" value.

(* internal/core/identifiers.go: ValidateOpaqueIdentifier *)
Definition ValidateOpaqueIdentifier (name value : string) : error :=
  validateIdentifier name value.

(* internal/core/identifiers.go: ProjectID.Validate *)
Definition ProjectID_Validate (id : ProjectID) : error := validateIdentifier "project ID" id.

(* internal/core/identifiers.go: ApplicationID.Validate *)
Definition ApplicationID_Validate (id : ApplicationID) : error :=
  validateIdentifier "application ID" id.

(* internal/core/identifiers.go: CustomerID.Validate *)
Definition CustomerID_Validate (id : CustomerID) : error := validateIdentifier "customer ID" id.

(* internal/core/identifiers.go: ProductID.Validate *)
Definition ProductID_Validate (id : ProductID) : error := validateIdentifier "product ID" id.

(* internal/core/identifiers.go: EntitlementID.Validate *)
Definition EntitlementID_Validate (id : EntitlementID) : error :=
  validateIdentifier "entitlement ID" id.

(* internal/core/identifiers.go: ObservationID.Validate *)
Definition ObservationID_Validate (id : ObservationID) : error :=
  validateIdentifier "observation ID" id.

(* internal/core/identifiers.go: ProviderApplicationID.Validate *)
Definition ProviderApplicationID_Validate (id : ProviderApplicationID) : error :=
  validateIdentifier "provider application ID" id.

(* internal/core/identifiers.go: ProviderProductID.Validate *)
Definition ProviderProductID_Validate (id : ProviderProductID) : error :=
  validateIdentifier "provider product ID" id.

(** ** References ([reference.go]) *)

Abbreviation ReferenceRole := string.

(* internal/core/reference.go: constants *)
Definition ReferenceTransaction : ReferenceRole := "transaction".
Definition ReferenceLineage : ReferenceRole := "lineage".
Definition ReferenceLinkedLineage : ReferenceRole := "linked_lineage".
Definition ReferenceQuery : ReferenceRole := "query".
Definition ReferenceCustomerBinding : ReferenceRole := "customer_binding".

(* internal/core/reference.go: StoreReference *)
Record StoreReference : Type := mkStoreReference {
  ref_Role : ReferenceRole;
  ref_Kind : string;
  ref_value : string
}.

#[export] Instance StoreReference_eq_dec : EqDecision StoreReference.
Proof. solve_decision. Defined.

(* internal/core/reference.go: StoreReference.Validate *)
Definition StoreReference_Validate (reference : StoreReference) : error :=
  validateIdentifier "store reference role" (ref_Role reference) ;;?
  validateIdentifier "store reference kind" (ref_Kind reference) ;;?
  validateIdentifier "store reference value" (ref_value reference).

(* internal/core/reference.go: NewStoreReference *)
Definition NewStoreReference (role : ReferenceRole) (kind value : string) : result StoreReference :=
  let reference := mkStoreReference role kind value in
  try* StoreReference_Validate reference in Ok reference.

(* internal/core/reference.go: StoreReference.Value *)
Definition StoreReference_Value (reference : StoreReference) : string := ref_value reference.

(* internal/core/reference.go: StoreReference.IsZero *)
Definition StoreReference_IsZero (reference : StoreReference) : bool :=
  String.eqb (ref_Role reference) EmptyString && String.eqb (ref_Kind reference) EmptyString
  && String.eqb (ref_value reference) EmptyString.

(** [subtle.ConstantTimeCompare(x, y) == 1]: equal length and equal bytes. *)
Definition ConstantTimeCompare (x y : string) : bool :=
  Nat.eqb (String.length x) (String.length y)
  && (fold_left Z.lor (zip_with Z.lxor (bytes x) (bytes y)) 0 =? 0).

(* internal/core/reference.go: StoreReference.Equal *)
Definition StoreReference_Equal (reference other : StoreReference) : bool :=
  String.eqb (ref_Role reference) (ref_Role other)
  && String.eqb (ref_Kind reference) (ref_Kind other)
  && ConstantTimeCompare (ref_value reference) (ref_value other).

(* internal/core/reference.go: StoreReference.String *)
Definition StoreReference_String (reference : StoreReference) : string :=
  if StoreReference_IsZero reference then EmptyString
  else (ref_Role reference ++ "/" ++ ref_Kind reference ++ ":[REDACTED]")%string.

(** A structured log value: a string or a group of attributes. *)
Inductive slog_value : Type :=
| StringValue (s : string)
| GroupValue (attrs : list (string * string)).

(* internal/core/reference.go: StoreReference.LogValue *)
Definition StoreReference_LogValue (reference : StoreReference) : slog_value :=
  if StoreReference_IsZero reference then StringValue EmptyString
  else GroupValue [("role", ref_Role reference); ("kind", ref_Kind reference);
                   ("value", "[REDACTED]")]%string.

(* internal/core/reference.go: FirstReferenceValue *)
Fixpoint FirstReferenceValue (references : list StoreReference) (kind : string) : string :=
  match references with
  | [] => EmptyString
  | reference :: rest =>
      if String.eqb (ref_Kind reference) kind then ref_value reference
      else FirstReferenceValue rest kind
  end.

(** ** Catalog ([catalog.go]) *)

Abbreviation Provider := string.
Abbreviation Environment := string.
Abbreviation ProductKind := string.

(* internal/core/catalog.go: constants *)
Definition ProviderAppleAppStore : Provider := "apple_app_store".
Definition ProviderGooglePlay : Provider := "google_play".
Definition ProviderHuaweiAppGallery : Provider := "huawei_appgallery".
Definition ProviderAmazonAppstore : Provider := "amazon_appstore".
Definition ProviderSamsungGalaxyStore : Provider := "samsung_galaxy_store".
Definition EnvironmentProduction : Environment := "production".
Definition EnvironmentSandbox : Environment := "sandbox".
Definition EnvironmentTest : Environment := "test".
Definition ProductKindSubscription : ProductKind := "subscription".
Definition ProductKindNonConsumable : ProductKind := "non_consumable".
Definition ProductKindConsumable : ProductKind := "consumable".

(* internal/core/catalog.go: StoreApplication *)
Record StoreApplication : Type := mkStoreApplication {
  sa_Provider : Provider;
  sa_Environment : Environment;
  sa_ID : ProviderApplicationID
}.

(* internal/core/catalog.go: Application *)
Record Application : Type := mkApplication {
  app_ID : ApplicationID;
  app_ProjectID : ProjectID;
  app_Store : StoreApplication
}.

(* internal/core/catalog.go: Customer *)
Record Customer : Type := mkCustomer {
  cus_ID : CustomerID;
  cus_ProjectID : ProjectID;
  cus_ExternalID : string
}.

(* internal/core/catalog.go: Entitlement *)
Record Entitlement : Type := mkEntitlement {
  ent_ID : EntitlementID;
  ent_ProjectID : ProjectID;
  ent_Key : string
}.

(* internal/core/catalog.go: Product *)
Record Product : Type := mkProduct {
  prod_ID : ProductID;
  prod_ProjectID : ProjectID;
  prod_Kind : ProductKind;
  prod_EntitlementIDs : list EntitlementID
}.

(* internal/core/catalog.go: StoreProduct *)
Record StoreProduct : Type := mkStoreProduct {
  sp_ApplicationID : ApplicationID;
  sp_ProductID : ProductID;
  sp_ProviderID : ProviderProductID
}.

#[export] Instance StoreApplication_eq_dec : EqDecision StoreApplication.
Proof. solve_decision. Defined.
#[export] Instance Application_eq_dec : EqDecision Application.
Proof. solve_decision. Defined.

(* internal/core/catalog.go: Provider.Validate *)
Definition Provider_Validate (provider : Provider) : error :=
  validateIdentifier "provider" provider.

(* internal/core/catalog.go: Environment.Validate *)
Definition Environment_Validate (environment : Environment) : error :=
  if contains_str [EnvironmentProduction; EnvironmentSandbox; EnvironmentTest] environment
  then None
  else Some (Errorf "unsupported environment %q" [AStr environment]).

(* internal/core/catalog.go: ProductKind.Validate *)
Definition ProductKind_Validate (kind : ProductKind) : error :=
  validateIdentifier "product kind" kind.

(* internal/core/catalog.go: StoreApplication.Validate *)
Definition StoreApplication_Validate (application : StoreApplication) : error :=
  errors_Join [Provider_Validate (sa_Provider application);
               Environment_Validate (sa_Environment application);
               ProviderApplicationID_Validate (sa_ID application)].

(* internal/core/catalog.go: Application.Validate *)
Definition Application_Validate (application : Application) : error :=
  errors_Join [ApplicationID_Validate (app_ID application);
               ProjectID_Validate (app_ProjectID application);
               StoreApplication_Validate (app_Store application)].

(* internal/core/catalog.go: Customer.Validate *)
Definition Customer_Validate (customer : Customer) : error :=
  errors_Join [CustomerID_Validate (cus_ID customer);
               ProjectID_Validate (cus_ProjectID customer);
               ValidateExternalCustomerID (cus_ExternalID customer)].

(* internal/core/catalog.go: Entitlement.Validate *)
Definition Entitlement_Validate (entitlement : Entitlement) : error :=
  errors_Join [EntitlementID_Validate (ent_ID entitlement);
               ProjectID_Validate (ent_ProjectID entitlement);
               validateIdentifier "entitlement key" (ent_Key entitlement)].

(* internal/core/catalog.go: Product.Validate *)
Definition Product_Validate (product : Product) : error :=
  errors_Join [ProductID_Validate (prod_ID product); ProjectID_Validate (prod_ProjectID product);
               ProductKind_Validate (prod_Kind product)] ;;?
  refuse_if (Nat.eqb (length (prod_EntitlementIDs product)) 0)
    (New "product must grant at least one entitlement") ;;?
  forPrefix (fun seen entitlementID =>
      EntitlementID_Validate entitlementID ;;?
      refuse_if (contains_str seen entitlementID)
        (Errorf "duplicate entitlement ID %q" [AStr entitlementID]))
    [] (prod_EntitlementIDs product).

(* internal/core/catalog.go: StoreProduct.Validate *)
Definition StoreProduct_Validate (product : StoreProduct) : error :=
  errors_Join [ApplicationID_Validate (sp_ApplicationID product);
               ProductID_Validate (sp_ProductID product);
               ProviderProductID_Validate (sp_ProviderID product)].

(** ** Identifier lemmas *)

(** What [validateIdentifier] accepts. *)
Definition identifier_ok (value : string) : Prop :=
  value <> EmptyString /\
  ValidString value = true /\
  IsSpace (DecodeRune (bytes value)).1 = false /\
  IsSpace (DecodeLastRune (bytes value)).1 = false /\
  Forall (fun r => IsControl r = false) (runes value).

Lemma existsb_false_Forall {A} (f : A -> bool) l :
  existsb f l = false <-> Forall (fun x => f x = false) l.
Proof.
  induction l as [|x l IH]; simpl; [split; auto|].
  rewrite orb_false_iff, Forall_cons, IH. done.
Qed.

Lemma validateIdentifier_nil name value :
  validateIdentifier name value = None <-> identifier_ok value.
Proof.
  unfold validateIdentifier, identifier_ok. err_simpl. rewrite existsb_false_Forall.
  split; intros H; splits_hyps.
  - pose proof (proj1 (TrimSpace_id value ltac:(done)) ltac:(done)). tauto.
  - repeat split; auto. apply TrimSpace_id; auto.
Qed.

#[export] Hint Rewrite validateIdentifier_nil : goerr.

(** Printable ASCII identifiers are always accepted. *)
Definition graphic_string (s : string) : bool :=
  negb (String.eqb s EmptyString) && forallb graphic (bytes s).

Lemma graphic_identifier s : graphic_string s = true -> identifier_ok s.
Proof.
  unfold graphic_string. bool_simpl. intros [Hne Hall].
  rewrite forallb_forall in Hall.
  assert (Hg : Forall (fun b => graphic b = true) (bytes s)) by (apply List.Forall_forall; auto).
  assert (Ha : Forall (fun b => 0 <= b < 128) (bytes s)).
  { eapply Forall_impl; [exact Hg|]. simpl. intros b Hb%graphic_bound. lia. }
  assert (Hr : runes s = bytes s).
  { unfold runes. rewrite <- length_bytes. by apply runes_fuel_ascii. }
  repeat split; auto.
  - unfold ValidString. by apply valid_fuel_ascii.
  - destruct (bytes s) as [|b l] eqn:E; [by apply bytes_nil in E|].
    apply Forall_cons in Ha as [Hb _]. apply Forall_cons in Hg as [Hgb _].
    rewrite DecodeRune_ascii by done. by apply graphic_not_space.
  - destruct (bytes s) as [|b l _] eqn:E using rev_ind; [by apply bytes_nil in E|].
    apply Forall_app in Ha as [_ Hb]. apply Forall_app in Hg as [_ Hgb].
    apply Forall_cons in Hb as [Hb _]. apply Forall_cons in Hgb as [Hgb _].
    rewrite DecodeLastRune_ascii by lia. by apply graphic_not_space.
  - rewrite Hr. eapply Forall_impl; [exact Hg|]. apply graphic_not_control.
Qed.

(** ** Reference lemmas *)

Lemma lor_eq_0 a b : Z.lor a b = 0 <-> a = 0 /\ b = 0.
Proof. apply Z.lor_eq_0_iff. Qed.

Lemma fold_lor_zero l a : fold_left Z.lor l a = 0 <-> a = 0 /\ Forall (fun x => x = 0) l.
Proof.
  revert a. induction l as [|x l IH]; intros a; simpl; [naive_solver|].
  rewrite IH, lor_eq_0, Forall_cons. tauto.
Qed.

Lemma ConstantTimeCompare_eq x y : ConstantTimeCompare x y = true <-> x = y.
Proof.
  unfold ConstantTimeCompare. bool_simpl. rewrite fold_lor_zero, <- !length_bytes.
  split.
  - intros (Hlen & _ & Hz). apply bytes_inj. revert Hlen Hz. generalize (bytes x) as l1.
    generalize (bytes y) as l2. intros l2 l1. revert l2.
    induction l1 as [|a l1 IH]; intros [|b l2] Hlen Hz; simpl in *; try done.
    apply Forall_cons in Hz as [Hx Hz]. apply Z.lxor_eq in Hx. f_equal; auto.
  - intros ->. repeat split; auto. induction (bytes y) as [|a l IH]; simpl; constructor; auto.
    apply Z.lxor_nilpotent.
Qed.

Lemma StoreReference_Equal_eq r1 r2 : StoreReference_Equal r1 r2 = true <-> r1 = r2.
Proof.
  unfold StoreReference_Equal. bool_simpl. rewrite ConstantTimeCompare_eq.
  destruct r1, r2; simpl. naive_solver.
Qed.

Lemma StoreReference_Validate_nil reference :
  StoreReference_Validate reference = None <->
  identifier_ok (ref_Role reference) /\ identifier_ok (ref_Kind reference) /\
  identifier_ok (ref_value reference).
Proof. unfold StoreReference_Validate. by err_simpl. Qed.

Lemma NewStoreReference_ok role kind value r :
  NewStoreReference role kind value = Ok r <->
  r = mkStoreReference role kind value /\ StoreReference_Validate r = None.
Proof. unfold NewStoreReference. err_simpl. naive_solver. Qed.

#[export] Hint Rewrite StoreReference_Equal_eq : gobool.
#[export] Hint Rewrite StoreReference_Validate_nil NewStoreReference_ok : goerr.

(** A loop over references that refuses an invalid or repeated one. *)
Lemma existsb_Equal_In r seen :
  existsb (fun r' => StoreReference_Equal r r') seen = false <-> ~ In r seen.
Proof.
  rewrite existsb_false_Forall, List.Forall_forall. split.
  - intros H Hin. specialize (H r Hin). apply not_true_iff_false in H.
    apply H. by apply StoreReference_Equal_eq.
  - intros H r' Hin. apply not_true_iff_false. rewrite StoreReference_Equal_eq. by intros ->.
Qed.

(** ** Properties of references and catalog records *)

(** The rendering of a non-empty reference. *)
Lemma IsZero_role r : ref_Role r <> EmptyString -> StoreReference_IsZero r = false.
Proof. intros H. unfold StoreReference_IsZero. bool_simpl. auto. Qed.

(** Redaction is non-interfering: what a validated reference prints, in text
    or as a structured log value, does not depend on its private value; and two
    references compare equal exactly when all their parts are the same. *)
Theorem reference_redacted (r1 r2 : StoreReference) :
  StoreReference_Validate r1 = None -> StoreReference_Validate r2 = None ->
  ref_Role r1 = ref_Role r2 -> ref_Kind r1 = ref_Kind r2 ->
  StoreReference_String r1 = StoreReference_String r2 /\
  StoreReference_LogValue r1 = StoreReference_LogValue r2 /\
  (StoreReference_Equal r1 r2 = true <-> StoreReference_Value r1 = StoreReference_Value r2).
Proof.
  rewrite !StoreReference_Validate_nil. intros (Hr1 & _) (Hr2 & _) Hr Hk.
  unfold StoreReference_String, StoreReference_LogValue, StoreReference_Value.
  rewrite !IsZero_role by (destruct Hr1, Hr2; done). rewrite Hr, Hk, StoreReference_Equal_eq.
  destruct r1, r2; simpl in *; subst. naive_solver.
Qed.

Lemma reference_redacted_witness :
  let r1 := mkStoreReference ReferenceTransaction "apple_transaction_id" "1000000123" in
  let r2 := mkStoreReference ReferenceTransaction "apple_transaction_id" "1000000999" in
  StoreReference_String r1 = StoreReference_String r2 /\ StoreReference_Equal r1 r2 = false.
Proof.
  intros r1 r2. split; [|reflexivity].
  exact (proj1 (reference_redacted r1 r2 eq_refl eq_refl eq_refl eq_refl)).
Defined.

(** A product is accepted exactly when its identity, project and kind are
    identifiers and it grants at least one entitlement, each an identifier and
    none twice. *)
Theorem product_valid (p : Product) :
  Product_Validate p = None <->
  identifier_ok (prod_ID p) /\ identifier_ok (prod_ProjectID p) /\ identifier_ok (prod_Kind p) /\
  prod_EntitlementIDs p <> [] /\
  Forall identifier_ok (prod_EntitlementIDs p) /\ NoDup (prod_EntitlementIDs p).
Proof.
  unfold Product_Validate, ProductID_Validate, ProjectID_Validate, ProductKind_Validate.
  err_simpl. rewrite forPrefix_check_dup with (P := identifier_ok).
  - destruct (prod_EntitlementIDs p); simpl; naive_solver.
  - intros seen x. unfold EntitlementID_Validate. err_simpl. done.
Qed.
