(* ===== verification/Purchase.v ===== *)
(** Purchase observations ([internal/core/purchase.go]): the normalized
    lifecycle and access vocabulary, the invariants an observation must meet
    before it is stored, and the access decision at one instant. *)

From S2P Require Import Prelude GoText GoTime Core.
From stdpp Require Import base list strings.
Local Open Scope Z_scope.

Abbreviation LifecycleState := string.
Abbreviation AccessStatus := string.
Abbreviation AccessReason := string.
Abbreviation Ownership := string.
Abbreviation RenewalMode := string.
Abbreviation RenewalStatus := string.

(* internal/core/purchase.go: constants *)
Definition LifecyclePending : LifecycleState := "pending".
Definition LifecycleActive : LifecycleState := "active".
Definition LifecycleGracePeriod : LifecycleState := "grace_period".
Definition LifecycleOnHold : LifecycleState := "on_hold".
Definition LifecyclePaused : LifecycleState := "paused".
Definition LifecycleCanceled : LifecycleState := "canceled".
Definition LifecycleExpired : LifecycleState := "expired".
Definition LifecycleRefunded : LifecycleState := "refunded".
Definition LifecycleRevoked : LifecycleState := "revoked".
Definition LifecycleUnresolved : LifecycleState := "unresolved".
Definition AccessAllowed : AccessStatus := "allowed".
Definition AccessDenied : AccessStatus := "denied".
Definition AccessUnresolved : AccessStatus := "unresolved".
Definition AccessReasonPurchaseValid : AccessReason := "purchase_valid".
Definition AccessReasonGracePeriod : AccessReason := "grace_period".
Definition AccessReasonPendingPayment : AccessReason := "pending_payment".
Definition AccessReasonCanceledAtPeriodEnd : AccessReason := "canceled_at_period_end".
Definition AccessReasonExpired : AccessReason := "expired".
Definition AccessReasonBillingIssue : AccessReason := "billing_issue".
Definition AccessReasonPaused : AccessReason := "paused".
Definition AccessReasonRefunded : AccessReason := "refunded".
Definition AccessReasonRevoked : AccessReason := "revoked".
Definition AccessReasonProviderDecision : AccessReason := "provider_decision".
Definition AccessReasonUnresolved : AccessReason := "unresolved".
Definition OwnershipPurchased : Ownership := "purchased".
Definition OwnershipFamilyShared : Ownership := "family_shared".
Definition OwnershipUnknown : Ownership := "unknown".
Definition RenewalNone : RenewalMode := "none".
Definition RenewalAuto : RenewalMode := "auto".
Definition RenewalPrepaid : RenewalMode := "prepaid".
Definition RenewalUnknown : RenewalMode := "unknown".
Definition RenewalNotApplicable : RenewalStatus := "not_applicable".
Definition RenewalEnabled : RenewalStatus := "enabled".
Definition RenewalDisabled : RenewalStatus := "disabled".
Definition RenewalStatusUnknown : RenewalStatus := "unknown".

(** Milliunits is an int64, kept as an integer. *)
(* internal/core/purchase.go: PurchasePrice *)
Record PurchasePrice : Type := mkPurchasePrice {
  price_Milliunits : Z;
  price_Currency : string
}.

(* internal/core/purchase.go: Renewal *)
Record Renewal : Type := mkRenewal {
  ren_Mode : RenewalMode;
  ren_Status : RenewalStatus;
  ren_NextProductID : ProviderProductID;
  ren_NextRenewalAt : option time
}.

(* internal/core/purchase.go: EffectivePeriod *)
Record EffectivePeriod : Type := mkPeriod {
  StartsAt : time;
  EndsAt : option time
}.

(** Quantity is a uint32, kept as an integer. *)
(* internal/core/purchase.go: PurchaseObservation *)
Record PurchaseObservation : Type := mkObservation {
  obs_ID : ObservationID;
  obs_ApplicationID : ApplicationID;
  obs_Store : StoreApplication;
  obs_ProductID : ProviderProductID;
  obs_ProductKind : ProductKind;
  obs_State : LifecycleState;
  obs_ProviderState : string;
  obs_Access : AccessStatus;
  obs_AccessReason : AccessReason;
  obs_Ownership : Ownership;
  obs_Quantity : Z;
  obs_Price : option PurchasePrice;
  obs_OccurredAt : time;
  obs_ObservedAt : time;
  obs_EffectivePeriod : EffectivePeriod;
  obs_Renewal : Renewal;
  obs_References : list StoreReference;
  obs_PriorSnapshotID : ObservationID
}.

#[export] Instance EffectivePeriod_eq_dec : EqDecision EffectivePeriod.
Proof. solve_decision. Defined.
#[export] Instance Renewal_eq_dec : EqDecision Renewal.
Proof. solve_decision. Defined.

(* internal/core/purchase.go: AccessAt *)
Definition AccessAt (access : AccessStatus) (reason : AccessReason) (endsAt : option time)
    (now : time) : AccessStatus * AccessReason :=
  match endsAt with
  | Some e =>
      if String.eqb access AccessAllowed && negb (Before now e)
      then (AccessDenied, AccessReasonExpired) else (access, reason)
  | None => (access, reason)
  end.

(* internal/core/purchase.go: LifecycleState.Validate *)
Definition LifecycleState_Validate (state : LifecycleState) : error :=
  if contains_str [LifecyclePending; LifecycleActive; LifecycleGracePeriod; LifecycleOnHold;
                   LifecyclePaused; LifecycleCanceled; LifecycleExpired; LifecycleRefunded;
                   LifecycleRevoked; LifecycleUnresolved] state
  then None else Some (Errorf "unsupported lifecycle state %q" [AStr state]).

(* internal/core/purchase.go: AccessStatus.Validate *)
Definition AccessStatus_Validate (status : AccessStatus) : error :=
  if contains_str [AccessAllowed; AccessDenied; AccessUnresolved] status
  then None else Some (Errorf "unsupported access status %q" [AStr status]).

(* internal/core/purchase.go: AccessReason.Validate *)
Definition AccessReason_Validate (reason : AccessReason) : error :=
  if contains_str [AccessReasonPurchaseValid; AccessReasonGracePeriod; AccessReasonPendingPayment;
                   AccessReasonCanceledAtPeriodEnd; AccessReasonExpired; AccessReasonBillingIssue;
                   AccessReasonPaused; AccessReasonRefunded; AccessReasonRevoked;
                   AccessReasonProviderDecision; AccessReasonUnresolved] reason
  then None else Some (Errorf "unsupported access reason %q" [AStr reason]).

(* internal/core/purchase.go: Ownership.Validate *)
Definition Ownership_Validate (ownership : Ownership) : error :=
  if contains_str [OwnershipPurchased; OwnershipFamilyShared; OwnershipUnknown] ownership
  then None else Some (Errorf "unsupported ownership %q" [AStr ownership]).

(* internal/core/purchase.go: PurchasePrice.Validate *)
Definition PurchasePrice_Validate (price : PurchasePrice) : error :=
  refuse_if (price_Milliunits price <? 0) (New "purchase price must not be negative") ;;?
  refuse_if (negb (len (price_Currency price) =? 3))
    (New "purchase price currency must be a three-letter ISO 4217 code") ;;?
  refuse_if (existsb (fun character => negb (in_range 65 90 character))
               (runes (price_Currency price)))
    (New "purchase price currency must use uppercase ASCII letters").

(** The switch on the renewal mode. *)
Definition renewal_mode_error (renewal : Renewal) : error :=
  let mode := ren_Mode renewal in
  let status := ren_Status renewal in
  if String.eqb mode RenewalNone then
    refuse_if (negb (String.eqb status RenewalNotApplicable))
      (New "non-renewing purchase must use not_applicable renewal status")
  else if String.eqb mode RenewalAuto then
    refuse_if (negb (String.eqb status RenewalEnabled) && negb (String.eqb status RenewalDisabled)
               && negb (String.eqb status RenewalStatusUnknown))
      (New "auto-renewing purchase has invalid renewal status")
  else if String.eqb mode RenewalPrepaid then
    refuse_if (negb (String.eqb status RenewalNotApplicable))
      (New "prepaid purchase must use not_applicable renewal status")
  else if String.eqb mode RenewalUnknown then
    refuse_if (negb (String.eqb status RenewalStatusUnknown))
      (New "unknown renewal mode must use unknown renewal status")
  else Some (Errorf "unsupported renewal mode %q" [AStr mode]).

(* internal/core/purchase.go: Renewal.Validate *)
Definition Renewal_Validate (renewal : Renewal) (productKind : ProductKind) : error :=
  renewal_mode_error renewal ;;?
  refuse_if (negb (String.eqb productKind ProductKindSubscription)
             && negb (String.eqb (ren_Mode renewal) RenewalNone))
    (New "non-subscription product cannot have a renewal mode") ;;?
  (if negb (String.eqb (ren_NextProductID renewal) EmptyString) then
     ProviderProductID_Validate (ren_NextProductID renewal) ;;?
     refuse_if (negb (String.eqb (ren_Mode renewal) RenewalAuto))
       (New "next renewal product requires auto-renewal mode") ;;?
     refuse_if (String.eqb (ren_Status renewal) RenewalDisabled)
       (New "disabled renewal cannot have a next product")
   else None) ;;?
  match ren_NextRenewalAt renewal with
  | Some next =>
      refuse_if (IsZero next) (New "next renewal time must not be zero") ;;?
      refuse_if (negb (String.eqb (ren_Mode renewal) RenewalAuto)
                 || String.eqb (ren_Status renewal) RenewalDisabled)
        (New "next renewal time requires enabled or unresolved auto-renewal")
  | None => None
  end.

(* internal/core/purchase.go: EffectivePeriod.Validate *)
Definition EffectivePeriod_Validate (period : EffectivePeriod) : error :=
  if IsZero (StartsAt period) then
    refuse_if (bool_decide (is_Some (EndsAt period)))
      (New "effective period cannot end without a start")
  else match EndsAt period with
       | Some e =>
           refuse_if (negb (After e (StartsAt period)))
             (New "effective period end must be after its start")
       | None => None
       end.

(* internal/core/purchase.go: PurchaseObservation.hasReferenceRole *)
Definition hasReferenceRole (observation : PurchaseObservation) (role : ReferenceRole) : bool :=
  existsb (fun reference => String.eqb (ref_Role reference) role) (obs_References observation).

(* internal/core/purchase.go: PurchaseObservation.ReferencesFor *)
Definition ReferencesFor (observation : PurchaseObservation) (role : ReferenceRole)
    : list StoreReference :=
  List.filter (fun reference => String.eqb (ref_Role reference) role) (obs_References observation).

(* internal/core/purchase.go: validateReferenceSet *)
Definition validateReferenceSet (references : list StoreReference) : error :=
  forPrefix (fun seen reference =>
      wrap_err "store reference %d: %w" [AInt (Z.of_nat (length seen))]
        (StoreReference_Validate reference) ;;?
      refuse_if (existsb (fun previous => StoreReference_Equal reference previous) seen)
        (New "duplicate store reference"))
    [] references.

(** The conditions an allowed observation meets. *)
Definition allowed_error (observation : PurchaseObservation) : error :=
  if String.eqb (obs_Access observation) AccessAllowed then
    refuse_if (negb (hasReferenceRole observation ReferenceTransaction))
      (New "allowed access requires a provider transaction reference") ;;?
    refuse_if (IsZero (obs_OccurredAt observation))
      (New "allowed access requires a transaction occurrence time") ;;?
    refuse_if (IsZero (StartsAt (obs_EffectivePeriod observation)))
      (New "allowed access requires an effective period start") ;;?
    refuse_if (String.eqb (obs_ProductKind observation) ProductKindSubscription
               && bool_decide (EndsAt (obs_EffectivePeriod observation) = None))
      (New "allowed subscription access requires an effective period end")
  else None.

(* internal/core/purchase.go: PurchaseObservation.Validate *)
Definition PurchaseObservation_Validate (observation : PurchaseObservation) : error :=
  let priceError :=
    match obs_Price observation with Some p => PurchasePrice_Validate p | None => None end in
  let priorIDError :=
    if negb (String.eqb (obs_PriorSnapshotID observation) EmptyString)
    then ObservationID_Validate (obs_PriorSnapshotID observation) else None in
  errors_Join
    [ObservationID_Validate (obs_ID observation);
     priorIDError;
     ApplicationID_Validate (obs_ApplicationID observation);
     StoreApplication_Validate (obs_Store observation);
     ProviderProductID_Validate (obs_ProductID observation);
     ProductKind_Validate (obs_ProductKind observation);
     LifecycleState_Validate (obs_State observation);
     validateIdentifier "provider state" (obs_ProviderState observation);
     AccessStatus_Validate (obs_Access observation);
     AccessReason_Validate (obs_AccessReason observation);
     Ownership_Validate (obs_Ownership observation);
     EffectivePeriod_Validate (obs_EffectivePeriod observation);
     Renewal_Validate (obs_Renewal observation) (obs_ProductKind observation);
     priceError] ;;?
  refuse_if (obs_Quantity observation =? 0)
    (New "purchase quantity must be greater than zero") ;;?
  refuse_if (IsZero (obs_ObservedAt observation)) (New "observation time is required") ;;?
  allowed_error observation ;;?
  refuse_if (String.eqb (obs_State observation) LifecyclePending
             && negb (String.eqb (obs_Access observation) AccessUnresolved))
    (New "pending purchase access must be unresolved") ;;?
  refuse_if (String.eqb (obs_State observation) LifecycleExpired
             && negb (String.eqb (obs_Access observation) AccessDenied))
    (New "expired purchase access must be denied") ;;?
  refuse_if (String.eqb (obs_State observation) LifecycleRevoked
             && negb (String.eqb (obs_Access observation) AccessDenied))
    (New "revoked purchase access must be denied") ;;?
  validateReferenceSet (obs_References observation) ;;?
  refuse_if (negb (hasReferenceRole observation ReferenceTransaction)
             && negb (hasReferenceRole observation ReferenceQuery))
    (New "observation requires a transaction or query reference").

(** ** What the validation accepts *)

(** A renewal expectation that is consistent with its mode and product kind. *)
Record renewal_wf (renewal : Renewal) (kind : ProductKind) : Prop := {
  rw_mode : (ren_Mode renewal = RenewalNone /\ ren_Status renewal = RenewalNotApplicable) \/
            (ren_Mode renewal = RenewalAuto /\
             In (ren_Status renewal) [RenewalEnabled; RenewalDisabled; RenewalStatusUnknown]) \/
            (ren_Mode renewal = RenewalPrepaid /\ ren_Status renewal = RenewalNotApplicable) \/
            (ren_Mode renewal = RenewalUnknown /\ ren_Status renewal = RenewalStatusUnknown);
  rw_kind : kind <> ProductKindSubscription -> ren_Mode renewal = RenewalNone;
  rw_next : ren_NextProductID renewal <> EmptyString ->
            identifier_ok (ren_NextProductID renewal) /\ ren_Mode renewal = RenewalAuto /\
            ren_Status renewal <> RenewalDisabled;
  rw_time : forall t, ren_NextRenewalAt renewal = Some t ->
            t <> 0 /\ ren_Mode renewal = RenewalAuto /\ ren_Status renewal <> RenewalDisabled
}.

(** A period whose end, when it has one, follows a start. *)
Definition period_wf (period : EffectivePeriod) : Prop :=
  forall e, EndsAt period = Some e -> StartsAt period <> 0 /\ StartsAt period < e.

(** A non-negative price in an upper-case three-letter currency. *)
Definition price_wf (price : PurchasePrice) : Prop :=
  0 <= price_Milliunits price /\ len (price_Currency price) = 3 /\
  Forall (fun c => 65 <= c <= 90) (runes (price_Currency price)).

Definition has_role (observation : PurchaseObservation) (role : ReferenceRole) : Prop :=
  exists r, In r (obs_References observation) /\ ref_Role r = role.

Definition reference_ok (r : StoreReference) : Prop :=
  identifier_ok (ref_Role r) /\ identifier_ok (ref_Kind r) /\ identifier_ok (ref_value r).

(** The facts a stored observation may be relied on for. *)
Record observation_wf (o : PurchaseObservation) : Prop := {
  ow_ids : identifier_ok (obs_ID o) /\ identifier_ok (obs_ApplicationID o) /\
           identifier_ok (obs_ProductID o) /\ identifier_ok (obs_ProductKind o) /\
           identifier_ok (obs_ProviderState o);
  ow_prior : obs_PriorSnapshotID o <> EmptyString -> identifier_ok (obs_PriorSnapshotID o);
  ow_store : StoreApplication_Validate (obs_Store o) = None;
  ow_vocabulary : LifecycleState_Validate (obs_State o) = None /\
                  AccessStatus_Validate (obs_Access o) = None /\
                  AccessReason_Validate (obs_AccessReason o) = None /\
                  Ownership_Validate (obs_Ownership o) = None;
  ow_period : period_wf (obs_EffectivePeriod o);
  ow_renewal : renewal_wf (obs_Renewal o) (obs_ProductKind o);
  ow_price : forall p, obs_Price o = Some p -> price_wf p;
  ow_quantity : obs_Quantity o <> 0;
  ow_observed : obs_ObservedAt o <> 0;
  ow_allowed : obs_Access o = AccessAllowed ->
               has_role o ReferenceTransaction /\ obs_OccurredAt o <> 0 /\
               StartsAt (obs_EffectivePeriod o) <> 0 /\
               (obs_ProductKind o = ProductKindSubscription ->
                is_Some (EndsAt (obs_EffectivePeriod o)));
  ow_pending : obs_State o = LifecyclePending -> obs_Access o = AccessUnresolved;
  ow_ended : obs_State o = LifecycleExpired \/ obs_State o = LifecycleRevoked ->
             obs_Access o = AccessDenied;
  ow_references : Forall reference_ok (obs_References o) /\ NoDup (obs_References o);
  ow_identified : has_role o ReferenceTransaction \/ has_role o ReferenceQuery
}.

(** ** Lemmas *)

Lemma IsZero_true t : IsZero t = true <-> t = 0.
Proof. unfold IsZero. lia. Qed.

Lemma IsZero_false t : IsZero t = false <-> t <> 0.
Proof. unfold IsZero. lia. Qed.

#[export] Hint Rewrite IsZero_true IsZero_false : gobool.

Lemma neq_or (a b : string) (P : Prop) : a <> b \/ P <-> (a = b -> P).
Proof. destruct (decide (a = b)); naive_solver. Qed.

Lemma if_nil (b : bool) (e : gerror) : (if b then None else Some e) = None <-> b = true.
Proof. destruct b; naive_solver. Qed.

Lemma if_check_nil (b : bool) (e : error) : (if b then e else None) = None <-> (b = true -> e = None).
Proof. destruct b; naive_solver. Qed.

Lemma period_valid period : EffectivePeriod_Validate period = None <-> period_wf period.
Proof.
  unfold EffectivePeriod_Validate, period_wf. destruct period as [s [e|]]; simpl.
  - destruct (IsZero s) eqn:Hz; err_simpl; unfold IsZero, After in *.
    + split; [done|]. intros H. specialize (H e eq_refl). lia.
    + split; [intros H e0 [= <-]; lia | intros H; specialize (H e eq_refl); lia].
  - destruct (IsZero s); naive_solver.
Qed.

Lemma price_valid price : PurchasePrice_Validate price = None <-> price_wf price.
Proof.
  unfold PurchasePrice_Validate, price_wf. err_simpl. rewrite existsb_false_Forall.
  unfold in_range.
  assert (forall l, Forall (fun c => negb ((65 <=? c) && (c <=? 90)) = false) l <->
                    Forall (fun c => 65 <= c <= 90) l) as ->; [|done].
  intros l. apply Forall_iff. intros c. lia.
Qed.

Lemma renewal_mode_error_nil renewal :
  renewal_mode_error renewal = None <->
  (ren_Mode renewal = RenewalNone /\ ren_Status renewal = RenewalNotApplicable) \/
  (ren_Mode renewal = RenewalAuto /\
   In (ren_Status renewal) [RenewalEnabled; RenewalDisabled; RenewalStatusUnknown]) \/
  (ren_Mode renewal = RenewalPrepaid /\ ren_Status renewal = RenewalNotApplicable) \/
  (ren_Mode renewal = RenewalUnknown /\ ren_Status renewal = RenewalStatusUnknown).
Proof.
  unfold renewal_mode_error. destruct renewal as [mode status n t]; cbn [ren_Mode ren_Status].
  destruct (String.eqb_spec mode RenewalNone) as [->|].
  { err_simpl. split; [naive_solver|]. intros [[_ H]|[[H _]|[[H _]|[H _]]]]; done. }
  destruct (String.eqb_spec mode RenewalAuto) as [->|].
  { rewrite refuse_if_nil. simpl.
    destruct (String.eqb_spec status RenewalEnabled), (String.eqb_spec status RenewalDisabled),
      (String.eqb_spec status RenewalStatusUnknown); simpl; naive_solver. }
  destruct (String.eqb_spec mode RenewalPrepaid) as [->|].
  { err_simpl. split; [naive_solver|]. intros [[? H]|[[H _]|[[H ?]|[H _]]]]; done. }
  destruct (String.eqb_spec mode RenewalUnknown) as [->|]; err_simpl; naive_solver.
Qed.

Lemma renewal_valid renewal kind : Renewal_Validate renewal kind = None <-> renewal_wf renewal kind.
Proof.
  unfold Renewal_Validate. err_simpl. rewrite renewal_mode_error_nil, if_check_nil. err_simpl.
  unfold ProviderProductID_Validate. err_simpl.
  split.
  - intros (Hm & Hk & Hn & Ht). split; [done| |done|].
    + intros Hne. by destruct Hk.
    + intros t Et. rewrite Et in Ht. autorewrite with goerr gobool in Ht. naive_solver.
  - intros [Hm Hk Hn Ht]. split; [done|split; [|split]]; [|done|].
    + destruct (decide (kind = ProductKindSubscription)); auto.
    + destruct (ren_NextRenewalAt renewal) as [t|]; [|done].
      err_simpl. specialize (Ht t eq_refl). naive_solver.
Qed.

Lemma hasReferenceRole_true o role : hasReferenceRole o role = true <-> has_role o role.
Proof.
  unfold hasReferenceRole, has_role. rewrite existsb_exists.
  split; intros (r & Hin & Hr); exists r; split; auto; by apply String.eqb_eq.
Qed.

Lemma hasReferenceRole_false o role : hasReferenceRole o role = false <-> ~ has_role o role.
Proof. rewrite <- hasReferenceRole_true. destruct (hasReferenceRole o role); naive_solver. Qed.

Lemma reference_set_valid references :
  validateReferenceSet references = None <-> Forall reference_ok references /\ NoDup references.
Proof.
  unfold validateReferenceSet. apply forPrefix_check_dup. intros seen r.
  err_simpl. rewrite existsb_Equal_In. done.
Qed.

#[export] Hint Rewrite hasReferenceRole_true hasReferenceRole_false : gobool.
#[export] Hint Rewrite period_valid price_valid renewal_valid reference_set_valid : goerr.

Lemma observation_parts (o : PurchaseObservation) :
  PurchaseObservation_Validate o = None <-> observation_wf o.
Proof.
  unfold PurchaseObservation_Validate, allowed_error, ObservationID_Validate,
    ApplicationID_Validate, ProviderProductID_Validate, ProductKind_Validate.
  err_simpl. rewrite !if_check_nil. err_simpl. rewrite bool_decide_eq_false.
  rewrite not_eq_None_Some, !neq_or.
  assert (Hp : (match obs_Price o with Some p => PurchasePrice_Validate p | None => None end) = None
    <-> forall p, obs_Price o = Some p -> price_wf p).
  { destruct (obs_Price o) as [p|]; [rewrite price_valid|]; naive_solver. }
  rewrite Hp. split.
  - intros H. splits_hyps. split; tauto.
  - intros []. splits_hyps. repeat (split; [by auto|]). auto.
Qed.

(** ** Properties *)

(** C26. A purchase observation is accepted exactly when it is well formed:
    every identity is an identifier, the vocabulary is closed, an end follows a
    start, the renewal matches its mode, allowed access is evidenced by a
    transaction with an occurrence time and a start (and an end for a
    subscription), pending access is unresolved, expired and revoked access is
    denied, references are valid, distinct, and name a transaction or query. *)
Theorem observation_valid (o : PurchaseObservation) :
  PurchaseObservation_Validate o = None <-> observation_wf o.
Proof. exact (observation_parts o). Qed.

(** The access decision at one instant only ever lapses: it allows exactly
    when the stored decision allows and any end is still ahead; an unbounded or
    not-allowed decision is passed through unchanged; and asking twice, the
    second time later, is asking once at the later time. *)
Theorem access_lapses (a : AccessStatus) (r : AccessReason) (e : option time) (t1 t2 : time) :
  t1 <= t2 ->
  ((AccessAt a r e t1).1 = AccessAllowed <->
     a = AccessAllowed /\ forall end_, e = Some end_ -> t1 < end_) /\
  ((AccessAt a r e t1) <> (a, r) -> AccessAt a r e t1 = (AccessDenied, AccessReasonExpired)) /\
  AccessAt (AccessAt a r e t1).1 (AccessAt a r e t1).2 e t2 = AccessAt a r e t2.
Proof.
  intros Ht. unfold AccessAt, Before. destruct e as [e|]; [|naive_solver].
  destruct (String.eqb_spec a AccessAllowed) as [->|Hne]; simpl.
  - destruct (Z.ltb_spec t1 e); simpl; [split; [naive_solver|split; [done|reflexivity]]|].
    split; [split; [done|intros [_ H']; specialize (H' e eq_refl); lia]|].
    split; [done|]. destruct (Z.ltb_spec t2 e); [lia|done].
  - split; [naive_solver|]. split; [done|].
    by rewrite (proj2 (String.eqb_neq a AccessAllowed) Hne).
Qed.

Lemma access_lapses_witness :
  (AccessAt AccessAllowed AccessReasonPurchaseValid (Some 100) 40).1 = AccessAllowed /\
  AccessAt (AccessAt AccessAllowed AccessReasonPurchaseValid (Some 100) 100).1
    (AccessAt AccessAllowed AccessReasonPurchaseValid (Some 100) 100).2 (Some 100) 250
  = (AccessDenied, AccessReasonExpired).
Proof.
  split; [reflexivity|].
  rewrite (proj2 (proj2 (access_lapses AccessAllowed AccessReasonPurchaseValid (Some 100) 100 250
             ltac:(lia)))).
  reflexivity.
Defined.

(** A validated subscription never grants access for ever: when its stored
    decision is allowed it has an end after its start, and from that instant on
    the decision read back is an expired denial. *)
Theorem subscription_access_bounded (o : PurchaseObservation) :
  PurchaseObservation_Validate o = None ->
  obs_ProductKind o = ProductKindSubscription ->
  obs_Access o = AccessAllowed ->
  exists e, EndsAt (obs_EffectivePeriod o) = Some e /\ StartsAt (obs_EffectivePeriod o) < e /\
    forall now, AccessAt (obs_Access o) (obs_AccessReason o) (EndsAt (obs_EffectivePeriod o)) now =
      if now <? e then (AccessAllowed, obs_AccessReason o) else (AccessDenied, AccessReasonExpired).
Proof.
  intros Hv%observation_parts Hk Ha. destruct Hv as [_ _ _ _ Hp _ _ _ _ Hallow _ _ _ _].
  destruct (Hallow Ha) as (_ & _ & _ & He). destruct (He Hk) as [e Hend].
  exists e. split; [done|]. split; [by apply Hp|].
  intros now. rewrite Hend. unfold AccessAt, Before. rewrite Ha.
  destruct (now <? e); reflexivity.
Qed.

(** A Google-style monthly subscription, valid from 1000 to 4000. *)
Definition sample_observation : PurchaseObservation :=
  mkObservation "obs-1" "app-1"
    (mkStoreApplication ProviderGooglePlay EnvironmentProduction "com.example.app")
    "premium_monthly" ProductKindSubscription LifecycleActive "SUBSCRIPTION_STATE_ACTIVE"
    AccessAllowed AccessReasonPurchaseValid OwnershipPurchased 1
    (Some (mkPurchasePrice 9990 "EUR")) 1000 2000 (mkPeriod 1000 (Some 4000))
    (mkRenewal RenewalAuto RenewalEnabled EmptyString (Some 4000))
    [mkStoreReference ReferenceTransaction "google_order_id" "GPA.1"] EmptyString.

Lemma subscription_access_bounded_witness :
  PurchaseObservation_Validate sample_observation = None /\
  exists e, EndsAt (obs_EffectivePeriod sample_observation) = Some e /\
    StartsAt (obs_EffectivePeriod sample_observation) < e.
Proof.
  assert (H : PurchaseObservation_Validate sample_observation = None) by (vm_compute; reflexivity).
  split; [exact H|].
  destruct (subscription_access_bounded sample_observation H eq_refl eq_refl) as (e & He & Hs & _).
  exists e. split; assumption.
Defined.
