(* ===== verification/Decimal.v ===== *)
(** Exact decimals for money fields ([internal/persistence/decimal.go]): parsing,
    printing, arithmetic at a scale and conversion to 64-bit minor units. *)

From S2P Require Import Prelude GoText Core.
From stdpp Require Import base list strings.
Local Open Scope Z_scope.

(** ** Fixed-width integers *)

Definition int32_wrap (z : Z) : Z := (z + 2 ^ 31) mod 2 ^ 32 - 2 ^ 31.
Definition fits_int64 (z : Z) : bool := in_range (- 2 ^ 63) (2 ^ 63 - 1) z.

(** ** The [strings] and [math/big] functions used *)

(** [strings.Cut] at one byte. *)
Fixpoint cut_byte (sep : Z) (l : list Z) : list Z * list Z * bool :=
  match l with
  | [] => ([], [], false)
  | b :: l' =>
      if b =? sep then ([], l', true)
      else let '(before, after, found) := cut_byte sep l' in (b :: before, after, found)
  end.

Definition is_digit_byte (b : Z) : bool := in_range 48 57 b.
Definition digit_values (l : list Z) : list Z := map (fun b => b - 48) l.

(** An optional leading sign. *)
Definition split_sign (l : list Z) : Z * list Z :=
  match l with
  | b :: rest => if b =? 43 then (1, rest) else if b =? 45 then (-1, rest) else (1, l)
  | [] => (1, [])
  end.

(** [new(big.Int).SetString(s, 10)]: an optional sign and one or more digits. *)
Definition big_SetString10 (l : list Z) : option Z :=
  let '(sign, magnitude) := split_sign l in
  if negb (Nat.eqb (length magnitude) 0) && forallb is_digit_byte magnitude
  then Some (sign * value_of_digits (digit_values magnitude)) else None.

(** ** Decimals *)

(* internal/persistence/decimal.go: ErrDecimalInvalid *)
Definition ErrDecimalInvalid : gerror := Sentinel "persistence.ErrDecimalInvalid".
(* internal/persistence/decimal.go: ErrDecimalScale *)
Definition ErrDecimalScale : gerror := Sentinel "persistence.ErrDecimalScale".
(* internal/persistence/decimal.go: ErrDecimalOverflow *)
Definition ErrDecimalOverflow : gerror := Sentinel "persistence.ErrDecimalOverflow".

(** A nil coefficient, the zero value of the struct, is [None]. *)
(* internal/persistence/decimal.go: Decimal *)
Record Decimal : Type := mkDecimal {
  coefficient : option Z;
  scale : Z
}.

(* internal/persistence/decimal.go: allDigits *)
Definition allDigits (value : string) : bool :=
  negb (String.eqb value EmptyString) &&
  forallb (fun character => negb ((character <? 48) || (57 <? character))) (runes value).

(* internal/persistence/decimal.go: decimalPow10 *)
Definition decimalPow10 (exponent : Z) : Z := if exponent <=? 0 then 1 else 10 ^ exponent.

(* internal/persistence/decimal.go: ParseDecimal *)
Definition ParseDecimal (raw : string) : result Decimal :=
  if String.eqb raw EmptyString || negb (String.eqb (TrimSpace raw) raw) || (80 <? len raw)
  then Err ErrDecimalInvalid
  else
    let '(sign, digits) := split_sign (bytes raw) in
    if Nat.eqb (length digits) 0 || existsb (fun b => (b =? 101) || (b =? 69) || (b =? 43)) digits
    then Err ErrDecimalInvalid
    else
      let '(whole, fraction, found) := cut_byte 46 digits in
      if existsb (Z.eqb 46) fraction || Nat.eqb (length whole) 0
         || (found && Nat.eqb (length fraction) 0)
      then Err ErrDecimalInvalid
      else if negb (allDigits (of_bytes whole)) || (found && negb (allDigits (of_bytes fraction)))
      then Err ErrDecimalInvalid
      else if 18 <? int32_wrap (Z.of_nat (length fraction)) then Err ErrDecimalInvalid
      else match big_SetString10 (whole ++ fraction) with
           | None => Err ErrDecimalInvalid
           | Some coefficient =>
               let coefficient := if (sign <? 0) && negb (coefficient =? 0)
                                  then - coefficient else coefficient in
               Ok (mkDecimal (Some coefficient) (int32_wrap (Z.of_nat (length fraction))))
           end.

(* internal/persistence/decimal.go: Decimal.String *)
Definition Decimal_String (decimal : Decimal) : string :=
  match coefficient decimal with
  | None => EmptyString
  | Some coefficient =>
      let sign := if coefficient <? 0 then [45] else [] in
      let digits := bytes (FormatInt (Z.abs coefficient)) in
      of_bytes
        (if scale decimal =? 0 then sign ++ digits
         else if int32_wrap (Z.of_nat (length digits)) <=? scale decimal then
           sign ++ [48; 46] ++
             replicate (Z.to_nat (scale decimal) - length digits) 48 ++ digits
         else
           let split := (length digits - Z.to_nat (scale decimal))%nat in
           sign ++ take split digits ++ [46] ++ drop split digits)
  end.

(* internal/persistence/decimal.go: Decimal.Sign *)
Definition Decimal_Sign (decimal : Decimal) : Z :=
  match coefficient decimal with None => 0 | Some c => Z.sgn c end.

(* internal/persistence/decimal.go: Decimal.Add *)
Definition Decimal_Add (decimal other : Decimal) : result Decimal :=
  match coefficient decimal, coefficient other with
  | Some c1, Some c2 =>
      if negb (scale decimal =? scale other) then Err ErrDecimalScale
      else Ok (mkDecimal (Some (c1 + c2)) (scale decimal))
  | _, _ => Err ErrDecimalInvalid
  end.

(* internal/persistence/decimal.go: Decimal.Mul *)
Definition Decimal_Mul (decimal other : Decimal) : Decimal :=
  match coefficient decimal, coefficient other with
  | Some c1, Some c2 => mkDecimal (Some (c1 * c2)) (int32_wrap (scale decimal + scale other))
  | _, _ => mkDecimal None 0
  end.

(** [big.Int.Cmp]. *)
Definition big_Cmp (x y : Z) : Z := if x <? y then -1 else if y <? x then 1 else 0.

(* internal/persistence/decimal.go: Decimal.Cmp *)
Definition Decimal_Cmp (decimal other : Decimal) : Z :=
  match coefficient decimal, coefficient other with
  | Some c1, Some c2 =>
      if scale decimal <? scale other then
        big_Cmp (c1 * decimalPow10 (int32_wrap (scale other - scale decimal))) c2
      else if scale other <? scale decimal then
        big_Cmp c1 (c2 * decimalPow10 (int32_wrap (scale decimal - scale other)))
      else big_Cmp c1 c2
  | _, _ => 0
  end.

(* internal/persistence/decimal.go: Decimal.Rescale *)
Definition Decimal_Rescale (decimal : Decimal) (target : Z) : result Decimal :=
  match coefficient decimal with
  | None => Err ErrDecimalInvalid
  | Some c =>
      if target <? 0 then Err ErrDecimalInvalid
      else if target <? scale decimal then Err ErrDecimalScale
      else if target =? scale decimal then Ok decimal
      else Ok (mkDecimal (Some (c * decimalPow10 (int32_wrap (target - scale decimal)))) target)
  end.

(* internal/persistence/decimal.go: Decimal.ExactInt64 *)
Definition Decimal_ExactInt64 (decimal : Decimal) : Z * bool :=
  match coefficient decimal with
  | Some c => if fits_int64 c then (c, true) else (0, false)
  | None => (0, false)
  end.

(** [Ok None] is the nil pointer of a coarser scale. *)
(* internal/persistence/decimal.go: Decimal.MinorUnits *)
Definition Decimal_MinorUnits (decimal : Decimal) (exponent : Z) : result (option Z) :=
  match coefficient decimal with
  | None => Err ErrDecimalInvalid
  | Some c =>
      if (scale decimal <? 0) || (exponent <? 0) then Err ErrDecimalInvalid
      else if scale decimal <? exponent then Ok None
      else
        let divisor := decimalPow10 (int32_wrap (scale decimal - exponent)) in
        if (exponent <? scale decimal) && negb (Z.rem c divisor =? 0) then Err ErrDecimalScale
        else
          let value := if exponent <? scale decimal then Z.quot c divisor else c in
          if fits_int64 value then Ok (Some value) else Err ErrDecimalOverflow
  end.

(** ** Lemmas on the text form *)

(** The bytes of a digit list and of a decimal with whole digits [W], fraction
    digits [F] and a sign. *)
Definition digit_text (ds : list Z) : list Z := map (fun d => 48 + d) ds.
Definition decimal_text (sign W F : list Z) : list Z :=
  sign ++ digit_text W ++ (if decide (F = []) then [] else 46 :: digit_text F).

Lemma digit_text_bytes ds : Forall is_digit ds -> Forall (fun b => 48 <= b <= 57) (digit_text ds).
Proof. induction 1 as [|d ds Hd _ IH]; simpl; constructor; auto. unfold is_digit in Hd. lia. Qed.

Lemma digit_text_values ds : digit_values (digit_text ds) = ds.
Proof.
  unfold digit_values, digit_text. rewrite map_map. rewrite <- (map_id ds) at 2.
  apply map_ext. intros. lia.
Qed.

Lemma digit_values_text l : digit_text (digit_values l) = l.
Proof.
  unfold digit_values, digit_text. rewrite map_map. rewrite <- (map_id l) at 2.
  apply map_ext. intros. lia.
Qed.

Lemma digit_values_digit l : Forall (fun b => 48 <= b <= 57) l -> Forall is_digit (digit_values l).
Proof. induction 1 as [|b l Hb _ IH]; simpl; constructor; auto. unfold is_digit. lia. Qed.

Lemma allDigits_bytes l :
  Forall is_byte l ->
  allDigits (of_bytes l) = true <-> l <> [] /\ Forall (fun b => 48 <= b <= 57) l.
Proof.
  intros Hl. unfold allDigits. bool_simpl.
  assert (Hnil : of_bytes l <> EmptyString <-> l <> []) by (destruct l; naive_solver).
  rewrite Hnil, forallb_forall, <- List.Forall_forall.
  assert (Hr : Forall (fun b => b < 128) (runes (of_bytes l)) \/ Forall (fun b => 0 <= b < 128) l ->
               runes (of_bytes l) = l).
  { intros [H|H].
    - rewrite runes_only_ascii by done. by apply bytes_of_bytes.
    - unfold runes. rewrite length_of_bytes, bytes_of_bytes by done. by apply runes_fuel_ascii. }
  split; intros [Hne H]; split; auto.
  - rewrite <- Hr.
    + eapply Forall_impl; [exact H|]. simpl. lia.
    + left. eapply Forall_impl; [exact H|]. simpl. lia.
  - rewrite Hr.
    + eapply Forall_impl; [exact H|]. simpl. lia.
    + right. eapply Forall_impl; [exact H|]. simpl. lia.
Qed.

Lemma cut_byte_absent sep l : ~ In sep l -> cut_byte sep l = (l, [], false).
Proof.
  induction l as [|b l IH]; simpl; intros H; [done|].
  destruct (Z.eqb_spec b sep); [naive_solver|]. rewrite IH by tauto. done.
Qed.

Lemma cut_byte_at sep l1 l2 : ~ In sep l1 -> cut_byte sep (l1 ++ sep :: l2) = (l1, l2, true).
Proof.
  induction l1 as [|b l1 IH]; simpl; intros H; [by rewrite Z.eqb_refl|].
  destruct (Z.eqb_spec b sep); [naive_solver|]. rewrite IH by tauto. done.
Qed.

Lemma cut_byte_inv sep l before after found :
  cut_byte sep l = (before, after, found) ->
  l = before ++ (if found then sep :: after else after) /\ (found = false -> after = []).
Proof.
  revert before after found. induction l as [|b l IH]; simpl; intros before after found H.
  - simplify_eq. done.
  - destruct (Z.eqb_spec b sep); simplify_eq; [done|].
    destruct (cut_byte sep l) as [[x y] z]. simplify_eq.
    destruct (IH _ _ _ eq_refl) as [-> ?]. done.
Qed.

Lemma split_sign_none l : (match l with b :: _ => b <> 43 /\ b <> 45 | [] => True end) ->
  split_sign l = (1, l).
Proof.
  destruct l as [|b l]; simpl; [done|]. intros [H1 H2].
  by rewrite (proj2 (Z.eqb_neq b 43) H1), (proj2 (Z.eqb_neq b 45) H2).
Qed.

Lemma big_SetString10_digits l :
  l <> [] -> Forall (fun b => 48 <= b <= 57) l ->
  big_SetString10 l = Some (value_of_digits (digit_values l)).
Proof.
  intros Hne H. unfold big_SetString10.
  assert (Hm : forallb is_digit_byte l = true).
  { apply forallb_forall. intros x Hx.
    rewrite List.Forall_forall in H. specialize (H x Hx). unfold is_digit_byte, in_range. lia. }
  rewrite split_sign_none by (destruct l; [done|]; apply Forall_cons in H as [? _]; simpl; lia).
  rewrite Hm. destruct l; [done|]. simpl andb. cbv beta iota. f_equal. lia.
Qed.

Lemma int32_small n : 0 <= n < 2 ^ 31 -> int32_wrap n = n.
Proof. intros H. unfold int32_wrap. rewrite Z.mod_small by lia. lia. Qed.

(** A decimal text is graphic, so it is trimmed and its length is its bytes'. *)
Lemma decimal_text_graphic sign W F :
  In sign [[]; [43]; [45]] -> W <> [] -> Forall is_digit W -> Forall is_digit F ->
  Forall (fun b => graphic b = true) (decimal_text sign W F).
Proof.
  intros Hs HW HdW HdF.
  assert (Hd : forall ds, Forall is_digit ds -> Forall (fun b => graphic b = true) (digit_text ds)).
  { intros ds Hds. eapply Forall_impl; [by apply digit_text_bytes|].
    simpl. intros b Hb. unfold graphic, in_range. lia. }
  unfold decimal_text. rewrite !Forall_app. split; [|split]; [|by apply Hd|].
  - simpl in Hs. decompose [or] Hs; subst; repeat constructor; done.
  - case_decide; [constructor|]. constructor; [done|]. by apply Hd.
Qed.

Lemma graphic_TrimSpace l :
  l <> [] -> Forall (fun b => graphic b = true) l -> TrimSpace (of_bytes l) = of_bytes l.
Proof.
  intros Hne H.
  assert (Hb : Forall is_byte l) by (eapply Forall_impl; [exact H|]; apply graphic_byte).
  assert (Hg : graphic_string (of_bytes l) = true).
  { unfold graphic_string. rewrite bytes_of_bytes by done. bool_simpl. split.
    - destruct l; done.
    - apply forallb_forall. by apply List.Forall_forall. }
  apply graphic_identifier in Hg as (Hn & _ & H1 & H2 & _). by apply TrimSpace_id.
Qed.

Definition sign_of (sign : list Z) : Z := if decide (sign = [45]) then -1 else 1.

(** The shape of an accepted text. *)
Record decimal_shape (sign W F : list Z) : Prop := {
  ds_sign : In sign [[]; [43]; [45]];
  ds_whole : W <> [];
  ds_whole_digits : Forall is_digit W;
  ds_fraction_digits : Forall is_digit F;
  ds_scale : (length F <= 18)%nat;
  ds_length : (length (decimal_text sign W F) <= 80)%nat
}.

Lemma split_sign_text sign W F :
  decimal_shape sign W F ->
  split_sign (decimal_text sign W F) = (sign_of sign, decimal_text [] W F).
Proof.
  intros [Hs HW HdW _ _ _]. simpl in Hs.
  destruct Hs as [<-|[<-|[<-|[]]]]; [|reflexivity|reflexivity].
  change (decimal_text [] W F) with (digit_text W ++ (if decide (F = []) then [] else 46 :: digit_text F)).
  destruct W as [|w W]; [done|]. apply Forall_cons in HdW as [Hw _]. unfold is_digit in Hw.
  apply split_sign_none. simpl. lia.
Qed.

Lemma In_digit_text b ds : Forall is_digit ds -> In b (digit_text ds) -> 48 <= b <= 57.
Proof. intros Hds%digit_text_bytes Hin. rewrite List.Forall_forall in Hds. auto. Qed.

Lemma digit_text_no b ds : b < 48 -> Forall is_digit ds -> ~ In b (digit_text ds).
Proof.
  intros Hb Hds Hin. pose proof (In_digit_text _ _ Hds Hin). lia.
Qed.

Lemma cut_text W F :
  Forall is_digit W ->
  cut_byte 46 (decimal_text [] W F) =
  (digit_text W, digit_text F, negb (bool_decide (F = []))).
Proof.
  intros HW. unfold decimal_text. simpl. case_decide as HF.
  - subst. rewrite app_nil_r. apply cut_byte_absent. by apply digit_text_no.
  - rewrite bool_decide_eq_false_2 by done. apply cut_byte_at. by apply digit_text_no.
Qed.

Lemma graphic_bytes l : Forall (fun b => graphic b = true) l -> Forall is_byte l.
Proof. intros H. eapply Forall_impl; [exact H|]. apply graphic_byte. Qed.

Lemma existsb_false {A} (f : A -> bool) l : (forall x, In x l -> f x = false) -> existsb f l = false.
Proof. intros H. apply existsb_false_Forall, List.Forall_forall. exact H. Qed.

Lemma digit_text_nil ds : digit_text ds = [] <-> ds = [].
Proof. destruct ds; naive_solver. Qed.

Lemma allDigits_text ds : Forall is_digit ds -> allDigits (of_bytes (digit_text ds)) = negb (bool_decide (ds = [])).
Proof.
  intros Hds. pose proof (digit_text_bytes _ Hds) as Hb.
  assert (Hy : Forall is_byte (digit_text ds)).
  { eapply Forall_impl; [exact Hb|]. unfold is_byte. simpl. lia. }
  destruct (bool_decide_reflect (ds = [])) as [->|Hne]; [reflexivity|].
  apply allDigits_bytes; [done|]. by rewrite digit_text_nil.
Qed.

Lemma neg_value (s v : Z) :
  (s = 1 \/ s = -1) -> (if (s <? 0) && negb (v =? 0) then - v else v) = s * v.
Proof. intros [-> | ->]; destruct (Z.eqb_spec v 0); simpl; lia. Qed.

Lemma unsigned_text_chars W F x :
  Forall is_digit W -> Forall is_digit F -> In x (decimal_text [] W F) ->
  (x =? 101) || (x =? 69) || (x =? 43) = false.
Proof.
  intros HW HF Hx. unfold decimal_text in Hx. simpl in Hx. apply in_app_or in Hx as [Hx|Hx].
  - apply In_digit_text in Hx; [lia|done].
  - case_decide; [done|]. destruct Hx as [<-|Hx]; [done|]. apply In_digit_text in Hx; [lia|done].
Qed.

Lemma parse_text sign W F :
  decimal_shape sign W F ->
  ParseDecimal (of_bytes (decimal_text sign W F)) =
  Ok (mkDecimal (Some (sign_of sign * value_of_digits (W ++ F))) (Z.of_nat (length F))).
Proof.
  intros Hsh. pose proof Hsh as [Hs HW HdW HdF HF Hlen].
  pose proof (decimal_text_graphic sign W F Hs HW HdW HdF) as Hg.
  pose proof (graphic_bytes _ Hg) as Hb.
  assert (Hne : decimal_text sign W F <> []).
  { unfold decimal_text. destruct sign; [|done]. destruct W; done. }
  unfold ParseDecimal. rewrite (graphic_TrimSpace _ Hne Hg), String.eqb_refl, bytes_of_bytes by done.
  assert (String.eqb (of_bytes (decimal_text sign W F)) EmptyString = false) as ->
    by (apply String.eqb_neq; destruct (decimal_text sign W F); done).
  assert (80 <? len (of_bytes (decimal_text sign W F)) = false) as ->
    by (unfold len; rewrite length_of_bytes; lia).
  cbn [orb negb]. rewrite (split_sign_text _ _ _ Hsh).
  assert (Nat.eqb (length (decimal_text [] W F)) 0 = false) as ->
    by (destruct W; [done|]; reflexivity).
  rewrite existsb_false by (intros x Hx; by apply (unsigned_text_chars W F)).
  rewrite cut_text by done. cbn [orb].
  rewrite existsb_false by (intros x Hx%In_digit_text; [lia|done]).
  assert (Nat.eqb (length (digit_text W)) 0 = false) as -> by (destruct W; done).
  assert (negb (bool_decide (F = [])) && Nat.eqb (length (digit_text F)) 0 = false) as ->
    by (destruct F; done).
  rewrite !allDigits_text, (bool_decide_eq_false_2 (W = [])) by done.
  assert (forall b, negb (negb false) || (negb b && negb (negb b)) = false) as -> by (by intros []).
  assert (length (digit_text F) = length F) as -> by apply length_map.
  rewrite int32_small by lia.
  assert (18 <? Z.of_nat (length F) = false) as -> by lia.
  assert (digit_text W ++ digit_text F = digit_text (W ++ F)) as ->
    by (unfold digit_text; by rewrite map_app).
  cbn [orb]. rewrite big_SetString10_digits.
  - rewrite digit_text_values, neg_value; [done|].
    unfold sign_of. case_decide; auto.
  - rewrite digit_text_nil. destruct W; done.
  - apply digit_text_bytes. by apply Forall_app.
Qed.

Lemma split_sign_inv l s rest :
  split_sign l = (s, rest) -> exists sign, In sign [[]; [43]; [45]] /\ l = sign ++ rest /\ s = sign_of sign.
Proof.
  destruct l as [|b l]; simpl; intros H; [simplify_eq; exists []; naive_solver|].
  destruct (Z.eqb_spec b 43); [simplify_eq; exists [43]; naive_solver|].
  destruct (Z.eqb_spec b 45); simplify_eq; [exists [45]|exists []]; naive_solver.
Qed.

Lemma parse_shape raw d :
  ParseDecimal raw = Ok d ->
  exists sign W F, decimal_shape sign W F /\ raw = of_bytes (decimal_text sign W F).
Proof.
  unfold ParseDecimal. pose proof (bytes_bounded raw) as Hb. intros H.
  case_hyp H as H0. bool_simpl in *. destruct H0 as [[_ _] Hlen].
  destruct (split_sign (bytes raw)) as [s l] eqn:Hs.
  apply split_sign_inv in Hs as (sign & Hsign & Hraw & ->).
  assert (Hl : Forall is_byte l) by (rewrite Hraw in Hb; apply Forall_app in Hb; tauto).
  case_hyp H as Hch. destruct (cut_byte 46 l) as [[W F] found] eqn:Hcut.
  apply cut_byte_inv in Hcut as [-> Hfound]. 
  case_hyp H as Hcut. case_hyp H as Hdig. case_hyp H as Hscale. clear H.
  bool_simpl in *.
  apply Forall_app in Hl as [HbW HbF].
  assert (HbF' : Forall is_byte F) by (destruct found; [apply Forall_cons in HbF; tauto|done]).
  destruct Hdig as [HW HF]. apply allDigits_bytes in HW as [HneW HW]; [|done].
  assert (HF' : Forall (fun b => 48 <= b <= 57) F /\ (found = true <-> F <> [])).
  { destruct found; [|rewrite (Hfound eq_refl); split; [constructor|naive_solver]].
    destruct HF as [?|HF]; [done|]. apply allDigits_bytes in HF as [??]; done. }
  destruct HF' as [HdF Hiff].
  assert (Hn : (length F <= 80)%nat).
  { unfold len in Hlen. rewrite <- length_bytes, Hraw, !length_app in Hlen.
    destruct found; simpl in Hlen; lia. }
  rewrite int32_small in Hscale by lia.
  assert (Htext : decimal_text sign (digit_values W) (digit_values F) = bytes raw).
  { unfold decimal_text. rewrite !digit_values_text, Hraw. f_equal. f_equal.
    case_decide as HF0.
    - destruct F; [|done]. by destruct found; [naive_solver|].
    - destruct found; [done|]. by rewrite Hfound in HF0. }
  exists sign, (digit_values W), (digit_values F). rewrite Htext, of_bytes_bytes. split; [|done].
  split; auto using digit_values_digit.
  - by destruct W.
  - unfold digit_values. rewrite length_map. lia.
  - rewrite Htext, length_bytes. unfold len in Hlen. lia.
Qed.

(** ** Lemmas on printing *)

Lemma digits_abs_text c : bytes (FormatInt (Z.abs c)) = digit_text (digits (Z.abs c)).
Proof. rewrite bytes_FormatInt. by assert (Z.abs c <? 0 = false) as -> by lia. Qed.

Lemma digit_text_app l1 l2 : digit_text (l1 ++ l2) = digit_text l1 ++ digit_text l2.
Proof. unfold digit_text. apply map_app. Qed.

Lemma digit_text_zeros n : digit_text (replicate n 0) = replicate n 48.
Proof. unfold digit_text. induction n as [|n IH]; simpl; [done|]. by rewrite IH. Qed.

(** The whole and fraction digits of a printed coefficient. *)
Definition whole_digits (c : Z) (s : nat) : list Z :=
  let ds := digits c in
  if (length ds <=? s)%nat then [0] else take (length ds - s) ds.
Definition fraction_digits (c : Z) (s : nat) : list Z :=
  let ds := digits c in
  if (length ds <=? s)%nat then replicate (s - length ds) 0 ++ ds else drop (length ds - s) ds.

Lemma fraction_length c s : length (fraction_digits c s) = s.
Proof.
  unfold fraction_digits. destruct (Nat.leb_spec (length (digits c)) s).
  - rewrite length_app, length_replicate. lia.
  - rewrite length_drop. lia.
Qed.

Lemma whole_fraction_value c s :
  0 <= c -> value_of_digits (whole_digits c s ++ fraction_digits c s) = c.
Proof.
  intros Hc. unfold whole_digits, fraction_digits.
  destruct (Nat.leb_spec (length (digits c)) s).
  - rewrite app_assoc, value_of_digits_app, digits_value by done.
    change ([0] ++ replicate (s - length (digits c)) 0) with (replicate (S (s - length (digits c))) 0).
    rewrite value_of_zeros. lia.
  - rewrite take_drop. by apply digits_value.
Qed.

Lemma whole_fraction_digits c s :
  0 <= c -> Forall is_digit (whole_digits c s) /\ Forall is_digit (fraction_digits c s) /\
            whole_digits c s <> [].
Proof.
  intros Hc. pose proof (digits_digit c Hc) as Hd. unfold whole_digits, fraction_digits.
  assert (H0 : is_digit 0) by (unfold is_digit; lia).
  destruct (Nat.leb_spec (length (digits c)) s); split_and!.
  - by constructor.
  - apply Forall_app. split; [|done]. by apply Forall_replicate.
  - done.
  - by apply Forall_take.
  - by apply Forall_drop.
  - intros Hn%(f_equal length). rewrite length_take in Hn. simpl in Hn. lia.
Qed.

Lemma digits_length_31 c s :
  Z.of_nat (length (digits c)) < 2 ^ 31 ->
  (int32_wrap (Z.of_nat (length (digits c))) <=? Z.of_nat s) = (length (digits c) <=? s)%nat.
Proof. intros H. rewrite int32_small by lia. destruct (Nat.leb_spec (length (digits c)) s); lia. Qed.

Lemma print_text c s :
  Z.of_nat (length (digits (Z.abs c))) < 2 ^ 31 ->
  Decimal_String (mkDecimal (Some c) (Z.of_nat s)) =
  of_bytes (decimal_text (if c <? 0 then [45] else [])
              (whole_digits (Z.abs c) s) (fraction_digits (Z.abs c) s)).
Proof.
  intros Hlen. unfold Decimal_String. cbn [coefficient scale]. rewrite digits_abs_text. f_equal.
  unfold decimal_text. pose proof (fraction_length (Z.abs c) s) as Hf.
  destruct (Z.eqb_spec (Z.of_nat s) 0) as [Hs|Hs].
  - assert (s = 0%nat) as -> by lia. destruct (fraction_digits (Z.abs c) 0) eqn:E; [|done].
    rewrite decide_True, app_nil_r by done. f_equal. unfold whole_digits.
    pose proof (digits_length (Z.abs c)).
    destruct (Nat.leb_spec (length (digits (Z.abs c))) 0); [lia|].
    rewrite Nat.sub_0_r, firstn_all. done.
  - rewrite decide_False by (intros E; rewrite E in Hf; simpl in Hf; lia).
    assert (length (digit_text (digits (Z.abs c))) = length (digits (Z.abs c))) as ->
      by apply length_map.
    rewrite digits_length_31, Nat2Z.id by done. unfold whole_digits, fraction_digits.
    destruct (Nat.leb_spec (length (digits (Z.abs c))) s).
    + rewrite digit_text_app, digit_text_zeros. done.
    + unfold digit_text. by rewrite !firstn_map, !skipn_map.
Qed.

Lemma sign_of_print c : sign_of (if c <? 0 then [45] else []) * Z.abs c = c.
Proof. unfold sign_of. destruct (Z.ltb_spec c 0); simpl; lia. Qed.

Lemma print_sign c : In (if c <? 0 then [45] else []) [[]; [43]; [45]].
Proof. destruct (c <? 0); simpl; auto. Qed.

Lemma length_decimal_text sign W F :
  length (decimal_text sign W F) =
  (length sign + length W + (if decide (F = []) then 0 else 1 + length F))%nat.
Proof.
  unfold decimal_text, digit_text. rewrite !length_app, length_map.
  case_decide; simpl; rewrite ?length_map; lia.
Qed.

Lemma printed_shape c s :
  (s <= 18)%nat -> (length (decimal_text (if (c <? 0)%Z then [45%Z] else [])
              (whole_digits (Z.abs c) s) (fraction_digits (Z.abs c) s)) <= 80)%nat ->
  decimal_shape (if c <? 0 then [45] else []) (whole_digits (Z.abs c) s) (fraction_digits (Z.abs c) s).
Proof.
  intros Hs Hlen. destruct (whole_fraction_digits (Z.abs c) s ltac:(lia)) as (HW & HF & Hne).
  split; auto using print_sign. rewrite fraction_length. lia.
Qed.

Lemma printed_reparse c s :
  Z.of_nat (length (digits (Z.abs c))) < 2 ^ 31 ->
  (s <= 18)%nat -> (length (decimal_text (if (c <? 0)%Z then [45%Z] else [])
              (whole_digits (Z.abs c) s) (fraction_digits (Z.abs c) s)) <= 80)%nat ->
  ParseDecimal (Decimal_String (mkDecimal (Some c) (Z.of_nat s))) =
  Ok (mkDecimal (Some c) (Z.of_nat s)).
Proof.
  intros Hd Hs Hlen. rewrite print_text by done.
  rewrite (parse_text _ _ _ (printed_shape c s Hs Hlen)).
  by rewrite whole_fraction_value, sign_of_print, fraction_length by lia.
Qed.

Lemma whole_length c s : length (whole_digits c s) = Nat.max 1 (length (digits c) - s).
Proof.
  unfold whole_digits. pose proof (digits_length c).
  destruct (Nat.leb_spec (length (digits c)) s); simpl; [lia|].
  rewrite length_take. lia.
Qed.

(** Printing loses nothing: every decimal of at most eighteen fraction digits
    and fewer than seventy-eight digits in all is read back as itself, with its
    scale and trailing zeros. *)
Theorem decimal_print_parse (c s : Z) :
  0 <= s <= 18 -> Z.abs c < 10 ^ 78 ->
  ParseDecimal (Decimal_String (mkDecimal (Some c) s)) = Ok (mkDecimal (Some c) s).
Proof.
  intros Hs Hc.
  pose proof (digits_length_bound (Z.abs c) 77 ltac:(split; [lia|exact Hc])) as Hd.
  rewrite <- (Z2Nat.id s) by lia. apply printed_reparse; [lia|lia|].
  rewrite length_decimal_text, whole_length, fraction_length.
  assert (length (if (c <? 0)%Z then [45%Z] else []) <= 1)%nat by (destruct (c <? 0)%Z; simpl; lia).
  case_decide as HF; [lia|]. lia.
Qed.

Lemma decimal_print_parse_witness :
  Decimal_String (mkDecimal (Some (-50)) 3) = "-0.050"%string /\
  ParseDecimal "-0.050" = Ok (mkDecimal (Some (-50)) 3).
Proof.
  split; [vm_compute; reflexivity|].
  exact (decimal_print_parse (-50) 3 ltac:(lia) ltac:(vm_compute; reflexivity)).
Defined.

(** Reading is canonical: an accepted text has at most eighteen fraction
    digits, its decimal prints no longer than the text, and what is printed is
    accepted again and gives the same decimal. *)
Theorem decimal_parse_canonical (raw : string) (d : Decimal) :
  ParseDecimal raw = Ok d ->
  0 <= scale d <= 18 /\ len (Decimal_String d) <= len raw /\
  ParseDecimal (Decimal_String d) = Ok d.
Proof.
  intros H. destruct (parse_shape raw d H) as (sign & W & F & Hsh & ->).
  rewrite (parse_text _ _ _ Hsh) in H. injection H as <-. destruct Hsh as [Hs HW HdW HdF HF Hlen].
  set (c := sign_of sign * value_of_digits (W ++ F)).
  assert (Hds : Forall is_digit (W ++ F)) by (by apply Forall_app).
  pose proof (value_of_digits_bound _ Hds) as Hb.
  assert (Habs : Z.abs c = value_of_digits (W ++ F)) by (unfold c, sign_of; case_decide; lia).
  assert (Hk : (length (digits (Z.abs c)) <= length W + length F)%nat).
  { rewrite Habs. destruct W as [|w W]; [done|].
    rewrite <- length_app. apply (digits_length_bound _ (length (W ++ F))). exact Hb. }
  assert (Hsg : (length (if (c <? 0)%Z then [45%Z] else []) <= length sign)%nat).
  { destruct (Z.ltb_spec c 0) as [Hneg|]; simpl; [|lia].
    unfold c, sign_of in Hneg. case_decide; [subst; simpl; lia|lia]. }
  assert (HlenW : (length W <= 80)%nat) by (rewrite length_decimal_text in Hlen; lia).
  assert (HlW : (1 <= length W)%nat) by (destruct W; [done|simpl; lia]).
  assert (Hlt : (length (decimal_text (if (c <? 0)%Z then [45%Z] else [])
     (whole_digits (Z.abs c) (length F)) (fraction_digits (Z.abs c) (length F)))
     <= length (decimal_text sign W F))%nat).
  { rewrite !length_decimal_text, whole_length, fraction_length.
    assert (fraction_digits (Z.abs c) (length F) = [] <-> F = []) as Hiff.
    { rewrite <- !length_zero_iff_nil, fraction_length. done. }
    destruct (decide (F = [])) as [HF0|HF0];
      [rewrite decide_True by tauto|rewrite decide_False by tauto]; lia. }
  cbn [scale]. split; [lia|]. split.
  - rewrite print_text by lia. unfold len. rewrite !length_of_bytes. lia.
  - apply printed_reparse; lia.
Qed.

Lemma decimal_parse_canonical_witness :
  ParseDecimal "+007.10" = Ok (mkDecimal (Some 710) 2) /\
  ParseDecimal (Decimal_String (mkDecimal (Some 710) 2)) = Ok (mkDecimal (Some 710) 2).
Proof.
  assert (H : ParseDecimal "+007.10" = Ok (mkDecimal (Some 710) 2)) by (vm_compute; reflexivity).
  split; [exact H|]. exact (proj2 (proj2 (decimal_parse_canonical _ _ H))).
Defined.

(** ** Comparison, scale and minor units *)

Lemma decimalPow10_pow n : 0 <= n -> decimalPow10 n = 10 ^ n.
Proof. intros H. unfold decimalPow10. destruct (Z.leb_spec n 0); [|done]. by assert (n = 0) as -> by lia. Qed.

Lemma pow10_pos n : 0 <= n -> 0 < 10 ^ n.
Proof. intros H. apply Z.pow_pos_nonneg; lia. Qed.

Lemma big_Cmp_scale k x y : 0 < k -> big_Cmp x y = Z.sgn (k * x - k * y).
Proof.
  intros Hk. unfold big_Cmp. rewrite <- Z.mul_sub_distr_l, Z.sgn_mul, (Z.sgn_pos k) by done.
  destruct (Z.ltb_spec x y), (Z.ltb_spec y x); lia.
Qed.

Lemma pow10_split a b : 0 <= a -> a <= b -> 10 ^ b = 10 ^ a * 10 ^ (b - a).
Proof. intros. rewrite <- Z.pow_add_r by lia. f_equal. lia. Qed.

Lemma Cmp_sgn c1 c2 s1 s2 :
  0 <= s1 < 2 ^ 31 -> 0 <= s2 < 2 ^ 31 ->
  Decimal_Cmp (mkDecimal (Some c1) s1) (mkDecimal (Some c2) s2) =
  Z.sgn (c1 * 10 ^ s2 - c2 * 10 ^ s1).
Proof.
  intros H1 H2. unfold Decimal_Cmp. cbn [coefficient scale].
  destruct (Z.ltb_spec s1 s2); [|destruct (Z.ltb_spec s2 s1)].
  - rewrite int32_small, decimalPow10_pow, (big_Cmp_scale (10 ^ s1)) by (try apply pow10_pos; lia).
    rewrite (pow10_split s1 s2) by lia. f_equal. ring.
  - rewrite int32_small, decimalPow10_pow, (big_Cmp_scale (10 ^ s2)) by (try apply pow10_pos; lia).
    rewrite (pow10_split s2 s1) by lia. f_equal. ring.
  - assert (s1 = s2) as -> by lia. rewrite (big_Cmp_scale (10 ^ s2)) by (apply pow10_pos; lia).
    f_equal. ring.
Qed.

(** Comparison is comparison of the exact values [c / 10^s], whatever the
    scales; rescaling succeeds exactly for a scale that is not coarser and keeps
    the value; and adding two decimals brought to one scale is exact, while
    adding at different scales is refused. *)
Theorem decimal_exact (c1 c2 s1 s2 target : Z) :
  0 <= s1 < 2 ^ 31 -> 0 <= s2 < 2 ^ 31 -> target < 2 ^ 31 ->
  let d1 := mkDecimal (Some c1) s1 in
  let d2 := mkDecimal (Some c2) s2 in
  Decimal_Cmp d1 d2 = Z.sgn (c1 * 10 ^ s2 - c2 * 10 ^ s1) /\
  (s1 <= target <-> exists d, Decimal_Rescale d1 target = Ok d) /\
  (forall d, Decimal_Rescale d1 target = Ok d ->
     scale d = target /\ coefficient d = Some (c1 * 10 ^ (target - s1)) /\ Decimal_Cmp d1 d = 0) /\
  (Decimal_Add d1 d2 = if s1 =? s2 then Ok (mkDecimal (Some (c1 + c2)) s1) else Err ErrDecimalScale).
Proof.
  intros H1 H2 Ht d1 d2. split; [by apply Cmp_sgn|].
  assert (HR : forall d, Decimal_Rescale d1 target = Ok d <->
                 s1 <= target /\ d = mkDecimal (Some (c1 * 10 ^ (target - s1))) target).
  { intros d. unfold Decimal_Rescale, d1. cbn [coefficient scale].
    destruct (Z.ltb_spec target 0); [split; [done|lia]|].
    destruct (Z.ltb_spec target s1); [split; [done|lia]|].
    destruct (Z.eqb_spec target s1) as [->|].
    - rewrite Z.sub_diag, Z.mul_1_r. naive_solver lia.
    - rewrite int32_small, decimalPow10_pow by lia. naive_solver. }
  split_and!.
  - setoid_rewrite HR. naive_solver.
  - intros d [Hle ->]%HR. split_and!; [done|done|]. unfold d1. rewrite Cmp_sgn by lia.
    rewrite (pow10_split s1 target) by lia.
    replace (_ - _) with 0 by ring. done.
  - unfold Decimal_Add, d1, d2. cbn [coefficient scale]. by destruct (s1 =? s2).
Qed.

Lemma decimal_exact_witness :
  Decimal_Cmp (mkDecimal (Some 150) 2) (mkDecimal (Some 15) 1) = 0 /\
  Decimal_Rescale (mkDecimal (Some 15) 1) 2 = Ok (mkDecimal (Some 150) 2).
Proof.
  split; [|reflexivity].
  rewrite (proj1 (decimal_exact 150 15 2 1 0 ltac:(lia) ltac:(lia) ltac:(lia))). reflexivity.
Defined.

Lemma fits_int64_true v : fits_int64 v = true <-> - 2 ^ 63 <= v < 2 ^ 63.
Proof. unfold fits_int64, in_range. lia. Qed.

(** C27. Conversion to minor units never rounds and never wraps: a value is
    produced exactly when the decimal equals it at the currency exponent and it
    fits in 64 bits; a coarser scale gives no value; a lost digit and an
    overflow are distinct errors. *)
Theorem minor_units_exact (c s exponent : Z) :
  0 <= s < 2 ^ 31 -> 0 <= exponent < 2 ^ 31 ->
  let r := Decimal_MinorUnits (mkDecimal (Some c) s) exponent in
  (forall v, r = Ok (Some v) <->
     exponent <= s /\ c = v * 10 ^ (s - exponent) /\ - 2 ^ 63 <= v < 2 ^ 63) /\
  (r = Ok None <-> s < exponent) /\
  (r = Err ErrDecimalScale <-> exponent <= s /\ ~ (10 ^ (s - exponent) | c)) /\
  (r = Err ErrDecimalOverflow <->
     exponent <= s /\ exists v, c = v * 10 ^ (s - exponent) /\ ~ (- 2 ^ 63 <= v < 2 ^ 63)).
Proof.
  intros Hs He r. subst r. unfold Decimal_MinorUnits. cbn [coefficient scale].
  assert ((s <? 0) || (exponent <? 0) = false) as -> by lia.
  destruct (Z.ltb_spec s exponent); [naive_solver lia|].
  assert (Hp : 0 < 10 ^ (s - exponent)) by (apply pow10_pos; lia).
  rewrite int32_small, decimalPow10_pow by lia.
  set (p := 10 ^ (s - exponent)) in *.
  assert (Hval : (if exponent <? s then Z.quot c p else c) = Z.quot c p).
  { destruct (Z.ltb_spec exponent s); [done|]. unfold p.
    assert (s - exponent = 0) as -> by lia. by rewrite Z.quot_1_r. }
  assert (Hrem : (exponent <? s) && negb (Z.rem c p =? 0) = negb (Z.rem c p =? 0)).
  { destruct (Z.ltb_spec exponent s); [done|]. unfold p.
    assert (s - exponent = 0) as -> by lia. by rewrite Z.rem_1_r. }
  rewrite Hval, Hrem.
  assert (Hdiv : forall v, c = v * p <-> Z.rem c p = 0 /\ v = Z.quot c p).
  { intros v. split.
    - intros ->. rewrite Z.rem_mul, Z.quot_mul by lia. done.
    - intros [H0 ->]. pose proof (Z.quot_rem' c p). lia. }
  assert (Hdv : (p | c) <-> Z.rem c p = 0).
  { unfold Z.divide. setoid_rewrite Hdiv. naive_solver. }
  assert (Hlt : ~ s < exponent) by lia.
  pose proof (fits_int64_true (Z.quot c p)) as Hfit.
  setoid_rewrite Hdiv. rewrite Hdv. clear Hval Hrem Hdiv Hdv Hs He.
  generalize dependent (Z.quot c p). generalize (Z.rem c p). clear p Hp. intros r q Hfit.
  unfold ErrDecimalScale, ErrDecimalOverflow.
  destruct (Z.eqb_spec r 0), (fits_int64 q) eqn:Hf; simpl; naive_solver.
Qed.

Lemma minor_units_exact_witness :
  Decimal_MinorUnits (mkDecimal (Some 12300) 3) 2 = Ok (Some 1230) /\
  Decimal_MinorUnits (mkDecimal (Some 12345) 3) 2 = Err ErrDecimalScale.
Proof.
  split.
  - apply (proj1 (minor_units_exact 12300 3 2 ltac:(lia) ltac:(lia)) 1230). lia.
  - reflexivity.
Defined.
