(* ===== verification/Protection.v ===== *)
(** The sensitive-data protection ports ([internal/protection/contracts.go]):
    scopes, protected values, requests and the protection call.

    Byte slices are strings; a defensive copy is the same value, and the
    overwriting of a short-lived copy ([Request.Destroy]) is its result. *)

From S2P Require Import Prelude GoText Core.
From stdpp Require Import base list strings.
Local Open Scope Z_scope.

(** A fixed-size array of bytes is a string of that length; its zero value. *)
Definition zero_bytes (n : nat) : string := of_bytes (replicate n 0).
Definition zero32 : string := zero_bytes 32.
Definition zero16 : string := zero_bytes 16.

(* internal/protection/contracts.go: Scope *)
Record Scope : Type := mkScope {
  scope_ProjectID : ProjectID;
  scope_ApplicationID : ApplicationID;
  scope_Purpose : string
}.

(** [Value] of the package; named apart from the value of a reference. *)
(* internal/protection/contracts.go: Value *)
Record ProtectedValue : Type := mkProtected {
  Ciphertext : string;
  Fingerprint : string;
  KeyID : string
}.

(* internal/protection/contracts.go: Request *)
Record Request : Type := mkRequest {
  req_Scope : Scope;
  req_plaintext : string
}.

(* internal/protection/contracts.go: OpenRequest *)
Record OpenRequest : Type := mkOpenRequest {
  open_Scope : Scope;
  open_Value : ProtectedValue
}.

(* internal/protection/contracts.go:61-61: ErrOpenFailed *)
Definition ErrOpenFailed : gerror := Sentinel "protection.ErrOpenFailed".
(* internal/protection/contracts.go:63-63: ErrKeyUnavailable *)
Definition ErrKeyUnavailable : gerror := Sentinel "protection.ErrKeyUnavailable".

#[export] Instance ProtectedValue_eq_dec : EqDecision ProtectedValue.
Proof. solve_decision. Defined.
#[export] Instance Scope_eq_dec : EqDecision Scope.
Proof. solve_decision. Defined.

(* internal/protection/contracts.go: validateText *)
Definition protection_validateText (name value : string) : error :=
  refuse_if (String.eqb value EmptyString) (Errorf "%s is required" [AStr name]) ;;?
  refuse_if (negb (String.eqb (TrimSpace value) value))
    (Errorf "%s must not have leading or trailing whitespace" [AStr name]) ;;?
  refuse_if (existsb IsControl (runes value))
    (Errorf "%s must not contain control characters" [AStr name]).

(* internal/protection/contracts.go: Scope.Validate *)
Definition Scope_Validate (scope : Scope) : error :=
  errors_Join [ProjectID_Validate (scope_ProjectID scope);
               ApplicationID_Validate (scope_ApplicationID scope);
               protection_validateText "protection purpose" (scope_Purpose scope)].

(* internal/protection/contracts.go: Value.Validate *)
Definition ProtectedValue_Validate (value : ProtectedValue) : error :=
  refuse_if (len (Ciphertext value) =? 0) (New "protected ciphertext is required") ;;?
  refuse_if (String.eqb (Fingerprint value) zero32) (New "protected fingerprint is required") ;;?
  protection_validateText "encryption key ID" (KeyID value).

(* internal/protection/contracts.go: Value.String *)
Definition ProtectedValue_String (value : ProtectedValue) : string :=
  if (len (Ciphertext value) =? 0) && String.eqb (Fingerprint value) zero32
     && String.eqb (KeyID value) EmptyString then EmptyString
  else ("protected[key_id=" ++ KeyID value ++ ",size=" ++ FormatInt (len (Ciphertext value)) ++ "]")%string.

(* internal/protection/contracts.go: Request.Validate *)
Definition Request_Validate (request : Request) : error :=
  refuse_if (len (req_plaintext request) =? 0) (New "protection plaintext is required") ;;?
  Scope_Validate (req_Scope request).

(* internal/protection/contracts.go: NewRequest *)
Definition NewRequest (scope : Scope) (plaintext : string) : result Request :=
  let request := mkRequest scope plaintext in
  try* Request_Validate request in Ok request.

(* internal/protection/contracts.go: Request.Bytes *)
Definition Request_Bytes (request : Request) : string := req_plaintext request.

(* internal/protection/contracts.go: Request.Destroy *)
Definition Request_Destroy (request : Request) : Request := mkRequest (req_Scope request) EmptyString.

(* internal/protection/contracts.go: Request.String *)
Definition Request_String (request : Request) : string :=
  ("protection_request[project=" ++ scope_ProjectID (req_Scope request) ++
   ",application=" ++ scope_ApplicationID (req_Scope request) ++
   ",purpose=" ++ scope_Purpose (req_Scope request) ++
   ",size=" ++ FormatInt (len (req_plaintext request)) ++ "]")%string.

(* internal/protection/contracts.go: OpenRequest.Validate *)
Definition OpenRequest_Validate (request : OpenRequest) : error :=
  errors_Join [Scope_Validate (open_Scope request); ProtectedValue_Validate (open_Value request)].

(* internal/protection/contracts.go: NewOpenRequest *)
Definition NewOpenRequest (scope : Scope) (value : ProtectedValue) : result OpenRequest :=
  let request := mkOpenRequest scope value in
  try* OpenRequest_Validate request in Ok request.

(* internal/protection/contracts.go: OpenRequest.String *)
Definition OpenRequest_String (request : OpenRequest) : string :=
  ("open_request[project=" ++ scope_ProjectID (open_Scope request) ++
   ",application=" ++ scope_ApplicationID (open_Scope request) ++
   ",purpose=" ++ scope_Purpose (open_Scope request) ++
   ",value=" ++ ProtectedValue_String (open_Value request) ++ "]")%string.

(** The [Protector] port: a nil protector is refused before it is called. *)
(* internal/protection/contracts.go: Protect *)
Definition Protect (protector : option (Request -> result ProtectedValue))
    (scope : Scope) (plaintext : string) : result ProtectedValue :=
  match protector with
  | None => Err (New "data protector is required")
  | Some protect => let* request := NewRequest scope plaintext in protect request
  end.

(** The write and read operations of a protection service. *)
(* internal/protection/contracts.go:14-30: Service *)
Record ProtectionService : Type := mkProtection {
  ps_Protect : Request -> result ProtectedValue;
  ps_Open : OpenRequest -> result string
}.

(** A protected value opens again in the scope it was protected for. *)
Class ProtectionLaws (service : ProtectionService) := {
  protected_opens : forall scope plaintext value,
    ps_Protect service (mkRequest scope plaintext) = Ok value -> ProtectedValue_Validate value = None ->
    ps_Open service (mkOpenRequest scope value) = Ok plaintext
}.

(** ** Lemmas *)

(** Text the protection and persistence boundaries accept. *)
Definition text_ok (value : string) : Prop := value <> EmptyString /\ TrimSpace value = value.

Lemma protection_validateText_nil name value :
  protection_validateText name value = None <->
  text_ok value /\ Forall (fun r => IsControl r = false) (runes value).
Proof.
  unfold protection_validateText, text_ok. err_simpl. rewrite existsb_false_Forall. tauto.
Qed.

Lemma identifier_text value : identifier_ok value -> text_ok value.
Proof. intros (Hne & _ & H1 & H2 & _). split; [done|]. by apply TrimSpace_id. Qed.

Lemma Protect_ok protector scope plaintext v :
  Protect protector scope plaintext = Ok v <->
  exists p, protector = Some p /\ Request_Validate (mkRequest scope plaintext) = None /\
            p (mkRequest scope plaintext) = Ok v.
Proof.
  unfold Protect, NewRequest. destruct protector as [p|]; [|naive_solver].
  rewrite bind_result_ok. setoid_rewrite try_err_ok. naive_solver.
Qed.
