(* ===== verification/Persistence.v ===== *)
(** The durable storage contracts ([internal/persistence/contracts.go],
    [identity.go], [financial_report.go]): the records repositories exchange and
    the validation every write and every stored row passes. *)

From S2P Require Import Prelude GoText GoTime GoMime GoJson Core Purchase Protection.
From stdpp Require Import base list strings.
Local Open Scope Z_scope.

Abbreviation SourceKind := string.
Abbreviation QueueName := string.
Abbreviation APIKeyRole := string.

(* internal/persistence/contracts.go: constants *)
Definition APIKeyRoleAdmin : APIKeyRole := "admin".
Definition APIKeyRoleApplication : APIKeyRole := "application".
Definition QueueInbox : QueueName := "inbox".
Definition QueueOutbox : QueueName := "outbox".
Definition QueueReconciliation : QueueName := "reconciliation".
Definition SourceKindStoreObservation : SourceKind := "store_observation".
Definition SourceKindImport : SourceKind := "import".
Definition ImportOriginRevenueCat : string := "revenuecat".

(* internal/persistence/contracts.go: ErrNotFound *)
Definition ErrNotFound : gerror := Sentinel "persistence.ErrNotFound".
(* internal/persistence/contracts.go: ErrConflict *)
Definition ErrConflict : gerror := Sentinel "persistence.ErrConflict".
(* internal/persistence/contracts.go: ErrEntitlementConflict *)
Definition ErrEntitlementConflict : gerror := Sentinel "persistence.ErrEntitlementConflict".
(* internal/persistence/contracts.go: ErrUnavailable *)
Definition ErrUnavailable : gerror := Sentinel "persistence.ErrUnavailable".

(** ** Shared checks *)

(* internal/persistence/contracts.go: validateText *)
Definition validateText (name value : string) : error :=
  refuse_if (String.eqb value EmptyString) (Errorf "%s is required" [AStr name]) ;;?
  refuse_if (negb (String.eqb (TrimSpace value) value))
    (Errorf "%s must not have leading or trailing whitespace" [AStr name]).

(* internal/persistence/contracts.go: validateContentType *)
Definition validateContentType (name value : string) : error :=
  validateText name value ;;?
  refuse_if (negb (ParseMediaType_ok value)) (Errorf "%s must be a valid media type" [AStr name]).

(* internal/persistence/contracts.go: validateTime *)
Definition validateTime (name : string) (value : time) : error :=
  refuse_if (IsZero value) (Errorf "%s is required" [AStr name]).

(* internal/persistence/contracts.go: validateAPIKeyScope *)
Definition validateAPIKeyScope (role : APIKeyRole) (projectID : ProjectID)
    (applicationID : ApplicationID) : error :=
  if String.eqb role APIKeyRoleAdmin then
    refuse_if (negb (String.eqb projectID EmptyString) || negb (String.eqb applicationID EmptyString))
      (New "admin API key must not have application scope")
  else if String.eqb role APIKeyRoleApplication then
    errors_Join [ProjectID_Validate projectID; ApplicationID_Validate applicationID]
  else Some (Errorf "unsupported API key role %q" [AStr role]).

(* internal/persistence/contracts.go: validateNonNegative *)
Definition validateNonNegative (name : string) (value : Z) : error :=
  refuse_if (value <? 0) (Errorf "%s must not be negative" [AStr name]).

(** ** Catalog and credentials *)

(* internal/persistence/contracts.go: CatalogProduct *)
Record CatalogProduct : Type := mkCatalogProduct {
  cp_Mapping : StoreProduct;
  cp_Product : Product;
  cp_Entitlements : list Entitlement
}.

(* internal/persistence/contracts.go: CredentialKey *)
Record CredentialKey : Type := mkCredentialKey {
  ck_ProjectID : ProjectID;
  ck_ApplicationID : ApplicationID;
  ck_Kind : string
}.

(* internal/persistence/contracts.go: CredentialWrite *)
Record CredentialWrite : Type := mkCredentialWrite {
  cw_Key : CredentialKey;
  cw_ContentType : string;
  cw_SchemaVersion : Z;
  cw_Payload : ProtectedValue;
  cw_ExpectedRevision : Z
}.

(* internal/persistence/contracts.go: CredentialRecord *)
Record CredentialRecord : Type := mkCredentialRecord {
  cr_Key : CredentialKey;
  cr_ContentType : string;
  cr_SchemaVersion : Z;
  cr_Payload : ProtectedValue;
  cr_Revision : Z;
  cr_CreatedAt : time;
  cr_UpdatedAt : time
}.

(* internal/persistence/contracts.go: CredentialKey.Validate *)
Definition CredentialKey_Validate (key : CredentialKey) : error :=
  errors_Join [ProjectID_Validate (ck_ProjectID key); ApplicationID_Validate (ck_ApplicationID key);
               validateText "credential kind" (ck_Kind key)].

(* internal/persistence/contracts.go: CredentialWrite.Validate *)
Definition CredentialWrite_Validate (write : CredentialWrite) : error :=
  let schemaVersionError := refuse_if (cw_SchemaVersion write <=? 0)
    (New "credential schema version must be positive") in
  let revisionError := refuse_if (cw_ExpectedRevision write <? 0)
    (New "credential expected revision must not be negative") in
  errors_Join [CredentialKey_Validate (cw_Key write);
               validateContentType "credential content type" (cw_ContentType write);
               schemaVersionError; ProtectedValue_Validate (cw_Payload write); revisionError].

(* internal/persistence/contracts.go: CredentialRecord.Validate *)
Definition CredentialRecord_Validate (record : CredentialRecord) : error :=
  let schemaVersionError := refuse_if (cr_SchemaVersion record <=? 0)
    (New "credential schema version must be positive") in
  let revisionError := refuse_if (cr_Revision record <=? 0)
    (New "credential revision must be positive") in
  let revisionError :=
    if negb (IsZero (cr_CreatedAt record)) && negb (IsZero (cr_UpdatedAt record))
       && Before (cr_UpdatedAt record) (cr_CreatedAt record)
    then errors_Join [revisionError; Some (New "credential update time cannot precede creation")]
    else revisionError in
  errors_Join [CredentialKey_Validate (cr_Key record);
               validateContentType "credential content type" (cr_ContentType record);
               schemaVersionError; ProtectedValue_Validate (cr_Payload record); revisionError;
               validateTime "credential creation time" (cr_CreatedAt record);
               validateTime "credential update time" (cr_UpdatedAt record)].

(** ** Purchase writes *)

(* internal/persistence/contracts.go: EvidenceWrite *)
Record EvidenceWrite : Type := mkEvidenceWrite {
  ew_ProjectID : ProjectID;
  ew_ApplicationID : ApplicationID;
  ew_CustomerID : CustomerID;
  ew_Kind : string;
  ew_ContentType : string;
  ew_Payload : ProtectedValue;
  ew_ReceivedAt : time
}.

(* internal/persistence/contracts.go: ArtifactWrite *)
Record ArtifactWrite : Type := mkArtifactWrite {
  aw_EvidenceID : Z;
  aw_Kind : string;
  aw_ContentType : string;
  aw_Payload : ProtectedValue
}.

(* internal/persistence/contracts.go: ProtectedReference *)
Record ProtectedReference : Type := mkProtectedReference {
  pr_Role : ReferenceRole;
  pr_Kind : string;
  pr_Value : ProtectedValue
}.

(* internal/persistence/contracts.go: ObservationWrite *)
Record ObservationWrite : Type := mkObservationWrite {
  ow_EvidenceID : Z;
  ow_ProjectID : ProjectID;
  ow_CustomerID : CustomerID;
  ow_ProductID : ProductID;
  ow_Observation : PurchaseObservation;
  ow_References : list ProtectedReference
}.

(* internal/persistence/contracts.go: EvidenceWrite.Validate *)
Definition EvidenceWrite_Validate (write : EvidenceWrite) : error :=
  errors_Join [ProjectID_Validate (ew_ProjectID write); ApplicationID_Validate (ew_ApplicationID write);
               CustomerID_Validate (ew_CustomerID write); validateText "evidence kind" (ew_Kind write);
               validateText "evidence content type" (ew_ContentType write);
               ProtectedValue_Validate (ew_Payload write);
               validateTime "evidence receipt time" (ew_ReceivedAt write)].

(* internal/persistence/contracts.go: ArtifactWrite.Validate *)
Definition ArtifactWrite_Validate (write : ArtifactWrite) : error :=
  let evidenceError := refuse_if (aw_EvidenceID write <=? 0)
    (New "artifact evidence ID must be positive") in
  errors_Join [evidenceError; validateText "artifact kind" (aw_Kind write);
               validateText "artifact content type" (aw_ContentType write);
               ProtectedValue_Validate (aw_Payload write)].

(* internal/persistence/contracts.go: ProtectedReference.Validate *)
Definition ProtectedReference_Validate (reference : ProtectedReference) : error :=
  errors_Join [validateText "reference role" (pr_Role reference);
               validateText "reference kind" (pr_Kind reference);
               ProtectedValue_Validate (pr_Value reference)].

(** An index of equal length always finds the domain reference. *)
(* internal/persistence/contracts.go: ObservationWrite.Validate *)
Definition ObservationWrite_Validate (write : ObservationWrite) : error :=
  let evidenceError := refuse_if (ow_EvidenceID write <=? 0)
    (New "observation evidence ID must be positive") in
  errors_Join [evidenceError; ProjectID_Validate (ow_ProjectID write);
               CustomerID_Validate (ow_CustomerID write); ProductID_Validate (ow_ProductID write);
               PurchaseObservation_Validate (ow_Observation write)] ;;?
  refuse_if (negb (Nat.eqb (length (ow_References write))
                     (length (obs_References (ow_Observation write)))))
    (New "every observation reference must have one protected value") ;;?
  forEach (fun index (pair : ProtectedReference * StoreReference) =>
      wrap_err "protected reference %d: %w" [AInt (Z.of_nat index)]
        (ProtectedReference_Validate pair.1) ;;?
      refuse_if (negb (String.eqb (pr_Role pair.1) (ref_Role pair.2))
                 || negb (String.eqb (pr_Kind pair.1) (ref_Kind pair.2)))
        (Errorf "protected reference %d metadata does not match observation"
           [AInt (Z.of_nat index)]))
    (zip (ow_References write) (obs_References (ow_Observation write))).

(** ** Entitlement projections *)

(* internal/persistence/contracts.go: EntitlementProjection *)
Record EntitlementProjection : Type := mkProjection {
  ep_ProjectID : ProjectID;
  ep_CustomerID : CustomerID;
  ep_EntitlementID : EntitlementID;
  ep_SourceKind : SourceKind;
  ep_SourceObservationID : ObservationID;
  ep_SourceImportID : string;
  ep_SourceProductID : ProductID;
  ep_SourceCustomerID : CustomerID;
  ep_Access : AccessStatus;
  ep_AccessReason : AccessReason;
  ep_EffectivePeriod : EffectivePeriod
}.

(* internal/persistence/contracts.go: EntitlementSource *)
Record EntitlementSource : Type := mkEntitlementSource {
  es_Projection : EntitlementProjection;
  es_SourceApplicationID : ApplicationID;
  es_SourceLineage : string;
  es_ObservedAt : time
}.

(* internal/persistence/contracts.go: CustomerEntitlement *)
Record CustomerEntitlement : Type := mkCustomerEntitlement {
  ce_Projection : EntitlementProjection;
  ce_SourceApplicationID : ApplicationID;
  ce_SourceLineage : string;
  ce_Key : string;
  ce_Version : Z
}.

(* internal/persistence/contracts.go: EntitlementWriteResult *)
Record EntitlementWriteResult : Type := mkWriteResult {
  wr_Entitlement : CustomerEntitlement;
  wr_Changed : bool
}.

#[export] Instance EntitlementProjection_eq_dec : EqDecision EntitlementProjection.
Proof. solve_decision. Defined.
#[export] Instance CustomerEntitlement_eq_dec : EqDecision CustomerEntitlement.
Proof. solve_decision. Defined.

(* internal/persistence/contracts.go: EntitlementProjection.Normalized *)
Definition Normalized (projection : EntitlementProjection) : EntitlementProjection :=
  mkProjection (ep_ProjectID projection) (ep_CustomerID projection) (ep_EntitlementID projection)
    (if String.eqb (ep_SourceKind projection) EmptyString
     then SourceKindStoreObservation else ep_SourceKind projection)
    (ep_SourceObservationID projection) (ep_SourceImportID projection)
    (ep_SourceProductID projection)
    (if String.eqb (ep_SourceCustomerID projection) EmptyString
     then ep_CustomerID projection else ep_SourceCustomerID projection)
    (ep_Access projection) (ep_AccessReason projection) (ep_EffectivePeriod projection).

(* internal/persistence/contracts.go: EntitlementProjection.validateSource *)
Definition validateSource (projection : EntitlementProjection) : error :=
  let kind := if String.eqb (ep_SourceKind projection) EmptyString
              then SourceKindStoreObservation else ep_SourceKind projection in
  if String.eqb kind SourceKindStoreObservation then
    refuse_if (negb (String.eqb (ep_SourceImportID projection) EmptyString))
      (New "store observation projection cannot cite an import grant") ;;?
    ObservationID_Validate (ep_SourceObservationID projection)
  else if String.eqb kind SourceKindImport then
    refuse_if (negb (String.eqb (ep_SourceObservationID projection) EmptyString))
      (New "import projection cannot cite a purchase observation") ;;?
    ValidateOpaqueIdentifier "import grant ID" (ep_SourceImportID projection)
  else Some (Errorf "unsupported entitlement source kind %q" [AStr (ep_SourceKind projection)]).

(* internal/persistence/contracts.go: EntitlementProjection.Validate *)
Definition EntitlementProjection_Validate (projection : EntitlementProjection) : error :=
  let sourceCustomerError :=
    if negb (String.eqb (ep_SourceCustomerID projection) EmptyString)
    then CustomerID_Validate (ep_SourceCustomerID projection) else None in
  errors_Join [ProjectID_Validate (ep_ProjectID projection);
               CustomerID_Validate (ep_CustomerID projection);
               EntitlementID_Validate (ep_EntitlementID projection);
               validateSource projection;
               ProductID_Validate (ep_SourceProductID projection);
               sourceCustomerError;
               AccessStatus_Validate (ep_Access projection);
               AccessReason_Validate (ep_AccessReason projection);
               EffectivePeriod_Validate (ep_EffectivePeriod projection)].

(* internal/persistence/contracts.go: EntitlementSource.Validate *)
Definition EntitlementSource_Validate (source : EntitlementSource) : error :=
  errors_Join [EntitlementProjection_Validate (es_Projection source);
               ApplicationID_Validate (es_SourceApplicationID source);
               validateTime "entitlement source observation time" (es_ObservedAt source)].

(** ** Outbox events *)

(* internal/persistence/contracts.go: OutboxEvent *)
Record OutboxEvent : Type := mkOutboxEvent {
  oe_ID : string;
  oe_ProjectID : ProjectID;
  oe_ApplicationID : ApplicationID;
  oe_EventType : string;
  oe_AggregateType : string;
  oe_AggregateID : string;
  oe_Payload : string;
  oe_PayloadFingerprint : string;
  oe_OccurredAt : time;
  oe_AvailableAt : time
}.

(** [json.Unmarshal] into a map: nil for an object, a nil map without error for
    [null], an error otherwise. *)
Definition payload_object_error (payload : string) : error :=
  if json_object payload then None
  else if json_null payload then Some (New "outbox payload must be a JSON object")
  else Some (New "json: cannot unmarshal into a map").

(* internal/persistence/contracts.go: OutboxEvent.Validate *)
Definition OutboxEvent_Validate (event : OutboxEvent) : error :=
  let payloadError := payload_object_error (oe_Payload event) in
  let payloadError :=
    if String.eqb (oe_PayloadFingerprint event) zero32
    then errors_Join [payloadError; Some (New "outbox payload fingerprint is required")]
    else payloadError in
  let payloadError :=
    if negb (IsZero (oe_AvailableAt event)) && negb (IsZero (oe_OccurredAt event))
       && Before (oe_AvailableAt event) (oe_OccurredAt event)
    then errors_Join [payloadError; Some (New "outbox availability cannot precede occurrence")]
    else payloadError in
  errors_Join [validateText "outbox event ID" (oe_ID event);
               ProjectID_Validate (oe_ProjectID event);
               ApplicationID_Validate (oe_ApplicationID event);
               validateText "outbox event type" (oe_EventType event);
               validateText "outbox aggregate type" (oe_AggregateType event);
               validateText "outbox aggregate ID" (oe_AggregateID event);
               payloadError;
               validateTime "outbox occurrence time" (oe_OccurredAt event);
               validateTime "outbox availability time" (oe_AvailableAt event)].

(** ** API keys *)

(* internal/persistence/contracts.go: APIKeyRecord *)
Record APIKeyRecord : Type := mkAPIKeyRecord {
  akr_ID : string;
  akr_Role : APIKeyRole;
  akr_ProjectID : ProjectID;
  akr_ApplicationID : ApplicationID;
  akr_SecretSalt : string;
  akr_SecretHash : string;
  akr_CreatedAt : time
}.

(* internal/persistence/contracts.go: APIKeySummary *)
Record APIKeySummary : Type := mkAPIKeySummary {
  aks_ID : string;
  aks_Role : APIKeyRole;
  aks_ProjectID : ProjectID;
  aks_ApplicationID : ApplicationID;
  aks_CreatedAt : time;
  aks_RevokedAt : option time
}.

(* internal/persistence/contracts.go: APIKeyRecord.Validate *)
Definition APIKeyRecord_Validate (record : APIKeyRecord) : error :=
  let verifierError :=
    refuse_if (String.eqb (akr_SecretSalt record) zero16 || String.eqb (akr_SecretHash record) zero32)
      (New "API key verifier is required") in
  errors_Join [validateText "API key ID" (akr_ID record);
               validateAPIKeyScope (akr_Role record) (akr_ProjectID record) (akr_ApplicationID record);
               verifierError;
               validateTime "API key creation time" (akr_CreatedAt record)].

(* internal/persistence/contracts.go: APIKeySummary.Validate *)
Definition APIKeySummary_Validate (summary : APIKeySummary) : error :=
  let lifecycleError :=
    match aks_RevokedAt summary with
    | Some revoked =>
        if IsZero revoked then Some (New "API key revocation time must not be zero")
        else refuse_if (negb (IsZero (aks_CreatedAt summary)) && Before revoked (aks_CreatedAt summary))
               (New "API key revocation time cannot precede creation")
    | None => None
    end in
  errors_Join [validateText "API key ID" (aks_ID summary);
               validateAPIKeyScope (aks_Role summary) (aks_ProjectID summary) (aks_ApplicationID summary);
               validateTime "API key creation time" (aks_CreatedAt summary);
               lifecycleError].

(** ** Queues and provider references *)

(* internal/persistence/contracts.go: InboxMessage *)
Record InboxMessage : Type := mkInboxMessage {
  im_ID : string;
  im_ProjectID : ProjectID;
  im_ApplicationID : ApplicationID;
  im_Provider : Provider;
  im_Kind : string;
  im_ContentType : string;
  im_Payload : ProtectedValue;
  im_ReceivedAt : time;
  im_AvailableAt : time
}.

(* internal/persistence/contracts.go: ReconciliationJob *)
Record ReconciliationJob : Type := mkReconciliationJob {
  rj_ID : string;
  rj_ProjectID : ProjectID;
  rj_ApplicationID : ApplicationID;
  rj_CustomerID : CustomerID;
  rj_Payload : ProtectedValue;
  rj_AvailableAt : time
}.

(* internal/persistence/contracts.go: QueueMessage *)
Record QueueMessage : Type := mkQueueMessage {
  qm_Queue : QueueName;
  qm_ID : string;
  qm_ProjectID : ProjectID;
  qm_ApplicationID : ApplicationID;
  qm_CustomerID : CustomerID;
  qm_Provider : Provider;
  qm_Kind : string;
  qm_ContentType : string;
  qm_ProtectedPayload : ProtectedValue;
  qm_JSONPayload : string;
  qm_OccurredAt : time;
  qm_Completed : bool;
  qm_Failed : bool
}.

(* internal/persistence/contracts.go: ProviderReferenceLookup *)
Record ProviderReferenceLookup : Type := mkLookup {
  prl_ProjectID : ProjectID;
  prl_ApplicationID : ApplicationID;
  prl_Role : ReferenceRole;
  prl_Kind : string;
  prl_Fingerprint : string
}.

(* internal/persistence/contracts.go: PurchaseReferenceContext *)
Record PurchaseReferenceContext : Type := mkPurchaseContext {
  prc_Customer : Customer;
  prc_ProviderProductID : ProviderProductID;
  prc_ProductKind : ProductKind
}.

(* internal/persistence/contracts.go: PurchaseEvidenceRecord *)
Record PurchaseEvidenceRecord : Type := mkPurchaseEvidence {
  per_Kind : string;
  per_ContentType : string;
  per_Payload : ProtectedValue
}.

(* internal/persistence/contracts.go: QueueCompletion *)
Record QueueCompletion : Type := mkQueueCompletion {
  qc_Queue : QueueName;
  qc_ID : string;
  qc_CompletedAt : time
}.

(* internal/persistence/contracts.go: QueueFailure *)
Record QueueFailure : Type := mkQueueFailure {
  qf_Queue : QueueName;
  qf_ID : string;
  qf_FailedAt : time;
  qf_ErrorCode : string
}.

(* internal/persistence/contracts.go: InboxMessage.Validate *)
Definition InboxMessage_Validate (message : InboxMessage) : error :=
  let scheduleError :=
    refuse_if (negb (IsZero (im_AvailableAt message)) && negb (IsZero (im_ReceivedAt message))
               && Before (im_AvailableAt message) (im_ReceivedAt message))
      (New "inbox availability cannot precede receipt") in
  errors_Join [validateText "inbox message ID" (im_ID message);
               ProjectID_Validate (im_ProjectID message);
               ApplicationID_Validate (im_ApplicationID message);
               Provider_Validate (im_Provider message);
               validateText "inbox kind" (im_Kind message);
               validateContentType "inbox content type" (im_ContentType message);
               ProtectedValue_Validate (im_Payload message);
               validateTime "inbox receipt time" (im_ReceivedAt message);
               validateTime "inbox availability time" (im_AvailableAt message);
               scheduleError].

(* internal/persistence/contracts.go: ProviderReferenceLookup.Validate *)
Definition ProviderReferenceLookup_Validate (lookup : ProviderReferenceLookup) : error :=
  let fingerprintError := refuse_if (String.eqb (prl_Fingerprint lookup) zero32)
    (New "provider reference fingerprint is required") in
  errors_Join [ProjectID_Validate (prl_ProjectID lookup);
               ApplicationID_Validate (prl_ApplicationID lookup);
               validateText "provider reference role" (prl_Role lookup);
               validateText "provider reference kind" (prl_Kind lookup);
               fingerprintError].

(* internal/persistence/contracts.go: PurchaseReferenceContext.Validate *)
Definition PurchaseReferenceContext_Validate (purchase : PurchaseReferenceContext) : error :=
  errors_Join [Customer_Validate (prc_Customer purchase);
               ProviderProductID_Validate (prc_ProviderProductID purchase);
               ProductKind_Validate (prc_ProductKind purchase)].

(* internal/persistence/contracts.go: PurchaseEvidenceRecord.Validate *)
Definition PurchaseEvidenceRecord_Validate (record : PurchaseEvidenceRecord) : error :=
  errors_Join [validateText "purchase evidence kind" (per_Kind record);
               validateText "purchase evidence content type" (per_ContentType record);
               ProtectedValue_Validate (per_Payload record)].

(* internal/persistence/contracts.go: ReconciliationJob.Validate *)
Definition ReconciliationJob_Validate (job : ReconciliationJob) : error :=
  errors_Join [validateText "reconciliation job ID" (rj_ID job);
               ProjectID_Validate (rj_ProjectID job);
               ApplicationID_Validate (rj_ApplicationID job);
               CustomerID_Validate (rj_CustomerID job);
               ProtectedValue_Validate (rj_Payload job);
               validateTime "reconciliation availability time" (rj_AvailableAt job)].

(* internal/persistence/contracts.go: QueueName.Validate *)
Definition QueueName_Validate (name : QueueName) : error :=
  if contains_str [QueueInbox; QueueOutbox; QueueReconciliation] name then None
  else Some (Errorf "unsupported queue %q" [AStr name]).

(* internal/persistence/contracts.go: QueueCompletion.Validate *)
Definition QueueCompletion_Validate (completion : QueueCompletion) : error :=
  errors_Join [QueueName_Validate (qc_Queue completion);
               validateText "queue record ID" (qc_ID completion);
               validateTime "queue completion time" (qc_CompletedAt completion)].

(* internal/persistence/contracts.go: QueueFailure.Validate *)
Definition QueueFailure_Validate (failure : QueueFailure) : error :=
  errors_Join [QueueName_Validate (qf_Queue failure);
               validateText "queue record ID" (qf_ID failure);
               validateTime "queue failure time" (qf_FailedAt failure);
               validateText "queue error code" (qf_ErrorCode failure)].

(** ** Import grants *)

(* internal/persistence/contracts.go: ImportBatch *)
Record ImportBatch : Type := mkImportBatch {
  ib_ProjectID : ProjectID;
  ib_BatchID : string;
  ib_ExportSHA256 : string;
  ib_Format : string
}.

(* internal/persistence/contracts.go: ImportGrant *)
Record ImportGrant : Type := mkImportGrant {
  ig_ID : string;
  ig_ProjectID : ProjectID;
  ig_CustomerID : CustomerID;
  ig_ApplicationID : ApplicationID;
  ig_ProductID : ProductID;
  ig_EntitlementID : EntitlementID;
  ig_Origin : string;
  ig_OriginStore : string;
  ig_Environment : Environment;
  ig_Access : AccessStatus;
  ig_AccessReason : AccessReason;
  ig_EffectivePeriod : EffectivePeriod;
  ig_ObservedAt : time;
  ig_ExportSHA256 : string;
  ig_LineageFingerprint : string
}.

(* internal/persistence/contracts.go: ImportBatch.Validate *)
Definition ImportBatch_Validate (batch : ImportBatch) : error :=
  let fingerprintError := refuse_if (String.eqb (ib_ExportSHA256 batch) zero32)
    (New "import batch export fingerprint is required") in
  let fingerprintError :=
    if negb (String.eqb (ib_Format batch) "transactions-csv")
       && negb (String.eqb (ib_Format batch) "subscriber-jsonl")
    then errors_Join [fingerprintError;
                      Some (Errorf "unsupported import batch format %q" [AStr (ib_Format batch)])]
    else fingerprintError in
  errors_Join [ProjectID_Validate (ib_ProjectID batch);
               ValidateOpaqueIdentifier "import batch ID" (ib_BatchID batch);
               fingerprintError].

(* internal/persistence/contracts.go: ImportGrant.Validate *)
Definition ImportGrant_Validate (grant : ImportGrant) : error :=
  let fingerprintError :=
    refuse_if (String.eqb (ig_ExportSHA256 grant) zero32
               || String.eqb (ig_LineageFingerprint grant) zero32)
      (New "import grant fingerprints are required") in
  let fingerprintError :=
    if negb (String.eqb (ig_Origin grant) ImportOriginRevenueCat)
    then errors_Join [fingerprintError;
                      Some (Errorf "unsupported import origin %q" [AStr (ig_Origin grant)])]
    else fingerprintError in
  let fingerprintError :=
    if negb (String.eqb (ig_Environment grant) EnvironmentProduction)
       && negb (String.eqb (ig_Environment grant) EnvironmentSandbox)
    then errors_Join [fingerprintError;
                      Some (Errorf "unsupported import environment %q" [AStr (ig_Environment grant)])]
    else fingerprintError in
  let fingerprintError :=
    if negb (len (ig_ID grant) =? 36) || negb (String.eqb (str_take 4 (ig_ID grant)) "imp-")
    then errors_Join [fingerprintError; Some (New "import grant ID is invalid")]
    else fingerprintError in
  errors_Join [ValidateOpaqueIdentifier "import grant ID" (ig_ID grant);
               ProjectID_Validate (ig_ProjectID grant);
               CustomerID_Validate (ig_CustomerID grant);
               ApplicationID_Validate (ig_ApplicationID grant);
               ProductID_Validate (ig_ProductID grant);
               EntitlementID_Validate (ig_EntitlementID grant);
               validateText "import origin store" (ig_OriginStore grant);
               fingerprintError;
               AccessStatus_Validate (ig_Access grant);
               AccessReason_Validate (ig_AccessReason grant);
               EffectivePeriod_Validate (ig_EffectivePeriod grant);
               validateTime "import grant observation time" (ig_ObservedAt grant)].

(* internal/persistence/contracts.go: ImportGrantResult *)
Record ImportGrantResult : Type := mkImportGrantResult {
  igr_Inserted : bool;
  igr_Updated : bool
}.

(* internal/persistence/contracts.go: ImportCatalog *)
Record ImportCatalog : Type := mkImportCatalog {
  ic_Applications : list Application;
  ic_Products : list Product;
  ic_Entitlements : list Entitlement;
  ic_StoreProducts : list StoreProduct
}.

(** ** Identity ([identity.go]) *)

(* internal/persistence/identity.go: constants *)
Definition CustomerMatchPrimary : string := "primary".
Definition CustomerMatchAlias : string := "alias".
Definition CustomerMatchMerged : string := "merged".

(* internal/persistence/identity.go: CustomerResolution *)
Record CustomerResolution : Type := mkResolution {
  res_ProjectID : ProjectID;
  res_ExternalID : string;
  res_CanonicalCustomerID : CustomerID;
  res_Match : string
}.

(* internal/persistence/identity.go: CustomerAliasWrite *)
Record CustomerAliasWrite : Type := mkAliasWrite {
  caw_ProjectID : ProjectID;
  caw_CanonicalCustomerID : CustomerID;
  caw_ExternalID : string;
  caw_ActorRole : APIKeyRole;
  caw_ActorKeyID : string
}.

(* internal/persistence/identity.go: CustomerMergeWrite *)
Record CustomerMergeWrite : Type := mkMergeWrite {
  cmw_ProjectID : ProjectID;
  cmw_CanonicalCustomerID : CustomerID;
  cmw_SourceCustomerID : CustomerID;
  cmw_IdempotencyKey : string;
  cmw_ActorKeyID : string
}.

(* internal/persistence/identity.go: CustomerMerge *)
Record CustomerMerge : Type := mkMerge {
  cm_ID : string;
  cm_ProjectID : ProjectID;
  cm_CanonicalCustomerID : CustomerID;
  cm_SourceCustomerID : CustomerID;
  cm_IdempotencyKey : string;
  cm_CreatedAt : time
}.

(* internal/persistence/identity.go: validateCustomerMatch *)
Definition validateCustomerMatch (match_ : string) : error :=
  if contains_str [CustomerMatchPrimary; CustomerMatchAlias; CustomerMatchMerged] match_ then None
  else Some (Errorf "unsupported customer match %q" [AStr match_]).

(* internal/persistence/identity.go: validateAliasActor *)
Definition validateAliasActor (role : APIKeyRole) (keyID : string) : error :=
  refuse_if (negb (contains_str [APIKeyRoleAdmin; APIKeyRoleApplication] role))
    (Errorf "unsupported customer alias actor role %q" [AStr role]) ;;?
  ValidateOpaqueIdentifier "actor key ID" keyID.

(* internal/persistence/identity.go: CustomerResolution.Validate *)
Definition CustomerResolution_Validate (resolution : CustomerResolution) : error :=
  errors_Join [ProjectID_Validate (res_ProjectID resolution);
               ValidateExternalCustomerID (res_ExternalID resolution);
               CustomerID_Validate (res_CanonicalCustomerID resolution);
               validateCustomerMatch (res_Match resolution)].

(* internal/persistence/identity.go: CustomerAliasWrite.Validate *)
Definition CustomerAliasWrite_Validate (write : CustomerAliasWrite) : error :=
  errors_Join [ProjectID_Validate (caw_ProjectID write);
               CustomerID_Validate (caw_CanonicalCustomerID write);
               ValidateExternalCustomerID (caw_ExternalID write);
               validateAliasActor (caw_ActorRole write) (caw_ActorKeyID write)].

(* internal/persistence/identity.go: CustomerMergeWrite.Validate *)
Definition CustomerMergeWrite_Validate (write : CustomerMergeWrite) : error :=
  errors_Join [ProjectID_Validate (cmw_ProjectID write);
               CustomerID_Validate (cmw_CanonicalCustomerID write);
               CustomerID_Validate (cmw_SourceCustomerID write);
               ValidateOpaqueIdentifier "merge idempotency key" (cmw_IdempotencyKey write);
               ValidateOpaqueIdentifier "actor key ID" (cmw_ActorKeyID write)].

(* internal/persistence/identity.go: CustomerMerge.Validate *)
Definition CustomerMerge_Validate (merge : CustomerMerge) : error :=
  errors_Join [ValidateOpaqueIdentifier "customer merge ID" (cm_ID merge);
               ProjectID_Validate (cm_ProjectID merge);
               CustomerID_Validate (cm_CanonicalCustomerID merge);
               CustomerID_Validate (cm_SourceCustomerID merge);
               ValidateOpaqueIdentifier "merge idempotency key" (cm_IdempotencyKey merge);
               validateTime "customer merge creation time" (cm_CreatedAt merge)].

(** ** Financial report kinds ([financial_report.go]) *)

(* internal/persistence/financial_report.go: constants *)
Definition FinancialReportKindAppleConsolidated : string := "apple_financial_consolidated".
Definition FinancialReportKindGoogleEarnings : string := "google_play_earnings".
Definition FinancialReportKindHuaweiSettlement : string := "huawei_settlement".

(* internal/persistence/financial_report.go: FinancialReportKindForProvider *)
Definition FinancialReportKindForProvider (provider : Provider) : string * bool :=
  if String.eqb provider ProviderAppleAppStore then (FinancialReportKindAppleConsolidated, true)
  else if String.eqb provider ProviderGooglePlay then (FinancialReportKindGoogleEarnings, true)
  else if String.eqb provider ProviderHuaweiAppGallery then (FinancialReportKindHuaweiSettlement, true)
  else (EmptyString, false).

(** ** Lemmas *)

Lemma validateText_nil name value : validateText name value = None <-> text_ok value.
Proof. unfold validateText, text_ok. by err_simpl. Qed.

Lemma validateTime_nil name t : validateTime name t = None <-> t <> 0.
Proof. unfold validateTime. by err_simpl. Qed.

Lemma ProjectID_Validate_nil id : ProjectID_Validate id = None <-> identifier_ok id.
Proof. apply validateIdentifier_nil. Qed.
Lemma ApplicationID_Validate_nil id : ApplicationID_Validate id = None <-> identifier_ok id.
Proof. apply validateIdentifier_nil. Qed.
Lemma CustomerID_Validate_nil id : CustomerID_Validate id = None <-> identifier_ok id.
Proof. apply validateIdentifier_nil. Qed.
Lemma ProductID_Validate_nil id : ProductID_Validate id = None <-> identifier_ok id.
Proof. apply validateIdentifier_nil. Qed.
Lemma EntitlementID_Validate_nil id : EntitlementID_Validate id = None <-> identifier_ok id.
Proof. apply validateIdentifier_nil. Qed.
Lemma ObservationID_Validate_nil id : ObservationID_Validate id = None <-> identifier_ok id.
Proof. apply validateIdentifier_nil. Qed.
Lemma ProviderProductID_Validate_nil id : ProviderProductID_Validate id = None <-> identifier_ok id.
Proof. apply validateIdentifier_nil. Qed.
Lemma ProductKind_Validate_nil id : ProductKind_Validate id = None <-> identifier_ok id.
Proof. apply validateIdentifier_nil. Qed.
Lemma ValidateOpaqueIdentifier_nil name id : ValidateOpaqueIdentifier name id = None <-> identifier_ok id.
Proof. apply validateIdentifier_nil. Qed.

#[export] Hint Rewrite validateText_nil validateTime_nil ProjectID_Validate_nil
  ApplicationID_Validate_nil CustomerID_Validate_nil ProductID_Validate_nil
  EntitlementID_Validate_nil ObservationID_Validate_nil ProviderProductID_Validate_nil
  ProductKind_Validate_nil ValidateOpaqueIdentifier_nil : goerr.

(** The kind a projection counts as: an omitted kind is a store observation. *)
Definition source_kind (projection : EntitlementProjection) : SourceKind :=
  ep_SourceKind (Normalized projection).
Definition is_import (projection : EntitlementProjection) : bool :=
  String.eqb (source_kind projection) SourceKindImport.

(** Exactly one source identity, matching the kind. *)
Definition source_wf (p : EntitlementProjection) : Prop :=
  (source_kind p = SourceKindStoreObservation /\ identifier_ok (ep_SourceObservationID p) /\
   ep_SourceImportID p = EmptyString) \/
  (source_kind p = SourceKindImport /\ identifier_ok (ep_SourceImportID p) /\
   ep_SourceObservationID p = EmptyString).

Record projection_wf (p : EntitlementProjection) : Prop := {
  pw_project : identifier_ok (ep_ProjectID p);
  pw_customer : identifier_ok (ep_CustomerID p);
  pw_entitlement : identifier_ok (ep_EntitlementID p);
  pw_product : identifier_ok (ep_SourceProductID p);
  pw_source_customer : ep_SourceCustomerID p <> EmptyString -> identifier_ok (ep_SourceCustomerID p);
  pw_source : source_wf p;
  pw_access : AccessStatus_Validate (ep_Access p) = None;
  pw_reason : AccessReason_Validate (ep_AccessReason p) = None;
  pw_period : period_wf (ep_EffectivePeriod p)
}.

Lemma validateSource_nil p : validateSource p = None <-> source_wf p.
Proof.
  unfold validateSource, source_wf, source_kind, Normalized. cbn [ep_SourceKind].
  set (kind := if String.eqb (ep_SourceKind p) EmptyString then _ else _).
  destruct (String.eqb_spec kind SourceKindStoreObservation) as [->|H1].
  - err_simpl. split; [left; tauto|]. intros [?|[Hk _]]; [tauto|]. vm_compute in Hk. done.
  - destruct (String.eqb_spec kind SourceKindImport) as [->|H2]; err_simpl; [|naive_solver].
    split; [right; tauto|]. intros [[Hk _]|?]; [vm_compute in Hk; done|tauto].
Qed.

Lemma projection_Validate_nil p : EntitlementProjection_Validate p = None <-> projection_wf p.
Proof.
  unfold EntitlementProjection_Validate. err_simpl.
  rewrite if_check_nil, validateSource_nil. err_simpl. split.
  - intros H. splits_hyps. by split.
  - intros []. tauto.
Qed.

Lemma Normalized_idemp p : Normalized (Normalized p) = Normalized p.
Proof.
  unfold Normalized. cbn [ep_SourceKind ep_SourceCustomerID ep_CustomerID].
  f_equal; destruct (String.eqb_spec (ep_SourceKind p) EmptyString) as [|Hk];
    destruct (String.eqb_spec (ep_SourceCustomerID p) EmptyString) as [|Hc];
    rewrite ?(proj2 (String.eqb_neq _ _) Hk), ?(proj2 (String.eqb_neq _ _) Hc); try done;
    by destruct (String.eqb_spec (ep_CustomerID p) EmptyString).
Qed.

Lemma source_kind_Normalized p : source_kind (Normalized p) = source_kind p.
Proof. unfold source_kind. by rewrite Normalized_idemp. Qed.

(** A projection is accepted exactly when its scope is made of identifiers,
    it cites exactly one source of its kind (an observation or an import grant,
    never both), and its decision and period are well formed; filling in the
    omitted kind and source customer is idempotent and never turns a rejected
    projection into an accepted one or back. *)
Theorem projection_valid (p : EntitlementProjection) :
  (EntitlementProjection_Validate p = None <-> projection_wf p) /\
  Normalized (Normalized p) = Normalized p /\
  (EntitlementProjection_Validate (Normalized p) = None <-> EntitlementProjection_Validate p = None).
Proof.
  split; [apply projection_Validate_nil|]. split; [apply Normalized_idemp|].
  rewrite !projection_Validate_nil. split.
  - intros []. split; auto.
    + intros Hne. unfold Normalized in pw_source_customer0. cbn in pw_source_customer0.
      rewrite (proj2 (String.eqb_neq _ _) Hne) in pw_source_customer0. auto.
    + unfold source_wf in *. rewrite source_kind_Normalized in pw_source0. exact pw_source0.
  - intros []. split; auto.
    + intros _. cbn. destruct (String.eqb_spec (ep_SourceCustomerID p) EmptyString); auto.
    + unfold source_wf in *. rewrite source_kind_Normalized. exact pw_source0.
Qed.
