(* ===== verification/Stores.v ===== *)
(** The ports purchase providers implement ([internal/stores]): evidence,
    requests, results and actions, the validation of a provider answer against
    what was asked, the adapter registry and classified failures. *)

From S2P Require Import Prelude GoText GoTime GoMime Sha256 Core Purchase Protection Persistence.
From stdpp Require Import base list strings gmap.
Local Open Scope Z_scope.

(** ** Failures ([failure.go]) *)

Abbreviation FailureKind := string.

(* internal/stores/failure.go: constants *)
Definition FailureInvalidEvidence : FailureKind := "invalid_evidence".
Definition FailureUnauthorized : FailureKind := "unauthorized".
Definition FailureNotFound : FailureKind := "not_found".
Definition FailureConflict : FailureKind := "conflict".
Definition FailureRateLimited : FailureKind := "rate_limited".
Definition FailureTemporary : FailureKind := "temporary".
Definition FailurePermanent : FailureKind := "permanent".

(* internal/stores/failure.go: NewFailure *)
Definition NewFailure (provider : Provider) (operation : string) (kind : FailureKind)
    (retryAfter : duration) (cause : error) : gerror :=
  Failure provider operation kind retryAfter cause.

(* internal/stores/failure.go: Failure.Retryable *)
Definition Failure_Retryable (kind : FailureKind) : bool :=
  String.eqb kind FailureRateLimited || String.eqb kind FailureTemporary.

(** A nil failure has the generic code. *)
(* internal/stores/failure.go: Failure.CodeValue *)
Definition Failure_CodeValue (kind : option FailureKind) : string :=
  match kind with
  | None => "provider_failure"
  | Some k => ("provider_" ++ k)%string
  end.

(* internal/stores/failure.go: Failure.Error *)
Definition Failure_Error (provider operation kind : string) : string :=
  ("store " ++ provider ++ " " ++ operation ++ " failed: " ++ kind)%string.

(** [errors.As(err, &failure)]: the first failure of the chain, depth first. *)
Fixpoint as_failure (e : gerror) : option (string * string * string * Z) :=
  match e with
  | New _ | Errorf _ _ | Sentinel _ => None
  | Wrapf _ _ cause | Invalid cause => as_failure cause
  | Joined errs => (fix go es := match es with
                                 | [] => None
                                 | e' :: es' => match as_failure e' with
                                                | Some f => Some f
                                                | None => go es'
                                                end
                                 end) errs
  | Failure provider operation kind retryAfter _ => Some (provider, operation, kind, retryAfter)
  end.

(* internal/stores/observed.go: providerOutcome *)
Definition providerOutcome (err : error) : string :=
  match err with
  | None => "success"
  | Some e => match as_failure e with Some (_, _, kind, _) => kind | None => "error" end
  end.

(* internal/validation/errors.go: Wrap *)
Definition validation_Wrap (err : error) : error :=
  match err with
  | None => None
  | Some e => if errors_Is e "validation.ErrInvalid" then Some e else Some (Invalid e)
  end.

(** ** Evidence ([evidence.go], [provider_contract.go]) *)

(* internal/stores/evidence.go: Evidence *)
Record Evidence : Type := mkEvidence {
  ev_ContentType : string;
  ev_payload : string
}.

(* internal/stores/evidence.go: VerifiedArtifact *)
Record VerifiedArtifact : Type := mkArtifact {
  art_Kind : string;
  art_Evidence : Evidence
}.

(* internal/stores/evidence.go: Evidence.Validate *)
Definition Evidence_Validate (evidence : Evidence) : error :=
  refuse_if (String.eqb (ev_ContentType evidence) EmptyString)
    (New "evidence content type is required") ;;?
  refuse_if (negb (ParseMediaType_ok (ev_ContentType evidence)))
    (New "evidence content type must be a valid media type") ;;?
  refuse_if (len (ev_payload evidence) =? 0) (New "evidence payload is required").

(* internal/stores/evidence.go: NewEvidence *)
Definition NewEvidence (contentType payload : string) : result Evidence :=
  let evidence := mkEvidence contentType payload in
  try* Evidence_Validate evidence in Ok evidence.

(* internal/stores/evidence.go: VerifiedArtifact.Validate *)
Definition VerifiedArtifact_Validate (artifact : VerifiedArtifact) : error :=
  refuse_if (String.eqb (art_Kind artifact) EmptyString)
    (New "verified artifact kind is required") ;;?
  Evidence_Validate (art_Evidence artifact).

(* internal/stores/evidence.go: Evidence.Bytes *)
Definition Evidence_Bytes (evidence : Evidence) : string := ev_payload evidence.

(* internal/stores/evidence.go: Evidence.Digest *)
Definition Evidence_Digest (evidence : Evidence) : string :=
  EncodeToString (Sum256 (ev_payload evidence)).

(* internal/stores/provider_contract.go: constants *)
Definition AppleEvidenceContentType : string := "application/vnd.iapstack.apple-transaction+json".
Definition GooglePlayEvidenceContentType : string := "application/vnd.iapstack.google-play-purchase+json".
Definition HuaweiEvidenceContentType : string := "application/vnd.iapstack.huawei-purchase+json".

(* internal/stores/provider_contract.go: EvidenceContentType *)
Definition EvidenceContentType (provider : Provider) : result string :=
  if String.eqb provider ProviderAppleAppStore then Ok AppleEvidenceContentType
  else if String.eqb provider ProviderGooglePlay then Ok GooglePlayEvidenceContentType
  else if String.eqb provider ProviderHuaweiAppGallery then Ok HuaweiEvidenceContentType
  else Err (Errorf "unsupported purchase provider %q" [AStr provider]).

(** ** Requests and results ([contracts.go]) *)

(* internal/stores/contracts.go: VerificationRequest *)
Record VerificationRequest : Type := mkVerificationRequest {
  vq_Application : Application;
  vq_CustomerID : CustomerID;
  vq_ClaimedProducts : list ProviderProductID;
  vq_ExpectedCustomerBindings : list StoreReference;
  vq_Evidence : Evidence
}.

(* internal/stores/contracts.go: ReconciliationRequest *)
Record ReconciliationRequest : Type := mkReconciliationRequest {
  rq_Application : Application;
  rq_CustomerID : CustomerID;
  rq_ExpectedProducts : list ProviderProductID;
  rq_ExpectedProductKind : ProductKind;
  rq_ExpectedCustomerBindings : list StoreReference;
  rq_QueryReferences : list StoreReference
}.

(* internal/stores/contracts.go: PostCommitAction *)
Record PostCommitAction : Type := mkAction {
  act_Kind : string;
  act_ProductID : ProviderProductID;
  act_ProductKind : ProductKind;
  act_QueryReferences : list StoreReference
}.

(* internal/stores/contracts.go: PostCommitRequest *)
Record PostCommitRequest : Type := mkPostCommitRequest {
  pc_Application : Application;
  pc_Actions : list PostCommitAction
}.

(* internal/stores/contracts.go: LinkedPurchaseRequest *)
Record LinkedPurchaseRequest : Type := mkLinkedPurchaseRequest {
  lr_Application : Application;
  lr_ProductKind : ProductKind;
  lr_QueryReferences : list StoreReference
}.

(* internal/stores/contracts.go: LinkedPurchase *)
Record LinkedPurchase : Type := mkLinkedPurchase {
  lp_ProductID : ProviderProductID;
  lp_LinkedReferences : list StoreReference;
  lp_CustomerBindings : list StoreReference
}.

(* internal/stores/contracts.go: VerificationResult *)
Record VerificationResult : Type := mkVerificationResult {
  vr_VerifiedAt : time;
  vr_Artifacts : list VerifiedArtifact;
  vr_Observations : list PurchaseObservation;
  vr_PostCommitActions : list PostCommitAction;
  vr_NamedProducts : list ProviderProductID
}.

(* internal/stores/contracts.go: validateReferencesWithRole *)
Definition validateReferencesWithRole (references : list StoreReference) (role : ReferenceRole) : error :=
  forPrefix (fun seen reference =>
      wrap_err "%s reference %d: %w" [AStr role; AInt (Z.of_nat (length seen))]
        (StoreReference_Validate reference) ;;?
      refuse_if (negb (String.eqb (ref_Role reference) role))
        (Errorf "reference %d must use role %q" [AInt (Z.of_nat (length seen)); AStr role]) ;;?
      refuse_if (existsb (fun previous => StoreReference_Equal reference previous) seen)
        (Errorf "duplicate %s reference" [AStr role]))
    [] references.

(* internal/stores/contracts.go: hasMatchingReference *)
Definition hasMatchingReference (actual expected : list StoreReference) : bool :=
  existsb (fun actualReference =>
    existsb (fun expectedReference => StoreReference_Equal actualReference expectedReference) expected)
    actual.

(* internal/stores/contracts.go: validateProductSet *)
Definition validateProductSet (products : list ProviderProductID) : error :=
  forPrefix (fun seen product =>
      ProviderProductID_Validate product ;;?
      refuse_if (contains_str seen product)
        (Errorf "duplicate provider product ID %q" [AStr product]))
    [] products.

(* internal/stores/contracts.go: samePostCommitAction *)
Definition samePostCommitAction (l r : PostCommitAction) : bool :=
  String.eqb (act_Kind l) (act_Kind r) && String.eqb (act_ProductID l) (act_ProductID r)
  && String.eqb (act_ProductKind l) (act_ProductKind r)
  && Nat.eqb (length (act_QueryReferences l)) (length (act_QueryReferences r))
  && forallb (fun reference => hasMatchingReference [reference] (act_QueryReferences r))
       (act_QueryReferences l).

(* internal/stores/contracts.go: LinkedPurchaseRequest.Validate *)
Definition LinkedPurchaseRequest_Validate (request : LinkedPurchaseRequest) : error :=
  errors_Join [Application_Validate (lr_Application request);
               ProductKind_Validate (lr_ProductKind request)] ;;?
  refuse_if (Nat.eqb (length (lr_QueryReferences request)) 0)
    (New "linked purchase lookup requires at least one query reference") ;;?
  validateReferencesWithRole (lr_QueryReferences request) ReferenceQuery.

(* internal/stores/contracts.go: LinkedPurchase.Validate *)
Definition LinkedPurchase_Validate (purchase : LinkedPurchase) : error :=
  ProviderProductID_Validate (lp_ProductID purchase) ;;?
  validateReferencesWithRole (lp_LinkedReferences purchase) ReferenceQuery ;;?
  validateReferencesWithRole (lp_CustomerBindings purchase) ReferenceCustomerBinding.

(* internal/stores/contracts.go: PostCommitAction.Validate *)
Definition PostCommitAction_Validate (action : PostCommitAction) : error :=
  refuse_if (String.eqb (act_Kind action) EmptyString)
    (New "post-commit action kind is required") ;;?
  refuse_if (negb (String.eqb (TrimSpace (act_Kind action)) (act_Kind action)))
    (New "post-commit action kind must not have leading or trailing whitespace") ;;?
  errors_Join [ProviderProductID_Validate (act_ProductID action);
               ProductKind_Validate (act_ProductKind action)] ;;?
  refuse_if (Nat.eqb (length (act_QueryReferences action)) 0)
    (New "post-commit action requires at least one query reference") ;;?
  validateReferencesWithRole (act_QueryReferences action) ReferenceQuery.

(* internal/stores/contracts.go: PostCommitRequest.Validate *)
Definition PostCommitRequest_Validate (request : PostCommitRequest) : error :=
  Application_Validate (pc_Application request) ;;?
  refuse_if (Nat.eqb (length (pc_Actions request)) 0)
    (New "post-commit request requires at least one action") ;;?
  forPrefix (fun seen action =>
      wrap_err "post-commit action %d: %w" [AInt (Z.of_nat (length seen))]
        (PostCommitAction_Validate action) ;;?
      refuse_if (existsb (fun previous => samePostCommitAction action previous) seen)
        (Errorf "duplicate post-commit action %d" [AInt (Z.of_nat (length seen))]))
    [] (pc_Actions request).

(* internal/stores/contracts.go: VerificationRequest.Validate *)
Definition VerificationRequest_Validate (request : VerificationRequest) : error :=
  errors_Join [Application_Validate (vq_Application request);
               CustomerID_Validate (vq_CustomerID request);
               Evidence_Validate (vq_Evidence request)] ;;?
  validateProductSet (vq_ClaimedProducts request) ;;?
  validateReferencesWithRole (vq_ExpectedCustomerBindings request) ReferenceCustomerBinding.

(* internal/stores/contracts.go: ReconciliationRequest.Validate *)
Definition ReconciliationRequest_Validate (request : ReconciliationRequest) : error :=
  errors_Join [Application_Validate (rq_Application request);
               CustomerID_Validate (rq_CustomerID request);
               ProductKind_Validate (rq_ExpectedProductKind request)] ;;?
  validateProductSet (rq_ExpectedProducts request) ;;?
  validateReferencesWithRole (rq_ExpectedCustomerBindings request) ReferenceCustomerBinding ;;?
  refuse_if (Nat.eqb (length (rq_QueryReferences request)) 0)
    (New "reconciliation requires at least one query reference") ;;?
  validateReferencesWithRole (rq_QueryReferences request) ReferenceQuery.

(** Append a string that is not yet in the list, and the first occurrences of a
    list: a slice, or the key set of a map, built by one pass. *)
Definition append_new (seen : list string) (x : string) : list string :=
  if contains_str seen x then seen else seen ++ [x].
Definition distinct (l : list string) : list string := fold_left append_new l [].

(* internal/stores/contracts.go: VerificationResult.ProductsForClaim *)
Definition ProductsForClaim (result : VerificationResult) (claimed : list ProviderProductID)
    : list ProviderProductID :=
  match claimed with
  | [claim] =>
      if Nat.eqb (length (vr_NamedProducts result)) 0
         || negb (contains_str (vr_NamedProducts result) claim)
      then claimed
      else fold_left (fun observed observation => append_new observed (obs_ProductID observation))
             (vr_Observations result) []
  | _ => claimed
  end.

Section ResultValidation.
Context `{Hrange : !GoMapRange}.

(** The body of the loop over the observations. *)
(* internal/stores/contracts.go:273-300: VerificationResult.validate *)
Definition observation_error (application : Application)
    (expectedCustomerBindings expectedQueryReferences : list StoreReference)
    (seen : list PurchaseObservation) (observation : PurchaseObservation) : error :=
  let i := AInt (Z.of_nat (length seen)) in
  wrap_err "observation %d: %w" [i] (PurchaseObservation_Validate observation) ;;?
  refuse_if (negb (String.eqb (obs_ApplicationID observation) (app_ID application)))
    (Errorf "observation %d belongs to a different application" [i]) ;;?
  refuse_if (negb (bool_decide (obs_Store observation = app_Store application)))
    (Errorf "observation %d belongs to a different provider application scope" [i]) ;;?
  refuse_if (contains_str (map obs_ID seen) (obs_ID observation))
    (Errorf "duplicate observation ID %q" [AStr (obs_ID observation)]) ;;?
  refuse_if (negb (Nat.eqb (length expectedCustomerBindings) 0)
             && negb (hasMatchingReference (ReferencesFor observation ReferenceCustomerBinding)
                        expectedCustomerBindings))
    (Errorf "observation %d does not match an expected customer binding" [i]) ;;?
  refuse_if (negb (Nat.eqb (length expectedQueryReferences) 0)
             && negb (hasMatchingReference (ReferencesFor observation ReferenceQuery)
                        expectedQueryReferences))
    (Errorf "observation %d does not match a reconciliation query reference" [i]).

(** The body of the loop over the post-commit actions. *)
(* internal/stores/contracts.go:313-335: VerificationResult.validate *)
Definition action_error (observations : list PurchaseObservation)
    (seen : list PostCommitAction) (action : PostCommitAction) : error :=
  let i := AInt (Z.of_nat (length seen)) in
  wrap_err "post-commit action %d: %w" [i] (PostCommitAction_Validate action) ;;?
  refuse_if (negb (existsb (fun observation =>
                 String.eqb (act_ProductID action) (obs_ProductID observation)
                 && String.eqb (act_ProductKind action) (obs_ProductKind observation)
                 && hasMatchingReference (act_QueryReferences action)
                      (ReferencesFor observation ReferenceQuery)) observations))
    (Errorf "post-commit action %d does not match an observation" [i]) ;;?
  refuse_if (existsb (fun previous => samePostCommitAction action previous) seen)
    (Errorf "duplicate post-commit action %d" [i]).

(* internal/stores/contracts.go: VerificationResult.validate *)
Definition result_validate (result : VerificationResult) (application : Application)
    (expectedProducts : list ProviderProductID)
    (expectedCustomerBindings expectedQueryReferences : list StoreReference) : error :=
  refuse_if (IsZero (vr_VerifiedAt result)) (New "verification time is required") ;;?
  refuse_if (Nat.eqb (length (vr_Observations result)) 0)
    (New "verification result requires at least one observation") ;;?
  refuse_if (Nat.eqb (length (vr_Artifacts result)) 0)
    (New "verification result requires at least one verified artifact") ;;?
  forEach (fun i artifact => wrap_err "verified artifact %d: %w" [AInt (Z.of_nat i)]
                               (VerifiedArtifact_Validate artifact)) (vr_Artifacts result) ;;?
  forPrefix (observation_error application expectedCustomerBindings expectedQueryReferences)
    [] (vr_Observations result) ;;?
  let observedProducts := distinct (map obs_ProductID (vr_Observations result)) in
  forEach (fun index product => wrap_err "named product %d: %w" [AInt (Z.of_nat index)]
                                  (ProviderProductID_Validate product)) (vr_NamedProducts result) ;;?
  (if negb (Nat.eqb (length (vr_NamedProducts result)) 0)
   then forEach (fun _ product => refuse_if (negb (contains_str (vr_NamedProducts result) product))
                   (Errorf "observed product %q is not a named product" [AStr product]))
          (map_range 0 observedProducts)
   else None) ;;?
  forPrefix (action_error (vr_Observations result)) [] (vr_PostCommitActions result) ;;?
  (if negb (Nat.eqb (length expectedProducts) 0)
   then refuse_if (negb (Nat.eqb (length observedProducts) (length expectedProducts)))
          (New "observed products do not match expected products") ;;?
        forEach (fun _ expectedProduct =>
            refuse_if (negb (contains_str observedProducts expectedProduct))
              (Errorf "expected product %q was not observed" [AStr expectedProduct]))
          expectedProducts
   else None).

(* internal/stores/contracts.go: VerificationResult.ValidateForVerification *)
Definition ValidateForVerification (result : VerificationResult) (request : VerificationRequest) : error :=
  wrap_err "verification request: %w" [] (VerificationRequest_Validate request) ;;?
  result_validate result (vq_Application request) (vq_ClaimedProducts request)
    (vq_ExpectedCustomerBindings request) [].

(* internal/stores/contracts.go: VerificationResult.ValidateForReconciliation *)
Definition ValidateForReconciliation (result : VerificationResult) (request : ReconciliationRequest)
    : error :=
  wrap_err "reconciliation request: %w" [] (ReconciliationRequest_Validate request) ;;?
  result_validate result (rq_Application request) (rq_ExpectedProducts request)
    (rq_ExpectedCustomerBindings request) (rq_QueryReferences request) ;;?
  forEach (fun index observation =>
      refuse_if (negb (String.eqb (obs_ProductKind observation) (rq_ExpectedProductKind request)))
        (Errorf "observation %d has unexpected product kind %q"
           [AInt (Z.of_nat index); AStr (obs_ProductKind observation)]))
    (vr_Observations result).

End ResultValidation.

(** ** What the adapters share *)

(** References with an empty value are left out. *)
Fixpoint make_references (candidates : list (ReferenceRole * string * string))
    : result (list StoreReference) :=
  match candidates with
  | [] => Ok []
  | (role, kind, value) :: rest =>
      if String.eqb value EmptyString then make_references rest
      else let* reference := NewStoreReference role kind value in
           let* references := make_references rest in
           Ok (reference :: references)
  end.

(** The first 16 bytes of a digest in hexadecimal, after a provider's prefix. *)
Definition snapshot_id (prefix digest : string) : ObservationID :=
  (prefix ++ EncodeToString (str_take 16 digest))%string.

(** ** Registry ([registry.go]) *)

Section AdapterRegistry.
Context {Adapter : Type} (Adapter_Provider : Adapter -> Provider).

(* internal/stores/registry.go: Registry *)
Record Registry : Type := mkRegistry { adapters : gmap string Adapter }.

(* internal/stores/registry.go: ErrAdapterNotFound *)
Definition ErrAdapterNotFound : gerror := Sentinel "stores.ErrAdapterNotFound".

(** The loop of the constructor; a nil adapter is [None]. *)
Fixpoint register (registry : gmap string Adapter) (l : list (option Adapter)) : result Registry :=
  match l with
  | [] => Ok (mkRegistry registry)
  | None :: _ => Err (New "store adapter is nil")
  | Some adapter :: l' =>
      let provider := Adapter_Provider adapter in
      try* Provider_Validate provider in
      match registry !! provider with
      | Some _ => Err (Errorf "duplicate store adapter for provider %q" [AStr provider])
      | None => register (<[provider := adapter]> registry) l'
      end
  end.

(* internal/stores/registry.go: NewRegistry *)
Definition NewRegistry (l : list (option Adapter)) : result Registry := register ∅ l.

(** A nil registry is [None]. *)
(* internal/stores/registry.go: Registry.Adapter *)
Definition Registry_Adapter (registry : option Registry) (provider : Provider) : result Adapter :=
  try* Provider_Validate provider in
  match registry with
  | None => Err (Wrapf "%w: %s" [AStr provider] ErrAdapterNotFound)
  | Some r =>
      match adapters r !! provider with
      | None => Err (Wrapf "%w: %s" [AStr provider] ErrAdapterNotFound)
      | Some adapter => Ok adapter
      end
  end.

End AdapterRegistry.

(** ** Lemmas *)

Lemma append_new_In seen x y : In y (append_new seen x) <-> In y seen \/ y = x.
Proof.
  unfold append_new. destruct (contains_str seen x) eqn:E.
  - apply contains_str_In in E. naive_solver.
  - rewrite in_app_iff. simpl. naive_solver.
Qed.

Lemma append_new_NoDup seen x : NoDup seen -> NoDup (append_new seen x).
Proof.
  unfold append_new. destruct (contains_str seen x) eqn:E; [done|].
  intros H. apply contains_str_not_In in E. apply NoDup_app. split; [done|]. split.
  - intros y Hy Hx. apply list_elem_of_singleton in Hx as ->. apply E. by apply list_elem_of_In.
  - apply NoDup_singleton.
Qed.

Lemma distinct_fold l seen :
  (forall y, In y (fold_left append_new l seen) <-> In y seen \/ In y l) /\
  (NoDup seen -> NoDup (fold_left append_new l seen)).
Proof.
  revert seen. induction l as [|x l IH]; intros seen; simpl; [naive_solver|].
  destruct (IH (append_new seen x)) as [H1 H2]. split.
  - intros y. rewrite H1, append_new_In. naive_solver.
  - intros H. by apply H2, append_new_NoDup.
Qed.

Lemma distinct_In l y : In y (distinct l) <-> In y l.
Proof. unfold distinct. rewrite (proj1 (distinct_fold l [])). simpl. naive_solver. Qed.

Lemma distinct_NoDup l : NoDup (distinct l).
Proof. apply distinct_fold. constructor. Qed.

Lemma fold_left_map_append (obs : list PurchaseObservation) seen :
  fold_left (fun observed observation => append_new observed (obs_ProductID observation)) obs seen
  = fold_left append_new (map obs_ProductID obs) seen.
Proof. revert seen. induction obs as [|o obs IH]; intros seen; simpl; auto. Qed.

(** Two lists without repetition, one inside the other and as long, are permutations. *)
Lemma same_length_Permutation {A} `{EqDecision A} (l1 l2 : list A) :
  NoDup l1 -> length l1 = length l2 -> (forall x, In x l1 -> In x l2) -> Permutation l1 l2.
Proof.
  intros H1 Hlen Hin. apply NoDup_Permutation_bis; [by apply NoDup_ListNoDup|lia|exact Hin].
Qed.

Lemma role_references_valid references role :
  validateReferencesWithRole references role = None <->
  Forall (fun r => reference_ok r /\ ref_Role r = role) references /\ NoDup references.
Proof.
  unfold validateReferencesWithRole. apply forPrefix_check_dup. intros seen r.
  err_simpl. rewrite existsb_Equal_In. unfold reference_ok. tauto.
Qed.

Lemma product_set_valid products :
  validateProductSet products = None <-> Forall identifier_ok products /\ NoDup products.
Proof.
  unfold validateProductSet. apply forPrefix_check_dup. intros seen x. err_simpl. done.
Qed.

Lemma hasMatchingReference_true actual expected :
  hasMatchingReference actual expected = true <-> exists r, In r actual /\ In r expected.
Proof.
  unfold hasMatchingReference. rewrite existsb_exists. setoid_rewrite existsb_exists.
  split.
  - intros (r & Hr & r' & Hr' & He). apply StoreReference_Equal_eq in He. subst. eauto.
  - intros (r & Hr & Hr'). exists r. split; [done|]. exists r. split; [done|].
    by apply StoreReference_Equal_eq.
Qed.

Lemma ReferencesFor_In o role r : In r (ReferencesFor o role) <-> In r (obs_References o) /\ ref_Role r = role.
Proof. unfold ReferencesFor. rewrite filter_In. by rewrite String.eqb_eq. Qed.

#[export] Hint Rewrite hasMatchingReference_true : gobool.
#[export] Hint Rewrite role_references_valid product_set_valid : goerr.

(** ** Well-formed results *)

Record action_wf (a : PostCommitAction) : Prop := {
  acw_kind : text_ok (act_Kind a);
  acw_product : identifier_ok (act_ProductID a) /\ identifier_ok (act_ProductKind a);
  acw_references : act_QueryReferences a <> [] /\
    Forall (fun r => reference_ok r /\ ref_Role r = ReferenceQuery) (act_QueryReferences a) /\
    NoDup (act_QueryReferences a)
}.

Lemma action_valid a : PostCommitAction_Validate a = None <-> action_wf a.
Proof.
  unfold PostCommitAction_Validate. err_simpl.
  assert (length (act_QueryReferences a) <> 0%nat <-> act_QueryReferences a <> []) as ->
    by (destruct (act_QueryReferences a); naive_solver).
  split; [intros H; splits_hyps; split; try split; tauto|].
  intros [[] [] []]. tauto.
Qed.

(** An observation shares an exact reference of a role with a set; an empty set asks nothing. *)
Definition shares_reference (o : PurchaseObservation) (role : ReferenceRole)
    (expected : list StoreReference) : Prop :=
  expected = [] \/
  exists r, In r (obs_References o) /\ ref_Role r = role /\ In r expected.

(** An action repeats an operation on an observation's own purchase. *)
Definition action_matches (a : PostCommitAction) (o : PurchaseObservation) : Prop :=
  act_ProductID a = obs_ProductID o /\ act_ProductKind a = obs_ProductKind o /\
  exists r, In r (act_QueryReferences a) /\ In r (obs_References o) /\ ref_Role r = ReferenceQuery.

(** Two actions that are the same provider operation. *)
Definition same_action (a b : PostCommitAction) : Prop :=
  act_Kind a = act_Kind b /\ act_ProductID a = act_ProductID b /\
  act_ProductKind a = act_ProductKind b /\
  Permutation (act_QueryReferences a) (act_QueryReferences b).

(** What the validation of a provider answer guarantees to the service. *)
Record result_wf (r : VerificationResult) (app : Application) (products : list ProviderProductID)
    (bindings queries : list StoreReference) : Prop := {
  rwf_time : vr_VerifiedAt r <> 0;
  rwf_some : vr_Observations r <> [] /\ vr_Artifacts r <> [];
  rwf_artifacts : Forall (fun a => VerifiedArtifact_Validate a = None) (vr_Artifacts r);
  rwf_observations : Forall observation_wf (vr_Observations r);
  rwf_scope : Forall (fun o => obs_ApplicationID o = app_ID app /\ obs_Store o = app_Store app)
                (vr_Observations r);
  rwf_ids : NoDup (map obs_ID (vr_Observations r));
  rwf_bound : Forall (fun o => shares_reference o ReferenceCustomerBinding bindings /\
                               shares_reference o ReferenceQuery queries) (vr_Observations r);
  rwf_named : Forall identifier_ok (vr_NamedProducts r) /\
    (vr_NamedProducts r <> [] ->
     forall o, In o (vr_Observations r) -> In (obs_ProductID o) (vr_NamedProducts r));
  rwf_actions : Forall action_wf (vr_PostCommitActions r) /\
    Forall (fun a => exists o, In o (vr_Observations r) /\ action_matches a o)
      (vr_PostCommitActions r);
  rwf_distinct_actions : forall i j a b,
    vr_PostCommitActions r !! i = Some a -> vr_PostCommitActions r !! j = Some b ->
    i <> j -> ~ same_action a b;
  rwf_products : products <> [] ->
    length (distinct (map obs_ProductID (vr_Observations r))) = length products /\
    forall p, In p products -> exists o, In o (vr_Observations r) /\ obs_ProductID o = p
}.

Lemma same_action_equal a b :
  NoDup (act_QueryReferences a) ->
  samePostCommitAction a b = true <-> same_action a b.
Proof.
  intros Ha. unfold samePostCommitAction, same_action. bool_simpl. rewrite forallb_forall.
  setoid_rewrite hasMatchingReference_true. split.
  - intros ((((-> & ->) & ->) & Hlen) & Hall). split_and!; auto.
    apply same_length_Permutation; auto. intros x Hx.
    destruct (Hall x Hx) as (r & [<-|[]] & Hr). done.
  - intros (-> & -> & -> & Hp). split_and!; auto using Permutation_length.
    intros x Hx. exists x. split; [by left|]. by rewrite <- Hp.
Qed.

Lemma same_action_sym a b : same_action a b -> same_action b a.
Proof. intros (H1 & H2 & H3 & H4). repeat split; auto. by symmetry. Qed.

Lemma shares_reference_check o role expected :
  negb (Nat.eqb (length expected) 0) && negb (hasMatchingReference (ReferencesFor o role) expected)
  = false <-> shares_reference o role expected.
Proof.
  unfold shares_reference. bool_simpl. setoid_rewrite ReferencesFor_In.
  assert (length expected = 0%nat <-> expected = []) as -> by (destruct expected; naive_solver).
  naive_solver.
Qed.

Lemma shares_reference_nil o role : shares_reference o role [].
Proof. by left. Qed.

Section ResultLemmas.
Context `{Hrange : !GoMapRange}.

Lemma observation_loop application bindings queries obs :
  forPrefix (observation_error application bindings queries) [] obs = None <->
  Forall (fun o => observation_wf o /\
      (obs_ApplicationID o = app_ID application /\ obs_Store o = app_Store application) /\
      (shares_reference o ReferenceCustomerBinding bindings /\
       shares_reference o ReferenceQuery queries)) obs /\
  NoDup (map obs_ID obs).
Proof.
  rewrite (forPrefix_check_rel (fun o => observation_wf o /\
      (obs_ApplicationID o = app_ID application /\ obs_Store o = app_Store application) /\
      (shares_reference o ReferenceCustomerBinding bindings /\
       shares_reference o ReferenceQuery queries)) (fun x y => String.eqb (obs_ID x) (obs_ID y))).
  - apply and_iff_compat_l. rewrite NoDup_alt. split.
    + intros H i j k Hi Hj. rewrite list_lookup_fmap in Hi, Hj.
      destruct (obs !! i) as [x|] eqn:Ex; [|done]. destruct (obs !! j) as [y|] eqn:Ey; [|done].
      simpl in Hi, Hj. destruct (Nat.lt_trichotomy i j) as [Hlt|[Heq|Hlt]]; [exfalso|done|exfalso].
      * specialize (H j i y x Ey Ex Hlt). apply String.eqb_neq in H. congruence.
      * specialize (H i j x y Ex Ey Hlt). apply String.eqb_neq in H. congruence.
    + intros H i j x y Hx Hy Hlt. apply String.eqb_neq. intros Heq.
      assert (i = j); [|lia]. apply (H i j (obs_ID x)); rewrite list_lookup_fmap.
      * by rewrite Hx.
      * by rewrite Hy, Heq.
  - intros seen o. unfold observation_error. rewrite !seq_err_nil, !refuse_if_nil, wrap_err_nil.
    rewrite !shares_reference_check, observation_parts, !negb_false_iff, String.eqb_eq,
      bool_decide_eq_true.
    assert (contains_str (map obs_ID seen) (obs_ID o) =
            existsb (fun y => String.eqb (obs_ID o) (obs_ID y)) seen) as ->.
    { unfold contains_str. induction seen; simpl; [done|]. by rewrite IHseen. }
    tauto.
Qed.

Lemma action_loop obs actions :
  forPrefix (action_error obs) [] actions = None <->
  Forall (fun a => action_wf a /\ exists o, In o obs /\ action_matches a o) actions /\
  (forall i j a b, actions !! i = Some a -> actions !! j = Some b -> i <> j -> ~ same_action a b).
Proof.
  rewrite (forPrefix_check_rel (fun a => action_wf a /\ exists o, In o obs /\ action_matches a o)
             samePostCommitAction).
  - split; intros [HP HR]; (split; [exact HP|]).
    + assert (Hne : forall i j a b, actions !! i = Some a -> actions !! j = Some b ->
                      (j < i)%nat -> ~ same_action a b).
      { intros i j a b Ha Hb Hlt Hs. specialize (HR i j a b Ha Hb Hlt).
        apply not_true_iff_false in HR. apply HR. apply same_action_equal; [|done].
        destruct (Forall_lookup_1 _ _ _ _ HP Ha) as [[_ _ (_ & _ & Hnd)] _]. exact Hnd. }
      intros i j a b Ha Hb Hij Hs. destruct (Nat.lt_ge_cases j i) as [Hlt|Hge];
        [exact (Hne i j a b Ha Hb Hlt Hs)|].
      assert (i < j)%nat by lia. eapply Hne; [exact Hb|exact Ha|done|by apply same_action_sym].
    + intros i j a b Ha Hb Hlt. apply not_true_iff_false. rewrite same_action_equal.
      * apply (HR i j a b Ha Hb). lia.
      * destruct (Forall_lookup_1 _ _ _ _ HP Ha) as [[_ _ (_ & _ & Hnd)] _]. exact Hnd.
  - intros seen a. unfold action_error. rewrite !seq_err_nil, !refuse_if_nil, wrap_err_nil.
    rewrite action_valid, negb_false_iff, existsb_exists.
    assert ((exists x, In x obs /\
        String.eqb (act_ProductID a) (obs_ProductID x)
        && String.eqb (act_ProductKind a) (obs_ProductKind x)
        && hasMatchingReference (act_QueryReferences a) (ReferencesFor x ReferenceQuery) = true) <->
      exists o, In o obs /\ action_matches a o) as ->; [|tauto].
    unfold action_matches. bool_simpl. setoid_rewrite andb_true_iff. setoid_rewrite andb_true_iff.
    setoid_rewrite String.eqb_eq. setoid_rewrite hasMatchingReference_true.
    setoid_rewrite ReferencesFor_In. naive_solver.
Qed.

End ResultLemmas.

Lemma named_check `{Horder : !GoMapRange} named (products : list string) :
  (if negb (Nat.eqb (length named) 0)
   then forEach (fun _ product => refuse_if (negb (contains_str named product))
                   (Errorf "observed product %q is not a named product" [AStr product]))
          (map_range 0 products)
   else None) = None <->
  (named <> [] -> forall p, In p products -> In p named).
Proof.
  rewrite if_check_nil, negb_true_iff, Nat.eqb_neq.
  assert (length named <> 0%nat <-> named <> []) as -> by (destruct named; naive_solver).
  apply forall_proper. intros _. rewrite forEach_nil.
  setoid_rewrite refuse_if_nil. setoid_rewrite negb_false_iff. setoid_rewrite contains_str_In.
  split.
  - intros H p Hp. apply (Permutation_in _ (Permutation_sym (map_range_perm 0 _ products))) in Hp.
    apply list_elem_of_In, list_elem_of_lookup in Hp as [i Hi]. eauto.
  - intros H i p Hp. apply H. apply (Permutation_in _ (map_range_perm 0 _ products)).
    apply list_elem_of_In, list_elem_of_lookup. eauto.
Qed.

Lemma forEach_Forall {A} (f : nat -> A -> error) (P : A -> Prop) l :
  (forall i x, f i x = None <-> P x) -> forEach f l = None <-> Forall P l.
Proof.
  intros Hf. rewrite forEach_nil, Forall_lookup. setoid_rewrite Hf. done.
Qed.

Lemma result_validate_parts `{Horder : !GoMapRange} r app products bindings queries :
  result_validate r app products bindings queries = None <-> result_wf r app products bindings queries.
Proof.
  unfold result_validate. cbv zeta.
  rewrite !seq_err_nil, !refuse_if_nil, observation_loop, action_loop, named_check.
  rewrite (forEach_Forall _ (fun a => VerifiedArtifact_Validate a = None))
    by (intros; by rewrite wrap_err_nil).
  rewrite (forEach_Forall _ identifier_ok) by (intros; by err_simpl).
  rewrite if_check_nil, seq_err_nil, refuse_if_nil.
  rewrite (forEach_Forall _ (fun p => In p (distinct (map obs_ProductID (vr_Observations r)))))
    by (intros; rewrite refuse_if_nil, negb_false_iff, contains_str_In; done).
  rewrite IsZero_false, negb_true_iff, negb_false_iff, !Nat.eqb_neq, Nat.eqb_eq, !Forall_and.
  setoid_rewrite distinct_In. rewrite List.Forall_forall. setoid_rewrite in_map_iff.
  assert (forall A (l : list A), length l <> 0%nat <-> l <> []) as Hne
    by (intros A [|? ?]; naive_solver).
  rewrite !Hne. split.
  - intros H. splits_hyps.
    split; rewrite ?List.Forall_forall in *; try tauto; try (intros x Hx; split; by auto).
    + split; [done|]. intros Hn o Ho. eauto.
    + intros Hp. destruct (H7 Hp) as [? Hx]. split; [done|]. rewrite ?List.Forall_forall in Hx.
      intros p Hin. destruct (Hx p Hin) as (o & ? & ?). eauto.
  - intros [? [? ?] ? ? Hs ? Hb [? Hn] [? ?] ? Hp]. rewrite List.Forall_forall in Hs, Hb.
    split_and!; try tauto; rewrite ?List.Forall_forall in *; try tauto;
      try (intros x Hx; specialize (Hs x Hx); specialize (Hb x Hx); tauto).
    + intros Hnn p (o & <- & Ho). auto.
    + intros Hnn. destruct (Hp Hnn) as [? Hx]. split; [done|]. rewrite ?List.Forall_forall.
      intros p Hin. destruct (Hx p Hin) as (o & Ho & <-). eauto.
Qed.

(** When one product is expected, every observation is of it. *)
Lemma observed_single obs (claim : string) :
  ([claim] <> [] -> length (distinct (map obs_ProductID obs)) = length [claim] /\
     forall p, In p [claim] -> exists o, In o obs /\ obs_ProductID o = p) ->
  forall o, In o obs -> obs_ProductID o = claim.
Proof.
  intros H o Ho. destruct (H ltac:(done)) as [Hlen Hin].
  destruct (Hin claim ltac:(by left)) as (o' & Ho' & Hp).
  assert (H1 : In (obs_ProductID o) (distinct (map obs_ProductID obs)))
    by (apply distinct_In, in_map; exact Ho).
  assert (H2 : In claim (distinct (map obs_ProductID obs)))
    by (apply distinct_In, in_map_iff; eauto).
  destruct (distinct (map obs_ProductID obs)) as [|x [|y l]]; simpl in *; try lia.
  destruct H1 as [<-|[]], H2 as [<-|[]]. done.
Qed.

(** An answer about one purchase, with no action, is well formed when its
    observation is. *)
Lemma single_wf at_ artifact o app products bindings queries :
  at_ <> 0 -> VerifiedArtifact_Validate artifact = None -> PurchaseObservation_Validate o = None ->
  obs_ApplicationID o = app_ID app /\ obs_Store o = app_Store app ->
  shares_reference o ReferenceCustomerBinding bindings -> shares_reference o ReferenceQuery queries ->
  products = [] \/ products = [obs_ProductID o] ->
  result_wf (mkVerificationResult at_ [artifact] [o] [] []) app products bindings queries.
Proof.
  intros Ht Ha Ho%observation_parts Hs Hb Hq Hp. split; simpl; auto.
  - apply NoDup_singleton.
  - intros i j a b. by rewrite lookup_nil.
  - destruct Hp as [->| ->]; [done|]. intros _. split; [done|]. intros p [<-|[]]. exists o. auto.
Qed.

Lemma make_references_In candidates references :
  make_references candidates = Ok references ->
  forall r, In r references <->
    exists role kind value, In (role, kind, value) candidates /\ value <> EmptyString /\
      r = mkStoreReference role kind value.
Proof.
  revert references. induction candidates as [|[[role kind] value] rest IH]; intros references;
    cbn [make_references].
  - intros [= <-] r. split; [done|]. by intros (? & ? & ? & [] & _).
  - destruct (String.eqb_spec value EmptyString) as [->|Hv].
    + intros H r. rewrite (IH _ H r). split.
      * intros (ro & k & v & Hin & ?). exists ro, k, v. split; [by right|done].
      * intros (ro & k & v & [[= -> -> <-]|Hin] & Hne & ->); [done|]. eauto 8.
    + intros H r. apply bind_result_ok in H as (reference & Hr & H).
      apply bind_result_ok in H as (references' & Hrs & [= <-]).
      unfold NewStoreReference in Hr. apply try_err_ok in Hr as [_ [= <-]]. simpl.
      rewrite (IH _ Hrs r). split.
      * intros [<-|(ro & k & v & Hin & ?)]; [exists role, kind, value; auto|exists ro, k, v; auto].
      * intros (ro & k & v & [[= -> -> ->]|Hin] & Hne & ->); [by left|right; eauto 8].
Qed.

Lemma binding_roles bindings :
  validateReferencesWithRole bindings ReferenceCustomerBinding = None ->
  Forall (fun b => ref_Role b = ReferenceCustomerBinding) bindings.
Proof.
  intros [H _]%role_references_valid. eapply Forall_impl; [exact H|]. simpl. tauto.
Qed.

Lemma request_roles request :
  VerificationRequest_Validate request = None ->
  Forall (fun b => ref_Role b = ReferenceCustomerBinding) (vq_ExpectedCustomerBindings request).
Proof. unfold VerificationRequest_Validate. rewrite !seq_err_nil. intros (_ & _ & H). by apply binding_roles. Qed.

Lemma reconciliation_roles request :
  ReconciliationRequest_Validate request = None ->
  Forall (fun b => ref_Role b = ReferenceCustomerBinding) (rq_ExpectedCustomerBindings request) /\
  rq_QueryReferences request <> [].
Proof.
  unfold ReconciliationRequest_Validate. rewrite !seq_err_nil, refuse_if_nil.
  intros (_ & _ & H & Hn & _). split; [by apply binding_roles|]. intros E. by rewrite E in Hn.
Qed.

(** A request stays valid when its claims are replaced by an observed product. *)
Lemma request_products request products :
  VerificationRequest_Validate request = None -> Forall identifier_ok products -> NoDup products ->
  VerificationRequest_Validate
    (mkVerificationRequest (vq_Application request) (vq_CustomerID request) products
       (vq_ExpectedCustomerBindings request) (vq_Evidence request)) = None.
Proof.
  unfold VerificationRequest_Validate. cbn [vq_Application vq_CustomerID vq_Evidence vq_ClaimedProducts
    vq_ExpectedCustomerBindings]. rewrite !seq_err_nil. intros (H1 & _ & H3) Hp Hn.
  split_and!; auto. by apply product_set_valid.
Qed.

Lemma NewEvidence_ok contentType payload e : NewEvidence contentType payload = Ok e -> Evidence_Validate e = None.
Proof. unfold NewEvidence. rewrite try_err_ok. intros [H [= <-]]. exact H. Qed.

Lemma reconciliation_products request products :
  ReconciliationRequest_Validate request = None -> Forall identifier_ok products -> NoDup products ->
  ReconciliationRequest_Validate
    (mkReconciliationRequest (rq_Application request) (rq_CustomerID request) products
       (rq_ExpectedProductKind request) (rq_ExpectedCustomerBindings request)
       (rq_QueryReferences request)) = None.
Proof.
  unfold ReconciliationRequest_Validate. cbn [rq_Application rq_CustomerID rq_ExpectedProductKind
    rq_ExpectedProducts rq_ExpectedCustomerBindings rq_QueryReferences].
  rewrite !seq_err_nil. intros (H1 & _ & H3) Hp Hn. split_and!; try tauto. by apply product_set_valid.
Qed.

(** A provider answer is accepted for a verification exactly when the
    request is valid and the answer is well formed for it: every observation is
    valid, belongs to the requested application and store, shares an expected
    customer binding, and has its own id; every post-commit action concerns an
    observed purchase and no two are the same operation; and the claimed
    products are exactly the observed ones.  The iteration order of the product
    map does not matter. *)
Theorem verification_accepts `{Horder : !GoMapRange} (result : VerificationResult) (request : VerificationRequest) :
  ValidateForVerification result request = None <->
  VerificationRequest_Validate request = None /\
  result_wf result (vq_Application request) (vq_ClaimedProducts request)
    (vq_ExpectedCustomerBindings request) [].
Proof.
  unfold ValidateForVerification. by rewrite seq_err_nil, wrap_err_nil, result_validate_parts.
Qed.

(** A provider answer is accepted for a reconciliation exactly when it is
    well formed for the expected products, bindings and query references and
    every observation has the expected product kind. *)
Theorem reconciliation_accepts `{Horder : !GoMapRange} (result : VerificationResult)
    (request : ReconciliationRequest) :
  ValidateForReconciliation result request = None <->
  ReconciliationRequest_Validate request = None /\
  result_wf result (rq_Application request) (rq_ExpectedProducts request)
    (rq_ExpectedCustomerBindings request) (rq_QueryReferences request) /\
  forall o, In o (vr_Observations result) -> obs_ProductKind o = rq_ExpectedProductKind request.
Proof.
  unfold ValidateForReconciliation. rewrite !seq_err_nil, wrap_err_nil, result_validate_parts.
  rewrite (forEach_Forall _ (fun o => obs_ProductKind o = rq_ExpectedProductKind request)).
  - by rewrite List.Forall_forall.
  - intros i o. rewrite refuse_if_nil, negb_false_iff. apply String.eqb_eq.
Qed.

(** Replacing a claim by the observed products never lets an unrelated
    claim through: when the answer is accepted for the replaced products of one
    claim, the claim is a product the purchase names, or the one product
    observed; and without named products the claim is checked as it is. *)
Theorem claim_is_named `{Horder : !GoMapRange} (r : VerificationResult) (app : Application)
    (claim : ProviderProductID) (bindings queries : list StoreReference) :
  result_validate r app (ProductsForClaim r [claim]) bindings queries = None ->
  (In claim (vr_NamedProducts r) /\
   forall o, In o (vr_Observations r) -> In (obs_ProductID o) (vr_NamedProducts r)) \/
  (~ In claim (vr_NamedProducts r) /\
   forall o, In o (vr_Observations r) -> obs_ProductID o = claim).
Proof.
  rewrite result_validate_parts. intros Hwf.
  destruct Hwf as [_ _ _ _ _ _ _ [_ Hnamed] _ _ Hprod].
  unfold ProductsForClaim in Hprod. cbn [map] in Hprod.
  destruct (Nat.eqb_spec (length (vr_NamedProducts r)) 0) as [Hn|Hn]; simpl in Hprod.
  2: destruct (contains_str (vr_NamedProducts r) claim) eqn:Hc; simpl in Hprod.
  - apply nil_length_inv in Hn. rewrite Hn. right. split; [by intros []|].
    by apply observed_single.
  - left. apply contains_str_In in Hc. split; [done|]. apply Hnamed.
    intros E. by rewrite E in Hc.
  - right. apply contains_str_not_In in Hc. split; [done|]. by apply observed_single.
Qed.

(** ** A concrete provider answer *)

Definition sample_application : Application :=
  mkApplication "app-1" "project-1"
    (mkStoreApplication ProviderGooglePlay EnvironmentProduction "com.example.app").

Definition sample_token : StoreReference :=
  mkStoreReference ReferenceQuery "purchase_token" "token-abc".

Definition sample_verified : PurchaseObservation :=
  mkObservation "obs-1" "app-1" (app_Store sample_application)
    "premium_monthly" ProductKindSubscription LifecycleActive "SUBSCRIPTION_STATE_ACTIVE"
    AccessAllowed AccessReasonPurchaseValid OwnershipPurchased 1 None 1000 2000
    (mkPeriod 1000 (Some 4000)) (mkRenewal RenewalAuto RenewalEnabled EmptyString (Some 4000))
    [mkStoreReference ReferenceTransaction "google_order_id" "GPA.1"; sample_token] EmptyString.

Definition sample_action : PostCommitAction :=
  mkAction "acknowledge" "premium_monthly" ProductKindSubscription [sample_token].

Definition sample_result : VerificationResult :=
  mkVerificationResult 2000
    [mkArtifact "google_subscription" (mkEvidence "application/json" "{}")]
    [sample_verified] [sample_action] ["premium_monthly"; "basic_monthly"]%string.

Definition sample_request (claims : list ProviderProductID) : VerificationRequest :=
  mkVerificationRequest sample_application "customer-1" claims []
    (mkEvidence GooglePlayEvidenceContentType "{}").

Lemma claim_is_named_witness :
  (* the claim on a product the purchase names is accepted, *)
  @ValidateForVerification range_in_order sample_result
    (sample_request (ProductsForClaim sample_result ["basic_monthly"%string])) = None /\
  (* a claim on a product it does not name is refused, *)
  @ValidateForVerification range_in_order sample_result
    (sample_request (ProductsForClaim sample_result ["lifetime"%string])) <> None /\
  (* and the theorem applies to the accepted one. *)
  In "basic_monthly"%string (vr_NamedProducts sample_result).
Proof.
  split; [vm_compute; reflexivity|]. split; [vm_compute; discriminate|].
  assert (H : @result_validate range_in_order sample_result sample_application
                (ProductsForClaim sample_result ["basic_monthly"%string]) [] [] = None)
    by (vm_compute; reflexivity).
  destruct (@claim_is_named range_in_order sample_result sample_application
              "basic_monthly" [] [] H) as [[Hin _]|[Hn _]]; [exact Hin|].
  right. left. reflexivity.
Defined.

(** On valid actions, the duplicate test is an equivalence: two actions are
    the same operation exactly when kind, product and product kind agree and the
    query references are the same set, whatever their order. *)
Theorem same_action_equivalence (a b : PostCommitAction) :
  PostCommitAction_Validate a = None -> PostCommitAction_Validate b = None ->
  (samePostCommitAction a b = true <-> same_action a b) /\
  samePostCommitAction a b = samePostCommitAction b a.
Proof.
  intros [_ _ (_ & _ & Ha)]%action_valid [_ _ (_ & _ & Hb)]%action_valid.
  split; [by apply same_action_equal|].
  apply eq_bool_prop_intro. split; intros H; apply Is_true_eq_true in H; apply Is_true_eq_left;
    apply same_action_equal; auto; apply same_action_sym, same_action_equal; auto.
Qed.

Lemma same_action_equivalence_witness :
  let r1 := sample_token in
  let r2 := mkStoreReference ReferenceQuery "package" "com.example.app" in
  let a := mkAction "acknowledge" "premium" ProductKindSubscription [r1; r2] in
  let b := mkAction "acknowledge" "premium" ProductKindSubscription [r2; r1] in
  samePostCommitAction a b = true /\ same_action b a.
Proof.
  intros r1 r2 a b. split; [reflexivity|].
  assert (Ha : PostCommitAction_Validate a = None) by (vm_compute; reflexivity).
  assert (Hb : PostCommitAction_Validate b = None) by (vm_compute; reflexivity).
  apply (proj1 (same_action_equivalence b a Hb Ha)). reflexivity.
Defined.

(** ** The registry *)

Section RegistryLemmas.
Context {Adapter : Type} (Adapter_Provider : Adapter -> Provider).

(** A registration that goes through finds every provider still free. *)
Lemma register_fresh (m : gmap string Adapter) l r :
  register Adapter_Provider m l = Ok r ->
  forall a, In (Some a) l -> m !! Adapter_Provider a = None.
Proof.
  revert m. induction l as [|[x|] l IH]; intros m; cbn [register]; [done|intros H|done].
  apply try_err_ok in H as [_ H]. case_hyp H as Hlook. intros a [[= <-]|Hin]; [done|].
  pose proof (IH _ H a Hin) as Hn. by apply lookup_insert_None in Hn as [? _].
Qed.

Lemma register_lookup (m : gmap string Adapter) l r :
  register Adapter_Provider m l = Ok r ->
  forall p a, adapters r !! p = Some a <->
    m !! p = Some a \/ (m !! p = None /\ In (Some a) l /\ Adapter_Provider a = p /\ identifier_ok p).
Proof.
  revert m. induction l as [|[x|] l IH]; intros m; cbn [register]; [|intros H|done].
  - intros [= <-] p a. simpl. naive_solver.
  - apply try_err_ok in H as [Hv H]. unfold Provider_Validate in Hv.
    apply validateIdentifier_nil in Hv. case_hyp H as Hlook. intros p a. rewrite (IH _ H).
    destruct (decide (Adapter_Provider x = p)) as [<-|Hne].
    + rewrite lookup_insert_eq, Hlook. split.
      * intros [[= <-]|[? _]]; [|done]. right. split_and!; auto. by left.
      * intros [?|(_ & [[= <-]|Hin] & Hp & _)]; [done|by left|].
        pose proof (register_fresh _ _ _ H a Hin) as Hf. rewrite Hp, lookup_insert_eq in Hf. done.
    + rewrite lookup_insert_ne by done. split; [naive_solver|].
      intros [?|(? & [[= <-]|?] & ? & ?)]; naive_solver.
Qed.

Lemma register_ids (m : gmap string Adapter) l r :
  register Adapter_Provider m l = Ok r ->
  forall a, In (Some a) l -> identifier_ok (Adapter_Provider a).
Proof.
  revert m. induction l as [|[x|] l IH]; intros m; cbn [register]; [done|intros H|done].
  apply try_err_ok in H as [Hv H]. unfold Provider_Validate in Hv.
  apply validateIdentifier_nil in Hv. case_hyp H as Hlook. intros a [[= <-]|Hin]; eauto.
Qed.

Lemma register_no_nil (m : gmap string Adapter) l r :
  register Adapter_Provider m l = Ok r -> ~ In None l.
Proof.
  revert m. induction l as [|[x|] l IH]; intros m; cbn [register]; [by intros _ []|intros H|done].
  apply try_err_ok in H as [_ H]. case_hyp H as Hlook. intros [?|Hin]; [done|]. by apply (IH _ H).
Qed.
End RegistryLemmas.

(** A registry that is built returns, for each provider, exactly the one
    adapter registered under it; a repeated, nil or unnamed adapter is refused;
    and an unregistered provider is the classified not-found error. *)
Theorem registry_lookup {Adapter : Type} (Adapter_Provider : Adapter -> Provider)
    (l : list (option Adapter)) (r : Registry) :
  NewRegistry Adapter_Provider l = Ok r ->
  (forall a, In (Some a) l -> Registry_Adapter (Some r) (Adapter_Provider a) = Ok a) /\
  ~ In None l /\
  (forall p a, Registry_Adapter (Some r) p = Ok a -> In (Some a) l /\ Adapter_Provider a = p) /\
  (forall p, identifier_ok p -> (forall a, In (Some a) l -> Adapter_Provider a <> p) ->
     exists e, Registry_Adapter (Some r) p = Err e /\ errors_Is e "stores.ErrAdapterNotFound" = true).
Proof.
  unfold NewRegistry. intros H. pose proof (register_lookup _ _ _ _ H) as Hl.
  setoid_rewrite lookup_empty in Hl.
  assert (Hid : forall a, In (Some a) l -> identifier_ok (Adapter_Provider a))
    by (apply (register_ids _ _ _ _ H)).
  split_and!.
  - intros a Ha. unfold Registry_Adapter, Provider_Validate.
    rewrite (proj2 (validateIdentifier_nil "provider" _) (Hid a Ha)). simpl.
    by rewrite (proj2 (Hl (Adapter_Provider a) a)) by (right; auto).
  - by apply (register_no_nil _ _ _ _ H).
  - intros p a Ha. unfold Registry_Adapter in Ha. apply try_err_ok in Ha as [_ Ha].
    destruct (adapters r !! p) as [a'|] eqn:E; [|done]. simplify_eq. apply Hl in E. naive_solver.
  - intros p Hp Hno. exists (Wrapf "%w: %s" [AStr p] ErrAdapterNotFound). split; [|done].
    unfold Registry_Adapter, Provider_Validate.
    rewrite (proj2 (validateIdentifier_nil "provider" _) Hp). simpl.
    destruct (adapters r !! p) as [a'|] eqn:E; [|done]. apply Hl in E. naive_solver.
Qed.

Lemma registry_lookup_witness :
  exists r, NewRegistry (fun p : Provider => p) [Some ProviderAppleAppStore; Some ProviderGooglePlay] = Ok r /\
    Registry_Adapter (Some r) ProviderGooglePlay = Ok ProviderGooglePlay.
Proof.
  destruct (NewRegistry (fun p : Provider => p) [Some ProviderAppleAppStore; Some ProviderGooglePlay])
    as [r|] eqn:E; [|vm_compute in E; discriminate].
  exists r. split; [reflexivity|].
  apply (proj1 (registry_lookup (fun p : Provider => p) _ r E)). right. left. reflexivity.
Defined.
