(* ===== verification/Projector.v ===== *)
(** The entitlement projector ([internal/verification/projector.go]): one access
    decision per entitlement, selected among the purchase lineages and import
    grants that could give it. *)

From S2P Require Import Prelude GoText GoTime Core Purchase Protection Persistence.
From stdpp Require Import base list strings gmap sorting.
Local Open Scope Z_scope.

(** ** Data *)

(* internal/verification/projector.go: ProjectionCandidate *)
Record ProjectionCandidate : Type := mkCandidate {
  cand_Projection : EntitlementProjection;
  cand_SourceApplicationID : ApplicationID;
  cand_SourceLineage : string;
  cand_ObservedAt : time
}.

(* internal/verification/projector.go: projectionSource *)
Record projectionSource : Type := mkSource {
  src_ApplicationID : ApplicationID;
  src_ProductID : ProductID;
  src_Lineage : string
}.

(* internal/verification/projector.go: entitlementProduct *)
Record entitlementProduct : Type := mkEntitlementProduct {
  prd_EntitlementID : EntitlementID;
  prd_ApplicationID : ApplicationID;
  prd_ProductID : ProductID
}.

#[export] Instance projectionSource_eq_dec : EqDecision projectionSource.
Proof. solve_decision. Defined.
#[export] Instance entitlementProduct_eq_dec : EqDecision entitlementProduct.
Proof. solve_decision. Defined.
#[export] Instance ProjectionCandidate_eq_dec : EqDecision ProjectionCandidate.
Proof. solve_decision. Defined.

#[export, program] Instance projectionSource_countable : Countable projectionSource :=
  inj_countable' (fun s => (src_ApplicationID s, src_ProductID s, src_Lineage s))
    (fun p => mkSource p.1.1 p.1.2 p.2) _.
Next Obligation. by intros []. Qed.

#[export, program] Instance entitlementProduct_countable : Countable entitlementProduct :=
  inj_countable' (fun s => (prd_EntitlementID s, prd_ApplicationID s, prd_ProductID s))
    (fun p => mkEntitlementProduct p.1.1 p.1.2 p.2) _.
Next Obligation. by intros []. Qed.

(* internal/verification/projector.go: ProjectionCandidate.Validate *)
Definition ProjectionCandidate_Validate (candidate : ProjectionCandidate) : error :=
  refuse_if (IsZero (cand_ObservedAt candidate))
    (New "projection candidate observation time is required") ;;?
  errors_Join [EntitlementProjection_Validate (cand_Projection candidate);
               ApplicationID_Validate (cand_SourceApplicationID candidate)].

(* internal/verification/projector.go: sourceFromCandidate *)
Definition sourceFromCandidate (candidate : ProjectionCandidate) : projectionSource :=
  mkSource (cand_SourceApplicationID candidate) (ep_SourceProductID (cand_Projection candidate))
    (cand_SourceLineage candidate).

(* internal/verification/projector.go: sourceFromCurrent *)
Definition sourceFromCurrent (current : CustomerEntitlement) : projectionSource :=
  mkSource (ce_SourceApplicationID current) (ep_SourceProductID (ce_Projection current))
    (ce_SourceLineage current).

(* internal/verification/projector.go: productFromCandidate *)
Definition productFromCandidate (candidate : ProjectionCandidate) : entitlementProduct :=
  mkEntitlementProduct (ep_EntitlementID (cand_Projection candidate))
    (cand_SourceApplicationID candidate) (ep_SourceProductID (cand_Projection candidate)).

(* internal/verification/projector.go: productFromCurrent *)
Definition productFromCurrent (current : CustomerEntitlement) : entitlementProduct :=
  mkEntitlementProduct (ep_EntitlementID (ce_Projection current))
    (ce_SourceApplicationID current) (ep_SourceProductID (ce_Projection current)).

(** ** Ranking *)

(* internal/verification/projector.go: accessStrength *)
Definition accessStrength (access : AccessStatus) : Z :=
  if String.eqb access AccessAllowed then 3
  else if String.eqb access AccessUnresolved then 2
  else if String.eqb access AccessDenied then 1
  else 0.

(* internal/verification/projector.go: sourceKindRank *)
Definition sourceKindRank (projection : EntitlementProjection) : Z :=
  if String.eqb (ep_SourceKind (Normalized projection)) SourceKindImport then 1 else 2.

(* internal/verification/projector.go: compareSourceKind *)
Definition compareSourceKind (candidate existing : EntitlementProjection) : Z :=
  sourceKindRank candidate - sourceKindRank existing.

(* internal/verification/projector.go: compareAllowedEnd *)
Definition compareAllowedEnd (candidate existing : EntitlementProjection) : Z :=
  if negb (String.eqb (ep_Access candidate) AccessAllowed)
     || negb (String.eqb (ep_Access existing) AccessAllowed)
  then 0
  else match EndsAt (ep_EffectivePeriod candidate), EndsAt (ep_EffectivePeriod existing) with
       | None, None => 0
       | None, Some _ => 1
       | Some _, None => -1
       | Some candidateEnd, Some existingEnd =>
           if After candidateEnd existingEnd then 1
           else if Before candidateEnd existingEnd then -1
           else 0
       end.

(* internal/verification/projector.go: projectionSourceIdentity *)
Definition projectionSourceIdentity (projection : EntitlementProjection) : string :=
  if String.eqb (ep_SourceKind (Normalized projection)) SourceKindImport
  then ep_SourceImportID projection else ep_SourceObservationID projection.

(* internal/verification/projector.go: newerSourceCandidate *)
Definition newerSourceCandidate (candidate existing : ProjectionCandidate) : bool :=
  let rank := compareSourceKind (cand_Projection candidate) (cand_Projection existing) in
  if negb (rank =? 0) then 0 <? rank
  else if negb (Equal (cand_ObservedAt candidate) (cand_ObservedAt existing))
  then After (cand_ObservedAt candidate) (cand_ObservedAt existing)
  else String.ltb (projectionSourceIdentity (cand_Projection candidate))
         (projectionSourceIdentity (cand_Projection existing)).

(* internal/verification/projector.go: candidatePreferred *)
Definition candidatePreferred (candidate existing : ProjectionCandidate) : bool :=
  let candidateStrength := accessStrength (ep_Access (cand_Projection candidate)) in
  let existingStrength := accessStrength (ep_Access (cand_Projection existing)) in
  if negb (candidateStrength =? existingStrength) then existingStrength <? candidateStrength
  else
    let rank := compareSourceKind (cand_Projection candidate) (cand_Projection existing) in
    if negb (rank =? 0) then 0 <? rank
    else
      let rank := compareAllowedEnd (cand_Projection candidate) (cand_Projection existing) in
      if negb (rank =? 0) then 0 <? rank
      else if negb (Equal (cand_ObservedAt candidate) (cand_ObservedAt existing))
      then After (cand_ObservedAt candidate) (cand_ObservedAt existing)
      else String.ltb (projectionSourceIdentity (cand_Projection candidate))
             (projectionSourceIdentity (cand_Projection existing)).

(* internal/verification/projector.go: importLosesToStore *)
Definition importLosesToStore (current chosen : EntitlementProjection) : bool :=
  String.eqb (ep_SourceKind (Normalized current)) SourceKindImport
  && String.eqb (ep_SourceKind (Normalized chosen)) SourceKindStoreObservation.

(* internal/verification/projector.go: preserveIndependentSource *)
Definition preserveIndependentSource (current : CustomerEntitlement)
    (candidate : ProjectionCandidate) : bool :=
  if String.eqb (ce_SourceApplicationID current) (cand_SourceApplicationID candidate)
     && String.eqb (ep_SourceProductID (ce_Projection current))
          (ep_SourceProductID (cand_Projection candidate))
  then false
  else accessStrength (ep_Access (cand_Projection candidate))
       <=? accessStrength (ep_Access (ce_Projection current)).

Abbreviation sourceMap := (gmap projectionSource ProjectionCandidate).

(* internal/verification/projector.go: currentSourceReported *)
Definition currentSourceReported (current : CustomerEntitlement) (sources : sourceMap)
    (storeProducts : gset entitlementProduct) : bool :=
  if bool_decide (is_Some (sources !! sourceFromCurrent current)) then true
  else if negb (String.eqb (ep_SourceKind (Normalized (ce_Projection current))) SourceKindImport)
  then false
  else bool_decide (productFromCurrent current ∈ storeProducts).

(** ** Selection *)

(** A candidate is an import of a product that has a store observation. *)
Definition superseded (storeProducts : gset entitlementProduct) (candidate : ProjectionCandidate)
    : bool :=
  bool_decide (productFromCandidate candidate ∈ storeProducts)
  && String.eqb (ep_SourceKind (Normalized (cand_Projection candidate))) SourceKindImport.

(** The loop that indexes the current projections. *)
(* internal/verification/projector.go:61-73: DefaultProjector.Project *)
Fixpoint index_current (index : nat) (m : gmap EntitlementID CustomerEntitlement)
    (current : list CustomerEntitlement) : result (gmap EntitlementID CustomerEntitlement) :=
  match current with
  | [] => Ok m
  | entitlement :: rest =>
      let id := ep_EntitlementID (ce_Projection entitlement) in
      try* wrap_err "current entitlement %d: %w" [AInt (Z.of_nat index)]
             (EntitlementProjection_Validate (ce_Projection entitlement)) in
      try* wrap_err "current entitlement %d source application: %w" [AInt (Z.of_nat index)]
             (ApplicationID_Validate (ce_SourceApplicationID entitlement)) in
      match m !! id with
      | Some _ => Err (Errorf "duplicate current entitlement %q" [AStr id])
      | None => index_current (S index) (<[id := entitlement]> m) rest
      end
  end.

(** The loop that validates the candidates and collects the observed products. *)
(* internal/verification/projector.go:75-83: DefaultProjector.Project *)
Fixpoint collect_products (index : nat) (products : gset entitlementProduct)
    (candidates : list ProjectionCandidate) : result (gset entitlementProduct) :=
  match candidates with
  | [] => Ok products
  | candidate :: rest =>
      try* wrap_err "projection candidate %d: %w" [AInt (Z.of_nat index)]
             (ProjectionCandidate_Validate candidate) in
      collect_products (S index)
        (if String.eqb (ep_SourceKind (Normalized (cand_Projection candidate)))
              SourceKindStoreObservation
         then {[ productFromCandidate candidate ]} ∪ products else products)
        rest
  end.

(** The body of the loop that keeps the newest candidate of each source. *)
(* internal/verification/projector.go:88-103: DefaultProjector.Project *)
Definition add_candidate (storeProducts : gset entitlementProduct)
    (byEntitlement : gmap EntitlementID sourceMap) (candidate : ProjectionCandidate)
    : gmap EntitlementID sourceMap :=
  if superseded storeProducts candidate then byEntitlement
  else
    let entitlementID := ep_EntitlementID (cand_Projection candidate) in
    let sources := default ∅ (byEntitlement !! entitlementID) in
    let source := sourceFromCandidate candidate in
    let updated := <[entitlementID := <[source := candidate]> sources]> byEntitlement in
    match sources !! source with
    | None => updated
    | Some existing => if newerSourceCandidate candidate existing then updated else byEntitlement
    end.

Definition zeroCandidate : ProjectionCandidate :=
  mkCandidate (mkProjection EmptyString EmptyString EmptyString EmptyString EmptyString EmptyString
                 EmptyString EmptyString EmptyString EmptyString (mkPeriod 0 None))
    EmptyString EmptyString 0.

Section Project.
Context `{Horder : !GoMapRange}.

(** The selection for one entitlement. *)
(* internal/verification/projector.go:106-122: DefaultProjector.Project *)
Definition select_candidate (currentByEntitlement : gmap EntitlementID CustomerEntitlement)
    (entitlementID : EntitlementID) (sources : sourceMap) : ProjectionCandidate :=
  let chosen := default zeroCandidate
    (fold_left (keep_better candidatePreferred) (map snd (map_range 1 (map_to_list sources))) None) in
  match currentByEntitlement !! entitlementID with
  | None => chosen
  | Some current =>
      match sources !! sourceFromCurrent current with
      | None => chosen
      | Some currentCandidate =>
          if (accessStrength (ep_Access (cand_Projection currentCandidate))
              =? accessStrength (ep_Access (cand_Projection chosen)))
             && (0 <=? compareAllowedEnd (cand_Projection currentCandidate) (cand_Projection chosen))
             && negb (importLosesToStore (ce_Projection current) (cand_Projection chosen))
          then currentCandidate else chosen
      end
  end.

(** The loop body that decides which entitlements are written. *)
(* internal/verification/projector.go:127-136: DefaultProjector.Project *)
Definition projected (currentByEntitlement : gmap EntitlementID CustomerEntitlement)
    (byEntitlement : gmap EntitlementID sourceMap) (storeProducts : gset entitlementProduct)
    (entitlementID : EntitlementID) (candidate : ProjectionCandidate) : bool :=
  match currentByEntitlement !! entitlementID with
  | None => true
  | Some currentEntitlement =>
      let currentSourceUpdated :=
        currentSourceReported currentEntitlement (default ∅ (byEntitlement !! entitlementID))
          storeProducts in
      negb (negb currentSourceUpdated && preserveIndependentSource currentEntitlement candidate)
  end.

(** A nil projector is [None]. *)
(* internal/verification/projector.go: DefaultProjector.Project *)
Definition Project (projector : option unit) (current : list CustomerEntitlement)
    (candidates : list ProjectionCandidate) : result (list EntitlementProjection) :=
  match projector with
  | None => Err (New "entitlement projector is not initialized")
  | Some _ =>
      let* currentByEntitlement := index_current 0 ∅ current in
      let* storeProducts := collect_products 0 ∅ candidates in
      let byEntitlement := fold_left (add_candidate storeProducts) candidates ∅ in
      let selected := fold_left (fun (m : gmap EntitlementID ProjectionCandidate) entry =>
          <[entry.1 := select_candidate currentByEntitlement entry.1 entry.2]> m)
        (map_range 0 (map_to_list byEntitlement)) ∅ in
      let projectionIDs := map fst
        (List.filter (fun entry => projected currentByEntitlement byEntitlement storeProducts
                                entry.1 entry.2)
           (map_range 2 (map_to_list selected))) in
      let sortedIDs := merge_sort String.le projectionIDs in
      Ok (map (fun entitlementID =>
                 cand_Projection (default zeroCandidate (selected !! entitlementID))) sortedIDs)
  end.

End Project.

(** ** The rankings are strict weak orders *)

Lemma str_ltb_asym a b : String.ltb a b = true -> String.ltb b a = false.
Proof.
  unfold String.ltb. rewrite (String.compare_antisym b a).
  by destruct (String.compare a b).
Qed.

Lemma str_ltb_leb a b : String.ltb a b = negb (String.leb b a).
Proof.
  unfold String.ltb, String.leb. rewrite (String.compare_antisym b a).
  by destruct (String.compare a b).
Qed.

Lemma str_leb_trans a b c : String.leb a b = true -> String.leb b c = true -> String.leb a c = true.
Proof.
  intros H1 H2. apply Is_true_eq_true. apply Is_true_eq_left in H1, H2.
  exact (transitivity (R := String.le) H1 H2).
Qed.

Lemma str_ltb_negtrans a b c :
  String.ltb a b = false -> String.ltb b c = false -> String.ltb a c = false.
Proof.
  rewrite !str_ltb_leb, !negb_false_iff. intros H1 H2. by eapply str_leb_trans.
Qed.

Lemma str_ltb_tie a b : String.ltb a b = false -> String.ltb b a = false -> a = b.
Proof.
  rewrite !str_ltb_leb, !negb_false_iff. intros. by apply String.leb_antisym.
Qed.

Lemma str_ltb_trans a b c : String.ltb a b = true -> String.ltb b c = true -> String.ltb a c = true.
Proof.
  rewrite !str_ltb_leb, !negb_true_iff. intros H1 H2. apply not_true_iff_false. intros H3.
  destruct (String.leb_total a b) as [H|H]; [|by rewrite H in H1].
  assert (String.leb c b = true) by (by eapply str_leb_trans). congruence.
Qed.

Lemma str_ltb_irrefl a : String.ltb a a = false.
Proof. rewrite str_ltb_leb. by destruct (String.leb_total a a) as [-> | ->]. Qed.

(** Sorting by one string and, where it is the same, by another. *)
Definition pair_le (x y : string * string) : bool :=
  if negb (String.eqb x.1 y.1) then String.ltb x.1 y.1 else String.leb x.2 y.2.

#[export] Instance pair_le_total {A} (key : A -> string * string) : Total (fun x y => Is_true (pair_le (key x) (key y))).
Proof.
  intros x y. unfold pair_le. rewrite (String.eqb_sym (key y).1).
  destruct (String.eqb_spec (key x).1 (key y).1) as [E|E]; cbn [negb].
  - destruct (String.leb_total (key x).2 (key y).2) as [-> | ->]; [by left|by right].
  - destruct (String.ltb (key x).1 (key y).1) eqn:Hxy; [by left|right].
    destruct (String.ltb (key y).1 (key x).1) eqn:Hyx; [done|]. by destruct E; apply str_ltb_tie.
Qed.

#[export] Instance pair_le_trans {A} (key : A -> string * string) : Transitive (fun x y => Is_true (pair_le (key x) (key y))).
Proof.
  intros x y z. unfold pair_le.
  destruct (String.eqb_spec (key x).1 (key y).1) as [Exy|Exy], (String.eqb_spec (key y).1 (key z).1) as [Eyz|Eyz];
    rewrite ?Exy, ?Eyz, ?String.eqb_refl in *; cbn [negb];
    intros H1%Is_true_eq_true H2%Is_true_eq_true; apply Is_true_eq_left.
  - by eapply str_leb_trans.
  - by rewrite (proj2 (String.eqb_neq _ _) Eyz).
  - by rewrite (proj2 (String.eqb_neq _ _) Exy).
  - pose proof (str_ltb_trans _ _ _ H1 H2) as H. destruct (String.eqb_spec (key x).1 (key z).1) as [E|E]; [|done].
    by rewrite E, str_ltb_irrefl in H.
Qed.

(** The end of an allowed projection as a rank: no end is above every end. *)
Lemma compareAllowedEnd_cases p q :
  (compareAllowedEnd p q = 0 /\
     (ep_Access p <> AccessAllowed \/ ep_Access q <> AccessAllowed \/
      EndsAt (ep_EffectivePeriod p) = EndsAt (ep_EffectivePeriod q))) \/
  (ep_Access p = AccessAllowed /\ ep_Access q = AccessAllowed /\
   match EndsAt (ep_EffectivePeriod p), EndsAt (ep_EffectivePeriod q) with
   | None, Some _ => compareAllowedEnd p q = 1
   | Some _, None => compareAllowedEnd p q = -1
   | Some a, Some b => (compareAllowedEnd p q = 1 /\ b < a) \/ (compareAllowedEnd p q = -1 /\ a < b)
   | None, None => False
   end).
Proof.
  unfold compareAllowedEnd, After, Before.
  destruct (String.eqb_spec (ep_Access p) AccessAllowed); simpl; [|naive_solver].
  destruct (String.eqb_spec (ep_Access q) AccessAllowed); simpl; [|naive_solver].
  destruct (EndsAt (ep_EffectivePeriod p)) as [a|], (EndsAt (ep_EffectivePeriod q)) as [b|]; auto.
  destruct (Z.ltb_spec b a); [right; auto|].
  destruct (Z.ltb_spec a b); [right; auto|]. left. split; [done|].
  right. right. f_equal. lia.
Qed.

(** Access strengths tell allowed from not allowed. *)
Lemma strength_allowed a : accessStrength a = 3 <-> a = AccessAllowed.
Proof.
  unfold accessStrength. destruct (String.eqb_spec a AccessAllowed); [done|].
  split; [|done]. intros H. repeat case_match; lia.
Qed.

(** The end rank: 0 when not allowed, else larger for later, and largest without end. *)
Definition end_le (p q : EntitlementProjection) : Prop := compareAllowedEnd p q <= 0.

Lemma compareAllowedEnd_antisym p q : compareAllowedEnd p q = - compareAllowedEnd q p.
Proof.
  unfold compareAllowedEnd, After, Before.
  rewrite (orb_comm (negb (String.eqb (ep_Access p) AccessAllowed))).
  destruct (_ || _); [done|].
  destruct (EndsAt (ep_EffectivePeriod p)) as [a|], (EndsAt (ep_EffectivePeriod q)) as [b|]; try done.
  destruct (Z.ltb_spec b a), (Z.ltb_spec a b); lia.
Qed.

Lemma end_le_trans p q r :
  accessStrength (ep_Access p) = accessStrength (ep_Access q) ->
  accessStrength (ep_Access q) = accessStrength (ep_Access r) ->
  end_le p q -> end_le q r -> end_le p r.
Proof.
  intros E1 E2. pose proof (strength_allowed (ep_Access p)) as Hp.
  pose proof (strength_allowed (ep_Access q)) as Hq.
  pose proof (strength_allowed (ep_Access r)) as Hr. rewrite E1, E2 in Hp. rewrite E2 in Hq.
  unfold end_le, compareAllowedEnd, After, Before.
  destruct (String.eqb_spec (ep_Access p) AccessAllowed) as [Ap|Ap]; simpl; [|lia].
  assert (ep_Access r = AccessAllowed) as -> by tauto.
  assert (ep_Access q = AccessAllowed) as -> by tauto. simpl.
  destruct (EndsAt (ep_EffectivePeriod p)) as [a|], (EndsAt (ep_EffectivePeriod q)) as [b|],
    (EndsAt (ep_EffectivePeriod r)) as [c|]; try lia;
  repeat match goal with |- context [if ?x <? ?y then _ else _] => destruct (Z.ltb_spec x y) end; lia.
Qed.

#[export] Instance newer_swo : StrictWeakOrder newerSourceCandidate.
Proof.
  split.
  - intros a b. unfold newerSourceCandidate, compareSourceKind, Equal, After.
    pose proof (str_ltb_asym (projectionSourceIdentity (cand_Projection a))
                  (projectionSourceIdentity (cand_Projection b))) as Hs.
    repeat match goal with |- context [if ?b then _ else _] => destruct b eqn:? end; try lia; auto.
  - intros a b c. unfold newerSourceCandidate, compareSourceKind, Equal, After.
    pose proof (str_ltb_negtrans (projectionSourceIdentity (cand_Projection a))
                  (projectionSourceIdentity (cand_Projection b))
                  (projectionSourceIdentity (cand_Projection c))) as Hs.
    repeat match goal with |- context [if ?b then _ else _] => destruct b eqn:? end; try lia; auto.
Qed.

#[export] Instance preferred_swo : StrictWeakOrder candidatePreferred.
Proof.
  split.
  - intros a b. unfold candidatePreferred, compareSourceKind, Equal, After.
    pose proof (str_ltb_asym (projectionSourceIdentity (cand_Projection a))
                  (projectionSourceIdentity (cand_Projection b))) as Hs.
    pose proof (compareAllowedEnd_antisym (cand_Projection a) (cand_Projection b)).
    repeat match goal with |- context [if ?b then _ else _] => destruct b eqn:? end; try lia; auto.
  - intros a b c. unfold candidatePreferred, compareSourceKind, Equal, After.
    pose proof (str_ltb_negtrans (projectionSourceIdentity (cand_Projection a))
                  (projectionSourceIdentity (cand_Projection b))
                  (projectionSourceIdentity (cand_Projection c))) as Hs.
    pose proof (compareAllowedEnd_antisym (cand_Projection a) (cand_Projection b)) as Hab.
    pose proof (compareAllowedEnd_antisym (cand_Projection b) (cand_Projection c)) as Hbc.
    pose proof (compareAllowedEnd_antisym (cand_Projection a) (cand_Projection c)) as Hac.
    pose proof (end_le_trans (cand_Projection a) (cand_Projection b) (cand_Projection c)) as H1.
    pose proof (end_le_trans (cand_Projection b) (cand_Projection c) (cand_Projection a)) as H2.
    pose proof (end_le_trans (cand_Projection c) (cand_Projection a) (cand_Projection b)) as H3.
    unfold end_le in H1, H2, H3. revert Hs Hab Hbc Hac H1 H2 H3.
    generalize (compareAllowedEnd (cand_Projection a) (cand_Projection b)),
      (compareAllowedEnd (cand_Projection b) (cand_Projection c)),
      (compareAllowedEnd (cand_Projection a) (cand_Projection c)),
      (compareAllowedEnd (cand_Projection b) (cand_Projection a)),
      (compareAllowedEnd (cand_Projection c) (cand_Projection b)),
      (compareAllowedEnd (cand_Projection c) (cand_Projection a)).
    intros eab ebc eac eba ecb eca.
    generalize (accessStrength (ep_Access (cand_Projection a))),
      (accessStrength (ep_Access (cand_Projection b))),
      (accessStrength (ep_Access (cand_Projection c))).
    generalize (sourceKindRank (cand_Projection a)), (sourceKindRank (cand_Projection b)),
      (sourceKindRank (cand_Projection c)).
    intros ka kb kc sa sb sc Hs Hab Hbc Hac H1 H2 H3.
    repeat match goal with |- context [if ?b then _ else _] => destruct b eqn:? end; try lia; auto.
Qed.

(** ** The indexes *)

Lemma filter_Permutation' {A} (f : A -> bool) (l1 l2 : list A) :
  Permutation l1 l2 -> Permutation (List.filter f l1) (List.filter f l2).
Proof.
  induction 1 as [|x l1 l2 _ IH|x y l|l1 l2 l3 _ IH1 _ IH2]; simpl.
  - constructor.
  - destruct (f x); [by constructor|done].
  - destruct (f x), (f y); try done. constructor.
  - by etrans.
Qed.

(** A total order leaves one sorted arrangement. *)
Lemma merge_sort_unique (l1 l2 : list string) :
  Permutation l1 l2 -> merge_sort String.le l1 = merge_sort String.le l2.
Proof.
  intros H. apply (StronglySorted_unique String.le).
  - apply StronglySorted_merge_sort; apply _.
  - apply StronglySorted_merge_sort; apply _.
  - by rewrite !merge_sort_Permutation.
Qed.

Section MapLemmas.
Context {K V W : Type} `{Countable K}.

(** Inserting the image of every entry, in any order, maps the whole map. *)
Lemma fold_insert_lookup (f : K -> V -> W) (l : list (K * V)) (m : gmap K W) k :
  NoDup l.*1 ->
  fold_left (fun m entry => <[entry.1 := f entry.1 entry.2]> m) l m !! k =
  match list_to_map (M := gmap K V) l !! k with Some v => Some (f k v) | None => m !! k end.
Proof.
  revert m. induction l as [|[k' v'] l IH]; intros m Hnd; simpl in *; [by rewrite lookup_empty|].
  apply NoDup_cons in Hnd as [Hk Hnd]. rewrite IH by done. simpl.
  destruct (decide (k' = k)) as [->|Hne].
  - rewrite (not_elem_of_list_to_map_1 l k) by done. by rewrite !lookup_insert_eq.
  - by rewrite !lookup_insert_ne by done.
Qed.

Lemma fold_range_lookup `{Horder : !GoMapRange} (site : nat) (f : K -> V -> W) (m : gmap K V) k :
  fold_left (fun (m' : gmap K W) entry => <[entry.1 := f entry.1 entry.2]> m')
    (map_range site (map_to_list m)) ∅ !! k = f k <$> m !! k.
Proof.
  assert (Hp : Permutation (map_range site (map_to_list m)) (map_to_list m)) by apply map_range_perm.
  assert (Hnd : NoDup (map_range site (map_to_list m)).*1).
  { rewrite Hp. apply NoDup_fst_map_to_list. }
  rewrite fold_insert_lookup by done.
  rewrite (list_to_map_proper _ _ Hnd Hp), list_to_map_to_list, lookup_empty.
  by destruct (m !! k).
Qed.
End MapLemmas.

Definition entitlement_of (c : ProjectionCandidate) : EntitlementID :=
  ep_EntitlementID (cand_Projection c).
Definition current_id (c : CustomerEntitlement) : EntitlementID := ep_EntitlementID (ce_Projection c).

(** A current projection the projector accepts. *)
Definition current_ok (c : CustomerEntitlement) : Prop :=
  projection_wf (ce_Projection c) /\ identifier_ok (ce_SourceApplicationID c).

Lemma index_current_ok i (m : gmap EntitlementID CustomerEntitlement) l r :
  index_current i m l = Ok r ->
  Forall current_ok l /\ NoDup (map current_id l) /\
  (forall c, In c l -> m !! current_id c = None) /\
  (forall e c, r !! e = Some c <-> m !! e = Some c \/ (In c l /\ current_id c = e)).
Proof.
  revert i m. induction l as [|x l IH]; intros i m; cbn [index_current map].
  - intros [= <-]. split_and!; [constructor|constructor|done|naive_solver].
  - intros H. apply try_err_ok in H as [Hv H]. apply try_err_ok in H as [Ha H].
    rewrite wrap_err_nil, projection_Validate_nil in Hv. rewrite wrap_err_nil in Ha.
    apply ApplicationID_Validate_nil in Ha. case_hyp H as Hfree.
    destruct (IH _ _ H) as (Hok & Hnd & Hfr & Hr).
    assert (Hx : forall c, In c l -> current_id c <> current_id x).
    { intros c Hc E. specialize (Hfr c Hc). unfold current_id in E, Hfr.
      rewrite E, lookup_insert_eq in Hfr. done. }
    split_and!.
    + constructor; [by split|done].
    + constructor; [|done]. intros (c & Hc & Hin)%list_elem_of_In%in_map_iff.
      by apply (Hx c).
    + intros c [<-|Hc]; [done|]. specialize (Hfr c Hc).
      by apply lookup_insert_None in Hfr as [? _].
    + intros e c. rewrite Hr, lookup_insert_Some. unfold current_id in *. naive_solver.
Qed.

Lemma index_current_total i (m : gmap EntitlementID CustomerEntitlement) l :
  Forall current_ok l -> NoDup (map current_id l) ->
  (forall c, In c l -> m !! current_id c = None) -> exists r, index_current i m l = Ok r.
Proof.
  revert i m. induction l as [|x l IH]; intros i m Hok Hnd Hfr; cbn [index_current]; [eauto|].
  apply Forall_cons in Hok as [[Hx Ha] Hok]. cbn [map] in Hnd. apply NoDup_cons in Hnd as [Hnx Hnd].
  rewrite (proj2 (projection_Validate_nil _) Hx), (proj2 (ApplicationID_Validate_nil _) Ha). simpl.
  pose proof (Hfr x ltac:(by left)) as Hfx. unfold current_id in Hfx. rewrite Hfx.
  apply IH; auto. intros c Hc. apply lookup_insert_None. split; [apply Hfr; by right|].
  intros E. apply Hnx, list_elem_of_In, in_map_iff. by exists c.
Qed.

(** A candidate the projector accepts. *)
Definition candidate_ok (c : ProjectionCandidate) : Prop :=
  cand_ObservedAt c <> 0 /\ projection_wf (cand_Projection c) /\
  identifier_ok (cand_SourceApplicationID c).

Lemma candidate_valid c : ProjectionCandidate_Validate c = None <-> candidate_ok c.
Proof.
  unfold ProjectionCandidate_Validate, candidate_ok. err_simpl.
  rewrite projection_Validate_nil. tauto.
Qed.

(** The products that have a store observation among the candidates. *)
Definition observed_product (l : list ProjectionCandidate) (x : entitlementProduct) : Prop :=
  exists c, In c l /\ source_kind (cand_Projection c) = SourceKindStoreObservation /\
            productFromCandidate c = x.

Lemma collect_products_ok i products l r :
  collect_products i products l = Ok r ->
  Forall candidate_ok l /\ forall x, x ∈ r <-> x ∈ products \/ observed_product l x.
Proof.
  revert i products. induction l as [|c l IH]; intros i products; cbn [collect_products].
  - intros [= <-]. split; [constructor|]. unfold observed_product. naive_solver.
  - intros H. apply try_err_ok in H as [Hv H]. rewrite wrap_err_nil, candidate_valid in Hv.
    destruct (IH _ _ H) as [Hok Hr]. split; [by constructor|]. intros x. rewrite Hr.
    unfold observed_product. fold (source_kind (cand_Projection c)).
    destruct (String.eqb_spec (source_kind (cand_Projection c)) SourceKindStoreObservation).
    + rewrite elem_of_union, elem_of_singleton. naive_solver.
    + naive_solver.
Qed.

Lemma collect_products_total i products l :
  Forall candidate_ok l -> exists r, collect_products i products l = Ok r.
Proof.
  revert i products. induction l as [|c l IH]; intros i products Hok; cbn [collect_products]; [eauto|].
  apply Forall_cons in Hok as [Hc Hok]. rewrite (proj2 (candidate_valid c) Hc). simpl. by apply IH.
Qed.

(** ** The newest candidate of each source *)

(** The candidates of one source of one entitlement that are not superseded. *)
Definition of_source (sp : gset entitlementProduct) (e : EntitlementID) (s : projectionSource)
    (c : ProjectionCandidate) : bool :=
  negb (superseded sp c) && bool_decide (entitlement_of c = e) && bool_decide (sourceFromCandidate c = s).

Definition lookup2 (m : gmap EntitlementID sourceMap) e s : option ProjectionCandidate :=
  sources ← m !! e; sources !! s.

Lemma lookup2_default m e s : lookup2 m e s = default (∅ : sourceMap) (m !! e) !! s.
Proof. unfold lookup2. by destruct (m !! e). Qed.

Lemma add_candidate_lookup2 sp m c e s :
  lookup2 (add_candidate sp m c) e s =
  if of_source sp e s c then keep_better newerSourceCandidate (lookup2 m e s) c else lookup2 m e s.
Proof.
  unfold add_candidate, of_source. destruct (superseded sp c); [done|]. simpl. fold (entitlement_of c).
  assert (Hins : lookup2 (<[entitlement_of c := <[sourceFromCandidate c := c]>
                    (default ∅ (m !! entitlement_of c))]> m) e s =
    if bool_decide (entitlement_of c = e) && bool_decide (sourceFromCandidate c = s)
    then Some c else lookup2 m e s).
  { rewrite lookup2_default. repeat case_bool_decide; simpl; subst.
    - by rewrite lookup_insert_eq; simpl; rewrite lookup_insert_eq.
    - rewrite lookup_insert_eq. simpl. rewrite lookup_insert_ne by done. by rewrite lookup2_default.
    - rewrite lookup_insert_ne by done. by rewrite lookup2_default.
    - rewrite lookup_insert_ne by done. by rewrite lookup2_default. }
  rewrite <- lookup2_default.
  destruct (lookup2 m (entitlement_of c) (sourceFromCandidate c)) as [x|] eqn:E.
  - destruct (newerSourceCandidate c x) eqn:Hn.
    + rewrite Hins. repeat case_bool_decide; simpl; subst; auto. by rewrite E; simpl; rewrite Hn.
    + repeat case_bool_decide; simpl; subst; auto. by rewrite E; simpl; rewrite Hn.
  - rewrite Hins. repeat case_bool_decide; simpl; subst; auto. by rewrite E.
Qed.

Lemma byEntitlement_lookup2 sp l m e s :
  lookup2 (fold_left (add_candidate sp) l m) e s =
  fold_left (keep_better newerSourceCandidate) (List.filter (of_source sp e s) l) (lookup2 m e s).
Proof.
  revert m. induction l as [|c l IH]; intros m; simpl; [done|].
  rewrite IH, add_candidate_lookup2. by destruct (of_source sp e s c).
Qed.

Lemma byEntitlement_nonempty sp l (m : gmap EntitlementID sourceMap) :
  (forall e sources, m !! e = Some sources -> sources <> ∅) ->
  forall e sources, fold_left (add_candidate sp) l m !! e = Some sources -> sources <> ∅.
Proof.
  revert m. induction l as [|c l IH]; intros m Hm; simpl; [done|]. apply IH.
  intros e sources. unfold add_candidate. destruct (superseded sp c); [apply Hm|].
  assert (Hi : <[entitlement_of c := <[sourceFromCandidate c := c]>
      (default ∅ (m !! entitlement_of c))]> m !! e = Some sources -> sources <> ∅).
  { rewrite lookup_insert_Some. intros [[_ <-]|[_ H]]; [apply insert_non_empty|by eapply Hm]. }
  destruct (_ !! sourceFromCandidate c) as [x|]; [|exact Hi].
  destruct (newerSourceCandidate c x); [exact Hi|apply Hm].
Qed.

(** ** What the loops compute *)

(** The newest, unsuperseded candidate of its own source among [l]. *)
Definition newest (sp : gset entitlementProduct) (l : list ProjectionCandidate)
    (x : ProjectionCandidate) : Prop :=
  In x l /\ superseded sp x = false /\
  forall y, In y l -> superseded sp y = false -> entitlement_of y = entitlement_of x ->
    sourceFromCandidate y = sourceFromCandidate x -> newerSourceCandidate y x = false.

Section ProjectLemmas.
Context `{Horder : !GoMapRange} (sp : gset entitlementProduct) (l : list ProjectionCandidate).

Let byEntitlement : gmap EntitlementID sourceMap := fold_left (add_candidate sp) l ∅.

Lemma of_source_In e s c :
  In c (List.filter (of_source sp e s) l) <->
  In c l /\ superseded sp c = false /\ entitlement_of c = e /\ sourceFromCandidate c = s.
Proof.
  rewrite filter_In. unfold of_source. rewrite !andb_true_iff, negb_true_iff, !bool_decide_eq_true.
  tauto.
Qed.

(** The stored candidate of a source is its newest one. *)
Lemma source_newest e sources s x :
  byEntitlement !! e = Some sources -> sources !! s = Some x ->
  newest sp l x /\ entitlement_of x = e /\ sourceFromCandidate x = s.
Proof.
  intros He Hs.
  assert (H2 : lookup2 byEntitlement e s = Some x) by (unfold lookup2; by rewrite He).
  unfold byEntitlement in H2. rewrite byEntitlement_lookup2 in H2.
  unfold lookup2 in H2. rewrite lookup_empty in H2. cbn [mbind option_bind] in H2.
  apply keep_better_fold in H2; [|apply _]. destruct H2 as ([?|Hin] & Hbest & _); [done|].
  apply of_source_In in Hin as (Hin & Hsup & <- & <-). split; [|done].
  split_and!; [done|done|]. intros y Hy Hsy Hey Hssy. apply Hbest, of_source_In. auto.
Qed.

(** Every unsuperseded candidate is represented by its source. *)
Lemma candidate_source c :
  In c l -> superseded sp c = false ->
  exists sources x, byEntitlement !! entitlement_of c = Some sources /\
    sources !! sourceFromCandidate c = Some x.
Proof.
  intros Hin Hsup.
  assert (H2 : lookup2 byEntitlement (entitlement_of c) (sourceFromCandidate c) <> None).
  { unfold byEntitlement. rewrite byEntitlement_lookup2. apply keep_better_some. left.
    intros E. assert (Hf : In c (List.filter (of_source sp (entitlement_of c) (sourceFromCandidate c)) l))
      by (apply of_source_In; auto). by rewrite E in Hf. }
  unfold lookup2 in H2. destruct (byEntitlement !! entitlement_of c) as [sources|] eqn:E; [|done].
  cbn [mbind option_bind] in H2. destruct (sources !! sourceFromCandidate c) as [x|] eqn:E2; eauto. done.
Qed.

(** The selected candidate is one of the sources and at least as strong as all. *)
Lemma select_spec cur e sources :
  byEntitlement !! e = Some sources ->
  exists s, sources !! s = Some (select_candidate cur e sources) /\
  forall s' y, sources !! s' = Some y ->
    accessStrength (ep_Access (cand_Projection y)) <=
    accessStrength (ep_Access (cand_Projection (select_candidate cur e sources))).
Proof.
  intros He.
  assert (Hne : sources <> ∅).
  { eapply (byEntitlement_nonempty sp l ∅); [|exact He]. intros e' s'. by rewrite lookup_empty. }
  set (cands := map snd (map_range 1 (map_to_list sources))).
  assert (Hin : forall y, In y cands <-> exists s, sources !! s = Some y).
  { intros y. unfold cands. rewrite in_map_iff. split.
    - intros ([s y'] & <- & Hy). exists s. apply elem_of_map_to_list. apply list_elem_of_In.
      by apply (Permutation_in _ (map_range_perm 1 _ _)).
    - intros [s Hs]. exists (s, y). split; [done|].
      apply (Permutation_in _ (Permutation_sym (map_range_perm 1 _ _))), list_elem_of_In.
      by apply elem_of_map_to_list. }
  destruct (fold_left (keep_better candidatePreferred) cands None) as [chosen|] eqn:Hch.
  2: { exfalso. eapply (keep_better_some candidatePreferred cands None); [|exact Hch]. left.
       apply map_choose in Hne as (s & y & Hs). intros E.
       assert (Hy : In y cands) by (apply Hin; eauto). by rewrite E in Hy. }
  apply keep_better_fold in Hch as Hfold; [|apply _]. destruct Hfold as ([?|Hc] & Hbest & _); [done|].
  assert (Hstrong : forall s' y, sources !! s' = Some y ->
    accessStrength (ep_Access (cand_Projection y)) <= accessStrength (ep_Access (cand_Projection chosen))).
  { intros s' y Hy. assert (Hp : candidatePreferred y chosen = false) by (apply Hbest, Hin; eauto).
    unfold candidatePreferred in Hp. destruct (negb _) eqn:E; lia. }
  unfold select_candidate. fold cands. rewrite Hch. cbn [default from_option].
  apply Hin in Hc as [s Hs].
  destruct (cur !! e) as [current|]; [|eauto].
  destruct (sources !! sourceFromCurrent current) as [cc|] eqn:Ecc; [|eauto].
  destruct (_ && _ && _) eqn:Econd; [|eauto].
  exists (sourceFromCurrent current). split; [done|]. intros s' y Hy.
  apply andb_true_iff in Econd as [Econd _]. apply andb_true_iff in Econd as [Econd _].
  apply Z.eqb_eq in Econd. rewrite Econd. eauto.
Qed.

End ProjectLemmas.

(** The inputs the projector accepts. *)
Record input_ok (current : list CustomerEntitlement) (candidates : list ProjectionCandidate) : Prop := {
  in_current : Forall current_ok current;
  in_unique : NoDup (map current_id current);
  in_candidates : Forall candidate_ok candidates
}.

(** The result of the projector, described by the indexes it builds. *)
Lemma Project_result `{Horder : !GoMapRange} current candidates out :
  Project (Some tt) current candidates = Ok out ->
  input_ok current candidates /\
  exists cur sp,
    (forall e c, cur !! e = Some c <-> In c current /\ current_id c = e) /\
    (forall x, x ∈ sp <-> observed_product candidates x) /\
    let by_e := fold_left (add_candidate sp) candidates ∅ in
    (forall p, In p out <-> exists e sources, by_e !! e = Some sources /\
       projected cur by_e sp e (select_candidate cur e sources) = true /\
       p = cand_Projection (select_candidate cur e sources)) /\
    NoDup (map ep_EntitlementID out) /\ StronglySorted String.le (map ep_EntitlementID out).
Proof.
  intros H. cbn [Project] in H. apply bind_result_ok in H as (cur & Hcur & H).
  apply bind_result_ok in H as (sp & Hsp & H). injection H as Hout.
  destruct (index_current_ok _ _ _ _ Hcur) as (Hok & Hnd & _ & Hr).
  destruct (collect_products_ok _ _ _ _ Hsp) as [Hcok Hin].
  split; [by split|]. exists cur, sp.
  split; [intros e c; rewrite Hr, lookup_empty; naive_solver|].
  split; [intros x; rewrite Hin, elem_of_empty; tauto|].
  set (by_e := fold_left (add_candidate sp) candidates ∅) in *. cbv zeta.
  set (selected := fold_left _ (map_range 0 (map_to_list by_e)) ∅) in *.
  assert (Hsel : forall e, selected !! e = select_candidate cur e <$> by_e !! e).
  { intros e. unfold selected. apply (fold_range_lookup 0 (select_candidate cur)). }
  set (ids := map fst (List.filter _ (map_range 2 (map_to_list selected)))) in *.
  assert (Hids : forall e, In e ids <-> exists sources, by_e !! e = Some sources /\
             projected cur by_e sp e (select_candidate cur e sources) = true).
  { intros e. unfold ids. rewrite in_map_iff. split.
    - intros ([e' c] & <- & Hf). apply filter_In in Hf as [Hm Hp]. simpl in Hp |- *.
      apply (Permutation_in _ (map_range_perm 2 _ _)), list_elem_of_In, elem_of_map_to_list in Hm.
      rewrite Hsel in Hm. apply fmap_Some in Hm as (sources & Hs & ->). eauto.
    - intros (sources & Hs & Hp). exists (e, select_candidate cur e sources). split; [done|].
      apply filter_In. split; [|done].
      apply (Permutation_in _ (Permutation_sym (map_range_perm 2 _ _))), list_elem_of_In.
      apply elem_of_map_to_list. rewrite Hsel, Hs. done. }
  assert (Hidnd : NoDup ids).
  { unfold ids. apply NoDup_ListNoDup.
    assert (Hall : NoDup (map fst (map_range 2 (map_to_list selected)))).
    { assert (Hp : Permutation (map_range 2 (map_to_list selected)) (map_to_list selected))
        by apply map_range_perm. rewrite Hp. apply NoDup_fst_map_to_list. }
    clear -Hall. induction (map_range 2 (map_to_list selected)) as [|en rest IH]; simpl; [constructor|].
    apply NoDup_cons in Hall as [Hn Hall]. destruct (projected _ _ _ _ _); [|auto]. simpl.
    constructor; [|auto]. intros (x & Hx & Hf)%in_map_iff. apply filter_In in Hf as [Hf _].
    apply Hn, list_elem_of_In, in_map_iff. eauto. }
  pose proof (merge_sort_Permutation String.le ids) as Hperm.
  assert (Hmap : forall ks, (forall k, In k ks -> In k ids) ->
    map ep_EntitlementID (map (fun e => cand_Projection (default zeroCandidate (selected !! e))) ks) = ks).
  { intros ks. induction ks as [|k ks IH]; intros Hks; [done|]. simpl. f_equal; [|apply IH; naive_solver].
    destruct (proj1 (Hids k) (Hks k ltac:(by left))) as (sources & Hs & _).
    rewrite Hsel, Hs. simpl. destruct (select_spec sp candidates cur k sources Hs) as (s & Hs' & _).
    destruct (source_newest sp candidates k sources s _ Hs Hs') as (_ & He & _). exact He. }
  assert (Hkeys : map ep_EntitlementID out = merge_sort String.le ids).
  { rewrite <- Hout. apply Hmap. intros k Hk. by apply (Permutation_in _ Hperm). }
  split_and!.
  - intros p. rewrite <- Hout, in_map_iff. split.
    + intros (e & <- & He). apply (Permutation_in _ Hperm), Hids in He as (sources & Hs & Hp).
      exists e, sources. by rewrite Hsel, Hs.
    + intros (e & sources & Hs & Hp & ->). exists e. rewrite Hsel, Hs. split; [done|].
      apply (Permutation_in _ (Permutation_sym Hperm)), Hids. eauto.
  - rewrite Hkeys, Hperm. done.
  - rewrite Hkeys. apply StronglySorted_merge_sort; apply _.
Qed.

Lemma Project_total `{Horder : !GoMapRange} current candidates :
  input_ok current candidates -> exists out, Project (Some tt) current candidates = Ok out.
Proof.
  intros [Hc Hnd Hk]. cbn [Project].
  destruct (index_current_total 0 ∅ current Hc Hnd) as [cur ->]; [by intros; rewrite lookup_empty|].
  destruct (collect_products_total 0 ∅ candidates Hk) as [sp ->]. simpl. eauto.
Qed.

(** A row of the output is the projection of a newest candidate. *)
Lemma output_candidate `{Horder : !GoMapRange} sp cur candidates e sources :
  fold_left (add_candidate sp) candidates ∅ !! e = Some sources ->
  newest sp candidates (select_candidate cur e sources) /\
  entitlement_of (select_candidate cur e sources) = e.
Proof.
  intros Hs. destruct (select_spec sp candidates cur e sources Hs) as (s & Hs' & _).
  destruct (source_newest sp candidates e sources s _ Hs Hs') as (? & ? & _). auto.
Qed.

(** ** Properties *)

(** The projector is total on valid input and refuses everything else: it
    returns projections exactly when every current projection and candidate is
    valid and no entitlement has two current projections; what it returns is
    valid, comes from the candidates, and lists each entitlement once, in
    order. *)
Theorem project_total_sound `{Horder : !GoMapRange} (current : list CustomerEntitlement)
    (candidates : list ProjectionCandidate) :
  ((exists out, Project (Some tt) current candidates = Ok out) <-> input_ok current candidates) /\
  forall out, Project (Some tt) current candidates = Ok out ->
    NoDup (map ep_EntitlementID out) /\ StronglySorted String.le (map ep_EntitlementID out) /\
    forall p, In p out -> projection_wf p /\ exists c, In c candidates /\ cand_Projection c = p.
Proof.
  split.
  - split; [intros [out H]; by apply Project_result in H as [? _]|apply Project_total].
  - intros out H. apply Project_result in H as [Hin (cur & sp & _ & _ & Hout & Hnd & Hsort)].
    split_and!; [done|done|]. intros p (e & sources & Hs & _ & ->)%Hout.
    destruct (output_candidate sp cur candidates e sources Hs) as [(Hc & _ & _) _].
    split; [|eauto]. destruct Hin as [_ _ Hk]. rewrite List.Forall_forall in Hk.
    destruct (Hk _ Hc) as (_ & Hwf & _). exact Hwf.
Qed.

(** Access from an independent purchase is never revoked: while the current
    projection of an entitlement is allowed and no candidate reports its own
    application product, the projector writes nothing for that entitlement. *)
Theorem independent_access_preserved `{Horder : !GoMapRange} (current : list CustomerEntitlement)
    (candidates : list ProjectionCandidate) (out : list EntitlementProjection)
    (c : CustomerEntitlement) :
  Project (Some tt) current candidates = Ok out ->
  In c current -> ep_Access (ce_Projection c) = AccessAllowed ->
  (forall k, In k candidates -> productFromCandidate k <> productFromCurrent c) ->
  ~ In (current_id c) (map ep_EntitlementID out).
Proof.
  intros H Hc Hallow Hother (p & Hid & Hp)%in_map_iff.
  apply Project_result in H as [_ (cur & sp & Hcur & Hsp & Hout & _)].
  apply Hout in Hp as (e & sources & Hs & Hproj & ->).
  destruct (output_candidate sp cur candidates e sources Hs) as [(Hin & _ & _) He].
  unfold entitlement_of in He. rewrite Hid in He. subst e.
  assert (Hlook : cur !! current_id c = Some c) by (by apply Hcur).
  unfold projected in Hproj. rewrite Hlook, Hs in Hproj.
  change (default ∅ (Some sources)) with sources in Hproj.
  set (x := select_candidate cur (current_id c) sources) in *.
  assert (Hne : forall k, In k candidates -> entitlement_of k = current_id c ->
            ce_SourceApplicationID c <> cand_SourceApplicationID k \/
            ep_SourceProductID (ce_Projection c) <> ep_SourceProductID (cand_Projection k)).
  { intros k Hk He. destruct (decide (ce_SourceApplicationID c = cand_SourceApplicationID k)); [|by left].
    right. intros E. apply (Hother k Hk). unfold productFromCandidate, productFromCurrent.
    unfold entitlement_of, current_id in He. congruence. }
  assert (Hreported : currentSourceReported c sources sp = false).
  { unfold currentSourceReported.
    rewrite (bool_decide_eq_false_2 (is_Some (sources !! sourceFromCurrent c))).
    - case_match; [done|]. apply bool_decide_eq_false_2. intros (k & Hk & _ & E)%Hsp.
      exact (Hother k Hk E).
    - intros [y Hy]. destruct (source_newest sp candidates _ _ _ _ Hs Hy) as ((Hyin & _) & He & Hsrc).
      unfold sourceFromCandidate, sourceFromCurrent in Hsrc. injection Hsrc as E1 E2 _.
      destruct (Hne y Hyin He); congruence. }
  rewrite Hreported in Hproj. simpl in Hproj. apply negb_true_iff in Hproj.
  assert (preserveIndependentSource c x = true); [|congruence].
  unfold preserveIndependentSource. rewrite Hallow.
  destruct (_ && _) eqn:E.
  - apply andb_true_iff in E as [E1%String.eqb_eq E2%String.eqb_eq].
    destruct (Hne x Hin Hid); congruence.
  - unfold accessStrength at 2. rewrite String.eqb_refl.
    unfold accessStrength. repeat case_match; lia.
Qed.

(** The candidate does not lose to a store observation of the same product. *)
Definition unsuperseded (candidates : list ProjectionCandidate) (c : ProjectionCandidate) : Prop :=
  source_kind (cand_Projection c) = SourceKindImport ->
  ~ observed_product candidates (productFromCandidate c).

(** The latest candidate of its own purchase lineage. *)
Definition latest_of_source (candidates : list ProjectionCandidate) (c : ProjectionCandidate) : Prop :=
  forall y, In y candidates -> unsuperseded candidates y -> entitlement_of y = entitlement_of c ->
    sourceFromCandidate y = sourceFromCandidate c -> newerSourceCandidate y c = false.

Lemma superseded_false sp candidates c :
  (forall x, x ∈ sp <-> observed_product candidates x) ->
  superseded sp c = false <-> unsuperseded candidates c.
Proof.
  intros Hsp. unfold superseded, unsuperseded, source_kind.
  rewrite andb_false_iff, bool_decide_eq_false, String.eqb_neq, Hsp.
  destruct (decide (ep_SourceKind (Normalized (cand_Projection c)) = SourceKindImport)); tauto.
Qed.

(** What is written for an entitlement is the best of what is known: it is
    the latest state of one purchase lineage and not an import that a store
    observation of the same product supersedes; and every candidate that is not
    superseded is outlived by a latest state of its own lineage that is no
    stronger than what is written.  So a denial is written only when no
    lineage's latest state allows. *)
Theorem projected_is_strongest `{Horder : !GoMapRange} (current : list CustomerEntitlement)
    (candidates : list ProjectionCandidate) (out : list EntitlementProjection)
    (p : EntitlementProjection) :
  Project (Some tt) current candidates = Ok out -> In p out ->
  (exists c, In c candidates /\ cand_Projection c = p /\
     unsuperseded candidates c /\ latest_of_source candidates c) /\
  forall d, In d candidates -> entitlement_of d = ep_EntitlementID p -> unsuperseded candidates d ->
    exists y, In y candidates /\ entitlement_of y = entitlement_of d /\
      sourceFromCandidate y = sourceFromCandidate d /\ latest_of_source candidates y /\
      newerSourceCandidate d y = false /\
      accessStrength (ep_Access (cand_Projection y)) <= accessStrength (ep_Access p).
Proof.
  intros H Hp. apply Project_result in H as [_ (cur & sp & _ & Hsp & Hout & _)].
  apply Hout in Hp as (e & sources & Hs & _ & ->).
  assert (Hlatest : forall x, newest sp candidates x -> latest_of_source candidates x).
  { intros x (_ & _ & Hnew) y Hy Hun. apply Hnew; [done|]. exact (proj2 (superseded_false sp candidates y Hsp) Hun). }
  destruct (output_candidate sp cur candidates e sources Hs) as [Hnew He].
  split.
  - exists (select_candidate cur e sources). pose proof Hnew as (Hin & Hsup & _).
    split_and!; auto. exact (proj1 (superseded_false sp candidates _ Hsp) Hsup).
  - intros d Hd Hed Hun. unfold entitlement_of in He. rewrite He in Hed. subst e.
    assert (Hdsup : superseded sp d = false) by exact (proj2 (superseded_false sp candidates d Hsp) Hun).
    destruct (candidate_source sp candidates d Hd Hdsup) as (sources' & y & Hs' & Hy).
    rewrite Hs in Hs'. injection Hs' as <-.
    destruct (source_newest sp candidates _ _ _ _ Hs Hy) as (Hynew & Hye & Hysrc).
    destruct (select_spec sp candidates cur _ sources Hs) as (_ & _ & Hmax).
    exists y. pose proof Hynew as (Hyin & _ & Hbeat). split_and!; eauto.
Qed.

(** The identity of the source decides its lineage: an observation or import
    grant belongs to one application product and lineage. *)
Definition identities_decide (candidates : list ProjectionCandidate) : Prop :=
  forall a b, In a candidates -> In b candidates -> entitlement_of a = entitlement_of b ->
    source_kind (cand_Projection a) = source_kind (cand_Projection b) ->
    projectionSourceIdentity (cand_Projection a) = projectionSourceIdentity (cand_Projection b) ->
    sourceFromCandidate a = sourceFromCandidate b.

(** Two candidates the ranking cannot separate have the same kind and identity. *)
Lemma preferred_tie a b :
  source_wf (cand_Projection a) -> source_wf (cand_Projection b) ->
  candidatePreferred a b = false -> candidatePreferred b a = false ->
  source_kind (cand_Projection a) = source_kind (cand_Projection b) /\
  projectionSourceIdentity (cand_Projection a) = projectionSourceIdentity (cand_Projection b).
Proof.
  intros Ha Hb H1 H2. unfold candidatePreferred, compareSourceKind, Equal, After in H1, H2.
  pose proof (compareAllowedEnd_antisym (cand_Projection a) (cand_Projection b)) as Hends.
  pose proof (str_ltb_tie (projectionSourceIdentity (cand_Projection a))
                (projectionSourceIdentity (cand_Projection b))) as Htie.
  assert (Hk : sourceKindRank (cand_Projection a) = sourceKindRank (cand_Projection b) ->
               source_kind (cand_Projection a) = source_kind (cand_Projection b)).
  { unfold sourceKindRank. fold (source_kind (cand_Projection a)) (source_kind (cand_Projection b)).
    destruct Ha as [(-> & _)|(-> & _)], Hb as [(-> & _)|(-> & _)]; done. }
  repeat match type of H1 with context [if ?x then _ else _] => destruct x eqn:? end;
    repeat match type of H2 with context [if ?x then _ else _] => destruct x eqn:? end;
    try lia; split; auto; apply Hk; lia.
Qed.

(** The projector is deterministic although it ranges over Go maps: with one
    lineage per observation and import grant, any two iteration orders give the
    same projections and the same errors. *)
Theorem project_order_independent (R1 R2 : GoMapRange) (current : list CustomerEntitlement)
    (candidates : list ProjectionCandidate) :
  identities_decide candidates ->
  @Project R1 (Some tt) current candidates = @Project R2 (Some tt) current candidates.
Proof.
  intros Hid. cbn [Project].
  destruct (index_current 0 ∅ current) as [cur|]; [|done]. cbn [bind_result].
  destruct (collect_products 0 ∅ candidates) as [sp|] eqn:Hsp; [|done]. cbn [bind_result]. f_equal.
  apply collect_products_ok in Hsp as [Hok _]. rewrite List.Forall_forall in Hok.
  set (by_e := fold_left (add_candidate sp) candidates ∅).
  assert (Hselect : forall e sources, by_e !! e = Some sources ->
            @select_candidate R1 cur e sources = @select_candidate R2 cur e sources).
  { intros e sources Hs. unfold select_candidate.
    rewrite (keep_better_perm candidatePreferred
               (map snd (@map_range R1 1 _ (map_to_list sources)))
               (map snd (@map_range R2 1 _ (map_to_list sources)))); [done| |].
    - apply Permutation_map. rewrite (@map_range_perm R1). symmetry. apply map_range_perm.
    - assert (Hmem : forall x, In x (map snd (@map_range R1 1 _ (map_to_list sources))) ->
                exists s, sources !! s = Some x).
      { intros x ([s x'] & <- & Hx)%in_map_iff. exists s. apply elem_of_map_to_list, list_elem_of_In.
        simpl. eapply Permutation_in; [apply (@map_range_perm R1)|exact Hx]. }
      intros a b (s1 & Ha)%Hmem (s2 & Hb)%Hmem Hab Hba.
      destruct (source_newest sp candidates _ _ _ _ Hs Ha) as ((Hain & _) & Hae & Has).
      destruct (source_newest sp candidates _ _ _ _ Hs Hb) as ((Hbin & _) & Hbe & Hbs).
      destruct (Hok a Hain) as (_ & [_ _ _ _ _ Hwa _ _ _] & _).
      destruct (Hok b Hbin) as (_ & [_ _ _ _ _ Hwb _ _ _] & _).
      destruct (preferred_tie a b Hwa Hwb Hab Hba) as [Hk Hi].
      assert (s1 = s2); [|congruence].
      rewrite <- Has, <- Hbs. apply Hid; auto. by rewrite Hae, Hbe. }
  assert (Hsel : forall e,
    @select_candidate R1 cur e <$> by_e !! e = @select_candidate R2 cur e <$> by_e !! e).
  { intros e. destruct (by_e !! e) eqn:E; simpl; [|done]. f_equal. by apply Hselect. }
  assert (Hmaps : forall (M1 M2 : gmap EntitlementID ProjectionCandidate),
    (forall e, M1 !! e = @select_candidate R1 cur e <$> by_e !! e) ->
    (forall e, M2 !! e = @select_candidate R2 cur e <$> by_e !! e) -> M1 = M2).
  { intros M1 M2 H1 H2. apply map_eq. intros e. by rewrite H1, H2, Hsel. }
  set (S1 := fold_left _ (@map_range R1 0 _ (map_to_list by_e)) ∅).
  set (S2 := fold_left _ (@map_range R2 0 _ (map_to_list by_e)) ∅).
  assert (HS : S1 = S2).
  { apply Hmaps; intros e; [apply (@fold_range_lookup _ _ _ _ _ R1 0 (@select_candidate R1 cur))
                           |apply (@fold_range_lookup _ _ _ _ _ R2 0 (@select_candidate R2 cur))]. }
  rewrite HS. f_equal. apply (merge_sort_unique). apply Permutation_map, filter_Permutation'.
  rewrite (@map_range_perm R1). symmetry. apply map_range_perm.
Qed.

(** Some candidate of the entitlement survives: a store observation always does. *)
Lemma some_unsuperseded sp candidates c :
  (forall x, x ∈ sp <-> observed_product candidates x) -> In c candidates ->
  exists k, In k candidates /\ entitlement_of k = entitlement_of c /\ superseded sp k = false.
Proof.
  intros Hsp Hc. destruct (superseded sp c) eqn:E; [|eauto].
  unfold superseded in E. apply andb_true_iff in E as [E _].
  apply bool_decide_eq_true, Hsp in E as (k & Hk & Hkind & Hp). exists k. split_and!; [done| |].
  - unfold productFromCandidate in Hp. by injection Hp.
  - unfold superseded. apply andb_false_iff. right. unfold source_kind in Hkind. rewrite Hkind. done.
Qed.

(** Nothing reported is dropped: an entitlement that has a candidate is
    written when it has no current projection, and also when a candidate that is
    not superseded reports the very lineage its current projection cites; so an
    expired or revoked lineage does take its own access away. *)
Theorem reported_entitlement_written `{Horder : !GoMapRange} (current : list CustomerEntitlement)
    (candidates : list ProjectionCandidate) (out : list EntitlementProjection)
    (k : ProjectionCandidate) :
  Project (Some tt) current candidates = Ok out -> In k candidates ->
  (forall c, In c current -> current_id c = entitlement_of k ->
     unsuperseded candidates k /\ sourceFromCandidate k = sourceFromCurrent c) ->
  In (entitlement_of k) (map ep_EntitlementID out).
Proof.
  intros H Hk Hcurrent. apply Project_result in H as [_ (cur & sp & Hcur & Hsp & Hout & _)].
  set (by_e := fold_left (add_candidate sp) candidates ∅) in *. cbv zeta in Hout.
  destruct (some_unsuperseded sp candidates k Hsp Hk) as (k' & Hk' & He & Hsup).
  destruct (candidate_source sp candidates k' Hk' Hsup) as (sources & y & Hs & Hy).
  rewrite He in Hs. fold by_e in Hs.
  assert (Hproj : projected cur by_e sp (entitlement_of k)
            (select_candidate cur (entitlement_of k) sources) = true).
  { unfold projected. destruct (cur !! entitlement_of k) as [c|] eqn:Ec; [|done].
    apply Hcur in Ec as [Hin Hid]. destruct (Hcurrent c Hin Hid) as [Hun Hsrc].
    apply (superseded_false sp candidates k Hsp) in Hun.
    destruct (candidate_source sp candidates k Hk Hun) as (sources' & x & Hs' & Hx).
    fold by_e in Hs'. rewrite Hs in Hs'. injection Hs' as <-. rewrite Hs.
    change (default ∅ (Some sources)) with sources. unfold currentSourceReported.
    rewrite <- Hsrc, Hx. rewrite bool_decide_eq_true_2 by eauto. done. }
  apply in_map_iff. exists (cand_Projection (select_candidate cur (entitlement_of k) sources)).
  split.
  - by destruct (output_candidate sp cur candidates _ sources Hs) as [_ ?].
  - apply Hout. eauto.
Qed.

(** ** A concrete selection *)

(** One customer: a lapsed monthly purchase, a newer yearly purchase of another
    product that allows, and an imported grant of the yearly product. *)
Definition sample_projection (kind : SourceKind) (obs imp : string) (product : ProductID)
    (access : AccessStatus) (ends : option time) : EntitlementProjection :=
  mkProjection "project-1" "customer-1" "premium" kind obs imp product "customer-1" access
    (if String.eqb access AccessAllowed then AccessReasonPurchaseValid else AccessReasonExpired)
    (mkPeriod 1000 ends).

Definition expired_monthly : ProjectionCandidate :=
  mkCandidate (sample_projection SourceKindStoreObservation "obs-1" EmptyString "monthly"
                 AccessDenied (Some 2000)) "app-1" "reference:1" 5000.
Definition active_yearly : ProjectionCandidate :=
  mkCandidate (sample_projection SourceKindStoreObservation "obs-2" EmptyString "yearly"
                 AccessAllowed (Some 9000)) "app-1" "reference:2" 4000.
Definition imported_yearly : ProjectionCandidate :=
  mkCandidate (sample_projection SourceKindImport EmptyString "imp-1" "yearly"
                 AccessAllowed None) "app-1" "import:1" 3000.
Definition current_lifetime : CustomerEntitlement :=
  mkCustomerEntitlement (sample_projection SourceKindStoreObservation "obs-9" EmptyString "lifetime"
                           AccessAllowed None) "app-2" "reference:9" "premium" 1.

Definition sample_candidates : list ProjectionCandidate :=
  [imported_yearly; expired_monthly; active_yearly].


Lemma project_total_sound_witness :
  NoDup (map ep_EntitlementID [cand_Projection active_yearly]) /\
  projection_wf (cand_Projection active_yearly).
Proof.
  assert (H : @Project range_in_order (Some tt) [] sample_candidates
              = Ok [cand_Projection active_yearly]) by (vm_compute; reflexivity).
  destruct (proj2 (@project_total_sound range_in_order [] sample_candidates) _ H) as (Hnd & _ & Hp).
  split; [exact Hnd|]. apply Hp. left. reflexivity.
Defined.

Lemma independent_access_preserved_witness :
  @Project range_in_order (Some tt) [current_lifetime] [expired_monthly] = Ok [] /\
  ~ In "premium"%string (map ep_EntitlementID ([] : list EntitlementProjection)).
Proof.
  assert (H : @Project range_in_order (Some tt) [current_lifetime] [expired_monthly] = Ok [])
    by (vm_compute; reflexivity).
  split; [exact H|].
  apply (@independent_access_preserved range_in_order _ _ _ current_lifetime H).
  - left. reflexivity.
  - reflexivity.
  - intros k [<-|[]]. discriminate.
Defined.

Lemma projected_is_strongest_witness :
  exists y, In y sample_candidates /\ sourceFromCandidate y = sourceFromCandidate expired_monthly /\
    accessStrength (ep_Access (cand_Projection y)) <= 3.
Proof.
  assert (H : @Project range_in_order (Some tt) [] sample_candidates
              = Ok [cand_Projection active_yearly]) by (vm_compute; reflexivity).
  destruct (proj2 (@projected_is_strongest range_in_order _ _ _ (cand_Projection active_yearly) H
              ltac:(left; reflexivity)) expired_monthly) as (y & Hy & _ & Hs & _ & _ & Ha).
  - right. left. reflexivity.
  - reflexivity.
  - intros E. vm_compute in E. discriminate E.
  - exists y. split; [exact Hy|]. split; [exact Hs|exact Ha].
Defined.

Lemma project_order_independent_witness :
  @Project range_in_order (Some tt) [] sample_candidates =
  @Project range_reversed (Some tt) [] sample_candidates.
Proof.
  apply project_order_independent.
  intros a b Ha Hb _ Hk Hi. simpl in Ha, Hb.
  destruct Ha as [<-|[<-|[<-|[]]]], Hb as [<-|[<-|[<-|[]]]]; try reflexivity;
    vm_compute in Hk, Hi; discriminate.
Defined.

Lemma reported_entitlement_written_witness :
  In "premium"%string (map ep_EntitlementID [cand_Projection active_yearly]).
Proof.
  assert (H : @Project range_in_order (Some tt) [] sample_candidates
              = Ok [cand_Projection active_yearly]) by (vm_compute; reflexivity).
  apply (@reported_entitlement_written range_in_order _ _ _ active_yearly H).
  - right. right. left. reflexivity.
  - intros c [].
Defined.
