(* ===== verification/Repository.v ===== *)
(** The transaction interface ([persistence.Transaction]) the use cases are
    written against, as a type class over the state of a durable store, and the
    laws an entitlement repository promises to them. *)

From S2P Require Import Prelude GoText GoTime Core Purchase Protection Persistence.
From stdpp Require Import base list strings gmap.
Local Open Scope Z_scope.

(** ** Transactional computations *)

(** A repository call reads and writes the state of one open transaction. *)
Definition Tx (S A : Type) : Type := S -> result A * S.

Definition tx_ret {S A} (a : A) : Tx S A := fun s => (Ok a, s).
Definition tx_err {S A} (e : gerror) : Tx S A := fun s => (Err e, s).
Definition tx_bind {S A B} (m : Tx S A) (f : A -> Tx S B) : Tx S B :=
  fun s => match m s with
           | (Ok a, s') => f a s'
           | (Err e, s') => (Err e, s')
           end.
Definition tx_lift {S A} (r : result A) : Tx S A := fun s => (r, s).
(** Return the error of a check, or go on. *)
Definition tx_check {S A} (e : error) (k : Tx S A) : Tx S A :=
  match e with Some x => tx_err x | None => k end.
(** Change the error of a call. *)
Definition tx_catch {S A} (h : gerror -> gerror) (m : Tx S A) : Tx S A :=
  fun s => match m s with (Ok a, s') => (Ok a, s') | (Err e, s') => (Err (h e), s') end.

(** Go on with the value of a call, or handle its error. *)
Definition tx_handle {S A B} (m : Tx S A) (ok : A -> Tx S B) (failed : gerror -> Tx S B) : Tx S B :=
  fun s => match m s with
           | (Ok a, s') => ok a s'
           | (Err e, s') => failed e s'
           end.

Declare Scope tx_scope.
Delimit Scope tx_scope with tx.
Notation "'do' x <- m ; k" := (tx_bind m (fun x => k))
  (at level 200, x pattern, m at level 100, k at level 200) : tx_scope.
Open Scope tx_scope.

(** A loop of calls that stops at the first error. *)
Fixpoint tx_each {S A} (f : A -> Tx S unit) (l : list A) : Tx S unit :=
  match l with
  | [] => tx_ret tt
  | x :: l' => do _ <- f x; tx_each f l'
  end.

(** The state after a call in a transaction of its own: an error rolls it back. *)
Definition committed {S A} (m : Tx S A) (s : S) : S := match m s with (Ok _, s') => s' | (Err _, _) => s end.

Lemma committed_rel {S A} (R : S -> S -> Prop) `{!Reflexive R} (m : Tx S A) s :
  (forall a s', m s = (Ok a, s') -> R s s') -> R s (committed m s).
Proof. intros H. unfold committed. destruct (m s) as [[a|e] s'] eqn:E; [by eapply H|done]. Qed.

Section tx_lemmas.
Context {S A B : Type}.

Lemma tx_bind_ok (m : Tx S A) (f : A -> Tx S B) s b s' :
  tx_bind m f s = (Ok b, s') <-> exists a s1, m s = (Ok a, s1) /\ f a s1 = (Ok b, s').
Proof. unfold tx_bind. destruct (m s) as [[a|e] s1]; naive_solver. Qed.

Lemma tx_ret_ok (a b : A) (s s' : S) : tx_ret a s = (Ok b, s') <-> a = b /\ s = s'.
Proof. unfold tx_ret. naive_solver. Qed.

Lemma tx_lift_ok (r : result A) (a : A) (s s' : S) : tx_lift r s = (Ok a, s') <-> r = Ok a /\ s = s'.
Proof. unfold tx_lift. naive_solver. Qed.

Lemma tx_check_ok (e : error) (k : Tx S A) s a s' :
  tx_check e k s = (Ok a, s') <-> e = None /\ k s = (Ok a, s').
Proof. destruct e; simpl; unfold tx_err; naive_solver. Qed.

Lemma tx_catch_ok h (m : Tx S A) s a s' : tx_catch h m s = (Ok a, s') <-> m s = (Ok a, s').
Proof. unfold tx_catch. destruct (m s) as [[x|e] s1]; naive_solver. Qed.
End tx_lemmas.

(** A handled call goes on either with its value or with its error. *)
Lemma handle_cases {S A B} (m : Tx S A) ok (failed : gerror -> Tx S B) s r s' :
  (match m s with (Ok a, s1) => ok a s1 | (Err e, s1) => failed e s1 end) = (r, s') ->
  exists s1, (exists a, m s = (Ok a, s1) /\ ok a s1 = (r, s')) \/ (exists e, m s = (Err e, s1) /\ failed e s1 = (r, s')).
Proof. destruct (m s) as [[a|e] s1]; naive_solver. Qed.

Create HintDb gotx.
#[export] Hint Rewrite @tx_bind_ok @tx_ret_ok @tx_lift_ok @tx_check_ok @tx_catch_ok : gotx.

(** ** The repositories *)

(** The methods of each repository the verification use cases call. *)
(* internal/persistence/contracts.go: CatalogRepository *)
Class CatalogRepository (S : Type) := {
  Application_ : ProjectID -> ApplicationID -> Tx S Application;
  CustomerByExternalID : ProjectID -> string -> Tx S Customer;
  CustomerInClosure : ProjectID -> CustomerID -> CustomerID -> Tx S bool;
  CatalogProducts : ProjectID -> ApplicationID -> list ProviderProductID -> Tx S (list CatalogProduct)
}.

(* internal/persistence/contracts.go: PurchaseRepository *)
Class PurchaseRepository (S : Type) := {
  SaveEvidence : EvidenceWrite -> Tx S Z;
  SaveArtifact : ArtifactWrite -> Tx S unit;
  SaveObservation : ObservationWrite -> Tx S unit
}.

(* internal/persistence/contracts.go: EntitlementRepository *)
Class EntitlementRepository (S : Type) := {
  LockCustomerClosure : ProjectID -> CustomerID -> Tx S unit;
  PutEntitlement : EntitlementProjection -> Tx S EntitlementWriteResult;
  CustomerEntitlementSources : ProjectID -> CustomerID -> Tx S (list EntitlementSource);
  CustomerEntitlements : ProjectID -> CustomerID -> Tx S (list CustomerEntitlement)
}.

(* internal/persistence/contracts.go: OutboxRepository *)
Class OutboxRepository (S : Type) := {
  SaveOutboxEvent : OutboxEvent -> Tx S string
}.

(* internal/persistence/identity.go: IdentityRepository *)
Class IdentityRepository (S : Type) := {
  ResolveCustomer : ProjectID -> string -> Tx S CustomerResolution
}.

(* internal/persistence/contracts.go: Transaction *)
Class Transaction (S : Type) := {
  tr_catalog :: CatalogRepository S;
  tr_purchase :: PurchaseRepository S;
  tr_entitlement :: EntitlementRepository S;
  tr_outbox :: OutboxRepository S;
  tr_identity :: IdentityRepository S
}.

(** The calls that only read leave the state of the transaction alone. *)
Class ReadLaws (S : Type) `{C : CatalogRepository S} := {
  application_reads : forall project application s r s',
    Application_ project application s = (r, s') -> s' = s;
  customer_reads : forall project external s r s',
    CustomerByExternalID project external s = (r, s') -> s' = s;
  catalog_reads : forall project application products s r s',
    CatalogProducts project application products s = (r, s') -> s' = s
}.

(** Two projections a store cannot tell apart: equal once the omitted fields are
    filled in and times are at the precision the store keeps. *)
Definition stored_period (period : EffectivePeriod) : EffectivePeriod :=
  mkPeriod (Truncate (StartsAt period) Microsecond)
    (option_map (fun e => Truncate e Microsecond) (EndsAt period)).

Definition stored_form (p : EntitlementProjection) : EntitlementProjection :=
  let p := Normalized p in
  mkProjection (ep_ProjectID p) (ep_CustomerID p) (ep_EntitlementID p) (ep_SourceKind p)
    (ep_SourceObservationID p) (ep_SourceImportID p) (ep_SourceProductID p) (ep_SourceCustomerID p)
    (ep_Access p) (ep_AccessReason p) (stored_period (ep_EffectivePeriod p)).

Definition same_stored (p q : EntitlementProjection) : Prop := stored_form p = stored_form q.

(** Two events a store delivers once: the same data of the same aggregate. *)
Definition same_event (a b : OutboxEvent) : Prop :=
  oe_ApplicationID a = oe_ApplicationID b /\ oe_EventType a = oe_EventType b /\
  oe_AggregateType a = oe_AggregateType b /\ oe_AggregateID a = oe_AggregateID b /\
  oe_PayloadFingerprint a = oe_PayloadFingerprint b.

(** What the entitlement and outbox repositories promise: a view of the current
    projections of each customer and of the queued events, and how the calls
    change them.  [view] is keyed by customer and entitlement. *)
Class EntitlementLaws (S : Type) `{R : EntitlementRepository S, O : OutboxRepository S} := {
  view : S -> gmap (CustomerID * EntitlementID) CustomerEntitlement;
  events : S -> list OutboxEvent;
  put_ok : forall p s w s',
    PutEntitlement p s = (Ok w, s') ->
    same_stored (ce_Projection (wr_Entitlement w)) p /\
    view s' = <[ (ep_CustomerID p, ep_EntitlementID p) := wr_Entitlement w ]> (view s) /\
    events s' = events s;
  put_changed : forall p s w s',
    PutEntitlement p s = (Ok w, s') ->
    (wr_Changed w = false <->
     exists c, view s !! (ep_CustomerID p, ep_EntitlementID p) = Some c /\
               same_stored (ce_Projection c) p) /\
    (wr_Changed w = false -> s' = s);
  event_ok : forall e s i s',
    SaveOutboxEvent e s = (Ok i, s') ->
    view s' = view s /\
    (exists e', In e' (events s') /\ same_event e' e) /\
    (events s' = events s ++ [e] \/ events s' = events s);
  sources_ok : forall project customer s l s',
    CustomerEntitlementSources project customer s = (Ok l, s') -> s' = s;
  current_ok_ : forall project customer s l s',
    CustomerEntitlements project customer s = (Ok l, s') ->
    s' = s /\
    forall c, In c l <-> ep_ProjectID (ce_Projection c) = project /\
      view s !! (customer, ep_EntitlementID (ce_Projection c)) = Some c
}.

#[export] Instance same_stored_equiv : Equivalence same_stored.
Proof. unfold same_stored. split; [by intros x|by intros x y|intros x y z; congruence]. Qed.
