(* ===== verification/EntitlementStore.v ===== *)
(** The PostgreSQL entitlement and outbox repositories
    ([internal/persistence/postgres/entitlement.go], [outbox.go]) and the
    transaction runner ([store.go]).

    A table is a finite map from its primary key to its rows; a statement is the
    function the handler composes on it.  The rows joined from other tables
    ([source_of]: the application, lineage and entitlement key of a projection's
    source, [None] where a foreign key has no target) and the queries of tables
    no call of this file writes are parameters. *)

From S2P Require Import Prelude GoText GoTime GoJson Core Purchase Protection Persistence Repository.
From stdpp Require Import base list strings gmap.
Local Open Scope Z_scope.

(** ** Times at PostgreSQL precision *)

(* internal/persistence/postgres/purchase.go: normalizeTime *)
Definition normalizeTime (value : time) : time := Truncate value Microsecond.

(** SQL NULL is [None]. *)
(* internal/persistence/postgres/purchase.go: nullableTime *)
Definition nullableTime (value : time) : option time :=
  if IsZero value then None else Some (normalizeTime value).

(* internal/persistence/postgres/purchase.go: nullableTimePointer *)
Definition nullableTimePointer (value : option time) : option time := option_map normalizeTime value.

(* internal/persistence/postgres/entitlement.go: nullableText *)
Definition nullableText (value : string) : option string :=
  if String.eqb value EmptyString then None else Some value.

(* internal/persistence/postgres/entitlement.go: textValue *)
Definition textValue (value : option string) : string := default EmptyString value.

(* internal/persistence/postgres/entitlement.go: timestampValue *)
Definition timestampValue (timestamp : option time) : time := default zeroTime timestamp.

(* internal/persistence/postgres/entitlement.go: timestampPointer *)
Definition timestampPointer (timestamp : option time) : option time := timestamp.

(* internal/persistence/postgres/entitlement.go: timePointersEqual *)
Definition timePointersEqual (l r : option time) : bool :=
  match l, r with
  | Some a, Some b => Equal (normalizeTime a) (normalizeTime b)
  | None, None => true
  | _, _ => false
  end.

(* internal/persistence/postgres/entitlement.go: normalizedProjection *)
Definition normalizedProjection (projection : EntitlementProjection) : EntitlementProjection :=
  Normalized projection.

(* internal/persistence/postgres/entitlement.go: projectionsEqual *)
Definition projectionsEqual (l r : EntitlementProjection) : bool :=
  let l := normalizedProjection l in
  let r := normalizedProjection r in
  String.eqb (ep_ProjectID l) (ep_ProjectID r)
  && String.eqb (ep_CustomerID l) (ep_CustomerID r)
  && String.eqb (ep_EntitlementID l) (ep_EntitlementID r)
  && String.eqb (ep_SourceKind l) (ep_SourceKind r)
  && String.eqb (ep_SourceObservationID l) (ep_SourceObservationID r)
  && String.eqb (ep_SourceImportID l) (ep_SourceImportID r)
  && String.eqb (ep_SourceProductID l) (ep_SourceProductID r)
  && String.eqb (ep_SourceCustomerID l) (ep_SourceCustomerID r)
  && String.eqb (ep_Access l) (ep_Access r)
  && String.eqb (ep_AccessReason l) (ep_AccessReason r)
  && Equal (normalizeTime (StartsAt (ep_EffectivePeriod l))) (normalizeTime (StartsAt (ep_EffectivePeriod r)))
  && timePointersEqual (EndsAt (ep_EffectivePeriod l)) (EndsAt (ep_EffectivePeriod r)).

(** ** Errors ([errors.go]) *)

(* internal/persistence/postgres/errors.go: errRetryableTransaction *)
Definition errRetryableTransaction : gerror := Sentinel "postgres.errRetryableTransaction".

(** A driver error: no row, a PostgreSQL code with its constraint, a failure the
    driver reports as safe to retry, or anything else. *)
Inductive pg_error : Type :=
| ErrNoRows
| PgError (code constraint : string)
| SafeToRetry (e : gerror)
| OtherError (e : gerror).

(* internal/persistence/postgres/errors.go: classifyError *)
Definition classifyError (operation : string) (err : option pg_error) : error :=
  match err with
  | None => None
  | Some ErrNoRows => Some (Wrapf "%s: %w" [AStr operation] ErrNotFound)
  | Some (PgError code constraint) =>
      if contains_str ["40001"; "40P01"; "55P03"] code then
        Some (Wrapf "%s: %w" [AStr operation] errRetryableTransaction)
      else if contains_str ["53300"; "57014"; "57P01"; "57P02"; "57P03"] code then
        Some (Wrapf "%s: %w" [AStr operation] ErrUnavailable)
      else if contains_str ["23503"; "23505"; "23514"] code then
        if negb (String.eqb constraint EmptyString) then
          Some (Wrapf "%s: %w: PostgreSQL constraint %s" [AStr operation; AStr constraint] ErrConflict)
        else Some (Wrapf "%s: %w" [AStr operation] ErrConflict)
      else Some (Wrapf "%s: %w" [AStr operation] (New code))
  | Some (SafeToRetry e) => Some (Wrapf "%s: %w" [AStr operation] ErrUnavailable)
  | Some (OtherError e) => Some (Wrapf "%s: %w" [AStr operation] e)
  end.

(** ** Rows *)

(** The columns of [customer_entitlements] with the joined source columns. *)
(* internal/persistence/postgres/entitlement.go: entitlementRow *)
Record entitlementRow : Type := mkRow {
  row_projectID : string;
  row_customerID : string;
  row_sourceCustomerID : string;
  row_entitlementID : string;
  row_entitlementKey : string;
  row_sourceKind : string;
  row_sourceObservationID : string;
  row_sourceImportID : string;
  row_sourceApplicationID : string;
  row_sourceProductID : string;
  row_sourceLineage : string;
  row_access : string;
  row_accessReason : string;
  row_effectiveStartsAt : option time;
  row_effectiveEndsAt : option time;
  row_version : Z
}.

(** The columns a row stores itself. *)
Record storedRow : Type := mkStored {
  st_projectID : string;
  st_sourceKind : string;
  st_sourceObservationID : option string;
  st_sourceImportID : option string;
  st_sourceProductID : string;
  st_sourceCustomerID : string;
  st_access : string;
  st_accessReason : string;
  st_startsAt : option time;
  st_endsAt : option time;
  st_version : Z
}.

(* internal/persistence/postgres/entitlement.go: entitlementRow.entitlement *)
Definition row_entitlement (row : entitlementRow) : result CustomerEntitlement :=
  let projection := mkProjection (row_projectID row) (row_customerID row) (row_entitlementID row)
    (row_sourceKind row) (row_sourceObservationID row) (row_sourceImportID row)
    (row_sourceProductID row) (row_sourceCustomerID row) (row_access row) (row_accessReason row)
    (mkPeriod (timestampValue (row_effectiveStartsAt row)) (timestampPointer (row_effectiveEndsAt row))) in
  try* wrap_err "validate stored entitlement projection: %w" []
         (errors_Join [EntitlementProjection_Validate projection;
                       ApplicationID_Validate (row_sourceApplicationID row);
                       validateText "stored entitlement key" (row_entitlementKey row)]) in
  try* refuse_if (row_version row <=? 0)
         (New "stored entitlement projection version must be positive") in
  Ok (mkCustomerEntitlement projection (row_sourceApplicationID row) (row_sourceLineage row)
        (row_entitlementKey row) (row_version row)).

(** ** The database *)

(** What other tables say of a projection's source. *)
Record SourceInfo : Type := mkSourceInfo {
  si_ApplicationID : ApplicationID;
  si_Lineage : string;
  si_Key : string
}.

(** The written tables: the current projections, the queued events in insertion
    order, and the jobs scheduled for them. *)
Record Db : Type := mkDb {
  customer_entitlements : gmap (CustomerID * EntitlementID) storedRow;
  outbox_events : list OutboxEvent;
  river_jobs : list string
}.

Section Repositories.

(** The joined source, the constraint checks of the table, and the source rows. *)
Context (source_of : EntitlementProjection -> option SourceInfo).
Context (entitlement_sources : ProjectID -> CustomerID -> result (list EntitlementSource)).

(** The values of the insert and update statements. *)
Definition stored_row (projection : EntitlementProjection) (version : Z) : storedRow :=
  mkStored (ep_ProjectID projection) (ep_SourceKind projection)
    (nullableText (ep_SourceObservationID projection)) (nullableText (ep_SourceImportID projection))
    (ep_SourceProductID projection) (ep_SourceCustomerID projection)
    (ep_Access projection) (ep_AccessReason projection)
    (nullableTime (StartsAt (ep_EffectivePeriod projection)))
    (nullableTimePointer (EndsAt (ep_EffectivePeriod projection))) version.

(** The projection a stored row describes. *)
Definition row_projection (key : CustomerID * EntitlementID) (row : storedRow) : EntitlementProjection :=
  mkProjection (st_projectID row) key.1 key.2 (st_sourceKind row)
    (textValue (st_sourceObservationID row)) (textValue (st_sourceImportID row))
    (st_sourceProductID row) (st_sourceCustomerID row) (st_access row) (st_accessReason row)
    (mkPeriod (timestampValue (st_startsAt row)) (timestampPointer (st_endsAt row))).

(** One row of the select statement; a row without its source is filtered out. *)
(* internal/persistence/postgres/entitlement.go: scanEntitlementRow *)
Definition scan_row (key : CustomerID * EntitlementID) (row : storedRow) : option entitlementRow :=
  info ← source_of (row_projection key row);
  Some (mkRow (st_projectID row) key.1 (st_sourceCustomerID row) key.2 (si_Key info)
          (st_sourceKind row) (textValue (st_sourceObservationID row))
          (textValue (st_sourceImportID row)) (si_ApplicationID info) (st_sourceProductID row)
          (si_Lineage info) (st_access row) (st_accessReason row) (st_startsAt row) (st_endsAt row)
          (st_version row)).

(* internal/persistence/postgres/entitlement.go: transaction.loadCustomerEntitlement *)
Definition loadCustomerEntitlement (projectID : ProjectID) (customerID : CustomerID)
    (entitlementID : EntitlementID) : Tx Db CustomerEntitlement :=
  fun db =>
    let found :=
      row ← customer_entitlements db !! (customerID, entitlementID);
      if String.eqb (st_projectID row) projectID then scan_row (customerID, entitlementID) row else None in
    match found with
    | None =>
        (Err (default ErrNotFound (classifyError "load entitlement projection" (Some ErrNoRows))), db)
    | Some row => (row_entitlement row, db)
    end.

(** A violated constraint of the table, as the driver reports it. *)
Definition constraint_error (operation : string) : gerror :=
  default ErrConflict (classifyError operation (Some (PgError "23514" "customer_entitlements"))).

(** The checks of the table: its foreign keys and its period constraints. *)
Definition table_constraints (projection : EntitlementProjection) : bool :=
  bool_decide (is_Some (source_of (row_projection
     (ep_CustomerID projection, ep_EntitlementID projection) (stored_row projection 1))))
  && match nullableTime (StartsAt (ep_EffectivePeriod projection)),
           nullableTimePointer (EndsAt (ep_EffectivePeriod projection)) with
     | None, None => negb (String.eqb (ep_Access projection) AccessAllowed)
     | None, Some _ => false
     | Some _, None => true
     | Some s, Some e => s <? e
     end.

Definition put_row (db : Db) (projection : EntitlementProjection) (version : Z) : Db :=
  mkDb (<[ (ep_CustomerID projection, ep_EntitlementID projection) := stored_row projection version ]>
          (customer_entitlements db)) (outbox_events db) (river_jobs db).

(* internal/persistence/postgres/entitlement.go: transaction.PutEntitlement *)
Definition pg_PutEntitlement (projection : EntitlementProjection) : Tx Db EntitlementWriteResult :=
  let projection := normalizedProjection projection in
  let load := loadCustomerEntitlement (ep_ProjectID projection) (ep_CustomerID projection)
                (ep_EntitlementID projection) in
  tx_check (EntitlementProjection_Validate projection) (fun db =>
    match customer_entitlements db !! (ep_CustomerID projection, ep_EntitlementID projection) with
    | None =>
        (* the insert returns a row *)
        if table_constraints projection
        then (do entitlement <- load; tx_ret (mkWriteResult entitlement true)) (put_row db projection 1)
        else (Err (constraint_error "create entitlement projection"), db)
    | Some _ =>
        (* ON CONFLICT DO NOTHING returns no row *)
        (do current <- load;
         if projectionsEqual (ce_Projection current) projection
         then tx_ret (mkWriteResult current false)
         else fun db =>
           (* the row was just read in the same transaction, so its version still matches *)
           if table_constraints projection
           then (do entitlement <- load; tx_ret (mkWriteResult entitlement true))
                  (put_row db projection (ce_Version current + 1))
           else (Err (constraint_error "replace entitlement projection"), db)) db
    end).

(* internal/persistence/postgres/entitlement.go: transaction.CustomerEntitlements *)
Definition pg_CustomerEntitlements (projectID : ProjectID) (customerID : CustomerID)
    : Tx Db (list CustomerEntitlement) :=
  tx_check (errors_Join [ProjectID_Validate projectID; CustomerID_Validate customerID]) (fun db =>
    let rows := omap (fun entry =>
        if String.eqb (st_projectID entry.2) projectID && String.eqb entry.1.1 customerID
        then scan_row entry.1 entry.2 else None)
      (map_to_list (customer_entitlements db)) in
    ((fix collect (rows : list entitlementRow) : result (list CustomerEntitlement) :=
        match rows with
        | [] => Ok []
        | row :: rest =>
            let* entitlement := row_entitlement row in
            let* others := collect rest in
            Ok (entitlement :: others)
        end) rows, db)).

(* internal/persistence/postgres/outbox.go: outboxIdentityMatches *)
Definition outboxIdentityMatches (identity event : OutboxEvent) : bool :=
  String.eqb (oe_ProjectID identity) (oe_ProjectID event)
  && String.eqb (oe_ApplicationID identity) (oe_ApplicationID event)
  && String.eqb (oe_EventType identity) (oe_EventType event)
  && String.eqb (oe_AggregateType identity) (oe_AggregateType event)
  && String.eqb (oe_AggregateID identity) (oe_AggregateID event)
  && String.eqb (oe_PayloadFingerprint identity) (oe_PayloadFingerprint event).

(** The unique key of a logical event. *)
Definition same_logical_event (a b : OutboxEvent) : bool :=
  String.eqb (oe_ApplicationID a) (oe_ApplicationID b)
  && String.eqb (oe_EventType a) (oe_EventType b)
  && String.eqb (oe_AggregateType a) (oe_AggregateType b)
  && String.eqb (oe_AggregateID a) (oe_AggregateID b)
  && String.eqb (oe_PayloadFingerprint a) (oe_PayloadFingerprint b).

(** The job of a record is inserted once. *)
(* internal/persistence/postgres/queue.go: transaction.ensureRiverJob *)
Definition ensureRiverJob (recordID : string) : Tx Db unit :=
  fun db => if contains_str (river_jobs db) recordID then (Ok tt, db)
            else (Ok tt, mkDb (customer_entitlements db) (outbox_events db)
                           (river_jobs db ++ [recordID])).

(* internal/persistence/postgres/outbox.go: transaction.SaveOutboxEvent *)
Definition pg_SaveOutboxEvent (event : OutboxEvent) : Tx Db string :=
  tx_check (OutboxEvent_Validate event) (fun db =>
    match List.find (fun e => String.eqb (oe_ID e) (oe_ID event)) (outbox_events db) with
    | Some identity =>
        if negb (outboxIdentityMatches identity event)
        then (Err (Wrapf "save outbox event: %w" [] ErrConflict), db)
        else (do _ <- ensureRiverJob (oe_ID event); tx_ret (oe_ID event)) db
    | None =>
        match List.find (fun e => same_logical_event e event) (outbox_events db) with
        | Some existing => (do _ <- ensureRiverJob (oe_ID existing); tx_ret (oe_ID existing)) db
        | None =>
            (do _ <- ensureRiverJob (oe_ID event); tx_ret (oe_ID event))
              (mkDb (customer_entitlements db) (outbox_events db ++ [event]) (river_jobs db))
        end
    end).

End Repositories.

(** ** Lemmas *)

Lemma Truncate_idemp t d : 0 < d -> Truncate (Truncate t d) d = Truncate t d.
Proof. intros Hd. unfold Truncate. rewrite Zminus_mod_idemp_r, Z.sub_diag, Z.mod_0_l; lia. Qed.

Lemma nullable_time_value t : timestampValue (nullableTime t) = normalizeTime t.
Proof.
  unfold nullableTime, timestampValue, IsZero. destruct (Z.eqb_spec t 0) as [->|]; reflexivity.
Qed.

Lemma nullable_text_value t : textValue (nullableText t) = t.
Proof. unfold nullableText. destruct (String.eqb_spec t EmptyString) as [->|]; reflexivity. Qed.

Lemma timePointersEqual_true a b :
  timePointersEqual a b = true <-> option_map normalizeTime a = option_map normalizeTime b.
Proof.
  unfold timePointersEqual, Equal. destruct a, b; simpl; try naive_solver.
  rewrite Z.eqb_eq. split; [by intros ->|intros H; by injection H].
Qed.

Lemma projectionsEqual_true a b : projectionsEqual a b = true <-> same_stored a b.
Proof.
  unfold projectionsEqual, same_stored, stored_form, normalizedProjection, stored_period.
  rewrite !andb_true_iff, !String.eqb_eq, timePointersEqual_true. unfold Equal, normalizeTime.
  rewrite Z.eqb_eq. split.
  - intros H. splits_hyps. f_equal; auto. f_equal; auto.
  - intros H. injection H. intros. repeat split; auto.
Qed.

(** What is read back of a written projection. *)
Lemma row_projection_stored p v :
  row_projection (ep_CustomerID p, ep_EntitlementID p) (stored_row p v) =
  mkProjection (ep_ProjectID p) (ep_CustomerID p) (ep_EntitlementID p) (ep_SourceKind p)
    (ep_SourceObservationID p) (ep_SourceImportID p) (ep_SourceProductID p) (ep_SourceCustomerID p)
    (ep_Access p) (ep_AccessReason p) (stored_period (ep_EffectivePeriod p)).
Proof.
  unfold row_projection, stored_row. cbn. rewrite !nullable_text_value, nullable_time_value.
  reflexivity.
Qed.

Lemma stored_period_idemp period : stored_period (stored_period period) = stored_period period.
Proof.
  unfold stored_period. simpl. rewrite Truncate_idemp by done. f_equal.
  destruct (EndsAt period); simpl; [|done]. by rewrite Truncate_idemp.
Qed.

Lemma row_projection_same p v :
  same_stored (row_projection (ep_CustomerID p, ep_EntitlementID p) (stored_row (Normalized p) v)) p.
Proof.
  change (ep_CustomerID p, ep_EntitlementID p)
    with (ep_CustomerID (Normalized p), ep_EntitlementID (Normalized p)).
  rewrite row_projection_stored. unfold same_stored, stored_form.
  set (q := Normalized p).
  assert (Hq : Normalized (mkProjection (ep_ProjectID q) (ep_CustomerID q) (ep_EntitlementID q)
    (ep_SourceKind q) (ep_SourceObservationID q) (ep_SourceImportID q) (ep_SourceProductID q)
    (ep_SourceCustomerID q) (ep_Access q) (ep_AccessReason q) (stored_period (ep_EffectivePeriod q)))
    = mkProjection (ep_ProjectID q) (ep_CustomerID q) (ep_EntitlementID q)
    (ep_SourceKind q) (ep_SourceObservationID q) (ep_SourceImportID q) (ep_SourceProductID q)
    (ep_SourceCustomerID q) (ep_Access q) (ep_AccessReason q) (stored_period (ep_EffectivePeriod q))).
  { pose proof (Normalized_idemp p) as Hi. fold q in Hi. unfold Normalized in Hi |- *.
    destruct q as [a b c d e f g h i j k]. cbn in *. injection Hi as Hk Hc. by rewrite Hk, Hc. }
  rewrite Hq. cbn. by rewrite stored_period_idemp.
Qed.

Lemma row_entitlement_ok row c :
  row_entitlement row = Ok c ->
  ce_Projection c = mkProjection (row_projectID row) (row_customerID row) (row_entitlementID row)
    (row_sourceKind row) (row_sourceObservationID row) (row_sourceImportID row)
    (row_sourceProductID row) (row_sourceCustomerID row) (row_access row) (row_accessReason row)
    (mkPeriod (timestampValue (row_effectiveStartsAt row)) (timestampPointer (row_effectiveEndsAt row)))
  /\ ce_Version c = row_version row.
Proof.
  unfold row_entitlement. intros H. apply try_err_ok in H as [_ H]. apply try_err_ok in H as [_ H].
  by injection H as <-.
Qed.

(** ** The repositories keep the laws of the interface *)

Section Laws.
Context (source_of : EntitlementProjection -> option SourceInfo).
Context (entitlement_sources : ProjectID -> CustomerID -> result (list EntitlementSource)).

(** The customer lock changes nothing a reader sees. *)
#[export] Instance pg_EntitlementRepository : EntitlementRepository Db := {
  LockCustomerClosure := fun _ _ => tx_ret tt;
  PutEntitlement := pg_PutEntitlement source_of;
  CustomerEntitlementSources := fun project customer => tx_lift (entitlement_sources project customer);
  CustomerEntitlements := pg_CustomerEntitlements source_of
}.

#[export] Instance pg_OutboxRepository : OutboxRepository Db := {
  SaveOutboxEvent := pg_SaveOutboxEvent
}.

Definition row_view (key : CustomerID * EntitlementID) (row : storedRow) : option CustomerEntitlement :=
  r ← scan_row source_of key row;
  match row_entitlement r with Ok c => Some c | Err _ => None end.

Definition db_view (db : Db) : gmap (CustomerID * EntitlementID) CustomerEntitlement :=
  map_imap row_view (customer_entitlements db).

Lemma db_view_lookup db key : db_view db !! key = customer_entitlements db !! key ≫= row_view key.
Proof. apply map_lookup_imap. Qed.

Lemma row_view_projection key row c :
  row_view key row = Some c -> ce_Projection c = row_projection key row /\ ce_Version c = st_version row.
Proof.
  unfold row_view, scan_row. destruct (source_of _) as [info|]; [|done]. simpl.
  destruct (row_entitlement _) as [c'|] eqn:E; [|done]. intros [= <-].
  apply row_entitlement_ok in E. exact E.
Qed.

Lemma load_ok project customer entitlement db c db' :
  loadCustomerEntitlement source_of project customer entitlement db = (Ok c, db') <->
  db' = db /\ exists row, customer_entitlements db !! (customer, entitlement) = Some row /\
    st_projectID row = project /\ row_view (customer, entitlement) row = Some c.
Proof.
  unfold loadCustomerEntitlement.
  destruct (customer_entitlements db !! (customer, entitlement)) as [row|]; simpl.
  2: { split; [done|]. intros (_ & row & ? & _). done. }
  split.
  - destruct (String.eqb_spec (st_projectID row) project); [|done]. intros H.
    destruct (scan_row source_of (customer, entitlement) row) as [r|] eqn:Hr; [|done].
    injection H as Hc <-. split; [done|]. exists row. split_and!; [done|done|].
    unfold row_view. rewrite Hr. simpl. by rewrite Hc.
  - intros (-> & row' & [= <-] & Hp & Hv). rewrite Hp, String.eqb_refl.
    unfold row_view in Hv. destruct (scan_row source_of (customer, entitlement) row) as [r|]; [|done].
    simpl in Hv. destruct (row_entitlement r); [|done]. by injection Hv as ->.
Qed.

Lemma put_row_lookup db p v : customer_entitlements (put_row db p v) !! (ep_CustomerID p, ep_EntitlementID p)
  = Some (stored_row p v).
Proof. unfold put_row. simpl. by rewrite lookup_insert_eq. Qed.

(** Writing a row and reading it back. *)
Lemma put_row_loaded db p v w db' :
  (do entitlement <- loadCustomerEntitlement source_of (ep_ProjectID p) (ep_CustomerID p) (ep_EntitlementID p);
   tx_ret (mkWriteResult entitlement true)) (put_row db (Normalized p) v) = (Ok w, db') ->
  wr_Changed w = true /\ db' = put_row db (Normalized p) v /\
  same_stored (ce_Projection (wr_Entitlement w)) p /\ ce_Version (wr_Entitlement w) = v /\
  db_view db' = <[ (ep_CustomerID p, ep_EntitlementID p) := wr_Entitlement w ]> (db_view db).
Proof.
  intros H. apply tx_bind_ok in H as (c & s1 & Hl & H). apply tx_ret_ok in H as [<- <-].
  apply load_ok in Hl as (-> & row & Hrow & _ & Hview).
  assert (Hput : customer_entitlements (put_row db (Normalized p) v) !!
    (ep_CustomerID p, ep_EntitlementID p) = Some (stored_row (Normalized p) v))
    by exact (put_row_lookup db (Normalized p) v).
  rewrite Hput in Hrow.
  injection Hrow as <-. destruct (row_view_projection _ _ _ Hview) as [Hproj Hver].
  cbn [wr_Entitlement wr_Changed]. split_and!; auto.
  - rewrite Hproj. apply row_projection_same.
  - unfold db_view, put_row. cbn [customer_entitlements].
    change (ep_CustomerID (Normalized p), ep_EntitlementID (Normalized p))
      with (ep_CustomerID p, ep_EntitlementID p).
    by rewrite (map_imap_insert_Some _ _ _ _ c).
Qed.

Lemma pg_put_cases p s w s' :
  pg_PutEntitlement source_of p s = (Ok w, s') ->
  let key := (ep_CustomerID p, ep_EntitlementID p) in
  (wr_Changed w = false /\ s' = s /\ db_view s !! key = Some (wr_Entitlement w) /\
     same_stored (ce_Projection (wr_Entitlement w)) p) \/
  (wr_Changed w = true /\
     (forall c, db_view s !! key = Some c -> ~ same_stored (ce_Projection c) p /\
        ce_Version (wr_Entitlement w) = ce_Version c + 1) /\
     (customer_entitlements s !! key = None -> ce_Version (wr_Entitlement w) = 1) /\
     same_stored (ce_Projection (wr_Entitlement w)) p /\
     db_view s' = <[ key := wr_Entitlement w ]> (db_view s) /\
     outbox_events s' = outbox_events s).
Proof.
  intros H key. unfold pg_PutEntitlement, normalizedProjection in H.
  apply tx_check_ok in H as [_ H].
  change (ep_CustomerID (Normalized p)) with (ep_CustomerID p) in H.
  change (ep_EntitlementID (Normalized p)) with (ep_EntitlementID p) in H.
  change (ep_ProjectID (Normalized p)) with (ep_ProjectID p) in H. fold key in H.
  destruct (customer_entitlements s !! key) as [row|] eqn:Hrow.
  - apply tx_bind_ok in H as (cur & s1 & Hl & H). apply load_ok in Hl as (-> & row' & Hr' & _ & Hview).
    fold key in Hr', Hview. rewrite Hrow in Hr'. injection Hr' as <-.
    assert (Hcur : db_view s !! key = Some cur) by (rewrite db_view_lookup, Hrow; exact Hview).
    destruct (projectionsEqual (ce_Projection cur) (Normalized p)) eqn:Heq.
    + left. apply tx_ret_ok in H as [<- <-]. simpl. split_and!; auto.
      apply projectionsEqual_true in Heq. unfold same_stored, stored_form in *.
      by rewrite Normalized_idemp in Heq.
    + right. destruct (table_constraints source_of (Normalized p)); [|done].
      apply put_row_loaded in H as (Hc & -> & Hs & Hv & Hview').
      split_and!; auto; [|done]. intros c Hc'. rewrite Hcur in Hc'. injection Hc' as <-.
      split; [|done]. intros Hsame. apply not_true_iff_false in Heq. apply Heq.
      apply projectionsEqual_true. unfold same_stored, stored_form in *. by rewrite Normalized_idemp.
  - right. destruct (table_constraints source_of (Normalized p)); [|done].
    apply put_row_loaded in H as (Hc & -> & Hs & Hv & Hview'). split_and!; auto.
    intros c Hc'. by rewrite db_view_lookup, Hrow in Hc'.
Qed.

Lemma collect_ok rows l :
  (fix collect (rows : list entitlementRow) : result (list CustomerEntitlement) :=
     match rows with
     | [] => Ok []
     | row :: rest =>
         let* entitlement := row_entitlement row in
         let* others := collect rest in Ok (entitlement :: others)
     end) rows = Ok l ->
  forall c, In c l <-> exists r, In r rows /\ row_entitlement r = Ok c.
Proof.
  revert l. induction rows as [|r rows IH]; intros l.
  - intros [= <-] c. split; [by intros []|by intros (r & [] & _)].
  - intros H. apply bind_result_ok in H as (c0 & Hr & H). apply bind_result_ok in H as (l' & Hl & H).
    injection H as <-. intros c. simpl. rewrite (IH l' Hl). split.
    + intros [<-|(r' & ? & ?)]; eauto.
    + intros (r' & [<-|Hin] & Hr'); [left; congruence|right; eauto].
Qed.

Lemma pg_current_ok project customer s l s' :
  pg_CustomerEntitlements source_of project customer s = (Ok l, s') ->
  s' = s /\ forall c, In c l <-> ep_ProjectID (ce_Projection c) = project /\
    db_view s !! (customer, ep_EntitlementID (ce_Projection c)) = Some c.
Proof.
  unfold pg_CustomerEntitlements. intros H. apply tx_check_ok in H as [_ H].
  injection H as Hl <-. split; [done|]. intros c. rewrite (collect_ok _ _ Hl). split.
  - intros (r & Hr & Hc). apply list_elem_of_In, list_elem_of_omap in Hr as ([[cu e] row] & Hin & Hr).
    apply elem_of_map_to_list in Hin. cbn [fst snd] in Hr.
    destruct (String.eqb_spec (st_projectID row) project); [|done].
    destruct (String.eqb_spec cu customer) as [->|]; [|done]. simpl in Hr.
    assert (Hv : row_view (customer, e) row = Some c) by (unfold row_view; rewrite Hr; simpl; by rewrite Hc).
    destruct (row_view_projection _ _ _ Hv) as [Hp _]. rewrite Hp. cbn.
    split; [done|]. by rewrite db_view_lookup, Hin.
  - intros [Hproj Hv]. rewrite db_view_lookup in Hv. apply bind_Some in Hv as (row & Hrow & Hv).
    destruct (row_view_projection _ _ _ Hv) as [Hp _].
    unfold row_view in Hv. apply bind_Some in Hv as (r & Hr & Hc).
    exists r. split; [|by destruct (row_entitlement r); simplify_eq].
    apply list_elem_of_In, list_elem_of_omap.
    exists ((customer, ep_EntitlementID (ce_Projection c)), row). split; [by apply elem_of_map_to_list|].
    cbn [fst snd]. rewrite Hp in Hproj. cbn in Hproj. by rewrite Hproj, !String.eqb_refl.
Qed.

Lemma ensure_job_ok i s u s' :
  ensureRiverJob i s = (Ok u, s') ->
  customer_entitlements s' = customer_entitlements s /\ outbox_events s' = outbox_events s /\
  In i (river_jobs s').
Proof.
  unfold ensureRiverJob. destruct (contains_str (river_jobs s) i) eqn:E; intros [= <- <-]; simpl.
  - split_and!; auto. by apply contains_str_In.
  - split_and!; auto. apply in_app_iff. right. by left.
Qed.

Lemma pg_event_ok e s i s' :
  pg_SaveOutboxEvent e s = (Ok i, s') ->
  customer_entitlements s' = customer_entitlements s /\ In i (river_jobs s') /\
  (exists e', In e' (outbox_events s') /\ oe_ID e' = i /\
     (outboxIdentityMatches e' e = true \/ same_logical_event e' e = true)) /\
  (outbox_events s' = outbox_events s \/
   (outbox_events s' = outbox_events s ++ [e] /\ i = oe_ID e /\
    (forall e', In e' (outbox_events s) -> oe_ID e' <> oe_ID e /\ same_logical_event e' e = false))).
Proof.
  unfold pg_SaveOutboxEvent. intros H. apply tx_check_ok in H as [_ H].
  destruct (List.find _ (outbox_events s)) as [x|] eqn:Hf.
  - apply find_some in Hf as [Hin Hid]. apply String.eqb_eq in Hid.
    destruct (outboxIdentityMatches x e) eqn:Hm; [|done]. cbn [negb] in H.
    apply tx_bind_ok in H as (u & s1 & Hj & H). apply tx_ret_ok in H as [<- <-].
    apply ensure_job_ok in Hj as (H1 & H2 & H3). split_and!; auto. exists x. rewrite H2. auto.
  - destruct (List.find (fun e' => same_logical_event e' e) (outbox_events s)) as [x|] eqn:Hf2.
    + apply find_some in Hf2 as [Hin Hm].
      apply tx_bind_ok in H as (u & s1 & Hj & H). apply tx_ret_ok in H as [<- <-].
      apply ensure_job_ok in Hj as (H1 & H2 & H3). split_and!; auto. exists x. rewrite H2. auto.
    + apply tx_bind_ok in H as (u & s1 & Hj & H). apply tx_ret_ok in H as [<- <-].
      apply ensure_job_ok in Hj as (H1 & H2 & H3). simpl in H1, H2. split_and!; auto.
      * exists e. rewrite H2. split; [apply in_app_iff; right; by left|]. split; [done|]. right.
        unfold same_logical_event. by rewrite !String.eqb_refl.
      * right. split; [done|]. split; [done|]. intros e' Hin. split.
        -- apply String.eqb_neq. exact (find_none _ _ Hf e' Hin).
        -- exact (find_none _ _ Hf2 e' Hin).
Qed.

#[export] Program Instance pg_EntitlementLaws : EntitlementLaws Db := {
  view := db_view;
  events := outbox_events
}.
Next Obligation.
  intros p s w s' H. destruct (pg_put_cases _ _ _ _ H) as [(_ & -> & Hv & Hs)|(_ & _ & _ & Hs & Hv & He)].
  - split_and!; auto. by rewrite insert_id.
  - auto.
Qed.
Next Obligation.
  intros p s w s' H. destruct (pg_put_cases _ _ _ _ H) as [(Hc & -> & Hv & Hs)|(Hc & Hne & _ & Hs & Hv & He)].
  - split; [|done]. split; eauto.
  - rewrite Hc. split; [|done]. split; [done|]. intros (c & Hcv & Hsame).
    destruct (Hne c Hcv) as [Hn _]. done.
Qed.
Next Obligation.
  intros e s i s' H. destruct (pg_event_ok _ _ _ _ H) as (Hc & _ & (e' & Hin & _ & Hsame) & Ho). split_and!.
  - unfold db_view. by rewrite Hc.
  - exists e'. split; [done|]. unfold same_event.
    unfold outboxIdentityMatches, same_logical_event in Hsame. bool_simpl in *. tauto.
  - destruct Ho as [->|(-> & _)]; auto.
Qed.
Next Obligation. intros project customer s l s' H. by apply tx_lift_ok in H as [_ <-]. Qed.
Next Obligation. apply pg_current_ok. Qed.

End Laws.

(** ** Properties *)

(** Writing a projection is versioned and idempotent: the first write of an
    entitlement gets version one; writing what is already stored, at the
    precision of the store, changes nothing; any other write replaces the
    projection and raises the version by exactly one; no other entitlement and
    no queued event is touched, and what is returned is what a reader then
    sees. *)
Theorem put_entitlement_versions (source_of : EntitlementProjection -> option SourceInfo)
    (p : EntitlementProjection) (s s' : Db) (w : EntitlementWriteResult) :
  pg_PutEntitlement source_of p s = (Ok w, s') ->
  let key := (ep_CustomerID p, ep_EntitlementID p) in
  let view := db_view source_of in
  view s' = <[ key := wr_Entitlement w ]> (view s) /\ outbox_events s' = outbox_events s /\
  same_stored (ce_Projection (wr_Entitlement w)) p /\
  (wr_Changed w = false -> s' = s /\ view s !! key = Some (wr_Entitlement w)) /\
  (wr_Changed w = true -> customer_entitlements s !! key = None ->
     ce_Version (wr_Entitlement w) = 1) /\
  (wr_Changed w = true -> forall c, view s !! key = Some c ->
     ~ same_stored (ce_Projection c) p /\ ce_Version (wr_Entitlement w) = ce_Version c + 1).
Proof.
  intros H key view0. subst key view0.
  destruct (pg_put_cases _ _ _ _ _ H) as [(Hc & -> & Hv & Hs)|(Hc & Hne & Hone & Hs & Hv & He)].
  - rewrite Hc. split_and!; auto; [|done|done]. by rewrite insert_id.
  - rewrite Hc. split_and!; auto. done.
Qed.

Definition sample_source (p : EntitlementProjection) : option SourceInfo :=
  Some (mkSourceInfo "app-1" "reference:1" "premium").
Definition empty_db : Db := mkDb ∅ [] [].
Definition sample_row : EntitlementProjection :=
  mkProjection "project-1" "customer-1" "premium" SourceKindStoreObservation "obs-1" EmptyString
    "monthly" EmptyString AccessAllowed AccessReasonPurchaseValid (mkPeriod 1000 (Some 4000)).

Lemma put_entitlement_versions_witness :
  exists w s1, pg_PutEntitlement sample_source sample_row empty_db = (Ok w, s1) /\
    ce_Version (wr_Entitlement w) = 1 /\ db_view sample_source s1 !! ("customer-1", "premium")%string
      = Some (wr_Entitlement w).
Proof.
  destruct (pg_PutEntitlement sample_source sample_row empty_db) as [[w|e] s1] eqn:E;
    [|vm_compute in E; discriminate].
  exists w, s1. split; [reflexivity|].
  destruct (put_entitlement_versions sample_source sample_row empty_db s1 w E)
    as (Hv & _ & _ & _ & H1 & _).
  split.
  - apply H1; [|reflexivity]. vm_compute in E. injection E as <- _. reflexivity.
  - rewrite Hv. reflexivity.
Defined.

Lemma ensure_job_again i s : In i (river_jobs s) -> ensureRiverJob i s = (Ok tt, s).
Proof. intros H. unfold ensureRiverJob. by rewrite (proj2 (contains_str_In _ _) H). Qed.

Lemma ensure_job_scheduled i s u s' : ensureRiverJob i s = (Ok u, s') -> In i (river_jobs s').
Proof. intros H. by apply ensure_job_ok in H as (_ & _ & ?). Qed.

Lemma find_app_none {A} (f : A -> bool) l x :
  List.find f l = None -> List.find f (l ++ [x]) = if f x then Some x else None.
Proof.
  induction l as [|y l IH]; simpl; [done|]. destruct (f y); [done|]. exact IH.
Qed.

Lemma save_event_again e s i s1 :
  pg_SaveOutboxEvent e s = (Ok i, s1) -> pg_SaveOutboxEvent e s1 = (Ok i, s1).
Proof.
  intros H. pose proof (pg_event_ok _ _ _ _ H) as (_ & Hj & _).
  unfold pg_SaveOutboxEvent in *. apply tx_check_ok in H as [Hv H]. rewrite Hv. cbn [tx_check].
  assert (Hdone : forall id sx, (do _ <- ensureRiverJob id; tx_ret id) sx = (Ok i, s1) ->
            id = i /\ outbox_events s1 = outbox_events sx).
  { intros id sx Hd. apply tx_bind_ok in Hd as (u & sy & Hy & Hd). apply tx_ret_ok in Hd as [<- <-].
    split; [done|]. by apply ensure_job_ok in Hy as (_ & ? & _). }
  assert (Hret : (do _ <- ensureRiverJob i; tx_ret i) s1 = (Ok i, s1)).
  { unfold tx_bind. by rewrite ensure_job_again. }
  destruct (List.find (fun e' => String.eqb (oe_ID e') (oe_ID e)) (outbox_events s)) as [x|] eqn:Hf.
  - destruct (negb (outboxIdentityMatches x e)) eqn:Hm; [done|].
    apply Hdone in H as [<- Ho]. by rewrite Ho, Hf, Hm.
  - destruct (List.find (fun e' => same_logical_event e' e) (outbox_events s)) as [x|] eqn:Hf2.
    + apply Hdone in H as [<- Ho]. by rewrite Ho, Hf, Hf2.
    + apply Hdone in H as [<- Ho]. simpl in Ho. rewrite Ho, (find_app_none _ _ _ Hf), String.eqb_refl.
      assert (outboxIdentityMatches e e = true) as ->
        by (unfold outboxIdentityMatches; by rewrite !String.eqb_refl).
      exact Hret.
Qed.

(** Queueing an event is idempotent: saving it again returns the identity of
    the stored event, adds no second row and leaves exactly one delivery job for
    it; an event identity already used for different data is a conflict. *)
Theorem save_event_idempotent (e : OutboxEvent) (s s1 : Db) (i : string) :
  NoDup (river_jobs s) ->
  pg_SaveOutboxEvent e s = (Ok i, s1) ->
  In i (river_jobs s1) /\ NoDup (river_jobs s1) /\
  (exists e', In e' (outbox_events s1) /\ oe_ID e' = i) /\
  pg_SaveOutboxEvent e s1 = (Ok i, s1).
Proof.
  intros Hnd H.
  assert (Hjobs : NoDup (river_jobs s1) /\ In i (river_jobs s1)).
  { split; [|by destruct (pg_event_ok _ _ _ _ H) as (_ & ? & _)].
    unfold pg_SaveOutboxEvent in H. apply tx_check_ok in H as [_ H].
    assert (Hens : forall id sa sb u, NoDup (river_jobs sa) -> ensureRiverJob id sa = (Ok u, sb) ->
              NoDup (river_jobs sb)).
    { intros id sa sb u Hsa. unfold ensureRiverJob.
      destruct (contains_str (river_jobs sa) id) eqn:Ec; intros [= <- <-]; [done|]. simpl.
      apply contains_str_not_In in Ec. apply NoDup_app. split_and!; [done| |apply NoDup_singleton].
      intros x Hx Hy. apply list_elem_of_singleton in Hy as ->. apply Ec. by apply list_elem_of_In. }
    repeat case_match; try done; apply tx_bind_ok in H as (u & sx & Hj & H);
      apply tx_ret_ok in H as [_ <-]; (eapply Hens; [|exact Hj]); done. }
  destruct Hjobs as [Hjnd Hjin].
  destruct (pg_event_ok _ _ _ _ H) as (_ & _ & (e' & Hin & Hid & _) & _).
  split_and!; auto; [eauto|]. by apply save_event_again with s.
Qed.

Definition sample_event : OutboxEvent :=
  mkOutboxEvent "outbox-1" "project-1" "app-1" "entitlement.changed" "customer" "customer-1"
    "{}" (of_bytes (replicate 32 7)) 5000 5000.

Lemma save_event_idempotent_witness :
  exists s1, pg_SaveOutboxEvent sample_event empty_db = (Ok "outbox-1"%string, s1) /\
    pg_SaveOutboxEvent sample_event s1 = (Ok "outbox-1"%string, s1) /\ length (outbox_events s1) = 1%nat.
Proof.
  destruct (pg_SaveOutboxEvent sample_event empty_db) as [r s1] eqn:E.
  assert (r = Ok "outbox-1"%string) as -> by (vm_compute in E; injection E as <- _; reflexivity).
  exists s1. split; [reflexivity|].
  destruct (save_event_idempotent sample_event empty_db s1 "outbox-1" ltac:(constructor) E)
    as (_ & _ & _ & Hagain).
  split; [exact Hagain|]. vm_compute in E. injection E as <-. reflexivity.
Defined.
