(* ===== verification/GoHttp.v ===== *)
(** What the sources use of [strconv], [net/url] and [net/http]: integers in
    decimal, path segments, wrap-around, and the delay a response asks for. *)

From S2P Require Import Prelude GoText GoTime.
From stdpp Require Import base list strings.
Local Open Scope Z_scope.

Definition minInt64 : Z := - 2 ^ 63.
Definition maxInt64 : Z := 2 ^ 63 - 1.

(** Two's complement wrap-around of a signed 64-bit value. *)
Definition wrap64 (z : Z) : Z := (z + 2 ^ 63) mod 2 ^ 64 - 2 ^ 63.

(** [strconv.ParseInt(s, 10, 64)]: an optional sign, digits, and the range. *)
Definition parse_digits (l : list Z) : option Z :=
  if Nat.eqb (length l) 0 then None
  else if forallb (in_range 48 57) l
       then Some (value_of_digits (map (fun b => b - 48) l)) else None.

Definition ParseInt (s : string) : option Z :=
  let '(negative, rest) := match bytes s with
                           | 45 :: l => (true, l)
                           | 43 :: l => (false, l)
                           | l => (false, l)
                           end in
  match parse_digits rest with
  | None => None
  | Some v =>
      let v := if negative then - v else v in
      if (minInt64 <=? v) && (v <=? maxInt64) then Some v else None
  end.

(** [strings.TrimRight(s, "/")]. *)
Fixpoint drop_slashes (l : list Z) : list Z :=
  match l with
  | 47 :: l' => drop_slashes l'
  | _ => l
  end.
Definition TrimRightSlash (s : string) : string := of_bytes (rev (drop_slashes (rev (bytes s)))).

(** [url.PathEscape]: the bytes a path segment may hold as they are. *)
Definition path_safe (b : Z) : bool :=
  in_range 97 122 b || in_range 65 90 b || in_range 48 57 b
  || existsb (Z.eqb b) [45; 95; 46; 126; 36; 38; 43; 61; 58; 64].
Definition upper_hex (n : Z) : Z := if n <? 10 then 48 + n else 55 + n.
Definition PathEscape (s : string) : string :=
  of_bytes (flat_map (fun b => if path_safe b then [b]
                               else [37; upper_hex (b / 16); upper_hex (b mod 16)]) (bytes s)).

(** [url.QueryEscape] and [base64.RawURLEncoding.EncodeToString]. *)
Definition query_safe (b : Z) : bool :=
  in_range 97 122 b || in_range 65 90 b || in_range 48 57 b || existsb (Z.eqb b) [45; 95; 46; 126].
Definition QueryEscape (s : string) : string :=
  of_bytes (flat_map (fun b => if query_safe b then [b] else if b =? 32 then [43]
                               else [37; upper_hex (b / 16); upper_hex (b mod 16)]) (bytes s)).

Definition base64_char (n : Z) : Z :=
  if n <? 26 then 65 + n else if n <? 52 then 71 + n else if n <? 62 then n - 4
  else if n =? 62 then 45 else 95.
Fixpoint base64_bytes (l : list Z) : list Z :=
  match l with
  | a :: b :: c :: l' =>
      [base64_char (a / 4); base64_char (a mod 4 * 16 + b / 16);
       base64_char (b mod 16 * 4 + c / 64); base64_char (c mod 64)] ++ base64_bytes l'
  | [a; b] => [base64_char (a / 4); base64_char (a mod 4 * 16 + b / 16); base64_char (b mod 16 * 4)]
  | [a] => [base64_char (a / 4); base64_char (a mod 4 * 16)]
  | [] => []
  end.
Definition RawURLEncode (s : string) : string := of_bytes (base64_bytes (bytes s)).

(** [base64.StdEncoding.EncodeToString]: the other alphabet, padded to groups of four. *)
Definition StdEncode (s : string) : string :=
  let l := map (fun c => if c =? 45 then 43 else if c =? 95 then 47 else c) (base64_bytes (bytes s)) in
  of_bytes (l ++ replicate ((4 - length l mod 4) mod 4) 61).

(** A request as it is sent: [bearer] is the text of its Authorization header. *)
Record http_request : Type := mkHttpRequest {
  hr_method : string;
  hr_url : string;
  hr_bearer : option string;
  hr_body : string
}.

(** A response: its bounded body, or the failure to read it, with its status and
    its [Retry-After] header; [retryDate] is the instant [http.ParseTime] reads
    from that header. *)
Record http_response : Type := mkResponse {
  body : result string;
  status : Z;
  retryHeader : string;
  retryDate : option time
}.

(** The same function in each provider package: seconds or an HTTP date. *)
(* internal/stores/apple/adapter.go: retryAfter *)
Definition retryAfter (response : http_response) (now : time) : duration :=
  let value := TrimSpace (retryHeader response) in
  match ParseInt value with
  | Some seconds =>
      if 0 <? seconds then wrap64 (seconds * Second)
      else match retryDate response with
           | Some t => if After t now then t - now else 0
           | None => 0
           end
  | None => match retryDate response with
            | Some t => if After t now then t - now else 0
            | None => 0
            end
  end.

Example parse_int_samples :
  map ParseInt ["12"; "-7"; "+5"; "1.5"; "9223372036854775807"; "9223372036854775808"]%string
  = [Some 12; Some (-7); Some 5; None; Some 9223372036854775807; None].
Proof. vm_compute. reflexivity. Qed.

Example path_escape_sample : PathEscape "GPA.1/2 3" = "GPA.1%2F2%203"%string.
Proof. vm_compute. reflexivity. Qed.

Example base64_sample : map RawURLEncode ["a"; "ab"; "abc"; "?>~"]%string = ["YQ"; "YWI"; "YWJj"; "Pz5-"]%string.
Proof. vm_compute. reflexivity. Qed.

Example std_encode_sample : map StdEncode [EmptyString; "a"; "ab"; "abc"; "?>~"]%string = [EmptyString; "YQ=="; "YWI="; "YWJj"; "Pz5+"]%string.
Proof. vm_compute. reflexivity. Qed.

Example query_escape_sample : QueryEscape "urn:a b" = "urn%3Aa+b"%string.
Proof. vm_compute. reflexivity. Qed.

(** ** Splitting *)

(** [strings.Split(s, sep)] for a separator of one byte: never empty. *)
Fixpoint split_bytes (sep : Z) (l : list Z) : list (list Z) :=
  match l with
  | [] => [[]]
  | b :: l' =>
      if b =? sep then [] :: split_bytes sep l'
      else match split_bytes sep l' with
           | [] => [[b]]
           | part :: parts => (b :: part) :: parts
           end
  end.
Definition Split (s : string) (sep : Z) : list string := map of_bytes (split_bytes sep (bytes s)).

Lemma split_bytes_join sep l : split_bytes sep l <> [] /\
  l = match split_bytes sep l with
      | [] => []
      | part :: parts => part ++ flat_map (fun p => sep :: p) parts
      end.
Proof.
  induction l as [|b l [Hne IH]]; [done|]. cbn [split_bytes]. split.
  - destruct (b =? sep); [done|]. destruct (split_bytes sep l); done.
  - destruct (Z.eqb_spec b sep) as [->|].
    + destruct (split_bytes sep l) as [|p ps] eqn:E; [done|]. simpl. by f_equal.
    + destruct (split_bytes sep l) as [|p ps] eqn:E; [done|]. simpl. by f_equal.
Qed.

Lemma split_bytes_no_sep sep l : Forall (fun part => ~ In sep part) (split_bytes sep l).
Proof.
  induction l as [|b l IH]; cbn [split_bytes]; [repeat constructor; auto|].
  destruct (Z.eqb_spec b sep) as [->|Hb]; [constructor; auto|].
  destruct (split_bytes sep l) as [|p ps]; inversion IH; subst; constructor; auto; simpl; naive_solver.
Qed.

(** The parts of a split, separated again, are the string. *)
Lemma Split_three s sep a b c :
  is_byte sep -> Split s sep = [a; b; c] ->
  s = (a ++ of_bytes [sep] ++ b ++ of_bytes [sep] ++ c)%string /\
  ~ In sep (bytes a) /\ ~ In sep (bytes b) /\ ~ In sep (bytes c).
Proof.
  intros Hs H. unfold Split in H.
  destruct (split_bytes_join sep (bytes s)) as [_ Hj]. pose proof (split_bytes_no_sep sep (bytes s)) as Hn.
  pose proof (bytes_bounded s) as Hb. rewrite Hj in Hb.
  destruct (split_bytes sep (bytes s)) as [|x [|y [|z [|? ?]]]]; try done. injection H as <- <- <-.
  simpl in Hj, Hb. rewrite app_nil_r in Hj, Hb.
  apply Forall_app in Hb as [Hx Hb]. apply Forall_cons in Hb as [_ Hb].
  apply Forall_app in Hb as [Hy Hb]. apply Forall_cons in Hb as [_ Hz].
  inversion Hn as [|? ? H1 Hn1]; subst. inversion Hn1 as [|? ? H2 Hn2]; subst.
  inversion Hn2 as [|? ? H3 _]; subst. rewrite !bytes_of_bytes by done. split_and!; auto.
  apply bytes_inj. rewrite Hj, !bytes_app.
  rewrite (bytes_of_bytes x), (bytes_of_bytes y), (bytes_of_bytes z), (bytes_of_bytes [sep]); auto.
Qed.
