(* ===== verification/GoCodec.v ===== *)
(** [encoding/hex] and [encoding/base64] as the sources decode with them: hexadecimal,
    and the raw (unpadded) URL alphabet, with the round trips. *)

From S2P Require Import Prelude GoText Core GoHttp.
From stdpp Require Import base list strings.
Local Open Scope Z_scope.

(** [hex.DecodeString]. *)
Definition hex_digit (b : Z) : option Z :=
  if in_range 48 57 b then Some (b - 48)
  else if in_range 97 102 b then Some (b - 87)
  else if in_range 65 70 b then Some (b - 55)
  else None.
Fixpoint hex_decode (l : list Z) : option (list Z) :=
  match l with
  | [] => Some []
  | a :: b :: l' =>
      match hex_digit a, hex_digit b, hex_decode l' with
      | Some x, Some y, Some rest => Some (16 * x + y :: rest)
      | _, _, _ => None
      end
  | [_] => None
  end.

(** [base64.RawURLEncoding.DecodeString]: line ends are skipped, the bits left over by a
    last incomplete group are not looked at, and one last character alone is corrupt. *)
Definition base64_value (b : Z) : option Z :=
  if in_range 65 90 b then Some (b - 65)
  else if in_range 97 122 b then Some (b - 71)
  else if in_range 48 57 b then Some (b + 4)
  else if b =? 45 then Some 62
  else if b =? 95 then Some 63
  else None.
Fixpoint base64_groups (l : list Z) : option (list Z) :=
  match l with
  | [] => Some []
  | [_] => None
  | [a; b] => Some [a * 4 + b / 16]
  | [a; b; c] => Some [a * 4 + b / 16; b mod 16 * 16 + c / 4]
  | a :: b :: c :: d :: l' =>
      rest ← base64_groups l'; Some (a * 4 + b / 16 :: b mod 16 * 16 + c / 4 :: c mod 4 * 64 + d :: rest)
  end.
Definition line_end (b : Z) : bool := (b =? 10) || (b =? 13).
Definition RawURLDecode (s : string) : option string :=
  values ← mapM base64_value (List.filter (fun b => negb (line_end b)) (bytes s));
  decoded ← base64_groups values; Some (of_bytes decoded).

(** [strings.HasPrefix] and [strings.TrimPrefix]. *)
Definition TrimPrefix (s prefix : string) : string :=
  if String.prefix prefix s then of_bytes (drop (String.length prefix) (bytes s)) else s.

(** ** Lemmas *)

Lemma str_prefix_app p r : String.prefix p (p ++ r) = true.
Proof.
  induction p as [|c p IH]; simpl; [by destruct r|].
  destruct (Ascii.ascii_dec c c) as [_|]; [done|congruence].
Qed.

Lemma prefix_split p s : String.prefix p s = true -> exists r, s = (p ++ r)%string.
Proof.
  revert s. induction p as [|c p IH]; intros s H; [by exists s|].
  destruct s as [|d s]; [done|]. cbn [String.prefix] in H. destruct (Ascii.ascii_dec c d) as [->|]; [|done].
  destruct (IH _ H) as [r ->]. by exists r.
Qed.

Lemma TrimPrefix_app p s : TrimPrefix (p ++ s) p = s.
Proof.
  unfold TrimPrefix. rewrite str_prefix_app. apply bytes_inj. rewrite bytes_app, <- length_bytes, drop_app_length.
  apply bytes_of_bytes, bytes_bounded.
Qed.

Lemma split_bytes_one sep l : ~ In sep l -> split_bytes sep l = [l].
Proof.
  induction l as [|b l IH]; intros H; [done|]. cbn [split_bytes]. destruct (Z.eqb_spec b sep) as [->|_]; [exfalso; apply H; by left|].
  rewrite IH; [done|]. intros Hin. apply H. by right.
Qed.

Lemma split_bytes_two sep a b : ~ In sep a -> ~ In sep b -> split_bytes sep (a ++ sep :: b) = [a; b].
Proof.
  intros Ha Hb. induction a as [|c a IH]; cbn [split_bytes app].
  - rewrite Z.eqb_refl. by rewrite split_bytes_one.
  - destruct (Z.eqb_spec c sep) as [->|_]; [exfalso; apply Ha; by left|]. rewrite IH; [done|]. intros Hin. apply Ha. by right.
Qed.

(** Two parts joined by a separator neither holds. *)
Lemma Split_two a b sep : is_byte sep -> ~ In sep (bytes a) -> ~ In sep (bytes b) ->
  Split (a ++ of_bytes [sep] ++ b)%string sep = [a; b].
Proof.
  intros Hs Ha Hb. unfold Split. rewrite !bytes_app, bytes_of_bytes by (constructor; done). cbn [app].
  rewrite split_bytes_two by done. cbn. by rewrite !of_bytes_bytes.
Qed.


Lemma hex_digit_char n : 0 <= n < 16 -> hex_digit (hex_char n) = Some n.
Proof.
  intros Hn. unfold hex_char, hex_digit, in_range. destruct (Z.ltb_spec n 10).
  - destruct (Z.leb_spec 48 (48 + n)), (Z.leb_spec (48 + n) 57); cbn [andb]; (lia || (f_equal; lia)).
  - destruct (Z.leb_spec 48 (87 + n)), (Z.leb_spec (87 + n) 57), (Z.leb_spec 97 (87 + n)),
      (Z.leb_spec (87 + n) 102); cbn [andb]; (lia || (f_equal; lia)).
Qed.

Lemma hex_decode_encode l : Forall is_byte l -> hex_decode (hex_bytes l) = Some l.
Proof.
  induction 1 as [|b l Hb Hl IH]; [done|]. unfold is_byte in Hb.
  unfold hex_bytes in *. cbn [flat_map app hex_decode].
  rewrite !hex_digit_char, IH by (split; [apply Z.div_pos || apply Z.mod_pos_bound; lia|
    apply Z.div_lt_upper_bound || apply Z.mod_pos_bound; lia]).
  do 2 f_equal. pose proof (Z.div_mod b 16). lia.
Qed.

Lemma length_hex_decode l r : hex_decode l = Some r -> length l = (2 * length r)%nat.
Proof.
  revert l. induction r as [|x r IH]; intros l H.
  - destruct l as [|a [|b l]]; [done|done|]. simpl in H. by repeat case_match; simplify_eq.
  - destruct l as [|a [|b l]]; [done|done|]. simpl in H.
    destruct (hex_digit a), (hex_digit b), (hex_decode l) as [rest|] eqn:E; simplify_eq.
    simpl. rewrite (IH _ E). lia.
Qed.

Lemma graphic_text s : s <> EmptyString -> Forall (fun b => graphic b = true) (bytes s) -> TrimSpace s = s.
Proof.
  intros Hs H. apply TrimSpace_id; [done|].
  destruct (bytes s) as [|b l] eqn:Hb; [by apply bytes_nil in Hb|].
  destruct (exists_last (l := b :: l) ltac:(done)) as (l' & c & Hlast). rewrite Hlast at 2. split.
  - apply Forall_cons in H as [H _]. pose proof (graphic_bound _ H). rewrite DecodeRune_ascii by lia.
    by apply graphic_not_space.
  - rewrite Hlast in H. apply Forall_app in H as [_ [H _]%Forall_cons]. pose proof (graphic_bound _ H).
    rewrite DecodeLastRune_ascii by lia. by apply graphic_not_space.
Qed.

Lemma base64_char_value n : 0 <= n < 64 -> base64_value (base64_char n) = Some n.
Proof.
  intros Hn. unfold base64_char, base64_value, in_range.
  repeat match goal with
  | |- context [?a <? ?b] => destruct (Z.ltb_spec a b); cbn [andb]
  | |- context [?a =? ?b] => destruct (Z.eqb_spec a b); cbn [andb]
  | |- context [?a <=? ?b] => destruct (Z.leb_spec a b); cbn [andb]
  end; (lia || (f_equal; lia)).
Qed.

(** The characters of an encoding are letters, digits, [-] and [_]. *)
Lemma base64_char_graphic n : 0 <= n < 64 -> graphic (base64_char n) = true /\ base64_char n <> 46.
Proof.
  intros Hn. unfold base64_char, graphic, in_range.
  repeat match goal with
  | |- context [?a <? ?b] => destruct (Z.ltb_spec a b)
  | |- context [?a =? ?b] => destruct (Z.eqb_spec a b)
  end; lia.
Qed.

Lemma three_bytes (P : list Z -> Prop) :
  P [] -> (forall a, P [a]) -> (forall a b, P [a; b]) -> (forall a b c l, P l -> P (a :: b :: c :: l)) -> forall l, P l.
Proof.
  intros H0 H1 H2 H3. assert (H : forall n l, (length l <= n)%nat -> P l).
  { induction n as [|n IH]; intros [|a [|b [|c l]]] Hl; auto; cbn in Hl; [lia..|]. apply H3, IH. lia. }
  intros l. by apply (H (length l)).
Qed.

Lemma base64_bytes_spec l : Forall is_byte l ->
  exists values, base64_bytes l = map base64_char values /\ Forall (fun n => 0 <= n < 64) values /\ base64_groups values = Some l.
Proof.
  induction l as [|a|a b|a b c l IH] using three_bytes; intros Hl.
  - by exists [].
  - apply Forall_cons in Hl as [Ha _]. unfold is_byte in Ha. eexists [_; _]. cbn. split; [done|].
    split; [repeat constructor; Z.to_euclidean_division_equations; lia|]. do 2 f_equal. Z.to_euclidean_division_equations; lia.
  - rewrite !Forall_cons in Hl. destruct Hl as (Ha & Hb & _). unfold is_byte in *. eexists [_; _; _]. cbn. split; [done|].
    split; [repeat constructor; Z.to_euclidean_division_equations; lia|]. do 2 f_equal; [|f_equal]; Z.to_euclidean_division_equations; lia.
  - rewrite !Forall_cons in Hl. destruct Hl as (Ha & Hb & Hc & Hl). unfold is_byte in *.
    destruct (IH Hl) as (values & Hv & Hr & Hg). eexists (_ :: _ :: _ :: _ :: values). cbn [base64_bytes map app]. rewrite Hv. split; [done|].
    split; [repeat constructor; [Z.to_euclidean_division_equations; lia..|done]|].
    cbn [base64_groups]. rewrite Hg. cbn. do 2 f_equal; [|f_equal; [|f_equal]]; Z.to_euclidean_division_equations; lia.
Qed.

Lemma bytes_RawURLEncode s : bytes (RawURLEncode s) = base64_bytes (bytes s).
Proof.
  unfold RawURLEncode. apply bytes_of_bytes. destruct (base64_bytes_spec (bytes s) (bytes_bounded s)) as (v & -> & Hv & _).
  apply Forall_map. eapply Forall_impl; [exact Hv|]. intros n Hn. by apply graphic_byte, base64_char_graphic.
Qed.

Lemma RawURLEncode_chars s : Forall (fun b => graphic b = true /\ b <> 46) (bytes (RawURLEncode s)).
Proof.
  rewrite bytes_RawURLEncode. destruct (base64_bytes_spec (bytes s) (bytes_bounded s)) as (v & -> & Hv & _).
  apply Forall_map. eapply Forall_impl; [exact Hv|]. intros n Hn. by apply base64_char_graphic.
Qed.

(** What was encoded is decoded. *)
Lemma RawURLDecode_encode s : RawURLDecode (RawURLEncode s) = Some s.
Proof.
  unfold RawURLDecode. rewrite bytes_RawURLEncode.
  destruct (base64_bytes_spec (bytes s) (bytes_bounded s)) as (v & -> & Hv & Hg).
  rewrite filter_true_all.
  2: { intros b (n & <- & Hn)%in_map_iff. rewrite List.Forall_forall in Hv. destruct (base64_char_graphic n (Hv n Hn)) as [Hb _].
       apply graphic_bound in Hb. unfold line_end. apply negb_true_iff, orb_false_iff. split; apply Z.eqb_neq; lia. }
  assert (Hm : mapM base64_value (map base64_char v) = Some v).
  { apply mapM_Some. clear Hg. induction Hv as [|n v Hn _ IH]; [constructor|]. cbn. constructor; [by apply base64_char_value|done]. }
  rewrite Hm. cbn. rewrite Hg. cbn. by rewrite of_bytes_bytes.
Qed.

Lemma RawURLEncode_nonempty s : s <> EmptyString -> 0 < len (RawURLEncode s).
Proof.
  intros Hs. unfold len. rewrite <- length_bytes, bytes_RawURLEncode.
  destruct (bytes s) as [|a [|b [|c l]]] eqn:E; [by apply bytes_nil in E|cbn; lia..].
Qed.

(** A prefixed encoding is longer than its prefix and is taken apart again. *)
Lemma prefixed_decode p s : s <> EmptyString ->
  let token := (p ++ RawURLEncode s)%string in
  len p < len token /\ String.prefix p token = true /\ RawURLDecode (TrimPrefix token p) = Some s.
Proof.
  intros Hs token. unfold token. split_and!.
  - pose proof (RawURLEncode_nonempty s Hs). unfold len in *. rewrite <- (length_bytes (p ++ _)), bytes_app, length_app, !length_bytes. lia.
  - apply str_prefix_app.
  - by rewrite TrimPrefix_app, RawURLDecode_encode.
Qed.
