(* ===== verification/AesGcm.v ===== *)
(** AES-256 and the Galois/Counter Mode (Go's [crypto/aes] and [crypto/cipher]), and the
    key derivation of [crypto/hkdf] with SHA-256, executable on byte strings.  The
    envelopes of [internal/platform/protection] are computed with these definitions; that
    opening undoes sealing and that only sealed texts open are theorems of the mode, and
    nothing here assumes that ciphertexts are hard to forge.

    Go refuses plaintexts of 64 GiB and more, which no Go program here holds in memory. *)

From S2P Require Import Prelude GoText GoTime GoHttp GoCodec Sha256.
From stdpp Require Import base list strings.
Local Open Scope Z_scope.

(** ** The block cipher *)

Definition aes_sbox : list Z :=
  [99; 124; 119; 123; 242; 107; 111; 197; 48; 1; 103; 43; 254; 215; 171; 118; 202; 130; 201; 125; 250; 89;
   71; 240; 173; 212; 162; 175; 156; 164; 114; 192; 183; 253; 147; 38; 54; 63; 247; 204; 52; 165; 229; 241;
   113; 216; 49; 21; 4; 199; 35; 195; 24; 150; 5; 154; 7; 18; 128; 226; 235; 39; 178; 117; 9; 131;
   44; 26; 27; 110; 90; 160; 82; 59; 214; 179; 41; 227; 47; 132; 83; 209; 0; 237; 32; 252; 177; 91;
   106; 203; 190; 57; 74; 76; 88; 207; 208; 239; 170; 251; 67; 77; 51; 133; 69; 249; 2; 127; 80; 60;
   159; 168; 81; 163; 64; 143; 146; 157; 56; 245; 188; 182; 218; 33; 16; 255; 243; 210; 205; 12; 19; 236;
   95; 151; 68; 23; 196; 167; 126; 61; 100; 93; 25; 115; 96; 129; 79; 220; 34; 42; 144; 136; 70; 238;
   184; 20; 222; 94; 11; 219; 224; 50; 58; 10; 73; 6; 36; 92; 194; 211; 172; 98; 145; 149; 228; 121;
   231; 200; 55; 109; 141; 213; 78; 169; 108; 86; 244; 234; 101; 122; 174; 8; 186; 120; 37; 46; 28; 166;
   180; 198; 232; 221; 116; 31; 75; 189; 139; 138; 112; 62; 181; 102; 72; 3; 246; 14; 97; 53; 87; 185;
   134; 193; 29; 158; 225; 248; 152; 17; 105; 217; 142; 148; 155; 30; 135; 233; 206; 85; 40; 223; 140; 161;
   137; 13; 191; 230; 66; 104; 65; 153; 45; 15; 176; 84; 187; 22].

Definition sub_byte (b : Z) : Z := nth (Z.to_nat b) aes_sbox 0.
Definition xor_bytes : list Z -> list Z -> list Z := zip_with Z.lxor.

(** Doubling in the field of the cipher. *)
Definition xtime (b : Z) : Z := let d := Z.shiftl b 1 in if d <? 256 then d else Z.lxor d 283.

Definition rot_word (w : list Z) : list Z := match w with a :: w' => w' ++ [a] | [] => [] end.

(** The key schedule: the words so far, latest first; [n] words to go, the next is the
    [i]th. *)
Fixpoint expand_key (n : nat) (i : Z) (rcon : Z) (words : list (list Z)) : list (list Z) :=
  match n with
  | O => words
  | S n' =>
      let last := hd [] words in
      let word :=
        if i mod 8 =? 0 then xor_bytes (map sub_byte (rot_word last)) [rcon; 0; 0; 0]
        else if i mod 8 =? 4 then map sub_byte last else last in
      expand_key n' (i + 1) (if i mod 8 =? 0 then xtime rcon else rcon)
        (xor_bytes (nth 7 words []) word :: words)
  end.

Definition key_words (key : list Z) : list (list Z) :=
  map (fun i => take 4 (drop (4 * i) key)) (seq 0 8).

(** All bytes of the fifteen round keys. *)
Definition key_schedule (key : list Z) : list Z :=
  List.concat (rev (expand_key 52 8 1 (rev (key_words key)))).

Definition round_key (schedule : list Z) (round : nat) : list Z :=
  map (fun i => nth i schedule 0) (seq (16 * round) 16).

(** The state is the block, column by column. *)
Definition sub_shift (state : list Z) : list Z :=
  map (fun i => sub_byte (nth i state 0)) [0; 5; 10; 15; 4; 9; 14; 3; 8; 13; 2; 7; 12; 1; 6; 11]%nat.

Fixpoint mix_columns (state : list Z) : list Z :=
  match state with
  | a :: b :: c :: d :: rest =>
      let all := Z.lxor (Z.lxor a b) (Z.lxor c d) in
      let mix x y := Z.lxor x (Z.lxor all (xtime (Z.lxor x y))) in
      mix a b :: mix b c :: mix c d :: mix d a :: mix_columns rest
  | _ => []
  end.

Fixpoint aes_rounds (n round : nat) (schedule state : list Z) : list Z :=
  match n with
  | O => xor_bytes (sub_shift state) (round_key schedule round)
  | S n' => aes_rounds n' (S round) schedule
              (xor_bytes (mix_columns (sub_shift state)) (round_key schedule round))
  end.

Definition aes_block (schedule block : list Z) : list Z :=
  aes_rounds 13 1 schedule (xor_bytes block (round_key schedule 0)).

(** ** The mode *)

Definition be_number (l : list Z) : Z := fold_left (fun acc b => 256 * acc + b) l 0.

(** Multiplication in the field of the mode, the most significant bit first. *)
Fixpoint gf_mult_bits (n : nat) (x z v : Z) : Z :=
  match n with
  | O => z
  | S n' => gf_mult_bits n' x (if Z.testbit x (Z.of_nat n') then Z.lxor z v else z)
              (if Z.testbit v 0 then Z.lxor (Z.shiftr v 1) (Z.shiftl 225 120) else Z.shiftr v 1)
  end.
Definition gf_mult (x y : Z) : Z := gf_mult_bits 128 x 0 y.

(** Blocks of sixteen bytes, the last one filled with zeros. *)
Fixpoint padded_blocks (n : nat) (l : list Z) : list (list Z) :=
  match n with
  | O => []
  | S n' => (take 16 l ++ replicate (16 - length (take 16 l)) 0) :: padded_blocks n' (drop 16 l)
  end.
Definition block_count (l : list Z) : nat := (length l + 15) / 16.
Definition gcm_blocks (l : list Z) : list (list Z) := padded_blocks (block_count l) l.

Definition ghash (h : Z) (blocks : list (list Z)) : Z :=
  fold_left (fun y block => gf_mult (Z.lxor y (be_number block)) h) blocks 0.

(** The counter blocks after the first one mask the text. *)
Definition gcm_stream (schedule nonce : list Z) (n : nat) : list Z :=
  flat_map (fun i => aes_block schedule (nonce ++ be_bytes 4 (Z.of_nat i + 2))) (seq 0 n).

Definition gcm_crypt (schedule nonce text : list Z) : list Z :=
  xor_bytes text (gcm_stream schedule nonce (block_count text)).

Definition gcm_tag (schedule nonce ciphertext associated : list Z) : list Z :=
  let h := be_number (aes_block schedule (replicate 16 0)) in
  let lengths := be_bytes 8 (8 * Z.of_nat (length associated)) ++ be_bytes 8 (8 * Z.of_nat (length ciphertext)) in
  xor_bytes (be_bytes 16 (ghash h (gcm_blocks associated ++ gcm_blocks ciphertext ++ [lengths])))
    (aes_block schedule (nonce ++ [0; 0; 0; 1])).

Definition gcm_nonce_size : nat := 12.
Definition gcm_tag_size : nat := 16.

(** [cipher.NewGCMWithRandomNonce] on [aes.NewCipher(key)]: the nonce that was drawn goes
    before the ciphertext and its tag. *)
Definition gcm_seal (key nonce plaintext associated : list Z) : list Z :=
  let schedule := key_schedule key in
  let ciphertext := gcm_crypt schedule nonce plaintext in
  nonce ++ ciphertext ++ gcm_tag schedule nonce ciphertext associated.

Definition gcm_open (key sealed associated : list Z) : option (list Z) :=
  if (length sealed <? gcm_nonce_size + gcm_tag_size)%nat then None
  else
    let schedule := key_schedule key in
    let nonce := take gcm_nonce_size sealed in
    let rest := drop gcm_nonce_size sealed in
    let ciphertext := take (length rest - gcm_tag_size) rest in
    let tag := drop (length rest - gcm_tag_size) rest in
    if bool_decide (tag = gcm_tag schedule nonce ciphertext associated)
    then Some (gcm_crypt schedule nonce ciphertext) else None.

(** [aead.Seal(nil, nil, plaintext, associated)], [nonce] being what it drew, and
    [aead.Open(nil, nil, sealed, associated)]. *)
Definition AEAD_Seal (key nonce plaintext associated : string) : string :=
  of_bytes (gcm_seal (bytes key) (bytes nonce) (bytes plaintext) (bytes associated)).
Definition AEAD_Open (key sealed associated : string) : option string :=
  option_map of_bytes (gcm_open (bytes key) (bytes sealed) (bytes associated)).

(** ** Key derivation *)

(** [hkdf.Key(sha256.New, secret, nil, info, 32)]: one block of output. *)
Definition hkdf_Key32 (secret info : string) : string :=
  HmacSha256 (HmacSha256 (of_bytes (replicate 32 0)) secret) (info ++ of_bytes [1]).

(** ** Test vectors *)

(** FIPS 197, appendix C.3. *)
Example aes256_fips197 :
  aes_block (key_schedule (map Z.of_nat (seq 0 32))) (map (fun i => 17 * Z.of_nat i) (seq 0 16))
  = [142; 162; 183; 202; 81; 103; 69; 191; 234; 252; 73; 144; 75; 73; 96; 137].
Proof. vm_compute. reflexivity. Qed.

(** The GCM specification's test cases 13 and 14: a zero key and nonce. *)
Example gcm_empty :
  EncodeToString (of_bytes (gcm_seal (replicate 32 0) (replicate 12 0) [] []))
  = "000000000000000000000000530f8afbc74536b9a963b4f1c4cb738b".
Proof. vm_compute. reflexivity. Qed.

Example gcm_zeros :
  EncodeToString (of_bytes (gcm_seal (replicate 32 0) (replicate 12 0) (replicate 16 0) []))
  = "000000000000000000000000cea7403d4d606b6e074ec5d3baf39d18d0d1c8a799996bf0265b98b5d48ab919".
Proof. vm_compute. reflexivity. Qed.

Definition unhex (s : string) : list Z := default [] (hex_decode (bytes s)).

(** Its test case 16: associated data and an incomplete last block. *)
Example gcm_associated :
  EncodeToString (of_bytes (gcm_seal
    (unhex "feffe9928665731c6d6a8f9467308308feffe9928665731c6d6a8f9467308308") (unhex "cafebabefacedbaddecaf888")
    (unhex "d9313225f88406e5a55909c5aff5269a86a7a9531534f7da2e4c303d8a318a721c3c0c95956809532fcf0e2449a6b525b16aedf5aa0de657ba637b39")
    (unhex "feedfacedeadbeeffeedfacedeadbeefabaddad2")))
  = ("cafebabefacedbaddecaf888522dc1f099567d07f47f37a32a84427d643a8cdcbfe5c0c97598a2bd2555d1aa8cb08e48590dbb3da7b08b1056828838"
     ++ "c5f61e6393ba7a0abcc9f66276fc6ece0f4e1768cddf8853bb2d551b")%string.
Proof. vm_compute. reflexivity. Qed.

(** RFC 5869, test case 3. *)
Example hkdf_rfc5869 :
  EncodeToString (hkdf_Key32 (of_bytes (replicate 22 11)) EmptyString)
  = "8da4e775a563c18f715f802a063c5a31b8a11f5c5ee1879ec3454e5f3c738d2d".
Proof. vm_compute. reflexivity. Qed.

(** ** Opening undoes sealing *)

Lemma length_round_key schedule round : length (round_key schedule round) = 16%nat.
Proof. reflexivity. Qed.

Lemma length_xor l l' : length (xor_bytes l l') = Nat.min (length l) (length l').
Proof. apply length_zip_with. Qed.

Lemma length_aes_rounds n round schedule state : length (aes_rounds n round schedule state) = 16%nat.
Proof.
  revert round state. induction n as [|n IH]; intros round state; cbn [aes_rounds]; [|apply IH].
  rewrite length_xor. reflexivity.
Qed.

Lemma length_aes_block schedule block : length (aes_block schedule block) = 16%nat.
Proof. apply length_aes_rounds. Qed.

Lemma length_flat_map_const {A B} (f : A -> list B) n l :
  (forall x, length (f x) = n) -> length (flat_map f l) = (n * length l)%nat.
Proof. intros H. induction l as [|x l IH]; cbn [flat_map length]; [lia|]. rewrite length_app, H, IH. lia. Qed.

Lemma length_gcm_stream schedule nonce n : length (gcm_stream schedule nonce n) = (16 * n)%nat.
Proof.
  unfold gcm_stream. rewrite (length_flat_map_const _ 16) by (intros; apply length_aes_block). by rewrite length_seq.
Qed.

Lemma block_count_covers l : (length l <= 16 * block_count l)%nat.
Proof. unfold block_count. pose proof (Nat.div_mod_eq (length l + 15) 16). pose proof (Nat.mod_upper_bound (length l + 15) 16). lia. Qed.

Lemma length_gcm_crypt schedule nonce text : length (gcm_crypt schedule nonce text) = length text.
Proof.
  unfold gcm_crypt. rewrite length_xor, length_gcm_stream. pose proof (block_count_covers text). lia.
Qed.

Lemma length_gcm_tag schedule nonce ciphertext associated : length (gcm_tag schedule nonce ciphertext associated) = 16%nat.
Proof. unfold gcm_tag. by rewrite length_xor, length_aes_block, length_be_bytes. Qed.

Lemma xor_bytes_twice l ks : (length l <= length ks)%nat -> xor_bytes (xor_bytes l ks) ks = l.
Proof.
  revert ks. induction l as [|b l IH]; intros [|k ks] H; cbn in *; try done; [lia|].
  unfold xor_bytes in *. rewrite Z.lxor_assoc, Z.lxor_nilpotent, Z.lxor_0_r. f_equal. apply IH. lia.
Qed.

(** Masking twice with the same nonce gives the text back. *)
Lemma gcm_crypt_twice schedule nonce text : gcm_crypt schedule nonce (gcm_crypt schedule nonce text) = text.
Proof.
  unfold gcm_crypt at 1. replace (block_count (gcm_crypt schedule nonce text)) with (block_count text)
    by (unfold block_count; by rewrite length_gcm_crypt).
  apply xor_bytes_twice. rewrite length_gcm_stream. apply block_count_covers.
Qed.

Lemma gcm_open_seal key nonce plaintext associated :
  length nonce = gcm_nonce_size -> gcm_open key (gcm_seal key nonce plaintext associated) associated = Some plaintext.
Proof.
  intros Hn. unfold gcm_open, gcm_seal. cbv zeta. set (schedule := key_schedule key). set (c := gcm_crypt schedule nonce plaintext).
  pose proof (length_gcm_tag schedule nonce c associated) as Ht. unfold gcm_tag_size. rewrite !length_app, Ht, Hn.
  destruct (Nat.ltb_spec (gcm_nonce_size + (length c + 16)) (gcm_nonce_size + 16)) as [|_]; [lia|].
  rewrite (take_app_length' nonce), (drop_app_length' nonce) by done.
  rewrite length_app, Ht, Nat.add_sub, take_app_length, drop_app_length.
  rewrite bool_decide_eq_true_2 by done. unfold c. by rewrite gcm_crypt_twice.
Qed.

(** What opens is exactly what was sealed with the key for that associated data. *)
Lemma gcm_open_sealed key sealed associated plaintext :
  gcm_open key sealed associated = Some plaintext ->
  exists nonce, length nonce = gcm_nonce_size /\ sealed = gcm_seal key nonce plaintext associated.
Proof.
  unfold gcm_open, gcm_seal. destruct (Nat.ltb_spec (length sealed) (gcm_nonce_size + gcm_tag_size)) as [|Hl]; [done|].
  cbv zeta. destruct (bool_decide _) eqn:Ht; [|done]. apply bool_decide_eq_true in Ht. intros [= <-].
  exists (take gcm_nonce_size sealed). split; [rewrite length_take; unfold gcm_nonce_size, gcm_tag_size in *; lia|].
  rewrite gcm_crypt_twice, <- Ht, take_drop. by rewrite take_drop.
Qed.

(** *** Bytes *)

Lemma byte_spec b : is_byte b <-> 0 <= b /\ Z.shiftr b 8 = 0.
Proof.
  unfold is_byte. rewrite Z.shiftr_div_pow2 by lia. change (2 ^ 8) with 256. split; [intros []; split; [done|by apply Z.div_small]|].
  intros [H H0]. apply Z.div_small_iff in H0; lia.
Qed.

Lemma lxor_byte a b : is_byte a -> is_byte b -> is_byte (Z.lxor a b).
Proof.
  rewrite !byte_spec. intros [Ha Ha'] [Hb Hb']. split; [by apply Z.lxor_nonneg|].
  by rewrite Z.shiftr_lxor, Ha', Hb'.
Qed.

Lemma xor_bytes_byte l l' : Forall is_byte l -> Forall is_byte l' -> Forall is_byte (xor_bytes l l').
Proof. intros Hl. revert l'. induction Hl as [|a l Ha _ IH]; intros [|b l'] H; cbn; try constructor; inversion H; auto using lxor_byte. Qed.

Lemma nth_byte l i : Forall is_byte l -> is_byte (nth i l 0).
Proof.
  intros H. destruct (nth_in_or_default i l 0) as [Hin| ->]; [|unfold is_byte; lia].
  rewrite Forall_forall in H. by apply H, list_elem_of_In.
Qed.

Lemma sbox_bytes : Forall is_byte aes_sbox.
Proof.
  apply Forall_forall. intros b Hb%list_elem_of_In.
  assert (H : forallb (in_range 0 255) aes_sbox = true) by by vm_compute. rewrite forallb_forall in H.
  specialize (H b Hb). unfold in_range, is_byte in *. lia.
Qed.

Lemma sub_byte_byte b : is_byte (sub_byte b).
Proof. apply nth_byte, sbox_bytes. Qed.

(** A property of bytes is checked on all of them. *)
Lemma every_byte (P : Z -> bool) b : forallb P (map Z.of_nat (seq 0 256)) = true -> is_byte b -> P b = true.
Proof.
  intros H Hb. rewrite forallb_forall in H. apply H. apply in_map_iff. exists (Z.to_nat b). unfold is_byte in Hb.
  split; [lia|]. apply in_seq. lia.
Qed.

Lemma xtime_byte b : is_byte b -> is_byte (xtime b).
Proof.
  intros Hb. assert (H : in_range 0 255 (xtime b) = true) by (by apply (every_byte (fun b => in_range 0 255 (xtime b)))).
  unfold in_range, is_byte in *. lia.
Qed.

Create HintDb aes.
#[export] Hint Resolve lxor_byte sub_byte_byte xtime_byte nth_byte xor_bytes_byte be_bytes_bounded : aes.

Lemma sub_bytes_byte l : Forall is_byte (map sub_byte l).
Proof. apply Forall_map, Forall_true. auto with aes. Qed.

Lemma sub_shift_byte state : Forall is_byte (sub_shift state).
Proof. apply Forall_map, Forall_true. intros. apply sub_byte_byte. Qed.

Lemma round_key_byte schedule round : Forall is_byte schedule -> Forall is_byte (round_key schedule round).
Proof. intros H. apply Forall_map, Forall_true. intros. by apply nth_byte. Qed.

Lemma mix_columns_byte state : Forall is_byte (mix_columns (sub_shift state)).
Proof. cbn [mix_columns sub_shift map]. repeat (apply Forall_cons; split; [auto 30 with aes|]). constructor. Qed.

#[export] Hint Resolve sub_bytes_byte sub_shift_byte round_key_byte mix_columns_byte : aes.

Lemma aes_rounds_byte n round schedule state : Forall is_byte schedule -> Forall is_byte (aes_rounds n round schedule state).
Proof. intros H. revert round state. induction n as [|n IH]; intros; cbn [aes_rounds]; auto with aes. Qed.

Lemma rot_word_byte w : Forall is_byte w -> Forall is_byte (rot_word w).
Proof. intros H. destruct H; cbn; [constructor|]. apply Forall_app. auto. Qed.

Lemma expand_key_byte n i rcon words : is_byte rcon -> Forall (Forall is_byte) words ->
  Forall (Forall is_byte) (expand_key n i rcon words).
Proof.
  revert i rcon words. induction n as [|n IH]; intros i rcon words Hr Hw; cbn [expand_key]; [done|].
  assert (Hlast : Forall is_byte (hd [] words)) by (destruct Hw; [constructor|done]).
  assert (Hnth : Forall is_byte (nth 7 words [])).
  { destruct (nth_in_or_default 7 words []) as [Hin| ->]; [|constructor]. rewrite Forall_forall in Hw.
    by apply Hw, list_elem_of_In. }
  assert (Hrc : Forall is_byte [rcon; 0; 0; 0]) by (repeat constructor; unfold is_byte in *; lia).
  apply IH; [destruct (_ =? _); auto with aes|]. constructor; [|done]. apply xor_bytes_byte; [done|].
  destruct (i mod 8 =? 0); [auto with aes|]. destruct (i mod 8 =? 4); auto with aes.
Qed.

Lemma key_schedule_byte key : Forall is_byte key -> Forall is_byte (key_schedule key).
Proof.
  intros H. unfold key_schedule. apply Forall_concat, Forall_rev, expand_key_byte; [unfold is_byte; lia|].
  apply Forall_rev, Forall_map, Forall_true. intros i. by apply Forall_take, Forall_drop.
Qed.

Lemma gcm_crypt_byte schedule nonce text : Forall is_byte schedule -> Forall is_byte text ->
  Forall is_byte (gcm_crypt schedule nonce text).
Proof.
  intros Hs Ht. apply xor_bytes_byte; [done|]. unfold gcm_stream. induction (seq _ _) as [|i l IH]; cbn [flat_map]; [constructor|].
  apply Forall_app. split; [by apply aes_rounds_byte|done].
Qed.

Lemma gcm_seal_byte key nonce plaintext associated :
  Forall is_byte key -> Forall is_byte nonce -> Forall is_byte plaintext ->
  Forall is_byte (gcm_seal key nonce plaintext associated).
Proof.
  intros Hk%key_schedule_byte Hn Hp. unfold gcm_seal. rewrite !Forall_app. split_and!; [done|by apply gcm_crypt_byte|].
  apply xor_bytes_byte; [apply be_bytes_bounded|by apply aes_rounds_byte].
Qed.

(** The envelope on strings. *)
Lemma bytes_AEAD_Seal key nonce plaintext associated :
  bytes (AEAD_Seal key nonce plaintext associated) = gcm_seal (bytes key) (bytes nonce) (bytes plaintext) (bytes associated).
Proof. apply bytes_of_bytes, gcm_seal_byte; apply bytes_bounded. Qed.

Lemma AEAD_Open_Seal key nonce plaintext associated :
  len nonce = 12 -> AEAD_Open key (AEAD_Seal key nonce plaintext associated) associated = Some plaintext.
Proof.
  intros Hn. unfold AEAD_Open. rewrite bytes_AEAD_Seal, gcm_open_seal; [cbn; by rewrite of_bytes_bytes|].
  rewrite length_bytes. unfold len, gcm_nonce_size in *. lia.
Qed.

Lemma AEAD_Open_sealed key sealed associated plaintext :
  AEAD_Open key sealed associated = Some plaintext ->
  exists nonce, len nonce = 12 /\ sealed = AEAD_Seal key nonce plaintext associated.
Proof.
  unfold AEAD_Open. destruct (gcm_open _ _ _) as [text|] eqn:Ho; [|done]. intros [= <-].
  apply gcm_open_sealed in Ho as (nonce & Hn & Hs).
  assert (Hb : Forall is_byte nonce /\ Forall is_byte text).
  { pose proof (bytes_bounded sealed) as H. rewrite Hs in H. unfold gcm_seal in H. rewrite !Forall_app in H. destruct H as (H1 & H2 & _).
    split; [done|]. rewrite <- (gcm_crypt_twice (key_schedule (bytes key)) nonce text). apply gcm_crypt_byte; [|done].
    apply key_schedule_byte, bytes_bounded. }
  destruct Hb as [Hb1 Hb2]. exists (of_bytes nonce). split; [unfold len; rewrite length_of_bytes, Hn; done|].
  unfold AEAD_Seal. rewrite !bytes_of_bytes by done. by rewrite <- Hs, of_bytes_bytes.
Qed.

(** A nonce and a tag longer than the text. *)
Lemma length_AEAD_Seal key nonce plaintext associated :
  len (AEAD_Seal key nonce plaintext associated) = len nonce + len plaintext + 16.
Proof.
  unfold len. rewrite <- !length_bytes, bytes_AEAD_Seal. unfold gcm_seal. rewrite !length_app, length_gcm_tag, length_gcm_crypt. lia.
Qed.
