(* ===== verification/Keyring.v ===== *)
(** The envelopes of protected data ([internal/platform/protection]): a keyring that
    encrypts with its active key and opens with every key it retains, and its loading
    from the environment.

    Keys are derived with HKDF and data is sealed with AES-256-GCM, both executable
    ([AesGcm]); a sealed value carries a keyed fingerprint of its scope and plaintext.
    The nonce drawn from the random source is an argument, as is the error of the
    context.  The JSON object of keys is read by [encoding/json], whose tokens are a
    parameter; overwriting keys and plaintexts after use does not change what was
    computed.  Maps of keys are visited in the unspecified order of [GoMapRange]. *)

From S2P Require Import Prelude GoText GoTime GoHttp GoCodec Sha256 AesGcm Core Protection.
From stdpp Require Import base list strings gmap sorting.
Local Open Scope Z_scope.

(** ** Constants and data *)

(* internal/platform/protection/keyring.go: constants *)
Definition keySize : Z := 32.
Definition envelopeVersion : Z := 1.
Definition encryptionKDFInfo : string := "iapstack/protection/encryption/v1/".
Definition fingerprintKDFInfo : string := "iapstack/protection/fingerprint/v1".
Definition authenticatedDataDomain : string := "iapstack/protection/aad/v1".
Definition fingerprintDomain : string := "iapstack/protection/fingerprint-input/v1".

(* internal/platform/protection/keyring.go: Config *)
Record Config : Type := mkConfig {
  cf_activeKeyID : string;
  cf_encryptionKeys : gmap string string;
  cf_fingerprintKey : string
}.

(** An AEAD is its derived key. *)
(* internal/platform/protection/keyring.go: Keyring *)
Record Keyring : Type := mkKeyring {
  kr_activeKeyID : string;
  kr_encryptionKeys : gmap string string;
  kr_fingerprintKey : string
}.

(* internal/platform/protection/keyring.go: ErrInvalidConfiguration *)
Definition ErrInvalidConfiguration : gerror := Sentinel "protection.ErrInvalidConfiguration".

(** [fmt.Errorf("%w: ...", ErrInvalidConfiguration, ...)]. *)
Definition invalid_configuration (format : string) (args : list arg) : gerror :=
  Wrapf ("%w: " ++ format) args ErrInvalidConfiguration.

(* internal/platform/protection/keyring.go: validateKeyID *)
Definition validateKeyID (keyID : string) : error :=
  refuse_if (String.eqb keyID EmptyString) (New "is required") ;;?
  refuse_if (negb (String.eqb (TrimSpace keyID) keyID)) (New "must not have leading or trailing whitespace") ;;?
  refuse_if (existsb IsControl (runes keyID)) (New "must not contain control characters").

(** ** Inputs of the primitives *)

(** [binary.AppendUvarint]: groups of seven bits, least significant first.  The fuel is
    the number of groups. *)
Fixpoint uvarint_fuel (fuel : nat) (n : Z) : list Z :=
  match fuel with
  | O => []
  | S fuel' => if n <? 128 then [n] else Z.lor (Z.land n 127) 128 :: uvarint_fuel fuel' (Z.shiftr n 7)
  end.
Definition uvarint (n : Z) : list Z := uvarint_fuel (S (Z.to_nat (Z.log2 n))) n.

(* internal/platform/protection/keyring.go: appendLengthPrefixed *)
Definition appendLengthPrefixed (destination : list Z) (value : string) : list Z :=
  destination ++ uvarint (len value) ++ bytes value.

(* internal/platform/protection/keyring.go: scopedInput *)
Definition scopedInput (domain : string) (scope : Scope) : list Z :=
  let data := [envelopeVersion] in
  let data := appendLengthPrefixed data domain in
  let data := appendLengthPrefixed data (scope_ProjectID scope) in
  let data := appendLengthPrefixed data (scope_ApplicationID scope) in
  appendLengthPrefixed data (scope_Purpose scope).

(* internal/platform/protection/keyring.go: envelopeAuthenticatedData *)
Definition envelopeAuthenticatedData (scope : Scope) (keyID : string) : string :=
  of_bytes (appendLengthPrefixed (scopedInput authenticatedDataDomain scope) keyID).

(* internal/platform/protection/keyring.go: Keyring.fingerprint *)
Definition kr_fingerprint (keyring : Keyring) (scope : Scope) (plaintext : string) : string :=
  HmacSha256 (kr_fingerprintKey keyring) (of_bytes (scopedInput fingerprintDomain scope) ++ plaintext).

(** ** The keyring *)

(** [ctx] is the error of the context and [nonce] what is drawn for the envelope.  The
    active key of a keyring [New] made is always there. *)
(* internal/platform/protection/keyring.go: Keyring.Protect *)
Definition kr_Protect (keyring : Keyring) (ctx : error) (nonce : string) (request : Request) : result ProtectedValue :=
  try* Request_Validate request in
  try* wrap_err "protect data: %w" [] ctx in
  let plaintext := Request_Bytes request in
  let authenticatedData := envelopeAuthenticatedData (req_Scope request) (kr_activeKeyID keyring) in
  let sealed := AEAD_Seal (default EmptyString (kr_encryptionKeys keyring !! kr_activeKeyID keyring))
                  nonce plaintext authenticatedData in
  Ok (mkProtected (of_bytes [envelopeVersion] ++ sealed) (kr_fingerprint keyring (req_Scope request) plaintext)
        (kr_activeKeyID keyring)).

(* internal/platform/protection/keyring.go: Keyring.Open *)
Definition kr_Open (keyring : Keyring) (ctx : error) (request : OpenRequest) : result string :=
  try* OpenRequest_Validate request in
  try* wrap_err "open protected data: %w" [] ctx in
  let value := open_Value request in
  match kr_encryptionKeys keyring !! KeyID value with
  | None => Err ErrKeyUnavailable
  | Some aead =>
      if (len (Ciphertext value) <? 2) || negb (nth 0 (bytes (Ciphertext value)) 0 =? envelopeVersion)
      then Err ErrOpenFailed
      else
        let authenticatedData := envelopeAuthenticatedData (open_Scope request) (KeyID value) in
        match AEAD_Open aead (str_drop 1 (Ciphertext value)) authenticatedData with
        | None => Err ErrOpenFailed
        | Some plaintext =>
            if negb (String.eqb (kr_fingerprint keyring (open_Scope request) plaintext) (Fingerprint value))
            then Err ErrOpenFailed else Ok plaintext
        end
  end.

(** The keyring as the service the use cases call. *)
Definition keyring_service (keyring : Keyring) (nonce : string) : ProtectionService :=
  mkProtection (kr_Protect keyring None nonce) (kr_Open keyring None).

(* internal/platform/protection/keyring.go: sortedKeyIDs *)
Definition sortedKeyIDs (keys : gmap string string) : list string :=
  merge_sort (fun x y => Is_true (String.leb x y)) (map fst (map_to_list keys)).

(** [%v] of a list of strings. *)
Definition format_strings (l : list string) : string := ("[" ++ GoText.Join l " " ++ "]")%string.

(* internal/platform/protection/keyring.go: Config.String *)
Definition Config_String (config : Config) : string :=
  ("protection_config[active_key_id=" ++ cf_activeKeyID config ++ ",key_ids="
   ++ format_strings (sortedKeyIDs (cf_encryptionKeys config)) ++ "]")%string.

(** A nil keyring is [None]. *)
(* internal/platform/protection/keyring.go: Keyring.String *)
Definition Keyring_String (keyring : option Keyring) : string :=
  match keyring with
  | None => EmptyString
  | Some k => ("protection_keyring[active_key_id=" ++ kr_activeKeyID k ++ ",key_ids="
               ++ format_strings (sortedKeyIDs (kr_encryptionKeys k)) ++ "]")%string
  end.

Section Configuration.
Context `{Horder : !GoMapRange}.

(* internal/platform/protection/keyring.go: validateConfig *)
Definition validateConfig (config : Config) : error :=
  match validateKeyID (cf_activeKeyID config) with
  | Some e => Some (invalid_configuration "active key ID: %v" [])
  | None =>
  refuse_if (bool_decide (cf_encryptionKeys config = ∅))
    (invalid_configuration "at least one encryption key is required" []) ;;?
  refuse_if (negb (len (cf_fingerprintKey config) =? keySize))
    (invalid_configuration "fingerprint key must be %d bytes" [AInt keySize]) ;;?
  refuse_if (bool_decide (cf_encryptionKeys config !! cf_activeKeyID config = None))
    (invalid_configuration "active key is absent from the encryption keyring" []) ;;?
  forEach (fun _ entry =>
    match validateKeyID entry.1 with
    | Some _ => Some (invalid_configuration "encryption key ID: %v" [])
    | None => refuse_if (negb (len entry.2 =? keySize))
                (invalid_configuration "encryption key %q must be %d bytes" [AStr entry.1; AInt keySize])
    end) (map_range 20 (map_to_list (cf_encryptionKeys config)))
  end.

(* internal/platform/protection/keyring.go: NewConfig *)
Definition NewConfig (activeKeyID : string) (encryptionKeys : gmap string string) (fingerprintKey : string)
    : result Config :=
  let config := mkConfig activeKeyID encryptionKeys fingerprintKey in
  try* validateConfig config in Ok config.

(** Deriving 32 bytes, and an AES key of 32 bytes, cannot fail. *)
(* internal/platform/protection/keyring.go: New *)
Definition kr_New (config : Config) : result Keyring :=
  try* validateConfig config in
  Ok (mkKeyring (cf_activeKeyID config)
        (map_imap (fun keyID rootKey => Some (hkdf_Key32 rootKey (encryptionKDFInfo ++ keyID))) (cf_encryptionKeys config))
        (hkdf_Key32 (cf_fingerprintKey config) fingerprintKDFInfo)).
End Configuration.

(** ** The environment *)

(** [base64.StdEncoding.Strict().DecodeString]: line ends are skipped, groups of four
    characters are complete, only the last one is padded, and the bits its padding
    leaves over are zero. *)
Definition std_value (b : Z) : option Z :=
  if b =? 43 then Some 62 else if b =? 47 then Some 63
  else if (b =? 45) || (b =? 95) then None else base64_value b.
Definition is_empty {A} (l : list A) : bool := match l with [] => true | _ => false end.
Fixpoint std_groups (l : list Z) : option (list Z) :=
  match l with
  | [] => Some []
  | a :: b :: c :: d :: l' =>
      a ← std_value a; b ← std_value b;
      if d =? 61 then
        if negb (is_empty l') then None
        else if c =? 61 then if b mod 16 =? 0 then Some [a * 4 + b / 16] else None
        else c ← std_value c; if c mod 4 =? 0 then Some [a * 4 + b / 16; b mod 16 * 16 + c / 4] else None
      else
        c ← std_value c; d ← std_value d; rest ← std_groups l';
        Some (a * 4 + b / 16 :: b mod 16 * 16 + c / 4 :: c mod 4 * 64 + d :: rest)
  | _ => None
  end.
Definition StdStrictDecode (s : string) : option string :=
  option_map of_bytes (std_groups (List.filter (fun b => negb (line_end b)) (bytes s))).

(* internal/platform/protection/environment.go: constants *)
Definition activeKeyIDEnvironment : string := "IAPSTACK_PROTECTION_ACTIVE_KEY_ID".
Definition encryptionKeysEnvironment : string := "IAPSTACK_PROTECTION_KEYS".
Definition encryptionKeyEnvironment : string := "IAPSTACK_PROTECTION_KEY".
Definition fingerprintKeyEnvironment : string := "IAPSTACK_PROTECTION_FINGERPRINT_KEY".

(* internal/platform/protection/environment.go: missingEnvironmentError *)
Definition missingEnvironmentError (environmentName : string) : gerror :=
  invalid_configuration "%s is required" [AStr environmentName].

(* internal/platform/protection/environment.go: malformedEnvironmentError *)
Definition malformedEnvironmentError (environmentName : string) : gerror :=
  invalid_configuration "%s is malformed" [AStr environmentName].

(* internal/platform/protection/environment.go: decodeRootKey *)
Definition decodeRootKey (environmentName encoded : string) : result string :=
  match StdStrictDecode encoded with
  | None => Err (invalid_configuration "%s must contain strict base64" [AStr environmentName])
  | Some key =>
      if negb (len key =? keySize)
      then Err (invalid_configuration "%s keys must decode to %d bytes" [AStr environmentName; AInt keySize])
      else Ok key
  end.

(* internal/platform/protection/environment.go: decodeEnvironmentRootKey *)
Definition decodeEnvironmentRootKey (environmentName encoded : string) : result string :=
  if len encoded =? 2 * keySize then
    match hex_decode (bytes encoded) with
    | Some key => Ok (of_bytes key)
    | None => decodeRootKey environmentName encoded
    end
  else decodeRootKey environmentName encoded.

(** What a JSON decoder reads of the object of keys: whether an object opens, its members
    in order up to the first malformed one (a value that is no string is [None]), and
    whether the object then closes with nothing after it. *)
Record key_tokens : Type := mkKeyTokens {
  kt_opens : bool;
  kt_members : list (string * option string);
  kt_closed : bool
}.

Section Environment.
Context `{Horder : !GoMapRange}.
Context (ReadKeyObject : string -> key_tokens).

(* internal/platform/protection/environment.go:121-150: decodeEncryptionKeys *)
Fixpoint decode_members (members : list (string * option string)) (closed : bool) (keys : gmap string string)
    : result (gmap string string) :=
  match members with
  | [] => if closed then Ok keys else Err (malformedEnvironmentError encryptionKeysEnvironment)
  | (keyID, value) :: members' =>
      if bool_decide (is_Some (keys !! keyID))
      then Err (invalid_configuration "%s contains a duplicate key ID" [AStr encryptionKeysEnvironment])
      else match value with
           | None => Err (malformedEnvironmentError encryptionKeysEnvironment)
           | Some encodedKey =>
               let* key := decodeRootKey encryptionKeysEnvironment encodedKey in
               decode_members members' closed (<[keyID := key]> keys)
           end
  end.

(* internal/platform/protection/environment.go: decodeEncryptionKeys *)
Definition decodeEncryptionKeys (encoded : string) : result (gmap string string) :=
  let tokens := ReadKeyObject encoded in
  if negb (kt_opens tokens) then Err (malformedEnvironmentError encryptionKeysEnvironment)
  else decode_members (kt_members tokens) (kt_closed tokens) ∅.

(* internal/platform/protection/environment.go: decodeEnvironmentEncryptionKeys *)
Definition decodeEnvironmentEncryptionKeys (activeKeyID encodedKeys encodedKey : string) : result (gmap string string) :=
  if negb (String.eqb encodedKeys EmptyString) then decodeEncryptionKeys encodedKeys
  else
    let* key := decodeEnvironmentRootKey encryptionKeyEnvironment encodedKey in
    Ok {[activeKeyID := key]}.

(** A nil reader is [None]. *)
(* internal/platform/protection/environment.go: LoadConfigFromEnvironment *)
Definition LoadConfigFromEnvironment (getenv : option (string -> string)) : result Config :=
  match getenv with
  | None => Err (invalid_configuration "environment reader is required" [])
  | Some getenv =>
      let activeKeyID := TrimSpace (getenv activeKeyIDEnvironment) in
      try* refuse_if (String.eqb activeKeyID EmptyString) (missingEnvironmentError activeKeyIDEnvironment) in
      let encodedKeys := TrimSpace (getenv encryptionKeysEnvironment) in
      let encodedKey := TrimSpace (getenv encryptionKeyEnvironment) in
      try* refuse_if (String.eqb encodedKeys EmptyString && String.eqb encodedKey EmptyString)
             (invalid_configuration "%s or %s is required" [AStr encryptionKeysEnvironment; AStr encryptionKeyEnvironment]) in
      try* refuse_if (negb (String.eqb encodedKeys EmptyString) && negb (String.eqb encodedKey EmptyString))
             (invalid_configuration "configure only one of %s or %s"
                [AStr encryptionKeysEnvironment; AStr encryptionKeyEnvironment]) in
      let encodedFingerprintKey := TrimSpace (getenv fingerprintKeyEnvironment) in
      try* refuse_if (String.eqb encodedFingerprintKey EmptyString) (missingEnvironmentError fingerprintKeyEnvironment) in
      let* encryptionKeys := decodeEnvironmentEncryptionKeys activeKeyID encodedKeys encodedKey in
      let* fingerprintKey := decodeEnvironmentRootKey fingerprintKeyEnvironment encodedFingerprintKey in
      NewConfig activeKeyID encryptionKeys fingerprintKey
  end.

(* internal/platform/protection/environment.go: OpenFromEnvironment *)
Definition OpenFromEnvironment (getenv : option (string -> string)) : result Keyring :=
  let* config := LoadConfigFromEnvironment getenv in
  kr_New config.
End Environment.

(** ** Unambiguous inputs *)

Lemma lor_128 x : 0 <= x < 128 -> Z.lor x 128 = x + 128.
Proof.
  intros Hx. assert (H : (if x <? 128 then Z.lor x 128 =? x + 128 else true) = true).
  { apply (every_byte (fun x => if x <? 128 then Z.lor x 128 =? x + 128 else true)); [by vm_compute|unfold is_byte; lia]. }
  destruct (Z.ltb_spec x 128); [lia|lia].
Qed.

Lemma land_127 n : Z.land n 127 = n mod 128.
Proof. change 127 with (Z.ones 7). by rewrite Z.land_ones. Qed.

Lemma uvarint_fuel_S fuel n : 0 <= n ->
  uvarint_fuel (S fuel) n = if n <? 128 then [n] else n mod 128 + 128 :: uvarint_fuel fuel (n / 128).
Proof.
  intros Hn. cbn [uvarint_fuel]. rewrite land_127, lor_128, Z.shiftr_div_pow2 by (lia || (apply Z.mod_pos_bound; lia)). done.
Qed.

#[local] Arguments uvarint_fuel : simpl never.

(** The coding of a number is no prefix of another's. *)
Lemma uvarint_fuel_prefix k k' n m a b :
  0 <= n < 128 ^ Z.of_nat (S k) -> 0 <= m < 128 ^ Z.of_nat (S k') ->
  uvarint_fuel (S k) n ++ a = uvarint_fuel (S k') m ++ b -> n = m /\ a = b.
Proof.
  revert k' n m. induction k as [|k IH]; intros k' n m Hn Hm;
    rewrite (uvarint_fuel_S _ n), (uvarint_fuel_S _ m) by lia;
    destruct (Z.ltb_spec n 128), (Z.ltb_spec m 128); cbn [app]; intros [= Hmod Hdiv];
    pose proof (Z.mod_pos_bound n 128); pose proof (Z.mod_pos_bound m 128); try (exfalso; lia); try (by split).
  destruct k' as [|k']; [change (128 ^ Z.of_nat 1) with 128 in Hm; lia|].
  rewrite Nat2Z.inj_succ, Z.pow_succ_r in Hn, Hm by lia.
  apply IH in Hdiv as [Hdiv ->]; [|Z.to_euclidean_division_equations; lia..].
  split; [|done]. pose proof (Z.div_mod n 128). pose proof (Z.div_mod m 128). lia.
Qed.

Lemma uvarint_prefix n m a b : 0 <= n -> 0 <= m -> uvarint n ++ a = uvarint m ++ b -> n = m /\ a = b.
Proof.
  assert (Hf : forall z, 0 <= z -> 0 <= z < 128 ^ Z.of_nat (S (Z.to_nat (Z.log2 z)))).
  { intros z Hz. split; [done|]. eapply Z.lt_le_trans; [by apply digits_fuel|]. apply Z.pow_le_mono_l. lia. }
  intros Hn Hm. by apply uvarint_fuel_prefix; apply Hf.
Qed.

Lemma uvarint_fuel_byte fuel n : 0 <= n -> Forall is_byte (uvarint_fuel fuel n).
Proof.
  revert n. induction fuel as [|fuel IH]; intros n Hn; [apply List.Forall_nil|].
  rewrite uvarint_fuel_S by lia. pose proof (Z.mod_pos_bound n 128).
  destruct (Z.ltb_spec n 128); constructor; [unfold is_byte; lia|constructor|unfold is_byte; lia|].
  apply IH, Z.div_pos; lia.
Qed.

Lemma length_prefixed_app d v a : appendLengthPrefixed d v ++ a = d ++ uvarint (len v) ++ bytes v ++ a.
Proof. unfold appendLengthPrefixed. by rewrite <- !app_assoc. Qed.

(** The length says where a string ends. *)
Lemma prefixed_unique v w a b :
  uvarint (len v) ++ bytes v ++ a = uvarint (len w) ++ bytes w ++ b -> v = w /\ a = b.
Proof.
  intros [Hl H]%uvarint_prefix; [|unfold len; lia..]. unfold len in Hl.
  apply app_inj_1 in H as [Hb ->]; [by apply bytes_inj in Hb|rewrite !length_bytes; lia].
Qed.

Lemma scopedInput_unique domain domain' scope scope' a b :
  scopedInput domain scope ++ a = scopedInput domain' scope' ++ b -> domain = domain' /\ scope = scope' /\ a = b.
Proof.
  unfold scopedInput. cbv zeta. rewrite !length_prefixed_app. intros [= H].
  apply prefixed_unique in H as [-> H]. apply prefixed_unique in H as [Hp H]. apply prefixed_unique in H as [Ha H].
  apply prefixed_unique in H as [Hu ->]. destruct scope, scope'. cbn in *. by subst.
Qed.

Lemma prefixed_byte d v : Forall is_byte d -> Forall is_byte (appendLengthPrefixed d v).
Proof.
  intros Hd. unfold appendLengthPrefixed. rewrite !Forall_app. split_and!; [done| |apply bytes_bounded].
  apply uvarint_fuel_byte. unfold len. lia.
Qed.

Lemma scopedInput_byte domain scope : Forall is_byte (scopedInput domain scope).
Proof. unfold scopedInput. do 4 apply prefixed_byte. repeat constructor; unfold envelopeVersion; lia. Qed.

(** What the fingerprint covers. *)
Definition fingerprint_input (scope : Scope) (plaintext : string) : string :=
  (of_bytes (scopedInput fingerprintDomain scope) ++ plaintext)%string.

Lemma fingerprint_input_unique scope scope' plaintext plaintext' :
  fingerprint_input scope plaintext = fingerprint_input scope' plaintext' -> scope = scope' /\ plaintext = plaintext'.
Proof.
  intros H%(f_equal bytes). unfold fingerprint_input in H. rewrite !bytes_app, !bytes_of_bytes in H by apply scopedInput_byte.
  apply scopedInput_unique in H as (_ & -> & H). by apply bytes_inj in H.
Qed.

Lemma authenticated_unique scope scope' keyID keyID' :
  envelopeAuthenticatedData scope keyID = envelopeAuthenticatedData scope' keyID' -> scope = scope' /\ keyID = keyID'.
Proof.
  intros H%(f_equal bytes). unfold envelopeAuthenticatedData in H.
  rewrite !bytes_of_bytes in H by apply prefixed_byte, scopedInput_byte. apply (f_equal (fun l => l ++ [])) in H.
  cbv beta in H. rewrite !length_prefixed_app in H. apply scopedInput_unique in H as (_ & -> & H).
  by apply prefixed_unique in H as [-> _].
Qed.

(** ** Protecting and opening *)

(** The primitives are compared by name. *)
#[local] Opaque HmacSha256 AEAD_Seal AEAD_Open hkdf_Key32.

Lemma Protect_eq keyring nonce request v :
  kr_Protect keyring None nonce request = Ok v <->
  Request_Validate request = None /\
  v = mkProtected (of_bytes [envelopeVersion] ++
        AEAD_Seal (default EmptyString (kr_encryptionKeys keyring !! kr_activeKeyID keyring)) nonce (req_plaintext request)
          (envelopeAuthenticatedData (req_Scope request) (kr_activeKeyID keyring)))
        (kr_fingerprint keyring (req_Scope request) (req_plaintext request)) (kr_activeKeyID keyring).
Proof. unfold kr_Protect, Request_Bytes. rewrite !try_err_ok. cbn [wrap_err]. naive_solver. Qed.

(** An envelope is its version and what was sealed. *)
Lemma envelope_parts rest : bytes (of_bytes [envelopeVersion] ++ rest) = envelopeVersion :: bytes rest.
Proof. rewrite bytes_app, bytes_of_bytes; [done|]. repeat constructor; unfold envelopeVersion; lia. Qed.

Lemma envelope_rest rest : str_drop 1 (of_bytes [envelopeVersion] ++ rest) = rest.
Proof. unfold str_drop. rewrite envelope_parts. cbn. apply of_bytes_bytes. Qed.

Lemma envelope_split ciphertext :
  (len ciphertext <? 2) || negb (nth 0 (bytes ciphertext) 0 =? envelopeVersion) = false ->
  ciphertext = (of_bytes [envelopeVersion] ++ str_drop 1 ciphertext)%string.
Proof.
  intros [_ Hv%negb_false_iff%Z.eqb_eq]%orb_false_iff. apply bytes_inj. rewrite envelope_parts. unfold str_drop.
  rewrite bytes_of_bytes by (apply Forall_drop, bytes_bounded). destruct (bytes ciphertext) as [|b l]; cbn in *; [done|by rewrite Hv].
Qed.

(** When a value opens: its key is retained, and what follows its version was sealed by
    that key for this scope, with the fingerprint of the scope and the plaintext. *)
Lemma Open_eq keyring scope v plaintext :
  kr_Open keyring None (mkOpenRequest scope v) = Ok plaintext <->
  OpenRequest_Validate (mkOpenRequest scope v) = None /\
  exists key nonce, kr_encryptionKeys keyring !! KeyID v = Some key /\ len nonce = 12 /\
    Ciphertext v = (of_bytes [envelopeVersion] ++ AEAD_Seal key nonce plaintext (envelopeAuthenticatedData scope (KeyID v)))%string /\
    Fingerprint v = kr_fingerprint keyring scope plaintext.
Proof.
  unfold kr_Open. rewrite !try_err_ok. cbn [wrap_err open_Value open_Scope].
  destruct (kr_encryptionKeys keyring !! KeyID v) as [key|]; [|naive_solver]. split.
  - intros (Hval & _ & H). split; [done|]. destruct (_ || _) eqn:Hc in H; [done|]. apply envelope_split in Hc.
    destruct (AEAD_Open _ _ _) as [text|] eqn:Ho; [|done]. destruct (negb _) eqn:Hf; [done|]. injection H as <-.
    apply negb_false_iff, String.eqb_eq in Hf. apply AEAD_Open_sealed in Ho as (nonce & Hn & Hs).
    exists key, nonce. rewrite <- Hs. done.
  - intros (Hval & ? & nonce & [= <-] & Hn & Hc & Hf). split_and!; [done..|]. rewrite Hc.
    assert (Hshort : len (of_bytes [envelopeVersion] ++ AEAD_Seal key nonce plaintext (envelopeAuthenticatedData scope (KeyID v))) <? 2 = false).
    { apply Z.ltb_ge. unfold len. rewrite <- length_bytes, envelope_parts. cbn [length]. rewrite length_bytes.
      pose proof (length_AEAD_Seal key nonce plaintext (envelopeAuthenticatedData scope (KeyID v))). unfold len in *. lia. }
    rewrite Hshort, envelope_parts. cbn [nth]. rewrite Z.eqb_refl. cbn [negb orb].
    rewrite envelope_rest, AEAD_Open_Seal by done. by rewrite Hf, String.eqb_refl.
Qed.

(** A keyring with another of its keys active. *)
Definition activated (keyring : Keyring) (keyID : string) : Keyring :=
  mkKeyring keyID (kr_encryptionKeys keyring) (kr_fingerprintKey keyring).

(** C28. Opening is exactly the inverse of protecting: whatever key is active now, a valid
    request opens to a non-empty plaintext if and only if the keyring still has the
    value's key and that key, when active, protected this plaintext in this scope with
    some nonce. *)
Theorem open_inverts_protect keyring scope v plaintext :
  plaintext <> EmptyString ->
  (kr_Open keyring None (mkOpenRequest scope v) = Ok plaintext <->
   OpenRequest_Validate (mkOpenRequest scope v) = None /\ is_Some (kr_encryptionKeys keyring !! KeyID v) /\
   exists nonce, len nonce = 12 /\
     kr_Protect (activated keyring (KeyID v)) None nonce (mkRequest scope plaintext) = Ok v).
Proof.
  intros Hne. rewrite Open_eq. setoid_rewrite Protect_eq. cbn [activated kr_activeKeyID kr_encryptionKeys req_Scope req_plaintext].
  split.
  - intros (Hval & key & nonce & Hkey & Hn & Hc & Hf). rewrite Hkey. cbn [default id]. split_and!; [done|by eexists|].
    exists nonce. split_and!; [done| |].
    2: { rewrite <- Hc. destruct v; cbn in Hf |- *. by rewrite Hf. }
    unfold Request_Validate. cbn [req_plaintext req_Scope]. destruct (Z.eqb_spec (len plaintext) 0) as [Hl|_].
    { by destruct plaintext. }
    cbn [refuse_if seq_err]. unfold OpenRequest_Validate in Hval. err_simpl in Hval. by destruct Hval.
  - intros (Hval & [key Hkey] & nonce & Hn & _ & Hv). split; [done|]. exists key, nonce. rewrite Hkey in Hv.
    split_and!; [done..| |]; rewrite Hv; done.
Qed.

(** A value opens only as what was protected: if a value one keyring protected opens with
    any keyring of the same fingerprint key, in whatever scope, then it is in the scope it
    was protected for and as the plaintext that was protected, or the two different inputs
    of the fingerprint are a collision of HMAC-SHA-256 under that key. *)
Lemma fingerprints_agree keyring keyring' nonce scope scope' plaintext plaintext' v :
  kr_fingerprintKey keyring' = kr_fingerprintKey keyring ->
  kr_Protect keyring None nonce (mkRequest scope plaintext) = Ok v ->
  kr_Open keyring' None (mkOpenRequest scope' v) = Ok plaintext' ->
  (scope' = scope /\ plaintext' = plaintext) \/
  (fingerprint_input scope' plaintext' <> fingerprint_input scope plaintext /\
   HmacSha256 (kr_fingerprintKey keyring) (fingerprint_input scope' plaintext')
   = HmacSha256 (kr_fingerprintKey keyring) (fingerprint_input scope plaintext)).
Proof.
  intros Hkey [_ ->]%Protect_eq (_ & key & nonce' & _ & _ & _ & Hf)%Open_eq. cbn in Hf. unfold kr_fingerprint in Hf. rewrite Hkey in Hf.
  destruct (String.eqb_spec (fingerprint_input scope' plaintext') (fingerprint_input scope plaintext)) as [H|H].
  - left. by apply fingerprint_input_unique in H.
  - right. split; [exact H|]. symmetry. exact Hf.
Qed.

(** A keyring keeps the promise of a protection service. *)
Lemma keyring_laws keyring nonce :
  is_Some (kr_encryptionKeys keyring !! kr_activeKeyID keyring) -> len nonce = 12 ->
  ProtectionLaws (keyring_service keyring nonce).
Proof.
  intros [key Hkey] Hn. split. intros scope plaintext v [Hreq Hv]%Protect_eq Hval. apply Open_eq. split.
  - unfold OpenRequest_Validate. err_simpl. split; [|done]. unfold Request_Validate in Hreq. err_simpl in Hreq. by destruct Hreq.
  - exists key, nonce. rewrite Hkey in Hv. rewrite Hv. done.
Qed.

Section Rotation.
Context `{Horder : !GoMapRange}.

(** A key of a configuration: its identity and size. *)
Lemma validateConfig_ok config :
  validateConfig config = None <->
  validateKeyID (cf_activeKeyID config) = None /\ len (cf_fingerprintKey config) = keySize /\
  is_Some (cf_encryptionKeys config !! cf_activeKeyID config) /\
  forall keyID key, cf_encryptionKeys config !! keyID = Some key -> validateKeyID keyID = None /\ len key = keySize.
Proof.
  unfold validateConfig. destruct (validateKeyID (cf_activeKeyID config)); [naive_solver|]. err_simpl.
  assert (Hloop : forall f : string * string -> error,
    (forall i entry, map_range 20 (map_to_list (cf_encryptionKeys config)) !! i = Some entry -> f entry = None) <->
    (forall keyID key, cf_encryptionKeys config !! keyID = Some key -> f (keyID, key) = None)).
  { intros f. split.
    - intros H keyID key Hk%elem_of_map_to_list. rewrite <- map_range_perm, list_elem_of_lookup in Hk. destruct Hk as [i Hi]. by eapply H.
    - intros H i [keyID key] Hi%list_elem_of_lookup_2. rewrite map_range_perm in Hi. apply H. by apply elem_of_map_to_list in Hi. }
  rewrite (Hloop (fun entry => match validateKeyID entry.1 with Some _ => _ | None => _ end)). cbn [fst snd].
  rewrite !bool_decide_eq_false, <- not_eq_None_Some. split.
  - intros (_ & Hf & Ha & H). split_and!; [done..|]. intros keyID key Hk. specialize (H keyID key Hk).
    destruct (validateKeyID keyID); [done|]. rewrite refuse_if_nil, negb_false_iff, Z.eqb_eq in H. done.
  - intros (_ & Hf & Ha & H). split_and!; [|done..|].
    + intros He. apply Ha. by rewrite He, lookup_empty.
    + intros keyID key Hk. destruct (H keyID key Hk) as [-> Hl]. rewrite refuse_if_nil, negb_false_iff, Z.eqb_eq. done.
Qed.

Lemma New_ok config keyring :
  kr_New config = Ok keyring ->
  validateConfig config = None /\ kr_activeKeyID keyring = cf_activeKeyID config /\
  (forall keyID, kr_encryptionKeys keyring !! keyID
     = (fun rootKey => hkdf_Key32 rootKey (encryptionKDFInfo ++ keyID)) <$> cf_encryptionKeys config !! keyID) /\
  kr_fingerprintKey keyring = hkdf_Key32 (cf_fingerprintKey config) fingerprintKDFInfo.
Proof.
  unfold kr_New. rewrite try_err_ok. intros [Hv [= <-]]. split_and!; [done..| |done]. intros keyID. cbn [kr_encryptionKeys].
  rewrite map_lookup_imap. by destruct (cf_encryptionKeys config !! keyID).
Qed.

(** C29. Rotating keys loses nothing: a keyring built from any configuration that retains
    the root key a value was protected with, and the fingerprint key, opens the value in
    its scope to the plaintext, whichever key is active now; it gives the same plaintext
    in the same scope the same fingerprint whatever key and nonce it uses; and once the
    key is gone the value is refused as such. *)
Theorem rotation_keeps_values before after keyring keyring' nonce scope plaintext v :
  kr_New before = Ok keyring -> kr_New after = Ok keyring' ->
  cf_fingerprintKey after = cf_fingerprintKey before -> len nonce = 12 ->
  kr_Protect keyring None nonce (mkRequest scope plaintext) = Ok v ->
  Fingerprint v <> zero32 ->
  KeyID v = cf_activeKeyID before /\
  (cf_encryptionKeys after !! KeyID v = cf_encryptionKeys before !! KeyID v ->
   kr_Open keyring' None (mkOpenRequest scope v) = Ok plaintext) /\
  (cf_encryptionKeys after !! KeyID v = None ->
   kr_Open keyring' None (mkOpenRequest scope v) = Err ErrKeyUnavailable) /\
  forall nonce' v', kr_Protect keyring' None nonce' (mkRequest scope plaintext) = Ok v' -> Fingerprint v' = Fingerprint v.
Proof.
  intros (Hvb & Hab & Hkb & Hfb)%New_ok (_ & _ & Hka & Hfa)%New_ok Hfp Hn Hprot Hz.
  apply Protect_eq in Hprot as [Hreq Hv]. rewrite Hfp, <- Hfb in Hfa.
  assert (Hid : KeyID v = cf_activeKeyID before) by (by rewrite Hv).
  assert (Hvalid : OpenRequest_Validate (mkOpenRequest scope v) = None).
  { apply validateConfig_ok in Hvb as (Hact & _). unfold OpenRequest_Validate, Request_Validate, ProtectedValue_Validate in *.
    cbn [open_Scope open_Value req_Scope req_plaintext] in *. err_simpl in Hreq. err_simpl. rewrite Hid. split_and!; [by destruct Hreq| |exact Hz| |done].
    - rewrite Hv. cbn [Ciphertext]. unfold len. rewrite <- length_bytes, envelope_parts. cbn [length]. lia.
    - unfold protection_validateText, validateKeyID in *. err_simpl in Hact. err_simpl. done. }
  split_and!; [done|..].
  - intros Hsame. apply validateConfig_ok in Hvb as (_ & _ & [root Hroot] & _). apply Open_eq. split; [done|].
    exists (hkdf_Key32 root (encryptionKDFInfo ++ KeyID v)), nonce. rewrite Hka, Hsame, Hid, Hroot. split_and!; [done..| |].
    + rewrite Hv at 1. cbn [Ciphertext req_plaintext req_Scope]. rewrite Hkb, Hab, Hroot. done.
    + rewrite Hv. cbn [Fingerprint req_plaintext req_Scope]. unfold kr_fingerprint. by rewrite Hfa.
  - intros Hgone. unfold kr_Open. rewrite Hvalid. cbn [wrap_err open_Value]. rewrite Hka, Hgone. done.
  - intros nonce' v' [_ ->]%Protect_eq. rewrite Hv. cbn [Fingerprint req_plaintext req_Scope]. unfold kr_fingerprint. by rewrite Hfa.
Qed.
End Rotation.

(** ** Root keys in the environment *)

Definition std_char (c : Z) : Z := if c =? 45 then 43 else if c =? 95 then 47 else c.

Lemma std_char_value n : 0 <= n < 64 -> std_value (std_char (base64_char n)) = Some n.
Proof.
  intros Hn. set (ok n := if n <? 64 then bool_decide (std_value (std_char (base64_char n)) = Some n) else true).
  assert (H : ok n = true) by (apply every_byte; [by vm_compute|unfold is_byte; lia]).
  unfold ok in H. rewrite (proj2 (Z.ltb_lt n 64)) in H by lia. by apply bool_decide_eq_true in H.
Qed.

Lemma std_char_graphic n : 0 <= n < 64 -> graphic (std_char (base64_char n)) = true /\ std_char (base64_char n) <> 61.
Proof.
  intros Hn. destruct (base64_char_graphic n Hn) as [Hg _]. split.
  - unfold std_char. destruct (_ =? 45); [done|]. by destruct (_ =? 95).
  - intros He. pose proof (std_char_value n Hn) as H. by rewrite He in H.
Qed.

Lemma four_more n : (S (S (S (S n))) mod 4 = n mod 4)%nat.
Proof. replace (S (S (S (S n)))) with (n + 1 * 4)%nat by lia. apply Nat.Div0.mod_add. Qed.

Lemma std_groups_encoded l : Forall is_byte l ->
  let chars := map std_char (base64_bytes l) in
  std_groups (chars ++ replicate ((4 - length chars mod 4) mod 4) 61) = Some l.
Proof.
  induction l as [|a|a b|a b c l IH] using three_bytes; intros Hl; cbv zeta in *; rewrite ?Forall_cons in Hl; unfold is_byte in *.
  - done.
  - cbn [base64_bytes map length app]. change (replicate _ 61) with [61; 61]. cbn [std_groups].
    rewrite !std_char_value by (Z.to_euclidean_division_equations; lia). cbn [mbind option_bind]. cbn [Z.eqb is_empty negb Pos.eqb].
    destruct (Z.eqb_spec ((a mod 4 * 16) mod 16) 0) as [_|H]; [do 2 f_equal|exfalso]; Z.to_euclidean_division_equations; lia.
  - cbn [base64_bytes map length app]. change (replicate _ 61) with [61]. cbn [std_groups].
    rewrite !std_char_value by (Z.to_euclidean_division_equations; lia). cbn [mbind option_bind]. cbn [Z.eqb is_empty negb Pos.eqb].
    rewrite (proj2 (Z.eqb_neq _ 61)) by (apply std_char_graphic; Z.to_euclidean_division_equations; lia).
    destruct (Z.eqb_spec ((b mod 16 * 4) mod 4) 0) as [_|H]; [do 2 f_equal; [|f_equal]|exfalso]; Z.to_euclidean_division_equations; lia.
  - destruct Hl as (Ha & Hb & Hc & Hl). cbn [base64_bytes app map length].
    rewrite four_more.
    cbn [std_groups]. rewrite !std_char_value by (Z.to_euclidean_division_equations; lia). cbn [mbind option_bind].
    rewrite (proj2 (Z.eqb_neq _ 61)) by (apply std_char_graphic; Z.to_euclidean_division_equations; lia).
    rewrite IH by done. cbn [mbind option_bind]. do 2 f_equal; [|f_equal; [|f_equal]]; Z.to_euclidean_division_equations; lia.
Qed.

Lemma base64_chars l : Forall is_byte l ->
  Forall (fun b => graphic b = true) (map std_char (base64_bytes l)).
Proof.
  intros Hl. destruct (base64_bytes_spec l Hl) as (values & -> & Hv & _). rewrite !Forall_map. eapply Forall_impl; [exact Hv|].
  intros n Hn. by apply std_char_graphic.
Qed.

Lemma bytes_StdEncode s :
  let chars := map std_char (base64_bytes (bytes s)) in
  bytes (StdEncode s) = chars ++ replicate ((4 - length chars mod 4) mod 4) 61.
Proof.
  intros chars. apply bytes_of_bytes, Forall_app. split.
  - eapply Forall_impl; [apply base64_chars, bytes_bounded|]. apply graphic_byte.
  - apply Forall_replicate. unfold is_byte. lia.
Qed.

Lemma StdEncode_graphic s : Forall (fun b => graphic b = true) (bytes (StdEncode s)).
Proof.
  rewrite bytes_StdEncode. apply Forall_app. split; [apply base64_chars, bytes_bounded|by apply Forall_replicate].
Qed.

(** What was encoded is decoded. *)
Lemma StdStrictDecode_encode s : StdStrictDecode (StdEncode s) = Some s.
Proof.
  unfold StdStrictDecode. rewrite filter_true_all.
  - rewrite bytes_StdEncode, std_groups_encoded by apply bytes_bounded. cbn. by rewrite of_bytes_bytes.
  - intros b Hb. pose proof (StdEncode_graphic s) as H. rewrite List.Forall_forall in H. apply H, graphic_bound in Hb.
    unfold line_end. apply negb_true_iff, orb_false_iff. split; apply Z.eqb_neq; lia.
Qed.

Lemma length_base64 l : length (base64_bytes l) = ((4 * length l + 2) / 3)%nat.
Proof.
  induction l as [|a|a b|a b c l IH] using three_bytes; [done..|]. cbn [base64_bytes app length]. rewrite IH.
  replace (4 * S (S (S (length l))) + 2)%nat with (4 * length l + 2 + 4 * 3)%nat by lia. rewrite Nat.div_add by lia. lia.
Qed.

Lemma length_root_key key : len key = 32 -> len (StdEncode key) = 44.
Proof.
  unfold len. intros H. rewrite <- length_bytes, bytes_StdEncode. cbv zeta. rewrite length_app, length_replicate, length_map, length_base64, length_bytes.
  replace (String.length key) with 32%nat by lia. reflexivity.
Qed.

(** The two encodings of a root key. *)
Definition root_key_text (encoded key : string) : Prop := encoded = StdEncode key \/ encoded = EncodeToString key.

Lemma decodeRootKey_encoded name key : len key = 32 -> decodeRootKey name (StdEncode key) = Ok key.
Proof. intros H. unfold decodeRootKey. by rewrite StdStrictDecode_encode, H. Qed.

Lemma decode_root_key name encoded key : len key = 32 -> root_key_text encoded key -> decodeEnvironmentRootKey name encoded = Ok key.
Proof.
  intros Hk [-> | ->]; unfold decodeEnvironmentRootKey.
  - rewrite length_root_key by done. by apply decodeRootKey_encoded.
  - assert (Hl : len (EncodeToString key) = 2 * keySize).
    { unfold len in *. rewrite <- length_bytes, bytes_EncodeToString, length_hex_bytes, length_bytes. unfold keySize. lia. }
    rewrite Hl, Z.eqb_refl, bytes_EncodeToString, hex_decode_encode by apply bytes_bounded. by rewrite of_bytes_bytes.
Qed.

(** A key's text is not empty and has no spaces around it. *)
Lemma root_key_trimmed encoded key : len key = 32 -> root_key_text encoded key -> TrimSpace encoded = encoded /\ encoded <> EmptyString.
Proof.
  intros Hk Ht. assert (Hne : encoded <> EmptyString).
  { intros ->. destruct Ht as [H|H].
    - pose proof (length_root_key key Hk) as Hl. by rewrite <- H in Hl.
    - pose proof (f_equal (fun s => length (bytes s)) H) as Hl. cbn in Hl. rewrite bytes_EncodeToString, length_hex_bytes, length_bytes in Hl.
      unfold len in Hk. lia. }
  split; [|done]. apply graphic_text; [done|]. destruct Ht as [-> | ->]; [apply StdEncode_graphic|].
  rewrite bytes_EncodeToString. apply hex_bytes_graphic, bytes_bounded.
Qed.

(** The members of a keyring as they are written. *)
Definition key_members (keys : list (string * string)) : list (string * option string) :=
  map (fun entry => (entry.1, Some (StdEncode entry.2))) keys.

Lemma decode_key_members keys found :
  NoDup (map fst keys) -> Forall (fun entry => len entry.2 = 32 /\ found !! entry.1 = None) keys ->
  decode_members (key_members keys) true found = Ok (list_to_map keys ∪ found).
Proof.
  revert found. induction keys as [|[id key] keys IH]; intros found Hnd Hk; cbn [key_members map decode_members fst snd].
  - cbn. by rewrite (left_id_L ∅ (∪)).
  - apply NoDup_cons in Hnd as [Hid Hnd]. apply Forall_cons in Hk as [[Hl Hf] Hk]. cbn [fst snd] in *.
    rewrite bool_decide_eq_false_2 by (rewrite Hf; by intros [? ?]). rewrite decodeRootKey_encoded by done. cbn [bind_result].
    fold (key_members keys). rewrite IH; [|done|].
    + f_equal. cbn [list_to_map foldr fst snd]. rewrite <- insert_union_l, <- insert_union_r; [done|].
      by apply not_elem_of_list_to_map_1.
    + rewrite Forall_forall in Hk |- *. intros [id' key'] Hin. specialize (Hk _ Hin). cbn [fst snd] in *. split; [by destruct Hk|].
      rewrite lookup_insert_ne; [by destruct Hk|]. intros <-. apply Hid. apply list_elem_of_fmap. by exists (id, key').
Qed.

(** A repeated identity is refused where it is repeated. *)
Lemma decode_repeated_member keys found :
  Forall (fun entry => len entry.2 = 32) keys ->
  ~ NoDup (map fst keys) \/ (exists id, id ∈ map fst keys /\ is_Some (found !! id)) ->
  exists e, decode_members (key_members keys) true found = Err e.
Proof.
  revert found. induction keys as [|[id key] keys IH]; intros found Hk Hrep.
  { exfalso. destruct Hrep as [H|(id & H & _)]; [apply H; constructor|by apply not_elem_of_nil in H]. }
  apply Forall_cons in Hk as [Hl Hk]. cbn [key_members map decode_members fst snd] in *.
  destruct (decide (is_Some (found !! id))) as [Hs|Hs]; [rewrite bool_decide_eq_true_2 by done; by eexists|].
  rewrite bool_decide_eq_false_2 by done. rewrite decodeRootKey_encoded by done. apply IH; [done|].
  destruct Hrep as [Hrep|(id' & [->|Hin]%list_elem_of_In%in_inv & Hs')]; [|done|].
  - destruct (decide (id ∈ map fst keys)) as [Hin|Hin].
    + right. exists id. split; [done|]. rewrite lookup_insert_eq. by eexists.
    + left. intros Hnd. apply Hrep. by constructor.
  - right. exists id'. split; [by apply list_elem_of_In|]. destruct (decide (id = id')) as [->|Hne]; [rewrite lookup_insert_eq; by eexists|].
    by rewrite lookup_insert_ne.
Qed.

Section LoadingKeys.
Context `{Horder : !GoMapRange}.
Context (ReadKeyObject : string -> key_tokens).

Lemma Load_eq getenv id k1 k2 fp :
  TrimSpace (getenv activeKeyIDEnvironment) = id -> TrimSpace (getenv encryptionKeysEnvironment) = k1 ->
  TrimSpace (getenv encryptionKeyEnvironment) = k2 -> TrimSpace (getenv fingerprintKeyEnvironment) = fp ->
  id <> EmptyString -> fp <> EmptyString -> (k1 = EmptyString <-> k2 <> EmptyString) ->
  LoadConfigFromEnvironment ReadKeyObject (Some getenv)
  = (let* encryptionKeys := decodeEnvironmentEncryptionKeys ReadKeyObject id k1 k2 in
     let* fingerprintKey := decodeEnvironmentRootKey fingerprintKeyEnvironment fp in
     NewConfig id encryptionKeys fingerprintKey).
Proof.
  unfold LoadConfigFromEnvironment. intros -> -> -> -> Hid Hfp Hone. cbv zeta.
  rewrite (proj2 (String.eqb_neq id _) Hid), (proj2 (String.eqb_neq fp _) Hfp).
  destruct (String.eqb_spec k1 EmptyString), (String.eqb_spec k2 EmptyString); cbn; try done; tauto.
Qed.

(** The environment says which keyring there is: what loads is a valid configuration
    (identities, sizes and the active key among the keys), and it is exactly what was
    written, for a single root key in base64 or hex and for an object of keys of different
    identities; two keys of one identity never load. *)
Theorem environment_is_the_keyring (getenv : string -> string) id fingerprintKey encodedFingerprint :
  TrimSpace (getenv activeKeyIDEnvironment) = id -> validateKeyID id = None ->
  getenv fingerprintKeyEnvironment = encodedFingerprint -> root_key_text encodedFingerprint fingerprintKey ->
  len fingerprintKey = 32 ->
  (forall config, LoadConfigFromEnvironment ReadKeyObject (Some getenv) = Ok config -> validateConfig config = None) /\
  (forall key, getenv encryptionKeysEnvironment = EmptyString -> len key = 32 ->
     root_key_text (getenv encryptionKeyEnvironment) key ->
     LoadConfigFromEnvironment ReadKeyObject (Some getenv) = Ok (mkConfig id {[id := key]} fingerprintKey)) /\
  (forall keys, TrimSpace (getenv encryptionKeysEnvironment) <> EmptyString ->
     getenv encryptionKeyEnvironment = EmptyString ->
     ReadKeyObject (TrimSpace (getenv encryptionKeysEnvironment)) = mkKeyTokens true (key_members keys) true ->
     Forall (fun entry => validateKeyID entry.1 = None /\ len entry.2 = 32) keys -> id ∈ map fst keys ->
     if decide (NoDup (map fst keys))
     then LoadConfigFromEnvironment ReadKeyObject (Some getenv) = Ok (mkConfig id (list_to_map keys) fingerprintKey)
     else exists e, LoadConfigFromEnvironment ReadKeyObject (Some getenv) = Err e).
Proof.
  intros Hid Hval <- Hft Hfl.
  destruct (root_key_trimmed _ _ Hfl Hft) as [Hfs Hfe].
  assert (Hie : id <> EmptyString) by (intros ->; done). split_and!.
  - intros config H. unfold LoadConfigFromEnvironment in H. cbv zeta in H. repeat (apply try_err_ok in H as [_ H]).
    apply bind_result_ok in H as (ks & _ & H). apply bind_result_ok in H as (fp & _ & H).
    unfold NewConfig in H. by apply try_err_ok in H as [H [= <-]].
  - intros key Hks Hkl Hkt. destruct (root_key_trimmed _ _ Hkl Hkt) as [Hs He].
    rewrite (Load_eq getenv id EmptyString _ _ Hid ltac:(by rewrite Hks) Hs Hfs) by done.
    unfold decodeEnvironmentEncryptionKeys. cbn [String.eqb negb]. rewrite (decode_root_key _ _ key) by done. cbn [bind_result].
    rewrite (decode_root_key _ _ fingerprintKey) by done. cbn [bind_result]. unfold NewConfig.
    rewrite (proj2 (validateConfig_ok _)); [done|]. cbn. split_and!; [done..|rewrite lookup_singleton_eq; by eexists|].
    intros id' key' Hl. apply lookup_singleton_Some in Hl as [<- <-]. done.
  - intros keys Hne Hks Htok Hk Hact.
    rewrite (Load_eq getenv id _ EmptyString _ Hid eq_refl ltac:(by rewrite Hks) Hfs) by done.
    unfold decodeEnvironmentEncryptionKeys, decodeEncryptionKeys. rewrite (proj2 (String.eqb_neq _ _) Hne), Htok. cbn [negb kt_opens kt_members kt_closed].
    destruct (decide (NoDup (map fst keys))) as [Hnd|Hnd].
    + rewrite decode_key_members; [|done|eapply Forall_impl; [exact Hk|]; intros entry [_ Hl]; by rewrite lookup_empty].
      cbn [bind_result]. rewrite (decode_root_key _ _ fingerprintKey) by done. cbn [bind_result]. rewrite (right_id_L ∅ (∪)). unfold NewConfig.
      rewrite (proj2 (validateConfig_ok _)); [done|]. cbn. split_and!; [done..| |].
      * apply list_elem_of_fmap in Hact as ([id' key] & -> & Hin). exists key. by apply elem_of_list_to_map_1.
      * intros id' key Hl%elem_of_list_to_map_2. rewrite Forall_forall in Hk. by apply (Hk (id', key)).
    + destruct (decode_repeated_member keys ∅) as [e ->]; [|by left|by exists e].
      eapply Forall_impl; [exact Hk|]. by intros entry [_ Hl].
Qed.
End LoadingKeys.

(** ** A concrete keyring, and its rotation *)

#[local] Transparent HmacSha256 AEAD_Seal AEAD_Open hkdf_Key32.

Definition demo_root (first : nat) : string := of_bytes (map Z.of_nat (seq first 32)).
Definition demo_nonce : string := of_bytes (map Z.of_nat (seq 100 12)).
Definition demo_scope : Scope := mkScope "project-1" "app-1" "webhook_secret".
Definition demo_before : Config := mkConfig "key-1" {["key-1" := demo_root 0]} (demo_root 64).
Definition demo_after : Config :=
  mkConfig "key-2" (<["key-2" := demo_root 32]> {["key-1" := demo_root 0]}) (demo_root 64).

Definition keyring_of (config : Config) : Keyring :=
  match @kr_New range_in_order config with Ok keyring => keyring | Err _ => mkKeyring EmptyString ∅ EmptyString end.
Definition demo_protected : ProtectedValue :=
  match kr_Protect (keyring_of demo_before) None demo_nonce (mkRequest demo_scope "a secret") with
  | Ok value => value
  | Err _ => mkProtected EmptyString EmptyString EmptyString
  end.

Lemma demo_before_made : @kr_New range_in_order demo_before = Ok (keyring_of demo_before).
Proof. vm_compute. reflexivity. Qed.
Lemma demo_after_made : @kr_New range_in_order demo_after = Ok (keyring_of demo_after).
Proof. vm_compute. reflexivity. Qed.
Lemma demo_protected_made :
  kr_Protect (keyring_of demo_before) None demo_nonce (mkRequest demo_scope "a secret") = Ok demo_protected.
Proof. vm_compute. reflexivity. Qed.
Lemma demo_opened_after : kr_Open (keyring_of demo_after) None (mkOpenRequest demo_scope demo_protected) = Ok "a secret"%string.
Proof. vm_compute. reflexivity. Qed.
Lemma demo_fingerprint : Fingerprint demo_protected <> zero32.
Proof. apply String.eqb_neq. vm_compute. reflexivity. Qed.
Lemma demo_key_id : KeyID demo_protected = "key-1"%string.
Proof. vm_compute. reflexivity. Qed.

(** Another scope does not open it. *)
Example demo_other_scope :
  kr_Open (keyring_of demo_after) None (mkOpenRequest (mkScope "project-1" "app-2" "webhook_secret") demo_protected) = Err ErrOpenFailed.
Proof. vm_compute. reflexivity. Qed.

Lemma rotation_keeps_values_witness :
  kr_Open (keyring_of demo_after) None (mkOpenRequest demo_scope demo_protected) = Ok "a secret"%string.
Proof.
  destruct (@rotation_keeps_values range_in_order demo_before demo_after _ _ demo_nonce demo_scope "a secret" demo_protected
              demo_before_made demo_after_made eq_refl ltac:(vm_compute; reflexivity) demo_protected_made demo_fingerprint)
    as (_ & Hopens & _).
  apply Hopens. rewrite demo_key_id. vm_compute. reflexivity.
Defined.

Lemma open_inverts_protect_witness :
  exists nonce, len nonce = 12 /\
    kr_Protect (activated (keyring_of demo_after) (KeyID demo_protected)) None nonce (mkRequest demo_scope "a secret") = Ok demo_protected.
Proof.
  destruct (proj1 (open_inverts_protect (keyring_of demo_after) demo_scope demo_protected "a secret" ltac:(discriminate)) demo_opened_after)
    as (_ & _ & H). exact H.
Defined.

(** One key in base64 with a hexadecimal fingerprint key, or an object of two keys. *)
Definition demo_environment (keys key : string) (name : string) : string :=
  if String.eqb name activeKeyIDEnvironment then " key-1 "
  else if String.eqb name encryptionKeysEnvironment then keys
  else if String.eqb name encryptionKeyEnvironment then key
  else if String.eqb name fingerprintKeyEnvironment then EncodeToString (demo_root 64)
  else EmptyString.
Definition demo_key_list : list (string * string) := [("key-1", demo_root 0); ("key-2", demo_root 32)].
Definition demo_tokens (_ : string) : key_tokens := mkKeyTokens true (key_members demo_key_list) true.

Lemma environment_is_the_keyring_witness :
  @LoadConfigFromEnvironment range_in_order demo_tokens (Some (demo_environment EmptyString (StdEncode (demo_root 0))))
    = Ok (mkConfig "key-1" {["key-1" := demo_root 0]} (demo_root 64)) /\
  @LoadConfigFromEnvironment range_in_order demo_tokens (Some (demo_environment "{...}" EmptyString))
    = Ok (mkConfig "key-1" (list_to_map demo_key_list) (demo_root 64)).
Proof.
  assert (Hfp : root_key_text (EncodeToString (demo_root 64)) (demo_root 64)) by by right.
  split.
  - destruct (@environment_is_the_keyring range_in_order demo_tokens (demo_environment EmptyString (StdEncode (demo_root 0))) "key-1"
                (demo_root 64) (EncodeToString (demo_root 64))) as (_ & Hone & _); [vm_compute; reflexivity..|exact Hfp|reflexivity|].
    apply Hone; [reflexivity..|by left].
  - destruct (@environment_is_the_keyring range_in_order demo_tokens (demo_environment "{...}" EmptyString) "key-1"
                (demo_root 64) (EncodeToString (demo_root 64))) as (_ & _ & Hkeys); [vm_compute; reflexivity..|exact Hfp|reflexivity|].
    apply (Hkeys demo_key_list); [vm_compute; discriminate|reflexivity..| |by left].
    repeat constructor; vm_compute; reflexivity.
Defined.
