(* ===== verification/Network.v ===== *)
(** Outgoing connections under the address policy
    ([internal/stores/huawei/network.go], [internal/webhooks/network.go]): which
    addresses are public, which endpoints may be configured, and the dialer that
    resolves a host, refuses it when any of its addresses is not public, and
    connects to the resolved addresses only.

    [netip.Addr] is modelled; resolving, connecting and [url.ParseRequestURI]
    are parameters. *)

From S2P Require Import Prelude GoText GoTime GoHttp.
From stdpp Require Import base list strings.
Local Open Scope Z_scope.

(** ** [netip.Addr] *)

Inductive Addr : Type :=
| NoAddr
| Addr4 (value : Z)
| Addr6 (value : Z) (zone : string).

#[export] Instance Addr_eq_dec : EqDecision Addr.
Proof. solve_decision. Defined.

(** The first [bits] bits of a value of [width] bits. *)
Definition top (width bits value : Z) : Z := Z.shiftr value (width - bits).

(** [Prefix.Contains] for a prefix of IPv4 or of IPv6 given by its first bits;
    an address with a zone is in no prefix. *)
Definition in4 (bits prefix : Z) (address : Addr) : bool :=
  match address with Addr4 v => top 32 bits v =? prefix | _ => false end.
Definition in6 (bits prefix : Z) (address : Addr) : bool :=
  match address with Addr6 v _ => top 128 bits v =? prefix | _ => false end.

Definition Unmap (address : Addr) : Addr :=
  match address with
  | Addr6 v _ => if top 128 96 v =? 65535 then Addr4 (Z.land v (2 ^ 32 - 1)) else address
  | _ => address
  end.
Definition IsValid (address : Addr) : bool := negb (bool_decide (address = NoAddr)).
Definition Is4 (address : Addr) : bool := match address with Addr4 _ => true | _ => false end.
Definition IsUnspecified (address : Addr) : bool :=
  bool_decide (address = Addr4 0) || bool_decide (address = Addr6 0 EmptyString).
Definition IsLoopback (address : Addr) : bool :=
  in4 8 127 (Unmap address) || match Unmap address with Addr6 v _ => v =? 1 | _ => false end.
Definition IsPrivate (address : Addr) : bool :=
  in4 8 10 (Unmap address) || in4 12 (172 * 16 + 1) (Unmap address)
  || in4 16 (192 * 256 + 168) (Unmap address) || in6 7 126 (Unmap address).
Definition IsLinkLocalUnicast (address : Addr) : bool :=
  in4 16 (169 * 256 + 254) (Unmap address) || in6 10 1018 (Unmap address).
(** The IPv6 test leaves the four flag bits out. *)
Definition IsLinkLocalMulticast (address : Addr) : bool :=
  in4 24 (224 * 65536) (Unmap address)
  || match Unmap address with Addr6 v _ => Z.land (top 128 16 v) 65295 =? 65282 | _ => false end.
Definition IsMulticast (address : Addr) : bool :=
  in4 4 14 (Unmap address) || in6 8 255 (Unmap address).
Definition IsGlobalUnicast (address : Addr) : bool :=
  IsValid address
  && negb (bool_decide (address = Addr4 0) || bool_decide (address = Addr4 (2 ^ 32 - 1)))
  && negb (bool_decide (address = Addr6 0 EmptyString)) && negb (IsLoopback address)
  && negb (IsMulticast address) && negb (IsLinkLocalUnicast address).

(** ** The address policy *)

(* internal/stores/huawei/network.go:35-39: providerSharedAddressPrefix *)
Definition providerSharedAddressPrefix (address : Addr) : bool := in4 10 (100 * 4 + 1) address.
Definition providerBenchmarkAddressPrefix (address : Addr) : bool := in4 15 (198 * 128 + 9) address.

(* internal/stores/huawei/network.go: isPublicProviderAddress *)
Definition isPublicProviderAddress (address : Addr) : bool :=
  let address := Unmap address in
  if negb (IsValid address) || negb (IsGlobalUnicast address) || IsPrivate address
     || IsLoopback address || IsLinkLocalUnicast address || IsLinkLocalMulticast address
     || IsMulticast address || IsUnspecified address then false
  else if Is4 address && (providerSharedAddressPrefix address || providerBenchmarkAddressPrefix address)
  then false else true.

(* internal/webhooks/network.go:34-39: sharedAddressPrefix *)
Definition sharedAddressPrefix (address : Addr) : bool := in4 10 (100 * 4 + 1) address.
Definition benchmarkAddressPrefix (address : Addr) : bool := in4 15 (198 * 128 + 9) address.

(* internal/webhooks/network.go: isPublicWebhookAddress *)
Definition isPublicWebhookAddress (address : Addr) : bool :=
  let address := Unmap address in
  if negb (IsValid address) || negb (IsGlobalUnicast address) || IsPrivate address
     || IsLoopback address || IsLinkLocalUnicast address || IsLinkLocalMulticast address
     || IsMulticast address || IsUnspecified address then false
  else if Is4 address && (sharedAddressPrefix address || benchmarkAddressPrefix address)
  then false else true.

(** ** Endpoints *)

(** What [url.ParseRequestURI] finds in an absolute URI, with [Hostname()]. *)
Record request_uri : Type := mkURI {
  uri_Scheme : string;
  uri_Host : string;
  uri_User : bool;
  uri_Fragment : string;
  uri_Hostname : string
}.

(** [strings.Contains] for one character. *)
Definition has_byte (b : Z) (s : string) : bool := existsb (Z.eqb b) (bytes s).

Section Endpoints.
Context (ParseRequestURI : string -> option request_uri) (ParseAddr : string -> option Addr).

(* internal/stores/huawei/network.go: validateHTTPS *)
Definition validateHTTPS (value : string) (allowPrivateNetworks : bool) : error :=
  match ParseRequestURI value with
  | None => Some (New "huawei endpoint must be an absolute HTTPS URL without user information or fragments")
  | Some parsed =>
      refuse_if (negb (String.eqb (uri_Scheme parsed) "https") || String.eqb (uri_Host parsed) EmptyString
                 || uri_User parsed || negb (String.eqb (uri_Fragment parsed) EmptyString)
                 || has_byte 35 value)
        (New "huawei endpoint must be an absolute HTTPS URL without user information or fragments") ;;?
      refuse_if (String.eqb (uri_Hostname parsed) EmptyString || has_byte 37 (uri_Hostname parsed))
        (New "huawei endpoint hostname is invalid") ;;?
      match ParseAddr (uri_Hostname parsed) with
      | Some address => refuse_if (negb allowPrivateNetworks && negb (isPublicProviderAddress address))
                          (New "huawei endpoint must use a public network address")
      | None => None
      end
  end.

(* internal/webhooks/network.go: validateWebhookDestination *)
Definition validateWebhookDestination (value : string) (allowPrivateNetworks : bool) : error :=
  match ParseRequestURI value with
  | None => Some (New "webhook destination must be an absolute HTTPS URL without user information or fragments")
  | Some parsed =>
      refuse_if (negb (String.eqb (uri_Scheme parsed) "https") || String.eqb (uri_Host parsed) EmptyString
                 || uri_User parsed || negb (String.eqb (uri_Fragment parsed) EmptyString))
        (New "webhook destination must be an absolute HTTPS URL without user information or fragments") ;;?
      refuse_if (String.eqb (uri_Hostname parsed) EmptyString || has_byte 37 (uri_Hostname parsed))
        (New "webhook destination hostname is invalid") ;;?
      match ParseAddr (uri_Hostname parsed) with
      | Some address => refuse_if (negb allowPrivateNetworks && negb (isPublicWebhookAddress address))
                          (New "webhook destination must use a public network address")
      | None => None
      end
  end.
End Endpoints.

(** ** The dialer *)

Section Dialing.
Context {Conn : Type}.
(** [SplitHostPort], [LookupNetIP] and the dialer of one address and port. *)
Context (SplitHostPort : string -> option (string * string)).
Context (LookupNetIP : string -> result (list Addr)).
Context (dial : Addr -> string -> result Conn).

(** The loop over the resolved addresses; the addresses tried, in order. *)
Fixpoint dial_each (port : string) (addresses : list Addr) : option Conn * list Addr :=
  match addresses with
  | [] => (None, [])
  | resolved :: rest =>
      match dial resolved port with
      | Ok connection => (Some connection, [resolved])
      | Err _ => let '(connection, tried) := dial_each port rest in (connection, resolved :: tried)
      end
  end.

Definition restricted_dial (public : Addr -> bool) (name : string) (allowPrivateNetworks : bool)
    (address : string) : result Conn * list Addr :=
  match SplitHostPort address with
  | None => (Err (New (name ++ " address is invalid")), [])
  | Some (host, port) =>
      match LookupNetIP host with
      | Err _ | Ok [] => (Err (New (name ++ " could not be resolved")), [])
      | Ok addresses =>
          if negb allowPrivateNetworks && existsb (fun resolved => negb (public resolved)) addresses
          then (Err (New (name ++ " resolved to a non-public network address")), [])
          else match dial_each port addresses with
               | (Some connection, tried) => (Ok connection, tried)
               | (None, tried) => (Err (New (name ++ " is unavailable")), tried)
               end
      end
  end.

(* internal/stores/huawei/network.go: restrictedProviderDialer.DialContext *)
Definition provider_DialContext : bool -> string -> result Conn * list Addr :=
  restricted_dial isPublicProviderAddress "huawei endpoint".

(* internal/webhooks/network.go: restrictedDialer.DialContext *)
Definition webhook_DialContext : bool -> string -> result Conn * list Addr :=
  restricted_dial isPublicWebhookAddress "webhook destination".

Lemma dial_each_spec port addresses connection tried :
  dial_each port addresses = (connection, tried) ->
  (forall a, In a tried -> In a addresses) /\
  match connection with
  | Some c => exists failed a, tried = failed ++ [a] /\ dial a port = Ok c /\
                forall x, In x failed -> forall d, dial x port <> Ok d
  | None => tried = addresses /\ forall x, In x addresses -> forall d, dial x port <> Ok d
  end.
Proof.
  revert connection tried. induction addresses as [|a addresses IH]; intros connection tried; cbn [dial_each].
  { intros [= <- <-]. by split_and!. }
  destruct (dial a port) as [c|e] eqn:Ha.
  - intros [= <- <-]. split; [intros x [<-|[]]; by left|]. exists [], a. by split_and!.
  - destruct (dial_each port addresses) as [connection' tried'] eqn:E. intros [= <- <-].
    destruct (IH _ _ eq_refl) as [Hin Hc]. split; [intros x [<-|Hx]; [by left|right; auto]|].
    destruct connection' as [c|].
    + destruct Hc as (failed & b & -> & Hb & Hf). exists (a :: failed), b. split_and!; auto.
      intros x [<-|Hx] d; [by rewrite Ha|by apply Hf].
    + destruct Hc as [-> Hf]. split; [done|]. intros x [<-|Hx] d; [by rewrite Ha|by apply Hf].
Qed.
End Dialing.

(** ** What is public *)

(** The ranges no connection may go to, first and last address. *)
Definition ip4 (a b c d : Z) : Z := ((a * 256 + b) * 256 + c) * 256 + d.
Definition blocked4 : list (Z * Z) :=
  [(ip4 0 0 0 0, ip4 0 0 0 0); (ip4 10 0 0 0, ip4 10 255 255 255);
   (ip4 100 64 0 0, ip4 100 127 255 255); (ip4 127 0 0 0, ip4 127 255 255 255);
   (ip4 169 254 0 0, ip4 169 254 255 255); (ip4 172 16 0 0, ip4 172 31 255 255);
   (ip4 192 168 0 0, ip4 192 168 255 255); (ip4 198 18 0 0, ip4 198 19 255 255);
   (ip4 224 0 0 0, ip4 239 255 255 255); (ip4 255 255 255 255, ip4 255 255 255 255)].
Definition blocked6 : list (Z * Z) :=
  [(1, 1); (252 * 2 ^ 120, 254 * 2 ^ 120 - 1); (1018 * 2 ^ 118, 1019 * 2 ^ 118 - 1);
   (255 * 2 ^ 120, 2 ^ 128 - 1)].

Definition avoids (lo hi v : Z) : Prop := v < lo \/ hi < v.
Definition outside (v : Z) (ranges : list (Z * Z)) : Prop :=
  Forall (fun range => avoids range.1 range.2 v) ranges.

(** An address that may be connected to: the unspecified IPv6 address counts only
    without a zone. *)
Definition public_address (address : Addr) : Prop :=
  match Unmap address with
  | NoAddr => False
  | Addr4 v => outside v blocked4
  | Addr6 v zone => outside v blocked6 /\ (v = 0 -> zone <> EmptyString)
  end.

Definition addr_ok (address : Addr) : Prop :=
  match address with
  | NoAddr => True
  | Addr4 v => 0 <= v < 2 ^ 32
  | Addr6 v _ => 0 <= v < 2 ^ 128
  end.

Lemma top_range width bits v p :
  0 <= bits <= width ->
  (top width bits v =? p) = true <-> p * 2 ^ (width - bits) <= v < (p + 1) * 2 ^ (width - bits).
Proof.
  intros Hb. unfold top. rewrite Z.shiftr_div_pow2, Z.eqb_eq by lia.
  pose proof (Z.pow_pos_nonneg 2 (width - bits) ltac:(lia) ltac:(lia)) as Hpos.
  generalize dependent (2 ^ (width - bits)). intros k Hk.
  pose proof (Z.div_mod v k ltac:(lia)). pose proof (Z.mod_pos_bound v k Hk). split; intros H1.
  - subst p. lia.
  - symmetry. apply Z.div_unique with (r := v - k * p); lia.
Qed.

Lemma top_ne width bits v p :
  0 <= bits <= width ->
  top width bits v <> p <-> avoids (p * 2 ^ (width - bits)) ((p + 1) * 2 ^ (width - bits) - 1) v.
Proof.
  intros Hb. unfold avoids. rewrite <- Z.eqb_eq, top_range by done. lia.
Qed.

Lemma multicast_flags v : 0 <= v < 2 ^ 128 ->
  (Z.land (top 128 16 v) 65295 =? 65282) = true -> (top 128 8 v =? 255) = true.
Proof.
  intros Hv H%Z.eqb_eq. apply Z.eqb_eq. unfold top in *.
  replace (128 - 8) with ((128 - 16) + 8) by lia. rewrite <- Z.shiftr_shiftr by lia.
  assert (Hs : Z.shiftr (Z.land (Z.shiftr v (128 - 16)) 65295) 8 = 255) by (rewrite H; reflexivity).
  rewrite Z.shiftr_land in Hs. change (Z.shiftr 65295 8) with (Z.ones 8) in Hs.
  rewrite Z.land_ones, Z.mod_small in Hs by lia || (rewrite !Z.shiftr_div_pow2 by lia; split;
    [apply Z.div_pos; [apply Z.div_pos; lia|lia]|apply Z.div_lt_upper_bound; [lia|]; apply Z.div_lt_upper_bound; lia]).
  exact Hs.
Qed.

Lemma Unmap_ok address : addr_ok address -> addr_ok (Unmap address).
Proof.
  destruct address as [|v|v zone]; cbn [Unmap]; [done|done|].
  destruct (top 128 96 v =? 65535); cbn [addr_ok]; [|done]. intros _.
  change (2 ^ 32 - 1) with (Z.ones 32). rewrite Z.land_ones by lia. apply Z.mod_pos_bound. lia.
Qed.

Lemma Unmap_idem address : Unmap (Unmap address) = Unmap address.
Proof.
  destruct address as [|v|v zone]; cbn [Unmap]; [done|done|].
  destruct (top 128 96 v =? 65535) eqn:E; cbn [Unmap]; [done|]. by rewrite E.
Qed.

Lemma Addr4_ne v x : Addr4 v <> Addr4 x <-> avoids x x v.
Proof. unfold avoids. split; [intros H; assert (v <> x) by congruence; lia|intros H [= ->]; lia]. Qed.

Lemma Addr6_ne v x zone : Addr6 v zone <> Addr6 x EmptyString <-> (v = x -> zone <> EmptyString).
Proof. split; [intros H -> ->; done|intros H [= -> ->]; by apply H]. Qed.

Lemma refusals (x y : bool) : (if x then false else if y then false else true) = true <-> x = false /\ y = false.
Proof. destruct x, y; naive_solver. Qed.

Lemma refusal (x : bool) : (if x then false else true) = true <-> x = false.
Proof. destruct x; naive_solver. Qed.

Ltac unfold_public :=
  unfold isPublicProviderAddress, IsGlobalUnicast, IsPrivate, IsLoopback, IsLinkLocalUnicast,
    IsLinkLocalMulticast, IsMulticast, IsUnspecified, IsValid, providerSharedAddressPrefix,
    providerBenchmarkAddressPrefix, in4, in6, Is4.

Lemma public4 v : isPublicProviderAddress (Addr4 v) = true <-> outside v blocked4.
Proof.
  unfold_public. cbn [Unmap andb orb negb]. rewrite !orb_false_r, refusals. bool_simpl.
  rewrite !bool_decide_eq_false, !top_ne, !Addr4_ne by lia.
  unfold outside, blocked4. rewrite !Forall_cons, Forall_nil.
  assert (Addr4 v <> NoAddr /\ Addr4 v <> Addr6 0 EmptyString) as [H1 H2] by done.
  assert (Hsub : avoids (ip4 224 0 0 0) (ip4 239 255 255 255) v -> avoids (ip4 224 0 0 0) (ip4 224 0 0 255) v)
    by (unfold avoids, ip4; lia).
  revert H1 H2 Hsub. cbv -[avoids iff not]. tauto.
Qed.

Lemma public6 v zone :
  0 <= v < 2 ^ 128 -> top 128 96 v <> 65535 ->
  isPublicProviderAddress (Addr6 v zone) = true <-> outside v blocked6 /\ (v = 0 -> zone <> EmptyString).
Proof.
  intros Hv Hmap. pose proof (multicast_flags v Hv) as Hflags. rewrite Z.eqb_eq in Hflags.
  unfold_public. cbn [Unmap]. rewrite (proj2 (Z.eqb_neq _ _) Hmap). cbn [Unmap andb orb negb].
  rewrite (proj2 (Z.eqb_neq _ _) Hmap). cbn [andb orb negb].
  rewrite !orb_false_r, refusal. bool_simpl.
  rewrite !bool_decide_eq_false, Addr6_ne. unfold outside, blocked6. rewrite !Forall_cons, Forall_nil.
  assert (H1 : v <> 1 <-> avoids 1 1 v) by (unfold avoids; lia). rewrite H1.
  assert (Hf : top 128 8 v <> 255 -> Z.land (top 128 16 v) 65295 <> 65282).
  { intros Hne H. apply Hne. by apply Z.eqb_eq, Hflags. }
  assert (Hother : Addr6 v zone <> NoAddr /\ Addr6 v zone <> Addr4 0) by done.
  revert Hf Hother. clear -v. rewrite !top_ne by lia. generalize (Z.land (top 128 16 v) 65295 = 65282).
  intros P. cbv -[avoids iff not]. tauto.
Qed.

Lemma public_same : isPublicWebhookAddress = isPublicProviderAddress.
Proof. reflexivity. Qed.

Lemma public_iff address :
  addr_ok address -> isPublicProviderAddress address = true <-> public_address address.
Proof.
  intros Hok. assert (Hu : isPublicProviderAddress address = isPublicProviderAddress (Unmap address)).
  { unfold isPublicProviderAddress. by rewrite Unmap_idem. }
  rewrite Hu. unfold public_address. pose proof (Unmap_ok _ Hok) as Hok'.
  destruct address as [|v|v zone]; cbn [Unmap] in *; [done|apply public4|].
  destruct (top 128 96 v =? 65535) eqn:E; [apply public4|].
  apply public6; [exact Hok'|by apply Z.eqb_neq].
Qed.

(** Outgoing connections stay on the public Internet: unless private networks
    are allowed, whatever the name resolves to, the webhook and Huawei dialers
    connect only to resolved addresses outside every loopback, private,
    link-local, shared, benchmark and multicast range, IPv4-mapped IPv6 addresses
    included; they stop at the first address that answers and report an error
    only when none does. *)
Theorem connections_public {Conn} (SplitHostPort : string -> option (string * string))
    (LookupNetIP : string -> result (list Addr)) (dial : Addr -> string -> result Conn)
    (address : string) (r : result Conn) (tried : list Addr) :
  (forall host resolved, LookupNetIP host = Ok resolved -> Forall addr_ok resolved) ->
  provider_DialContext SplitHostPort LookupNetIP dial false address = (r, tried) \/
  webhook_DialContext SplitHostPort LookupNetIP dial false address = (r, tried) ->
  Forall public_address tried /\
  (tried = [] -> exists e, r = Err e) /\
  (tried <> [] -> exists host port resolved,
     SplitHostPort address = Some (host, port) /\ LookupNetIP host = Ok resolved /\
     (forall a, In a tried -> In a resolved) /\
     match r with
     | Ok c => exists failed a, tried = failed ++ [a] /\ dial a port = Ok c /\
                 forall x, In x failed -> forall d, dial x port <> Ok d
     | Err _ => tried = resolved /\ forall x, In x resolved -> forall d, dial x port <> Ok d
     end).
Proof.
  intros Hok Hdial.
  assert (H : exists name, restricted_dial SplitHostPort LookupNetIP dial isPublicProviderAddress name false
                address = (r, tried)) by (destruct Hdial as [H|H]; eexists; exact H).
  clear Hdial. destruct H as [name H]. unfold restricted_dial in H.
  destruct (SplitHostPort address) as [[host port]|]; [|injection H as <- <-; split_and!; [done|eauto|done]].
  destruct (LookupNetIP host) as [[|a l]|e] eqn:Hl; [injection H as <- <-; split_and!; [done|eauto|done]| |
                                                     injection H as <- <-; split_and!; [done|eauto|done]].
  cbn [negb andb] in H. destruct (existsb _ _) eqn:Hpub in H; [injection H as <- <-; split_and!; [done|eauto|done]|].
  destruct (dial_each dial port (a :: l)) as [connection tried'] eqn:Hd.
  destruct (dial_each_spec dial _ _ _ _ Hd) as [Hin Hspec].
  assert (Hall : Forall public_address (a :: l)).
  { apply List.Forall_forall. intros x Hx. pose proof (Hok _ _ Hl) as Hx'.
    rewrite List.Forall_forall in Hx'. apply public_iff; [by apply Hx'|].
    destruct (isPublicProviderAddress x) eqn:E; [done|]. exfalso. apply not_true_iff_false in Hpub.
    apply Hpub, existsb_exists. exists x. by rewrite E. }
  assert (Htried : tried' = tried) by (destruct connection; by injection H). subst tried'.
  split; [|split].
  - apply List.Forall_forall. intros x Hx. rewrite List.Forall_forall in Hall. auto.
  - intros ->. destruct connection as [c|]; [|injection H as <-; eauto].
    destruct Hspec as (failed & b & Hb & _). by destruct failed.
  - intros _. exists host, port, (a :: l). split_and!; auto.
    destruct connection as [c|]; injection H as <-; exact Hspec.
Qed.

(** A name that resolves to a public address first and to a loopback one next is
    refused; without the second, the public address is reached. *)
Lemma connections_public_witness :
  let split := fun s => Some (s, "443"%string) in
  let lookup (l : list Addr) := fun _ : string => @Ok (list Addr) l in
  let dial := fun (a : Addr) (_ : string) => Ok a in
  provider_DialContext split (lookup [Addr4 (ip4 93 184 216 34); Addr6 (65535 * 2 ^ 32 + ip4 127 0 0 1) EmptyString])
    dial false "api.example.com"
  = (Err (New "huawei endpoint resolved to a non-public network address"), []) /\
  (provider_DialContext split (lookup [Addr4 (ip4 93 184 216 34)]) dial false "api.example.com").1
  = Ok (Addr4 (ip4 93 184 216 34)) /\
  Forall public_address [Addr4 (ip4 93 184 216 34)].
Proof.
  intros split lookup dial. split; [vm_compute; reflexivity|]. split; [vm_compute; reflexivity|].
  apply (proj1 (connections_public split (lookup [Addr4 (ip4 93 184 216 34)]) dial "api.example.com"
           (Ok (Addr4 (ip4 93 184 216 34))) [Addr4 (ip4 93 184 216 34)]
           ltac:(intros h res [= <-]; apply Forall_singleton; vm_compute; split; [discriminate|reflexivity])
           (or_introl eq_refl))).
Defined.
