(* ===== verification/Credential.v ===== *)
(** Provider credential packages ([internal/stores/credential.go]): opaque,
    versioned, application-scoped configuration with a private payload. *)

From S2P Require Import Prelude GoText GoTime GoMime Core Purchase Protection Persistence Stores.
From stdpp Require Import base list strings.
Local Open Scope Z_scope.

(* internal/stores/credential.go: Credential *)
Record Credential : Type := mkCredential {
  cred_Kind : string;
  cred_ContentType : string;
  cred_SchemaVersion : Z;
  cred_payload : string
}.

(* internal/stores/credential.go: ErrCredentialNotFound *)
Definition ErrCredentialNotFound : gerror := Sentinel "stores.ErrCredentialNotFound".

(* internal/stores/credential.go: validateCredentialText *)
Definition validateCredentialText (name value : string) : error :=
  refuse_if (String.eqb value EmptyString) (Errorf "%s is required" [AStr name]) ;;?
  refuse_if (negb (String.eqb (TrimSpace value) value))
    (Errorf "%s must not have leading or trailing whitespace" [AStr name]) ;;?
  refuse_if (existsb IsControl (runes value))
    (Errorf "%s must not contain control characters" [AStr name]).

(* internal/stores/credential.go: CredentialKind.Validate *)
Definition CredentialKind_Validate (kind : string) : error := validateCredentialText "credential kind" kind.

(* internal/stores/credential.go: Credential.Validate *)
Definition Credential_Validate (credential : Credential) : error :=
  let contentTypeError :=
    if String.eqb (cred_ContentType credential) EmptyString
    then Some (New "credential content type is required")
    else if negb (ParseMediaType_ok (cred_ContentType credential))
    then Some (New "credential content type must be a valid media type")
    else validateCredentialText "credential content type" (cred_ContentType credential) in
  let schemaVersionError := refuse_if (cred_SchemaVersion credential <=? 0)
    (New "credential schema version must be positive") in
  let payloadError := refuse_if (len (cred_payload credential) =? 0)
    (New "credential payload is required") in
  errors_Join [CredentialKind_Validate (cred_Kind credential); contentTypeError; schemaVersionError;
               payloadError].

(* internal/stores/credential.go: NewCredential *)
Definition NewCredential (kind contentType : string) (schemaVersion : Z) (payload : string)
    : result Credential :=
  let credential := mkCredential kind contentType schemaVersion payload in
  try* Credential_Validate credential in Ok credential.

(* internal/stores/credential.go: Credential.Bytes *)
Definition Credential_Bytes (credential : Credential) : string := cred_payload credential.

Definition credential_blank (credential : Credential) : bool :=
  String.eqb (cred_Kind credential) EmptyString && String.eqb (cred_ContentType credential) EmptyString
  && (cred_SchemaVersion credential =? 0) && (len (cred_payload credential) =? 0).

(* internal/stores/credential.go: Credential.String *)
Definition Credential_String (credential : Credential) : string :=
  if credential_blank credential then EmptyString
  else ("credential[kind=" ++ cred_Kind credential ++ ",content_type=" ++ cred_ContentType credential ++
        ",schema_version=" ++ FormatInt (cred_SchemaVersion credential) ++
        ",size=" ++ FormatInt (len (cred_payload credential)) ++ "]")%string.

(** What is printed and logged depends on the payload only through its size. *)
Lemma credential_redacted a b :
  cred_Kind a = cred_Kind b -> cred_ContentType a = cred_ContentType b ->
  cred_SchemaVersion a = cred_SchemaVersion b -> len (cred_payload a) = len (cred_payload b) ->
  Credential_String a = Credential_String b.
Proof. unfold Credential_String, credential_blank. intros -> -> -> ->. reflexivity. Qed.
