(* ===== verification/Runner.v ===== *)
(** The transaction runner of the PostgreSQL store
    ([internal/persistence/postgres/store.go]): one attempt that commits or rolls
    back, and the bounded retry of attempts that lost a race. *)

From S2P Require Import Prelude GoText GoTime Persistence Repository EntitlementStore.
From stdpp Require Import base list strings.
Local Open Scope Z_scope.

(* internal/persistence/postgres/store.go: constants *)
Definition maximumTransactionAttempts : nat := 4.
Definition transactionRetryBase : duration := 5 * Millisecond.
Definition transactionRetryMaximum : duration := 100 * Millisecond.

(** What the driver and the context do during one attempt.  [rollback] is an
    error of the deferred rollback other than [pgx.ErrTxClosed], the error it
    returns after a commit; [lost] says that a commit reported as failed was
    applied all the same; [cancelled] is the context's error while the runner
    waits before the next attempt. *)
Record attempt : Type := mkAttempt {
  begin : option pg_error;
  commit : option pg_error;
  rollback : error;
  lost : bool;
  cancelled : error
}.

Section Runner.
Context {S A : Type}.

(** The deferred rollback joins its own failure to the result. *)
Definition with_rollback (env : attempt) (e : gerror) : gerror :=
  match rollback env with
  | None => e
  | Some r => default e (errors_Join [Some e; Some (Wrapf "roll back PostgreSQL transaction: %w" [] r)])
  end.

(** The state of the store after the attempt is the transaction's own state only
    when it commits. *)
(* internal/persistence/postgres/store.go: Store.transactOnce *)
Definition transactOnce (env : attempt) (operation : Tx S A) : Tx S A :=
  fun s =>
    match begin env with
    | Some e => (Err (default ErrUnavailable (classifyError "begin PostgreSQL transaction" (Some e))), s)
    | None =>
        match operation s with
        | (Err e, _) => (Err (with_rollback env e), s)
        | (Ok a, s') =>
            match commit env with
            | None => (Ok a, s')
            | Some e =>
                (Err (with_rollback env
                        (default ErrUnavailable (classifyError "commit transaction" (Some e)))),
                 if lost env then s' else s)
            end
        end
    end.

(** The loop: [n] attempts are left and [attempt] is the number of the next. *)
Fixpoint attempts (env : nat -> attempt) (n number : nat) (operation : Tx S A) : Tx S A :=
  fun s =>
    match n with
    | O => (Err ErrUnavailable, s)
    | Datatypes.S n' =>
        match transactOnce (env number) operation s with
        | (Ok a, s') => (Ok a, s')
        | (Err e, s') =>
            if negb (errors_Is e "postgres.errRetryableTransaction") then (Err e, s')
            else if (n' =? 0)%nat then
              (Err (Wrapf "PostgreSQL transaction retries exhausted after %d attempts: %w"
                      [AInt (Z.of_nat maximumTransactionAttempts)] ErrUnavailable), s')
            else match cancelled (env number) with
                 | Some c => (Err c, s')
                 | None => attempts env n' (Datatypes.S number) operation s'
                 end
        end
    end.

(** A store without its pool is [None]. *)
(* internal/persistence/postgres/store.go: Store.transact *)
Definition transact (pool : option unit) (env : nat -> attempt) (operation : Tx S A) : Tx S A :=
  match pool with
  | None => tx_err (New "postgresql store is not initialized")
  | Some _ => attempts env maximumTransactionAttempts 1 operation
  end.

(** A nil callback is [None]. *)
(* internal/persistence/postgres/store.go: Store.Transact *)
Definition Transact (pool : option unit) (env : nat -> attempt) (operation : option (Tx S A)) : Tx S A :=
  match operation with
  | None => tx_err (New "persistence transaction operation is required")
  | Some op => transact pool env op
  end.

End Runner.

(** The ceiling of the delay after [attempt] attempts; the loop runs at most
    [attempt] times. *)
Fixpoint retry_ceiling (steps : nat) (ceiling : duration) : duration :=
  match steps with
  | O => ceiling
  | Datatypes.S steps' =>
      if ceiling <? Z.quot transactionRetryMaximum 2 then retry_ceiling steps' (ceiling * 2) else ceiling
  end.

(** [random] is the value drawn below its bound, [None] when the source fails. *)
(* internal/persistence/postgres/store.go: transactionRetryDelay *)
Definition transactionRetryDelay (attempt : nat) (random : Z -> option Z) : duration :=
  let ceiling := retry_ceiling (attempt - 1) transactionRetryBase in
  let ceiling := if transactionRetryMaximum <? ceiling then transactionRetryMaximum else ceiling in
  match random (ceiling + 1) with
  | None => Z.quot ceiling 2
  | Some r => r
  end.

(** ** Properties *)

Section RunnerLemmas.
Context {S A : Type}.

Lemma transactOnce_ok env (operation : Tx S A) s a s' :
  transactOnce env operation s = (Ok a, s') <->
  begin env = None /\ commit env = None /\ operation s = (Ok a, s').
Proof.
  unfold transactOnce. destruct (begin env); [naive_solver|].
  destruct (operation s) as [[x|e] s1]; [|naive_solver].
  destruct (commit env); naive_solver.
Qed.

Lemma transactOnce_err env (operation : Tx S A) s e s' :
  lost env = false -> transactOnce env operation s = (Err e, s') -> s' = s.
Proof.
  intros Hl. unfold transactOnce. destruct (begin env); [naive_solver|].
  destruct (operation s) as [[x|e'] s1]; [|naive_solver].
  destruct (commit env); [|done]. rewrite Hl. naive_solver.
Qed.

Lemma attempts_cases env n number (operation : Tx S A) s r s' :
  (forall k, lost (env k) = false) ->
  (forall k c, cancelled (env k) = Some c -> errors_Is c "postgres.errRetryableTransaction" = false) ->
  attempts env n number operation s = (r, s') ->
  match r with
  | Ok a => exists k, (number <= k < number + n)%nat /\ begin (env k) = None /\
              commit (env k) = None /\ operation s = (Ok a, s')
  | Err e => s' = s /\ errors_Is e "postgres.errRetryableTransaction" = false
  end.
Proof.
  intros Hl Hcan. revert number. induction n as [|n IH]; intros number; cbn [attempts].
  - intros [= <- <-]. done.
  - destruct (transactOnce (env number) operation s) as [[a|e] s1] eqn:Ho.
    + intros [= <- <-]. apply transactOnce_ok in Ho as (H1 & H2 & H3).
      exists number. split; [lia|auto].
    + apply transactOnce_err in Ho as ->; [|done].
      destruct (errors_Is e "postgres.errRetryableTransaction") eqn:He; simpl.
      * destruct (n =? 0)%nat; [intros [= <- <-]; done|].
        destruct (cancelled (env number)) as [c|] eqn:Ec; [intros [= <- <-]; split; eauto|].
        intros H. specialize (IH _ H). destruct r; [|done].
        destruct IH as (k & Hk & ?). exists k. split; [lia|done].
      * intros [= <- <-]. done.
Qed.
End RunnerLemmas.

(** A transaction is atomic and its retries are bounded: success means that
    one of at most four attempts began, ran the callback on the state before the
    call and committed, and that the store holds exactly that attempt's writes;
    failure leaves the store as it was, and the internal retry marker never
    reaches the caller. *)
Theorem transact_atomic {S A : Type} (env : nat -> attempt) (operation : Tx S A) (s s' : S)
    (r : result A) :
  (forall k, lost (env k) = false) ->
  (forall k c, cancelled (env k) = Some c -> errors_Is c "postgres.errRetryableTransaction" = false) ->
  Transact (Some tt) env (Some operation) s = (r, s') ->
  match r with
  | Ok a => exists k, (1 <= k <= 4)%nat /\ begin (env k) = None /\ commit (env k) = None /\
              operation s = (Ok a, s')
  | Err e => s' = s /\ errors_Is e "postgres.errRetryableTransaction" = false
  end.
Proof.
  intros Hl Hc H. apply (attempts_cases _ _ _ _ _ _ _ Hl Hc) in H.
  destruct r; [|done]. destruct H as (k & Hk & ?). exists k.
  split; [unfold maximumTransactionAttempts in Hk; lia|done].
Qed.

(** The first attempt loses a serialization race, the second commits. *)
Definition racing_attempts (k : nat) : attempt :=
  mkAttempt None (if (k =? 1)%nat then Some (PgError "40001" EmptyString) else None) None false None.

Lemma transact_atomic_witness :
  Transact (Some tt) racing_attempts (Some (fun n : nat => (Ok n, Datatypes.S n))) 7%nat = (Ok 7%nat, 8%nat) /\
  exists k, (1 <= k <= 4)%nat /\ commit (racing_attempts k) = None.
Proof.
  assert (H : Transact (Some tt) racing_attempts
                (Some (fun n : nat => (Ok n, Datatypes.S n))) 7%nat = (Ok 7%nat, 8%nat)) by reflexivity.
  split; [exact H|].
  destruct (transact_atomic racing_attempts _ _ _ _ ltac:(intros k; reflexivity)
              ltac:(intros k c Hc; discriminate Hc) H) as (k & Hk & _ & Hcommit & _).
  exists k. split; assumption.
Defined.

Lemma retry_ceiling_bounds steps ceiling :
  0 <= ceiling <= transactionRetryMaximum ->
  0 <= retry_ceiling steps ceiling <= transactionRetryMaximum.
Proof.
  revert ceiling. induction steps as [|steps IH]; intros ceiling Hc; cbn [retry_ceiling]; [done|].
  destruct (Z.ltb_spec ceiling (Z.quot transactionRetryMaximum 2)); [|done].
  apply IH. change (Z.quot transactionRetryMaximum 2) with 50000000 in *.
  change transactionRetryMaximum with 100000000. lia.
Qed.

Lemma retry_ceiling_positive steps ceiling : 0 < ceiling -> 0 < retry_ceiling steps ceiling.
Proof.
  revert ceiling. induction steps as [|steps IH]; intros ceiling Hc; cbn [retry_ceiling]; [done|].
  destruct (ceiling <? _); [apply IH; lia|done].
Qed.
