(* ===== verification/Refresh.v ===== *)
(** The projection refresh ([internal/verification/refresh.go]) and the outbox
    event of a changed entitlement ([newEntitlementEvent] of [service.go]),
    over any entitlement and outbox repository. *)

From S2P Require Import Prelude GoText GoTime Sha256 GoJson Core Purchase Protection Persistence Projector Repository EntitlementStore.
From stdpp Require Import base list strings gmap.
Local Open Scope Z_scope.

(** ** The event *)

(* internal/verification/service.go:34-43: constants *)
Definition entitlementChangedEventType : string := "entitlement.changed".
Definition customerAggregateType : string := "customer".
Definition entitlementEventSchemaVersion : Z := 1.
Definition entitlementEventSchemaVersionImport : Z := 2.
Definition outboxIDPrefix : string := "outbox-".

(* internal/verification/service.go: entitlementEventPayload *)
Record entitlementEventPayload : Type := mkEventPayload {
  pl_SchemaVersion : Z;
  pl_ProjectID : ProjectID;
  pl_ApplicationID : ApplicationID;
  pl_CustomerID : CustomerID;
  pl_EntitlementID : EntitlementID;
  pl_EntitlementKey : string;
  pl_Access : AccessStatus;
  pl_AccessReason : AccessReason;
  pl_SourceObservationID : ObservationID;
  pl_Source : string;
  pl_SourceImportID : string;
  pl_SourceApplicationID : ApplicationID;
  pl_SourceProductID : ProductID;
  pl_EffectiveStartsAt : option time;
  pl_EffectiveEndsAt : option time;
  pl_Version : Z
}.

(** A field with [omitempty]. *)
Definition omit_text (name value : string) : list (string * jvalue) :=
  if String.eqb value EmptyString then [] else [(name, JStr value)].

Definition omit_time (zone : time -> Z) (name : string) (value : option time)
    : result (list (string * jvalue)) :=
  match value with
  | None => Ok []
  | Some t => let* text := MarshalTime zone t in Ok [(name, JStr text)]
  end.

(** The fields in declaration order, as their tags name them. *)
Definition payload_fields (zone : time -> Z) (p : entitlementEventPayload)
    : result (list (string * jvalue)) :=
  let* starts := omit_time zone "effective_starts_at" (pl_EffectiveStartsAt p) in
  let* ends := omit_time zone "effective_ends_at" (pl_EffectiveEndsAt p) in
  Ok ([("schema_version", JInt (pl_SchemaVersion p)); ("project_id", JStr (pl_ProjectID p));
       ("application_id", JStr (pl_ApplicationID p)); ("customer_id", JStr (pl_CustomerID p));
       ("entitlement_id", JStr (pl_EntitlementID p)); ("entitlement_key", JStr (pl_EntitlementKey p));
       ("access", JStr (pl_Access p)); ("access_reason", JStr (pl_AccessReason p))]%string
      ++ omit_text "source_observation_id" (pl_SourceObservationID p)
      ++ omit_text "source" (pl_Source p)
      ++ omit_text "source_import_id" (pl_SourceImportID p)
      ++ [("source_application_id", JStr (pl_SourceApplicationID p));
          ("source_product_id", JStr (pl_SourceProductID p))]%string
      ++ starts ++ ends ++ [("version", JInt (pl_Version p))]%string).

Section Event.
(** The offset of the process's location, in which stored times are read back. *)
Context (zone : time -> Z).

(* internal/verification/service.go:811-847: newEntitlementEvent *)
Definition event_contract (applicationID : ApplicationID) (entitlement : CustomerEntitlement)
    (occurredAt : time) : entitlementEventPayload :=
  let projection := Normalized (ce_Projection entitlement) in
  let '(access, reason) := AccessAt (ep_Access projection) (ep_AccessReason projection)
    (EndsAt (ep_EffectivePeriod projection)) occurredAt in
  let imported := String.eqb (ep_SourceKind projection) SourceKindImport in
  mkEventPayload
    (if imported then entitlementEventSchemaVersionImport else entitlementEventSchemaVersion)
    (ep_ProjectID projection) applicationID (ep_CustomerID projection)
    (ep_EntitlementID projection) (ce_Key entitlement) access reason
    (if imported then EmptyString else ep_SourceObservationID projection)
    (if imported then SourceKindImport else EmptyString)
    (if imported then ep_SourceImportID projection else EmptyString)
    (ce_SourceApplicationID entitlement) (ep_SourceProductID projection)
    (if IsZero (StartsAt (ep_EffectivePeriod projection)) then None
     else Some (StartsAt (ep_EffectivePeriod projection)))
    (EndsAt (ep_EffectivePeriod projection)) (ce_Version entitlement).

(* internal/verification/service.go: newEntitlementEvent *)
Definition newEntitlementEvent (applicationID : ApplicationID) (entitlement : CustomerEntitlement)
    (occurredAt : time) : result OutboxEvent :=
  let projection := Normalized (ce_Projection entitlement) in
  let payloadContract := event_contract applicationID entitlement occurredAt in
  let* fields := wrap_result (Wrapf "marshal entitlement outbox event: %w" [])
                   (payload_fields zone payloadContract) in
  let payload := json_marshal fields in
  let fingerprint := Sum256 payload in
  Ok (mkOutboxEvent (outboxIDPrefix ++ EncodeToString fingerprint)%string
        (ep_ProjectID projection) applicationID entitlementChangedEventType customerAggregateType
        (ep_CustomerID projection) payload fingerprint occurredAt occurredAt).

(* internal/verification/service.go: EntitlementChangedEvent *)
Definition EntitlementChangedEvent := newEntitlementEvent.

(** ** The refresh *)

(* internal/verification/refresh.go: ProjectionRefreshResult *)
Record ProjectionRefreshResult : Type := mkRefreshResult {
  ProjectionsChanged : Z;
  WebhooksEnqueued : Z
}.

(** The [Projector] interface. *)
(* internal/verification/projector.go: Projector *)
Definition ProjectorI : Type :=
  list CustomerEntitlement -> list ProjectionCandidate -> result (list EntitlementProjection).

Definition candidate_of_source (source : EntitlementSource) : ProjectionCandidate :=
  mkCandidate (es_Projection source) (es_SourceApplicationID source) (es_SourceLineage source)
    (es_ObservedAt source).

(** The projection as it is written for the canonical customer. *)
(* internal/verification/refresh.go:69-73: RefreshCustomerProjectionWithOptions *)
Definition readdressed (projectID : ProjectID) (customerID : CustomerID)
    (projection : EntitlementProjection) : EntitlementProjection :=
  mkProjection projectID customerID (ep_EntitlementID projection) (ep_SourceKind projection)
    (ep_SourceObservationID projection) (ep_SourceImportID projection) (ep_SourceProductID projection)
    (if String.eqb (ep_SourceCustomerID projection) EmptyString
     then ep_CustomerID projection else ep_SourceCustomerID projection)
    (ep_Access projection) (ep_AccessReason projection) (ep_EffectivePeriod projection).

Context {S : Type} `{R : EntitlementRepository S, O : OutboxRepository S}.

(* internal/verification/refresh.go:68-93: RefreshCustomerProjectionWithOptions *)
Fixpoint write_projections (projectID : ProjectID) (customerID : CustomerID) (occurredAt : time)
    (enqueueWebhooks : bool) (projections : list EntitlementProjection)
    (result : ProjectionRefreshResult) : Tx S ProjectionRefreshResult :=
  match projections with
  | [] => tx_ret result
  | projection :: rest =>
      do writeResult <- PutEntitlement (readdressed projectID customerID projection);
      if negb (wr_Changed writeResult) then
        write_projections projectID customerID occurredAt enqueueWebhooks rest result
      else
        let result := mkRefreshResult (ProjectionsChanged result + 1) (WebhooksEnqueued result) in
        if negb enqueueWebhooks then
          write_projections projectID customerID occurredAt enqueueWebhooks rest result
        else
          do event <- tx_lift (newEntitlementEvent
                        (ce_SourceApplicationID (wr_Entitlement writeResult))
                        (wr_Entitlement writeResult) occurredAt);
          do _ <- SaveOutboxEvent event;
          write_projections projectID customerID occurredAt enqueueWebhooks rest
            (mkRefreshResult (ProjectionsChanged result) (WebhooksEnqueued result + 1))
  end.

(** A nil projector is [None]. *)
(* internal/verification/refresh.go: RefreshCustomerProjectionWithOptions *)
Definition RefreshCustomerProjectionWithOptions (projector : option ProjectorI)
    (projectID : ProjectID) (customerID : CustomerID) (occurredAt : time) (enqueueWebhooks : bool)
    : Tx S ProjectionRefreshResult :=
  match projector with
  | None => tx_err (New "entitlement projector is not initialized")
  | Some project =>
      do sources <- CustomerEntitlementSources projectID customerID;
      do current <- CustomerEntitlements projectID customerID;
      do projections <- tx_lift (project current (map candidate_of_source sources));
      write_projections projectID customerID occurredAt enqueueWebhooks projections
        (mkRefreshResult 0 0)
  end.

(* internal/verification/refresh.go: RefreshCustomerProjection *)
Definition RefreshCustomerProjection (projector : option ProjectorI) (projectID : ProjectID)
    (customerID : CustomerID) (occurredAt : time) : Tx S unit :=
  do _ <- RefreshCustomerProjectionWithOptions projector projectID customerID occurredAt true;
  tx_ret tt.

End Event.

(** ** What one refresh does to the store *)

Section RefreshLemmas.
Context (zone : time -> Z) {S : Type} `{L : EntitlementLaws S}.
Context (project : ProjectID) (customer : CustomerID) (at_ : time) (enqueue : bool).

(** The store already holds the projection. *)
Definition up_to_date (s : S) (p : EntitlementProjection) : bool :=
  match view s !! (customer, ep_EntitlementID p) with
  | Some c => bool_decide (stored_form (ce_Projection c) = stored_form (readdressed project customer p))
  | None => false
  end.

(** The projections a refresh from [s] changes. *)
Definition outdated (s : S) (ps : list EntitlementProjection) : list EntitlementProjection :=
  List.filter (fun p => negb (up_to_date s p)) ps.

(** The row of a projection's entitlement is that projection. *)
Definition row_written (s : S) (p : EntitlementProjection) (c : CustomerEntitlement) : Prop :=
  view s !! (customer, ep_EntitlementID p) = Some c /\
  same_stored (ce_Projection c) (readdressed project customer p).

(** The event announcing the row of [p] in [s]. *)
Definition announces (s : S) (p : EntitlementProjection) (e : OutboxEvent) : Prop :=
  exists c, view s !! (customer, ep_EntitlementID p) = Some c /\
    newEntitlementEvent zone (ce_SourceApplicationID c) c at_ = Ok e.

Record refreshed (s s' : S) (ps changed : list EntitlementProjection) : Prop := {
  rf_rows : forall p, In p ps -> exists c, row_written s' p c;
  rf_frame : forall k, (forall p, In p ps -> k <> (customer, ep_EntitlementID p)) ->
    view s' !! k = view s !! k;
  rf_silent : enqueue = false -> events s' = events s;
  rf_announced : enqueue = true -> forall p, In p changed ->
    exists e e', announces s' p e /\ In e' (events s') /\ same_event e' e;
  rf_history : exists new, events s' = events s ++ new /\
    forall e, In e new -> exists p, In p changed /\ announces s' p e
}.

Lemma up_to_date_frame s s' p :
  view s' !! (customer, ep_EntitlementID p) = view s !! (customer, ep_EntitlementID p) ->
  up_to_date s' p = up_to_date s p.
Proof. unfold up_to_date. by intros ->. Qed.

Lemma outdated_frame s s' ps :
  (forall p, In p ps -> view s' !! (customer, ep_EntitlementID p) = view s !! (customer, ep_EntitlementID p)) ->
  outdated s' ps = outdated s ps.
Proof.
  intros H. unfold outdated. apply filter_ext_in. intros p Hp. f_equal. by apply up_to_date_frame, H.
Qed.

Lemma put_up_to_date p s w s1 :
  PutEntitlement (readdressed project customer p) s = (Ok w, s1) ->
  wr_Changed w = negb (up_to_date s p).
Proof.
  intros H. destruct (put_changed _ _ _ _ H) as [Hc _]. simpl in Hc. unfold up_to_date.
  destruct (view s !! (customer, ep_EntitlementID p)) as [c|] eqn:Hv.
  - case_bool_decide as Hs; simpl; [apply Hc; eauto|].
    apply not_false_iff_true. intros Hw. apply Hc in Hw as (c' & [= <-] & Hs'). done.
  - apply not_false_iff_true. intros Hw. apply Hc in Hw as (c' & [=] & _).
Qed.

(** The row written first survives the rest of the loop. *)
Lemma refreshed_cons p ps s s1 s' c changed (head : bool) (new : list OutboxEvent) :
  ~ In (ep_EntitlementID p) (map ep_EntitlementID ps) ->
  view s1 = <[(customer, ep_EntitlementID p) := c]> (view s) ->
  same_stored (ce_Projection c) (readdressed project customer p) ->
  events s1 = events s ++ new ->
  (enqueue = false -> new = []) ->
  (forall e, In e new -> head = true /\ newEntitlementEvent zone (ce_SourceApplicationID c) c at_ = Ok e) ->
  (enqueue = true -> head = true -> exists e e',
     newEntitlementEvent zone (ce_SourceApplicationID c) c at_ = Ok e /\
     In e' (events s1) /\ same_event e' e) ->
  refreshed s1 s' ps changed ->
  refreshed s s' (p :: ps) (if head then p :: changed else changed).
Proof.
  intros Hni Hv Hc He Hsil Hnew Hann [H1 H2 H3 H4 (later & H5 & H6)].
  assert (Hrow : view s' !! (customer, ep_EntitlementID p) = Some c).
  { rewrite H2, Hv; [apply lookup_insert_eq|]. intros q Hq [= E]. apply Hni. rewrite E. by apply in_map. }
  split.
  - intros q [<-|Hq]; [exists c; by split|auto].
  - intros k Hk. rewrite H2, Hv by (intros q Hq; apply Hk; by right).
    apply lookup_insert_ne. intros E. apply (Hk p); [by left|done].
  - intros Hf. rewrite (H3 Hf), He, (Hsil Hf). by rewrite app_nil_r.
  - intros Ht q Hq. assert (Hq' : (head = true /\ q = p) \/ In q changed) by (destruct head; naive_solver).
    destruct Hq' as [[Hh ->]|Hq']; [|auto].
    destruct (Hann Ht Hh) as (e & e' & Hev & Hin & Hs). exists e, e'. split; [exists c; auto|].
    split; [|done]. rewrite H5. apply in_app_iff. by left.
  - exists (new ++ later). split; [by rewrite H5, He, app_assoc|]. intros e Hin.
    apply in_app_iff in Hin as [Hin|Hin].
    + destruct (Hnew e Hin) as [-> ?]. exists p. split; [by left|]. exists c. auto.
    + destruct (H6 e Hin) as (q & Hq & ?). exists q. split; [destruct head; naive_solver|done].
Qed.

Lemma write_projections_ok ps :
  NoDup (map ep_EntitlementID ps) -> forall r s r' s',
  write_projections zone project customer at_ enqueue ps r s = (Ok r', s') ->
  refreshed s s' ps (outdated s ps) /\
  ProjectionsChanged r' = ProjectionsChanged r + Z.of_nat (length (outdated s ps)) /\
  WebhooksEnqueued r' = WebhooksEnqueued r + (if enqueue then Z.of_nat (length (outdated s ps)) else 0).
Proof.
  induction ps as [|p ps IH]; intros Hnd r s r' s' H; cbn [write_projections] in H.
  - apply tx_ret_ok in H as [<- <-]. simpl. split; [|destruct enqueue; lia].
    split; try done. exists []. by rewrite app_nil_r.
  - cbn [map] in Hnd. apply NoDup_cons in Hnd as [Hni Hnd]. rewrite list_elem_of_In in Hni.
    apply tx_bind_ok in H as (w & s1 & Hput & H).
    destruct (put_ok _ _ _ _ Hput) as (Hs & Hv & He). cbn [ep_CustomerID ep_EntitlementID readdressed] in Hv.
    assert (Hframe : forall s2, view s2 = view s1 -> outdated s2 ps = outdated s ps).
    { intros s2 Hv2. apply outdated_frame. intros q Hq. rewrite Hv2, Hv. apply lookup_insert_ne.
      intros [= E]. apply Hni. rewrite E. by apply in_map. }
    pose proof (put_up_to_date _ _ _ _ Hput) as Hch. unfold outdated at 1 2 3. cbn [List.filter].
    rewrite <- Hch. fold (outdated s ps). destruct (wr_Changed w); cbn [negb] in H.
    + destruct enqueue eqn:Een; cbn [negb] in H.
      * apply tx_bind_ok in H as (e & sx & Hev & H). apply tx_lift_ok in Hev as [Hev <-].
        apply tx_bind_ok in H as (i & s2 & Hsave & H).
        destruct (event_ok _ _ _ _ Hsave) as (Hv2 & Hstored & Hgrow).
        destruct (IH Hnd _ _ _ _ H) as (Hr & Hp & Hw). cbn [ProjectionsChanged WebhooksEnqueued] in Hp, Hw.
        rewrite (Hframe s2 Hv2) in Hr, Hp, Hw. split; [|cbn [length]; lia].
        assert (exists new, events s2 = events s ++ new /\ forall e0, In e0 new -> e0 = e)
          as (new & Hnew & Honly).
        { destruct Hgrow as [->| ->]; rewrite He; [exists [e]|exists []; by rewrite app_nil_r].
          split; [done|]. intros e0 [<-|[]]. done. }
        eapply (refreshed_cons p ps s s2 s' _ _ true new); eauto; [by rewrite Hv2|by rewrite Een| |].
        -- intros e0 He0. by rewrite (Honly e0 He0).
        -- intros _ _. destruct Hstored as (e' & Hin & Hse). eauto.
      * destruct (IH Hnd _ _ _ _ H) as (Hr & Hp & Hw). cbn [ProjectionsChanged WebhooksEnqueued] in Hp, Hw.
        rewrite ?(Hframe s1 eq_refl) in Hr, Hp.
        split; [|cbn [length]; lia].
        eapply (refreshed_cons p ps s s1 s' _ _ true []); eauto; rewrite ?He, ?app_nil_r; try done.
        by rewrite Een.
    + destruct (IH Hnd _ _ _ _ H) as (Hr & Hp & Hw). rewrite (Hframe s1 eq_refl) in Hr, Hp, Hw.
      split; [|done]. eapply (refreshed_cons p ps s s1 s' _ _ false []); eauto; rewrite ?He, ?app_nil_r; done.
Qed.
End RefreshLemmas.

(** The default projector lists each entitlement once. *)
Definition DefaultProjector `{Horder : !GoMapRange} : option ProjectorI := Some (Project (Some tt)).

Lemma Project_unique `{Horder : !GoMapRange} current candidates out :
  Project (Some tt) current candidates = Ok out -> NoDup (map ep_EntitlementID out).
Proof. intros H. apply Project_result in H as (_ & cur & sp & _ & _ & _ & Hnd & _). exact Hnd. Qed.

Lemma refresh_steps zone {S : Type} `{L : EntitlementLaws S} `{Horder : !GoMapRange}
    project customer at_ enqueue (s s' : S) r :
  RefreshCustomerProjectionWithOptions zone DefaultProjector project customer at_ enqueue s = (Ok r, s') ->
  exists sources current projections,
    CustomerEntitlementSources project customer s = (Ok sources, s) /\
    CustomerEntitlements project customer s = (Ok current, s) /\
    Project (Some tt) current (map candidate_of_source sources) = Ok projections /\
    write_projections zone project customer at_ enqueue projections (mkRefreshResult 0 0) s = (Ok r, s').
Proof.
  cbn [RefreshCustomerProjectionWithOptions DefaultProjector]. intros H.
  apply tx_bind_ok in H as (sources & s1 & Hsrc & H). pose proof (sources_ok _ _ _ _ _ Hsrc) as ->.
  apply tx_bind_ok in H as (current & s2 & Hcur & H).
  destruct (current_ok_ _ _ _ _ _ Hcur) as [-> _].
  apply tx_bind_ok in H as (projections & s3 & Hp & H). apply tx_lift_ok in Hp as [Hp <-].
  exists sources, current, projections. auto.
Qed.

(** A refresh makes the store hold exactly what the projector decides: every
    projection it returns is written for the canonical customer, no other row
    changes, the counters are the number of rows that really changed, each change
    is announced by a queued event built from the new row, no event is queued for
    an unchanged row, and none at all when announcements are off. *)
Theorem refresh_applies (zone : time -> Z) {S : Type} `{L : EntitlementLaws S} `{Horder : !GoMapRange}
    (project : ProjectID) (customer : CustomerID) (at_ : time) (enqueue : bool) (s s' : S)
    (r : ProjectionRefreshResult) :
  RefreshCustomerProjectionWithOptions zone DefaultProjector project customer at_ enqueue s = (Ok r, s') ->
  exists sources current projections,
    CustomerEntitlementSources project customer s = (Ok sources, s) /\
    CustomerEntitlements project customer s = (Ok current, s) /\
    Project (Some tt) current (map candidate_of_source sources) = Ok projections /\
    refreshed zone project customer at_ enqueue s s' projections (outdated project customer s projections) /\
    ProjectionsChanged r = Z.of_nat (length (outdated project customer s projections)) /\
    WebhooksEnqueued r = if enqueue then ProjectionsChanged r else 0.
Proof.
  intros H.
  destruct (refresh_steps zone project customer at_ enqueue s s' r H)
    as (sources & current & ps & H1 & H2 & H3 & Hw0).
  destruct (write_projections_ok _ _ _ _ _ _ (Project_unique _ _ _ H3) _ _ _ _ Hw0) as (Hr & Hp & Hw).
  simpl in Hp, Hw. exists sources, current, ps. split_and!; auto. destruct enqueue; lia.
Qed.

(** ** The event of a changed entitlement *)

Lemma payload_fields_ok zone p fields :
  payload_fields zone p = Ok fields ->
  In ("access"%string, JStr (pl_Access p)) fields /\
  In ("access_reason"%string, JStr (pl_AccessReason p)) fields /\
  In ("version"%string, JInt (pl_Version p)) fields /\
  (forall v, In ("effective_ends_at"%string, v) fields <->
     exists t text, pl_EffectiveEndsAt p = Some t /\ MarshalTime zone t = Ok text /\ v = JStr text) /\
  (forall v, In ("source_import_id"%string, v) fields <->
     pl_SourceImportID p <> EmptyString /\ v = JStr (pl_SourceImportID p)) /\
  (forall v, In ("source_observation_id"%string, v) fields <->
     pl_SourceObservationID p <> EmptyString /\ v = JStr (pl_SourceObservationID p)).
Proof.
  unfold payload_fields. intros H. apply bind_result_ok in H as (starts & Hs & H).
  apply bind_result_ok in H as (ends & He & H). injection H as <-.
  assert (Hst : forall n v, In (n, v) starts -> n = "effective_starts_at"%string).
  { unfold omit_time in Hs. destruct (pl_EffectiveStartsAt p); [|by injection Hs as <-].
    apply bind_result_ok in Hs as (text & _ & [= <-]). intros n v [[= <- _]|[]]. done. }
  assert (Hen : forall n v, In (n, v) ends <-> n = "effective_ends_at"%string /\
            exists t text, pl_EffectiveEndsAt p = Some t /\ MarshalTime zone t = Ok text /\ v = JStr text).
  { unfold omit_time in He. destruct (pl_EffectiveEndsAt p) as [t|]; [|injection He as <-; naive_solver].
    apply bind_result_ok in He as (text & Ht & [= <-]). intros n v. split.
    - intros [[= <- <-]|[]]. split; [done|]. eauto.
    - intros (-> & t' & text' & [= <-] & Ht' & ->). left. congruence. }
  assert (Hom : forall n t m v, In (m, v) (omit_text n t) <-> m = n /\ t <> EmptyString /\ v = JStr t).
  { intros n t m v. unfold omit_text. destruct (String.eqb_spec t EmptyString); simpl; naive_solver. }
  split_and!; try (intros v); do 3 (cbn [In]; rewrite ?in_app_iff);
    [tauto|tauto|tauto| | |]; rewrite ?Hom, ?Hen; split; intros H;
    repeat match goal with
    | H : _ \/ _ |- _ => destruct H as [H|H]
    | H : In _ starts |- _ => apply Hst in H; discriminate H
    | H : In _ [] |- _ => destruct H
    | H : _ /\ _ |- _ => destruct H
    end; try discriminate; tauto.
Qed.

Lemma outbox_id_text fingerprint : text_ok (outboxIDPrefix ++ EncodeToString fingerprint)%string.
Proof.
  apply identifier_text, graphic_identifier. unfold graphic_string.
  apply andb_true_iff. split; [done|]. rewrite bytes_app, bytes_EncodeToString, forallb_app.
  apply andb_true_iff. split; [reflexivity|]. apply forallb_forall. intros b Hb.
  pose proof (hex_bytes_graphic _ (bytes_bounded fingerprint)) as Hg.
  rewrite List.Forall_forall in Hg. by apply Hg.
Qed.

Lemma payload_fields_nonempty zone p fields : payload_fields zone p = Ok fields -> fields <> [].
Proof. intros (Ha & _)%payload_fields_ok ->. destruct Ha. Qed.

Lemma event_valid zone applicationID entitlement occurredAt e :
  projection_wf (ce_Projection entitlement) -> identifier_ok applicationID -> occurredAt <> 0 ->
  newEntitlementEvent zone applicationID entitlement occurredAt = Ok e ->
  OutboxEvent_Validate e = None <-> oe_PayloadFingerprint e <> zero32.
Proof.
  intros Hwf Happ Ht H. unfold newEntitlementEvent in H.
  apply bind_result_ok in H as (fields & Hf & H). apply wrap_result_ok in Hf. injection H as <-.
  unfold OutboxEvent_Validate, payload_object_error, Before.
  cbn [oe_ID oe_ProjectID oe_ApplicationID oe_EventType oe_AggregateType oe_AggregateID oe_Payload
       oe_PayloadFingerprint oe_OccurredAt oe_AvailableAt].
  rewrite json_marshal_object by (by eapply payload_fields_nonempty).
  rewrite Z.ltb_irrefl, andb_false_r. destruct Hwf as [Hp Hc _ _ _ _ _ _ _].
  set (fp := Sum256 _). pose proof (outbox_id_text fp) as Hid. pose proof (identifier_text _ Hc) as Hct.
  destruct (String.eqb_spec fp zero32) as [Hz|Hz]; err_simpl; split; try done.
  intros H. splits_hyps. done.
Qed.

(** The event of a changed entitlement is one the outbox accepts, and says
    what the API says at that instant: its access is the decision read at the
    event's time, it names the import grant or the purchase observation behind
    the entitlement and never both, its payload is a JSON object, and its
    identity is its payload's digest, so two events share an identity exactly
    when their payloads share a digest. *)
Theorem entitlement_event_contract (zone : time -> Z) (applicationID : ApplicationID)
    (entitlement : CustomerEntitlement) (occurredAt : time) (e : OutboxEvent) :
  projection_wf (ce_Projection entitlement) -> identifier_ok applicationID -> occurredAt <> 0 ->
  newEntitlementEvent zone applicationID entitlement occurredAt = Ok e ->
  let p := ce_Projection entitlement in
  let now := AccessAt (ep_Access p) (ep_AccessReason p) (EndsAt (ep_EffectivePeriod p)) occurredAt in
  (OutboxEvent_Validate e = None <-> oe_PayloadFingerprint e <> zero32) /\
  oe_PayloadFingerprint e = Sum256 (oe_Payload e) /\
  json_object (oe_Payload e) = true /\
  (exists fields, oe_Payload e = json_marshal fields /\
    In ("access", JStr now.1)%string fields /\ In ("access_reason", JStr now.2)%string fields /\
    In ("version", JInt (ce_Version entitlement))%string fields /\
    (forall v, In ("source_import_id", v)%string fields <-> is_import p = true /\ v = JStr (ep_SourceImportID p)) /\
    (forall v, In ("source_observation_id", v)%string fields <->
       is_import p = false /\ v = JStr (ep_SourceObservationID p))) /\
  forall app2 entitlement2 at2 e2, newEntitlementEvent zone app2 entitlement2 at2 = Ok e2 ->
    (oe_ID e = oe_ID e2 <-> Sum256 (oe_Payload e) = Sum256 (oe_Payload e2)).
Proof.
  intros Hwf Happ Ht H p now. split; [by eapply event_valid|].
  assert (Hid : forall app2 entitlement2 at2 e2, newEntitlementEvent zone app2 entitlement2 at2 = Ok e2 ->
    oe_PayloadFingerprint e2 = Sum256 (oe_Payload e2) /\
    oe_ID e2 = (outboxIDPrefix ++ EncodeToString (Sum256 (oe_Payload e2)))%string).
  { intros app2 ent2 at2 e2 H2. unfold newEntitlementEvent in H2.
    apply bind_result_ok in H2 as (f2 & _ & [= <-]). done. }
  split; [by apply (Hid _ _ _ _ H)|].
  assert (Hfields : exists fields, payload_fields zone (event_contract applicationID entitlement occurredAt) = Ok fields
    /\ oe_Payload e = json_marshal fields).
  { unfold newEntitlementEvent in H. apply bind_result_ok in H as (f & Hf & [= <-]).
    apply wrap_result_ok in Hf. eauto. }
  destruct Hfields as (fields & Hf & Hpay). split.
  { rewrite Hpay. apply json_marshal_object. by eapply payload_fields_nonempty. }
  split.
  - exists fields. destruct (payload_fields_ok _ _ _ Hf) as (Ha & Hr & Hv & _ & Hi & Ho).
    unfold event_contract in *. cbn [Normalized ep_Access ep_AccessReason ep_EffectivePeriod] in *.
    fold p in Ha, Hr, Hv, Hi, Ho. fold now in Ha, Hr, Hv, Hi, Ho. destruct now as [a r].
    simpl in Ha, Hr, Hv. split_and!; auto; intros v; [rewrite Hi|rewrite Ho]; simpl;
      pose proof (pw_source _ Hwf) as Hsrc; fold p in Hsrc; unfold source_wf in Hsrc; unfold is_import;
      change (if String.eqb (ep_SourceKind p) EmptyString then SourceKindStoreObservation
              else ep_SourceKind p) with (source_kind p);
      destruct Hsrc as [(-> & Hs & Hn)|(-> & Hs & Hn)]; simpl; rewrite ?Hn; destruct Hs as [Hne _]; naive_solver.
  - intros app2 ent2 at2 e2 H2. destruct (Hid _ _ _ _ H) as [_ ->], (Hid _ _ _ _ H2) as [_ ->].
    split; [|by intros ->]. intros E.
    apply (inj (String.append outboxIDPrefix)) in E. by apply EncodeToString_inj.
Qed.

(** One source of access read by a refresh of the PostgreSQL store, in UTC. *)
Definition utc : time -> Z := fun _ => 0.
Definition sample_sources : ProjectID -> CustomerID -> result (list EntitlementSource) :=
  fun _ _ => Ok [mkEntitlementSource sample_row "app-1" "reference:1" 1500].

Definition sample_refresh (s : Db) : result ProjectionRefreshResult * Db :=
  @RefreshCustomerProjectionWithOptions utc Db
    (pg_EntitlementRepository sample_source sample_sources) pg_OutboxRepository
    (@DefaultProjector range_in_order) "project-1" "customer-1" 2000 true s.

Lemma refresh_applies_witness :
  exists r s', sample_refresh empty_db = (Ok r, s') /\ ProjectionsChanged r = 1 /\ WebhooksEnqueued r = 1 /\
    exists c, db_view sample_source s' !! ("customer-1", "premium")%string = Some c /\
      same_stored (ce_Projection c) (readdressed "project-1" "customer-1" sample_row).
Proof.
  destruct (sample_refresh empty_db) as [[r|e] s'] eqn:E; [|vm_compute in E; discriminate].
  exists r, s'. split; [reflexivity|].
  destruct (@refresh_applies utc Db _ _ (pg_EntitlementLaws sample_source sample_sources) range_in_order
              "project-1" "customer-1" 2000 true empty_db s' r E)
    as (sources & current & projections & Hs & Hc & Hp & [Hrows _ _ _ _] & Hn & Hw).
  vm_compute in Hs. injection Hs as <-. vm_compute in Hc. injection Hc as <-.
  vm_compute in Hp. injection Hp as <-.
  assert (Hn1 : ProjectionsChanged r = 1) by (rewrite Hn; vm_compute; reflexivity).
  split; [exact Hn1|]. split; [rewrite Hw; exact Hn1|].
  destruct (Hrows _ (or_introl eq_refl)) as (c & Hv & Hsame). exists c. split; [exact Hv|exact Hsame].
Defined.

Definition sample_entitlement : CustomerEntitlement :=
  mkCustomerEntitlement sample_row "app-1" "reference:1" "premium" 3.

(** At the instant its period ends the event announces an expired denial. *)
Lemma entitlement_event_contract_witness :
  exists e, newEntitlementEvent utc "app-1" sample_entitlement 4000 = Ok e /\
    OutboxEvent_Validate e = None /\ json_object (oe_Payload e) = true /\
    exists fields, oe_Payload e = json_marshal fields /\
      In ("access", JStr AccessDenied)%string fields.
Proof.
  destruct (newEntitlementEvent utc "app-1" sample_entitlement 4000) as [e|err] eqn:E;
    [|vm_compute in E; discriminate].
  exists e. split; [reflexivity|].
  assert (Hwf : projection_wf (ce_Projection sample_entitlement))
    by (apply projection_Validate_nil; vm_compute; reflexivity).
  destruct (entitlement_event_contract utc "app-1" sample_entitlement 4000 e Hwf
              ltac:(apply graphic_identifier; reflexivity) ltac:(discriminate) E)
    as (Hv & _ & Hj & (fields & Hpay & Ha & _) & _).
  split; [|split; [exact Hj|exists fields; split; [exact Hpay|exact Ha]]].
  apply Hv. vm_compute in E. injection E as <-. vm_compute. discriminate.
Defined.
