(* ===== verification/Verification.v ===== *)
(** The verification use cases ([internal/verification/service.go]): one purchase
    is checked with its provider, protected, and stored with the entitlements it
    gives in one transaction; the provider is told only after the commit.

    The durable store and its repositories are classes; a store adapter is a
    record of the functions it implements, an optional interface being an
    option.  [World] adds to the store the calls made to providers, in order. *)

From S2P Require Import Prelude GoText GoTime Core Purchase Protection Persistence Stores Projector Repository EntitlementStore Runner Refresh.
From stdpp Require Import base list strings gmap.
Local Open Scope Z_scope.

(** ** Commands and results *)

(* internal/verification/service.go:22-33: constants *)
Definition purchaseSubmissionEvidenceKind : string := "purchase_submission".
Definition reconciliationSignalEvidenceKind : string := "provider_notification_reconciliation".
Definition purchaseEvidencePurpose : string := "purchase_evidence".
Definition verifiedArtifactPurpose : string := "verified_artifact".
Definition providerReferencePurpose : string := "provider_reference".

(* internal/verification/service.go: Command *)
Record Command : Type := mkCommand {
  cmd_ProjectID : ProjectID;
  cmd_ApplicationID : ApplicationID;
  cmd_ExternalCustomerID : string;
  cmd_ClaimedProducts : list ProviderProductID;
  cmd_ExpectedCustomerBindings : list StoreReference;
  cmd_Evidence : Evidence
}.

(* internal/verification/service.go: ReconciliationCommand *)
Record ReconciliationCommand : Type := mkReconciliationCommand {
  rc_ProjectID : ProjectID;
  rc_ApplicationID : ApplicationID;
  rc_ExternalCustomerID : string;
  rc_ExpectedProducts : list ProviderProductID;
  rc_ExpectedProductKind : ProductKind;
  rc_ExpectedCustomerBindings : list StoreReference;
  rc_QueryReferences : list StoreReference;
  rc_Signal : Evidence
}.

(* internal/verification/service.go: LinkedPurchaseCommand *)
Record LinkedPurchaseCommand : Type := mkLinkedPurchaseCommand {
  lc_ProjectID : ProjectID;
  lc_ApplicationID : ApplicationID;
  lc_ProductKind : ProductKind;
  lc_QueryReferences : list StoreReference
}.

(* internal/verification/service.go: Result *)
Record Result : Type := mkResult {
  out_Observations : list PurchaseObservation;
  out_VerifiedAt : time;
  out_Customer : Customer;
  out_Entitlements : list CustomerEntitlement
}.

(* internal/verification/service.go: preparedObservation *)
Record preparedObservation : Type := mkPreparedObservation { write : ObservationWrite }.

(* internal/verification/service.go: preparedVerification *)
Record preparedVerification : Type := mkPrepared {
  prep_evidence : EvidenceWrite;
  prep_artifacts : list ArtifactWrite;
  prep_observations : list preparedObservation
}.

(* internal/verification/service.go: validateText *)
Definition verification_validateText (name value : string) : error :=
  refuse_if (String.eqb value EmptyString) (Errorf "%s is required" [AStr name]) ;;?
  refuse_if (negb (String.eqb (TrimSpace value) value))
    (Errorf "%s must not have leading or trailing whitespace" [AStr name]).

(* internal/verification/service.go: Command.Validate *)
Definition Command_Validate (command : Command) : error :=
  errors_Join [ProjectID_Validate (cmd_ProjectID command);
               ApplicationID_Validate (cmd_ApplicationID command);
               verification_validateText "external customer ID" (cmd_ExternalCustomerID command);
               Evidence_Validate (cmd_Evidence command)] ;;?
  forPrefix (fun seenProducts productID =>
      ProviderProductID_Validate productID ;;?
      refuse_if (contains_str seenProducts productID)
        (Errorf "duplicate claimed provider product ID %q" [AStr productID]))
    [] (cmd_ClaimedProducts command) ;;?
  forPrefix (fun previous reference =>
      let index := AInt (Z.of_nat (length previous)) in
      wrap_err "expected customer binding %d: %w" [index] (StoreReference_Validate reference) ;;?
      refuse_if (negb (String.eqb (ref_Role reference) ReferenceCustomerBinding))
        (Errorf "expected customer binding %d has role %q" [index; AStr (ref_Role reference)]) ;;?
      refuse_if (existsb (StoreReference_Equal reference) previous)
        (New "duplicate expected customer binding"))
    [] (cmd_ExpectedCustomerBindings command).

(** The command a reconciliation shares its scope and persistence with. *)
(* internal/verification/service.go:252-259: Service.Reconcile *)
Definition base_command (command : ReconciliationCommand) : Command :=
  mkCommand (rc_ProjectID command) (rc_ApplicationID command) (rc_ExternalCustomerID command)
    (rc_ExpectedProducts command) (rc_ExpectedCustomerBindings command) (rc_Signal command).

(* internal/verification/service.go: ReconciliationCommand.Validate *)
Definition ReconciliationCommand_Validate (command : ReconciliationCommand) : error :=
  ProductKind_Validate (rc_ExpectedProductKind command) ;;?
  Command_Validate (base_command command) ;;?
  refuse_if (Nat.eqb (length (rc_QueryReferences command)) 0)
    (New "reconciliation requires at least one query reference") ;;?
  forPrefix (fun previous reference =>
      let index := AInt (Z.of_nat (length previous)) in
      wrap_err "query reference %d: %w" [index] (StoreReference_Validate reference) ;;?
      refuse_if (negb (String.eqb (ref_Role reference) ReferenceQuery))
        (Errorf "query reference %d has role %q" [index; AStr (ref_Role reference)]) ;;?
      refuse_if (existsb (StoreReference_Equal reference) previous)
        (New "duplicate query reference"))
    [] (rc_QueryReferences command).

(** ** Products *)

(* internal/verification/service.go: claimedProductsForValidation *)
Definition claimedProductsForValidation (provider : Provider) (claimed : list ProviderProductID)
    (result : VerificationResult) : list ProviderProductID :=
  match claimed, vr_Observations result with
  | [claim], [observation] =>
      if negb (String.eqb provider ProviderAppleAppStore) then claimed
      else if negb (String.eqb (obs_ProductKind observation) ProductKindSubscription)
              || String.eqb (obs_ProductID observation) claim then claimed
      else [obs_ProductID observation]
  | _, _ => claimed
  end.

(* internal/verification/service.go: productsForValidation *)
Definition productsForValidation (provider : Provider) (claimed : list ProviderProductID)
    (result : VerificationResult) : list ProviderProductID :=
  claimedProductsForValidation provider (ProductsForClaim result claimed) result.

(* internal/verification/service.go: observationProductIDs *)
Definition observationProductIDs (observations : list PurchaseObservation) : list ProviderProductID :=
  distinct (map obs_ProductID observations).

(* internal/verification/service.go: clonePostCommitActions *)
Definition clonePostCommitActions (actions : list PostCommitAction) : list PostCommitAction :=
  map (fun action => mkAction (act_Kind action) (act_ProductID action) (act_ProductKind action)
                       (act_QueryReferences action)) actions.

(** A later catalog product replaces an earlier one of the same provider product. *)
(* internal/verification/service.go: indexCatalogProducts *)
Definition indexCatalogProducts (catalogProducts : list CatalogProduct)
    (observations : list PurchaseObservation) : result (gmap ProviderProductID CatalogProduct) :=
  let catalogByProviderID :=
    fold_left (fun (m : gmap string CatalogProduct) catalogProduct =>
        <[sp_ProviderID (cp_Mapping catalogProduct) := catalogProduct]> m) catalogProducts ∅ in
  try* forEach (fun index observation =>
         match catalogByProviderID !! obs_ProductID observation with
         | None => Some (Wrapf "observation %d product %q: %w"
                           [AInt (Z.of_nat index); AStr (obs_ProductID observation)] ErrNotFound)
         | Some catalogProduct =>
             refuse_if (negb (String.eqb (obs_ProductKind observation)
                                (prod_Kind (cp_Product catalogProduct))))
               (Errorf "observation %d product kind %q does not match catalog kind %q"
                  [AInt (Z.of_nat index); AStr (obs_ProductKind observation);
                   AStr (prod_Kind (cp_Product catalogProduct))])
         end) observations in
  Ok catalogByProviderID.

(** ** Dependencies *)

(** [stores.Adapter] with its optional interfaces. *)
(* internal/stores/contracts.go: Adapter *)
Record Adapter : Type := mkAdapter {
  ad_Verify : VerificationRequest -> result VerificationResult;
  ad_Reconcile : ReconciliationRequest -> result VerificationResult;
  ad_PostCommit : option (PostCommitRequest -> error);
  ad_LinkedPurchase : option (LinkedPurchaseRequest -> result LinkedPurchase)
}.

(** A call to a provider, with what it was given. *)
Inductive provider_call : Type :=
| CallVerify (request : VerificationRequest)
| CallReconcile (request : ReconciliationRequest)
| CallPostCommit (request : PostCommitRequest)
| CallLinkedPurchase (request : LinkedPurchaseRequest).

(** [persistence.Store]: the transactions one use case opens are numbered, as
    each has its own luck; a transaction is atomic. *)
(* internal/persistence/contracts.go: Store *)
Class Store (S : Type) := {
  StoreTransact : nat -> forall A, Tx S A -> Tx S A;
  store_commits : forall n A (op : Tx S A) s a s',
    StoreTransact n A op s = (Ok a, s') -> op s = (Ok a, s');
  store_rolls_back : forall n A (op : Tx S A) s e s',
    StoreTransact n A op s = (Err e, s') -> s' = s
}.
Arguments StoreTransact {S _} n {A} op.

(* internal/verification/service.go: Service *)
Record Service : Type := mkService {
  svc_adapters : Provider -> result Adapter;
  svc_protector : Request -> result ProtectedValue;
  svc_projector : ProjectorI;
  svc_clock : time
}.

(** A dependency that is nil, or an interface holding a nil value, is [None]. *)
(* internal/verification/service.go: NewService *)
Definition NewService (store : option unit) (adapters : option (Provider -> result Adapter))
    (protector : option (Request -> result ProtectedValue)) (projector : option ProjectorI)
    (clock : option time) : result Service :=
  match store, adapters, protector, projector, clock with
  | None, _, _, _, _ => Err (New "verification persistence store is required")
  | _, None, _, _, _ => Err (New "verification adapter registry is required")
  | _, _, None, _, _ => Err (New "verification protector is required")
  | _, _, _, None, _ => Err (New "verification entitlement projector is required")
  | _, _, _, _, None => Err (New "verification clock is required")
  | Some _, Some adapters, Some protector, Some projector, Some clock =>
      Ok (mkService adapters protector projector clock)
  end.

(** ** Protection *)

Section Protecting.
Context (service : Service).

(* internal/verification/service.go: Service.protect *)
Definition service_protect (projectID : ProjectID) (applicationID : ApplicationID)
    (purpose plaintext : string) : result ProtectedValue :=
  let* protected := wrap_result (Wrapf "protect %s: %w" [AStr purpose])
    (Protect (Some (svc_protector service)) (mkScope projectID applicationID purpose) plaintext) in
  try* wrap_err "validate protected %s: %w" [AStr purpose] (ProtectedValue_Validate protected) in
  Ok protected.

(* internal/verification/service.go:509-525: Service.prepare *)
Definition prepare_artifact (command : Command) (index : nat) (artifact : VerifiedArtifact)
    : result ArtifactWrite :=
  let* protectedArtifact :=
    wrap_result (Wrapf "protect verified artifact %d: %w" [AInt (Z.of_nat index)])
      (service_protect (cmd_ProjectID command) (cmd_ApplicationID command)
         (verifiedArtifactPurpose ++ ":" ++ art_Kind artifact)%string
         (Evidence_Bytes (art_Evidence artifact))) in
  Ok (mkArtifactWrite 0 (art_Kind artifact) (ev_ContentType (art_Evidence artifact)) protectedArtifact).

(* internal/verification/service.go:529-550: Service.prepare *)
Definition prepare_reference (command : Command) (observationIndex referenceIndex : nat)
    (reference : StoreReference) : result ProtectedReference :=
  let* protectedReference :=
    wrap_result (Wrapf "protect observation %d reference %d: %w"
                   [AInt (Z.of_nat observationIndex); AInt (Z.of_nat referenceIndex)])
      (service_protect (cmd_ProjectID command) (cmd_ApplicationID command)
         (providerReferencePurpose ++ ":" ++ ref_Role reference ++ ":" ++ ref_Kind reference)%string
         (StoreReference_Value reference)) in
  Ok (mkProtectedReference (ref_Role reference) (ref_Kind reference) protectedReference).

(* internal/verification/service.go:527-559: Service.prepare *)
Definition prepare_observation (command : Command) (customer : Customer) (observationIndex : nat)
    (observation : PurchaseObservation) : result preparedObservation :=
  let* protectedReferences :=
    collect (prepare_reference command observationIndex) (obs_References observation) in
  Ok (mkPreparedObservation
        (mkObservationWrite 0 (cmd_ProjectID command) (cus_ID customer) EmptyString observation
           protectedReferences)).

(* internal/verification/service.go: Service.prepare *)
Definition prepare (command : Command) (customer : Customer) (result_ : VerificationResult)
    (receivedAt : time) (evidenceKind : string) : result preparedVerification :=
  let* protectedEvidence :=
    service_protect (cmd_ProjectID command) (cmd_ApplicationID command) purchaseEvidencePurpose
      (Evidence_Bytes (cmd_Evidence command)) in
  let* artifacts := collect (prepare_artifact command) (vr_Artifacts result_) in
  let* observations := collect (prepare_observation command customer) (vr_Observations result_) in
  Ok (mkPrepared
        (mkEvidenceWrite (cmd_ProjectID command) (cmd_ApplicationID command) (cus_ID customer)
           evidenceKind (ev_ContentType (cmd_Evidence command)) protectedEvidence receivedAt)
        artifacts observations).
End Protecting.

(** ** Transactions *)

Section UseCases.
Context `{Horder : !GoMapRange} (zone : time -> Z) (service : Service).
Context {S : Type} `{Htx : !Transaction S, Hstore : !Store S}.

(** A customer that was resolved and is not found any more. *)
Definition scopeChanged : gerror := Wrapf "verification scope changed: %w" [] ErrConflict.
Definition gone_is_conflict (e : gerror) : gerror :=
  if errors_Is e "persistence.ErrNotFound" then scopeChanged else e.

(* internal/verification/service.go:450-469: Service.loadScope *)
Definition load_scope (command : Command) : Tx S (Application * Customer) :=
  do application <- Application_ (cmd_ProjectID command) (cmd_ApplicationID command);
  do customer <- CustomerByExternalID (cmd_ProjectID command) (cmd_ExternalCustomerID command);
  if Nat.eqb (length (cmd_ClaimedProducts command)) 0 then tx_ret (application, customer)
  else
    do _ <- CatalogProducts (cmd_ProjectID command) (cmd_ApplicationID command)
              (cmd_ClaimedProducts command);
    tx_ret (application, customer).

(** The checks that the scope the provider was asked for is still the current one. *)
(* internal/verification/service.go:607-647: Service.persist *)
Definition current_scope (command : Command) (application : Application) (customer : Customer)
    : Tx S Customer :=
  do resolution <- tx_catch gone_is_conflict
       (ResolveCustomer (cmd_ProjectID command) (cmd_ExternalCustomerID command));
  do _ <- tx_catch gone_is_conflict
       (LockCustomerClosure (cmd_ProjectID command) (res_CanonicalCustomerID resolution));
  do currentApplication <- Application_ (cmd_ProjectID command) (cmd_ApplicationID command);
  do currentCustomer <- tx_catch gone_is_conflict
       (CustomerByExternalID (cmd_ProjectID command) (cmd_ExternalCustomerID command));
  if negb (bool_decide (currentApplication = application))
     || negb (String.eqb (cus_ID currentCustomer) (res_CanonicalCustomerID resolution))
  then tx_err scopeChanged
  else if String.eqb (cus_ID currentCustomer) (cus_ID customer) then tx_ret currentCustomer
  else
    do inClosure <- CustomerInClosure (cmd_ProjectID command) (cus_ID currentCustomer) (cus_ID customer);
    if negb inClosure then tx_err scopeChanged else tx_ret currentCustomer.

(* internal/verification/service.go:677-687: Service.persist *)
Definition placed_observation (evidenceID : Z) (currentCustomer : Customer)
    (catalogByProviderID : gmap ProviderProductID CatalogProduct) (prepared : preparedObservation)
    : ObservationWrite :=
  let observation := ow_Observation (write prepared) in
  mkObservationWrite evidenceID (ow_ProjectID (write prepared)) (cus_ID currentCustomer)
    (match catalogByProviderID !! obs_ProductID observation with
     | Some catalogProduct => prod_ID (cp_Product catalogProduct)
     | None => EmptyString
     end)
    observation (ow_References (write prepared)).

(* internal/verification/service.go:664-669: Service.persist *)
Definition placed_evidence (currentCustomer : Customer) (evidence : EvidenceWrite) : EvidenceWrite :=
  mkEvidenceWrite (ew_ProjectID evidence) (ew_ApplicationID evidence) (cus_ID currentCustomer)
    (ew_Kind evidence) (ew_ContentType evidence) (ew_Payload evidence) (ew_ReceivedAt evidence).

Definition placed_artifact (evidenceID : Z) (artifact : ArtifactWrite) : ArtifactWrite :=
  mkArtifactWrite evidenceID (aw_Kind artifact) (aw_ContentType artifact) (aw_Payload artifact).

(* internal/verification/service.go:606-709: Service.persist *)
Definition persist_transaction (command : Command) (application : Application) (customer : Customer)
    (providerResult : VerificationResult) (prepared : preparedVerification) : Tx S Result :=
  do currentCustomer <- current_scope command application customer;
  let providerProductIDs := observationProductIDs (vr_Observations providerResult) in
  do catalogProducts <- CatalogProducts (cmd_ProjectID command) (cmd_ApplicationID command)
                          providerProductIDs;
  do catalogByProviderID <- tx_lift (indexCatalogProducts catalogProducts
                                       (vr_Observations providerResult));
  do evidenceID <- SaveEvidence (placed_evidence currentCustomer (prep_evidence prepared));
  do _ <- tx_each (fun artifact => SaveArtifact (placed_artifact evidenceID artifact))
            (prep_artifacts prepared);
  do _ <- tx_each (fun observation => SaveObservation
              (placed_observation evidenceID currentCustomer catalogByProviderID observation))
            (prep_observations prepared);
  do _ <- RefreshCustomerProjectionWithOptions zone (Some (svc_projector service))
            (cmd_ProjectID command) (cus_ID currentCustomer) (vr_VerifiedAt providerResult) true;
  do entitlements <- CustomerEntitlements (cmd_ProjectID command) (cus_ID currentCustomer);
  tx_ret (mkResult (vr_Observations providerResult) (vr_VerifiedAt providerResult)
            currentCustomer entitlements).

(** ** The use cases *)

(** The durable store and the provider calls made so far. *)
Record World : Type := mkWorld { w_store : S; w_calls : list provider_call }.

(** A transaction of the store, with the wrapping of its error. *)
Definition stored {A} (n : nat) (format : string) (op : Tx S A) : Tx World A :=
  fun w => match StoreTransact n op (w_store w) with
           | (Ok a, s) => (Ok a, mkWorld s (w_calls w))
           | (Err e, s) => (Err (Wrapf format [] e), mkWorld s (w_calls w))
           end.

Definition calling {A} (call : provider_call) (answer : result A) : Tx World A :=
  fun w => (answer, mkWorld (w_store w) (w_calls w ++ [call])).

(* internal/verification/service.go: Service.loadScope *)
Definition loadScope (command : Command) : Tx World (Application * Customer) :=
  stored 0 "resolve verification scope: %w" (load_scope command).

(* internal/verification/service.go: Service.persist *)
Definition persist (command : Command) (application : Application) (customer : Customer)
    (providerResult : VerificationResult) (prepared : preparedVerification) : Tx World Result :=
  stored 1 "persist verification result: %w"
    (persist_transaction command application customer providerResult prepared).

(** The provider operation to run after the commit, if any. *)
(* internal/verification/service.go:209-224: Service.Verify *)
Definition post_commit_plan (adapter : Adapter) (application : Application)
    (providerResult : VerificationResult)
    : result (option ((PostCommitRequest -> error) * PostCommitRequest)) :=
  if Nat.eqb (length (vr_PostCommitActions providerResult)) 0 then Ok None
  else match ad_PostCommit adapter with
       | None => Err (New "store adapter returned unsupported post-commit actions")
       | Some postCommit =>
           let request := mkPostCommitRequest application
                            (clonePostCommitActions (vr_PostCommitActions providerResult)) in
           try* wrap_err "validate provider post-commit request: %w" []
                  (PostCommitRequest_Validate request) in
           Ok (Some (postCommit, request))
       end.

(* internal/verification/service.go:234-240: Service.Verify *)
Definition complete (format : string) (application : Application) (result_ : Result)
    (plan : option ((PostCommitRequest -> error) * PostCommitRequest)) : Tx World Result :=
  match plan with
  | None => tx_ret result_
  | Some (postCommit, request) =>
      do _ <- calling (CallPostCommit request)
                (try* wrap_err format [AStr (sa_Provider (app_Store application))] (postCommit request) in
                 Ok tt);
      tx_ret result_
  end.

(* internal/verification/service.go: Service.Verify *)
Definition Verify (command : Command) : Tx World Result :=
  tx_check (validation_Wrap (Command_Validate command)) (
  let receivedAt := svc_clock service in
  tx_check (refuse_if (IsZero receivedAt) (New "verification clock returned zero time")) (
  do scope <- loadScope command;
  let '(application, customer) := scope in
  do adapter <- tx_lift (wrap_result (Wrapf "resolve store adapter: %w" [])
                           (svc_adapters service (sa_Provider (app_Store application))));
  let request := mkVerificationRequest application (cus_ID customer) (cmd_ClaimedProducts command)
                   (cmd_ExpectedCustomerBindings command) (cmd_Evidence command) in
  do providerResult <- calling (CallVerify request)
       (wrap_result (Wrapf "verify purchase with %s: %w" [AStr (sa_Provider (app_Store application))])
          (ad_Verify adapter request));
  let validationRequest := mkVerificationRequest application (cus_ID customer)
    (productsForValidation (sa_Provider (app_Store application)) (vq_ClaimedProducts request)
       providerResult)
    (cmd_ExpectedCustomerBindings command) (cmd_Evidence command) in
  tx_check (wrap_err "validate provider verification result: %w" []
              (ValidateForVerification providerResult validationRequest)) (
  do plan <- tx_lift (post_commit_plan adapter application providerResult);
  do prepared <- tx_lift (prepare service command customer providerResult receivedAt
                            purchaseSubmissionEvidenceKind);
  do result_ <- persist command application customer providerResult prepared;
  complete "complete purchase with %s: %w" application result_ plan))).

(* internal/verification/service.go: Service.Reconcile *)
Definition Reconcile (command : ReconciliationCommand) : Tx World Result :=
  tx_check (validation_Wrap (ReconciliationCommand_Validate command)) (
  let receivedAt := svc_clock service in
  tx_check (refuse_if (IsZero receivedAt) (New "verification clock returned zero time")) (
  let base := base_command command in
  do scope <- loadScope base;
  let '(application, customer) := scope in
  do adapter <- tx_lift (wrap_result (Wrapf "resolve store adapter: %w" [])
                           (svc_adapters service (sa_Provider (app_Store application))));
  let request := mkReconciliationRequest application (cus_ID customer) (rc_ExpectedProducts command)
                   (rc_ExpectedProductKind command) (rc_ExpectedCustomerBindings command)
                   (rc_QueryReferences command) in
  do providerResult <- calling (CallReconcile request)
       (wrap_result (Wrapf "reconcile purchase with %s: %w" [AStr (sa_Provider (app_Store application))])
          (ad_Reconcile adapter request));
  let validationRequest := mkReconciliationRequest application (cus_ID customer)
    (productsForValidation (sa_Provider (app_Store application)) (rq_ExpectedProducts request)
       providerResult)
    (rc_ExpectedProductKind command) (rc_ExpectedCustomerBindings command)
    (rc_QueryReferences command) in
  tx_check (wrap_err "validate provider reconciliation result: %w" []
              (ValidateForReconciliation providerResult validationRequest)) (
  do plan <- tx_lift (post_commit_plan adapter application providerResult);
  do prepared <- tx_lift (prepare service base customer providerResult receivedAt
                            reconciliationSignalEvidenceKind);
  do result_ <- persist base application customer providerResult prepared;
  complete "complete reconciliation with %s: %w" application result_ plan))).

(* internal/verification/service.go: Service.LinkedPurchase *)
Definition Service_LinkedPurchase (command : LinkedPurchaseCommand) : Tx World LinkedPurchase :=
  tx_check (validation_Wrap (errors_Join [ProjectID_Validate (lc_ProjectID command);
                                          ApplicationID_Validate (lc_ApplicationID command)])) (
  do application <- stored 0 "resolve linked purchase scope: %w"
       (Application_ (lc_ProjectID command) (lc_ApplicationID command));
  let request := mkLinkedPurchaseRequest application (lc_ProductKind command)
                   (lc_QueryReferences command) in
  tx_check (validation_Wrap (LinkedPurchaseRequest_Validate request)) (
  do adapter <- tx_lift (wrap_result (Wrapf "resolve store adapter: %w" [])
                           (svc_adapters service (sa_Provider (app_Store application))));
  match ad_LinkedPurchase adapter with
  | None => tx_err (Errorf "%s does not report linked purchases"
                      [AStr (sa_Provider (app_Store application))])
  | Some resolver =>
      do linked <- calling (CallLinkedPurchase request)
        (wrap_result (Wrapf "read linked purchase with %s: %w"
                        [AStr (sa_Provider (app_Store application))]) (resolver request));
      tx_check (wrap_err "validate provider linked purchase: %w" [] (LinkedPurchase_Validate linked)) (
      tx_ret linked)
  end)).

End UseCases.

(** ** Lemmas *)

Section VerificationLemmas.
Context `{Horder : !GoMapRange} (zone : time -> Z) (service : Service).
Context {S : Type} `{Htx : !Transaction S, Hstore : !Store S, Hread : !ReadLaws S}.

Abbreviation WS := (World (S := S)).

Lemma stored_ok {A} n format (op : Tx S A) (w : WS) a w' :
  stored n format op w = (Ok a, w') ->
  op (w_store w) = (Ok a, w_store w') /\ w_calls w' = w_calls w.
Proof.
  unfold stored. destruct (StoreTransact n op (w_store w)) as [[x|e] s] eqn:E; [|done].
  intros [= -> <-]. split; [|done]. by apply store_commits in E.
Qed.

Lemma stored_err {A} n format (op : Tx S A) (w : WS) e w' :
  stored n format op w = (Err e, w') -> w_store w' = w_store w /\ w_calls w' = w_calls w.
Proof.
  unfold stored. destruct (StoreTransact n op (w_store w)) as [[x|e'] s] eqn:E; [done|].
  intros [= _ <-]. split; [|done]. by apply store_rolls_back in E.
Qed.

Lemma loadScope_reads command (w : WS) r w' :
  loadScope command w = (r, w') ->
  w' = w /\ forall application customer, r = Ok (application, customer) ->
    Application_ (cmd_ProjectID command) (cmd_ApplicationID command) (w_store w)
      = (Ok application, w_store w) /\
    CustomerByExternalID (cmd_ProjectID command) (cmd_ExternalCustomerID command) (w_store w)
      = (Ok customer, w_store w).
Proof.
  unfold loadScope. intros H. destruct r as [[app cus]|e].
  - destruct (stored_ok _ _ _ _ _ _ H) as [Hop Hc].
    unfold load_scope in Hop. apply tx_bind_ok in Hop as (a & s1 & Ha & Hop).
    pose proof (application_reads _ _ _ _ _ Ha) as ->.
    apply tx_bind_ok in Hop as (c & s2 & Hcu & Hop). pose proof (customer_reads _ _ _ _ _ Hcu) as ->.
    assert (Hs : w_store w' = w_store w /\ (a, c) = (app, cus)).
    { destruct (length _ =? 0)%nat.
      - apply tx_ret_ok in Hop as [-> ->]. done.
      - apply tx_bind_ok in Hop as (ps & s3 & Hp & Hop). apply catalog_reads in Hp as ->.
        apply tx_ret_ok in Hop as [-> ->]. done. }
    destruct Hs as [Hs [= -> ->]]. split; [destruct w, w'; simpl in *; congruence|].
    intros ? ? [= <- <-]. done.
  - destruct (stored_err _ _ _ _ _ _ H) as [Hs Hc].
    split; [destruct w, w'; simpl in *; congruence|done].
Qed.

(** What a use case that reached the store did: the answer it stored, and the
    calls it made to the provider. *)
Record committed (command : Command) (kind : string) (w w' : WS) (r : result Result)
    (application : Application) (customer : Customer) (adapter : Adapter)
    (answer : VerificationResult) (after : list provider_call) : Prop := {
  cm_prepared : exists prepared res,
    prepare service command customer answer (svc_clock service) kind = Ok prepared /\
    persist_transaction zone service command application customer answer prepared (w_store w)
      = (Ok res, w_store w') /\
    (forall x, r = Ok x -> x = res);
  cm_calls :
    (vr_PostCommitActions answer = [] /\ after = [] /\ exists x, r = Ok x) \/
    (vr_PostCommitActions answer <> [] /\ exists postCommit,
       ad_PostCommit adapter = Some postCommit /\
       let request := mkPostCommitRequest application (vr_PostCommitActions answer) in
       PostCommitRequest_Validate request = None /\ after = [CallPostCommit request] /\
       ((exists x, r = Ok x) <-> postCommit request = None))
}.

Lemma clone_id actions : clonePostCommitActions actions = actions.
Proof. unfold clonePostCommitActions. induction actions as [|[] l IH]; simpl; congruence. Qed.

Lemma plan_ok adapter application answer plan :
  post_commit_plan adapter application answer = Ok plan ->
  (vr_PostCommitActions answer = [] /\ plan = None) \/
  (vr_PostCommitActions answer <> [] /\ exists postCommit,
     ad_PostCommit adapter = Some postCommit /\
     PostCommitRequest_Validate (mkPostCommitRequest application (vr_PostCommitActions answer)) = None /\
     plan = Some (postCommit, mkPostCommitRequest application (vr_PostCommitActions answer))).
Proof.
  unfold post_commit_plan. destruct (Nat.eqb_spec (length (vr_PostCommitActions answer)) 0) as [Hz|Hz].
  - intros [= <-]. left. split; [|done]. by apply nil_length_inv.
  - rewrite clone_id. destruct (ad_PostCommit adapter) as [pc|]; [|done].
    rewrite try_err_ok, wrap_err_nil. intros [Hv [= <-]]. right. split; [|eauto].
    intros E. by rewrite E in Hz.
Qed.

(** The tail both use cases share: plan, protect, store, tell the provider. *)
Lemma finish_cases format command application customer adapter answer kind (w w' : WS) r :
  (do plan <- tx_lift (post_commit_plan adapter application answer);
   do prepared <- tx_lift (prepare service command customer answer (svc_clock service) kind);
   do result_ <- persist zone service command application customer answer prepared;
   complete format application result_ plan) w = (r, w') ->
  (w' = w /\ exists e, r = Err e) \/
  exists after, w_calls w' = w_calls w ++ after /\
    committed command kind w w' r application customer adapter answer after.
Proof.
  unfold tx_bind, tx_lift.
  destruct (post_commit_plan adapter application answer) as [plan|e] eqn:Hplan;
    [|intros [= <- <-]; left; eauto].
  destruct (prepare service command customer answer (svc_clock service) kind) as [prepared|e] eqn:Hprep;
    [|intros [= <- <-]; left; eauto].
  destruct (persist zone service command application customer answer prepared w) as [[res|e] w1] eqn:Hp.
  - destruct (stored_ok _ _ _ _ _ _ Hp) as [Hs Hc]. intros H. right.
    destruct (plan_ok _ _ _ _ Hplan) as [[Hnil ->]|(Hne & pc & Hpc & Hval & ->)]; cbn [complete] in H.
    + injection H as <- <-. exists []. rewrite app_nil_r. split; [done|].
      split; [exists prepared, res; naive_solver|]. left. eauto.
    + unfold tx_bind, calling in H.
      exists [CallPostCommit (mkPostCommitRequest application (vr_PostCommitActions answer))].
      destruct (pc (mkPostCommitRequest application (vr_PostCommitActions answer))) as [e|] eqn:He;
        cbn [wrap_err try_err] in H; injection H as <- <-; cbn [w_calls w_store];
        (split; [by rewrite Hc|]); split; try (exists prepared, res; naive_solver); right;
        (split; [done|]); exists pc; cbv zeta; (split; [done|]); (split; [done|]); (split; [done|]);
        rewrite He; naive_solver.
  - destruct (stored_err _ _ _ _ _ _ Hp) as [Hs Hc]. intros [= <- <-]. left.
    split; [destruct w, w1; simpl in *; congruence|eauto].
Qed.
End VerificationLemmas.

(** The PostgreSQL runner implements the store port: each transaction [n] has its
    own attempts, a commit reported as failed was not applied, and the runner's
    context errors are not its own retry marker. *)
Section RunnerStore.
Context {S : Type} (env : nat -> nat -> attempt).
Context (Hlost : forall n k, lost (env n k) = false).
Context (Hcancelled : forall n k c, cancelled (env n k) = Some c ->
  errors_Is c "postgres.errRetryableTransaction" = false).

#[program] Definition runner_Store : Store S :=
  {| StoreTransact := fun n A op => Transact (Some tt) (env n) (Some op) |}.
Next Obligation.
  intros n A op s a s' H. pose proof (attempts_cases _ _ _ _ _ _ _ (Hlost n) (Hcancelled n) H) as (k & ? & ? & ? & Hop).
  exact Hop.
Qed.
Next Obligation.
  intros n A op s e s' H. by destruct (attempts_cases _ _ _ _ _ _ _ (Hlost n) (Hcancelled n) H).
Qed.
End RunnerStore.

(** Only an Apple claim is adjusted further. *)
Lemma claimed_unchanged provider claimed result :
  provider <> ProviderAppleAppStore -> claimedProductsForValidation provider claimed result = claimed.
Proof.
  intros H. unfold claimedProductsForValidation. destruct claimed as [|? [|? ?]]; [done| |done].
  destruct (vr_Observations result) as [|? [|? ?]]; [done| |done].
  by rewrite (proj2 (String.eqb_neq _ _) H).
Qed.

(** ** Properties *)

(** The answer was checked against the request, its products replaced as
    [productsForValidation] says. *)
Definition checked_verification `{Horder : !GoMapRange} (request : VerificationRequest)
    (answer : VerificationResult) : Prop :=
  ValidateForVerification answer
    (mkVerificationRequest (vq_Application request) (vq_CustomerID request)
       (productsForValidation (sa_Provider (app_Store (vq_Application request)))
          (vq_ClaimedProducts request) answer)
       (vq_ExpectedCustomerBindings request) (vq_Evidence request)) = None.

Definition checked_reconciliation `{Horder : !GoMapRange} (request : ReconciliationRequest)
    (answer : VerificationResult) : Prop :=
  ValidateForReconciliation answer
    (mkReconciliationRequest (rq_Application request) (rq_CustomerID request)
       (productsForValidation (sa_Provider (app_Store (rq_Application request)))
          (rq_ExpectedProducts request) answer)
       (rq_ExpectedProductKind request) (rq_ExpectedCustomerBindings request)
       (rq_QueryReferences request)) = None.

(** C1. A verification changes the durable store only by one committed
    transaction, and only after the provider accepted exactly the submitted
    purchase for the stored application and customer and its answer passed
    validation.  The provider is told to complete the purchase at most once,
    after that commit, and only for the actions of the validated answer; the
    caller gets a result exactly when everything succeeded, and an error before
    the commit leaves the store untouched. *)
Theorem verify_commits_then_completes `{Horder : !GoMapRange} (zone : time -> Z) (service : Service)
    {S : Type} `{Htx : !Transaction S, Hstore : !Store S, Hread : !ReadLaws S}
    (command : Command) (w w' : World) (r : result Result) :
  Verify zone service command w = (r, w') ->
  (w_store w' = w_store w /\ (exists e, r = Err e) /\
   (w_calls w' = w_calls w \/ exists request, w_calls w' = w_calls w ++ [CallVerify request])) \/
  exists application customer adapter answer after,
    let request := mkVerificationRequest application (cus_ID customer) (cmd_ClaimedProducts command)
                     (cmd_ExpectedCustomerBindings command) (cmd_Evidence command) in
    Application_ (cmd_ProjectID command) (cmd_ApplicationID command) (w_store w)
      = (Ok application, w_store w) /\
    CustomerByExternalID (cmd_ProjectID command) (cmd_ExternalCustomerID command) (w_store w)
      = (Ok customer, w_store w) /\
    svc_adapters service (sa_Provider (app_Store application)) = Ok adapter /\
    ad_Verify adapter request = Ok answer /\ checked_verification request answer /\
    w_calls w' = w_calls w ++ CallVerify request :: after /\
    committed zone service command purchaseSubmissionEvidenceKind w w' r application customer
      adapter answer after.
Proof.
  unfold Verify, tx_check.
  destruct (validation_Wrap _); [intros [= <- <-]; left; eauto|].
  destruct (refuse_if _ _); [intros [= <- <-]; left; eauto|].
  unfold tx_bind at 1. destruct (loadScope command w) as [[[application customer]|e] w1] eqn:Hl;
    destruct (loadScope_reads _ _ _ _ Hl) as [-> Hscope]; [|intros [= <- <-]; left; eauto].
  destruct (Hscope _ _ eq_refl) as [Happ Hcus]. cbn [vq_ClaimedProducts].
  unfold tx_bind at 1, tx_lift at 1.
  destruct (svc_adapters service (sa_Provider (app_Store application))) as [adapter|e] eqn:Had; simpl;
    [|intros [= <- <-]; left; eauto].
  set (request := mkVerificationRequest _ _ _ _ _). unfold tx_bind at 1, calling.
  destruct (ad_Verify adapter request) as [answer|e] eqn:Hans; simpl;
    [|intros [= <- <-]; left; simpl; eauto 6].
  set (w1 := mkWorld _ _).
  destruct (wrap_err "validate provider verification result: %w" [] _) as [e|] eqn:Hval;
    [intros [= <- <-]; left; simpl; eauto 6|].
  intros H. destruct (finish_cases _ _ _ _ _ _ _ _ _ _ _ _ H) as [(-> & e & ->)|(after & Hc & Hcom)].
  - left. simpl. eauto 6.
  - right. exists application, customer, adapter, answer, after. cbv zeta.
    split_and!; try done.
    + by apply wrap_err_nil in Hval.
    + rewrite Hc. simpl. by rewrite <- app_assoc.
    + destruct Hcom as [Hprep Hafter]. by split.
Qed.

(** C2. A reconciliation is held to the same discipline as a verification, and
    its answer is also checked against the query references and the product kind
    of the known purchase. *)
Theorem reconcile_commits_then_completes `{Horder : !GoMapRange} (zone : time -> Z) (service : Service)
    {S : Type} `{Htx : !Transaction S, Hstore : !Store S, Hread : !ReadLaws S}
    (command : ReconciliationCommand) (w w' : World) (r : result Result) :
  Reconcile zone service command w = (r, w') ->
  (w_store w' = w_store w /\ (exists e, r = Err e) /\
   (w_calls w' = w_calls w \/ exists request, w_calls w' = w_calls w ++ [CallReconcile request])) \/
  exists application customer adapter answer after,
    let request := mkReconciliationRequest application (cus_ID customer) (rc_ExpectedProducts command)
                     (rc_ExpectedProductKind command) (rc_ExpectedCustomerBindings command)
                     (rc_QueryReferences command) in
    Application_ (rc_ProjectID command) (rc_ApplicationID command) (w_store w)
      = (Ok application, w_store w) /\
    CustomerByExternalID (rc_ProjectID command) (rc_ExternalCustomerID command) (w_store w)
      = (Ok customer, w_store w) /\
    svc_adapters service (sa_Provider (app_Store application)) = Ok adapter /\
    ad_Reconcile adapter request = Ok answer /\ checked_reconciliation request answer /\
    w_calls w' = w_calls w ++ CallReconcile request :: after /\
    committed zone service (base_command command) reconciliationSignalEvidenceKind w w' r
      application customer adapter answer after.
Proof.
  unfold Reconcile, tx_check.
  destruct (validation_Wrap _); [intros [= <- <-]; left; eauto|].
  destruct (refuse_if _ _); [intros [= <- <-]; left; eauto|].
  unfold tx_bind at 1.
  destruct (loadScope (base_command command) w) as [[[application customer]|e] w1] eqn:Hl;
    destruct (loadScope_reads _ _ _ _ Hl) as [-> Hscope]; [|intros [= <- <-]; left; eauto].
  destruct (Hscope _ _ eq_refl) as [Happ Hcus]. cbn [rq_ExpectedProducts].
  unfold tx_bind at 1, tx_lift at 1.
  destruct (svc_adapters service (sa_Provider (app_Store application))) as [adapter|e] eqn:Had; simpl;
    [|intros [= <- <-]; left; eauto].
  set (request := mkReconciliationRequest _ _ _ _ _ _). unfold tx_bind at 1, calling.
  destruct (ad_Reconcile adapter request) as [answer|e] eqn:Hans; simpl;
    [|intros [= <- <-]; left; simpl; eauto 6].
  set (w1 := mkWorld _ _).
  destruct (wrap_err "validate provider reconciliation result: %w" [] _) as [e|] eqn:Hval;
    [intros [= <- <-]; left; simpl; eauto 6|].
  intros H. destruct (finish_cases _ _ _ _ _ _ _ _ _ _ _ _ H) as [(-> & e & ->)|(after & Hc & Hcom)].
  - left. simpl. eauto 6.
  - right. exists application, customer, adapter, answer, after. cbv zeta.
    split_and!; try done.
    + by apply wrap_err_nil in Hval.
    + rewrite Hc. simpl. by rewrite <- app_assoc.
    + destruct Hcom as [Hprep Hafter]. by split.
Qed.

(** ** A concrete run *)

(** A catalog, a customer and a purchase log beside the PostgreSQL entitlement and
    outbox repositories. *)
Definition sample_catalog_product : CatalogProduct :=
  mkCatalogProduct (mkStoreProduct "app-1" "monthly" "premium_monthly")
    (mkProduct "monthly" "project-1" ProductKindSubscription ["premium"%string]) [].

Definition sample_catalog : CatalogRepository Db := {|
  Application_ := fun _ _ => tx_ret sample_application;
  CustomerByExternalID := fun _ external => tx_ret (mkCustomer "customer-1" "project-1" external);
  CustomerInClosure := fun _ _ _ => tx_ret true;
  CatalogProducts := fun _ _ _ => tx_ret [sample_catalog_product]
|}.

Definition sample_transaction : Transaction Db := {|
  tr_catalog := sample_catalog;
  tr_purchase := {| SaveEvidence := fun _ => tx_ret 1; SaveArtifact := fun _ => tx_ret tt;
                    SaveObservation := fun _ => tx_ret tt |};
  tr_entitlement := pg_EntitlementRepository sample_source sample_sources;
  tr_outbox := pg_OutboxRepository;
  tr_identity := {| ResolveCustomer := fun project external =>
                      tx_ret (mkResolution project external "customer-1" "primary") |}
|}.

#[program] Definition sample_reads : @ReadLaws Db sample_catalog := {| application_reads := _ |}.
Next Obligation. intros ? ? ? ? ? [= _ <-]. done. Qed.
Next Obligation. intros ? ? ? ? ? [= _ <-]. done. Qed.
Next Obligation. intros ? ? ? ? ? ? [= _ <-]. done. Qed.

Definition quiet_attempts (n k : nat) : attempt := mkAttempt None None None false None.

Definition sample_store : Store Db :=
  runner_Store quiet_attempts ltac:(intros n k; reflexivity) ltac:(intros n k c H; discriminate H).

Definition sample_adapter : Adapter :=
  mkAdapter (fun _ => Ok sample_result) (fun _ => Ok sample_result) (Some (fun _ => None)) None.

Definition sample_service : Service :=
  mkService (fun _ => Ok sample_adapter)
    (fun request => Ok (mkProtected (req_plaintext request) (of_bytes (replicate 32 9)) "key-1"))
    (@Project range_in_order (Some tt)) 2500.

Definition sample_command : Command :=
  mkCommand "project-1" "app-1" "user-1" ["premium_monthly"%string] []
    (mkEvidence GooglePlayEvidenceContentType "{}").

Definition sample_verify (w : World) : result Result * World :=
  @Verify range_in_order utc sample_service Db sample_transaction sample_store sample_command w.

Lemma verify_commits_then_completes_witness :
  exists x w', sample_verify (mkWorld empty_db []) = (Ok x, w') /\
    length (w_calls w') = 2%nat /\
    w_calls w' = CallVerify (sample_request ["premium_monthly"%string])
                 :: [CallPostCommit (mkPostCommitRequest sample_application [sample_action])].
Proof.
  destruct (sample_verify (mkWorld empty_db [])) as [[x|e] w'] eqn:E; [|vm_compute in E; discriminate].
  exists x, w'. split; [reflexivity|].
  destruct (@verify_commits_then_completes range_in_order utc sample_service Db sample_transaction
              sample_store sample_reads sample_command _ _ _ E)
    as [(_ & (e & He) & _)|(app & cus & ad & ans & after & Ha & Hc & Had & Hans & _ & Hcalls & [_ Hafter])];
    [discriminate He|].
  injection Ha as <-. injection Hc as <-. injection Had as <-. injection Hans as <-.
  destruct Hafter as [(Hnil & _)|(_ & pc & _ & _ & Heq & _)]; [discriminate Hnil|].
  rewrite Heq in Hcalls. rewrite Hcalls. split; reflexivity.
Defined.

Definition sample_reconciliation : ReconciliationCommand :=
  mkReconciliationCommand "project-1" "app-1" "user-1" ["basic_monthly"%string] ProductKindSubscription
    [] [sample_token] (mkEvidence GooglePlayEvidenceContentType "{}").

(** The claimed product was replaced by the observed one of the same purchase. *)
Lemma reconcile_commits_then_completes_witness :
  exists x w',
    @Reconcile range_in_order utc sample_service Db sample_transaction sample_store
      sample_reconciliation (mkWorld empty_db []) = (Ok x, w') /\
    (w_store w' = empty_db -> False) /\ length (w_calls w') = 2%nat.
Proof.
  destruct (@Reconcile range_in_order utc sample_service Db sample_transaction sample_store
              sample_reconciliation (mkWorld empty_db [])) as [[x|e] w'] eqn:E;
    [|vm_compute in E; discriminate].
  exists x, w'. split; [reflexivity|].
  destruct (@reconcile_commits_then_completes range_in_order utc sample_service Db sample_transaction
              sample_store sample_reads sample_reconciliation _ _ _ E)
    as [(_ & (e & He) & _)|(app & cus & ad & ans & after & Ha & Hc & Had & Hans & _ & Hcalls & [_ Hafter])];
    [discriminate He|].
  injection Ha as <-. injection Hc as <-. injection Had as <-. injection Hans as <-.
  destruct Hafter as [(Hnil & _)|(_ & pc & _ & _ & Heq & _)]; [discriminate Hnil|].
  rewrite Heq in Hcalls. rewrite Hcalls. split; [|reflexivity].
  vm_compute in E. injection E as _ <-. intros H. discriminate H.
Defined.
