(* ===== verification/Apple.v ===== *)
(** The Apple App Store adapter ([internal/stores/apple]): signed payloads,
    scope checks, normalization of transactions and subscription statuses, and
    the Verify and Reconcile operations.

    Certificates, signatures, JSON decoding and the HTTP transport are the
    library [AppleLibrary]; everything decided from what they return is here.
    Times in milliseconds and statuses are the integers of the payloads. *)

From S2P Require Import Prelude GoText GoTime GoHttp Sha256 Core Purchase Protection Persistence Stores Credential Projector Repository EntitlementStore Runner Refresh Verification.
From stdpp Require Import base list strings gmap.
Local Open Scope Z_scope.

(** ** Constants *)

(* internal/stores/apple/adapter.go: constants *)
Definition AppleCredentialKind : string := "apple_app_store_server_api".
Definition AppleCredentialContentType : string := "application/vnd.iapstack.apple-credentials+json".
Definition AppleCredentialSchemaVersion : Z := 1.
Definition apple_productionBaseURL : string := "https://api.storekit.apple.com".
Definition apple_sandboxBaseURL : string := "https://api.storekit-sandbox.apple.com".
Definition maximumProviderResponse : Z := 2 * 2 ^ 20.
Definition appleSubscriptionType : string := "Auto-Renewable Subscription".
Definition appleNonConsumableType : string := "Non-Consumable".
Definition applePurchasedOwnership : string := "PURCHASED".
Definition appleFamilySharedOwnership : string := "FAMILY_SHARED".

(* internal/stores/apple/subscription.go: constants *)
Definition subscriptionStatusActive : Z := 1.
Definition subscriptionStatusExpired : Z := 2.
Definition subscriptionStatusBillingRetry : Z := 3.
Definition subscriptionStatusGracePeriod : Z := 4.
Definition subscriptionStatusRevoked : Z := 5.
Definition autoRenewDisabled : Z := 0.
Definition autoRenewEnabled : Z := 1.

(* internal/stores/apple/notification.go: constants *)
Definition maximumNotificationClockSkew : duration := 5 * Minute.

(** ** Payloads *)

(* internal/stores/apple/adapter.go: clientEvidence *)
Record clientEvidence : Type := mkClientEvidence {
  ce_SignedTransaction : string;
  ce_ProductKind : ProductKind
}.

(* internal/stores/apple/adapter.go: credentialPayload *)
Record credentialPayload : Type := mkCredentialPayload {
  cpl_IssuerID : string;
  cpl_KeyID : string;
  cpl_BundleID : string;
  cpl_AppAppleID : Z;
  cpl_PrivateKey : string;
  cpl_RootCertificates : list string
}.

(* internal/stores/apple/adapter.go: transactionPayload *)
Record transactionPayload : Type := mkTransaction {
  tp_OriginalTransactionID : string;
  tp_TransactionID : string;
  tp_WebOrderLineItemID : string;
  tp_BundleID : string;
  tp_ProductID : string;
  tp_PurchaseDate : Z;
  tp_ExpiresDate : Z;
  tp_Quantity : Z;
  tp_Price : option Z;
  tp_Currency : string;
  tp_Type : string;
  tp_AppAccountToken : string;
  tp_OwnershipType : string;
  tp_SignedDate : Z;
  tp_RevocationReason : option Z;
  tp_RevocationDate : Z;
  tp_IsUpgraded : bool;
  tp_Environment : string
}.

(* internal/stores/apple/subscription.go: renewalPayload *)
Record renewalPayload : Type := mkRenewalPayload {
  rp_AppAccountToken : string;
  rp_AutoRenewProductID : string;
  rp_AutoRenewStatus : Z;
  rp_Environment : string;
  rp_ExpirationIntent : Z;
  rp_GracePeriodExpiresDate : Z;
  rp_IsInBillingRetryPeriod : bool;
  rp_OriginalTransactionID : string;
  rp_ProductID : string;
  rp_RenewalDate : Z;
  rp_SignedDate : Z
}.

(* internal/stores/apple/subscription.go: lastTransactionsItem *)
Record lastTransactionsItem : Type := mkLastTransaction {
  li_OriginalTransactionID : string;
  li_Status : Z;
  li_SignedRenewalInfo : string;
  li_SignedTransactionInfo : string
}.

(* internal/stores/apple/subscription.go: subscriptionGroupIdentifierItem *)
Record subscriptionGroupIdentifierItem : Type := mkGroup {
  gi_SubscriptionGroupIdentifier : string;
  gi_LastTransactions : list lastTransactionsItem
}.

(* internal/stores/apple/subscription.go: statusResponse *)
Record statusResponse : Type := mkStatusResponse {
  sr_Environment : string;
  sr_BundleID : string;
  sr_AppAppleID : Z;
  sr_Data : list subscriptionGroupIdentifierItem
}.

(* internal/stores/apple/subscription.go: subscriptionSnapshot *)
Record subscriptionSnapshot : Type := mkSnapshot {
  sub_Status : Z;
  sub_Renewal : renewalPayload
}.

(** ** Times and identities *)

(* internal/stores/apple/jws.go: milliseconds *)
Definition milliseconds (value : Z) : time := if value <=? 0 then zeroTime else UnixMilli value.

(* internal/stores/apple/subscription.go: optionalMilliseconds *)
Definition optionalMilliseconds (value : Z) : option time :=
  if value <=? 0 then None else Some (milliseconds value).

(* internal/stores/apple/adapter.go: optionalTimeIdentity *)
Definition optionalTimeIdentity (value : option time) : string :=
  match value with None => EmptyString | Some t => FormatInt (toUnixMilli t) end.

Definition unit_separator : string := of_bytes [31].
Definition nul : string := of_bytes [0].

(* internal/stores/apple/adapter.go: snapshotExpiresIdentity *)
Definition snapshotExpiresIdentity (transactionExpires : Z) (endsAt : option time) : string :=
  let encoded := FormatInt transactionExpires in
  match endsAt with
  | None => if transactionExpires <=? 0 then encoded else (encoded ++ unit_separator)%string
  | Some t =>
      let millis := toUnixMilli t in
      if millis =? transactionExpires then encoded
      else (encoded ++ unit_separator ++ FormatInt millis)%string
  end.

(* internal/stores/apple/adapter.go: observationSnapshotIdentity *)
Definition apple_observationSnapshotIdentity (applicationID : ApplicationID) (kind : ProductKind)
    (transaction : transactionPayload) (state : LifecycleState) (access : AccessStatus)
    (reason : AccessReason) (renewal : Renewal) (ownership : Ownership) (quantity : Z)
    (endsAt : option time) : string :=
  let revocationReason := match tp_RevocationReason transaction with
                          | Some r => FormatInt r
                          | None => EmptyString
                          end in
  Sum256 (GoText.Join [applicationID; kind; tp_OriginalTransactionID transaction;
    tp_TransactionID transaction; tp_WebOrderLineItemID transaction; tp_BundleID transaction;
    tp_ProductID transaction; FormatInt (tp_PurchaseDate transaction);
    snapshotExpiresIdentity (tp_ExpiresDate transaction) endsAt; FormatInt quantity;
    tp_Type transaction; tp_AppAccountToken transaction; tp_OwnershipType transaction;
    revocationReason; FormatInt (tp_RevocationDate transaction);
    FormatBool (tp_IsUpgraded transaction); tp_Environment transaction; state; access; reason;
    ren_Mode renewal; ren_Status renewal; ren_NextProductID renewal;
    optionalTimeIdentity (ren_NextRenewalAt renewal); ownership] nul).

(** ** Classification *)

(* internal/stores/apple/adapter.go: invalid *)
Definition apple_invalid (operation : string) (cause : gerror) : gerror :=
  NewFailure ProviderAppleAppStore operation FailureInvalidEvidence 0 (Some cause).

(* internal/stores/apple/adapter.go: productKind *)
Definition apple_productKind (value : string) : result ProductKind :=
  if String.eqb value appleSubscriptionType then Ok ProductKindSubscription
  else if String.eqb value appleNonConsumableType then Ok ProductKindNonConsumable
  else Err (Errorf "unsupported Apple product type %q" [AStr value]).

(* internal/stores/apple/adapter.go: appleEnvironment *)
Definition appleEnvironment (environment : Environment) : result string :=
  if String.eqb environment EnvironmentProduction then Ok "Production"%string
  else if String.eqb environment EnvironmentSandbox then Ok "Sandbox"%string
  else Err (Errorf "unsupported Apple environment %q" [AStr environment]).

(* internal/stores/apple/adapter.go: validAppAccountToken *)
Definition validAppAccountToken (value : string) : bool :=
  let l := bytes value in
  Nat.eqb (length l) 36
  && forallb (fun i => bool_decide (l !! i = Some 45)) [8; 13; 18; 23]%nat
  && hex_ok (List.filter (fun b => negb (b =? 45)) l).

(* internal/stores/apple/adapter.go: normalizeState *)
Definition apple_normalizeState (kind : ProductKind) (transaction : transactionPayload) (now : time)
    : LifecycleState * AccessStatus * AccessReason :=
  if 0 <? tp_RevocationDate transaction then
    if String.eqb (tp_OwnershipType transaction) appleFamilySharedOwnership
    then (LifecycleRevoked, AccessDenied, AccessReasonRevoked)
    else (LifecycleRefunded, AccessDenied, AccessReasonRefunded)
  else if String.eqb kind ProductKindSubscription
          && ((tp_ExpiresDate transaction <=? 0)
              || negb (After (milliseconds (tp_ExpiresDate transaction)) now))
  then (LifecycleExpired, AccessDenied, AccessReasonExpired)
  else (LifecycleActive, AccessAllowed, AccessReasonPurchaseValid).

(* internal/stores/apple/adapter.go: providerState *)
Definition apple_providerState (transaction : transactionPayload) (state : LifecycleState) : string :=
  if 0 <? tp_RevocationDate transaction then "revoked"
  else if tp_IsUpgraded transaction then "upgraded" else state.

(* internal/stores/apple/subscription.go: normalizeRenewal *)
Definition apple_normalizeRenewal (payload : renewalPayload) (now : time) : Renewal :=
  let enabled := rp_AutoRenewStatus payload =? autoRenewEnabled in
  mkRenewal RenewalAuto (if enabled then RenewalEnabled else RenewalDisabled)
    (if enabled && negb (String.eqb (rp_AutoRenewProductID payload) EmptyString)
     then rp_AutoRenewProductID payload else EmptyString)
    (if enabled && (0 <? rp_RenewalDate payload)
     then let next := milliseconds (rp_RenewalDate payload) in
          if After next now then Some next else None
     else None).

(* internal/stores/apple/subscription.go: normalizeSubscriptionStatus *)
Definition normalizeSubscriptionStatus (transaction : transactionPayload)
    (subscription : subscriptionSnapshot) (now : time)
    : LifecycleState * AccessStatus * AccessReason * option time * Renewal :=
  let endsAt := optionalMilliseconds (tp_ExpiresDate transaction) in
  let renewal := apple_normalizeRenewal (sub_Renewal subscription) now in
  if 0 <? tp_RevocationDate transaction then
    let '(state, access, reason) := apple_normalizeState ProductKindSubscription transaction now in
    (state, access, reason, endsAt, renewal)
  else if sub_Status subscription =? subscriptionStatusActive then
    match endsAt with
    | None => (LifecycleUnresolved, AccessUnresolved, AccessReasonUnresolved, endsAt, renewal)
    | Some e =>
        if negb (After e (now - maximumNotificationClockSkew)) then
          (LifecycleExpired, AccessDenied, AccessReasonExpired, endsAt, renewal)
        else
          let endsAt := if negb (After e now) then Some (e + maximumNotificationClockSkew) else endsAt in
          if String.eqb (ren_Status renewal) RenewalDisabled
          then (LifecycleCanceled, AccessAllowed, AccessReasonCanceledAtPeriodEnd, endsAt, renewal)
          else (LifecycleActive, AccessAllowed, AccessReasonPurchaseValid, endsAt, renewal)
    end
  else if sub_Status subscription =? subscriptionStatusExpired then
    (LifecycleExpired, AccessDenied, AccessReasonExpired, endsAt, renewal)
  else if sub_Status subscription =? subscriptionStatusBillingRetry then
    (LifecycleOnHold, AccessDenied, AccessReasonBillingIssue, endsAt, renewal)
  else if sub_Status subscription =? subscriptionStatusGracePeriod then
    let graceEndsAt := optionalMilliseconds (rp_GracePeriodExpiresDate (sub_Renewal subscription)) in
    match graceEndsAt with
    | None => (LifecycleOnHold, AccessDenied, AccessReasonBillingIssue, graceEndsAt, renewal)
    | Some g =>
        if negb (After g now)
        then (LifecycleOnHold, AccessDenied, AccessReasonBillingIssue, graceEndsAt, renewal)
        else (LifecycleGracePeriod, AccessAllowed, AccessReasonGracePeriod, graceEndsAt, renewal)
    end
  else if sub_Status subscription =? subscriptionStatusRevoked then
    (LifecycleRevoked, AccessDenied, AccessReasonRevoked, endsAt, renewal)
  else (LifecycleUnresolved, AccessUnresolved, AccessReasonUnresolved, endsAt, renewal).

(** ** Scope checks *)

(* internal/stores/apple/adapter.go: validateTransactionScope *)
Definition validateTransactionScope (request : VerificationRequest) (bundleID : string)
    (expectedKind : ProductKind) (transaction : transactionPayload) (requireClaimedProduct : bool)
    : error :=
  refuse_if (String.eqb (tp_TransactionID transaction) EmptyString
             || String.eqb (tp_OriginalTransactionID transaction) EmptyString
             || String.eqb (tp_ProductID transaction) EmptyString
             || negb (String.eqb (tp_BundleID transaction) bundleID)
             || negb (String.eqb (tp_BundleID transaction) (sa_ID (app_Store (vq_Application request)))))
    (New "apple transaction application or purchase identity mismatch") ;;?
  (match appleEnvironment (sa_Environment (app_Store (vq_Application request))) with
   | Err _ => Some (New "apple transaction environment mismatch")
   | Ok expectedEnvironment =>
       refuse_if (negb (String.eqb (tp_Environment transaction) expectedEnvironment))
         (New "apple transaction environment mismatch")
   end) ;;?
  (match apple_productKind (tp_Type transaction) with
   | Err _ => Some (New "apple transaction product kind mismatch")
   | Ok actualKind => refuse_if (negb (String.eqb actualKind expectedKind))
                        (New "apple transaction product kind mismatch")
   end) ;;?
  refuse_if (requireClaimedProduct && negb (Nat.eqb (length (vq_ClaimedProducts request)) 0)
             && (negb (Nat.eqb (length (vq_ClaimedProducts request)) 1)
                 || negb (contains_str (take 1 (vq_ClaimedProducts request)) (tp_ProductID transaction))))
    (New "apple transaction product does not match claim") ;;?
  refuse_if (String.eqb (tp_AppAccountToken transaction) EmptyString)
    (New "apple app account token is required") ;;?
  refuse_if (negb (validAppAccountToken (tp_AppAccountToken transaction)))
    (New "apple app account token must be a UUID") ;;?
  refuse_if (negb (existsb (fun binding => String.eqb (ref_Kind binding) "app_account_token"
                      && String.eqb (StoreReference_Value binding) (tp_AppAccountToken transaction))
                     (vq_ExpectedCustomerBindings request)))
    (New "apple app account token customer binding mismatch").

(* internal/stores/apple/adapter.go: compareTransactions *)
Definition compareTransactions (submitted authoritative : transactionPayload) : error :=
  refuse_if (negb (String.eqb (tp_TransactionID submitted) (tp_TransactionID authoritative))
             || negb (String.eqb (tp_OriginalTransactionID submitted)
                        (tp_OriginalTransactionID authoritative))
             || negb (String.eqb (tp_BundleID submitted) (tp_BundleID authoritative))
             || negb (String.eqb (tp_ProductID submitted) (tp_ProductID authoritative))
             || negb (String.eqb (tp_AppAccountToken submitted) (tp_AppAccountToken authoritative)))
    (New "authoritative Apple transaction does not match submitted evidence").

(* internal/stores/apple/subscription.go: validateRenewalScope *)
Definition validateRenewalScope (application : Application) (transaction : transactionPayload)
    (renewal : renewalPayload) : error :=
  (match appleEnvironment (sa_Environment (app_Store application)) with
   | Err _ => Some (New "apple renewal scope mismatch")
   | Ok environment =>
       refuse_if (negb (String.eqb (rp_Environment renewal) environment)
                  || negb (String.eqb (rp_OriginalTransactionID renewal)
                             (tp_OriginalTransactionID transaction))
                  || negb (String.eqb (rp_ProductID renewal) (tp_ProductID transaction))
                  || negb (String.eqb (rp_AppAccountToken renewal) (tp_AppAccountToken transaction)))
         (New "apple renewal scope mismatch")
   end) ;;?
  refuse_if (negb (rp_AutoRenewStatus renewal =? autoRenewDisabled)
             && negb (rp_AutoRenewStatus renewal =? autoRenewEnabled))
    (New "apple renewal status is unsupported").

(** The last matching row and how many there are. *)
(* internal/stores/apple/subscription.go: selectSubscriptionStatus *)
Definition selectSubscriptionStatus (response : statusResponse) (originalTransactionID : string)
    : result lastTransactionsItem :=
  let matching := List.filter (fun item => String.eqb (li_OriginalTransactionID item) originalTransactionID)
                    (flat_map gi_LastTransactions (sr_Data response)) in
  match matching with
  | [selected] =>
      if String.eqb (li_SignedTransactionInfo selected) EmptyString
         || String.eqb (li_SignedRenewalInfo selected) EmptyString
         || (li_Status selected <? subscriptionStatusActive)
         || (subscriptionStatusRevoked <? li_Status selected)
      then Err (New "apple subscription status row is missing or ambiguous")
      else Ok selected
  | _ => Err (New "apple subscription status row is missing or ambiguous")
  end.

(* internal/stores/apple/subscription.go: appleArtifactKind *)
Definition appleArtifactKind (kind : ProductKind) : string :=
  if String.eqb kind ProductKindSubscription then "apple_subscription_status"
  else "apple_server_transaction".

(** ** Normalization *)

(* internal/stores/apple/adapter.go: applePurchasePrice *)
Definition applePurchasePrice (transaction : transactionPayload) : result (option PurchasePrice) :=
  match tp_Price transaction with
  | None =>
      if String.eqb (tp_Currency transaction) EmptyString then Ok None
      else Err (New "apple transaction price and currency must be present together")
  | Some milliunits =>
      if String.eqb (tp_Currency transaction) EmptyString
      then Err (New "apple transaction price and currency must be present together")
      else
        let price := mkPurchasePrice milliunits (tp_Currency transaction) in
        try* wrap_err "apple transaction price: %w" [] (PurchasePrice_Validate price) in
        Ok (Some price)
  end.

(* internal/stores/apple/adapter.go:462-468: Adapter.result *)
Definition apple_ownership (transaction : transactionPayload) : Ownership :=
  if String.eqb (tp_OwnershipType transaction) applePurchasedOwnership
     || String.eqb (tp_OwnershipType transaction) EmptyString then OwnershipPurchased
  else if String.eqb (tp_OwnershipType transaction) appleFamilySharedOwnership
       then OwnershipFamilyShared else OwnershipUnknown.

(* internal/stores/apple/adapter.go:474-479: Adapter.result *)
Definition apple_candidates (transaction : transactionPayload) : list (ReferenceRole * string * string) :=
  [(ReferenceTransaction, "transaction_id"%string, tp_TransactionID transaction);
   (ReferenceLineage, "original_transaction_id"%string, tp_OriginalTransactionID transaction);
   (ReferenceQuery, "transaction_id"%string, tp_TransactionID transaction);
   (ReferenceCustomerBinding, "app_account_token"%string, tp_AppAccountToken transaction)].

(** The state, access, end and renewal of a result. *)
(* internal/stores/apple/adapter.go:435-453: Adapter.result *)
Definition apple_decision (kind : ProductKind) (transaction : transactionPayload)
    (subscription : option subscriptionSnapshot) (observedAt : time)
    : result (LifecycleState * AccessStatus * AccessReason * option time * Renewal) :=
  if String.eqb kind ProductKindSubscription then
    match subscription with
    | None => Err (apple_invalid "normalize" (New "apple subscription status is required"))
    | Some snapshot =>
        if (sub_Status snapshot =? subscriptionStatusActive) && (tp_ExpiresDate transaction <=? 0)
        then Err (apple_invalid "normalize" (New "apple active subscription expiry is missing"))
        else Ok (normalizeSubscriptionStatus transaction snapshot observedAt)
    end
  else
    let '(state, access, reason) := apple_normalizeState kind transaction observedAt in
    Ok (state, access, reason, optionalMilliseconds (tp_ExpiresDate transaction),
        mkRenewal RenewalNone RenewalNotApplicable EmptyString None).

(* internal/stores/apple/adapter.go: Adapter.result *)
Definition apple_result (observedAt : time) (application : Application) (kind : ProductKind)
    (transaction : transactionPayload) (artifact : Evidence)
    (subscription : option subscriptionSnapshot) : result VerificationResult :=
  let* decision := apple_decision kind transaction subscription observedAt in
  let '(state, access, reason, endsAt, renewal) := decision in
  let startsAt := milliseconds (tp_PurchaseDate transaction) in
  let quantity := if tp_Quantity transaction =? 0 then 1 else tp_Quantity transaction in
  let* price := wrap_result (apple_invalid "normalize") (applePurchasePrice transaction) in
  let ownership := apple_ownership transaction in
  let* references := wrap_result (apple_invalid "normalize") (make_references (apple_candidates transaction)) in
  let identity := apple_observationSnapshotIdentity (app_ID application) kind transaction state access
                    reason renewal ownership quantity endsAt in
  let priorIdentity := apple_observationSnapshotIdentity (app_ID application) kind transaction state
                         access reason renewal ownership quantity
                         (optionalMilliseconds (tp_ExpiresDate transaction)) in
  let priorID := if String.eqb priorIdentity identity then EmptyString
                 else snapshot_id "app-" priorIdentity in
  let observation := mkObservation (snapshot_id "app-" identity) (app_ID application)
    (app_Store application) (tp_ProductID transaction) kind state
    (apple_providerState transaction state) access reason ownership quantity price startsAt observedAt
    (mkPeriod startsAt endsAt) renewal references priorID in
  match PurchaseObservation_Validate observation with
  | Some e => Err (apple_invalid "normalize" e)
  | None => Ok (mkVerificationResult observedAt [mkArtifact (appleArtifactKind kind) artifact]
                  [observation] [] [])
  end.

(** ** Signed payloads ([jws.go]) *)

(** The library functions the package calls: encodings, JSON into the package's
    structs, certificates and signatures.  [VerifyChain leaf intermediates roots at]
    is [Certificate.Verify] for any key usage; [P256Key] is the leaf's public key
    when it is ECDSA on P-256. *)
Class AppleLibrary := {
  Certificate : Type;
  CertPool : Type;
  PublicKey : Type;
  UnicodeLower : string -> string;
  RawURLDecode : string -> option string;
  StdDecode : string -> option string;
  UnmarshalHeader : string -> option (string * list string);
  UnmarshalSignedDate : string -> option Z;
  UnmarshalTransaction : string -> option transactionPayload;
  UnmarshalRenewal : string -> option renewalPayload;
  UnmarshalTransactionInfo : string -> option string;
  UnmarshalStatus : string -> option statusResponse;
  DecodeClientEvidence : string -> result clientEvidence;
  DecodeCredential : string -> result credentialPayload;
  parsePrivateKey : string -> error;
  parseTrustedRoots : list string -> result (CertPool * gset string);
  ParseCertificate : string -> option Certificate;
  cert_Raw : Certificate -> string;
  cert_Extensions : Certificate -> list (list Z);
  VerifyChain : Certificate -> list Certificate -> CertPool -> time -> error;
  P256Key : Certificate -> option PublicKey;
  ecdsa_Verify : PublicKey -> string -> Z -> Z -> bool
}.

Section JWS.
Context `{Lib : AppleLibrary}.

(* internal/stores/apple/jws.go:18-23: constants *)
Definition appleWWDRIntermediateOID : list Z := [1; 2; 840; 113635; 100; 6; 2; 1].
Definition appleAppStoreLeafOID : list Z := [1; 2; 840; 113635; 100; 6; 11; 1].

(* internal/stores/apple/jws.go: trustedRoots *)
Record trustedRoots : Type := mkTrustedRoots {
  pool : CertPool;
  fingerprints : gset string
}.

(* internal/stores/apple/jws.go: hasExtension *)
Definition hasExtension (certificate : Certificate) (identifier : list Z) : bool :=
  existsb (fun id => bool_decide (id = identifier)) (cert_Extensions certificate).

(* internal/stores/apple/jws.go: parseJWSCertificates *)
Definition parseJWSCertificates (chain : list string) : result (list Certificate) :=
  collect (fun _ encoded =>
    match StdDecode encoded with
    | None => Err (New "apple JWS certificate is not base64 DER")
    | Some der => match ParseCertificate der with
                  | None => Err (New "apple JWS certificate is invalid")
                  | Some certificate => Ok certificate
                  end
    end) chain.

(** [new(big.Int).SetBytes]. *)
Definition SetBytes (s : string) : Z := fold_left (fun acc b => acc * 256 + b) (bytes s) 0.

(** The checks of the header and of the payload's date. *)
(* internal/stores/apple/jws.go:63-86: verifyAppleJWS *)
Definition jws_header (headerPart payloadPart : string) : result (list string * string * Z) :=
  match RawURLDecode headerPart with
  | None => Err (New "apple JWS header is not base64url")
  | Some headerBytes =>
      match UnmarshalHeader headerBytes with
      | None => Err (New "apple JWS header is not valid JSON")
      | Some (algorithm, chain) =>
          if negb (String.eqb algorithm "ES256") || negb (Nat.eqb (length chain) 3)
          then Err (New "apple JWS must use ES256 with a three-certificate chain")
          else match RawURLDecode payloadPart with
               | None => Err (New "apple JWS payload is not base64url")
               | Some payloadBytes =>
                   match UnmarshalSignedDate payloadBytes with
                   | None => Err (New "apple JWS payload is not valid JSON")
                   | Some signedDate =>
                       if signedDate <=? 0 then Err (New "apple JWS signed date is required")
                       else Ok (chain, payloadBytes, signedDate)
                   end
               end
      end
  end.

(** The checks of the chain at the signing date; the leaf's key. *)
(* internal/stores/apple/jws.go:87-114: verifyAppleJWS *)
Definition jws_key (roots : trustedRoots) (chain : list string) (signedDate : Z) : result PublicKey :=
  let* certificates := parseJWSCertificates chain in
  match certificates with
  | [leaf; intermediate; root] =>
      if negb (bool_decide (Sum256 (cert_Raw root) ∈ fingerprints roots))
      then Err (New "apple JWS root certificate is not trusted")
      else if negb (hasExtension intermediate appleWWDRIntermediateOID)
      then Err (New "apple JWS intermediate certificate is not a WWDR certificate")
      else if negb (hasExtension leaf appleAppStoreLeafOID)
      then Err (New "apple JWS leaf certificate is not an App Store certificate")
      else
        try* wrap_err "verify Apple JWS certificate chain: %w" []
               (VerifyChain leaf [intermediate] (pool roots) (milliseconds signedDate)) in
        match P256Key leaf with
        | None => Err (New "apple JWS leaf key is not P-256 ECDSA")
        | Some key => Ok key
        end
  | _ => Err (New "apple JWS must use ES256 with a three-certificate chain")
  end.

(** The payload is decoded into the destination [unmarshal] stands for. *)
(* internal/stores/apple/jws.go: verifyAppleJWS *)
Definition verifyAppleJWS {P} (unmarshal : string -> option P) (signed : string) (roots : trustedRoots)
    : result P :=
  match Split signed 46 with
  | [headerPart; payloadPart; signaturePart] =>
      if String.eqb headerPart EmptyString || String.eqb payloadPart EmptyString
         || String.eqb signaturePart EmptyString
      then Err (New "apple payload is not a compact JWS")
      else
        let* header := jws_header headerPart payloadPart in
        let '(chain, payloadBytes, signedDate) := header in
        let* key := jws_key roots chain signedDate in
        match RawURLDecode signaturePart with
        | None => Err (New "apple JWS signature is not an ES256 signature")
        | Some signature =>
            if negb (len signature =? 64) then Err (New "apple JWS signature is not an ES256 signature")
            else
              let digest := Sum256 (headerPart ++ "." ++ payloadPart)%string in
              if negb (ecdsa_Verify key digest (SetBytes (str_take 32 signature))
                         (SetBytes (str_drop 32 signature)))
              then Err (New "apple JWS signature verification failed")
              else match unmarshal payloadBytes with
                   | None => Err (New "apple JWS payload does not match its contract")
                   | Some payload => Ok payload
                   end
        end
  | _ => Err (New "apple payload is not a compact JWS")
  end.

(** [strings.ToLower]: bytewise for ASCII, through the Unicode tables otherwise. *)
Definition ToLower (s : string) : string :=
  if forallb (fun b => b <? 128) (bytes s) then of_bytes (map lower_byte (bytes s)) else UnicodeLower s.

(* internal/stores/apple/jws.go: verifyTransactionJWS *)
Definition verifyTransactionJWS (signed : string) (roots : trustedRoots) : result transactionPayload :=
  let* p := verifyAppleJWS UnmarshalTransaction signed roots in
  Ok (mkTransaction (tp_OriginalTransactionID p) (tp_TransactionID p) (tp_WebOrderLineItemID p)
        (tp_BundleID p) (tp_ProductID p) (tp_PurchaseDate p) (tp_ExpiresDate p) (tp_Quantity p)
        (tp_Price p) (tp_Currency p) (tp_Type p) (ToLower (tp_AppAccountToken p)) (tp_OwnershipType p)
        (tp_SignedDate p) (tp_RevocationReason p) (tp_RevocationDate p) (tp_IsUpgraded p)
        (tp_Environment p)).

(* internal/stores/apple/jws.go: verifyRenewalJWS *)
Definition verifyRenewalJWS (signed : string) (roots : trustedRoots) : result renewalPayload :=
  let* p := verifyAppleJWS UnmarshalRenewal signed roots in
  Ok (mkRenewalPayload (ToLower (rp_AppAccountToken p)) (rp_AutoRenewProductID p) (rp_AutoRenewStatus p)
        (rp_Environment p) (rp_ExpirationIntent p) (rp_GracePeriodExpiresDate p)
        (rp_IsInBillingRetryPeriod p) (rp_OriginalTransactionID p) (rp_ProductID p) (rp_RenewalDate p)
        (rp_SignedDate p)).

(** ** Provider calls *)

(* internal/stores/apple/adapter.go: configuration *)
Record configuration : Type := mkConfiguration {
  cfg_issuerID : string;
  cfg_keyID : string;
  cfg_bundleID : string;
  cfg_appAppleID : Z;
  cfg_roots : trustedRoots
}.

(** What the adapter reads from outside: the application's opened credential
    package, the signed bearer token, the transport, and the clock. *)
Context (credentials : Application -> string -> result Credential).
Context (authorizationToken : configuration -> result string).
Context (transport : string -> string -> result http_response).
Context (now : time).

(** The private key stays with [authorizationToken], which signs with it. *)
(* internal/stores/apple/adapter.go: Adapter.configuration *)
Definition apple_configuration (application : Application) : result configuration :=
  let failure (kind : FailureKind) (cause : error) :=
    Err (NewFailure ProviderAppleAppStore "credentials" kind 0 cause) in
  match credentials application AppleCredentialKind with
  | Err e => failure FailureUnauthorized (Some e)
  | Ok credential =>
      if negb (String.eqb (cred_ContentType credential) AppleCredentialContentType)
         || negb (cred_SchemaVersion credential =? AppleCredentialSchemaVersion)
      then failure FailurePermanent None
      else match DecodeCredential (Credential_Bytes credential) with
      | Err e => failure FailurePermanent (Some e)
      | Ok payload =>
          if String.eqb (cpl_IssuerID payload) EmptyString || String.eqb (cpl_KeyID payload) EmptyString
             || String.eqb (cpl_BundleID payload) EmptyString || String.eqb (cpl_PrivateKey payload) EmptyString
          then failure FailurePermanent None
          else if negb (String.eqb (sa_Provider (app_Store application)) ProviderAppleAppStore)
          then failure FailurePermanent None
          else if negb (String.eqb (sa_ID (app_Store application)) (cpl_BundleID payload))
          then failure FailurePermanent None
          else if String.eqb (sa_Environment (app_Store application)) EnvironmentProduction
                  && (cpl_AppAppleID payload =? 0)
          then failure FailurePermanent None
          else if negb (String.eqb (sa_Environment (app_Store application)) EnvironmentProduction)
                  && negb (String.eqb (sa_Environment (app_Store application)) EnvironmentSandbox)
          then failure FailurePermanent None
          else match parsePrivateKey (cpl_PrivateKey payload) with
          | Some e => failure FailurePermanent (Some e)
          | None =>
              match parseTrustedRoots (cpl_RootCertificates payload) with
              | Err e => failure FailurePermanent (Some e)
              | Ok (certPool, prints) =>
                  Ok (mkConfiguration (cpl_IssuerID payload) (cpl_KeyID payload) (cpl_BundleID payload)
                        (cpl_AppAppleID payload) (mkTrustedRoots certPool prints))
              end
          end
      end
  end.

(** One bounded call; an error of the transport is temporary. *)
(* internal/stores/apple/adapter.go: Adapter.do *)
Definition apple_do (endpoint token : string) : result (string * http_response) :=
  match transport endpoint token with
  | Err e => Err (NewFailure ProviderAppleAppStore "http" FailureTemporary 0 (Some e))
  | Ok response =>
      match body response with
      | Err e => Err (NewFailure ProviderAppleAppStore "http" FailureTemporary 0 (Some e))
      | Ok text => if maximumProviderResponse <? len text
                   then Err (NewFailure ProviderAppleAppStore "http" FailurePermanent 0 None)
                   else Ok (text, response)
      end
  end.

(* internal/stores/apple/subscription.go: Adapter.classifyProviderStatus *)
Definition apple_classifyProviderStatus (operation : string) (response : http_response) : error :=
  let code := status response in
  if (200 <=? code) && (code <? 300) then None
  else if (code =? 401) || (code =? 403)
  then Some (NewFailure ProviderAppleAppStore operation FailureUnauthorized 0 None)
  else if code =? 404 then Some (NewFailure ProviderAppleAppStore operation FailureNotFound 0 None)
  else if code =? 429
  then Some (NewFailure ProviderAppleAppStore operation FailureRateLimited (retryAfter response now) None)
  else if 500 <=? code then Some (NewFailure ProviderAppleAppStore operation FailureTemporary 0 None)
  else Some (NewFailure ProviderAppleAppStore operation FailurePermanent 0 None).

Definition apple_base (application : Application) : string :=
  TrimRightSlash (if String.eqb (sa_Environment (app_Store application)) EnvironmentSandbox
                  then apple_sandboxBaseURL else apple_productionBaseURL).

(** The same outcome by status as [classifyProviderStatus], for the operation "query". *)
(* internal/stores/apple/adapter.go: Adapter.query *)
Definition apple_query (application : Application) (configuration : configuration) (transactionID : string)
    : result (string * Evidence) :=
  if String.eqb (TrimSpace transactionID) EmptyString
  then Err (apple_invalid "query" (New "apple transaction ID is required"))
  else
    let* token := wrap_result (fun e => NewFailure ProviderAppleAppStore "token" FailurePermanent 0 (Some e))
                    (authorizationToken configuration) in
    let* answer := apple_do (apple_base application ++ "/inApps/v1/transactions/" ++ PathEscape transactionID)%string token in
    let '(text, response) := answer in
    try* apple_classifyProviderStatus "query" response in
    match UnmarshalTransactionInfo text with
    | None => Err (apple_invalid "query" (New "apple response omitted signed transaction info"))
    | Some signedTransactionInfo =>
        if String.eqb signedTransactionInfo EmptyString
        then Err (apple_invalid "query" (New "apple response omitted signed transaction info"))
        else
          let* artifact := wrap_result (apple_invalid "query") (NewEvidence "application/json" text) in
          Ok (signedTransactionInfo, artifact)
    end.

(* internal/stores/apple/subscription.go: validateStatusResponseScope *)
Definition validateStatusResponseScope (application : Application) (configuration : configuration)
    (response : statusResponse) : error :=
  (match appleEnvironment (sa_Environment (app_Store application)) with
   | Err _ => Some (New "apple subscription status application scope mismatch")
   | Ok environment =>
       refuse_if (negb (String.eqb (sr_Environment response) environment)
                  || negb (String.eqb (sr_BundleID response) (cfg_bundleID configuration)))
         (New "apple subscription status application scope mismatch")
   end) ;;?
  refuse_if (String.eqb (sa_Environment (app_Store application)) EnvironmentProduction
             && negb (sr_AppAppleID response =? cfg_appAppleID configuration))
    (New "apple subscription status App Apple ID mismatch").

(* internal/stores/apple/subscription.go: Adapter.querySubscriptionStatus *)
Definition querySubscriptionStatus (application : Application) (configuration : configuration)
    (originalTransactionID : string) : result (transactionPayload * renewalPayload * Z * Evidence) :=
  let invalid := apple_invalid "subscription_status" in
  if String.eqb (TrimSpace originalTransactionID) EmptyString
  then Err (invalid (New "apple original transaction ID is required"))
  else
    let* token := wrap_result (fun e => NewFailure ProviderAppleAppStore "token" FailurePermanent 0 (Some e))
                    (authorizationToken configuration) in
    let* answer := apple_do (apple_base application ++ "/inApps/v1/subscriptions/" ++ PathEscape originalTransactionID)%string token in
    let '(text, response) := answer in
    try* apple_classifyProviderStatus "subscription_status" response in
    match UnmarshalStatus text with
    | None => Err (invalid (New "apple subscription status response is invalid"))
    | Some statuses =>
        match validateStatusResponseScope application configuration statuses with
        | Some e => Err (invalid e)
        | None =>
            let* item := wrap_result invalid (selectSubscriptionStatus statuses originalTransactionID) in
            let* transaction := wrap_result invalid
              (verifyTransactionJWS (li_SignedTransactionInfo item) (cfg_roots configuration)) in
            let* renewal := wrap_result invalid
              (verifyRenewalJWS (li_SignedRenewalInfo item) (cfg_roots configuration)) in
            let* artifact := wrap_result invalid (NewEvidence "application/json" text) in
            Ok (transaction, renewal, li_Status item, artifact)
        end
    end.

(** ** Operations *)

(* internal/stores/apple/adapter.go: parseEvidence *)
Definition apple_parseEvidence (evidence : Evidence) : result clientEvidence :=
  if negb (String.eqb (ev_ContentType evidence) AppleEvidenceContentType)
  then Err (New "unsupported Apple evidence content type")
  else
    let* envelope := DecodeClientEvidence (Evidence_Bytes evidence) in
    if String.eqb (ce_SignedTransaction envelope) EmptyString
    then Err (New "apple signed transaction is required")
    else if negb (String.eqb (ce_ProductKind envelope) ProductKindSubscription)
            && negb (String.eqb (ce_ProductKind envelope) ProductKindNonConsumable)
    then Err (New "unsupported Apple product kind")
    else Ok envelope.

(** Fail with invalid evidence. *)
Definition apple_check {A} (operation : string) (e : error) (k : result A) : result A :=
  match e with Some x => Err (apple_invalid operation x) | None => k end.

(* internal/stores/apple/adapter.go: Adapter.Verify *)
Definition apple_Verify (request : VerificationRequest) : result VerificationResult :=
  let check {A} := @apple_check A "verify" in
  let invalid := apple_invalid "verify" in
  check (VerificationRequest_Validate request) (
  let* evidence := wrap_result invalid (apple_parseEvidence (vq_Evidence request)) in
  let* configuration := apple_configuration (vq_Application request) in
  let kind := ce_ProductKind evidence in
  let bundleID := cfg_bundleID configuration in
  let* submitted := wrap_result invalid
    (verifyTransactionJWS (ce_SignedTransaction evidence) (cfg_roots configuration)) in
  check (validateTransactionScope request bundleID kind submitted true) (
  if String.eqb kind ProductKindSubscription then
    let* latest := querySubscriptionStatus (vq_Application request) configuration
                     (tp_OriginalTransactionID submitted) in
    let '(transaction, renewal, code, artifact) := latest in
    check (validateTransactionScope request bundleID kind transaction false) (
    check (refuse_if (negb (String.eqb (tp_OriginalTransactionID transaction)
                              (tp_OriginalTransactionID submitted))
                      || negb (String.eqb (tp_AppAccountToken transaction) (tp_AppAccountToken submitted)))
             (New "apple subscription lineage does not match submitted evidence")) (
    check (validateRenewalScope (vq_Application request) transaction renewal) (
    apple_result now (vq_Application request) kind transaction artifact
      (Some (mkSnapshot code renewal)))))
  else
    let* answer := apple_query (vq_Application request) configuration (tp_TransactionID submitted) in
    let '(authoritativeJWS, artifact) := answer in
    let* authoritative := wrap_result invalid
      (verifyTransactionJWS authoritativeJWS (cfg_roots configuration)) in
    check (validateTransactionScope request bundleID kind authoritative true) (
    check (compareTransactions submitted authoritative) (
    apple_result now (vq_Application request) kind authoritative artifact None)))).

(** The first query reference of the kind "transaction_id". *)
(* internal/stores/apple/adapter.go:224-230: Adapter.Reconcile *)
Definition apple_transaction_reference (references : list StoreReference) : string :=
  match List.find (fun reference => String.eqb (ref_Kind reference) "transaction_id") references with
  | Some reference => StoreReference_Value reference
  | None => EmptyString
  end.

(* internal/stores/apple/adapter.go: Adapter.Reconcile *)
Definition apple_Reconcile (request : ReconciliationRequest) : result VerificationResult :=
  let check {A} := @apple_check A "reconcile" in
  let invalid := apple_invalid "reconcile" in
  check (ReconciliationRequest_Validate request) (
  check (refuse_if (negb (Nat.eqb (length (rq_ExpectedProducts request)) 1))
           (New "apple reconciliation requires one expected product")) (
  let transactionID := apple_transaction_reference (rq_QueryReferences request) in
  check (refuse_if (String.eqb transactionID EmptyString)
           (New "apple reconciliation requires a transaction ID")) (
  let* configuration := apple_configuration (rq_Application request) in
  let bundleID := cfg_bundleID configuration in
  let* answer := apple_query (rq_Application request) configuration transactionID in
  let '(authoritativeJWS, artifact) := answer in
  let* authoritative := wrap_result invalid
    (verifyTransactionJWS authoritativeJWS (cfg_roots configuration)) in
  let* kind := wrap_result invalid (apple_productKind (tp_Type authoritative)) in
  check (refuse_if (negb (String.eqb kind (rq_ExpectedProductKind request)))
           (New "authoritative Apple product kind mismatch")) (
  let verificationRequest := mkVerificationRequest (rq_Application request) (rq_CustomerID request)
    (rq_ExpectedProducts request) (rq_ExpectedCustomerBindings request)
    (mkEvidence EmptyString EmptyString) in
  check (validateTransactionScope verificationRequest bundleID kind authoritative true) (
  if String.eqb kind ProductKindSubscription then
    let* latest := querySubscriptionStatus (rq_Application request) configuration
                     (tp_OriginalTransactionID authoritative) in
    let '(transaction, renewal, code, statusArtifact) := latest in
    check (validateTransactionScope verificationRequest bundleID kind transaction false) (
    check (validateRenewalScope (rq_Application request) transaction renewal) (
    apple_result now (rq_Application request) kind transaction statusArtifact
      (Some (mkSnapshot code renewal))))
  else apple_result now (rq_Application request) kind authoritative artifact None))))).

End JWS.

(** ** Lemmas *)

(** What [result] returns for one transaction. *)
Record apple_observed (now : time) (application : Application) (kind : ProductKind)
    (transaction : transactionPayload) (artifact : Evidence) (subscription : option subscriptionSnapshot)
    (r : VerificationResult) (o : PurchaseObservation) : Prop := {
  ao_result : r = mkVerificationResult now [mkArtifact (appleArtifactKind kind) artifact] [o] [] [];
  ao_valid : PurchaseObservation_Validate o = None;
  ao_scope : obs_ApplicationID o = app_ID application /\ obs_Store o = app_Store application;
  ao_product : obs_ProductID o = tp_ProductID transaction /\ obs_ProductKind o = kind;
  ao_decision : apple_decision kind transaction subscription now
    = Ok (obs_State o, obs_Access o, obs_AccessReason o, EndsAt (obs_EffectivePeriod o), obs_Renewal o);
  ao_references : make_references (apple_candidates transaction) = Ok (obs_References o)
}.

Lemma apple_result_ok now application kind transaction artifact subscription r :
  apple_result now application kind transaction artifact subscription = Ok r ->
  exists o, apple_observed now application kind transaction artifact subscription r o.
Proof.
  unfold apple_result. intros H. apply bind_result_ok in H as (decision & Hd & H).
  destruct decision as [[[[state access] reason] endsAt] renewal].
  apply bind_result_ok in H as (price & _ & H).
  apply bind_result_ok in H as (references & Hr & H). apply wrap_result_ok in Hr.
  match type of H with context [PurchaseObservation_Validate ?x] => remember x as o eqn:Ho end.
  destruct (PurchaseObservation_Validate o) as [e|] eqn:Hv; [done|].
  exists o. split; [congruence|done| | | |]; rewrite Ho;
    cbn [obs_ApplicationID obs_Store obs_ProductID obs_ProductKind obs_State obs_Access obs_AccessReason
         obs_EffectivePeriod obs_Renewal obs_References EndsAt]; auto.
Qed.

(** ** Access *)

Lemma UnixMilli_milliseconds v : 0 < v -> milliseconds v = UnixMilli v.
Proof. intros Hv. unfold milliseconds. destruct (Z.leb_spec v 0); [lia|done]. Qed.

Lemma subscription_access now transaction snapshot state access reason endsAt renewal :
  (sub_Status snapshot =? subscriptionStatusActive) && (tp_ExpiresDate transaction <=? 0) = false ->
  normalizeSubscriptionStatus transaction snapshot now = (state, access, reason, endsAt, renewal) ->
  let expires := milliseconds (tp_ExpiresDate transaction) in
  let grace := milliseconds (rp_GracePeriodExpiresDate (sub_Renewal snapshot)) in
  (access = AccessAllowed <->
     tp_RevocationDate transaction <= 0 /\
     ((sub_Status snapshot = subscriptionStatusActive /\ now - 5 * Minute < expires) \/
      (sub_Status snapshot = subscriptionStatusGracePeriod /\
       0 < rp_GracePeriodExpiresDate (sub_Renewal snapshot) /\ now < grace))) /\
  (access = AccessAllowed -> exists e, endsAt = Some e /\ now < e /\
     (e = expires \/ (expires <= now /\ e = expires + 5 * Minute) \/ e = grace)).
Proof.
  intros Hmissing Hd. cbv zeta.
  unfold normalizeSubscriptionStatus, apple_normalizeState, optionalMilliseconds, After in Hd.
  change (5 * Minute) with maximumNotificationClockSkew.
  destruct (Z.ltb_spec 0 (tp_RevocationDate transaction)).
  { destruct (String.eqb _ _); injection Hd as _ <- _ <- _; (split; [split; [done|]|done]); lia. }
  destruct (Z.eqb_spec (sub_Status snapshot) subscriptionStatusActive) as [E1|E1].
  { simpl in Hmissing. rewrite Hmissing in Hd. rewrite E1.
    destruct (Z.ltb_spec (now - maximumNotificationClockSkew) (milliseconds (tp_ExpiresDate transaction)));
      simpl in Hd.
    - assert (Hacc : access = AccessAllowed) by (destruct (String.eqb _ _); congruence).
      split; [split; [intros _; auto|auto]|]. intros _.
      assert (Hend : endsAt =
                if negb (now <? milliseconds (tp_ExpiresDate transaction))
                then Some (milliseconds (tp_ExpiresDate transaction) + maximumNotificationClockSkew)
                else Some (milliseconds (tp_ExpiresDate transaction)))
        by (destruct (String.eqb _ _); congruence).
      rewrite Hend. destruct (Z.ltb_spec now (milliseconds (tp_ExpiresDate transaction))); simpl;
        eexists; (split; [reflexivity|]); [auto|]. split; [lia|]. right. left. lia.
    - injection Hd as _ <- _ <- _. split; [|done]. split; [done|]. intros (_ & [[_ ?]|[? _]]); [lia|done]. }
  destruct (Z.eqb_spec (sub_Status snapshot) subscriptionStatusExpired) as [E2|E2];
    [injection Hd as _ <- _ <- _; rewrite E2; split; [split; [done|]|done]; intros (_ & [[? _]|[? _]]); done|].
  destruct (Z.eqb_spec (sub_Status snapshot) subscriptionStatusBillingRetry) as [E3|E3];
    [injection Hd as _ <- _ <- _; rewrite E3; split; [split; [done|]|done]; intros (_ & [[? _]|[? _]]); done|].
  destruct (Z.eqb_spec (sub_Status snapshot) subscriptionStatusGracePeriod) as [E4|E4].
  { rewrite E4. destruct (Z.leb_spec (rp_GracePeriodExpiresDate (sub_Renewal snapshot)) 0).
    - injection Hd as _ <- _ <- _. split; [split; [done|]|done]. intros (_ & [[? _]|(_ & ? & _)]); [done|lia].
    - destruct (Z.ltb_spec now (milliseconds (rp_GracePeriodExpiresDate (sub_Renewal snapshot))));
        injection Hd as _ <- _ <- _.
      + split; [split; [intros _; auto 6|done]|]. intros _. eexists. split; [reflexivity|]. auto.
      + split; [split; [done|]|done]. intros (_ & [[? _]|(_ & _ & ?)]); [done|lia]. }
  destruct (sub_Status snapshot =? subscriptionStatusRevoked); injection Hd as _ <- _ <- _;
    (split; [split; [done|]|done]); intros (_ & [[? _]|[? _]]); done.
Qed.

(** C4. Apple access is never granted beyond what Apple signed: a subscription is
    allowed exactly when it is not revoked and is either active with a signed
    expiry later than five minutes ago, or in a grace period that has not ended;
    its published end is the signed expiry (plus the five-minute allowance when it
    has just passed) or the grace end, and is always in the future.  Any other
    product is allowed exactly when it is not revoked. *)
Theorem apple_access_sound (now : time) (application : Application) (kind : ProductKind)
    (transaction : transactionPayload) (artifact : Evidence)
    (subscription : option subscriptionSnapshot) (r : VerificationResult) (o : PurchaseObservation) :
  apple_result now application kind transaction artifact subscription = Ok r ->
  In o (vr_Observations r) ->
  let expires := milliseconds (tp_ExpiresDate transaction) in
  (kind <> ProductKindSubscription ->
     (obs_Access o = AccessAllowed <-> tp_RevocationDate transaction <= 0)) /\
  (kind = ProductKindSubscription ->
     exists snapshot, subscription = Some snapshot /\
     let grace := milliseconds (rp_GracePeriodExpiresDate (sub_Renewal snapshot)) in
     (obs_Access o = AccessAllowed <->
        tp_RevocationDate transaction <= 0 /\
        ((sub_Status snapshot = subscriptionStatusActive /\ now - 5 * Minute < expires) \/
         (sub_Status snapshot = subscriptionStatusGracePeriod /\
          0 < rp_GracePeriodExpiresDate (sub_Renewal snapshot) /\ now < grace))) /\
     (obs_Access o = AccessAllowed -> exists e, EndsAt (obs_EffectivePeriod o) = Some e /\ now < e /\
        (e = expires \/ (expires <= now /\ e = expires + 5 * Minute) \/ e = grace))).
Proof.
  intros H Hin. destruct (apple_result_ok _ _ _ _ _ _ _ H) as [o' [Hr _ _ _ Hd _]].
  rewrite Hr in Hin. destruct Hin as [<-|[]]. cbv zeta. unfold apple_decision in Hd. split.
  - intros Hk. rewrite (proj2 (String.eqb_neq _ _) Hk) in Hd. unfold apple_normalizeState in Hd.
    rewrite (proj2 (String.eqb_neq _ _) Hk) in Hd.
    destruct (Z.ltb_spec 0 (tp_RevocationDate transaction)); simpl in Hd;
      [destruct (String.eqb _ _)|]; injection Hd as _ <- _ _ _; split; intros; try done; lia.
  - intros ->. cbn [String.eqb] in Hd. rewrite String.eqb_refl in Hd.
    destruct subscription as [snapshot|]; [|done]. exists snapshot. split; [done|].
    destruct (andb _ _) eqn:Hmissing in Hd; [done|]. injection Hd as Hd.
    by eapply subscription_access.
Qed.

(** ** The adapter keeps the port's contract *)

Lemma scope_facts request bundleID kind transaction claimed :
  validateTransactionScope request bundleID kind transaction claimed = None ->
  tp_TransactionID transaction <> EmptyString /\ tp_ProductID transaction <> EmptyString /\
  tp_AppAccountToken transaction <> EmptyString /\
  (claimed = true -> vq_ClaimedProducts request = [] \/
                     vq_ClaimedProducts request = [tp_ProductID transaction]) /\
  exists binding, In binding (vq_ExpectedCustomerBindings request) /\
    ref_Kind binding = "app_account_token"%string /\
    StoreReference_Value binding = tp_AppAccountToken transaction.
Proof.
  unfold validateTransactionScope. rewrite !seq_err_nil, !refuse_if_nil.
  intros (H1 & _ & _ & H2 & H3 & _ & H4). rewrite !orb_false_iff, !String.eqb_neq in H1.
  apply String.eqb_neq in H3. apply negb_false_iff, existsb_exists in H4 as (b & Hb & Hv).
  apply andb_true_iff in Hv as [Hk Hv]. apply String.eqb_eq in Hk, Hv.
  split_and!; try tauto; [|eauto]. intros ->. destruct (vq_ClaimedProducts request) as [|p [|q l]] eqn:E;
    simpl in H2; [by left| |done]. right. f_equal.
  apply negb_false_iff, orb_true_iff in H2 as [H2|H2]; [|done]. symmetry. by apply String.eqb_eq.
Qed.

(** The observation shows the account binding and the transaction it was built from. *)
Lemma observed_references now application kind transaction artifact subscription r o :
  apple_observed now application kind transaction artifact subscription r o ->
  (tp_AppAccountToken transaction <> EmptyString ->
     In (mkStoreReference ReferenceCustomerBinding "app_account_token" (tp_AppAccountToken transaction))
        (obs_References o)) /\
  (forall q, In q (obs_References o) /\ ref_Role q = ReferenceQuery <->
     tp_TransactionID transaction <> EmptyString /\
     q = mkStoreReference ReferenceQuery "transaction_id" (tp_TransactionID transaction)).
Proof.
  intros [_ _ _ _ _ Hrefs]. pose proof (make_references_In _ _ Hrefs) as Hin. split.
  - intros Hne. apply Hin. do 3 eexists. split; [|split; [exact Hne|reflexivity]].
    unfold apple_candidates. simpl. auto.
  - intros q. rewrite Hin. split.
    + intros ((role & kind' & value & Hc & Hne & ->) & Hrole). simpl in Hrole. subst role.
      unfold apple_candidates in Hc. simpl in Hc.
      destruct Hc as [[=]|[[=]|[[= <- <-]|[[=]|[]]]]]. auto.
    + intros [Hne ->]. split; [|done]. do 3 eexists. split; [|split; [exact Hne|reflexivity]].
      unfold apple_candidates. simpl. auto.
Qed.

Lemma apple_products claimed at_ artifact o :
  claimed = [] \/ (exists c, claimed = [c] /\ (obs_ProductKind o = ProductKindSubscription \/ c = obs_ProductID o)) ->
  let products := productsForValidation ProviderAppleAppStore claimed
                    (mkVerificationResult at_ [artifact] [o] [] []) in
  products = [] \/ products = [obs_ProductID o].
Proof.
  intros H products. unfold products, productsForValidation, ProductsForClaim, claimedProductsForValidation.
  destruct H as [->|(c & -> & H)]; [by left|]. right. simpl.
  destruct (String.eqb_spec (obs_ProductID o) c) as [->|Hne].
  - by rewrite orb_true_r.
  - destruct H as [->|?]; [done|congruence].
Qed.

(** The one query reference of an observation. *)
Lemma query_references transaction references o :
  make_references (apple_candidates transaction) = Ok references -> obs_References o = references ->
  tp_TransactionID transaction <> EmptyString ->
  ReferencesFor o ReferenceQuery
    = [mkStoreReference ReferenceQuery "transaction_id" (tp_TransactionID transaction)].
Proof.
  unfold ReferencesFor, apple_candidates, NewStoreReference. cbn [make_references]. intros H -> Hne.
  unfold NewStoreReference in H. rewrite (proj2 (String.eqb_neq _ _) Hne) in H.
  repeat first [ destruct (String.eqb _ EmptyString) in H
               | match type of H with context [try_err ?e _] => destruct e; [discriminate H|]; cbn [try_err bind_result] in H end ];
    injection H as <-; reflexivity.
Qed.

Lemma apple_check_ok {A} operation e (k : result A) a :
  apple_check operation e k = Ok a <-> e = None /\ k = Ok a.
Proof. destruct e; simpl; naive_solver. Qed.

Section Contract.
Context `{Horder : !GoMapRange} `{Lib : AppleLibrary}.
Context (credentials : Application -> string -> result Credential).
Context (authorizationToken : configuration -> result string).
Context (transport : string -> string -> result http_response).
Context (now : time).

Lemma configuration_provider application c :
  apple_configuration credentials application = Ok c ->
  sa_Provider (app_Store application) = ProviderAppleAppStore.
Proof.
  unfold apple_configuration. intros H.
  destruct (credentials application AppleCredentialKind); [|done].
  destruct (_ || _) in H; [done|]. destruct (DecodeCredential _) in H; [|done].
  destruct (_ || _) in H; [done|].
  destruct (String.eqb_spec (sa_Provider (app_Store application)) ProviderAppleAppStore); done.
Qed.

Lemma query_artifact application c id jws artifact :
  apple_query authorizationToken transport now application c id = Ok (jws, artifact) ->
  Evidence_Validate artifact = None.
Proof.
  unfold apple_query. intros H. destruct (String.eqb _ _); [done|].
  apply bind_result_ok in H as (token & _ & H). apply bind_result_ok in H as ([text response] & _ & H).
  apply try_err_ok in H as [_ H]. destruct (UnmarshalTransactionInfo text); [|done].
  destruct (String.eqb _ _); [done|]. apply bind_result_ok in H as (e & He & [= _ <-]).
  apply wrap_result_ok in He. by apply NewEvidence_ok in He.
Qed.

Lemma status_artifact application c id t renewal code artifact :
  querySubscriptionStatus authorizationToken transport now application c id = Ok (t, renewal, code, artifact) ->
  Evidence_Validate artifact = None.
Proof.
  unfold querySubscriptionStatus. intros H. destruct (String.eqb _ _); [done|].
  apply bind_result_ok in H as (token & _ & H). apply bind_result_ok in H as ([text response] & _ & H).
  apply try_err_ok in H as [_ H]. destruct (UnmarshalStatus text); [|done].
  destruct (validateStatusResponseScope _ _ _); [done|].
  apply bind_result_ok in H as (item & _ & H). apply bind_result_ok in H as (t' & _ & H).
  apply bind_result_ok in H as (rn & _ & H). apply bind_result_ok in H as (e & He & [= _ _ _ <-]).
  apply wrap_result_ok in He. by apply NewEvidence_ok in He.
Qed.

(** A result built for a checked transaction is well formed for its request. *)
Lemma observed_wf application kind transaction artifact subscription r o request queries bundleID claimed :
  apple_observed now application kind transaction artifact subscription r o ->
  now <> 0 -> application = vq_Application request -> Evidence_Validate artifact = None ->
  Forall (fun b => ref_Role b = ReferenceCustomerBinding) (vq_ExpectedCustomerBindings request) ->
  validateTransactionScope request bundleID kind transaction claimed = None ->
  (claimed = false -> kind = ProductKindSubscription /\
     (vq_ClaimedProducts request = [] \/ exists c, vq_ClaimedProducts request = [c])) ->
  shares_reference o ReferenceQuery queries ->
  let products := productsForValidation ProviderAppleAppStore (vq_ClaimedProducts request) r in
  result_wf r application products (vq_ExpectedCustomerBindings request) queries /\
  Forall identifier_ok products /\ NoDup products.
Proof.
  intros Hobs Hnow -> Hart Hroles Hscope Hcl Hq products. pose proof (observed_references _ _ _ _ _ _ _ _ Hobs) as [Hbind _].
  destruct Hobs as [Hr Hv Happ [Hprod Hkind] _ _].
  destruct (scope_facts _ _ _ _ _ Hscope) as (_ & _ & Htok & Hclaim & (b & Hb & Hbk & Hbv)).
  rewrite List.Forall_forall in Hroles. pose proof (Hroles b Hb) as Hrole.
  assert (Hpr : products = [] \/ products = [obs_ProductID o]).
  { unfold products. rewrite Hr. apply apple_products. destruct claimed.
    - destruct (Hclaim eq_refl) as [->| ->]; [by left|]. right. eexists. split; [reflexivity|]. by right.
    - destruct (Hcl eq_refl) as [-> [->|(c & ->)]]; [by left|]. right. eauto. }
  assert (Hid : identifier_ok (obs_ProductID o)).
  { apply observation_parts in Hv. destruct Hv as [(_ & _ & ? & _) _ _ _ _ _ _ _ _ _ _ _ _ _]. done. }
  split; [|destruct Hpr as [->| ->]; split;
    [by apply Forall_nil|by apply NoDup_nil|by apply Forall_singleton|apply NoDup_singleton]].
  rewrite Hr. apply single_wf; auto.
  - unfold VerifiedArtifact_Validate. rewrite seq_err_nil. split; [|done]. unfold appleArtifactKind.
    cbn [art_Kind]. by destruct (String.eqb kind ProductKindSubscription).
  - right. exists b. split; [|done]. destruct b as [role kd v]. cbn in Hrole, Hbk, Hbv. subst. by apply Hbind.
Qed.
End Contract.

(** A result built for a checked transaction passes the service's validation. *)
Lemma verify_result_checked `{Horder : !GoMapRange} `{Lib : AppleLibrary} credentials now
    (request : VerificationRequest) r cfg bundleID kind claimed transaction artifact subscription :
  now <> 0 -> VerificationRequest_Validate request = None ->
  apple_configuration credentials (vq_Application request) = Ok cfg ->
  Evidence_Validate artifact = None ->
  validateTransactionScope request bundleID kind transaction claimed = None ->
  (claimed = false -> kind = ProductKindSubscription /\
     (vq_ClaimedProducts request = [] \/ exists c, vq_ClaimedProducts request = [c])) ->
  apple_result now (vq_Application request) kind transaction artifact subscription = Ok r ->
  checked_verification request r.
Proof.
  intros Hnow Hreq Hcfg Hart Hsc Hcl Hr. pose proof (configuration_provider _ _ _ Hcfg) as Hprov.
  destruct (apple_result_ok _ _ _ _ _ _ _ Hr) as [o Ho].
  destruct (observed_wf now _ _ _ _ _ _ _ request [] _ _ Ho Hnow eq_refl Hart (request_roles _ Hreq) Hsc Hcl (or_introl eq_refl))
    as (Hwf & Hids & Hnd).
  unfold checked_verification, ValidateForVerification. rewrite Hprov, seq_err_nil, wrap_err_nil.
  split; [by apply request_products|]. by apply result_validate_parts.
Qed.

Lemma parseEvidence_kind `{Lib : AppleLibrary} evidence e :
  apple_parseEvidence evidence = Ok e ->
  DecodeClientEvidence (Evidence_Bytes evidence) = Ok e /\
  (ce_ProductKind e = ProductKindSubscription \/ ce_ProductKind e = ProductKindNonConsumable).
Proof.
  unfold apple_parseEvidence. intros H. destruct (negb _) in H; [done|].
  apply bind_result_ok in H as (e' & He & H). destruct (String.eqb _ EmptyString) in H; [done|].
  destruct (String.eqb_spec (ce_ProductKind e') ProductKindSubscription);
    destruct (String.eqb_spec (ce_ProductKind e') ProductKindNonConsumable); simpl in H; try done;
    injection H as ->; auto.
Qed.

Lemma compare_facts submitted current :
  compareTransactions submitted current = None ->
  tp_TransactionID current = tp_TransactionID submitted /\
  tp_OriginalTransactionID current = tp_OriginalTransactionID submitted /\
  tp_BundleID current = tp_BundleID submitted /\ tp_ProductID current = tp_ProductID submitted /\
  tp_AppAccountToken current = tp_AppAccountToken submitted.
Proof.
  unfold compareTransactions. rewrite refuse_if_nil, !orb_false_iff, !negb_false_iff, !String.eqb_eq.
  naive_solver.
Qed.

(** ** What the adapter believes, spelled out *)

(** A transaction of the stored application and environment, of the submitted
    kind, bound to one of the expected accounts. *)
Record in_scope (request : VerificationRequest) (kind : ProductKind) (t : transactionPayload) : Prop := {
  is_identified : tp_TransactionID t <> EmptyString /\ tp_OriginalTransactionID t <> EmptyString /\
    tp_ProductID t <> EmptyString;
  is_application : tp_BundleID t = sa_ID (app_Store (vq_Application request));
  is_environment :
    (sa_Environment (app_Store (vq_Application request)) = EnvironmentProduction /\
     tp_Environment t = "Production"%string) \/
    (sa_Environment (app_Store (vq_Application request)) = EnvironmentSandbox /\
     tp_Environment t = "Sandbox"%string);
  is_kind : (tp_Type t = appleSubscriptionType /\ kind = ProductKindSubscription) \/
            (tp_Type t = appleNonConsumableType /\ kind = ProductKindNonConsumable);
  is_bound : tp_AppAccountToken t <> EmptyString /\
    exists binding, In binding (vq_ExpectedCustomerBindings request) /\
      ref_Kind binding = "app_account_token"%string /\
      StoreReference_Value binding = tp_AppAccountToken t
}.

Lemma scope_in_scope request bundleID kind t claimed :
  validateTransactionScope request bundleID kind t claimed = None -> in_scope request kind t.
Proof.
  intros H. destruct (scope_facts _ _ _ _ _ H) as (Hid & Hp & Ht & _ & Hb).
  unfold validateTransactionScope in H. rewrite !seq_err_nil, !refuse_if_nil in H.
  destruct H as (H1 & H2 & H3 & _). rewrite !orb_false_iff, !String.eqb_neq, !negb_false_iff, !String.eqb_eq in H1.
  split; [tauto|tauto| | |by split].
  - unfold appleEnvironment in H2. destruct (String.eqb_spec (sa_Environment (app_Store (vq_Application request))) EnvironmentProduction).
    { left. split; [done|]. apply refuse_if_nil, negb_false_iff, String.eqb_eq in H2. done. }
    destruct (String.eqb_spec (sa_Environment (app_Store (vq_Application request))) EnvironmentSandbox); [|done].
    right. split; [done|]. apply refuse_if_nil, negb_false_iff, String.eqb_eq in H2. done.
  - unfold apple_productKind in H3. destruct (String.eqb_spec (tp_Type t) appleSubscriptionType).
    { left. split; [done|]. apply refuse_if_nil, negb_false_iff, String.eqb_eq in H3. done. }
    destruct (String.eqb_spec (tp_Type t) appleNonConsumableType); [|done].
    right. split; [done|]. apply refuse_if_nil, negb_false_iff, String.eqb_eq in H3. done.
Qed.

Section Answers.
Context `{Lib : AppleLibrary}.
Context (credentials : Application -> string -> result Credential).
Context (authorizationToken : configuration -> result string).
Context (transport : string -> string -> result http_response) (now : time).

(** Apple's server of the application's environment answered a path with a
    success and that text. *)
Definition apple_said (application : Application) (path text : string) : Prop :=
  exists host token response,
    host = (if String.eqb (sa_Environment (app_Store application)) EnvironmentSandbox
            then "https://api.storekit-sandbox.apple.com" else "https://api.storekit.apple.com")%string /\
    transport (host ++ path)%string token = Ok response /\ body response = Ok text /\
    200 <= status response < 300.

(** The current transaction Apple's answer names for a submitted one: that of
    the submitted subscription lineage, or the submitted transaction itself. *)
Definition apple_current (request : VerificationRequest) (cfg : configuration) (kind : ProductKind)
    (submitted current : transactionPayload) (text : string) : Prop :=
  (kind = ProductKindSubscription /\
   apple_said (vq_Application request)
     ("/inApps/v1/subscriptions/" ++ PathEscape (tp_OriginalTransactionID submitted))%string text /\
   exists statuses group item, UnmarshalStatus text = Some statuses /\ In group (sr_Data statuses) /\
     In item (gi_LastTransactions group) /\
     li_OriginalTransactionID item = tp_OriginalTransactionID submitted /\
     verifyTransactionJWS (li_SignedTransactionInfo item) (cfg_roots cfg) = Ok current /\
     tp_OriginalTransactionID current = tp_OriginalTransactionID submitted /\
     tp_AppAccountToken current = tp_AppAccountToken submitted) \/
  (kind = ProductKindNonConsumable /\
   apple_said (vq_Application request)
     ("/inApps/v1/transactions/" ++ PathEscape (tp_TransactionID submitted))%string text /\
   exists jws, UnmarshalTransactionInfo text = Some jws /\
     verifyTransactionJWS jws (cfg_roots cfg) = Ok current /\
     tp_TransactionID current = tp_TransactionID submitted /\
     tp_OriginalTransactionID current = tp_OriginalTransactionID submitted /\
     tp_BundleID current = tp_BundleID submitted /\
     tp_ProductID current = tp_ProductID submitted /\
     tp_AppAccountToken current = tp_AppAccountToken submitted).

Lemma do_said operation application path token text response :
  apple_do transport (apple_base application ++ path)%string token = Ok (text, response) ->
  apple_classifyProviderStatus now operation response = None ->
  apple_said application path text.
Proof.
  unfold apple_do. intros H Hs. destruct (transport _ token) as [response'|] eqn:Ht; [|done].
  destruct (body response') as [text'|] eqn:Hb; [|done]. destruct (_ <? _); [done|]. injection H as -> ->.
  do 3 eexists. split; [reflexivity|]. split; [|split; [exact Hb|]].
  - rewrite <- Ht. f_equal. f_equal. unfold apple_base. by destruct (String.eqb _ _).
  - unfold apple_classifyProviderStatus in Hs. destruct (Z.leb_spec 200 (status response)), (Z.ltb_spec (status response) 300); simpl in Hs; try lia.
    all: repeat (case_match; try done).
Qed.

Lemma status_said application c id t renewal code artifact :
  querySubscriptionStatus authorizationToken transport now application c id = Ok (t, renewal, code, artifact) ->
  apple_said application ("/inApps/v1/subscriptions/" ++ PathEscape id)%string (Evidence_Bytes artifact) /\
  exists statuses group item, UnmarshalStatus (Evidence_Bytes artifact) = Some statuses /\ In group (sr_Data statuses) /\
    In item (gi_LastTransactions group) /\ li_OriginalTransactionID item = id /\
    verifyTransactionJWS (li_SignedTransactionInfo item) (cfg_roots c) = Ok t.
Proof.
  unfold querySubscriptionStatus. intros H. destruct (String.eqb _ _); [done|].
  apply bind_result_ok in H as (token & _ & H). apply bind_result_ok in H as ([text response] & Hdo & H).
  apply try_err_ok in H as [Hs H]. destruct (UnmarshalStatus text) as [statuses|] eqn:Hu; [|done].
  destruct (validateStatusResponseScope _ _ _); [done|].
  apply bind_result_ok in H as (item & Hi & H). apply bind_result_ok in H as (t' & Hv & H).
  apply bind_result_ok in H as (rn & _ & H). apply bind_result_ok in H as (e & He & [= <- _ _ <-]).
  apply wrap_result_ok in He, Hv, Hi. unfold NewEvidence in He. apply try_err_ok in He as [_ [= <-]].
  change (Evidence_Bytes (mkEvidence "application/json" text)) with text.
  split; [by eapply do_said|]. unfold selectSubscriptionStatus in Hi.
  destruct (List.filter _ _) as [|selected [|? ?]] eqn:Hf in Hi; [done| |done].
  destruct (_ || _) in Hi; [done|]. injection Hi as ->.
  assert (Hin : In item [item]) by (by left). rewrite <- Hf in Hin.
  apply filter_In in Hin as [Hin Hid]. apply in_flat_map in Hin as (group & Hg & Hin).
  exists statuses, group, item. apply String.eqb_eq in Hid. done.
Qed.

Lemma apple_query_said application c id jws artifact :
  apple_query authorizationToken transport now application c id = Ok (jws, artifact) ->
  apple_said application ("/inApps/v1/transactions/" ++ PathEscape id)%string (Evidence_Bytes artifact) /\
  UnmarshalTransactionInfo (Evidence_Bytes artifact) = Some jws.
Proof.
  unfold apple_query. intros H. destruct (String.eqb _ _); [done|].
  apply bind_result_ok in H as (token & _ & H). apply bind_result_ok in H as ([text response] & Hdo & H).
  apply try_err_ok in H as [Hs H]. destruct (UnmarshalTransactionInfo text) eqn:Hu; [|done].
  destruct (String.eqb _ _); [done|]. apply bind_result_ok in H as (e & He & [= <- <-]).
  apply wrap_result_ok in He. unfold NewEvidence in He. apply try_err_ok in He as [_ [= <-]].
  split; [by eapply do_said|done].
Qed.

(** What [Verify] believed before it built its result. *)
Record apple_believed (request : VerificationRequest) (r : VerificationResult) (evidence : clientEvidence)
    (cfg : configuration) (submitted current : transactionPayload) (artifact : Evidence)
    (o : PurchaseObservation) : Prop := {
  ab_evidence : DecodeClientEvidence (Evidence_Bytes (vq_Evidence request)) = Ok evidence;
  ab_configuration : apple_configuration credentials (vq_Application request) = Ok cfg;
  ab_submitted : verifyTransactionJWS (ce_SignedTransaction evidence) (cfg_roots cfg) = Ok submitted /\
    in_scope request (ce_ProductKind evidence) submitted /\
    (vq_ClaimedProducts request = [] \/ vq_ClaimedProducts request = [tp_ProductID submitted]);
  ab_current : apple_current request cfg (ce_ProductKind evidence) submitted current (Evidence_Bytes artifact) /\
    in_scope request (ce_ProductKind evidence) current;
  ab_answer : vr_Observations r = [o] /\ map art_Evidence (vr_Artifacts r) = [artifact];
  ab_observation : obs_ApplicationID o = app_ID (vq_Application request) /\
    obs_Store o = app_Store (vq_Application request) /\ obs_ProductID o = tp_ProductID current /\
    obs_ProductKind o = ce_ProductKind evidence /\
    forall role kind value, In (mkStoreReference role kind value) (obs_References o) <->
      (role, kind, value) ∈
        [(ReferenceTransaction, "transaction_id"%string, tp_TransactionID current);
         (ReferenceLineage, "original_transaction_id"%string, tp_OriginalTransactionID current);
         (ReferenceQuery, "transaction_id"%string, tp_TransactionID current);
         (ReferenceCustomerBinding, "app_account_token"%string, tp_AppAccountToken current)]
}.

Lemma observed_spelled application kind t artifact subscription r o request :
  apple_observed now application kind t artifact subscription r o -> in_scope request kind t ->
  (vr_Observations r = [o] /\ map art_Evidence (vr_Artifacts r) = [artifact]) /\
  obs_ApplicationID o = app_ID application /\ obs_Store o = app_Store application /\
  obs_ProductID o = tp_ProductID t /\ obs_ProductKind o = kind /\
  forall role k value, In (mkStoreReference role k value) (obs_References o) <->
    (role, k, value) ∈ apple_candidates t.
Proof.
  intros [-> _ [? ?] [? ?] _ Hrefs] [(Hi & Ho & _) _ _ _ [Ht _]]. split; [done|]. split_and!; [done..|].
  intros role k value. rewrite (make_references_In _ _ Hrefs), list_elem_of_In. split.
  - by intros (? & ? & ? & Hin & _ & [= -> -> ->]).
  - intros Hin. exists role, k, value. split; [done|]. split; [|done].
    destruct Hin as [[= _ _ <-]|[[= _ _ <-]|[[= _ _ <-]|[[= _ _ <-]|[]]]]]; done.
Qed.
End Answers.

(** C3. The Apple adapter keeps its promise to the verification service: whatever
    it returns for a valid request passes the service's validation of that
    request, and shows the transaction Apple's server currently answers for the
    submitted one.  The submitted transaction is authentic, of the stored
    application, environment and kind, of an expected account and of the claimed
    product; the current one is authentic and in the same scope, and is either
    the submitted transaction itself or, for a subscription, the current
    transaction of the same lineage and account (whose product may differ). *)
Theorem apple_verify_checked `{Horder : !GoMapRange} `{Lib : AppleLibrary}
    (credentials : Application -> string -> result Credential)
    (authorizationToken : configuration -> result string)
    (transport : string -> string -> result http_response) (now : time)
    (request : VerificationRequest) (r : VerificationResult) :
  now <> 0 ->
  apple_Verify credentials authorizationToken transport now request = Ok r ->
  checked_verification request r /\
  exists evidence cfg submitted current artifact o,
    apple_believed credentials transport request r evidence cfg submitted current artifact o.
Proof.
  intros Hnow H. unfold apple_Verify in H. apply apple_check_ok in H as [Hreq H].
  apply bind_result_ok in H as (evidence & Hev & H). apply bind_result_ok in H as (cfg & Hcfg & H).
  apply bind_result_ok in H as (submitted & Hsub & H). apply apple_check_ok in H as [Hscope H].
  apply wrap_result_ok in Hev, Hsub. apply parseEvidence_kind in Hev as [Hev Hkinds].
  destruct (scope_facts _ _ _ _ _ Hscope) as (_ & _ & _ & Hclaim & _). specialize (Hclaim eq_refl).
  pose proof (scope_in_scope _ _ _ _ _ Hscope) as Hin.
  destruct (String.eqb_spec (ce_ProductKind evidence) ProductKindSubscription) as [Hk|Hk].
  - apply bind_result_ok in H as ([[[current renewal] code] artifact] & Hq & H).
    apply apple_check_ok in H as [Hsc H]. apply apple_check_ok in H as [Hline H].
    apply apple_check_ok in H as [_ H].
    apply refuse_if_nil, orb_false_iff in Hline as [Hl1 Hl2]. apply negb_false_iff, String.eqb_eq in Hl1, Hl2.
    pose proof (scope_in_scope _ _ _ _ _ Hsc) as Hin'. split.
    + eapply (verify_result_checked _ _ _ _ _ _ _ _ _ _ _ Hnow Hreq Hcfg (status_artifact _ _ _ _ _ _ _ _ _ _ Hq) Hsc); [|exact H].
      intros _. split; [done|]. destruct Hclaim; eauto.
    + destruct (apple_result_ok _ _ _ _ _ _ _ H) as [o Ho].
      destruct (observed_spelled _ _ _ _ _ _ _ _ _ Ho Hin') as (Ha & Hb).
      exists evidence, cfg, submitted, current, artifact, o. split; [done..| |done|done].
      split; [|done]. left. apply status_said in Hq as [Hq (statuses & group & item & ?)].
      split; [done|]. split; [done|]. exists statuses, group, item. naive_solver.
  - apply bind_result_ok in H as ([jws artifact] & Hq & H).
    apply bind_result_ok in H as (current & Hv & H). apply apple_check_ok in H as [Hsc H].
    apply apple_check_ok in H as [Hcmp H]. apply wrap_result_ok in Hv.
    pose proof (scope_in_scope _ _ _ _ _ Hsc) as Hin'. split.
    + by eapply (verify_result_checked _ _ _ _ _ _ _ _ _ _ _ Hnow Hreq Hcfg (query_artifact _ _ _ _ _ _ _ _ Hq) Hsc); [|exact H].
    + destruct (apple_result_ok _ _ _ _ _ _ _ H) as [o Ho].
      destruct (observed_spelled _ _ _ _ _ _ _ _ _ Ho Hin') as (Ha & Hb).
      exists evidence, cfg, submitted, current, artifact, o. split; [done..| |done|done].
      split; [|done]. right. apply apple_query_said in Hq as [Hq Hj]. destruct Hkinds as [?|Hkinds]; [done|].
      split; [done|]. split; [done|]. exists jws. split; [done|]. split; [done|]. by apply compare_facts.
Qed.

Lemma reconcile_result_checked `{Horder : !GoMapRange} now (request : ReconciliationRequest) r bundleID
    kind claimed transaction artifact subscription :
  let vrequest := mkVerificationRequest (rq_Application request) (rq_CustomerID request)
    (rq_ExpectedProducts request) (rq_ExpectedCustomerBindings request)
    (mkEvidence EmptyString EmptyString) in
  now <> 0 -> sa_Provider (app_Store (rq_Application request)) = ProviderAppleAppStore ->
  ReconciliationRequest_Validate request = None -> kind = rq_ExpectedProductKind request ->
  Evidence_Validate artifact = None ->
  validateTransactionScope vrequest bundleID kind transaction claimed = None ->
  (claimed = false -> kind = ProductKindSubscription /\
     (vq_ClaimedProducts vrequest = [] \/ exists c, vq_ClaimedProducts vrequest = [c])) ->
  apple_result now (rq_Application request) kind transaction artifact subscription = Ok r ->
  exists o current, vr_Observations r = [o] /\
    ReferencesFor o ReferenceQuery = [mkStoreReference ReferenceQuery "transaction_id" current] /\
    (checked_reconciliation request r <->
     In (mkStoreReference ReferenceQuery "transaction_id" current) (rq_QueryReferences request)).
Proof.
  intros vrequest Hnow Hprov Hreq Hkeq Hart Hsc Hcl Hr.
  destruct (apple_result_ok _ _ _ _ _ _ _ Hr) as [o Ho].
  destruct (scope_facts _ _ _ _ _ Hsc) as (Htid & _ & Htok & _).
  exists o, (tp_TransactionID transaction).
  pose proof (observed_references _ _ _ _ _ _ _ _ Ho) as [_ Hqref].
  pose proof Ho as [Hres Hval Happ [_ Hok] _ Hrefs].
  split; [by rewrite Hres|]. split.
  - by eapply query_references.
  - destruct (reconciliation_roles _ Hreq) as [Hroles Hqne].
    unfold checked_reconciliation, ValidateForReconciliation. rewrite Hprov, !seq_err_nil, wrap_err_nil.
    cbn [rq_Application rq_ExpectedProducts rq_ExpectedCustomerBindings rq_QueryReferences
         rq_ExpectedProductKind]. rewrite result_validate_parts. split.
    + intros (_ & [_ _ _ _ _ _ Hbound _ _ _ _] & _). rewrite Hres in Hbound. cbn [vr_Observations] in Hbound.
      apply Forall_cons in Hbound as [[_ [E|(q & Hq1 & Hq2 & Hq3)]] _]; [by rewrite E in Hqne|].
      destruct (proj1 (Hqref q) (conj Hq1 Hq2)) as [_ ->]. exact Hq3.
    + intros Hin.
      assert (Hshare : shares_reference o ReferenceQuery (rq_QueryReferences request)).
      { right. eexists. split; [apply (proj1 (proj2 (Hqref _) (conj Htid eq_refl)))|]. auto. }
      destruct (observed_wf now _ _ _ _ _ _ _ vrequest (rq_QueryReferences request) _ _ Ho Hnow eq_refl
                  Hart Hroles Hsc Hcl Hshare) as (Hwf & Hids & Hnd).
      split; [by apply reconciliation_products|]. split; [exact Hwf|].
      rewrite Hres. cbn [vr_Observations]. apply forEach_nil. intros i x Hx.
      apply list_lookup_singleton_Some in Hx as [_ <-]. apply refuse_if_nil, negb_false_iff.
      rewrite Hok, Hkeq. apply String.eqb_refl.
Qed.

(** A reconciliation answer of the Apple adapter passes the service's
    validation exactly when the caller asked with the identifier of the
    transaction that is now current: everything else (scope, binding, product,
    kind) is already guaranteed, but a subscription that renewed since the query
    reference was stored answers with its new transaction identifier only. *)
Theorem apple_reconcile_checked `{Horder : !GoMapRange} `{Lib : AppleLibrary}
    (credentials : Application -> string -> result Credential)
    (authorizationToken : configuration -> result string)
    (transport : string -> string -> result http_response) (now : time)
    (request : ReconciliationRequest) (r : VerificationResult) :
  now <> 0 ->
  apple_Reconcile credentials authorizationToken transport now request = Ok r ->
  exists o current, vr_Observations r = [o] /\
    ReferencesFor o ReferenceQuery = [mkStoreReference ReferenceQuery "transaction_id" current] /\
    (checked_reconciliation request r <->
     In (mkStoreReference ReferenceQuery "transaction_id" current) (rq_QueryReferences request)).
Proof.
  intros Hnow H. unfold apple_Reconcile in H. apply apple_check_ok in H as [Hreq H].
  apply apple_check_ok in H as [_ H]. apply apple_check_ok in H as [_ H].
  apply bind_result_ok in H as (cfg & Hcfg & H).
  pose proof (configuration_provider _ _ _ Hcfg) as Hprov.
  apply bind_result_ok in H as ([jws artifact0] & Hq & H).
  apply bind_result_ok in H as (authoritative & _ & H). apply bind_result_ok in H as (kind & Hkind & H).
  apply apple_check_ok in H as [Hkeq H]. apply apple_check_ok in H as [Hscope H].
  apply query_artifact in Hq.
  assert (Hkeq' : kind = rq_ExpectedProductKind request)
    by (apply refuse_if_nil, negb_false_iff in Hkeq; by apply String.eqb_eq).
  destruct (String.eqb_spec kind ProductKindSubscription) as [Hk|Hk].
  - apply bind_result_ok in H as ([[[transaction renewal] code] artifact] & Hq2 & H).
    apply apple_check_ok in H as [Hsc H]. apply apple_check_ok in H as [_ H]. apply status_artifact in Hq2.
    eapply (reconcile_result_checked _ _ _ _ _ _ _ _ _ Hnow Hprov Hreq Hkeq' Hq2 Hsc); [|exact H].
    intros _. split; [done|]. destruct (scope_facts _ _ _ _ _ Hscope) as (_ & _ & _ & Hcl & _). destruct (Hcl eq_refl); eauto.
  - by eapply (reconcile_result_checked _ _ _ _ _ _ _ _ _ Hnow Hprov Hreq Hkeq' Hq Hscope); [|exact H].
Qed.

(** What the checks of the header and of the chain leave. *)
Lemma jws_header_ok `{Lib : AppleLibrary} h b chain payloadBytes date :
  jws_header h b = Ok (chain, payloadBytes, date) ->
  (exists headerBytes, RawURLDecode h = Some headerBytes /\
     UnmarshalHeader headerBytes = Some ("ES256"%string, chain)) /\ length chain = 3%nat /\
  RawURLDecode b = Some payloadBytes /\ UnmarshalSignedDate payloadBytes = Some date /\ 0 < date.
Proof.
  unfold jws_header. intros H. destruct (RawURLDecode h) as [headerBytes|]; [|done].
  destruct (UnmarshalHeader headerBytes) as [[algorithm l]|] eqn:Hu; [|done].
  destruct (String.eqb_spec algorithm "ES256"); [|done]. destruct (Nat.eqb_spec (length l) 3); [|done].
  cbn [negb orb] in H. destruct (RawURLDecode b); [|done].
  destruct (UnmarshalSignedDate _) as [d|] eqn:Hd; [|done]. destruct (Z.leb_spec d 0); [done|].
  injection H as <- <- <-. subst. split; [eauto|done].
Qed.

(** The certificate an entry of the header's chain encodes. *)
Definition certificate_of `{Lib : AppleLibrary} (entry : string) (certificate : Certificate) : Prop :=
  exists der, StdDecode entry = Some der /\ ParseCertificate der = Some certificate.

Lemma jws_key_ok `{Lib : AppleLibrary} roots chain date key :
  jws_key roots chain date = Ok key ->
  exists leaf intermediate root,
    Forall2 certificate_of chain [leaf; intermediate; root] /\
    Sum256 (cert_Raw root) ∈ fingerprints roots /\
    In appleWWDRIntermediateOID (cert_Extensions intermediate) /\
    In appleAppStoreLeafOID (cert_Extensions leaf) /\
    VerifyChain leaf [intermediate] (pool roots) (milliseconds date) = None /\
    P256Key leaf = Some key.
Proof.
  unfold jws_key. intros Hkey. apply bind_result_ok in Hkey as (certificates & Hparse & Hkey).
  unfold parseJWSCertificates in Hparse. apply (collect_Forall2 _ certificate_of) in Hparse.
  2: { intros _ x y H. destruct (StdDecode x) as [der|] eqn:Hd; [|done].
       destruct (ParseCertificate der) eqn:Hp; [|done]. injection H as <-. by exists der. }
  destruct certificates as [|leaf [|intermediate [|root [|? ?]]]]; try done.
  destruct (bool_decide_reflect (Sum256 (cert_Raw root) ∈ fingerprints roots)) as [Hroot|]; [|done].
  destruct (hasExtension intermediate _) eqn:He1; [|done]. destruct (hasExtension leaf _) eqn:He2; [|done].
  simpl in Hkey. apply try_err_ok in Hkey as [Hchain Hkey]. apply wrap_err_nil in Hchain.
  destruct (P256Key leaf) as [k|] eqn:Hk; [|done]. injection Hkey as ->.
  assert (Hext : forall c oid, hasExtension c oid = true -> In oid (cert_Extensions c)).
  { intros c oid (x & Hx & Heq)%existsb_exists. by apply bool_decide_eq_true in Heq as <-. }
  exists leaf, intermediate, root. split_and!; auto.
Qed.

(** C5. A signed Apple payload is believed only when it is authentic: the text is
    three non-empty parts around its two dots; the header decodes to the ES256
    algorithm and three encoded certificates; the third is a configured root, the
    first two carry Apple's leaf and intermediate extensions, and the chain
    verifies at the signing date; the leaf's P-256 key signed exactly the header
    and payload parts; and what is returned is the decoding of that payload part. *)
Theorem apple_jws_authentic `{Lib : AppleLibrary} {P} (unmarshal : string -> option P)
    (signed : string) (roots : trustedRoots) (p : P) :
  verifyAppleJWS unmarshal signed roots = Ok p ->
  exists header payload signature, signed = (header ++ "." ++ payload ++ "." ++ signature)%string /\
  Forall (fun part => part <> EmptyString /\ ~ In 46 (bytes part)) [header; payload; signature] /\
  exists headerBytes payloadBytes signatureBytes leafEntry intermediateEntry rootEntry
         leaf intermediate root key date,
    RawURLDecode header = Some headerBytes /\
    UnmarshalHeader headerBytes = Some ("ES256"%string, [leafEntry; intermediateEntry; rootEntry]) /\
    certificate_of leafEntry leaf /\ certificate_of intermediateEntry intermediate /\
    certificate_of rootEntry root /\
    Sum256 (cert_Raw root) ∈ fingerprints roots /\
    In appleWWDRIntermediateOID (cert_Extensions intermediate) /\
    In appleAppStoreLeafOID (cert_Extensions leaf) /\
    0 < date /\ VerifyChain leaf [intermediate] (pool roots) (UnixMilli date) = None /\
    P256Key leaf = Some key /\
    RawURLDecode signature = Some signatureBytes /\ len signatureBytes = 64 /\
    ecdsa_Verify key (Sum256 (header ++ "." ++ payload)%string) (SetBytes (str_take 32 signatureBytes))
      (SetBytes (str_drop 32 signatureBytes)) = true /\
    RawURLDecode payload = Some payloadBytes /\ UnmarshalSignedDate payloadBytes = Some date /\
    unmarshal payloadBytes = Some p.
Proof.
  unfold verifyAppleJWS. intros H.
  destruct (Split signed 46) as [|h [|b [|sg [|? ?]]]] eqn:Hsplit; try done.
  destruct (Split_three signed 46 h b sg ltac:(unfold is_byte; lia) Hsplit) as (Hs & Hh & Hb & Hsg).
  exists h, b, sg. split; [exact Hs|].
  destruct (_ || _) eqn:Hne in H; [done|]. rewrite !orb_false_iff, !String.eqb_neq in Hne.
  split; [destruct Hne as [[? ?] ?]; repeat constructor; done|].
  apply bind_result_ok in H as ([[chain payloadBytes] date] & Hhead & H).
  apply bind_result_ok in H as (key & Hkey & H).
  apply jws_header_ok in Hhead as ((headerBytes & Hhb & Hu) & Hlen3 & Hpb & Hdate & Hpos).
  apply jws_key_ok in Hkey as (leaf & intermediate & root & Hcerts & Hroot & Hwwdr & Hleaf & Hchain & Hk).
  destruct chain as [|c0 [|c1 [|c2 [|? ?]]]]; try done.
  rewrite !Forall2_cons in Hcerts. destruct Hcerts as (Hc0 & Hc1 & Hc2 & _).
  destruct (RawURLDecode sg) as [signatureBytes|] eqn:Hsgb; [|done].
  destruct (Z.eqb_spec (len signatureBytes) 64) as [Hlen|]; [|done]. cbn [negb] in H.
  destruct (ecdsa_Verify _ _ _ _) eqn:Hver in H; [|done]. cbn [negb] in H.
  destruct (unmarshal payloadBytes) as [p'|] eqn:Hun; [|done]. injection H as ->.
  rewrite UnixMilli_milliseconds in Hchain by done.
  exists headerBytes, payloadBytes, signatureBytes, c0, c1, c2, leaf, intermediate, root, key, date.
  split_and!; auto.
Qed.

(** ** A concrete App Store *)

(** Signed texts are "h.<name>.s"; every certificate carries both extensions, the
    chain verifies, and signatures of 64 bytes are accepted. *)
Definition sample_token_uuid : string := "0a1b2c3d-0000-4000-8000-00000000abcd".

Definition sample_transaction_payload (id : string) : transactionPayload :=
  mkTransaction "orig-1" id "line-1" "com.example.app" "monthly" 1699000000000 1701000000000 1 None
    EmptyString appleSubscriptionType sample_token_uuid applePurchasedOwnership 1700000000000 None 0 false
    "Production".

Definition sample_renewal_payload : renewalPayload :=
  mkRenewalPayload sample_token_uuid "monthly" 1 "Production" 0 0 false "orig-1" "monthly"
    1701000000000 1700000000000.

Definition sample_library : AppleLibrary := {|
  Certificate := string; CertPool := unit; PublicKey := unit;
  UnicodeLower := fun s => s;
  RawURLDecode := fun s => Some (if String.eqb s "s" then of_bytes (replicate 64 1) else s);
  StdDecode := fun s => Some s;
  UnmarshalHeader := fun _ => Some ("ES256"%string, ["leaf"; "wwdr"; "root"]%string);
  UnmarshalSignedDate := fun _ => Some 1700000000000;
  UnmarshalTransaction := fun s => Some (sample_transaction_payload s);
  UnmarshalRenewal := fun _ => Some sample_renewal_payload;
  UnmarshalTransactionInfo := fun _ => Some "h.txn-1.s"%string;
  UnmarshalStatus := fun _ => Some (mkStatusResponse "Production" "com.example.app" 77
    [mkGroup "group" [mkLastTransaction "orig-1" 1 "h.renewal.s" "h.txn-2.s"]]);
  DecodeClientEvidence := fun _ => Ok (mkClientEvidence "h.txn-1.s" ProductKindSubscription);
  DecodeCredential := fun _ => Ok (mkCredentialPayload "issuer" "key" "com.example.app" 77 "pem" []);
  parsePrivateKey := fun _ => None;
  parseTrustedRoots := fun _ => Ok (tt, {[ Sum256 "root" ]});
  ParseCertificate := fun s => Some s;
  cert_Raw := fun c => c;
  cert_Extensions := fun _ => [appleWWDRIntermediateOID; appleAppStoreLeafOID];
  VerifyChain := fun _ _ _ _ => None;
  P256Key := fun _ => Some tt;
  ecdsa_Verify := fun _ _ _ _ => true
|}.

Definition sample_apple_application : Application :=
  mkApplication "app-1" "project-1"
    (mkStoreApplication ProviderAppleAppStore EnvironmentProduction "com.example.app").

Definition sample_credentials : Application -> string -> result Credential :=
  fun _ kind => Ok (mkCredential kind AppleCredentialContentType 1 "{}").
Definition sample_transport : string -> string -> result http_response :=
  fun _ _ => Ok (mkResponse (Ok "{}"%string) 200 EmptyString None).
Definition sample_now : time := UnixMilli 1700000000000.
Definition sample_binding : StoreReference :=
  mkStoreReference ReferenceCustomerBinding "app_account_token" sample_token_uuid.

Definition sample_apple_request : VerificationRequest :=
  mkVerificationRequest sample_apple_application "customer-1" ["monthly"%string] [sample_binding]
    (mkEvidence AppleEvidenceContentType "{}").

Definition sample_apple_verify : result VerificationResult :=
  @apple_Verify sample_library sample_credentials (fun _ => Ok "token"%string) sample_transport sample_now
    sample_apple_request.

(** The submitted "txn-1" renewed to "txn-2" of the same lineage and account. *)
Lemma apple_verify_checked_witness :
  exists r o submitted current, sample_apple_verify = Ok r /\ vr_Observations r = [o] /\
    obs_Access o = AccessAllowed /\ @checked_verification range_in_order sample_apple_request r /\
    (exists evidence cfg artifact, @apple_believed sample_library sample_credentials sample_transport
       sample_apple_request r evidence cfg submitted current artifact o) /\
    tp_TransactionID submitted = "txn-1"%string /\ tp_TransactionID current = "txn-2"%string.
Proof.
  destruct sample_apple_verify as [r|e] eqn:E; [|vm_compute in E; discriminate].
  destruct (@apple_verify_checked range_in_order sample_library sample_credentials
              (fun _ => Ok "token"%string) sample_transport sample_now sample_apple_request r)
    as [Hc (evidence & cfg & submitted & current & artifact & o & Hb)];
    [vm_compute; discriminate|exact E|].
  pose proof Hb as [Hev Hcfg [Hsub _] [Hcur _] [Ho _] _].
  exists r, o, submitted, current. vm_compute in Hev. injection Hev as <-.
  vm_compute in Hcfg. injection Hcfg as <-. vm_compute in Hsub. injection Hsub as <-.
  split; [reflexivity|]. split; [exact Ho|].
  split; [vm_compute in E; injection E as <-; injection Ho as <-; reflexivity|].
  split; [exact Hc|]. split; [eauto|]. split; [reflexivity|].
  destruct Hcur as [(_ & _ & statuses & group & item & Hs & Hg & Hi & _ & Hv & _)|[[=] _]].
  injection Hs as <-. destruct Hg as [<-|[]]. destruct Hi as [<-|[]]. vm_compute in Hv. by injection Hv as <-.
Defined.

(** The subscription renewed from "txn-1" to "txn-2" since the reference was
    stored: the adapter answers, and the service refuses the answer. *)
Definition sample_apple_reconciliation (id : string) : ReconciliationRequest :=
  mkReconciliationRequest sample_apple_application "customer-1" ["monthly"%string]
    ProductKindSubscription [sample_binding] [mkStoreReference ReferenceQuery "transaction_id" id].

Definition sample_apple_reconcile (id : string) : result VerificationResult :=
  @apple_Reconcile sample_library sample_credentials (fun _ => Ok "token"%string) sample_transport sample_now
    (sample_apple_reconciliation id).

Lemma apple_reconcile_checked_witness :
  (exists r, sample_apple_reconcile "txn-1" = Ok r /\
     ~ @checked_reconciliation range_in_order (sample_apple_reconciliation "txn-1") r) /\
  (exists r, sample_apple_reconcile "txn-2" = Ok r /\
     @checked_reconciliation range_in_order (sample_apple_reconciliation "txn-2") r).
Proof.
  split.
  - destruct (sample_apple_reconcile "txn-1") as [r|e] eqn:E; [|vm_compute in E; discriminate].
    exists r. split; [reflexivity|].
    destruct (@apple_reconcile_checked range_in_order sample_library sample_credentials
                (fun _ => Ok "token"%string) sample_transport sample_now
                (sample_apple_reconciliation "txn-1") r ltac:(vm_compute; discriminate) E)
      as (o & current & Hobs & Hq & Hiff).
    vm_compute in E. injection E as <-. injection Hobs as <-. vm_compute in Hq. injection Hq as <-.
    intros Hc. apply Hiff in Hc as [Hc|[]]. discriminate Hc.
  - destruct (sample_apple_reconcile "txn-2") as [r|e] eqn:E; [|vm_compute in E; discriminate].
    exists r. split; [reflexivity|].
    destruct (@apple_reconcile_checked range_in_order sample_library sample_credentials
                (fun _ => Ok "token"%string) sample_transport sample_now
                (sample_apple_reconciliation "txn-2") r ltac:(vm_compute; discriminate) E)
      as (o & current & Hobs & Hq & Hiff).
    apply Hiff. vm_compute in E. injection E as <-. injection Hobs as <-. vm_compute in Hq. injection Hq as <-.
    left. reflexivity.
Defined.

Lemma apple_jws_authentic_witness :
  let roots := @mkTrustedRoots sample_library tt {[ Sum256 "root" ]} in
  exists p, @verifyAppleJWS sample_library _ (@UnmarshalTransaction sample_library) "h.txn-1.s" roots = Ok p /\
    exists header payload signature, "h.txn-1.s"%string = (header ++ "." ++ payload ++ "." ++ signature)%string /\
      Forall (fun part => part <> EmptyString /\ ~ In 46 (bytes part)) [header; payload; signature].
Proof.
  intros roots. exists (sample_transaction_payload "txn-1").
  assert (E : @verifyAppleJWS sample_library _ (@UnmarshalTransaction sample_library) "h.txn-1.s" roots
              = Ok (sample_transaction_payload "txn-1")) by (vm_compute; reflexivity).
  split; [exact E|].
  destruct (@apple_jws_authentic sample_library _ _ _ _ _ E) as (h & b & s & Hs & Hparts & _).
  exists h, b, s. split; [exact Hs|exact Hparts].
Defined.

(** Two minutes after the signed expiry an active subscription is still allowed,
    until five minutes after it. *)
Lemma apple_access_sound_witness :
  let late := UnixMilli 1701000120000 in
  exists r o, apple_result late sample_apple_application ProductKindSubscription
      (sample_transaction_payload "txn-2") (mkEvidence "application/json" "{}")
      (Some (mkSnapshot 1 sample_renewal_payload)) = Ok r /\
    vr_Observations r = [o] /\ obs_Access o = AccessAllowed /\
    exists e, EndsAt (obs_EffectivePeriod o) = Some e /\ late < e.
Proof.
  intros late.
  destruct (apple_result late sample_apple_application ProductKindSubscription
      (sample_transaction_payload "txn-2") (mkEvidence "application/json" "{}")
      (Some (mkSnapshot 1 sample_renewal_payload))) as [r|e] eqn:E; [|vm_compute in E; discriminate].
  destruct (vr_Observations r) as [|o l] eqn:Eo; [vm_compute in E; injection E as <-; discriminate Eo|].
  destruct (apple_access_sound _ _ _ _ _ _ _ o E ltac:(rewrite Eo; left; reflexivity)) as [_ Hsub].
  destruct (Hsub eq_refl) as (snapshot & Hsnap & Hiff & Hend). injection Hsnap as <-.
  assert (Ha : obs_Access o = AccessAllowed).
  { apply Hiff. split; [vm_compute; discriminate|]. left. split; [reflexivity|]. vm_compute. reflexivity. }
  exists r, o. split; [reflexivity|]. rewrite Eo.
  assert (l = []) as -> by (vm_compute in E; injection E as <-; injection Eo as _ <-; reflexivity).
  split; [reflexivity|]. split; [exact Ha|]. destruct (Hend Ha) as (x & Hx & Hlt & _). exists x. split; assumption.
Defined.
