(* ===== verification/GooglePlay.v ===== *)
(** The Google Play adapter ([internal/stores/googleplay/adapter.go]): purchase
    resources, the selection of line items, normalization, acknowledgement
    actions, and the Verify, Reconcile, LinkedPurchase and PostCommit operations.

    Every HTTP request is recorded: an operation is a computation over the list
    of requests sent so far, and the transport answers a request knowing that
    history.  JSON decoding, key parsing and signing are parameters. *)

From S2P Require Import Prelude GoText GoTime GoHttp GoJson Sha256 Core Purchase Protection Persistence Stores Credential Projector Repository EntitlementStore Runner Refresh Verification.
From stdpp Require Import base list strings.
Local Open Scope Z_scope.

(** ** Constants *)

(* internal/stores/googleplay/adapter.go: constants *)
Definition GooglePlayCredentialKind : string := "google_play_android_publisher".
Definition GooglePlayCredentialContentType : string :=
  "application/vnd.iapstack.google-play-credentials+json".
Definition GooglePlayCredentialSchemaVersion : Z := 1.
Definition defaultTokenURL : string := "https://oauth2.googleapis.com/token".
Definition defaultPublisherURL : string := "https://androidpublisher.googleapis.com".
Definition androidPublisherScope : string := "https://www.googleapis.com/auth/androidpublisher".
Definition assertionLifetime : duration := 5 * Minute.
Definition serviceAccountGrantType : string := "urn:ietf:params:oauth:grant-type:jwt-bearer".
Definition google_maximumProviderResponse : Z := 2 * 2 ^ 20.
Definition acknowledgeActionKind : string := "acknowledge_purchase".
Definition acknowledgementStatePending : string := "ACKNOWLEDGEMENT_STATE_PENDING".
Definition acknowledgementStateAcknowledged : string := "ACKNOWLEDGEMENT_STATE_ACKNOWLEDGED".
Definition productStatePurchased : string := "PURCHASED".
Definition productStateCancelled : string := "CANCELLED".
Definition productStatePending : string := "PENDING".
Definition subscriptionStatePending : string := "SUBSCRIPTION_STATE_PENDING".
Definition subscriptionStateActive : string := "SUBSCRIPTION_STATE_ACTIVE".
Definition subscriptionStatePaused : string := "SUBSCRIPTION_STATE_PAUSED".
Definition subscriptionStateGrace : string := "SUBSCRIPTION_STATE_IN_GRACE_PERIOD".
Definition subscriptionStateOnHold : string := "SUBSCRIPTION_STATE_ON_HOLD".
Definition subscriptionStateCanceled : string := "SUBSCRIPTION_STATE_CANCELED".
Definition subscriptionStateExpired : string := "SUBSCRIPTION_STATE_EXPIRED".
Definition subscriptionStatePendingCanceled : string := "SUBSCRIPTION_STATE_PENDING_PURCHASE_CANCELED".

(** ** Provider resources *)

(** The objects nested in the resources are flattened into their records; a
    pointer to an empty object is whether it is there. *)

(* internal/stores/googleplay/adapter.go: clientEvidence *)
Record google_clientEvidence : Type := mkGoogleEvidence {
  gev_PurchaseToken : string;
  gev_ProductKind : ProductKind
}.

(* internal/stores/googleplay/notification.go: rtdnConfiguration *)
Record rtdnConfiguration : Type := mkRtdn {
  rtdn_Subscription : string;
  rtdn_PushServiceAccountEmail : string;
  rtdn_Audience : string
}.

(* internal/stores/googleplay/adapter.go: credentialPayload *)
Record google_credentialPayload : Type := mkGoogleCredential {
  gcp_ClientEmail : string;
  gcp_PrivateKeyID : string;
  gcp_PrivateKey : string;
  gcp_RTDN : option rtdnConfiguration
}.

(* internal/stores/googleplay/adapter.go: tokenResponse *)
Record tokenResponse : Type := mkTokenResponse {
  tr_AccessToken : string;
  tr_TokenType : string
}.

(* internal/stores/googleplay/adapter.go: productOfferDetails *)
Record productOfferDetails : Type := mkOfferDetails {
  pod_Quantity : Z;
  pod_RefundableQuantity : Z;
  pod_ConsumptionState : string;
  pod_PurchaseOptionID : string
}.

(* internal/stores/googleplay/adapter.go: productLineItem *)
Record productLineItem : Type := mkProductLineItem {
  pli_ProductID : string;
  pli_ProductOfferDetails : productOfferDetails
}.

(* internal/stores/googleplay/adapter.go: productPurchase *)
Record productPurchase : Type := mkProductPurchase {
  pp_ProductLineItems : list productLineItem;
  pp_PurchaseState : string;
  pp_TestPurchaseContext : bool;
  pp_OrderID : string;
  pp_ObfuscatedExternalAccountID : string;
  pp_PurchaseCompletionTime : time;
  pp_AcknowledgementState : string
}.

(** A pointer to a plan or a product name is an option of its one field. *)
(* internal/stores/googleplay/adapter.go: subscriptionLineItem *)
Record subscriptionLineItem : Type := mkLineItem {
  sli_ProductID : string;
  sli_ExpiryTime : time;
  sli_LatestSuccessfulOrderID : string;
  sli_AutoRenewingPlan : option bool;
  sli_PrepaidPlan : bool;
  sli_DeferredItemReplacement : option string;
  sli_ItemReplacement : option string
}.

(* internal/stores/googleplay/adapter.go: subscriptionPurchase *)
Record subscriptionPurchase : Type := mkSubscriptionPurchase {
  spu_LineItems : list subscriptionLineItem;
  spu_StartTime : time;
  spu_SubscriptionState : string;
  spu_LatestOrderID : string;
  spu_LinkedPurchaseToken : string;
  spu_TestPurchase : bool;
  spu_AcknowledgementState : string;
  spu_ObfuscatedExternalAccountID : string
}.

(* internal/stores/googleplay/adapter.go: subscriptionItems *)
Record subscriptionItems : Type := mkItems {
  it_current : subscriptionLineItem;
  it_pending : option subscriptionLineItem;
  it_replaced : option subscriptionLineItem
}.

(* internal/stores/googleplay/adapter.go: queryResult *)
Record queryResult : Type := mkQueryResult {
  qr_artifact : Evidence;
  qr_observations : list PurchaseObservation;
  qr_postCommitActions : list PostCommitAction;
  qr_products : list ProviderProductID;
  qr_itemReplaced : option PurchaseObservation
}.

#[export] Instance subscriptionLineItem_eq_dec : EqDecision subscriptionLineItem.
Proof. solve_decision. Defined.

(** ** Classification *)

(* internal/stores/googleplay/adapter.go: invalid *)
Definition google_invalid (operation : string) (cause : gerror) : gerror :=
  NewFailure ProviderGooglePlay operation FailureInvalidEvidence 0 (Some cause).

(* internal/stores/googleplay/adapter.go: normalizeProductState *)
Definition normalizeProductState (value : string) : LifecycleState * AccessStatus * AccessReason :=
  if String.eqb value productStatePurchased
  then (LifecycleActive, AccessAllowed, AccessReasonPurchaseValid)
  else if String.eqb value productStateCancelled
  then (LifecycleRefunded, AccessDenied, AccessReasonRefunded)
  else if String.eqb value productStatePending
  then (LifecyclePending, AccessUnresolved, AccessReasonPendingPayment)
  else (LifecycleUnresolved, AccessUnresolved, AccessReasonUnresolved).

(* internal/stores/googleplay/adapter.go: normalizeSubscriptionState *)
Definition normalizeSubscriptionState (value : string) : LifecycleState * AccessStatus * AccessReason :=
  if String.eqb value subscriptionStatePending
  then (LifecyclePending, AccessUnresolved, AccessReasonPendingPayment)
  else if String.eqb value subscriptionStateActive
  then (LifecycleActive, AccessAllowed, AccessReasonPurchaseValid)
  else if String.eqb value subscriptionStatePaused
  then (LifecyclePaused, AccessDenied, AccessReasonPaused)
  else if String.eqb value subscriptionStateGrace
  then (LifecycleGracePeriod, AccessAllowed, AccessReasonGracePeriod)
  else if String.eqb value subscriptionStateOnHold
  then (LifecycleOnHold, AccessDenied, AccessReasonBillingIssue)
  else if String.eqb value subscriptionStateCanceled
  then (LifecycleCanceled, AccessAllowed, AccessReasonCanceledAtPeriodEnd)
  else if String.eqb value subscriptionStateExpired
  then (LifecycleExpired, AccessDenied, AccessReasonExpired)
  else if String.eqb value subscriptionStatePendingCanceled
  then (LifecycleRevoked, AccessDenied, AccessReasonRevoked)
  else (LifecycleUnresolved, AccessUnresolved, AccessReasonUnresolved).

(* internal/stores/googleplay/adapter.go: subscriptionRenewal *)
Definition subscriptionRenewal (lineItem : subscriptionLineItem) : result Renewal :=
  match sli_AutoRenewingPlan lineItem, sli_PrepaidPlan lineItem with
  | Some _, true => Err (New "google play subscription has multiple plan types")
  | Some enabled, false =>
      Ok (mkRenewal RenewalAuto (if enabled then RenewalEnabled else RenewalDisabled) EmptyString None)
  | None, true => Ok (mkRenewal RenewalPrepaid RenewalNotApplicable EmptyString None)
  | None, false => Ok (mkRenewal RenewalUnknown RenewalStatusUnknown EmptyString None)
  end.

(* internal/stores/googleplay/adapter.go: replacementRenewal *)
Definition replacementRenewal (pending : subscriptionLineItem) : result Renewal :=
  let* renewal := subscriptionRenewal pending in
  if String.eqb (ren_Mode renewal) RenewalAuto && String.eqb (ren_Status renewal) RenewalEnabled
  then Ok (mkRenewal (ren_Mode renewal) (ren_Status renewal) (sli_ProductID pending)
             (ren_NextRenewalAt renewal))
  else Ok renewal.

(* internal/stores/googleplay/adapter.go: validateEnvironment *)
Definition google_validateEnvironment (environment : Environment) (testPurchase : bool) : error :=
  if String.eqb environment EnvironmentProduction then
    refuse_if testPurchase (New "google play test purchase cannot use a production application")
  else if String.eqb environment EnvironmentSandbox || String.eqb environment EnvironmentTest then
    refuse_if (negb testPurchase) (New "google play live purchase cannot use a test application")
  else Some (Errorf "unsupported Google Play environment %q" [AStr environment]).

(* internal/stores/googleplay/adapter.go: timePointer *)
Definition timePointer (value : time) : option time := if IsZero value then None else Some value.

(** ** Line items *)

(** The pair [current], [next] is an announced replacement that is not consistent. *)
Definition deferral_broken (current next : subscriptionLineItem) (product : string) : bool :=
  String.eqb (sli_ProductID next) EmptyString
  || String.eqb (sli_ProductID next) (sli_ProductID current)
  || negb (String.eqb product (sli_ProductID next))
  || bool_decide (is_Some (sli_DeferredItemReplacement next))
  || IsZero (sli_ExpiryTime current)
  || negb (IsZero (sli_ExpiryTime next)).

(** One round of the loop over the two items; [None] goes on. *)
(* internal/stores/googleplay/adapter.go:811-822: selectSubscriptionItems *)
Definition deferred_items (current next : subscriptionLineItem) : option (result subscriptionItems) :=
  match sli_DeferredItemReplacement current with
  | None => None
  | Some product =>
      if deferral_broken current next product
      then Some (Err (New "google play deferred replacement is inconsistent"))
      else Some (Ok (mkItems current (Some next) None))
  end.

(* internal/stores/googleplay/adapter.go:823-833: selectSubscriptionItems *)
Definition replaced_items (first second : subscriptionLineItem) (now : time) : result subscriptionItems :=
  let '(replaced, current) := if After (sli_ExpiryTime first) (sli_ExpiryTime second)
                              then (second, first) else (first, second) in
  if String.eqb (sli_ProductID replaced) EmptyString
     || String.eqb (sli_ProductID replaced) (sli_ProductID current)
     || IsZero (sli_ExpiryTime replaced)
     || negb (Before (sli_ExpiryTime replaced) (sli_ExpiryTime current))
     || After (sli_ExpiryTime replaced) now
     || bool_decide (sli_AutoRenewingPlan replaced = Some true)
     || (match sli_ItemReplacement current with
         | Some product => negb (String.eqb product (sli_ProductID replaced))
         | None => false
         end)
  then Err (New "google play subscription has more than one current line item")
  else Ok (mkItems current None (Some replaced)).

(* internal/stores/googleplay/adapter.go: selectSubscriptionItems *)
Definition selectSubscriptionItems (items : list subscriptionLineItem) (now : time)
    : result subscriptionItems :=
  match items with
  | [item] => Ok (mkItems item None None)
  | [first; second] =>
      match deferred_items first second with
      | Some r => r
      | None =>
          match deferred_items second first with
          | Some r => r
          | None => replaced_items first second now
          end
      end
  | _ => Err (New "google play subscription requires one line item or one deferred replacement")
  end.

Definition add_product (products : list string) (productID : string) : list string :=
  if String.eqb productID EmptyString then products else append_new products productID.
Definition add_optional (products : list string) (productID : option string) : list string :=
  match productID with Some p => add_product products p | None => products end.

(* internal/stores/googleplay/adapter.go: subscriptionProducts *)
Definition subscriptionProducts (purchase : subscriptionPurchase) : list ProviderProductID :=
  fold_left (fun products item =>
      add_optional (add_optional (add_product products (sli_ProductID item))
                      (sli_DeferredItemReplacement item)) (sli_ItemReplacement item))
    (spu_LineItems purchase) [].

(** ** Observations *)

Definition google_nul : string := of_bytes [0].

(* internal/stores/googleplay/adapter.go: productObservationIdentity *)
Definition productObservationIdentity (applicationID : ApplicationID) (purchaseToken : string)
    (purchase : productPurchase) (lineItem : productLineItem) (state : LifecycleState)
    (access : AccessStatus) (reason : AccessReason) (quantity : Z) : string :=
  let details := pli_ProductOfferDetails lineItem in
  Sum256 (GoText.Join [applicationID; purchaseToken; pli_ProductID lineItem; pp_OrderID purchase;
    pp_ObfuscatedExternalAccountID purchase; FormatRFC3339Nano (pp_PurchaseCompletionTime purchase);
    pp_PurchaseState purchase; pod_PurchaseOptionID details; pod_ConsumptionState details;
    FormatInt quantity; FormatInt (pod_RefundableQuantity details); state; access; reason] google_nul).

(* internal/stores/googleplay/adapter.go: subscriptionObservationIdentity *)
Definition subscriptionObservationIdentity (applicationID : ApplicationID) (purchaseToken : string)
    (purchase : subscriptionPurchase) (lineItem : subscriptionLineItem) (state : LifecycleState)
    (access : AccessStatus) (reason : AccessReason) (renewal : Renewal) : string :=
  let fields := [applicationID; purchaseToken; spu_LinkedPurchaseToken purchase; sli_ProductID lineItem;
    spu_LatestOrderID purchase; sli_LatestSuccessfulOrderID lineItem;
    spu_ObfuscatedExternalAccountID purchase; FormatRFC3339Nano (spu_StartTime purchase);
    FormatRFC3339Nano (sli_ExpiryTime lineItem); spu_SubscriptionState purchase; state; access; reason;
    ren_Mode renewal; ren_Status renewal] in
  let fields := if String.eqb (ren_NextProductID renewal) EmptyString then fields
                else fields ++ ["next_product"%string; ren_NextProductID renewal] in
  Sum256 (GoText.Join fields google_nul).

(* internal/stores/googleplay/adapter.go: replacedItemObservationIdentity *)
Definition replacedItemObservationIdentity (applicationID : ApplicationID) (purchaseToken : string)
    (purchase : subscriptionPurchase) (item : subscriptionLineItem) (state : LifecycleState)
    (access : AccessStatus) (reason : AccessReason) (renewal : Renewal) : string :=
  let expiry := if IsZero (sli_ExpiryTime item) then EmptyString
                else FormatRFC3339Nano (sli_ExpiryTime item) in
  Sum256 (GoText.Join ["replaced_item"%string; applicationID; purchaseToken;
    spu_LinkedPurchaseToken purchase; sli_ProductID item; sli_LatestSuccessfulOrderID item;
    spu_ObfuscatedExternalAccountID purchase; FormatRFC3339Nano (spu_StartTime purchase); expiry;
    state; access; reason; ren_Mode renewal; ren_Status renewal] google_nul).


(* internal/stores/googleplay/adapter.go: googleReferences *)
Definition googleReferences (purchaseToken orderID linkedToken accountID : string)
    : result (list StoreReference) :=
  make_references
    [(ReferenceTransaction, "order_id"%string, orderID);
     (ReferenceLineage, "purchase_token"%string, purchaseToken);
     (ReferenceLinkedLineage, "purchase_token"%string, linkedToken);
     (ReferenceQuery, "purchase_token"%string, purchaseToken);
     (ReferenceCustomerBinding, "obfuscated_external_account_id"%string, accountID)].

(** Return a valid observation, or the invalid-evidence failure. *)
Definition google_checked (observation : PurchaseObservation) : result PurchaseObservation :=
  match PurchaseObservation_Validate observation with
  | Some e => Err (google_invalid "normalize" e)
  | None => Ok observation
  end.

Definition normalize_check {A} (e : error) (k : result A) : result A :=
  match e with Some x => Err (google_invalid "normalize" x) | None => k end.

(* internal/stores/googleplay/adapter.go: Adapter.productObservations *)
Definition productObservations (now : time) (application : Application) (purchaseToken : string)
    (purchase : productPurchase) : result (list PurchaseObservation) :=
  match pp_ProductLineItems purchase with
  | [lineItem] =>
      normalize_check (google_validateEnvironment (sa_Environment (app_Store application))
                         (pp_TestPurchaseContext purchase)) (
      normalize_check (refuse_if (String.eqb (pli_ProductID lineItem) EmptyString
                                  || String.eqb (pp_ObfuscatedExternalAccountID purchase) EmptyString)
                         (New "google play product identity or customer binding is missing")) (
      let '(state, access, reason) := normalizeProductState (pp_PurchaseState purchase) in
      let details := pli_ProductOfferDetails lineItem in
      let quantity := if pod_Quantity details =? 0 then 1 else pod_Quantity details in
      let* references := wrap_result (google_invalid "normalize")
        (googleReferences purchaseToken (pp_OrderID purchase) EmptyString
           (pp_ObfuscatedExternalAccountID purchase)) in
      let identity := productObservationIdentity (app_ID application) purchaseToken purchase lineItem
                        state access reason quantity in
      let period := if String.eqb state LifecyclePending then mkPeriod zeroTime None
                    else mkPeriod (pp_PurchaseCompletionTime purchase) None in
      let* observation := google_checked
        (mkObservation (snapshot_id "gpl-" identity) (app_ID application) (app_Store application)
           (pli_ProductID lineItem) ProductKindNonConsumable state (pp_PurchaseState purchase) access
           reason OwnershipPurchased quantity None (pp_PurchaseCompletionTime purchase) now period
           (mkRenewal RenewalNone RenewalNotApplicable EmptyString None) references EmptyString) in
      Ok [observation]))
  | _ => Err (google_invalid "normalize"
                (New "google play non-consumable purchase requires one line item"))
  end.

(* internal/stores/googleplay/adapter.go: replacedItemObservation *)
Definition replacedItemObservation (application : Application) (purchaseToken : string)
    (purchase : subscriptionPurchase) (item : subscriptionLineItem) (current : PurchaseObservation)
    : result PurchaseObservation :=
  let* renewal := wrap_result (google_invalid "normalize") (subscriptionRenewal item) in
  let accountID := spu_ObfuscatedExternalAccountID purchase in
  let* references := wrap_result (google_invalid "normalize")
    (googleReferences purchaseToken (sli_LatestSuccessfulOrderID item)
       (spu_LinkedPurchaseToken purchase) accountID) in
  let '(state, access, reason) := normalizeSubscriptionState subscriptionStateExpired in
  let identity := replacedItemObservationIdentity (app_ID application) purchaseToken purchase item
                    state access reason renewal in
  let period := mkPeriod (spu_StartTime purchase)
    (if negb (IsZero (spu_StartTime purchase)) && After (sli_ExpiryTime item) (spu_StartTime purchase)
     then timePointer (sli_ExpiryTime item) else None) in
  google_checked
    (mkObservation (snapshot_id "gpl-" identity) (app_ID application) (app_Store application)
       (sli_ProductID item) ProductKindSubscription state subscriptionStateExpired access reason
       OwnershipPurchased 1 None (spu_StartTime purchase) (obs_ObservedAt current - Microsecond) period
       renewal references EmptyString).

(** The observation of the item that grants access now. *)
(* internal/stores/googleplay/adapter.go:673-713: Adapter.subscriptionObservations *)
Definition currentObservation (now : time) (application : Application) (purchaseToken : string)
    (purchase : subscriptionPurchase) (items : subscriptionItems) : result PurchaseObservation :=
  let lineItem := it_current items in
  let accountID := spu_ObfuscatedExternalAccountID purchase in
  normalize_check (refuse_if (String.eqb (sli_ProductID lineItem) EmptyString
                              || String.eqb accountID EmptyString)
                     (New "google play subscription identity or customer binding is missing")) (
  let '(state, access, reason) := normalizeSubscriptionState (spu_SubscriptionState purchase) in
  let* renewal := wrap_result (google_invalid "normalize") (subscriptionRenewal lineItem) in
  let* renewal := match it_pending items with
                  | Some pending => wrap_result (google_invalid "normalize") (replacementRenewal pending)
                  | None => Ok renewal
                  end in
  let orderID := if String.eqb (sli_LatestSuccessfulOrderID lineItem) EmptyString
                 then spu_LatestOrderID purchase else sli_LatestSuccessfulOrderID lineItem in
  let* references := wrap_result (google_invalid "normalize")
    (googleReferences purchaseToken orderID (spu_LinkedPurchaseToken purchase) accountID) in
  let identity := subscriptionObservationIdentity (app_ID application) purchaseToken purchase lineItem
                    state access reason renewal in
  let unstarted := String.eqb state LifecyclePending || String.eqb state LifecycleRevoked in
  google_checked
    (mkObservation (snapshot_id "gpl-" identity) (app_ID application) (app_Store application)
       (sli_ProductID lineItem) ProductKindSubscription state (spu_SubscriptionState purchase) access
       reason OwnershipPurchased 1 None (if unstarted then zeroTime else spu_StartTime purchase) now
       (if unstarted then mkPeriod zeroTime None
        else mkPeriod (spu_StartTime purchase) (timePointer (sli_ExpiryTime lineItem)))
       renewal references EmptyString)).

(* internal/stores/googleplay/adapter.go: Adapter.subscriptionObservations *)
Definition subscriptionObservations (now : time) (application : Application) (purchaseToken : string)
    (purchase : subscriptionPurchase) : result (list PurchaseObservation) :=
  let* items := wrap_result (google_invalid "normalize")
                  (selectSubscriptionItems (spu_LineItems purchase) now) in
  normalize_check (google_validateEnvironment (sa_Environment (app_Store application))
                     (spu_TestPurchase purchase)) (
  let* observation := currentObservation now application purchaseToken purchase items in
  match it_replaced items with
  | None => Ok [observation]
  | Some item =>
      let* replaced := replacedItemObservation application purchaseToken purchase item observation in
      Ok [observation; replaced]
  end).

Definition itemReplacement_line (productID : string) : subscriptionLineItem :=
  mkLineItem productID zeroTime EmptyString None false None None.

(* internal/stores/googleplay/adapter.go: itemReplacementObservation *)
Definition itemReplacementObservation (application : Application) (purchaseToken : string)
    (purchase : subscriptionPurchase) (current : PurchaseObservation)
    : result (option PurchaseObservation) :=
  match spu_LineItems purchase with
  | [item] =>
      match sli_ItemReplacement item with
      | None => Ok None
      | Some productID =>
          if String.eqb productID EmptyString || String.eqb productID (sli_ProductID item) then Ok None
          else
            let* observation := replacedItemObservation application purchaseToken purchase
                                  (itemReplacement_line productID) current in
            Ok (Some observation)
      end
  | _ => Ok None
  end.

(** The states in which Google expects an acknowledgement. *)
(* internal/stores/googleplay/adapter.go:930-945: acknowledgementActions *)
Definition acknowledgement_eligible (kind : ProductKind) (providerState : string) : option bool :=
  if String.eqb kind ProductKindNonConsumable then Some (String.eqb providerState productStatePurchased)
  else if String.eqb kind ProductKindSubscription then
    Some (contains_str [subscriptionStateActive; subscriptionStatePaused; subscriptionStateGrace;
                        subscriptionStateOnHold; subscriptionStateCanceled] providerState)
  else None.

(* internal/stores/googleplay/adapter.go: acknowledgementActions *)
Definition acknowledgementActions (observation : PurchaseObservation)
    (providerState acknowledgementState : string) : result (list PostCommitAction) :=
  match acknowledgement_eligible (obs_ProductKind observation) providerState with
  | None => Err (Errorf "unsupported Google Play acknowledgement product kind %q"
                   [AStr (obs_ProductKind observation)])
  | Some eligible =>
      if negb eligible || String.eqb acknowledgementState acknowledgementStateAcknowledged then Ok []
      else if negb (String.eqb acknowledgementState acknowledgementStatePending)
      then Err (Errorf "completed Google Play purchase has acknowledgement state %q"
                  [AStr acknowledgementState])
      else
        let queryReferences := ReferencesFor observation ReferenceQuery in
        if Nat.eqb (length queryReferences) 0
        then Err (New "google play acknowledgement requires a query reference")
        else Ok [mkAction acknowledgeActionKind (obs_ProductID observation)
                   (obs_ProductKind observation) queryReferences]
  end.

(* internal/stores/googleplay/adapter.go: queryResult.verificationResult *)
Definition google_verificationResult (qr : queryResult) (verifiedAt : time)
    (requested : list ProviderProductID) : VerificationResult :=
  let observations :=
    match qr_itemReplaced qr, requested with
    | Some item, [product] => if String.eqb product (obs_ProductID item)
                              then qr_observations qr ++ [item] else qr_observations qr
    | _, _ => qr_observations qr
    end in
  mkVerificationResult verifiedAt [mkArtifact "google_play_server_response" (qr_artifact qr)]
    observations (qr_postCommitActions qr)
    (if Nat.ltb 1 (length (qr_products qr)) then qr_products qr else []).

(** ** Provider calls *)

(** The library functions the adapter calls: JSON into its structs, PEM and PKCS#8
    keys, and RSA signatures.  [PemDecode] gives the type and the bytes of the
    first block and what follows it. *)
Class GoogleLibrary := {
  AnyKey : Type;
  RSAKey : Type;
  DecodeGoogleEvidence : string -> result google_clientEvidence;
  DecodeGoogleCredential : string -> result google_credentialPayload;
  DecodeTokenResponse : string -> result tokenResponse;
  UnmarshalSubscription : string -> option subscriptionPurchase;
  UnmarshalProduct : string -> option productPurchase;
  PemDecode : string -> option (string * string * string);
  ParsePKCS8PrivateKey : string -> option AnyKey;
  as_rsa : AnyKey -> option RSAKey;
  BitLen : RSAKey -> Z;
  KeyValidate : RSAKey -> error;
  SignPKCS1v15 : RSAKey -> string -> result string
}.

(** What the adapter has done: the requests it sent, in order, and how often it
    read its clock. *)
Record google_trace : Type := mkTrace {
  sent : list http_request;
  reads : nat
}.

Section Adapter.
Context `{Lib : GoogleLibrary}.
(** The application's opened credential package, the transport, which answers a
    request knowing the earlier ones, and the clock's readings. *)
Context (credentials : Application -> string -> result Credential).
Context (transport : list http_request -> http_request -> result http_response).
Context (clock : nat -> time).

(* internal/stores/googleplay/adapter.go: configuration *)
Record google_configuration : Type := mkGoogleConfiguration {
  gcf_clientEmail : string;
  gcf_privateKeyID : string;
  gcf_privateKey : RSAKey;
  gcf_rtdn : option rtdnConfiguration
}.

Definition read_clock : Tx google_trace time :=
  fun trace => (Ok (clock (reads trace)), mkTrace (sent trace) (S (reads trace))).

Definition send (request : http_request) : Tx google_trace http_response :=
  fun trace => (transport (sent trace) request, mkTrace (sent trace ++ [request]) (reads trace)).

Definition google_failure (operation : string) (kind : FailureKind) (cause : error) : gerror :=
  NewFailure ProviderGooglePlay operation kind 0 cause.

(* internal/stores/googleplay/adapter.go: parsePrivateKey *)
Definition google_parsePrivateKey (encoded : string) : result RSAKey :=
  match PemDecode encoded with
  | None => Err (New "google play private key must be one PKCS#8 PEM block")
  | Some (blockType, blockBytes, remainder) =>
      if negb (String.eqb blockType "PRIVATE KEY")
         || negb (String.eqb (TrimSpace remainder) EmptyString)
      then Err (New "google play private key must be one PKCS#8 PEM block")
      else match ParsePKCS8PrivateKey blockBytes with
      | None => Err (New "google play private key is invalid PKCS#8")
      | Some parsed =>
          match as_rsa parsed with
          | None => Err (New "google play private key must be an RSA key of at least 2048 bits")
          | Some privateKey =>
              if BitLen privateKey <? 2048
              then Err (New "google play private key must be an RSA key of at least 2048 bits")
              else match KeyValidate privateKey with
                   | Some _ => Err (New "google play private key is invalid")
                   | None => Ok privateKey
                   end
          end
      end
  end.

(** [strings.Contains(s, "@")]. *)
Definition has_at (s : string) : bool := existsb (Z.eqb 64) (bytes s).

(** The bytes of the opened payload are erased afterwards. *)
(* internal/stores/googleplay/adapter.go: Adapter.configuration *)
Definition google_configure (application : Application) : result google_configuration :=
  let failure (kind : FailureKind) (cause : error) := Err (google_failure "credentials" kind cause) in
  match credentials application GooglePlayCredentialKind with
  | Err e => failure FailureUnauthorized (Some e)
  | Ok credential =>
      if negb (String.eqb (cred_ContentType credential) GooglePlayCredentialContentType)
         || negb (cred_SchemaVersion credential =? GooglePlayCredentialSchemaVersion)
      then failure FailurePermanent None
      else match DecodeGoogleCredential (Credential_Bytes credential) with
      | Err e => failure FailurePermanent (Some e)
      | Ok payload =>
          if negb (String.eqb (sa_Provider (app_Store application)) ProviderGooglePlay)
             || String.eqb (gcp_ClientEmail payload) EmptyString
             || String.eqb (gcp_PrivateKeyID payload) EmptyString
             || String.eqb (gcp_PrivateKey payload) EmptyString
             || negb (has_at (gcp_ClientEmail payload))
          then failure FailurePermanent None
          else match google_parsePrivateKey (gcp_PrivateKey payload) with
               | Err e => failure FailurePermanent (Some e)
               | Ok privateKey => Ok (mkGoogleConfiguration (gcp_ClientEmail payload)
                                        (gcp_PrivateKeyID payload) privateKey (gcp_RTDN payload))
               end
      end
  end.

(* internal/stores/googleplay/adapter.go: Adapter.do *)
Definition google_do (request : http_request) : Tx google_trace (string * http_response) :=
  do response <- tx_catch (fun e => google_failure "http" FailureTemporary (Some e)) (send request);
  match body response with
  | Err e => tx_err (google_failure "http" FailureTemporary (Some e))
  | Ok text => if google_maximumProviderResponse <? len text
               then tx_err (google_failure "http" FailurePermanent None)
               else tx_ret (text, response)
  end.

(** The clock is read only for the delay of a rate limit. *)
(* internal/stores/googleplay/adapter.go: Adapter.statusFailure *)
Definition google_statusFailure (operation : string) (response : http_response)
    : Tx google_trace (option gerror) :=
  let code := status response in
  let failure (kind : FailureKind) := tx_ret (Some (google_failure operation kind None)) in
  if (200 <=? code) && (code <? 300) then tx_ret None
  else if (code =? 401) || (code =? 403) then failure FailureUnauthorized
  else if (code =? 404) || (code =? 410) then failure FailureNotFound
  else if code =? 409 then failure FailureConflict
  else if code =? 429 then
    do now <- read_clock;
    tx_ret (Some (NewFailure ProviderGooglePlay operation FailureRateLimited (retryAfter response now) None))
  else if 500 <=? code then failure FailureTemporary
  else failure FailurePermanent.

(** Change the kind of a failure, and return it. *)
Definition rekind (f : FailureKind -> FailureKind) (e : gerror) : gerror :=
  match e with
  | Failure provider operation kind retry cause => Failure provider operation (f kind) retry cause
  | _ => e
  end.

(* internal/stores/googleplay/adapter.go:567-572: Adapter.accessToken *)
Definition token_kind (kind : FailureKind) : FailureKind :=
  if String.eqb kind FailureNotFound || String.eqb kind FailureConflict
     || String.eqb kind FailurePermanent then FailureUnauthorized else kind.

(** Another acknowledgement is under way: it is tried again. *)
(* internal/stores/googleplay/adapter.go:538-541: Adapter.acknowledge *)
Definition acknowledge_kind (kind : FailureKind) : FailureKind :=
  if String.eqb kind FailureConflict then FailureTemporary else kind.

(** [json.Marshal] of a map writes its keys in order. *)
(* internal/stores/googleplay/adapter.go: Adapter.assertion *)
Definition google_assertion (configuration : google_configuration) : Tx google_trace string :=
  do now <- read_clock;
  let header := json_marshal [("alg", JStr "RS256"); ("kid", JStr (gcf_privateKeyID configuration));
                              ("typ", JStr "JWT")]%string in
  let payload := json_marshal [("aud", JStr defaultTokenURL); ("exp", JInt (toUnix (now + assertionLifetime)));
                               ("iat", JInt (toUnix now)); ("iss", JStr (gcf_clientEmail configuration));
                               ("scope", JStr androidPublisherScope)]%string in
  let signingInput := (RawURLEncode header ++ "." ++ RawURLEncode payload)%string in
  do signature <- tx_lift (SignPKCS1v15 (gcf_privateKey configuration) (Sum256 signingInput));
  tx_ret (signingInput ++ "." ++ RawURLEncode signature)%string.

Definition token_request (assertion : string) : http_request :=
  mkHttpRequest "POST" defaultTokenURL None
    ("assertion=" ++ QueryEscape assertion ++ "&grant_type=" ++ QueryEscape serviceAccountGrantType)%string.

(* internal/stores/googleplay/adapter.go: Adapter.accessToken *)
Definition google_accessToken (configuration : google_configuration) : Tx google_trace string :=
  do assertion <- tx_catch (fun e => google_failure "token" FailurePermanent (Some e))
                    (google_assertion configuration);
  do answer <- google_do (token_request assertion);
  do failure <- google_statusFailure "token" (snd answer);
  match failure with
  | Some e => tx_err (rekind token_kind e)
  | None =>
      match DecodeTokenResponse (fst answer) with
      | Err e => tx_err (google_failure "token" FailureUnauthorized (Some e))
      | Ok response =>
          if String.eqb (tr_AccessToken response) EmptyString
             || (negb (String.eqb (tr_TokenType response) "Bearer")
                 && negb (String.eqb (tr_TokenType response) "bearer"))
          then tx_err (google_failure "token" FailureUnauthorized None)
          else tx_ret (tr_AccessToken response)
      end
  end.

Definition publisher_path (application : Application) : string :=
  (TrimRightSlash defaultPublisherURL ++ "/androidpublisher/v3/applications/"
   ++ PathEscape (sa_ID (app_Store application)) ++ "/purchases/")%string.

(** The resource a purchase is read from. *)
(* internal/stores/googleplay/adapter.go:424-433: Adapter.query *)
Definition query_request (application : Application) (accessToken purchaseToken : string)
    (kind : ProductKind) : result http_request :=
  let request (resource : string) :=
    mkHttpRequest "GET" (publisher_path application ++ resource ++ PathEscape purchaseToken)%string
      (Some ("Bearer " ++ accessToken)%string) EmptyString in
  if String.eqb kind ProductKindSubscription then Ok (request "subscriptionsv2/tokens/"%string)
  else if String.eqb kind ProductKindNonConsumable then Ok (request "productsv2/tokens/"%string)
  else Err (google_invalid "query" (Errorf "unsupported Google Play product kind %q" [AStr kind])).

(** The first observation of a slice that has one. *)
Definition first_observation (observations : list PurchaseObservation) : result PurchaseObservation :=
  match observations with
  | current :: _ => Ok current
  | [] => Err (New "runtime error: index out of range [0] with length 0")
  end.

(* internal/stores/googleplay/adapter.go:452-473: Adapter.query *)
Definition subscription_answer (now : time) (application : Application) (purchaseToken : string)
    (artifact : Evidence) (purchase : subscriptionPurchase) : result queryResult :=
  let* observations := subscriptionObservations now application purchaseToken purchase in
  let* current := first_observation observations in
  let* actions := wrap_result (google_invalid "normalize")
    (acknowledgementActions current (spu_SubscriptionState purchase) (spu_AcknowledgementState purchase)) in
  let* itemReplaced := itemReplacementObservation application purchaseToken purchase current in
  Ok (mkQueryResult artifact observations actions (subscriptionProducts purchase) itemReplaced).

(* internal/stores/googleplay/adapter.go:474-487: Adapter.query *)
Definition product_answer (now : time) (application : Application) (purchaseToken : string)
    (artifact : Evidence) (purchase : productPurchase) : result queryResult :=
  let* observations := productObservations now application purchaseToken purchase in
  let* current := first_observation observations in
  let* actions := wrap_result (google_invalid "normalize")
    (acknowledgementActions current (pp_PurchaseState purchase) (pp_AcknowledgementState purchase)) in
  Ok (mkQueryResult artifact observations actions [] None).

(* internal/stores/googleplay/adapter.go: Adapter.query *)
Definition google_query (application : Application) (configuration : google_configuration)
    (purchaseToken : string) (kind : ProductKind) : Tx google_trace queryResult :=
  do accessToken <- google_accessToken configuration;
  do request <- tx_lift (query_request application accessToken purchaseToken kind);
  do answer <- google_do request;
  do failure <- google_statusFailure "query" (snd answer);
  match failure with
  | Some e => tx_err e
  | None =>
      let text := fst answer in
      do artifact <- tx_lift (wrap_result (google_invalid "query") (NewEvidence "application/json" text));
      if String.eqb kind ProductKindSubscription then
        match UnmarshalSubscription text with
        | None => tx_err (google_invalid "query" (New "google play subscription response is invalid"))
        | Some purchase =>
            do now <- read_clock;
            tx_lift (subscription_answer now application purchaseToken artifact purchase)
        end
      else
        match UnmarshalProduct text with
        | None => tx_err (google_invalid "query" (New "google play product response is invalid"))
        | Some purchase =>
            do now <- read_clock;
            tx_lift (product_answer now application purchaseToken artifact purchase)
        end
  end.

(** The one purchase token among the references of an action. *)
(* internal/stores/googleplay/adapter.go:500-512: Adapter.acknowledge *)
Fixpoint action_token (references : list StoreReference) (purchaseToken : string) : result string :=
  match references with
  | [] => if String.eqb purchaseToken EmptyString
          then Err (google_invalid "acknowledge"
                      (New "google play acknowledgement requires a purchase token"))
          else Ok purchaseToken
  | reference :: rest =>
      if negb (String.eqb (ref_Kind reference) "purchase_token") then action_token rest purchaseToken
      else if negb (String.eqb purchaseToken EmptyString)
      then Err (google_invalid "acknowledge"
                  (New "google play acknowledgement has multiple purchase tokens"))
      else action_token rest (StoreReference_Value reference)
  end.

(* internal/stores/googleplay/adapter.go:513-534: Adapter.acknowledge *)
Definition acknowledge_request (application : Application) (accessToken : string)
    (action : PostCommitAction) (purchaseToken : string) : result http_request :=
  let request (resource : string) :=
    mkHttpRequest "POST" (publisher_path application ++ resource ++ PathEscape (act_ProductID action)
                          ++ "/tokens/" ++ PathEscape purchaseToken ++ ":acknowledge")%string
      (Some ("Bearer " ++ accessToken)%string) "{}" in
  if String.eqb (act_ProductKind action) ProductKindSubscription then Ok (request "subscriptions/"%string)
  else if String.eqb (act_ProductKind action) ProductKindNonConsumable then Ok (request "products/"%string)
  else Err (google_invalid "acknowledge"
              (Errorf "unsupported Google Play acknowledgement product kind %q"
                 [AStr (act_ProductKind action)])).

Definition action_request (application : Application) (accessToken : string) (action : PostCommitAction)
    : result http_request :=
  if negb (String.eqb (act_Kind action) acknowledgeActionKind)
  then Err (google_invalid "acknowledge"
              (Errorf "unsupported Google Play post-commit action %q" [AStr (act_Kind action)]))
  else
    let* purchaseToken := action_token (act_QueryReferences action) EmptyString in
    acknowledge_request application accessToken action purchaseToken.

(* internal/stores/googleplay/adapter.go: Adapter.acknowledge *)
Definition google_acknowledge (application : Application) (accessToken : string)
    (action : PostCommitAction) : Tx google_trace unit :=
  do request <- tx_lift (action_request application accessToken action);
  do answer <- google_do request;
  do failure <- google_statusFailure "acknowledge" (snd answer);
  match failure with
  | Some e => tx_err (rekind acknowledge_kind e)
  | None => tx_ret tt
  end.

(** ** Operations *)

(* internal/stores/googleplay/adapter.go: parseEvidence *)
Definition google_parseEvidence (evidence : Evidence) : result google_clientEvidence :=
  if negb (String.eqb (ev_ContentType evidence) GooglePlayEvidenceContentType)
  then Err (New "unsupported Google Play evidence content type")
  else
    let* parsed := DecodeGoogleEvidence (Evidence_Bytes evidence) in
    if String.eqb (TrimSpace (gev_PurchaseToken parsed)) EmptyString
    then Err (New "google play purchase token is required")
    else if negb (String.eqb (gev_ProductKind parsed) ProductKindSubscription)
            && negb (String.eqb (gev_ProductKind parsed) ProductKindNonConsumable)
    then Err (New "unsupported Google Play product kind")
    else Ok parsed.

(** Fail with invalid evidence. *)
Definition google_check {A} (operation : string) (e : error) (k : Tx google_trace A) : Tx google_trace A :=
  match e with Some x => tx_err (google_invalid operation x) | None => k end.

Section Queries.
Context `{Horder : !GoMapRange}.

(* internal/stores/googleplay/adapter.go: Adapter.Verify *)
Definition google_Verify (request : VerificationRequest) : Tx google_trace VerificationResult :=
  google_check "verify" (VerificationRequest_Validate request) (
  do evidence <- tx_lift (wrap_result (google_invalid "verify") (google_parseEvidence (vq_Evidence request)));
  do configuration <- tx_lift (google_configure (vq_Application request));
  do answer <- google_query (vq_Application request) configuration (gev_PurchaseToken evidence)
                 (gev_ProductKind evidence);
  do verifiedAt <- read_clock;
  let verificationResult := google_verificationResult answer verifiedAt (vq_ClaimedProducts request) in
  let validationRequest := mkVerificationRequest (vq_Application request) (vq_CustomerID request)
    (ProductsForClaim verificationResult (vq_ClaimedProducts request))
    (vq_ExpectedCustomerBindings request) (vq_Evidence request) in
  google_check "verify" (ValidateForVerification verificationResult validationRequest)
    (tx_ret verificationResult)).

(* internal/stores/googleplay/adapter.go: Adapter.Reconcile *)
Definition google_Reconcile (request : ReconciliationRequest) : Tx google_trace VerificationResult :=
  google_check "reconcile" (ReconciliationRequest_Validate request) (
  google_check "reconcile" (refuse_if (negb (Nat.eqb (length (rq_ExpectedProducts request)) 1))
    (New "google play reconciliation requires one expected product")) (
  let purchaseToken := FirstReferenceValue (rq_QueryReferences request) "purchase_token" in
  google_check "reconcile" (refuse_if (String.eqb purchaseToken EmptyString)
    (New "google play reconciliation requires a purchase token")) (
  do configuration <- tx_lift (google_configure (rq_Application request));
  do answer <- google_query (rq_Application request) configuration purchaseToken
                 (rq_ExpectedProductKind request);
  do verifiedAt <- read_clock;
  let verificationResult := google_verificationResult answer verifiedAt (rq_ExpectedProducts request) in
  let validationRequest := mkReconciliationRequest (rq_Application request) (rq_CustomerID request)
    (ProductsForClaim verificationResult (rq_ExpectedProducts request)) (rq_ExpectedProductKind request)
    (rq_ExpectedCustomerBindings request) (rq_QueryReferences request) in
  google_check "reconcile" (ValidateForReconciliation verificationResult validationRequest)
    (tx_ret verificationResult)))).
End Queries.

(* internal/stores/googleplay/adapter.go:334-352: Adapter.LinkedPurchase *)
Definition linked_answer (current : PurchaseObservation) : result LinkedPurchase :=
  let invalid := google_invalid "linked_purchase" in
  let* linkedReferences := wrap_result invalid
    (collect (fun _ reference => NewStoreReference ReferenceQuery "purchase_token"
                                   (StoreReference_Value reference))
       (List.filter (fun reference => String.eqb (ref_Kind reference) "purchase_token")
          (ReferencesFor current ReferenceLinkedLineage))) in
  let linked := mkLinkedPurchase (obs_ProductID current) linkedReferences
                  (ReferencesFor current ReferenceCustomerBinding) in
  match LinkedPurchase_Validate linked with
  | Some e => Err (invalid e)
  | None => Ok linked
  end.

(* internal/stores/googleplay/adapter.go: Adapter.LinkedPurchase *)
Definition google_LinkedPurchase (request : LinkedPurchaseRequest) : Tx google_trace LinkedPurchase :=
  google_check "linked_purchase" (LinkedPurchaseRequest_Validate request) (
  google_check "linked_purchase"
    (refuse_if (negb (String.eqb (sa_Provider (app_Store (lr_Application request))) ProviderGooglePlay)
                || negb (String.eqb (lr_ProductKind request) ProductKindSubscription))
       (New "google play linked purchases are subscriptions")) (
  let purchaseToken := FirstReferenceValue (lr_QueryReferences request) "purchase_token" in
  google_check "linked_purchase" (refuse_if (String.eqb purchaseToken EmptyString)
    (New "google play linked purchase requires a purchase token")) (
  do configuration <- tx_lift (google_configure (lr_Application request));
  do answer <- google_query (lr_Application request) configuration purchaseToken ProductKindSubscription;
  do current <- tx_lift (first_observation (qr_observations answer));
  tx_lift (linked_answer current)))).

(** The actions are completed in order and the first failure stops. *)
(* internal/stores/googleplay/adapter.go:371-375: Adapter.PostCommit *)
Fixpoint acknowledge_each (application : Application) (accessToken : string) (index : nat)
    (actions : list PostCommitAction) : Tx google_trace unit :=
  match actions with
  | [] => tx_ret tt
  | action :: rest =>
      do _ <- tx_catch (Wrapf "acknowledge Google Play purchase action %d: %w" [AInt (Z.of_nat index)])
                (google_acknowledge application accessToken action);
      acknowledge_each application accessToken (S index) rest
  end.

(* internal/stores/googleplay/adapter.go: Adapter.PostCommit *)
Definition google_PostCommit (request : PostCommitRequest) : Tx google_trace unit :=
  google_check "acknowledge" (PostCommitRequest_Validate request) (
  google_check "acknowledge"
    (refuse_if (negb (String.eqb (sa_Provider (app_Store (pc_Application request))) ProviderGooglePlay))
       (New "google play post-commit application scope is invalid")) (
  do configuration <- tx_lift (google_configure (pc_Application request));
  do accessToken <- google_accessToken configuration;
  acknowledge_each (pc_Application request) accessToken 0 (pc_Actions request))).

End Adapter.

(** ** Line item selection *)

(** The three purchases the adapter supports. *)
Inductive selected (items : list subscriptionLineItem) (now : time) : subscriptionItems -> Prop :=
| selected_single item : items = [item] -> selected items now (mkItems item None None)
| selected_deferred current next :
    Permutation items [current; next] ->
    sli_DeferredItemReplacement current = Some (sli_ProductID next) ->
    sli_DeferredItemReplacement next = None ->
    sli_ProductID next <> EmptyString -> sli_ProductID next <> sli_ProductID current ->
    sli_ExpiryTime current <> 0 -> sli_ExpiryTime next = 0 ->
    selected items now (mkItems current (Some next) None)
| selected_replaced current replaced :
    Permutation items [current; replaced] ->
    sli_DeferredItemReplacement current = None -> sli_DeferredItemReplacement replaced = None ->
    sli_ProductID replaced <> EmptyString -> sli_ProductID replaced <> sli_ProductID current ->
    sli_ExpiryTime replaced <> 0 -> sli_ExpiryTime replaced < sli_ExpiryTime current ->
    sli_ExpiryTime replaced <= now -> sli_AutoRenewingPlan replaced <> Some true ->
    (forall product, sli_ItemReplacement current = Some product -> product = sli_ProductID replaced) ->
    selected items now (mkItems current None (Some replaced)).

Lemma deferred_items_ok current next it :
  deferred_items current next = Some (Ok it) <->
  it = mkItems current (Some next) None /\
  sli_DeferredItemReplacement current = Some (sli_ProductID next) /\
  sli_DeferredItemReplacement next = None /\
  sli_ProductID next <> EmptyString /\ sli_ProductID next <> sli_ProductID current /\
  sli_ExpiryTime current <> 0 /\ sli_ExpiryTime next = 0.
Proof.
  unfold deferred_items, deferral_broken. destruct (sli_DeferredItemReplacement current) as [p|]; [|naive_solver].
  destruct (_ || _) eqn:E.
  - split; [done|]. intros (-> & [= ->] & H1 & H2 & H3 & H4 & H5). exfalso. rewrite H1, H5 in E.
    autorewrite with gobool in E. rewrite bool_decide_eq_true, is_Some_alt in E. simpl in E. naive_solver.
  - autorewrite with gobool in E. rewrite bool_decide_eq_false, is_Some_alt in E.
    destruct E as [[[[[H1 H2] H3] H4] H5] H6]. subst p.
    destruct (sli_DeferredItemReplacement next); [by destruct H4|]. naive_solver.
Qed.

Lemma replaced_items_ok first second now it :
  replaced_items first second now = Ok it <->
  exists current replaced, it = mkItems current None (Some replaced) /\
    ((current = first /\ replaced = second) \/ (current = second /\ replaced = first)) /\
    sli_ProductID replaced <> EmptyString /\ sli_ProductID replaced <> sli_ProductID current /\
    sli_ExpiryTime replaced <> 0 /\ sli_ExpiryTime replaced < sli_ExpiryTime current /\
    sli_ExpiryTime replaced <= now /\ sli_AutoRenewingPlan replaced <> Some true /\
    (forall product, sli_ItemReplacement current = Some product -> product = sli_ProductID replaced).
Proof.
  assert (Hbody : forall replaced current,
    (String.eqb (sli_ProductID replaced) EmptyString
     || String.eqb (sli_ProductID replaced) (sli_ProductID current)
     || IsZero (sli_ExpiryTime replaced) || negb (Before (sli_ExpiryTime replaced) (sli_ExpiryTime current))
     || After (sli_ExpiryTime replaced) now || bool_decide (sli_AutoRenewingPlan replaced = Some true)
     || (match sli_ItemReplacement current with
         | Some product => negb (String.eqb product (sli_ProductID replaced))
         | None => false
         end) = false <->
    sli_ProductID replaced <> EmptyString /\ sli_ProductID replaced <> sli_ProductID current /\
    sli_ExpiryTime replaced <> 0 /\ sli_ExpiryTime replaced < sli_ExpiryTime current /\
    sli_ExpiryTime replaced <= now /\ sli_AutoRenewingPlan replaced <> Some true /\
    (forall product, sli_ItemReplacement current = Some product -> product = sli_ProductID replaced))).
  { intros replaced current. unfold Before, After. bool_simpl. rewrite bool_decide_eq_false.
    destruct (sli_ItemReplacement current); bool_simpl; naive_solver. }
  unfold replaced_items, After at 1.
  destruct (Z.ltb_spec (sli_ExpiryTime second) (sli_ExpiryTime first)) as [Hlt|Hge].
  - destruct (_ || _) eqn:E.
    + split; [done|]. intros (c & r & -> & [[-> ->]|[-> ->]] & H); [|lia].
      apply Hbody in H. congruence.
    + apply Hbody in E. split; [intros [= <-]; eauto 10|]. intros (c & r & -> & [[-> ->]|[-> ->]] & H); [done|lia].
  - destruct (_ || _) eqn:E.
    + split; [done|]. intros (c & r & -> & [[-> ->]|[-> ->]] & H); [lia|].
      apply Hbody in H. congruence.
    + apply Hbody in E. split; [intros [= <-]; eauto 10|]. intros (c & r & -> & [[-> ->]|[-> ->]] & H); [lia|done].
Qed.

Lemma deferred_none current next : deferred_items current next = None <-> sli_DeferredItemReplacement current = None.
Proof.
  unfold deferred_items. destruct (sli_DeferredItemReplacement current); [|done].
  destruct (deferral_broken _ _ _); done.
Qed.

Lemma perm_pair {A} (x y a b : A) :
  Permutation [x; y] [a; b] <-> (a = x /\ b = y) \/ (a = y /\ b = x).
Proof.
  split.
  - intros H%Permutation_sym. apply Permutation_length_2_inv in H as [[= -> ->]|[= -> ->]]; auto.
  - intros [[-> ->]|[-> ->]]; [done|apply perm_swap].
Qed.

Lemma deferred_items_swap first second :
  sli_DeferredItemReplacement first <> None -> sli_DeferredItemReplacement second <> None ->
  deferred_items first second
  = Some (Err (New "google play deferred replacement is inconsistent")).
Proof.
  unfold deferred_items, deferral_broken. destruct (sli_DeferredItemReplacement first); [|done].
  destruct (sli_DeferredItemReplacement second); [|done]. intros _ _.
  rewrite bool_decide_eq_true_2 by eauto. by rewrite !orb_true_r.
Qed.

Lemma replaced_items_comm first second now :
  replaced_items first second now = replaced_items second first now.
Proof.
  unfold replaced_items, After at 1 3.
  destruct (Z.ltb_spec (sli_ExpiryTime second) (sli_ExpiryTime first)),
    (Z.ltb_spec (sli_ExpiryTime first) (sli_ExpiryTime second)); try lia; [done|done|].
  unfold Before. rewrite (proj2 (Z.ltb_ge (sli_ExpiryTime first) (sli_ExpiryTime second))) by lia.
  rewrite (proj2 (Z.ltb_ge (sli_ExpiryTime second) (sli_ExpiryTime first))) by lia.
  cbn [negb]. by rewrite !orb_true_r.
Qed.

Lemma select_comm a b now : selectSubscriptionItems [a; b] now = selectSubscriptionItems [b; a] now.
Proof.
  cbn [selectSubscriptionItems].
  destruct (deferred_items a b) as [r1|] eqn:E1, (deferred_items b a) as [r2|] eqn:E2; try done.
  - assert (forall x y r, deferred_items x y = Some r -> sli_DeferredItemReplacement x <> None) as Hd
      by (intros x y r Hr Hn; apply (deferred_none x y) in Hn; congruence).
    pose proof (Hd _ _ _ E1) as Ha. pose proof (Hd _ _ _ E2) as Hb.
    rewrite deferred_items_swap in E1, E2 by done. congruence.
  - by apply replaced_items_comm.
Qed.

Lemma select_selected items now it : selectSubscriptionItems items now = Ok it <-> selected items now it.
Proof.
  split.
  - destruct items as [|a [|b [|? ?]]]; try done; cbn [selectSubscriptionItems].
    { intros [= <-]. by constructor. }
    destruct (deferred_items a b) as [r|] eqn:E1.
    { intros ->. apply deferred_items_ok in E1 as (-> & ?). apply selected_deferred; tauto || done. }
    destruct (deferred_items b a) as [r|] eqn:E2.
    { intros ->. apply deferred_items_ok in E2 as (-> & ?). apply selected_deferred; try tauto. apply perm_swap. }
    apply deferred_none in E1, E2. intros (c & r & -> & Hp & Hr)%replaced_items_ok.
    splits_hyps. apply selected_replaced; auto; [|destruct Hp as [[-> ->]|[-> ->]]; done..].
    apply perm_pair. tauto.
  - intros [item ->|current next Hp H1 H2 H3 H4 H5 H6|current replaced Hp D1 D2 H]; [done| |].
    + assert (Hs : selectSubscriptionItems [current; next] now = Ok (mkItems current (Some next) None)).
      { cbn [selectSubscriptionItems]. by rewrite (proj2 (deferred_items_ok current next _)) by (split_and!; auto). }
      apply Permutation_sym, Permutation_length_2_inv in Hp as [-> | ->]; [done|by rewrite select_comm].
    + assert (Hs : selectSubscriptionItems [current; replaced] now = Ok (mkItems current None (Some replaced))).
      { cbn [selectSubscriptionItems]. apply (deferred_none _ replaced) in D1. apply (deferred_none _ current) in D2.
        rewrite D1, D2. apply replaced_items_ok. eauto 15. }
      apply Permutation_sym, Permutation_length_2_inv in Hp as [-> | ->]; [done|by rewrite select_comm].
Qed.

(** Which line item of a Google subscription grants access is decided by the
    purchase alone: one item; or two, of which the granting one announces the
    other as its deferred replacement, not yet started; or two, of which the other
    has already ended, before it, without renewing.  Nothing else is accepted and
    the order in which Google lists the items does not matter. *)
Theorem google_selection (items : list subscriptionLineItem) (now : time) :
  (forall it, selectSubscriptionItems items now = Ok it <-> selected items now it) /\
  (forall items', Permutation items items' ->
     selectSubscriptionItems items' now = selectSubscriptionItems items now).
Proof.
  split.
  - intros it. apply select_selected.
  - intros items' Hp. destruct items as [|a [|b [|c l]]].
    + by apply Permutation_nil in Hp as ->.
    + apply Permutation_length_1_inv in Hp as ->. done.
    + apply Permutation_length_2_inv in Hp as [-> | ->]; [done|apply select_comm].
    + apply Permutation_length in Hp. destruct items' as [|? [|? [|? ?]]]; done.
Qed.

(** ** Observations *)

Lemma normalize_check_ok {A} e (k : result A) a : normalize_check e k = Ok a <-> e = None /\ k = Ok a.
Proof. destruct e; simpl; naive_solver. Qed.

Lemma google_checked_ok o o' :
  google_checked o = Ok o' <-> o' = o /\ PurchaseObservation_Validate o = None.
Proof. unfold google_checked. destruct (PurchaseObservation_Validate o); naive_solver. Qed.

Lemma google_binding purchaseToken orderID linkedToken accountID references :
  googleReferences purchaseToken orderID linkedToken accountID = Ok references ->
  forall role kind value, In (mkStoreReference role kind value) references <->
    value <> EmptyString /\
    ((role = ReferenceTransaction /\ kind = "order_id"%string /\ value = orderID) \/
     (role = ReferenceLineage /\ kind = "purchase_token"%string /\ value = purchaseToken) \/
     (role = ReferenceLinkedLineage /\ kind = "purchase_token"%string /\ value = linkedToken) \/
     (role = ReferenceQuery /\ kind = "purchase_token"%string /\ value = purchaseToken) \/
     (role = ReferenceCustomerBinding /\ kind = "obfuscated_external_account_id"%string /\
      value = accountID)).
Proof.
  intros H role kind value. rewrite (make_references_In _ _ H). split.
  - intros (ro & k & v & Hin & Hne & [= -> -> ->]). split; [done|]. simpl in Hin.
    destruct Hin as [[= <- <- <-]|[[= <- <- <-]|[[= <- <- <-]|[[= <- <- <-]|[[= <- <- <-]|[]]]]]]; tauto.
  - intros [Hne Hc]. exists role, kind, value. split; [|done]. simpl.
    destruct Hc as [(-> & -> & ->)|[(-> & -> & ->)|[(-> & -> & ->)|[(-> & -> & ->)|(-> & -> & ->)]]]]; tauto.
Qed.

(** The one query reference. *)
Lemma google_query_reference purchaseToken orderID linkedToken accountID references :
  googleReferences purchaseToken orderID linkedToken accountID = Ok references ->
  List.filter (fun reference => String.eqb (ref_Role reference) ReferenceQuery) references
  = if String.eqb purchaseToken EmptyString then []
    else [mkStoreReference ReferenceQuery "purchase_token" purchaseToken].
Proof.
  unfold googleReferences. cbn [make_references]. unfold NewStoreReference. intros H.
  destruct (String.eqb purchaseToken EmptyString), (String.eqb orderID EmptyString),
    (String.eqb linkedToken EmptyString), (String.eqb accountID EmptyString);
    repeat match type of H with context [try_err ?e _] =>
      destruct e; [discriminate H|]; cbn [try_err bind_result] in H end;
    injection H as <-; reflexivity.
Qed.

(** The states in which Google grants a subscription. *)
Definition google_granting (state : string) : Prop :=
  In state [subscriptionStateActive; subscriptionStateGrace; subscriptionStateCanceled].

Lemma normalize_granting value state access reason :
  normalizeSubscriptionState value = (state, access, reason) ->
  (access = AccessAllowed <-> google_granting value) /\
  (access = AccessAllowed -> String.eqb state LifecyclePending || String.eqb state LifecycleRevoked = false).
Proof.
  unfold normalizeSubscriptionState, google_granting. simpl. intros H.
  repeat match type of H with
  | (if String.eqb value ?s then _ else _) = _ => destruct (String.eqb_spec value s) as [->|]
  end; injection H as <- <- <-; (split; [split; [|]|]); try done; try (intros _; tauto);
    try (intros [Hc|[Hc|[Hc|[]]]]; congruence || discriminate Hc).
Qed.

(** A snapshot of a purchase: what its observation says of it. *)
Record google_snapshot (application : Application) (purchase : subscriptionPurchase) (token : string)
    (productID : string) (o : PurchaseObservation) : Prop := {
  gs_valid : PurchaseObservation_Validate o = None;
  gs_scope : obs_ApplicationID o = app_ID application /\ obs_Store o = app_Store application;
  gs_product : obs_ProductID o = productID /\ obs_ProductKind o = ProductKindSubscription;
  gs_query : ReferencesFor o ReferenceQuery
    = if String.eqb token EmptyString then [] else [mkStoreReference ReferenceQuery "purchase_token" token];
  gs_references : forall role kind value,
    role <> ReferenceTransaction -> In (mkStoreReference role kind value) (obs_References o) ->
    (role = ReferenceLineage /\ kind = "purchase_token"%string /\ value = token) \/
    (role = ReferenceLinkedLineage /\ kind = "purchase_token"%string /\
     value = spu_LinkedPurchaseToken purchase) \/
    (role = ReferenceQuery /\ kind = "purchase_token"%string /\ value = token) \/
    (role = ReferenceCustomerBinding /\ kind = "obfuscated_external_account_id"%string /\
     value = spu_ObfuscatedExternalAccountID purchase)
}.

Lemma replaced_snapshot application token purchase item current o :
  replacedItemObservation application token purchase item current = Ok o ->
  google_snapshot application purchase token (sli_ProductID item) o /\
  obs_State o = LifecycleExpired /\ obs_Access o = AccessDenied /\
  obs_ObservedAt o = obs_ObservedAt current - Microsecond.
Proof.
  unfold replacedItemObservation. intros H. apply bind_result_ok in H as (renewal & _ & H).
  apply bind_result_ok in H as (references & Hr & H). apply wrap_result_ok in Hr.
  destruct (normalizeSubscriptionState subscriptionStateExpired) as [[state access] reason] eqn:En.
  apply google_checked_ok in H as [-> Hv]. vm_compute in En. injection En as <- <- <-.
  split; [|done]. split; [exact Hv|done|done|by eapply google_query_reference|]. cbn [obs_References]. intros role kind value Hne Hin.
  apply (google_binding _ _ _ _ _ Hr) in Hin. tauto.
Qed.

Lemma current_snapshot now application token purchase items o :
  currentObservation now application token purchase items = Ok o ->
  google_snapshot application purchase token (sli_ProductID (it_current items)) o /\
  obs_ObservedAt o = now /\ obs_ProviderState o = spu_SubscriptionState purchase /\
  spu_ObfuscatedExternalAccountID purchase <> EmptyString /\
  (obs_Access o = AccessAllowed <-> google_granting (spu_SubscriptionState purchase)) /\
  (obs_Access o = AccessAllowed ->
     obs_EffectivePeriod o
     = mkPeriod (spu_StartTime purchase) (Some (sli_ExpiryTime (it_current items)))).
Proof.
  unfold currentObservation. intros H. apply normalize_check_ok in H as [Hid H].
  apply refuse_if_nil, orb_false_iff in Hid as [_ Hacc]. apply String.eqb_neq in Hacc.
  destruct (normalizeSubscriptionState (spu_SubscriptionState purchase)) as [[state access] reason] eqn:En.
  destruct (normalize_granting _ _ _ _ En) as [Hg Hs].
  apply bind_result_ok in H as (renewal0 & _ & H). apply bind_result_ok in H as (renewal & _ & H).
  apply bind_result_ok in H as (references & Hr & H). apply wrap_result_ok in Hr.
  apply google_checked_ok in H as [-> Hv]. split; [|split; [done|split; [done|split; [done|split; [exact Hg|]]]]].
  - split; [exact Hv|done|done|by eapply google_query_reference|]. cbn [obs_References]. intros role kind value Hne Hin.
    apply (google_binding _ _ _ _ _ Hr) in Hin. tauto.
  - cbn [obs_Access obs_EffectivePeriod]. intros Ha. rewrite (Hs Ha). f_equal.
    apply observation_parts in Hv. destruct Hv as [_ _ _ _ _ _ _ _ _ Hallow _ _ _ _].
    destruct (Hallow Ha) as (_ & _ & _ & He). specialize (He eq_refl).
    cbn [obs_EffectivePeriod EndsAt] in He. rewrite (Hs Ha) in He. cbn [EndsAt] in He.
    unfold timePointer in *. destruct (IsZero _); [by destruct He|done].
Qed.

(** What a purchase names besides the item that grants access now. *)
Definition ended_snapshot (application : Application) (purchase : subscriptionPurchase) (token : string)
    (current o : PurchaseObservation) : Prop :=
  obs_ProductID o <> obs_ProductID current /\
  google_snapshot application purchase token (obs_ProductID o) o /\
  obs_State o = LifecycleExpired /\ obs_Access o = AccessDenied /\
  obs_ObservedAt o < obs_ObservedAt current.

Lemma ended_replaced application purchase token item current o :
  replacedItemObservation application token purchase item current = Ok o ->
  sli_ProductID item <> obs_ProductID current -> ended_snapshot application purchase token current o.
Proof.
  intros (Hs & H1 & H2 & H3)%replaced_snapshot Hne. destruct (gs_product _ _ _ _ _ Hs) as [Hp _].
  split; [by rewrite Hp|]. rewrite Hp. split_and!; auto. rewrite H3. unfold Microsecond. lia.
Qed.

Lemma answer_observations now application token artifact purchase qr :
  subscription_answer now application token artifact purchase = Ok qr ->
  exists it current, selectSubscriptionItems (spu_LineItems purchase) now = Ok it /\
    currentObservation now application token purchase it = Ok current /\
    google_validateEnvironment (sa_Environment (app_Store application)) (spu_TestPurchase purchase) = None /\
    acknowledgementActions current (spu_SubscriptionState purchase) (spu_AcknowledgementState purchase)
      = Ok (qr_postCommitActions qr) /\
    qr_artifact qr = artifact /\
    ((exists o, qr_observations qr = [current; o] /\ qr_itemReplaced qr = None /\
        ended_snapshot application purchase token current o) \/
     (qr_observations qr = [current] /\
      forall o, qr_itemReplaced qr = Some o -> ended_snapshot application purchase token current o)).
Proof.
  unfold subscription_answer, subscriptionObservations. intros H.
  apply bind_result_ok in H as (observations & Hobs & H). apply bind_result_ok in Hobs as (it & Hit & Hobs).
  apply wrap_result_ok in Hit. apply normalize_check_ok in Hobs as [Henv Hobs].
  apply bind_result_ok in Hobs as (current & Hcur & Hobs).
  apply bind_result_ok in H as (current' & Hfirst & H). apply bind_result_ok in H as (actions & Hact & H).
  apply wrap_result_ok in Hact. apply bind_result_ok in H as (itemReplaced & Hitem & [= <-]).
  exists it, current. destruct (current_snapshot _ _ _ _ _ _ Hcur) as (Hs & _).
  destruct (gs_product _ _ _ _ _ Hs) as [Hp _].
  split; [done|]. split; [done|]. split; [done|]. cbn [qr_postCommitActions qr_artifact qr_observations qr_itemReplaced].
  apply select_selected in Hit. destruct Hit as [item Hl|c n Hperm _ _ _ _ _ _|c r Hperm _ _ _ Hne _ _ _ _ _];
    cbn [it_replaced it_current] in Hobs, Hp.
  - injection Hobs as <-. injection Hfirst as <-. split; [done|]. split; [done|]. right. split; [done|].
    intros o ->. unfold itemReplacementObservation in Hitem. rewrite Hl in Hitem.
    destruct (sli_ItemReplacement item) as [p|]; [|done]. destruct (_ || _) eqn:E; [done|].
    apply bind_result_ok in Hitem as (o' & Ho & [= <-]). apply orb_false_iff in E as [_ E].
    apply (ended_replaced _ _ _ _ _ _ Ho). rewrite Hp. by apply String.eqb_neq.
  - injection Hobs as <-. injection Hfirst as <-. split; [done|]. split; [done|]. right. split; [done|].
    intros o ->. unfold itemReplacementObservation in Hitem.
    apply Permutation_length in Hperm.
    destruct (spu_LineItems purchase) as [|? [|? ?]]; simpl in Hperm; congruence.
  - apply bind_result_ok in Hobs as (o & Ho & [= <-]). injection Hfirst as <-. split; [done|]. split; [done|].
    left. exists o. split; [done|]. split.
    + unfold itemReplacementObservation in Hitem. apply Permutation_length in Hperm.
      destruct (spu_LineItems purchase) as [|? [|? ?]]; simpl in Hperm; congruence.
    + apply (ended_replaced _ _ _ _ _ _ Ho). by rewrite Hp.
Qed.

(** C6. What the Google adapter reports of a subscription: first the selected
    item, allowed exactly in the active, grace-period and canceled states and then
    until its expiry time; and at most one other product of the same purchase,
    always an expired denial observed earlier.  Nothing carries an identity or a
    token other than the purchase's own, so a second product can never extend
    access. *)
Theorem google_access_sound (now verifiedAt : time) (application : Application) (token : string)
    (artifact : Evidence) (purchase : subscriptionPurchase) (qr : queryResult)
    (requested : list ProviderProductID) :
  subscription_answer now application token artifact purchase = Ok qr ->
  exists it current others,
    selectSubscriptionItems (spu_LineItems purchase) now = Ok it /\
    vr_Observations (google_verificationResult qr verifiedAt requested) = current :: others /\
    google_snapshot application purchase token (sli_ProductID (it_current it)) current /\
    (obs_Access current = AccessAllowed <-> google_granting (spu_SubscriptionState purchase)) /\
    (obs_Access current = AccessAllowed ->
       obs_EffectivePeriod current
       = mkPeriod (spu_StartTime purchase) (Some (sli_ExpiryTime (it_current it)))) /\
    (length others <= 1)%nat /\
    forall o, In o others -> ended_snapshot application purchase token current o.
Proof.
  intros (it & current & Hit & Hcur & _ & _ & _ & Hobs)%answer_observations.
  destruct (current_snapshot _ _ _ _ _ _ Hcur) as (Hs & _ & _ & _ & Ha & Hper).
  exists it, current. unfold google_verificationResult. cbn [vr_Observations].
  destruct Hobs as [(o & -> & -> & Ho)|[-> Ho]].
  - exists [o]. split_and!; auto. intros x [<-|[]]. exact Ho.
  - destruct (qr_itemReplaced qr) as [x|]; [|exists []; split_and!; auto; by intros ? []].
    destruct requested as [|p [|? ?]]; [exists []; split_and!; auto; by intros ? []| |
                                         exists []; split_and!; auto; by intros ? []].
    destruct (String.eqb p (obs_ProductID x)); [|exists []; split_and!; auto; by intros ? []].
    exists [x]. split_and!; auto. intros y [<-|[]]. auto.
Qed.

(** ** Requests *)

Definition succeeded (response : http_response) : Prop := 200 <= status response < 300.

(** How an acknowledgement ends by its answer: nothing to report when it was
    answered with a success, and otherwise the kind of its failure. *)
Definition acknowledged_as (answer : result http_response) : option FailureKind :=
  match answer with
  | Err _ => Some FailureTemporary
  | Ok response =>
      match body response with
      | Err _ => Some FailureTemporary
      | Ok text =>
          if 2097152 <? len text then Some FailurePermanent
          else if decide (200 <= status response < 300) then None
          else if decide (status response ∈ [401; 403]) then Some FailureUnauthorized
          else if decide (status response ∈ [404; 410]) then Some FailureNotFound
          else if decide (status response = 429) then Some FailureRateLimited
          else if decide (status response = 409 \/ 500 <= status response) then Some FailureTemporary
          else Some FailurePermanent
      end
  end.

(** The request that acknowledges an action: its one purchase token, its product
    and its kind's resource at Google's publisher API, with the bearer. *)
Definition acknowledges (application : Application) (accessToken : string) (action : PostCommitAction)
    (request : http_request) : Prop :=
  act_Kind action = "acknowledge_purchase"%string /\
  exists purchaseToken empties resource, purchaseToken <> EmptyString /\
    map StoreReference_Value (List.filter (fun q => String.eqb (ref_Kind q) "purchase_token")
                                (act_QueryReferences action))
    = replicate empties EmptyString ++ [purchaseToken] /\
    ((act_ProductKind action = ProductKindSubscription /\ resource = "subscriptions"%string) \/
     (act_ProductKind action = ProductKindNonConsumable /\ resource = "products"%string)) /\
    request = mkHttpRequest "POST"
      ("https://androidpublisher.googleapis.com/androidpublisher/v3/applications/"
       ++ PathEscape (sa_ID (app_Store application)) ++ "/purchases/" ++ resource ++ "/"
       ++ PathEscape (act_ProductID action) ++ "/tokens/" ++ PathEscape purchaseToken ++ ":acknowledge")%string
      (Some ("Bearer " ++ accessToken)%string) "{}".

(** A failure of this store, of a kind that is not a conflict. *)
Definition google_classified (e : gerror) : Prop :=
  exists operation kind retry,
    as_failure e = Some (ProviderGooglePlay, operation, kind, retry) /\ kind <> FailureConflict.

Lemma classified_failure operation kind retry cause :
  kind <> FailureConflict -> google_classified (NewFailure ProviderGooglePlay operation kind retry cause).
Proof. intros H. exists operation, kind, retry. split; [reflexivity|exact H]. Qed.

Lemma action_token_iff references found t :
  action_token references found = Ok t <->
  t <> EmptyString /\
  let values := map StoreReference_Value
                  (List.filter (fun q => String.eqb (ref_Kind q) "purchase_token") references) in
  if String.eqb found EmptyString then exists k, values = replicate k EmptyString ++ [t]
  else t = found /\ values = [].
Proof.
  cbv zeta. revert found. induction references as [|q references IH]; intros found; cbn [action_token List.filter].
  - destruct (String.eqb_spec found EmptyString) as [->|Hf]; split.
    + done.
    + intros (_ & [|k] & [=]).
    + intros [= <-]. done.
    + by intros (_ & -> & _).
  - destruct (String.eqb (ref_Kind q) "purchase_token") eqn:Hq; cbn [negb]; [|apply IH].
    destruct (String.eqb_spec found EmptyString) as [->|Hf]; cbn [negb map].
    2: { split; [done|]. by intros (_ & _ & ?). }
    rewrite IH. destruct (String.eqb_spec (StoreReference_Value q) EmptyString) as [E|E]; (split; intros [Ht H]; (split; [done|])).
    + destruct H as [k ->]. exists (S k). by rewrite E.
    + destruct H as [[|k] H]; injection H; [congruence|]. intros -> _. eauto.
    + destruct H as [-> ->]. by exists 0%nat.
    + destruct H as [[|k] H]; injection H; [|congruence]. intros -> ->. done.
Qed.

Lemma string_app_assoc (a b c : string) : (a ++ b ++ c = (a ++ b) ++ c)%string.
Proof. induction a as [|x a IH]; [done|]. exact (f_equal (String x) IH). Qed.

Lemma action_request_iff application accessToken action request :
  action_request application accessToken action = Ok request <->
  acknowledges application accessToken action request.
Proof.
  unfold action_request, acknowledges. change acknowledgeActionKind with "acknowledge_purchase"%string.
  destruct (String.eqb_spec (act_Kind action) "acknowledge_purchase") as [Hk|Hk]; cbn [negb]; [|split; [done|tauto]].
  assert (Hpath : forall resource product token : string,
    (publisher_path application ++ (resource ++ "/") ++ product ++ "/tokens/" ++ token ++ ":acknowledge")%string
    = ("https://androidpublisher.googleapis.com/androidpublisher/v3/applications/"
       ++ PathEscape (sa_ID (app_Store application)) ++ "/purchases/" ++ resource ++ "/"
       ++ product ++ "/tokens/" ++ token ++ ":acknowledge")%string).
  { intros. unfold publisher_path. change (TrimRightSlash defaultPublisherURL) with "https://androidpublisher.googleapis.com"%string.
    rewrite <- !string_app_assoc. reflexivity. }
  split.
  - intros H. apply bind_result_ok in H as (t & (Hne & k & Hv)%action_token_iff & H). split; [done|].
    unfold acknowledge_request in H.
    destruct (String.eqb_spec (act_ProductKind action) ProductKindSubscription);
      [|destruct (String.eqb_spec (act_ProductKind action) ProductKindNonConsumable); [|done]];
      injection H as <-; [exists t, k, "subscriptions"%string|exists t, k, "products"%string];
      split_and!; auto; f_equal;
      first [exact (Hpath "subscriptions"%string _ _)|exact (Hpath "products"%string _ _)].
  - intros (_ & t & k & resource & Hne & Hv & Hkind & ->).
    rewrite (proj2 (action_token_iff _ EmptyString t)) by (split; [done|]; cbn [String.eqb]; eauto).
    cbn [bind_result]. unfold acknowledge_request.
    destruct Hkind as [[-> ->]|[-> ->]].
    + rewrite String.eqb_refl. do 2 f_equal. exact (Hpath "subscriptions"%string _ _).
    + change (String.eqb ProductKindNonConsumable ProductKindSubscription) with false. rewrite String.eqb_refl.
      do 2 f_equal. exact (Hpath "products"%string _ _).
Qed.

Section Requests.
Context `{Lib : GoogleLibrary}.
Context (credentials : Application -> string -> result Credential).
Context (transport : list http_request -> http_request -> result http_response).
Context (clock : nat -> time).

Lemma google_do_sent request tr r tr' :
  google_do transport request tr = (r, tr') ->
  sent tr' = sent tr ++ [request] /\
  match r with
  | Ok answer => transport (sent tr) request = Ok (snd answer)
  | Err e => google_classified e
  end.
Proof.
  unfold google_do, tx_bind, tx_catch, send, tx_err, tx_ret.
  destruct (transport (sent tr) request) as [response|e] eqn:E.
  - destruct (body response) as [text|e].
    + destruct (google_maximumProviderResponse <? len text); intros [= <- <-]; (split; [done|]); [|done].
      by apply classified_failure.
    + intros [= <- <-]. split; [done|]. by apply classified_failure.
  - intros [= <- <-]. split; [done|]. by apply classified_failure.
Qed.

Lemma statusFailure_cases operation response tr r tr' :
  google_statusFailure clock operation response tr = (r, tr') ->
  sent tr' = sent tr /\
  ((r = Ok None /\ succeeded response) \/
   exists kind retry, r = Ok (Some (Failure ProviderGooglePlay operation kind retry None))).
Proof.
  unfold google_statusFailure, tx_ret, succeeded, google_failure, NewFailure.
  destruct (Z.leb_spec 200 (status response)), (Z.ltb_spec (status response) 300); cbn [andb];
    [intros [= <- <-]; split; [done|]; left; done|..];
    (destruct (_ || _); [intros [= <- <-]; split; [done|]; right; eauto|];
     destruct (_ || _); [intros [= <- <-]; split; [done|]; right; eauto|];
     destruct (_ =? 409); [intros [= <- <-]; split; [done|]; right; eauto|];
     destruct (_ =? 429); [intros [= <- <-]; split; [done|]; right; eauto|];
     destruct (500 <=? _); intros [= <- <-]; split; [done|right; eauto|done|right; eauto]).
Qed.

Lemma token_kind_not_conflict kind : token_kind kind <> FailureConflict.
Proof.
  unfold token_kind. destruct (String.eqb_spec kind FailureNotFound); [done|].
  destruct (String.eqb_spec kind FailureConflict); [done|]. simpl. by destruct (String.eqb _ _).
Qed.

Lemma acknowledge_kind_not_conflict kind : acknowledge_kind kind <> FailureConflict.
Proof. unfold acknowledge_kind. by destruct (String.eqb_spec kind FailureConflict). Qed.

Lemma google_configure_err application e :
  google_configure credentials application = Err e -> google_classified e.
Proof.
  unfold google_configure. intros H.
  repeat match type of H with context [match ?x with _ => _ end] => destruct x; try done end;
    injection H as <-; by apply classified_failure.
Qed.

Lemma accessToken_sent configuration tr r tr' :
  google_accessToken transport clock configuration tr = (r, tr') ->
  match r with
  | Ok _ => exists assertion, sent tr' = sent tr ++ [token_request assertion]
  | Err e => google_classified e /\
             (sent tr' = sent tr \/ exists assertion, sent tr' = sent tr ++ [token_request assertion])
  end.
Proof.
  unfold google_accessToken, google_assertion, tx_bind at 1, tx_catch, tx_bind at 1, read_clock, tx_lift.
  unfold tx_bind at 1. cbn [sent reads].
  destruct (SignPKCS1v15 _ _) as [signature|e0].
  2: { intros [= <- <-]. split; [by apply classified_failure|by left]. }
  cbn [tx_ret]. unfold tx_bind at 1, tx_ret at 1.
  match goal with |- context [token_request ?a] => generalize a end. intros assertion.
  destruct (google_do _ _ _) as [r1 tr1] eqn:Hdo. apply google_do_sent in Hdo as [Hs Hdo]. cbn [sent] in Hs.
  destruct r1 as [answer|e]; [|intros [= <- <-]; split; [done|right; eauto]].
  unfold tx_bind. destruct (google_statusFailure _ _ _ tr1) as [r2 tr2] eqn:Hst.
  apply statusFailure_cases in Hst as [Hs2 [[-> _]|(kind & retry & ->)]]; rewrite Hs in Hs2.
  - destruct (DecodeTokenResponse (fst answer)) as [response|e].
    + destruct (_ || _); intros [= <- <-]; [|eauto]. split; [by apply classified_failure|eauto].
    + intros [= <- <-]. split; [by apply classified_failure|eauto].
  - intros [= <- <-]. split; [|eauto]. do 3 eexists. split; [reflexivity|apply token_kind_not_conflict].
Qed.

Lemma action_request_err application token action e :
  action_request application token action = Err e -> google_classified e.
Proof.
  unfold action_request. destruct (negb _); [intros [= <-]; by apply classified_failure|].
  assert (Htok : forall references found e', action_token references found = Err e' -> google_classified e').
  { induction references as [|q references IH]; intros found e'; cbn [action_token].
    - destruct (String.eqb _ _); [|done]. intros [= <-]. by apply classified_failure.
    - destruct (negb (String.eqb (ref_Kind q) _)); [apply IH|].
      destruct (negb _); [intros [= <-]; by apply classified_failure|apply IH]. }
  destruct (action_token _ _) as [t|e'] eqn:E; cbn [bind_result]; [|intros [= <-]; eauto].
  unfold acknowledge_request. destruct (String.eqb _ _); [done|]. destruct (String.eqb _ _); [done|].
  intros [= <-]. by apply classified_failure.
Qed.

(** The first [n] requests of [acks], sent after [history], were acknowledged. *)
Definition answered (history acks : list http_request) (n : nat) : Prop :=
  forall i request, (i < n)%nat -> acks !! i = Some request ->
    acknowledged_as (transport (history ++ take i acks) request) = None.

(** The failure the last of [acks] was answered with, or that there is no
    acknowledgement of the next action. *)
Definition stopped (history acks : list http_request) (next : option PostCommitAction)
    (application : Application) (token : string) (e : gerror) : Prop :=
  exists operation kind retry, as_failure e = Some (ProviderGooglePlay, operation, kind, retry) /\
    ((exists before ack, acks = before ++ [ack] /\
        acknowledged_as (transport (history ++ before) ack) = Some kind) \/
     (answered history acks (length acks) /\ kind = FailureInvalidEvidence /\
      exists action, next = Some action /\ forall ack, ~ acknowledges application token action ack)).

Lemma statusFailure_kind response text tr r tr' :
  body response = Ok text -> len text <= 2097152 ->
  google_statusFailure clock "acknowledge" response tr = (r, tr') ->
  sent tr' = sent tr /\
  match acknowledged_as (Ok response) with
  | None => r = Ok None
  | Some kind => exists kind' retry, acknowledge_kind kind' = kind /\
      r = Ok (Some (Failure ProviderGooglePlay "acknowledge" kind' retry None))
  end.
Proof.
  unfold google_statusFailure, acknowledged_as, tx_ret, google_failure, NewFailure.
  intros Hbody Hlen. rewrite Hbody, (proj2 (Z.ltb_ge 2097152 (len text)) Hlen).
  assert (Hk : forall kind kind' retry, acknowledge_kind kind' = kind -> forall tr0 : google_trace,
    (Ok (Some (Failure ProviderGooglePlay "acknowledge" kind' retry None)), tr0) = (r, tr') -> sent tr0 = sent tr ->
    sent tr' = sent tr /\ exists kind' retry, acknowledge_kind kind' = kind /\
      r = Ok (Some (Failure ProviderGooglePlay "acknowledge" kind' retry None))).
  { intros kind kind' retry Hk tr0 [= <- <-] Hs. split; [done|]. eauto. }
  case_decide as H2; [rewrite (proj2 (Z.leb_le _ _)), (proj2 (Z.ltb_lt _ _)) by lia; by intros [= <- <-]|].
  replace ((200 <=? status response) && (status response <? 300)) with false by lia.
  case_decide as H4; rewrite !elem_of_cons, elem_of_nil in H4.
  { replace ((status response =? 401) || (status response =? 403)) with true by lia. intros H. by eapply Hk in H. }
  replace ((status response =? 401) || (status response =? 403)) with false by lia.
  case_decide as H5; rewrite !elem_of_cons, elem_of_nil in H5.
  { replace ((status response =? 404) || (status response =? 410)) with true by lia. intros H. by eapply Hk in H. }
  replace ((status response =? 404) || (status response =? 410)) with false by lia.
  case_decide as H6; [rewrite H6; intros H; by eapply Hk in H|].
  destruct (Z.eqb_spec (status response) 409) as [E|E].
  { rewrite decide_True by auto. intros H. by eapply Hk in H. }
  rewrite (proj2 (Z.eqb_neq _ _) H6). destruct (Z.leb_spec 500 (status response)).
  - rewrite decide_True by auto. intros H'. by eapply Hk in H'.
  - rewrite decide_False by lia. intros H'. by eapply Hk in H'.
Qed.

Lemma google_do_answer request tr r tr' :
  google_do transport request tr = (r, tr') ->
  match r with
  | Ok (text, response) => transport (sent tr) request = Ok response /\ body response = Ok text /\ len text <= 2097152
  | Err e => exists operation kind retry, as_failure e = Some (ProviderGooglePlay, operation, kind, retry) /\
      acknowledged_as (transport (sent tr) request) = Some kind
  end.
Proof.
  unfold google_do, tx_bind, tx_catch, send, tx_err, tx_ret, acknowledged_as, google_failure, NewFailure.
  change google_maximumProviderResponse with 2097152.
  destruct (transport (sent tr) request) as [response|e] eqn:E; [|intros [= <- <-]; do 3 eexists; by split].
  destruct (body response) as [text|e] eqn:Eb; [|intros [= <- <-]; do 3 eexists; by split].
  destruct (Z.ltb_spec 2097152 (len text)); intros [= <- <-]; [do 3 eexists; by split|done].
Qed.

Lemma acknowledge_sent application token action tr r tr' :
  google_acknowledge transport clock application token action tr = (r, tr') ->
  (exists e, action_request application token action = Err e /\ r = Err e /\ sent tr' = sent tr) \/
  exists request, action_request application token action = Ok request /\
    sent tr' = sent tr ++ [request] /\
    match r with
    | Ok _ => acknowledged_as (transport (sent tr) request) = None
    | Err e => exists operation kind retry, as_failure e = Some (ProviderGooglePlay, operation, kind, retry) /\
        acknowledged_as (transport (sent tr) request) = Some kind
    end.
Proof.
  unfold google_acknowledge, tx_bind at 1, tx_lift.
  destruct (action_request application token action) as [request|e]; [|intros [= <- <-]; left; eauto].
  unfold tx_bind at 1. destruct (google_do _ _ _) as [r1 tr1] eqn:Hdo.
  pose proof (google_do_answer _ _ _ _ Hdo) as Ha. apply google_do_sent in Hdo as [Hs _].
  intros H. right. exists request. split; [done|].
  destruct r1 as [[text response]|e]; [|injection H as <- <-; split; [done|exact Ha]].
  destruct Ha as (Ht & Hb & Hl). rewrite Ht. cbn [snd] in H.
  unfold tx_bind in H. destruct (google_statusFailure _ _ _ tr1) as [r2 tr2] eqn:Hst.
  apply (statusFailure_kind _ _ _ _ _ Hb Hl) in Hst as [Hs2 Hst]. rewrite Hs in Hs2.
  destruct (acknowledged_as (Ok response)) as [kind|].
  - destruct Hst as (kind' & retry & <- & ->). injection H as <- <-. split; [done|]. do 3 eexists. by split.
  - subst r2. injection H as <- <-. done.
Qed.

Lemma answered_cons history request acks n :
  acknowledged_as (transport history request) = None ->
  answered (history ++ [request]) acks n -> answered history (request :: acks) (S n).
Proof.
  intros Hr Ha [|i] q Hi Hq; simpl in Hq.
  - injection Hq as <-. cbn [take]. by rewrite app_nil_r.
  - pose proof (Ha i q ltac:(lia) Hq) as H1. cbn [take]. by rewrite cons_middle, app_assoc.
Qed.

Lemma answered_nil history n : answered history [] n.
Proof. intros i q _. by rewrite lookup_nil. Qed.

Lemma stopped_cons history request acks next application token e :
  acknowledged_as (transport history request) = None ->
  stopped (history ++ [request]) acks next application token e ->
  stopped history (request :: acks) next application token e.
Proof.
  intros Hr (operation & kind & retry & He & [(before & ack & -> & Ha)|(Ha & -> & Hn)]);
    exists operation; eexists; exists retry; (split; [exact He|]).
  - left. exists (request :: before), ack. split; [done|]. by rewrite <- app_assoc in Ha.
  - right. split; [|done]. by apply answered_cons.
Qed.

Lemma action_request_stopped history application token action e e' index :
  action_request application token action = Err e -> e' = Wrapf "acknowledge Google Play purchase action %d: %w" index e ->
  stopped history [] (Some action) application token e'.
Proof.
  intros He ->.
  assert (Hk : exists operation retry, as_failure e = Some (ProviderGooglePlay, operation, FailureInvalidEvidence, retry)).
  { revert He. unfold action_request. destruct (negb _); [intros [= <-]; do 2 eexists; reflexivity|].
    assert (Htok : forall references found e', action_token references found = Err e' ->
              exists operation retry, as_failure e' = Some (ProviderGooglePlay, operation, FailureInvalidEvidence, retry)).
    { induction references as [|q references IH]; intros found e'; cbn [action_token].
      - destruct (String.eqb _ _); [|done]. intros [= <-]. do 2 eexists. reflexivity.
      - destruct (negb (String.eqb (ref_Kind q) _)); [apply IH|].
        destruct (negb _); [intros [= <-]; do 2 eexists; reflexivity|apply IH]. }
    destruct (action_token _ _) as [t|e'] eqn:E; cbn [bind_result]; [|intros [= <-]; eauto].
    unfold acknowledge_request. destruct (String.eqb _ _); [done|]. destruct (String.eqb _ _); [done|].
    intros [= <-]. do 2 eexists. reflexivity. }
  destruct Hk as (operation & retry & Hk). exists operation, FailureInvalidEvidence, retry. split; [exact Hk|].
  right. split; [apply answered_nil|]. split; [done|]. exists action. split; [done|].
  intros ack Hack%action_request_iff. congruence.
Qed.

(** The actions completed so far are a prefix, and only its last one may have failed. *)
Lemma acknowledge_each_sent application token index actions tr r tr' :
  acknowledge_each transport clock application token index actions tr = (r, tr') ->
  exists acks completed rest, actions = completed ++ rest /\ sent tr' = sent tr ++ acks /\
    Forall2 (acknowledges application token) completed acks /\
    match r with
    | Ok _ => rest = [] /\ answered (sent tr) acks (length acks)
    | Err e => answered (sent tr) acks (length acks - 1) /\
               stopped (sent tr) acks (head rest) application token e
    end.
Proof.
  revert index tr. induction actions as [|action actions IH]; intros index tr; cbn [acknowledge_each].
  { intros [= <- <-]. exists [], [], []. split_and!; rewrite ?app_nil_r; auto using answered_nil, List.Forall2_nil. }
  unfold tx_bind, tx_catch. destruct (google_acknowledge _ _ _ _ _ tr) as [r1 tr1] eqn:Hack.
  apply acknowledge_sent in Hack as [(e & He & -> & Hs)|(request & Hreq & Hs & Hr)].
  - intros [= <- <-]. exists [], [], (action :: actions).
    split_and!; rewrite ?app_nil_r; auto using answered_nil, List.Forall2_nil. by eapply action_request_stopped.
  - apply action_request_iff in Hreq. destruct r1 as [u|e]; intros H.
    + destruct (IH _ _ H) as (acks & completed & rest & -> & Hs' & Hall & Hm).
      exists (request :: acks), (action :: completed), rest. rewrite Hs', Hs, <- app_assoc. split_and!; auto using List.Forall2_cons.
      rewrite Hs in Hm. destruct r as [[]|e].
      * destruct Hm as [-> Ha]. split; [done|]. simpl. by apply answered_cons.
      * destruct Hm as [Ha Hst]. split; [|by apply stopped_cons]. simpl. rewrite Nat.sub_0_r.
        destruct acks as [|q acks]; [intros i q Hi; simpl in Hi; lia|].
        simpl in Ha |- *. rewrite Nat.sub_0_r in Ha. by apply answered_cons.
    + injection H as <- <-. exists [request], [action], actions.
      split_and!; [done|done|by apply Forall2_cons; split; [|apply Forall2_nil]|intros i q Hi; simpl in Hi; lia|].
      destruct Hr as (o & k & d & Hr & Hk). exists o, k, d. split; [exact Hr|].
      left. exists [], request. split; [done|]. by rewrite app_nil_r.
Qed.
End Requests.

Lemma google_check_some {A} operation e (k : Tx google_trace A) tr r tr' :
  google_check operation e k tr = (r, tr') ->
  (e = None /\ k tr = (r, tr')) \/ (exists e', r = Err e' /\ tr' = tr /\ google_classified e').
Proof.
  destruct e as [x|]; simpl; [|by left]. unfold tx_err. intros [= <- <-]. right.
  eexists. split; [reflexivity|]. split; [done|]. by apply classified_failure.
Qed.

Lemma acknowledged_not_conflict answer kind : acknowledged_as answer = Some kind -> kind <> FailureConflict.
Proof. unfold acknowledged_as. intros H ->. repeat (case_match; try done). Qed.

Lemma stopped_classified `{Lib : GoogleLibrary} transport history acks next application token e :
  stopped transport history acks next application token e -> google_classified e.
Proof.
  intros (operation & kind & retry & He & H). exists operation, kind, retry. split; [exact He|].
  destruct H as [(before & ack & _ & H)|(_ & -> & _)]; [by eapply acknowledged_not_conflict|done].
Qed.

(** C8. Acknowledging is exact: the adapter exchanges one token and then sends the
    acknowledgement of each action, in order, each naming the action's own product
    and purchase token; success means that every one was answered with a success
    status.  On failure only a prefix of the actions was sent, all of it but
    possibly the last acknowledged, and the failure is classified: before the
    token it is never a conflict, and after it the failure's kind is the one the
    last acknowledgement was answered with - 401 and 403 unauthorized, 404 and 410
    not found, 429 rate limited, 409 (a conflict), 5xx and a broken connection
    temporary, so that they are tried again, anything else permanent - or invalid
    evidence, every sent one being acknowledged, when the next action has no
    acknowledgement. *)
Theorem google_acknowledges `{Lib : GoogleLibrary}
    (credentials : Application -> string -> result Credential)
    (transport : list http_request -> http_request -> result http_response) (clock : nat -> time)
    (request : PostCommitRequest) (tr tr' : google_trace) (r : result unit) :
  google_PostCommit credentials transport clock request tr = (r, tr') ->
  match r with
  | Ok _ => exists assertion token acks,
      sent tr' = sent tr ++ token_request assertion :: acks /\
      Forall2 (acknowledges (pc_Application request) token) (pc_Actions request) acks /\
      answered transport (sent tr ++ [token_request assertion]) acks (length acks)
  | Err e => google_classified e /\
      (sent tr' = sent tr \/
       (exists assertion, sent tr' = sent tr ++ [token_request assertion]) \/
       exists assertion token acks completed rest,
         let history := sent tr ++ [token_request assertion] in
         sent tr' = history ++ acks /\
         pc_Actions request = completed ++ rest /\
         Forall2 (acknowledges (pc_Application request) token) completed acks /\
         answered transport history acks (length acks - 1) /\
         stopped transport history acks (head rest) (pc_Application request) token e)
  end.
Proof.
  intros H. unfold google_PostCommit in H.
  apply google_check_some in H as [[_ H]|(e & -> & -> & He)]; [|by auto].
  apply google_check_some in H as [[_ H]|(e & -> & -> & He)]; [|by auto].
  unfold tx_bind at 1, tx_lift in H.
  destruct (google_configure credentials (pc_Application request)) as [configuration|e] eqn:Hc.
  2: { injection H as <- <-. split; [by eapply google_configure_err|by left]. }
  unfold tx_bind in H. destruct (google_accessToken _ _ _ _) as [r1 tr1] eqn:Ht.
  apply accessToken_sent in Ht. destruct r1 as [token|e].
  - destruct Ht as [assertion Hs]. apply acknowledge_each_sent in H as (acks & completed & rest & Ha & Hs' & Hall & Hm).
    rewrite Hs in Hs', Hm. destruct r as [u|e].
    + destruct Hm as [-> Hm]. rewrite app_nil_r in Ha. rewrite Ha. rewrite <- app_assoc in Hs'. eauto 6.
    + destruct Hm as [Hm Hst]. split; [by eapply stopped_classified|]. right. right.
      exists assertion, token, acks, completed, rest. auto.
  - injection H as <- <-. destruct Ht as [Hcl [Hs|(assertion & Hs)]]; (split; [exact Hcl|]); [by left|]. right. left. eauto.
Qed.

(** ** The adapter keeps the port's contract *)

Lemma acknowledgement_request application current token providerState ackState actions :
  token <> EmptyString ->
  ReferencesFor current ReferenceQuery = [mkStoreReference ReferenceQuery "purchase_token" token] ->
  acknowledgementActions current providerState ackState = Ok actions ->
  (actions = [] \/ ackState = acknowledgementStatePending) /\
  forall action, In action actions ->
    act_ProductID action = obs_ProductID current /\
    forall accessToken, exists request,
      action_request application accessToken action = Ok request /\
      acknowledge_request application accessToken action token = Ok request.
Proof.
  unfold acknowledgementActions, acknowledgement_eligible. intros Hne Hq H.
  rewrite Hq in H. cbn [length Nat.eqb] in H.
  assert (Hreq : forall kind, kind = ProductKindNonConsumable \/ kind = ProductKindSubscription ->
    forall action, In action [mkAction acknowledgeActionKind (obs_ProductID current) kind
                                [mkStoreReference ReferenceQuery "purchase_token" token]] ->
    act_ProductID action = obs_ProductID current /\
    forall accessToken, exists request, action_request application accessToken action = Ok request /\
      acknowledge_request application accessToken action token = Ok request).
  { intros kind Hk action [<-|[]]. split; [done|]. intros accessToken. unfold action_request.
    cbn [act_Kind act_QueryReferences action_token ref_Kind StoreReference_Value ref_value].
    rewrite String.eqb_refl. cbn [negb]. rewrite String.eqb_refl. cbn [negb String.eqb].
    unfold StoreReference_Value. cbn [ref_value].
    rewrite (proj2 (String.eqb_neq token EmptyString) Hne). cbn [bind_result].
    unfold acknowledge_request. cbn [act_ProductKind]. destruct Hk as [-> | ->]; eauto. }
  destruct (String.eqb_spec (obs_ProductKind current) ProductKindNonConsumable) as [Hk|_];
    [|destruct (String.eqb_spec (obs_ProductKind current) ProductKindSubscription) as [Hk|_]; [|done]].
  all: destruct (_ || _) in H; [injection H as <-; split; [by left|done]|];
    destruct (String.eqb_spec ackState acknowledgementStatePending) as [->|]; [|done];
    cbn [negb] in H; injection H as <-; (split; [by right|]); rewrite Hk; apply Hreq; auto.
Qed.

Lemma product_snapshot now application token purchase observations :
  productObservations now application token purchase = Ok observations ->
  exists o, observations = [o] /\
    ReferencesFor o ReferenceQuery
    = if String.eqb token EmptyString then [] else [mkStoreReference ReferenceQuery "purchase_token" token].
Proof.
  unfold productObservations. intros H. destruct (pp_ProductLineItems purchase) as [|item [|? ?]]; [done| |done].
  apply normalize_check_ok in H as [_ H]. apply normalize_check_ok in H as [_ H].
  destruct (normalizeProductState (pp_PurchaseState purchase)) as [[state access] reason].
  apply bind_result_ok in H as (references & Hr & H). apply wrap_result_ok in Hr.
  apply bind_result_ok in H as (o & Ho & [= <-]). apply google_checked_ok in Ho as [-> _].
  eexists. split; [reflexivity|]. by eapply google_query_reference.
Qed.

(** Every action of an answer can be sent, for the purchase it was asked about. *)
Definition sendable (application : Application) (token : string) (answer : VerificationResult) : Prop :=
  forall action, In action (vr_PostCommitActions answer) ->
    (exists current rest, vr_Observations answer = current :: rest /\
       act_ProductID action = obs_ProductID current) /\
    forall accessToken, exists request,
      action_request application accessToken action = Ok request /\
      acknowledge_request application accessToken action token = Ok request.

Lemma first_observed qr current rest verifiedAt requested :
  qr_observations qr = current :: rest ->
  exists rest', vr_Observations (google_verificationResult qr verifiedAt requested) = current :: rest'.
Proof.
  unfold google_verificationResult. cbn [vr_Observations]. intros ->.
  destruct (qr_itemReplaced qr), requested as [|? [|? ?]]; eauto. destruct (String.eqb _ _); [|eauto].
  by eexists.
Qed.

Section Contract.
Context `{Horder : !GoMapRange} `{Lib : GoogleLibrary}.
Context (credentials : Application -> string -> result Credential).
Context (transport : list http_request -> http_request -> result http_response).
Context (clock : nat -> time).

Lemma google_configure_provider application c :
  google_configure credentials application = Ok c ->
  sa_Provider (app_Store application) = ProviderGooglePlay.
Proof.
  unfold google_configure. intros H. destruct (credentials application _); [|done].
  destruct (_ || _) in H; [done|]. destruct (DecodeGoogleCredential _) in H; [|done].
  destruct (String.eqb_spec (sa_Provider (app_Store application)) ProviderGooglePlay); [done|].
  cbn [negb orb] in H. done.
Qed.

Lemma query_sendable application c token kind tr qr tr' verifiedAt requested :
  token <> EmptyString ->
  google_query transport clock application c token kind tr = (Ok qr, tr') ->
  sendable application token (google_verificationResult qr verifiedAt requested).
Proof.
  unfold google_query. intros Hne H. apply tx_bind_ok in H as (accessToken & tr1 & _ & H).
  apply tx_bind_ok in H as (request & tr2 & _ & H). apply tx_bind_ok in H as (answer & tr3 & _ & H).
  apply tx_bind_ok in H as (failure & tr4 & _ & H). destruct failure; [done|].
  apply tx_bind_ok in H as (artifact & tr5 & _ & H).
  assert (Htok : String.eqb token EmptyString = false) by (by apply String.eqb_neq).
  destruct (String.eqb kind ProductKindSubscription).
  - destruct (UnmarshalSubscription _) as [purchase|]; [|done].
    apply tx_bind_ok in H as (now & tr6 & _ & H). apply tx_lift_ok in H as [H _].
    apply answer_observations in H as (it & current & _ & Hcur & _ & Hact & _ & Hobs).
    destruct (current_snapshot _ _ _ _ _ _ Hcur) as (Hs & _). pose proof (gs_query _ _ _ _ _ Hs) as Hq.
    rewrite Htok in Hq. intros action Hin.
    destruct (acknowledgement_request application _ _ _ _ _ Hne Hq Hact) as [_ Ha]. destruct (Ha _ Hin) as [-> ?]. split; [|done].
    destruct Hobs as [(o & Hob & _)|[Hob _]];
      destruct (first_observed _ _ _ verifiedAt requested Hob) as [rest' ->]; eauto.
  - destruct (UnmarshalProduct _) as [purchase|]; [|done].
    apply tx_bind_ok in H as (now & tr6 & _ & H). apply tx_lift_ok in H as [H _].
    unfold product_answer in H. apply bind_result_ok in H as (observations & Hobs & H).
    apply bind_result_ok in H as (current & Hfirst & H). apply bind_result_ok in H as (actions & Hact & [= <-]).
    apply wrap_result_ok in Hact. apply product_snapshot in Hobs as (o & -> & Hq). injection Hfirst as <-.
    rewrite Htok in Hq. intros action Hin.
    destruct (acknowledgement_request application _ _ _ _ _ Hne Hq Hact) as [_ Ha].
    destruct (Ha _ Hin) as [-> ?]. split; [|done]. eauto.
Qed.

Lemma google_check_ok {A} operation e (k : Tx google_trace A) tr a tr' :
  google_check operation e k tr = (Ok a, tr') <-> e = None /\ k tr = (Ok a, tr').
Proof. destruct e; simpl; unfold tx_err; naive_solver. Qed.

(** C7. The Google adapter keeps its promise to the verification service: what
    Verify or Reconcile returns passes the service's validation of the request,
    and every action it asks for after the commit is one that PostCommit can send,
    for the product of the first observation and the purchase token of the
    request. *)
Theorem google_adapter_checked (tr tr' : google_trace) (answer : VerificationResult) :
  (forall request, google_Verify credentials transport clock request tr = (Ok answer, tr') ->
     checked_verification request answer /\
     exists evidence, google_parseEvidence (vq_Evidence request) = Ok evidence /\
       sendable (vq_Application request) (gev_PurchaseToken evidence) answer) /\
  (forall request, google_Reconcile credentials transport clock request tr = (Ok answer, tr') ->
     checked_reconciliation request answer /\
     sendable (rq_Application request)
       (FirstReferenceValue (rq_QueryReferences request) "purchase_token") answer).
Proof.
  split; intros request H.
  - unfold google_Verify in H. apply google_check_ok in H as [_ H].
    apply tx_bind_ok in H as (evidence & tr1 & Hev & H). apply tx_lift_ok in Hev as [Hev _].
    apply wrap_result_ok in Hev. apply tx_bind_ok in H as (c & tr2 & Hc & H). apply tx_lift_ok in Hc as [Hc _].
    apply tx_bind_ok in H as (qr & tr3 & Hq & H). apply tx_bind_ok in H as (at_ & tr4 & _ & H).
    apply google_check_ok in H as [Hv H]. injection H as <- <-. split.
    + unfold checked_verification, productsForValidation. rewrite (google_configure_provider _ _ Hc).
      rewrite claimed_unchanged by done. exact Hv.
    + exists evidence. split; [done|]. eapply query_sendable; [|exact Hq].
      unfold google_parseEvidence in Hev. destruct (negb _); [done|]. apply bind_result_ok in Hev as (e & _ & He).
      destruct (String.eqb_spec (TrimSpace (gev_PurchaseToken e)) EmptyString) as [|Hne]; [done|].
      destruct (_ && _) in He; [done|]. injection He as <-. intros E. by rewrite E in Hne.
  - unfold google_Reconcile in H. apply google_check_ok in H as [_ H]. apply google_check_ok in H as [_ H].
    apply google_check_ok in H as [Htok H]. apply refuse_if_nil, String.eqb_neq in Htok.
    apply tx_bind_ok in H as (c & tr2 & Hc & H). apply tx_lift_ok in Hc as [Hc _].
    apply tx_bind_ok in H as (qr & tr3 & Hq & H). apply tx_bind_ok in H as (at_ & tr4 & _ & H).
    apply google_check_ok in H as [Hv H]. injection H as <- <-. split.
    + unfold checked_reconciliation, productsForValidation. rewrite (google_configure_provider _ _ Hc).
      rewrite claimed_unchanged by done. exact Hv.
    + by eapply query_sendable.
Qed.
End Contract.

(** ** A concrete Google Play *)

(** A subscription that changed from the basic to the premium product: the basic
    item ended, the premium one runs, and the purchase awaits acknowledgement. *)
Definition google_old_item : subscriptionLineItem :=
  mkLineItem "basic" (UnixMilli 1699000000000) "GPA.1" (Some false) false None None.
Definition google_new_item : subscriptionLineItem :=
  mkLineItem "premium" (UnixMilli 1702000000000) "GPA.2" (Some true) false None (Some "basic"%string).
Definition google_sample_purchase : subscriptionPurchase :=
  mkSubscriptionPurchase [google_old_item; google_new_item] (UnixMilli 1698000000000)
    subscriptionStateActive "GPA.2" EmptyString false acknowledgementStatePending "account-1".

Definition sample_google_library : GoogleLibrary := {|
  AnyKey := unit; RSAKey := unit;
  DecodeGoogleEvidence := fun _ => Ok (mkGoogleEvidence "token/1" ProductKindSubscription);
  DecodeGoogleCredential := fun _ => Ok (mkGoogleCredential "sa@example.com" "key-1" "pem"
    (Some (mkRtdn "projects/p1/subscriptions/s1" "push@example.com" "https://push.example.com")));
  DecodeTokenResponse := fun _ => Ok (mkTokenResponse "bearer-1" "Bearer");
  UnmarshalSubscription := fun _ => Some google_sample_purchase;
  UnmarshalProduct := fun _ => None;
  PemDecode := fun _ => Some ("PRIVATE KEY"%string, EmptyString, EmptyString);
  ParsePKCS8PrivateKey := fun _ => Some tt;
  as_rsa := fun k => Some k;
  BitLen := fun _ => 2048;
  KeyValidate := fun _ => None;
  SignPKCS1v15 := fun _ digest => Ok (str_take 4 digest)
|}.

Definition google_sample_credentials (application : Application) (kind : string) : result Credential :=
  Ok (mkCredential kind GooglePlayCredentialContentType 1 "{}").
Definition google_sample_transport (history : list http_request) (request : http_request)
    : result http_response := Ok (mkResponse (Ok "{}"%string) 200 EmptyString None).
Definition google_sample_clock (n : nat) : time := UnixMilli 1700000000000 + Z.of_nat n.
Definition google_start : google_trace := mkTrace [] 0.
Definition google_sample_binding : StoreReference :=
  mkStoreReference ReferenceCustomerBinding "obfuscated_external_account_id" "account-1".
Definition google_sample_request : VerificationRequest :=
  mkVerificationRequest sample_application "customer-1" ["premium"%string] [google_sample_binding]
    (mkEvidence GooglePlayEvidenceContentType "{}").
Definition google_sample_answer : result VerificationResult * google_trace :=
  @google_Verify sample_google_library google_sample_credentials google_sample_transport
    google_sample_clock range_in_order google_sample_request google_start.

Lemma google_selection_witness :
  selectSubscriptionItems [google_old_item; google_new_item] (UnixMilli 1700000000000)
  = Ok (mkItems google_new_item None (Some google_old_item)) /\
  selectSubscriptionItems [google_new_item; google_old_item] (UnixMilli 1700000000000)
  = Ok (mkItems google_new_item None (Some google_old_item)).
Proof.
  assert (H : selectSubscriptionItems [google_old_item; google_new_item] (UnixMilli 1700000000000)
              = Ok (mkItems google_new_item None (Some google_old_item))) by (vm_compute; reflexivity).
  split; [exact H|]. rewrite <- H.
  apply (proj2 (google_selection [google_old_item; google_new_item] (UnixMilli 1700000000000))).
  apply perm_swap.
Defined.

Lemma google_access_sound_witness :
  exists qr current old,
    subscription_answer (google_sample_clock 0) sample_application "token/1"
      (mkEvidence "application/json" "{}") google_sample_purchase = Ok qr /\
    qr_observations qr = [current; old] /\ obs_Access current = AccessAllowed /\
    ended_snapshot sample_application google_sample_purchase "token/1" current old.
Proof.
  destruct (subscription_answer (google_sample_clock 0) sample_application "token/1"
              (mkEvidence "application/json" "{}") google_sample_purchase) as [qr|e] eqn:E;
    [|vm_compute in E; discriminate].
  destruct (google_access_sound _ zeroTime _ _ _ _ qr [] E)
    as (it & current & others & _ & Hobs & _ & Ha & _ & _ & Hended).
  assert (Hlen : length (qr_observations qr) = 2%nat) by (vm_compute in E; injection E as <-; reflexivity).
  unfold google_verificationResult in Hobs. cbn [vr_Observations] in Hobs.
  assert (Hobs' : qr_observations qr = current :: others) by (destruct (qr_itemReplaced qr); exact Hobs).
  destruct others as [|old [|? ?]]; rewrite Hobs' in Hlen; try discriminate Hlen.
  exists qr, current, old. split; [reflexivity|]. split; [exact Hobs'|].
  split; [apply Ha; left; reflexivity|]. apply Hended. left. reflexivity.
Defined.

Lemma google_adapter_checked_witness :
  exists answer tr, google_sample_answer = (Ok answer, tr) /\
    length (vr_PostCommitActions answer) = 1%nat /\
    @checked_verification range_in_order google_sample_request answer.
Proof.
  destruct google_sample_answer as [[answer|e] tr] eqn:E; [|vm_compute in E; discriminate].
  exists answer, tr. split; [reflexivity|]. split; [vm_compute in E; injection E as <- _; reflexivity|].
  apply (proj1 (@google_adapter_checked range_in_order sample_google_library google_sample_credentials
                  google_sample_transport google_sample_clock google_start tr answer)
           google_sample_request E).
Defined.

(** The first acknowledgement is answered, the second one conflicts. *)
Definition google_busy_transport (history : list http_request) (request : http_request)
    : result http_response :=
  Ok (mkResponse (Ok "{}"%string) (if (2 <=? length history)%nat then 409 else 200) EmptyString None).
Definition google_sample_action (productID token : string) : PostCommitAction :=
  mkAction acknowledgeActionKind productID ProductKindSubscription
    [mkStoreReference ReferenceQuery "purchase_token" token].
Definition google_sample_commit : PostCommitRequest :=
  mkPostCommitRequest sample_application [google_sample_action "premium" "token/1";
                                          google_sample_action "basic" "token/2"].

Lemma google_acknowledges_witness :
  (exists tr, @google_PostCommit sample_google_library google_sample_credentials google_sample_transport
     google_sample_clock google_sample_commit google_start = (Ok tt, tr) /\ length (sent tr) = 3%nat) /\
  (exists e tr, @google_PostCommit sample_google_library google_sample_credentials google_busy_transport
     google_sample_clock google_sample_commit google_start = (Err e, tr) /\ google_classified e /\
     as_failure e = Some (ProviderGooglePlay, "acknowledge"%string, FailureTemporary, 0) /\
     exists history acks token, length acks = 2%nat /\
       stopped google_busy_transport history acks None sample_application token e).
Proof.
  split.
  - destruct (@google_PostCommit sample_google_library google_sample_credentials google_sample_transport
      google_sample_clock google_sample_commit google_start) as [[[]|e] tr] eqn:E;
      [|vm_compute in E; discriminate].
    exists tr. split; [reflexivity|].
    destruct (@google_acknowledges sample_google_library _ _ _ _ _ _ _ E)
      as (assertion & token & acks & -> & Hall & _).
    apply Forall2_length in Hall. cbn [pc_Actions google_sample_commit length] in Hall.
    cbn [sent google_start app length]. rewrite <- Hall. reflexivity.
  - destruct (@google_PostCommit sample_google_library google_sample_credentials google_busy_transport
      google_sample_clock google_sample_commit google_start) as [[[]|e] tr] eqn:E;
      [vm_compute in E; discriminate|].
    exists e, tr. split; [reflexivity|].
    assert (Hlen : length (sent tr) = 3%nat /\ as_failure e = Some (ProviderGooglePlay, "acknowledge"%string, FailureTemporary, 0))
      by (vm_compute in E; injection E as <- <-; split; reflexivity).
    destruct Hlen as [Hlen Hf].
    destruct (@google_acknowledges sample_google_library _ _ _ _ _ _ _ E) as [Hc Hs].
    split; [exact Hc|]. split; [exact Hf|].
    destruct Hs as [Hs|[(assertion & Hs)|(assertion & token & acks & completed & rest & Hs & Ha & Hall & _ & Hst)]];
      try (rewrite Hs in Hlen; discriminate Hlen).
    rewrite Hs in Hlen. injection Hlen as Hlen. apply Forall2_length in Hall. rewrite Hlen in Hall.
    do 2 eexists. exists token. split; [exact Hlen|].
    destruct completed as [|a1 [|a2 [|? ?]]]; try discriminate Hall. destruct rest; [exact Hst|discriminate Ha].
Defined.
