(* ===== verification/Huawei.v ===== *)
(** The Huawei AppGallery adapter ([internal/stores/huawei/adapter.go]): detached
    signatures, normalization, the access-token cache, and the Verify and
    Reconcile operations.

    An operation runs on the adapter's state: the requests it sent, the readings
    of its clock and the cached tokens.  RSA, JSON decoding, base64 decoding, key
    parsing and the HTTP transport are parameters.  The cache is behind a mutex:
    each access to it is one step. *)

From S2P Require Import Prelude GoText GoTime GoHttp GoJson Sha256 Core Purchase Protection Persistence Stores Network Credential Projector Repository EntitlementStore Runner Refresh Verification.
From stdpp Require Import base list strings gmap.
Local Open Scope Z_scope.

(** ** Constants *)

(* internal/stores/huawei/adapter.go: constants *)
Definition HuaweiCredentialKind : string := "huawei_server_api".
Definition HuaweiCredentialContentType : string := "application/vnd.iapstack.huawei-credentials+json".
Definition HuaweiCredentialSchemaVersion : Z := 1.
Definition huawei_maximumProviderResponse : Z := 2 * 2 ^ 20.
Definition huawei_defaultTokenURL : string := "https://oauth-login.cloud.huawei.com/oauth2/v3/token".
Definition tokenExpiryMargin : duration := 60 * Second.

(** ** Data *)

(* internal/stores/huawei/adapter.go: cachedAccessToken *)
Record cachedAccessToken : Type := mkCachedToken {
  cat_token : string;
  cat_expiresAt : time
}.

(* internal/stores/huawei/adapter.go: credentialPayload *)
Record huawei_credentialPayload : Type := mkHuaweiCredential {
  hcp_ClientID : string;
  hcp_ClientSecret : string;
  hcp_PublicKey : string;
  hcp_TokenURL : string;
  hcp_OrderURL : string;
  hcp_SubscriptionURL : string
}.

(* internal/stores/huawei/adapter.go: clientEvidence *)
Record huawei_clientEvidence : Type := mkHuaweiEvidence {
  hev_PurchaseData : string;
  hev_Signature : string;
  hev_SignatureAlgorithm : string;
  hev_ProductKind : ProductKind
}.

(* internal/stores/huawei/adapter.go: purchaseData *)
Record purchaseData : Type := mkPurchaseData {
  hp_ApplicationID : string;
  hp_PackageName : string;
  hp_ProductID : string;
  hp_SubscriptionID : string;
  hp_OrderID : string;
  hp_PurchaseToken : string;
  hp_PurchaseState : Z;
  hp_PurchaseTime : Z;
  hp_ExpirationDate : Z;
  hp_GraceExpirationTime : Z;
  hp_CancellationTime : Z;
  hp_CancelTime : Z;
  hp_RenewStatus : Z;
  hp_RetryFlag : Z;
  hp_SubIsValid : bool;
  hp_DeveloperPayload : string;
  hp_Quantity : Z;
  hp_Currency : string;
  hp_Price : Z
}.

(* internal/stores/huawei/adapter.go: providerResponse *)
Record providerResponse : Type := mkProviderResponse {
  pr_ResponseCode : string;
  pr_PurchaseTokenData : string;
  pr_DataSignature : string;
  pr_InAppPurchaseData : string;
  pr_InAppPurchaseDataSignature : string;
  pr_SubscriptionPurchaseData : string;
  pr_SubscriptionPurchaseSignature : string;
  pr_SignatureAlgorithm : string
}.

(* internal/stores/huawei/adapter.go: signedData *)
Record signedData : Type := mkSignedData {
  sd_data : string;
  sd_signature : string;
  sd_algorithm : string
}.

(** ** Classification *)

(* internal/stores/huawei/adapter.go: invalid *)
Definition huawei_invalid (operation : string) (cause : gerror) : gerror :=
  NewFailure ProviderHuaweiAppGallery operation FailureInvalidEvidence 0 (Some cause).

(* internal/stores/huawei/adapter.go: milliseconds *)
Definition huawei_milliseconds (value : Z) : time := if value <=? 0 then zeroTime else UnixMilli value.

(* internal/stores/huawei/adapter.go: normalizeState *)
Definition huawei_normalizeState (productKind : ProductKind) (purchase : purchaseData) (now : time)
    : LifecycleState * AccessStatus * AccessReason :=
  let subscription := String.eqb productKind ProductKindSubscription in
  let state := hp_PurchaseState purchase in
  let grace := (hp_RetryFlag purchase =? 1) && (toUnixMilli now <? hp_GraceExpirationTime purchase) in
  let expiresAt := huawei_milliseconds (hp_ExpirationDate purchase) in
  if subscription && (0 <? hp_CancelTime purchase)
  then (LifecycleRevoked, AccessDenied, AccessReasonRevoked)
  else if negb subscription && (state =? 2)
  then (LifecycleRefunded, AccessDenied, AccessReasonRefunded)
  else if state =? 1 then (LifecycleRevoked, AccessDenied, AccessReasonRevoked)
  else if subscription && (state =? 2) then
    if grace || (hp_SubIsValid purchase && (0 <? hp_ExpirationDate purchase) && After expiresAt now)
    then (LifecycleRefunded, AccessAllowed, AccessReasonRefunded)
    else (LifecycleRefunded, AccessDenied, AccessReasonRefunded)
  else if subscription && negb (state =? 0)
  then (LifecyclePending, AccessUnresolved, AccessReasonPendingPayment)
  else if subscription && grace
  then (LifecycleGracePeriod, AccessAllowed, AccessReasonGracePeriod)
  else if subscription
          && (negb (hp_SubIsValid purchase) || (hp_ExpirationDate purchase <=? 0)
              || negb (After expiresAt now))
  then (LifecycleExpired, AccessDenied, AccessReasonExpired)
  else if subscription && ((hp_RenewStatus purchase =? 0) || (0 <? hp_CancellationTime purchase))
  then (LifecycleCanceled, AccessAllowed, AccessReasonCanceledAtPeriodEnd)
  else if negb (state =? 0) then (LifecyclePending, AccessUnresolved, AccessReasonPendingPayment)
  else (LifecycleActive, AccessAllowed, AccessReasonPurchaseValid).

(* internal/stores/huawei/adapter.go: graceEnd *)
Definition graceEnd (productKind : ProductKind) (purchase : purchaseData) (access : AccessStatus)
    (now : time) : option time :=
  if negb (String.eqb productKind ProductKindSubscription) || negb (String.eqb access AccessAllowed)
     || negb (hp_RetryFlag purchase =? 1)
     || (hp_GraceExpirationTime purchase <=? toUnixMilli now)
     || (hp_GraceExpirationTime purchase <=? hp_ExpirationDate purchase)
  then None else Some (huawei_milliseconds (hp_GraceExpirationTime purchase)).

(* internal/stores/huawei/adapter.go: validatePurchasePrice *)
Definition validatePurchasePrice (purchase : purchaseData) : error :=
  refuse_if ((hp_Price purchase <? 0) || (Z.quot maxInt64 10 <? hp_Price purchase))
    (New "Huawei purchase price is outside the supported range") ;;?
  refuse_if (negb (len (hp_Currency purchase) =? 3))
    (New "Huawei purchase currency must be a three-letter ISO 4217 code") ;;?
  refuse_if (existsb (fun character => (character <? 65) || (90 <? character)) (runes (hp_Currency purchase)))
    (New "Huawei purchase currency must use uppercase ASCII letters").

(* internal/stores/huawei/adapter.go: comparePurchases *)
Definition comparePurchases (submitted authoritative : purchaseData) : error :=
  refuse_if (negb (String.eqb (hp_ApplicationID submitted) (hp_ApplicationID authoritative))
             || negb (String.eqb (hp_ProductID submitted) (hp_ProductID authoritative))
             || negb (String.eqb (hp_SubscriptionID submitted) (hp_SubscriptionID authoritative))
             || negb (String.eqb (hp_PurchaseToken submitted) (hp_PurchaseToken authoritative)))
    (New "authoritative Huawei purchase does not match submitted evidence") ;;?
  validatePurchasePrice authoritative.

(* internal/stores/huawei/adapter.go: validateSubmittedScope *)
Definition validateSubmittedScope (request : VerificationRequest) (purchase : purchaseData) : error :=
  refuse_if (negb (String.eqb (hp_ApplicationID purchase) (sa_ID (app_Store (vq_Application request))))
             || String.eqb (hp_ProductID purchase) EmptyString
             || String.eqb (hp_PurchaseToken purchase) EmptyString)
    (New "submitted Huawei application or purchase identity mismatch") ;;?
  (match vq_ClaimedProducts request with
   | [] => None
   | [claim] => refuse_if (negb (String.eqb claim (hp_ProductID purchase)))
                  (New "submitted Huawei product does not match claim")
   | _ => Some (New "submitted Huawei product does not match claim")
   end) ;;?
  validatePurchasePrice purchase.

(** ** Normalization *)

(* internal/stores/huawei/adapter.go: observationSnapshotIdentity *)
Definition huawei_observationSnapshotIdentity (applicationID : ApplicationID) (productKind : ProductKind)
    (purchase : purchaseData) (state : LifecycleState) (access : AccessStatus) (reason : AccessReason)
    (renewal : Renewal) (quantity : Z) (graceEndsAt : option time) : string :=
  let fields := [applicationID; productKind; hp_ApplicationID purchase; hp_ProductID purchase;
    hp_OrderID purchase; hp_PurchaseToken purchase; FormatInt (hp_PurchaseState purchase);
    FormatInt (hp_PurchaseTime purchase); FormatInt (hp_ExpirationDate purchase);
    FormatInt (hp_GraceExpirationTime purchase); FormatInt (hp_CancellationTime purchase);
    FormatInt (hp_CancelTime purchase); FormatInt (hp_RenewStatus purchase);
    FormatInt (hp_RetryFlag purchase); FormatBool (hp_SubIsValid purchase);
    hp_DeveloperPayload purchase; FormatInt quantity; FormatInt (hp_Price purchase);
    hp_Currency purchase; state; access; reason; ren_Mode renewal; ren_Status renewal] in
  let fields := match graceEndsAt with
                | Some t => fields ++ ["grace_end"%string; FormatInt (toUnixMilli t)]
                | None => fields
                end in
  Sum256 (GoText.Join fields (of_bytes [0])).

(* internal/stores/huawei/adapter.go:575-584: Adapter.result *)
Definition huawei_candidates (purchase : purchaseData) : list (ReferenceRole * string * string) :=
  [(ReferenceTransaction, "order_id"%string, hp_OrderID purchase);
   (ReferenceQuery, "purchase_token"%string, hp_PurchaseToken purchase);
   (ReferenceQuery, "subscription_id"%string, hp_SubscriptionID purchase);
   (ReferenceCustomerBinding, "developer_payload"%string, hp_DeveloperPayload purchase)].

(* internal/stores/huawei/adapter.go: Adapter.result *)
Definition huawei_result (observedAt : time) (application : Application) (productKind : ProductKind)
    (purchase : purchaseData) (artifact : Evidence) : result VerificationResult :=
  let '(state, access, reason) := huawei_normalizeState productKind purchase observedAt in
  let startsAt := huawei_milliseconds (hp_PurchaseTime purchase) in
  let graceEndsAt := graceEnd productKind purchase access observedAt in
  let endsAt := match graceEndsAt with
                | Some t => Some t
                | None => if 0 <? hp_ExpirationDate purchase
                          then Some (huawei_milliseconds (hp_ExpirationDate purchase)) else None
                end in
  let renewal :=
    if String.eqb productKind ProductKindSubscription
    then mkRenewal RenewalAuto (if hp_RenewStatus purchase =? 1 then RenewalEnabled else RenewalDisabled)
           EmptyString None
    else mkRenewal RenewalNone RenewalNotApplicable EmptyString None in
  let quantity := if hp_Quantity purchase =? 0 then 1 else hp_Quantity purchase in
  match validatePurchasePrice purchase with
  | Some e => Err (huawei_invalid "normalize" e)
  | None =>
      let price := mkPurchasePrice (wrap64 (hp_Price purchase * 10)) (hp_Currency purchase) in
      let* references := wrap_result (huawei_invalid "normalize") (make_references (huawei_candidates purchase)) in
      let identity := huawei_observationSnapshotIdentity (app_ID application) productKind purchase state
                        access reason renewal quantity graceEndsAt in
      let observation := mkObservation (snapshot_id "hua-" identity) (app_ID application)
        (app_Store application) (hp_ProductID purchase) productKind state
        (FormatInt (hp_PurchaseState purchase)) access reason OwnershipPurchased quantity (Some price)
        startsAt observedAt (mkPeriod startsAt endsAt) renewal references EmptyString in
      match PurchaseObservation_Validate observation with
      | Some e => Err (huawei_invalid "normalize" e)
      | None => Ok (mkVerificationResult observedAt [mkArtifact "huawei_server_response" artifact]
                      [observation] [] [])
      end
  end.

(* internal/stores/huawei/adapter.go: appAccessTokenAuthorization *)
Definition appAccessTokenAuthorization (accessToken : string) : string :=
  ("Basic " ++ StdEncode ("APPAT:" ++ accessToken))%string.

(** The first of three pairs of data and signature that has data. *)
(* internal/stores/huawei/adapter.go: providerResponse.signedPurchase *)
Definition signedPurchase (response : providerResponse) : result signedData :=
  let omitted := Err (New "huawei response omitted signed purchase data") in
  let signed (data signature : string) :=
    if String.eqb signature EmptyString then omitted
    else Ok (mkSignedData data signature (pr_SignatureAlgorithm response)) in
  let fallback (signature : string) :=
    if String.eqb signature EmptyString then pr_DataSignature response else signature in
  if negb (String.eqb (pr_PurchaseTokenData response) EmptyString)
  then signed (pr_PurchaseTokenData response) (pr_DataSignature response)
  else if negb (String.eqb (pr_InAppPurchaseData response) EmptyString)
  then signed (pr_InAppPurchaseData response) (fallback (pr_InAppPurchaseDataSignature response))
  else if negb (String.eqb (pr_SubscriptionPurchaseData response) EmptyString)
  then signed (pr_SubscriptionPurchaseData response) (fallback (pr_SubscriptionPurchaseSignature response))
  else omitted.

(** The lifetime is a wrapping product of nanoseconds; the division shows whether
    it wrapped. *)
(* internal/stores/huawei/adapter.go: tokenCacheExpiry *)
Definition tokenCacheExpiry (now : time) (expiresIn : Z) : option time :=
  if expiresIn <=? 0 then None
  else
    let lifetime := wrap64 (expiresIn * Second) in
    if (lifetime <=? tokenExpiryMargin) || negb (Z.quot lifetime Second =? expiresIn) then None
    else Some (now + (lifetime - tokenExpiryMargin)).

(* internal/stores/huawei/adapter.go: tokenCacheKey *)
Definition tokenCacheKey (configuration : huawei_credentialPayload) : string :=
  EncodeToString (Sum256 (hcp_TokenURL configuration ++ of_bytes [0] ++ hcp_ClientID configuration
                          ++ of_bytes [0] ++ hcp_ClientSecret configuration)%string).

(** ** Provider calls *)

(** The library functions the adapter calls.  [hw_PemDecode] gives the bytes of
    the first block; a PKIX key that is not RSA is [Some None]. *)
Class HuaweiLibrary := {
  HuaweiKey : Type;
  UnicodeUpper : string -> string;
  hw_StdDecode : string -> option string;
  DecodeHuaweiEvidence : string -> result huawei_clientEvidence;
  DecodeHuaweiCredential : string -> result huawei_credentialPayload;
  DecodeHuaweiToken : string -> result (string * Z);
  UnmarshalPurchase : string -> result purchaseData;
  UnmarshalProviderResponse : string -> result providerResponse;
  hw_PemDecode : string -> option string;
  ParsePKIXPublicKey : string -> option (option HuaweiKey);
  ParsePKCS1PublicKey : string -> option HuaweiKey;
  VerifyPKCS1v15 : HuaweiKey -> string -> string -> bool;
  VerifyPSS : HuaweiKey -> string -> string -> bool;
  hw_ParseRequestURI : string -> option request_uri;
  hw_ParseAddr : string -> option Addr
}.

(** The state of one adapter. *)
Record huawei_state : Type := mkHuaweiState {
  hs_sent : list http_request;
  hs_reads : nat;
  hs_tokens : gmap string cachedAccessToken
}.

Section Adapter.
Context `{Lib : HuaweiLibrary}.
Context (credentials : Application -> string -> result Credential).
Context (transport : list http_request -> http_request -> result http_response).
Context (clock : nat -> time).
Context (allowPrivateNetworks : bool).

(** [strings.ToUpper]: bytewise for ASCII, through the Unicode tables otherwise. *)
Definition upper_byte (b : Z) : Z := if in_range 97 122 b then b - 32 else b.
Definition ToUpper (s : string) : string :=
  if forallb (fun b => b <? 128) (bytes s) then of_bytes (map upper_byte (bytes s)) else UnicodeUpper s.

(* internal/stores/huawei/adapter.go: verifySignature *)
Definition verifySignature (publicKey : HuaweiKey) (data encodedSignature algorithm : string) : error :=
  match hw_StdDecode encodedSignature with
  | None => Some (New "huawei signature is not valid base64")
  | Some signature =>
      let algorithm := if String.eqb (TrimSpace algorithm) EmptyString then "SHA256WithRSA"%string
                       else algorithm in
      let digest := Sum256 data in
      let name := ToUpper (TrimSpace algorithm) in
      if String.eqb name "SHA256WITHRSA" then
        refuse_if (negb (VerifyPKCS1v15 publicKey digest signature))
          (New "huawei signature verification failed")
      else if String.eqb name "SHA256WITHRSA/PSS" then
        refuse_if (negb (VerifyPSS publicKey digest signature))
          (New "huawei signature verification failed")
      else Some (New "unsupported huawei signature algorithm")
  end.

(* internal/stores/huawei/adapter.go: parsePublicKey *)
Definition parsePublicKey (encoded : string) : result HuaweiKey :=
  let* data := match hw_PemDecode encoded with
               | Some block => Ok block
               | None => match hw_StdDecode (TrimSpace encoded) with
                         | Some decoded => Ok decoded
                         | None => Err (New "huawei public key is neither PEM nor base64 DER")
                         end
               end in
  match ParsePKIXPublicKey data with
  | Some (Some key) => Ok key
  | _ => match ParsePKCS1PublicKey data with
         | Some key => Ok key
         | None => Err (New "huawei public key is not RSA")
         end
  end.

Definition huawei_failure (operation : string) (kind : FailureKind) (cause : error) : gerror :=
  NewFailure ProviderHuaweiAppGallery operation kind 0 cause.

(** The bytes of the opened payload are erased afterwards. *)
(* internal/stores/huawei/adapter.go: Adapter.configuration *)
Definition huawei_configuration (application : Application)
    : result (huawei_credentialPayload * HuaweiKey) :=
  let failure (kind : FailureKind) (cause : error) := Err (huawei_failure "credentials" kind cause) in
  match credentials application HuaweiCredentialKind with
  | Err e => failure FailureUnauthorized (Some e)
  | Ok credential =>
      if negb (String.eqb (cred_ContentType credential) HuaweiCredentialContentType)
         || negb (cred_SchemaVersion credential =? HuaweiCredentialSchemaVersion)
      then failure FailurePermanent None
      else match DecodeHuaweiCredential (Credential_Bytes credential) with
      | Err e => failure FailurePermanent (Some e)
      | Ok payload =>
          let configuration := mkHuaweiCredential (hcp_ClientID payload) (hcp_ClientSecret payload)
            (hcp_PublicKey payload)
            (if String.eqb (hcp_TokenURL payload) EmptyString then huawei_defaultTokenURL
             else hcp_TokenURL payload) (hcp_OrderURL payload) (hcp_SubscriptionURL payload) in
          if String.eqb (hcp_ClientID configuration) EmptyString
             || String.eqb (hcp_ClientSecret configuration) EmptyString
             || String.eqb (hcp_PublicKey configuration) EmptyString
             || String.eqb (hcp_OrderURL configuration) EmptyString
             || String.eqb (hcp_SubscriptionURL configuration) EmptyString
          then failure FailurePermanent None
          else match forEach (fun _ endpoint => validateHTTPS hw_ParseRequestURI hw_ParseAddr endpoint
                                                  allowPrivateNetworks)
                       [hcp_TokenURL configuration; hcp_OrderURL configuration;
                        hcp_SubscriptionURL configuration] with
          | Some e => failure FailurePermanent (Some e)
          | None => match parsePublicKey (hcp_PublicKey configuration) with
                    | Err e => failure FailurePermanent (Some e)
                    | Ok publicKey => Ok (configuration, publicKey)
                    end
          end
      end
  end.

(* internal/stores/huawei/adapter.go: Adapter.now *)
Definition huawei_now : Tx huawei_state time :=
  fun s => (Ok (clock (hs_reads s)), mkHuaweiState (hs_sent s) (S (hs_reads s)) (hs_tokens s)).

Definition huawei_send (request : http_request) : Tx huawei_state http_response :=
  fun s => (transport (hs_sent s) request,
            mkHuaweiState (hs_sent s ++ [request]) (hs_reads s) (hs_tokens s)).

Definition with_tokens (f : gmap string cachedAccessToken -> gmap string cachedAccessToken)
    : Tx huawei_state unit :=
  fun s => (Ok tt, mkHuaweiState (hs_sent s) (hs_reads s) (f (hs_tokens s))).

(* internal/stores/huawei/adapter.go: Adapter.do *)
Definition huawei_do (request : http_request) : Tx huawei_state (string * Z) :=
  do response <- tx_catch (fun e => huawei_failure "http" FailureTemporary (Some e)) (huawei_send request);
  match body response with
  | Err e => tx_err (huawei_failure "http" FailureTemporary (Some e))
  | Ok text => if huawei_maximumProviderResponse <? len text
               then tx_err (huawei_failure "http" FailurePermanent None)
               else tx_ret (text, status response)
  end.

Definition fetch_request (configuration : huawei_credentialPayload) : http_request :=
  mkHttpRequest "POST" (hcp_TokenURL configuration) None
    ("client_id=" ++ QueryEscape (hcp_ClientID configuration) ++ "&client_secret="
     ++ QueryEscape (hcp_ClientSecret configuration) ++ "&grant_type=client_credentials")%string.

(* internal/stores/huawei/adapter.go: Adapter.fetchToken *)
Definition fetchToken (configuration : huawei_credentialPayload) : Tx huawei_state (string * Z) :=
  do answer <- huawei_do (fetch_request configuration);
  let '(text, code) := answer in
  if (code =? 429) || (500 <=? code) then tx_err (huawei_failure "token" FailureTemporary None)
  else if (code <? 200) || (300 <=? code) then tx_err (huawei_failure "token" FailureUnauthorized None)
  else match DecodeHuaweiToken text with
       | Err e => tx_err (huawei_failure "token" FailureUnauthorized (Some e))
       | Ok (accessToken, expiresIn) =>
           if String.eqb accessToken EmptyString
           then tx_err (huawei_failure "token" FailureUnauthorized None)
           else tx_ret (accessToken, expiresIn)
       end.

(** The entry of the cache that may still be used. *)
Definition usable_token (tokens : gmap string cachedAccessToken) (key : string) (now : time)
    : option string :=
  match tokens !! key with
  | Some cached => if negb (String.eqb (cat_token cached) EmptyString) && Before now (cat_expiresAt cached)
                   then Some (cat_token cached) else None
  | None => None
  end.

(** The mutex is held throughout: this is one step of the adapter. *)
(* internal/stores/huawei/adapter.go: Adapter.token *)
Definition huawei_token (configuration : huawei_credentialPayload) : Tx huawei_state string :=
  let cacheKey := tokenCacheKey configuration in
  do now <- huawei_now;
  fun s =>
    match usable_token (hs_tokens s) cacheKey now with
    | Some token => (Ok token, s)
    | None =>
        (do answer <- fetchToken configuration;
         let '(accessToken, expiresIn) := answer in
         do _ <- with_tokens (fun tokens =>
                   match tokenCacheExpiry now expiresIn with
                   | Some expiresAt => <[cacheKey := mkCachedToken accessToken expiresAt]> tokens
                   | None => delete cacheKey tokens
                   end);
         tx_ret accessToken) s
    end.

(** The entry is dropped when it still holds the rejected token. *)
(* internal/stores/huawei/adapter.go: Adapter.forgetToken *)
Definition forgetToken (cacheKey accessToken : string) : Tx huawei_state unit :=
  with_tokens (fun tokens =>
    match tokens !! cacheKey with
    | Some cached => if String.eqb (cat_token cached) accessToken then delete cacheKey tokens else tokens
    | None => tokens
    end).

(** The purchase-token body, without its empty fields. *)
(* internal/stores/huawei/adapter.go: providerQuery *)
Definition providerQuery (purchase : purchaseData) (productKind : ProductKind) : string :=
  let field (name value : string) := if String.eqb value EmptyString then [] else [(name, JStr value)] in
  json_marshal (("purchaseToken"%string, JStr (hp_PurchaseToken purchase))
    :: (if String.eqb productKind ProductKindSubscription
        then field "subscriptionId"%string (hp_SubscriptionID purchase)
        else field "productId"%string (hp_ProductID purchase))).

Definition purchase_request (configuration : huawei_credentialPayload) (purchase : purchaseData)
    (productKind : ProductKind) (accessToken : string) : http_request :=
  mkHttpRequest "POST"
    (if String.eqb productKind ProductKindSubscription then hcp_SubscriptionURL configuration
     else hcp_OrderURL configuration)
    (Some (appAccessTokenAuthorization accessToken)) (providerQuery purchase productKind).

(** The loop: [attempts] are left, [last] is the latest answer. *)
(* internal/stores/huawei/adapter.go:317-339: Adapter.query *)
Fixpoint query_attempts (configuration : huawei_credentialPayload) (purchase : purchaseData)
    (productKind : ProductKind) (attempts : nat) (last : string * Z) : Tx huawei_state (string * Z) :=
  match attempts with
  | O => tx_ret last
  | S attempts' =>
      do accessToken <- huawei_token configuration;
      do answer <- huawei_do (purchase_request configuration purchase productKind accessToken);
      if negb (snd answer =? 401) then tx_ret answer
      else
        do _ <- forgetToken (tokenCacheKey configuration) accessToken;
        query_attempts configuration purchase productKind attempts' answer
  end.

(* internal/stores/huawei/adapter.go:340-354: Adapter.query *)
Definition query_status (code : Z) : error :=
  let failure (kind : FailureKind) := Some (huawei_failure "query" kind None) in
  if (code =? 401) || (code =? 403) then failure FailureUnauthorized
  else if code =? 429 then failure FailureRateLimited
  else if code =? 404 then failure FailureNotFound
  else if 500 <=? code then failure FailureTemporary
  else if (code <? 200) || (300 <=? code) then failure FailurePermanent
  else None.

(* internal/stores/huawei/adapter.go: Adapter.query *)
Definition huawei_query (configuration : huawei_credentialPayload) (purchase : purchaseData)
    (productKind : ProductKind) : Tx huawei_state (signedData * Evidence) :=
  if String.eqb productKind ProductKindSubscription
     && String.eqb (TrimSpace (hp_SubscriptionID purchase)) EmptyString
  then tx_err (huawei_invalid "query" (New "huawei subscription verification requires subscriptionId"))
  else
    do answer <- query_attempts configuration purchase productKind 2 (EmptyString, 0);
    let '(text, code) := answer in
    tx_check (query_status code) (
    do response <- tx_lift (wrap_result (huawei_invalid "query") (UnmarshalProviderResponse text));
    if negb (String.eqb (pr_ResponseCode response) "0")
       && negb (String.eqb (pr_ResponseCode response) EmptyString)
    then tx_err (huawei_failure "query"
                   (if String.prefix "5" (pr_ResponseCode response) then FailureTemporary
                    else FailurePermanent) None)
    else
      do signed <- tx_lift (wrap_result (huawei_invalid "query") (signedPurchase response));
      do artifact <- tx_lift (wrap_result (huawei_invalid "query") (NewEvidence "application/json" text));
      tx_ret (signed, artifact)).

(** ** Operations *)

(* internal/stores/huawei/adapter.go: parseEvidence *)
Definition huawei_parseEvidence (evidence : Evidence) : result (huawei_clientEvidence * purchaseData) :=
  if negb (String.eqb (ev_ContentType evidence) HuaweiEvidenceContentType)
  then Err (New "unsupported Huawei evidence content type")
  else
    let* envelope := DecodeHuaweiEvidence (Evidence_Bytes evidence) in
    if String.eqb (hev_PurchaseData envelope) EmptyString || String.eqb (hev_Signature envelope) EmptyString
       || (negb (String.eqb (hev_ProductKind envelope) ProductKindSubscription)
           && negb (String.eqb (hev_ProductKind envelope) ProductKindNonConsumable))
    then Err (New "incomplete Huawei purchase evidence")
    else
      let* purchase := UnmarshalPurchase (hev_PurchaseData envelope) in
      Ok (envelope, purchase).

(** Fail with invalid evidence. *)
Definition huawei_check {A} (operation : string) (e : error) (k : Tx huawei_state A) : Tx huawei_state A :=
  match e with Some x => tx_err (huawei_invalid operation x) | None => k end.

(* internal/stores/huawei/adapter.go: Adapter.Verify *)
Definition huawei_Verify (request : VerificationRequest) : Tx huawei_state VerificationResult :=
  let invalid {A} := @wrap_result A (huawei_invalid "verify") in
  huawei_check "verify" (VerificationRequest_Validate request) (
  do parsed <- tx_lift (invalid (huawei_parseEvidence (vq_Evidence request)));
  let '(evidence, submitted) := parsed in
  huawei_check "verify" (validateSubmittedScope request submitted) (
  do configured <- tx_lift (huawei_configuration (vq_Application request));
  let '(configuration, publicKey) := configured in
  huawei_check "verify" (verifySignature publicKey (hev_PurchaseData evidence) (hev_Signature evidence)
                           (hev_SignatureAlgorithm evidence)) (
  do answer <- huawei_query configuration submitted (hev_ProductKind evidence);
  let '(authoritative, rawArtifact) := answer in
  huawei_check "verify" (verifySignature publicKey (sd_data authoritative) (sd_signature authoritative)
                           (sd_algorithm authoritative)) (
  do current <- tx_lift (invalid (UnmarshalPurchase (sd_data authoritative)));
  huawei_check "verify" (comparePurchases submitted current) (
  do observedAt <- huawei_now;
  tx_lift (huawei_result observedAt (vq_Application request) (hev_ProductKind evidence) current
             rawArtifact)))))).

(** The first non-empty value of a kind. *)
(* internal/stores/huawei/adapter.go:212-225: Adapter.Reconcile *)
Fixpoint first_value (references : list StoreReference) (kind : string) : string :=
  match references with
  | [] => EmptyString
  | reference :: rest =>
      if String.eqb (ref_Kind reference) kind && negb (String.eqb (StoreReference_Value reference) EmptyString)
      then StoreReference_Value reference else first_value rest kind
  end.

Definition blank_purchase (applicationID productID subscriptionID token : string) : purchaseData :=
  mkPurchaseData applicationID EmptyString productID subscriptionID EmptyString token 0 0 0 0 0 0 0 0
    false EmptyString 0 EmptyString 0.

(* internal/stores/huawei/adapter.go: Adapter.Reconcile *)
Definition huawei_Reconcile (request : ReconciliationRequest) : Tx huawei_state VerificationResult :=
  huawei_check "reconcile" (ReconciliationRequest_Validate request) (
  let token := first_value (rq_QueryReferences request) "purchase_token" in
  let subscriptionID := first_value (rq_QueryReferences request) "subscription_id" in
  match rq_ExpectedProducts request with
  | [product] =>
      huawei_check "reconcile" (refuse_if (String.eqb token EmptyString)
        (New "huawei reconciliation requires one product and purchase token")) (
      huawei_check "reconcile"
        (refuse_if (String.eqb (rq_ExpectedProductKind request) ProductKindSubscription
                    && String.eqb subscriptionID EmptyString)
           (New "huawei subscription reconciliation requires subscriptionId")) (
      do configured <- tx_lift (huawei_configuration (rq_Application request));
      let '(configuration, publicKey) := configured in
      let query := blank_purchase (sa_ID (app_Store (rq_Application request))) product subscriptionID token in
      do answer <- huawei_query configuration query (rq_ExpectedProductKind request);
      let '(authoritative, rawArtifact) := answer in
      huawei_check "reconcile" (verifySignature publicKey (sd_data authoritative)
                                  (sd_signature authoritative) (sd_algorithm authoritative)) (
      do current <- tx_lift (wrap_result (huawei_invalid "reconcile") (UnmarshalPurchase (sd_data authoritative)));
      huawei_check "reconcile"
        (refuse_if (negb (String.eqb (hp_PurchaseToken current) token)
                    || negb (String.eqb (hp_ProductID current) product)
                    || negb (String.eqb (hp_ApplicationID current) (hp_ApplicationID query))
                    || (negb (String.eqb subscriptionID EmptyString)
                        && negb (String.eqb (hp_SubscriptionID current) subscriptionID)))
           (New "authoritative Huawei scope mismatch")) (
      do observedAt <- huawei_now;
      tx_lift (huawei_result observedAt (rq_Application request) (rq_ExpectedProductKind request) current
                 rawArtifact)))))
  | _ => tx_err (huawei_invalid "reconcile"
                   (New "huawei reconciliation requires one product and purchase token"))
  end).

End Adapter.

(** ** Access *)

(** What [result] returns for one purchase. *)
Record huawei_observed (now : time) (application : Application) (kind : ProductKind)
    (purchase : purchaseData) (artifact : Evidence) (r : VerificationResult) (o : PurchaseObservation)
    : Prop := {
  ho_result : r = mkVerificationResult now [mkArtifact "huawei_server_response" artifact] [o] [] [];
  ho_valid : PurchaseObservation_Validate o = None;
  ho_scope : obs_ApplicationID o = app_ID application /\ obs_Store o = app_Store application;
  ho_product : obs_ProductID o = hp_ProductID purchase /\ obs_ProductKind o = kind;
  ho_state : huawei_normalizeState kind purchase now = (obs_State o, obs_Access o, obs_AccessReason o);
  ho_end : EndsAt (obs_EffectivePeriod o) =
    match graceEnd kind purchase (obs_Access o) now with
    | Some t => Some t
    | None => if 0 <? hp_ExpirationDate purchase
              then Some (huawei_milliseconds (hp_ExpirationDate purchase)) else None
    end;
  ho_price : obs_Price o = Some (mkPurchasePrice (hp_Price purchase * 10) (hp_Currency purchase)) /\
             0 <= hp_Price purchase * 10 <= maxInt64;
  ho_references : make_references (huawei_candidates purchase) = Ok (obs_References o)
}.

Lemma price_in_range purchase :
  validatePurchasePrice purchase = None ->
  wrap64 (hp_Price purchase * 10) = hp_Price purchase * 10 /\ 0 <= hp_Price purchase * 10 <= maxInt64.
Proof.
  unfold validatePurchasePrice. rewrite !seq_err_nil, !refuse_if_nil. intros (H & _ & _).
  apply orb_false_iff in H as [H1%Z.ltb_ge H2%Z.ltb_ge].
  change (Z.quot maxInt64 10) with 922337203685477580 in H2. unfold wrap64, maxInt64.
  rewrite Z.mod_small by lia. lia.
Qed.

Lemma huawei_result_ok now application kind purchase artifact r :
  huawei_result now application kind purchase artifact = Ok r ->
  exists o, huawei_observed now application kind purchase artifact r o.
Proof.
  unfold huawei_result. intros H.
  destruct (huawei_normalizeState kind purchase now) as [[state access] reason] eqn:Hn.
  destruct (validatePurchasePrice purchase) eqn:Hp; [done|]. destruct (price_in_range _ Hp) as [Hw Hr].
  apply bind_result_ok in H as (references & Href & H). apply wrap_result_ok in Href.
  match type of H with context [PurchaseObservation_Validate ?x] => remember x as o eqn:Ho end.
  destruct (PurchaseObservation_Validate o) as [e|] eqn:Hv; [done|]. rewrite Hw in Ho.
  exists o. split; [congruence|done| | | | | |]; rewrite Ho;
    cbn [obs_ApplicationID obs_Store obs_ProductID obs_ProductKind obs_State obs_Access obs_AccessReason
         obs_EffectivePeriod EndsAt obs_Price obs_References]; auto.
Qed.

(** Billing grace is running. *)
Definition in_grace (purchase : purchaseData) (now : time) : Prop :=
  hp_RetryFlag purchase = 1 /\ toUnixMilli now < hp_GraceExpirationTime purchase.
(** The paid period is running. *)
Definition in_period (purchase : purchaseData) (now : time) : Prop :=
  hp_SubIsValid purchase = true /\ 0 < hp_ExpirationDate purchase /\
  now < huawei_milliseconds (hp_ExpirationDate purchase).

Lemma huawei_access now kind purchase state access reason :
  huawei_normalizeState kind purchase now = (state, access, reason) ->
  (kind <> ProductKindSubscription -> access = AccessAllowed <-> hp_PurchaseState purchase = 0) /\
  (kind = ProductKindSubscription ->
     access = AccessAllowed <->
       hp_CancelTime purchase <= 0 /\ (hp_PurchaseState purchase = 0 \/ hp_PurchaseState purchase = 2) /\
       (in_grace purchase now \/ in_period purchase now)).
Proof.
  unfold huawei_normalizeState, After. intros H. split.
  - intros Hk. rewrite (proj2 (String.eqb_neq _ _) Hk) in H. cbn [andb negb] in H.
    destruct (Z.eqb_spec (hp_PurchaseState purchase) 2); [injection H as _ <- _; split; [done|lia]|].
    destruct (Z.eqb_spec (hp_PurchaseState purchase) 1); [injection H as _ <- _; split; [done|lia]|].
    destruct (Z.eqb_spec (hp_PurchaseState purchase) 0); injection H as _ <- _; (split; [done|done || lia]).
  - intros ->. rewrite String.eqb_refl in H. cbn [andb negb] in H.
    assert (Hg : Is_true ((hp_RetryFlag purchase =? 1) && (toUnixMilli now <? hp_GraceExpirationTime purchase))
                 <-> in_grace purchase now) by (unfold in_grace; rewrite Is_true_true; by bool_simpl).
    assert (Hp : Is_true (hp_SubIsValid purchase && (0 <? hp_ExpirationDate purchase)
                 && (now <? huawei_milliseconds (hp_ExpirationDate purchase)))
                 <-> in_period purchase now) by (unfold in_period; rewrite Is_true_true; bool_simpl; tauto).
    rewrite (Z.leb_antisym 0 (hp_ExpirationDate purchase)), <- !negb_andb in H. revert Hg Hp H.
    generalize ((hp_RetryFlag purchase =? 1) && (toUnixMilli now <? hp_GraceExpirationTime purchase)).
    generalize (hp_SubIsValid purchase && (0 <? hp_ExpirationDate purchase)
                && (now <? huawei_milliseconds (hp_ExpirationDate purchase))).
    intros period grace <- <- H.
    destruct (Z.ltb_spec 0 (hp_CancelTime purchase)); [injection H as _ <- _; split; [done|lia]|].
    destruct (Z.eqb_spec (hp_PurchaseState purchase) 1); [injection H as _ <- _; split; [done|lia]|].
    destruct (Z.eqb_spec (hp_PurchaseState purchase) 2).
    { destruct grace, period; cbn [orb] in H; injection H as _ <- _; cbn [Is_true]; (split; [done || tauto|tauto || done]). }
    destruct (Z.eqb_spec (hp_PurchaseState purchase) 0); cbn [negb] in H;
      [|injection H as _ <- _; split; [done|lia]].
    destruct grace; [injection H as _ <- _; cbn [Is_true]; tauto|].
    destruct period; cbn [negb] in H; [|injection H as _ <- _; cbn [Is_true]; split; [done|tauto]].
    destruct (_ || _) in H; injection H as _ <- _; cbn [Is_true]; tauto.
Qed.

(** After 1970, a millisecond timestamp past the current one is past the clock. *)
Lemma past_clock now v : 0 <= toUnixMilli now -> toUnixMilli now < v -> now < huawei_milliseconds v.
Proof.
  intros Hz Hv. unfold huawei_milliseconds. destruct (Z.leb_spec v 0); [lia|by apply toUnixMilli_lt].
Qed.

(** Huawei access is never granted beyond what Huawei signed: a subscription is
    allowed exactly when it is not revoked and its grace or its paid period is
    running, a refunded one included; its published end is then in the future and
    is the signed expiry or the signed end of the grace.  Any other product is
    allowed exactly in the purchased state.  The published price is the signed
    amount times ten and fits an int64. *)
Theorem huawei_access_sound (now : time) (application : Application) (kind : ProductKind)
    (purchase : purchaseData) (artifact : Evidence) (r : VerificationResult) (o : PurchaseObservation) :
  0 <= toUnixMilli now ->
  huawei_result now application kind purchase artifact = Ok r ->
  In o (vr_Observations r) ->
  (kind <> ProductKindSubscription ->
     obs_Access o = AccessAllowed <-> hp_PurchaseState purchase = 0) /\
  (kind = ProductKindSubscription ->
     (obs_Access o = AccessAllowed <->
        hp_CancelTime purchase <= 0 /\ (hp_PurchaseState purchase = 0 \/ hp_PurchaseState purchase = 2) /\
        (in_grace purchase now \/ in_period purchase now)) /\
     (obs_Access o = AccessAllowed -> exists e, EndsAt (obs_EffectivePeriod o) = Some e /\ now < e /\
        (e = huawei_milliseconds (hp_ExpirationDate purchase) \/
         e = huawei_milliseconds (hp_GraceExpirationTime purchase)))) /\
  obs_Price o = Some (mkPurchasePrice (hp_Price purchase * 10) (hp_Currency purchase)) /\
  0 <= hp_Price purchase * 10 <= maxInt64.
Proof.
  intros Hz H Hin. destruct (huawei_result_ok _ _ _ _ _ _ H) as [o' [Hr _ _ _ Hs He [Hp1 Hp2] _]].
  rewrite Hr in Hin. destruct Hin as [<-|[]]. destruct (huawei_access _ _ _ _ _ _ Hs) as [Hn Hsub].
  split; [exact Hn|]. split; [|by split]. intros Hk. specialize (Hsub Hk). split; [exact Hsub|].
  intros Ha. destruct (proj1 Hsub Ha) as (_ & _ & Hrun). rewrite He. unfold graceEnd. rewrite Hk, Ha, !String.eqb_refl.
  cbn [negb orb]. destruct (_ || _) eqn:E.
  - assert (Hper : 0 < hp_ExpirationDate purchase /\ now < huawei_milliseconds (hp_ExpirationDate purchase)).
    { destruct Hrun as [[Hf Hg]|(_ & ? & ?)]; [|done]. rewrite Hf in E. cbn [Z.eqb Pos.eqb negb orb] in E.
      apply orb_true_iff in E as [E%Z.leb_le|E%Z.leb_le]; [lia|]. split; [lia|]. apply past_clock; lia. }
    destruct Hper as [Hpos Hlt]. rewrite (proj2 (Z.ltb_lt _ _) Hpos). eauto.
  - rewrite !orb_false_iff in E. destruct E as [[_ Hg%Z.leb_gt] _]. eexists. split; [reflexivity|].
    split; [by apply past_clock|by right].
Qed.

(** ** Authenticity *)

Lemma huawei_check_ok {A} operation e (k : Tx huawei_state A) s a s' :
  huawei_check operation e k s = (Ok a, s') <-> e = None /\ k s = (Ok a, s').
Proof. destruct e; simpl; unfold tx_err; naive_solver. Qed.

Lemma huawei_binding purchase references :
  make_references (huawei_candidates purchase) = Ok references ->
  forall reference, In reference references /\ ref_Role reference = ReferenceCustomerBinding <->
    hp_DeveloperPayload purchase <> EmptyString /\
    reference = mkStoreReference ReferenceCustomerBinding "developer_payload" (hp_DeveloperPayload purchase).
Proof.
  intros H reference. rewrite (make_references_In _ _ H). split.
  - intros ((role & kind & value & Hc & Hne & ->) & Hrole). simpl in Hrole. subst role.
    simpl in Hc. destruct Hc as [[=]|[[=]|[[=]|[[= <- <-]|[]]]]]. auto.
  - intros [Hne ->]. split; [|done]. do 3 eexists. split; [|split; [exact Hne|reflexivity]].
    simpl. auto.
Qed.

(** The purchase's developer payload is an expected binding. *)
Definition payload_expected (purchase : purchaseData) (expected : list StoreReference) : Prop :=
  expected = [] \/
  (hp_DeveloperPayload purchase <> EmptyString /\
   In (mkStoreReference ReferenceCustomerBinding "developer_payload" (hp_DeveloperPayload purchase)) expected).

Lemma observed_binding now application kind purchase artifact r o expected :
  huawei_observed now application kind purchase artifact r o ->
  shares_reference o ReferenceCustomerBinding expected <-> payload_expected purchase expected.
Proof.
  intros [_ _ _ _ _ _ _ Hrefs]. pose proof (huawei_binding _ _ Hrefs) as Hb. unfold shares_reference, payload_expected. split.
  - intros [->|(reference & H1 & H2 & H3)]; [by left|]. right.
    destruct (proj1 (Hb reference) (conj H1 H2)) as [? ->]. auto.
  - intros [->|[Hne Hin]]; [by left|]. right. eexists. split_and!; [| |exact Hin];
      apply (proj2 (Hb _)); auto.
Qed.

(** An answer built by [result] passes the service's checks exactly when the
    purchase names the expected customer. *)
Lemma huawei_answer_checked `{Horder : !GoMapRange} now (request : VerificationRequest) kind purchase artifact answer o :
  now <> 0 -> sa_Provider (app_Store (vq_Application request)) <> ProviderAppleAppStore ->
  VerificationRequest_Validate request = None -> Evidence_Validate artifact = None ->
  (vq_ClaimedProducts request = [] \/ vq_ClaimedProducts request = [hp_ProductID purchase]) ->
  huawei_observed now (vq_Application request) kind purchase artifact answer o ->
  checked_verification request answer <-> payload_expected purchase (vq_ExpectedCustomerBindings request).
Proof.
  intros Hnow Hprov Hreq Hart Hclaim Ho. rewrite <- (observed_binding _ _ _ _ _ _ _ _ Ho).
  destruct Ho as [Hr Hv Hscope [Hp _] _ _ _ _].
  unfold checked_verification, productsForValidation. rewrite claimed_unchanged by done.
  assert (Hproducts : ProductsForClaim answer (vq_ClaimedProducts request) = vq_ClaimedProducts request).
  { rewrite Hr. unfold ProductsForClaim. by destruct (vq_ClaimedProducts request) as [|? [|? ?]]. }
  rewrite Hproducts. unfold ValidateForVerification. rewrite seq_err_nil, wrap_err_nil. cbn [vq_Application
    vq_ClaimedProducts vq_ExpectedCustomerBindings]. rewrite result_validate_parts. split.
  - intros [_ Hwf]. pose proof (rwf_bound _ _ _ _ _ Hwf) as Hb. rewrite Hr in Hb. apply Forall_inv in Hb. tauto.
  - intros Hb. split; [by destruct request|]. rewrite Hr. apply single_wf; auto.
    + by left.
    + by rewrite Hp.
Qed.

Section Contract.
Context `{Horder : !GoMapRange} `{Lib : HuaweiLibrary}.
Context (credentials : Application -> string -> result Credential).
Context (transport : list http_request -> http_request -> result http_response).
Context (clock : nat -> time).
Context (private : bool).

Lemma huawei_query_artifact c purchase kind s signed artifact s' :
  huawei_query transport clock c purchase kind s = (Ok (signed, artifact), s') ->
  Evidence_Validate artifact = None.
Proof.
  unfold huawei_query. intros H. destruct (_ && _) in H; [done|].
  apply tx_bind_ok in H as ([text code] & s1 & _ & H). apply tx_check_ok in H as [_ H].
  apply tx_bind_ok in H as (response & s2 & _ & H). destruct (_ && _) in H; [done|].
  apply tx_bind_ok in H as (x & s3 & _ & H). apply tx_bind_ok in H as (e & s4 & He & H).
  apply tx_lift_ok in He as [He%wrap_result_ok _]. injection H as _ <- _. by apply NewEvidence_ok in He.
Qed.

Lemma huawei_now_reads s now s' : huawei_now clock s = (Ok now, s') -> exists n, now = clock n.
Proof. intros [= <- <-]. eauto. Qed.

Lemma submitted_scope request purchase :
  validateSubmittedScope request purchase = None ->
  hp_ApplicationID purchase = sa_ID (app_Store (vq_Application request)) /\
  hp_ProductID purchase <> EmptyString /\ hp_PurchaseToken purchase <> EmptyString /\
  (vq_ClaimedProducts request = [] \/ vq_ClaimedProducts request = [hp_ProductID purchase]).
Proof.
  unfold validateSubmittedScope. rewrite !seq_err_nil, refuse_if_nil. intros (H1 & H2 & _).
  rewrite !orb_false_iff, negb_false_iff, String.eqb_eq, !String.eqb_neq in H1. destruct H1 as [[Ha Hp] Ht].
  split_and!; auto. destruct (vq_ClaimedProducts request) as [|c [|? ?]]; [by left| |done].
  apply refuse_if_nil, negb_false_iff, String.eqb_eq in H2 as ->. by right.
Qed.

Lemma same_purchase submitted current :
  comparePurchases submitted current = None ->
  hp_ApplicationID submitted = hp_ApplicationID current /\ hp_ProductID submitted = hp_ProductID current /\
  hp_SubscriptionID submitted = hp_SubscriptionID current /\
  hp_PurchaseToken submitted = hp_PurchaseToken current.
Proof.
  unfold comparePurchases. rewrite seq_err_nil, refuse_if_nil, !orb_false_iff, !negb_false_iff, !String.eqb_eq. tauto.
Qed.

Lemma huawei_do_sent request s r s' :
  huawei_do transport request s = (r, s') ->
  hs_sent s' = hs_sent s ++ [request] /\ hs_reads s' = hs_reads s /\ hs_tokens s' = hs_tokens s /\
  match r with
  | Ok answer => exists response, transport (hs_sent s) request = Ok response /\
      body response = Ok (fst answer) /\ status response = snd answer
  | Err _ => True
  end.
Proof.
  unfold huawei_do, tx_bind, tx_catch, huawei_send, tx_err, tx_ret.
  destruct (transport (hs_sent s) request) as [response|e] eqn:E; [|by intros [= <- <-]].
  destruct (body response) as [text|e] eqn:Eb; [|by intros [= <- <-]].
  destruct (_ <? _); intros [= <- <-]; [done|]. split_and!; [done..|]. exists response. done.
Qed.

(** A detached signature over the data that the key verifies, by the named
    algorithm (PKCS #1 v1.5 unless PSS is named). *)
Definition signed_by (key : HuaweiKey) (data encoded algorithm : string) : Prop :=
  exists signature, hw_StdDecode encoded = Some signature /\
    (((TrimSpace algorithm = EmptyString \/ ToUpper (TrimSpace algorithm) = "SHA256WITHRSA"%string) /\
      VerifyPKCS1v15 key (Sum256 data) signature = true) \/
     (ToUpper (TrimSpace algorithm) = "SHA256WITHRSA/PSS"%string /\
      VerifyPSS key (Sum256 data) signature = true)).

Lemma verifySignature_signed key data encoded algorithm :
  verifySignature key data encoded algorithm = None -> signed_by key data encoded algorithm.
Proof.
  unfold verifySignature, signed_by. destruct (hw_StdDecode encoded) as [signature|]; [|done]. intros H.
  exists signature. split; [done|]. cbv zeta in H.
  destruct (String.eqb_spec (TrimSpace algorithm) EmptyString) as [E|E].
  - change (ToUpper (TrimSpace "SHA256WithRSA")) with "SHA256WITHRSA"%string in H.
    rewrite String.eqb_refl in H. apply refuse_if_nil, negb_false_iff in H. auto.
  - destruct (String.eqb_spec (ToUpper (TrimSpace algorithm)) "SHA256WITHRSA");
      [apply refuse_if_nil, negb_false_iff in H; auto|].
    destruct (String.eqb_spec (ToUpper (TrimSpace algorithm)) "SHA256WITHRSA/PSS"); [|done].
    apply refuse_if_nil, negb_false_iff in H. auto.
Qed.

(** The question asked of Huawei about a purchase. *)
Definition purchase_question (c : huawei_credentialPayload) (kind : ProductKind) (purchase : purchaseData)
    (accessToken : string) : http_request :=
  if decide (kind = ProductKindSubscription) then
    mkHttpRequest "POST" (hcp_SubscriptionURL c) (Some ("Basic " ++ StdEncode ("APPAT:" ++ accessToken))%string)
      (json_marshal [("purchaseToken"%string, JStr (hp_PurchaseToken purchase));
                     ("subscriptionId"%string, JStr (hp_SubscriptionID purchase))])
  else
    mkHttpRequest "POST" (hcp_OrderURL c) (Some ("Basic " ++ StdEncode ("APPAT:" ++ accessToken))%string)
      (json_marshal [("purchaseToken"%string, JStr (hp_PurchaseToken purchase));
                     ("productId"%string, JStr (hp_ProductID purchase))]).

(** What Huawei answered last: a success whose first pair of data and signature
    is the signed one, kept whole as the artifact. *)
Definition huawei_said (c : huawei_credentialPayload) (kind : ProductKind) (purchase : purchaseData)
    (sent : list http_request) (signed : signedData) (artifact : Evidence) : Prop :=
  exists history accessToken answer text response,
    sent = history ++ [purchase_question c kind purchase accessToken] /\
    transport history (purchase_question c kind purchase accessToken) = Ok answer /\
    body answer = Ok text /\ 200 <= status answer < 300 /\
    artifact = mkEvidence "application/json" text /\
    UnmarshalProviderResponse text = Ok response /\
    (pr_ResponseCode response = "0"%string \/ pr_ResponseCode response = EmptyString) /\
    sd_signature signed <> EmptyString /\ sd_algorithm signed = pr_SignatureAlgorithm response /\
    sd_data signed =
      (if decide (pr_PurchaseTokenData response <> EmptyString) then pr_PurchaseTokenData response
       else if decide (pr_InAppPurchaseData response <> EmptyString) then pr_InAppPurchaseData response
       else pr_SubscriptionPurchaseData response) /\ sd_data signed <> EmptyString /\
    In (sd_signature signed) [pr_DataSignature response; pr_InAppPurchaseDataSignature response;
                              pr_SubscriptionPurchaseSignature response].

Lemma signedPurchase_spelled response signed :
  signedPurchase response = Ok signed ->
  sd_signature signed <> EmptyString /\ sd_algorithm signed = pr_SignatureAlgorithm response /\
  sd_data signed =
    (if decide (pr_PurchaseTokenData response <> EmptyString) then pr_PurchaseTokenData response
     else if decide (pr_InAppPurchaseData response <> EmptyString) then pr_InAppPurchaseData response
     else pr_SubscriptionPurchaseData response) /\ sd_data signed <> EmptyString /\
  In (sd_signature signed) [pr_DataSignature response; pr_InAppPurchaseDataSignature response;
                            pr_SubscriptionPurchaseSignature response].
Proof.
  unfold signedPurchase. intros H.
  destruct (String.eqb_spec (pr_PurchaseTokenData response) EmptyString) as [E1|E1]; cbn [negb] in H.
  - rewrite (decide_False (P := pr_PurchaseTokenData response <> EmptyString)) by tauto.
    destruct (String.eqb_spec (pr_InAppPurchaseData response) EmptyString) as [E2|E2]; cbn [negb] in H.
    + rewrite (decide_False (P := pr_InAppPurchaseData response <> EmptyString)) by tauto.
      destruct (String.eqb_spec (pr_SubscriptionPurchaseData response) EmptyString) as [E3|E3]; [done|]. cbn [negb] in H.
      destruct (String.eqb (pr_SubscriptionPurchaseSignature response) EmptyString);
        match type of H with context [String.eqb ?x EmptyString] => destruct (String.eqb_spec x EmptyString) end;
        try done; injection H as <-; simpl; auto 9.
    + rewrite (decide_True (P := pr_InAppPurchaseData response <> EmptyString)) by done.
      destruct (String.eqb (pr_InAppPurchaseDataSignature response) EmptyString);
        match type of H with context [String.eqb ?x EmptyString] => destruct (String.eqb_spec x EmptyString) end;
        try done; injection H as <-; simpl; auto 9.
  - rewrite (decide_True (P := pr_PurchaseTokenData response <> EmptyString)) by done.
    destruct (String.eqb_spec (pr_DataSignature response) EmptyString); [done|]. injection H as <-. simpl. auto 9.
Qed.

Lemma attempts_answer c purchase kind n last s text code s' :
  query_attempts transport clock c purchase kind n last s = (Ok (text, code), s') -> code <> 401 ->
  (text, code) = last \/
  exists history accessToken answer,
    hs_sent s' = history ++ [purchase_request c purchase kind accessToken] /\
    transport history (purchase_request c purchase kind accessToken) = Ok answer /\
    body answer = Ok text /\ status answer = code.
Proof.
  intros H Hcode. revert last s H. induction n as [|n IH]; intros last s H; cbn [query_attempts] in H.
  { injection H as <- _. by left. }
  apply tx_bind_ok in H as (token & s1 & _ & H). apply tx_bind_ok in H as (answer & s2 & Hdo & H).
  apply huawei_do_sent in Hdo as (Hs & _ & _ & response & Ht & Hb & Hst).
  destruct (Z.eqb_spec (snd answer) 401) as [E|E]; cbn [negb] in H.
  - apply tx_bind_ok in H as (u & s3 & Hf & H). destruct (IH _ _ H) as [<-|Hh]; [done|]. by right.
  - injection H as -> ->. right. exists (hs_sent s1), token, response. done.
Qed.

Lemma huawei_query_said c purchase kind s signed artifact s' :
  (kind = ProductKindSubscription \/ hp_ProductID purchase <> EmptyString) ->
  huawei_query transport clock c purchase kind s = (Ok (signed, artifact), s') ->
  huawei_said c kind purchase (hs_sent s') signed artifact.
Proof.
  intros Hkind H. unfold huawei_query in H. destruct (_ && _) eqn:Hid in H; [done|].
  apply tx_bind_ok in H as ([text code] & s1 & Ha & H). apply tx_check_ok in H as [Hst H].
  apply tx_bind_ok in H as (response & s2 & Hr & H). apply tx_lift_ok in Hr as [Hr%wrap_result_ok <-].
  destruct (_ && _) eqn:Hc in H; [done|].
  apply tx_bind_ok in H as (x & s3 & Hx & H). apply tx_lift_ok in Hx as [Hx%wrap_result_ok <-].
  apply tx_bind_ok in H as (e & s4 & He & H). apply tx_lift_ok in He as [He%wrap_result_ok <-].
  injection H as <- <- <-. unfold query_status in Hst.
  destruct (Z.eqb_spec code 401) as [|H401]; [done|]. apply attempts_answer in Ha as [[= _ ->]|Ha]; [done| |done].
  destruct Ha as (history & token & answer & Hs & Ht & Hb & <-).
  assert (Hok : 200 <= status answer < 300).
  { destruct (_ || _) in Hst; [done|]. destruct (status answer =? 429); [done|]. destruct (status answer =? 404); [done|].
    destruct (500 <=? status answer); [done|].
    destruct (Z.ltb_spec (status answer) 200), (Z.leb_spec 300 (status answer)); try done; lia. }
  assert (Hq : purchase_request c purchase kind token = purchase_question c kind purchase token).
  { unfold purchase_request, purchase_question, providerQuery, appAccessTokenAuthorization.
    case_decide as Hk.
    - subst kind. rewrite String.eqb_refl in *. cbn [andb] in Hid.
      destruct (String.eqb_spec (hp_SubscriptionID purchase) EmptyString) as [E|E]; [|done]. rewrite E in Hid. done.
    - rewrite (proj2 (String.eqb_neq _ _) Hk). destruct Hkind as [?|Hp]; [done|].
      by rewrite (proj2 (String.eqb_neq _ _) Hp). }
  rewrite Hq in Hs, Ht. exists history, token, answer, text, response.
  unfold NewEvidence in He. apply try_err_ok in He as [_ [= <-]].
  split_and!; try done; try lia; try (by eapply signedPurchase_spelled).
  destruct (String.eqb_spec (pr_ResponseCode response) "0"); [by left|].
  destruct (String.eqb_spec (pr_ResponseCode response) EmptyString); [by right|done].
Qed.

Lemma configuration_key application c key :
  huawei_configuration credentials private application = Ok (c, key) ->
  exists credential payload, credentials application "huawei_server_api" = Ok credential /\
    DecodeHuaweiCredential (Credential_Bytes credential) = Ok payload /\
    parsePublicKey (hcp_PublicKey payload) = Ok key /\
    hcp_OrderURL c = hcp_OrderURL payload /\ hcp_SubscriptionURL c = hcp_SubscriptionURL payload.
Proof.
  unfold huawei_configuration. change HuaweiCredentialKind with "huawei_server_api"%string. intros H.
  destruct (credentials application "huawei_server_api") as [credential|]; [|done].
  destruct (_ || _) in H; [done|]. destruct (DecodeHuaweiCredential _) as [payload|] eqn:Hd; [|done].
  cbv zeta in H. destruct (_ || _) in H; [done|]. destruct (forEach _ _) in H; [done|].
  cbn [hcp_PublicKey] in H. destruct (parsePublicKey _) as [k|] eqn:Hk in H; [|done]. injection H as <- <-.
  exists credential, payload. done.
Qed.

(** What [Verify] believed before it built its answer. *)
Record huawei_believed (request : VerificationRequest) (sent : list http_request) (evidence : huawei_clientEvidence)
    (submitted : purchaseData) (c : huawei_credentialPayload) (key : HuaweiKey) (signed : signedData)
    (artifact : Evidence) (current : purchaseData) : Prop := {
  hb_evidence : DecodeHuaweiEvidence (Evidence_Bytes (vq_Evidence request)) = Ok evidence /\
    UnmarshalPurchase (hev_PurchaseData evidence) = Ok submitted /\
    (hev_ProductKind evidence = ProductKindSubscription \/ hev_ProductKind evidence = ProductKindNonConsumable);
  hb_key : exists credential payload, credentials (vq_Application request) "huawei_server_api" = Ok credential /\
    DecodeHuaweiCredential (Credential_Bytes credential) = Ok payload /\
    parsePublicKey (hcp_PublicKey payload) = Ok key /\
    hcp_OrderURL c = hcp_OrderURL payload /\ hcp_SubscriptionURL c = hcp_SubscriptionURL payload;
  hb_submitted : signed_by key (hev_PurchaseData evidence) (hev_Signature evidence) (hev_SignatureAlgorithm evidence);
  hb_answer : huawei_said c (hev_ProductKind evidence) submitted sent signed artifact;
  hb_current : signed_by key (sd_data signed) (sd_signature signed) (sd_algorithm signed) /\
    UnmarshalPurchase (sd_data signed) = Ok current;
  hb_same : hp_ApplicationID current = hp_ApplicationID submitted /\
    hp_ProductID current = hp_ProductID submitted /\
    hp_SubscriptionID current = hp_SubscriptionID submitted /\
    hp_PurchaseToken current = hp_PurchaseToken submitted;
  hb_scope : hp_ApplicationID current = sa_ID (app_Store (vq_Application request)) /\
    hp_ProductID current <> EmptyString /\ hp_PurchaseToken current <> EmptyString /\
    (vq_ClaimedProducts request = [] \/ vq_ClaimedProducts request = [hp_ProductID current])
}.

Lemma parseEvidence_spelled evidence e submitted :
  huawei_parseEvidence evidence = Ok (e, submitted) ->
  DecodeHuaweiEvidence (Evidence_Bytes evidence) = Ok e /\
  UnmarshalPurchase (hev_PurchaseData e) = Ok submitted /\
  (hev_ProductKind e = ProductKindSubscription \/ hev_ProductKind e = ProductKindNonConsumable).
Proof.
  unfold huawei_parseEvidence. intros H. destruct (negb _) in H; [done|].
  apply bind_result_ok in H as (e' & He & H). destruct (_ || _) eqn:Hk in H; [done|].
  apply bind_result_ok in H as (x & Hx & [= <- <-]). split; [done|]. split; [done|].
  destruct (String.eqb_spec (hev_ProductKind e') ProductKindSubscription); [by left|].
  destruct (String.eqb_spec (hev_ProductKind e') ProductKindNonConsumable); [by right|].
  by rewrite !orb_true_r in Hk.
Qed.

(** C9. A Huawei verification publishes exactly one purchase, the one Huawei answered
    and signed: the submitted evidence, and the data Huawei's server answered with
    for the submitted purchase in the last request, both carry a signature that
    verifies under the application's configured key; both concern the same
    application, product, subscription and purchase token, and that application
    and product are the requested ones; Huawei's whole answer is the artifact.
    The service then accepts the result exactly when it expects no customer
    binding at all or the signed developer payload is one of the bindings it
    expects: the adapter leaves that check to it. *)
Theorem huawei_verify_signed (request : VerificationRequest) (s s' : huawei_state)
    (answer : VerificationResult) :
  (forall n, clock n <> 0) ->
  sa_Provider (app_Store (vq_Application request)) <> ProviderAppleAppStore ->
  huawei_Verify credentials transport clock private request s = (Ok answer, s') ->
  exists evidence submitted configuration publicKey signed current n artifact o,
    huawei_believed request (hs_sent s') evidence submitted configuration publicKey signed artifact current /\
    huawei_observed (clock n) (vq_Application request) (hev_ProductKind evidence) current artifact answer o /\
    (checked_verification request answer <->
     vq_ExpectedCustomerBindings request = [] \/
     (hp_DeveloperPayload current <> EmptyString /\
      In (mkStoreReference ReferenceCustomerBinding "developer_payload" (hp_DeveloperPayload current))
         (vq_ExpectedCustomerBindings request))).
Proof.
  intros Hclock Hprov H. unfold huawei_Verify in H. apply huawei_check_ok in H as [Hreq H].
  apply tx_bind_ok in H as ([evidence submitted] & s1 & Hev & H).
  apply tx_lift_ok in Hev as [Hev%wrap_result_ok _]. apply huawei_check_ok in H as [Hscope H].
  apply tx_bind_ok in H as ([c key] & s2 & Hc & H). apply tx_lift_ok in Hc as [Hc _].
  apply huawei_check_ok in H as [Hs1%verifySignature_signed H].
  apply tx_bind_ok in H as ([signed artifact] & s3 & Hq & H).
  pose proof (huawei_query_artifact _ _ _ _ _ _ _ Hq) as Hart. apply huawei_check_ok in H as [Hs2%verifySignature_signed H].
  apply tx_bind_ok in H as (current & s4 & Hcur & H). apply tx_lift_ok in Hcur as [Hcur%wrap_result_ok <-].
  apply huawei_check_ok in H as [Hsame H]. apply tx_bind_ok in H as (now & s5 & Hnow & H).
  assert (Hsent : hs_sent s5 = hs_sent s3) by (by injection Hnow as _ <-).
  apply huawei_now_reads in Hnow as [n ->]. apply tx_lift_ok in H as [H <-].
  destruct (huawei_result_ok _ _ _ _ _ _ H) as [o Ho].
  destruct (submitted_scope _ _ Hscope) as (Ha & Hp & Htok & Hclaim). destruct (same_purchase _ _ Hsame) as (Ea & Ep & Es & Et).
  apply huawei_query_said in Hq; [|by right]. rewrite <- Hsent in Hq. rewrite Ea in Ha. rewrite Ep in Hclaim, Hp. rewrite Et in Htok.
  exists evidence, submitted, c, key, signed, current, n, artifact, o. split; [|split; [exact Ho|]].
  - split; [by apply parseEvidence_spelled|by eapply configuration_key|done|done|done|done|done].
  - by eapply (huawei_answer_checked (clock n)).
Qed.
End Contract.

(** ** The token cache *)

Lemma tokenCacheExpiry_exact now expiresIn expires :
  tokenCacheExpiry now expiresIn = Some expires ->
  60 < expiresIn /\ expiresIn * Second <= maxInt64 /\ expires = now + (expiresIn - 60) * Second.
Proof.
  unfold tokenCacheExpiry. destruct (Z.leb_spec expiresIn 0); [done|]. cbv zeta.
  destruct (_ || _) eqn:E; [done|]. apply orb_false_iff in E as [E1%Z.leb_gt E2%negb_false_iff%Z.eqb_eq].
  intros [= <-]. unfold tokenExpiryMargin, wrap64, maxInt64 in *. change Second with 1000000000 in *.
  set (m := (expiresIn * 1000000000 + 2 ^ 63) `mod` 2 ^ 64) in *.
  assert (Hm : 0 <= m < 2 ^ 64) by (apply Z.mod_pos_bound; lia).
  assert (Hd : exists k, expiresIn * 1000000000 + 2 ^ 63 = m + 2 ^ 64 * k).
  { exists ((expiresIn * 1000000000 + 2 ^ 63) / 2 ^ 64). unfold m. pose proof (Z.div_mod (expiresIn * 1000000000 + 2 ^ 63) (2 ^ 64)). lia. }
  destruct Hd as [k Hk]. change (2 ^ 64) with 18446744073709551616 in *. change (2 ^ 63) with 9223372036854775808 in *.
  assert (Hq : m - 9223372036854775808 = expiresIn * 1000000000 + Z.rem (m - 9223372036854775808) 1000000000).
  { rewrite <- E2. rewrite (Z.quot_rem (m - 9223372036854775808) 1000000000) at 1 by lia. lia. }
  pose proof (Z.rem_bound_pos (m - 9223372036854775808) 1000000000 ltac:(lia) ltac:(lia)). lia.
Qed.

Section Tokens.
Context `{Lib : HuaweiLibrary}.
Context (credentials : Application -> string -> result Credential).
Context (transport : list http_request -> http_request -> result http_response).
Context (clock : nat -> time).
Context (private : bool).

(** The token endpoint of a configuration with this cache key issued the token,
    for this many seconds. *)
Definition issued (key token : string) (expiresIn : Z) : Prop :=
  exists configuration history response text,
    tokenCacheKey configuration = key /\
    transport history (fetch_request configuration) = Ok response /\ body response = Ok text /\
    200 <= status response < 300 /\ DecodeHuaweiToken text = Ok (token, expiresIn) /\ token <> EmptyString.

(** Every cached token was issued, and its entry ends sixty seconds before the
    token does. *)
Definition cache_sound (s : huawei_state) : Prop :=
  forall key cached, hs_tokens s !! key = Some cached ->
  exists n expiresIn, issued key (cat_token cached) expiresIn /\
    60 < expiresIn /\ expiresIn * Second <= maxInt64 /\
    cat_expiresAt cached = clock n + (expiresIn - 60) * Second.

Lemma fetchToken_sent c s r s' :
  fetchToken transport c s = (r, s') ->
  hs_sent s' = hs_sent s ++ [fetch_request c] /\ hs_reads s' = hs_reads s /\ hs_tokens s' = hs_tokens s /\
  match r with
  | Ok (token, expiresIn) => issued (tokenCacheKey c) token expiresIn
  | Err _ => True
  end.
Proof.
  unfold fetchToken, tx_bind. destruct (huawei_do _ _ s) as [r1 s1] eqn:E.
  apply huawei_do_sent in E as (Hs & Hn & Ht & Hr). destruct r1 as [[text code]|e]; [|by intros [= <- <-]].
  destruct Hr as (response & Htr & Hb & Hst). cbn [fst snd] in Hb, Hst. subst code.
  destruct (_ || _); [by intros [= <- <-]|].
  destruct (_ || _) eqn:Es; [by intros [= <- <-]|]. apply orb_false_iff in Es as [E1%Z.ltb_ge E2%Z.leb_gt].
  destruct (DecodeHuaweiToken text) as [[token expiresIn]|e] eqn:Ed; [|by intros [= <- <-]].
  destruct (String.eqb_spec token EmptyString); [by intros [= <- <-]|].
  intros [= <- <-]. split_and!; auto. exists c, (hs_sent s), response, text. split_and!; auto.
Qed.

(** What [token] does: it reads the clock once, and asks the endpoint only when the
    cache has no entry that is still usable. *)
Lemma huawei_token_sent c s r s' :
  cache_sound s -> huawei_token transport clock c s = (r, s') ->
  cache_sound s' /\
  match usable_token (hs_tokens s) (tokenCacheKey c) (clock (hs_reads s)) with
  | Some token => r = Ok token /\ hs_sent s' = hs_sent s
  | None => hs_sent s' = hs_sent s ++ [fetch_request c] /\
      forall token, r = Ok token -> exists expiresIn, issued (tokenCacheKey c) token expiresIn
  end.
Proof.
  intros Hs. unfold huawei_token, tx_bind at 1, huawei_now. cbn [hs_tokens hs_sent hs_reads].
  destruct (usable_token _ _ _) as [token|] eqn:Eu; [by intros [= <- <-]|].
  unfold tx_bind at 1. destruct (fetchToken _ _ _) as [r1 s1] eqn:Ef.
  apply fetchToken_sent in Ef as (Hsent & _ & Htok & Hr). cbn [hs_sent hs_tokens] in Hsent, Htok.
  destruct r1 as [[token expiresIn]|e]; unfold with_tokens, tx_bind, tx_ret; intros [= <- <-];
    cbn [hs_sent]; (split; [|split; [exact Hsent|]]); [|naive_solver| |done].
  - intros key cached. cbn [hs_tokens]. rewrite Htok.
    destruct (tokenCacheExpiry _ expiresIn) as [expires|] eqn:Ex.
    + apply tokenCacheExpiry_exact in Ex as (? & ? & ->). rewrite lookup_insert_Some.
      intros [[<- <-]|[_ Hin]]; [|by apply Hs]. exists (hs_reads s), expiresIn. auto.
    + rewrite lookup_delete_Some. intros [_ Hin]. by apply Hs.
  - intros key cached. rewrite Htok. apply Hs.
Qed.

(** ** Operations keep the cache sound *)

Definition keeps {A} (m : Tx huawei_state A) : Prop :=
  forall s r s', cache_sound s -> m s = (r, s') -> cache_sound s'.

Lemma keeps_bind {A B} (m : Tx huawei_state A) (f : A -> Tx huawei_state B) :
  keeps m -> (forall a, keeps (f a)) -> keeps (tx_bind m f).
Proof.
  intros Hm Hf s r s' Hs H. unfold tx_bind in H. destruct (m s) as [[a|e] s1] eqn:E; [exact (Hf _ _ _ _ (Hm _ _ _ Hs E) H)|].
  injection H as _ <-. by eapply Hm.
Qed.
Lemma keeps_ret {A} (a : A) : keeps (tx_ret a).
Proof. by intros s r s' Hs [= _ <-]. Qed.
Lemma keeps_lift {A} (x : result A) : keeps (tx_lift x).
Proof. by intros s r s' Hs [= _ <-]. Qed.
Lemma keeps_err {A} e : keeps (@tx_err huawei_state A e).
Proof. by intros s r s' Hs [= _ <-]. Qed.
Lemma keeps_check {A} e (k : Tx huawei_state A) : keeps k -> keeps (tx_check e k).
Proof. intros Hk. destruct e; [apply keeps_err|exact Hk]. Qed.
Lemma keeps_huawei_check {A} operation e (k : Tx huawei_state A) : keeps k -> keeps (huawei_check operation e k).
Proof. intros Hk. destruct e; [apply keeps_err|exact Hk]. Qed.
Lemma keeps_now : keeps (huawei_now clock).
Proof. by intros s r s' Hs [= _ <-]. Qed.
Lemma keeps_do request : keeps (huawei_do transport request).
Proof. intros s r s' Hs (_ & _ & Ht & _)%huawei_do_sent key cached. rewrite Ht. apply Hs. Qed.
Lemma keeps_token c : keeps (huawei_token transport clock c).
Proof. intros s r s' Hs Hm. by destruct (huawei_token_sent _ _ _ _ Hs Hm). Qed.
Lemma keeps_forget key token : keeps (forgetToken key token).
Proof.
  intros s r s' Hs [= _ <-] k cached. cbn [hs_tokens]. destruct (hs_tokens s !! key) as [old|]; [|apply Hs].
  destruct (String.eqb _ _); [|apply Hs]. rewrite lookup_delete_Some. intros [_ Hin]. by apply Hs.
Qed.
End Tokens.

Create HintDb huawei_keeps.
#[export] Hint Resolve keeps_ret keeps_lift keeps_err keeps_now keeps_do keeps_token keeps_forget : huawei_keeps.

(** Walk through an operation, one call or branch at a time. *)
Ltac keeps_step :=
  match goal with
  | |- keeps _ _ (tx_bind _ _) => apply keeps_bind; [|intros ?]
  | |- keeps _ _ (tx_check _ _) => apply keeps_check
  | |- keeps _ _ (huawei_check _ _ _) => apply keeps_huawei_check
  | |- keeps _ _ (let '(_, _) := ?x in _) => destruct x
  | |- keeps _ _ (if ?b then _ else _) => destruct b
  | |- keeps _ _ (match ?x with _ => _ end) => destruct x
  | |- _ => solve [auto with huawei_keeps]
  end.

Section Operations.
Context `{Lib : HuaweiLibrary}.
Context (credentials : Application -> string -> result Credential).
Context (transport : list http_request -> http_request -> result http_response).
Context (clock : nat -> time).
Context (private : bool).

Lemma keeps_attempts c purchase kind attempts last :
  keeps transport clock (query_attempts transport clock c purchase kind attempts last).
Proof.
  revert last. induction attempts as [|attempts IH]; intros last; cbn [query_attempts]; repeat keeps_step.
Qed.
Lemma keeps_query c purchase kind : keeps transport clock (huawei_query transport clock c purchase kind).
Proof. unfold huawei_query. repeat first [apply keeps_attempts|keeps_step]. Qed.

Lemma keeps_operation :
  (forall request, keeps transport clock (huawei_Verify credentials transport clock private request)) /\
  (forall request, keeps transport clock (huawei_Reconcile credentials transport clock private request)).
Proof.
  split; intros request; [unfold huawei_Verify|unfold huawei_Reconcile]; repeat first [apply keeps_query|keeps_step].
Qed.

(** The Huawei token cache never outlives the tokens in it: whatever sequence of
    Verify and Reconcile calls ran, every cached token was issued by the token
    endpoint of its own configuration and its entry ends sixty seconds before the
    token does, with no overflow.  A token is taken from the cache only before
    that instant, without a request; otherwise exactly one is asked for. *)
Theorem huawei_token_margin (calls : list (VerificationRequest + ReconciliationRequest))
    (configuration : huawei_credentialPayload) (s : huawei_state) (r : result string)
    (s' : huawei_state) :
  s = fold_left (fun state call => snd (match call with
          | inl request => huawei_Verify credentials transport clock private request state
          | inr request => huawei_Reconcile credentials transport clock private request state
          end)) calls (mkHuaweiState [] 0 ∅) ->
  huawei_token transport clock configuration s = (r, s') ->
  let key := tokenCacheKey configuration in
  (hs_sent s' = hs_sent s /\ exists token n expiresIn, r = Ok token /\
     issued transport key token expiresIn /\
     clock (hs_reads s) < clock n + (expiresIn - 60) * Second /\ expiresIn * Second <= maxInt64) \/
  (hs_sent s' = hs_sent s ++ [fetch_request configuration] /\
   forall token, r = Ok token -> exists expiresIn, issued transport key token expiresIn).
Proof.
  intros Hs H key.
  assert (Hsound : cache_sound transport clock s).
  { rewrite Hs. clear -credentials. assert (H0 : cache_sound transport clock (mkHuaweiState [] 0 ∅)).
    { intros key cached. cbn [hs_tokens]. by rewrite lookup_empty. }
    revert H0. generalize (mkHuaweiState [] 0 ∅). induction calls as [|call calls IH]; intros s0 H0; [done|].
    cbn [fold_left]. apply IH. destruct keeps_operation as [Hv Hr].
    destruct call as [request|request]; [destruct (huawei_Verify _ _ _ _ _ _) eqn:E|destruct (huawei_Reconcile _ _ _ _ _ _) eqn:E].
    - exact (Hv _ _ _ _ H0 E).
    - exact (Hr _ _ _ _ H0 E). }
  destruct (huawei_token_sent _ _ _ _ _ _ Hsound H) as [_ Ht].
  destruct (usable_token _ _ _) as [token|] eqn:Eu; [|by right]. destruct Ht as [-> Hsent]. left. split; [done|].
  unfold usable_token in Eu. destruct (hs_tokens s !! key) as [cached|] eqn:El; fold key in Eu; rewrite El in Eu; [|done].
  destruct (Hsound _ _ El) as (n & expiresIn & Hi & _ & Hm & He).
  destruct (_ && _) eqn:E; [|done]. injection Eu as <-. apply andb_true_iff in E as [_ E%Z.ltb_lt].
  exists (cat_token cached), n, expiresIn. rewrite <- He. auto.
Qed.
End Operations.

(** ** Retries *)

Section Retries.
Context `{Lib : HuaweiLibrary}.
Context (transport : list http_request -> http_request -> result http_response).
Context (clock : nat -> time).
Context (c : huawei_credentialPayload) (purchase : purchaseData) (kind : ProductKind).

(** The request for a token, when one was needed. *)
Definition asked (fetched : bool) : list http_request := if fetched then [fetch_request c] else [].

Definition answered_with (history : list http_request) (request : http_request) (code : Z) : Prop :=
  exists response, transport history request = Ok response /\ status response = code.

Lemma token_sent s r s' :
  huawei_token transport clock c s = (r, s') ->
  exists fetched, hs_sent s' = hs_sent s ++ asked fetched /\
    (hs_tokens s !! tokenCacheKey c = None -> fetched = true) /\
    (forall e, r = Err e -> fetched = true) /\
    (forall token cached, r = Ok token -> hs_tokens s' !! tokenCacheKey c = Some cached ->
     cat_token cached = token).
Proof.
  unfold huawei_token, tx_bind at 1, huawei_now. cbn [hs_tokens hs_sent hs_reads].
  destruct (usable_token _ _ _) as [token|] eqn:Eu.
  { intros [= <- <-]. exists false. cbn [asked hs_tokens hs_sent]. rewrite app_nil_r. unfold usable_token in Eu.
    destruct (hs_tokens s !! tokenCacheKey c) as [cached|]; [|done]. destruct (_ && _); [|done].
    injection Eu as <-. split_and!; [done|done|done|]. by intros token cached' [= <-] [= <-]. }
  unfold tx_bind at 1. destruct (fetchToken _ _ _) as [r1 s1] eqn:Ef.
  apply fetchToken_sent in Ef as (Hsent & _ & Htok & _). cbn [hs_sent hs_tokens] in Hsent, Htok.
  destruct r1 as [[token expiresIn]|e]; unfold with_tokens, tx_bind, tx_ret; intros [= <- <-];
    exists true; cbn [asked hs_tokens hs_sent]; split_and!; auto; [|done].
  intros token' cached [= <-]. destruct (tokenCacheExpiry _ _).
  - rewrite lookup_insert_eq. by intros [= <-].
  - by rewrite lookup_delete_eq.
Qed.

(** One attempt: the token, then the purchase request with it; a 401 is on the right. *)
Definition attempt : Tx huawei_state ((string * Z) + (string * Z)) :=
  do accessToken <- huawei_token transport clock c;
  do answer <- huawei_do transport (purchase_request c purchase kind accessToken);
  if negb (snd answer =? 401) then tx_ret (inl answer)
  else do _ <- forgetToken (tokenCacheKey c) accessToken; tx_ret (inr answer).

Lemma attempts_step n last s :
  query_attempts transport clock c purchase kind (S n) last s =
  match attempt s with
  | (Ok (inl answer), s') => (Ok answer, s')
  | (Ok (inr answer), s') => query_attempts transport clock c purchase kind n answer s'
  | (Err e, s') => (Err e, s')
  end.
Proof.
  cbn [query_attempts]. unfold attempt, tx_bind. destruct (huawei_token _ _ _ _) as [[token|e] s1]; [|done].
  destruct (huawei_do _ _ _) as [[answer|e] s2]; [|done]. destruct (negb _); [done|].
  by destruct (forgetToken _ _ s2) as [[u|e] s3].
Qed.

Lemma attempt_sent s r s' :
  attempt s = (r, s') ->
  exists fetched, (hs_tokens s !! tokenCacheKey c = None -> fetched = true) /\
    ((fetched = true /\ hs_sent s' = hs_sent s ++ asked true /\ exists e, r = Err e) \/
     exists token, let h := hs_sent s ++ asked fetched in
       let q := purchase_request c purchase kind token in
       hs_sent s' = h ++ [q] /\
       match r with
       | Ok (inl answer) => answered_with h q (snd answer) /\ snd answer <> 401
       | Ok (inr answer) => answered_with h q 401 /\ hs_tokens s' !! tokenCacheKey c = None /\ snd answer = 401
       | Err _ => True
       end).
Proof.
  unfold attempt. unfold tx_bind at 1. destruct (huawei_token _ _ _ _) as [r1 s1] eqn:Et. intros H.
  apply token_sent in Et as (fetched & Hs & Hnone & Herr & Hcache). exists fetched. split; [done|].
  destruct r1 as [token|e]; [|injection H as <- <-; left; rewrite Hs, (Herr e eq_refl); eauto].
  right. exists token. cbv zeta. rewrite <- Hs. unfold tx_bind at 1 in H.
  destruct (huawei_do _ _ _) as [r2 s2] eqn:Ed. apply huawei_do_sent in Ed as (Hs2 & _ & Ht2 & Hr2).
  destruct r2 as [answer|e]; [|by injection H as <- <-]. destruct Hr2 as (response & Hresp & _ & Hst).
  destruct (Z.eqb_spec (snd answer) 401) as [Hc|Hc]; cbn [negb] in H.
  - unfold tx_bind, forgetToken, with_tokens, tx_ret in H. injection H as <- <-. cbn [hs_sent hs_tokens].
    split; [done|]. split; [exists response; split; [done|congruence]|]. split; [|done]. rewrite Ht2.
    destruct (hs_tokens s1 !! tokenCacheKey c) as [cached|] eqn:El; [|done].
    rewrite (Hcache token cached eq_refl eq_refl), String.eqb_refl. apply lookup_delete_eq.
  - injection H as <- <-. split; [done|]. split; [|done]. exists response. done.
Qed.

Lemma query_sent s r s' :
  huawei_query transport clock c purchase kind s = (r, s') ->
  s' = s \/ exists answer, query_attempts transport clock c purchase kind 2 (EmptyString, 0) s = (answer, s') /\
    match answer with
    | Ok a => query_status (snd a) <> None -> exists e, r = Err e
    | Err e => r = Err e
    end.
Proof.
  unfold huawei_query. destruct (_ && _); [intros [= _ <-]; by left|]. intros H. right. unfold tx_bind at 1 in H.
  destruct (query_attempts _ _ _ _ _ _ _ s) as [answer s1] eqn:E. exists answer.
  destruct answer as [[text code]|e]; [|by injection H as <- <-]. cbn [snd].
  destruct (query_status code) eqn:Eq; cbn [tx_check] in H; [injection H as <- <-; eauto|].
  assert (s' = s1) as ->; [|by split].
  unfold tx_bind, tx_lift in H. destruct (wrap_result _ _) as [response|]; [|by injection H].
  destruct (_ && _) in H; [by injection H|]. destruct (wrap_result _ _) as [x|]; [|by injection H].
  destruct (wrap_result _ _) as [y|]; by injection H.
Qed.

(** A Huawei purchase is asked for at most twice, and a second time only after
    Huawei refused the first token with a 401: the second request carries a token
    fetched after that refusal.  An answer is used only when the last request got
    a success status. *)
Theorem huawei_query_retries (s s' : huawei_state) (r : result (signedData * Evidence)) :
  huawei_query transport clock c purchase kind s = (r, s') ->
  (hs_sent s' = hs_sent s \/ hs_sent s' = hs_sent s ++ [fetch_request c]) \/
  exists fetched token,
    let h := hs_sent s ++ asked fetched in
    let q := purchase_request c purchase kind token in
    (hs_sent s' = h ++ [q] /\
     forall a, r = Ok a -> exists code, answered_with h q code /\ 200 <= code < 300) \/
    (answered_with h q 401 /\
     (hs_sent s' = h ++ [q; fetch_request c] \/
      exists token',
        let q' := purchase_request c purchase kind token' in
        hs_sent s' = h ++ [q; fetch_request c; q'] /\
        forall a, r = Ok a -> exists code, answered_with (h ++ [q; fetch_request c]) q' code /\ 200 <= code < 300)).
Proof.
  intros H. apply query_sent in H as [->|(answer & H & Hr)]; [by left; left|].
  assert (Hok : forall history q a x, answer = Ok a -> answered_with history q (snd a) ->
            r = Ok x -> exists code, answered_with history q code /\ 200 <= code < 300).
  { intros history q a x -> Ha ->. exists (snd a). split; [done|]. unfold query_status in Hr.
    destruct ((snd a =? 401) || _); [by destruct (Hr ltac:(done))|].
    destruct (snd a =? 429); [by destruct (Hr ltac:(done))|]. destruct (snd a =? 404); [by destruct (Hr ltac:(done))|].
    destruct (500 <=? snd a); [by destruct (Hr ltac:(done))|].
    destruct (_ || _) eqn:E; [by destruct (Hr ltac:(done))|].
    apply orb_false_iff in E as [E1%Z.ltb_ge E2%Z.leb_gt]. lia. }
  rewrite attempts_step in H. destruct (attempt s) as [r1 s1] eqn:E1.
  apply attempt_sent in E1 as (fetched & _ & [(-> & Hs1 & e & ->)|(token & Hs1 & H1)]).
  { injection H as <- <-. left. by right. }
  right. exists fetched, token. cbv zeta in *. destruct r1 as [[a|a]|e].
  - injection H as <- <-. destruct H1 as [H1 _]. left. split; [done|]. intros x Hx. by eapply Hok.
  - destruct H1 as (H401 & Hnone & Ha). right. split; [done|]. rewrite attempts_step in H.
    destruct (attempt s1) as [r2 s2] eqn:E2.
    apply attempt_sent in E2 as (fetched' & Hf & [(-> & Hs2 & e & ->)|(token' & Hs2 & H2)]).
    { injection H as <- <-. left. rewrite Hs2, Hs1, <- !app_assoc. done. }
    rewrite (Hf Hnone) in Hs2, H2. cbn [asked] in Hs2, H2. right. exists token'. rewrite Hs1 in Hs2, H2. rewrite <- !app_assoc in Hs2, H2.
    cbn [app] in Hs2, H2. rewrite <- !app_assoc in *. cbn [app] in *. destruct r2 as [[b|b]|e].
    + injection H as <- <-. destruct H2 as [H2 _]. split; [exact Hs2|]. intros x Hx. by eapply Hok.
    + destruct H2 as (_ & _ & Hb). cbn [query_attempts] in H. injection H as <- <-. split; [exact Hs2|].
      intros x ->. unfold query_status in Hr. rewrite Hb in Hr. by destruct (Hr ltac:(done)).
    + injection H as <- <-. split; [exact Hs2|]. by intros x ->.
  - injection H as <- <-. left. split; [done|]. by intros x ->.
Qed.
End Retries.

(** ** A concrete Huawei *)

(** A running subscription whose developer payload names the customer. *)
Definition huawei_sample_purchase : purchaseData :=
  mkPurchaseData "app-102" "com.example" "premium" "sub-1" "order-1" "token/1" 0 1698000000000
    1702000000000 0 0 0 1 0 true "customer-1" 1 "EUR" 499.

Definition sample_huawei_library : HuaweiLibrary := {|
  HuaweiKey := unit;
  UnicodeUpper := fun s => s;
  hw_StdDecode := fun s => Some s;
  DecodeHuaweiEvidence := fun _ => Ok (mkHuaweiEvidence "{purchase}" "sig" EmptyString ProductKindSubscription);
  DecodeHuaweiCredential := fun _ => Ok (mkHuaweiCredential "client" "secret" "key" EmptyString
    "https://orders.example/verify" "https://subscriptions.example/verify");
  DecodeHuaweiToken := fun _ => Ok ("bearer-1"%string, 3600);
  UnmarshalPurchase := fun _ => Ok huawei_sample_purchase;
  UnmarshalProviderResponse := fun _ => Ok (mkProviderResponse "0" EmptyString EmptyString
    "{purchase}" "sig" EmptyString EmptyString "SHA256WithRSA/PSS");
  hw_PemDecode := fun _ => Some "der"%string;
  ParsePKIXPublicKey := fun _ => Some (Some tt);
  ParsePKCS1PublicKey := fun _ => None;
  VerifyPKCS1v15 := fun _ digest signature => String.eqb signature "sig";
  VerifyPSS := fun _ digest signature => String.eqb signature "sig";
  hw_ParseRequestURI := fun s => Some (mkURI "https" "orders.example" false EmptyString "orders.example");
  hw_ParseAddr := fun _ => None
|}.

Definition huawei_application : Application :=
  mkApplication "app-1" "project-1"
    (mkStoreApplication ProviderHuaweiAppGallery EnvironmentProduction "app-102").
Definition huawei_sample_credentials (application : Application) (kind : string) : result Credential :=
  Ok (mkCredential kind HuaweiCredentialContentType 1 "{}").
(** The second request is refused. *)
Definition huawei_sample_transport (refused : bool) (history : list http_request) (request : http_request)
    : result http_response :=
  Ok (mkResponse (Ok "{}"%string) (if refused && Nat.eqb (length history) 1 then 401 else 200) EmptyString None).
Definition huawei_sample_clock (n : nat) : time := UnixMilli 1700000000000 + Z.of_nat n.
Definition huawei_start : huawei_state := mkHuaweiState [] 0 ∅.
Definition huawei_sample_request : VerificationRequest :=
  mkVerificationRequest huawei_application "customer-1" ["premium"%string]
    [mkStoreReference ReferenceCustomerBinding "developer_payload" "customer-1"]
    (mkEvidence HuaweiEvidenceContentType "{}").
Definition huawei_sample_run (refused : bool) : result VerificationResult * huawei_state :=
  @huawei_Verify sample_huawei_library huawei_sample_credentials (huawei_sample_transport refused)
    huawei_sample_clock false huawei_sample_request huawei_start.

Lemma huawei_verify_signed_witness :
  exists answer s, huawei_sample_run false = (Ok answer, s) /\ length (hs_sent s) = 2%nat /\
    @checked_verification range_in_order huawei_sample_request answer.
Proof.
  destruct (huawei_sample_run false) as [[answer|e] s] eqn:E; [|vm_compute in E; discriminate].
  exists answer, s. split; [reflexivity|]. split; [vm_compute in E; injection E as _ <-; reflexivity|].
  assert (Hclock : forall n, huawei_sample_clock n <> 0).
  { intros n. unfold huawei_sample_clock. pose proof (eq_refl : 0 <? UnixMilli 1700000000000 = true) as H0%Z.ltb_lt. lia. }
  assert (Hprov : sa_Provider (app_Store (vq_Application huawei_sample_request)) <> ProviderAppleAppStore) by discriminate.
  unfold huawei_sample_run in E.
  destruct (@huawei_verify_signed range_in_order sample_huawei_library huawei_sample_credentials
      (huawei_sample_transport false) huawei_sample_clock false huawei_sample_request huawei_start s answer Hclock Hprov E)
    as (evidence & submitted & c & key & signed & current & n & artifact & o & [_ _ _ _ [_ Hcur] _ _] & _ & Hiff).
  apply Hiff. cbn in Hcur. injection Hcur as <-. right. split; [discriminate|]. left. reflexivity.
Defined.

Lemma huawei_access_sound_witness :
  exists r o, huawei_result (huawei_sample_clock 0) huawei_application ProductKindSubscription
                huawei_sample_purchase (mkEvidence "application/json" "{}") = Ok r /\
    In o (vr_Observations r) /\ obs_Access o = AccessAllowed /\
    obs_Price o = Some (mkPurchasePrice 4990 "EUR").
Proof.
  destruct (huawei_result (huawei_sample_clock 0) huawei_application ProductKindSubscription
              huawei_sample_purchase (mkEvidence "application/json" "{}")) as [r|e] eqn:E;
    [|vm_compute in E; discriminate].
  assert (Ho : exists o, In o (vr_Observations r)).
  { vm_compute in E. injection E as <-. eexists. left. reflexivity. }
  destruct Ho as [o Ho]. exists r, o. split; [reflexivity|]. split; [exact Ho|].
  destruct (huawei_access_sound (huawei_sample_clock 0) _ _ _ _ _ o ltac:(vm_compute; discriminate) E Ho) as (_ & Hs & Hp & _).
  split; [|exact Hp]. apply (proj1 (Hs eq_refl)). split; [vm_compute; discriminate|]. split; [by left|].
  right. split; [reflexivity|]. split; vm_compute; reflexivity.
Defined.

Lemma huawei_token_margin_witness :
  exists s s', snd (huawei_sample_run false) = s /\
    @huawei_token sample_huawei_library (huawei_sample_transport false) huawei_sample_clock
      (mkHuaweiCredential "client" "secret" "key" huawei_defaultTokenURL "https://orders.example/verify"
         "https://subscriptions.example/verify") s = (Ok "bearer-1"%string, s') /\
    hs_sent s' = hs_sent s.
Proof.
  destruct (@huawei_token sample_huawei_library (huawei_sample_transport false) huawei_sample_clock
      (mkHuaweiCredential "client" "secret" "key" huawei_defaultTokenURL "https://orders.example/verify"
         "https://subscriptions.example/verify") (snd (huawei_sample_run false))) as [[token|e] s'] eqn:E;
    [|vm_compute in E; discriminate].
  assert (Htoken : token = "bearer-1"%string) by (vm_compute in E; injection E as <- _; reflexivity). subst token.
  exists (snd (huawei_sample_run false)), s'. split; [reflexivity|]. split; [exact E|].
  destruct (@huawei_token_margin sample_huawei_library huawei_sample_credentials (huawei_sample_transport false)
    huawei_sample_clock false [inl huawei_sample_request] _ _ _ _ eq_refl E) as [[Hs _]|[Hs _]]; [exact Hs|].
  exfalso. apply (f_equal (@length _)) in Hs. vm_compute in E. injection E as <-. vm_compute in Hs. discriminate.
Defined.

Lemma huawei_query_retries_witness :
  exists answer s fetched token token',
    let c := mkHuaweiCredential "client" "secret" "key" "https://token.example" "https://orders.example/verify"
               "https://subscriptions.example/verify" in
    let q := purchase_request c huawei_sample_purchase ProductKindSubscription in
    @huawei_query sample_huawei_library (huawei_sample_transport true) huawei_sample_clock c
      huawei_sample_purchase ProductKindSubscription huawei_start = (Ok answer, s) /\
    hs_sent s = asked c fetched ++ [q token; fetch_request c; q token'].
Proof.
  set (c := mkHuaweiCredential "client" "secret" "key" "https://token.example" "https://orders.example/verify"
               "https://subscriptions.example/verify").
  destruct (@huawei_query sample_huawei_library (huawei_sample_transport true) huawei_sample_clock c
      huawei_sample_purchase ProductKindSubscription huawei_start) as [[answer|e] s] eqn:E; [|vm_compute in E; discriminate].
  assert (Hlen : length (hs_sent s) = 4%nat) by (vm_compute in E; injection E as _ <-; reflexivity).
  destruct (@huawei_query_retries sample_huawei_library _ _ _ _ _ _ _ _ E)
    as [[Hs|Hs]|(fetched & token & [[Hs _]|(_ & [Hs|(token' & Hs & _)])])];
    try (rewrite Hs in Hlen; destruct fetched; discriminate Hlen); try (rewrite Hs in Hlen; discriminate Hlen).
  exists answer, s, fetched, token, token'. split; [exact E|exact Hs].
Defined.
