(* ===== verification/Notifications.v ===== *)
(** Provider notifications ([internal/stores/googleplay/notification.go],
    [internal/stores/apple/notification.go], [internal/stores/huawei/notification.go]):
    how a callback is authenticated and normalized into the envelope kept in the
    protected inbox, and how an envelope gives the evidence of a verification.

    JSON decoding into the packages' structs, base64 decoding and Google's ID-token
    verifier are parameters. *)

From S2P Require Import Prelude GoText GoTime GoHttp GoJson Sha256 Core Purchase Protection Persistence Stores Network Credential Repository Apple GooglePlay Huawei.
From stdpp Require Import base list strings gmap.
Local Open Scope Z_scope.

(** ** Google Play real-time developer notifications *)

(* internal/stores/googleplay/notification.go: constants *)
Definition GoogleNotificationContentType : string := "application/vnd.iapstack.google-play-rtdn+json".
Definition NotificationKindSubscription : string := "subscription".
Definition NotificationKindOneTimeProduct : string := "one_time_product".
Definition NotificationKindVoidedPurchase : string := "voided_purchase".
Definition NotificationKindPendingRefundReview : string := "pending_refund_review".
Definition NotificationKindTest : string := "test".
Definition developerNotificationVersion : string := "1.0".
Definition voidedProductTypeSubscription : Z := 1.
Definition voidedProductTypeOneTime : Z := 2.
Definition maximumNotificationData : Z := 2 ^ 20.
Definition maximumNotificationText : Z := 4096.
Definition maximumNotificationTokenClockSkew : duration := 5 * Minute.
Definition googleTokenIssuer : string := "https://accounts.google.com".
Definition googleTokenIssuerAlias : string := "accounts.google.com".

(* internal/stores/googleplay/notification.go: NotificationEnvelope *)
Record google_NotificationEnvelope : Type := mkGoogleEnvelope {
  gn_MessageID : string;
  gn_Kind : string;
  gn_NotificationType : Z;
  gn_EventTime : time;
  gn_PurchaseToken : string;
  gn_ProductKind : ProductKind;
  gn_ProviderProductID : ProviderProductID
}.

(* internal/stores/googleplay/notification.go: notificationTokenClaims *)
Record notificationTokenClaims : Type := mkTokenClaims {
  tc_Email : string;
  tc_EmailVerified : bool
}.

(** The message of the wrapper, as far as it is read. *)
(* internal/stores/googleplay/notification.go: pubSubMessage *)
Record pubSubMessage : Type := mkPubSubMessage {
  ps_Data : string;
  ps_MessageID : string
}.

(* internal/stores/googleplay/notification.go: pubSubPushEnvelope *)
Record pubSubPushEnvelope : Type := mkPushEnvelope {
  push_Message : pubSubMessage;
  push_Subscription : string
}.

(* internal/stores/googleplay/notification.go: subscriptionNotification *)
Record google_subscriptionNotification : Type := mkGoogleSubscriptionNotification {
  sn_Version : string;
  sn_NotificationType : Z;
  sn_PurchaseToken : string
}.

(* internal/stores/googleplay/notification.go: oneTimeProductNotification *)
Record oneTimeProductNotification : Type := mkOneTimeNotification {
  on_Version : string;
  on_NotificationType : Z;
  on_PurchaseToken : string;
  on_SKU : string
}.

(* internal/stores/googleplay/notification.go: voidedPurchaseNotification *)
Record voidedPurchaseNotification : Type := mkVoidedNotification {
  vn_PurchaseToken : string;
  vn_OrderID : string;
  vn_ProductType : Z;
  vn_RefundType : Z
}.

(** The account and profile of the review are not read. *)
(* internal/stores/googleplay/notification.go: pendingRefundReviewNotification *)
Record pendingRefundReviewNotification : Type := mkRefundReview {
  rn_Version : string;
  rn_PendingRefundToken : string;
  rn_OrderID : string;
  rn_RefundReason : Z
}.

(* internal/stores/googleplay/notification.go: testNotification *)
Record testNotification : Type := mkTestNotification { tn_Version : string }.

(* internal/stores/googleplay/notification.go: developerNotification *)
Record developerNotification : Type := mkDeveloperNotification {
  dn_Version : string;
  dn_PackageName : string;
  dn_EventTimeMillis : Z;
  dn_Subscription : option google_subscriptionNotification;
  dn_OneTimeProduct : option oneTimeProductNotification;
  dn_VoidedPurchase : option voidedPurchaseNotification;
  dn_PendingRefundReview : option pendingRefundReviewNotification;
  dn_Test : option testNotification
}.

Definition google_ErrNotificationInvalid : gerror := Sentinel "googleplay.ErrNotificationInvalid".
Definition google_ErrNotificationUnauthorized : gerror := Sentinel "googleplay.ErrNotificationUnauthorized".

(* internal/stores/googleplay/notification.go: validateNotificationText *)
Definition validateNotificationText (name value : string) : error :=
  refuse_if (String.eqb value EmptyString) (New (name ++ " is required")%string) ;;?
  refuse_if (negb (ValidString value) || negb (String.eqb (TrimSpace value) value)
             || (maximumNotificationText <? len value)) (New (name ++ " is invalid")%string) ;;?
  refuse_if (existsb IsControl (runes value)) (New (name ++ " is invalid")%string).

(* internal/stores/googleplay/notification.go: NotificationEnvelope.Validate *)
Definition google_envelope_Validate (notification : google_NotificationEnvelope) : error :=
  validateNotificationText "message ID" (gn_MessageID notification) ;;?
  refuse_if (IsZero (gn_EventTime notification)) (New "notification event time is required") ;;?
  (let kind := gn_Kind notification in
   let productKind := gn_ProductKind notification in
   if String.eqb kind NotificationKindSubscription then
     validateNotificationText "purchase token" (gn_PurchaseToken notification) ;;?
     refuse_if (negb (String.eqb productKind ProductKindSubscription)
                || (gn_NotificationType notification <=? 0)
                || negb (String.eqb (gn_ProviderProductID notification) EmptyString))
       (New "subscription notification lookup data is invalid")
   else if String.eqb kind NotificationKindOneTimeProduct then
     validateNotificationText "purchase token" (gn_PurchaseToken notification) ;;?
     refuse_if (negb (String.eqb productKind ProductKindNonConsumable)
                || (gn_NotificationType notification <=? 0)
                || String.eqb (gn_ProviderProductID notification) EmptyString)
       (New "one-time notification lookup data is invalid")
   else if String.eqb kind NotificationKindVoidedPurchase then
     validateNotificationText "purchase token" (gn_PurchaseToken notification) ;;?
     refuse_if (negb (String.eqb productKind ProductKindSubscription)
                && negb (String.eqb productKind ProductKindNonConsumable))
       (New "voided notification product kind is unsupported")
   else if String.eqb kind NotificationKindPendingRefundReview || String.eqb kind NotificationKindTest then
     refuse_if (negb (gn_NotificationType notification =? 0)
                || negb (String.eqb (gn_PurchaseToken notification) EmptyString)
                || negb (String.eqb productKind EmptyString)
                || negb (String.eqb (gn_ProviderProductID notification) EmptyString))
       (New "non-lifecycle notification contains purchase lookup data")
   else Some (New "notification kind is unsupported")) ;;?
  (if String.eqb (gn_ProviderProductID notification) EmptyString then None
   else ProviderProductID_Validate (gn_ProviderProductID notification)).

(** The JSON of [clientEvidence], and whether the notification needs a verification. *)
(* internal/stores/googleplay/notification.go: NotificationEnvelope.VerificationEvidence *)
Definition google_VerificationEvidence (notification : google_NotificationEnvelope) : result (string * bool) :=
  try* google_envelope_Validate notification in
  if String.eqb (gn_Kind notification) NotificationKindTest
     || String.eqb (gn_Kind notification) NotificationKindPendingRefundReview
  then Ok (EmptyString, false)
  else Ok (json_marshal [("purchase_token", JStr (gn_PurchaseToken notification));
                         ("product_kind", JStr (gn_ProductKind notification))]%string, true).

(* internal/stores/googleplay/notification.go: rtdnConfiguration.Validate *)
Definition rtdnConfiguration_Validate (configuration : rtdnConfiguration) : error :=
  validateNotificationText "RTDN subscription" (rtdn_Subscription configuration) ;;?
  (match Split (rtdn_Subscription configuration) 47 with
   | [projects; project; subscriptions; subscription] =>
       refuse_if (negb (String.eqb projects "projects") || String.eqb project EmptyString
                  || negb (String.eqb subscriptions "subscriptions") || String.eqb subscription EmptyString)
         (New "RTDN subscription must be a Pub/Sub subscription resource name")
   | _ => Some (New "RTDN subscription must be a Pub/Sub subscription resource name")
   end) ;;?
  validateNotificationText "RTDN push service account email" (rtdn_PushServiceAccountEmail configuration) ;;?
  refuse_if (negb (has_at (rtdn_PushServiceAccountEmail configuration)))
    (New "RTDN push service account email is invalid") ;;?
  validateNotificationText "RTDN audience" (rtdn_Audience configuration).

(** The bytes are one JSON value; [unquote] is [json.Unmarshal] into a string. *)
(* internal/stores/googleplay/notification.go: unixMilliseconds.UnmarshalJSON *)
Definition unixMilliseconds_UnmarshalJSON (unquote : string -> result string) (payload : string) : result Z :=
  let* encoded := match bytes payload with
                  | 34 :: _ => unquote payload
                  | _ => Ok payload
                  end in
  match ParseInt encoded with
  | Some value => if value <=? 0 then Err (New "eventTimeMillis must be a positive integer") else Ok value
  | None => Err (New "eventTimeMillis must be a positive integer")
  end.

(** The envelope is filled in by each variant that is present, in this order. *)
Definition variant {A} (value : option A) (refused : A -> bool)
    (fill : A -> google_NotificationEnvelope -> option google_NotificationEnvelope)
    (state : result (google_NotificationEnvelope * Z)) : result (google_NotificationEnvelope * Z) :=
  let* current := state in
  match value with
  | None => Ok current
  | Some v => if refused v then Err google_ErrNotificationInvalid
              else match fill v current.1 with
                   | None => Err google_ErrNotificationInvalid
                   | Some envelope => Ok (envelope, current.2 + 1)
                   end
  end.

Definition unreadable (name value : string) : bool := bool_decide (is_Some (validateNotificationText name value)).

(* internal/stores/googleplay/notification.go: normalizeDeveloperNotification *)
Definition normalizeDeveloperNotification (notification : developerNotification)
    (result_ : google_NotificationEnvelope) : result google_NotificationEnvelope :=
  let of_version version := negb (String.eqb version developerNotificationVersion) in
  let filled kind type token productKind productID (envelope : google_NotificationEnvelope) :=
    mkGoogleEnvelope (gn_MessageID envelope) kind type (gn_EventTime envelope) token productKind productID in
  let* state :=
    variant (dn_Test notification) (fun value => of_version (tn_Version value))
      (fun _ e => Some (filled NotificationKindTest (gn_NotificationType e) (gn_PurchaseToken e)
                          (gn_ProductKind e) (gn_ProviderProductID e) e))
   (variant (dn_PendingRefundReview notification)
      (fun value => of_version (rn_Version value) || (rn_RefundReason value <=? 0)
         || unreadable "pending refund token" (rn_PendingRefundToken value)
         || unreadable "pending refund order ID" (rn_OrderID value))
      (fun _ e => Some (filled NotificationKindPendingRefundReview (gn_NotificationType e)
                          (gn_PurchaseToken e) (gn_ProductKind e) (gn_ProviderProductID e) e))
   (variant (dn_VoidedPurchase notification)
      (fun value => unreadable "voided purchase token" (vn_PurchaseToken value)
         || unreadable "voided order ID" (vn_OrderID value) || (vn_RefundType value <=? 0))
      (fun value e =>
         let voided productKind :=
           Some (filled NotificationKindVoidedPurchase (gn_NotificationType e) (vn_PurchaseToken value)
                   productKind (gn_ProviderProductID e) e) in
         if vn_ProductType value =? voidedProductTypeSubscription then voided ProductKindSubscription
         else if vn_ProductType value =? voidedProductTypeOneTime then voided ProductKindNonConsumable
         else None)
   (variant (dn_OneTimeProduct notification)
      (fun value => of_version (on_Version value) || (on_NotificationType value <=? 0)
         || unreadable "one-time purchase token" (on_PurchaseToken value)
         || unreadable "one-time product SKU" (on_SKU value))
      (fun value e => Some (filled NotificationKindOneTimeProduct (on_NotificationType value)
                              (on_PurchaseToken value) ProductKindNonConsumable (on_SKU value) e))
   (variant (dn_Subscription notification)
      (fun value => of_version (sn_Version value) || (sn_NotificationType value <=? 0)
         || unreadable "subscription purchase token" (sn_PurchaseToken value))
      (fun value e => Some (filled NotificationKindSubscription (sn_NotificationType value)
                              (sn_PurchaseToken value) ProductKindSubscription (gn_ProviderProductID e) e))
      (Ok (result_, 0)))))) in
  if snd state =? 1 then Ok (fst state) else Err google_ErrNotificationInvalid.

(** A validated Google ID token, as far as it is read: a claim of another type, or
    none, is read as the zero value. *)
Record idtoken_Payload : Type := mkIdToken {
  idt_Issuer : string;
  idt_Subject : string;
  idt_IssuedAt : Z;
  idt_email : option string;
  idt_email_verified : option bool
}.

(** A decoder that refuses unknown fields gives a value and the rest of its input;
    anything but white space after the value is refused. *)
(* internal/stores/googleplay/adapter.go: decodeStrict *)
Definition decodeStrict {P} (decoder : string -> result (P * string)) (payload : string) : result P :=
  let* decoded := decoder payload in
  if json_blank (snd decoded) then Ok (fst decoded) else Err (New "unexpected trailing JSON").

(** The strict JSON decoders of the two structs, strict base64, and Google's verifier
    of a token for an audience. *)
Class GoogleNotificationLibrary := {
  DecodePush : string -> result (pubSubPushEnvelope * string);
  StrictStdDecode : string -> option string;
  DecodeDeveloper : string -> result (developerNotification * string);
  ValidateIdToken : string -> string -> result idtoken_Payload
}.

Section GoogleNotifications.
Context `{Lib : GoogleLibrary, NotificationLib : GoogleNotificationLibrary}.
Context (credentials : Application -> string -> result Credential) (now : time).

(* internal/stores/googleplay/notification.go: googleNotificationTokenValidator.Validate *)
Definition google_validateToken (token audience : string) : result notificationTokenClaims :=
  let* payload := ValidateIdToken token audience in
  if (negb (String.eqb (idt_Issuer payload) googleTokenIssuer)
      && negb (String.eqb (idt_Issuer payload) googleTokenIssuerAlias))
     || String.eqb (idt_Subject payload) EmptyString || (idt_IssuedAt payload <=? 0)
     || (toUnix (now + maximumNotificationTokenClockSkew) <? idt_IssuedAt payload)
  then Err (New "google notification token claims are invalid")
  else Ok (mkTokenClaims (default EmptyString (idt_email payload)) (default false (idt_email_verified payload))).

(* internal/stores/googleplay/notification.go: decodeNotification *)
Definition decodeNotification (application : Application) (configuration : rtdnConfiguration)
    (payload : string) : result google_NotificationEnvelope :=
  let invalid := Err google_ErrNotificationInvalid in
  match decodeStrict DecodePush payload with
  | Err _ => invalid
  | Ok push =>
      if negb (String.eqb (push_Subscription push) (rtdn_Subscription configuration))
         || unreadable "Pub/Sub message ID" (ps_MessageID (push_Message push))
         || String.eqb (TrimSpace (ps_Data (push_Message push))) EmptyString
      then invalid
      else match StrictStdDecode (ps_Data (push_Message push)) with
      | None => invalid
      | Some data =>
          if (len data =? 0) || (maximumNotificationData <? len data) then invalid
          else match decodeStrict DecodeDeveloper data with
          | Err _ => invalid
          | Ok notification =>
              if negb (String.eqb (dn_Version notification) developerNotificationVersion)
                 || negb (String.eqb (dn_PackageName notification) (sa_ID (app_Store application)))
                 || (dn_EventTimeMillis notification <=? 0)
              then invalid
              else match normalizeDeveloperNotification notification
                           (mkGoogleEnvelope (ps_MessageID (push_Message push)) EmptyString 0
                              (UnixMilli (dn_EventTimeMillis notification)) EmptyString EmptyString EmptyString) with
              | Err _ => invalid
              | Ok result_ => match google_envelope_Validate result_ with
                              | Some _ => invalid
                              | None => Ok result_
                              end
              end
          end
      end
  end.

(* internal/stores/googleplay/notification.go: Adapter.ValidateNotification *)
Definition google_ValidateNotification (application : Application) (bearerToken payload : string)
    : result google_NotificationEnvelope :=
  if bool_decide (is_Some (Application_Validate application))
     || negb (String.eqb (sa_Provider (app_Store application)) ProviderGooglePlay)
  then Err google_ErrNotificationInvalid
  else
    let* configuration := google_configure credentials application in
    match gcf_rtdn configuration with
    | None => Err (google_failure "notification_config" FailurePermanent None)
    | Some rtdn =>
        if bool_decide (is_Some (rtdnConfiguration_Validate rtdn))
        then Err (google_failure "notification_config" FailurePermanent None)
        else if String.eqb (TrimSpace bearerToken) EmptyString then Err google_ErrNotificationUnauthorized
        else match google_validateToken bearerToken (rtdn_Audience rtdn) with
        | Err _ => Err google_ErrNotificationUnauthorized
        | Ok claims =>
            if negb (tc_EmailVerified claims)
               || negb (String.eqb (tc_Email claims) (rtdn_PushServiceAccountEmail rtdn))
            then Err google_ErrNotificationUnauthorized
            else decodeNotification application rtdn payload
        end
    end.
End GoogleNotifications.

(** ** App Store server notifications *)

(* internal/stores/apple/notification.go: constants *)
Definition AppleNotificationContentType : string := "application/vnd.iapstack.app-store-server-notification-v2+json".
Definition apple_notificationVersion : string := "2.0".
Definition maximumNotificationIdentifier : Z := 4096.

(* internal/stores/apple/notification.go: NotificationEnvelope *)
Record apple_NotificationEnvelope : Type := mkAppleEnvelope {
  an_NotificationUUID : string;
  an_NotificationType : string;
  an_Subtype : string;
  an_SignedAt : time;
  an_ExternalCustomerID : string;
  an_ProviderProductID : ProviderProductID;
  an_ProductKind : ProductKind;
  an_SignedTransaction : string
}.

(* internal/stores/apple/notification.go: notificationData *)
Record notificationData : Type := mkNotificationData {
  nd_AppAppleID : Z;
  nd_BundleID : string;
  nd_Environment : string;
  nd_SignedTransactionInfo : string;
  nd_SignedRenewalInfo : string;
  nd_Status : Z
}.

(* internal/stores/apple/notification.go: notificationPayload *)
Record notificationPayload : Type := mkNotificationPayload {
  np_NotificationType : string;
  np_Subtype : string;
  np_NotificationUUID : string;
  np_Data : option notificationData;
  np_Version : string;
  np_SignedDate : Z
}.

Definition apple_ErrNotificationInvalid : gerror := Sentinel "apple.ErrNotificationInvalid".

(* internal/stores/apple/notification.go: validNotificationIdentifier *)
Definition validNotificationIdentifier (value : string) : bool :=
  negb (String.eqb value EmptyString || (maximumNotificationIdentifier <? len value)
        || negb (String.eqb (TrimSpace value) value))
  && forallb (fun character => negb ((character <? 32) || (character =? 127))) (runes value).

(* internal/stores/apple/notification.go: NotificationEnvelope.Validate *)
Definition apple_envelope_Validate (notification : apple_NotificationEnvelope) : error :=
  refuse_if (negb (validAppAccountToken (an_NotificationUUID notification))
             || negb (validNotificationIdentifier (an_NotificationType notification))
             || IsZero (an_SignedAt notification))
    (New "app store notification identity is invalid") ;;?
  refuse_if (negb (String.eqb (an_Subtype notification) EmptyString)
             && negb (validNotificationIdentifier (an_Subtype notification)))
    (New "app store notification subtype is invalid") ;;?
  (if String.eqb (an_SignedTransaction notification) EmptyString then
     refuse_if (negb (String.eqb (an_ExternalCustomerID notification) EmptyString)
                || negb (String.eqb (an_ProviderProductID notification) EmptyString)
                || negb (String.eqb (an_ProductKind notification) EmptyString))
       (New "audit-only App Store notification contains purchase data")
   else
     refuse_if (negb (validAppAccountToken (an_ExternalCustomerID notification))
                || String.eqb (an_ProviderProductID notification) EmptyString
                || (negb (String.eqb (an_ProductKind notification) ProductKindSubscription)
                    && negb (String.eqb (an_ProductKind notification) ProductKindNonConsumable)))
       (New "app store notification verification data is invalid") ;;?
     ProviderProductID_Validate (an_ProviderProductID notification)).

(* internal/stores/apple/notification.go: NotificationEnvelope.VerificationEvidence *)
Definition apple_VerificationEvidence (notification : apple_NotificationEnvelope) : result (string * bool) :=
  try* apple_envelope_Validate notification in
  if String.eqb (an_SignedTransaction notification) EmptyString then Ok (EmptyString, false)
  else Ok (json_marshal [("signed_transaction", JStr (an_SignedTransaction notification));
                         ("product_kind", JStr (an_ProductKind notification))]%string, true).

(* internal/stores/apple/notification.go: validateNotificationTransaction *)
Definition validateNotificationTransaction (application : Application) (transaction : transactionPayload) : error :=
  match appleEnvironment (sa_Environment (app_Store application)) with
  | Err _ => Some apple_ErrNotificationInvalid
  | Ok environment =>
      refuse_if (negb (String.eqb (tp_BundleID transaction) (sa_ID (app_Store application)))
                 || negb (String.eqb (tp_Environment transaction) environment)
                 || String.eqb (tp_TransactionID transaction) EmptyString
                 || String.eqb (tp_OriginalTransactionID transaction) EmptyString
                 || String.eqb (tp_ProductID transaction) EmptyString
                 || negb (validAppAccountToken (tp_AppAccountToken transaction)))
        apple_ErrNotificationInvalid
  end.

(* internal/stores/apple/adapter.go: decodeStrict *)
Definition apple_decodeStrict {P} (decoder : string -> result (P * string)) (payload : string) : result P :=
  let* decoded := decoder payload in
  if json_blank (snd decoded) then Ok (fst decoded) else Err (New "unexpected trailing JSON").

(** The strict JSON decoder of the request's one field, and the decoding of the payload. *)
Class AppleNotificationLibrary := {
  DecodeNotificationRequest : string -> result (string * string);
  UnmarshalNotification : string -> option notificationPayload
}.

Section AppleNotifications.
Context `{Lib : AppleLibrary, NotificationLib : AppleNotificationLibrary}.
Context (credentials : Application -> string -> result Credential) (now : time).

(* internal/stores/apple/notification.go: validateNotificationDataScope *)
Definition validateNotificationDataScope (application : Application) (configuration : configuration)
    (data : notificationData) : error :=
  match appleEnvironment (sa_Environment (app_Store application)) with
  | Err _ => Some apple_ErrNotificationInvalid
  | Ok environment =>
      refuse_if (negb (String.eqb (nd_BundleID data) (cfg_bundleID configuration))
                 || negb (String.eqb (nd_Environment data) environment)) apple_ErrNotificationInvalid ;;?
      refuse_if (String.eqb (sa_Environment (app_Store application)) EnvironmentProduction
                 && negb (nd_AppAppleID data =? cfg_appAppleID configuration)) apple_ErrNotificationInvalid ;;?
      refuse_if (negb (nd_Status data =? 0)
                 && ((nd_Status data <? subscriptionStatusActive) || (subscriptionStatusRevoked <? nd_Status data)))
        apple_ErrNotificationInvalid
  end.

(** A check of the renewal, when the data has one. *)
Definition renewal_refused (signed : string) (roots : trustedRoots) (check : renewalPayload -> error) : bool :=
  if String.eqb signed EmptyString then false
  else match verifyRenewalJWS signed roots with
       | Err _ => true
       | Ok renewal => bool_decide (is_Some (check renewal))
       end.

(** The envelope of authenticated data. *)
(* internal/stores/apple/notification.go:102-135: Adapter.ValidateNotification *)
Definition apple_notification_envelope (application : Application) (configuration : configuration)
    (data : notificationData) (envelope : apple_NotificationEnvelope) : result apple_NotificationEnvelope :=
  let invalid := Err apple_ErrNotificationInvalid in
  let validated (e : apple_NotificationEnvelope) :=
    match apple_envelope_Validate e with Some _ => invalid | None => Ok e end in
  let roots := cfg_roots configuration in
  if String.eqb (nd_SignedTransactionInfo data) EmptyString then validated envelope
  else match verifyTransactionJWS (nd_SignedTransactionInfo data) roots with
  | Err _ => invalid
  | Ok transaction =>
      if bool_decide (is_Some (validateNotificationTransaction application transaction)) then invalid
      else match apple_productKind (tp_Type transaction) with
      | Err _ => if renewal_refused (nd_SignedRenewalInfo data) roots (fun _ => None) then invalid else Ok envelope
      | Ok kind =>
          if renewal_refused (nd_SignedRenewalInfo data) roots (validateRenewalScope application transaction)
          then invalid
          else validated (mkAppleEnvelope (an_NotificationUUID envelope) (an_NotificationType envelope)
                 (an_Subtype envelope) (an_SignedAt envelope) (tp_AppAccountToken transaction)
                 (tp_ProductID transaction) kind (nd_SignedTransactionInfo data))
      end
  end.

(* internal/stores/apple/notification.go: Adapter.ValidateNotification *)
Definition apple_ValidateNotification (application : Application) (payload : string)
    : result apple_NotificationEnvelope :=
  let invalid := Err apple_ErrNotificationInvalid in
  if bool_decide (is_Some (Application_Validate application))
     || negb (String.eqb (sa_Provider (app_Store application)) ProviderAppleAppStore)
  then invalid
  else
    let* configuration := apple_configuration credentials application in
    match apple_decodeStrict DecodeNotificationRequest payload with
    | Err _ => invalid
    | Ok signedPayload =>
        if String.eqb signedPayload EmptyString then invalid
        else match verifyAppleJWS UnmarshalNotification signedPayload (cfg_roots configuration) with
        | Err _ => invalid
        | Ok decoded =>
            if negb (String.eqb (np_Version decoded) apple_notificationVersion)
               || negb (validAppAccountToken (np_NotificationUUID decoded))
               || negb (validNotificationIdentifier (np_NotificationType decoded))
               || After (milliseconds (np_SignedDate decoded)) (now + maximumNotificationClockSkew)
            then invalid
            else match np_Data decoded with
            | None => invalid
            | Some data =>
                if bool_decide (is_Some (validateNotificationDataScope application configuration data)) then invalid
                else apple_notification_envelope application configuration data
                       (mkAppleEnvelope (np_NotificationUUID decoded) (np_NotificationType decoded)
                          (np_Subtype decoded) (milliseconds (np_SignedDate decoded))
                          EmptyString EmptyString EmptyString EmptyString)
            end
        end
    end.
End AppleNotifications.

(** ** Huawei callbacks *)

(* internal/stores/huawei/notification.go: constants *)
Definition HuaweiNotificationContentType : string := "application/vnd.iapstack.huawei-notification-v2+json".
Definition huawei_notificationVersion : string := "v2".
Definition orderEventType : string := "ORDER".
Definition subscriptionEventType : string := "SUBSCRIPTION".

(* internal/stores/huawei/notification.go: NotificationEnvelope *)
Record huawei_NotificationEnvelope : Type := mkHuaweiEnvelope {
  hn_Version : string;
  hn_EventType : string;
  hn_NotifyTime : time;
  hn_ApplicationID : ProviderApplicationID;
  hn_NotificationType : Z;
  hn_PurchaseToken : string;
  hn_SubscriptionID : string;
  hn_ProviderProductID : ProviderProductID;
  hn_ProductKind : ProductKind
}.

(* internal/stores/huawei/notification.go: orderNotification *)
Record orderNotification : Type := mkOrderNotification {
  or_Version : string;
  or_NotificationType : Z;
  or_PurchaseToken : string;
  or_ProductID : string
}.

(* internal/stores/huawei/notification.go: subscriptionNotification *)
Record huawei_subscriptionNotification : Type := mkHuaweiSubscription {
  hsn_Version : string;
  hsn_StatusUpdateNotification : string;
  hsn_NotificationSignature : string;
  hsn_SignatureAlgorithm : string
}.

(* internal/stores/huawei/notification.go: notificationRequest *)
Record huawei_notificationRequest : Type := mkHuaweiRequest {
  hr_Version : string;
  hr_EventType : string;
  hr_NotifyTime : Z;
  hr_ApplicationID : string;
  hr_OrderNotification : option orderNotification;
  hr_SubscriptionNotification : option huawei_subscriptionNotification
}.

(* internal/stores/huawei/notification.go: subscriptionStatusUpdate *)
Record subscriptionStatusUpdate : Type := mkStatusUpdate {
  su_NotificationType : Z;
  su_SubscriptionID : string;
  su_PurchaseToken : string;
  su_ProductID : string
}.

(* internal/stores/huawei/notification.go: NotificationEnvelope.RequiresReferenceAuthentication *)
Definition RequiresReferenceAuthentication (envelope : huawei_NotificationEnvelope) : bool :=
  String.eqb (hn_EventType envelope) orderEventType.

Class HuaweiNotificationLibrary := {
  UnmarshalHuaweiNotification : string -> result huawei_notificationRequest;
  UnmarshalStatusUpdate : string -> result subscriptionStatusUpdate
}.

Section HuaweiNotifications.
Context `{Lib : HuaweiLibrary, NotificationLib : HuaweiNotificationLibrary}.
Context (credentials : Application -> string -> result Credential) (allowPrivateNetworks : bool).

Definition blank (s : string) : bool := String.eqb (TrimSpace s) EmptyString.

(* internal/stores/huawei/notification.go:103-113: Adapter.ValidateNotification *)
Definition order_envelope (envelope : huawei_NotificationEnvelope) (request : huawei_notificationRequest)
    : result huawei_NotificationEnvelope :=
  match hr_OrderNotification request, hr_SubscriptionNotification request with
  | Some order, None =>
      if negb (String.eqb (or_Version order) huawei_notificationVersion)
         || (negb (or_NotificationType order =? 1) && negb (or_NotificationType order =? 2))
         || blank (or_PurchaseToken order) || blank (or_ProductID order)
      then Err (huawei_invalid "notification" (New "invalid Huawei order notification"))
      else Ok (mkHuaweiEnvelope (hn_Version envelope) (hn_EventType envelope) (hn_NotifyTime envelope)
                 (hn_ApplicationID envelope) (or_NotificationType order) (or_PurchaseToken order)
                 (hn_SubscriptionID envelope) (or_ProductID order) ProductKindNonConsumable)
  | _, _ => Err (huawei_invalid "notification" (New "invalid Huawei order notification"))
  end.

(** The status update is signed; the order notification is not. *)
(* internal/stores/huawei/notification.go:114-146: Adapter.ValidateNotification *)
Definition subscription_envelope (application : Application) (envelope : huawei_NotificationEnvelope)
    (request : huawei_notificationRequest) : result huawei_NotificationEnvelope :=
  match hr_SubscriptionNotification request, hr_OrderNotification request with
  | Some subscription, None =>
      if negb (String.eqb (hsn_Version subscription) huawei_notificationVersion)
         || blank (hsn_StatusUpdateNotification subscription)
         || blank (hsn_NotificationSignature subscription) || blank (hsn_SignatureAlgorithm subscription)
      then Err (huawei_invalid "notification" (New "invalid Huawei subscription notification"))
      else
        let* configured := huawei_configuration credentials allowPrivateNetworks application in
        match verifySignature (snd configured) (hsn_StatusUpdateNotification subscription)
                (hsn_NotificationSignature subscription) (hsn_SignatureAlgorithm subscription) with
        | Some e => Err (huawei_invalid "notification" e)
        | None =>
            let* update := wrap_result (huawei_invalid "notification")
              (UnmarshalStatusUpdate (hsn_StatusUpdateNotification subscription)) in
            if (su_NotificationType update <=? 0) || blank (su_SubscriptionID update)
               || blank (su_PurchaseToken update) || blank (su_ProductID update)
            then Err (huawei_invalid "notification" (New "invalid Huawei subscription status update"))
            else Ok (mkHuaweiEnvelope (hn_Version envelope) (hn_EventType envelope) (hn_NotifyTime envelope)
                       (hn_ApplicationID envelope) (su_NotificationType update) (su_PurchaseToken update)
                       (su_SubscriptionID update) (su_ProductID update) ProductKindSubscription)
        end
  | _, _ => Err (huawei_invalid "notification" (New "invalid Huawei subscription notification"))
  end.

(* internal/stores/huawei/notification.go: Adapter.ValidateNotification *)
Definition huawei_ValidateNotification (application : Application) (payload : string)
    : result huawei_NotificationEnvelope :=
  let refused (message : string) := Err (huawei_invalid "notification" (New message)) in
  if bool_decide (is_Some (Application_Validate application))
     || negb (String.eqb (sa_Provider (app_Store application)) ProviderHuaweiAppGallery)
  then refused "invalid Huawei application scope"%string
  else
    let* request := wrap_result (huawei_invalid "notification") (UnmarshalHuaweiNotification payload) in
    if negb (String.eqb (hr_Version request) huawei_notificationVersion) || (hr_NotifyTime request <=? 0)
       || negb (String.eqb (hr_ApplicationID request) (sa_ID (app_Store application)))
    then refused "Huawei notification scope or version mismatch"%string
    else if Bool.eqb (bool_decide (hr_OrderNotification request = None))
                     (bool_decide (hr_SubscriptionNotification request = None))
    then refused "Huawei notification must contain exactly one event body"%string
    else
      let envelope := mkHuaweiEnvelope huawei_notificationVersion (hr_EventType request)
        (UnixMilli (hr_NotifyTime request)) (sa_ID (app_Store application)) 0 EmptyString EmptyString
        EmptyString EmptyString in
      let* envelope :=
        (if String.eqb (hr_EventType request) orderEventType then order_envelope envelope request
         else if String.eqb (hr_EventType request) subscriptionEventType
         then subscription_envelope application envelope request
         else refused "unsupported Huawei notification event type"%string) in
      match errors_Join [ProviderProductID_Validate (hn_ProviderProductID envelope);
                         ProductKind_Validate (hn_ProductKind envelope)] with
      | Some e => Err (huawei_invalid "notification" e)
      | None => Ok envelope
      end.
End HuaweiNotifications.

(** ** What an accepted notification is *)

(** The one variant of a developer notification an envelope comes from. *)
Inductive announces (n : developerNotification) (e : google_NotificationEnvelope) : Prop :=
| announces_subscription v :
    dn_Subscription n = Some v -> dn_OneTimeProduct n = None -> dn_VoidedPurchase n = None ->
    dn_PendingRefundReview n = None -> dn_Test n = None ->
    gn_Kind e = NotificationKindSubscription -> gn_PurchaseToken e = sn_PurchaseToken v ->
    gn_NotificationType e = sn_NotificationType v -> gn_ProductKind e = ProductKindSubscription ->
    gn_ProviderProductID e = EmptyString -> announces n e
| announces_one_time v :
    dn_Subscription n = None -> dn_OneTimeProduct n = Some v -> dn_VoidedPurchase n = None ->
    dn_PendingRefundReview n = None -> dn_Test n = None ->
    gn_Kind e = NotificationKindOneTimeProduct -> gn_PurchaseToken e = on_PurchaseToken v ->
    gn_NotificationType e = on_NotificationType v -> gn_ProductKind e = ProductKindNonConsumable ->
    gn_ProviderProductID e = on_SKU v -> announces n e
| announces_voided v :
    dn_Subscription n = None -> dn_OneTimeProduct n = None -> dn_VoidedPurchase n = Some v ->
    dn_PendingRefundReview n = None -> dn_Test n = None ->
    gn_Kind e = NotificationKindVoidedPurchase -> gn_PurchaseToken e = vn_PurchaseToken v ->
    (vn_ProductType v = 1 /\ gn_ProductKind e = ProductKindSubscription \/
     vn_ProductType v = 2 /\ gn_ProductKind e = ProductKindNonConsumable) -> announces n e
| announces_review v :
    dn_Subscription n = None -> dn_OneTimeProduct n = None -> dn_VoidedPurchase n = None ->
    dn_PendingRefundReview n = Some v -> dn_Test n = None ->
    gn_Kind e = NotificationKindPendingRefundReview -> gn_PurchaseToken e = EmptyString -> announces n e
| announces_test v :
    dn_Subscription n = None -> dn_OneTimeProduct n = None -> dn_VoidedPurchase n = None ->
    dn_PendingRefundReview n = None -> dn_Test n = Some v ->
    gn_Kind e = NotificationKindTest -> gn_PurchaseToken e = EmptyString -> announces n e.

(** A variant counts itself when it is present and leaves the state alone when not. *)
Lemma variant_ok {A} (value : option A) refused fill state e n :
  variant value refused fill state = Ok (e, n) <->
  (value = None /\ state = Ok (e, n)) \/
  exists v e0, value = Some v /\ refused v = false /\ fill v e0 = Some e /\ state = Ok (e0, n - 1).
Proof.
  unfold variant. destruct state as [[e0 n0]|x]; cbn [bind_result fst snd]; [|naive_solver].
  destruct value as [v|]; [|naive_solver]. split.
  - intros H. right. exists v, e0. destruct (refused v); [done|]. destruct (fill v e0); [|done].
    injection H as <- <-. by rewrite Z.add_simpl_r.
  - intros [[? ?]|(v' & e' & [= <-] & Hr & Hf & [= <- ->])]; [done|].
    rewrite Hr, Hf. by rewrite Z.sub_add.
Qed.

Lemma normalize_announces n messageID at_ e :
  normalizeDeveloperNotification n (mkGoogleEnvelope messageID EmptyString 0 at_ EmptyString EmptyString EmptyString)
    = Ok e ->
  announces n e /\ gn_MessageID e = messageID /\ gn_EventTime e = at_.
Proof.
  unfold normalizeDeveloperNotification. rewrite bind_result_ok. intros ([e' k] & H & Hk).
  cbn [fst snd] in Hk. destruct (Z.eqb_spec k 1) as [->|]; [|done]. injection Hk as ->.
  apply variant_ok in H as [[Ht H]|(vt & et & Ht & _ & Ft & H)];
  apply variant_ok in H as [[Hr H]|(vr & er & Hr & _ & Fr & H)];
  apply variant_ok in H as [[Hv H]|(vv & ev & Hv & _ & Fv & H)];
  apply variant_ok in H as [[Ho H]|(vo & eo & Ho & _ & Fo & H)];
  apply variant_ok in H as [[Hs H]|(vs & es & Hs & _ & Fs & H)]; injection H as ?; try lia; simplify_eq/=.
  - split; [|done]. by eapply announces_subscription.
  - split; [|done]. by eapply announces_one_time.
  - destruct (Z.eqb_spec (vn_ProductType vv) voidedProductTypeSubscription) as [E1|];
      [|destruct (Z.eqb_spec (vn_ProductType vv) voidedProductTypeOneTime) as [E2|]]; simplify_eq;
      (split; [eapply announces_voided; eauto|done]).
  - split; [|done]. by eapply announces_review.
  - split; [|done]. by eapply announces_test.
Qed.

Lemma unreadable_false name value : unreadable name value = false <-> validateNotificationText name value = None.
Proof. unfold unreadable. rewrite bool_decide_eq_false, <- eq_None_not_Some. done. Qed.

Lemma refused_false (e : error) : bool_decide (is_Some e) = false <-> e = None.
Proof. rewrite bool_decide_eq_false, <- eq_None_not_Some. done. Qed.

Section GoogleLemmas.
Context `{Lib : GoogleLibrary, NotificationLib : GoogleNotificationLibrary}.
Context (credentials : Application -> string -> result Credential) (now : time).

Lemma validateToken_ok token audience claims :
  google_validateToken now token audience = Ok claims ->
  exists payload, ValidateIdToken token audience = Ok payload /\
    (idt_Issuer payload = googleTokenIssuer \/ idt_Issuer payload = googleTokenIssuerAlias) /\
    idt_Subject payload <> EmptyString /\
    0 < idt_IssuedAt payload <= toUnix (now + maximumNotificationTokenClockSkew) /\
    tc_Email claims = default EmptyString (idt_email payload) /\
    tc_EmailVerified claims = default false (idt_email_verified payload).
Proof.
  unfold google_validateToken. rewrite bind_result_ok. intros (payload & Hp & H). exists payload.
  destruct (_ || _) eqn:E; [done|]. injection H as <-. split; [done|].
  repeat rewrite orb_false_iff in E. rewrite andb_false_iff, !negb_false_iff, !String.eqb_eq, String.eqb_neq in E.
  destruct E as [[[? ?] ?] ?]. repeat split; [done|done|lia|lia].
Qed.

Lemma decodeNotification_ok application rtdn payload envelope :
  decodeNotification application rtdn payload = Ok envelope ->
  exists push data notification,
    decodeStrict DecodePush payload = Ok push /\ push_Subscription push = rtdn_Subscription rtdn /\
    StrictStdDecode (ps_Data (push_Message push)) = Some data /\ 0 < len data <= maximumNotificationData /\
    decodeStrict DecodeDeveloper data = Ok notification /\
    dn_PackageName notification = sa_ID (app_Store application) /\
    gn_MessageID envelope = ps_MessageID (push_Message push) /\
    gn_EventTime envelope = UnixMilli (dn_EventTimeMillis notification) /\
    announces notification envelope /\ google_envelope_Validate envelope = None.
Proof.
  unfold decodeNotification. intros H. destruct (decodeStrict DecodePush payload) as [push|] eqn:Ep; [|done].
  case_hyp H as E1. destruct (StrictStdDecode _) as [data|] eqn:Ed; [|done].
  case_hyp H as E2. destruct (decodeStrict DecodeDeveloper data) as [n|] eqn:En; [|done].
  case_hyp H as E3. destruct (normalizeDeveloperNotification n _) as [result_|] eqn:Er; [|done].
  destruct (google_envelope_Validate result_) eqn:Ev; [done|]. injection H as <-.
  apply normalize_announces in Er as (Ha & Hm & Ht). exists push, data, n.
  rewrite !orb_false_iff, negb_false_iff, String.eqb_eq in E1.
  rewrite !orb_false_iff, !negb_false_iff, !String.eqb_eq in E3.
  apply orb_false_iff in E2 as [E2 E2']. pose proof (Zle_0_nat (String.length data)) as Hlen.
  fold (len data) in Hlen. split_and!; try tauto; lia.
Qed.

(** What stands behind an accepted Google Play notification: the configuration, the ID
    token, the push message, its data and the developer notification in it. *)
Record google_accepted (application : Application) (token payload : string) (envelope : google_NotificationEnvelope)
    (rtdn : rtdnConfiguration) (idToken : idtoken_Payload) (push : pubSubPushEnvelope) (data : string)
    (notification : developerNotification) : Prop := {
  ga_configured : exists configuration,
    google_configure credentials application = Ok configuration /\ gcf_rtdn configuration = Some rtdn;
  ga_token : ValidateIdToken token (rtdn_Audience rtdn) = Ok idToken;
  ga_issuer : idt_Issuer idToken = googleTokenIssuer \/ idt_Issuer idToken = googleTokenIssuerAlias;
  ga_issued : 0 < idt_IssuedAt idToken <= toUnix (now + 5 * Minute);
  ga_account : idt_email idToken = Some (rtdn_PushServiceAccountEmail rtdn) /\ idt_email_verified idToken = Some true;
  ga_push : decodeStrict DecodePush payload = Ok push;
  ga_subscription : push_Subscription push = rtdn_Subscription rtdn;
  ga_data : StrictStdDecode (ps_Data (push_Message push)) = Some data;
  ga_notification : decodeStrict DecodeDeveloper data = Ok notification;
  ga_package : dn_PackageName notification = sa_ID (app_Store application);
  ga_variant : announces notification envelope;
  ga_valid : google_envelope_Validate envelope = None;
  ga_evidence :
    (google_VerificationEvidence envelope = Ok (EmptyString, false) /\
       (gn_Kind envelope = NotificationKindTest \/ gn_Kind envelope = NotificationKindPendingRefundReview)) \/
    exists evidence, google_VerificationEvidence envelope = Ok (evidence, true) /\
      gn_PurchaseToken envelope <> EmptyString
}.

(** C14. A Google Play notification is accepted only when Google's verifier accepted
    the bearer token for the configured audience, the token was issued by Google, not
    in the future, to the configured push account with a verified address, and the
    message came over the configured subscription for the application's package.  The
    envelope then is exactly the one variant the message has, is valid, and gives
    evidence for a verification unless it is a test or a refund review. *)
Theorem google_notification_authentic application token payload envelope :
  google_ValidateNotification credentials now application token payload = Ok envelope ->
  exists rtdn idToken push data notification,
    google_accepted application token payload envelope rtdn idToken push data notification.
Proof.
  unfold google_ValidateNotification. intros H. case_hyp H as E0.
  apply bind_result_ok in H as (c & Hc & H). destruct (gcf_rtdn c) as [rtdn|] eqn:Er; [|done].
  case_hyp H as E1. case_hyp H as E2.
  destruct (google_validateToken _ _ _) as [claims|] eqn:Et; [|done]. case_hyp H as E3.
  apply decodeNotification_ok in H as (push & data & n & Hp & Hs & Hd & _ & Hn & Hk & _ & _ & Ha & Hv).
  apply validateToken_ok in Et as (idt & Hi & Hiss & _ & Hat & He & Hev).
  apply refused_false in E1. rewrite orb_false_iff, !negb_false_iff, String.eqb_eq in E3. destruct E3 as [E3 E4].
  exists rtdn, idt, push, data, n. split; try done; [by exists c| |].
  - split; [|rewrite Hev in E3; by destruct (idt_email_verified idt) as [[]|]].
    rewrite He in E4. destruct (idt_email idt) as [m|]; simpl in E4; [by rewrite E4|].
    exfalso. unfold rtdnConfiguration_Validate, validateNotificationText in E1. rewrite <- E4 in E1.
    rewrite !seq_err_nil in E1. cbn in E1. destruct_and?; done.
  - unfold google_VerificationEvidence. rewrite Hv. cbn [try_err].
    destruct (String.eqb (gn_Kind envelope) NotificationKindTest
              || String.eqb (gn_Kind envelope) NotificationKindPendingRefundReview) eqn:Ek.
    + left. split; [done|]. by apply orb_true_iff in Ek as [->%String.eqb_eq| ->%String.eqb_eq]; [left|right].
    + right. eexists. split; [done|]. intros Hnil. unfold google_envelope_Validate in Hv. rewrite Hnil in Hv.
      apply orb_false_iff in Ek as [Ek1 Ek2]. rewrite Ek1, Ek2 in Hv. rewrite !seq_err_nil in Hv.
      cbn in Hv. destruct Hv as (_ & _ & Hv & _).
      repeat match type of Hv with context [if ?b then _ else _] => destruct b end; done.
Qed.
End GoogleLemmas.

Section AppleLemmas.
Context `{Lib : AppleLibrary, NotificationLib : AppleNotificationLibrary}.
Context (credentials : Application -> string -> result Credential) (now : time).

(** The scope a signed transaction must have to be handed to the worker. *)
Record notified_transaction (application : Application) (transaction : transactionPayload) : Prop := {
  nt_bundle : tp_BundleID transaction = sa_ID (app_Store application);
  nt_environment : appleEnvironment (sa_Environment (app_Store application)) = Ok (tp_Environment transaction);
  nt_transaction : tp_TransactionID transaction <> EmptyString;
  nt_product : tp_ProductID transaction <> EmptyString;
  nt_token : validAppAccountToken (tp_AppAccountToken transaction) = true
}.

Lemma validateNotificationTransaction_ok application transaction :
  validateNotificationTransaction application transaction = None ->
  notified_transaction application transaction.
Proof.
  unfold validateNotificationTransaction. destruct (appleEnvironment _) as [environment|] eqn:E; [|done].
  rewrite refuse_if_nil, !orb_false_iff, !negb_false_iff, !String.eqb_eq, !String.eqb_neq.
  intros (((((Hb & <-) & Ht) & Ho) & Hp) & Hv). by constructor.
Qed.

(** The two kinds of envelope authenticated data gives. *)
Definition apple_enveloped (application : Application) (roots : trustedRoots) (data : notificationData)
    (envelope : apple_NotificationEnvelope) : Prop :=
  (an_SignedTransaction envelope = EmptyString /\ an_ExternalCustomerID envelope = EmptyString /\
   an_ProviderProductID envelope = EmptyString) \/
  exists transaction,
    verifyTransactionJWS (an_SignedTransaction envelope) roots = Ok transaction /\
    notified_transaction application transaction /\
    apple_productKind (tp_Type transaction) = Ok (an_ProductKind envelope) /\
    an_ExternalCustomerID envelope = tp_AppAccountToken transaction /\
    an_ProviderProductID envelope = tp_ProductID transaction /\
    apple_envelope_Validate envelope = None /\
    (nd_SignedRenewalInfo data <> EmptyString -> exists renewal,
       verifyRenewalJWS (nd_SignedRenewalInfo data) roots = Ok renewal /\
       validateRenewalScope application transaction renewal = None).

Lemma envelope_ok application configuration data uuid type subtype at_ envelope :
  apple_notification_envelope application configuration data
    (mkAppleEnvelope uuid type subtype at_ EmptyString EmptyString EmptyString EmptyString) = Ok envelope ->
  an_NotificationUUID envelope = uuid /\ apple_enveloped application (cfg_roots configuration) data envelope.
Proof.
  unfold apple_notification_envelope. intros H. case_hyp H as E1.
  { destruct (apple_envelope_Validate _); [done|]. injection H as <-. split; [done|]. by left. }
  destruct (verifyTransactionJWS _ _) as [transaction|] eqn:Et; [|done]. case_hyp H as E2.
  apply refused_false, validateNotificationTransaction_ok in E2.
  destruct (apple_productKind _) as [kind|] eqn:Ek.
  - case_hyp H as E3. destruct (apple_envelope_Validate _) eqn:Ev; [done|]. injection H as <-.
    split; [done|]. right. exists transaction. split_and!; try done. intros Hr.
    unfold renewal_refused in E3. rewrite (proj2 (String.eqb_neq _ _) Hr) in E3.
    destruct (verifyRenewalJWS _ _) as [renewal|]; [|done]. apply refused_false in E3. by exists renewal.
  - case_hyp H as E3. injection H as <-. split; [done|]. by left.
Qed.

(** What stands behind an accepted App Store notification: the configuration, the
    signed payload, what it says, and its data. *)
Record apple_accepted (application : Application) (payload : string) (envelope : apple_NotificationEnvelope)
    (configuration : configuration) (signed : string) (decoded : notificationPayload) (data : notificationData)
    : Prop := {
  aa_configured : apple_configuration credentials application = Ok configuration;
  aa_request : apple_decodeStrict DecodeNotificationRequest payload = Ok signed;
  aa_signed : verifyAppleJWS UnmarshalNotification signed (cfg_roots configuration) = Ok decoded;
  aa_version : np_Version decoded = apple_notificationVersion;
  aa_date : milliseconds (np_SignedDate decoded) <= now + 5 * Minute;
  aa_data : np_Data decoded = Some data;
  aa_bundle : nd_BundleID data = cfg_bundleID configuration;
  aa_environment : appleEnvironment (sa_Environment (app_Store application)) = Ok (nd_Environment data);
  aa_app : sa_Environment (app_Store application) = EnvironmentProduction ->
           nd_AppAppleID data = cfg_appAppleID configuration;
  aa_uuid : an_NotificationUUID envelope = np_NotificationUUID decoded;
  aa_enveloped : apple_enveloped application (cfg_roots configuration) data envelope
}.

(** An App Store notification is accepted only when its payload carries Apple's
    signature under the application's trusted roots, in the supported version, not
    signed later than five minutes from now, for the configured bundle and
    environment.  An envelope that starts a verification names the customer and the
    product of a transaction that is itself signed by Apple for this application,
    whose renewal data, if any, is signed and agrees with it; any other envelope has
    no purchase data. *)
Theorem apple_notification_authentic application payload envelope :
  apple_ValidateNotification credentials now application payload = Ok envelope ->
  exists configuration signed decoded data,
    apple_accepted application payload envelope configuration signed decoded data.
Proof.
  unfold apple_ValidateNotification. intros H. case_hyp H as E0.
  apply bind_result_ok in H as (c & Hc & H).
  destruct (apple_decodeStrict DecodeNotificationRequest payload) as [signed|] eqn:Es; [|done]. case_hyp H as E1.
  destruct (verifyAppleJWS _ _ _) as [decoded|] eqn:Ev; [|done]. case_hyp H as E2.
  destruct (np_Data decoded) as [data|] eqn:Ed; [|done]. case_hyp H as E3. apply refused_false in E3.
  rewrite !orb_false_iff, !negb_false_iff, String.eqb_eq in E2. destruct E2 as (((Hver & Huuid) & _) & Hat).
  unfold validateNotificationDataScope in E3.
  destruct (appleEnvironment _) as [environment|] eqn:Ee; [|done].
  rewrite !seq_err_nil, !refuse_if_nil, orb_false_iff, !negb_false_iff, !String.eqb_eq in E3.
  destruct E3 as ((Hb & He) & Happ & _).
  exists c, signed, decoded, data. split; try done.
  - unfold After in Hat. apply Z.ltb_ge in Hat. exact Hat.
  - by rewrite He, Ee.
  - intros Hprod. rewrite Hprod in Happ. cbn in Happ. by apply negb_false_iff, Z.eqb_eq in Happ.
  - by apply envelope_ok in H as [].
  - by apply envelope_ok in H as [].
Qed.
End AppleLemmas.

Section HuaweiLemmas.
Context `{Lib : HuaweiLibrary, NotificationLib : HuaweiNotificationLibrary}.
Context (credentials : Application -> string -> result Credential) (allowPrivateNetworks : bool).

(** A Huawei callback is accepted only for the application's own identity.  A
    subscription callback is exactly the status update whose detached signature
    verifies under the application's public key; an order callback is unsigned, names
    a non-consumable, and is the only one that must prove a token verified before. *)
Theorem huawei_notification_signed application payload envelope :
  huawei_ValidateNotification credentials allowPrivateNetworks application payload = Ok envelope ->
  hn_ApplicationID envelope = sa_ID (app_Store application) /\
  blank (hn_PurchaseToken envelope) = false /\
  ProviderProductID_Validate (hn_ProviderProductID envelope) = None /\
  exists request, UnmarshalHuaweiNotification payload = Ok request /\
    hr_ApplicationID request = sa_ID (app_Store application) /\
    ((RequiresReferenceAuthentication envelope = true /\
      hn_ProductKind envelope = ProductKindNonConsumable /\ hn_SubscriptionID envelope = EmptyString /\
      exists order, hr_OrderNotification request = Some order /\
        hn_PurchaseToken envelope = or_PurchaseToken order /\ hn_ProviderProductID envelope = or_ProductID order) \/
     (RequiresReferenceAuthentication envelope = false /\
      hn_ProductKind envelope = ProductKindSubscription /\
      exists configured subscription update,
        huawei_configuration credentials allowPrivateNetworks application = Ok configured /\
        hr_SubscriptionNotification request = Some subscription /\
        verifySignature (snd configured) (hsn_StatusUpdateNotification subscription)
          (hsn_NotificationSignature subscription) (hsn_SignatureAlgorithm subscription) = None /\
        UnmarshalStatusUpdate (hsn_StatusUpdateNotification subscription) = Ok update /\
        hn_PurchaseToken envelope = su_PurchaseToken update /\
        hn_SubscriptionID envelope = su_SubscriptionID update /\
        blank (su_SubscriptionID update) = false /\
        hn_ProviderProductID envelope = su_ProductID update)).
Proof.
  unfold huawei_ValidateNotification. intros H. case_hyp H as E0.
  apply bind_result_ok in H as (request & Hr & H). apply wrap_result_ok in Hr.
  case_hyp H as E1. case_hyp H as E2. apply bind_result_ok in H as (e & He & H).
  destruct (errors_Join _) eqn:Ej; [done|]. injection H as ->.
  rewrite errors_Join_nil, !Forall_cons in Ej. destruct Ej as (Hp & _).
  rewrite !orb_false_iff, !negb_false_iff, !String.eqb_eq in E1. destruct E1 as [_ Happ].
  destruct (String.eqb_spec (hr_EventType request) orderEventType) as [Eo|_];
    [|destruct (String.eqb_spec (hr_EventType request) subscriptionEventType) as [Es|_]; [|done]].
  - unfold order_envelope in He. destruct (hr_OrderNotification request) as [order|] eqn:Er; [|done].
    destruct (hr_SubscriptionNotification request); [done|]. case_hyp He as E3. injection He as <-.
    rewrite !orb_false_iff in E3. destruct E3 as [[_ Hb] _].
    split_and!; [done..|]. exists request. split_and!; [done..|]. left.
    unfold RequiresReferenceAuthentication. cbn. rewrite Eo. split_and!; [done..|]. by exists order.
  - unfold subscription_envelope in He. destruct (hr_SubscriptionNotification request) as [sub|] eqn:Er; [|done].
    destruct (hr_OrderNotification request); [done|]. case_hyp He as E3.
    apply bind_result_ok in He as (configured & Hc & He). destruct (verifySignature _ _ _ _) eqn:Ev; [done|].
    apply bind_result_ok in He as (update & Hu & He). apply wrap_result_ok in Hu. case_hyp He as E4.
    injection He as <-. rewrite !orb_false_iff in E4. destruct E4 as [[[_ Hs] Ht] _].
    split_and!; [done..|]. exists request. split_and!; [done..|]. right.
    unfold RequiresReferenceAuthentication. cbn. rewrite Es. split_and!; [done..|].
    by exists configured, sub, update.
Qed.
End HuaweiLemmas.

(** ** Witnesses *)

Definition sample_push : pubSubPushEnvelope :=
  mkPushEnvelope (mkPubSubMessage "e30=" "message-1") "projects/p1/subscriptions/s1".
Definition sample_google_notifications : GoogleNotificationLibrary := {|
  DecodePush := fun _ => Ok (sample_push, EmptyString);
  StrictStdDecode := fun _ => Some "{}"%string;
  DecodeDeveloper := fun _ => Ok (mkDeveloperNotification "1.0" (sa_ID (app_Store sample_application))
    1699999999000 (Some (mkGoogleSubscriptionNotification "1.0" 4 "token-1")) None None None None, EmptyString);
  ValidateIdToken := fun _ _ => Ok (mkIdToken googleTokenIssuer "subject" 1699999999
    (Some "push@example.com"%string) (Some true))
|}.
Definition sample_google_notification : result google_NotificationEnvelope :=
  @google_ValidateNotification sample_google_library sample_google_notifications google_sample_credentials
    (google_sample_clock 0) sample_application "bearer" "{push}".

Lemma google_notification_authentic_witness :
  exists envelope evidence, sample_google_notification = Ok envelope /\
    google_VerificationEvidence envelope = Ok (evidence, true).
Proof.
  destruct sample_google_notification as [envelope|e] eqn:E; [|vm_compute in E; discriminate].
  pose proof E as E'. vm_compute in E'. injection E' as Ee.
  destruct (@google_notification_authentic sample_google_library sample_google_notifications
    google_sample_credentials (google_sample_clock 0) sample_application "bearer" "{push}" envelope E)
    as (rtdn & idToken & push & data & n & H).
  destruct (ga_evidence _ _ _ _ _ _ _ _ _ _ _ H) as [[_ [Hk|Hk]]|[evidence [Hev _]]];
    [rewrite <- Ee in Hk; discriminate Hk..|].
  exists envelope, evidence. split; [reflexivity|exact Hev].
Defined.

(** The subtype of a notification is [subtype]; its transaction is "txn-1". *)
Definition sample_apple_notifications (subtype : string) : AppleNotificationLibrary := {|
  DecodeNotificationRequest := fun payload => Ok (payload, EmptyString);
  UnmarshalNotification := fun _ => Some (mkNotificationPayload "DID_RENEW" subtype
    "0a1b2c3d-0000-4000-8000-00000000beef"
    (Some (mkNotificationData 77 "com.example.app" "Production" "h.txn-1.s" "h.renewal.s" 1)) "2.0" 1700000000000)
|}.
Definition sample_apple_notification : result apple_NotificationEnvelope :=
  @apple_ValidateNotification sample_library (sample_apple_notifications EmptyString) sample_credentials sample_now
    sample_apple_application "h.notification.s".

Lemma apple_notification_authentic_witness :
  exists envelope c d, sample_apple_notification = Ok envelope /\
    an_SignedTransaction envelope = "h.txn-1.s"%string /\
    @apple_enveloped sample_library sample_apple_application c d envelope.
Proof.
  destruct sample_apple_notification as [envelope|e] eqn:E; [|vm_compute in E; discriminate].
  pose proof E as E'. vm_compute in E'. injection E' as Ee.
  destruct (@apple_notification_authentic sample_library (sample_apple_notifications EmptyString)
    sample_credentials sample_now sample_apple_application "h.notification.s" envelope E)
    as (c & signed & decoded & d & H).
  exists envelope, (cfg_roots c), d. split; [reflexivity|]. split; [rewrite <- Ee; reflexivity|].
  exact (aa_enveloped _ _ _ _ _ _ _ _ _ H).
Defined.

(** A consumable is not supported: the signed data is accepted as an audit record
    whose subtype nothing checked. *)
Definition sample_consumable_library : AppleLibrary := {|
  Certificate := string; CertPool := unit; PublicKey := unit;
  UnicodeLower := fun s => s;
  RawURLDecode := @RawURLDecode sample_library;
  StdDecode := fun s => Some s;
  UnmarshalHeader := fun _ => Some ("ES256"%string, ["leaf"; "wwdr"; "root"]%string);
  UnmarshalSignedDate := fun _ => Some 1700000000000;
  UnmarshalTransaction := fun s => Some (mkTransaction "orig-1" s EmptyString "com.example.app" "coins"
    1699000000000 0 1 None EmptyString "Consumable" sample_token_uuid applePurchasedOwnership 1700000000000
    None 0 false "Production");
  UnmarshalRenewal := fun _ => None;
  UnmarshalTransactionInfo := fun _ => None;
  UnmarshalStatus := fun _ => None;
  DecodeClientEvidence := @DecodeClientEvidence sample_library;
  DecodeCredential := @DecodeCredential sample_library;
  parsePrivateKey := fun _ => None;
  parseTrustedRoots := fun _ => Ok (tt, {[ Sum256 "root" ]});
  ParseCertificate := fun s => Some s;
  cert_Raw := fun c => c;
  cert_Extensions := fun _ => [appleWWDRIntermediateOID; appleAppStoreLeafOID];
  VerifyChain := fun _ _ _ _ => None;
  P256Key := fun _ => Some tt;
  ecdsa_Verify := fun _ _ _ _ => true
|}.
Definition sample_padded_notification : AppleNotificationLibrary := {|
  DecodeNotificationRequest := fun payload => Ok (payload, EmptyString);
  UnmarshalNotification := fun _ => Some (mkNotificationPayload "ONE_TIME_CHARGE" " padded"
    "0a1b2c3d-0000-4000-8000-00000000beef"
    (Some (mkNotificationData 77 "com.example.app" "Production" "h.txn-1.s" EmptyString 0)) "2.0" 1700000000000)
|}.

Example apple_audit_unvalidated :
  match @apple_ValidateNotification sample_consumable_library sample_padded_notification sample_credentials
          sample_now sample_apple_application "h.notification.s" with
  | Ok envelope => apple_envelope_Validate envelope <> None /\ an_SignedTransaction envelope = EmptyString
  | Err _ => False
  end.
Proof. vm_compute. split; [discriminate|reflexivity]. Qed.

Definition sample_huawei_notifications : HuaweiNotificationLibrary := {|
  UnmarshalHuaweiNotification := fun _ => Ok (mkHuaweiRequest "v2" subscriptionEventType 1700000000000 "app-102"
    None (Some (mkHuaweiSubscription "v2" "{update}" "sig" "SHA256WithRSA")));
  UnmarshalStatusUpdate := fun _ => Ok (mkStatusUpdate 2 "sub-1" "token/1" "premium")
|}.
Definition sample_huawei_notification : result huawei_NotificationEnvelope :=
  @huawei_ValidateNotification sample_huawei_library sample_huawei_notifications huawei_sample_credentials false
    huawei_application "{callback}".

Lemma huawei_notification_signed_witness :
  exists envelope, sample_huawei_notification = Ok envelope /\
    hn_ApplicationID envelope = "app-102"%string /\ blank (hn_PurchaseToken envelope) = false.
Proof.
  destruct sample_huawei_notification as [envelope|e] eqn:E; [|vm_compute in E; discriminate].
  destruct (@huawei_notification_signed sample_huawei_library sample_huawei_notifications
    huawei_sample_credentials false huawei_application "{callback}" envelope E) as (Ha & Ht & _).
  exists envelope. split; [reflexivity|]. split; [exact Ha|exact Ht].
Defined.
