(* ===== verification/Webhooks.v ===== *)
(** Application webhooks ([internal/webhooks/service.go]): configuring the
    protected signing secret and delivering one signed outbox message.

    [Configure] runs on the control-plane store.  [Deliver] reads the endpoint,
    opens the secret and sends one request: the store, the protection service,
    the clock, [http.NewRequest] and the HTTP client are its parameters.  Erasing
    the secret afterwards does not change what was computed. *)

From S2P Require Import Prelude GoText GoTime GoHttp Sha256 Core Purchase Protection Persistence Stores Network Repository Projector EntitlementStore Runner Refresh Verification.
From stdpp Require Import base list strings gmap.
Local Open Scope Z_scope.

(** ** Constants and data *)

(* internal/webhooks/service.go: constants *)
Definition signingSecretPurpose : string := "webhook_signing_secret".
Definition minimumSigningSecretBytes : Z := 32.
Definition maximumResponseBytes : Z := 64 * 2 ^ 10.
Definition signatureVersion : string := "v2".
Definition signatureMACSeparator : string := of_bytes [10].

(* internal/webhooks/service.go: DeliveryError *)
Record DeliveryError : Type := mkDeliveryError {
  de_Code : string;
  de_CanRetry : bool
}.

(** The methods take a pointer: a nil one has defaults. *)
(* internal/webhooks/service.go: DeliveryError.Error *)
Definition DeliveryError_Error (failure : option DeliveryError) : string :=
  match failure with
  | None => "webhook delivery failed"
  | Some f => if String.eqb (de_Code f) EmptyString then "webhook delivery failed" else de_Code f
  end.

(* internal/webhooks/service.go: DeliveryError.Retryable *)
Definition DeliveryError_Retryable (failure : option DeliveryError) : bool :=
  match failure with None => false | Some f => de_CanRetry f end.

(* internal/webhooks/service.go: DeliveryError.CodeValue *)
Definition DeliveryError_CodeValue (failure : option DeliveryError) : string :=
  match failure with
  | None => "webhook_delivery_failed"
  | Some f => if String.eqb (de_Code f) EmptyString then "webhook_delivery_failed" else de_Code f
  end.

(* internal/persistence/contracts.go: WebhookEndpointWrite *)
Record WebhookEndpointWrite : Type := mkEndpointWrite {
  ww_ProjectID : ProjectID;
  ww_ApplicationID : ApplicationID;
  ww_URL : string;
  ww_Secret : ProtectedValue;
  ww_ExpectedRevision : Z
}.

(* internal/persistence/contracts.go: WebhookEndpointRecord *)
Record WebhookEndpointRecord : Type := mkEndpointRecord {
  we_ProjectID : ProjectID;
  we_ApplicationID : ApplicationID;
  we_URL : string;
  we_Secret : ProtectedValue;
  we_Revision : Z;
  we_CreatedAt : time;
  we_UpdatedAt : time
}.

(** One webhook request with the headers the service sets. *)
Record webhook_request : Type := mkWebhookRequest {
  wq_Method : string;
  wq_URL : string;
  wq_ContentType : string;
  wq_EventID : string;
  wq_Timestamp : string;
  wq_Signature : string;
  wq_Body : string
}.

(** What the application answered: a status, and a body that gives some bytes and
    then ends or fails. *)
Record webhook_response : Type := mkWebhookResponse {
  wr_StatusCode : Z;
  wr_Body : string;
  wr_ReadFails : bool
}.

(** [io.Copy(io.Discard, io.LimitReader(body, limit))]: the bytes read, unless
    reading fails before the limit. *)
Definition discard (response : webhook_response) (limit : Z) : option Z :=
  if wr_ReadFails response && (len (wr_Body response) <? limit) then None
  else Some (Z.min (len (wr_Body response)) limit).

(** ** Signing *)

(** What is written to the MAC. *)
(* internal/webhooks/service.go: writeSignatureMAC *)
Definition writeSignatureMAC (eventID : string) (timestamp : time) (body : string) : string :=
  (signatureVersion ++ signatureMACSeparator ++ eventID ++ signatureMACSeparator
   ++ FormatInt (toUnix timestamp) ++ signatureMACSeparator ++ body)%string.

(* internal/webhooks/service.go: Sign *)
Definition Sign (secret eventID : string) (timestamp : time) (body : string) : string :=
  EncodeToString (HmacSha256 secret (writeSignatureMAC eventID timestamp body)).

(* internal/webhooks/service.go: webhookScope *)
Definition webhookScope (application : Application) : Scope :=
  mkScope (app_ProjectID application) (app_ID application) signingSecretPurpose.

(** ** Configuration *)

(** The control-plane calls the service uses. *)
(* internal/persistence/contracts.go: OperationsRepository *)
Class WebhookRepository (S : Type) := {
  PutWebhookEndpoint : WebhookEndpointWrite -> Tx S WebhookEndpointRecord;
  WebhookEndpoint : ProjectID -> ApplicationID -> Tx S WebhookEndpointRecord
}.

Section Configuration.
Context {S : Type} `{Catalog : !CatalogRepository S, Webhooks : !WebhookRepository S, Operations : !Store S}.
Context (protector : option (Request -> result ProtectedValue)).
Context (ParseRequestURI : string -> option request_uri) (ParseAddr : string -> option Addr).
Context (allowPrivateNetworks : bool).

(** Fail as invalid input. *)
Definition invalid_input {A} (e : gerror) : Tx S A :=
  tx_err (default e (validation_Wrap (Some e))).

(** [store.Operate] is the transaction numbered [n]. *)
(* internal/webhooks/service.go: Service.Configure *)
Definition Configure (n : nat) (application : Application) (url secret : string) (expectedRevision : Z)
    : Tx S WebhookEndpointRecord :=
  match Application_Validate application with
  | Some e => invalid_input e
  | None =>
  if expectedRevision <? 0 then invalid_input (New "webhook expected revision must not be negative")
  else match validateWebhookDestination ParseRequestURI ParseAddr url allowPrivateNetworks with
  | Some e => invalid_input e
  | None =>
  if len secret <? minimumSigningSecretBytes
  then invalid_input (New "webhook signing secret must contain at least 32 bytes")
  else match Protect protector (webhookScope application) secret with
  | Err e => tx_err (Wrapf "protect webhook secret: %w" [] e)
  | Ok protected =>
      let write := mkEndpointWrite (app_ProjectID application) (app_ID application) url protected
                     expectedRevision in
      tx_catch (Wrapf "configure webhook: %w" [])
        (StoreTransact n
           (do authoritative <- Application_ (app_ProjectID application) (app_ID application);
            if negb (bool_decide (authoritative = application)) then tx_err ErrConflict
            else PutWebhookEndpoint write))
  end end end.
End Configuration.

(** ** Delivery *)

Section Delivery.
Context (endpointOf : ProjectID -> ApplicationID -> result WebhookEndpointRecord).
Context (Open : OpenRequest -> result string).
Context (clock : time).
Context (NewRequest_ok : string -> bool).
Context (Do : webhook_request -> option webhook_response).
Context (ParseRequestURI : string -> option request_uri) (ParseAddr : string -> option Addr).
Context (allowPrivateNetworks : bool).

Definition webhook_signed (endpoint : WebhookEndpointRecord) (secret : string) (message : QueueMessage)
    : webhook_request :=
  let timestamp := Truncate clock Second in
  mkWebhookRequest "POST" (we_URL endpoint) "application/json" (qm_ID message)
    (FormatInt (toUnix timestamp))
    (signatureVersion ++ "=" ++ Sign secret (qm_ID message) timestamp (qm_JSONPayload message))
    (qm_JSONPayload message).

(* internal/webhooks/service.go:183-197: Service.Deliver *)
Definition delivery_outcome (response : webhook_response) : option DeliveryError :=
  let status := wr_StatusCode response in
  match discard response (maximumResponseBytes + 1) with
  | None => Some (mkDeliveryError "webhook_response_error" true)
  | Some responseBytes =>
      if (200 <=? status) && (status <? 300) then
        if maximumResponseBytes <? responseBytes
        then Some (mkDeliveryError "webhook_response_too_large" false) else None
      else if (status =? 408) || (status =? 429) || (500 <=? status)
      then Some (mkDeliveryError "webhook_retryable_status" true)
      else Some (mkDeliveryError "webhook_rejected" false)
  end.

(** The failure, and the request sent, if any. *)
(* internal/webhooks/service.go: Service.Deliver *)
Definition Deliver (message : QueueMessage) : option DeliveryError * option webhook_request :=
  let refuse code retry : option DeliveryError * option webhook_request :=
    (Some (mkDeliveryError code retry), None) in
  if negb (String.eqb (qm_Queue message) QueueOutbox) || String.eqb (qm_ID message) EmptyString
     || (len (qm_JSONPayload message) =? 0)
  then refuse "invalid_outbox_message"%string false
  else match endpointOf (qm_ProjectID message) (qm_ApplicationID message) with
  | Err e => if errors_Is e "persistence.ErrNotFound" then refuse "webhook_not_configured"%string false
             else refuse "webhook_endpoint_unavailable"%string true
  | Ok endpoint =>
  match validateWebhookDestination ParseRequestURI ParseAddr (we_URL endpoint) allowPrivateNetworks with
  | Some _ => refuse "webhook_destination_invalid"%string false
  | None =>
  match NewOpenRequest (mkScope (we_ProjectID endpoint) (we_ApplicationID endpoint) signingSecretPurpose)
          (we_Secret endpoint) with
  | Err _ => refuse "webhook_secret_invalid"%string false
  | Ok openRequest =>
  match Open openRequest with
  | Err e => if errors_Is e "protection.ErrOpenFailed" then refuse "webhook_secret_invalid"%string false
             else refuse "webhook_secret_unavailable"%string true
  | Ok secret =>
      if negb (NewRequest_ok (we_URL endpoint)) then refuse "webhook_request_invalid"%string false
      else
        let request := webhook_signed endpoint secret message in
        match Do request with
        | None => (Some (mkDeliveryError "webhook_transport_error" true), Some request)
        | Some response => (delivery_outcome response, Some request)
        end
  end end end end.
End Delivery.

(** ** Properties *)

(** A configured endpoint: the transaction committed one write of a protected
    secret, and only for the stored application. *)
Lemma configure_ok {S : Type} `{Catalog : !CatalogRepository S, Webhooks : !WebhookRepository S, Operations : !Store S}
    protector parse addr private n application url secret revision s record s' :
  Configure protector parse addr private n application url secret revision s = (Ok record, s') ->
  exists protected s1, minimumSigningSecretBytes <= len secret /\ 0 <= revision /\
    validateWebhookDestination parse addr url private = None /\
    Protect protector (webhookScope application) secret = Ok protected /\
    Application_ (app_ProjectID application) (app_ID application) s = (Ok application, s1) /\
    PutWebhookEndpoint (mkEndpointWrite (app_ProjectID application) (app_ID application) url protected revision) s1
    = (Ok record, s').
Proof.
  unfold Configure, invalid_input, tx_err. destruct (Application_Validate application); [done|].
  destruct (Z.ltb_spec revision 0); [done|]. destruct (validateWebhookDestination _ _ _ _) eqn:Hd; [done|].
  destruct (Z.ltb_spec (len secret) minimumSigningSecretBytes); [done|].
  destruct (Protect _ _ _) as [protected|e] eqn:Hp; [|done].
  rewrite tx_catch_ok. intros Hcommit%store_commits. apply tx_bind_ok in Hcommit as (authoritative & s1 & Ha & Hput).
  destruct (bool_decide_reflect (authoritative = application)) as [->|]; [|done].
  exists protected, s1. cbn [negb] in Hput. split_and!; done.
Qed.

(** Whatever fails leaves the store unchanged. *)
Lemma configure_err {S : Type} `{Catalog : !CatalogRepository S, Webhooks : !WebhookRepository S, Operations : !Store S}
    protector parse addr private n application url secret revision s e s' :
  Configure protector parse addr private n application url secret revision s = (Err e, s') -> s' = s.
Proof.
  unfold Configure, invalid_input, tx_err. destruct (Application_Validate application); [by intros [= _ <-]|].
  destruct (Z.ltb_spec revision 0); [by intros [= _ <-]|].
  destruct (validateWebhookDestination _ _ _ _); [by intros [= _ <-]|].
  destruct (Z.ltb_spec (len secret) minimumSigningSecretBytes); [by intros [= _ <-]|].
  destruct (Protect _ _ _) as [protected|x]; [|by intros [= _ <-]]. unfold tx_catch.
  destruct (StoreTransact _ _ s) as [[a|x] s1] eqn:E; [done|]. intros [= _ <-]. by eapply store_rolls_back.
Qed.

Lemma Deliver_request endpointOf Open clock NewRequest_ok Do parse addr private message outcome request :
  Deliver endpointOf Open clock NewRequest_ok Do parse addr private message = (outcome, Some request) ->
  exists endpoint secret,
    endpointOf (qm_ProjectID message) (qm_ApplicationID message) = Ok endpoint /\
    validateWebhookDestination parse addr (we_URL endpoint) private = None /\
    Open (mkOpenRequest (mkScope (we_ProjectID endpoint) (we_ApplicationID endpoint) signingSecretPurpose)
            (we_Secret endpoint)) = Ok secret /\
    request = webhook_signed clock endpoint secret message /\
    outcome = match Do request with
              | None => Some (mkDeliveryError "webhook_transport_error" true)
              | Some response => delivery_outcome response
              end.
Proof.
  unfold Deliver. destruct (_ || _); [done|]. destruct (endpointOf _ _) as [endpoint|e]; [|by destruct (errors_Is _ _)].
  destruct (validateWebhookDestination _ _ _ _) eqn:Hd; [done|]. unfold NewOpenRequest.
  destruct (OpenRequest_Validate _); cbn [try_err]; [done|].
  destruct (Open _) as [secret|e] eqn:Ho; [|by destruct (errors_Is _ _)].
  destruct (negb _); [done|]. exists endpoint, secret.
  destruct (Do (webhook_signed clock endpoint secret message)) eqn:E;
    injection H as <- <-; rewrite E; auto.
Qed.

Section Outcomes.
Context (endpointOf : ProjectID -> ApplicationID -> result WebhookEndpointRecord).
Context (Open : OpenRequest -> result string) (clock : time) (NewRequest_ok : string -> bool).
Context (Do : webhook_request -> option webhook_response).
Context (parse : string -> option request_uri) (addr : string -> option Addr) (private : bool).

(** The application answered with success and a bounded body. *)
Definition delivered (response : webhook_response) : Prop :=
  200 <= wr_StatusCode response < 300 /\ len (wr_Body response) <= maximumResponseBytes /\
  wr_ReadFails response = false.

(** The application asked to be called again, or its answer broke off. *)
Definition asks_retry (response : webhook_response) : Prop :=
  (wr_ReadFails response = true /\ len (wr_Body response) <= maximumResponseBytes) \/
  wr_StatusCode response = 408 \/ wr_StatusCode response = 429 \/ 500 <= wr_StatusCode response.

Lemma delivery_outcome_cases response :
  (delivery_outcome response = None <-> delivered response) /\
  (forall f, delivery_outcome response = Some f -> de_CanRetry f = true <-> asks_retry response).
Proof.
  unfold delivery_outcome, discard, delivered, asks_retry, maximumResponseBytes.
  change (64 * 2 ^ 10) with 65536. destruct response as [status content fails].
  cbn [wr_StatusCode wr_Body wr_ReadFails]. set (n := len content).
  destruct fails; cbn [andb].
  - destruct (Z.ltb_spec n (65536 + 1)).
    { split; [split; [done|lia]|]. intros f [= <-]. cbn. split; [intros _; left; lia|done]. }
    rewrite Z.min_r by lia.
    destruct (Z.leb_spec 200 status), (Z.ltb_spec status 300); cbn [andb].
    1: { destruct (Z.ltb_spec 65536 (65536 + 1)); [|lia]. split; [split; [done|lia]|].
      intros f [= <-]. cbn. split; [done|lia]. }
    all: destruct (_ || _) eqn:E; [apply orb_true_iff in E as [[E%Z.eqb_eq|E%Z.eqb_eq]%orb_true_iff|E%Z.leb_le]|
           rewrite !orb_false_iff, !Z.eqb_neq, Z.leb_gt in E];
      (split; [split; [done|lia]|]); intros f [= <-]; cbn; (split; [done || lia|done || lia]).
  - destruct (Z.leb_spec 200 status), (Z.ltb_spec status 300); cbn [andb].
    1: { destruct (Z.ltb_spec 65536 (n `min` (65536 + 1))).
      + split; [split; [done|lia]|]. intros f [= <-]. cbn. split; [done|lia].
      + split; [split; [intros _; lia|done]|]. done. }
    all: destruct (_ || _) eqn:E; [apply orb_true_iff in E as [[E%Z.eqb_eq|E%Z.eqb_eq]%orb_true_iff|E%Z.leb_le]|
           rewrite !orb_false_iff, !Z.eqb_neq, Z.leb_gt in E];
      (split; [split; [done|lia]|]); intros f [= <-]; cbn; (split; [done || lia|done || lia]).
Qed.

(** A delivery succeeds exactly when the application answered its one request
    with a 2xx status and a bounded body; nothing is sent to a destination the
    policy refuses.  A failure is retryable exactly when trying again may help:
    the endpoint or the secret could not be read, the transport failed, the answer
    broke off, or the application asked for it with 408, 429 or a server error. *)
Theorem webhook_delivery_outcomes (message : QueueMessage) (outcome : option DeliveryError)
    (sent : option webhook_request) :
  Deliver endpointOf Open clock NewRequest_ok Do parse addr private message = (outcome, sent) ->
  (forall request, sent = Some request ->
     validateWebhookDestination parse addr (wq_URL request) private = None) /\
  (outcome = None <-> exists request response,
     sent = Some request /\ Do request = Some response /\ delivered response) /\
  (forall f, outcome = Some f -> de_CanRetry f = true <->
     match sent with
     | Some request => Do request = None \/ exists response, Do request = Some response /\ asks_retry response
     | None => de_Code f = "webhook_endpoint_unavailable"%string \/ de_Code f = "webhook_secret_unavailable"%string
     end).
Proof.
  intros H. destruct sent as [request|].
  - apply Deliver_request in H as (endpoint & secret & _ & Hd & _ & -> & Hout). split.
    { intros request [= <-]. exact Hd. }
    destruct (Do _) as [response|] eqn:Hdo; subst outcome.
    + destruct (delivery_outcome_cases response) as [Hnone Hsome]. split.
      * rewrite Hnone. split; [eauto|]. intros (q & a & [= <-] & Ha & Hok). congruence.
      * intros f Hf. rewrite (Hsome f Hf). split; [eauto|]. by intros [?|(a & [= <-] & Ha)].
    + split; [split; [done|]; intros (q & a & [= <-] & Ha & _); congruence|].
      intros f [= <-]. cbn. tauto.
  - split; [done|]. assert (Hout : exists code retry, outcome = Some (mkDeliveryError code retry) /\
      (retry = true <-> code = "webhook_endpoint_unavailable"%string \/ code = "webhook_secret_unavailable"%string)).
    { unfold Deliver in H. destruct (_ || _); [injection H as <-; do 2 eexists; split; [reflexivity|]; naive_solver|].
      destruct (endpointOf _ _); [|destruct (errors_Is _ _); injection H as <-; do 2 eexists; (split; [reflexivity|]); naive_solver].
      destruct (validateWebhookDestination _ _ _ _); [injection H as <-; do 2 eexists; split; [reflexivity|]; naive_solver|].
      destruct (NewOpenRequest _ _); [|injection H as <-; do 2 eexists; split; [reflexivity|]; naive_solver].
      destruct (Open _); [|destruct (errors_Is _ _); injection H as <-; do 2 eexists; (split; [reflexivity|]); naive_solver].
      destruct (negb _); [injection H as <-; do 2 eexists; split; [reflexivity|]; naive_solver|].
      by destruct (Do _). }
    destruct Hout as (code & retry & -> & Hr). split; [split; [done|]; intros (q & a & [=] & _)|].
    intros f [= <-]. exact Hr.
Qed.
End Outcomes.

(** ** A concrete delivery *)

Definition sample_endpoint : WebhookEndpointRecord :=
  mkEndpointRecord "project-1" "app-1" "https://app.example/hook"
    (mkProtected "sealed" (of_bytes (replicate 32 7)) "key-1") 1 1000 1000.
Definition sample_secret : string := "0123456789abcdef0123456789abcdef".
Definition sample_message (id : string) : QueueMessage :=
  mkQueueMessage QueueOutbox id "project-1" "app-1" "customer-1" EmptyString "entitlement.changed"
    "application/json" (mkProtected EmptyString zero32 EmptyString) "{}" 1000 false false.
Definition sample_delivery (id : string) (status : Z) : option DeliveryError * option webhook_request :=
  Deliver (fun _ _ => Ok sample_endpoint) (fun _ => Ok sample_secret) (UnixMilli 1700000000500)
    (fun _ => true) (fun _ => Some (mkWebhookResponse status EmptyString false))
    (fun _ => Some (mkURI "https" "app.example" false EmptyString "app.example")) (fun _ => None)
    false (sample_message id).

Lemma webhook_delivery_outcomes_witness :
  (exists request, sample_delivery "event-1" 204 = (None, Some request)) /\
  (exists f request, sample_delivery "event-1" 503 = (Some f, Some request) /\ de_CanRetry f = true) /\
  (exists f request, sample_delivery "event-1" 400 = (Some f, Some request) /\ de_CanRetry f = false).
Proof.
  split; [|split].
  - destruct (sample_delivery "event-1" 204) as [[f|] [request|]] eqn:E; try (vm_compute in E; discriminate).
    exists request. reflexivity.
  - destruct (sample_delivery "event-1" 503) as [[f|] [request|]] eqn:E; try (vm_compute in E; discriminate).
    exists f, request. split; [reflexivity|].
    apply (proj2 (proj2 (webhook_delivery_outcomes _ _ _ _ _ _ _ _ _ _ _ E)) f eq_refl).
    right. eexists. split; [reflexivity|]. right. right. right. vm_compute. discriminate.
  - destruct (sample_delivery "event-1" 400) as [[f|] [request|]] eqn:E; try (vm_compute in E; discriminate).
    exists f, request. split; [reflexivity|]. vm_compute in E. injection E as <- _. reflexivity.
Defined.
