(* ===== verification/WebhookSdk.v ===== *)
(** Receiving application webhooks ([sdk/go/webhook.go], with the payload of
    [sdk/go/models.go] and the errors of [sdk/go/errors.go]).

    The verifier authenticates a delivery, the event store deduplicates event
    identities, and the handler runs the host's callback.  JSON decoding is a
    parameter; the callback is the host's and may answer differently each time it
    runs, so it sees the calls before.  A request is also three stretches, up to the
    callback, the callback and the recording ([serve_start], [serve_returned],
    [serve_record]), between which other requests may run; the relation [run] orders
    the stretches of many requests.  The last part joins the service that signs
    ([Webhooks.v]) to the verifier. *)

From S2P Require Import Prelude GoText GoTime GoMime GoHttp GoCodec Sha256 Core Purchase Protection Persistence Stores Network Webhooks.
From stdpp Require Import base list strings gmap.
Local Open Scope Z_scope.

(** ** Constants *)

(* sdk/go/webhook.go: constants *)
Definition signaturePrefix : string := (signatureVersion ++ "=")%string.
Definition signatureBytes : Z := 32.
Definition minimumWebhookSecretBytes : Z := 32.
Definition maximumWebhookIdentityLength : Z := 128.
Definition defaultWebhookBodyLimit : Z := 2 ^ 20.
Definition defaultWebhookTimestampTolerance : duration := 5 * Minute.
Definition headerEventID : string := "IAPStack-Event-ID".
Definition headerTimestamp : string := "IAPStack-Timestamp".
Definition headerSignature : string := "IAPStack-Signature".

(** ** Errors *)

(** An error of the SDK: a [*WebhookError], another error, or one that wraps. *)
Inductive sdk_error : Type :=
| WebhookErr (code : string) (status : Z) (cause : option sdk_error)
| OtherErr (message : string)
| WrappedErr (message : string) (cause : sdk_error).

(** [errors.As(err, &webhookErr)]. *)
Fixpoint as_webhook (e : sdk_error) : option (string * Z * option sdk_error) :=
  match e with
  | WebhookErr code status cause => Some (code, status, cause)
  | OtherErr _ => None
  | WrappedErr _ cause => as_webhook cause
  end.

(* sdk/go/webhook.go: webhookStatus *)
Definition webhookStatus (code : string) : Z :=
  if contains_str ["invalid_timestamp"; "invalid_signature"]%string code then 401
  else if String.eqb code "method_not_allowed" then 405
  else if String.eqb code "content_type_required" then 415
  else if String.eqb code "body_too_large" then 413
  else if String.eqb code "event_identity_conflict" then 409
  else if String.eqb code "receiver_unavailable" then 503
  else 400.

(* sdk/go/webhook.go: webhookFailure *)
Definition webhookFailure (code : string) : sdk_error := WebhookErr code (webhookStatus code) None.

(* sdk/go/webhook.go: wrapStoreError *)
Definition wrapStoreError (err : sdk_error) : sdk_error :=
  match as_webhook err with
  | Some (code, status, cause) =>
      if negb (status =? 0) then WebhookErr code status cause
      else WebhookErr code (webhookStatus code) cause
  | None => WebhookErr "receiver_unavailable" 503 (Some err)
  end.

(** ** Payload ([models.go]) *)

(* sdk/go/models.go: EntitlementChange *)
Record EntitlementChange : Type := mkChange {
  chg_SchemaVersion : Z;
  chg_ProjectID : string;
  chg_ApplicationID : string;
  chg_CustomerID : string;
  chg_EntitlementID : string;
  chg_EntitlementKey : string;
  chg_Access : string;
  chg_AccessReason : string;
  chg_SourceObservationID : string;
  chg_Source : string;
  chg_SourceImportID : string;
  chg_SourceApplicationID : string;
  chg_SourceProductID : string;
  chg_EffectiveStartsAt : option time;
  chg_EffectiveEndsAt : option time;
  chg_Version : Z
}.

(* sdk/go/models.go: Entitlement *)
Record SdkEntitlement : Type := mkSdkEntitlement {
  se_Key : string;
  se_Access : string;
  se_Reason : string;
  se_Version : Z;
  se_EffectiveStartsAt : option time;
  se_EffectiveEndsAt : option time
}.

(* sdk/go/models.go: EntitlementChange.validate *)
Definition EntitlementChange_validate (change : EntitlementChange) : bool :=
  if (chg_Version change <? 1)
     || existsb (fun value => String.eqb value EmptyString)
          [chg_ProjectID change; chg_ApplicationID change; chg_CustomerID change;
           chg_EntitlementID change; chg_EntitlementKey change; chg_Access change;
           chg_AccessReason change; chg_SourceApplicationID change; chg_SourceProductID change]
  then false
  else if chg_SchemaVersion change =? 1 then negb (String.eqb (chg_SourceObservationID change) EmptyString)
  else if chg_SchemaVersion change =? 2
       then String.eqb (chg_Source change) "import"
            && negb (String.eqb (chg_SourceImportID change) EmptyString)
            && String.eqb (chg_SourceObservationID change) EmptyString
       else false.

(* sdk/go/models.go: EntitlementChange.Entitlement *)
Definition change_Entitlement (change : EntitlementChange) : SdkEntitlement :=
  mkSdkEntitlement (chg_EntitlementKey change) (chg_Access change) (chg_AccessReason change)
    (chg_Version change) (chg_EffectiveStartsAt change) (chg_EffectiveEndsAt change).

(* sdk/go/models.go: Entitlement.validate *)
Definition SdkEntitlement_validate (e : SdkEntitlement) : bool :=
  negb (String.eqb (se_Key e) EmptyString || String.eqb (se_Access e) EmptyString
        || String.eqb (se_Reason e) EmptyString || (se_Version e <? 1)).

(* sdk/go/models.go: Entitlement.GrantsAccessAt *)
Definition GrantsAccessAt (e : SdkEntitlement) (instant : time) : bool :=
  if negb (String.eqb (se_Access e) "allowed") then false
  else match se_EffectiveEndsAt e with
       | None => true
       | Some ends => Before instant ends
       end.

(** ** Event store *)

(** The event store of the host: both calls report an error or whether the
    identity was stored before. *)
(* sdk/go/webhook.go: EventStore *)
Class EventStore (S : Type) := {
  Seen : string -> string -> S -> (bool + sdk_error) * S;
  Remember : string -> string -> S -> (bool + sdk_error) * S
}.

(** The in-memory store; its mutex makes each call one step. *)
(* sdk/go/webhook.go: MemoryEventStore *)
Record MemoryEventStore : Type := mkMemory { mes_events : gmap string string }.

(* sdk/go/webhook.go: NewMemoryEventStore *)
Definition NewMemoryEventStore : MemoryEventStore := mkMemory ∅.

(* sdk/go/webhook.go: MemoryEventStore.lookup *)
Definition memory_lookup (store : MemoryEventStore) (eventID fingerprint : string) : bool + sdk_error :=
  match mes_events store !! eventID with
  | None => inl false
  | Some existing => if String.eqb existing fingerprint then inl true
                     else inr (webhookFailure "event_identity_conflict")
  end.

(* sdk/go/webhook.go: MemoryEventStore.Remember *)
Definition memory_Remember (eventID fingerprint : string) (store : MemoryEventStore)
    : (bool + sdk_error) * MemoryEventStore :=
  match memory_lookup store eventID fingerprint with
  | inl false => (inl false, mkMemory (<[eventID := fingerprint]> (mes_events store)))
  | answer => (answer, store)
  end.

(* sdk/go/webhook.go: MemoryEventStore.Seen *)
Definition memory_Seen (eventID fingerprint : string) (store : MemoryEventStore)
    : (bool + sdk_error) * MemoryEventStore :=
  (memory_lookup store eventID fingerprint, store).

#[export] Instance MemoryEventStore_EventStore : EventStore MemoryEventStore :=
  {| Seen := memory_Seen; Remember := memory_Remember |}.

(** ** Verifier *)

(* sdk/go/webhook.go: WebhookVerifier *)
Record WebhookVerifier : Type := mkVerifier {
  wv_secret : string;
  wv_bodyLimit : Z;
  wv_timestampTolerance : duration
}.

(* sdk/go/webhook.go: NewWebhookVerifier *)
Definition NewWebhookVerifier (secret : string) (bodyLimit : Z) (tolerance : duration) (hasStore : bool)
    : WebhookVerifier + sdk_error :=
  if len secret <? minimumWebhookSecretBytes
  then inr (OtherErr "webhook signing secret must contain at least 32 bytes")
  else if negb hasStore then inr (OtherErr "webhook event store is required")
  else
    let bodyLimit := if bodyLimit =? 0 then defaultWebhookBodyLimit else bodyLimit in
    if bodyLimit <=? 0 then inr (OtherErr "webhook body limit must be positive")
    else
      let tolerance := if tolerance =? 0 then defaultWebhookTimestampTolerance else tolerance in
      if tolerance <=? 0 then inr (OtherErr "webhook timestamp tolerance must be positive")
      else inl (mkVerifier secret bodyLimit tolerance).

(* sdk/go/webhook.go: WebhookEvent *)
Record WebhookEvent : Type := mkEvent {
  ev_ID : string;
  ev_Timestamp : time;
  ev_Duplicate : bool;
  ev_Change : EntitlementChange;
  ev_fingerprint : string
}.

(** A request as it arrives.  A body gives some bytes, then ends or fails. *)
Record delivery : Type := mkDelivery {
  dl_Method : string;
  dl_ContentType : string;
  dl_EventID : string;
  dl_Timestamp : string;
  dl_Signature : string;
  dl_Body : option (string * bool)
}.

(** [time.Unix(seconds, 0)]: the seconds since year 1 wrap around. *)
Definition UnixSeconds (seconds : Z) : time := wrap64 (seconds + unixToInternal) * Second.

(** [t.Sub(u)] saturates. *)
Definition time_Sub (t u : time) : duration :=
  let d := t - u in
  if (minInt64 <=? d) && (d <=? maxInt64) then d else if t <? u then minInt64 else maxInt64.

(* sdk/go/webhook.go: isJSONContentType *)
Definition isJSONContentType (value : string) : bool :=
  ParseMediaType_ok value
  && bool_decide (lowered_base (fst (until_semicolon (bytes value))) = bytes "application/json").

(* sdk/go/webhook.go: validWebhookIdentity *)
Definition validWebhookIdentity (value : string) : bool :=
  if String.eqb value EmptyString || (maximumWebhookIdentityLength <? len value)
     || negb (String.eqb (TrimSpace value) value)
  then false
  else forallb (fun character => negb ((character <? 33) || (126 <? character))) (runes value).

Section Verifier.
Context (DecodeChange : string -> option EntitlementChange).
Context (verifier : WebhookVerifier).

(* sdk/go/webhook.go: WebhookVerifier.validTimestamp *)
Definition validTimestamp (now : time) (value : string) : option time :=
  if String.eqb value EmptyString || negb (String.eqb (TrimSpace value) value) then None
  else match ParseInt value with
  | None => None
  | Some seconds =>
      if negb (String.eqb (FormatInt seconds) value) then None
      else
        let timestamp := UnixSeconds seconds in
        let delta := time_Sub now timestamp in
        if (delta <? - wv_timestampTolerance verifier) || (wv_timestampTolerance verifier <? delta)
        then None else Some timestamp
  end.

(** The bytes the verifier writes to the MAC. *)
(* sdk/go/webhook.go:342-348: WebhookVerifier.validSignature *)
Definition mac_input (eventID timestamp body : string) : string :=
  (signatureVersion ++ signatureMACSeparator ++ eventID ++ signatureMACSeparator
   ++ timestamp ++ signatureMACSeparator ++ body)%string.

(* sdk/go/webhook.go: WebhookVerifier.validSignature *)
Definition validSignature (eventID timestamp body value : string) : bool :=
  if String.prefix "v1=" value then false
  else if negb (String.prefix signaturePrefix value)
          || negb (len value =? len signaturePrefix + signatureBytes * 2) then false
  else match hex_decode (drop (String.length signaturePrefix) (bytes value)) with
  | None => false
  | Some provided =>
      if negb (Z.of_nat (length provided) =? signatureBytes) then false
      else bool_decide (provided = bytes (HmacSha256 (wv_secret verifier) (mac_input eventID timestamp body)))
  end.

(* sdk/go/webhook.go: decodeEntitlementChange *)
Definition decodeEntitlementChange (body : string) : option EntitlementChange :=
  match DecodeChange body with
  | None => None
  | Some change => if EntitlementChange_validate change then Some change else None
  end.

(** [io.ReadAll(http.MaxBytesReader(nil, body, limit))]. *)
(* sdk/go/webhook.go:225-232: WebhookVerifier.VerifyRequest *)
Definition read_limited (limit : Z) (body : string * bool) : string + string :=
  let '(content, fails) := body in
  if limit <? len content then inr "body_too_large"%string
  else if fails then inr "invalid_body"%string else inl content.

Context {S : Type} `{Store : !EventStore S}.

(* sdk/go/webhook.go: WebhookVerifier.VerifyRequest *)
Definition VerifyRequest (now : time) (request : option delivery) (s : S) : (WebhookEvent + sdk_error) * S :=
  let refuse code := (inr (webhookFailure code), s) in
  match request with
  | None => refuse "invalid_body"%string
  | Some request =>
  if negb (String.eqb (dl_Method request) "POST") then refuse "method_not_allowed"%string
  else if negb (isJSONContentType (dl_ContentType request)) then refuse "content_type_required"%string
  else if negb (validWebhookIdentity (dl_EventID request)) then refuse "invalid_event_id"%string
  else match validTimestamp now (dl_Timestamp request) with
  | None => refuse "invalid_timestamp"%string
  | Some timestamp =>
  match dl_Body request with
  | None => refuse "invalid_body"%string
  | Some content =>
  match read_limited (wv_bodyLimit verifier) content with
  | inr code => refuse code
  | inl body =>
  if negb (validSignature (dl_EventID request) (dl_Timestamp request) body (dl_Signature request))
  then refuse "invalid_signature"%string
  else match decodeEntitlementChange body with
  | None => refuse "invalid_event"%string
  | Some change =>
      let fingerprint := Sum256 body in
      match Seen (dl_EventID request) fingerprint s with
      | (inr e, s') => (inr (wrapStoreError e), s')
      | (inl duplicate, s') =>
          (inl (mkEvent (dl_EventID request) timestamp duplicate change fingerprint), s')
      end
  end end end end end.

(* sdk/go/webhook.go: WebhookVerifier.MarkHandled *)
Definition MarkHandled (event : WebhookEvent) (s : S) : option sdk_error * S :=
  if String.eqb (ev_fingerprint event) zero32
  then (Some (OtherErr "webhook event must come from VerifyRequest"), s)
  else match Remember (ev_ID event) (ev_fingerprint event) s with
       | (inr e, s') => (Some (wrapStoreError e), s')
       | (inl _, s') => (None, s')
       end.

(** ** Handler *)

(** The status, the code of the JSON body, and the Allow header. *)
Record response : Type := mkReply {
  rp_Status : Z;
  rp_Code : option string;
  rp_Allow : option string
}.

(* sdk/go/webhook.go: writeWebhookError *)
Definition writeWebhookError (err : sdk_error) : response :=
  let '(code, status) := match wrapStoreError err with
                         | WebhookErr code status _ => (code, status)
                         | _ => ("receiver_unavailable"%string, webhookStatus "receiver_unavailable")
                         end in
  mkReply status (Some code) (if String.eqb code "method_not_allowed" then Some "POST"%string else None).

(** The host's callback, given the events it was called with before. *)
Context (onEvent : list WebhookEvent -> WebhookEvent -> option sdk_error).

(** The state is the event store and the calls of the callback. *)
(* sdk/go/webhook.go: webhookHandler.ServeHTTP *)
Definition ServeHTTP (now : time) (request : option delivery) (state : S * list WebhookEvent)
    : response * (S * list WebhookEvent) :=
  let '(s, calls) := state in
  match VerifyRequest now request s with
  | (inr e, s') => (writeWebhookError e, (s', calls))
  | (inl event, s') =>
      if ev_Duplicate event then (mkReply 204 None None, (s', calls))
      else match onEvent calls event with
      | Some e => (writeWebhookError (WebhookErr "receiver_unavailable" 503 (Some e)), (s', calls ++ [event]))
      | None =>
          match MarkHandled event s' with
          | (Some e, s'') => (writeWebhookError e, (s'', calls ++ [event]))
          | (None, s'') => (mkReply 204 None None, (s'', calls ++ [event]))
          end
      end
  end.

(** The same request in the stretches other requests can run between, since the
    callback takes its time and each call of the store takes its lock: up to the
    callback, the callback's return, and the recording. *)
(* sdk/go/webhook.go:173-181: webhookHandler.ServeHTTP *)
Definition serve_start (now : time) (request : option delivery) (s : S) : (response + WebhookEvent) * S :=
  match VerifyRequest now request s with
  | (inr e, s') => (inl (writeWebhookError e), s')
  | (inl event, s') => if ev_Duplicate event then (inl (mkReply 204 None None), s') else (inr event, s')
  end.

(* sdk/go/webhook.go:182-189: webhookHandler.ServeHTTP *)
Definition serve_returned (failure : option sdk_error) : option response :=
  match failure with
  | Some e => Some (writeWebhookError (WebhookErr "receiver_unavailable" 503 (Some e)))
  | None => None
  end.

(* sdk/go/webhook.go:191-195: webhookHandler.ServeHTTP *)
Definition serve_record (event : WebhookEvent) (s : S) : response * S :=
  match MarkHandled event s with
  | (Some e, s') => (writeWebhookError e, s')
  | (None, s') => (mkReply 204 None None, s')
  end.

(** A request that no other request interrupts. *)
Definition serve_alone (now : time) (request : option delivery) (state : S * list WebhookEvent)
    : response * (S * list WebhookEvent) :=
  let '(s, calls) := state in
  match serve_start now request s with
  | (inl reply, s') => (reply, (s', calls))
  | (inr event, s') =>
      match serve_returned (onEvent calls event) with
      | Some reply => (reply, (s', calls ++ [event]))
      | None => let '(reply, s'') := serve_record event s' in (reply, (s'', calls ++ [event]))
      end
  end.
End Verifier.

(** ** Texts *)

Lemma FormatInt_text z : FormatInt z <> EmptyString /\ TrimSpace (FormatInt z) = FormatInt z.
Proof.
  assert (Hne : FormatInt z <> EmptyString).
  { intros H. apply (f_equal bytes) in H. rewrite bytes_FormatInt in H. simpl in H.
    destruct (z <? 0); [done|]. pose proof (digits_length z). destruct (digits z); [simpl in *; lia|done]. }
  split; [done|]. apply graphic_text; [done|]. eapply Forall_impl; [apply FormatInt_chars|].
  unfold graphic, in_range. simpl. lia.
Qed.

Lemma parse_digits_print z : 0 <= z -> parse_digits (map (fun d => 48 + d) (digits z)) = Some z.
Proof.
  intros Hz. unfold parse_digits. rewrite length_map.
  pose proof (digits_length z). destruct (Nat.eqb_spec (length (digits z)) 0) as [|_]; [lia|].
  pose proof (digits_digit z Hz) as Hd.
  replace (forallb (in_range 48 57) (map (fun d => 48 + d) (digits z))) with true.
  - rewrite map_map. rewrite (map_ext _ id) by (intros; unfold id; lia). by rewrite map_id, digits_value.
  - symmetry. apply forallb_forall. intros b (d & <- & Hin)%in_map_iff.
    rewrite List.Forall_forall in Hd. specialize (Hd d Hin). unfold is_digit, in_range in *. lia.
Qed.

(** An int64 reads back as it is printed. *)
Lemma ParseInt_FormatInt z : minInt64 <= z <= maxInt64 -> ParseInt (FormatInt z) = Some z.
Proof.
  intros Hz. unfold ParseInt. rewrite bytes_FormatInt. destruct (Z.ltb_spec z 0).
  - rewrite parse_digits_print by lia.
    replace (- - z) with z by lia. destruct (Z.leb_spec minInt64 z), (Z.leb_spec z maxInt64); simpl; (done || lia).
  - assert (Hnn : match map (fun d => 48 + d) (digits z) with
                  | 45 :: l => (true, l) | 43 :: l => (false, l) | l => (false, l) end
                  = (false, map (fun d => 48 + d) (digits z))).
    { pose proof (digits_digit z ltac:(lia)) as Hd. destruct (digits z) as [|d ds]; [done|].
      apply Forall_cons in Hd as [Hd _]. unfold is_digit in Hd. simpl.
      assert (48 + d <> 45 /\ 48 + d <> 43) as [H1 H2] by lia.
      destruct (48 + d) as [|p|p] eqn:E; try done.
      repeat (destruct p as [p|p|]; try done; try lia). }
    rewrite Hnn, parse_digits_print by lia.
    destruct (Z.leb_spec minInt64 z), (Z.leb_spec z maxInt64); simpl; (done || lia).
Qed.

(** ** Signatures *)

Lemma HmacSha256_length key message : length (bytes (HmacSha256 key message)) = 32%nat.
Proof. unfold HmacSha256. rewrite bytes_of_bytes by apply sha_bytes_bounded. apply length_sha_bytes. Qed.

(** A signature is accepted exactly when it spells the MAC in hexadecimal. *)
Lemma validSignature_exact verifier eventID timestamp body value :
  validSignature verifier eventID timestamp body value = true <->
  exists spelled, value = (signaturePrefix ++ spelled)%string /\
    hex_decode (bytes spelled)
    = Some (bytes (HmacSha256 (wv_secret verifier) (mac_input eventID timestamp body))).
Proof.
  unfold validSignature.
  pose proof (HmacSha256_length (wv_secret verifier) (mac_input eventID timestamp body)) as Hlen.
  generalize dependent (bytes (HmacSha256 (wv_secret verifier) (mac_input eventID timestamp body))).
  intros mac Hlen. split.
  - intros H. destruct (String.prefix "v1=" value); [done|].
    destruct (String.prefix signaturePrefix value) eqn:Hp; [|done]. cbn [negb orb] in H.
    apply prefix_split in Hp as [spelled ->]. exists spelled. split; [done|].
    destruct (negb _); [done|]. rewrite bytes_app, drop_app_length' in H by (symmetry; apply length_bytes).
    destruct (hex_decode (bytes spelled)) as [provided|]; [|done].
    destruct (negb _); [done|]. by apply bool_decide_eq_true in H as ->.
  - intros (spelled & -> & H). rewrite str_prefix_app. cbn [negb orb].
    assert (String.prefix "v1=" (signaturePrefix ++ spelled) = false) as -> by (by destruct spelled).
    apply length_hex_decode in H as Hl. rewrite length_bytes in Hl.
    rewrite bytes_app, drop_app_length' by (symmetry; apply length_bytes). rewrite H, Hlen.
    replace (len (signaturePrefix ++ spelled) =? len signaturePrefix + signatureBytes * 2) with true.
    + cbn [negb]. by apply bool_decide_eq_true.
    + symmetry. apply Z.eqb_eq. unfold len, signatureBytes. rewrite <- length_bytes, bytes_app, length_app, !length_bytes. lia.
Qed.

Definition no_newline (s : string) : Prop := ~ In 10 (bytes s).

Lemma split_at_newline a a' b b' :
  ~ In 10 a -> ~ In 10 a' -> a ++ 10 :: b = a' ++ 10 :: b' -> a = a' /\ b = b'.
Proof.
  revert a'. induction a as [|x a IH]; intros [|y a'] Ha Ha' H; simpl in *.
  - by injection H.
  - injection H as <- _. tauto.
  - injection H as -> _. tauto.
  - injection H as -> H. destruct (IH a' ltac:(tauto) ltac:(tauto) H) as [-> ->]. done.
Qed.

Lemma bytes_mac_input eventID timestamp body :
  bytes (mac_input eventID timestamp body)
  = [118; 50; 10] ++ bytes eventID ++ 10 :: bytes timestamp ++ 10 :: bytes body.
Proof. unfold mac_input. by rewrite !bytes_app. Qed.

(** The fields of the MAC input cannot be confused. *)
Lemma mac_input_inj id id' ts ts' body body' :
  no_newline id -> no_newline id' -> no_newline ts -> no_newline ts' ->
  mac_input id ts body = mac_input id' ts' body' -> id = id' /\ ts = ts' /\ body = body'.
Proof.
  intros H1 H2 H3 H4 H. apply (f_equal bytes) in H. rewrite !bytes_mac_input in H. apply app_inv_head in H.
  apply split_at_newline in H as [Hid H]; [|done..]. apply split_at_newline in H as [Hts Hb]; [|done..].
  auto using bytes_inj.
Qed.

Lemma identity_no_newline id : validWebhookIdentity id = true -> no_newline id.
Proof.
  unfold validWebhookIdentity. destruct (_ || _); [done|]. rewrite forallb_forall. intros H Hin.
  assert (Hr : runes id = bytes id).
  { apply runes_only_ascii. apply List.Forall_forall. intros r Hr. specialize (H r Hr). lia. }
  rewrite <- Hr in Hin. specialize (H 10 Hin). done.
Qed.

Lemma FormatInt_no_newline z : no_newline (FormatInt z).
Proof.
  intros Hin. pose proof (FormatInt_chars z) as H. rewrite List.Forall_forall in H. specialize (H 10 Hin). lia.
Qed.

Lemma validTimestamp_spec verifier now value t :
  validTimestamp verifier now value = Some t ->
  exists seconds, value = FormatInt seconds /\ t = UnixSeconds seconds /\
    - wv_timestampTolerance verifier <= time_Sub now t <= wv_timestampTolerance verifier.
Proof.
  unfold validTimestamp. destruct (_ || _); [done|]. destruct (ParseInt value) as [seconds|]; [|done].
  destruct (String.eqb_spec (FormatInt seconds) value) as [<-|]; [|done]. cbn [negb]. cbv zeta.
  destruct (_ || _) eqn:E; [done|]. apply orb_false_iff in E as [E1%Z.ltb_ge E2%Z.ltb_ge].
  intros [= <-]. exists seconds. auto.
Qed.

Lemma seconds_of_truncated t :
  0 <= t -> t / Second <= maxInt64 ->
  UnixSeconds (toUnix (Truncate t Second)) = Truncate t Second /\
  minInt64 <= toUnix (Truncate t Second) <= maxInt64.
Proof.
  intros Ht Hmax. assert (HT : Truncate t Second = t / Second * Second).
  { unfold Truncate. pose proof (Z.div_mod t Second). unfold Second in *. lia. }
  rewrite HT. set (k := t / Second) in *. assert (Hk : 0 <= k) by (apply Z.div_pos; [done|unfold Second; lia]).
  assert (Hu : toUnix (k * Second) = k - unixToInternal).
  { unfold toUnix, unixEpoch. rewrite <- Z.mul_sub_distr_r. apply Z.div_mul. unfold Second. lia. }
  rewrite Hu. unfold UnixSeconds, minInt64, maxInt64, unixToInternal in *. split; [|lia].
  replace (k - 62135596800 + 62135596800) with k by lia. unfold wrap64. rewrite Z.mod_small by lia. lia.
Qed.

(** ** Authenticity *)

Section Authenticity.
Context (DecodeChange : string -> option EntitlementChange) (verifier : WebhookVerifier).
Context {S : Type} `{Store : !EventStore S}.

(** A delivery the verifier accepts, with its body. *)
Record authentic (now : time) (d : delivery) (body : string) (event : WebhookEvent) : Prop := {
  au_method : dl_Method d = "POST"%string;
  au_body : dl_Body d = Some (body, false) /\ len body <= wv_bodyLimit verifier;
  au_identity : ev_ID event = dl_EventID d /\ validWebhookIdentity (dl_EventID d) = true;
  au_time : exists seconds, dl_Timestamp d = FormatInt seconds /\ ev_Timestamp event = UnixSeconds seconds /\
    - wv_timestampTolerance verifier <= time_Sub now (ev_Timestamp event) <= wv_timestampTolerance verifier;
  au_signature : exists spelled, dl_Signature d = (signaturePrefix ++ spelled)%string /\
    hex_decode (bytes spelled)
    = Some (bytes (HmacSha256 (wv_secret verifier) (mac_input (dl_EventID d) (dl_Timestamp d) body)));
  au_change : DecodeChange body = Some (ev_Change event) /\ EntitlementChange_validate (ev_Change event) = true;
  au_fingerprint : ev_fingerprint event = Sum256 body
}.

Lemma accepted_authentic now request s event s' :
  VerifyRequest DecodeChange verifier now request s = (inl event, s') ->
  exists d body, request = Some d /\ authentic now d body event /\
    Seen (ev_ID event) (ev_fingerprint event) s = (inl (ev_Duplicate event), s').
Proof.
  unfold VerifyRequest. destruct request as [d|]; [|done].
  destruct (String.eqb_spec (dl_Method d) "POST") as [Hm|]; [|done]. cbn [negb].
  destruct (isJSONContentType (dl_ContentType d)); [|done]. cbn [negb].
  destruct (validWebhookIdentity (dl_EventID d)) eqn:Hid; [|done]. cbn [negb].
  destruct (validTimestamp verifier now (dl_Timestamp d)) as [t|] eqn:Ht; [|done].
  apply validTimestamp_spec in Ht as (seconds & Hts & -> & Htol).
  destruct (dl_Body d) as [[content fails]|] eqn:Hb; [|done].
  destruct (read_limited _ _) as [body|] eqn:Hr; [|done]. unfold read_limited in Hr.
  destruct (Z.ltb_spec (wv_bodyLimit verifier) (len content)); [done|]. destruct fails; [done|]. injection Hr as ->.
  destruct (validSignature _ _ _ _ _) eqn:Hsig; [|done]. cbn [negb]. apply validSignature_exact in Hsig.
  unfold decodeEntitlementChange. destruct (DecodeChange body) as [change|] eqn:Hc; [|done].
  destruct (EntitlementChange_validate change) eqn:Hv; [|done]. cbv zeta.
  destruct (Seen _ _ s) as [[duplicate|e] s1] eqn:Hs; [|done]. intros [= <- <-].
  exists d, body. split; [done|]. split; [|exact Hs]. by split; eauto.
Qed.

(** C10. The verifier authenticates every field it uses: an event is accepted only
    for a POST whose signature spells the HMAC, under the configured secret, of
    the event identity, the timestamp and the body; the timestamp is canonical and
    inside the replay window and the body is within its limit.  The three fields
    cannot be confused with each other: two accepted deliveries whose signed bytes
    are equal have the same identity, timestamp and body. *)
Theorem webhook_authentic (now now' : time) (d : delivery) (request : option delivery)
    (s s1 s2 s3 : S) (event event' : WebhookEvent) :
  VerifyRequest DecodeChange verifier now (Some d) s = (inl event, s1) ->
  exists body, authentic now d body event /\
    (VerifyRequest DecodeChange verifier now' request s2 = (inl event', s3) ->
     exists d' body', request = Some d' /\ authentic now' d' body' event' /\
       (mac_input (dl_EventID d) (dl_Timestamp d) body = mac_input (dl_EventID d') (dl_Timestamp d') body' ->
        ev_ID event = ev_ID event' /\ ev_Timestamp event = ev_Timestamp event' /\ body = body' /\
        ev_Change event = ev_Change event')).
Proof.
  intros H. apply accepted_authentic in H as (d0 & body & [= <-] & Ha & _). exists body. split; [done|].
  intros H. apply accepted_authentic in H as (d' & body' & -> & Ha' & _). exists d', body'. split_and!; [done..|].
  intros E. destruct Ha as [_ _ [Hid Hv] (z & Ht & Hts & _) _ [Hc _] _], Ha' as [_ _ [Hid' Hv'] (z' & Ht' & Hts' & _) _ [Hc' _] _].
  apply mac_input_inj in E as (Ei & Et & ->); [|rewrite ?Ht, ?Ht'; auto using identity_no_newline, FormatInt_no_newline..].
  rewrite Ht, Ht' in Et. apply FormatInt_inj in Et as ->. split_and!; congruence.
Qed.
End Authenticity.

(** ** From the service to the host *)

Definition received (request : webhook_request) : delivery :=
  mkDelivery (wq_Method request) (wq_ContentType request) (wq_EventID request) (wq_Timestamp request)
    (wq_Signature request) (Some (wq_Body request, false)).

(** Signing and verifying are inverse: the request the service sends for an
    outbox message, received with the same secret, is accepted as that message:
    its identity, the instant it was signed at, its change and the digest of its
    body, provided the host's clock is within its tolerance, the body within its
    limit and the payload a valid change. *)
Theorem webhook_round_trip (DecodeChange : string -> option EntitlementChange)
    {S : Type} `{Store : !EventStore S} endpointOf Open clock NewRequest_ok Do parse addr private
    (message : QueueMessage) (outcome : option DeliveryError) (request : webhook_request) :
  Deliver endpointOf Open clock NewRequest_ok Do parse addr private message = (outcome, Some request) ->
  0 <= clock -> clock / Second <= maxInt64 ->
  exists secret, (exists opened, Open opened = Ok secret) /\
  forall (verifier : WebhookVerifier) (now : time) (change : EntitlementChange) (s : S),
  wv_secret verifier = secret ->
  validWebhookIdentity (qm_ID message) = true -> len (qm_JSONPayload message) <= wv_bodyLimit verifier ->
  DecodeChange (qm_JSONPayload message) = Some change -> EntitlementChange_validate change = true ->
  - wv_timestampTolerance verifier <= time_Sub now (Truncate clock Second) <= wv_timestampTolerance verifier ->
  VerifyRequest DecodeChange verifier now (Some (received request)) s =
  match Seen (qm_ID message) (Sum256 (qm_JSONPayload message)) s with
  | (inl duplicate, s') => (inl (mkEvent (qm_ID message) (Truncate clock Second) duplicate change
                                   (Sum256 (qm_JSONPayload message))), s')
  | (inr e, s') => (inr (wrapStoreError e), s')
  end.
Proof.
  intros H Hc0 Hc1. apply Deliver_request in H as (endpoint & secret & _ & _ & Hopen & -> & _).
  exists secret. split; [eauto|]. intros verifier now change s Hsecret Hid Hlen Hdec Hval Htol.
  destruct (seconds_of_truncated clock Hc0 Hc1) as [HU Hrange]. unfold VerifyRequest, received, webhook_signed.
  cbn [wq_Method wq_ContentType wq_EventID wq_Timestamp wq_Signature wq_Body dl_Method dl_ContentType dl_EventID
       dl_Timestamp dl_Signature dl_Body].
  change (negb ("POST" =? "POST")%string) with false.
  change (negb (isJSONContentType "application/json")) with false. rewrite Hid. cbn [negb].
  set (seconds := toUnix (Truncate clock Second)) in *.
  assert (Ht : validTimestamp verifier now (FormatInt seconds) = Some (Truncate clock Second)).
  { unfold validTimestamp. destruct (FormatInt_text seconds) as [Hne Htrim].
    rewrite (proj2 (String.eqb_neq _ _) Hne), Htrim, String.eqb_refl. cbn [negb orb].
    rewrite ParseInt_FormatInt by done. rewrite String.eqb_refl. cbn [negb]. cbv zeta. rewrite HU.
    destruct (Z.ltb_spec (time_Sub now (Truncate clock Second)) (- wv_timestampTolerance verifier)); [lia|].
    by destruct (Z.ltb_spec (wv_timestampTolerance verifier) (time_Sub now (Truncate clock Second))); [lia|]. }
  rewrite Ht. unfold read_limited. destruct (Z.ltb_spec (wv_bodyLimit verifier) (len (qm_JSONPayload message))); [lia|].
  assert (Hsig : validSignature verifier (qm_ID message) (FormatInt seconds) (qm_JSONPayload message)
    (signatureVersion ++ "=" ++ Sign secret (qm_ID message) (Truncate clock Second) (qm_JSONPayload message)) = true).
  { apply validSignature_exact. eexists. split; [reflexivity|].
    unfold Sign. rewrite bytes_EncodeToString, hex_decode_encode by apply bytes_bounded.
    rewrite Hsecret. reflexivity. }
  rewrite Hsig. cbn [negb]. unfold decodeEntitlementChange. by rewrite Hdec, Hval.
Qed.

(** ** Handling *)

Section Handling.
Context (DecodeChange : string -> option EntitlementChange) (verifier : WebhookVerifier).
Context (onEvent : list WebhookEvent -> WebhookEvent -> option sdk_error).

Lemma memory_seen id fp (store : MemoryEventStore) answer store' :
  Seen id fp store = (answer, store') ->
  store' = store /\
  match answer with
  | inl true => mes_events store !! id = Some fp
  | inl false => mes_events store !! id = None
  | inr e => e = webhookFailure "event_identity_conflict"
  end.
Proof.
  cbn [Seen MemoryEventStore_EventStore]. unfold memory_Seen, memory_lookup. intros [= <- <-]. split; [done|].
  destruct (mes_events store !! id) as [fp'|]; [|done]. by destruct (String.eqb_spec fp' fp) as [->|].
Qed.

Lemma refused_status (store : MemoryEventStore) now request e store' :
  VerifyRequest DecodeChange verifier now request store = (inr e, store') ->
  store' = store /\ rp_Status (writeWebhookError e) <> 204.
Proof.
  unfold VerifyRequest. intros H.
  assert (Hrefuse : forall code, writeWebhookError (webhookFailure code)
            = mkReply (webhookStatus code) (Some code) (if String.eqb code "method_not_allowed" then Some "POST"%string else None)).
  { intros code. unfold writeWebhookError, wrapStoreError, webhookFailure. cbn [as_webhook].
    assert (Hn : webhookStatus code <> 0) by (unfold webhookStatus; repeat case_match; done).
    apply Z.eqb_neq in Hn. rewrite Hn. done. }
  assert (Hcode : forall code, webhookStatus code <> 204) by (intros code; unfold webhookStatus; repeat case_match; done).
  repeat match type of H with
  | (inr (webhookFailure _), _) = _ => injection H as <- <-; rewrite Hrefuse; split; [done|apply Hcode]
  | (if ?b then _ else _) = _ => destruct b
  | match ?x with None => _ | Some _ => _ end = _ => destruct x
  | match read_limited _ _ with _ => _ end = _ => destruct (read_limited _ _)
  end.
  cbv zeta in H. destruct (Seen _ _ store) as [[duplicate|e'] s1] eqn:Hs; [done|].
  apply memory_seen in Hs as [-> ->]. by injection H as <- <-.
Qed.

(** What one request does to the store and to the calls of the host. *)
Lemma serve_step now request (store store' : MemoryEventStore) calls calls' reply :
  ServeHTTP DecodeChange verifier onEvent now request (store, calls) = (reply, (store', calls')) ->
  (store' = store /\ calls' = calls /\
   (rp_Status reply <> 204 \/
    exists d body event, request = Some d /\ authentic DecodeChange verifier now d body event /\
      mes_events store !! ev_ID event = Some (ev_fingerprint event))) \/
  exists d body event, request = Some d /\ authentic DecodeChange verifier now d body event /\
    mes_events store !! ev_ID event = None /\ calls' = calls ++ [event] /\
    ((store' = store /\ rp_Status reply = 503 /\
      (onEvent calls event <> None \/ ev_fingerprint event = zero32)) \/
     (store' = mkMemory (<[ev_ID event := ev_fingerprint event]> (mes_events store)) /\ rp_Status reply = 204 /\
      onEvent calls event = None)).
Proof.
  unfold ServeHTTP. destruct (VerifyRequest _ _ now request store) as [[event|e] s1] eqn:Hv.
  - apply accepted_authentic in Hv as (d & body & -> & Ha & Hs). apply memory_seen in Hs as [-> Hs].
    destruct (ev_Duplicate event).
    { intros [= <- <- <-]. left. split_and!; [done..|]. right. eauto 6. }
    destruct (onEvent calls event) as [failure|] eqn:Ho.
    { intros [= <- <- <-]. right. exists d, body, event. split_and!; [done..|]. left. split_and!; [done..|left; congruence]. }
    unfold MarkHandled. destruct (String.eqb_spec (ev_fingerprint event) zero32) as [Hz|Hz].
    { intros [= <- <- <-]. right. exists d, body, event. split_and!; [done..|]. left. split_and!; [done..|by right]. }
    cbn [Remember MemoryEventStore_EventStore]. unfold memory_Remember, memory_lookup. rewrite Hs.
    intros [= <- <- <-]. right. exists d, body, event. split_and!; [done..|]. right. done.
  - apply refused_status in Hv as [-> Hst]. intros [= <- <- <-]. left. auto.
Qed.

(** The states the handler can reach from an empty store. *)
Inductive served : MemoryEventStore -> list WebhookEvent -> Prop :=
| served_start : served NewMemoryEventStore []
| served_request now request store calls reply store' calls' :
    served store calls ->
    ServeHTTP DecodeChange verifier onEvent now request (store, calls) = (reply, (store', calls')) ->
    served store' calls'.

(** The event at a position of the calls was handled. *)
Definition handled (calls : list WebhookEvent) (k : nat) (event : WebhookEvent) : Prop :=
  calls !! k = Some event /\ onEvent (take k calls) event = None.

Lemma handled_app calls last k event :
  handled (calls ++ [last]) k event <->
  handled calls k event \/ (k = length calls /\ event = last /\ onEvent calls last = None).
Proof.
  unfold handled. rewrite lookup_app_Some, list_lookup_singleton_Some. split.
  - intros [[Hk|(Hk & Hi & ->)] Ho].
    + left. rewrite take_app_le in Ho by (apply lookup_lt_Some in Hk; lia). done.
    + right. assert (k = length calls) as -> by lia. rewrite take_app_length in Ho. done.
  - intros [[Hk Ho]|(-> & -> & Ho)].
    + split; [by left|]. rewrite take_app_le by (apply lookup_lt_Some in Hk; lia). done.
    + split; [right; split; [lia|]; split; [lia|done]|]. by rewrite take_app_length.
Qed.

(** Requests served one after the other. *)
Lemma serial_handled (store : MemoryEventStore) (calls : list WebhookEvent) :
  served store calls ->
  (forall id fingerprint, mes_events store !! id = Some fingerprint ->
     exists k event, handled calls k event /\ ev_ID event = id /\ ev_fingerprint event = fingerprint) /\
  (forall k event, handled calls k event -> ev_fingerprint event <> zero32 ->
     mes_events store !! ev_ID event = Some (ev_fingerprint event) /\
     forall j event', (k < j)%nat -> calls !! j = Some event' -> ev_ID event' <> ev_ID event) /\
  (forall now request reply store' calls',
     ServeHTTP DecodeChange verifier onEvent now request (store, calls) = (reply, (store', calls')) ->
     rp_Status reply = 204 ->
     exists d body event, request = Some d /\ authentic DecodeChange verifier now d body event /\
       mes_events store' !! ev_ID event = Some (ev_fingerprint event)).
Proof.
  intros Hserved. split; [|split].
  - induction Hserved as [|now request store calls reply store' calls' Hserved IH Hstep]; [by intros id fp|].
    apply serve_step in Hstep as [(-> & -> & _)|(d & body & event & _ & _ & Hnone & -> & Hcase)]; [exact IH|].
    intros id fp Hid. destruct Hcase as [(-> & _ & _)|(-> & _ & Ho)]; [|cbn [mes_events] in Hid; apply lookup_insert_Some in Hid as [[<- <-]|[_ Hid]]].
    + destruct (IH _ _ Hid) as (k & e & Hk & He). exists k, e. split; [|done]. apply handled_app. by left.
    + exists (length calls), event. split; [|done]. apply handled_app. right. auto.
    + destruct (IH _ _ Hid) as (k & e & Hk & He). exists k, e. split; [|done]. apply handled_app. by left.
  - induction Hserved as [|now request store calls reply store' calls' Hserved IH Hstep]; [by intros k e [Hk _]|].
    apply serve_step in Hstep as [(-> & -> & _)|(d & body & event & _ & _ & Hnone & -> & Hcase)]; [exact IH|].
    intros k e [Hk|(-> & -> & Ho)]%handled_app Hz.
    + destruct (IH _ _ Hk Hz) as [Hin Hlater]. split.
      * destruct Hcase as [(-> & _)|(-> & _)]; [done|]. cbn [mes_events]; rewrite lookup_insert_ne; [done|]. congruence.
      * intros j e' Hj [[_ He']|[_ <-]]%lookup_snoc_Some; [eauto|]. congruence.
    + split.
      * destruct Hcase as [(-> & _ & [Hf|Hf])|(-> & _)]; [done|done|]. cbn [mes_events]; apply lookup_insert_eq.
      * intros j e' Hj [[Hlt _]|[-> _]]%lookup_snoc_Some; lia.
  - intros now request reply store' calls' Hstep Hreply.
    apply serve_step in Hstep as [(-> & _ & [Hno|(d & body & event & -> & Ha & Hin)])|(d & body & event & -> & Ha & _ & _ & Hcase)];
      [congruence|eauto 6|]. exists d, body, event. split_and!; [done..|].
    destruct Hcase as [(_ & Hst & _)|(-> & _)]; [congruence|]. cbn [mes_events]; apply lookup_insert_eq.
Qed.

Lemma serve_in_stretches now request (state : MemoryEventStore * list WebhookEvent) :
  ServeHTTP DecodeChange verifier onEvent now request state
  = serve_alone DecodeChange verifier onEvent now request state.
Proof.
  destruct state as [store calls]. unfold ServeHTTP, serve_alone, serve_start, serve_record.
  destruct (VerifyRequest _ _ now request store) as [[event|e] s1]; [|done].
  destruct (ev_Duplicate event); [done|]. destruct (onEvent calls event); cbn [serve_returned]; [done|].
  by destruct (MarkHandled event s1) as [[e|] s2].
Qed.
End Handling.

(** ** Overlapping requests *)

(** The store, the requests whose callback runs and those whose callback
    succeeded and that have not recorded it yet. *)
Record host : Type := mkHost {
  ho_store : MemoryEventStore;
  ho_running : list WebhookEvent;
  ho_returned : list WebhookEvent
}.

Inductive action : Type :=
| Answered (reply : response)
| Called (event : WebhookEvent)
| Failed (event : WebhookEvent) (reply : response)
| Succeeded (event : WebhookEvent)
| Recorded (event : WebhookEvent) (reply : response).

Definition fresh_host : host := mkHost NewMemoryEventStore [] [].

Section Overlap.
Context (DecodeChange : string -> option EntitlementChange) (verifier : WebhookVerifier).

(** One stretch of one of the requests; the callback's result is the host's. *)
Inductive stretch : host -> action -> host -> Prop :=
| stretch_answer now request store store' running returned reply :
    serve_start DecodeChange verifier now request store = (inl reply, store') ->
    stretch (mkHost store running returned) (Answered reply) (mkHost store' running returned)
| stretch_call now request store store' running returned event :
    serve_start DecodeChange verifier now request store = (inr event, store') ->
    stretch (mkHost store running returned) (Called event) (mkHost store' (event :: running) returned)
| stretch_fail store before event after returned failure reply :
    serve_returned (Some failure) = Some reply ->
    stretch (mkHost store (before ++ event :: after) returned) (Failed event reply)
            (mkHost store (before ++ after) returned)
| stretch_succeed store before event after returned :
    serve_returned None = None ->
    stretch (mkHost store (before ++ event :: after) returned) (Succeeded event)
            (mkHost store (before ++ after) (event :: returned))
| stretch_record store store' running before event after reply :
    serve_record event store = (reply, store') ->
    stretch (mkHost store running (before ++ event :: after)) (Recorded event reply)
            (mkHost store' running (before ++ after)).

Inductive run : host -> list action -> host -> Prop :=
| run_nil h : run h [] h
| run_snoc h actions h1 a h2 : run h actions h1 -> stretch h1 a h2 -> run h (actions ++ [a]) h2.

Lemma start_reads now request (store store' : MemoryEventStore) answer :
  serve_start DecodeChange verifier now request store = (answer, store') ->
  store' = store /\
  match answer with
  | inl reply => rp_Status reply = 204 ->
      exists d body event, request = Some d /\ authentic DecodeChange verifier now d body event /\
        mes_events store !! ev_ID event = Some (ev_fingerprint event)
  | inr event => mes_events store !! ev_ID event = None
  end.
Proof.
  unfold serve_start. destruct (VerifyRequest _ _ now request store) as [[event|e] s1] eqn:Hv.
  - apply accepted_authentic in Hv as (d & body & -> & Ha & Hs). apply memory_seen in Hs as [-> Hs].
    destruct (ev_Duplicate event); intros [= <- <-]; split; eauto 6.
  - apply refused_status in Hv as [-> Hst]. intros [= <- <-]. by split.
Qed.

(** Recording keeps what is remembered, adds at most its own event, and
    answers 204 only when the event is remembered. *)
Lemma record_grows event (store store' : MemoryEventStore) reply :
  serve_record event store = (reply, store') ->
  (forall id fp, mes_events store !! id = Some fp -> mes_events store' !! id = Some fp) /\
  (forall id fp, mes_events store' !! id = Some fp ->
     mes_events store !! id = Some fp \/ (id = ev_ID event /\ fp = ev_fingerprint event)) /\
  (rp_Status reply = 204 -> mes_events store' !! ev_ID event = Some (ev_fingerprint event)).
Proof.
  unfold serve_record, MarkHandled. destruct (String.eqb_spec (ev_fingerprint event) zero32) as [Hz|Hz].
  { intros [= <- <-]. split_and!; [done|auto|done]. }
  cbn [Remember MemoryEventStore_EventStore]. unfold memory_Remember, memory_lookup.
  destruct (mes_events store !! ev_ID event) as [fp'|] eqn:Hs.
  - destruct (String.eqb_spec fp' (ev_fingerprint event)) as [->|Hd]; intros [= <- <-]; split_and!; auto; done.
  - intros [= <- <-]. cbn [mes_events]. split_and!.
    + intros id fp Hid. rewrite lookup_insert_ne by congruence. done.
    + intros id fp [[<- <-]|[_ Hid]]%lookup_insert_Some; auto.
    + intros _. apply lookup_insert_eq.
Qed.

Lemma stretch_keeps h a h' id fp :
  stretch h a h' -> mes_events (ho_store h) !! id = Some fp ->
  mes_events (ho_store h') !! id = Some fp /\ forall event, a = Called event -> ev_ID event <> id.
Proof.
  destruct 1 as [? ? ? ? ? ? ? Hs|? ? ? ? ? ? ? Hs|? ? ? ? ? ? ? ?|? ? ? ? ? ?|? ? ? ? ? ? ? Hs]; cbn [ho_store]; intros Hid.
  - apply start_reads in Hs as [-> _]. by split.
  - apply start_reads in Hs as [-> Hn]. split; [done|]. intros e [= <-]. congruence.
  - by split.
  - by split.
  - apply record_grows in Hs as (Hk & _ & _). split; [by apply Hk|done].
Qed.

Lemma run_keeps h actions h' id fp :
  run h actions h' -> mes_events (ho_store h) !! id = Some fp ->
  mes_events (ho_store h') !! id = Some fp /\ forall event, Called event ∈ actions -> ev_ID event <> id.
Proof.
  induction 1 as [h|h actions h1 a h2 Hrun IH Hstep]; intros Hid.
  { split; [done|]. intros event H. by apply not_elem_of_nil in H. }
  destruct (IH Hid) as [Hid1 Hno]. destruct (stretch_keeps _ _ _ _ _ Hstep Hid1) as [Hid2 Ha]. split; [done|].
  intros event [Hin|Hin%list_elem_of_singleton]%elem_of_app; eauto.
Qed.

(** What waits to be recorded, and what is remembered, the callback handled. *)
Lemma run_succeeded h actions :
  run fresh_host actions h ->
  (forall event, event ∈ ho_returned h -> Succeeded event ∈ actions) /\
  (forall id fp, mes_events (ho_store h) !! id = Some fp ->
     exists event, Succeeded event ∈ actions /\ ev_ID event = id /\ ev_fingerprint event = fp) /\
  (forall event reply, Recorded event reply ∈ actions -> rp_Status reply = 204 ->
     mes_events (ho_store h) !! ev_ID event = Some (ev_fingerprint event)).
Proof.
  remember fresh_host as h0 eqn:E0. induction 1 as [h|h actions h1 a h2 Hrun IH Hstep].
  { subst h. split_and!; [intros e H|intros id fp H|intros e r H]; [by apply not_elem_of_nil in H|done|by apply not_elem_of_nil in H]. }
  destruct (IH E0) as (Hr & Hk & Hm).
  assert (Hm' : forall e r, Recorded e r ∈ actions -> rp_Status r = 204 ->
                  mes_events (ho_store h2) !! ev_ID e = Some (ev_fingerprint e)).
  { intros e r Hin H204. exact (proj1 (stretch_keeps _ _ _ _ _ Hstep (Hm _ _ Hin H204))). }
  destruct Hstep as [? ? ? ? ? ? ? Hs|? ? ? ? ? ? ? Hs|? ? ? ? ? ? ? ?|? ? ? ? ? ?|store store' ? ? event ? ? Hs];
    cbn [ho_store ho_returned] in *.
  1,2: apply start_reads in Hs as [-> _].
  all: setoid_rewrite elem_of_app; setoid_rewrite list_elem_of_singleton.
  1-3: split_and!; [eauto|intros id fp Hid; destruct (Hk _ _ Hid) as (e & ? & ?); eauto 6|intros e r [Hin|[=]]; eauto].
  - setoid_rewrite elem_of_cons. split_and!; [intros e [->|Hin]; eauto|intros id fp Hid; destruct (Hk _ _ Hid) as (e & ? & ?); eauto 6|intros e r [Hin|[=]]; eauto].
  - apply record_grows in Hs as (_ & Hadd & H204). split_and!.
    + intros e H. left. apply Hr. set_solver.
    + intros id fp [H|[-> ->]]%Hadd; [destruct (Hk _ _ H) as (e & ? & ?); eauto 6|].
      exists event. split; [left; apply Hr; set_solver|done].
    + intros e r [H|[= -> ->]]; eauto.
Qed.

(** C11. The webhook handler runs the host's callback until it succeeds.  A request
    is three stretches - up to the callback, the callback, the recording - and
    requests that do not overlap are served one stretch after the other: then the
    store remembers exactly the events that were handled, and no call follows a
    successful one of the same event identity.  When requests overlap at those
    stretches in any order, the store remembers an event only after its callback
    succeeded, keeps it, and no request that starts once it is remembered calls
    back for that identity; only a retry that started before the recording can
    repeat a successful call.  A 204 is answered only for an authentic event that
    is remembered by then, so a failed callback leaves a retry to reach the host
    again. *)
Theorem webhook_handled_once :
  (forall onEvent now request (state : MemoryEventStore * list WebhookEvent),
     ServeHTTP DecodeChange verifier onEvent now request state
     = serve_alone DecodeChange verifier onEvent now request state) /\
  (forall onEvent store calls, served DecodeChange verifier onEvent store calls ->
     (forall id fingerprint, mes_events store !! id = Some fingerprint ->
        exists k event, handled onEvent calls k event /\ ev_ID event = id /\ ev_fingerprint event = fingerprint) /\
     (forall k event, handled onEvent calls k event -> ev_fingerprint event <> zero32 ->
        mes_events store !! ev_ID event = Some (ev_fingerprint event) /\
        forall j event', (k < j)%nat -> calls !! j = Some event' -> ev_ID event' <> ev_ID event) /\
     (forall now request reply store' calls',
        ServeHTTP DecodeChange verifier onEvent now request (store, calls) = (reply, (store', calls')) ->
        rp_Status reply = 204 ->
        exists d body event, request = Some d /\ authentic DecodeChange verifier now d body event /\
          mes_events store' !! ev_ID event = Some (ev_fingerprint event))) /\
  (forall actions h, run fresh_host actions h ->
     (forall id fingerprint, mes_events (ho_store h) !! id = Some fingerprint ->
        (exists event, Succeeded event ∈ actions /\ ev_ID event = id /\ ev_fingerprint event = fingerprint) /\
        forall later h', run h later h' ->
          mes_events (ho_store h') !! id = Some fingerprint /\
          forall event, Called event ∈ later -> ev_ID event <> id) /\
     (forall event reply, Recorded event reply ∈ actions -> rp_Status reply = 204 ->
        mes_events (ho_store h) !! ev_ID event = Some (ev_fingerprint event)) /\
     (forall now request reply store',
        serve_start DecodeChange verifier now request (ho_store h) = (inl reply, store') ->
        rp_Status reply = 204 ->
        exists d body event, request = Some d /\ authentic DecodeChange verifier now d body event /\
          mes_events (ho_store h) !! ev_ID event = Some (ev_fingerprint event))).
Proof.
  split; [intros; apply serve_in_stretches|]. split; [intros; by apply serial_handled|].
  intros actions h Hrun. destruct (run_succeeded h actions Hrun) as (_ & Hk & Hm). split; [|split; [exact Hm|]].
  - intros id fp Hid. split; [by apply Hk|]. intros later h' Hl. by apply (run_keeps h later h').
  - intros now request reply store' Hs. by apply start_reads in Hs as [_ Hs].
Qed.
End Overlap.

(** ** A concrete host *)

Definition sample_change : EntitlementChange :=
  mkChange 1 "project-1" "app-1" "customer-1" "premium" "premium" "allowed" "purchase_valid" "obs-1"
    EmptyString EmptyString "app-1" "monthly" None (Some (UnixMilli 1702000000000)) 1.
Definition sample_verifier : WebhookVerifier :=
  mkVerifier sample_secret defaultWebhookBodyLimit defaultWebhookTimestampTolerance.
Definition sample_decode (body : string) : option EntitlementChange := Some sample_change.
Definition sample_now : time := UnixMilli 1700000001000.

Lemma webhook_round_trip_witness :
  exists request event, sample_delivery "event-1" 204 = (None, Some request) /\
    VerifyRequest sample_decode sample_verifier sample_now (Some (received request)) NewMemoryEventStore
    = (inl event, NewMemoryEventStore) /\
    ev_ID event = "event-1"%string /\ ev_Duplicate event = false /\ ev_Change event = sample_change.
Proof.
  destruct (sample_delivery "event-1" 204) as [[f|] [request|]] eqn:E; try (vm_compute in E; discriminate).
  destruct (webhook_round_trip sample_decode _ _ _ _ _ _ _ _ _ _ _ E
              ltac:(vm_compute; discriminate) ltac:(vm_compute; discriminate)) as (secret & [opened Ho] & H).
  injection Ho as <-. exists request. eexists. split; [reflexivity|]. split.
  - apply (H sample_verifier sample_now sample_change NewMemoryEventStore); try reflexivity.
    + vm_compute. discriminate.
    + split; vm_compute; discriminate.
  - split; [reflexivity|]. split; reflexivity.
Defined.

Definition sample_received (id : string) : option delivery :=
  match sample_delivery id 204 with (_, Some request) => Some (received request) | _ => None end.

Lemma webhook_authentic_witness :
  exists d event s body, sample_received "event-1" = Some d /\
    VerifyRequest sample_decode sample_verifier sample_now (Some d) NewMemoryEventStore = (inl event, s) /\
    authentic sample_decode sample_verifier sample_now d body event.
Proof.
  destruct (sample_received "event-1") as [d|] eqn:Ed; [|vm_compute in Ed; discriminate].
  destruct (VerifyRequest sample_decode sample_verifier sample_now (Some d) NewMemoryEventStore) as [[event|e] s] eqn:E.
  2: { rewrite <- Ed in E. vm_compute in E. discriminate. }
  destruct (webhook_authentic sample_decode sample_verifier sample_now sample_now d None _ _
              NewMemoryEventStore NewMemoryEventStore event event E) as (body & Ha & _).
  exists d, event, s, body. split; [reflexivity|]. split; [exact E|exact Ha].
Defined.

(** The host's database is down for the first call. *)
Definition flaky (calls : list WebhookEvent) (event : WebhookEvent) : option sdk_error :=
  if Nat.eqb (length calls) 0 then Some (OtherErr "database is down") else None.

(** Two deliveries of one event overlap: both call back, the first records, and
    the second's recording is a no-op. *)
Definition overlapping (event : WebhookEvent) (reply : response) : list action :=
  [Called event; Called event; Succeeded event; Succeeded event; Recorded event reply; Recorded event reply].

Definition sample_event : WebhookEvent :=
  match serve_start sample_decode sample_verifier sample_now (sample_received "event-1") NewMemoryEventStore with
  | (inr event, _) => event
  | _ => mkEvent EmptyString 0 false sample_change EmptyString
  end.

Definition sample_remembered : MemoryEventStore :=
  mkMemory {[ev_ID sample_event := ev_fingerprint sample_event]}.

Lemma sample_starts :
  serve_start sample_decode sample_verifier sample_now (sample_received "event-1") NewMemoryEventStore
  = (inr sample_event, NewMemoryEventStore).
Proof. vm_compute. reflexivity. Qed.

Lemma sample_recordings :
  serve_record sample_event NewMemoryEventStore = (mkReply 204 None None, sample_remembered) /\
  serve_record sample_event sample_remembered = (mkReply 204 None None, sample_remembered).
Proof. split; vm_compute; reflexivity. Qed.

Lemma overlap_runs :
  run sample_decode sample_verifier fresh_host (overlapping sample_event (mkReply 204 None None))
    (mkHost sample_remembered [] []).
Proof.
  destruct sample_recordings as [R1 R2].
  change (overlapping sample_event (mkReply 204 None None)) with
    ((((((([] ++ [Called sample_event]) ++ [Called sample_event]) ++ [Succeeded sample_event])
         ++ [Succeeded sample_event]) ++ [Recorded sample_event (mkReply 204 None None)])
       ++ [Recorded sample_event (mkReply 204 None None)])).
  eapply run_snoc; [|exact (stretch_record _ _ _ _ [] [] sample_event [] _ R2)].
  eapply run_snoc; [|exact (stretch_record _ _ _ _ [] [] sample_event [sample_event] _ R1)].
  eapply run_snoc; [|exact (stretch_succeed _ _ _ [] sample_event [] [sample_event] eq_refl)].
  eapply run_snoc; [|exact (stretch_succeed _ _ _ [] sample_event [sample_event] [] eq_refl)].
  eapply run_snoc; [|exact (stretch_call _ _ _ _ _ _ [sample_event] [] _ sample_starts)].
  eapply run_snoc; [apply run_nil|exact (stretch_call _ _ _ _ _ _ [] [] _ sample_starts)].
Qed.

Lemma webhook_handled_once_witness :
  (exists store calls event, served sample_decode sample_verifier flaky store calls /\
    length calls = 2%nat /\ handled flaky calls 1 event /\
    mes_events store !! ev_ID event = Some (ev_fingerprint event)) /\
  (exists actions h, run sample_decode sample_verifier fresh_host actions h /\
    actions = overlapping sample_event (mkReply 204 None None) /\
    forall later h', run sample_decode sample_verifier h later h' ->
      forall event, Called event ∈ later -> ev_ID event <> ev_ID sample_event).
Proof.
  destruct (webhook_handled_once sample_decode sample_verifier) as (_ & Hserial & Hoverlap). split.
  - set (serve := ServeHTTP sample_decode sample_verifier flaky sample_now (sample_received "event-1")).
    destruct (serve (NewMemoryEventStore, [])) as [reply1 [store1 calls1]] eqn:E1.
    destruct (serve (store1, calls1)) as [reply2 [store2 calls2]] eqn:E2.
    assert (Hserved : served sample_decode sample_verifier flaky store2 calls2).
    { eapply served_request; [|exact E2]. eapply served_request; [|exact E1]. apply served_start. }
    assert (Hcalls : exists a b, calls2 = [a; b] /\ ev_fingerprint b <> zero32).
    { unfold serve in E1, E2. vm_compute in E1. injection E1 as <- <- <-. vm_compute in E2. injection E2 as <- <- <-.
      do 2 eexists. split; [reflexivity|]. vm_compute. discriminate. }
    destruct Hcalls as (a & b & -> & Hz). exists store2, [a; b], b. split; [exact Hserved|]. split; [reflexivity|].
    assert (Hb : handled flaky [a; b] 1 b) by (split; reflexivity). split; [exact Hb|].
    exact (proj1 (proj1 (proj2 (Hserial flaky store2 [a; b] Hserved)) 1%nat b Hb Hz)).
  - do 2 eexists. split; [exact overlap_runs|]. split; [reflexivity|]. intros later h' Hl event Hin.
    refine (proj2 (proj2 (proj1 (Hoverlap _ _ overlap_runs) (ev_ID sample_event) (ev_fingerprint sample_event) _)
              later h' Hl) event Hin).
    apply lookup_singleton_eq.
Defined.
