(* ===== verification/QueueStore.v ===== *)
(** The durable queues ([internal/persistence/postgres/queue.go]): the audit rows of
    the inbox, outbox and reconciliation tables and the River jobs that run them.

    The three tables are one finite map keyed by queue and record id.  A row keeps
    the columns [QueueMessage] returns, the columns of its table's unique
    constraint, and its audit columns; [None] is SQL NULL.  Each operation runs in
    one transaction at the instant [now] ([CURRENT_TIMESTAMP]); failures of a
    statement itself belong to the runner.  The check constraints on stored text
    hold because [Validate] accepted the record.  Row locks other transactions hold
    are a parameter of the purge. *)

From S2P Require Import Prelude GoText GoTime GoJson Core Purchase Protection Persistence Repository EntitlementStore.
From stdpp Require Import base list strings gmap sorting.
Local Open Scope Z_scope.

(** ** River jobs ([internal/jobs/river.go]) *)

(* internal/jobs/river.go:6-10: QueueInbox *)
Definition jobs_QueueInbox : string := "iapstack_inbox".
Definition jobs_QueueOutbox : string := "iapstack_outbox".
Definition jobs_QueueReconciliation : string := "iapstack_reconciliation".

(* internal/persistence/postgres/queue.go: riverQueue *)
Definition riverQueue (queue : QueueName) : string :=
  if String.eqb queue QueueInbox then jobs_QueueInbox
  else if String.eqb queue QueueOutbox then jobs_QueueOutbox
  else if String.eqb queue QueueReconciliation then jobs_QueueReconciliation
  else EmptyString.

(** One River job: its queue, the record it names, and its state. *)
Record river_row : Type := mkRiverRow {
  rv_queue : string;
  rv_record : string;
  rv_scheduled : time;
  rv_state : string
}.

(** River cannot run a job in one of these states again. *)
Definition river_terminal (state : string) : bool :=
  contains_str ["cancelled"; "completed"; "discarded"]%string state.

(** ** Tables *)

Record queue_row : Type := mkQueueRow {
  row_content : QueueMessage;
  row_unique : list string;
  row_available : time;
  row_job : option nat;
  row_completed : option time;
  row_failed : option time;
  row_error : option string;
  row_updated : time
}.

Record queue_db : Type := mkQueueDb {
  records : gmap (QueueName * string) queue_row;
  river : gmap nat river_row;
  river_next : nat
}.

Definition with_records (f : gmap (QueueName * string) queue_row -> gmap (QueueName * string) queue_row)
    (db : queue_db) : queue_db := mkQueueDb (f (records db)) (river db) (river_next db).

(** The record of a queue with these unique columns. *)
Definition find_unique (queue : QueueName) (unique : list string) (db : queue_db)
    : option ((QueueName * string) * queue_row) :=
  List.find (fun entry => String.eqb entry.1.1 queue && bool_decide (row_unique entry.2 = unique))
    (map_to_list (records db)).

(* internal/persistence/postgres/queue.go: queueTable *)
Definition queueTable (queue : QueueName) : result string :=
  if String.eqb queue QueueInbox then Ok "inbox_messages"%string
  else if String.eqb queue QueueOutbox then Ok "outbox_events"%string
  else if String.eqb queue QueueReconciliation then Ok "reconciliation_jobs"%string
  else Err (Errorf "unsupported queue %q" [AStr queue]).

(* internal/persistence/postgres/queue.go: queueCompletion *)
Definition queueCompletion (queue : QueueName) : result (string * string) :=
  let* table := queueTable queue in
  if String.eqb queue QueueOutbox then Ok (table, "delivered_at"%string) else Ok (table, "processed_at"%string).

Section Operations.
Context (now : time).
(** Foreign keys of the new rows, and River's refusal to insert a job. *)
Context (application_exists : ProjectID -> ApplicationID -> bool).
Context (customer_exists : ProjectID -> CustomerID -> bool).
Context (river_refuses : option gerror).

(** A driver error as the handlers report it. *)
Definition queue_error {A} (operation : string) (e : pg_error) : Tx queue_db A :=
  tx_err (default (New operation) (classifyError operation (Some e))).

(** The message of a failed insertion of a job. *)
Definition enqueue_format (queue : QueueName) : string :=
  if String.eqb queue QueueInbox then "enqueue inbox River job: %w"
  else if String.eqb queue QueueOutbox then "enqueue outbox River job: %w"
  else "enqueue reconciliation River job: %w".

(** The record is locked, so the job is inserted and linked once. *)
(* internal/persistence/postgres/queue.go: transaction.ensureRiverJob *)
Definition queue_ensureRiverJob (queue : QueueName) (recordID : string) (availableAt : time) : Tx queue_db unit :=
  do _ <- tx_lift (queueTable queue);
  fun db =>
  match records db !! (queue, recordID) with
  | None => queue_error "lock durable job record" ErrNoRows db
  | Some row =>
      match row_job row with
      | Some _ => (Ok tt, db)
      | None =>
          match river_refuses with
          | Some e => (Err (Wrapf (enqueue_format queue) [] e), db)
          | None =>
              let job := river_next db in
              (Ok tt, mkQueueDb
                 (<[ (queue, recordID) := mkQueueRow (row_content row) (row_unique row) (row_available row)
                       (Some job) (row_completed row) (row_failed row) (row_error row) now ]> (records db))
                 (<[ job := mkRiverRow (riverQueue queue) recordID availableAt "available" ]> (river db))
                 (S job))
          end
      end
  end.

(** The insertion of a record whose unique columns are new. *)
Definition insert_record (operation : string) (queue : QueueName) (id : string) (row : queue_row)
    : Tx queue_db unit :=
  fun db => match records db !! (queue, id) with
            | Some _ => queue_error operation (PgError "23505" EmptyString) db
            | None => (Ok tt, with_records <[ (queue, id) := row ]> db)
            end.

Definition inbox_content (message : InboxMessage) : QueueMessage :=
  mkQueueMessage QueueInbox (im_ID message) (im_ProjectID message) (im_ApplicationID message) EmptyString
    (im_Provider message) (im_Kind message) (im_ContentType message) (im_Payload message) EmptyString
    (im_ReceivedAt message) false false.
Definition inbox_unique (message : InboxMessage) : list string :=
  [im_ApplicationID message; Fingerprint (im_Payload message)].

(* internal/persistence/postgres/queue.go: transaction.requeueFailedInbox *)
Definition requeueFailedInbox (messageID : string) (availableAt : time) : Tx queue_db unit :=
  fun db => match records db !! (QueueInbox, messageID) with
  | Some row =>
      match row_failed row, row_completed row with
      | Some _, None =>
          (Ok tt, with_records <[ (QueueInbox, messageID) :=
             mkQueueRow (row_content row) (row_unique row)
               (Z.max (qm_OccurredAt (row_content row)) (normalizeTime availableAt))
               None None None None now ]> db)
      | _, _ => (Ok tt, db)
      end
  | None => (Ok tt, db)
  end.

(* internal/persistence/postgres/queue.go: transaction.SaveInboxMessage *)
Definition pg_SaveInboxMessage (message : InboxMessage) : Tx queue_db string :=
  tx_check (InboxMessage_Validate message) (
  do messageID <- (fun db =>
    match find_unique QueueInbox (inbox_unique message) db with
    | Some (key, _) =>
        (* DO NOTHING: the stored record is resolved *)
        (do _ <- requeueFailedInbox key.2 (im_AvailableAt message); tx_ret key.2) db
    | None =>
        if negb (application_exists (im_ProjectID message) (im_ApplicationID message))
        then queue_error "save inbox message" (PgError "23503" "inbox_messages_application_fk") db
        else
        (do _ <- insert_record "save inbox message" QueueInbox (im_ID message)
                   (mkQueueRow (inbox_content message) (inbox_unique message) (im_AvailableAt message)
                      None None None None now);
         tx_ret (im_ID message)) db
    end);
  do _ <- queue_ensureRiverJob QueueInbox messageID (im_AvailableAt message);
  tx_ret messageID).

Definition reconciliation_content (job : ReconciliationJob) : QueueMessage :=
  mkQueueMessage QueueReconciliation (rj_ID job) (rj_ProjectID job) (rj_ApplicationID job)
    (rj_CustomerID job) EmptyString EmptyString EmptyString (rj_Payload job) EmptyString now false false.
Definition reconciliation_unique (job : ReconciliationJob) : list string :=
  [rj_ApplicationID job; rj_CustomerID job; Fingerprint (rj_Payload job)].

(** The upsert reopens a completed generation; a row it does not touch is resolved
    by the second query. *)
(* internal/persistence/postgres/queue.go: transaction.SaveReconciliationJob *)
Definition pg_SaveReconciliationJob (job : ReconciliationJob) : Tx queue_db string :=
  tx_check (ReconciliationJob_Validate job) (
  do jobID <- (fun db =>
    match find_unique QueueReconciliation (reconciliation_unique job) db with
    | Some (key, row) =>
        match row_completed row, row_failed row with
        | Some _, None =>
            (Ok key.2, with_records <[ key := mkQueueRow (row_content row) (row_unique row) (row_available row)
               (row_job row) None (row_failed row) (row_error row) now ]> db)
        | _, _ => (Ok key.2, db)
        end
    | None =>
        if negb (application_exists (rj_ProjectID job) (rj_ApplicationID job)
                 && customer_exists (rj_ProjectID job) (rj_CustomerID job))
        then queue_error "save reconciliation job" (PgError "23503" "reconciliation_jobs_customer_fk") db
        else
        (do _ <- insert_record "save reconciliation job" QueueReconciliation (rj_ID job)
                   (mkQueueRow (reconciliation_content job) (reconciliation_unique job) (rj_AvailableAt job)
                      None None None None now);
         tx_ret (rj_ID job)) db
    end);
  do _ <- queue_ensureRiverJob QueueReconciliation jobID (rj_AvailableAt job);
  tx_ret jobID).

(** What a row is read as. *)
Definition read_row (row : queue_row) : QueueMessage :=
  let m := row_content row in
  mkQueueMessage (qm_Queue m) (qm_ID m) (qm_ProjectID m) (qm_ApplicationID m) (qm_CustomerID m)
    (qm_Provider m) (qm_Kind m) (qm_ContentType m) (qm_ProtectedPayload m) (qm_JSONPayload m)
    (qm_OccurredAt m) (bool_decide (is_Some (row_completed row))) (bool_decide (is_Some (row_failed row))).

(* internal/persistence/postgres/queue.go: protectedValue *)
Definition protectedValue (ciphertext fingerprint keyID : string) : result ProtectedValue :=
  if negb (len fingerprint =? 32) then Err (New "protected fingerprint has invalid length")
  else let value := mkProtected ciphertext fingerprint keyID in
       try* ProtectedValue_Validate value in Ok value.

Definition load_row (operation : string) (queue : QueueName) (id : string) (check : queue_row -> error)
    : Tx queue_db QueueMessage :=
  fun db => match records db !! (queue, id) with
            | None => queue_error operation ErrNoRows db
            | Some row => match check row with Some e => (Err e, db) | None => (Ok (read_row row), db) end
            end.

Definition payload_check (format : string) (row : queue_row) : error :=
  let value := qm_ProtectedPayload (row_content row) in
  wrap_err format []
    (match protectedValue (Ciphertext value) (Fingerprint value) (KeyID value) with
     | Ok _ => None | Err e => Some e end).

(* internal/persistence/postgres/queue.go: transaction.inboxMessage *)
Definition inboxMessage (id : string) : Tx queue_db QueueMessage :=
  load_row "load inbox message" QueueInbox id (payload_check "validate inbox protected payload: %w").

(* internal/persistence/postgres/queue.go: transaction.outboxMessage *)
Definition outboxMessage (id : string) : Tx queue_db QueueMessage :=
  load_row "load outbox message" QueueOutbox id (fun row =>
    refuse_if (negb (json_valid (qm_JSONPayload (row_content row))))
      (New "durable outbox payload is invalid JSON")).

(* internal/persistence/postgres/queue.go: transaction.reconciliationMessage *)
Definition reconciliationMessage (id : string) : Tx queue_db QueueMessage :=
  load_row "load reconciliation message" QueueReconciliation id
    (payload_check "validate reconciliation protected payload: %w").

(* internal/persistence/postgres/queue.go: transaction.QueueMessage *)
Definition pg_QueueMessage (queue : QueueName) (id : string) : Tx queue_db QueueMessage :=
  tx_check (errors_Join [QueueName_Validate queue; validateText "queue record ID" id]) (
  if String.eqb queue QueueInbox then inboxMessage id
  else if String.eqb queue QueueOutbox then outboxMessage id
  else if String.eqb queue QueueReconciliation then reconciliationMessage id
  else tx_err (Errorf "load queue message: unsupported queue %q" [AStr queue])).

(** One audit update: the row it may change, or a conflict when it changes none. *)
(* internal/persistence/postgres/queue.go: transaction.changeQueueOutcome *)
Definition changeQueueOutcome (queue : QueueName) (id : string) (change : queue_row -> option queue_row)
    : Tx queue_db unit :=
  fun db =>
  match records db !! (queue, id) with
  | Some row => match change row with
                | Some row' => (Ok tt, with_records <[ (queue, id) := row' ]> db)
                | None => (Err (Wrapf "change queue outcome: %w" [] ErrConflict), db)
                end
  | None => (Err (Wrapf "change queue outcome: %w" [] ErrConflict), db)
  end.

(** COALESCE. *)
Definition coalesce {A} (a : option A) (b : A) : option A := Some (default b a).

(* internal/persistence/postgres/queue.go: transaction.CompleteQueue *)
Definition pg_CompleteQueue (completion : QueueCompletion) : Tx queue_db unit :=
  tx_check (QueueCompletion_Validate completion) (
  do _ <- tx_lift (queueCompletion (qc_Queue completion));
  changeQueueOutcome (qc_Queue completion) (qc_ID completion) (fun row =>
    match row_failed row with
    | Some _ => None
    | None => Some (mkQueueRow (row_content row) (row_unique row) (row_available row) (row_job row)
                (coalesce (row_completed row) (qc_CompletedAt completion)) None None
                (Z.max (row_updated row) (qc_CompletedAt completion)))
    end)).

(* internal/persistence/postgres/queue.go: transaction.FailQueue *)
Definition pg_FailQueue (failure : QueueFailure) : Tx queue_db unit :=
  tx_check (QueueFailure_Validate failure) (
  do _ <- tx_lift (queueCompletion (qf_Queue failure));
  changeQueueOutcome (qf_Queue failure) (qf_ID failure) (fun row =>
    match row_completed row with
    | Some _ => None
    | None => Some (mkQueueRow (row_content row) (row_unique row) (row_available row) (row_job row) None
                (coalesce (row_failed row) (qf_FailedAt failure))
                (coalesce (row_error row) (qf_ErrorCode failure))
                (Z.max (row_updated row) (qf_FailedAt failure)))
    end)).

(** ** Retention *)

(** The outcome of a record is older than the cutoff and its job cannot run. *)
Definition expired (before : time) (db : queue_db) (entry : (QueueName * string) * queue_row) : bool :=
  let row := entry.2 in
  let old (t : option time) := match t with Some t => t <? before | None => false end in
  (old (row_completed row) || old (row_failed row))
  && match row_job row with
     | None => true
     | Some job => match river db !! job with None => true | Some r => river_terminal (rv_state r) end
     end.

(** ORDER BY COALESCE(completed, failed), id. *)
Definition retention_key (entry : (QueueName * string) * queue_row) : Z :=
  match row_completed entry.2 with Some t => t | None => default 0 (row_failed entry.2) end.
Definition string_le (a b : string) : bool := match String.compare a b with Gt => false | _ => true end.
Definition retention_le (a b : (QueueName * string) * queue_row) : bool :=
  (retention_key a <? retention_key b)
  || ((retention_key a =? retention_key b) && string_le a.1.2 b.1.2).

(** The records of one queue to delete: unlocked, oldest first, at most a batch. *)
Definition expired_batch (locked : QueueName * string -> bool) (queue : QueueName) (before : time)
    (batchSize : Z) (db : queue_db) : list (QueueName * string) :=
  let candidates := List.filter (fun entry => String.eqb entry.1.1 queue && expired before db entry
                                         && negb (locked entry.1))
                      (map_to_list (records db)) in
  map fst (take (Z.to_nat batchSize) (merge_sort (fun a b => Is_true (retention_le a b)) candidates)).

Definition delete_records (keys : list (QueueName * string)) (m : gmap (QueueName * string) queue_row)
    : gmap (QueueName * string) queue_row := fold_right (fun key m => delete key m) m keys.

(* internal/persistence/postgres/queue.go: transaction.PurgeTerminalQueueRecords *)
Definition pg_PurgeTerminalQueueRecords (locked : QueueName * string -> bool) (before : time) (batchSize : Z)
    : Tx queue_db Z :=
  if IsZero before then tx_err (New "terminal queue retention cutoff is required")
  else if batchSize <=? 0 then tx_err (New "terminal queue retention batch size must be positive")
  else fun db =>
    let keys := expired_batch locked QueueInbox before batchSize db
                ++ expired_batch locked QueueReconciliation before batchSize db
                ++ expired_batch locked QueueOutbox before batchSize db in
    (Ok (Z.of_nat (length keys)), with_records (delete_records keys) db).
End Operations.

(** ** Life of a record *)

Inductive record_state : Type := Absent | Pending | Completed | Failed.

Definition row_state (row : option queue_row) : record_state :=
  match row with
  | None => Absent
  | Some row => match row_completed row, row_failed row with
                | Some _, _ => Completed
                | None, Some _ => Failed
                | None, None => Pending
                end
  end.
Definition state_of (db : queue_db) (key : QueueName * string) : record_state := row_state (records db !! key).

(** What the tables' constraints and the operations keep: a record has at most one
    outcome and an error code only with a failure, is stored under its own queue and
    id, is the only one of its queue with its unique columns, and has its own job. *)
Record row_wf (db : queue_db) (key : QueueName * string) (row : queue_row) : Prop := {
  rw_outcome : row_completed row = None \/ row_failed row = None;
  rw_error : row_error row <> None -> row_failed row <> None;
  rw_key : (qm_Queue (row_content row), qm_ID (row_content row)) = key;
  rw_unique : forall key' row', records db !! key' = Some row' -> key'.1 = key.1 ->
    row_unique row' = row_unique row -> key' = key;
  rw_job : exists job, row_job row = Some job /\ (job < river_next db)%nat /\
    forall key' row', records db !! key' = Some row' -> row_job row' = Some job -> key' = key
}.
Definition queue_wf (db : queue_db) : Prop :=
  forall key row, records db !! key = Some row -> row_wf db key row.

Lemma find_unique_some queue unique db key row :
  find_unique queue unique db = Some (key, row) ->
  records db !! key = Some row /\ key.1 = queue /\ row_unique row = unique.
Proof.
  unfold find_unique. intros H. apply List.find_some in H as [Hin Hc].
  apply andb_true_iff in Hc as [Hq Hu]. simpl in *. apply String.eqb_eq in Hq. apply bool_decide_eq_true in Hu.
  apply list_elem_of_In, elem_of_map_to_list in Hin. done.
Qed.

Lemma find_unique_none queue unique db key row :
  find_unique queue unique db = None -> records db !! key = Some row -> key.1 = queue ->
  row_unique row <> unique.
Proof.
  unfold find_unique. intros H Hrow Hq Hu.
  apply elem_of_map_to_list, list_elem_of_In in Hrow.
  apply (List.find_none _ _ H) in Hrow. simpl in Hrow. subst.
  by rewrite String.eqb_refl, bool_decide_eq_true_2 in Hrow.
Qed.

(** Replacing the audit columns of a record keeps the database well formed. *)
Lemma update_wf db key row row' :
  queue_wf db -> records db !! key = Some row ->
  row_content row' = row_content row -> row_unique row' = row_unique row -> row_job row' = row_job row ->
  (row_completed row' = None \/ row_failed row' = None) -> (row_error row' <> None -> row_failed row' <> None) ->
  queue_wf (with_records <[ key := row' ]> db).
Proof.
  intros Hwf Hrow Hc Hu Hj Ho He k r Hk. cbn [with_records records] in Hk.
  assert (Hold : forall k' r', <[key := row']> (records db) !! k' = Some r' ->
            exists r0, records db !! k' = Some r0 /\ row_unique r' = row_unique r0 /\ row_job r' = row_job r0).
  { intros k' r' [[<- <-]|[_ H]]%lookup_insert_Some; eauto. }
  assert (Hwf' : forall r0, records db !! k = Some r0 -> row_unique r = row_unique r0 -> row_job r = row_job r0 ->
            (row_completed r = None \/ row_failed r = None) -> (row_error r <> None -> row_failed r <> None) ->
            (qm_Queue (row_content r), qm_ID (row_content r)) = k ->
            row_wf (with_records <[key := row']> db) k r).
  { intros r0 Hr0 Hu0 Hj0 H1 H2 H3. destruct (Hwf k r0 Hr0) as [_ _ _ Hun (job & Hjob & Hlt & Hown)].
    split; auto.
    - intros k' r' Hk' Hq Hue. cbn [with_records records] in Hk'. destruct (Hold _ _ Hk') as (r1 & Hr1 & Hu1 & _).
      apply (Hun k' r1); congruence.
    - exists job. split; [congruence|]. split; [done|]. intros k' r' Hk' Hje. cbn [with_records records] in Hk'.
      destruct (Hold _ _ Hk') as (r1 & Hr1 & _ & Hj1). apply (Hown k' r1); congruence. }
  apply lookup_insert_Some in Hk as [[<- <-]|[Hne Hk]].
  - apply (Hwf' row); auto. rewrite Hc. apply (rw_key _ _ _ (Hwf _ _ Hrow)).
  - destruct (Hwf k r Hk) as [H1 H2 H3 _ _]. by apply (Hwf' r).
Qed.

(** A new record, or one whose job was dropped, with a new job. *)
Lemma link_wf db m0 key row :
  queue_wf db ->
  (forall k, k <> key -> m0 !! k = records db !! k) ->
  (forall row0, records db !! key = Some row0 -> row_unique row0 = row_unique row) ->
  (records db !! key = None -> forall k r, records db !! k = Some r -> k.1 = key.1 -> row_unique r <> row_unique row) ->
  (row_completed row = None \/ row_failed row = None) -> (row_error row <> None -> row_failed row <> None) ->
  (qm_Queue (row_content row), qm_ID (row_content row)) = key -> row_job row = Some (river_next db) ->
  forall river', queue_wf (mkQueueDb (<[ key := row ]> m0) river' (S (river_next db))).
Proof.
  intros Hwf Hsame Hold Hnew Ho He Hk Hj river' k r Hr. cbn [records] in Hr.
  assert (Hother : forall k' r', k' <> key -> <[key := row]> m0 !! k' = Some r' -> records db !! k' = Some r').
  { intros k' r' Hne H. rewrite lookup_insert_ne in H by done. by rewrite Hsame in H. }
  assert (Hun : forall k' r', k' <> key -> records db !! k' = Some r' -> k'.1 = key.1 -> row_unique r' <> row_unique row).
  { intros k' r' Hne Hr' Hq Hu. destruct (records db !! key) as [row0|] eqn:E; [|by eapply Hnew].
    apply Hne. apply (rw_unique _ _ _ (Hwf _ _ E) k' r' Hr' Hq). rewrite (Hold row0 eq_refl). congruence. }
  assert (Hjob : forall k' r', records db !! k' = Some r' -> row_job r' <> Some (river_next db)).
  { intros k' r' Hr' Hjj. destruct (rw_job _ _ _ (Hwf _ _ Hr')) as (job & Hjob & Hlt & _).
    rewrite Hjj in Hjob. injection Hjob as <-. lia. }
  apply lookup_insert_Some in Hr as [[<- <-]|[Hne Hr]].
  - split; auto.
    + intros k' r' Hk' Hq Hu. destruct (decide (k' = key)) as [|Hne]; [done|]. exfalso. by eapply Hun; eauto.
    + exists (river_next db). split; [done|]. split; [simpl; lia|]. intros k' r' Hk' Hje.
      destruct (decide (k' = key)) as [|Hne]; [done|]. exfalso. by eapply Hjob; eauto.
  - rewrite Hsame in Hr by done. destruct (Hwf k r Hr) as [H1 H2 H3 H4 (job & Hjb & Hlt & Hown)]. split; auto.
    + intros k' r' Hk' Hq Hu. cbn [records] in Hk'. destruct (decide (k' = key)) as [->|Hne'].
      * rewrite lookup_insert_eq in Hk'. injection Hk' as <-. exfalso. apply (Hun k r (not_eq_sym Hne) Hr); congruence.
      * apply (H4 k' r'); auto.
    + exists job. split; [done|]. split; [simpl; lia|]. intros k' r' Hk' Hje. cbn [records] in Hk'.
      destruct (decide (k' = key)) as [->|Hne'].
      * rewrite lookup_insert_eq in Hk'. injection Hk' as <-. rewrite Hj in Hje. injection Hje as <-. lia.
      * apply (Hown k' r'); auto.
Qed.

(** What saving does to the state of a record, in each queue. *)
Definition inbox_next (s : record_state) : record_state :=
  match s with Completed => Completed | _ => Pending end.
Definition reconciliation_next (s : record_state) : record_state :=
  match s with Failed => Failed | _ => Pending end.

(** A record was saved: it has the unique columns asked for, its state moved by
    [next], it has a job, which is a new runnable one when [enqueues] says so, and
    no other record changed. *)
Record saved (queue : QueueName) (unique : list string) (next : record_state -> record_state)
    (enqueues : record_state -> bool) (available : time) (db db' : queue_db) (id : string) : Prop := {
  sv_wf : queue_wf db';
  sv_row : exists row job, records db' !! (queue, id) = Some row /\ row_unique row = unique /\
    row_job row = Some job /\
    (enqueues (state_of db (queue, id)) = true ->
     river db' !! job = Some (mkRiverRow (riverQueue queue) id available "available"));
  sv_state : state_of db' (queue, id) = next (state_of db (queue, id));
  sv_others : forall key, key <> (queue, id) -> records db' !! key = records db !! key
}.

Section Specifications.
Context (now : time).
Context (application_exists : ProjectID -> ApplicationID -> bool).
Context (customer_exists : ProjectID -> CustomerID -> bool).
Context (river_refuses : option gerror).

(** A record that has a job keeps it; otherwise it gets a new one. *)
Lemma ensure_ok queue id available db db' :
  queue_ensureRiverJob now river_refuses queue id available db = (Ok tt, db') ->
  exists row, records db !! (queue, id) = Some row /\
    ((row_job row <> None /\ db' = db) \/
     (row_job row = None /\
      db' = mkQueueDb
        (<[ (queue, id) := mkQueueRow (row_content row) (row_unique row) (row_available row)
              (Some (river_next db)) (row_completed row) (row_failed row) (row_error row) now ]> (records db))
        (<[ river_next db := mkRiverRow (riverQueue queue) id available "available" ]> (river db))
        (S (river_next db)))).
Proof.
  unfold queue_ensureRiverJob. intros H. apply tx_bind_ok in H as (table & db1 & Ht & H).
  apply tx_lift_ok in Ht as [_ <-]. destruct (records db !! (queue, id)) as [row|] eqn:Hr; [|done].
  exists row. split; [done|]. destruct (row_job row) as [job|]; [injection H as <-; by left|].
  destruct river_refuses; [done|]. injection H as <-. by right.
Qed.

(** Insert a record without a job, then give it one. *)
Lemma insert_saved operation queue id row available next enqueues db db1 db' :
  queue_wf db -> next Absent = Pending ->
  (forall k r, records db !! k = Some r -> k.1 = queue -> row_unique r <> row_unique row) ->
  (qm_Queue (row_content row), qm_ID (row_content row)) = (queue, id) ->
  row_job row = None -> row_completed row = None -> row_failed row = None -> row_error row = None ->
  insert_record operation queue id row db = (Ok tt, db1) ->
  queue_ensureRiverJob now river_refuses queue id available db1 = (Ok tt, db') ->
  saved queue (row_unique row) next enqueues available db db' id.
Proof.
  intros Hwf Hnext Hfresh Hkey Hj Hc Hf He Hins Hens. unfold insert_record in Hins.
  destruct (records db !! (queue, id)) as [|] eqn:Habsent; [done|]. injection Hins as <-.
  apply ensure_ok in Hens as (row0 & Hrow0 & Hcase). cbn [with_records records river river_next] in *.
  rewrite lookup_insert_eq in Hrow0. injection Hrow0 as <-. destruct Hcase as [[Hno _]|[_ ->]]; [congruence|].
  split.
  - eapply (link_wf db); cbn [row_completed row_failed row_error row_content row_job row_unique]; auto.
    + intros k Hk. by rewrite lookup_insert_ne.
    + intros row0 Hrow0. congruence.
  - eexists _, (river_next db). cbn [records river]. rewrite lookup_insert_eq. split; [reflexivity|].
    split_and!; [done|done|]. intros _. by rewrite lookup_insert_eq.
  - unfold state_of. cbn [records]. rewrite lookup_insert_eq, Habsent. cbn. by rewrite Hc, Hf.
  - intros key Hne. cbn [records]. by rewrite !lookup_insert_ne.
Qed.

(** A stored record that keeps its job. *)
Lemma kept_saved queue id row row' available next enqueues db db1 db' :
  queue_wf db1 -> records db !! (queue, id) = Some row -> records db1 = <[ (queue, id) := row' ]> (records db) ->
  row_unique row' = row_unique row -> row_job row' <> None ->
  row_state (Some row') = next (row_state (Some row)) -> enqueues (row_state (Some row)) = false ->
  queue_ensureRiverJob now river_refuses queue id available db1 = (Ok tt, db') ->
  saved queue (row_unique row) next enqueues available db db' id.
Proof.
  intros Hwf Hrow Hrec Hu Hj Hs He Hens. apply ensure_ok in Hens as (row0 & Hrow0 & Hcase).
  rewrite Hrec, lookup_insert_eq in Hrow0. injection Hrow0 as <-. destruct Hcase as [[_ ->]|[Hno _]]; [|done].
  destruct (row_job row') as [job|] eqn:Hjob; [|done]. split; [done| | |].
  - exists row', job. rewrite Hrec, lookup_insert_eq. split_and!; auto.
    intros Hq. unfold state_of in Hq. rewrite Hrow in Hq. congruence.
  - unfold state_of. by rewrite Hrec, lookup_insert_eq, Hrow.
  - intros key Hne. rewrite Hrec. by rewrite lookup_insert_ne.
Qed.

Lemma save_inbox_saved message db id db' :
  queue_wf db ->
  pg_SaveInboxMessage now application_exists river_refuses message db = (Ok id, db') ->
  saved QueueInbox (inbox_unique message) inbox_next (fun s => match s with Absent | Failed => true | _ => false end)
    (im_AvailableAt message) db db' id.
Proof.
  intros Hwf H. unfold pg_SaveInboxMessage in H. apply tx_check_ok in H as [_ H].
  apply tx_bind_ok in H as (messageID & db1 & Hres & H). apply tx_bind_ok in H as ([] & db2 & Hens & H).
  apply tx_ret_ok in H as [<- <-].
  destruct (find_unique QueueInbox (inbox_unique message) db) as [[[queue stored] row]|] eqn:Hfind.
  - apply find_unique_some in Hfind as (Hrow & Hq & Hu). cbn in Hq. subst queue. cbn [snd] in Hres.
    apply tx_bind_ok in Hres as ([] & db0 & Hreq & Hret). apply tx_ret_ok in Hret as [<- <-].
    destruct (Hwf _ _ Hrow) as [Ho _ Hk _ (job & Hjob & _)]. unfold requeueFailedInbox in Hreq. rewrite Hrow in Hreq.
    rewrite <- Hu. destruct (row_failed row) as [failed|] eqn:Hf, (row_completed row) as [completed|] eqn:Hc;
      try (destruct Ho; done).
    2,3: injection Hreq as <-; eapply (kept_saved _ _ row row); try exact Hens; eauto; cbn;
      rewrite ?Hc, ?Hf; [by rewrite insert_id|congruence|done|done].
    injection Hreq as <-. apply ensure_ok in Hens as (row0 & Hrow0 & Hcase).
    cbn [with_records records river river_next] in *. rewrite lookup_insert_eq in Hrow0. injection Hrow0 as <-.
    destruct Hcase as [[Hno _]|[_ ->]]; [done|]. cbn [row_content row_unique row_available row_completed row_failed row_error].
    split.
    + eapply (link_wf db); cbn [row_completed row_failed row_error row_content row_job row_unique]; auto.
      * intros k Hne. by rewrite lookup_insert_ne.
      * intros r Hr. congruence.
      * congruence.
    + eexists _, (river_next db). cbn [records river]. rewrite lookup_insert_eq. split; [reflexivity|].
      split_and!; [done|done|]. intros _. by rewrite lookup_insert_eq.
    + unfold state_of. cbn [records]. rewrite lookup_insert_eq, Hrow. cbn. by rewrite Hc, Hf.
    + intros key Hne. cbn [records]. by rewrite !lookup_insert_ne.
  - destruct (negb _) in Hres; [done|]. apply tx_bind_ok in Hres as ([] & db0 & Hins & Hret).
    apply tx_ret_ok in Hret as [<- <-]. refine (insert_saved _ _ _ (mkQueueRow (inbox_content message) (inbox_unique message) (im_AvailableAt message)
      None None None None now) _ inbox_next _ db db0 db2 Hwf eq_refl _ eq_refl eq_refl eq_refl eq_refl eq_refl Hins Hens).
    intros k r Hr Hq. by eapply find_unique_none.
Qed.

Lemma save_reconciliation_saved job db id db' :
  queue_wf db ->
  pg_SaveReconciliationJob now application_exists customer_exists river_refuses job db = (Ok id, db') ->
  saved QueueReconciliation (reconciliation_unique job) reconciliation_next
    (fun s => match s with Absent => true | _ => false end) (rj_AvailableAt job) db db' id.
Proof.
  intros Hwf H. unfold pg_SaveReconciliationJob in H. apply tx_check_ok in H as [_ H].
  apply tx_bind_ok in H as (jobID & db1 & Hres & H). apply tx_bind_ok in H as ([] & db2 & Hens & H).
  apply tx_ret_ok in H as [<- <-].
  destruct (find_unique QueueReconciliation (reconciliation_unique job) db) as [[[queue stored] row]|] eqn:Hfind.
  - apply find_unique_some in Hfind as (Hrow & Hq & Hu). cbn in Hq. subst queue. cbn [snd] in Hres.
    destruct (Hwf _ _ Hrow) as [Ho Herr Hk _ (job0 & Hjob & _)]. rewrite <- Hu.
    destruct (row_completed row) as [completed|] eqn:Hc, (row_failed row) as [failed|] eqn:Hf;
      try (destruct Ho; done).
    1: { injection Hres as <- <-. eapply (kept_saved _ _ row); try exact Hens; eauto;
      [eapply update_wf; eauto; cbn; auto|..]; cbn; rewrite ?Hc; (reflexivity || congruence). }
    all: injection Hres as <- <-; eapply (kept_saved _ _ row row); try exact Hens; eauto; cbn;
      rewrite ?Hc, ?Hf; [by rewrite insert_id|congruence|done|done].
  - destruct (negb _) in Hres; [done|]. apply tx_bind_ok in Hres as ([] & db0 & Hins & Hret).
    apply tx_ret_ok in Hret as [<- <-]. refine (insert_saved _ _ _ (mkQueueRow (reconciliation_content now job) (reconciliation_unique job) (rj_AvailableAt job)
      None None None None now) _ reconciliation_next _ db db0 db2 Hwf eq_refl _ eq_refl eq_refl eq_refl eq_refl eq_refl Hins Hens).
    intros k r Hr Hq. by eapply find_unique_none.
Qed.
End Specifications.

(** The audit operations move one record, and fail on the opposite outcome. *)
Record moved (key : QueueName * string) (from to : record_state) (db db' : queue_db) : Prop := {
  mv_wf : queue_wf db';
  mv_from : state_of db key = Pending \/ state_of db key = from;
  mv_to : state_of db' key = to;
  mv_content : option_map row_content (records db' !! key) = option_map row_content (records db !! key);
  mv_others : forall k, k <> key -> records db' !! k = records db !! k;
  mv_river : river db' = river db
}.

Lemma outcome_ok queue id change db db' :
  changeQueueOutcome queue id change db = (Ok tt, db') ->
  exists row row', records db !! (queue, id) = Some row /\ change row = Some row' /\
    db' = with_records <[ (queue, id) := row' ]> db.
Proof.
  unfold changeQueueOutcome. destruct (records db !! (queue, id)) as [row|] eqn:Hr; [|done].
  destruct (change row) as [row'|] eqn:Hc; [|done]. intros [= <-]. eauto 6.
Qed.

Lemma complete_moved completion db db' :
  queue_wf db -> pg_CompleteQueue completion db = (Ok tt, db') ->
  moved (qc_Queue completion, qc_ID completion) Completed Completed db db'.
Proof.
  intros Hwf H. unfold pg_CompleteQueue in H. apply tx_check_ok in H as [_ H].
  apply tx_bind_ok in H as (x & db1 & Hq & H). apply tx_lift_ok in Hq as [_ <-].
  apply outcome_ok in H as (row & row' & Hrow & Hch & ->).
  destruct (row_failed row) eqn:Hf; [done|]. injection Hch as <-. split.
  - eapply update_wf; eauto; cbn; auto.
  - unfold state_of. rewrite Hrow. cbn. rewrite Hf. destruct (row_completed row); auto.
  - unfold state_of. cbn [with_records records]. by rewrite lookup_insert_eq.
  - cbn [with_records records]. by rewrite lookup_insert_eq, Hrow.
  - intros k Hk. cbn [with_records records]. by rewrite lookup_insert_ne.
  - done.
Qed.

Lemma fail_moved failure db db' :
  queue_wf db -> pg_FailQueue failure db = (Ok tt, db') ->
  moved (qf_Queue failure, qf_ID failure) Failed Failed db db'.
Proof.
  intros Hwf H. unfold pg_FailQueue in H. apply tx_check_ok in H as [_ H].
  apply tx_bind_ok in H as (x & db1 & Hq & H). apply tx_lift_ok in Hq as [_ <-].
  apply outcome_ok in H as (row & row' & Hrow & Hch & ->).
  destruct (row_completed row) eqn:Hc; [done|]. injection Hch as <-. split.
  - eapply update_wf; eauto; cbn; auto.
  - unfold state_of. rewrite Hrow. cbn. rewrite Hc. destruct (row_failed row); auto.
  - unfold state_of. cbn [with_records records]. by rewrite lookup_insert_eq.
  - cbn [with_records records]. by rewrite lookup_insert_eq, Hrow.
  - intros k Hk. cbn [with_records records]. by rewrite lookup_insert_ne.
  - done.
Qed.

#[export] Instance record_state_decision : EqDecision record_state.
Proof. solve_decision. Defined.

(** What an audit operation answers by the state of its record: a pending record
    takes the outcome, one that has it keeps it (only the time of its last update
    moves), and the other outcome or no record is a conflict that changes nothing. *)
Definition audited (same other : record_state) (key : QueueName * string) (at_ : time)
    (code : option string) (db : queue_db) (answer : result unit * queue_db) : Prop :=
  if decide (state_of db key = Pending) then exists db', answer = (Ok tt, db') /\ state_of db' key = same
  else if decide (state_of db key = same) then
    exists row, records db !! key = Some row /\
      answer = (Ok tt, mkQueueDb (<[key := mkQueueRow (row_content row) (row_unique row) (row_available row)
                  (row_job row) (row_completed row) (row_failed row)
                  (match row_error row with Some e => Some e | None => code end)
                  (Z.max (row_updated row) at_)]> (records db)) (river db) (river_next db))
  else exists e, answer = (Err e, db) /\ errors_Is e "persistence.ErrConflict" = true.

Lemma audit_table name :
  QueueName_Validate name = None -> exists columns, queueCompletion name = Ok columns.
Proof.
  unfold QueueName_Validate, queueCompletion, queueTable. intros H.
  destruct (contains_str _ name) eqn:Hc; [|done]. apply contains_str_In in Hc.
  destruct Hc as [<-|[<-|[<-|[]]]]; eexists; reflexivity.
Qed.

Lemma complete_audited completion db :
  queue_wf db -> QueueCompletion_Validate completion = None ->
  audited Completed Failed (qc_Queue completion, qc_ID completion) (qc_CompletedAt completion) None db
    (pg_CompleteQueue completion db).
Proof.
  intros Hwf Hv. unfold pg_CompleteQueue. rewrite Hv. cbn [tx_check].
  unfold QueueCompletion_Validate in Hv. apply errors_Join_nil, Forall_cons in Hv as [Hq _].
  destruct (audit_table _ Hq) as [columns Hc]. unfold tx_bind, tx_lift. rewrite Hc. unfold changeQueueOutcome, audited.
  set (key := (qc_Queue completion, qc_ID completion)).
  assert (Hs : state_of db key = row_state (records db !! key)) by done. rewrite Hs.
  destruct (records db !! key) as [row|] eqn:Hrow; cbn [row_state].
  2: { rewrite !decide_False by done. eexists. by split. }
  destruct (row_completed row) as [t|] eqn:Ht, (row_failed row) as [f|] eqn:Hf.
  - destruct (rw_outcome _ _ _ (Hwf _ _ Hrow)); congruence.
  - rewrite decide_False, decide_True by done. exists row. split; [done|]. unfold with_records. do 3 f_equal. rewrite Ht, Hf.
    destruct (row_error row) as [e|] eqn:He; [|done]. destruct (rw_error _ _ _ (Hwf _ _ Hrow)); congruence.
  - rewrite !decide_False by done. eexists. by split.
  - rewrite decide_True by done. eexists. split; [done|]. unfold state_of. cbn [with_records records].
    by rewrite lookup_insert_eq.
Qed.

Lemma fail_audited failure db :
  queue_wf db -> QueueFailure_Validate failure = None ->
  audited Failed Completed (qf_Queue failure, qf_ID failure) (qf_FailedAt failure) (Some (qf_ErrorCode failure)) db
    (pg_FailQueue failure db).
Proof.
  intros Hwf Hv. unfold pg_FailQueue. rewrite Hv. cbn [tx_check].
  unfold QueueFailure_Validate in Hv. apply errors_Join_nil, Forall_cons in Hv as [Hq _].
  destruct (audit_table _ Hq) as [columns Hc]. unfold tx_bind, tx_lift. rewrite Hc. unfold changeQueueOutcome, audited.
  set (key := (qf_Queue failure, qf_ID failure)).
  assert (Hs : state_of db key = row_state (records db !! key)) by done. rewrite Hs.
  destruct (records db !! key) as [row|] eqn:Hrow; cbn [row_state].
  2: { rewrite !decide_False by done. eexists. by split. }
  destruct (row_completed row) as [t|] eqn:Ht.
  { rewrite !decide_False by done. eexists. by split. }
  destruct (row_failed row) as [f|] eqn:Hf.
  - rewrite decide_False, decide_True by done. exists row. split; [done|]. unfold with_records. do 3 f_equal. rewrite Ht, Hf.
    by destruct (row_error row).
  - rewrite decide_True by done. eexists. split; [done|]. unfold state_of. cbn [with_records records].
    by rewrite lookup_insert_eq.
Qed.

(** Repeating an audit operation changes nothing. *)
Lemma complete_again completion db db' :
  pg_CompleteQueue completion db = (Ok tt, db') -> pg_CompleteQueue completion db' = (Ok tt, db').
Proof.
  intros H. unfold pg_CompleteQueue in *. apply tx_check_ok in H as [Hv H]. rewrite Hv. cbn [tx_check].
  apply tx_bind_ok in H as (x & db1 & Hq & H). apply tx_lift_ok in Hq as [Hq <-].
  unfold tx_bind, tx_lift. rewrite Hq. apply outcome_ok in H as (row & row' & Hrow & Hch & ->).
  destruct (row_failed row) eqn:Hf; [done|]. injection Hch as <-.
  unfold changeQueueOutcome. cbn [with_records records]. rewrite lookup_insert_eq. cbn.
  f_equal. unfold with_records. cbn. rewrite insert_insert_eq. do 3 f_equal. lia.
Qed.

Lemma fail_again failure db db' :
  pg_FailQueue failure db = (Ok tt, db') -> pg_FailQueue failure db' = (Ok tt, db').
Proof.
  intros H. unfold pg_FailQueue in *. apply tx_check_ok in H as [Hv H]. rewrite Hv. cbn [tx_check].
  apply tx_bind_ok in H as (x & db1 & Hq & H). apply tx_lift_ok in Hq as [Hq <-].
  unfold tx_bind, tx_lift. rewrite Hq. apply outcome_ok in H as (row & row' & Hrow & Hch & ->).
  destruct (row_completed row) eqn:Hc; [done|]. injection Hch as <-.
  unfold changeQueueOutcome. cbn [with_records records]. rewrite lookup_insert_eq. cbn.
  f_equal. unfold with_records. cbn. rewrite insert_insert_eq. do 3 f_equal. lia.
Qed.

Lemma delete_records_lookup keys m key :
  delete_records keys m !! key = if decide (key ∈ keys) then None else m !! key.
Proof.
  induction keys as [|k keys IH]; cbn [delete_records fold_right].
  - destruct (decide (key ∈ [])) as [Hin|]; [by apply not_elem_of_nil in Hin|done].
  - destruct (decide (k = key)) as [->|Hne].
    + rewrite lookup_delete_eq. destruct (decide (key ∈ key :: keys)) as [|Hno]; [done|].
      exfalso. apply Hno. by left.
    + rewrite lookup_delete_ne by done. unfold delete_records in IH. rewrite IH.
      destruct (decide (key ∈ keys)) as [Hin|Hnin], (decide (key ∈ k :: keys)) as [Hin'|Hnin']; try done.
      * exfalso. apply Hnin'. by right.
      * apply elem_of_cons in Hin' as [?|?]; congruence.
Qed.

Lemma expired_batch_spec locked queue before batchSize db key :
  key ∈ expired_batch locked queue before batchSize db ->
  key.1 = queue /\ locked key = false /\
  exists row, records db !! key = Some row /\ expired before db (key, row) = true.
Proof.
  unfold expired_batch. intros Hin. apply list_elem_of_fmap in Hin as ([k row] & -> & Hin).
  apply subseteq_take in Hin. rewrite merge_sort_Permutation in Hin.
  apply list_elem_of_In, List.filter_In in Hin as [Hin Hc]. cbn [fst] in *.
  rewrite !andb_true_iff, negb_true_iff in Hc. destruct Hc as [[Hq He] Hl]. apply String.eqb_eq in Hq.
  apply list_elem_of_In, elem_of_map_to_list in Hin. eauto.
Qed.

Lemma expired_batch_length locked queue before batchSize db :
  0 < batchSize -> Z.of_nat (length (expired_batch locked queue before batchSize db)) <= batchSize.
Proof. intros H. unfold expired_batch. rewrite length_map, length_take. lia. Qed.

(** A record of a subset of a well-formed database is well formed. *)
Lemma delete_wf db keys : queue_wf db -> queue_wf (with_records (delete_records keys) db).
Proof.
  intros Hwf key row Hrow. cbn [with_records records] in Hrow.
  assert (Hsub : forall k r, delete_records keys (records db) !! k = Some r -> records db !! k = Some r).
  { intros k r. rewrite delete_records_lookup. by destruct (decide (k ∈ keys)). }
  destruct (Hwf key row (Hsub _ _ Hrow)) as [H1 H2 H3 H4 (job & Hjob & Hlt & Hown)]. split; auto.
  - intros k r Hk. apply H4. by apply Hsub.
  - exists job. split_and!; auto. intros k r Hk. apply Hown. by apply Hsub.
Qed.

Lemma purge_ok locked before batchSize db n db' :
  queue_wf db -> pg_PurgeTerminalQueueRecords locked before batchSize db = (Ok n, db') ->
  queue_wf db' /\ 0 <= n <= 3 * batchSize /\ river db' = river db /\
  forall key, records db' !! key = records db !! key \/
    (records db' !! key = None /\ (state_of db key = Completed \/ state_of db key = Failed) /\
     locked key = false /\
     exists row, records db !! key = Some row /\ expired before db (key, row) = true).
Proof.
  intros Hwf H. unfold pg_PurgeTerminalQueueRecords in H. destruct (IsZero before); [done|].
  destruct (Z.leb_spec batchSize 0); [done|]. injection H as <- <-. split; [by apply delete_wf|]. split_and!.
  - lia.
  - rewrite !length_app. pose proof (expired_batch_length locked QueueInbox before batchSize db).
    pose proof (expired_batch_length locked QueueReconciliation before batchSize db).
    pose proof (expired_batch_length locked QueueOutbox before batchSize db). lia.
  - done.
  - intros key. cbn [with_records records]. rewrite delete_records_lookup. destruct (decide _) as [Hin|]; [|by left].
    right. split; [done|].
    assert (Hspec : locked key = false /\ exists row, records db !! key = Some row /\ expired before db (key, row) = true).
    { rewrite !elem_of_app in Hin. destruct Hin as [Hin|[Hin|Hin]];
        apply expired_batch_spec in Hin as (_ & ? & ?); auto. }
    destruct Hspec as (Hl & row & Hrow & He). split; [|split; [done|by exists row]]. unfold state_of. rewrite Hrow. cbn.
    unfold expired in He. cbn [snd] in He. destruct (row_completed row), (row_failed row); auto. done.
Qed.

(** C19. The queue tables implement one state machine per record, whatever the
    operation: saving creates a record as pending with a new River job, and saving
    the same payload again finds that record; a redelivered inbox message reopens a
    failed record with a new job, and a repeated reconciliation reopens a completed
    one; a valid completion or failure gives a pending record its outcome, answers
    success and keeps everything but the time of the last update when the record has
    that outcome already, and is a conflict that changes nothing when it has the other
    one or does not exist, so repeating it changes nothing; and retention deletes, in bounded batches, only records with an old outcome whose
    job cannot run again.  No operation changes another record, and none produces a
    record with two outcomes, without a job, or with a payload another has. *)
Theorem queue_record_lifecycle (now : time) application_exists customer_exists river_refuses locked
    (db db' : queue_db) :
  queue_wf db ->
  (forall message id,
     pg_SaveInboxMessage now application_exists river_refuses message db = (Ok id, db') ->
     saved QueueInbox (inbox_unique message) inbox_next
       (fun s => match s with Absent | Failed => true | _ => false end) (im_AvailableAt message) db db' id) /\
  (forall job id,
     pg_SaveReconciliationJob now application_exists customer_exists river_refuses job db = (Ok id, db') ->
     saved QueueReconciliation (reconciliation_unique job) reconciliation_next
       (fun s => match s with Absent => true | _ => false end) (rj_AvailableAt job) db db' id) /\
  (forall completion, pg_CompleteQueue completion db = (Ok tt, db') ->
     moved (qc_Queue completion, qc_ID completion) Completed Completed db db') /\
  (forall failure, pg_FailQueue failure db = (Ok tt, db') ->
     moved (qf_Queue failure, qf_ID failure) Failed Failed db db') /\
  (forall completion, QueueCompletion_Validate completion = None ->
     audited Completed Failed (qc_Queue completion, qc_ID completion) (qc_CompletedAt completion) None db
       (pg_CompleteQueue completion db)) /\
  (forall failure, QueueFailure_Validate failure = None ->
     audited Failed Completed (qf_Queue failure, qf_ID failure) (qf_FailedAt failure)
       (Some (qf_ErrorCode failure)) db (pg_FailQueue failure db)) /\
  (forall completion, pg_CompleteQueue completion db = (Ok tt, db') ->
     pg_CompleteQueue completion db' = (Ok tt, db')) /\
  (forall failure, pg_FailQueue failure db = (Ok tt, db') -> pg_FailQueue failure db' = (Ok tt, db')) /\
  (forall before batchSize n, pg_PurgeTerminalQueueRecords locked before batchSize db = (Ok n, db') ->
     queue_wf db' /\ 0 <= n <= 3 * batchSize /\ river db' = river db /\
     forall key, records db' !! key = records db !! key \/
       (records db' !! key = None /\ (state_of db key = Completed \/ state_of db key = Failed) /\
        locked key = false /\
        exists row, records db !! key = Some row /\ expired before db (key, row) = true)).
Proof.
  intros Hwf. repeat (match goal with |- _ /\ _ => split end); intros.
  - by eapply save_inbox_saved.
  - by eapply save_reconciliation_saved.
  - by apply complete_moved.
  - by apply fail_moved.
  - by apply complete_audited.
  - by apply fail_audited.
  - by eapply complete_again.
  - by eapply fail_again.
  - by eapply purge_ok.
Qed.

(** ** A concrete queue *)

Definition sample_inbox : InboxMessage :=
  mkInboxMessage "inbox-1" "project-1" "app-1" ProviderGooglePlay "notification" "application/json"
    (mkProtected "sealed" (of_bytes (replicate 32 5)) "key-1") 1000000 1000000.
Definition empty_queue : queue_db := mkQueueDb ∅ ∅ 0.

Definition sample_save (db : queue_db) : result string * queue_db :=
  pg_SaveInboxMessage 2000000 (fun _ _ => true) None sample_inbox db.
Definition sample_fail (db : queue_db) : result unit * queue_db :=
  pg_FailQueue (mkQueueFailure QueueInbox "inbox-1" 3000000 "provider_temporary") db.

(** Saved, failed, and delivered again: the second job is a new one. *)
Lemma queue_record_lifecycle_witness :
  exists db1 db2 db3, sample_save empty_queue = (Ok "inbox-1"%string, db1) /\
    sample_fail db1 = (Ok tt, db2) /\ sample_save db2 = (Ok "inbox-1"%string, db3) /\
    state_of db2 (QueueInbox, "inbox-1"%string) = Failed /\
    state_of db3 (QueueInbox, "inbox-1"%string) = Pending /\
    option_map row_job (records db3 !! (QueueInbox, "inbox-1"%string)) = Some (Some 1%nat).
Proof.
  destruct (sample_save empty_queue) as [[id1|e] db1] eqn:E1; [|vm_compute in E1; discriminate].
  destruct (sample_fail db1) as [[[]|e] db2] eqn:E2; [|vm_compute in E1; injection E1 as _ <-; vm_compute in E2; discriminate].
  assert (Hempty : queue_wf empty_queue) by (intros key row H; vm_compute in H; discriminate).
  pose proof (proj1 (queue_record_lifecycle 2000000 (fun _ _ => true) (fun _ _ => true) None (fun _ => false)
                empty_queue db1 Hempty) sample_inbox id1 E1) as Hsaved.
  pose proof (proj1 (proj2 (proj2 (proj2 (queue_record_lifecycle 2000000 (fun _ _ => true) (fun _ _ => true) None
                (fun _ => false) db1 db2 (sv_wf _ _ _ _ _ _ _ _ Hsaved))))) _ E2) as Hmoved.
  destruct (sample_save db2) as [[id3|e] db3] eqn:E3;
    [|vm_compute in E1; injection E1 as _ <-; vm_compute in E2; injection E2 as <-; vm_compute in E3; discriminate].
  pose proof (proj1 (queue_record_lifecycle 2000000 (fun _ _ => true) (fun _ _ => true) None (fun _ => false)
                db2 db3 (mv_wf _ _ _ _ _ Hmoved)) sample_inbox id3 E3) as Hagain.
  assert (Hids : id1 = "inbox-1"%string /\ id3 = "inbox-1"%string /\
            option_map row_job (records db3 !! (QueueInbox, "inbox-1"%string)) = Some (Some 1%nat)).
  { vm_compute in E1. injection E1 as <- <-. vm_compute in E2. injection E2 as <-.
    vm_compute in E3. injection E3 as <- <-. split; [reflexivity|]. split; reflexivity. }
  destruct Hids as (-> & -> & Hjob). exists db1, db2, db3. split; [reflexivity|]. split; [exact E2|]. split; [exact E3|].
  split; [exact (mv_to _ _ _ _ _ Hmoved)|]. split; [|exact Hjob].
  rewrite (sv_state _ _ _ _ _ _ _ _ Hagain). pose proof (mv_to _ _ _ _ _ Hmoved) as Hf.
  cbn [qf_Queue qf_ID] in Hf. rewrite Hf. reflexivity.
Defined.
