(* ===== verification/Worker.v ===== *)
(** The job runner ([internal/worker/runner.go]): one execution of a durable job,
    its audit outcome, and what River does next.

    A handler is a function of the message and the store, which it may change in
    its own transactions.  River is the environment: a failed job runs again with
    the next attempt until the last one, a cancelled or finished job stops, and a
    snoozed job runs again with the same attempt and one more snooze in its
    metadata.  Metrics and logs are not modelled. *)

From S2P Require Import Prelude GoText GoTime GoHttp Core Purchase Protection Persistence Stores Network Repository Projector EntitlementStore Runner Refresh Verification Webhooks QueueStore.
From stdpp Require Import base list strings gmap.
Local Open Scope Z_scope.

(** ** The queue repository *)

(* internal/persistence/contracts.go: QueueRepository *)
Class QueueRepository (S : Type) := {
  SaveInboxMessage : InboxMessage -> Tx S string;
  SaveReconciliationJob : ReconciliationJob -> Tx S string;
  LoadQueueMessage : QueueName -> string -> Tx S QueueMessage;
  CompleteQueue : QueueCompletion -> Tx S unit;
  FailQueue : QueueFailure -> Tx S unit;
  PurgeTerminalQueueRecords : time -> Z -> Tx S Z
}.

(** What it promises: a record has one state, a read shows it, and the audit
    operations set it. *)
Class QueueLaws (S : Type) `{Queue : QueueRepository S} := {
  queue_valid : S -> Prop;
  record_of : S -> QueueName * string -> record_state;
  load_shows : forall queue id s m s',
    queue_valid s -> LoadQueueMessage queue id s = (Ok m, s') ->
    s' = s /\ record_of s (queue, id)
              = if qm_Completed m then Completed else if qm_Failed m then Failed else Pending;
  complete_sets : forall completion s s',
    queue_valid s -> CompleteQueue completion s = (Ok tt, s') ->
    queue_valid s' /\ record_of s' (qc_Queue completion, qc_ID completion) = Completed;
  fail_sets : forall failure s s',
    queue_valid s -> FailQueue failure s = (Ok tt, s') ->
    queue_valid s' /\ record_of s' (qf_Queue failure, qf_ID failure) = Failed
}.

Section Postgres.
Context (now : time) (application_exists : ProjectID -> ApplicationID -> bool).
Context (customer_exists : ProjectID -> CustomerID -> bool) (river_refuses : option gerror).
Context (locked : QueueName * string -> bool).

Definition pg_QueueRepository : QueueRepository queue_db := {|
  SaveInboxMessage := pg_SaveInboxMessage now application_exists river_refuses;
  SaveReconciliationJob := pg_SaveReconciliationJob now application_exists customer_exists river_refuses;
  LoadQueueMessage := pg_QueueMessage;
  CompleteQueue := pg_CompleteQueue;
  FailQueue := pg_FailQueue;
  PurgeTerminalQueueRecords := pg_PurgeTerminalQueueRecords locked
|}.

Lemma pg_load_shows queue id db m db' :
  pg_QueueMessage queue id db = (Ok m, db') ->
  db' = db /\ state_of db (queue, id)
              = if qm_Completed m then Completed else if qm_Failed m then Failed else Pending.
Proof.
  unfold pg_QueueMessage. rewrite tx_check_ok. intros [_ H].
  assert (Hload : forall operation q check, load_row operation q id check db = (Ok m, db') ->
    db' = db /\ state_of db (q, id)
              = if qm_Completed m then Completed else if qm_Failed m then Failed else Pending).
  { intros operation q check Hl. unfold load_row in Hl. unfold state_of.
    destruct (records db !! (q, id)) as [row|]; [|done]. destruct (check row); [done|].
    injection Hl as <- <-. split; [done|]. unfold read_row, row_state. cbn [qm_Completed qm_Failed].
    by destruct (row_completed row), (row_failed row). }
  destruct (String.eqb_spec queue QueueInbox) as [->|]; [by eapply Hload|].
  destruct (String.eqb_spec queue QueueOutbox) as [->|]; [by eapply Hload|].
  destruct (String.eqb_spec queue QueueReconciliation) as [->|]; [by eapply Hload|]. done.
Qed.

#[program] Definition pg_QueueLaws : @QueueLaws queue_db pg_QueueRepository :=
  {| queue_valid := queue_wf; record_of := state_of |}.
Next Obligation. intros queue id s m s' _ H. by apply pg_load_shows in H. Qed.
Next Obligation.
  intros completion s s' Hwf H. pose proof (complete_moved _ _ _ Hwf H) as Hm.
  split; [apply (mv_wf _ _ _ _ _ Hm)|apply (mv_to _ _ _ _ _ Hm)].
Qed.
Next Obligation.
  intros failure s s' Hwf H. pose proof (fail_moved _ _ _ Hwf H) as Hm.
  split; [apply (mv_wf _ _ _ _ _ Hm)|apply (mv_to _ _ _ _ _ Hm)].
Qed.
End Postgres.

(** ** Errors of handlers *)

(* internal/worker/runner.go: constants *)
Definition queueMetricsInterval : duration := Minute.
Definition queueCleanupInterval : duration := Minute.
Definition queueCleanupBatchSize : Z := 1000.
Definition terminalAuditRetryDelay : duration := 15 * Second.
Definition maximumTerminalAuditSnoozes : Z := 20.

(** What a handler returns: an error of the use cases, or a delivery failure. *)
Inductive handler_error : Type :=
| UseCaseError (e : gerror)
| DeliveryFailure (failure : DeliveryError).

(** [errors.As] for the classification both kinds of failures carry. *)
Definition classified (err : handler_error) : option (bool * string) :=
  match err with
  | UseCaseError e =>
      match as_failure e with
      | Some (_, _, kind, _) =>
          Some (Failure_Retryable kind, Failure_CodeValue (Some kind))
      | None => None
      end
  | DeliveryFailure failure => Some (DeliveryError_Retryable (Some failure), DeliveryError_CodeValue (Some failure))
  end.

Definition handler_error_Is (err : handler_error) (target : string) : bool :=
  match err with UseCaseError e => errors_Is e target | DeliveryFailure _ => false end.

(* internal/worker/runner.go: isRetryable *)
Definition isRetryable (err : handler_error) : bool :=
  match classified err with
  | Some (retryable, _) => retryable
  | None => handler_error_Is err "context.DeadlineExceeded"
            || handler_error_Is err "persistence.ErrUnavailable"
  end.

(* internal/worker/runner.go: safeErrorCode *)
Definition safeErrorCode (code : string) : string :=
  if (len code =? 0) || (64 <? len code) then "handler_failed"
  else if existsb (fun c => ((c <? 97) || (122 <? c)) && ((c <? 48) || (57 <? c)) && negb (c =? 95)) (runes code)
       then "handler_failed" else code.

(* internal/worker/runner.go: errorCode *)
Definition errorCode (err : handler_error) : string :=
  match classified err with
  | Some (_, code) => safeErrorCode code
  | None => if handler_error_Is err "context.DeadlineExceeded" then "deadline_exceeded" else "handler_failed"
  end.

(** The River queue names, mapped back. *)
(* internal/worker/runner.go: persistenceQueue *)
Definition persistenceQueue (queue : string) : option QueueName :=
  if String.eqb queue jobs_QueueInbox then Some QueueInbox
  else if String.eqb queue jobs_QueueOutbox then Some QueueOutbox
  else if String.eqb queue jobs_QueueReconciliation then Some QueueReconciliation
  else None.

(* internal/worker/runner.go: durableQueues *)
Definition durableQueues : list QueueName := [QueueInbox; QueueReconciliation; QueueOutbox].

(** ** Execution *)

(** What [Work] returns to River: nil, an error, [JobCancel] or [JobSnooze]. *)
Inductive job_result : Type :=
| JobDone
| JobError (code : string)
| JobCancel (code : string)
| JobSnooze (delay : duration).

Section Executor.
Context {T : Type} `{Queue : !QueueRepository T, Operations : !Store T}.
Context (handler : QueueName -> QueueMessage -> T -> option handler_error * T).
Context (DecodeSnoozes : string -> option Z).

(* internal/worker/runner.go: snoozeCount *)
Definition snoozeCount (metadata : string) : Z :=
  if String.eqb metadata EmptyString then 0
  else match DecodeSnoozes metadata with
       | Some snoozes => if snoozes <? 0 then 0 else snoozes
       | None => 0
       end.

(** The audit write, as transaction [n] at the instant [now]. *)
(* internal/worker/runner.go: executor.complete *)
Definition audit_complete (n : nat) (now : time) (queue : QueueName) (id : string) (s : T) : bool * T :=
  match StoreTransact n (CompleteQueue (mkQueueCompletion queue id now)) s with
  | (Ok _, s') => (true, s')
  | (Err _, s') => (false, s')
  end.

(* internal/worker/runner.go: executor.fail *)
Definition audit_fail (n : nat) (now : time) (queue : QueueName) (id code : string) (s : T) : bool * T :=
  match StoreTransact n (FailQueue (mkQueueFailure queue id now code)) s with
  | (Ok _, s') => (true, s')
  | (Err _, s') => (false, s')
  end.

(* internal/worker/runner.go: executor.auditTransitionError *)
Definition auditTransitionError (attempt maxAttempts : Z) : job_result :=
  if attempt <? maxAttempts then JobError "queue_transition_failed" else JobSnooze terminalAuditRetryDelay.

(** One run of a job: the transactions are numbered from [n], the clock reads
    [now], and [cancelled] says whether the run's own context ended.  The state is
    the store and the messages handlers were called with. *)
(* internal/worker/runner.go: executor.execute *)
Definition execute (n : nat) (now : time) (cancelled : bool) (queue : QueueName) (id : string)
    (attempt maxAttempts auditSnoozes : Z) (state : T * list QueueMessage)
    : job_result * (T * list QueueMessage) :=
  let '(s, handled) := state in
  match StoreTransact n (LoadQueueMessage queue id) s with
  | (Err e, s') =>
      if errors_Is e "persistence.ErrNotFound" then (JobCancel "queue_record_not_found", (s', handled))
      else (JobError "queue_record_load_failed", (s', handled))
  | (Ok message, s') =>
      if qm_Completed message || qm_Failed message then (JobDone, (s', handled))
      else if (maxAttempts <=? attempt) && (maximumTerminalAuditSnoozes <=? auditSnoozes)
      then (JobError "terminal_audit_write_failed", (s', handled))
      else
        let '(handlerErr, s1) := handler queue message s' in
        let handled := handled ++ [message] in
        match handlerErr with
        | None =>
            let '(written, s2) := audit_complete (S n) now queue id s1 in
            (if written then JobDone else auditTransitionError attempt maxAttempts, (s2, handled))
        | Some err =>
            if handler_error_Is err "context.Canceled" && cancelled then (JobError "context canceled", (s1, handled))
            else
              let code := errorCode err in
              if isRetryable err && (attempt <? maxAttempts) then (JobError code, (s1, handled))
              else
                let '(written, s2) := audit_fail (S n) now queue id code s1 in
                (if negb written then auditTransitionError attempt maxAttempts
                 else if isRetryable err then JobError code else JobCancel code, (s2, handled))
        end
  end.
End Executor.

(** ** River *)

(** Where a job stands: runnable with this attempt and these snoozes, or finished
    (completed, cancelled or discarded). *)
Inductive river_status : Type :=
| Runnable (attempt snoozes : Z)
| Finished.

(** What River does with the result of a run. *)
Definition river_step (maxAttempts attempt snoozes : Z) (result : job_result) : river_status :=
  match result with
  | JobDone | JobCancel _ => Finished
  | JobError _ => if maxAttempts <=? attempt then Finished else Runnable (attempt + 1) snoozes
  | JobSnooze _ => Runnable attempt (snoozes + 1)
  end.

(** One run as its surroundings see it: the transaction number, the clock, whether
    the run was cancelled, and what other processes did to the store before. *)
Record surroundings (T : Type) : Type := mkSurroundings {
  su_n : nat;
  su_now : time;
  su_cancelled : bool;
  su_interference : T -> T
}.
Arguments mkSurroundings {T} _ _ _ _.
Arguments su_n {T} _.
Arguments su_now {T} _.
Arguments su_cancelled {T} _.
Arguments su_interference {T} _ _.

Section Lifecycle.
Context {T : Type} `{Queue : !QueueRepository T, Operations : !Store T}.
Context (handler : QueueName -> QueueMessage -> T -> option handler_error * T).
Context (queue : QueueName) (id : string) (maxAttempts : Z).

(** The runs of a job, at most [length runs] of them. *)
Fixpoint run_job (runs : list (surroundings T)) (status : river_status) (state : T * list QueueMessage)
    : river_status * (T * list QueueMessage) :=
  match runs, status with
  | run :: rest, Runnable attempt snoozes =>
      let '(result, state') := execute handler (su_n run) (su_now run) (su_cancelled run) queue id
                                 attempt maxAttempts snoozes
                                 (su_interference run state.1, state.2) in
      run_job rest (river_step maxAttempts attempt snoozes result) state'
  | _, _ => (status, state)
  end.

(** Only a last attempt is snoozed, and not more often than the limit. *)
Lemma execute_snooze n now cancelled attempt snoozes state delay state' :
  execute handler n now cancelled queue id attempt maxAttempts snoozes state = (JobSnooze delay, state') ->
  delay = terminalAuditRetryDelay /\ maxAttempts <= attempt /\ snoozes < maximumTerminalAuditSnoozes.
Proof.
  unfold execute, auditTransitionError. destruct state as [s handled].
  destruct (StoreTransact n _ s) as [[message|e] s1]; [|by destruct (errors_Is _ _)].
  destruct (_ || _); [done|].
  destruct (Z.leb_spec maxAttempts attempt), (Z.leb_spec maximumTerminalAuditSnoozes snoozes); cbn [andb]; [done|..];
    destruct (Z.ltb_spec attempt maxAttempts); try lia; intros Hrun;
    repeat match type of Hrun with
    | (let '(_, _) := ?x in _) = _ => destruct x
    | match ?x with None => _ | Some _ => _ end = _ => destruct x
    | (if ?b then _ else _) = _ => destruct b
    | ((if ?b then _ else _), _) = _ => destruct b
    end; simplify_eq; auto.
Qed.

(** What is left of a job's budget of runs. *)
Definition budget (status : river_status) : nat :=
  match status with
  | Finished => 0
  | Runnable attempt snoozes =>
      S (Z.to_nat (maxAttempts - attempt) + Z.to_nat (maximumTerminalAuditSnoozes - snoozes))
  end.

Lemma run_job_budget runs status state :
  (budget status <= length runs)%nat -> (run_job runs status state).1 = Finished.
Proof.
  revert status state. induction runs as [|run runs IH]; intros status state H.
  - destruct status; simpl in *; [lia|done].
  - destruct status as [attempt snoozes|]; [|done]. cbn [run_job].
    destruct (execute _ _ _ _ _ _ _ _ _ _) as [result state'] eqn:E. apply IH.
    destruct result as [|code|code|delay]; cbn [river_step budget] in *; simpl in H.
    + lia.
    + destruct (Z.leb_spec maxAttempts attempt); cbn [budget]; lia.
    + lia.
    + apply execute_snooze in E as (_ & ? & ?). lia.
Qed.

(** C16. Every job stops: whatever its handler returns, whatever fails in the store,
    and whatever other processes do in between, a job is finished after at most its
    attempts plus twenty runs, the twenty being the retries of a last attempt whose
    outcome could not be recorded. *)
Theorem worker_terminates (runs : list (surroundings T)) (state : T * list QueueMessage) :
  (Z.to_nat maxAttempts + 20 <= length runs)%nat -> 1 <= maxAttempts ->
  (run_job runs (Runnable 1 0) state).1 = Finished.
Proof.
  intros Hlen Hmax. apply run_job_budget. cbn [budget]. unfold maximumTerminalAuditSnoozes.
  rewrite Z2Nat.inj_sub by lia. change (Z.to_nat (20 - 0)) with 20%nat. change (Z.to_nat 1) with 1%nat. lia.
Qed.
End Lifecycle.

(** ** Outcomes *)

Section Outcomes.
Context {T : Type} `{Queue : !QueueRepository T, Operations : !Store T, Laws : !QueueLaws T}.
Context (handler : QueueName -> QueueMessage -> T -> option handler_error * T).

Lemma audit_complete_ok n now queue id s s' :
  queue_valid s -> audit_complete n now queue id s = (true, s') ->
  queue_valid s' /\ record_of s' (queue, id) = Completed.
Proof.
  unfold audit_complete. intros Hs H. destruct (StoreTransact _ _ s) as [[[]|e] s1] eqn:E; [|done].
  injection H as <-. apply store_commits in E. by apply complete_sets in E.
Qed.

Lemma audit_fail_ok n now queue id code s s' :
  queue_valid s -> audit_fail n now queue id code s = (true, s') ->
  queue_valid s' /\ record_of s' (queue, id) = Failed.
Proof.
  unfold audit_fail. intros Hs H. destruct (StoreTransact _ _ s) as [[[]|e] s1] eqn:E; [|done].
  injection H as <-. apply store_commits in E. by apply fail_sets in E.
Qed.

(** A run of a job keeps River and the audit records together: the handler is
    called at most once, and only while the record is pending; the job is reported
    done only when the record has an outcome, and cancelled only when the record is
    gone or recorded as failed.  A last attempt ends without a recorded outcome
    only when the record could not be loaded, the run was cancelled, or its twenty
    retries are used up; otherwise it is snoozed. *)
Theorem worker_outcomes (n : nat) (now : time) (cancelled : bool) (queue : QueueName) (id : string)
    (attempt maxAttempts snoozes : Z) (s s' : T) (handled handled' : list QueueMessage) (result : job_result) :
  (forall q m s, queue_valid s -> queue_valid (handler q m s).2) ->
  queue_valid s ->
  execute handler n now cancelled queue id attempt maxAttempts snoozes (s, handled) = (result, (s', handled')) ->
  (handled' = handled \/
   exists message, handled' = handled ++ [message] /\ record_of s (queue, id) = Pending) /\
  match result with
  | JobDone => record_of s' (queue, id) = Completed \/
               (handled' = handled /\ s' = s /\ record_of s (queue, id) <> Pending)
  | JobCancel code => record_of s' (queue, id) = Failed \/
                      (handled' = handled /\ s' = s /\ code = "queue_record_not_found"%string)
  | JobError code => attempt < maxAttempts \/ record_of s' (queue, id) = Failed \/ cancelled = true \/
                     code = "queue_record_load_failed"%string \/
                     (code = "terminal_audit_write_failed"%string /\ maximumTerminalAuditSnoozes <= snoozes)
  | JobSnooze _ => maxAttempts <= attempt /\ snoozes < maximumTerminalAuditSnoozes
  end.
Proof.
  intros Hkeeps Hs H. unfold execute in H.
  destruct (StoreTransact n (LoadQueueMessage queue id) s) as [[message|e] s0] eqn:Hload.
  2: { apply store_rolls_back in Hload as ->. destruct (errors_Is _ _); injection H as <- <- <-; split; auto 6. }
  apply store_commits, (load_shows _ _ _ _ _ Hs) in Hload as [-> Hstate].
  destruct (qm_Completed message || qm_Failed message) eqn:Hdone.
  { injection H as <- <- <-. split; [by left|]. right. split_and!; [done|done|]. rewrite Hstate.
    by destruct (qm_Completed message), (qm_Failed message). }
  apply orb_false_iff in Hdone as [Hc Hf]. rewrite Hc, Hf in Hstate.
  destruct (_ && _) eqn:Hlast.
  { apply andb_true_iff in Hlast as [_ Hl%Z.leb_le]. injection H as <- <- <-. split; [by left|]. auto 6. }
  apply andb_false_iff in Hlast. rewrite !Z.leb_gt in Hlast.
  pose proof (Hkeeps queue message s Hs) as Hk. destruct (handler queue message s) as [handlerErr s1]. cbn [snd] in Hk.
  assert (Haudit : match auditTransitionError attempt maxAttempts with
     | JobDone => False | JobCancel _ => False
     | JobError _ => attempt < maxAttempts
     | JobSnooze _ => maxAttempts <= attempt /\ snoozes < maximumTerminalAuditSnoozes end).
  { unfold auditTransitionError. destruct (Z.ltb_spec attempt maxAttempts); [done|lia]. }
  unfold auditTransitionError in *.
  destruct handlerErr as [err|].
  - destruct (_ && cancelled) eqn:Hcan.
    { apply andb_true_iff in Hcan as [_ Hcan]. injection H as <- <- <-. split; [right; eauto|auto 6]. }
    destruct (isRetryable err && (attempt <? maxAttempts)) eqn:Hr.
    { apply andb_true_iff in Hr as [_ Hr%Z.ltb_lt]. injection H as <- <- <-. split; [right; eauto|auto]. }
    destruct (audit_fail _ _ _ _ _ s1) as [written s2] eqn:Hw. destruct written; cbn [negb] in H.
    + apply (audit_fail_ok _ _ _ _ _ _ _ Hk) in Hw as [_ Hw].
      destruct (isRetryable err); injection H as <- <- <-; split; eauto.
    + destruct (attempt <? maxAttempts); injection H as <- <- <-; split; eauto.
  - destruct (audit_complete _ _ _ _ s1) as [written s2] eqn:Hw. destruct written.
    + apply (audit_complete_ok _ _ _ _ _ _ Hk) in Hw as [_ Hw]. injection H as <- <- <-. split; eauto.
    + destruct (attempt <? maxAttempts); injection H as <- <- <-; split; eauto.
Qed.
End Outcomes.

(** ** A concrete worker *)

Definition quiet_queue : Store queue_db :=
  runner_Store quiet_attempts ltac:(intros n k; reflexivity) ltac:(intros n k c H; discriminate H).
Definition sample_queue_repository : QueueRepository queue_db :=
  pg_QueueRepository 2000000 (fun _ _ => true) (fun _ _ => true) None (fun _ => false).

(** A provider that is down, and one that answers. *)
Definition failing_handler (queue : QueueName) (message : QueueMessage) (db : queue_db)
    : option handler_error * queue_db :=
  (Some (UseCaseError (NewFailure ProviderGooglePlay "query" FailureTemporary 0 None)), db).
Definition working_handler (queue : QueueName) (message : QueueMessage) (db : queue_db)
    : option handler_error * queue_db := (None, db).

Definition sample_runs (n : nat) : list (surroundings queue_db) :=
  replicate n (mkSurroundings 0 3000000 false (fun db => db)).

(** Three attempts: each calls the handler, and the last one records the failure. *)
Lemma worker_terminates_witness :
  (Z.to_nat 3 + 20 <= length (sample_runs 23))%nat /\
  (@run_job queue_db sample_queue_repository quiet_queue failing_handler QueueInbox "inbox-1" 3 (sample_runs 23)
    (Runnable 1 0) ((sample_save empty_queue).2, [])).1 = Finished /\
  length (@run_job queue_db sample_queue_repository quiet_queue failing_handler QueueInbox "inbox-1" 3 (sample_runs 23)
    (Runnable 1 0) ((sample_save empty_queue).2, [])).2.2 = 3%nat.
Proof.
  split; [vm_compute; apply le_n|]. split; [|vm_compute; reflexivity].
  apply (@worker_terminates queue_db sample_queue_repository quiet_queue failing_handler QueueInbox "inbox-1" 3
           (sample_runs 23) ((sample_save empty_queue).2, [])); [vm_compute; apply le_n|lia].
Defined.

Lemma worker_outcomes_witness :
  exists db1 db2 handled,
    sample_save empty_queue = (Ok "inbox-1"%string, db1) /\
    @execute queue_db sample_queue_repository quiet_queue working_handler 0 3000000 false QueueInbox "inbox-1" 1 3 0
      (db1, []) = (JobDone, (db2, handled)) /\
    length handled = 1%nat /\ state_of db2 (QueueInbox, "inbox-1"%string) = Completed.
Proof.
  destruct (sample_save empty_queue) as [[id|e] db1] eqn:E1; [|vm_compute in E1; discriminate].
  assert (Hid : id = "inbox-1"%string) by (vm_compute in E1; injection E1 as <- _; reflexivity). subst id.
  assert (Hempty : queue_wf empty_queue) by (intros key row H; vm_compute in H; discriminate).
  pose proof (sv_wf _ _ _ _ _ _ _ _ (save_inbox_saved 2000000 (fun _ _ => true) None sample_inbox _ _ _ Hempty E1)) as Hwf.
  destruct (@execute queue_db sample_queue_repository quiet_queue working_handler 0 3000000 false QueueInbox
    "inbox-1" 1 3 0 (db1, [])) as [result [db2 handled]] eqn:E2.
  assert (Hrun : result = JobDone /\ length handled = 1%nat).
  { vm_compute in E1. injection E1 as <-. vm_compute in E2. injection E2 as <- _ <-. split; reflexivity. }
  destruct Hrun as [-> Hlen]. exists db1, db2, handled. split; [reflexivity|]. split; [exact E2|]. split; [exact Hlen|].
  destruct (@worker_outcomes queue_db sample_queue_repository quiet_queue
    (pg_QueueLaws 2000000 (fun _ _ => true) (fun _ _ => true) None (fun _ => false)) working_handler
    0 3000000 false QueueInbox "inbox-1" 1 3 0 db1 db2 [] handled JobDone (fun q m s Hs => Hs) Hwf E2)
    as [_ [Hdone|(Hnil & _)]]; [exact Hdone|]. rewrite Hnil in Hlen. discriminate Hlen.
Defined.
