(* ===== verification/Frames.v ===== *)
(** Frames: a relation between two states of the store that every repository call
    keeps is kept by the use cases built from the calls.

    [leaves R m] says that [m] moves the store along [R], whatever it returns.  The
    [frame] hint database closes it under the combinators of [Repository.v]; a
    [VerificationFrame] is a relation the calls of a verification keep. *)

From S2P Require Import Prelude GoText GoTime Core Purchase Protection Persistence Stores Projector Repository EntitlementStore Runner Refresh Verification.
From stdpp Require Import base list strings gmap.
Local Open Scope Z_scope.

Definition leaves {S A} (R : S -> S -> Prop) (m : Tx S A) : Prop :=
  forall s r s', m s = (r, s') -> R s s'.

(** ** Combinators *)

Section Combinators.
Context {S : Type} (R : S -> S -> Prop) `{!PreOrder R}.

Lemma leaves_ret {A} (a : A) : leaves R (tx_ret a).
Proof. intros s r s' [= _ <-]. reflexivity. Qed.

Lemma leaves_err {A} e : leaves R (@tx_err S A e).
Proof. intros s r s' [= _ <-]. reflexivity. Qed.

Lemma leaves_lift {A} (x : result A) : leaves R (tx_lift x).
Proof. intros s r s' [= _ <-]. reflexivity. Qed.

Lemma leaves_bind {A B} (m : Tx S A) (f : A -> Tx S B) :
  leaves R m -> (forall a, leaves R (f a)) -> leaves R (tx_bind m f).
Proof.
  intros Hm Hf s r s'. unfold tx_bind. destruct (m s) as [[a|e] s1] eqn:E.
  - intros H. etransitivity; [by eapply Hm|by eapply Hf].
  - intros [= _ <-]. by eapply Hm.
Qed.

Lemma leaves_check {A} e (k : Tx S A) : leaves R k -> leaves R (tx_check e k).
Proof. destruct e; simpl; [intros _; apply leaves_err|done]. Qed.

Lemma leaves_catch {A} h (m : Tx S A) : leaves R m -> leaves R (tx_catch h m).
Proof.
  intros Hm s r s'. unfold tx_catch. destruct (m s) as [[a|e] s1] eqn:E; intros [= _ <-]; by eapply Hm.
Qed.

Lemma leaves_each {A} (f : A -> Tx S unit) l : (forall a, leaves R (f a)) -> leaves R (tx_each f l).
Proof.
  intros Hf. induction l as [|a l IH]; simpl; [apply leaves_ret|]. apply leaves_bind; auto.
Qed.

Lemma leaves_if {A} (b : bool) (m1 m2 : Tx S A) : leaves R m1 -> leaves R m2 -> leaves R (if b then m1 else m2).
Proof. by destruct b. Qed.
End Combinators.

Create HintDb frame.
#[export] Hint Resolve leaves_ret leaves_err leaves_lift leaves_bind leaves_check leaves_catch leaves_each leaves_if : frame.

(** ** The verification use cases *)

(** A relation that every repository call of a verification keeps. *)
Class VerificationFrame (S : Type) (R : S -> S -> Prop) `{Htx : !Transaction S} := {
  frame_order :: PreOrder R;
  frame_application : forall p a, leaves R (Application_ p a);
  frame_customer : forall p x, leaves R (CustomerByExternalID p x);
  frame_closure : forall p a b, leaves R (CustomerInClosure p a b);
  frame_products : forall p a l, leaves R (CatalogProducts p a l);
  frame_evidence : forall e, leaves R (SaveEvidence e);
  frame_artifact : forall a, leaves R (SaveArtifact a);
  frame_observation : forall o, leaves R (SaveObservation o);
  frame_lock : forall p c, leaves R (LockCustomerClosure p c);
  frame_put : forall e, leaves R (PutEntitlement e);
  frame_sources : forall p c, leaves R (CustomerEntitlementSources p c);
  frame_current : forall p c, leaves R (CustomerEntitlements p c);
  frame_event : forall e, leaves R (SaveOutboxEvent e);
  frame_resolve : forall p x, leaves R (ResolveCustomer p x)
}.

#[export] Hint Resolve frame_order frame_application frame_customer frame_closure frame_products
  frame_evidence frame_artifact frame_observation frame_lock frame_put frame_sources frame_current
  frame_event frame_resolve : frame.

Section Verification.
Context `{Horder : !GoMapRange} (zone : time -> Z) (service : Service).
Context {S : Type} `{Htx : !Transaction S, Hstore : !Store S}.
Context (R : S -> S -> Prop) `{HR : !VerificationFrame S R}.

Abbreviation WS := (World (S := S)).

(** The relation on worlds: on their stores. *)
Definition on_store (w w' : WS) : Prop := R (w_store w) (w_store w').

#[export] Instance on_store_order : PreOrder on_store.
Proof.
  split; [intros w; unfold on_store; reflexivity|].
  intros w1 w2 w3. unfold on_store. intros. by etransitivity.
Qed.

Lemma leaves_stored {A} n format (op : Tx S A) : leaves R op -> leaves on_store (stored n format op).
Proof.
  intros Hop w r w' H. unfold on_store. destruct r as [a|e].
  - apply stored_ok in H as [H _]. by eapply Hop.
  - apply stored_err in H as [-> _]. reflexivity.
Qed.

Lemma leaves_calling {A} call (answer : result A) : leaves on_store (calling call answer).
Proof. intros w r w' [= _ <-]. unfold on_store. simpl. reflexivity. Qed.

Lemma leaves_write_projections project customer at_ enqueue l acc :
  leaves R (write_projections zone project customer at_ enqueue l acc).
Proof.
  revert acc. induction l as [|p l IH]; intros acc; simpl; [eauto with frame|].
  apply leaves_bind; [eauto with frame..|]. intros a.
  repeat (apply leaves_if; [solve [eauto with frame]|]).
  apply leaves_bind; [eauto with frame..|]. intros event.
  apply leaves_bind; eauto with frame.
Qed.

Lemma leaves_refresh projector project customer at_ enqueue :
  leaves R (RefreshCustomerProjectionWithOptions zone projector project customer at_ enqueue).
Proof.
  unfold RefreshCustomerProjectionWithOptions. destruct projector; [|eauto with frame].
  repeat (apply leaves_bind; [eauto with frame..|intros ?]). apply leaves_write_projections.
Qed.

Lemma leaves_load_scope command : leaves R (load_scope command).
Proof.
  unfold load_scope. repeat (apply leaves_bind; [eauto with frame..|intros ?]).
  apply leaves_if; [eauto with frame|].
  apply leaves_bind; [eauto with frame..|intros ?].
  try apply leaves_if; eauto with frame.
Qed.

Lemma leaves_current_scope command application customer : leaves R (current_scope command application customer).
Proof.
  unfold current_scope. repeat (apply leaves_bind; [eauto with frame..|intros ?]).
  repeat (apply leaves_if; [eauto with frame|]).
  apply leaves_bind; [eauto with frame..|intros ?].
  try apply leaves_if; eauto with frame.
Qed.

Lemma leaves_persist command application customer answer prepared :
  leaves R (persist_transaction zone service command application customer answer prepared).
Proof.
  unfold persist_transaction.
  repeat (apply leaves_bind; [eauto using leaves_current_scope, leaves_refresh with frame..|intros ?]).
  eauto with frame.
Qed.

Lemma leaves_complete format application result_ plan : leaves on_store (complete (S := S) format application result_ plan).
Proof.
  unfold complete. destruct plan as [[postCommit request]|]; [|apply leaves_ret; apply _].
  apply leaves_bind; [apply _|apply leaves_calling|intros ?; apply leaves_ret; apply _].
Qed.

(** A use case keeps every relation its repository calls keep, whatever the
    providers answer and whether its transactions commit. *)
Ltac frame_steps :=
  repeat first
    [ apply leaves_check; [apply _|] | apply leaves_complete | apply leaves_calling
    | apply leaves_stored; eauto using leaves_load_scope, leaves_persist with frame
    | apply leaves_lift; apply _ | apply leaves_ret; apply _ | apply leaves_err; apply _
    | apply leaves_bind; [apply _| |intros ?] | progress cbv zeta
    | match goal with |- leaves _ (match ?x with _ => _ end) => destruct x end ].

Lemma Verify_leaves command : leaves on_store (Verify zone service command).
Proof. unfold Verify, loadScope, persist. frame_steps. Qed.

Lemma Reconcile_leaves command : leaves on_store (Reconcile zone service command).
Proof. unfold Reconcile, loadScope, persist. frame_steps. Qed.

Lemma LinkedPurchase_leaves command : leaves on_store (Service_LinkedPurchase service command).
Proof. unfold Service_LinkedPurchase. frame_steps. Qed.
End Verification.
