(* ===== verification/Identity.v ===== *)
(** Canonical customer identity ([internal/persistence/postgres/identity.go], with
    [PutCustomer] of [control.go], [CustomerByExternalID] of [catalog.go] and
    [LockCustomer] of [entitlement.go]): customers, their aliases, and append-only
    merges.

    The state is what one transaction sees: the three tables as finite maps, and the
    locks it has taken, in order.  Customer ids are the key of their table; the other
    unique constraints are looked up.  Failures of a statement itself belong to the
    runner.  The entitlements a customer is allowed, [CURRENT_TIMESTAMP] and the
    random bytes of a merge id are parameters; ORDER BY is bytewise. *)

From S2P Require Import Prelude GoText GoTime Core Purchase Protection Persistence Stores Repository EntitlementStore QueueStore Frames.
From stdpp Require Import base list strings gmap sorting.
Local Open Scope Z_scope.

(** ** Tables *)

(** A row of [customers]. *)
Record customer_row : Type := mkCustomerRow {
  cu_project : ProjectID;
  cu_external : string;
  cu_merged : option CustomerID
}.

(** A row of [customer_aliases]. *)
Record alias_row : Type := mkAliasRow {
  al_canonical : CustomerID;
  al_actorRole : APIKeyRole;
  al_actorKey : string
}.

(** Advisory locks of external ids, and row locks of customers. *)
Inductive lock : Type :=
| LockExternal (project : ProjectID) (externalID : string)
| LockRow (id : CustomerID).

Record identity_db : Type := mkIdentityDb {
  id_projects : gset ProjectID;
  customers : gmap CustomerID customer_row;
  aliases : gmap (ProjectID * string) alias_row;
  merges : gmap string CustomerMerge;
  locks : list lock
}.

Definition with_customers (f : gmap CustomerID customer_row -> gmap CustomerID customer_row)
    (db : identity_db) : identity_db :=
  mkIdentityDb (id_projects db) (f (customers db)) (aliases db) (merges db) (locks db).
Definition with_aliases (f : gmap (ProjectID * string) alias_row -> gmap (ProjectID * string) alias_row)
    (db : identity_db) : identity_db :=
  mkIdentityDb (id_projects db) (customers db) (f (aliases db)) (merges db) (locks db).
Definition with_merges (f : gmap string CustomerMerge -> gmap string CustomerMerge)
    (db : identity_db) : identity_db :=
  mkIdentityDb (id_projects db) (customers db) (aliases db) (f (merges db)) (locks db).
Definition with_lock (l : lock) (db : identity_db) : identity_db :=
  mkIdentityDb (id_projects db) (customers db) (aliases db) (merges db) (locks db ++ [l]).

(* internal/persistence/postgres/identity.go: customerIdentity *)
Record customerIdentity : Type := mkIdentity {
  ci_id : CustomerID;
  ci_projectID : ProjectID;
  ci_externalID : string;
  ci_mergedInto : option CustomerID
}.

(* internal/persistence/postgres/identity.go: customerIdentity.customer *)
Definition identity_customer (identity : customerIdentity) : Customer :=
  mkCustomer (ci_id identity) (ci_projectID identity) (ci_externalID identity).

(* internal/persistence/identity.go: CustomerMergeResult *)
Record CustomerMergeResult : Type := mkMergeResult {
  mr_Merge : CustomerMerge;
  mr_Replay : bool
}.

(** A driver error as the repository reports it. *)
Definition identity_error {A} (operation : string) (e : pg_error) : Tx identity_db A :=
  tx_err (default (New operation) (classifyError operation (Some e))).
Definition conflict (operation : string) : gerror := Wrapf (operation ++ ": %w")%string [] ErrConflict.

(** ** Locks *)

(* internal/persistence/postgres/identity.go: transaction.lockExternalCustomerID *)
Definition lockExternalCustomerID (projectID : ProjectID) (externalID : string) : Tx identity_db unit :=
  fun db => (Ok tt, with_lock (LockExternal projectID externalID) db).

(** An update that changes nothing locks the row. *)
(* internal/persistence/postgres/entitlement.go: transaction.LockCustomer *)
Definition LockCustomer (projectID : ProjectID) (customerID : CustomerID) : Tx identity_db unit :=
  tx_check (errors_Join [ProjectID_Validate projectID; CustomerID_Validate customerID])
  (fun db => match customers db !! customerID with
             | Some row => if String.eqb (cu_project row) projectID
                           then (Ok tt, with_lock (LockRow customerID) db)
                           else identity_error "lock customer entitlement projection" ErrNoRows db
             | None => identity_error "lock customer entitlement projection" ErrNoRows db
             end).

(* internal/persistence/postgres/identity.go: transaction.lockCustomersInOrder *)
Definition lockCustomersInOrder (projectID : ProjectID) (left right : CustomerID) : Tx identity_db unit :=
  let ids := if String.ltb right left then [right; left] else [left; right] in
  tx_each (LockCustomer projectID) ids.

(** The canonical customer and the customers merged directly into it. *)
Definition closure_ids (projectID : ProjectID) (canonicalID : CustomerID) (db : identity_db) : list CustomerID :=
  merge_sort (fun a b => Is_true (string_le a b))
    (map fst (List.filter (fun entry => String.eqb (cu_project entry.2) projectID
                             && (String.eqb entry.1 canonicalID
                                 || bool_decide (cu_merged entry.2 = Some canonicalID)))
                (map_to_list (customers db)))).

(* internal/persistence/postgres/identity.go: transaction.LockCustomerClosure *)
Definition id_LockCustomerClosure (projectID : ProjectID) (canonicalID : CustomerID) : Tx identity_db unit :=
  tx_check (errors_Join [ProjectID_Validate projectID; CustomerID_Validate canonicalID])
  (fun db =>
     let ids := closure_ids projectID canonicalID db in
     if Nat.eqb (length ids) 0
     then (Err (Wrapf "lock customer closure: %w" [] ErrNotFound), db)
     else tx_each (LockCustomer projectID) ids db).

(** ** Reading *)

Definition stored_identity (id : CustomerID) (row : customer_row) : result customerIdentity :=
  let identity := mkIdentity id (cu_project row) (cu_external row) (cu_merged row) in
  try* wrap_err "validate stored customer: %w" [] (Customer_Validate (identity_customer identity)) in
  Ok identity.

(* internal/persistence/postgres/identity.go: transaction.customerIdentityByID *)
Definition customerIdentityByID (projectID : ProjectID) (customerID : CustomerID) : Tx identity_db customerIdentity :=
  fun db => match customers db !! customerID with
            | Some row => if String.eqb (cu_project row) projectID
                          then (stored_identity customerID row, db)
                          else identity_error "load customer" ErrNoRows db
            | None => identity_error "load customer" ErrNoRows db
            end.

(** The row with these unique columns. *)
Definition find_external (projectID : ProjectID) (externalID : string) (db : identity_db)
    : option (CustomerID * customer_row) :=
  List.find (fun entry => String.eqb (cu_project entry.2) projectID
                          && String.eqb (cu_external entry.2) externalID)
    (map_to_list (customers db)).

(* internal/persistence/postgres/identity.go: transaction.customerIdentityByExternalID *)
Definition customerIdentityByExternalID (projectID : ProjectID) (externalID : string)
    : Tx identity_db customerIdentity :=
  fun db => match find_external projectID externalID db with
            | Some (id, row) => (stored_identity id row, db)
            | None => identity_error "load customer" ErrNoRows db
            end.

(* internal/persistence/postgres/identity.go: transaction.customerByExternalIDDirect *)
Definition customerByExternalIDDirect (projectID : ProjectID) (externalID : string) : Tx identity_db Customer :=
  do identity <- customerIdentityByExternalID projectID externalID;
  tx_ret (identity_customer identity).

(* internal/persistence/postgres/identity.go: customerResolution *)
Definition customerResolution (projectID : ProjectID) (externalID : string) (canonicalID : CustomerID)
    (match_ : string) : CustomerResolution := mkResolution projectID externalID canonicalID match_.

(* internal/persistence/postgres/identity.go: transaction.resolutionFromCustomer *)
Definition resolutionFromCustomer (projectID : ProjectID) (externalID : string) (identity : customerIdentity)
    : Tx identity_db CustomerResolution :=
  match ci_mergedInto identity with
  | None => tx_ret (customerResolution projectID externalID (ci_id identity) CustomerMatchPrimary)
  | Some mergedInto =>
      do target <- customerIdentityByID projectID mergedInto;
      match ci_mergedInto target with
      | Some _ => tx_err (conflict "resolve merged customer")
      | None => tx_ret (customerResolution projectID externalID (ci_id target) CustomerMatchMerged)
      end
  end.

(** The alias of an external id no customer has. *)
(* internal/persistence/postgres/identity.go:41-64: transaction.ResolveCustomer *)
Definition resolve_alias (projectID : ProjectID) (externalID : string) : Tx identity_db CustomerResolution :=
  do canonicalID <- (fun db => match aliases db !! (projectID, externalID) with
                               | Some row => (Ok (al_canonical row), db)
                               | None => identity_error "load customer alias" ErrNoRows db
                               end);
  do canonical <- customerIdentityByID projectID canonicalID;
  match ci_mergedInto canonical with
  | Some _ => tx_err (conflict "resolve customer alias")
  | None =>
      let resolution := mkResolution projectID externalID (ci_id canonical) CustomerMatchAlias in
      tx_check (wrap_err "validate customer resolution: %w" [] (CustomerResolution_Validate resolution))
        (tx_ret resolution)
  end.

(* internal/persistence/postgres/identity.go: transaction.ResolveCustomer *)
Definition id_ResolveCustomer (projectID : ProjectID) (externalID : string) : Tx identity_db CustomerResolution :=
  tx_check (errors_Join [ProjectID_Validate projectID; ValidateExternalCustomerID externalID])
  (tx_handle (customerIdentityByExternalID projectID externalID)
     (resolutionFromCustomer projectID externalID)
     (fun e => if negb (errors_Is e "persistence.ErrNotFound") then tx_err e
               else resolve_alias projectID externalID)).

(* internal/persistence/postgres/catalog.go: transaction.CustomerByExternalID *)
Definition id_CustomerByExternalID (projectID : ProjectID) (externalID : string) : Tx identity_db Customer :=
  do resolution <- id_ResolveCustomer projectID externalID;
  do identity <- customerIdentityByID projectID (res_CanonicalCustomerID resolution);
  match ci_mergedInto identity with
  | Some _ => tx_err (conflict "load canonical customer")
  | None => tx_ret (identity_customer identity)
  end.

(* internal/persistence/postgres/identity.go: transaction.CustomerInClosure *)
Definition id_CustomerInClosure (projectID : ProjectID) (canonicalID candidateID : CustomerID)
    : Tx identity_db bool :=
  tx_check (errors_Join [ProjectID_Validate projectID; CustomerID_Validate canonicalID;
                         CustomerID_Validate candidateID])
  (if String.eqb candidateID canonicalID then
     do _ <- customerIdentityByID projectID canonicalID; tx_ret true
   else
     tx_handle (customerIdentityByID projectID candidateID)
       (fun candidate => tx_ret (bool_decide (ci_mergedInto candidate = Some canonicalID)))
       (fun e => if errors_Is e "persistence.ErrNotFound" then tx_ret false else tx_err e)).

(* internal/persistence/postgres/identity.go: transaction.customerClosure *)
Definition customerClosure (projectID : ProjectID) (customerID : CustomerID)
    : Tx identity_db (CustomerID * list string) :=
  tx_handle (customerIdentityByID projectID customerID)
    (fun identity =>
       do canonicalID <-
         match ci_mergedInto identity with
         | None => tx_ret (ci_id identity)
         | Some mergedInto =>
             do target <- customerIdentityByID projectID mergedInto;
             match ci_mergedInto target with
             | Some _ => tx_err (conflict "resolve customer closure")
             | None => tx_ret (ci_id target)
             end
         end;
       fun db =>
         let members := closure_ids projectID canonicalID db in
         (Ok (canonicalID, if Nat.eqb (length members) 0 then [canonicalID] else members), db))
    (fun e => if errors_Is e "persistence.ErrNotFound" then tx_ret (customerID, [customerID]) else tx_err e).

(* internal/persistence/postgres/identity.go: closureContains *)
Definition closureContains (members : list string) (customerID : string) : bool :=
  existsb (fun member => String.eqb member customerID) members.

(* internal/persistence/postgres/identity.go: transaction.customerAliasExists *)
Definition customerAliasExists (projectID : ProjectID) (externalID : string) : Tx identity_db bool :=
  fun db => (Ok (bool_decide (is_Some (aliases db !! (projectID, externalID)))), db).

(* internal/persistence/postgres/identity.go: transaction.customerOwnsAlias *)
Definition customerOwnsAlias (projectID : ProjectID) (customerID : CustomerID) : Tx identity_db bool :=
  fun db => (Ok (existsb (fun entry => String.eqb entry.1.1 projectID
                            && String.eqb (al_canonical entry.2) customerID)
                   (map_to_list (aliases db))), db).

(* internal/persistence/postgres/identity.go: transaction.customerOwnsMerge *)
Definition customerOwnsMerge (projectID : ProjectID) (customerID : CustomerID) : Tx identity_db bool :=
  fun db => (Ok (existsb (fun entry => String.eqb (cu_project entry.2) projectID
                            && bool_decide (cu_merged entry.2 = Some customerID))
                   (map_to_list (customers db))), db).

(* internal/persistence/postgres/identity.go: transaction.scanCustomerMerge *)
Definition scanCustomerMerge (selected : CustomerMerge -> bool) : Tx identity_db CustomerMerge :=
  fun db => match List.find (fun entry => selected entry.2) (map_to_list (merges db)) with
            | None => identity_error "load customer merge" ErrNoRows db
            | Some (_, merge) =>
                ((try* wrap_err "validate stored customer merge: %w" [] (CustomerMerge_Validate merge) in
                  Ok merge), db)
            end.

(* internal/persistence/postgres/identity.go: transaction.customerMergeByIdempotencyKey *)
Definition customerMergeByIdempotencyKey (projectID : ProjectID) (idempotencyKey : string)
    : Tx identity_db CustomerMerge :=
  scanCustomerMerge (fun merge => String.eqb (cm_ProjectID merge) projectID
                                  && String.eqb (cm_IdempotencyKey merge) idempotencyKey).

(* internal/persistence/postgres/identity.go: transaction.customerMergeBySource *)
Definition customerMergeBySource (sourceID : CustomerID) : Tx identity_db CustomerMerge :=
  scanCustomerMerge (fun merge => String.eqb (cm_SourceCustomerID merge) sourceID).

(** ** Writing *)

(* internal/persistence/postgres/control.go: transaction.PutCustomer *)
Definition PutCustomer (customer : Customer) : Tx identity_db Customer :=
  tx_check (Customer_Validate customer) (
  do _ <- lockExternalCustomerID (cus_ProjectID customer) (cus_ExternalID customer);
  do alias <- customerAliasExists (cus_ProjectID customer) (cus_ExternalID customer);
  if alias : bool then tx_err (conflict "put customer")
  else
    do _ <- (fun db =>
      match find_external (cus_ProjectID customer) (cus_ExternalID customer) db with
      | Some _ => (Ok tt, db)
      | None =>
          match customers db !! cus_ID customer with
          | Some _ => identity_error "put customer" (PgError "23505" "customers_pkey") db
          | None =>
              if bool_decide (cus_ProjectID customer ∈ id_projects db)
              then (Ok tt, with_customers <[cus_ID customer :=
                      mkCustomerRow (cus_ProjectID customer) (cus_ExternalID customer) None]> db)
              else identity_error "put customer" (PgError "23503" "customers_project_fk") db
          end
      end);
    customerByExternalIDDirect (cus_ProjectID customer) (cus_ExternalID customer)).

(** The alias row of an external id that resolves to nobody. *)
(* internal/persistence/postgres/identity.go:104-112: transaction.PutCustomerAlias *)
Definition insert_alias (write : CustomerAliasWrite) : Tx identity_db unit :=
  fun db =>
    match aliases db !! (caw_ProjectID write, caw_ExternalID write) with
    | Some _ => identity_error "put customer alias" (PgError "23505" "customer_aliases_pkey") db
    | None => (Ok tt, with_aliases <[(caw_ProjectID write, caw_ExternalID write) :=
                 mkAliasRow (caw_CanonicalCustomerID write) (caw_ActorRole write) (caw_ActorKeyID write)]> db)
    end.

(* internal/persistence/postgres/identity.go: transaction.PutCustomerAlias *)
Definition PutCustomerAlias (write : CustomerAliasWrite) : Tx identity_db CustomerResolution :=
  let projectID := caw_ProjectID write in
  let externalID := caw_ExternalID write in
  let canonicalID := caw_CanonicalCustomerID write in
  tx_check (CustomerAliasWrite_Validate write) (
  do _ <- lockExternalCustomerID projectID externalID;
  do _ <- LockCustomer projectID canonicalID;
  do canonical <- customerIdentityByID projectID canonicalID;
  match ci_mergedInto canonical with
  | Some _ => tx_err (conflict "put customer alias")
  | None =>
      if String.eqb (ci_externalID canonical) externalID
      then tx_ret (customerResolution projectID externalID (ci_id canonical) CustomerMatchPrimary)
      else
        tx_handle (id_ResolveCustomer projectID externalID)
          (fun resolved =>
             if negb (String.eqb (res_CanonicalCustomerID resolved) canonicalID)
             then tx_err (conflict "put customer alias") else tx_ret resolved)
          (fun e =>
             if negb (errors_Is e "persistence.ErrNotFound") then tx_err e
             else
               do _ <- insert_alias write;
               tx_ret (customerResolution projectID externalID canonicalID CustomerMatchAlias))
  end).

Section Merging.
Context (now : time) (random : result string).
(** The entitlements a customer has access to by its own current projections. *)
Context (allowed : ProjectID -> CustomerID -> list EntitlementID).

(* internal/persistence/postgres/identity.go: newCustomerMergeID *)
Definition newCustomerMergeID : result string :=
  let* buf := wrap_result (Wrapf "generate customer merge id: %w" []) random in
  Ok ("merge-" ++ EncodeToString buf)%string.

(* internal/persistence/postgres/identity.go: transaction.customersHaveEntitlementConflict *)
Definition customersHaveEntitlementConflict (projectID : ProjectID) (canonicalID sourceID : CustomerID) : bool :=
  existsb (contains_str (allowed projectID sourceID)) (allowed projectID canonicalID).

(** A merge found by its key or by its source is the answer again, when it is of the
    same two customers. *)
Definition replayed (same : CustomerMerge -> bool) (found : Tx identity_db CustomerMerge)
    (otherwise : Tx identity_db CustomerMergeResult) : Tx identity_db CustomerMergeResult :=
  tx_handle found
    (fun merge => if negb (same merge) then tx_err (conflict "merge customers")
                  else tx_ret (mkMergeResult merge true))
    (fun e => if negb (errors_Is e "persistence.ErrNotFound") then tx_err e else otherwise).

(** The update of the source customer. *)
(* internal/persistence/postgres/identity.go:182-192: transaction.MergeCustomers *)
Definition mark_merged (write : CustomerMergeWrite) : Tx identity_db unit :=
  fun db =>
    match customers db !! cmw_SourceCustomerID write with
    | Some row =>
        if String.eqb (cu_project row) (cmw_ProjectID write) && bool_decide (cu_merged row = None)
        then (Ok tt, with_customers <[cmw_SourceCustomerID write :=
                mkCustomerRow (cu_project row) (cu_external row) (Some (cmw_CanonicalCustomerID write))]> db)
        else (Err (conflict "merge customer"), db)
    | None => (Err (conflict "merge customer"), db)
    end.

(** The audit row; its key, its source and its idempotency key are unique. *)
(* internal/persistence/postgres/identity.go:205-213: transaction.MergeCustomers *)
Definition insert_merge (merge : CustomerMerge) : Tx identity_db unit :=
  fun db =>
    if bool_decide (is_Some (merges db !! cm_ID merge))
       || existsb (fun entry =>
            (String.eqb (cm_ProjectID entry.2) (cm_ProjectID merge)
             && String.eqb (cm_IdempotencyKey entry.2) (cm_IdempotencyKey merge))
            || String.eqb (cm_SourceCustomerID entry.2) (cm_SourceCustomerID merge))
            (map_to_list (merges db))
    then identity_error "insert customer merge" (PgError "23505" EmptyString) db
    else (Ok tt, with_merges <[cm_ID merge := merge]> db).

(** The merge of two customers no merge concerns yet. *)
(* internal/persistence/postgres/identity.go:160-220: transaction.MergeCustomers *)
Definition new_merge (write : CustomerMergeWrite) (canonical source : customerIdentity)
    : Tx identity_db CustomerMergeResult :=
  let projectID := cmw_ProjectID write in
  let canonicalID := cmw_CanonicalCustomerID write in
  let sourceID := cmw_SourceCustomerID write in
  if bool_decide (is_Some (ci_mergedInto canonical)) || bool_decide (is_Some (ci_mergedInto source))
  then tx_err (conflict "merge customers")
  else
    do ownsAlias <- customerOwnsAlias projectID sourceID;
    do ownsMerge <- customerOwnsMerge projectID sourceID;
    if ownsAlias || ownsMerge then tx_err (conflict "merge customers")
    else if customersHaveEntitlementConflict projectID canonicalID sourceID
    then tx_err (Wrapf "merge customers: %w" [] ErrEntitlementConflict)
    else
      do _ <- mark_merged write;
      do mergeID <- tx_lift newCustomerMergeID;
      let merge := mkMerge mergeID projectID canonicalID sourceID (cmw_IdempotencyKey write) now in
      do _ <- insert_merge merge;
      tx_check (wrap_err "validate customer merge: %w" [] (CustomerMerge_Validate merge)) (
      do _ <- id_LockCustomerClosure projectID canonicalID;
      tx_ret (mkMergeResult merge false)).

(* internal/persistence/postgres/identity.go: transaction.MergeCustomers *)
Definition MergeCustomers (write : CustomerMergeWrite) : Tx identity_db CustomerMergeResult :=
  let projectID := cmw_ProjectID write in
  let canonicalID := cmw_CanonicalCustomerID write in
  let sourceID := cmw_SourceCustomerID write in
  tx_check (CustomerMergeWrite_Validate write) (
  if String.eqb canonicalID sourceID then tx_err (conflict "merge customers")
  else
    do _ <- lockCustomersInOrder projectID canonicalID sourceID;
    do canonical <- customerIdentityByID projectID canonicalID;
    do source <- customerIdentityByID projectID sourceID;
    replayed (fun merge => String.eqb (cm_CanonicalCustomerID merge) canonicalID
                           && String.eqb (cm_SourceCustomerID merge) sourceID)
      (customerMergeByIdempotencyKey projectID (cmw_IdempotencyKey write))
   (replayed (fun merge => String.eqb (cm_ProjectID merge) projectID
                           && String.eqb (cm_CanonicalCustomerID merge) canonicalID)
      (customerMergeBySource sourceID)
      (new_merge write canonical source))).
End Merging.

(** ** What the tables mean *)

(** The customer an external id belongs to. *)
Definition owner (db : identity_db) (projectID : ProjectID) (externalID : string) : option CustomerID :=
  match find_external projectID externalID db with
  | Some (id, row) => Some (default id (cu_merged row))
  | None => option_map al_canonical (aliases db !! (projectID, externalID))
  end.

(** A customer of the project that is not merged. *)
Definition canonical_in (db : identity_db) (projectID : ProjectID) (id : CustomerID) : Prop :=
  exists row, customers db !! id = Some row /\ cu_project row = projectID /\ cu_merged row = None.

(** Merges are one hop deep and audited, an external id belongs to one customer or
    one alias, and aliases name canonical customers. *)
Record identity_wf (db : identity_db) : Prop := {
  iw_valid : forall c r, customers db !! c = Some r ->
    Customer_Validate (mkCustomer c (cu_project r) (cu_external r)) = None;
  iw_external : forall c1 r1 c2 r2, customers db !! c1 = Some r1 -> customers db !! c2 = Some r2 ->
    cu_project r1 = cu_project r2 -> cu_external r1 = cu_external r2 -> c1 = c2;
  iw_flat : forall c r t, customers db !! c = Some r -> cu_merged r = Some t -> canonical_in db (cu_project r) t;
  iw_alias : forall p x a, aliases db !! (p, x) = Some a -> canonical_in db p (al_canonical a);
  iw_disjoint : forall p x a c r, aliases db !! (p, x) = Some a -> customers db !! c = Some r ->
    cu_project r = p -> cu_external r <> x;
  iw_audit : forall i m, merges db !! i = Some m ->
    CustomerMerge_Validate m = None /\
    exists r, customers db !! cm_SourceCustomerID m = Some r /\ cu_project r = cm_ProjectID m /\
              cu_merged r = Some (cm_CanonicalCustomerID m);
  iw_unique : forall i1 m1 i2 m2, merges db !! i1 = Some m1 -> merges db !! i2 = Some m2 ->
    (cm_ProjectID m1 = cm_ProjectID m2 /\ cm_IdempotencyKey m1 = cm_IdempotencyKey m2) \/
    cm_SourceCustomerID m1 = cm_SourceCustomerID m2 -> i1 = i2
}.

(** Equal but for the locks. *)
Definition same_tables (db db' : identity_db) : Prop :=
  id_projects db' = id_projects db /\ customers db' = customers db /\ aliases db' = aliases db /\
  merges db' = merges db.

#[export] Instance same_tables_order : PreOrder same_tables.
Proof. split; unfold same_tables; [done|]. intros ???. naive_solver congruence. Qed.

Lemma wf_same db db' : same_tables db db' -> identity_wf db -> identity_wf db'.
Proof.
  destruct db, db'. intros (Hp & Hc & Ha & Hm) []; simpl in *. subst. by constructor.
Qed.

Lemma find_external_same db db' p x : same_tables db db' -> find_external p x db' = find_external p x db.
Proof. intros (_ & Hc & _). unfold find_external. by rewrite Hc. Qed.

Lemma owner_same db db' p x : same_tables db db' -> owner db' p x = owner db p x.
Proof.
  intros H. unfold owner. rewrite (find_external_same _ _ _ _ H). destruct H as (_ & _ & -> & _). done.
Qed.

Lemma find_external_some p x db id row :
  find_external p x db = Some (id, row) ->
  customers db !! id = Some row /\ cu_project row = p /\ cu_external row = x.
Proof.
  unfold find_external. intros [Hin H]%find_some. apply list_elem_of_In, elem_of_map_to_list in Hin.
  apply andb_true_iff in H as [Hp%String.eqb_eq Hx%String.eqb_eq]. done.
Qed.

Lemma find_external_none p x db id row :
  find_external p x db = None -> customers db !! id = Some row -> cu_project row = p -> cu_external row <> x.
Proof.
  intros H Hrow <- <-. unfold find_external in H.
  apply elem_of_map_to_list, list_elem_of_In in Hrow. apply (find_none _ _ H) in Hrow. simpl in Hrow.
  by rewrite !String.eqb_refl in Hrow.
Qed.

Lemma find_external_is db id row :
  identity_wf db -> customers db !! id = Some row ->
  find_external (cu_project row) (cu_external row) db = Some (id, row).
Proof.
  intros Hwf Hrow. destruct (find_external _ _ db) as [[id' row']|] eqn:E.
  - apply find_external_some in E as (Hrow' & Hp & Hx).
    pose proof (iw_external _ Hwf _ _ _ _ Hrow' Hrow Hp Hx) as ->. congruence.
  - by apply (find_external_none _ _ _ _ _ E) in Hrow.
Qed.

(** The owner of an external id, by cases that do not search. *)
Lemma owner_customer db id row :
  identity_wf db -> customers db !! id = Some row ->
  owner db (cu_project row) (cu_external row) = Some (default id (cu_merged row)).
Proof. intros Hwf Hrow. unfold owner. by rewrite (find_external_is _ _ _ Hwf Hrow). Qed.

Lemma owner_canonical db p x c : identity_wf db -> owner db p x = Some c -> canonical_in db p c.
Proof.
  intros Hwf. unfold owner. destruct (find_external p x db) as [[id row]|] eqn:E.
  - apply find_external_some in E as (Hrow & <- & _). intros [= <-].
    destruct (cu_merged row) as [t|] eqn:Em; simpl; [by eapply iw_flat|by exists row].
  - destruct (aliases db !! (p, x)) as [a|] eqn:Ea; [|done]. intros [= <-]. by eapply iw_alias.
Qed.

(** ** Reading *)

Definition missing (e : gerror) : Prop := errors_Is e "persistence.ErrNotFound" = true.

Lemma no_rows operation : exists e, missing e /\
  forall A db, @identity_error A operation ErrNoRows db = (Err e, db).
Proof. eexists. split; [|intros; reflexivity]. reflexivity. Qed.

Lemma stored_identity_ok db id row :
  identity_wf db -> customers db !! id = Some row ->
  stored_identity id row = Ok (mkIdentity id (cu_project row) (cu_external row) (cu_merged row)).
Proof.
  intros Hwf Hrow. unfold stored_identity, identity_customer. cbn.
  by rewrite (iw_valid _ Hwf _ _ Hrow).
Qed.

Lemma byID_found db p id row :
  identity_wf db -> customers db !! id = Some row -> cu_project row = p ->
  customerIdentityByID p id db = (Ok (mkIdentity id p (cu_external row) (cu_merged row)), db).
Proof.
  intros Hwf Hrow <-. unfold customerIdentityByID.
  by rewrite Hrow, String.eqb_refl, (stored_identity_ok _ _ _ Hwf Hrow).
Qed.

Lemma byID_ok db p id identity db' :
  customerIdentityByID p id db = (Ok identity, db') ->
  db' = db /\ exists row, customers db !! id = Some row /\ cu_project row = p /\
    identity = mkIdentity id p (cu_external row) (cu_merged row).
Proof.
  unfold customerIdentityByID. destruct (customers db !! id) as [row|]; [|done].
  destruct (String.eqb_spec (cu_project row) p) as [<-|]; [|done]. unfold stored_identity.
  intros [= H <-]. apply try_err_ok in H as [_ [= <-]]. split; [done|]. by exists row.
Qed.

Lemma byExternal_ok db p x identity db' :
  customerIdentityByExternalID p x db = (Ok identity, db') ->
  db' = db /\ exists id row, find_external p x db = Some (id, row) /\
    identity = mkIdentity id p x (cu_merged row).
Proof.
  unfold customerIdentityByExternalID. destruct (find_external p x db) as [[id row]|] eqn:E; [|done].
  apply find_external_some in E as (_ & Hp & Hx). unfold stored_identity.
  intros [= H <-]. apply try_err_ok in H as [_ [= <-]]. split; [done|]. exists id, row. by rewrite Hp, Hx.
Qed.

(** Resolution finds the owner of an external id, whatever leads to it. *)
Lemma resolve_owner db p x :
  identity_wf db -> ProjectID_Validate p = None -> ValidateExternalCustomerID x = None ->
  match owner db p x with
  | Some c => exists match_, id_ResolveCustomer p x db = (Ok (mkResolution p x c match_), db)
  | None => exists e, missing e /\ id_ResolveCustomer p x db = (Err e, db)
  end.
Proof.
  intros Hwf Hp Hx. unfold id_ResolveCustomer, owner.
  replace (errors_Join [ProjectID_Validate p; ValidateExternalCustomerID x]) with (@None gerror)
    by (symmetry; apply errors_Join_nil; repeat constructor; done).
  cbn [tx_check]. unfold tx_handle, customerIdentityByExternalID.
  destruct (find_external p x db) as [[id row]|] eqn:E.
  - apply find_external_some in E as (Hrow & Hpr & _). rewrite (stored_identity_ok _ _ _ Hwf Hrow).
    unfold resolutionFromCustomer. cbn [ci_mergedInto ci_id]. destruct (cu_merged row) as [t|] eqn:Em; [|by eexists].
    destruct (iw_flat _ Hwf _ _ _ Hrow Em) as (tr & Ht & Htp & Htm). unfold tx_bind.
    rewrite (byID_found _ p _ _ Hwf Ht) by congruence. cbn [ci_mergedInto ci_id]. rewrite Htm. by eexists.
  - destruct (no_rows "load customer") as (e & He & Hrows). rewrite Hrows, He. cbn [negb].
    unfold resolve_alias, tx_bind. destruct (aliases db !! (p, x)) as [a|] eqn:Ea.
    + destruct (iw_alias _ Hwf _ _ _ Ea) as (r & Hr & Hrp & Hrm).
      rewrite (byID_found _ p _ _ Hwf Hr Hrp). cbn [ci_mergedInto ci_id]. rewrite Hrm.
      pose proof (iw_valid _ Hwf _ _ Hr) as Hvalid. unfold Customer_Validate in Hvalid.
      apply errors_Join_nil in Hvalid. rewrite !Forall_cons in Hvalid. destruct Hvalid as (Hid & _).
      cbn [cus_ID] in Hid. unfold CustomerResolution_Validate. cbn [res_ProjectID res_ExternalID res_CanonicalCustomerID res_Match].
      replace (errors_Join _) with (@None gerror)
        by (symmetry; apply errors_Join_nil; repeat constructor; done).
      by eexists.
    + destruct (no_rows "load customer alias") as (e' & He' & Hrows'). rewrite Hrows'. by exists e'.
Qed.

(** Resolving an external id computes its owner: with well-formed tables the
    answer is the unmerged customer the id, its alias or its merge leads to, never a
    conflict, and an id nobody has is reported as not found; nothing changes. *)
Theorem resolve_is_owner db p x :
  identity_wf db -> ProjectID_Validate p = None -> ValidateExternalCustomerID x = None ->
  match owner db p x with
  | Some c => canonical_in db p c /\
      exists match_, id_ResolveCustomer p x db = (Ok (mkResolution p x c match_), db) /\
      exists row, customers db !! c = Some row /\
        id_CustomerByExternalID p x db = (Ok (mkCustomer c p (cu_external row)), db)
  | None => exists e, missing e /\ id_ResolveCustomer p x db = (Err e, db) /\
                      id_CustomerByExternalID p x db = (Err e, db)
  end.
Proof.
  intros Hwf Hp Hx. pose proof (resolve_owner db p x Hwf Hp Hx) as Hresolve.
  destruct (owner db p x) as [c|] eqn:Eo.
  - pose proof (owner_canonical _ _ _ _ Hwf Eo) as Hc. split; [done|].
    destruct Hresolve as [match_ Hr]. exists match_. split; [done|]. destruct Hc as (row & Hrow & Hrp & Hrm).
    exists row. split; [done|]. unfold id_CustomerByExternalID, tx_bind. rewrite Hr.
    cbn [res_CanonicalCustomerID]. rewrite (byID_found _ p _ _ Hwf Hrow Hrp). cbn. by rewrite Hrm.
  - destruct Hresolve as (e & He & Hr). exists e. split; [done|]. split; [done|].
    unfold id_CustomerByExternalID, tx_bind. by rewrite Hr.
Qed.

(** ** Updates *)

(** Ownership without searching. *)
Lemma owner_iff db p x c :
  identity_wf db ->
  owner db p x = Some c <->
  (exists id row, customers db !! id = Some row /\ cu_project row = p /\ cu_external row = x /\
     c = default id (cu_merged row)) \/
  (exists a, aliases db !! (p, x) = Some a /\ c = al_canonical a).
Proof.
  intros Hwf. split.
  - unfold owner. destruct (find_external p x db) as [[id row]|] eqn:E.
    + intros [= <-]. left. apply find_external_some in E as (Hrow & Hp & Hx). by exists id, row.
    + destruct (aliases db !! (p, x)) as [a|] eqn:Ea; [|done]. intros [= <-]. right. by exists a.
  - intros [(id & row & Hrow & <- & <- & ->)|(a & Ha & ->)]; [by apply owner_customer|].
    unfold owner. destruct (find_external p x db) as [[id row]|] eqn:E.
    + apply find_external_some in E as (Hrow & Hp & Hx). by destruct (iw_disjoint _ Hwf _ _ _ _ _ Ha Hrow Hp).
    + by rewrite Ha.
Qed.

(** An ownership is decided by what it answers. *)
Lemma owner_ext db p x o : (forall c, owner db p x = Some c <-> o = Some c) -> owner db p x = o.
Proof.
  intros H. destruct o as [c|]; [by apply H|]. destruct (owner db p x) as [c|]; [|done].
  discriminate (proj1 (H c) eq_refl).
Qed.

Lemma nobody db p x id row :
  identity_wf db -> owner db p x = None -> customers db !! id = Some row -> cu_project row = p -> cu_external row <> x.
Proof. intros Hwf Ho Hrow <- <-. by rewrite (owner_customer _ _ _ Hwf Hrow) in Ho. Qed.

Lemma nobody_alias db p x : owner db p x = None -> identity_wf db -> aliases db !! (p, x) = None.
Proof.
  intros Ho Hwf. destruct (aliases db !! (p, x)) as [a|] eqn:E; [|done].
  assert (owner db p x = Some (al_canonical a)) by (apply owner_iff; eauto). congruence.
Qed.

Definition add_customer (p : ProjectID) (x : string) (id : CustomerID) : identity_db -> identity_db :=
  with_customers <[id := mkCustomerRow p x None]>.

Lemma add_customer_canonical db p x id q c :
  customers db !! id = None -> canonical_in db q c -> canonical_in (add_customer p x id db) q c.
Proof.
  intros Hid (row & Hrow & ?). exists row. cbn. rewrite lookup_insert_ne; [done|]. intros ->. congruence.
Qed.

Lemma add_customer_wf db p x id :
  identity_wf db -> customers db !! id = None -> owner db p x = None ->
  Customer_Validate (mkCustomer id p x) = None -> identity_wf (add_customer p x id db).
Proof.
  intros Hwf Hid Ho Hv. pose proof (nobody_alias _ _ _ Ho Hwf) as Hna. constructor; cbn.
  - intros c r [[<- <-]|[_ Hr]]%lookup_insert_Some; [done|by apply (iw_valid _ Hwf)].
  - intros c1 r1 c2 r2 [[<- <-]|[N1 H1]]%lookup_insert_Some [[<- <-]|[N2 H2]]%lookup_insert_Some; cbn; intros Hp Hx.
    + done.
    + by destruct (nobody _ _ _ _ _ Hwf Ho H2 (eq_sym Hp)).
    + by destruct (nobody _ _ _ _ _ Hwf Ho H1 Hp).
    + by eapply (iw_external _ Hwf).
  - intros c r t [[<- <-]|[_ Hr]]%lookup_insert_Some Hm; [done|].
    apply add_customer_canonical; [done|]. by eapply (iw_flat _ Hwf).
  - intros q y a Ha. apply add_customer_canonical; [done|]. by eapply (iw_alias _ Hwf).
  - intros q y a c r Ha [[<- <-]|[_ Hr]]%lookup_insert_Some; cbn; [intros <- <-; congruence|].
    by eapply (iw_disjoint _ Hwf).
  - intros i m Hm. destruct (iw_audit _ Hwf _ _ Hm) as (Hval & r & Hr & ?). split; [done|]. exists r.
    rewrite lookup_insert_ne; [done|]. intros ->. congruence.
  - apply (iw_unique _ Hwf).
Qed.

Lemma add_customer_owner db p x id q y :
  identity_wf db -> customers db !! id = None -> owner db p x = None ->
  Customer_Validate (mkCustomer id p x) = None ->
  owner (add_customer p x id db) q y = if bool_decide ((q, y) = (p, x)) then Some id else owner db q y.
Proof.
  intros Hwf Hid Ho Hv. pose proof (add_customer_wf _ _ _ _ Hwf Hid Ho Hv) as Hwf'. apply owner_ext. intros c.
  rewrite (owner_iff _ _ _ _ Hwf'). cbn. case_bool_decide as E.
  - injection E as -> ->. split.
    + intros [(i & r & [[<- <-]|[_ Hr]]%lookup_insert_Some & Hp & Hx & ->)|(a & Ha & ->)]; [done| |].
      * by destruct (nobody _ _ _ _ _ Hwf Ho Hr Hp).
      * by rewrite (nobody_alias _ _ _ Ho Hwf) in Ha.
    + intros [= <-]. left. exists id, (mkCustomerRow p x None). by rewrite lookup_insert_eq.
  - rewrite (owner_iff _ _ _ _ Hwf). split.
    + intros [(i & r & [[<- <-]|[_ Hr]]%lookup_insert_Some & Hp & Hx & ->)|Ha]; [by cbn in *; subst|left; eauto 7|by right].
    + intros [(i & r & Hr & ?)|Ha]; [|by right]. left. exists i, r. rewrite lookup_insert_ne; [done|]. intros ->. congruence.
Qed.

Definition add_alias (p : ProjectID) (x : string) (a : alias_row) : identity_db -> identity_db :=
  with_aliases <[(p, x) := a]>.

Lemma add_alias_wf db p x a :
  identity_wf db -> owner db p x = None -> canonical_in db p (al_canonical a) -> identity_wf (add_alias p x a db).
Proof.
  intros Hwf Ho Hc. constructor; cbn; try apply Hwf.
  - intros q y b [[[= <- <-] <-]|[_ Hb]]%lookup_insert_Some; [done|by eapply (iw_alias _ Hwf)].
  - intros q y b c r [[[= <- <-] <-]|[_ Hb]]%lookup_insert_Some Hr Hp; [by eapply nobody|by eapply (iw_disjoint _ Hwf)].
Qed.

Lemma add_alias_owner db p x a q y :
  identity_wf db -> owner db p x = None -> canonical_in db p (al_canonical a) ->
  owner (add_alias p x a db) q y = if bool_decide ((q, y) = (p, x)) then Some (al_canonical a) else owner db q y.
Proof.
  intros Hwf Ho Hc. unfold owner. cbn. case_bool_decide as E.
  - injection E as -> ->. unfold owner in Ho. unfold find_external in *. cbn.
    destruct (List.find _ _) as [[id row]|]; [done|]. by rewrite lookup_insert_eq.
  - unfold find_external. cbn. destruct (List.find _ _) as [[id row]|]; [done|].
    rewrite lookup_insert_ne; [done|]. congruence.
Qed.

(** A merge the repository accepts as new. *)
Record mergeable (db : identity_db) (r : customer_row) (m : CustomerMerge) : Prop := {
  mg_source : customers db !! cm_SourceCustomerID m = Some r;
  mg_project : cu_project r = cm_ProjectID m;
  mg_unmerged : cu_merged r = None;
  mg_canonical : canonical_in db (cm_ProjectID m) (cm_CanonicalCustomerID m);
  mg_distinct : cm_CanonicalCustomerID m <> cm_SourceCustomerID m;
  mg_aliases : forall q y a, aliases db !! (q, y) = Some a -> al_canonical a <> cm_SourceCustomerID m;
  mg_merged : forall c r', customers db !! c = Some r' -> cu_merged r' <> Some (cm_SourceCustomerID m);
  mg_valid : CustomerMerge_Validate m = None;
  mg_fresh : merges db !! cm_ID m = None;
  mg_unique : forall i m', merges db !! i = Some m' ->
    ~ ((cm_ProjectID m' = cm_ProjectID m /\ cm_IdempotencyKey m' = cm_IdempotencyKey m) \/
       cm_SourceCustomerID m' = cm_SourceCustomerID m)
}.

Definition apply_merge (r : customer_row) (m : CustomerMerge) (db : identity_db) : identity_db :=
  with_merges <[cm_ID m := m]>
    (with_customers <[cm_SourceCustomerID m :=
       mkCustomerRow (cu_project r) (cu_external r) (Some (cm_CanonicalCustomerID m))]> db).

Section Merge.
Context (db : identity_db) (r : customer_row) (m : CustomerMerge).
Context (Hwf : identity_wf db) (Hm : mergeable db r m).

Lemma merge_canonical q c :
  canonical_in db q c -> c <> cm_SourceCustomerID m -> canonical_in (apply_merge r m db) q c.
Proof. intros (row & Hrow & ?) Hne. exists row. cbn. by rewrite lookup_insert_ne. Qed.

Lemma merge_wf : identity_wf (apply_merge r m db).
Proof.
  destruct Hm as [Hs Hp Hu Hc Hd Ha Hno Hv Hf Hq]. constructor; cbn.
  - intros c row [[<- <-]|[_ Hr]]%lookup_insert_Some; [by apply (iw_valid _ Hwf _ _ Hs)|by apply (iw_valid _ Hwf)].
  - intros c1 r1 c2 r2 [[<- <-]|[N1 H1]]%lookup_insert_Some [[<- <-]|[N2 H2]]%lookup_insert_Some; cbn; intros Hpr Hx.
    + done.
    + by apply (iw_external _ Hwf _ _ _ _ Hs H2).
    + by apply (iw_external _ Hwf _ _ _ _ H1 Hs).
    + by eapply (iw_external _ Hwf).
  - intros c row t [[<- <-]|[_ Hr]]%lookup_insert_Some Hrm; cbn in *.
    + injection Hrm as <-. rewrite Hp. by apply merge_canonical.
    + apply merge_canonical; [by eapply (iw_flat _ Hwf)|]. intros ->. by apply (Hno _ _ Hr).
  - intros q y a Hal. apply merge_canonical; [by eapply (iw_alias _ Hwf)|by eapply Ha].
  - intros q y a c row Hal [[<- <-]|[_ Hr]]%lookup_insert_Some; cbn; by eapply (iw_disjoint _ Hwf).
  - intros i m' [[<- <-]|[_ Hm']]%lookup_insert_Some.
    + split; [done|]. eexists. rewrite lookup_insert_eq. by split_and!.
    + destruct (iw_audit _ Hwf _ _ Hm') as (Hval & row & Hrow & Hrp & Hrm). split; [done|]. exists row.
      rewrite lookup_insert_ne; [done|]. intros E. rewrite <- E in Hrow. congruence.
  - intros i1 m1 i2 m2 [[<- <-]|[_ H1]]%lookup_insert_Some [[<- <-]|[_ H2]]%lookup_insert_Some Heq.
    + done.
    + destruct (Hq _ _ H2). intuition congruence.
    + destruct (Hq _ _ H1). intuition congruence.
    + by eapply (iw_unique _ Hwf).
Qed.

Lemma merge_owner q y :
  owner (apply_merge r m db) q y
  = option_map (fun c => if bool_decide (c = cm_SourceCustomerID m) then cm_CanonicalCustomerID m else c) (owner db q y).
Proof.
  destruct Hm as [Hs Hp Hu Hc Hd Ha Hno Hv Hf Hq]. apply owner_ext. intros c. rewrite (owner_iff _ _ _ _ merge_wf). cbn.
  split.
  - intros [(i & row & [[<- <-]|[Hne Hr]]%lookup_insert_Some & <- & <- & ->)|(a & Hal & ->)]; cbn.
    + rewrite (owner_customer _ _ _ Hwf Hs), Hu. cbn. by rewrite bool_decide_eq_true_2.
    + rewrite (owner_customer _ _ _ Hwf Hr). cbn. rewrite bool_decide_eq_false_2; [done|].
      destruct (cu_merged row) as [t|] eqn:Em; cbn; [|done]. intros ->. by apply (Hno _ _ Hr).
    + assert (owner db q y = Some (al_canonical a)) as -> by (apply owner_iff; eauto). cbn.
      rewrite bool_decide_eq_false_2; [done|]. by eapply Ha.
  - destruct (owner db q y) as [o|] eqn:Eo; [|done]. cbn. intros [= <-].
    apply (owner_iff _ _ _ _ Hwf) in Eo as [(i & row & Hr & <- & <- & ->)|(a & Hal & ->)].
    + left. destruct (decide (i = cm_SourceCustomerID m)) as [->|Hne].
      * rewrite Hs in Hr. injection Hr as <-. eexists _, _. rewrite lookup_insert_eq. rewrite Hu. cbn.
        by rewrite bool_decide_eq_true_2.
      * exists i, row. rewrite lookup_insert_ne by done. split_and!; [done..|]. rewrite bool_decide_eq_false_2; [done|].
        destruct (cu_merged row) as [t|] eqn:Em; cbn; [|done]. intros ->. by apply (Hno _ _ Hr).
    + right. exists a. split; [done|]. rewrite bool_decide_eq_false_2; [done|]. by eapply Ha.
Qed.
End Merge.

(** ** The operations *)

Lemma leaves_external p x : leaves same_tables (lockExternalCustomerID p x).
Proof. intros db r db' [= _ <-]. done. Qed.

Lemma leaves_row p c : leaves same_tables (LockCustomer p c).
Proof.
  unfold LockCustomer. apply leaves_check; [apply _|]. intros db r db'.
  destruct (customers db !! c) as [row|]; [destruct (String.eqb _ _)|]; intros [= _ <-]; done.
Qed.

Lemma leaves_closure p c : leaves same_tables (id_LockCustomerClosure p c).
Proof.
  unfold id_LockCustomerClosure. apply leaves_check; [apply _|]. intros db r db'.
  destruct (Nat.eqb _ _); [by intros [= _ <-]|]. apply (leaves_each _ _ _ (leaves_row p)).
Qed.

(** A lock of a row that succeeds found the row. *)
Lemma LockCustomer_ok p c db db' :
  LockCustomer p c db = (Ok tt, db') ->
  same_tables db db' /\ exists row, customers db !! c = Some row /\ cu_project row = p.
Proof.
  intros H. split; [by apply leaves_row in H|]. unfold LockCustomer in H. apply tx_check_ok in H as [_ H].
  destruct (customers db !! c) as [row|]; [|done].
  destruct (String.eqb_spec (cu_project row) p); [|done]. by exists row.
Qed.

(** The effect of the three operations on who owns an external id. *)
Inductive identity_call : Type :=
| CallPut (customer : Customer)
| CallAlias (write : CustomerAliasWrite)
| CallMerge (now : time) (random : result string) (allowed : ProjectID -> CustomerID -> list EntitlementID)
    (write : CustomerMergeWrite).

Definition run_call (call : identity_call) : Tx identity_db unit :=
  match call with
  | CallPut customer => do _ <- PutCustomer customer; tx_ret tt
  | CallAlias write => do _ <- PutCustomerAlias write; tx_ret tt
  | CallMerge now random allowed write => do _ <- MergeCustomers now random allowed write; tx_ret tt
  end.

Definition owners : Type := ProjectID -> string -> option CustomerID.

(** The specification: a new external id belongs to its customer, an alias to the
    customer it names, and a merge moves all ids of the source to the canonical
    customer. *)
Definition call_spec (call : identity_call) (o : owners) : owners :=
  fun q y =>
    match call with
    | CallPut customer =>
        if bool_decide ((q, y) = (cus_ProjectID customer, cus_ExternalID customer))
        then Some (default (cus_ID customer) (o q y)) else o q y
    | CallAlias write =>
        if bool_decide ((q, y) = (caw_ProjectID write, caw_ExternalID write))
        then Some (caw_CanonicalCustomerID write) else o q y
    | CallMerge _ _ _ write =>
        option_map (fun c => if bool_decide (c = cmw_SourceCustomerID write)
                             then cmw_CanonicalCustomerID write else c) (o q y)
    end.

(** What a committed call did. *)
Definition refines (call : identity_call) (db db' : identity_db) : Prop :=
  identity_wf db' /\ merges db ⊆ merges db' /\ forall q y, owner db' q y = call_spec call (owner db) q y.

Lemma merges_same db db' : same_tables db db' -> merges db ⊆ merges db'.
Proof. by intros (_ & _ & _ & ->). Qed.

(** Locks taken first do not matter. *)
Lemma refines_locked call db db1 db2 : same_tables db db1 -> refines call db1 db2 -> refines call db db2.
Proof.
  intros Hl (Hw & Hm & Ho). split_and!; [done|by etrans; [apply merges_same|]|].
  intros q y. rewrite Ho. destruct call; cbn; by rewrite (owner_same _ _ q y Hl).
Qed.

Lemma PutCustomer_refines customer db stored db' :
  identity_wf db -> PutCustomer customer db = (Ok stored, db') -> refines (CallPut customer) db db'.
Proof.
  intros Hwf H. unfold PutCustomer in H. apply tx_check_ok in H as [Hval H].
  apply tx_bind_ok in H as ([] & db1 & Hl & H). apply leaves_external in Hl.
  pose proof (wf_same _ _ Hl Hwf) as Hwf1. pose proof (fun q y => owner_same _ _ q y Hl) as Ho1.
  apply tx_bind_ok in H as (alias & db2 & Ha & H). injection Ha as <- <-.
  case_bool_decide as Hal; [done|]. apply eq_None_not_Some in Hal.
  apply tx_bind_ok in H as ([] & db2 & Hi & H).
  apply tx_bind_ok in H as (identity & db3 & Hb & H). apply byExternal_ok in Hb as [-> Hb].
  apply tx_ret_ok in H as [_ <-]. destruct customer as [id p x]; cbn in *.
  destruct (find_external p x db1) as [[id' row]|] eqn:E.
  - injection Hi as <-. split_and!; [done|by apply merges_same|]. intros q y. rewrite Ho1. cbn. case_bool_decide as Eq; [|done].
    injection Eq as -> ->. rewrite <- Ho1. unfold owner. rewrite E. done.
  - assert (Hnone : owner db1 p x = None) by (unfold owner; by rewrite E, Hal).
    destruct (customers db1 !! id) eqn:Eid; [done|]. case_bool_decide; [|done].
    assert (db2 = add_customer p x id db1) as -> by (injection Hi as <-; done).
    split_and!; [by apply add_customer_wf|exact (merges_same _ _ Hl)|]. intros q y. rewrite add_customer_owner by done. cbn.
    rewrite <- (Ho1 q y). case_bool_decide as Eq; [|done]. injection Eq as -> ->. by rewrite Hnone.
Qed.

Lemma PutCustomerAlias_refines write db resolution db' :
  identity_wf db -> PutCustomerAlias write db = (Ok resolution, db') ->
  refines (CallAlias write) db db' /\ res_CanonicalCustomerID resolution = caw_CanonicalCustomerID write.
Proof.
  intros Hwf H. unfold PutCustomerAlias in H. apply tx_check_ok in H as [Hval H].
  apply tx_bind_ok in H as ([] & db1 & Hl1 & H). apply leaves_external in Hl1.
  apply tx_bind_ok in H as ([] & db2 & Hl2 & H). apply leaves_row in Hl2.
  assert (Hl : same_tables db db2) by (by transitivity db1).
  pose proof (wf_same _ _ Hl Hwf) as Hwf2. pose proof (fun q y => owner_same _ _ q y Hl) as Ho2.
  apply tx_bind_ok in H as (canonical & db3 & Hc & H). apply byID_ok in Hc as [-> (row & Hrow & Hp & ->)].
  cbn [ci_mergedInto ci_externalID ci_id] in H. destruct (cu_merged row) eqn:Em; [done|].
  assert (Hkept : forall db3, db3 = db2 -> owner db2 (caw_ProjectID write) (caw_ExternalID write)
                    = Some (caw_CanonicalCustomerID write) -> refines (CallAlias write) db db3).
  { intros ? -> Ho. split_and!; [done|by apply merges_same|]. intros q y. cbn. rewrite <- Ho2. case_bool_decide as Eq; [|done].
    by injection Eq as -> ->. }
  destruct (String.eqb_spec (cu_external row) (caw_ExternalID write)) as [Hx|Hx].
  - apply tx_ret_ok in H as [<- <-]. split; [|done]. apply Hkept; [done|]. rewrite <- Hp, <- Hx.
    rewrite (owner_customer _ _ _ Hwf2 Hrow). by rewrite Em.
  - unfold CustomerAliasWrite_Validate in Hval. rewrite errors_Join_nil, !Forall_cons in Hval.
    destruct Hval as (Hvp & _ & Hvx & _).
    pose proof (resolve_owner db2 _ _ Hwf2 Hvp Hvx) as Hr. unfold tx_handle in H.
    destruct (owner db2 (caw_ProjectID write) (caw_ExternalID write)) as [c|] eqn:Eo.
    + destruct Hr as (match_ & Hr). rewrite Hr in H. cbn [res_CanonicalCustomerID] in H.
      destruct (String.eqb_spec c (caw_CanonicalCustomerID write)) as [->|]; [|done].
      apply tx_ret_ok in H as [<- <-]. split; [by apply Hkept|done].
    + destruct Hr as (e & He & Hr). rewrite Hr, He in H. cbn [negb] in H.
      apply tx_bind_ok in H as ([] & db3 & Hi & H). apply tx_ret_ok in H as [<- <-]. split; [|done].
      unfold insert_alias in Hi. destruct (aliases db2 !! _); [done|].
      set (a := mkAliasRow _ _ _) in Hi.
      assert (db3 = add_alias (caw_ProjectID write) (caw_ExternalID write) a db2) as -> by (injection Hi as <-; done).
      assert (Hcan : canonical_in db2 (caw_ProjectID write) (al_canonical a)) by (by exists row).
      split_and!; [by apply add_alias_wf|exact (merges_same _ _ Hl)|]. intros q y. rewrite add_alias_owner by done. cbn. by rewrite <- Ho2.
Qed.

Lemma replayed_ok same found otherwise db r db' :
  replayed same found otherwise db = (Ok r, db') ->
  (exists m, found db = (Ok m, db') /\ same m = true /\ r = mkMergeResult m true) \/
  (exists e db1, found db = (Err e, db1) /\ otherwise db1 = (Ok r, db')).
Proof.
  unfold replayed, tx_handle. destruct (found db) as [[m|e] db1].
  - destruct (same m) eqn:E; [|done]. cbn. intros [= <- <-]. left. by exists m.
  - destruct (errors_Is e _); [|done]. cbn. intros H. right. by exists e, db1.
Qed.

Lemma scan_same selected db r db' : scanCustomerMerge selected db = (r, db') -> db' = db.
Proof.
  unfold scanCustomerMerge. destruct (List.find _ _) as [[i m]|]; by intros [= _ <-].
Qed.

Lemma scan_ok selected db m db' :
  scanCustomerMerge selected db = (Ok m, db') -> exists i, merges db !! i = Some m /\ selected m = true.
Proof.
  unfold scanCustomerMerge. destruct (List.find _ _) as [[i m']|] eqn:E; [|done].
  intros [= H _]. apply try_err_ok in H as [_ [= ->]]. exists i.
  apply find_some in E as [Hin%list_elem_of_In%elem_of_map_to_list Hs]. done.
Qed.

(** A recorded merge is in effect: nothing belongs to its source. *)
Lemma merged_refines now random allowed write db i m :
  identity_wf db -> merges db !! i = Some m ->
  cm_SourceCustomerID m = cmw_SourceCustomerID write ->
  refines (CallMerge now random allowed write) db db.
Proof.
  intros Hwf Hm Hs. split_and!; [done..|]. intros q y. cbn. destruct (owner db q y) as [c|] eqn:Eo; [|done]. cbn.
  case_bool_decide as Ec; [|done]. apply owner_canonical in Eo as (row & Hrow & _ & Hrm); [|done].
  destruct (iw_audit _ Hwf _ _ Hm) as (_ & r & Hr & _ & Hrm'). congruence.
Qed.

Lemma owns_alias_false db p c b db' q y a :
  identity_wf db -> customerOwnsAlias p c db = (Ok b, db') -> b = false ->
  (exists r, customers db !! c = Some r /\ cu_project r = p) ->
  aliases db !! (q, y) = Some a -> al_canonical a <> c.
Proof.
  intros Hwf [= <- _] Hb (r & Hr & Hp) Ha Hc. apply not_true_iff_false in Hb. apply Hb.
  apply existsb_exists. exists ((q, y), a). split; [by apply list_elem_of_In, elem_of_map_to_list|].
  destruct (iw_alias _ Hwf _ _ _ Ha) as (r' & Hr' & Hp' & _). rewrite Hc in Hr'. cbn.
  apply andb_true_iff. rewrite !String.eqb_eq. split; congruence.
Qed.

Lemma owns_merge_false db p c b db' i r' :
  identity_wf db -> customerOwnsMerge p c db = (Ok b, db') -> b = false ->
  (exists r, customers db !! c = Some r /\ cu_project r = p) ->
  customers db !! i = Some r' -> cu_merged r' <> Some c.
Proof.
  intros Hwf [= <- _] Hb (r & Hr & Hp) Hi Hc. apply not_true_iff_false in Hb. apply Hb.
  apply existsb_exists. exists (i, r'). split; [by apply list_elem_of_In, elem_of_map_to_list|].
  destruct (iw_flat _ Hwf _ _ _ Hi Hc) as (r2 & Hr2 & Hp2 & _). cbn.
  apply andb_true_iff. rewrite String.eqb_eq, bool_decide_eq_true. split; congruence.
Qed.

Lemma insert_merge_ok m db db' :
  insert_merge m db = (Ok tt, db') ->
  db' = with_merges <[cm_ID m := m]> db /\ merges db !! cm_ID m = None /\
  forall i m', merges db !! i = Some m' ->
    ~ ((cm_ProjectID m' = cm_ProjectID m /\ cm_IdempotencyKey m' = cm_IdempotencyKey m) \/
       cm_SourceCustomerID m' = cm_SourceCustomerID m).
Proof.
  unfold insert_merge. destruct (bool_decide _ || _) eqn:E; [done|]. intros [= <-].
  apply orb_false_iff in E as [Hf%bool_decide_eq_false He]. split; [done|].
  split; [by apply eq_None_not_Some|]. intros i m' Hm' Hsame. apply not_true_iff_false in He. apply He.
  apply existsb_exists. exists (i, m'). split; [by apply list_elem_of_In, elem_of_map_to_list|]. cbn.
  rewrite orb_true_iff, andb_true_iff, !String.eqb_eq. done.
Qed.

Lemma mark_merged_ok write db db' :
  mark_merged write db = (Ok tt, db') ->
  exists row, customers db !! cmw_SourceCustomerID write = Some row /\ cu_project row = cmw_ProjectID write /\
    cu_merged row = None /\
    db' = with_customers <[cmw_SourceCustomerID write :=
            mkCustomerRow (cu_project row) (cu_external row) (Some (cmw_CanonicalCustomerID write))]> db.
Proof.
  unfold mark_merged. destruct (customers db !! _) as [row|]; [|done].
  destruct (String.eqb _ _ && _) eqn:E; [|done]. intros [= <-].
  apply andb_true_iff in E as [Hp%String.eqb_eq Hm%bool_decide_eq_true]. by exists row.
Qed.

(** The merge a write asks for, under whatever key. *)
Definition merge_of (write : CustomerMergeWrite) (m : CustomerMerge) : Prop :=
  cm_ProjectID m = cmw_ProjectID write /\ cm_CanonicalCustomerID m = cmw_CanonicalCustomerID write /\
  cm_SourceCustomerID m = cmw_SourceCustomerID write.

(** A merge that is recorded moves what its source had to its canonical customer. *)
Lemma new_merge_refines now random allowed write db can src result db' :
  identity_wf db -> cmw_CanonicalCustomerID write <> cmw_SourceCustomerID write ->
  canonical_in db (cmw_ProjectID write) (cmw_CanonicalCustomerID write) \/ is_Some (ci_mergedInto can) ->
  new_merge now random allowed write can src db = (Ok result, db') ->
  refines (CallMerge now random allowed write) db db' /\ merge_of write (mr_Merge result) /\
  merges db' !! cm_ID (mr_Merge result) = Some (mr_Merge result).
Proof.
  intros Hwf Hne Hcan H. unfold new_merge in H.
  destruct (bool_decide _ || bool_decide _) eqn:Em; [done|]. apply orb_false_iff in Em as [Em _].
  apply bool_decide_eq_false in Em. destruct Hcan as [Hcan|]; [|done].
  apply tx_bind_ok in H as (oa & db1 & Hoa & H). assert (db1 = db) as -> by by injection Hoa.
  apply tx_bind_ok in H as (om & db1 & Hom & H). assert (db1 = db) as -> by by injection Hom.
  destruct (oa || om) eqn:Eo; [done|]. apply orb_false_iff in Eo as [-> ->].
  destruct (customersHaveEntitlementConflict _ _ _ _); [done|].
  apply tx_bind_ok in H as ([] & db1 & Hmark & H).
  apply mark_merged_ok in Hmark as (row & Hrow & Hp & Hun & ->).
  apply tx_bind_ok in H as (mid & db2 & Hid & H). apply tx_lift_ok in Hid as [_ <-].
  set (m := mkMerge _ _ _ _ _ _) in H. apply tx_bind_ok in H as ([] & db2 & Hins & H).
  apply insert_merge_ok in Hins as (-> & Hfresh & Huniq).
  apply tx_check_ok in H as [Hv H]. apply wrap_err_nil in Hv.
  apply tx_bind_ok in H as ([] & db3 & Hl & H). apply leaves_closure in Hl. apply tx_ret_ok in H as [<- <-].
  assert (Hmg : mergeable db row m).
  { assert (Hsrc : exists r, customers db !! cmw_SourceCustomerID write = Some r /\ cu_project r = cmw_ProjectID write)
      by by exists row.
    constructor; try done.
    - intros q y a. by apply (owns_alias_false db _ _ _ _ _ _ _ Hwf Hoa eq_refl Hsrc).
    - intros c r'. by apply (owns_merge_false db _ _ _ _ _ _ Hwf Hom eq_refl Hsrc). }
  change (same_tables (apply_merge row m db) db3) in Hl. split_and!; [|done|].
  - split_and!; [exact (wf_same _ _ Hl (merge_wf _ _ _ Hwf Hmg))| |].
    { etrans; [|exact (merges_same _ _ Hl)]. by apply insert_subseteq. }
    intros q y. rewrite (owner_same _ _ q y Hl). apply (merge_owner _ _ _ Hwf Hmg).
  - destruct Hl as (_ & _ & _ & ->). cbn. by rewrite lookup_insert_eq.
Qed.

Lemma leaves_order p a b : leaves same_tables (lockCustomersInOrder p a b).
Proof. unfold lockCustomersInOrder. apply leaves_each; [apply _|]. apply leaves_row. Qed.

Lemma MergeCustomers_refines now random allowed write db result db' :
  identity_wf db -> MergeCustomers now random allowed write db = (Ok result, db') ->
  refines (CallMerge now random allowed write) db db' /\
  merge_of write (mr_Merge result) /\ exists i, merges db' !! i = Some (mr_Merge result).
Proof.
  intros Hwf H. unfold MergeCustomers in H. apply tx_check_ok in H as [_ H].
  destruct (String.eqb_spec (cmw_CanonicalCustomerID write) (cmw_SourceCustomerID write)) as [|Hne]; [done|].
  apply tx_bind_ok in H as ([] & db1 & Hl & H). apply leaves_order in Hl.
  pose proof (wf_same _ _ Hl Hwf) as Hwf1.
  apply tx_bind_ok in H as (can & db2 & Hc & H). apply byID_ok in Hc as [-> (row & Hrow & Hp & ->)].
  apply tx_bind_ok in H as (src & db2 & Hs & H). apply byID_ok in Hs as [-> _].
  pose proof (fun db2 => refines_locked (CallMerge now random allowed write) _ _ db2 Hl) as Hmove.
  apply replayed_ok in H as [(m & Hm & Hsame & ->)|(e & db2 & Hm & H)]; pose proof (scan_same _ _ _ _ Hm) as ->.
  { apply scan_ok in Hm as (i & Hi & [Hsel%String.eqb_eq _]%andb_true_iff).
    apply andb_true_iff in Hsame as [Hcm%String.eqb_eq Hsame%String.eqb_eq].
    split; [|by split; [|exists i]]. apply Hmove. by apply (merged_refines _ _ _ _ _ _ _ Hwf1 Hi). }
  apply replayed_ok in H as [(m' & Hm' & Hsame & ->)|(e' & db2 & Hm' & H)]; pose proof (scan_same _ _ _ _ Hm') as ->.
  { apply scan_ok in Hm' as (i & Hi & Hsel%String.eqb_eq).
    apply andb_true_iff in Hsame as [Hpm%String.eqb_eq Hcm%String.eqb_eq].
    split; [|by split; [|exists i]]. apply Hmove. by apply (merged_refines _ _ _ _ _ _ _ Hwf1 Hi). }
  apply new_merge_refines in H as (Hr & Hof & Hin); [|done..|].
  - split_and!; [by apply Hmove|done|]. by eexists.
  - destruct (cu_merged row) eqn:Em; [right; by eexists|left; by exists row].
Qed.

(** ** Transactions *)

Definition released (db : identity_db) : identity_db :=
  mkIdentityDb (id_projects db) (customers db) (aliases db) (merges db) [].

(** A call in a transaction of its own: an error rolls it back, and its locks end
    with it. *)
Definition transact (call : identity_call) (db : identity_db) : option identity_db :=
  match run_call call db with
  | (Ok _, db') => Some (released db')
  | (Err _, _) => None
  end.

(** The calls that committed, and the tables they leave. *)
Fixpoint transact_all (calls : list identity_call) (db : identity_db) : list identity_call * identity_db :=
  match calls with
  | [] => ([], db)
  | call :: calls =>
      match transact call db with
      | Some db' => let '(committed, last) := transact_all calls db' in (call :: committed, last)
      | None => transact_all calls db
      end
  end.

Lemma released_same db : same_tables db (released db).
Proof. done. Qed.

Lemma transact_refines call db db' : identity_wf db -> transact call db = Some db' -> refines call db db'.
Proof.
  intros Hwf. unfold transact. destruct (run_call call db) as [[[]|e] db1] eqn:E; [|done]. intros [= <-].
  assert (Hr : refines call db db1).
  { destruct call as [customer|write|now random allowed write]; cbn in E;
      apply tx_bind_ok in E as (r & db2 & Hr & [_ <-]%tx_ret_ok).
    - by eapply PutCustomer_refines.
    - by apply PutCustomerAlias_refines in Hr as [? _].
    - by apply MergeCustomers_refines in Hr as [? _]. }
  destruct Hr as (Hw & Hm & Ho). split_and!; [by apply (wf_same db1)|done|].
  intros q y. by rewrite (owner_same _ _ q y (released_same db1)).
Qed.

(** The specification only looks at who owns what. *)
Lemma call_spec_ext call o o' :
  (forall q y, o q y = o' q y) -> forall q y, call_spec call o q y = call_spec call o' q y.
Proof. intros H q y. destruct call; cbn; by rewrite H. Qed.

Lemma fold_spec_ext calls o o' :
  (forall q y, o q y = o' q y) ->
  forall q y, foldl (fun o call => call_spec call o) o calls q y
              = foldl (fun o call => call_spec call o) o' calls q y.
Proof.
  induction calls as [|call calls IH] in o, o' |- *; cbn; [done|]. intros H. apply IH. by apply call_spec_ext.
Qed.

Lemma transact_all_spec calls db committed db' :
  identity_wf db -> transact_all calls db = (committed, db') ->
  identity_wf db' /\ merges db ⊆ merges db' /\ committed `sublist_of` calls /\
  forall q y, owner db' q y = foldl (fun o call => call_spec call o) (owner db) committed q y.
Proof.
  induction calls as [|call calls IH] in db, committed |- *; intros Hwf.
  - intros [= <- <-]. done.
  - cbn. destruct (transact call db) as [db1|] eqn:E.
    + apply transact_refines in E as (Hw & Hm & Ho); [|done].
      destruct (transact_all calls db1) as [c1 last] eqn:E1. intros [= <- <-].
      apply IH in E1 as (Hw1 & Hm1 & Hs & Ho1); [|done]. split_and!; [done|by etrans|by constructor|].
      intros q y. rewrite Ho1. cbn. by apply fold_spec_ext.
    + intros H. apply IH in H as (? & ? & ? & ?); [|done]. split_and!; [done..|by constructor|done].
Qed.

(** A lock of a row that is there succeeds. *)
Lemma LockCustomer_found p c row db :
  identity_wf db -> ProjectID_Validate p = None -> customers db !! c = Some row -> cu_project row = p ->
  exists db', LockCustomer p c db = (Ok tt, db') /\ same_tables db db'.
Proof.
  intros Hwf Hp Hrow Hrp. unfold LockCustomer.
  pose proof (iw_valid _ Hwf _ _ Hrow) as Hvalid. unfold Customer_Validate in Hvalid.
  apply errors_Join_nil in Hvalid. rewrite !Forall_cons in Hvalid. destruct Hvalid as (Hid & _).
  replace (errors_Join _) with (@None gerror) by (symmetry; apply errors_Join_nil; repeat constructor; done).
  cbn [tx_check]. rewrite Hrow, (proj2 (String.eqb_eq _ _) Hrp). eexists. split; [reflexivity|done].
Qed.

Lemma lockCustomersInOrder_found p a b ra rb db :
  identity_wf db -> ProjectID_Validate p = None -> customers db !! a = Some ra -> cu_project ra = p ->
  customers db !! b = Some rb -> cu_project rb = p ->
  exists db', lockCustomersInOrder p a b db = (Ok tt, db') /\ same_tables db db'.
Proof.
  intros Hwf Hp Ha Hap Hb Hbp.
  assert (Htwo : forall c d rc rd, customers db !! c = Some rc -> cu_project rc = p ->
    customers db !! d = Some rd -> cu_project rd = p ->
    exists db', tx_each (LockCustomer p) [c; d] db = (Ok tt, db') /\ same_tables db db').
  { intros c d rc rd Hc Hcp Hd Hdp.
    destruct (LockCustomer_found p c rc db) as (db1 & E1 & H1); [done..|].
    destruct (LockCustomer_found p d rd db1) as (db2 & E2 & H2); [by apply (wf_same db)|done| |done|].
    { destruct H1 as (_ & -> & _). done. }
    exists db2. split; [|by etrans]. cbn. unfold tx_bind. by rewrite E1, E2. }
  unfold lockCustomersInOrder. destruct (String.ltb b a); by eapply Htwo.
Qed.

(** A recorded merge answers the call that asks for it again. *)
Lemma merge_found now random allowed write db i m :
  identity_wf db -> merges db !! i = Some m -> CustomerMergeWrite_Validate write = None ->
  cm_ProjectID m = cmw_ProjectID write -> cm_CanonicalCustomerID m = cmw_CanonicalCustomerID write ->
  cm_SourceCustomerID m = cmw_SourceCustomerID write -> cm_IdempotencyKey m = cmw_IdempotencyKey write ->
  exists db', MergeCustomers now random allowed write db = (Ok (mkMergeResult m true), db') /\ same_tables db db'.
Proof.
  intros Hwf Hm Hv Hp Hc Hs Hk. destruct (iw_audit _ Hwf _ _ Hm) as (Hmv & src & Hsrc & Hsp & Hsm).
  destruct (iw_flat _ Hwf _ _ _ Hsrc Hsm) as (can & Hcan & Hcp & Hcm).
  rewrite Hs in Hsrc. rewrite Hc in Hcan, Hsm. rewrite Hp in Hsp. rewrite Hsp in Hcp.
  assert (Hne : cmw_CanonicalCustomerID write <> cmw_SourceCustomerID write) by congruence.
  assert (Hpv : ProjectID_Validate (cmw_ProjectID write) = None).
  { unfold CustomerMergeWrite_Validate in Hv. rewrite errors_Join_nil, !Forall_cons in Hv. by destruct Hv. }
  destruct (lockCustomersInOrder_found _ _ _ can src db Hwf Hpv Hcan Hcp Hsrc Hsp) as (db1 & El & Hl).
  pose proof (wf_same _ _ Hl Hwf) as Hwf1. destruct Hl as (Hl1 & Hl2 & Hl3 & Hl4).
  exists db1. split; [|done]. unfold MergeCustomers. rewrite Hv. cbn [tx_check].
  rewrite (proj2 (String.eqb_neq _ _) Hne). unfold tx_bind at 1. rewrite El.
  unfold tx_bind. rewrite (byID_found db1 _ _ can Hwf1) by (by rewrite ?Hl2).
  rewrite (byID_found db1 _ _ src Hwf1) by (by rewrite ?Hl2).
  unfold replayed at 1, tx_handle, customerMergeByIdempotencyKey, scanCustomerMerge.
  destruct (List.find _ _) as [[j m']|] eqn:Ef.
  - apply find_some in Ef as [Hin%list_elem_of_In%elem_of_map_to_list Hsel].
    apply andb_true_iff in Hsel as [Hp'%String.eqb_eq Hk'%String.eqb_eq]. rewrite Hl4 in Hin. cbn in Hp', Hk'.
    assert (j = i) as -> by (eapply (iw_unique _ Hwf); [done..|]; left; split; congruence).
    assert (m' = m) as -> by congruence. rewrite Hmv. cbn. by rewrite Hc, Hs, !String.eqb_refl.
  - exfalso. rewrite <- Hl4 in Hm. apply elem_of_map_to_list, list_elem_of_In in Hm.
    apply (find_none _ _ Ef) in Hm. cbn in Hm. by rewrite Hp, Hk, !String.eqb_refl in Hm.
Qed.

(** ** Properties *)

(** C15. The identity operations, in any order and each in a transaction of its own,
    keep the tables well-formed (one customer or alias per external id, merges one hop
    deep and audited, aliases on unmerged customers), and who owns each external id
    afterwards is what the specification computes from the calls that committed:
    first come for a new id, the named customer for an alias, and the canonical
    customer for everything the source of a merge had. *)
Theorem identity_refines calls db committed db' :
  identity_wf db -> transact_all calls db = (committed, db') ->
  identity_wf db' /\ committed `sublist_of` calls /\
  forall projectID externalID,
    owner db' projectID externalID
    = foldl (fun o call => call_spec call o) (owner db) committed projectID externalID.
Proof. intros Hwf H. apply transact_all_spec in H as (? & _ & ? & ?); done. Qed.

(** A merge is idempotent: asking again for a merge that was recorded under its
    key, after any other identity calls, by whatever clock, random source or
    entitlements, succeeds with the recorded merge as a replay and changes nothing. *)
Theorem merge_is_idempotent now random allowed write db result db1 calls committed db2 now' random' allowed' :
  identity_wf db -> MergeCustomers now random allowed write db = (Ok result, db1) ->
  cm_IdempotencyKey (mr_Merge result) = cmw_IdempotencyKey write ->
  transact_all calls (released db1) = (committed, db2) ->
  exists db3, MergeCustomers now' random' allowed' write db2 = (Ok (mkMergeResult (mr_Merge result) true), db3) /\
              same_tables db2 db3.
Proof.
  intros Hwf H Hk Hcalls.
  assert (Hv : CustomerMergeWrite_Validate write = None) by by apply tx_check_ok in H as [? _].
  apply MergeCustomers_refines in H as ((Hw1 & _ & _) & (Hp & Hc & Hs) & i & Hi); [|done].
  apply transact_all_spec in Hcalls as (Hw2 & Hsub & _ & _); [|by apply (wf_same db1)].
  eapply merge_found; [done| |done..]. eapply lookup_weaken, Hsub. exact Hi.
Qed.

(** ** Witnesses *)

Definition no_customers : identity_db := mkIdentityDb {["project-1"%string]} ∅ ∅ ∅ [].

Lemma no_customers_wf : identity_wf no_customers.
Proof. constructor; intros *; cbn; rewrite lookup_empty; done. Qed.

Definition demo_now : time := unixEpoch + Second.
Definition demo_random : result string := Ok "0123456789abcdef"%string.
Definition none_allowed (projectID : ProjectID) (customerID : CustomerID) : list EntitlementID := [].
Definition demo_put (id external : string) : identity_call := CallPut (mkCustomer id "project-1" external).
Definition demo_write : CustomerMergeWrite := mkMergeWrite "project-1" "c1" "c2" "merge-key" "key-1".
Definition demo_merge : identity_call := CallMerge demo_now demo_random none_allowed demo_write.

(** Two customers, an alias of the first, the second merged into it, the alias
    claimed by a third (refused), the merge again, and a merge the other way
    (refused). *)
Definition demo_calls : list identity_call :=
  [demo_put "c1" "user-1"; demo_put "c2" "user-2";
   CallAlias (mkAliasWrite "project-1" "c1" "user-3" APIKeyRoleAdmin "key-1");
   demo_merge; demo_put "c3" "user-3"; demo_merge;
   CallMerge demo_now demo_random none_allowed (mkMergeWrite "project-1" "c2" "c1" "other-key" "key-1")]%string.

Definition demo_db : identity_db := (transact_all demo_calls no_customers).2.

Lemma demo_db_wf : identity_wf demo_db.
Proof.
  unfold demo_db. destruct (transact_all demo_calls no_customers) as [committed db] eqn:E.
  by apply (transact_all_spec _ _ _ _ no_customers_wf) in E as [? _].
Qed.

Example demo_owners :
  map (owner demo_db "project-1") ["user-1"; "user-2"; "user-3"; "user-4"]%string
  = [Some "c1"; Some "c1"; Some "c1"; None]%string.
Proof. vm_compute. reflexivity. Qed.

Lemma identity_refines_witness :
  exists committed, length committed = 5%nat /\ identity_wf demo_db /\ committed `sublist_of` demo_calls /\
    forall projectID externalID,
      owner demo_db projectID externalID
      = foldl (fun o call => call_spec call o) (owner no_customers) committed projectID externalID.
Proof.
  exists (transact_all demo_calls no_customers).1. split; [vm_compute; reflexivity|].
  apply (identity_refines demo_calls no_customers _ _ no_customers_wf).
  unfold demo_db. destruct (transact_all demo_calls no_customers). reflexivity.
Defined.

Lemma resolve_is_owner_witness :
  owner demo_db "project-1" "user-2" = Some "c1"%string /\
  exists match_, id_ResolveCustomer "project-1" "user-2" demo_db
                 = (Ok (mkResolution "project-1" "user-2" "c1" match_), demo_db).
Proof.
  pose proof (resolve_is_owner demo_db "project-1" "user-2" demo_db_wf eq_refl eq_refl) as H.
  destruct (owner demo_db "project-1" "user-2") as [c|] eqn:E; [|vm_compute in E; discriminate].
  assert (c = "c1"%string) as -> by (vm_compute in E; congruence).
  destruct H as (_ & match_ & H & _). split; [reflexivity|]. exists match_. exact H.
Defined.

Lemma merge_is_idempotent_witness :
  exists merge db3, MergeCustomers (demo_now + Second) (Err (New "no random bytes")) none_allowed demo_write demo_db
                    = (Ok (mkMergeResult merge true), db3) /\ same_tables demo_db db3.
Proof.
  destruct (transact_all (firstn 3 demo_calls) no_customers) as [first db] eqn:E1.
  assert (Hwf : identity_wf db) by (apply (transact_all_spec _ _ _ _ no_customers_wf) in E1 as [? _]; done).
  destruct (MergeCustomers demo_now demo_random none_allowed demo_write db) as [[result|e] db1] eqn:E2;
    [|vm_compute in E1; injection E1 as _ <-; vm_compute in E2; discriminate].
  destruct (transact_all (skipn 4 demo_calls) (released db1)) as [later db2] eqn:E3.
  assert (db2 = demo_db) as <-.
  { vm_compute in E1. injection E1 as _ <-. vm_compute in E2. injection E2 as _ <-.
    vm_compute in E3. injection E3 as _ <-. vm_compute. reflexivity. }
  eexists. apply (merge_is_idempotent demo_now demo_random none_allowed demo_write db result db1
    (skipn 4 demo_calls) later db2 (demo_now + Second) (Err (New "no random bytes")) none_allowed Hwf E2); [|exact E3].
  vm_compute in E1. injection E1 as _ <-. vm_compute in E2. injection E2 as <- _. reflexivity.
Defined.
