(* ===== verification/Catalog.v ===== *)
(** The catalog ([internal/persistence/postgres/catalog.go] and [control.go]):
    projects, provider applications, entitlement definitions, products with what they
    grant, and the mapping of provider products.

    The tables are finite maps from their primary keys; the other unique constraints
    are looked up and the foreign keys are checked where a row is inserted.  Customers
    and the projects belong to [Identity], whose tables are a part of the state; a
    failure of a statement itself belongs to the runner.  ORDER BY is bytewise. *)

From S2P Require Import Prelude GoText GoTime Core Purchase Protection Persistence Stores Repository EntitlementStore QueueStore Frames Identity.
From stdpp Require Import base list strings gmap sorting.
Local Open Scope Z_scope.

(** ** A part of the state *)

(** A call on a part of the state is a call on the whole. *)
Definition tx_zoom {S T A} (get : S -> T) (put : T -> S -> S) (m : Tx T A) : Tx S A :=
  fun s => let '(r, t) := m (get s) in (r, put t s).

Lemma tx_zoom_eq {S T A} (get : S -> T) (put : T -> S -> S) (m : Tx T A) s r s' :
  tx_zoom get put m s = (r, s') <-> exists t, m (get s) = (r, t) /\ s' = put t s.
Proof.
  unfold tx_zoom. destruct (m (get s)) as [r0 t]. split; [by intros [= <- <-]; exists t|].
  by intros (t' & [= <- <-] & ->).
Qed.

(** A call known to succeed. *)
Lemma succeeded {S} (x : result unit * S) : x.1 = Ok tt -> x = (Ok tt, x.2).
Proof. destruct x as [r s]. cbn. by intros ->. Qed.

Lemma answered_result {S A} (x : result A * S) a : x.1 = Ok a -> x = (Ok a, x.2).
Proof. destruct x as [r s]. cbn. by intros ->. Qed.

(** A driver error as a repository reports it. *)
Definition sql_error {S A} (operation : string) (e : pg_error) : Tx S A :=
  tx_err (default (New operation) (classifyError operation (Some e))).

(** ** Tables *)

Record catalog_db : Type := mkCatalogDb {
  cat_identity : identity_db;
  applications : gmap ApplicationID Application;
  entitlement_defs : gmap EntitlementID (ProjectID * string);
  products : gmap ProductID (ProjectID * ProductKind);
  product_entitlements : gmap (ProductID * EntitlementID) ProjectID;
  store_products : gmap (ApplicationID * ProviderProductID) (ProjectID * ProductID)
}.

Definition put_identity (i : identity_db) (db : catalog_db) : catalog_db :=
  mkCatalogDb i (applications db) (entitlement_defs db) (products db) (product_entitlements db) (store_products db).
Definition put_projects (p : ProjectID) (db : catalog_db) : catalog_db :=
  let i := cat_identity db in
  put_identity (mkIdentityDb ({[p]} ∪ id_projects i) (customers i) (aliases i) (merges i) (locks i)) db.
Definition with_applications f (db : catalog_db) : catalog_db :=
  mkCatalogDb (cat_identity db) (f (applications db)) (entitlement_defs db) (products db)
    (product_entitlements db) (store_products db).
Definition with_entitlement_defs f (db : catalog_db) : catalog_db :=
  mkCatalogDb (cat_identity db) (applications db) (f (entitlement_defs db)) (products db)
    (product_entitlements db) (store_products db).
Definition with_products f (db : catalog_db) : catalog_db :=
  mkCatalogDb (cat_identity db) (applications db) (entitlement_defs db) (f (products db))
    (product_entitlements db) (store_products db).
Definition with_product_entitlements f (db : catalog_db) : catalog_db :=
  mkCatalogDb (cat_identity db) (applications db) (entitlement_defs db) (products db)
    (f (product_entitlements db)) (store_products db).
Definition with_store_products f (db : catalog_db) : catalog_db :=
  mkCatalogDb (cat_identity db) (applications db) (entitlement_defs db) (products db)
    (product_entitlements db) (f (store_products db)).

Definition project_exists (p : ProjectID) (db : catalog_db) : bool :=
  bool_decide (p ∈ id_projects (cat_identity db)).
Definition in_project {A} (p : ProjectID) (row : option (ProjectID * A)) : bool :=
  match row with Some (q, _) => String.eqb q p | None => false end.
Definition application_in (p : ProjectID) (a : ApplicationID) (db : catalog_db) : bool :=
  match applications db !! a with Some app => String.eqb (app_ProjectID app) p | None => false end.

(** [INSERT ... ON CONFLICT (primary key) DO NOTHING] of one row: the arbiter first,
    then the other unique constraints, then the foreign keys. *)
Definition insert_row {S} (operation : string) (present unique references : S -> bool) (add : S -> S) : Tx S unit :=
  fun db =>
    if present db then (Ok tt, db)
    else if negb (unique db) then sql_error operation (PgError "23505" EmptyString) db
    else if negb (references db) then sql_error operation (PgError "23503" EmptyString) db
    else (Ok tt, add db).

Definition refused (operation : string) : gerror := Wrapf (operation ++ ": %w")%string [] ErrConflict.

(** ** Reading *)

(* internal/persistence/postgres/catalog.go: transaction.Application *)
Definition pg_Application (projectID : ProjectID) (applicationID : ApplicationID) : Tx catalog_db Application :=
  tx_check (errors_Join [ProjectID_Validate projectID; ApplicationID_Validate applicationID])
  (fun db =>
     match applications db !! applicationID with
     | Some row =>
         if String.eqb (app_ProjectID row) projectID then
           let application := mkApplication applicationID projectID (app_Store row) in
           ((try* wrap_err "validate stored application: %w" [] (Application_Validate application) in
             Ok application), db)
         else sql_error "load application" ErrNoRows db
     | None => sql_error "load application" ErrNoRows db
     end).

(* internal/persistence/postgres/catalog.go: validateCatalogProductIDs *)
Definition validateCatalogProductIDs (projectID : ProjectID) (applicationID : ApplicationID)
    (providerProductIDs : list ProviderProductID) : error :=
  errors_Join [ProjectID_Validate projectID; ApplicationID_Validate applicationID] ;;?
  forPrefix (fun seen providerProductID =>
      ProviderProductID_Validate providerProductID ;;?
      refuse_if (contains_str seen providerProductID)
        (Errorf "duplicate provider product ID %q" [AStr providerProductID]))
    [] providerProductIDs.

(* internal/persistence/postgres/catalog.go: validateEntitlements *)
Definition validateEntitlements (entitlements : list Entitlement) : error :=
  forEach (fun index entitlement =>
      wrap_err "entitlement %d: %w" [AInt (Z.of_nat index)] (Entitlement_Validate entitlement)) entitlements.

(* internal/persistence/postgres/catalog.go: validateLoadedCatalogProduct *)
Definition validateLoadedCatalogProduct (product : CatalogProduct) : error :=
  if Nat.eqb (length (cp_Entitlements product)) 0 then
    errors_Join [StoreProduct_Validate (cp_Mapping product); ProductID_Validate (prod_ID (cp_Product product));
                 ProjectID_Validate (prod_ProjectID (cp_Product product));
                 ProductKind_Validate (prod_Kind (cp_Product product))]
  else
    errors_Join [StoreProduct_Validate (cp_Mapping product); Product_Validate (cp_Product product);
                 validateEntitlements (cp_Entitlements product)].

(** One row of the catalog query: a mapped product, and one of its grants or NULLs. *)
Record catalog_row : Type := mkCatalogRow {
  cr_provider : ProviderProductID;
  cr_product : ProductID;
  cr_kind : ProductKind;
  cr_entitlement : option EntitlementID;
  cr_key : option string
}.

(** The entitlements granted by a product of a project, ordered by id. *)
Definition granted (projectID : ProjectID) (productID : ProductID) (db : catalog_db) : list EntitlementID :=
  merge_sort (fun a b => Is_true (string_le a b))
    (map (fun entry => entry.1.2)
       (List.filter (fun entry => String.eqb entry.1.1 productID && String.eqb entry.2 projectID)
          (map_to_list (product_entitlements db)))).

(** The two left joins: a product without grants is one row of NULLs. *)
Definition mapping_rows (projectID : ProjectID) (db : catalog_db) (provider : ProviderProductID)
    (productID : ProductID) (kind : ProductKind) : list catalog_row :=
  match granted projectID productID db with
  | [] => [mkCatalogRow provider productID kind None None]
  | ids =>
      map (fun id =>
          match entitlement_defs db !! id with
          | Some (p, key) =>
              if String.eqb p projectID then mkCatalogRow provider productID kind (Some id) (Some key)
              else mkCatalogRow provider productID kind None None
          | None => mkCatalogRow provider productID kind None None
          end) ids
  end.

(** The rows of one provider product. *)
Definition product_rows (projectID : ProjectID) (applicationID : ApplicationID) (db : catalog_db)
    (provider : ProviderProductID) : list catalog_row :=
  match store_products db !! (applicationID, provider) with
  | Some (p, productID) =>
      match products db !! productID with
      | Some (q, kind) =>
          if String.eqb p projectID && String.eqb q projectID
          then mapping_rows projectID db provider productID kind else []
      | None => []
      end
  | None => []
  end.

(** The query: the mapped products of the application among the requested, in order. *)
Definition catalog_rows (projectID : ProjectID) (applicationID : ApplicationID) (requested : list ProviderProductID)
    (db : catalog_db) : list catalog_row :=
  flat_map (product_rows projectID applicationID db)
    (merge_sort (fun a b => Is_true (string_le a b)) requested).

(** The body of the loop over the rows. *)
(* internal/persistence/postgres/catalog.go:109-158: transaction.CatalogProducts *)
Definition scan_catalog_row (projectID : ProjectID) (applicationID : ApplicationID)
    (byProvider : gmap ProviderProductID CatalogProduct) (row : catalog_row)
    : result (gmap ProviderProductID CatalogProduct) :=
  let catalogProduct :=
    default (mkCatalogProduct (mkStoreProduct applicationID (cr_product row) (cr_provider row))
               (mkProduct (cr_product row) projectID (cr_kind row) []) [])
      (byProvider !! cr_provider row) in
  match cr_entitlement row, cr_key row with
  | None, None => Ok (<[cr_provider row := catalogProduct]> byProvider)
  | Some id, Some key =>
      let product := cp_Product catalogProduct in
      Ok (<[cr_provider row :=
              mkCatalogProduct (cp_Mapping catalogProduct)
                (mkProduct (prod_ID product) (prod_ProjectID product) (prod_Kind product)
                   (prod_EntitlementIDs product ++ [id]))
                (cp_Entitlements catalogProduct ++ [mkEntitlement id projectID key])]> byProvider)
  | _, _ => Err (Errorf "stored catalog entitlement for %q is incomplete" [AStr (cr_provider row)])
  end.

Fixpoint scan_catalog (projectID : ProjectID) (applicationID : ApplicationID)
    (byProvider : gmap ProviderProductID CatalogProduct) (rows : list catalog_row)
    : result (gmap ProviderProductID CatalogProduct) :=
  match rows with
  | [] => Ok byProvider
  | row :: rows =>
      let* byProvider := scan_catalog_row projectID applicationID byProvider row in
      scan_catalog projectID applicationID byProvider rows
  end.

(* internal/persistence/postgres/catalog.go:163-178: transaction.CatalogProducts *)
Definition requested_product (byProvider : gmap ProviderProductID CatalogProduct) (providerProductID : ProviderProductID)
    : result CatalogProduct :=
  match byProvider !! providerProductID with
  | None => Err (Wrapf "load catalog product %q: %w" [AStr providerProductID] ErrNotFound)
  | Some catalogProduct =>
      try* wrap_err "validate stored catalog product %q: %w" [AStr providerProductID]
             (validateLoadedCatalogProduct catalogProduct) in
      Ok catalogProduct
  end.

(* internal/persistence/postgres/catalog.go: transaction.CatalogProducts *)
Definition pg_CatalogProducts (projectID : ProjectID) (applicationID : ApplicationID)
    (providerProductIDs : list ProviderProductID) : Tx catalog_db (list CatalogProduct) :=
  tx_check (validateCatalogProductIDs projectID applicationID providerProductIDs)
  (if Nat.eqb (length providerProductIDs) 0 then tx_ret []
   else fun db =>
     ((let* byProvider := scan_catalog projectID applicationID ∅
                            (catalog_rows projectID applicationID providerProductIDs db) in
       collect (fun _ => requested_product byProvider) providerProductIDs), db)).

(** ** Writing *)

(* internal/persistence/postgres/control.go: transaction.PutProject *)
Definition PutProject (projectID : ProjectID) : Tx catalog_db unit :=
  tx_check (ProjectID_Validate projectID) (fun db => (Ok tt, put_projects projectID db)).

(* internal/persistence/postgres/control.go: transaction.PutApplication *)
Definition PutApplication (application : Application) : Tx catalog_db unit :=
  tx_check (Application_Validate application) (
  do _ <- insert_row "put application"
    (fun db => bool_decide (is_Some (applications db !! app_ID application)))
    (fun db => negb (existsb (fun entry => bool_decide (app_Store entry.2 = app_Store application))
                       (map_to_list (applications db))))
    (project_exists (app_ProjectID application))
    (with_applications <[app_ID application := application]>);
  do stored <- pg_Application (app_ProjectID application) (app_ID application);
  if negb (bool_decide (stored = application)) then tx_err (refused "put application") else tx_ret tt).

(* internal/persistence/postgres/control.go: transaction.PutEntitlementDefinition *)
Definition PutEntitlementDefinition (entitlement : Entitlement) : Tx catalog_db unit :=
  tx_check (Entitlement_Validate entitlement) (
  do _ <- insert_row "put entitlement definition"
    (fun db => bool_decide (is_Some (entitlement_defs db !! ent_ID entitlement)))
    (fun db => negb (existsb (fun entry => bool_decide (entry.2 = (ent_ProjectID entitlement, ent_Key entitlement)))
                       (map_to_list (entitlement_defs db))))
    (project_exists (ent_ProjectID entitlement))
    (with_entitlement_defs <[ent_ID entitlement := (ent_ProjectID entitlement, ent_Key entitlement)]>);
  fun db =>
    match entitlement_defs db !! ent_ID entitlement with
    | None => sql_error "load entitlement definition" ErrNoRows db
    | Some (projectID, key) =>
        if negb (String.eqb projectID (ent_ProjectID entitlement)) || negb (String.eqb key (ent_Key entitlement))
        then (Err (refused "put entitlement definition"), db) else (Ok tt, db)
    end).

(** One grant of a product. *)
(* internal/persistence/postgres/control.go:118-127: transaction.PutProduct *)
Definition put_product_entitlement (projectID : ProjectID) (productID : ProductID) (entitlementID : EntitlementID)
    : Tx catalog_db unit :=
  insert_row "put product entitlement"
    (fun db => bool_decide (is_Some (product_entitlements db !! (productID, entitlementID))))
    (fun _ => true)
    (fun db => in_project projectID (products db !! productID) && in_project projectID (entitlement_defs db !! entitlementID))
    (with_product_entitlements <[(productID, entitlementID) := projectID]>).

(* internal/persistence/postgres/control.go: transaction.PutProduct *)
Definition PutProduct (product : Product) : Tx catalog_db unit :=
  tx_check (Product_Validate product) (
  do _ <- insert_row "put product"
    (fun db => bool_decide (is_Some (products db !! prod_ID product)))
    (fun _ => true)
    (project_exists (prod_ProjectID product))
    (with_products <[prod_ID product := (prod_ProjectID product, prod_Kind product)]>);
  do _ <- (fun db =>
    match products db !! prod_ID product with
    | None => sql_error "load product" ErrNoRows db
    | Some (projectID, kind) =>
        if negb (String.eqb projectID (prod_ProjectID product)) || negb (String.eqb kind (prod_Kind product))
        then (Err (refused "put product"), db) else (Ok tt, db)
    end);
  do _ <- tx_each (put_product_entitlement (prod_ProjectID product) (prod_ID product)) (prod_EntitlementIDs product);
  fun db =>
    let stored : gset EntitlementID := list_to_set (granted (prod_ProjectID product) (prod_ID product) db) in
    if negb (Nat.eqb (size stored) (length (prod_EntitlementIDs product)))
    then (Err (refused "put product entitlements"), db)
    else if negb (forallb (fun entitlementID => bool_decide (entitlementID ∈ stored)) (prod_EntitlementIDs product))
    then (Err (refused "put product entitlements"), db)
    else (Ok tt, db)).

(** A mapping that is not found reads as empty columns. *)
(* internal/persistence/postgres/control.go: transaction.PutStoreProduct *)
Definition PutStoreProduct (projectID : ProjectID) (mapping : StoreProduct) : Tx catalog_db unit :=
  tx_check (errors_Join [ProjectID_Validate projectID; StoreProduct_Validate mapping]) (
  do _ <- insert_row "put store product"
    (fun db => bool_decide (is_Some (store_products db !! (sp_ApplicationID mapping, sp_ProviderID mapping))))
    (fun _ => true)
    (fun db => application_in projectID (sp_ApplicationID mapping) db && in_project projectID (products db !! sp_ProductID mapping))
    (with_store_products <[(sp_ApplicationID mapping, sp_ProviderID mapping) := (projectID, sp_ProductID mapping)]>);
  fun db =>
    let '(storedProjectID, storedProductID) :=
      default (EmptyString, EmptyString) (store_products db !! (sp_ApplicationID mapping, sp_ProviderID mapping)) in
    if negb (String.eqb storedProjectID projectID) || negb (String.eqb storedProductID (sp_ProductID mapping))
    then (Err (refused "put store product"), db) else (Ok tt, db)).

(** ** The invariant *)

(** Rows are valid, refer to rows of their own project, and the unique columns are. *)
Record catalog_wf (db : catalog_db) : Prop := {
  cw_application : forall a r, applications db !! a = Some r ->
    app_ID r = a /\ Application_Validate r = None /\ app_ProjectID r ∈ id_projects (cat_identity db);
  cw_scope : forall a r b s, applications db !! a = Some r -> applications db !! b = Some s ->
    app_Store r = app_Store s -> a = b;
  cw_entitlement : forall e p k, entitlement_defs db !! e = Some (p, k) ->
    Entitlement_Validate (mkEntitlement e p k) = None /\ p ∈ id_projects (cat_identity db);
  cw_key : forall e f row, entitlement_defs db !! e = Some row -> entitlement_defs db !! f = Some row -> e = f;
  cw_product : forall i p k, products db !! i = Some (p, k) ->
    ProductID_Validate i = None /\ ProjectID_Validate p = None /\ ProductKind_Validate k = None /\
    p ∈ id_projects (cat_identity db);
  cw_grant : forall i e p, product_entitlements db !! (i, e) = Some p ->
    (exists k, products db !! i = Some (p, k)) /\ exists k, entitlement_defs db !! e = Some (p, k);
  cw_mapping : forall a x p i, store_products db !! (a, x) = Some (p, i) ->
    StoreProduct_Validate (mkStoreProduct a i x) = None /\
    (exists r, applications db !! a = Some r /\ app_ProjectID r = p) /\ exists k, products db !! i = Some (p, k)
}.

(** Nothing that is stored is changed or removed. *)
Record catalog_grows (db db' : catalog_db) : Prop := {
  cg_projects : id_projects (cat_identity db) ⊆ id_projects (cat_identity db');
  cg_customers : customers (cat_identity db') = customers (cat_identity db);
  cg_aliases : aliases (cat_identity db') = aliases (cat_identity db);
  cg_merges : merges (cat_identity db') = merges (cat_identity db);
  cg_applications : applications db ⊆ applications db';
  cg_entitlements : entitlement_defs db ⊆ entitlement_defs db';
  cg_products : products db ⊆ products db';
  cg_grants : product_entitlements db ⊆ product_entitlements db';
  cg_mappings : store_products db ⊆ store_products db'
}.

#[export] Instance catalog_grows_order : PreOrder catalog_grows.
Proof.
  split; [done|]. intros x y z [] []. constructor; try congruence; by etrans.
Qed.

(** ** Inserting *)

Lemma insert_row_ok {S} operation (present unique references : S -> bool) add s s' :
  insert_row operation present unique references add s = (Ok tt, s') ->
  (present s = true /\ s' = s) \/
  (present s = false /\ unique s = true /\ references s = true /\ s' = add s).
Proof.
  unfold insert_row. destruct (present s); [intros [= <-]; by left|].
  destruct (unique s) eqn:Eu; [|done]. destruct (references s) eqn:Er; [|done]. intros [= <-]. by right.
Qed.

Lemma in_project_true {A} p (row : option (ProjectID * A)) : in_project p row = true <-> exists a, row = Some (p, a).
Proof.
  destruct row as [[q a]|]; cbn; [rewrite String.eqb_eq|naive_solver]. naive_solver.
Qed.

Lemma application_in_true p a db :
  application_in p a db = true <-> exists r, applications db !! a = Some r /\ app_ProjectID r = p.
Proof.
  unfold application_in. destruct (applications db !! a) as [r|]; [rewrite String.eqb_eq|naive_solver]. naive_solver.
Qed.

(** No row has a value, by a search over the rows. *)
Lemma existsb_rows {K A} `{Countable K} (f : A -> bool) (m : gmap K A) :
  existsb (fun entry => f entry.2) (map_to_list m) = false <-> forall k a, m !! k = Some a -> f a = false.
Proof.
  rewrite existsb_false_Forall, List.Forall_forall. split.
  - intros Hf k a Hk. apply (Hf (k, a)). by apply list_elem_of_In, elem_of_map_to_list.
  - intros Hf [k a] Hin%list_elem_of_In%elem_of_map_to_list. by apply (Hf k).
Qed.

Lemma absent {K A} `{Countable K} (m : gmap K A) k : bool_decide (is_Some (m !! k)) = false -> m !! k = None.
Proof. by rewrite bool_decide_eq_false, <- eq_None_not_Some. Qed.

Lemma present_ {K A} `{Countable K} (m : gmap K A) k : bool_decide (is_Some (m !! k)) = true -> is_Some (m !! k).
Proof. by rewrite bool_decide_eq_true. Qed.

Lemma kept_after {K A} `{Countable K} (m : gmap K A) k a j b : m !! j = None -> m !! k = Some a -> <[j := b]> m !! k = Some a.
Proof. intros Hj Hk. rewrite lookup_insert_ne; [done|]. intros ->. congruence. Qed.

Lemma project_exists_true p db : project_exists p db = true <-> p ∈ id_projects (cat_identity db).
Proof. apply bool_decide_eq_true. Qed.

(** ** Each table grows well-formed *)

Section Growth.
Context (db : catalog_db) (Hwf : catalog_wf db).

Lemma add_project_wf p : catalog_wf (put_projects p db).
Proof.
  constructor; cbn; intros *.
  - intros H. apply (cw_application _ Hwf) in H as (? & ? & ?). set_solver.
  - apply (cw_scope _ Hwf).
  - intros H. apply (cw_entitlement _ Hwf) in H as [? ?]. set_solver.
  - apply (cw_key _ Hwf).
  - intros H. apply (cw_product _ Hwf) in H as (? & ? & ? & ?). set_solver.
  - apply (cw_grant _ Hwf).
  - apply (cw_mapping _ Hwf).
Qed.

Lemma add_application_wf r :
  applications db !! app_ID r = None -> Application_Validate r = None -> app_ProjectID r ∈ id_projects (cat_identity db) ->
  (forall a s, applications db !! a = Some s -> app_Store s <> app_Store r) ->
  catalog_wf (with_applications <[app_ID r := r]> db).
Proof.
  intros Hno Hv Hp Hu. constructor; cbn; intros *; try apply Hwf.
  - intros [[<- <-]|[_ H]]%lookup_insert_Some; [done|by apply (cw_application _ Hwf)].
  - intros [[<- <-]|[_ H1]]%lookup_insert_Some [[<- <-]|[_ H2]]%lookup_insert_Some Heq; [done| | |by eapply (cw_scope _ Hwf)].
    + by destruct (Hu _ _ H2).
    + by destruct (Hu _ _ H1).
  - intros H. apply (cw_mapping _ Hwf) in H as (? & (s & Hs & ?) & ?). split_and!; [done| |done].
    exists s. split; [|done]. by apply kept_after.
Qed.

Lemma add_entitlement_wf e p k :
  entitlement_defs db !! e = None -> Entitlement_Validate (mkEntitlement e p k) = None ->
  p ∈ id_projects (cat_identity db) -> (forall f row, entitlement_defs db !! f = Some row -> row <> (p, k)) ->
  catalog_wf (with_entitlement_defs <[e := (p, k)]> db).
Proof.
  intros Hno Hv Hp Hu. constructor; cbn; intros *; try apply Hwf.
  - intros [[<- [= <- <-]]|[_ H]]%lookup_insert_Some; [done|by apply (cw_entitlement _ Hwf)].
  - intros [[<- <-]|[_ H1]]%lookup_insert_Some [[<- Heq]|[_ H2]]%lookup_insert_Some; [done| | |by eapply (cw_key _ Hwf)].
    + by destruct (Hu _ _ H2).
    + subst row. by destruct (Hu _ _ H1).
  - intros H. apply (cw_grant _ Hwf) in H as (? & s & Hs). split; [done|]. exists s. by apply kept_after.
Qed.

Lemma add_product_wf i p k :
  products db !! i = None -> ProductID_Validate i = None -> ProjectID_Validate p = None -> ProductKind_Validate k = None ->
  p ∈ id_projects (cat_identity db) -> catalog_wf (with_products <[i := (p, k)]> db).
Proof.
  intros Hno Hi Hpv Hk Hp. constructor; cbn; intros *; try apply Hwf.
  - intros [[<- [= <- <-]]|[_ H]]%lookup_insert_Some; [done|by apply (cw_product _ Hwf)].
  - intros H. apply (cw_grant _ Hwf) in H as ((s & Hs) & ?). split; [|done]. exists s. by apply kept_after.
  - intros H. apply (cw_mapping _ Hwf) in H as (? & ? & s & Hs). split_and!; [done..|]. exists s. by apply kept_after.
Qed.

Lemma add_grant_wf i e p :
  (exists k, products db !! i = Some (p, k)) -> (exists k, entitlement_defs db !! e = Some (p, k)) ->
  catalog_wf (with_product_entitlements <[(i, e) := p]> db).
Proof.
  intros Hi He. constructor; cbn; intros *; try apply Hwf.
  intros [[[= <- <-] <-]|[_ H]]%lookup_insert_Some; [done|by apply (cw_grant _ Hwf)].
Qed.

Lemma add_mapping_wf a x p i :
  StoreProduct_Validate (mkStoreProduct a i x) = None ->
  (exists r, applications db !! a = Some r /\ app_ProjectID r = p) -> (exists k, products db !! i = Some (p, k)) ->
  catalog_wf (with_store_products <[(a, x) := (p, i)]> db).
Proof.
  intros Hv Ha Hi. constructor; cbn; intros *; try apply Hwf.
  intros [[[= <- <-] [= <- <-]]|[_ H]]%lookup_insert_Some; [done|by apply (cw_mapping _ Hwf)].
Qed.
End Growth.

(** ** The grants of a product *)

Lemma granted_In p i db e : In e (granted p i db) <-> product_entitlements db !! (i, e) = Some p.
Proof.
  unfold granted. rewrite <- list_elem_of_In, merge_sort_Permutation, list_elem_of_fmap. split.
  - intros ([[j e'] q] & -> & Hin). cbn. apply list_elem_of_In, filter_In in Hin as [Hin Hb]. cbn in Hb.
    apply andb_true_iff in Hb as [<-%String.eqb_eq <-%String.eqb_eq].
    by apply list_elem_of_In, elem_of_map_to_list in Hin.
  - intros H. exists ((i, e), p). split; [done|]. apply list_elem_of_In, filter_In.
    split; [by apply list_elem_of_In, elem_of_map_to_list|]. cbn. by rewrite !String.eqb_refl.
Qed.

Lemma granted_NoDup p i db : NoDup (granted p i db).
Proof.
  unfold granted. rewrite merge_sort_Permutation. apply NoDup_fmap_2_strong; [|].
  - intros [[j e] q] [[j' e'] q'] Hx Hy Heq. cbn in Heq. subst e'.
    apply list_elem_of_In, filter_In in Hx as [_ Hx], Hy as [_ Hy]. cbn in Hx, Hy.
    apply andb_true_iff in Hx as [->%String.eqb_eq ->%String.eqb_eq], Hy as [->%String.eqb_eq ->%String.eqb_eq]. done.
  - assert (Hnd : NoDup (map_to_list (product_entitlements db))) by apply NoDup_map_to_list.
    induction Hnd as [|x l Hx Hl IH]; cbn; [constructor|]. destruct (_ && _); [|done]. constructor; [|done].
    intros Hin. apply Hx. apply list_elem_of_In. by apply list_elem_of_In, filter_In in Hin as [? _].
Qed.

(** ** The operations *)

Definition keeps (db db' : catalog_db) : Prop := catalog_wf db' /\ catalog_grows db db'.

Lemma PutProject_keeps p db db' :
  catalog_wf db -> PutProject p db = (Ok tt, db') -> keeps db db' /\ p ∈ id_projects (cat_identity db').
Proof.
  intros Hwf [_ [= <-]]%tx_check_ok. split; [split; [by apply add_project_wf|]|cbn; set_solver].
  constructor; try done; cbn; set_solver.
Qed.

Lemma pg_Application_ok p a db r db' :
  pg_Application p a db = (Ok r, db') -> db' = db /\
  exists row, applications db !! a = Some row /\ app_ProjectID row = p /\ r = mkApplication a p (app_Store row).
Proof.
  intros [_ H]%tx_check_ok. destruct (applications db !! a) as [row|]; [|done].
  destruct (String.eqb_spec (app_ProjectID row) p); [|done]. injection H as H <-.
  apply try_err_ok in H as [_ [= <-]]. split; [done|]. by exists row.
Qed.

(** Adding a fresh row. *)
Ltac grows := constructor; try done; by apply insert_subseteq.

Lemma PutApplication_keeps r db db' :
  catalog_wf db -> PutApplication r db = (Ok tt, db') ->
  keeps db db' /\ applications db' !! app_ID r = Some r.
Proof.
  intros Hwf [Hv H]%tx_check_ok. apply tx_bind_ok in H as ([] & db1 & Hi & H).
  apply tx_bind_ok in H as (stored & db2 & [-> (row & Hrow & Hp & ->)]%pg_Application_ok & H).
  case_bool_decide as Heq; [|done]. apply tx_ret_ok in H as [_ <-].
  assert (Hkeep : keeps db db1).
  { apply insert_row_ok in Hi as [[_ ->]|(Hno%absent & Hu & Hr%project_exists_true & ->)]; [done|].
    apply negb_true_iff in Hu. pose proof (proj1 (existsb_rows (fun s => bool_decide (app_Store s = app_Store r)) _) Hu) as Hs.
    split; [|grows]. apply add_application_wf; [done..|]. intros a s Hs0.
    by apply Hs, bool_decide_eq_false in Hs0. }
  split; [done|]. rewrite Hrow. f_equal. destruct Hkeep as [Hw _].
  apply (cw_application _ Hw) in Hrow as (Hid & _). destruct row, r; cbn in *. congruence.
Qed.

Lemma PutEntitlementDefinition_keeps e db db' :
  catalog_wf db -> PutEntitlementDefinition e db = (Ok tt, db') ->
  keeps db db' /\ entitlement_defs db' !! ent_ID e = Some (ent_ProjectID e, ent_Key e).
Proof.
  intros Hwf [Hv H]%tx_check_ok. apply tx_bind_ok in H as ([] & db1 & Hi & H).
  destruct (entitlement_defs db1 !! ent_ID e) as [[p k]|] eqn:Ed; [|done].
  destruct (String.eqb_spec p (ent_ProjectID e)) as [->|]; [|done].
  destruct (String.eqb_spec k (ent_Key e)) as [->|]; [|done]. injection H as <-. split; [|done].
  apply insert_row_ok in Hi as [[_ ->]|(Hno%absent & Hu & Hr%project_exists_true & ->)]; [done|].
  apply negb_true_iff in Hu.
  pose proof (proj1 (existsb_rows (fun row => bool_decide (row = (ent_ProjectID e, ent_Key e))) _) Hu) as Hs.
  split; [|grows]. apply add_entitlement_wf; [done|done|by destruct e|done|]. intros f row Hf.
  by apply Hs, bool_decide_eq_false in Hf.
Qed.

Lemma put_grant_keeps p i e db db' :
  catalog_wf db -> put_product_entitlement p i e db = (Ok tt, db') ->
  keeps db db' /\ products db' = products db /\ entitlement_defs db' = entitlement_defs db.
Proof.
  intros Hwf H. unfold put_product_entitlement in H.
  apply insert_row_ok in H as [[_ ->]|(Hno%absent & _ & Hr & ->)]; [done|].
  apply andb_true_iff in Hr as [Hp%in_project_true He%in_project_true].
  split; [|done]. split; [|grows]. by apply add_grant_wf.
Qed.

Lemma put_grants_keep p i ids db db' :
  catalog_wf db -> tx_each (put_product_entitlement p i) ids db = (Ok tt, db') ->
  keeps db db' /\ products db' = products db.
Proof.
  induction ids as [|e ids IH] in db |- *; intros Hwf; cbn.
  - intros [_ <-]%tx_ret_ok. done.
  - intros ([] & db1 & H1 & H)%tx_bind_ok. apply put_grant_keeps in H1 as ([Hw1 Hg1] & Hp1 & _); [|done].
    apply IH in H as ([Hw Hg] & Hp); [|done]. split; [split; [done|by etrans]|congruence].
Qed.

Lemma PutProduct_keeps product db db' :
  catalog_wf db -> PutProduct product db = (Ok tt, db') ->
  keeps db db' /\ products db' !! prod_ID product = Some (prod_ProjectID product, prod_Kind product) /\
  forall e, product_entitlements db' !! (prod_ID product, e) = Some (prod_ProjectID product) <->
            In e (prod_EntitlementIDs product).
Proof.
  intros Hwf [Hv H]%tx_check_ok. apply tx_bind_ok in H as ([] & db1 & Hi & H).
  assert (Hk1 : keeps db db1).
  { apply insert_row_ok in Hi as [[_ ->]|(Hno%absent & _ & Hr%project_exists_true & ->)]; [done|].
    unfold Product_Validate in Hv. rewrite seq_err_nil, errors_Join_nil, !Forall_cons in Hv.
    destruct Hv as ((Hid & Hpr & Hkd & _) & _). split; [|grows]. by apply add_product_wf. }
  apply tx_bind_ok in H as ([] & db2 & Hl & H).
  destruct (products db1 !! prod_ID product) as [[p k]|] eqn:Ep; [|done].
  destruct (String.eqb_spec p (prod_ProjectID product)) as [->|]; [|done].
  destruct (String.eqb_spec k (prod_Kind product)) as [->|]; [|done]. injection Hl as <-.
  apply tx_bind_ok in H as ([] & db2 & [[Hw2 Hg2] Hp2]%put_grants_keep & H); [|by destruct Hk1].
  cbv zeta in H. destruct (Nat.eqb _ _) eqn:Hsize in H; [|done]. apply Nat.eqb_eq in Hsize.
  destruct (forallb _ _) eqn:Hall in H; [|done]. injection H as <-.
  split; [split; [done|by etrans; [apply Hk1|]]|]. split; [congruence|]. intros e. rewrite <- granted_In.
  rewrite size_list_to_set in Hsize by apply granted_NoDup.
  assert (Hsub : List.incl (prod_EntitlementIDs product) (granted (prod_ProjectID product) (prod_ID product) db2)).
  { intros x Hx. rewrite forallb_forall in Hall. apply Hall, bool_decide_eq_true, elem_of_list_to_set in Hx.
    by apply list_elem_of_In. }
  split; [|apply Hsub]. apply NoDup_length_incl; [|lia|done].
  apply product_valid in Hv. apply NoDup_ListNoDup. tauto.
Qed.

Lemma PutStoreProduct_keeps p mapping db db' :
  catalog_wf db -> PutStoreProduct p mapping db = (Ok tt, db') ->
  keeps db db' /\ store_products db' !! (sp_ApplicationID mapping, sp_ProviderID mapping) = Some (p, sp_ProductID mapping).
Proof.
  intros Hwf [Hv H]%tx_check_ok. rewrite errors_Join_nil, !Forall_cons in Hv. destruct Hv as (Hp & Hm & _).
  apply tx_bind_ok in H as ([] & db1 & Hi & H).
  assert (Hk1 : keeps db db1).
  { apply insert_row_ok in Hi as [[_ ->]|(Hno%absent & _ & Hr & ->)]; [done|].
    apply andb_true_iff in Hr as [Ha%application_in_true Hpr%in_project_true].
    split; [|grows]. apply add_mapping_wf; [done|by destruct mapping|exact Ha|exact Hpr]. }
  destruct (store_products db1 !! (sp_ApplicationID mapping, sp_ProviderID mapping)) as [[q i]|] eqn:Es; cbn in H.
  - destruct (String.eqb_spec q p) as [->|]; [|done].
    destruct (String.eqb_spec i (sp_ProductID mapping)) as [->|]; [|done]. injection H as <-. by rewrite Es.
  - destruct p; [|done]. by apply validateIdentifier_nil in Hp as [? _].
Qed.

(** ** Loading products *)

Definition named (projectID : ProjectID) (db : catalog_db) (id : EntitlementID) : Entitlement :=
  mkEntitlement id projectID (match entitlement_defs db !! id with Some (_, key) => key | None => EmptyString end).

(** What a mapped provider product of a project is. *)
Definition catalog_product (projectID : ProjectID) (applicationID : ApplicationID) (db : catalog_db)
    (provider : ProviderProductID) : option CatalogProduct :=
  match store_products db !! (applicationID, provider) with
  | Some (p, productID) =>
      if String.eqb p projectID then
        option_map (fun row : ProjectID * ProductKind =>
            let ids := granted projectID productID db in
            mkCatalogProduct (mkStoreProduct applicationID productID provider)
              (mkProduct productID projectID row.2 ids) (map (named projectID db) ids))
          (products db !! productID)
      else None
  | None => None
  end.

Section Loading.
Context (db : catalog_db) (Hwf : catalog_wf db) (p : ProjectID) (a : ApplicationID).

(** The loop appends the grants of consecutive rows. *)
Lemma scan_grants x i k ids m rest :
  ids <> [] ->
  scan_catalog p a m (map (fun id => mkCatalogRow x i k (Some id) (Some (ent_Key (named p db id)))) ids ++ rest) =
  let cp := default (mkCatalogProduct (mkStoreProduct a i x) (mkProduct i p k []) []) (m !! x) in
  scan_catalog p a
    (<[x := mkCatalogProduct (cp_Mapping cp)
              (mkProduct (prod_ID (cp_Product cp)) (prod_ProjectID (cp_Product cp)) (prod_Kind (cp_Product cp))
                 (prod_EntitlementIDs (cp_Product cp) ++ ids))
              (cp_Entitlements cp ++ map (named p db) ids)]> m) rest.
Proof.
  induction ids as [|id ids IH] in m |- *; [done|]. intros _. cbn.
  destruct ids as [|id' ids]; [done|]. rewrite IH by done. rewrite lookup_insert_eq. cbn.
  by rewrite insert_insert_eq, <- !app_assoc.
Qed.

Lemma mapping_rows_named x i k :
  granted p i db <> [] ->
  mapping_rows p db x i k
  = map (fun id => mkCatalogRow x i k (Some id) (Some (ent_Key (named p db id)))) (granted p i db).
Proof.
  intros Hne. unfold mapping_rows. destruct (granted p i db) as [|e0 l0] eqn:El; [done|]. rewrite <- El.
  apply List.map_ext_in. intros e He%granted_In. apply (cw_grant _ Hwf) in He as (_ & key & Hk).
  unfold named. by rewrite Hk, String.eqb_refl.
Qed.

Lemma scan_mapping x i k m rest :
  m !! x = None ->
  scan_catalog p a m (mapping_rows p db x i k ++ rest)
  = scan_catalog p a (<[x := mkCatalogProduct (mkStoreProduct a i x) (mkProduct i p k (granted p i db))
                                (map (named p db) (granted p i db))]> m) rest.
Proof.
  intros Hm. destruct (granted p i db) as [|e l] eqn:El.
  - unfold mapping_rows. rewrite El. cbn. by rewrite Hm.
  - rewrite mapping_rows_named by by rewrite El. rewrite scan_grants by by rewrite El. rewrite Hm. cbn. by rewrite El.
Qed.

Lemma scan_product x m rest :
  m !! x = None ->
  exists m', scan_catalog p a m (product_rows p a db x ++ rest) = scan_catalog p a m' rest /\
    m' !! x = catalog_product p a db x /\ forall y, y <> x -> m' !! y = m !! y.
Proof.
  intros Hm. unfold product_rows, catalog_product.
  destruct (store_products db !! (a, x)) as [[q i]|] eqn:Es; [|by exists m].
  destruct (cw_mapping _ Hwf _ _ _ _ Es) as (_ & _ & k & Hk). rewrite Hk.
  destruct (String.eqb_spec q p) as [->|]; [|by exists m].
  cbn [andb option_map snd]. rewrite scan_mapping by done.
  eexists. split; [done|]. rewrite lookup_insert_eq. split; [done|]. intros y Hy. by rewrite lookup_insert_ne.
Qed.

(** The loop loads exactly the mapped products among the requested. *)
Lemma scan_all l m :
  NoDup l -> (forall x, x ∈ l -> m !! x = None) ->
  exists M, scan_catalog p a m (flat_map (product_rows p a db) l) = Ok M /\
    forall x, M !! x = if bool_decide (x ∈ l) then catalog_product p a db x else m !! x.
Proof.
  induction l as [|x l IH] in m |- *; intros Hnd Hm; [by exists m|].
  apply NoDup_cons in Hnd as [Hx Hl]. cbn [flat_map].
  destruct (scan_product x m (flat_map (product_rows p a db) l)) as (m' & -> & Hx' & Hy').
  { apply Hm. set_solver. }
  destruct (IH m' Hl) as (M & -> & HM).
  { intros y Hy. rewrite Hy' by (intros ->; done). apply Hm. set_solver. }
  exists M. split; [done|]. intros y. rewrite HM. destruct (decide (y = x)) as [->|Hne].
  - rewrite bool_decide_eq_false_2 by done. rewrite bool_decide_eq_true_2 by set_solver. done.
  - rewrite Hy' by done. repeat case_bool_decide; set_solver.
Qed.
End Loading.

(** A loaded product passes the validation of the reader. *)
Lemma catalog_product_valid db p a x cp :
  catalog_wf db -> catalog_product p a db x = Some cp -> validateLoadedCatalogProduct cp = None.
Proof.
  intros Hwf. unfold catalog_product. destruct (store_products db !! (a, x)) as [[q i]|] eqn:Es; [|done].
  destruct (String.eqb_spec q p) as [->|]; [|done]. apply (cw_mapping _ Hwf) in Es as (Hm & _ & k & Hk). rewrite Hk.
  intros [= <-]. destruct (cw_product _ Hwf _ _ _ Hk) as (Hi & Hp & Hkd & _).
  unfold validateLoadedCatalogProduct. cbn [cp_Entitlements cp_Mapping cp_Product prod_ID prod_ProjectID prod_Kind snd].
  rewrite length_map. destruct (granted p i db) as [|e l] eqn:El; cbn [length Nat.eqb].
  - apply errors_Join_nil. by repeat constructor.
  - rewrite <- El. assert (Hents : forall e', In e' (granted p i db) -> Entitlement_Validate (named p db e') = None).
    { intros e' He%granted_In. apply (cw_grant _ Hwf) in He as (_ & key & Hkey). unfold named. rewrite Hkey.
      by apply (cw_entitlement _ Hwf) in Hkey as [? _]. }
    apply errors_Join_nil. repeat constructor; [done| |].
    + apply product_valid. cbn. unfold ProductID_Validate, ProjectID_Validate, ProductKind_Validate in *.
      apply validateIdentifier_nil in Hi, Hp, Hkd. split_and!; [done..|by rewrite El| |apply granted_NoDup].
      apply List.Forall_forall. intros e' He. apply Hents in He. unfold Entitlement_Validate in He.
      rewrite errors_Join_nil, Forall_cons in He. destruct He as [He _]. by apply validateIdentifier_nil in He.
    + apply forEach_nil. intros j e' Hj. apply wrap_err_nil.
      apply list_elem_of_lookup_2, list_elem_of_fmap in Hj as (y & -> & Hy%list_elem_of_In). by apply Hents.
Qed.

Lemma collect_option {A B} (f : A -> result B) (g : A -> option B) (bad : gerror -> Prop) l :
  (forall x, x ∈ l -> match g x with Some y => f x = Ok y | None => exists e, bad e /\ f x = Err e end) ->
  match mapM g l with
  | Some ys => collect (fun _ => f) l = Ok ys
  | None => exists e, bad e /\ collect (fun _ => f) l = Err e
  end.
Proof.
  unfold collect. generalize 0%nat. induction l as [|x l IH]; intros n Hall; [done|].
  cbn [mapM]. pose proof (Hall x ltac:(set_solver)) as Hf. cbn [collectFrom].
  destruct (g x) as [y|] eqn:Eg; cbn [mbind option_bind].
  - rewrite Hf. cbn [bind_result]. specialize (IH (S n) ltac:(set_solver)). destruct (mapM g l) as [ys|]; cbn.
    + by rewrite IH.
    + destruct IH as (e & He & ->). by exists e.
  - destruct Hf as (e & He & ->). by exists e.
Qed.

Lemma requested_loaded db p a M x :
  catalog_wf db -> M !! x = catalog_product p a db x ->
  match catalog_product p a db x with
  | Some cp => requested_product M x = Ok cp
  | None => exists e, missing e /\ requested_product M x = Err e
  end.
Proof.
  intros Hwf HM. unfold requested_product. rewrite HM. destruct (catalog_product p a db x) as [cp|] eqn:E.
  - by rewrite (catalog_product_valid _ _ _ _ _ Hwf E).
  - eexists. split; [|reflexivity]. reflexivity.
Qed.

(** Loading products of the catalog answers the declarative reading of the tables:
    each requested provider product, in the order asked, with the product it maps to
    in the project and every entitlement that product grants, sorted and validated;
    when one of them is not mapped the whole load is refused as not found.  The loop
    over the joined rows, the maps it fills and the validation of what it read never
    fail otherwise, and nothing changes. *)
Theorem catalog_products_loaded db p a ids :
  catalog_wf db -> validateCatalogProductIDs p a ids = None ->
  match mapM (catalog_product p a db) ids with
  | Some loaded => pg_CatalogProducts p a ids db = (Ok loaded, db)
  | None => exists e, missing e /\ pg_CatalogProducts p a ids db = (Err e, db)
  end.
Proof.
  intros Hwf Hv. unfold pg_CatalogProducts. rewrite Hv. cbn [tx_check].
  assert (Hnd : NoDup ids).
  { unfold validateCatalogProductIDs in Hv. apply seq_err_nil in Hv as [_ Hv].
    rewrite forPrefix_check_dup with (P := identifier_ok) in Hv; [by destruct Hv|].
    intros seen x. unfold ProviderProductID_Validate. err_simpl. done. }
  destruct (Nat.eqb_spec (length ids) 0) as [Hz|_]; [by destruct ids|].
  destruct (scan_all db Hwf p a (merge_sort (fun x y => Is_true (string_le x y)) ids) ∅) as (M & HM & Hget).
  { by rewrite merge_sort_Permutation. }
  { intros x _. apply lookup_empty. }
  unfold catalog_rows. rewrite HM. cbn [bind_result].
  pose proof (collect_option (requested_product M) (catalog_product p a db) missing ids) as Hc.
  destruct (mapM (catalog_product p a db) ids) as [loaded|].
  - rewrite Hc; [done|]. intros x Hx. apply requested_loaded; [done|]. rewrite Hget, bool_decide_eq_true_2; [done|]. by rewrite merge_sort_Permutation.
  - destruct Hc as (e & He & Hc); [intros x Hx; apply requested_loaded; [done|]; rewrite Hget, bool_decide_eq_true_2; [done|]; by rewrite merge_sort_Permutation|]. rewrite Hc. by exists e.
Qed.

(** ** Configuration calls *)

Inductive catalog_call : Type :=
| CallProject (projectID : ProjectID)
| CallApplication (application : Application)
| CallEntitlement (entitlement : Entitlement)
| CallProduct (product : Product)
| CallMapping (projectID : ProjectID) (mapping : StoreProduct).

Definition run_catalog (call : catalog_call) : Tx catalog_db unit :=
  match call with
  | CallProject projectID => PutProject projectID
  | CallApplication application => PutApplication application
  | CallEntitlement entitlement => PutEntitlementDefinition entitlement
  | CallProduct product => PutProduct product
  | CallMapping projectID mapping => PutStoreProduct projectID mapping
  end.

(** The tables hold what the call asked for, exactly. *)
Definition configured (call : catalog_call) (db : catalog_db) : Prop :=
  match call with
  | CallProject p => p ∈ id_projects (cat_identity db)
  | CallApplication r => applications db !! app_ID r = Some r
  | CallEntitlement e => entitlement_defs db !! ent_ID e = Some (ent_ProjectID e, ent_Key e)
  | CallProduct i =>
      products db !! prod_ID i = Some (prod_ProjectID i, prod_Kind i) /\
      forall e, product_entitlements db !! (prod_ID i, e) = Some (prod_ProjectID i) <-> In e (prod_EntitlementIDs i)
  | CallMapping p m => store_products db !! (sp_ApplicationID m, sp_ProviderID m) = Some (p, sp_ProductID m)
  end.

(** What later calls may not change of it: a product may still gain grants. *)
Definition still_configured (call : catalog_call) (db : catalog_db) : Prop :=
  match call with
  | CallProduct i =>
      products db !! prod_ID i = Some (prod_ProjectID i, prod_Kind i) /\
      forall e, In e (prod_EntitlementIDs i) -> product_entitlements db !! (prod_ID i, e) = Some (prod_ProjectID i)
  | _ => configured call db
  end.

(** Calls of transactions that all committed. *)
Definition run_catalog_all (calls : list catalog_call) : Tx catalog_db unit := tx_each run_catalog calls.

Lemma run_catalog_keeps call db db' :
  catalog_wf db -> run_catalog call db = (Ok tt, db') -> keeps db db' /\ configured call db'.
Proof.
  intros Hwf. destruct call; cbn [run_catalog configured].
  - by apply PutProject_keeps.
  - by apply PutApplication_keeps.
  - by apply PutEntitlementDefinition_keeps.
  - by apply PutProduct_keeps.
  - by apply PutStoreProduct_keeps.
Qed.

Lemma run_catalog_all_keeps calls db db' :
  catalog_wf db -> run_catalog_all calls db = (Ok tt, db') -> keeps db db'.
Proof.
  induction calls as [|call calls IH] in db |- *; intros Hwf; cbn.
  - intros [_ <-]%tx_ret_ok. done.
  - intros ([] & db1 & H1 & H)%tx_bind_ok. apply run_catalog_keeps in H1 as [[Hw1 Hg1] _]; [|done].
    apply IH in H as [Hw Hg]; [|done]. split; [done|by etrans].
Qed.

Lemma configured_still call db db' : configured call db -> catalog_grows db db' -> still_configured call db'.
Proof.
  intros Hc []. destruct call as [p|r|e|i|p m]; cbn in *; try by eapply lookup_weaken.
  - set_solver.
  - destruct Hc as [Hi He]. split; [by eapply lookup_weaken|]. intros e ?%He. by eapply lookup_weaken.
Qed.

(** C18. Configuration is confirmed, never rewritten: a call that succeeds, after any
    others, leaves the catalog well-formed (valid rows, unique scopes and keys,
    references inside one project), keeps every row there was, touches no customer,
    and leaves exactly what it asked for, a product with exactly the grants asked; and
    whatever calls succeed later, all of it stays, a product only gaining grants. *)
Theorem configuration_is_confirmed calls call later db db1 db2 db3 :
  catalog_wf db -> run_catalog_all calls db = (Ok tt, db1) -> run_catalog call db1 = (Ok tt, db2) ->
  run_catalog_all later db2 = (Ok tt, db3) ->
  catalog_wf db2 /\ catalog_grows db db2 /\ configured call db2 /\ still_configured call db3.
Proof.
  intros Hwf H1 H2 H3. apply run_catalog_all_keeps in H1 as [Hw1 Hg1]; [|done].
  apply run_catalog_keeps in H2 as [[Hw2 Hg2] Hc]; [|done].
  apply run_catalog_all_keeps in H3 as [_ Hg3]; [|done]. split_and!; [done|by etrans|done|].
  by eapply configured_still.
Qed.

(** ** Witnesses *)

Definition no_catalog : catalog_db := mkCatalogDb (mkIdentityDb ∅ ∅ ∅ ∅ []) ∅ ∅ ∅ ∅ ∅.

Lemma no_catalog_wf : catalog_wf no_catalog.
Proof. constructor; intros *; cbn; rewrite lookup_empty; done. Qed.

Definition shop_application : Application :=
  mkApplication "app-1" "project-1" (mkStoreApplication ProviderGooglePlay EnvironmentProduction "com.example.shop").
Definition shop_setup : list catalog_call :=
  [CallProject "project-1"; CallApplication shop_application;
   CallEntitlement (mkEntitlement "ent-1" "project-1" "premium");
   CallEntitlement (mkEntitlement "ent-2" "project-1" "ads_removed");
   CallProduct (mkProduct "product-1" "project-1" ProductKindSubscription ["ent-2"; "ent-1"]);
   CallProduct (mkProduct "product-2" "project-1" ProductKindNonConsumable ["ent-2"]);
   CallMapping "project-1" (mkStoreProduct "app-1" "product-1" "premium_monthly");
   CallMapping "project-1" (mkStoreProduct "app-1" "product-2" "remove_ads")]%string.
Definition shop_catalog : catalog_db := (run_catalog_all shop_setup no_catalog).2.

Lemma shop_catalog_built : run_catalog_all shop_setup no_catalog = (Ok tt, shop_catalog).
Proof. apply succeeded. vm_compute. reflexivity. Qed.

Lemma shop_catalog_wf : catalog_wf shop_catalog.
Proof. by destruct (run_catalog_all_keeps _ _ _ no_catalog_wf shop_catalog_built). Qed.

(** A grant may be added, but none taken away. *)
Example product_gains_grants :
  (run_catalog (CallProduct (mkProduct "product-2" "project-1" ProductKindNonConsumable ["ent-1"; "ent-2"])) shop_catalog).1 = Ok tt /\
  (run_catalog (CallProduct (mkProduct "product-1" "project-1" ProductKindSubscription ["ent-1"])) shop_catalog).1
  = Err (refused "put product entitlements").
Proof. vm_compute. done. Qed.

Lemma configuration_is_confirmed_witness :
  exists db2, configured (nth 6 shop_setup (CallProject "x")) db2 /\
              still_configured (nth 6 shop_setup (CallProject "x")) (run_catalog_all (skipn 7 shop_setup) db2).2.
Proof.
  set (db1 := (run_catalog_all (firstn 6 shop_setup) no_catalog).2).
  set (db2 := (run_catalog (nth 6 shop_setup (CallProject "x")) db1).2). exists db2.
  refine (proj2 (proj2 (configuration_is_confirmed (firstn 6 shop_setup) (nth 6 shop_setup (CallProject "x"))
    (skipn 7 shop_setup) no_catalog db1 db2 (run_catalog_all (skipn 7 shop_setup) db2).2 no_catalog_wf _ _ _)));
    apply succeeded; vm_compute; reflexivity.
Defined.

Lemma catalog_products_loaded_witness :
  exists first second, pg_CatalogProducts "project-1" "app-1" ["remove_ads"; "premium_monthly"]%string shop_catalog
    = (Ok [first; second], shop_catalog) /\
    map ent_Key (cp_Entitlements first) = ["ads_removed"]%string /\
    map ent_Key (cp_Entitlements second) = ["premium"; "ads_removed"]%string.
Proof.
  pose proof (catalog_products_loaded shop_catalog "project-1" "app-1" ["remove_ads"; "premium_monthly"]%string
                shop_catalog_wf eq_refl) as H.
  destruct (mapM _ _) as [loaded|] eqn:E; [|vm_compute in E; discriminate].
  vm_compute in E. injection E as <-. eexists _, _. split; [exact H|]. split; reflexivity.
Defined.
