(* ===== verification/Offering.v ===== *)
(** Public offering documents ([internal/offering]) and the membership query they are confirmed
    with ([internal/persistence/postgres/offering.go]): a document is read from one file of a
    directory, decoded, checked, and served only if the catalog has each of its products.  The
    file system and the decoding of JSON are parameters. *)

From S2P Require Import Prelude GoText GoTime GoJson Core Purchase Protection Persistence Stores Projector Repository EntitlementStore Identity Catalog.
From stdpp Require Import base list strings gmap sorting.
Local Open Scope Z_scope.

(* internal/offering/document.go: constants *)
Definition MaxDocumentBytes : Z := 65536.
Definition documentSchemaVersion : Z := 1.
Definition maxRevisionLength : Z := 128.

(* internal/offering/document.go: Package *)
Record Package : Type := mkPackage {
  pkg_ID : string;
  pkg_StoreProductID : ProviderProductID;
  pkg_DisplayKey : string
}.

(* internal/offering/document.go: Offering *)
Record Offering : Type := mkOffering {
  off_ID : string;
  off_Packages : list Package
}.

(* internal/offering/document.go: Document *)
Record Document : Type := mkDocument {
  doc_SchemaVersion : Z;
  doc_ApplicationID : ApplicationID;
  doc_Revision : string;
  doc_Offerings : list Offering
}.

(* internal/offering/loader.go: ErrNotFound *)
Definition offering_ErrNotFound : gerror := Sentinel "offering.ErrNotFound".
(* internal/offering/loader.go: ErrRejected *)
Definition offering_ErrRejected : gerror := Sentinel "offering.ErrRejected".

(** What opening gives: the directory or file, that it does not exist, or another error. *)
Inductive opened (A : Type) : Type := Opened (a : A) | Missing | OpenFailed (e : gerror).
Arguments Opened {A} _.
Arguments Missing {A}.
Arguments OpenFailed {A} _.

(** A file: whether it is regular, its size when it is examined (or the error of that), and
    what reading at most some bytes gives. *)
Record file : Type := mkFile {
  fl_stat : result (bool * Z);
  fl_read : Z -> result string
}.

(** [os.OpenRoot] and [Root.Open], which stays inside the directory; and a decoder that
    refuses unknown fields, with the text after the value. *)
Class OfferingLibrary := {
  OpenRoot : string -> opened (string -> opened file);
  DecodeDocument : string -> result (Document * string)
}.

(* internal/persistence/contracts.go: OfferingCatalog *)
Class OfferingCatalog (S : Type) := {
  ConfirmStoreProducts : ApplicationID -> list ProviderProductID -> Tx S unit
}.

(* internal/offering/loader.go: validRevision *)
Definition validRevision (value : string) : bool :=
  negb ((len value =? 0) || (maxRevisionLength <? len value))
  && forallb (fun character => in_range 97 122 character || in_range 65 90 character || in_range 48 57 character
                               || (character =? 46) || (character =? 95) || (character =? 45) || (character =? 126)) (runes value).

(* internal/offering/loader.go: validIdentifier *)
Definition validIdentifier (value : string) : error := ApplicationID_Validate value.

Definition rejected (format : string) : gerror := Wrapf format [] offering_ErrRejected.

(* internal/offering/loader.go:162-179: Document.validate *)
Fixpoint validate_packages (seen : list string) (items : list Package) : error :=
  match items with
  | [] => None
  | item :: items' =>
      refuse_if (bool_decide (is_Some (validIdentifier (pkg_ID item)))) (rejected "offering package id: %w") ;;?
      refuse_if (contains_str seen (pkg_ID item)) (rejected "duplicate offering package id: %w") ;;?
      refuse_if (bool_decide (is_Some (ProviderProductID_Validate (pkg_StoreProductID item)))) (rejected "offering store_product_id: %w") ;;?
      refuse_if (negb (String.eqb (pkg_DisplayKey item) EmptyString) && bool_decide (is_Some (validIdentifier (pkg_DisplayKey item))))
        (rejected "offering display_key: %w") ;;?
      validate_packages (pkg_ID item :: seen) items'
  end.

(* internal/offering/loader.go:151-180: Document.validate *)
Fixpoint validate_offerings (seen : list string) (groups : list Offering) : error :=
  match groups with
  | [] => None
  | group :: groups' =>
      refuse_if (bool_decide (is_Some (validIdentifier (off_ID group)))) (rejected "offering id: %w") ;;?
      refuse_if (contains_str seen (off_ID group)) (rejected "duplicate offering id: %w") ;;?
      refuse_if (Nat.eqb (length (off_Packages group)) 0) (rejected "offering packages: %w") ;;?
      validate_packages [] (off_Packages group) ;;?
      validate_offerings (off_ID group :: seen) groups'
  end.

(* internal/offering/loader.go: Document.validate *)
Definition Document_validate (document : Document) (applicationID : ApplicationID) : error :=
  refuse_if (negb (doc_SchemaVersion document =? documentSchemaVersion)) (rejected "offering schema_version: %w") ;;?
  refuse_if (bool_decide (is_Some (ApplicationID_Validate (doc_ApplicationID document)))
             || negb (String.eqb (doc_ApplicationID document) applicationID)) (rejected "offering application_id: %w") ;;?
  refuse_if (negb (validRevision (doc_Revision document))) (rejected "offering revision: %w") ;;?
  refuse_if (Nat.eqb (length (doc_Offerings document)) 0) (rejected "offering offerings: %w") ;;?
  validate_offerings [] (doc_Offerings document).

Definition document_products (document : Document) : list ProviderProductID :=
  map pkg_StoreProductID (concat (map off_Packages (doc_Offerings document))).

(** The first occurrence of each. *)
Definition first_of_each (ids : list string) : list string :=
  fold_left (fun kept id => if contains_str kept id then kept else kept ++ [id]) ids [].

(* internal/offering/loader.go: storeProductIDs *)
Definition storeProductIDs (document : Document) : list ProviderProductID := first_of_each (document_products document).

(** Names of one path component: [filepath.IsLocal] refuses the empty one and two dots. *)
(* internal/offering/loader.go: documentName *)
Definition documentName (applicationID : ApplicationID) : result string :=
  let refused := Wrapf "offering application_id: %w" [] offering_ErrNotFound in
  try* refuse_if (bool_decide (is_Some (ApplicationID_Validate applicationID))) refused in
  let name := (applicationID ++ ".json")%string in
  try* refuse_if (existsb (fun b => (b =? 47) || (b =? 92)) (bytes applicationID)
                  || String.eqb name EmptyString || String.eqb name "..") refused in
  Ok name.

Section Loading.
Context `{Lib : OfferingLibrary}.

(* internal/offering/loader.go: readDocument *)
Definition readDocument (directory name : string) : result string :=
  match OpenRoot directory with
  | Missing => Err (Wrapf "open offering directory: %w" [] offering_ErrNotFound)
  | OpenFailed e => Err (Wrapf "open offering directory: %w" [] e)
  | Opened root =>
      match root name with
      | Missing => Err (Wrapf "open offering document: %w" [] offering_ErrNotFound)
      | OpenFailed e => Err (Wrapf "open offering document: %w" [] e)
      | Opened file =>
          let* info := wrap_result (Wrapf "stat offering document: %w" []) (fl_stat file) in
          let '(regular, size) := info in
          try* refuse_if (negb regular || (MaxDocumentBytes <? size)) (rejected "offering document is not a bounded file: %w") in
          let* payload := wrap_result (Wrapf "read offering document: %w" []) (fl_read file (MaxDocumentBytes + 1)) in
          try* refuse_if (MaxDocumentBytes <? len payload)
                 (Wrapf "offering document exceeds %d bytes: %w" [AInt MaxDocumentBytes] offering_ErrRejected) in
          Ok payload
      end
  end.

(* internal/offering/loader.go: parseDocument *)
Definition parseDocument (payload : string) (applicationID : ApplicationID) : result Document :=
  let failed := rejected "parse offering document: %w" in
  let* decoded := wrap_result (fun _ => failed) (DecodeDocument payload) in
  let '(document, rest) := decoded in
  try* refuse_if (negb (json_blank rest)) failed in
  try* Document_validate document applicationID in
  Ok document.

Context {S : Type}.

(** The catalog's calls, or none. *)
(* internal/offering/loader.go: Load *)
Definition Load (directory : string) (applicationID : ApplicationID)
    (catalog : option (ApplicationID -> list ProviderProductID -> Tx S unit)) : Tx S Document :=
  let directory := TrimSpace directory in
  if String.eqb directory EmptyString then tx_err (Wrapf "offering directory is not configured: %w" [] offering_ErrNotFound)
  else
    do name <- tx_lift (documentName applicationID);
    do payload <- tx_lift (readDocument directory name);
    do document <- tx_lift (parseDocument payload applicationID);
    match catalog with
    | None => tx_err (rejected "offering catalog is not configured: %w")
    | Some confirm =>
        do _ <- tx_catch (fun e => if errors_Is e "persistence.ErrUnavailable" then e
                                   else if errors_Is e "persistence.ErrNotFound"
                                   then rejected "store product is not on store_products: %w" else e)
                  (confirm applicationID (storeProductIDs document));
        tx_ret document
    end.
End Loading.

(** ** The membership query *)

(* internal/persistence/postgres/offering.go: uniqueStoreProductIDs *)
Definition uniqueStoreProductIDs (ids : list ProviderProductID) : result (list string) :=
  try* refuse_if (Nat.eqb (length ids) 0) (New "store product IDs are required") in
  fold_left (fun acc id =>
      let* unique := acc in
      try* ProviderProductID_Validate id in
      Ok (if contains_str unique id then unique else unique ++ [id])) ids (Ok []).

(** The rows of the query, without repetition. *)
Definition found_products (applicationID : ApplicationID) (unique : list string) (db : catalog_db) : list string :=
  List.filter (fun id => bool_decide (is_Some (store_products db !! (applicationID, id)))) unique.

(** A store without its pool is [None]. *)
(* internal/persistence/postgres/offering.go: Store.ConfirmStoreProducts *)
Definition pg_ConfirmStoreProducts (pool : option unit) (applicationID : ApplicationID) (ids : list ProviderProductID) : Tx catalog_db unit :=
  match pool with
  | None => tx_err (New "postgresql store is not initialized")
  | Some _ =>
      tx_check (ApplicationID_Validate applicationID) (fun db =>
        match uniqueStoreProductIDs ids with
        | Err e => (Err e, db)
        | Ok unique =>
            if negb (Nat.eqb (length (found_products applicationID unique db)) (length unique))
            then (Err (Wrapf "confirm store products: %w" [] ErrNotFound), db) else (Ok tt, db)
        end)
  end.

#[export] Instance catalog_offerings : OfferingCatalog catalog_db := {| ConfirmStoreProducts := pg_ConfirmStoreProducts (Some tt) |}.

(** ** What a served document is *)

Lemma first_of_each_from kept ids x : x ∈ fold_left (fun kept id => if contains_str kept id then kept else kept ++ [id]) ids kept <-> x ∈ kept \/ x ∈ ids.
Proof.
  revert kept. induction ids as [|id ids IH]; intros kept; cbn [fold_left]; [rewrite elem_of_nil; tauto|].
  rewrite IH, elem_of_cons. destruct (contains_str kept id) eqn:E.
  - apply contains_str_In, list_elem_of_In in E. split; [tauto|]. intros [H|[-> |H]]; tauto.
  - rewrite elem_of_app, list_elem_of_singleton. tauto.
Qed.

Lemma first_of_each_elem ids x : x ∈ first_of_each ids <-> x ∈ ids.
Proof. unfold first_of_each. rewrite first_of_each_from, elem_of_nil. tauto. Qed.

Lemma unique_from kept ids unique :
  fold_left (fun acc id =>
      let* unique := acc in
      try* ProviderProductID_Validate id in
      Ok (if contains_str unique id then unique else unique ++ [id])) ids (Ok kept) = Ok unique ->
  unique = fold_left (fun kept id => if contains_str kept id then kept else kept ++ [id]) ids kept.
Proof.
  revert kept. induction ids as [|id ids IH]; intros kept; cbn [fold_left bind_result]; [by intros [= <-]|].
  destruct (ProviderProductID_Validate id) as [e|]; cbn [try_err]; [|by apply IH].
  intros H. exfalso. clear IH. induction ids as [|i ids IH]; [done|]. by apply IH.
Qed.

Lemma filter_all {A} (f : A -> bool) l : length (List.filter f l) = length l -> forall x, x ∈ l -> f x = true.
Proof.
  induction l as [|a l IH]; cbn; [intros _ x Hx; by apply not_elem_of_nil in Hx|]. destruct (f a) eqn:E; cbn; intros H.
  - injection H as H. intros x [-> |Hx]%elem_of_cons; [done|by apply IH].
  - pose proof (List.filter_length_le f l). lia.
Qed.

(** Products that are confirmed are in the catalog; the confirmation only reads. *)
Lemma ConfirmStoreProducts_ok application ids db r db' :
  pg_ConfirmStoreProducts (Some tt) application ids db = (r, db') ->
  db' = db /\ (r = Ok tt -> forall id, id ∈ ids -> is_Some (store_products db !! (application, id))).
Proof.
  unfold pg_ConfirmStoreProducts, tx_check. destruct (ApplicationID_Validate application); [by intros [= <- <-]|].
  destruct (uniqueStoreProductIDs ids) as [unique|e] eqn:Hu; [|by intros [= <- <-]].
  destruct (Nat.eqb_spec (length (found_products application unique db)) (length unique)) as [Hl|]; cbn [negb]; intros [= <- <-]; [|done].
  split; [done|]. intros _ id Hid. unfold uniqueStoreProductIDs in Hu. apply try_err_ok in Hu as [_ Hu]. apply unique_from in Hu.
  assert (Hin : id ∈ unique) by (subst unique; by apply first_of_each_elem).
  pose proof (filter_all _ _ Hl id Hin) as H. by apply bool_decide_eq_true in H.
Qed.

Record package_valid (item : Package) : Prop := {
  pv_id : identifier_ok (pkg_ID item);
  pv_product : ProviderProductID_Validate (pkg_StoreProductID item) = None;
  pv_display : pkg_DisplayKey item = EmptyString \/ identifier_ok (pkg_DisplayKey item)
}.

Lemma identifier_valid value : bool_decide (is_Some (validIdentifier value)) = false <-> identifier_ok value.
Proof.
  unfold validIdentifier, ApplicationID_Validate. rewrite bool_decide_eq_false, <- eq_None_not_Some. apply validateIdentifier_nil.
Qed.

Lemma validate_packages_ok seen items :
  validate_packages seen items = None -> Forall package_valid items /\ NoDup (map pkg_ID items) /\ forall item, item ∈ items -> pkg_ID item ∉ seen.
Proof.
  revert seen. induction items as [|item items IH]; intros seen; cbn [validate_packages].
  { intros _. split_and!; [constructor|apply NoDup_nil_2|]. intros item H. by apply not_elem_of_nil in H. }
  intros [H1%refuse_if_nil%identifier_valid H]%seq_err_nil. apply seq_err_nil in H as [H2%refuse_if_nil H].
  apply seq_err_nil in H as [H3%refuse_if_nil%bool_decide_eq_false%eq_None_not_Some H].
  apply seq_err_nil in H as [H4%refuse_if_nil (Hall & Hnd & Hnew)%IH].
  rewrite contains_str_not_In, <- list_elem_of_In in H2. split_and!.
  - constructor; [|done]. constructor; [done|done|]. apply andb_false_iff in H4 as [H4|H4]; [left|right; by apply identifier_valid].
    by apply negb_false_iff, String.eqb_eq in H4.
  - cbn [map]. apply NoDup_cons. split; [|done]. intros (other & Heq & Hin)%list_elem_of_fmap. apply (Hnew other Hin). rewrite <- Heq. by left.
  - intros other [-> |Hin]%elem_of_cons; [done|]. intros Hs. apply (Hnew other Hin). by right.
Qed.

Definition offering_valid (group : Offering) : Prop :=
  identifier_ok (off_ID group) /\ off_Packages group <> [] /\ Forall package_valid (off_Packages group) /\ NoDup (map pkg_ID (off_Packages group)).

Lemma validate_offerings_ok seen groups :
  validate_offerings seen groups = None -> Forall offering_valid groups /\ NoDup (map off_ID groups) /\ forall group, group ∈ groups -> off_ID group ∉ seen.
Proof.
  revert seen. induction groups as [|group groups IH]; intros seen; cbn [validate_offerings].
  { intros _. split_and!; [constructor|apply NoDup_nil_2|]. intros group H. by apply not_elem_of_nil in H. }
  intros [H1%refuse_if_nil%identifier_valid H]%seq_err_nil. apply seq_err_nil in H as [H2%refuse_if_nil H].
  apply seq_err_nil in H as [H3%refuse_if_nil H]. apply seq_err_nil in H as [H4%validate_packages_ok (Hall & Hnd & Hnew)%IH].
  rewrite contains_str_not_In, <- list_elem_of_In in H2. split_and!.
  - constructor; [|done]. split_and!; [done|by destruct (off_Packages group)|apply H4|apply H4].
  - cbn [map]. apply NoDup_cons. split; [|done]. intros (other & Heq & Hin)%list_elem_of_fmap. apply (Hnew other Hin). rewrite <- Heq. by left.
  - intros other [-> |Hin]%elem_of_cons; [done|]. intros Hs. apply (Hnew other Hin). by right.
Qed.

(** A document that may be served for an application. *)
Record servable (applicationID : ApplicationID) (db : catalog_db) (document : Document) : Prop := {
  sv_application : doc_ApplicationID document = applicationID /\ identifier_ok applicationID;
  sv_version : doc_SchemaVersion document = documentSchemaVersion;
  sv_revision : validRevision (doc_Revision document) = true;
  sv_offerings : doc_Offerings document <> [] /\ Forall offering_valid (doc_Offerings document) /\ NoDup (map off_ID (doc_Offerings document));
  sv_products : forall id, id ∈ document_products document -> is_Some (store_products db !! (applicationID, id))
}.

Lemma Document_validate_ok document applicationID :
  Document_validate document applicationID = None ->
  doc_ApplicationID document = applicationID /\ doc_SchemaVersion document = documentSchemaVersion /\
  validRevision (doc_Revision document) = true /\
  doc_Offerings document <> [] /\ Forall offering_valid (doc_Offerings document) /\ NoDup (map off_ID (doc_Offerings document)).
Proof.
  intros [H1%refuse_if_nil%negb_false_iff%Z.eqb_eq H]%seq_err_nil. apply seq_err_nil in H as [H2%refuse_if_nil%orb_false_iff H].
  apply seq_err_nil in H as [H3%refuse_if_nil%negb_false_iff H].
  apply seq_err_nil in H as [H4%refuse_if_nil (Hoff & Hnd & _)%validate_offerings_ok].
  destruct H2 as [_ H2%negb_false_iff%String.eqb_eq]. split_and!; try done. by destruct (doc_Offerings document).
Qed.

Lemma documentName_ok applicationID name :
  documentName applicationID = Ok name -> name = (applicationID ++ ".json")%string /\ identifier_ok applicationID /\ ~ In 47 (bytes applicationID).
Proof.
  unfold documentName. intros [Ha%refuse_if_nil H]%try_err_ok. apply try_err_ok in H as [Hn%refuse_if_nil [= <-]].
  split_and!; [done|by apply identifier_valid|]. apply orb_false_iff in Hn as [[Hn _]%orb_false_iff _].
  rewrite existsb_false_Forall, List.Forall_forall in Hn. intros Hin. by specialize (Hn _ Hin).
Qed.

Lemma readDocument_ok `{Lib : OfferingLibrary} directory name payload :
  readDocument directory name = Ok payload ->
  exists root file, OpenRoot directory = Opened root /\ root name = Opened file /\ fl_read file (MaxDocumentBytes + 1) = Ok payload /\
    len payload <= MaxDocumentBytes.
Proof.
  unfold readDocument. destruct (OpenRoot directory) as [root| |]; [|done..]. destruct (root name) as [file| |] eqn:Hfile; [|done..].
  intros ([regular size] & _ & H)%bind_result_ok. apply try_err_ok in H as [_ H].
  apply bind_result_ok in H as (p & Hp%wrap_result_ok & H). apply try_err_ok in H as [Hl%refuse_if_nil%Z.ltb_ge [= <-]]. by exists root, file.
Qed.

Lemma parseDocument_ok `{Lib : OfferingLibrary} payload applicationID document :
  parseDocument payload applicationID = Ok document -> Document_validate document applicationID = None.
Proof.
  unfold parseDocument. intros ([d rest] & _ & H)%bind_result_ok. apply try_err_ok in H as [_ H]. by apply try_err_ok in H as [Hv [= <-]].
Qed.

(** C36. Only confirmed offerings are served.  Loading a document only reads; the document it
    answers was read from a file of the configured directory whose name is the application's
    identity and a suffix, one path component, and has at most 64 KiB; it names the application
    it was asked for, has a revision that is safe in a header, offerings and packages with
    distinct valid identities, and only products the catalog maps for that application. *)
Theorem offering_served `{Lib : OfferingLibrary} directory applicationID db r db' :
  Load directory applicationID (Some (ConfirmStoreProducts (S := catalog_db))) db = (r, db') ->
  db' = db /\ forall document, r = Ok document ->
    servable applicationID db document /\
    exists root file payload, OpenRoot (TrimSpace directory) = Opened root /\ root (applicationID ++ ".json")%string = Opened file /\
      fl_read file (MaxDocumentBytes + 1) = Ok payload /\ len payload <= MaxDocumentBytes /\ parseDocument payload applicationID = Ok document /\
      ~ In 47 (bytes applicationID).
Proof.
  unfold Load. destruct (String.eqb _ EmptyString); [by intros [= <- <-]|]. unfold tx_bind, tx_lift.
  destruct (documentName applicationID) as [name|e] eqn:Hname; [|by intros [= <- <-]].
  destruct (readDocument _ name) as [payload|e] eqn:Hread; [|by intros [= <- <-]].
  destruct (parseDocument payload applicationID) as [document|e] eqn:Hparse; [|by intros [= <- <-]].
  unfold tx_catch, tx_ret. cbn [ConfirmStoreProducts catalog_offerings].
  destruct (pg_ConfirmStoreProducts _ _ _ db) as [[[]|e] db1] eqn:Hc; apply ConfirmStoreProducts_ok in Hc as [-> Hc];
    intros [= <- <-]; split; try done. intros d [= <-]. specialize (Hc eq_refl).
  apply documentName_ok in Hname as (-> & Hid & Hslash).
  destruct (Document_validate_ok _ _ (parseDocument_ok _ _ _ Hparse)) as (H1 & H2 & H3 & H4). split.
  - constructor; [done..|]. intros id Hin. apply Hc. by apply first_of_each_elem.
  - apply readDocument_ok in Hread as (root & file & Hr & Hf & Hp & Hl). by exists root, file, payload.
Qed.

(** ** Witnesses *)

(** A directory with one document, of the shop's application. *)
#[local] Instance shop_offerings : OfferingLibrary := {|
  OpenRoot := fun directory =>
    if String.eqb directory "/offerings"
    then Opened (fun name => if String.eqb name "app-1.json" then Opened (mkFile (Ok (true, 12)) (fun _ => Ok "{offering}"%string)) else Missing)
    else Missing;
  DecodeDocument := fun _ =>
    Ok (mkDocument 1 "app-1" "v1" [mkOffering "main" [mkPackage "monthly" "premium_monthly" "m"; mkPackage "ads" "remove_ads" ""]],
        of_bytes [10])%string
|}.

Lemma offering_served_witness :
  (exists document, Load "/offerings" "app-1" (Some (ConfirmStoreProducts (S := catalog_db))) shop_catalog = (Ok document, shop_catalog) /\
     servable "app-1" shop_catalog document) /\
  (Load "/offerings" "app-1" (Some (ConfirmStoreProducts (S := catalog_db))) no_catalog).1
    = Err (rejected "store product is not on store_products: %w").
Proof.
  split; [|vm_compute; reflexivity].
  destruct (Load "/offerings" "app-1" (Some (ConfirmStoreProducts (S := catalog_db))) shop_catalog) as [r db'] eqn:E.
  destruct (offering_served _ _ _ _ _ E) as [-> H]. destruct r as [document|e].
  - exists document. split; [done|]. by destruct (H document eq_refl).
  - exfalso. assert (Hr : (Load "/offerings" "app-1" (Some (ConfirmStoreProducts (S := catalog_db))) shop_catalog).1 = Err e) by (by rewrite E).
    vm_compute in Hr. discriminate Hr.
Defined.
