(* ===== verification/PurchaseStore.v ===== *)
(** Purchase evidence and observations ([internal/persistence/postgres/purchase.go]):
    encrypted client evidence, provider artifacts, immutable observations with their
    latest sighting, and the protected provider references that find them again.

    A row of [purchase_observations] is kept as its immutable columns ([snapshot]) and
    the three the code may change.  Tables are keyed by their unique columns; an
    identity column is the next number of its sequence, which an [INSERT] consumes even
    where it conflicts.  Of the CHECK constraints, [Validate] of the write already
    requires all but the order of the period once it is cut to microseconds.
    [CURRENT_TIMESTAMP] is a parameter; ORDER BY is bytewise. *)

From S2P Require Import Prelude GoText GoTime GoHttp Core Purchase Protection Persistence Stores Projector Repository EntitlementStore QueueStore Frames Identity Catalog.
From stdpp Require Import base list strings gmap sorting.
Local Open Scope Z_scope.

(** ** Tables *)

(** A row of [purchase_evidence]. *)
Record evidence_row : Type := mkEvidenceRow {
  ev_project : ProjectID;
  ev_application : ApplicationID;
  ev_customer : CustomerID;
  ev_kind : string;
  ev_contentType : string;
  ev_payload : ProtectedValue;
  ev_receivedAt : time
}.

(** The immutable columns of [purchase_observations]. *)
Record snapshot : Type := mkSnapshot {
  ss_project : ProjectID;
  ss_application : ApplicationID;
  ss_product : ProductID;
  ss_providerProduct : ProviderProductID;
  ss_productKind : ProductKind;
  ss_state : LifecycleState;
  ss_providerState : string;
  ss_access : AccessStatus;
  ss_reason : AccessReason;
  ss_ownership : Ownership;
  ss_quantity : Z;
  ss_occurredAt : option time;
  ss_startsAt : option time;
  ss_endsAt : option time;
  ss_renewalMode : RenewalMode;
  ss_renewalStatus : RenewalStatus;
  ss_nextProduct : option ProviderProductID;
  ss_nextRenewalAt : option time
}.

(** A row of [purchase_observations]; the two price columns are NULL together. *)
Record observation_row : Type := mkObservationRow {
  or_evidence : Z;
  or_customer : CustomerID;
  or_snapshot : snapshot;
  or_observedAt : time;
  or_price : option PurchasePrice;
  or_createdAt : time
}.

#[export] Instance snapshot_eq_dec : EqDecision snapshot.
Proof. solve_decision. Defined.
#[export] Instance PurchasePrice_eq_dec : EqDecision PurchasePrice.
Proof. solve_decision. Defined.
#[export] Instance observation_row_eq_dec : EqDecision observation_row.
Proof. solve_decision. Defined.

(** The unique columns of [provider_references] and the rest of the row. *)
Definition reference_columns : Type := ApplicationID * ReferenceRole * string * string.
Record reference_row : Type := mkReferenceRow {
  rr_id : Z;
  rr_value : ProtectedValue
}.

(** Evidence by id, artifacts by their unique columns, and the links of observations
    to references with their application. *)
Record purchase_db : Type := mkPurchaseDb {
  pur_catalog : catalog_db;
  evidence : gmap Z evidence_row;
  evidence_seq : Z;
  artifacts : gmap (Z * string * string) (string * ProtectedValue);
  observations : gmap ObservationID observation_row;
  references : gmap reference_columns reference_row;
  reference_seq : Z;
  reference_links : gmap (ObservationID * Z) ApplicationID
}.

Definition put_catalog (c : catalog_db) (db : purchase_db) : purchase_db :=
  mkPurchaseDb c (evidence db) (evidence_seq db) (artifacts db) (observations db) (references db)
    (reference_seq db) (reference_links db).
Definition with_evidence f (db : purchase_db) : purchase_db :=
  mkPurchaseDb (pur_catalog db) (f (evidence db)) (evidence_seq db + 1) (artifacts db) (observations db)
    (references db) (reference_seq db) (reference_links db).
Definition with_artifacts f (db : purchase_db) : purchase_db :=
  mkPurchaseDb (pur_catalog db) (evidence db) (evidence_seq db) (f (artifacts db)) (observations db)
    (references db) (reference_seq db) (reference_links db).
Definition with_observations f (db : purchase_db) : purchase_db :=
  mkPurchaseDb (pur_catalog db) (evidence db) (evidence_seq db) (artifacts db) (f (observations db))
    (references db) (reference_seq db) (reference_links db).
Definition with_references f (db : purchase_db) : purchase_db :=
  mkPurchaseDb (pur_catalog db) (evidence db) (evidence_seq db) (artifacts db) (observations db)
    (f (references db)) (reference_seq db + 1) (reference_links db).
Definition with_links f (db : purchase_db) : purchase_db :=
  mkPurchaseDb (pur_catalog db) (evidence db) (evidence_seq db) (artifacts db) (observations db)
    (references db) (reference_seq db) (f (reference_links db)).

Definition pur_identity (db : purchase_db) : identity_db := cat_identity (pur_catalog db).
Definition on_identity {A} (m : Tx identity_db A) : Tx purchase_db A :=
  tx_zoom pur_identity (fun i db => put_catalog (put_identity i (pur_catalog db)) db) m.

Definition customer_in (p : ProjectID) (c : CustomerID) (db : purchase_db) : bool :=
  match customers (pur_identity db) !! c with Some row => String.eqb (cu_project row) p | None => false end.

(** ** SQL values *)

(* internal/persistence/postgres/purchase.go: nullableString *)
Definition nullableString (value : string) : option string :=
  if String.eqb value EmptyString then None else Some value.

(* internal/persistence/postgres/purchase.go: nullablePriceMilliunits *)
Definition nullablePriceMilliunits (price : option PurchasePrice) : option Z := option_map price_Milliunits price.

(* internal/persistence/postgres/purchase.go: nullablePriceCurrency *)
Definition nullablePriceCurrency (price : option PurchasePrice) : option string := option_map price_Currency price.

(** The columns of a write that the row never changes. *)
Definition snapshot_of (write : ObservationWrite) : snapshot :=
  let observation := ow_Observation write in
  mkSnapshot (ow_ProjectID write) (obs_ApplicationID observation) (ow_ProductID write) (obs_ProductID observation)
    (obs_ProductKind observation) (obs_State observation) (obs_ProviderState observation)
    (obs_Access observation) (obs_AccessReason observation) (obs_Ownership observation) (obs_Quantity observation)
    (nullableTime (obs_OccurredAt observation))
    (nullableTime (StartsAt (obs_EffectivePeriod observation)))
    (nullableTimePointer (EndsAt (obs_EffectivePeriod observation)))
    (ren_Mode (obs_Renewal observation)) (ren_Status (obs_Renewal observation))
    (nullableString (ren_NextProductID (obs_Renewal observation)))
    (nullableTimePointer (ren_NextRenewalAt (obs_Renewal observation))).

(** The period constraint of the table. *)
Definition row_period_valid (s : snapshot) : bool :=
  match ss_startsAt s, ss_endsAt s with
  | None, None => true
  | Some starts, Some ends => starts <? ends
  | Some _, None => true
  | None, Some _ => false
  end.

Definition with_id (write : ObservationWrite) (id : ObservationID) : ObservationWrite :=
  let o := ow_Observation write in
  mkObservationWrite (ow_EvidenceID write) (ow_ProjectID write) (ow_CustomerID write) (ow_ProductID write)
    (mkObservation id (obs_ApplicationID o) (obs_Store o) (obs_ProductID o) (obs_ProductKind o) (obs_State o)
       (obs_ProviderState o) (obs_Access o) (obs_AccessReason o) (obs_Ownership o) (obs_Quantity o) (obs_Price o)
       (obs_OccurredAt o) (obs_ObservedAt o) (obs_EffectivePeriod o) (obs_Renewal o) (obs_References o)
       (obs_PriorSnapshotID o))
    (ow_References write).
Definition with_customer (write : ObservationWrite) (customer : CustomerID) : ObservationWrite :=
  mkObservationWrite (ow_EvidenceID write) (ow_ProjectID write) customer (ow_ProductID write) (ow_Observation write)
    (ow_References write).

(** ** Reference identities *)

(* internal/persistence/postgres/purchase.go: referenceIdentity *)
Record referenceIdentity : Type := mkReferenceIdentity {
  ri_role : ReferenceRole;
  ri_kind : string;
  ri_fingerprint : string
}.

(* internal/persistence/postgres/purchase.go: newReferenceIdentity *)
Definition newReferenceIdentity (role : ReferenceRole) (kind fingerprint : string) : result referenceIdentity :=
  if negb (len fingerprint =? 32) then Err (New "stored provider reference fingerprint has invalid length")
  else Ok (mkReferenceIdentity role kind fingerprint).

Definition NUL : string := String Ascii.zero EmptyString.

(* internal/persistence/postgres/purchase.go: referenceIdentity.key *)
Definition identity_key (identity : referenceIdentity) : string :=
  (ri_role identity ++ NUL ++ ri_kind identity ++ NUL ++ EncodeToString (ri_fingerprint identity))%string.

Definition reference_identity (reference : ProtectedReference) : referenceIdentity :=
  mkReferenceIdentity (pr_Role reference) (pr_Kind reference) (Fingerprint (pr_Value reference)).

Definition columns_of (application : ApplicationID) (identity : referenceIdentity) : reference_columns :=
  (application, ri_role identity, ri_kind identity, ri_fingerprint identity).

(** ** Evidence and artifacts *)

Definition find_evidence (applicationID : ApplicationID) (fingerprint : string) (db : purchase_db)
    : option (Z * evidence_row) :=
  List.find (fun entry => String.eqb (ev_application entry.2) applicationID
                          && String.eqb (Fingerprint (ev_payload entry.2)) fingerprint)
    (map_to_list (evidence db)).

(* internal/persistence/postgres/purchase.go: transaction.SaveEvidence *)
Definition pg_SaveEvidence (write : EvidenceWrite) : Tx purchase_db Z :=
  tx_check (EvidenceWrite_Validate write) (
  let receivedAt := normalizeTime (ew_ReceivedAt write) in
  do closure <- on_identity (customerClosure (ew_ProjectID write) (ew_CustomerID write));
  let '(canonicalID, members) := closure in
  fun db =>
    match find_evidence (ew_ApplicationID write) (Fingerprint (ew_Payload write)) db with
    | None =>
        if negb (application_in (ew_ProjectID write) (ew_ApplicationID write) (pur_catalog db)
                 && customer_in (ew_ProjectID write) canonicalID db)
        then sql_error "save purchase evidence" (PgError "23503" EmptyString) db
        else (Ok (evidence_seq db),
              with_evidence <[evidence_seq db :=
                mkEvidenceRow (ew_ProjectID write) (ew_ApplicationID write) canonicalID (ew_Kind write)
                  (ew_ContentType write) (ew_Payload write) receivedAt]> db)
    | Some (evidenceID, stored) =>
        let db := with_evidence id db in
        if negb (String.eqb (ev_project stored) (ew_ProjectID write))
           || negb (closureContains members (ev_customer stored))
           || negb (String.eqb (ev_kind stored) (ew_Kind write))
           || negb (String.eqb (ev_contentType stored) (ew_ContentType write))
        then (Err (refused "save purchase evidence"), db)
        else (Ok evidenceID, db)
    end).

(* internal/persistence/postgres/purchase.go: transaction.SaveArtifact *)
Definition pg_SaveArtifact (write : ArtifactWrite) : Tx purchase_db unit :=
  tx_check (ArtifactWrite_Validate write)
  (fun db =>
     let columns := (aw_EvidenceID write, aw_Kind write, Fingerprint (aw_Payload write)) in
     match artifacts db !! columns with
     | None =>
         if negb (bool_decide (is_Some (evidence db !! aw_EvidenceID write)))
         then sql_error "save verified artifact" (PgError "23503" "verified_artifacts_evidence_fk") db
         else (Ok tt, with_artifacts <[columns := (aw_ContentType write, aw_Payload write)]> db)
     | Some (storedContentType, _) =>
         if negb (String.eqb storedContentType (aw_ContentType write))
         then (Err (refused "save verified artifact"), db) else (Ok tt, db)
     end).

(** ** Observations *)

(* internal/persistence/postgres/purchase.go: transaction.evidenceCustomerID *)
Definition evidenceCustomerID (evidenceID : Z) (projectID : ProjectID) (members : list string)
    : Tx purchase_db CustomerID :=
  fun db => match evidence db !! evidenceID with
            | None => sql_error "load purchase evidence owner" ErrNoRows db
            | Some stored =>
                if negb (String.eqb (ev_project stored) projectID) || negb (closureContains members (ev_customer stored))
                then (Err (refused "save purchase observation"), db)
                else (Ok (ev_customer stored), db)
            end.

(* internal/persistence/postgres/purchase.go: transaction.observationMatches *)
Definition observationMatches (write : ObservationWrite) (members : list string) : Tx purchase_db bool :=
  fun db =>
    (Ok match observations db !! obs_ID (ow_Observation write) with
        | None => false
        | Some row =>
            contains_str members (or_customer row)
            && bool_decide (or_snapshot row = snapshot_of write)
            && match nullablePriceMilliunits (obs_Price (ow_Observation write)) with
               | None => true
               | Some _ =>
                   bool_decide (nullablePriceMilliunits (or_price row)
                                = nullablePriceMilliunits (obs_Price (ow_Observation write)))
                   && bool_decide (nullablePriceCurrency (or_price row)
                                   = nullablePriceCurrency (obs_Price (ow_Observation write)))
               end
        end, db).

(* internal/persistence/postgres/purchase.go: transaction.reuseMatchingSnapshot *)
Definition reuseMatchingSnapshot (write : ObservationWrite) (members : list string) : Tx purchase_db ObservationWrite :=
  let priorID := obs_PriorSnapshotID (ow_Observation write) in
  if String.eqb priorID EmptyString || String.eqb priorID (obs_ID (ow_Observation write)) then tx_ret write
  else
    do matches <- observationMatches (with_id write priorID) members;
    tx_ret (if matches : bool then with_id write priorID else write).

(* internal/persistence/postgres/purchase.go: transaction.refreshObservationTime *)
Definition refreshObservationTime (write : ObservationWrite) : Tx purchase_db unit :=
  fun db =>
    let id := obs_ID (ow_Observation write) in
    match observations db !! id with
    | None => (Err (refused "refresh purchase observation time"), db)
    | Some row =>
        (Ok tt, with_observations <[id :=
           mkObservationRow (or_evidence row) (or_customer row) (or_snapshot row)
             (Z.max (or_observedAt row) (normalizeTime (obs_ObservedAt (ow_Observation write))))
             (or_price row) (or_createdAt row)]> db)
    end.

Section Saving.
Context (now : time).

(** The row an insert adds, and the foreign keys it needs. *)
Definition observation_row_of (write : ObservationWrite) : observation_row :=
  mkObservationRow (ow_EvidenceID write) (ow_CustomerID write) (snapshot_of write)
    (normalizeTime (obs_ObservedAt (ow_Observation write))) (obs_Price (ow_Observation write)) now.

Definition observation_references (write : ObservationWrite) (db : purchase_db) : bool :=
  let o := ow_Observation write in
  match evidence db !! ow_EvidenceID write with
  | Some e => String.eqb (ev_application e) (obs_ApplicationID o) && String.eqb (ev_project e) (ow_ProjectID write)
              && String.eqb (ev_customer e) (ow_CustomerID write)
  | None => false
  end
  && bool_decide (store_products (pur_catalog db) !! (obs_ApplicationID o, obs_ProductID o)
                  = Some (ow_ProjectID write, ow_ProductID write))
  && bool_decide (products (pur_catalog db) !! ow_ProductID write = Some (ow_ProjectID write, obs_ProductKind o)).

(** CHECK constraints come before the conflict, foreign keys after it. *)
(* internal/persistence/postgres/purchase.go: transaction.insertObservation *)
Definition insertObservation (write : ObservationWrite) : Tx purchase_db bool :=
  fun db =>
    let id := obs_ID (ow_Observation write) in
    if negb (row_period_valid (snapshot_of write))
    then sql_error "save purchase observation" (PgError "23514" "purchase_observations_period_valid") db
    else match observations db !! id with
         | Some _ => (Ok false, db)
         | None =>
             if negb (observation_references write db)
             then sql_error "save purchase observation" (PgError "23503" EmptyString) db
             else (Ok true, with_observations <[id := observation_row_of write]> db)
         end.

(* internal/persistence/postgres/purchase.go: transaction.enrichObservationPrice *)
Definition enrichObservationPrice (write : ObservationWrite) : Tx purchase_db unit :=
  match obs_Price (ow_Observation write) with
  | None => tx_ret tt
  | Some price =>
      fun db =>
        let id := obs_ID (ow_Observation write) in
        match observations db !! id with
        | Some row =>
            (Ok tt, match or_price row with
                    | None => with_observations <[id :=
                        mkObservationRow (or_evidence row) (or_customer row) (or_snapshot row) (or_observedAt row)
                          (Some price) (or_createdAt row)]> db
                    | Some _ => db
                    end)
        | None => (Ok tt, db)
        end
  end.

(* internal/persistence/postgres/purchase.go: transaction.saveReference *)
Definition saveReference (applicationID : ApplicationID) (reference : ProtectedReference) : Tx purchase_db Z :=
  fun db =>
    let columns := columns_of applicationID (reference_identity reference) in
    match references db !! columns with
    | Some row => (Ok (rr_id row), with_references id db)
    | None =>
        if negb (bool_decide (is_Some (applications (pur_catalog db) !! applicationID)))
        then sql_error "save provider reference" (PgError "23503" "provider_references_application_fk") db
        else (Ok (reference_seq db),
              with_references <[columns := mkReferenceRow (reference_seq db) (pr_Value reference)]> db)
    end.

(** A reference of a new observation and its link. *)
(* internal/persistence/postgres/purchase.go:286-299: transaction.SaveObservation *)
Definition link_reference (write : ObservationWrite) (reference : ProtectedReference) : Tx purchase_db unit :=
  do referenceID <- saveReference (obs_ApplicationID (ow_Observation write)) reference;
  fun db =>
    let link := (obs_ID (ow_Observation write), referenceID) in
    match reference_links db !! link with
    | Some _ => (Ok tt, db)
    | None => (Ok tt, with_links <[link := obs_ApplicationID (ow_Observation write)]> db)
    end.

(** The references joined to an observation by id and application. *)
Definition linked_references (observationID : ObservationID) (db : purchase_db) : list reference_columns :=
  map fst (List.filter (fun entry =>
      match reference_links db !! (observationID, rr_id entry.2) with
      | Some application => String.eqb application entry.1.1.1.1
      | None => false
      end) (map_to_list (references db))).

(* internal/persistence/postgres/purchase.go: transaction.verifyObservationReferences *)
Definition verifyObservationReferences (write : ObservationWrite) : Tx purchase_db unit :=
  fun db =>
    (match collect (fun _ columns => newReferenceIdentity columns.1.1.2 columns.1.2 columns.2)
             (linked_references (obs_ID (ow_Observation write)) db) with
     | Err e => Err e
     | Ok identities =>
         let existing : gset string := list_to_set (map identity_key identities) in
         if negb (Nat.eqb (size existing) (length (ow_References write)))
         then Err (refused "save purchase observation references")
         else if negb (forallb (fun reference => bool_decide (identity_key (reference_identity reference) ∈ existing))
                         (ow_References write))
         then Err (refused "save purchase observation references")
         else Ok tt
     end, db).

(** An observation that was there already. *)
(* internal/persistence/postgres/purchase.go:270-283: transaction.SaveObservation *)
Definition confirm_observation (write : ObservationWrite) (members : list string) : Tx purchase_db unit :=
  do _ <- enrichObservationPrice write;
  do matches <- observationMatches write members;
  if negb matches then tx_err (refused "save purchase observation")
  else
    do _ <- refreshObservationTime write;
    verifyObservationReferences write.

(* internal/persistence/postgres/purchase.go: transaction.SaveObservation *)
Definition pg_SaveObservation (write : ObservationWrite) : Tx purchase_db unit :=
  tx_check (ObservationWrite_Validate write) (
  do closure <- on_identity (customerClosure (ow_ProjectID write) (ow_CustomerID write));
  let members := snd closure in
  do evidenceCustomer <- evidenceCustomerID (ow_EvidenceID write) (ow_ProjectID write) members;
  do storedWrite <- reuseMatchingSnapshot (with_customer write evidenceCustomer) members;
  let write := with_id write (obs_ID (ow_Observation storedWrite)) in
  do inserted <- insertObservation storedWrite;
  if negb inserted then confirm_observation write members
  else tx_each (link_reference write) (ow_References write)).
End Saving.

(** ** Finding a purchase by a reference *)

(** [ORDER BY observed_at DESC, created_at DESC, id DESC]. *)
Definition newer_observation (x y : ObservationID * observation_row) : bool :=
  (or_observedAt y.2 <? or_observedAt x.2)
  || ((or_observedAt x.2 =? or_observedAt y.2)
      && ((or_createdAt y.2 <? or_createdAt x.2)
          || ((or_createdAt x.2 =? or_createdAt y.2) && String.ltb y.1 x.1))).

(** The observations of a project joined to one reference. *)
Definition referenced (lookup : ProviderReferenceLookup) (db : purchase_db) : list (ObservationID * observation_row) :=
  match references db !! (prl_ApplicationID lookup, prl_Role lookup, prl_Kind lookup, prl_Fingerprint lookup) with
  | None => []
  | Some reference =>
      List.filter (fun entry =>
          bool_decide (reference_links db !! (entry.1, rr_id reference) = Some (prl_ApplicationID lookup))
          && String.eqb (ss_application (or_snapshot entry.2)) (prl_ApplicationID lookup)
          && String.eqb (ss_project (or_snapshot entry.2)) (prl_ProjectID lookup))
        (map_to_list (observations db))
  end.

Definition latest (l : list (ObservationID * observation_row)) : option (ObservationID * observation_row) :=
  fold_left (keep_better newer_observation) l None.

(** The customer row an observation joins. *)
Definition observation_customer (row : observation_row) (db : purchase_db) : option customer_row :=
  match customers (pur_identity db) !! or_customer row with
  | Some customer => if String.eqb (cu_project customer) (ss_project (or_snapshot row)) then Some customer else None
  | None => None
  end.

(** The submission an observation joins. *)
Definition observation_submission (row : observation_row) (db : purchase_db) : option evidence_row :=
  match evidence db !! or_evidence row with
  | Some e => if String.eqb (ev_application e) (ss_application (or_snapshot row))
                 && String.eqb (ev_project e) (ss_project (or_snapshot row))
                 && String.eqb (ev_kind e) "purchase_submission" then Some e else None
  | None => None
  end.

(* internal/persistence/postgres/purchase.go: transaction.PurchaseContextByReference *)
Definition pg_PurchaseContextByReference (lookup : ProviderReferenceLookup) : Tx purchase_db PurchaseReferenceContext :=
  tx_check (ProviderReferenceLookup_Validate lookup)
  (fun db =>
     match latest (List.filter (fun entry => bool_decide (is_Some (observation_customer entry.2 db))) (referenced lookup db)) with
     | None => sql_error "resolve provider reference context" ErrNoRows db
     | Some (_, row) =>
         let customer := default (mkCustomerRow EmptyString EmptyString None) (observation_customer row db) in
         let result_ := mkPurchaseContext (mkCustomer (or_customer row) (cu_project customer) (cu_external customer))
                          (ss_providerProduct (or_snapshot row)) (ss_productKind (or_snapshot row)) in
         ((try* wrap_err "validate provider reference context: %w" [] (PurchaseReferenceContext_Validate result_) in
           Ok result_), db)
     end).

(* internal/persistence/postgres/purchase.go: transaction.PurchaseSubmissionByReference *)
Definition pg_PurchaseSubmissionByReference (lookup : ProviderReferenceLookup) : Tx purchase_db PurchaseEvidenceRecord :=
  tx_check (ProviderReferenceLookup_Validate lookup)
  (fun db =>
     match latest (List.filter (fun entry => bool_decide (is_Some (observation_submission entry.2 db))) (referenced lookup db)) with
     | None => sql_error "resolve purchase submission evidence" ErrNoRows db
     | Some (_, row) =>
         match observation_submission row db with
         | None => sql_error "resolve purchase submission evidence" ErrNoRows db
         | Some stored =>
             ((try* refuse_if (negb (len (Fingerprint (ev_payload stored)) =? 32))
                      (New "stored purchase evidence fingerprint has invalid length") in
               let record := mkPurchaseEvidence (ev_kind stored) (ev_contentType stored) (ev_payload stored) in
               try* wrap_err "validate purchase submission evidence: %w" [] (PurchaseEvidenceRecord_Validate record) in
               Ok record), db)
         end
     end).

(** ** Keys identify references *)

Definition nul_free (s : string) : Prop := ~ In 0 (bytes s).

(** A zero byte is a rune of its own wherever it stands. *)
Lemma decode_no_zero l r n : GoText.decode l = Some (r, n) -> In 0 l -> r = 0 \/ In 0 (drop n l).
Proof.
  destruct l as [|b0 l1]; [done|]. cbn [GoText.decode]. destruct (Z.ltb_spec b0 128) as [H|H].
  - intros [= <- <-] [->|Hin]; [by left|by right].
  - unfold enc2, enc3, enc4, in_range. intros Hd Hin. right.
    destruct l1 as [|b1 l2]; [done|]. destruct (_ && _) eqn:E2 in Hd.
    { injection Hd as _ <-. cbn [drop]. destruct Hin as [|[|]]; [lia|lia|done]. }
    destruct l2 as [|b2 l3]; [done|]. destruct (_ && _) eqn:E3 in Hd.
    { injection Hd as _ <-. cbn [drop].
      destruct Hin as [|[|[|]]]; [lia..|done]. }
    destruct l3 as [|b3 l4]; [done|]. destruct (_ && _) eqn:E4 in Hd; [|done].
    injection Hd as _ <-. cbn [drop].
    destruct Hin as [|[|[|[|]]]]; [lia..|done].
Qed.

Lemma zero_rune fuel l : (length l <= fuel)%nat -> In 0 l -> In 0 (runes_fuel fuel l).
Proof.
  induction fuel as [|fuel IH] in l |- *; intros Hlen Hin; [destruct l; [done|cbn in Hlen; lia]|].
  destruct l as [|b l]; [done|]. cbn [runes_fuel]. pose proof (DecodeRune_size (b :: l) ltac:(done)) as Hsize.
  unfold DecodeRune in *. destruct (GoText.decode (b :: l)) as [[r n]|] eqn:E; unfold id in *; cbn [default snd] in *.
  - destruct (decode_no_zero _ _ _ E Hin) as [->|Hd]; [by left|]. right.
    apply IH; [rewrite length_drop; cbn [length] in *; lia|done].
  - right. change (drop 1 (b :: l)) with l. apply IH; [cbn [length] in Hlen; lia|]. by destruct Hin as [->|].
Qed.

Lemma identifier_nul_free s : identifier_ok s -> nul_free s.
Proof.
  intros (_ & _ & _ & _ & Hc) Hin. rewrite List.Forall_forall in Hc.
  assert (Hz : In 0 (runes s)) by (unfold runes; apply zero_rune; [by rewrite length_bytes|done]).
  by apply Hc in Hz.
Qed.

Lemma split_at {A} (x : A) a b l k : ~ In x a -> ~ In x b -> a ++ x :: l = b ++ x :: k -> a = b /\ l = k.
Proof.
  induction a as [|y a IH] in b |- *; destruct b as [|z b]; cbn; intros Ha Hb; [by intros [= ->]|..].
  - intros [= -> _]. tauto.
  - intros [= <- _]. tauto.
  - intros [= <- H]. apply IH in H as [-> ->]; tauto.
Qed.

Definition plain_identity (i : referenceIdentity) : Prop := nul_free (ri_role i) /\ nul_free (ri_kind i).

Lemma identity_key_inj i j : plain_identity i -> plain_identity j -> identity_key i = identity_key j -> i = j.
Proof.
  destruct i as [r k f], j as [r' k' f']. intros [Hr Hk] [Hr' Hk'] H. apply (f_equal bytes) in H.
  unfold identity_key in H. cbn [ri_role ri_kind ri_fingerprint] in *. rewrite !bytes_app in H. cbn in H.
  apply split_at in H as [Hr2 H]; [|done..]. apply split_at in H as [Hk2 H]; [|done..].
  apply bytes_inj in Hr2 as ->, Hk2 as ->, H. apply EncodeToString_inj in H as ->. done.
Qed.

Definition identity_of (c : reference_columns) : referenceIdentity := mkReferenceIdentity c.1.1.2 c.1.2 c.2.

(** ** The invariant *)

(** References point at rows of the same scope, unique columns are unique, and the
    sequences are ahead of the rows. *)
Record purchase_wf (db : purchase_db) : Prop := {
  pw_catalog : catalog_wf (pur_catalog db);
  pw_identity : identity_wf (pur_identity db);
  pw_seq : 0 < evidence_seq db;
  pw_evidence : forall i e, evidence db !! i = Some e ->
    0 < i < evidence_seq db /\ application_in (ev_project e) (ev_application e) (pur_catalog db) = true /\
    customer_in (ev_project e) (ev_customer e) db = true;
  pw_payload : forall i e j f, evidence db !! i = Some e -> evidence db !! j = Some f ->
    ev_application e = ev_application f -> Fingerprint (ev_payload e) = Fingerprint (ev_payload f) -> i = j;
  pw_artifact : forall k a, artifacts db !! k = Some a -> is_Some (evidence db !! k.1.1);
  pw_observation : forall o r, observations db !! o = Some r ->
    (exists e, evidence db !! or_evidence r = Some e /\ ev_application e = ss_application (or_snapshot r) /\
       ev_project e = ss_project (or_snapshot r) /\ ev_customer e = or_customer r) /\
    store_products (pur_catalog db) !! (ss_application (or_snapshot r), ss_providerProduct (or_snapshot r))
      = Some (ss_project (or_snapshot r), ss_product (or_snapshot r)) /\
    products (pur_catalog db) !! ss_product (or_snapshot r)
      = Some (ss_project (or_snapshot r), ss_productKind (or_snapshot r)) /\
    row_period_valid (or_snapshot r) = true;
  pw_reference : forall c r, references db !! c = Some r -> rr_id r < reference_seq db /\ len c.2 = 32 /\ plain_identity (identity_of c);
  pw_reference_id : forall c r d s, references db !! c = Some r -> references db !! d = Some s -> rr_id r = rr_id s -> c = d;
  pw_link : forall o i a, reference_links db !! (o, i) = Some a ->
    (exists r, observations db !! o = Some r /\ ss_application (or_snapshot r) = a) /\
    exists c r, references db !! c = Some r /\ rr_id r = i /\ c.1.1.1 = a
}.

(** What may become of a stored observation. *)
Record resighted (r r' : observation_row) : Prop := {
  rs_evidence : or_evidence r' = or_evidence r;
  rs_customer : or_customer r' = or_customer r;
  rs_snapshot : or_snapshot r' = or_snapshot r;
  rs_created : or_createdAt r' = or_createdAt r;
  rs_observed : or_observedAt r <= or_observedAt r';
  rs_price : or_price r' = or_price r \/ or_price r = None
}.

#[export] Instance resighted_order : PreOrder resighted.
Proof.
  split; [by constructor; [..|left]|]. intros x y z [] []. constructor; try congruence; [lia|].
  destruct rs_price0, rs_price1; intuition congruence.
Qed.

(** Nothing is lost: evidence, artifacts and references stay, an observation is at
    most seen again or priced, and keeps exactly its references. *)
Record purchase_grows (db db' : purchase_db) : Prop := {
  pg_catalog : pur_catalog db' = pur_catalog db;
  pg_evidence : evidence db ⊆ evidence db';
  pg_artifacts : artifacts db ⊆ artifacts db';
  pg_references : references db ⊆ references db';
  pg_observations : forall o r, observations db !! o = Some r ->
    exists r', observations db' !! o = Some r' /\ resighted r r';
  pg_links : forall o i, is_Some (observations db !! o) ->
    reference_links db' !! (o, i) = reference_links db !! (o, i)
}.

#[export] Instance purchase_grows_order : PreOrder purchase_grows.
Proof.
  split.
  - intros x. constructor; try done. intros o r Hr. by exists r.
  - intros x y z [] []. constructor; [congruence|by etrans..| |].
    + intros o r Hr. destruct (pg_observations0 _ _ Hr) as (r1 & H1 & ?).
      destruct (pg_observations1 _ _ H1) as (r2 & H2 & ?). exists r2. split; [done|by etrans].
    + intros o i [r Hr]. destruct (pg_observations0 _ _ Hr) as (r1 & H1 & ?).
      rewrite pg_links1 by by exists r1. apply pg_links0. by exists r.
Qed.

(** ** Reading *)

Lemma byID_reads p c db r db' : customerIdentityByID p c db = (r, db') -> db' = db.
Proof.
  unfold customerIdentityByID. destruct (customers db !! c) as [row|]; [destruct (String.eqb _ _)|]; by intros [= _ <-].
Qed.

Lemma closure_reads p c db r db' : customerClosure p c db = (r, db') -> db' = db.
Proof.
  unfold customerClosure, tx_handle. destruct (customerIdentityByID p c db) as [[identity|e] db1] eqn:E;
    apply byID_reads in E as ->; [|destruct (errors_Is _ _); by intros [= _ <-]].
  unfold tx_bind. destruct (ci_mergedInto identity) as [t|]; [|by intros [= _ <-]].
  destruct (customerIdentityByID p t db) as [[target|e] db1] eqn:E; apply byID_reads in E as ->; [|by intros [= _ <-]].
  destruct (ci_mergedInto target); by intros [= _ <-].
Qed.

Lemma put_identity_same db : put_catalog (put_identity (pur_identity db) (pur_catalog db)) db = db.
Proof. by destruct db as [[]]. Qed.

Lemma on_closure p c db :
  on_identity (customerClosure p c) db = ((customerClosure p c (pur_identity db)).1, db).
Proof.
  unfold on_identity, tx_zoom. destruct (customerClosure p c (pur_identity db)) as [r i] eqn:E.
  apply closure_reads in E as ->. by rewrite put_identity_same.
Qed.

Lemma closureContains_In members c : closureContains members c = true <-> In c members.
Proof.
  unfold closureContains. rewrite existsb_exists. split.
  - by intros (x & Hx & ->%String.eqb_eq).
  - intros H. exists c. by rewrite String.eqb_refl.
Qed.

(** ** Evidence and artifacts *)

Lemma find_evidence_some a f db i e :
  find_evidence a f db = Some (i, e) ->
  evidence db !! i = Some e /\ ev_application e = a /\ Fingerprint (ev_payload e) = f.
Proof.
  intros [Hin H]%find_some. apply list_elem_of_In, elem_of_map_to_list in Hin.
  by apply andb_true_iff in H as [Ha%String.eqb_eq Hf%String.eqb_eq].
Qed.

Lemma find_evidence_none a f db i e :
  find_evidence a f db = None -> evidence db !! i = Some e -> ev_application e = a -> Fingerprint (ev_payload e) <> f.
Proof.
  intros H He <- <-. apply elem_of_map_to_list, list_elem_of_In in He. apply (find_none _ _ H) in He. cbn in He.
  by rewrite !String.eqb_refl in He.
Qed.

Lemma customer_in_same p c db db' : pur_catalog db' = pur_catalog db -> customer_in p c db' = customer_in p c db.
Proof. intros H. unfold customer_in, pur_identity. by rewrite H. Qed.

Lemma add_evidence_wf db e :
  purchase_wf db ->
  application_in (ev_project e) (ev_application e) (pur_catalog db) = true ->
  customer_in (ev_project e) (ev_customer e) db = true ->
  find_evidence (ev_application e) (Fingerprint (ev_payload e)) db = None ->
  purchase_wf (with_evidence <[evidence_seq db := e]> db).
Proof.
  intros Hwf Ha Hc Hnone. pose proof (pw_seq _ Hwf) as Hpos.
  assert (Hfresh : evidence db !! evidence_seq db = None).
  { destruct (evidence db !! evidence_seq db) eqn:E; [|done]. apply (pw_evidence _ Hwf) in E. lia. }
  constructor; cbn; try apply Hwf; intros *; [lia|..].
  - intros [[<- <-]|[_ H]]%lookup_insert_Some; [split_and!; [lia..|done|done]|].
    apply (pw_evidence _ Hwf) in H as (? & ? & ?). split_and!; [lia..|done|done].
  - intros [[<- <-]|[_ H1]]%lookup_insert_Some [[<- <-]|[_ H2]]%lookup_insert_Some Hap Hfp; [done| | |by eapply (pw_payload _ Hwf)].
    + by destruct (find_evidence_none _ _ _ _ _ Hnone H2).
    + by destruct (find_evidence_none _ _ _ _ _ Hnone H1).
  - intros H. apply (pw_artifact _ Hwf) in H as [x Hx]. exists x. by apply kept_after.
  - intros H. apply (pw_observation _ Hwf) in H as ((x & Hx & ?) & ?). split; [|done]. exists x. split; [by apply kept_after|done].
Qed.

Lemma seq_evidence_wf db : purchase_wf db -> purchase_wf (with_evidence id db).
Proof.
  intros Hwf. pose proof (pw_seq _ Hwf) as Hpos. constructor; cbn; try apply Hwf; [lia|]. intros i e H. apply (pw_evidence _ Hwf) in H as (? & ? & ?).
  split_and!; [lia..|done|done].
Qed.

(** What saving evidence promises. *)
Definition evidence_saved (write : EvidenceWrite) (i : Z) (db : purchase_db) : Prop :=
  exists e, evidence db !! i = Some e /\ ev_project e = ew_ProjectID write /\
    ev_application e = ew_ApplicationID write /\ Fingerprint (ev_payload e) = Fingerprint (ew_Payload write) /\
    ev_kind e = ew_Kind write /\ ev_contentType e = ew_ContentType write.

Lemma SaveEvidence_keeps write db i db' :
  purchase_wf db -> pg_SaveEvidence write db = (Ok i, db') ->
  purchase_wf db' /\ purchase_grows db db' /\ evidence_saved write i db'.
Proof.
  intros Hwf [Hv H]%tx_check_ok. apply tx_bind_ok in H as ([can members] & db1 & Hc & H).
  rewrite on_closure in Hc. injection Hc as _ <-.
  destruct (find_evidence _ _ db) as [[j stored]|] eqn:Ef.
  - destruct (negb _ || _ || _ || _) eqn:Eb in H; [done|]. injection H as <- <-.
    rewrite !orb_false_iff, !negb_false_iff, !String.eqb_eq in Eb. destruct Eb as (((Hp & _) & Hk) & Ht).
    apply find_evidence_some in Ef as (Hj & Ha & Hf). split_and!; [by apply seq_evidence_wf| |by exists stored].
    constructor; try done; cbn; try (intros o r Hr; by exists r).
  - destruct (_ && _) eqn:Eb in H; [|done]. injection H as <- <-. apply andb_true_iff in Eb as [Ha Hcu].
    split_and!; [by apply add_evidence_wf| |].
    + constructor; try done; cbn; try (intros o r Hr; by exists r). apply insert_subseteq.
      destruct (evidence db !! evidence_seq db) eqn:E; [|done]. apply (pw_evidence _ Hwf) in E. lia.
    + eexists. cbn. rewrite lookup_insert_eq. by split_and!.
Qed.

Lemma SaveArtifact_keeps write db db' :
  purchase_wf db -> pg_SaveArtifact write db = (Ok tt, db') ->
  purchase_wf db' /\ purchase_grows db db' /\
  exists payload, artifacts db' !! (aw_EvidenceID write, aw_Kind write, Fingerprint (aw_Payload write))
                  = Some (aw_ContentType write, payload).
Proof.
  intros Hwf [Hv H]%tx_check_ok. cbv zeta in H.
  destruct (artifacts db !! _) as [[ct payload]|] eqn:Ea.
  - destruct (String.eqb_spec ct (aw_ContentType write)) as [->|]; [|done]. injection H as <-.
    split_and!; [done..|]. by exists payload.
  - destruct (bool_decide _) eqn:Eb in H; [|done]. injection H as <-. apply bool_decide_eq_true in Eb.
    split_and!; [|constructor; try done; cbn|eexists; cbn; by rewrite lookup_insert_eq].
    + constructor; cbn; try apply Hwf. intros k a [[<- <-]|[_ H]]%lookup_insert_Some; [done|by apply (pw_artifact _ Hwf) in H].
    + by apply insert_subseteq.
    + intros o r Hr. by exists r.
Qed.

(** ** Linking references *)

Definition write_columns (write : ObservationWrite) : list reference_columns :=
  map (fun r => columns_of (obs_ApplicationID (ow_Observation write)) (reference_identity r)) (ow_References write).

(** An observation is linked to the reference with these columns. *)
Definition has_link (db : purchase_db) (o : ObservationID) (c : reference_columns) : Prop :=
  exists r, references db !! c = Some r /\ reference_links db !! (o, rr_id r) = Some c.1.1.1.

(** What a stored reference needs: the fingerprint is an array of 32 bytes, and text
    has no zero byte. *)
Definition storable (ref : ProtectedReference) : Prop :=
  len (Fingerprint (pr_Value ref)) = 32 /\ plain_identity (reference_identity ref).

(** A fingerprint is an array of 32 bytes. *)
Definition fixed_fingerprints (write : ObservationWrite) : Prop :=
  Forall (fun r => len (Fingerprint (pr_Value r)) = 32) (ow_References write).

Lemma saveReference_keeps a ref db i db' :
  purchase_wf db -> storable ref -> saveReference a ref db = (Ok i, db') ->
  purchase_wf db' /\ pur_catalog db' = pur_catalog db /\ evidence db' = evidence db /\ artifacts db' = artifacts db /\
  observations db' = observations db /\ reference_links db' = reference_links db /\ references db ⊆ references db' /\
  exists r, references db' !! columns_of a (reference_identity ref) = Some r /\ rr_id r = i.
Proof.
  intros Hwf Hlen H. unfold saveReference in H. cbv zeta in H.
  destruct (references db !! _) as [row|] eqn:Er.
  - injection H as <- <-. split_and!; try done; [|by exists row].
    constructor; cbn; try apply Hwf. intros c r Hr. apply (pw_reference _ Hwf) in Hr. split; [lia|tauto].
  - destruct Hlen as [Hlen Hplain]. destruct (bool_decide _) in H; [|done]. injection H as <- <-.
    split_and!; try done; [|cbn; by apply insert_subseteq|eexists; cbn; by rewrite lookup_insert_eq].
    constructor; cbn; try apply Hwf; intros *.
    + intros [[<- <-]|[_ Hr]]%lookup_insert_Some; [cbn; split; [lia|split; [done|exact Hplain]]|].
      apply (pw_reference _ Hwf) in Hr. split; [lia|tauto].
    + intros [[<- <-]|[_ H1]]%lookup_insert_Some [[<- <-]|[_ H2]]%lookup_insert_Some; cbn; intros Heq; [done| | |by eapply (pw_reference_id _ Hwf)].
      * apply (pw_reference _ Hwf) in H2. lia.
      * apply (pw_reference _ Hwf) in H1. lia.
    + intros H. apply (pw_link _ Hwf) in H as (? & c & r & Hc & ?). split; [done|]. exists c, r.
      split; [by apply kept_after|done].
Qed.

(** Adding the link of a known reference. *)
Lemma add_link_wf db o a i :
  purchase_wf db -> (exists r, observations db !! o = Some r /\ ss_application (or_snapshot r) = a) ->
  (exists c r, references db !! c = Some r /\ rr_id r = i /\ c.1.1.1 = a) ->
  purchase_wf (with_links <[(o, i) := a]> db).
Proof.
  intros Hwf Ho Hc. constructor; cbn; try apply Hwf. intros o' i' a' [[[= <- <-] <-]|[_ H]]%lookup_insert_Some; [done|].
  by apply (pw_link _ Hwf).
Qed.

(** What linking references to an observation changes. *)
Record links_only (o : ObservationID) (added : list reference_columns) (db db' : purchase_db) : Prop := {
  lo_wf : purchase_wf db';
  lo_catalog : pur_catalog db' = pur_catalog db;
  lo_evidence : evidence db' = evidence db;
  lo_artifacts : artifacts db' = artifacts db;
  lo_observations : observations db' = observations db;
  lo_references : references db ⊆ references db';
  lo_others : forall o' i, o' <> o -> reference_links db' !! (o', i) = reference_links db !! (o', i);
  lo_links : forall c, has_link db' o c <-> has_link db o c \/ In c added
}.

Lemma has_link_grows db db' o c :
  purchase_wf db -> purchase_wf db' -> references db ⊆ references db' ->
  (forall i, reference_links db' !! (o, i) = reference_links db !! (o, i)) -> has_link db' o c <-> has_link db o c.
Proof.
  intros Hwf Hwf' Hsub Hl. split.
  - intros (r & Hr & Hlink). rewrite Hl in Hlink. pose proof Hlink as Hold.
    apply (pw_link _ Hwf) in Hlink as (_ & d & s & Hs & Hid & _). pose proof (lookup_weaken _ _ _ _ Hs Hsub) as Hs'.
    pose proof (pw_reference_id _ Hwf' _ _ _ _ Hs' Hr Hid) as ->. exists s. split; [done|]. by rewrite Hid.
  - intros (r & Hr & Hlink). exists r. split; [by eapply lookup_weaken|]. by rewrite Hl.
Qed.

Lemma link_reference_keeps write ref db db' row :
  purchase_wf db -> storable ref ->
  observations db !! obs_ID (ow_Observation write) = Some row ->
  ss_application (or_snapshot row) = obs_ApplicationID (ow_Observation write) ->
  link_reference write ref db = (Ok tt, db') ->
  links_only (obs_ID (ow_Observation write))
    [columns_of (obs_ApplicationID (ow_Observation write)) (reference_identity ref)] db db'.
Proof.
  intros Hwf Hlen Ho Ha H. unfold link_reference in H. apply tx_bind_ok in H as (i & db1 & H1 & H).
  apply saveReference_keeps in H1 as (Hw1 & Hcat & Hev & Hart & Hobs & Hlinks & Hsub & r & Hr & Hi); [|done..].
  set (o := obs_ID (ow_Observation write)) in *. set (a := obs_ApplicationID (ow_Observation write)) in *.
  set (c0 := columns_of a (reference_identity ref)) in *.
  assert (Hold : forall c, has_link db1 o c <-> has_link db o c).
  { intros c. apply has_link_grows; [done..|]. intros j. by rewrite Hlinks. }
  cbv zeta in H. destruct (reference_links db1 !! (o, i)) as [a'|] eqn:El; injection H as <-.
  - constructor; try done; [intros; by rewrite Hlinks|]. intros c. rewrite Hold.
    split; [by left|]. intros [Hc|[<-|[]]]; [done|]. apply Hold. exists r. split; [done|]. rewrite Hi, El. f_equal.
    apply (pw_link _ Hw1) in El as ((row' & Hrow' & <-) & _). rewrite Hobs, Ho in Hrow'. injection Hrow' as <-. done.
  - constructor; try done; cbn.
    + apply add_link_wf; [done|exists row; by rewrite Hobs|]. exists c0, r. done.
    + intros o' j Hne. rewrite lookup_insert_ne by congruence. by rewrite Hlinks.
    + intros c. rewrite <- Hold. split.
      * intros (s & Hs & Hl). cbn in Hs, Hl. apply lookup_insert_Some in Hl as [[[= Hid] _]|[_ Hl]]; [|left; by exists s].
        right. left. eapply (pw_reference_id _ Hw1); [done..|]. congruence.
      * intros [(s & Hs & Hl)|[<-|[]]].
        -- exists s. split; [done|]. cbn. rewrite lookup_insert_ne; [done|]. intros [= Hx]. rewrite <- Hx in Hl. congruence.
        -- exists r. split; [done|]. cbn. by rewrite Hi, lookup_insert_eq.
Qed.

Lemma links_only_trans o l1 l2 x y z : links_only o l1 x y -> links_only o l2 y z -> links_only o (l1 ++ l2) x z.
Proof.
  intros [] []. constructor; try congruence; [by etrans| |].
  - intros o' i Hne. rewrite lo_others1 by done. by apply lo_others0.
  - intros c. rewrite lo_links1, lo_links0, in_app_iff. tauto.
Qed.

Lemma link_references_keep write refs db db' row :
  purchase_wf db -> Forall storable refs ->
  observations db !! obs_ID (ow_Observation write) = Some row ->
  ss_application (or_snapshot row) = obs_ApplicationID (ow_Observation write) ->
  tx_each (link_reference write) refs db = (Ok tt, db') ->
  links_only (obs_ID (ow_Observation write))
    (map (fun r => columns_of (obs_ApplicationID (ow_Observation write)) (reference_identity r)) refs) db db'.
Proof.
  induction refs as [|ref refs IH] in db |- *; intros Hwf Hlen Ho Ha; cbn.
  - intros [_ <-]%tx_ret_ok. constructor; try done. intros c. cbn [In map]. tauto.
  - intros ([] & db1 & H1 & H)%tx_bind_ok. apply Forall_cons in Hlen as [Hl1 Hl].
    eapply link_reference_keeps in H1; [|done..]. eapply IH in H; [|apply H1|done| |done].
    + by apply (links_only_trans _ [_] _ _ db1).
    + by rewrite (lo_observations _ _ _ _ H1).
Qed.

(** ** Verifying references *)

Lemma linked_references_In o db c :
  In c (linked_references o db) <-> has_link db o c.
Proof.
  unfold linked_references. rewrite in_map_iff. split.
  - intros ([c' r] & <- & [Hin H]%filter_In). apply list_elem_of_In, elem_of_map_to_list in Hin. cbn in *.
    exists r. split; [done|]. destruct (reference_links db !! (o, rr_id r)) as [a|]; [|done].
    by apply String.eqb_eq in H as ->.
  - intros (r & Hr & Hl). exists (c, r). split; [done|]. apply filter_In.
    split; [by apply list_elem_of_In, elem_of_map_to_list|]. cbn. by rewrite Hl, String.eqb_refl.
Qed.

Lemma linked_references_NoDup o db : NoDup (linked_references o db).
Proof.
  unfold linked_references. assert (Hnd : NoDup (map_to_list (references db)).*1) by apply NoDup_fst_map_to_list.
  induction (map_to_list (references db)) as [|[c r] l IH]; cbn; [constructor|].
  cbn in Hnd. apply NoDup_cons in Hnd as [Hx Hl].
  destruct (match reference_links db !! _ with Some _ => _ | None => _ end); cbn; [|by apply IH].
  constructor; [|by apply IH]. intros Hin. apply Hx. apply list_elem_of_In, in_map_iff in Hin as ([c' r'] & Hc & [Hin _]%filter_In).
  cbn in Hc. subst c'. apply list_elem_of_fmap. exists (c, r'). split; [done|]. by apply list_elem_of_In.
Qed.

Lemma collect_identities (l : list reference_columns) :
  Forall (fun c => len c.2 = 32) l ->
  collect (fun _ c => newReferenceIdentity c.1.1.2 c.1.2 c.2) l = Ok (map identity_of l).
Proof.
  unfold collect. generalize 0%nat. induction l as [|c l IH]; intros n; [done|]. intros [Hc Hl]%Forall_cons.
  cbn [collectFrom map]. unfold newReferenceIdentity at 1. rewrite Hc. cbn [Z.eqb Pos.eqb negb bind_result]. by rewrite IH.
Qed.

(** The keys of the references a write protects. *)
Definition write_keys (write : ObservationWrite) : list string :=
  map (fun r => identity_key (reference_identity r)) (ow_References write).

(** An observation linked to exactly the references of a write is confirmed. *)
Lemma verify_linked write db :
  purchase_wf db -> NoDup (write_keys write) ->
  (forall c, has_link db (obs_ID (ow_Observation write)) c <-> In c (write_columns write)) ->
  verifyObservationReferences write db = (Ok tt, db).
Proof.
  intros Hwf Hnd Hlink. unfold verifyObservationReferences.
  rewrite collect_identities; [|apply List.Forall_forall; intros c Hc%linked_references_In;
    destruct Hc as (r & Hr & _); exact (proj1 (proj2 (pw_reference _ Hwf _ _ Hr)))].
  cbv zeta. set (ids := linked_references _ _).
  assert (Hkeys : forall k, k ∈ (list_to_set (map identity_key (map identity_of ids)) : gset string) <-> In k (write_keys write)).
  { intros k. rewrite elem_of_list_to_set, list_elem_of_In, map_map, in_map_iff. unfold write_keys. rewrite in_map_iff.
    split.
    - intros (c & <- & Hc%linked_references_In%Hlink). unfold write_columns in Hc. apply in_map_iff in Hc as (r & <- & Hr). by exists r.
    - intros (r & <- & Hr). exists (columns_of (obs_ApplicationID (ow_Observation write)) (reference_identity r)).
      split; [done|]. apply linked_references_In, Hlink. unfold write_columns. apply in_map_iff. by exists r. }
  assert (Hsize : size (list_to_set (map identity_key (map identity_of ids)) : gset string) = length (ow_References write)).
  { transitivity (size (list_to_set (write_keys write) : gset string)).
    - f_equal. apply set_eq. intros k. rewrite Hkeys. by rewrite elem_of_list_to_set, list_elem_of_In.
    - rewrite size_list_to_set by done. apply length_map. }
  rewrite Hsize, Nat.eqb_refl. cbn [negb].
  replace (forallb _ _) with true; [done|]. symmetry. apply forallb_forall. intros r Hr.
  apply bool_decide_eq_true, Hkeys. unfold write_keys. apply in_map_iff. by exists r.
Qed.

(** ** Saving observations *)

Lemma observationMatches_true write members db :
  (observationMatches write members db).1 = Ok true <->
  exists row, observations db !! obs_ID (ow_Observation write) = Some row /\ In (or_customer row) members /\
    or_snapshot row = snapshot_of write /\
    (obs_Price (ow_Observation write) = None \/ or_price row = obs_Price (ow_Observation write)).
Proof.
  unfold observationMatches. cbn [fst]. destruct (observations db !! _) as [row|]; [|naive_solver].
  assert (Hprice : match nullablePriceMilliunits (obs_Price (ow_Observation write)) with
                   | None => true
                   | Some _ => bool_decide (nullablePriceMilliunits (or_price row) = nullablePriceMilliunits (obs_Price (ow_Observation write)))
                               && bool_decide (nullablePriceCurrency (or_price row) = nullablePriceCurrency (obs_Price (ow_Observation write)))
                   end = true <-> obs_Price (ow_Observation write) = None \/ or_price row = obs_Price (ow_Observation write)).
  { destruct (obs_Price (ow_Observation write)) as [[m c]|]; cbn; [|tauto].
    rewrite andb_true_iff, !bool_decide_eq_true. destruct (or_price row) as [[m' c']|]; cbn; naive_solver. }
  split.
  - intros [= H]. rewrite !andb_true_iff, Hprice, bool_decide_eq_true, contains_str_In in H. exists row. tauto.
  - intros (row' & [= <-] & Hc & Hs & Hp). f_equal. rewrite !andb_true_iff, Hprice, bool_decide_eq_true, contains_str_In. done.
Qed.

Lemma matches_total write members db : exists b, observationMatches write members db = (Ok b, db).
Proof. by eexists. Qed.

(** The id a snapshot is stored under. *)
Definition chosen_id (write : ObservationWrite) (members : list string) (db : purchase_db) : ObservationID :=
  let o := ow_Observation write in
  if String.eqb (obs_PriorSnapshotID o) EmptyString || String.eqb (obs_PriorSnapshotID o) (obs_ID o) then obs_ID o
  else match (observationMatches (with_id write (obs_PriorSnapshotID o)) members db).1 with
       | Ok true => obs_PriorSnapshotID o
       | _ => obs_ID o
       end.

Lemma with_same_id write : with_id write (obs_ID (ow_Observation write)) = write.
Proof. by destruct write as [? ? ? ? []]. Qed.

(** The scope of a write: the customers of its closure own its evidence. *)
Record in_scope (write : ObservationWrite) (members : list string) (e : evidence_row) (db : purchase_db) : Prop := {
  sc_valid : ObservationWrite_Validate write = None;
  sc_closure : exists canonical, (customerClosure (ow_ProjectID write) (ow_CustomerID write) (pur_identity db)).1
                                 = Ok (canonical, members);
  sc_evidence : evidence db !! ow_EvidenceID write = Some e;
  sc_project : ev_project e = ow_ProjectID write;
  sc_owner : In (ev_customer e) members
}.

Section SaveSteps.
Context (now : time).

Definition insert_or_confirm (write : ObservationWrite) (members : list string) (e : evidence_row) : Tx purchase_db unit :=
  fun db =>
    let write' := with_id write (chosen_id write members db) in
    (do inserted <- insertObservation now (with_customer write' (ev_customer e));
     if negb inserted then confirm_observation write' members
     else tx_each (link_reference write') (ow_References write)) db.

Lemma save_in_scope write members e db :
  in_scope write members e db -> pg_SaveObservation now write db = insert_or_confirm write members e db.
Proof.
  intros [Hv (canonical & Hc) He Hp Ho]. unfold pg_SaveObservation. rewrite Hv. cbn [tx_check].
  unfold tx_bind at 1. rewrite on_closure, Hc. cbn [snd].
  unfold tx_bind at 1, evidenceCustomerID. rewrite He.
  rewrite (proj2 (String.eqb_eq _ _) Hp), (proj2 (closureContains_In _ _) Ho). cbn [negb orb].
  unfold insert_or_confirm, chosen_id, reuseMatchingSnapshot.
  change (ow_Observation (with_customer write (ev_customer e))) with (ow_Observation write).
  destruct (String.eqb _ _ || String.eqb _ _) eqn:Eb.
  - unfold tx_bind at 1. cbn [tx_ret]. change (ow_Observation (with_customer write (ev_customer e))) with (ow_Observation write).
    by rewrite with_same_id.
  - unfold tx_bind at 1, tx_bind at 1.
    change (observationMatches (with_id (with_customer write (ev_customer e)) (obs_PriorSnapshotID (ow_Observation write))) members db)
      with (observationMatches (with_id write (obs_PriorSnapshotID (ow_Observation write))) members db).
    destruct (matches_total (with_id write (obs_PriorSnapshotID (ow_Observation write))) members db) as [b Hb].
    rewrite !Hb. cbn [fst tx_ret]. destruct b; [done|].
    change (ow_Observation (with_customer write (ev_customer e))) with (ow_Observation write). by rewrite with_same_id.
Qed.

Lemma save_scoped write db db' :
  pg_SaveObservation now write db = (Ok tt, db') -> exists members e, in_scope write members e db.
Proof.
  intros [Hv H]%tx_check_ok. apply tx_bind_ok in H as ([can members] & db1 & Hc & H).
  rewrite on_closure in Hc. injection Hc as Hc <-. apply tx_bind_ok in H as (owner & db1 & He & _).
  unfold evidenceCustomerID in He. destruct (evidence db !! _) as [e|] eqn:Ee; [|done].
  destruct (negb _ || negb _) eqn:Eb in He; [done|]. apply orb_false_iff in Eb as [Hp%negb_false_iff%String.eqb_eq Ho%negb_false_iff].
  exists members, e. constructor; try done; [by exists can|]. by apply closureContains_In.
Qed.

(** A new observation. *)
Lemma insert_observation_wf write db :
  purchase_wf db -> observations db !! obs_ID (ow_Observation write) = None ->
  row_period_valid (snapshot_of write) = true -> observation_references write db = true ->
  purchase_wf (with_observations <[obs_ID (ow_Observation write) := observation_row_of now write]> db).
Proof.
  intros Hwf Hno Hper Hrefs. unfold observation_references in Hrefs. rewrite !andb_true_iff in Hrefs.
  destruct Hrefs as ((He & Hs%bool_decide_eq_true) & Hp%bool_decide_eq_true).
  destruct (evidence db !! ow_EvidenceID write) as [e|] eqn:Ee; [|done].
  rewrite !andb_true_iff, !String.eqb_eq in He. destruct He as ((Ha & Hpr) & Hc).
  constructor; cbn; try apply Hwf; intros *.
  - intros [[<- <-]|[_ H]]%lookup_insert_Some; [|by eapply (pw_observation _ Hwf)]. cbn.
    split_and!; [by exists e|done..].
  - intros H. apply (pw_link _ Hwf) in H as ((r & Hr & ?) & ?). split; [|done]. exists r. split; [by apply kept_after|done].
Qed.
End SaveSteps.

Definition sighted (write : ObservationWrite) (row : observation_row) (price : option PurchasePrice) : observation_row :=
  mkObservationRow (or_evidence row) (or_customer row) (or_snapshot row)
    (Z.max (or_observedAt row) (normalizeTime (obs_ObservedAt (ow_Observation write)))) price (or_createdAt row).

Definition priced (write : ObservationWrite) (row : observation_row) : option PurchasePrice :=
  match or_price row with Some p => Some p | None => obs_Price (ow_Observation write) end.

Lemma with_observations_twice f g db :
  with_observations f (with_observations g db) = with_observations (fun m => f (g m)) db.
Proof. done. Qed.

Lemma enrich_eq write db row :
  observations db !! obs_ID (ow_Observation write) = Some row ->
  enrichObservationPrice write db =
  (Ok tt, with_observations <[obs_ID (ow_Observation write) :=
     mkObservationRow (or_evidence row) (or_customer row) (or_snapshot row) (or_observedAt row) (priced write row) (or_createdAt row)]> db).
Proof.
  intros Hrow. unfold enrichObservationPrice, priced.
  destruct (obs_Price (ow_Observation write)) as [price|] eqn:Ep.
  - cbv zeta. rewrite Hrow. destruct (or_price row) as [p|] eqn:Er; [|done].
    f_equal. destruct row; cbn in *. subst. unfold with_observations. rewrite insert_id by done. by destruct db.
  - unfold tx_ret. f_equal. destruct row as [? ? ? ? pr ?]; cbn in *. replace (match pr with Some p => Some p | None => None end) with pr by by destruct pr.
    unfold with_observations. rewrite insert_id by done. by destruct db.
Qed.

(** Confirming an observation at most prices it and sees it again. *)
Lemma confirm_eq write members db row :
  observations db !! obs_ID (ow_Observation write) = Some row ->
  In (or_customer row) members -> or_snapshot row = snapshot_of write ->
  (obs_Price (ow_Observation write) = None \/ priced write row = obs_Price (ow_Observation write)) ->
  confirm_observation write members db =
  verifyObservationReferences write
    (with_observations <[obs_ID (ow_Observation write) := sighted write row (priced write row)]> db).
Proof.
  intros Hrow Hc Hs Hp. unfold confirm_observation, tx_bind at 1. rewrite (enrich_eq _ _ _ Hrow).
  set (row1 := mkObservationRow _ _ _ _ _ _). set (db1 := with_observations _ db).
  assert (Hrow1 : observations db1 !! obs_ID (ow_Observation write) = Some row1) by (cbn; by rewrite lookup_insert_eq).
  destruct (matches_total write members db1) as [b Hb].
  assert (b = true) as ->.
  { assert (Hm : (observationMatches write members db1).1 = Ok true) by (apply observationMatches_true; by exists row1).
    rewrite Hb in Hm. by injection Hm. }
  unfold tx_bind at 1. rewrite Hb. cbn [negb]. unfold tx_bind, refreshObservationTime. cbv zeta. rewrite Hrow1.
  f_equal. unfold db1. rewrite with_observations_twice. unfold with_observations. f_equal. by rewrite insert_insert_eq.
Qed.

Lemma verify_reads write db r db' : verifyObservationReferences write db = (r, db') -> db' = db.
Proof. unfold verifyObservationReferences. by intros [= _ <-]. Qed.

Lemma confirm_ok write members db db' :
  confirm_observation write members db = (Ok tt, db') ->
  exists row, observations db !! obs_ID (ow_Observation write) = Some row /\ In (or_customer row) members /\
    or_snapshot row = snapshot_of write /\
    (obs_Price (ow_Observation write) = None \/ priced write row = obs_Price (ow_Observation write)) /\
    db' = with_observations <[obs_ID (ow_Observation write) := sighted write row (priced write row)]> db /\
    verifyObservationReferences write db' = (Ok tt, db').
Proof.
  intros H.
  assert (Hrow : exists row, observations db !! obs_ID (ow_Observation write) = Some row /\ In (or_customer row) members /\
    or_snapshot row = snapshot_of write /\
    (obs_Price (ow_Observation write) = None \/ priced write row = obs_Price (ow_Observation write))).
  { unfold confirm_observation in H. apply tx_bind_ok in H as ([] & db1 & H1 & H).
    apply tx_bind_ok in H as (m & db2 & Hm & H). destruct m; [|done].
    pose proof (proj1 (observationMatches_true write members db1) ltac:(by rewrite Hm)) as (row1 & Hrow1 & Hc & Hs & Hp).
    destruct (observations db !! obs_ID (ow_Observation write)) as [row|] eqn:E.
    - rewrite (enrich_eq _ _ _ E) in H1. injection H1 as <-. cbn in Hrow1. rewrite lookup_insert_eq in Hrow1.
      injection Hrow1 as <-. by exists row.
    - exfalso. unfold enrichObservationPrice in H1. destruct (obs_Price (ow_Observation write)); cbv zeta in H1;
        [rewrite E in H1|]; injection H1 as <-; congruence. }
  destruct Hrow as (row & Hrow & Hc & Hs & Hp). rewrite (confirm_eq _ _ _ _ Hrow Hc Hs Hp) in H.
  pose proof (verify_reads _ _ _ _ H) as ->. by exists row.
Qed.

Lemma write_storable write :
  ObservationWrite_Validate write = None -> fixed_fingerprints write -> Forall storable (ow_References write).
Proof.
  intros Hv Hfix. unfold ObservationWrite_Validate in Hv. cbv zeta in Hv.
  rewrite seq_err_nil, errors_Join_nil, seq_err_nil, refuse_if_nil, negb_false_iff, Nat.eqb_eq, forEach_nil in Hv.
  destruct Hv as (Hobs & Hlen & Heach).
  assert (Ho : PurchaseObservation_Validate (ow_Observation write) = None).
  { rewrite List.Forall_forall in Hobs. apply Hobs. cbn. tauto. }
  apply observation_parts, ow_references in Ho as [Hrefs _].
  apply Forall_lookup. intros i r Hi. unfold storable. unfold fixed_fingerprints in Hfix. rewrite Forall_lookup in Hfix. split; [by eapply Hfix|].
  destruct (lookup_lt_is_Some_2 (obs_References (ow_Observation write)) i) as [s Hs].
  { apply lookup_lt_Some in Hi. lia. }
  specialize (Heach i (r, s)). rewrite seq_err_nil, wrap_err_nil, refuse_if_nil in Heach.
  destruct Heach as [_ Hmeta]; [apply lookup_zip_Some; done|]. cbn [fst snd] in Hmeta.
  apply orb_false_iff in Hmeta as [Hr%negb_false_iff%String.eqb_eq Hk%negb_false_iff%String.eqb_eq].
  rewrite Forall_lookup in Hrefs. apply Hrefs in Hs as (Hrole & Hkind & _).
  split; cbn; [rewrite Hr|rewrite Hk]; by apply identifier_nul_free.
Qed.

(** Verification succeeds only for exactly the references of the write. *)
Lemma verify_ok write db o :
  purchase_wf db -> Forall storable (ow_References write) -> NoDup (write_keys write) ->
  observations db !! obs_ID (ow_Observation write) = Some o ->
  ss_application (or_snapshot o) = obs_ApplicationID (ow_Observation write) ->
  verifyObservationReferences write db = (Ok tt, db) ->
  forall c, has_link db (obs_ID (ow_Observation write)) c <-> In c (write_columns write).
Proof.
  intros Hwf Hst Hnd Ho Ha H. unfold verifyObservationReferences in H.
  rewrite collect_identities in H; [|apply List.Forall_forall; intros c Hc%linked_references_In;
    destruct Hc as (r & Hr & _); exact (proj1 (proj2 (pw_reference _ Hwf _ _ Hr)))].
  cbv zeta in H. set (ids := linked_references _ _) in H. set (existing := list_to_set _) in H.
  injection H as H. destruct (Nat.eqb _ _) eqn:Hsize in H; [|done]. destruct (forallb _ _) eqn:Hall in H; [|done]. clear H.
  apply Nat.eqb_eq in Hsize.
  assert (Hex : forall k, k ∈ existing <-> exists c, In c ids /\ identity_key (identity_of c) = k).
  { intros k. unfold existing. rewrite elem_of_list_to_set, list_elem_of_In, map_map, in_map_iff. naive_solver. }
  assert (Hplain : forall c, In c ids -> plain_identity (identity_of c)).
  { intros c (r & Hr & _)%linked_references_In. exact (proj2 (proj2 (pw_reference _ Hwf _ _ Hr))). }
  assert (Happ : forall c, In c ids -> c.1.1.1 = obs_ApplicationID (ow_Observation write)).
  { intros c (r & Hr & Hl)%linked_references_In. apply (pw_link _ Hwf) in Hl as ((o' & Ho' & Heq) & _).
    rewrite <- Heq. congruence. }
  assert (Hkey : forall c r, In c ids -> In r (ow_References write) -> identity_key (identity_of c) = identity_key (reference_identity r) ->
    c = columns_of (obs_ApplicationID (ow_Observation write)) (reference_identity r)).
  { intros c r Hc Hr Heq. rewrite List.Forall_forall in Hst. apply identity_key_inj in Heq; [|by apply Hplain|by apply Hst].
    rewrite <- (Happ c Hc), <- Heq. by destruct c as [[[? ?] ?] ?]. }
  assert (Hsub : list_to_set (write_keys write) ⊆ existing).
  { intros k Hk%elem_of_list_to_set%list_elem_of_In. unfold write_keys in Hk. apply in_map_iff in Hk as (r & <- & Hr).
    rewrite forallb_forall in Hall. by apply Hall, bool_decide_eq_true in Hr. }
  assert (Heq : existing = list_to_set (write_keys write)).
  { symmetry. apply leibniz_equiv, set_subseteq_size_equiv; [done|]. rewrite size_list_to_set by done.
    unfold write_keys. rewrite length_map. lia. }
  intros c. rewrite <- linked_references_In. unfold write_columns. rewrite in_map_iff. split.
  - intros Hc. assert (Hk : identity_key (identity_of c) ∈ existing) by (apply Hex; by exists c).
    rewrite Heq in Hk. apply elem_of_list_to_set, list_elem_of_In, in_map_iff in Hk as (r & Hk & Hr).
    exists r. split; [|done]. symmetry. by apply Hkey.
  - intros (r & <- & Hr). assert (Hk : identity_key (reference_identity r) ∈ existing).
    { rewrite forallb_forall in Hall. by apply Hall, bool_decide_eq_true in Hr. }
    apply Hex in Hk as (c & Hc & Hk). by rewrite <- (Hkey c r Hc Hr Hk).
Qed.

(** What saving an observation leaves. *)
Record observation_saved (write : ObservationWrite) (members : list string) (id : ObservationID) (db db' : purchase_db) : Prop := {
  os_wf : purchase_wf db';
  os_grows : purchase_grows db db';
  os_period : row_period_valid (snapshot_of write) = true;
  os_row : exists row, observations db' !! id = Some row /\ or_snapshot row = snapshot_of write /\
    In (or_customer row) members /\ normalizeTime (obs_ObservedAt (ow_Observation write)) <= or_observedAt row /\
    (obs_Price (ow_Observation write) = None \/ or_price row = obs_Price (ow_Observation write));
  os_links : forall c, has_link db' id c <-> In c (write_columns write);
  os_others : forall o, o <> id -> observations db' !! o = observations db !! o
}.

Lemma sighted_wf write price db row :
  purchase_wf db -> observations db !! obs_ID (ow_Observation write) = Some row ->
  purchase_wf (with_observations <[obs_ID (ow_Observation write) := sighted write row price]> db).
Proof.
  intros Hwf Hrow. constructor; cbn; try apply Hwf; intros *.
  - intros [[<- <-]|[_ H]]%lookup_insert_Some; [by eapply (pw_observation _ Hwf _ _ Hrow)|by eapply (pw_observation _ Hwf)].
  - intros H. apply (pw_link _ Hwf) in H as ((r & Hr & ?) & ?). split; [|done].
    destruct (decide (o = obs_ID (ow_Observation write))) as [->|Hne].
    + rewrite Hrow in Hr. injection Hr as <-. eexists. by rewrite lookup_insert_eq.
    + exists r. by rewrite lookup_insert_ne.
Qed.

Section Saved.
Context (now : time) (write : ObservationWrite) (members : list string) (e : evidence_row) (db : purchase_db).
Context (Hwf : purchase_wf db) (Hst : Forall storable (ow_References write)) (Hnd : NoDup (write_keys write)).
Context (Hscope : in_scope write members e db).

Abbreviation id := (chosen_id write members db).
Abbreviation write' := (with_id write id).

Lemma save_new db' :
  observations db !! id = None -> row_period_valid (snapshot_of write) = true ->
  observation_references (with_customer write' (ev_customer e)) db = true ->
  tx_each (link_reference write') (ow_References write)
    (with_observations <[id := observation_row_of now (with_customer write' (ev_customer e))]> db) = (Ok tt, db') ->
  observation_saved write members id db db'.
Proof.
  intros Hno Hper Hrefs H. set (row := observation_row_of now (with_customer write' (ev_customer e))) in *.
  set (db1 := with_observations <[id := row]> db) in *.
  assert (Hw1 : purchase_wf db1) by by apply (insert_observation_wf now (with_customer write' (ev_customer e))).
  assert (Hrow : observations db1 !! id = Some row) by (cbn; by rewrite lookup_insert_eq).
  apply (link_references_keep write' _ _ _ row Hw1 Hst Hrow eq_refl) in H. destruct H as [Hw Hcat Hev Hart Hobs Hsub Hoth Hlinks].
  constructor; try done.
  - constructor; [done|by rewrite Hev|by rewrite Hart|done| |].
    + intros o r Hr. exists r. split; [|done]. rewrite Hobs. by apply kept_after.
    + intros o i [r Hr]. rewrite Hoth; [done|]. intros ->. cbn in Hr. congruence.
  - exists row. rewrite Hobs. split_and!; [done..|by apply Hscope|cbn; lia|by right].
  - intros c. change (obs_ID (ow_Observation write')) with id in Hlinks. rewrite Hlinks.
    assert (Hnone : ~ has_link db1 id c).
    { intros (r & Hr & Hl). apply (pw_link _ Hwf) in Hl as ((r' & Hr' & _) & _). congruence. }
    unfold write_columns. tauto.
  - intros o Hne. rewrite Hobs. cbn. by rewrite lookup_insert_ne.
Qed.

Lemma save_known db' :
  row_period_valid (snapshot_of write) = true ->
  confirm_observation write' members db = (Ok tt, db') -> observation_saved write members id db db'.
Proof.
  intros Hper H. apply confirm_ok in H as (row & Hrow & Hc & Hs & Hp & -> & Hver). cbn [obs_ID ow_Observation with_id] in Hrow.
  set (db' := with_observations _ db) in *.
  assert (Hw : purchase_wf db') by by apply sighted_wf.
  assert (Hrow' : observations db' !! id = Some (sighted write' row (priced write' row))) by (cbn; by rewrite lookup_insert_eq).
  assert (Hres : resighted row (sighted write' row (priced write' row))).
  { constructor; try done; cbn; [lia|]. unfold priced. destruct (or_price row); [by left|by right]. }
  constructor; try done.
  - constructor; try done. intros o r Hr. cbn. destruct (decide (o = id)) as [->|Hne].
    + rewrite lookup_insert_eq. rewrite Hrow in Hr. injection Hr as <-. by eexists.
    + rewrite lookup_insert_ne by done. by exists r.
  - eexists. split; [exact Hrow'|]. cbn. split_and!; [done|done|lia|done].
  - exact (verify_ok write' db' _ Hw Hst Hnd Hrow' (f_equal ss_application Hs) Hver).
  - intros o Hne. cbn. by rewrite lookup_insert_ne.
Qed.

Lemma saved_ok db' : insert_or_confirm now write members e db = (Ok tt, db') -> observation_saved write members id db db'.
Proof.
  unfold insert_or_confirm. cbv zeta. intros (inserted & db1 & H1 & H)%tx_bind_ok.
  unfold insertObservation in H1. cbv zeta in H1.
  change (snapshot_of (with_customer write' (ev_customer e))) with (snapshot_of write) in H1.
  change (obs_ID (ow_Observation (with_customer write' (ev_customer e)))) with id in H1.
  destruct (row_period_valid (snapshot_of write)) eqn:Hper; [|done]. cbn [negb] in H1.
  destruct (observations db !! id) as [row|] eqn:Eo.
  - injection H1 as <- <-. by apply save_known.
  - destruct (observation_references _ db) eqn:Er in H1; [|done]. injection H1 as <- <-. by apply save_new.
Qed.
End Saved.

(** ** Looking references up *)

#[export] Instance newer_observation_swo : StrictWeakOrder newer_observation.
Proof.
  split.
  - intros a b. unfold newer_observation. pose proof (str_ltb_asym b.1 a.1) as Hs.
    destruct (String.ltb b.1 a.1), (String.ltb a.1 b.1); try (specialize (Hs eq_refl)); lia.
  - intros a b c. unfold newer_observation. pose proof (str_ltb_negtrans c.1 b.1 a.1) as Hs.
    destruct (String.ltb c.1 b.1), (String.ltb b.1 a.1), (String.ltb c.1 a.1);
      try (specialize (Hs eq_refl eq_refl)); lia.
Qed.

Lemma latest_some l x : latest l = Some x -> In x l /\ forall y, In y l -> newer_observation y x = false.
Proof. intros H. by destruct (keep_better_fold newer_observation l None x H) as ([?|Hin] & Hbest & _). Qed.

Lemma latest_none l : latest l = None -> l = [].
Proof.
  destruct l as [|x l]; [done|]. intros H. exfalso. revert H. apply (keep_better_some newer_observation). by left.
Qed.

Lemma referenced_In lookup db o r :
  In (o, r) (referenced lookup db) <->
  observations db !! o = Some r /\ ss_application (or_snapshot r) = prl_ApplicationID lookup /\
  ss_project (or_snapshot r) = prl_ProjectID lookup /\
  has_link db o (prl_ApplicationID lookup, prl_Role lookup, prl_Kind lookup, prl_Fingerprint lookup).
Proof.
  unfold referenced, has_link. destruct (references db !! _) as [ref|]; [|naive_solver].
  rewrite filter_In, <- list_elem_of_In, elem_of_map_to_list. cbn [fst snd].
  rewrite !andb_true_iff, !String.eqb_eq, bool_decide_eq_true. naive_solver.
Qed.

(** In well-formed tables every observation has its customer. *)
Lemma observation_customer_some db o r :
  purchase_wf db -> observations db !! o = Some r ->
  exists c, observation_customer r db = Some c /\ customers (pur_identity db) !! or_customer r = Some c /\
            cu_project c = ss_project (or_snapshot r).
Proof.
  intros Hwf Hr. apply (pw_observation _ Hwf) in Hr as ((e & He & _ & Hp & Hc) & _).
  apply (pw_evidence _ Hwf) in He as (_ & _ & Hcu). unfold customer_in in Hcu. rewrite Hc, Hp in Hcu.
  unfold observation_customer. destruct (customers (pur_identity db) !! or_customer r) as [c|]; [|done].
  rewrite Hcu. exists c. split_and!; [done|done|]. by apply String.eqb_eq.
Qed.

Definition context_of (r : observation_row) (c : customer_row) : PurchaseReferenceContext :=
  mkPurchaseContext (mkCustomer (or_customer r) (cu_project c) (cu_external c))
    (ss_providerProduct (or_snapshot r)) (ss_productKind (or_snapshot r)).

Lemma context_valid db o r c :
  purchase_wf db -> observations db !! o = Some r -> customers (pur_identity db) !! or_customer r = Some c ->
  PurchaseReferenceContext_Validate (context_of r c) = None.
Proof.
  intros Hwf Hr Hc. apply (pw_observation _ Hwf) in Hr as (_ & Hs & Hp & _).
  apply (cw_mapping _ (pw_catalog _ Hwf)) in Hs as (Hm & _). apply (cw_product _ (pw_catalog _ Hwf)) in Hp as (_ & _ & Hk & _).
  apply errors_Join_nil. unfold StoreProduct_Validate in Hm. rewrite errors_Join_nil, !Forall_cons in Hm.
  repeat constructor; [by apply (iw_valid _ (pw_identity _ Hwf))|apply Hm|done].
Qed.

(** The lookup finds the newest linked observation. *)
Lemma lookup_context lookup db :
  purchase_wf db -> ProviderReferenceLookup_Validate lookup = None ->
  match latest (referenced lookup db) with
  | Some (o, r) => exists c, customers (pur_identity db) !! or_customer r = Some c /\
      pg_PurchaseContextByReference lookup db = (Ok (context_of r c), db)
  | None => exists e, missing e /\ pg_PurchaseContextByReference lookup db = (Err e, db)
  end.
Proof.
  intros Hwf Hv. unfold pg_PurchaseContextByReference. rewrite Hv. cbn [tx_check].
  rewrite filter_true_all.
  - destruct (latest (referenced lookup db)) as [[o r]|] eqn:El; [|eexists; split; [|reflexivity]; reflexivity].
    apply latest_some in El as [Hin _]. apply referenced_In in Hin as (Hr & _).
    destruct (observation_customer_some _ _ _ Hwf Hr) as (c & Hj & Hc & Hp). exists c. split; [done|]. rewrite Hj. cbn [default id].
    cbv zeta. change (mkPurchaseContext _ _ _) with (context_of r c). by rewrite (context_valid _ _ _ _ Hwf Hr Hc).
  - intros [o r] (Hr & _)%referenced_In. apply bool_decide_eq_true.
    destruct (observation_customer_some _ _ _ Hwf Hr) as (c & Hj & _). by exists c.
Qed.

(** ** Sequences of calls *)

Inductive purchase_call : Type :=
| CallEvidence (write : EvidenceWrite)
| CallArtifact (write : ArtifactWrite)
| CallObservation (now : time) (write : ObservationWrite).

Definition run_purchase (call : purchase_call) : Tx purchase_db unit :=
  match call with
  | CallEvidence write => do _ <- pg_SaveEvidence write; tx_ret tt
  | CallArtifact write => pg_SaveArtifact write
  | CallObservation now write => pg_SaveObservation now write
  end.

(** Fingerprints are arrays of 32 bytes and the references of a write are distinct. *)
Definition proper_write (write : ObservationWrite) : Prop :=
  fixed_fingerprints write /\ NoDup (write_keys write).

Definition proper_call (call : purchase_call) : Prop :=
  match call with CallObservation _ write => proper_write write | _ => True end.

(** Each call in a transaction of its own; an error rolls it back. *)
Fixpoint run_purchases (calls : list purchase_call) (db : purchase_db) : purchase_db :=
  match calls with
  | [] => db
  | call :: calls =>
      run_purchases calls (match run_purchase call db with (Ok _, db') => db' | (Err _, _) => db end)
  end.

(** Saving an observation, in the terms of its scope. *)
Lemma SaveObservation_saved now write db db' :
  purchase_wf db -> proper_write write -> pg_SaveObservation now write db = (Ok tt, db') ->
  exists members e, in_scope write members e db /\ observation_saved write members (chosen_id write members db) db db'.
Proof.
  intros Hwf [Hfix Hnd] H. destruct (save_scoped _ _ _ _ H) as (members & e & Hsc). exists members, e. split; [done|].
  rewrite (save_in_scope _ _ _ _ _ Hsc) in H. apply saved_ok in H; try done.
  apply write_storable; [by destruct Hsc|done].
Qed.

Lemma run_purchase_keeps call db db' :
  purchase_wf db -> proper_call call -> run_purchase call db = (Ok tt, db') -> purchase_wf db' /\ purchase_grows db db'.
Proof.
  intros Hwf Hp. destruct call as [write|write|now write]; cbn [run_purchase].
  - intros (i & db1 & H & [_ <-]%tx_ret_ok)%tx_bind_ok. apply SaveEvidence_keeps in H; tauto.
  - intros H. apply SaveArtifact_keeps in H; tauto.
  - intros H. apply SaveObservation_saved in H as (members & e & _ & []); done.
Qed.

Lemma run_purchases_keep calls db :
  purchase_wf db -> Forall proper_call calls -> purchase_wf (run_purchases calls db) /\ purchase_grows db (run_purchases calls db).
Proof.
  induction calls as [|call calls IH] in db |- *; intros Hwf Hp; [done|]. apply Forall_cons in Hp as [Hc Hp]. cbn [run_purchases].
  destruct (run_purchase call db) as [[[]|e] db1] eqn:E; [|by apply IH].
  apply run_purchase_keeps in E as [Hw Hg]; [|done..]. destruct (IH db1 Hw Hp). split; [done|by etrans].
Qed.

(** The same write is stored under the same id again. *)
Lemma chosen_again write members db db' :
  observation_saved write members (chosen_id write members db) db db' ->
  chosen_id write members db' = chosen_id write members db.
Proof.
  intros [_ _ _ (row & Hrow & Hs & Hc & _ & Hp) _ Hoth]. unfold chosen_id in *.
  destruct (String.eqb _ _ || String.eqb _ _) eqn:Eb; [done|]. apply orb_false_iff in Eb as [_ Hne%String.eqb_neq].
  set (prior := obs_PriorSnapshotID (ow_Observation write)) in *.
  destruct (matches_total (with_id write prior) members db) as [b Hb].
  destruct (matches_total (with_id write prior) members db') as [b' Hb']. rewrite Hb, Hb'. rewrite Hb in Hrow, Hoth. cbn [fst] in *.
  destruct b.
  - assert (b' = true) as ->; [|done].
    assert (Hm : (observationMatches (with_id write prior) members db').1 = Ok true) by (apply observationMatches_true; by exists row).
    rewrite Hb' in Hm. by injection Hm.
  - assert (b' = false) as ->; [|done]. unfold observationMatches in Hb, Hb'. cbn [obs_ID ow_Observation with_id] in Hb, Hb'.
    rewrite Hoth in Hb' by done. injection Hb as Hb. injection Hb' as Hb'. congruence.
Qed.

(** Confirming what is stored changes nothing. *)
Lemma confirm_same write members db row :
  purchase_wf db -> NoDup (write_keys write) ->
  observations db !! obs_ID (ow_Observation write) = Some row -> or_snapshot row = snapshot_of write ->
  In (or_customer row) members -> normalizeTime (obs_ObservedAt (ow_Observation write)) <= or_observedAt row ->
  (obs_Price (ow_Observation write) = None \/ or_price row = obs_Price (ow_Observation write)) ->
  (forall c, has_link db (obs_ID (ow_Observation write)) c <-> In c (write_columns write)) ->
  confirm_observation write members db = (Ok tt, db).
Proof.
  intros Hwf Hnd Hrow Hs Hc Ht Hp Hl.
  assert (Hprice : priced write row = or_price row).
  { unfold priced. destruct (or_price row) as [p|]; [done|]. by destruct Hp. }
  rewrite (confirm_eq _ _ _ _ Hrow Hc Hs) by (rewrite Hprice; tauto).
  assert (sighted write row (priced write row) = row) as ->.
  { rewrite Hprice. unfold sighted. rewrite Z.max_l by done. by destruct row. }
  replace (with_observations _ db) with db; [by apply verify_linked|].
  unfold with_observations. rewrite insert_id by done. by destruct db.
Qed.

(** ** Properties *)

(** C17. Purchase history is append-only: any sequence of saves, each in a transaction of
    its own, keeps the tables consistent (every observation has evidence of its own
    application, project and customer, a mapped product of its kind, a period that ends
    after it starts, and links to references of its application only), and loses
    nothing that was stored; an observation that was there keeps its snapshot, its
    customer, its evidence and exactly its references, its sighting never moves back,
    and a price is only added. *)
Theorem purchases_append_only calls db :
  purchase_wf db -> Forall proper_call calls ->
  purchase_wf (run_purchases calls db) /\ purchase_grows db (run_purchases calls db) /\
  forall o r c, observations db !! o = Some r -> has_link (run_purchases calls db) o c <-> has_link db o c.
Proof.
  intros Hwf Hp. destruct (run_purchases_keep calls db Hwf Hp) as [Hw Hg]. split_and!; [done..|].
  intros o r c Hr. apply has_link_grows; [done..|by destruct Hg|]. intros i. destruct Hg as [_ _ _ _ _ Hlinks]. apply Hlinks. by exists r.
Qed.

(** Saving an observation is idempotent: when it succeeded, saving the same write
    again, in a later transaction, succeeds and changes nothing at all, whether it was
    new, kept under its prior id, given its price, or already there. *)
Theorem saving_twice now now' write db db' :
  purchase_wf db -> proper_write write -> pg_SaveObservation now write db = (Ok tt, db') ->
  pg_SaveObservation now' write db' = (Ok tt, db').
Proof.
  intros Hwf Hp H. destruct (SaveObservation_saved _ _ _ _ Hwf Hp H) as (members & e & Hsc & Hsaved).
  pose proof (chosen_again _ _ _ _ Hsaved) as Hid. destruct Hsaved as [Hw Hg Hper (row & Hrow & Hs & Hc & Ht & Hpr) Hl _].
  assert (Hsc' : in_scope write members e db').
  { destruct Hsc, Hg. constructor; try done.
    - unfold pur_identity. by rewrite pg_catalog0.
    - by eapply lookup_weaken. }
  rewrite (save_in_scope now' _ _ _ _ Hsc'). unfold insert_or_confirm. cbv zeta. rewrite Hid.
  set (id := chosen_id write members db) in *.
  unfold tx_bind at 1, insertObservation. cbv zeta.
  change (snapshot_of (with_customer (with_id write id) (ev_customer e))) with (snapshot_of write).
  change (obs_ID (ow_Observation (with_customer (with_id write id) (ev_customer e)))) with id.
  rewrite Hper, Hrow. cbn [negb]. by apply (confirm_same (with_id write id) members db' row Hw (proj2 Hp)).
Qed.

(** A saved purchase is found again: after an observation was saved, looking up any
    of its references answers with the customer and product of the newest observation
    the reference is linked to, which is at least as new as the one saved; the answer
    is of well-formed identities and the lookup changes nothing. *)
Theorem saved_reference_found now write db db' reference :
  purchase_wf db -> proper_write write -> pg_SaveObservation now write db = (Ok tt, db') ->
  In reference (ow_References write) ->
  let lookup := mkLookup (ow_ProjectID write) (obs_ApplicationID (ow_Observation write)) (pr_Role reference)
                  (pr_Kind reference) (Fingerprint (pr_Value reference)) in
  ProviderReferenceLookup_Validate lookup = None ->
  exists o row customer, In (o, row) (referenced lookup db') /\
    (forall other, In other (referenced lookup db') -> newer_observation other (o, row) = false) /\
    normalizeTime (obs_ObservedAt (ow_Observation write)) <= or_observedAt row /\
    customers (pur_identity db') !! or_customer row = Some customer /\
    PurchaseReferenceContext_Validate (context_of row customer) = None /\
    pg_PurchaseContextByReference lookup db' = (Ok (context_of row customer), db').
Proof.
  intros Hwf Hp H Hin lookup Hv. destruct (SaveObservation_saved _ _ _ _ Hwf Hp H) as (members & e & _ & Hsaved).
  destruct Hsaved as [Hw _ _ (row & Hrow & Hs & _ & Ht & _) Hl _].
  assert (Href : In (chosen_id write members db, row) (referenced lookup db')).
  { apply referenced_In. rewrite Hs. split_and!; [done..|]. apply Hl. unfold write_columns. apply in_map_iff. by exists reference. }
  pose proof (lookup_context lookup db' Hw Hv) as Hlook.
  destruct (latest (referenced lookup db')) as [[o r]|] eqn:El; [|apply latest_none in El; by rewrite El in Href].
  destruct Hlook as (c & Hc & Hr). apply latest_some in El as [Hin' Hbest]. exists o, r, c.
  pose proof (proj1 (referenced_In _ _ _ _) Hin') as (Hrow' & _).
  split_and!; [done..| |done|by eapply context_valid|done].
  specialize (Hbest _ Href). unfold newer_observation in Hbest. cbn [fst snd] in Hbest. lia.
Qed.

(** ** Witnesses *)

Lemma identity_wf_tables i j :
  customers j = customers i -> aliases j = aliases i -> merges j = merges i -> identity_wf i -> identity_wf j.
Proof. destruct i, j; cbn. intros -> -> -> []. by constructor. Qed.

(** A shop with customers, where [c2] was merged into [c1]. *)
Definition shop_base : catalog_db := mkCatalogDb demo_db ∅ ∅ ∅ ∅ ∅.
Definition shop_tables : catalog_db := (run_catalog_all shop_setup shop_base).2.
Definition shop_db : purchase_db := mkPurchaseDb shop_tables ∅ 1 ∅ ∅ ∅ 1 ∅.

Lemma shop_db_wf : purchase_wf shop_db.
Proof.
  assert (Hb : catalog_wf shop_base) by (constructor; intros *; cbn; rewrite lookup_empty; done).
  assert (Hk : keeps shop_base shop_tables).
  { apply (run_catalog_all_keeps shop_setup); [done|]. vm_compute. reflexivity. }
  destruct Hk as [Hw Hg]. constructor; cbn [evidence artifacts observations references reference_links shop_db];
    try (intros *; rewrite lookup_empty; done); [done| |done].
  destruct Hg. by apply (identity_wf_tables demo_db); [..|apply demo_db_wf].
Qed.

Definition shop_fingerprint (n : Z) : string := of_bytes (replicate 31 0 ++ [n]).
Definition shop_evidence : EvidenceWrite :=
  mkEvidenceWrite "project-1" "app-1" "c2" "purchase_submission" "application/json"
    (mkProtected "sealed" (shop_fingerprint 1) "key-1") demo_now.
Definition shop_write : ObservationWrite :=
  mkObservationWrite 1 "project-1" "c2" "product-1" sample_observation
    [mkProtectedReference ReferenceTransaction "google_order_id" (mkProtected "sealed" (shop_fingerprint 2) "key-1")].
Definition shop_calls : list purchase_call :=
  [CallEvidence shop_evidence;
   CallArtifact (mkArtifactWrite 1 "provider_response" "application/json" (mkProtected "sealed" (shop_fingerprint 3) "key-1"))].
Definition shop_lookup : ProviderReferenceLookup :=
  mkLookup "project-1" "app-1" ReferenceTransaction "google_order_id" (shop_fingerprint 2).
Definition shop_ready : purchase_db := run_purchases shop_calls shop_db.

Lemma shop_write_proper : proper_write shop_write.
Proof.
  split; [constructor; [reflexivity|constructor]|]. unfold write_keys. cbn [ow_References shop_write map]. apply NoDup_singleton.
Qed.

Lemma shop_ready_wf : purchase_wf shop_ready.
Proof.
  assert (Hp : Forall proper_call shop_calls) by repeat constructor.
  exact (proj1 (run_purchases_keep shop_calls shop_db shop_db_wf Hp)).
Qed.

(** A nanosecond short of two microseconds in the write, equal in the table. *)
Example short_period_refused :
  (pg_SaveObservation demo_now
    (mkObservationWrite 1 "project-1" "c2" "product-1"
       (mkObservation "obs-2" "app-1" (obs_Store sample_observation) "premium_monthly" ProductKindSubscription
          LifecycleActive "SUBSCRIPTION_STATE_ACTIVE" AccessAllowed AccessReasonPurchaseValid OwnershipPurchased 1
          None 1000 2000 (mkPeriod 1000 (Some 1999)) (obs_Renewal sample_observation)
          (obs_References sample_observation) EmptyString)
       (ow_References shop_write)) shop_ready).1
  = Err (Wrapf "%s: %w: PostgreSQL constraint %s"
           [AStr "save purchase observation"; AStr "purchase_observations_period_valid"] ErrConflict).
Proof. vm_compute. reflexivity. Qed.

Lemma shop_write_saved : exists db', pg_SaveObservation demo_now shop_write shop_ready = (Ok tt, db').
Proof. eexists. apply succeeded. vm_compute. reflexivity. Qed.

Lemma saving_twice_witness :
  exists db', pg_SaveObservation demo_now shop_write shop_ready = (Ok tt, db') /\
              pg_SaveObservation (demo_now + Second) shop_write db' = (Ok tt, db').
Proof.
  destruct shop_write_saved as [db' E]. exists db'. split; [exact E|].
  exact (saving_twice demo_now (demo_now + Second) shop_write shop_ready db' shop_ready_wf shop_write_proper E).
Defined.

Lemma purchases_append_only_witness :
  exists db', pg_SaveObservation demo_now shop_write shop_ready = (Ok tt, db') /\
    purchase_wf (run_purchases [CallEvidence shop_evidence; CallObservation demo_now shop_write] db').
Proof.
  destruct shop_write_saved as [db' E]. exists db'. split; [exact E|].
  assert (Hp : Forall proper_call [CallEvidence shop_evidence; CallObservation demo_now shop_write]).
  { constructor; [exact I|]. constructor; [apply shop_write_proper|constructor]. }
  assert (Hw : purchase_wf db').
  { exact (proj1 (run_purchase_keeps (CallObservation demo_now shop_write) _ _ shop_ready_wf shop_write_proper E)). }
  exact (proj1 (purchases_append_only _ _ Hw Hp)).
Defined.

Lemma saved_reference_found_witness :
  exists db' purchase, pg_PurchaseContextByReference shop_lookup db' = (Ok purchase, db').
Proof.
  destruct shop_write_saved as [db' E].
  destruct (saved_reference_found demo_now shop_write shop_ready db' _ shop_ready_wf shop_write_proper E
              (or_introl eq_refl) eq_refl) as (o & row & c & _ & _ & _ & _ & _ & H).
  exists db', (context_of row c). exact H.
Defined.
