(* ===== verification/OperationsStore.v ===== *)
(** API keys and webhook endpoints ([internal/persistence/postgres/operations.go]).

    The tables are finite maps over the catalog's; a call may be refused by a check of
    the table, a unique or a foreign key.  A timestamp column keeps microseconds.
    Row and advisory locks order the transactions that change the same keys: a
    sequence of calls here is the order they got them in.  Failures of a statement
    itself belong to the runner.  ORDER BY is bytewise. *)

From S2P Require Import Prelude GoText GoTime Core Purchase Protection Persistence Stores Network Projector Repository EntitlementStore Verification Webhooks GoHttp QueueStore Identity Catalog.
From stdpp Require Import base list strings gmap sorting.
Local Open Scope Z_scope.

(** ** Contracts *)

(* internal/persistence/contracts.go: APIKeyPage *)
Record APIKeyPage : Type := mkAPIKeyPage {
  akp_Keys : list APIKeySummary;
  akp_NextPageToken : string
}.

(** The key calls of the control-plane transaction. *)
(* internal/persistence/contracts.go:167-178: OperationsRepository *)
Class APIKeyRepository (S : Type) := {
  APIKey : string -> Tx S APIKeyRecord;
  APIKeys : string -> Tx S APIKeyPage;
  PutAPIKey : APIKeyRecord -> Tx S unit;
  RevokeAPIKey : string -> time -> Tx S APIKeySummary
}.

(* internal/persistence/contracts.go: validateHTTPSURL *)
Definition validateHTTPSURL (ParseRequestURI : string -> option request_uri) (value : string) : error :=
  match ParseRequestURI value with
  | None => Some (New "webhook URL must be an absolute HTTPS URL without user information")
  | Some parsed =>
      refuse_if (negb (String.eqb (uri_Scheme parsed) "https") || String.eqb (uri_Host parsed) EmptyString
                 || uri_User parsed)
        (New "webhook URL must be an absolute HTTPS URL without user information")
  end.

(* internal/persistence/contracts.go: WebhookEndpointWrite.Validate *)
Definition WebhookEndpointWrite_Validate ParseRequestURI (write : WebhookEndpointWrite) : error :=
  errors_Join [ProjectID_Validate (ww_ProjectID write); ApplicationID_Validate (ww_ApplicationID write);
               validateHTTPSURL ParseRequestURI (ww_URL write); ProtectedValue_Validate (ww_Secret write);
               validateNonNegative "webhook expected revision" (ww_ExpectedRevision write)].

(* internal/persistence/contracts.go: WebhookEndpointRecord.Validate *)
Definition WebhookEndpointRecord_Validate ParseRequestURI (record : WebhookEndpointRecord) : error :=
  let revisionError := refuse_if (we_Revision record <=? 0) (New "webhook revision must be positive") in
  let revisionError :=
    if negb (IsZero (we_UpdatedAt record)) && negb (IsZero (we_CreatedAt record))
       && Before (we_UpdatedAt record) (we_CreatedAt record)
    then errors_Join [revisionError; Some (New "webhook update time cannot precede creation")]
    else revisionError in
  errors_Join [ProjectID_Validate (we_ProjectID record); ApplicationID_Validate (we_ApplicationID record);
               validateHTTPSURL ParseRequestURI (we_URL record); ProtectedValue_Validate (we_Secret record);
               revisionError;
               validateTime "webhook creation time" (we_CreatedAt record);
               validateTime "webhook update time" (we_UpdatedAt record)].

(** ** Tables *)

Record api_key_row : Type := mkKeyRow {
  ak_role : APIKeyRole;
  ak_project : option ProjectID;
  ak_application : option ApplicationID;
  ak_salt : string;
  ak_hash : string;
  ak_created : time;
  ak_revoked : option time
}.

Record endpoint_row : Type := mkEndpointRow {
  ep_project : ProjectID;
  ep_url : string;
  ep_ciphertext : string;
  ep_fingerprint : string;
  ep_key : string;
  ep_revision : Z;
  ep_created : time;
  ep_updated : time
}.

Record operations_db : Type := mkOperationsDb {
  ops_catalog : catalog_db;
  api_keys : gmap string api_key_row;
  endpoints : gmap ApplicationID endpoint_row
}.

Definition with_keys f (db : operations_db) : operations_db :=
  mkOperationsDb (ops_catalog db) (f (api_keys db)) (endpoints db).
Definition with_endpoints f (db : operations_db) : operations_db :=
  mkOperationsDb (ops_catalog db) (api_keys db) (f (endpoints db)).

(** ** API keys *)

(* internal/persistence/postgres/operations.go: constants *)
Definition apiKeyListLimit : Z := 200.

(* internal/persistence/postgres/errors.go: validateText *)
Definition pg_validateText (name value : string) : error :=
  refuse_if (String.eqb value EmptyString) (Errorf "%s is required" [AStr name]) ;;?
  refuse_if (negb (String.eqb (TrimSpace value) value))
    (Errorf "%s must not have leading or trailing whitespace" [AStr name]).

(** The record of a row, NULL scopes read as empty. *)
Definition key_record (id : string) (row : api_key_row) : APIKeyRecord :=
  mkAPIKeyRecord id (ak_role row) (default EmptyString (ak_project row))
    (default EmptyString (ak_application row)) (ak_salt row) (ak_hash row) (ak_created row).

Definition is_active (row : api_key_row) : bool := match ak_revoked row with None => true | Some _ => false end.

(* internal/persistence/postgres/operations.go: transaction.APIKey *)
Definition pg_APIKey (id : string) : Tx operations_db APIKeyRecord :=
  tx_check (pg_validateText "API key ID" id) (fun db =>
    match api_keys db !! id with
    | Some row =>
        if is_active row then
          let record := key_record id row in
          ((try* refuse_if (negb (len (ak_salt row) =? 16) || negb (len (ak_hash row) =? 32))
                   (New "stored API key verifier has invalid length") in
            try* wrap_err "validate stored API key: %w" [] (APIKeyRecord_Validate record) in
            Ok record), db)
        else sql_error "load API key" ErrNoRows db
    | None => sql_error "load API key" ErrNoRows db
    end).

Definition key_summary (id : string) (row : api_key_row) : APIKeySummary :=
  mkAPIKeySummary id (ak_role row) (default EmptyString (ak_project row))
    (default EmptyString (ak_application row)) (ak_created row) (ak_revoked row).

(* internal/persistence/postgres/operations.go: scanAPIKeySummary *)
Definition scanAPIKeySummary (id : string) (row : api_key_row) : result APIKeySummary :=
  let summary := key_summary id row in
  try* APIKeySummary_Validate summary in Ok summary.

(** ORDER BY created_at DESC, id. *)
Definition key_before (x y : string * api_key_row) : bool :=
  (ak_created y.2 <? ak_created x.2) || ((ak_created x.2 =? ak_created y.2) && string_le x.1 y.1).

(** WHERE created_at < $1 OR (created_at = $1 AND id > $2). *)
Definition key_after (cursor : time * string) (entry : string * api_key_row) : bool :=
  (ak_created entry.2 <? cursor.1) || ((ak_created entry.2 =? cursor.1) && String.ltb cursor.2 entry.1).

(** The rows of a page and one more. *)
Definition key_page_rows (cursor : option (time * string)) (db : operations_db) : list (string * api_key_row) :=
  take (Z.to_nat (apiKeyListLimit + 1))
    (merge_sort (fun x y => Is_true (key_before x y))
       (List.filter (fun entry => match cursor with None => true | Some c => key_after c entry end)
          (map_to_list (api_keys db)))).

(* internal/persistence/postgres/operations.go: transaction.queryAPIKeySummaries *)
Definition queryAPIKeySummaries (rows : list (string * api_key_row)) : result (list APIKeySummary) :=
  wrap_result (fun e => default e (classifyError "scan API key" (Some (OtherError e))))
    (collect (fun _ entry => scanAPIKeySummary entry.1 entry.2) rows).

(* internal/persistence/postgres/operations.go: validateAPIKeyPageToken *)
Definition validateAPIKeyPageToken (pageToken : string) : error :=
  if 200 <? len pageToken then validation_Wrap (Some (New "API key page token is invalid"))
  else validation_Wrap (pg_validateText "API key page token" pageToken).

(** The page of the rows read: one row too many shows that more remain. *)
Definition key_page (summaries : list APIKeySummary) : APIKeyPage :=
  if apiKeyListLimit <? Z.of_nat (length summaries) then
    let keys := take (Z.to_nat apiKeyListLimit) summaries in
    mkAPIKeyPage keys (match last keys with Some s => aks_ID s | None => EmptyString end)
  else mkAPIKeyPage summaries EmptyString.

(** The row a page token names. *)
(* internal/persistence/postgres/operations.go:64-80: transaction.APIKeys *)
Definition key_cursor (pageToken : string) (db : operations_db) : result (option (time * string)) :=
  if String.eqb pageToken EmptyString then Ok None
  else
    try* validateAPIKeyPageToken pageToken in
    match api_keys db !! pageToken with
    | Some row => Ok (Some (ak_created row, pageToken))
    | None => Err (default ErrNotFound (validation_Wrap (Some (New "API key page token is invalid"))))
    end.

(* internal/persistence/postgres/operations.go: transaction.APIKeys *)
Definition pg_APIKeys (pageToken : string) : Tx operations_db APIKeyPage :=
  fun db => ((let* cursor := key_cursor pageToken db in
              let* summaries := queryAPIKeySummaries (key_page_rows cursor db) in
              Ok (key_page summaries)), db).

(** The CHECK constraints of the table. *)
Definition key_row_valid (row : api_key_row) : bool :=
  (String.eqb (ak_role row) "admin" || String.eqb (ak_role row) "application")
  && ((len (ak_salt row) =? 16) && (len (ak_hash row) =? 32))
  && match ak_project row, ak_application row with
     | None, None => String.eqb (ak_role row) "admin"
     | Some _, Some _ => String.eqb (ak_role row) "application"
     | _, _ => false
     end.

(** The foreign key; NULL columns satisfy it. *)
Definition key_references (row : api_key_row) (db : operations_db) : bool :=
  match ak_project row, ak_application row with
  | Some p, Some a => application_in p a (ops_catalog db)
  | _, _ => true
  end.

(* internal/persistence/postgres/operations.go: transaction.PutAPIKey *)
Definition pg_PutAPIKey (record : APIKeyRecord) : Tx operations_db unit :=
  tx_check (APIKeyRecord_Validate record) (fun db =>
    let '(projectID, applicationID) :=
      if String.eqb (akr_Role record) APIKeyRoleApplication
      then (Some (akr_ProjectID record), Some (akr_ApplicationID record)) else (None, None) in
    let row := mkKeyRow (akr_Role record) projectID applicationID (akr_SecretSalt record) (akr_SecretHash record)
                 (normalizeTime (akr_CreatedAt record)) None in
    if negb (key_row_valid row) then sql_error "put API key" (PgError "23514" "api_keys") db
    else if bool_decide (is_Some (api_keys db !! akr_ID record))
    then sql_error "put API key" (PgError "23505" "api_keys_pkey") db
    else if negb (key_references row db) then sql_error "put API key" (PgError "23503" "api_keys_application_fk") db
    else (Ok tt, with_keys <[akr_ID record := row]> db)).

Definition active_administrators (db : operations_db) : Z :=
  Z.of_nat (length (List.filter (fun entry => String.eqb (ak_role entry.2) "admin" && is_active entry.2)
                      (map_to_list (api_keys db)))).

(* internal/persistence/postgres/operations.go: transaction.RevokeAPIKey *)
Definition pg_RevokeAPIKey (id : string) (revokedAt : time) : Tx operations_db APIKeySummary :=
  tx_check (pg_validateText "API key ID" id)
  (tx_check (refuse_if (IsZero revokedAt) (New "API key revocation time is required")) (fun db =>
    match api_keys db !! id with
    | None => sql_error "load API key lifecycle" ErrNoRows db
    | Some row =>
        match scanAPIKeySummary id row with
        | Err e => sql_error "load API key lifecycle" (OtherError e) db
        | Ok summary =>
            match aks_RevokedAt summary with
            | Some _ => (Ok summary, db)
            | None =>
                if String.eqb (aks_Role summary) APIKeyRoleAdmin && (active_administrators db <=? 1)
                then (Err (Wrapf "revoke final administrator API key: %w" [] ErrConflict), db)
                else
                  let db' := with_keys <[id := mkKeyRow (ak_role row) (ak_project row) (ak_application row)
                               (ak_salt row) (ak_hash row) (ak_created row) (Some (normalizeTime revokedAt))]> db in
                  let summary := mkAPIKeySummary (aks_ID summary) (aks_Role summary) (aks_ProjectID summary)
                                   (aks_ApplicationID summary) (aks_CreatedAt summary) (Some revokedAt) in
                  ((try* wrap_err "validate revoked API key: %w" [] (APIKeySummary_Validate summary) in
                    Ok summary), db')
            end
        end
    end)).

#[export] Instance operations_keys : APIKeyRepository operations_db :=
  {| APIKey := pg_APIKey; APIKeys := pg_APIKeys; PutAPIKey := pg_PutAPIKey; RevokeAPIKey := pg_RevokeAPIKey |}.

(** ** Webhook endpoints *)

Section Endpoints.
Context (ParseRequestURI : string -> option request_uri).

Definition endpoint_record (applicationID : ApplicationID) (row : endpoint_row) : WebhookEndpointRecord :=
  mkEndpointRecord (ep_project row) applicationID (ep_url row)
    (mkProtected (ep_ciphertext row) (ep_fingerprint row) (ep_key row))
    (ep_revision row) (ep_created row) (ep_updated row).

(* internal/persistence/postgres/operations.go: transaction.WebhookEndpoint *)
Definition pg_WebhookEndpoint (projectID : ProjectID) (applicationID : ApplicationID)
    : Tx operations_db WebhookEndpointRecord :=
  tx_check (errors_Join [ProjectID_Validate projectID; ApplicationID_Validate applicationID]) (fun db =>
    match endpoints db !! applicationID with
    | Some row =>
        if String.eqb (ep_project row) projectID then
          let record := endpoint_record applicationID row in
          ((try* refuse_if (negb (len (ep_fingerprint row) =? 32)) (New "stored webhook fingerprint has invalid length") in
            try* wrap_err "validate stored webhook endpoint: %w" [] (WebhookEndpointRecord_Validate ParseRequestURI record) in
            Ok record), db)
        else sql_error "load webhook endpoint" ErrNoRows db
    | None => sql_error "load webhook endpoint" ErrNoRows db
    end).

(** [btrim] removes spaces only. *)
Fixpoint drop_spaces (l : list Z) : list Z := match l with 32 :: l' => drop_spaces l' | _ => l end.
Definition btrimmed (s : string) : bool :=
  bool_decide (drop_spaces (bytes s) = bytes s /\ drop_spaces (rev (bytes s)) = rev (bytes s)).

Definition endpoint_row_valid (row : endpoint_row) : bool :=
  negb (String.eqb (ep_url row) EmptyString) && btrimmed (ep_url row)
  && (0 <? len (ep_ciphertext row)) && (len (ep_fingerprint row) =? 32)
  && negb (String.eqb (ep_key row) EmptyString) && btrimmed (ep_key row)
  && (0 <? ep_revision row) && (ep_created row <=? ep_updated row).

(** The row of a write at the transaction's time. *)
Definition endpoint_of (write : WebhookEndpointWrite) (revision : Z) (created updated : time) : endpoint_row :=
  mkEndpointRow (ww_ProjectID write) (ww_URL write) (Ciphertext (ww_Secret write)) (Fingerprint (ww_Secret write))
    (KeyID (ww_Secret write)) revision created updated.

Section Writing.
Context (now : time).

(** [ON CONFLICT (application_id) DO NOTHING]. *)
(* internal/persistence/postgres/operations.go:208-218: transaction.PutWebhookEndpoint *)
Definition create_endpoint (write : WebhookEndpointWrite) : Tx operations_db unit :=
  fun db =>
    let row := endpoint_of write 1 now now in
    if negb (endpoint_row_valid row)
    then sql_error "create webhook endpoint" (PgError "23514" "webhook_endpoints") db
    else match endpoints db !! ww_ApplicationID write with
         | Some _ => (Ok tt, db)
         | None =>
             if negb (application_in (ww_ProjectID write) (ww_ApplicationID write) (ops_catalog db))
             then sql_error "create webhook endpoint" (PgError "23503" "webhook_endpoints_application_fk") db
             else (Ok tt, with_endpoints <[ww_ApplicationID write := row]> db)
         end.

(* internal/persistence/postgres/operations.go:219-233: transaction.PutWebhookEndpoint *)
Definition rotate_endpoint (write : WebhookEndpointWrite) : Tx operations_db unit :=
  fun db =>
    let conflict := Wrapf "rotate webhook endpoint: %w" [] ErrConflict in
    match endpoints db !! ww_ApplicationID write with
    | None => (Err conflict, db)
    | Some row =>
        if negb (String.eqb (ep_project row) (ww_ProjectID write) && (ep_revision row =? ww_ExpectedRevision write))
        then (Err conflict, db)
        else
          let row' := endpoint_of write (ep_revision row + 1) (ep_created row) now in
          if maxInt64 <? ep_revision row + 1 then sql_error "rotate webhook endpoint" (PgError "22003" EmptyString) db
          else if negb (endpoint_row_valid row')
          then sql_error "rotate webhook endpoint" (PgError "23514" "webhook_endpoints") db
          else (Ok tt, with_endpoints <[ww_ApplicationID write := row']> db)
    end.

(* internal/persistence/postgres/operations.go: transaction.PutWebhookEndpoint *)
Definition pg_PutWebhookEndpoint (write : WebhookEndpointWrite) : Tx operations_db WebhookEndpointRecord :=
  tx_check (WebhookEndpointWrite_Validate ParseRequestURI write) (
  do _ <- (if ww_ExpectedRevision write =? 0 then create_endpoint write else rotate_endpoint write);
  do record <- pg_WebhookEndpoint (ww_ProjectID write) (ww_ApplicationID write);
  if (ww_ExpectedRevision write =? 0)
     && (negb (String.eqb (we_URL record) (ww_URL write))
         || negb (String.eqb (Fingerprint (we_Secret record)) (Fingerprint (ww_Secret write))))
  then tx_err (Wrapf "create webhook endpoint: %w" [] ErrConflict) else tx_ret record).
End Writing.
End Endpoints.

#[export] Instance operations_webhooks (ParseRequestURI : string -> option request_uri) (now : time)
    : WebhookRepository operations_db :=
  {| PutWebhookEndpoint := pg_PutWebhookEndpoint ParseRequestURI now;
     WebhookEndpoint := pg_WebhookEndpoint ParseRequestURI |}.

(** ** The life of a key *)

(** A stored key: what the checks of the table and of its record leave. *)
Record key_ok (id : string) (row : api_key_row) : Prop := {
  ko_row : key_row_valid row = true;
  ko_record : APIKeyRecord_Validate (key_record id row) = None;
  ko_created : normalizeTime (ak_created row) = ak_created row;
  ko_revoked : forall t, ak_revoked row = Some t -> t <> 0 /\ ak_created row <= t
}.

Definition keys_wf (db : operations_db) : Prop := forall id row, api_keys db !! id = Some row -> key_ok id row.

Lemma summary_valid id row : key_ok id row -> APIKeySummary_Validate (key_summary id row) = None.
Proof.
  intros [_ Hrec _ Hrev]. unfold APIKeyRecord_Validate, APIKeySummary_Validate, key_summary, key_record in *. cbn in *.
  err_simpl in Hrec. destruct Hrec as (H1 & H2 & _ & H3 & _). err_simpl. split_and!; try done.
  destruct (ak_revoked row) as [t|]; [|done]. destruct (Hrev t eq_refl) as [Hz Hc].
  unfold IsZero, Before in *. rewrite (proj2 (Z.eqb_neq t 0) Hz), (proj2 (Z.ltb_ge t (ak_created row)) Hc).
  by rewrite andb_false_r.
Qed.

Lemma key_scan_ok id row : key_ok id row -> scanAPIKeySummary id row = Ok (key_summary id row).
Proof. intros H. unfold scanAPIKeySummary. cbv zeta. by rewrite (summary_valid _ _ H). Qed.

Lemma key_lengths row : key_row_valid row = true -> len (ak_salt row) = 16 /\ len (ak_hash row) = 32.
Proof. unfold key_row_valid. rewrite !andb_true_iff, !Z.eqb_eq. tauto. Qed.

Lemma record_id_valid record :
  APIKeyRecord_Validate record = None -> pg_validateText "API key ID" (akr_ID record) = None.
Proof. unfold APIKeyRecord_Validate. rewrite errors_Join_nil, !Forall_cons. by intros (H & _). Qed.

(** A key that is active is found, another is not. *)
Lemma APIKey_found id row db :
  keys_wf db -> api_keys db !! id = Some row -> ak_revoked row = None -> pg_APIKey id db = (Ok (key_record id row), db).
Proof.
  intros Hwf Hrow Hact. pose proof (Hwf _ _ Hrow) as [Hv Hrec _ _]. destruct (key_lengths _ Hv) as [Hs Hh].
  unfold pg_APIKey. rewrite (record_id_valid _ Hrec : pg_validateText "API key ID" id = None).
  cbn [tx_check]. rewrite Hrow. unfold is_active. rewrite Hact. cbv zeta. by rewrite Hs, Hh, Hrec.
Qed.

Lemma APIKey_ok id record db db' :
  pg_APIKey id db = (Ok record, db') ->
  db' = db /\ exists row, api_keys db !! id = Some row /\ ak_revoked row = None /\ record = key_record id row /\
    APIKeyRecord_Validate record = None /\ len (ak_hash row) = 32.
Proof.
  unfold pg_APIKey. rewrite tx_check_ok. intros [_ H]. destruct (api_keys db !! id) as [row|]; [|done].
  unfold is_active in H. destruct (ak_revoked row) eqn:Hr; [done|]. cbv zeta in H. injection H as H <-.
  err_simpl in H. destruct H as ([_ Hh] & Hv & [= <-]). split; [done|]. exists row. by split_and!.
Qed.

Lemma APIKey_unknown id db :
  pg_validateText "API key ID" id = None -> (forall row, api_keys db !! id = Some row -> ak_revoked row <> None) ->
  exists e, pg_APIKey id db = (Err e, db) /\ errors_Is e "persistence.ErrNotFound" = true /\
            errors_Is e "postgres.errRetryableTransaction" = false.
Proof.
  intros Hid Hrow. unfold pg_APIKey. rewrite Hid. cbn [tx_check]. destruct (api_keys db !! id) as [row|].
  - specialize (Hrow row eq_refl). unfold is_active. destruct (ak_revoked row); [|done]. by eexists.
  - by eexists.
Qed.

(** A key is only ever revoked. *)
Record key_kept (row row' : api_key_row) : Prop := {
  kk_same : (ak_role row', ak_project row', ak_application row', ak_salt row', ak_hash row', ak_created row')
            = (ak_role row, ak_project row, ak_application row, ak_salt row, ak_hash row, ak_created row);
  kk_revoked : forall t, ak_revoked row = Some t -> ak_revoked row' = Some t
}.

Definition keys_kept (db db' : operations_db) : Prop :=
  forall id row, api_keys db !! id = Some row -> exists row', api_keys db' !! id = Some row' /\ key_kept row row'.

#[export] Instance keys_kept_order : PreOrder keys_kept.
Proof.
  split.
  - intros db id row H. exists row. split; [done|]. by split.
  - intros x y z H1 H2 id row H. destruct (H1 _ _ H) as (r1 & H1' & [Hs1 Hr1]).
    destruct (H2 _ _ H1') as (r2 & H2' & [Hs2 Hr2]). exists r2. split; [done|]. split; [congruence|auto].
Qed.

Definition administrator (db : operations_db) : Prop :=
  exists id row, api_keys db !! id = Some row /\ ak_role row = "admin" /\ ak_revoked row = None.

Lemma PutAPIKey_ok record db db' :
  pg_PutAPIKey record db = (Ok tt, db') ->
  exists row, api_keys db !! akr_ID record = None /\ db' = with_keys <[akr_ID record := row]> db /\
    key_row_valid row = true /\ ak_revoked row = None /\ APIKeyRecord_Validate record = None /\
    key_record (akr_ID record) row =
      mkAPIKeyRecord (akr_ID record) (akr_Role record) (akr_ProjectID record) (akr_ApplicationID record)
        (akr_SecretSalt record) (akr_SecretHash record) (normalizeTime (akr_CreatedAt record)).
Proof.
  unfold pg_PutAPIKey. rewrite tx_check_ok. intros [Hv H].
  destruct (if String.eqb (akr_Role record) APIKeyRoleApplication then _ else _) as [p a] eqn:Epa. cbv zeta in H.
  destruct (key_row_valid _) eqn:Ev in H; [|done].
  destruct (bool_decide _) eqn:Eno in H; [done|]. apply absent in Eno.
  destruct (key_references _ _) in H; [|done]. injection H as <-. eexists. split_and!; [done..|].
  unfold key_record. cbn. pose proof Hv as Hs. unfold APIKeyRecord_Validate in Hs. err_simpl in Hs.
  destruct Hs as (_ & Hs & _). unfold validateAPIKeyScope in Hs.
  destruct (String.eqb_spec (akr_Role record) APIKeyRoleApplication) as [Er|Er]; injection Epa as <- <-; [done|].
  destruct (String.eqb _ APIKeyRoleAdmin); [|done].
  err_simpl in Hs. destruct Hs as [Hp Ha]. by rewrite Hp, Ha.
Qed.

Lemma PutAPIKey_keeps record db db' :
  keys_wf db -> normalizeTime (akr_CreatedAt record) <> 0 -> pg_PutAPIKey record db = (Ok tt, db') ->
  keys_wf db' /\ keys_kept db db' /\ (administrator db -> administrator db') /\ endpoints db' = endpoints db.
Proof.
  intros Hwf Ht (row & Hno & -> & Hrow & Hact & Hv & Hrec)%PutAPIKey_ok. split_and!; [| | |done].
  - intros id r. cbn. intros [[<- <-]|[_ H]]%lookup_insert_Some; [|by apply Hwf]. constructor; [done| | |by rewrite Hact].
    + rewrite Hrec. unfold APIKeyRecord_Validate in *. rewrite errors_Join_nil, !Forall_cons in *. cbn in *.
      destruct Hv as (H1 & H2 & H3 & _). split_and!; try done. unfold validateTime, IsZero.
      by rewrite (proj2 (Z.eqb_neq _ _) Ht).
    + injection Hrec as _ _ _ _ _ ->. unfold normalizeTime. by apply Truncate_idemp.
  - intros id r H. exists r. split; [by apply kept_after|]. by split.
  - intros (id & r & H & Hr). exists id, r. split; [by apply kept_after|done].
Qed.

(** Two active administrators: one is left when the other goes. *)
Lemma another_administrator db id :
  1 < active_administrators db -> exists i row, i <> id /\ api_keys db !! i = Some row /\
    ak_role row = "admin" /\ ak_revoked row = None.
Proof.
  unfold active_administrators. set (l := List.filter _ _). intros Hlen.
  assert (Hnd : NoDup l.*1).
  { apply (NoDup_fmap_2_strong fst).
    - intros [i r] [j s] Hi Hj. apply list_elem_of_In, filter_In in Hi as [Hi _], Hj as [Hj _].
      apply list_elem_of_In, elem_of_map_to_list in Hi, Hj. cbn. intros ->. congruence.
    - apply NoDup_ListNoDup, List.NoDup_filter, NoDup_ListNoDup, NoDup_map_to_list. }
  assert (Hin : forall x, In x l -> api_keys db !! x.1 = Some x.2 /\ ak_role x.2 = "admin" /\ ak_revoked x.2 = None).
  { intros [i r] Hx. apply filter_In in Hx as [Hx Hf]. apply list_elem_of_In, elem_of_map_to_list in Hx.
    rewrite andb_true_iff, String.eqb_eq in Hf. destruct Hf as [Hr Ha]. unfold is_active in Ha. cbn in *.
    by destruct (ak_revoked r). }
  destruct l as [|[i r] [|[j s] l]]; cbn in Hlen; [lia..|].
  destruct (decide (i = id)) as [->|Hi]; [|exists i, r; split; [done|by apply (Hin (i, r)); left]].
  exists j, s. split; [|by apply (Hin (j, s)); right; left].
  intros ->. apply NoDup_cons in Hnd as [Hnd _]. apply Hnd. by left.
Qed.

Lemma Truncate_mono t u : t <= u -> normalizeTime t <= normalizeTime u.
Proof. unfold normalizeTime, Truncate, Microsecond. intros H. Z.to_euclidean_division_equations. lia. Qed.

(** What a revocation that succeeds did. *)
Lemma RevokeAPIKey_ok id t summary db db' :
  pg_RevokeAPIKey id t db = (Ok summary, db') ->
  exists row, api_keys db !! id = Some row /\
  ((db' = db /\ summary = key_summary id row /\ is_Some (ak_revoked row)) \/
   (ak_revoked row = None /\ (ak_role row = "admin" -> 1 < active_administrators db) /\ t <> 0 /\ ak_created row <= t /\
    summary = mkAPIKeySummary id (ak_role row) (default EmptyString (ak_project row))
                (default EmptyString (ak_application row)) (ak_created row) (Some t) /\
    db' = with_keys <[id := mkKeyRow (ak_role row) (ak_project row) (ak_application row)
                               (ak_salt row) (ak_hash row) (ak_created row) (Some (normalizeTime t))]> db)).
Proof.
  unfold pg_RevokeAPIKey. rewrite !tx_check_ok, refuse_if_nil. intros (_ & Hz & H).
  destruct (api_keys db !! id) as [row|]; [|done]. exists row. split; [done|].
  destruct (scanAPIKeySummary id row) as [summary'|e] eqn:Es; [|done].
  unfold scanAPIKeySummary in Es. cbv zeta in Es. apply try_err_ok in Es as [Hv [= <-]]. cbn [aks_RevokedAt key_summary] in H.
  destruct (ak_revoked row) eqn:Hr; [injection H as <- <-; left; by split_and!|].
  destruct (_ && _) eqn:Ea in H; [done|]. cbv zeta in H. injection H as H <-. apply try_err_ok in H as [Hs [= <-]].
  right. unfold IsZero in Hz. apply Z.eqb_neq in Hz. split_and!; try done.
  - intros Hadm. apply andb_false_iff in Ea. cbn in Ea. rewrite Hadm in Ea. destruct Ea as [Ea|Ea]; [done|].
    by apply Z.leb_gt in Ea.
  - apply wrap_err_nil in Hs. unfold APIKeySummary_Validate in Hs, Hv. rewrite errors_Join_nil, !Forall_cons in Hs, Hv.
    destruct Hs as (_ & _ & _ & Hs & _), Hv as (_ & _ & Hc & _). cbn in Hs, Hc. unfold IsZero, Before, validateTime in *.
    rewrite (proj2 (Z.eqb_neq t 0) Hz), refuse_if_nil in Hs. apply refuse_if_nil in Hc. unfold IsZero in Hc.
    rewrite Hc in Hs. cbn in Hs. by apply Z.ltb_ge.
Qed.

Lemma RevokeAPIKey_keeps id t summary db db' :
  keys_wf db -> normalizeTime t <> 0 -> pg_RevokeAPIKey id t db = (Ok summary, db') ->
  keys_wf db' /\ keys_kept db db' /\ (administrator db -> administrator db') /\ endpoints db' = endpoints db.
Proof.
  intros Hwf Hz (row & Hrow & [(-> & _ & _)|(Hr & Hadm & _ & Hc & _ & ->)])%RevokeAPIKey_ok; [done|].
  pose proof (Hwf _ _ Hrow) as [Hv Hrec Hmicro _]. split_and!; [| | |done].
  - intros i r. cbn. intros [[<- <-]|[_ H]]%lookup_insert_Some; [|by apply Hwf]. constructor; [done..|].
    intros u [= <-]. split; [done|]. cbn. rewrite <- Hmicro. by apply Truncate_mono.
  - intros i r H. cbn. destruct (decide (i = id)) as [->|Hi].
    + rewrite lookup_insert_eq. eexists. split; [done|]. simplify_eq. split; [done|]. intros u Hu. congruence.
    + rewrite lookup_insert_ne by done. exists r. split; [done|]. by split.
  - intros (i & r & H & Hr1 & Hr2). destruct (decide (i = id)) as [->|Hi].
    + simplify_eq. destruct (another_administrator db id (Hadm Hr1)) as (j & s & Hj & Hs & ?).
      exists j, s. split; [|done]. cbn. by rewrite lookup_insert_ne.
    + exists i, r. split; [|done]. cbn. by rewrite lookup_insert_ne.
Qed.

(** ** Sequences of calls *)

Inductive key_call : Type :=
| CallPutKey (record : APIKeyRecord)
| CallRevokeKey (id : string) (revokedAt : time).

Definition run_key (call : key_call) : Tx operations_db unit :=
  match call with
  | CallPutKey record => pg_PutAPIKey record
  | CallRevokeKey id revokedAt => do _ <- pg_RevokeAPIKey id revokedAt; tx_ret tt
  end.

(** A clock that shows a year. *)
Definition key_call_clock (call : key_call) : time :=
  match call with CallPutKey record => akr_CreatedAt record | CallRevokeKey _ revokedAt => revokedAt end.

(** Each call in a transaction of its own; an error rolls it back. *)
Definition run_keys (calls : list key_call) (db : operations_db) : operations_db :=
  fold_left (fun db call => Repository.committed (run_key call) db) calls db.

(** What every key call keeps. *)
Definition key_step (db db' : operations_db) : Prop :=
  keys_wf db -> keys_wf db' /\ keys_kept db db' /\ (administrator db -> administrator db') /\ endpoints db' = endpoints db.

#[export] Instance key_step_order : PreOrder key_step.
Proof.
  split; [by intros db|]. intros x y z H1 H2 Hwf. destruct (H1 Hwf) as (Hw1 & Hk1 & Ha1 & He1).
  destruct (H2 Hw1) as (Hw2 & Hk2 & Ha2 & He2). split_and!; [done|by etrans|tauto|congruence].
Qed.

Lemma run_keys_step calls db :
  Forall (fun call => normalizeTime (key_call_clock call) <> 0) calls -> key_step db (run_keys calls db).
Proof.
  unfold run_keys. intros H. revert db. induction H as [|call calls Hc _ IH]; intros db; [done|]. cbn [fold_left].
  etrans; [|apply IH]. apply (committed_rel key_step). intros [] db' Hr Hwf. destruct call; cbn in Hr, Hc.
  - by eapply PutAPIKey_keeps.
  - apply tx_bind_ok in Hr as (summary & db1 & Hr & [_ <-]%tx_ret_ok). by eapply RevokeAPIKey_keeps.
Qed.

(** C23. Whatever keys are created and revoked, in any order and whether or not each call
    succeeds: stored keys stay valid, a key keeps its role, scope and verifier and is only
    ever revoked, a revoked key is never found for authentication again, and once there
    was an active administrator there always is one. *)
Theorem api_keys_lifecycle calls db :
  keys_wf db -> Forall (fun call => normalizeTime (key_call_clock call) <> 0) calls ->
  keys_wf (run_keys calls db) /\ keys_kept db (run_keys calls db) /\
  (administrator db -> administrator (run_keys calls db)) /\
  forall id row, api_keys db !! id = Some row -> ak_revoked row <> None ->
    exists e, pg_APIKey id (run_keys calls db) = (Err e, run_keys calls db) /\ errors_Is e "persistence.ErrNotFound" = true.
Proof.
  intros Hwf Hc. destruct (run_keys_step calls db Hc Hwf) as (Hw & Hk & Ha & _). split_and!; [done..|].
  intros id row Hrow Hrev. destruct (Hk _ _ Hrow) as (row' & Hrow' & [_ Hkeep]).
  destruct (APIKey_unknown id (run_keys calls db)) as (e & He & Hnf & _); [| |by exists e].
  - apply (record_id_valid (key_record id row)). by apply Hwf.
  - intros r Hr. rewrite Hrow' in Hr. injection Hr as <-. destruct (ak_revoked row) as [t|]; [|done].
    by rewrite (Hkeep t eq_refl).
Qed.

(** ** Pages *)

Definition sorted_keys (db : operations_db) : list (string * api_key_row) :=
  merge_sort (fun x y => Is_true (key_before x y)) (map_to_list (api_keys db)).

#[export] Instance key_before_trans : Transitive (fun x y => Is_true (key_before x y)).
Proof.
  intros x y z H1%Is_true_eq_true H2%Is_true_eq_true. apply Is_true_eq_left. unfold key_before in *.
  rewrite !orb_true_iff, !andb_true_iff, !Z.ltb_lt, !Z.eqb_eq in *.
  destruct H1 as [H1|[H1 H1']], H2 as [H2|[H2 H2']]; [left; lia..|]. right. split; [lia|]. by eapply str_leb_trans.
Qed.

#[export] Instance key_before_total : Total (fun x y => Is_true (key_before x y)).
Proof.
  intros x y. unfold key_before. destruct (Z.lt_trichotomy (ak_created x.2) (ak_created y.2)) as [H|[H|H]].
  - right. by rewrite (proj2 (Z.ltb_lt _ _) H).
  - rewrite H, Z.ltb_irrefl, Z.eqb_refl. cbn. destruct (String.leb_total x.1 y.1) as [E|E]; unfold String.leb in E;
      [left|right]; unfold string_le; by apply Is_true_eq_left.
  - left. by rewrite (proj2 (Z.ltb_lt _ _) H).
Qed.

Lemma sorted_keys_perm db : sorted_keys db ≡ₚ map_to_list (api_keys db).
Proof. apply merge_sort_Permutation. Qed.

Lemma sorted_keys_In db i id row : sorted_keys db !! i = Some (id, row) -> api_keys db !! id = Some row.
Proof. intros H%list_elem_of_lookup_2. rewrite sorted_keys_perm in H. by apply elem_of_map_to_list. Qed.

Lemma sorted_keys_sorted db : StronglySorted (fun x y => Is_true (key_before x y)) (sorted_keys db).
Proof. apply StronglySorted_merge_sort; apply _. Qed.

Lemma sorted_keys_unique db i j id r s :
  sorted_keys db !! i = Some (id, r) -> sorted_keys db !! j = Some (id, s) -> i = j.
Proof.
  intros Hi Hj. assert (Hnd : NoDup (sorted_keys db).*1).
  { rewrite sorted_keys_perm. apply NoDup_fst_map_to_list. }
  eapply NoDup_lookup; [exact Hnd| |]; rewrite list_lookup_fmap; [by rewrite Hi|by rewrite Hj].
Qed.

(** Of two different keys the earlier comes after no one. *)
Lemma key_after_spec x y : x.1 <> y.1 -> key_before x y = true -> key_after (ak_created x.2, x.1) y = true /\ key_after (ak_created y.2, y.1) x = false.
Proof.
  unfold key_before, key_after. cbn. intros Hne H. change string_le with String.leb in H.
  rewrite orb_true_iff, andb_true_iff, Z.ltb_lt, Z.eqb_eq in H. rewrite orb_true_iff, orb_false_iff, andb_true_iff, andb_false_iff, Z.ltb_lt, Z.ltb_ge, Z.eqb_eq, Z.eqb_neq.
  rewrite !str_ltb_leb, negb_true_iff, negb_false_iff. split.
  - destruct H as [H|[-> H]]; [by left|]. right. split; [done|]. destruct (String.leb y.1 x.1) eqn:E; [|done].
    exfalso. apply Hne. by apply String.leb_antisym.
  - destruct H as [H|[-> H]]; split; [lia|left; lia|lia|by right].
Qed.

Lemma key_after_self x : key_after (ak_created x.2, x.1) x = false.
Proof.
  unfold key_after. cbn. rewrite Z.ltb_irrefl, str_ltb_leb. destruct (String.leb_total x.1 x.1) as [-> | ->]; by rewrite andb_false_r.
Qed.

(** The page after a key holds the keys that follow it in the order. *)
Lemma key_page_rows_after db k id row :
  sorted_keys db !! k = Some (id, row) ->
  key_page_rows (Some (ak_created row, id)) db = take (Z.to_nat (apiKeyListLimit + 1)) (drop (Datatypes.S k) (sorted_keys db)).
Proof.
  intros Hk. unfold key_page_rows. f_equal. pose proof (sorted_keys_sorted db) as Hs.
  assert (Hsplit : sorted_keys db = take k (sorted_keys db) ++ (id, row) :: drop (Datatypes.S k) (sorted_keys db)) by (symmetry; by apply take_drop_middle).
  assert (Hbef : forall x, In x (take k (sorted_keys db)) -> key_after (ak_created row, id) x = false).
  { intros x Hx%list_elem_of_In. apply list_elem_of_lookup in Hx as [i Hi]. apply lookup_take_Some in Hi as [Hi Hlt].
    apply (key_after_spec x (id, row)).
    - destruct x as [j s]. cbn. intros ->. pose proof (sorted_keys_unique _ _ _ _ _ _ Hi Hk). lia.
    - apply Is_true_eq_true. rewrite Hsplit in Hs. eapply (StronglySorted_app_1_elem_of _ _ _ x (id, row) Hs); [|by left].
      apply list_elem_of_lookup. exists i. by rewrite lookup_take_lt. }
  assert (Haft : forall x, In x (drop (Datatypes.S k) (sorted_keys db)) -> key_after (ak_created row, id) x = true).
  { intros x Hx%list_elem_of_In. apply list_elem_of_lookup in Hx as [i Hi]. rewrite lookup_drop in Hi.
    apply (key_after_spec (id, row) x).
    - destruct x as [j s]. cbn. intros ->. pose proof (sorted_keys_unique _ _ _ _ _ _ Hk Hi). lia.
    - apply Is_true_eq_true. rewrite Hsplit in Hs. apply StronglySorted_app_1_r, StronglySorted_cons in Hs as [Hs _].
      rewrite List.Forall_forall in Hs. apply Hs. apply list_elem_of_In, list_elem_of_lookup. exists i. by rewrite lookup_drop. }
  assert (Hf : List.filter (key_after (ak_created row, id)) (sorted_keys db) = drop (Datatypes.S k) (sorted_keys db)).
  { rewrite Hsplit at 1. rewrite List.filter_app. cbn [List.filter].
    rewrite (key_after_self (id, row) : key_after (ak_created row, id) (id, row) = false).
    rewrite (filter_false_none _ _ Hbef), (filter_true_all _ _ Haft). done. }
  apply (StronglySorted_unique_strong (fun x y => Is_true (key_before x y))).
  - intros x y Hx Hy H1%Is_true_eq_true H2%Is_true_eq_true.
    assert (Hin : y ∈ sorted_keys db) by (rewrite Hsplit; set_solver).
    rewrite merge_sort_Permutation in Hx. apply list_elem_of_In, filter_In in Hx as [Hx _].
    apply list_elem_of_In in Hx. rewrite <- sorted_keys_perm in Hx.
    destruct (decide (x.1 = y.1)) as [He|Hne].
    + destruct x as [i r], y as [j s]. cbn in He. subst j. rewrite sorted_keys_perm in Hx, Hin.
      apply elem_of_map_to_list in Hx, Hin. congruence.
    + destruct (key_after_spec x y Hne H1) as [_ Ha1]. destruct (key_after_spec y x ltac:(done) H2) as [Ha2 _].
      congruence.
  - apply StronglySorted_merge_sort; apply _.
  - rewrite Hsplit in Hs. by apply StronglySorted_app_1_r, StronglySorted_cons in Hs as [_ Hs].
  - rewrite merge_sort_Permutation, <- Hf. apply filter_Permutation'. symmetry. apply sorted_keys_perm.
Qed.

Definition key_entry_summary (entry : string * api_key_row) : APIKeySummary := key_summary entry.1 entry.2.

Lemma collect_scanned rows :
  (forall x, In x rows -> key_ok x.1 x.2) -> queryAPIKeySummaries rows = Ok (map key_entry_summary rows).
Proof.
  intros H. unfold queryAPIKeySummaries, collect. generalize 0%nat.
  assert (Hc : forall i, collectFrom (fun _ entry => scanAPIKeySummary entry.1 entry.2) i rows = Ok (map key_entry_summary rows)).
  { induction rows as [|x rows IH]; intros i; [done|]. cbn [collectFrom map]. rewrite (key_scan_ok x.1 x.2) by (apply H; by left).
    cbn. rewrite IH; [done|]. intros y Hy. apply H. by right. }
  intros i. by rewrite Hc.
Qed.

(** Reading from the [k]th key on, as a page token asks for it. *)
Definition token_at (db : operations_db) (k : nat) (token : string) : Prop :=
  match k with
  | O => token = EmptyString
  | Datatypes.S j => exists row, sorted_keys db !! j = Some (token, row)
  end.

(** Every stored identity can be a page token. *)
Definition keys_short (db : operations_db) : Prop := forall id row, api_keys db !! id = Some row -> len id <= 200.

Lemma sorted_ok db k x : keys_wf db -> In x (drop k (sorted_keys db)) -> key_ok x.1 x.2.
Proof.
  intros Hwf Hx%list_elem_of_In%subseteq_drop. rewrite sorted_keys_perm in Hx. destruct x. by apply Hwf, elem_of_map_to_list.
Qed.

Lemma page_at db k token :
  keys_wf db -> keys_short db -> token_at db k token ->
  pg_APIKeys token db = (Ok (key_page (map key_entry_summary (take (Z.to_nat (apiKeyListLimit + 1)) (drop k (sorted_keys db))))), db).
Proof.
  intros Hwf Hshort Hk. unfold pg_APIKeys. f_equal.
  assert (Hcur : exists cursor, key_cursor token db = Ok cursor /\
            key_page_rows cursor db = take (Z.to_nat (apiKeyListLimit + 1)) (drop k (sorted_keys db))).
  { destruct k as [|j]; cbn in Hk.
    - subst token. exists None. split; [done|]. unfold key_page_rows. by rewrite filter_true_all.
    - destruct Hk as [row Hj]. pose proof (sorted_keys_In _ _ _ _ Hj) as Hrow.
      exists (Some (ak_created row, token)). split; [|by apply key_page_rows_after].
      unfold key_cursor. pose proof (record_id_valid (key_record token row) (ko_record _ _ (Hwf _ _ Hrow))) as Hid. cbn in Hid.
      destruct (String.eqb_spec token EmptyString) as [->|_]; [done|].
      unfold validateAPIKeyPageToken. rewrite (proj2 (Z.ltb_ge 200 (len token)) (Hshort _ _ Hrow)).
      assert (Hval : pg_validateText "API key page token" token = None).
      { revert Hid. unfold pg_validateText. by rewrite !seq_err_nil, !refuse_if_nil. }
      rewrite Hval. cbn. by rewrite Hrow. }
  destruct Hcur as (cursor & -> & Hrows). cbn [bind_result]. rewrite Hrows, collect_scanned; [done|].
  intros x Hx. apply (sorted_ok db k); [done|]. by apply list_elem_of_In, (subseteq_take (Z.to_nat (apiKeyListLimit + 1))), list_elem_of_In.
Qed.

(** Following the page tokens: at most [fuel] pages. *)
Fixpoint follow_pages (fuel : nat) (token : string) (db : operations_db) : result (list APIKeySummary) :=
  match fuel with
  | O => Err (New "more pages")
  | Datatypes.S fuel =>
      let* page := fst (pg_APIKeys token db) in
      if String.eqb (akp_NextPageToken page) EmptyString then Ok (akp_Keys page)
      else let* rest := follow_pages fuel (akp_NextPageToken page) db in Ok (akp_Keys page ++ rest)
  end.

(** Newest first, ties by identity. *)
Definition newest_first (a b : APIKeySummary) : Prop :=
  aks_CreatedAt b < aks_CreatedAt a \/ (aks_CreatedAt a = aks_CreatedAt b /\ String.leb (aks_ID a) (aks_ID b) = true).

Lemma limit_200 : Z.to_nat apiKeyListLimit = 200%nat /\ Z.to_nat (apiKeyListLimit + 1) = 201%nat.
Proof. done. Qed.

(** A last page, and a full page with the token of the next. *)
Lemma key_page_last rows : (length rows <= 200)%nat ->
  key_page (map key_entry_summary (take 201 rows)) = mkAPIKeyPage (map key_entry_summary rows) EmptyString.
Proof.
  intros H. unfold key_page. rewrite take_ge by lia. rewrite length_map.
  by rewrite (proj2 (Z.ltb_ge apiKeyListLimit (Z.of_nat (length rows)))) by (unfold apiKeyListLimit; lia).
Qed.

Lemma key_page_more rows : (200 < length rows)%nat -> exists x, rows !! 199%nat = Some x /\
  key_page (map key_entry_summary (take 201 rows)) = mkAPIKeyPage (map key_entry_summary (take 200 rows)) x.1.
Proof.
  intros H. destruct (rows !! 199%nat) as [x|] eqn:Ex; [|apply lookup_ge_None in Ex; lia]. exists x. split; [done|].
  unfold key_page. rewrite length_map, length_take.
  rewrite (proj2 (Z.ltb_lt apiKeyListLimit (Z.of_nat (Nat.min 201 (length rows))))) by (unfold apiKeyListLimit; lia).
  rewrite (proj1 limit_200), <- firstn_map, take_take, !firstn_map. cbv zeta. change (Nat.min 200 201) with 200%nat.
  assert (Hl : last (map key_entry_summary (take 200 rows)) = Some (key_entry_summary x)).
  { rewrite last_lookup, length_map, length_take, Nat.min_l by lia.
    rewrite list_lookup_fmap, lookup_take_lt by lia. cbn [Nat.pred]. by rewrite Ex. }
  by rewrite Hl.
Qed.

Lemma follow_pages_from db fuel k token :
  keys_wf db -> keys_short db -> token_at db k token -> (length (drop k (sorted_keys db)) < 200 * fuel)%nat ->
  follow_pages fuel token db = Ok (map key_entry_summary (drop k (sorted_keys db))).
Proof.
  intros Hwf Hshort. revert k token. induction fuel as [|fuel IH]; intros k token Htok Hlen; [lia|]. cbn [follow_pages].
  rewrite (page_at db k token Hwf Hshort Htok), (proj2 limit_200). cbn [fst bind_result].
  destruct (decide (length (drop k (sorted_keys db)) <= 200)%nat) as [Hle|Hgt].
  - by rewrite key_page_last.
  - destruct (key_page_more (drop k (sorted_keys db))) as (x & Hx & ->); [lia|]. cbn [akp_NextPageToken akp_Keys].
    rewrite lookup_drop in Hx. destruct x as [id row]. cbn [fst].
    pose proof (record_id_valid _ (ko_record _ _ (Hwf _ _ (sorted_keys_In _ _ _ _ Hx)))) as Hid. cbn in Hid.
    destruct (String.eqb_spec id EmptyString) as [->|_]; [done|].
    rewrite (IH (k + 200)%nat id).
    + cbn [bind_result]. rewrite <- map_app. f_equal. f_equal. rewrite <- drop_drop. apply take_drop.
    + replace (k + 200)%nat with (Datatypes.S (k + 199)) by lia. by exists row.
    + rewrite <- drop_drop, length_drop. lia.
Qed.

Lemma page_bounded token db page db' : pg_APIKeys token db = (Ok page, db') -> db' = db /\ (length (akp_Keys page) <= 200)%nat.
Proof.
  unfold pg_APIKeys. intros [= H <-]. split; [done|]. apply bind_result_ok in H as (cursor & _ & (summaries & _ & [= <-])%bind_result_ok).
  unfold key_page. destruct (Z.ltb_spec apiKeyListLimit (Z.of_nat (length summaries))) as [H|H]; cbn [akp_Keys].
  - rewrite length_take, (proj1 limit_200). lia.
  - unfold apiKeyListLimit in H. lia.
Qed.

(** The key list pages through every key: following the page tokens from the first
    page ends, within one page per 200 keys and one more, and gives each stored key
    exactly once, newest first and then by identity, revoked ones included; no page has
    more than 200 keys and reading changes nothing. *)
Theorem key_pages_enumerate db fuel :
  keys_wf db -> keys_short db -> (size (api_keys db) < 200 * fuel)%nat ->
  (exists keys, follow_pages fuel EmptyString db = Ok keys /\
     keys ≡ₚ map key_entry_summary (map_to_list (api_keys db)) /\ NoDup (map aks_ID keys) /\
     StronglySorted newest_first keys) /\
  forall token page db', pg_APIKeys token db = (Ok page, db') -> db' = db /\ (length (akp_Keys page) <= 200)%nat.
Proof.
  intros Hwf Hshort Hfuel. split; [|intros *; apply page_bounded].
  exists (map key_entry_summary (sorted_keys db)). split_and!.
  - apply (follow_pages_from db fuel 0); [done..|]. rewrite drop_0, (Permutation_length (sorted_keys_perm db)). by rewrite length_map_to_list.
  - by rewrite sorted_keys_perm.
  - rewrite map_map. cbn. change (map (fun x => x.1) (sorted_keys db)) with (sorted_keys db).*1.
    rewrite sorted_keys_perm. apply NoDup_fst_map_to_list.
  - apply (StronglySorted_fmap key_entry_summary (fun x y => Is_true (key_before x y))); [|apply sorted_keys_sorted].
    intros x y H%Is_true_eq_true. unfold key_before in H. unfold newest_first, key_entry_summary, key_summary. cbn.
    by rewrite orb_true_iff, andb_true_iff, Z.ltb_lt, Z.eqb_eq in H.
Qed.

(** ** Webhook revisions *)

Section Revisions.
Context (parse : string -> option request_uri).

Lemma WebhookEndpoint_ok p a db record db' :
  pg_WebhookEndpoint parse p a db = (Ok record, db') ->
  db' = db /\ exists row, endpoints db !! a = Some row /\ ep_project row = p /\ record = endpoint_record a row.
Proof.
  unfold pg_WebhookEndpoint. rewrite tx_check_ok. intros [_ H]. destruct (endpoints db !! a) as [row|]; [|done].
  destruct (String.eqb_spec (ep_project row) p) as [Hp|]; [|done]. cbv zeta in H. injection H as H <-.
  err_simpl in H. destruct H as (_ & _ & [= <-]). split; [done|]. by exists row.
Qed.

Lemma create_ok now write db db' :
  create_endpoint now write db = (Ok tt, db') ->
  (is_Some (endpoints db !! ww_ApplicationID write) /\ db' = db) \/
  (endpoints db !! ww_ApplicationID write = None /\
   db' = with_endpoints <[ww_ApplicationID write := endpoint_of write 1 now now]> db).
Proof.
  unfold create_endpoint. cbv zeta. destruct (negb (endpoint_row_valid _)); [done|].
  destruct (endpoints db !! ww_ApplicationID write) as [row|].
  - intros [= <-]. left. by split.
  - destruct (negb _); [done|]. intros [= <-]. by right.
Qed.

Lemma rotate_ok now write db db' :
  rotate_endpoint now write db = (Ok tt, db') ->
  exists row, endpoints db !! ww_ApplicationID write = Some row /\ ep_project row = ww_ProjectID write /\
    ep_revision row = ww_ExpectedRevision write /\
    db' = with_endpoints <[ww_ApplicationID write := endpoint_of write (ep_revision row + 1) (ep_created row) now]> db.
Proof.
  unfold rotate_endpoint. cbv zeta. destruct (endpoints db !! ww_ApplicationID write) as [row|]; [|done].
  destruct (negb _) eqn:Eg; [done|]. apply negb_false_iff, andb_true_iff in Eg as [Hp Hr].
  apply String.eqb_eq in Hp. apply Z.eqb_eq in Hr. destruct (maxInt64 <? _); [done|].
  destruct (negb _); [done|]. intros [= <-]. by exists row.
Qed.

(** What a configuration that succeeds leaves. *)
Definition configured_endpoint (now : time) (write : WebhookEndpointWrite) (record : WebhookEndpointRecord) (db db' : operations_db) : Prop :=
  let a := ww_ApplicationID write in
  exists row', endpoints db' !! a = Some row' /\ record = endpoint_record a row' /\ ep_project row' = ww_ProjectID write /\
    api_keys db' = api_keys db /\ (forall b, b <> a -> endpoints db' !! b = endpoints db !! b) /\
    if ww_ExpectedRevision write =? 0 then
      ep_url row' = ww_URL write /\ ep_fingerprint row' = Fingerprint (ww_Secret write) /\
      match endpoints db !! a with
      | Some row => row' = row
      | None => row' = endpoint_of write 1 now now
      end
    else exists row, endpoints db !! a = Some row /\ ep_revision row = ww_ExpectedRevision write /\
           row' = endpoint_of write (ww_ExpectedRevision write + 1) (ep_created row) now.

Lemma PutWebhookEndpoint_ok now write db record db' :
  pg_PutWebhookEndpoint parse now write db = (Ok record, db') -> configured_endpoint now write record db db'.
Proof.
  unfold pg_PutWebhookEndpoint, configured_endpoint. cbv zeta. rewrite tx_check_ok.
  intros (_ & ([] & db1 & Hw & (r & db2 & Hr & H)%tx_bind_ok)%tx_bind_ok).
  apply WebhookEndpoint_ok in Hr as (-> & row' & Hrow' & Hp & ->). destruct (_ && _) eqn:Ec in H; [done|].
  apply tx_ret_ok in H as [<- <-]. exists row'. destruct (Z.eqb_spec (ww_ExpectedRevision write) 0) as [E0|E0].
  - cbn in Ec. apply orb_false_iff in Ec as [Hu Hf]. apply negb_false_iff, String.eqb_eq in Hu, Hf. cbn in Hu, Hf.
    apply create_ok in Hw as [[[row Hrow] ->]|[Hno ->]].
    + rewrite Hrow in Hrow'. injection Hrow' as <-. by rewrite Hrow.
    + cbn in Hrow'. rewrite lookup_insert_eq in Hrow'. injection Hrow' as <-. rewrite Hno. cbn. rewrite lookup_insert_eq.
      split_and!; try done. intros b Hb. by rewrite lookup_insert_ne.
  - apply rotate_ok in Hw as (row & Hrow & Hp' & Hrev & ->). cbn in Hrow'. rewrite lookup_insert_eq in Hrow'. injection Hrow' as <-.
    cbn. rewrite lookup_insert_eq. split_and!; try done.
    + intros b Hb. by rewrite lookup_insert_ne.
    + exists row. by rewrite Hrev.
Qed.

(** Each call in a transaction of its own. *)
Definition run_endpoints (calls : list (time * WebhookEndpointWrite)) (db : operations_db) : operations_db :=
  fold_left (fun db call => Repository.committed (pg_PutWebhookEndpoint parse call.1 call.2) db) calls db.

Definition revisions_grow (db db' : operations_db) : Prop :=
  forall a row, endpoints db !! a = Some row -> exists row', endpoints db' !! a = Some row' /\ ep_revision row <= ep_revision row'.

#[export] Instance revisions_grow_order : PreOrder revisions_grow.
Proof.
  split; [intros db a row H; exists row; by split|]. intros x y z H1 H2 a row H.
  destruct (H1 _ _ H) as (r & Hr & ?). destruct (H2 _ _ Hr) as (r' & Hr' & ?). exists r'. split; [done|lia].
Qed.

Lemma PutWebhookEndpoint_grows now write db record db' :
  pg_PutWebhookEndpoint parse now write db = (Ok record, db') -> revisions_grow db db'.
Proof.
  intros (row' & Hrow' & _ & _ & _ & Hother & Hcase)%PutWebhookEndpoint_ok a row Hrow.
  destruct (decide (a = ww_ApplicationID write)) as [->|Ha].
  - exists row'. split; [done|]. destruct (ww_ExpectedRevision write =? 0).
    + destruct Hcase as (_ & _ & Hcase). rewrite Hrow in Hcase. by subst row'.
    + destruct Hcase as (row0 & Hrow0 & Hrev & ->). simplify_eq. cbn. lia.
  - exists row. by rewrite Hother.
Qed.

Lemma run_endpoints_grow calls db : revisions_grow db (run_endpoints calls db).
Proof.
  unfold run_endpoints. revert db. induction calls as [|[now write] calls IH]; intros db; [done|]. cbn [fold_left].
  etrans; [|apply IH]. apply (committed_rel revisions_grow). intros record db'. apply PutWebhookEndpoint_grows.
Qed.

(** Webhook configuration has no lost update: a call that succeeds leaves exactly
    what it asked for, at revision one or one above the revision it named, and changes
    no other endpoint and no key (a creation repeated with the same URL and secret
    answers the stored record); and whatever is configured afterwards, another rotation
    that names the same revision is refused with a conflict and changes nothing. *)
Theorem webhook_no_lost_update now write db record db' calls now' write' :
  pg_PutWebhookEndpoint parse now write db = (Ok record, db') ->
  configured_endpoint now write record db db' /\
  (0 < ww_ExpectedRevision write -> ww_ExpectedRevision write' = ww_ExpectedRevision write ->
   ww_ApplicationID write' = ww_ApplicationID write -> WebhookEndpointWrite_Validate parse write' = None ->
   let later := run_endpoints calls db' in
   exists e, pg_PutWebhookEndpoint parse now' write' later = (Err e, later) /\ errors_Is e "persistence.ErrConflict" = true).
Proof.
  intros H%PutWebhookEndpoint_ok. split; [done|]. intros Hpos Hsame Happ Hv later.
  destruct H as (row' & Hrow' & _ & _ & _ & _ & Hcase). rewrite (proj2 (Z.eqb_neq _ 0)) in Hcase by lia.
  destruct Hcase as (row & _ & _ & ->).
  destruct (run_endpoints_grow calls db' _ _ Hrow') as (r & Hr & Hle). cbn in Hle. fold later in Hr.
  unfold pg_PutWebhookEndpoint. rewrite Hv. cbn [tx_check]. rewrite Hsame, (proj2 (Z.eqb_neq _ 0)) by lia.
  unfold tx_bind at 1, rotate_endpoint. cbv zeta. rewrite Happ, Hr, Hsame, (proj2 (Z.eqb_neq (ep_revision r) _)) by lia.
  rewrite andb_false_r. cbn. by eexists.
Qed.
End Revisions.

(** ** Witnesses *)

Definition no_operations : operations_db := mkOperationsDb shop_catalog ∅ ∅.

Definition demo_key (id : string) (role : APIKeyRole) (p a : string) (created : time) : APIKeyRecord :=
  mkAPIKeyRecord id role p a (of_bytes (replicate 16 7)) (of_bytes (replicate 32 9)) created.

(** An administrator and an application key are created, the first administrator is
    replaced, and nobody can revoke the last one. *)
Definition demo_key_calls : list key_call :=
  [CallPutKey (demo_key "key-1" "admin" EmptyString EmptyString (2 * Second));
   CallPutKey (demo_key "key-2" "application" "project-1" "app-1" (3 * Second));
   CallRevokeKey "key-1" (4 * Second);
   CallPutKey (demo_key "key-3" "admin" EmptyString EmptyString (3 * Second));
   CallRevokeKey "key-1" (5 * Second);
   CallRevokeKey "key-3" (6 * Second);
   CallPutKey (demo_key "key-4" "application" "project-2" "app-1" (6 * Second))]%string.
Definition demo_keys : operations_db := run_keys demo_key_calls no_operations.

Lemma no_operations_wf : keys_wf no_operations.
Proof. intros id row. cbn. by rewrite lookup_empty. Qed.

Lemma demo_clocks : Forall (fun call => normalizeTime (key_call_clock call) <> 0) demo_key_calls.
Proof. by repeat constructor. Qed.

Example demo_keys_left :
  map (fun entry => (entry.1, ak_revoked entry.2)) (sorted_keys demo_keys)
  = [("key-2", None); ("key-3", None); ("key-1", Some (5 * Second))]%string.
Proof. vm_compute. reflexivity. Qed.

Lemma demo_keys_wf : keys_wf demo_keys.
Proof. apply (run_keys_step demo_key_calls no_operations demo_clocks no_operations_wf). Qed.

Lemma api_keys_lifecycle_witness :
  administrator demo_keys /\
  let db := run_keys [CallRevokeKey "key-3" (9 * Second)] demo_keys in
  administrator db /\ exists e, pg_APIKey "key-1" db = (Err e, db).
Proof.
  assert (Ha : administrator demo_keys).
  { exists "key-3"%string. eexists. split; [vm_compute; reflexivity|]. split; reflexivity. }
  split; [exact Ha|]. intros db.
  destruct (api_keys_lifecycle [CallRevokeKey "key-3" (9 * Second)] demo_keys demo_keys_wf
              ltac:(by repeat constructor)) as (_ & _ & Hadm & Hrev).
  split; [exact (Hadm Ha)|]. edestruct (Hrev "key-1"%string) as (e & He & _); [vm_compute; reflexivity|done|].
  by exists e.
Defined.

Lemma key_pages_enumerate_witness : exists keys, follow_pages 1 EmptyString demo_keys = Ok keys /\ length keys = 3%nat.
Proof.
  destruct (key_pages_enumerate demo_keys 1) as [(keys & Hk & Hp & _) _].
  - exact demo_keys_wf.
  - assert (Hall : Forall (fun entry => len entry.1 <= 200) (map_to_list (api_keys demo_keys)))
      by (apply Forall_forall; apply (proj1 (Forall_forall _ _)); vm_compute; repeat constructor; done).
    intros id row Hrow. rewrite Forall_forall in Hall. apply (Hall (id, row)). by apply elem_of_map_to_list.
  - apply Nat.ltb_lt. vm_compute. reflexivity.
  - exists keys. split; [exact Hk|]. rewrite Hp. vm_compute. reflexivity.
Defined.

Definition any_https (s : string) : option request_uri :=
  Some (mkURI "https" "shop.example" false EmptyString "shop.example").
Definition demo_endpoint (revision : Z) (secret : Z) : WebhookEndpointWrite :=
  mkEndpointWrite "project-1" "app-1" "https://shop.example/hook"
    (mkProtected "sealed" (of_bytes (replicate 32 secret)) "key-1") revision.
Definition demo_endpoints : operations_db :=
  run_endpoints any_https [(Second, demo_endpoint 0 1)] demo_keys.

Lemma webhook_no_lost_update_witness :
  exists record db', pg_PutWebhookEndpoint any_https (2 * Second) (demo_endpoint 1 2) demo_endpoints = (Ok record, db') /\
    we_Revision record = 2 /\
    exists e, pg_PutWebhookEndpoint any_https (3 * Second) (demo_endpoint 1 3) db' = (Err e, db').
Proof.
  destruct (pg_PutWebhookEndpoint any_https (2 * Second) (demo_endpoint 1 2) demo_endpoints) as [r db'] eqn:E.
  assert (Hr : exists record, r = Ok record /\ we_Revision record = 2).
  { change r with (r, db').1. rewrite <- E. eexists. split; vm_compute; reflexivity. }
  destruct Hr as (record & -> & Hrev). exists record, db'. split; [done|]. split; [done|].
  destruct (webhook_no_lost_update any_https (2 * Second) (demo_endpoint 1 2) demo_endpoints record db' []
              (3 * Second) (demo_endpoint 1 3) E) as [_ Hstale].
  destruct (Hstale eq_refl eq_refl eq_refl) as (e & He & _); [vm_compute; reflexivity|]. by exists e.
Defined.
