(* ===== verification/Auth.v ===== *)
(** API keys, customer sessions and dashboard sessions ([internal/auth]).

    A bearer is a public identity and a secret of which only a memory-hard verifier is
    stored; a session is a protected payload of claims with an expiry, bound to the key
    that issued it.  Argon2id, the random source, the protection service, the clock's
    readings and the JSON decoding of the payloads are parameters; overwriting secrets
    after use does not change what was computed. *)

From S2P Require Import Prelude GoText GoTime GoJson GoHttp GoCodec Sha256 Core Purchase Protection Persistence Stores Projector Repository EntitlementStore Runner Verification Webhooks QueueStore Identity Catalog OperationsStore.
From stdpp Require Import base list strings gmap.
Local Open Scope Z_scope.

(** ** Constants and data *)

(* internal/auth/service.go: constants *)
Definition bearerPrefix : string := "iap_".
Definition keyIDBytes : Z := 12.
Definition secretBytes : Z := 32.
Definition minimumBootstrapAdminKeyBytes : Z := 32.
Definition argonTime : Z := 2.
Definition argonMemory : Z := 19 * 1024.
Definition argonThreads : Z := 1.
Definition argonOutputBytes : Z := 32.

(* internal/auth/service.go: Principal *)
Record Principal : Type := mkPrincipal {
  pn_KeyID : string;
  pn_Role : APIKeyRole;
  pn_ProjectID : ProjectID;
  pn_ApplicationID : ApplicationID
}.

(* internal/auth/service.go: ErrUnauthorized *)
Definition ErrUnauthorized : gerror := Sentinel "auth.ErrUnauthorized".
(* internal/auth/service.go: ErrCapacity *)
Definition ErrCapacity : gerror := Sentinel "auth.ErrCapacity".

(* internal/auth/service.go: Principal.Validate *)
Definition Principal_Validate (principal : Principal) : error :=
  if String.eqb (pn_Role principal) APIKeyRoleAdmin then
    refuse_if (negb (String.eqb (pn_ProjectID principal) EmptyString)
               || negb (String.eqb (pn_ApplicationID principal) EmptyString))
      (New "admin principal must not have application scope")
  else if String.eqb (pn_Role principal) APIKeyRoleApplication then
    errors_Join [ProjectID_Validate (pn_ProjectID principal); ApplicationID_Validate (pn_ApplicationID principal)]
  else Some (Errorf "unsupported principal role %q" [AStr (pn_Role principal)]).

(** The digest of the bootstrap key, when there is one, and the number of slots for
    expensive derivations. *)
(* internal/auth/service.go: Service *)
Record AuthService : Type := mkAuthService {
  au_bootstrapAdminHash : option string;
  au_derivationSlots : Z
}.

(** A nil store is [None]. *)
(* internal/auth/service.go: NewService *)
Definition auth_NewService (store : option unit) (bootstrapAdminKey : string) (maxConcurrentDerivations : Z)
    : result AuthService :=
  match store with
  | None => Err (New "authentication operations store is required")
  | Some _ =>
      try* refuse_if (maxConcurrentDerivations <=? 0)
             (New "maximum concurrent authentication derivations must be positive") in
      let bootstrapAdminKey := TrimSpace bootstrapAdminKey in
      if String.eqb bootstrapAdminKey EmptyString then Ok (mkAuthService None maxConcurrentDerivations)
      else
        try* refuse_if (len bootstrapAdminKey <? minimumBootstrapAdminKeyBytes)
               (New "bootstrap administrator key must contain at least 32 bytes") in
        Ok (mkAuthService (Some (Sum256 bootstrapAdminKey)) maxConcurrentDerivations)
  end.

(* internal/auth/service.go: parseBearer *)
Definition parseBearer (bearer : string) : result (string * string) :=
  if negb (String.prefix bearerPrefix bearer) then Err ErrUnauthorized
  else match Split (TrimPrefix bearer bearerPrefix) 46 with
  | [id; encoded] =>
      if negb (len id =? keyIDBytes * 2) then Err ErrUnauthorized
      else match hex_decode (bytes id) with
      | None => Err ErrUnauthorized
      | Some _ =>
          match RawURLDecode encoded with
          | None => Err ErrUnauthorized
          | Some secret => if negb (len secret =? secretBytes) then Err ErrUnauthorized else Ok (id, secret)
          end
      end
  | _ => Err ErrUnauthorized
  end.

Section Keys.
Context {S : Type} `{KeyStore : !APIKeyRepository S, Operations : !Store S}.
(** [argon2.IDKey]: secret, salt, time, memory, threads and length of the output. *)
Context (IDKey : string -> string -> Z -> Z -> Z -> Z -> string).
Context (service : AuthService).

(** [copy] into an array of 32 bytes. *)
Definition array32 (s : string) : string :=
  let l := take 32 (bytes s) in of_bytes (l ++ replicate (32 - length l) 0).

(* internal/auth/service.go: derive *)
Definition derive (secret salt : string) : string :=
  array32 (IDKey secret salt argonTime argonMemory argonThreads argonOutputBytes).

(** What one derivation finds: the error of its context, and how many slots others
    occupy at that moment. *)
Record derivation : Type := mkDerivation {
  dv_context : error;
  dv_occupied : Z
}.

(* internal/auth/service.go: Service.deriveVerifier *)
Definition deriveVerifier (env : derivation) (secret salt : string) : result string :=
  try* dv_context env in
  if dv_occupied env <? au_derivationSlots service then Ok (derive secret salt) else Err ErrCapacity.

(** [random k] is what the [k]th read of the random source gives. *)
(* internal/auth/service.go: Service.Create *)
Definition Create (n : nat) (random : nat -> result string) (env : derivation) (now : time)
    (principal : Principal) : Tx S string :=
  match Principal_Validate principal with
  | Some e => invalid_input e
  | None =>
  do idBytes <- tx_lift (wrap_result (Wrapf "generate API key identity: %w" []) (random 0%nat));
  do secret <- tx_lift (wrap_result (Wrapf "generate API key secret: %w" []) (random 1%nat));
  do salt <- tx_lift (wrap_result (Wrapf "generate API key salt: %w" []) (random 2%nat));
  let id := EncodeToString idBytes in
  do hash <- tx_lift (wrap_result (Wrapf "derive API key verifier: %w" []) (deriveVerifier env secret salt));
  let record := mkAPIKeyRecord id (pn_Role principal) (pn_ProjectID principal) (pn_ApplicationID principal)
                  salt hash now in
  do _ <- tx_catch (Wrapf "store API key: %w" []) (StoreTransact n (PutAPIKey record));
  tx_ret (bearerPrefix ++ id ++ "." ++ RawURLEncode secret)%string
  end.

(* internal/auth/service.go: Service.Keys *)
Definition Keys (n : nat) (pageToken : string) : Tx S APIKeyPage :=
  tx_catch (Wrapf "list API keys: %w" []) (StoreTransact n (APIKeys pageToken)).

(* internal/auth/service.go: Service.Revoke *)
Definition Revoke (n : nat) (now : time) (id : string) : Tx S APIKeySummary :=
  tx_catch (Wrapf "revoke API key: %w" []) (StoreTransact n (RevokeAPIKey id now)).

Definition is_not_found (e : gerror) : bool := errors_Is e "persistence.ErrNotFound".

(** The key a bearer or a session names; an unknown or revoked one is unauthorized. *)
Definition load_key (n : nat) (operation : string) (id : string) : Tx S APIKeyRecord :=
  tx_catch (fun e => if is_not_found e then ErrUnauthorized else Wrapf (operation ++ ": %w") [] e)
    (StoreTransact n (APIKey id)).

(* internal/auth/service.go: Service.Authenticate *)
Definition Authenticate (n : nat) (env : derivation) (bearer : string) : Tx S Principal :=
  let bearer := TrimSpace bearer in
  if bool_decide (au_bootstrapAdminHash service = Some (Sum256 bearer))
  then tx_ret (mkPrincipal EmptyString APIKeyRoleAdmin EmptyString EmptyString)
  else match parseBearer bearer with
  | Err _ => tx_err ErrUnauthorized
  | Ok (id, secret) =>
      do record <- load_key n "load API key for authentication" id;
      do hash <- tx_lift (deriveVerifier env secret (akr_SecretSalt record));
      if negb (String.eqb hash (akr_SecretHash record)) then tx_err ErrUnauthorized
      else tx_ret (mkPrincipal (akr_ID record) (akr_Role record) (akr_ProjectID record) (akr_ApplicationID record))
  end.
End Keys.

(** ** Sessions *)

(** The store and the protection service of a session service; nil ones are [None].
    The clock and the lifetime are fixed. *)
(* internal/auth/customer_session.go: NewCustomerSessions *)
Definition NewCustomerSessions (store : option unit) (protectionService : option ProtectionService)
    : result ProtectionService :=
  match store, protectionService with
  | Some _, Some service => Ok service
  | _, _ => Err (New "customer session dependencies are required")
  end.

(* internal/auth/admin_session.go: NewAdminSessions *)
Definition NewAdminSessions (store : option unit) (protectionService : option ProtectionService)
    : result ProtectionService :=
  match store, protectionService with
  | Some _, Some service => Ok service
  | _, _ => Err (New "administrator session dependencies are required")
  end.

(** Exactly one JSON value: the first value of the payload and what follows it. *)
(* internal/auth/customer_session.go: decodeCustomerSessionJSON *)
Definition decodeCustomerSessionJSON {A} (Decode : string -> result (A * string)) (payload : string) : result A :=
  let* decoded := Decode payload in
  if json_blank (snd decoded) then Ok (fst decoded) else Err (New "unexpected trailing customer session JSON").

(* internal/auth/admin_session.go: decodeAdminSessionJSON *)
Definition decodeAdminSessionJSON {A} (Decode : string -> result (A * string)) (payload : string) : result A :=
  let* decoded := Decode payload in
  if json_blank (snd decoded) then Ok (fst decoded) else Err (New "unexpected trailing administrator session JSON").

(** *** Customer sessions *)

(* internal/auth/customer_session.go: constants *)
Definition customerSessionPrefix : string := "iaps_".
Definition customerSessionPurpose : string := "customer_session".
Definition defaultCustomerSessionTTL : duration := 15 * Minute.
Definition maximumCustomerSessionBytes : Z := 8 * 2 ^ 10.

(* internal/auth/customer_session.go: CustomerSession *)
Record CustomerSession : Type := mkCustomerSession {
  cs_Token : string;
  cs_ExpiresAt : time
}.

(* internal/auth/customer_session.go: CustomerPrincipal *)
Record CustomerPrincipal : Type := mkCustomerPrincipal {
  cup_Principal : Principal;
  cup_ExternalCustomerID : string;
  cup_ExpiresAt : time
}.

(* internal/auth/customer_session.go: customerSessionClaims *)
Record customerSessionClaims : Type := mkCustomerClaims {
  cc_IssuerKeyID : string;
  cc_ExternalCustomerID : string;
  cc_IssuedAt : time;
  cc_ExpiresAt : time
}.

(* internal/auth/customer_session.go: customerSessionEnvelope *)
Record customerSessionEnvelope : Type := mkCustomerEnvelope {
  ce_ProjectID : ProjectID;
  ce_ApplicationID : ApplicationID;
  ce_EncryptionKeyID : string;
  ce_Ciphertext : string;
  ce_Fingerprint : string
}.

(* internal/auth/customer_session.go: validateSessionExpiry *)
Definition validateSessionExpiry (value : time) : error :=
  refuse_if (IsZero value) (New "customer session expiry is required").

(* internal/auth/customer_session.go: CustomerPrincipal.Validate *)
Definition CustomerPrincipal_Validate (principal : CustomerPrincipal) : error :=
  errors_Join [Principal_Validate (cup_Principal principal);
               ValidateExternalCustomerID (cup_ExternalCustomerID principal);
               validateSessionExpiry (cup_ExpiresAt principal)].

(** [json.Marshal] of the claims. *)
Definition customer_claims_json (claims : customerSessionClaims) : result string :=
  let* issuedAt := MarshalTime (fun _ => 0) (cc_IssuedAt claims) in
  let* expiresAt := MarshalTime (fun _ => 0) (cc_ExpiresAt claims) in
  Ok (json_marshal [("issuer_key_id", JStr (cc_IssuerKeyID claims));
                    ("external_customer_id", JStr (cc_ExternalCustomerID claims));
                    ("issued_at", JStr issuedAt); ("expires_at", JStr expiresAt)]%string).

Definition customer_envelope_json (envelope : customerSessionEnvelope) : string :=
  json_marshal [("project_id", JStr (ce_ProjectID envelope));
                ("application_id", JStr (ce_ApplicationID envelope));
                ("encryption_key_id", JStr (ce_EncryptionKeyID envelope));
                ("ciphertext", json_bytes StdEncode (ce_Ciphertext envelope));
                ("fingerprint", json_bytes StdEncode (ce_Fingerprint envelope))]%string.

(* internal/auth/customer_session.go: encodeCustomerSession *)
Definition encodeCustomerSession (projectID : ProjectID) (applicationID : ApplicationID) (value : ProtectedValue) : string :=
  let envelope := mkCustomerEnvelope projectID applicationID (KeyID value) (Ciphertext value) (Fingerprint value) in
  (customerSessionPrefix ++ RawURLEncode (customer_envelope_json envelope))%string.

Definition customer_session_scope (projectID : ProjectID) (applicationID : ApplicationID) : Scope :=
  mkScope projectID applicationID customerSessionPurpose.

(* internal/auth/customer_session.go: CustomerSessions.Mint *)
Definition MintCustomerSession (protection : ProtectionService) (now : time) (issuer : Principal)
    (externalCustomerID : string) : result CustomerSession :=
  match errors_Join [Principal_Validate issuer; ValidateExternalCustomerID externalCustomerID] with
  | Some e => Err (default e (validation_Wrap (Some e)))
  | None =>
      try* refuse_if (negb (String.eqb (pn_Role issuer) APIKeyRoleApplication)
                      || String.eqb (pn_KeyID issuer) EmptyString) ErrUnauthorized in
      let claims := mkCustomerClaims (pn_KeyID issuer) externalCustomerID now (now + defaultCustomerSessionTTL) in
      let* payload := customer_claims_json claims in
      let* protected := Protect (Some (ps_Protect protection))
                          (customer_session_scope (pn_ProjectID issuer) (pn_ApplicationID issuer)) payload in
      Ok (mkCustomerSession (encodeCustomerSession (pn_ProjectID issuer) (pn_ApplicationID issuer) protected)
            (cc_ExpiresAt claims))
  end.

Section CustomerSessions.
Context {S : Type} `{KeyStore : !APIKeyRepository S, Operations : !Store S}.
Context (DecodeEnvelope : string -> result (customerSessionEnvelope * string)).
Context (DecodeClaims : string -> result (customerSessionClaims * string)).
Context (protection : ProtectionService).

(* internal/auth/customer_session.go: decodeCustomerSession *)
Definition decodeCustomerSession (token : string) : result (customerSessionEnvelope * ProtectedValue) :=
  if (len token <=? len customerSessionPrefix) || (maximumCustomerSessionBytes <? len token)
     || negb (String.prefix customerSessionPrefix token) then Err ErrUnauthorized
  else match RawURLDecode (TrimPrefix token customerSessionPrefix) with
  | None => Err ErrUnauthorized
  | Some payload =>
      match decodeCustomerSessionJSON DecodeEnvelope payload with
      | Err _ => Err ErrUnauthorized
      | Ok envelope =>
          try* (match ProjectID_Validate (ce_ProjectID envelope), ApplicationID_Validate (ce_ApplicationID envelope) with
                | None, None => refuse_if (negb (len (ce_Fingerprint envelope) =? 32)) ErrUnauthorized
                | _, _ => Some ErrUnauthorized
                end) in
          let value := mkProtected (ce_Ciphertext envelope) (ce_Fingerprint envelope) (ce_EncryptionKeyID envelope) in
          match ProtectedValue_Validate value with
          | Some _ => Err ErrUnauthorized
          | None => Ok (envelope, value)
          end
      end
  end.

(** What the claims have to say at [now]. *)
(* internal/auth/customer_session.go:136-140: CustomerSessions.Authenticate *)
Definition customer_claims_refused (now : time) (claims : customerSessionClaims) : bool :=
  String.eqb (cc_IssuerKeyID claims) EmptyString
  || negb (bool_decide (ValidateExternalCustomerID (cc_ExternalCustomerID claims) = None))
  || IsZero (cc_IssuedAt claims) || IsZero (cc_ExpiresAt claims)
  || negb (After (cc_ExpiresAt claims) (cc_IssuedAt claims)) || negb (Before now (cc_ExpiresAt claims)).

(** Open a token's claims: every failure is unauthorized. *)
(* internal/auth/customer_session.go:118-140: CustomerSessions.Authenticate *)
Definition open_customer_claims (now : time) (token : string) : result (customerSessionEnvelope * customerSessionClaims) :=
  wrap_result (fun _ => ErrUnauthorized)
    (let* decoded := decodeCustomerSession token in
     let '(envelope, value) := decoded in
     let* request := NewOpenRequest (customer_session_scope (ce_ProjectID envelope) (ce_ApplicationID envelope)) value in
     let* payload := ps_Open protection request in
     let* claims := decodeCustomerSessionJSON DecodeClaims payload in
     if customer_claims_refused now claims then Err ErrUnauthorized else Ok (envelope, claims)).

(* internal/auth/customer_session.go: CustomerSessions.Authenticate *)
Definition AuthenticateCustomer (n : nat) (now : time) (token : string) : Tx S CustomerPrincipal :=
  do opened <- tx_lift (open_customer_claims now token);
  let '(envelope, claims) := opened in
  do issuer <- load_key n "load customer session issuer" (cc_IssuerKeyID claims);
  if negb (String.eqb (akr_Role issuer) APIKeyRoleApplication)
     || negb (String.eqb (akr_ProjectID issuer) (ce_ProjectID envelope))
     || negb (String.eqb (akr_ApplicationID issuer) (ce_ApplicationID envelope))
  then tx_err ErrUnauthorized
  else
    let principal := mkCustomerPrincipal
          (mkPrincipal (akr_ID issuer) (akr_Role issuer) (akr_ProjectID issuer) (akr_ApplicationID issuer))
          (cc_ExternalCustomerID claims) (cc_ExpiresAt claims) in
    match CustomerPrincipal_Validate principal with
    | Some _ => tx_err ErrUnauthorized
    | None => tx_ret principal
    end.
End CustomerSessions.

(** *** Dashboard sessions *)

(* internal/auth/admin_session.go: constants *)
Definition adminSessionPrefix : string := "iapd_".
Definition adminSessionPurpose : string := "dashboard_admin_session".
Definition adminSessionProjectID : ProjectID := "iapstack-control-plane".
Definition adminSessionApplicationID : ApplicationID := "dashboard".
Definition defaultAdminSessionTTL : duration := 12 * Hour.
Definition adminSessionClockSkew : duration := Minute.
Definition maximumAdminSessionBytes : Z := 4 * 2 ^ 10.

(* internal/auth/admin_session.go: AdminSession *)
Record AdminSession : Type := mkAdminSession {
  as_Token : string;
  as_ExpiresAt : time
}.

(* internal/auth/admin_session.go: AdminPrincipal *)
Record AdminPrincipal : Type := mkAdminPrincipal {
  adp_Principal : Principal;
  adp_ExpiresAt : time
}.

(* internal/auth/admin_session.go: adminSessionClaims *)
Record adminSessionClaims : Type := mkAdminClaims {
  ac_IssuerKeyID : string;
  ac_IssuedAt : time;
  ac_ExpiresAt : time
}.

(* internal/auth/admin_session.go: adminSessionEnvelope *)
Record adminSessionEnvelope : Type := mkAdminEnvelope {
  ae_EncryptionKeyID : string;
  ae_Ciphertext : string;
  ae_Fingerprint : string
}.

(* internal/auth/admin_session.go: validateAdminSessionExpiry *)
Definition validateAdminSessionExpiry (value : time) : error :=
  refuse_if (IsZero value) (New "administrator session expiry is required").

(* internal/auth/admin_session.go: AdminPrincipal.Validate *)
Definition AdminPrincipal_Validate (principal : AdminPrincipal) : error :=
  refuse_if (negb (String.eqb (pn_Role (adp_Principal principal)) APIKeyRoleAdmin))
    (New "dashboard session principal must be an administrator") ;;?
  errors_Join [Principal_Validate (adp_Principal principal); validateAdminSessionExpiry (adp_ExpiresAt principal)].

(* internal/auth/admin_session.go: adminSessionScope *)
Definition adminSessionScope : Scope := mkScope adminSessionProjectID adminSessionApplicationID adminSessionPurpose.

Definition admin_claims_json (claims : adminSessionClaims) : result string :=
  let* issuedAt := MarshalTime (fun _ => 0) (ac_IssuedAt claims) in
  let* expiresAt := MarshalTime (fun _ => 0) (ac_ExpiresAt claims) in
  Ok (json_marshal [("issuer_key_id", JStr (ac_IssuerKeyID claims));
                    ("issued_at", JStr issuedAt); ("expires_at", JStr expiresAt)]%string).

Definition admin_envelope_json (envelope : adminSessionEnvelope) : string :=
  json_marshal [("encryption_key_id", JStr (ae_EncryptionKeyID envelope));
                ("ciphertext", json_bytes StdEncode (ae_Ciphertext envelope));
                ("fingerprint", json_bytes StdEncode (ae_Fingerprint envelope))]%string.

(* internal/auth/admin_session.go: encodeAdminSession *)
Definition encodeAdminSession (value : ProtectedValue) : string :=
  let envelope := mkAdminEnvelope (KeyID value) (Ciphertext value) (Fingerprint value) in
  (adminSessionPrefix ++ RawURLEncode (admin_envelope_json envelope))%string.

(* internal/auth/admin_session.go: AdminSessions.Mint *)
Definition MintAdminSession (protection : ProtectionService) (now : time) (issuer : Principal) : result AdminSession :=
  match Principal_Validate issuer with
  | Some e => Err (default e (validation_Wrap (Some e)))
  | None =>
      try* refuse_if (negb (String.eqb (pn_Role issuer) APIKeyRoleAdmin)) ErrUnauthorized in
      let claims := mkAdminClaims (pn_KeyID issuer) now (now + defaultAdminSessionTTL) in
      let* payload := admin_claims_json claims in
      let* protected := Protect (Some (ps_Protect protection)) adminSessionScope payload in
      Ok (mkAdminSession (encodeAdminSession protected) (ac_ExpiresAt claims))
  end.

Section AdminSessions.
Context {S : Type} `{KeyStore : !APIKeyRepository S, Operations : !Store S}.
Context (DecodeEnvelope : string -> result (adminSessionEnvelope * string)).
Context (DecodeClaims : string -> result (adminSessionClaims * string)).
Context (protection : ProtectionService).

(* internal/auth/admin_session.go: decodeAdminSession *)
Definition decodeAdminSession (token : string) : result ProtectedValue :=
  if (len token <=? len adminSessionPrefix) || (maximumAdminSessionBytes <? len token)
     || negb (String.prefix adminSessionPrefix token) then Err ErrUnauthorized
  else match RawURLDecode (TrimPrefix token adminSessionPrefix) with
  | None => Err ErrUnauthorized
  | Some payload =>
      match decodeAdminSessionJSON DecodeEnvelope payload with
      | Err _ => Err ErrUnauthorized
      | Ok envelope =>
          try* refuse_if (negb (len (ae_Fingerprint envelope) =? 32)) ErrUnauthorized in
          let value := mkProtected (ae_Ciphertext envelope) (ae_Fingerprint envelope) (ae_EncryptionKeyID envelope) in
          match ProtectedValue_Validate value with
          | Some _ => Err ErrUnauthorized
          | None => Ok value
          end
      end
  end.

(* internal/auth/admin_session.go:133-136: AdminSessions.Authenticate *)
Definition admin_claims_refused (now : time) (claims : adminSessionClaims) : bool :=
  IsZero (ac_IssuedAt claims) || IsZero (ac_ExpiresAt claims)
  || negb (After (ac_ExpiresAt claims) (ac_IssuedAt claims))
  || After (ac_IssuedAt claims) (now + adminSessionClockSkew) || negb (Before now (ac_ExpiresAt claims)).

(* internal/auth/admin_session.go:114-136: AdminSessions.Authenticate *)
Definition open_admin_claims (now : time) (token : string) : result adminSessionClaims :=
  wrap_result (fun _ => ErrUnauthorized)
    (let* value := decodeAdminSession token in
     let* request := NewOpenRequest adminSessionScope value in
     let* payload := ps_Open protection request in
     let* claims := decodeAdminSessionJSON DecodeClaims payload in
     if admin_claims_refused now claims then Err ErrUnauthorized else Ok claims).

(** The issuer of a session from the bootstrap key has no identity and is not looked up. *)
(* internal/auth/admin_session.go:138-156: AdminSessions.Authenticate *)
Definition admin_issuer (n : nat) (claims : adminSessionClaims) : Tx S string :=
  if String.eqb (ac_IssuerKeyID claims) EmptyString then tx_ret EmptyString
  else
    do issuer <- load_key n "load administrator session issuer" (ac_IssuerKeyID claims);
    if negb (String.eqb (akr_ID issuer) (ac_IssuerKeyID claims))
       || negb (String.eqb (akr_Role issuer) APIKeyRoleAdmin)
       || negb (bool_decide (APIKeyRecord_Validate issuer = None))
    then tx_err ErrUnauthorized else tx_ret (akr_ID issuer).

(* internal/auth/admin_session.go: AdminSessions.Authenticate *)
Definition AuthenticateAdmin (n : nat) (now : time) (token : string) : Tx S AdminPrincipal :=
  do claims <- tx_lift (open_admin_claims now token);
  do keyID <- admin_issuer n claims;
  let principal := mkAdminPrincipal (mkPrincipal keyID APIKeyRoleAdmin EmptyString EmptyString) (ac_ExpiresAt claims) in
  match AdminPrincipal_Validate principal with
  | Some _ => tx_err ErrUnauthorized
  | None => tx_ret principal
  end.
End AdminSessions.

(** ** Bearers *)

(** A transaction that meets no failure of the database and loses no race. *)
Definition undisturbed {S} `{!Store S} (n : nat) : Prop := forall A (op : Tx S A) s,
  match op s with
  | (Ok a, s') => StoreTransact n op s = (Ok a, s')
  | (Err e, _) => errors_Is e "postgres.errRetryableTransaction" = false -> StoreTransact n op s = (Err e, s)
  end.

(** The key such a transaction finds. *)
Lemma load_key_found `{Operations : !Store operations_db} n operation id row db :
  keys_wf db -> undisturbed n -> api_keys db !! id = Some row ->
  load_key n operation id db = (if is_active row then Ok (key_record id row) else Err ErrUnauthorized, db).
Proof.
  intros Hwf Hn Hrow. unfold load_key, tx_catch. specialize (Hn _ (APIKey id) db).
  change (@APIKey _ operations_keys) with pg_APIKey in *. unfold is_active. destruct (ak_revoked row) as [t|] eqn:Hr.
  - destruct (APIKey_unknown id db) as (e & He & Hnf & Hret).
    + apply (record_id_valid (key_record id row)). by apply Hwf.
    + intros r Hr'. congruence.
    + rewrite He in Hn. rewrite (Hn Hret). unfold is_not_found. by rewrite Hnf.
  - rewrite (APIKey_found id row db Hwf Hrow Hr) in Hn. by rewrite Hn.
Qed.

Lemma load_key_ok {S} `{!APIKeyRepository S, !Store S} n operation id (s : S) record s' :
  load_key n operation id s = (Ok record, s') -> APIKey id s = (Ok record, s').
Proof. unfold load_key. intros H%tx_catch_ok. by eapply store_commits. Qed.

Lemma principal_valid id row :
  APIKeyRecord_Validate (key_record id row) = None ->
  Principal_Validate (mkPrincipal id (ak_role row) (default EmptyString (ak_project row)) (default EmptyString (ak_application row))) = None.
Proof.
  unfold APIKeyRecord_Validate. rewrite errors_Join_nil, !Forall_cons. intros (_ & H & _). cbn in H.
  unfold validateAPIKeyScope in H. unfold Principal_Validate. cbn.
  destruct (String.eqb (ak_role row) APIKeyRoleAdmin); [apply refuse_if_nil in H; by apply refuse_if_nil|].
  by destruct (String.eqb (ak_role row) APIKeyRoleApplication).
Qed.

Lemma Split_two_inv s sep a b : is_byte sep -> Split s sep = [a; b] -> s = (a ++ of_bytes [sep] ++ b)%string.
Proof.
  intros Hs H. unfold Split in H. destruct (split_bytes_join sep (bytes s)) as [_ Hj].
  pose proof (bytes_bounded s) as Hb. destruct (split_bytes sep (bytes s)) as [|x [|y [|? ?]]]; try done.
  injection H as <- <-. cbn in Hj. rewrite app_nil_r in Hj. rewrite Hj in Hb.
  apply Forall_app in Hb as [Hx Hy]. apply Forall_cons in Hy as [_ Hy].
  apply bytes_inj. rewrite !bytes_app, !bytes_of_bytes; auto.
Qed.

Lemma parseBearer_ok bearer id secret :
  parseBearer bearer = Ok (id, secret) ->
  exists encoded, bearer = (bearerPrefix ++ id ++ "." ++ encoded)%string /\ RawURLDecode encoded = Some secret /\
    len id = 24 /\ len secret = 32.
Proof.
  unfold parseBearer. destruct (String.prefix bearerPrefix bearer) eqn:Hp; [|done]. cbn [negb].
  apply prefix_split in Hp as [rest ->]. rewrite TrimPrefix_app.
  destruct (Split rest 46) as [|a [|b [|? ?]]] eqn:Hs; try done.
  destruct (Z.eqb_spec (len a) (keyIDBytes * 2)) as [Ha|]; [|done]. cbn [negb].
  destruct (hex_decode (bytes a)); [|done]. destruct (RawURLDecode b) as [s|] eqn:Hb; [|done].
  destruct (Z.eqb_spec (len s) secretBytes) as [Hl|]; [|done]. cbn [negb]. intros [= <- <-].
  apply Split_two_inv in Hs as ->; [|done]. by exists b.
Qed.

Section Bearers.
Context {Operations : Store operations_db}.
Context (IDKey : string -> string -> Z -> Z -> Z -> Z -> string) (service : AuthService).

(** C24. A bearer authenticates only as what it proves: the bootstrap administrator, when
    its digest is the configured one, or a key that is stored and not revoked now and
    whose stored verifier is derived from the secret the bearer carries; the principal
    then has that key's identity, role and scope, valid for its role.  Authentication
    changes nothing and derives only while a slot is free. *)
Theorem bearer_authentic n env bearer db p db' :
  Authenticate IDKey service n env bearer db = (Ok p, db') ->
  db' = db /\
  ((au_bootstrapAdminHash service = Some (Sum256 (TrimSpace bearer)) /\
    p = mkPrincipal EmptyString APIKeyRoleAdmin EmptyString EmptyString) \/
   exists id secret encoded row,
     TrimSpace bearer = (bearerPrefix ++ id ++ "." ++ encoded)%string /\ RawURLDecode encoded = Some secret /\
     len id = 24 /\ len secret = 32 /\
     api_keys db !! id = Some row /\ ak_revoked row = None /\ derive IDKey secret (ak_salt row) = ak_hash row /\
     dv_occupied env < au_derivationSlots service /\
     p = mkPrincipal id (ak_role row) (default EmptyString (ak_project row)) (default EmptyString (ak_application row)) /\
     Principal_Validate p = None).
Proof.
  unfold Authenticate. cbv zeta. destruct (bool_decide _) eqn:Eb.
  { apply bool_decide_eq_true in Eb. intros [<- <-]%tx_ret_ok. split; [done|]. by left. }
  destruct (parseBearer (TrimSpace bearer)) as [[id secret]|] eqn:Ep; [|done].
  apply parseBearer_ok in Ep as (encoded & Hb & Hd & Hi & Hs).
  intros (record & db1 & Hload%load_key_ok & (hash & db2 & [Hder ->]%tx_lift_ok & H)%tx_bind_ok)%tx_bind_ok.
  apply APIKey_ok in Hload as (-> & row & Hrow & Hact & -> & Hval & _).
  unfold deriveVerifier in Hder. apply try_err_ok in Hder as [_ Hder].
  destruct (Z.ltb_spec (dv_occupied env) (au_derivationSlots service)) as [Hocc|]; [|done]. injection Hder as <-.
  destruct (String.eqb_spec (derive IDKey secret (ak_salt row)) (ak_hash row)) as [Hh|Hh]; cbn in H.
  - rewrite (proj2 (String.eqb_eq _ _) Hh) in H. apply tx_ret_ok in H as [<- <-]. split; [done|]. right.
    exists id, secret, encoded, row. split_and!; try done. by apply principal_valid.
  - by rewrite (proj2 (String.eqb_neq _ _) Hh) in H.
Qed.

(** What is created is one bearer and its key. *)
Lemma Create_ok n random env now principal db bearer db' :
  Create IDKey service n random env now principal db = (Ok bearer, db') ->
  exists idBytes secret salt, random 0%nat = Ok idBytes /\ random 1%nat = Ok secret /\ random 2%nat = Ok salt /\
    bearer = (bearerPrefix ++ EncodeToString idBytes ++ "." ++ RawURLEncode secret)%string /\
    pg_PutAPIKey (mkAPIKeyRecord (EncodeToString idBytes) (pn_Role principal) (pn_ProjectID principal)
                    (pn_ApplicationID principal) salt (derive IDKey secret salt) now) db = (Ok tt, db').
Proof.
  unfold Create. destruct (Principal_Validate principal); [done|].
  intros (idb & s1 & [Hid%wrap_result_ok ->]%tx_lift_ok & (sec & s2 & [Hsec%wrap_result_ok ->]%tx_lift_ok &
    (salt & s3 & [Hsalt%wrap_result_ok ->]%tx_lift_ok & H)%tx_bind_ok)%tx_bind_ok)%tx_bind_ok.
  cbv zeta in H. apply tx_bind_ok in H as (hash & s4 & [Hh%wrap_result_ok ->]%tx_lift_ok & H).
  unfold deriveVerifier in Hh. apply try_err_ok in Hh as [_ Hh]. destruct (_ <? _) in Hh; [|done]. injection Hh as <-.
  apply tx_bind_ok in H as ([] & s5 & Hput%tx_catch_ok & [<- <-]%tx_ret_ok). apply store_commits in Hput.
  exists idb, sec, salt. by split_and!.
Qed.

Lemma hex_no_dot s : ~ In 46 (bytes (EncodeToString s)).
Proof.
  rewrite bytes_EncodeToString. unfold hex_bytes. intros (b & Hb & Hin)%in_flat_map.
  pose proof (proj1 (List.Forall_forall _ _) (bytes_bounded s) b Hb) as Hr. unfold is_byte in Hr.
  assert (Hc : forall n, 0 <= n < 16 -> hex_char n <> 46) by (intros n Hn; unfold hex_char; case_match; lia).
  destruct Hin as [H|[H|[]]]; revert H; apply Hc; Z.to_euclidean_division_equations; lia.
Qed.

Lemma parseBearer_created idBytes secret :
  len idBytes = 12 -> len secret = 32 ->
  let bearer := (bearerPrefix ++ EncodeToString idBytes ++ "." ++ RawURLEncode secret)%string in
  TrimSpace bearer = bearer /\ parseBearer bearer = Ok (EncodeToString idBytes, secret).
Proof.
  intros Hi Hs bearer. split.
  - apply graphic_text; [done|]. unfold bearer. rewrite !bytes_app, !Forall_app. split_and!.
    + by repeat constructor.
    + rewrite bytes_EncodeToString. apply hex_bytes_graphic, bytes_bounded.
    + by repeat constructor.
    + eapply Forall_impl; [apply RawURLEncode_chars|]. by intros b [Hb _].
  - unfold parseBearer, bearer. rewrite str_prefix_app, TrimPrefix_app. cbn [negb].
    change "."%string with (of_bytes [46]). rewrite Split_two; [|done|apply hex_no_dot|].
    2: { intros Hin. pose proof (proj1 (List.Forall_forall _ _) (RawURLEncode_chars secret) 46 Hin). naive_solver. }
    assert (Hl : len (EncodeToString idBytes) = keyIDBytes * 2).
    { unfold len in *. rewrite <- length_bytes, bytes_EncodeToString, length_hex_bytes, length_bytes.
      unfold keyIDBytes. lia. }
    rewrite Hl, Z.eqb_refl, bytes_EncodeToString, hex_decode_encode by apply bytes_bounded. cbn [negb].
    rewrite RawURLDecode_encode, Hs. done.
Qed.

Lemma authenticate_key m env id secret row db :
  keys_wf db -> undisturbed m -> dv_context env = None -> dv_occupied env < au_derivationSlots service ->
  api_keys db !! id = Some row -> derive IDKey secret (ak_salt row) = ak_hash row ->
  let bearer := (bearerPrefix ++ id ++ "." ++ RawURLEncode secret)%string in
  TrimSpace bearer = bearer -> parseBearer bearer = Ok (id, secret) ->
  au_bootstrapAdminHash service <> Some (Sum256 bearer) ->
  Authenticate IDKey service m env bearer db =
  (match ak_revoked row with
   | None => Ok (mkPrincipal id (ak_role row) (default EmptyString (ak_project row)) (default EmptyString (ak_application row)))
   | Some _ => Err ErrUnauthorized
   end, db).
Proof.
  intros Hwf Hm Hctx Hocc Hrow Hder bearer Htrim Hparse Hboot. unfold Authenticate. cbv zeta.
  rewrite Htrim, bool_decide_false, Hparse by done. unfold tx_bind at 1.
  rewrite (load_key_found m _ id row db Hwf Hm Hrow). unfold is_active. destruct (ak_revoked row) as [t|]; [done|].
  unfold tx_bind, tx_lift, deriveVerifier. rewrite Hctx. cbn [try_err].
  rewrite (proj2 (Z.ltb_lt _ _) Hocc). cbn [akr_SecretSalt akr_SecretHash key_record].
  by rewrite Hder, String.eqb_refl.
Qed.

(** A created bearer works until its key is revoked, and never afterwards: after a key
    was created, whatever keys are created or revoked later, the bearer that was handed
    out authenticates as exactly the principal it was created for while its key is not
    revoked, and is unauthorized once it is (with a free derivation slot, and not being
    the bootstrap key itself). *)
Theorem bearer_round_trip n random env now principal db bearer db1 idBytes secret :
  keys_wf db -> normalizeTime now <> 0 ->
  random 0%nat = Ok idBytes -> len idBytes = 12 -> random 1%nat = Ok secret -> len secret = 32 ->
  Create IDKey service n random env now principal db = (Ok bearer, db1) ->
  au_bootstrapAdminHash service <> Some (Sum256 bearer) ->
  forall calls, Forall (fun call => normalizeTime (key_call_clock call) <> 0) calls ->
  let db2 := run_keys calls db1 in
  exists row, api_keys db2 !! EncodeToString idBytes = Some row /\
  forall m env', undisturbed m -> dv_context env' = None -> dv_occupied env' < au_derivationSlots service ->
    Authenticate IDKey service m env' bearer db2 =
    (match ak_revoked row with
     | None => Ok (mkPrincipal (EncodeToString idBytes) (pn_Role principal) (pn_ProjectID principal) (pn_ApplicationID principal))
     | Some _ => Err ErrUnauthorized
     end, db2).
Proof.
  intros Hwf Hnow Hid Hidl Hsec Hsecl (idb & sec & salt & Hid' & Hsec' & _ & -> & Hput)%Create_ok Hboot calls Hcalls db2.
  rewrite Hid in Hid'. rewrite Hsec in Hsec'. injection Hid' as <-. injection Hsec' as <-.
  edestruct PutAPIKey_keeps as (Hwf1 & _); [exact Hwf| |exact Hput|]; [exact Hnow|].
  destruct (PutAPIKey_ok _ _ _ Hput) as (row & _ & -> & _ & _ & _ & Hrec). cbn [akr_ID] in Hrec.
  set (id := EncodeToString idBytes) in *.
  destruct (run_keys_step calls _ Hcalls Hwf1) as (Hwf2 & Hkept & _ & _).
  destruct (Hkept id row) as (row' & Hrow' & [Hsame _]); [cbn; by rewrite lookup_insert_eq|].
  exists row'. split; [exact Hrow'|]. intros m env' Hm Hctx Hocc.
  destruct (parseBearer_created idBytes secret Hidl Hsecl) as [Htrim Hparse]. fold id in Htrim, Hparse.
  injection Hsame as H1 H2 H3 H4 H5 _. injection Hrec as R1 R2 R3 R4 R5 _.
  rewrite (authenticate_key m env' id secret row' db2 Hwf2 Hm Hctx Hocc Hrow'); try done.
  - by rewrite H1, H2, H3, R1, R2, R3.
  - by rewrite H4, H5, R4, R5.
Qed.
End Bearers.

(** ** Sessions *)

Section CustomerSessionLemmas.
Context {Operations : Store operations_db}.
Context (DecodeEnvelope : string -> result (customerSessionEnvelope * string)).
Context (DecodeClaims : string -> result (customerSessionClaims * string)).
Context (protection : ProtectionService).

(** A session that authenticates: what it carries and the key that issued it. *)
Record customer_session (now : time) (token : string) (p : CustomerPrincipal) (db : operations_db) : Prop := {
  cse_opened : exists envelope value payload claims row,
    decodeCustomerSession DecodeEnvelope token = Ok (envelope, value) /\
    ps_Open protection (mkOpenRequest (mkScope (ce_ProjectID envelope) (ce_ApplicationID envelope) customerSessionPurpose) value)
      = Ok payload /\
    decodeCustomerSessionJSON DecodeClaims payload = Ok claims /\
    cc_IssuedAt claims < cc_ExpiresAt claims /\
    api_keys db !! cc_IssuerKeyID claims = Some row /\ ak_revoked row = None /\ ak_role row = "application"%string /\
    ak_project row = Some (ce_ProjectID envelope) /\ ak_application row = Some (ce_ApplicationID envelope) /\
    p = mkCustomerPrincipal (mkPrincipal (cc_IssuerKeyID claims) "application" (ce_ProjectID envelope) (ce_ApplicationID envelope))
          (cc_ExternalCustomerID claims) (cc_ExpiresAt claims);
  cse_size : len token <= maximumCustomerSessionBytes /\ String.prefix "iaps_" token = true;
  cse_running : now < cup_ExpiresAt p;
  cse_valid : CustomerPrincipal_Validate p = None
}.

Lemma decodeCustomerSession_size token r :
  decodeCustomerSession DecodeEnvelope token = Ok r ->
  len token <= maximumCustomerSessionBytes /\ String.prefix "iaps_" token = true.
Proof.
  unfold decodeCustomerSession. destruct (_ || _) eqn:E; [done|]. intros _.
  rewrite !orb_false_iff, negb_false_iff, Z.ltb_ge in E. tauto.
Qed.

Lemma application_scope row : key_row_valid row = true -> ak_role row = "application"%string ->
  exists p a, ak_project row = Some p /\ ak_application row = Some a.
Proof.
  unfold key_row_valid. rewrite !andb_true_iff. intros [_ H] Hr. destruct (ak_project row), (ak_application row); try done; [by eexists _, _|].
  by rewrite Hr in H.
Qed.

Lemma AuthenticateCustomer_ok n now token db p db' :
  keys_wf db -> AuthenticateCustomer DecodeEnvelope DecodeClaims protection n now token db = (Ok p, db') ->
  db' = db /\ customer_session now token p db.
Proof.
  intros Hwf ([envelope claims] & s1 & [Hopen%wrap_result_ok ->]%tx_lift_ok & H)%tx_bind_ok.
  apply bind_result_ok in Hopen as ([env value] & Hdec & Hopen). apply bind_result_ok in Hopen as (request & Hreq & Hopen).
  apply bind_result_ok in Hopen as (payload & Hpay & Hopen). apply bind_result_ok in Hopen as (claims' & Hcl & Hopen).
  destruct (customer_claims_refused now claims') eqn:Hrefused; [done|]. injection Hopen as <- <-.
  unfold NewOpenRequest in Hreq. apply try_err_ok in Hreq as [_ [= <-]].
  unfold customer_claims_refused in Hrefused. rewrite !orb_false_iff, !negb_false_iff in Hrefused.
  destruct Hrefused as [[[_ _] Hafter] Hrun]. unfold After, Before in *. apply Z.ltb_lt in Hafter, Hrun.
  apply tx_bind_ok in H as (issuer & s2 & Hload%load_key_ok & H). apply APIKey_ok in Hload as (-> & row & Hrow & Hact & -> & _).
  destruct (_ || _) eqn:Eg in H; [done|]. rewrite !orb_false_iff, !negb_false_iff, !String.eqb_eq in Eg.
  destruct Eg as [[Hrole Hp] Ha]. cbn in Hrole, Hp, Ha. cbv zeta in H.
  destruct (CustomerPrincipal_Validate _) eqn:Hv in H; [done|]. apply tx_ret_ok in H as [<- <-]. split; [done|].
  destruct (application_scope row) as (pr & ap & Epr & Eap); [by apply (Hwf _ _ Hrow)|done|].
  rewrite Epr in Hp. rewrite Eap in Ha. cbn in Hp, Ha. subst pr ap. constructor; [|by eapply decodeCustomerSession_size|done|done].
  exists env, value, payload, claims', row. split_and!; try done. cbn. by rewrite Epr, Eap, Hrole.
Qed.

(** What the JSON decoder and the protection service answer about a session that was
    minted: decoding gives back what was encoded, opening what was protected. *)
Definition minted_claims (now : time) (issuer : Principal) (external : string) : customerSessionClaims :=
  mkCustomerClaims (pn_KeyID issuer) external now (now + defaultCustomerSessionTTL).
Definition minted_envelope (issuer : Principal) (v : ProtectedValue) : customerSessionEnvelope :=
  mkCustomerEnvelope (pn_ProjectID issuer) (pn_ApplicationID issuer) (KeyID v) (Ciphertext v) (Fingerprint v).

Record customer_codec (now : time) (issuer : Principal) (external : string) : Prop := {
  cod_claims : forall text, customer_claims_json (minted_claims now issuer external) = Ok text ->
    DecodeClaims text = Ok (minted_claims now issuer external, EmptyString);
  cod_protected : forall text v, customer_claims_json (minted_claims now issuer external) = Ok text ->
    ps_Protect protection (mkRequest (customer_session_scope (pn_ProjectID issuer) (pn_ApplicationID issuer)) text) = Ok v ->
    DecodeEnvelope (customer_envelope_json (minted_envelope issuer v)) = Ok (minted_envelope issuer v, EmptyString) /\
    ps_Open protection (mkOpenRequest (customer_session_scope (pn_ProjectID issuer) (pn_ApplicationID issuer)) v) = Ok text /\
    ProtectedValue_Validate v = None /\ len (Fingerprint v) = 32
}.

Lemma json_marshal_nonempty fields : json_marshal fields <> EmptyString.
Proof. intros H. apply (f_equal bytes) in H. by rewrite bytes_json_marshal in H. Qed.

(** The claims of a fresh session are refused exactly when they have expired. *)
Lemma minted_refused now now' issuer external :
  0 < now -> pn_KeyID issuer <> EmptyString -> ValidateExternalCustomerID external = None ->
  customer_claims_refused now' (minted_claims now issuer external) = negb (now' <? now + defaultCustomerSessionTTL).
Proof.
  intros Hnow Hkey He. unfold customer_claims_refused, minted_claims, IsZero, After, Before. cbn [cc_IssuerKeyID cc_ExternalCustomerID cc_IssuedAt cc_ExpiresAt].
  assert (Httl : 0 < defaultCustomerSessionTTL) by done.
  rewrite (proj2 (String.eqb_neq _ _) Hkey), bool_decide_true by done.
  rewrite (proj2 (Z.eqb_neq now 0)), (proj2 (Z.eqb_neq (now + _) 0)), (proj2 (Z.ltb_lt now _)) by lia. done.
Qed.

Lemma minted_opens now issuer external session :
  0 < now -> MintCustomerSession protection now issuer external = Ok session -> customer_codec now issuer external ->
  len (cs_Token session) <= maximumCustomerSessionBytes ->
  Principal_Validate issuer = None /\ ValidateExternalCustomerID external = None /\
  pn_Role issuer = "application"%string /\ cs_ExpiresAt session = now + defaultCustomerSessionTTL /\
  exists v, forall now', open_customer_claims DecodeEnvelope DecodeClaims protection now' (cs_Token session) =
    if now' <? cs_ExpiresAt session then Ok (minted_envelope issuer v, minted_claims now issuer external)
    else Err ErrUnauthorized.
Proof.
  intros Hnow Hmint [Hclaims Hcodec] Hsize. unfold MintCustomerSession in Hmint.
  destruct (errors_Join _) eqn:Hv in Hmint; [done|]. rewrite errors_Join_nil, !Forall_cons in Hv. destruct Hv as (Hp & He & _).
  apply try_err_ok in Hmint as [Hr Hmint]. rewrite refuse_if_nil, orb_false_iff, negb_false_iff, String.eqb_eq, String.eqb_neq in Hr.
  destruct Hr as [Hrole Hkey]. cbv zeta in Hmint. apply bind_result_ok in Hmint as (text & Htext & Hmint).
  apply bind_result_ok in Hmint as (v & Hprot & [= <-]). cbn [cs_Token cs_ExpiresAt cc_ExpiresAt] in *.
  apply Protect_ok in Hprot as (p & [= <-] & Hreq & Hprot).
  destruct (Hcodec text v Htext Hprot) as (Hdec & Hopen & Hval & Hfp). specialize (Hclaims text Htext).
  split_and!; try done. exists v. intros now'. unfold open_customer_claims, decodeCustomerSession, encodeCustomerSession in *.
  cbv zeta in *. change (mkCustomerEnvelope _ _ _ _ _) with (minted_envelope issuer v) in *.
  destruct (prefixed_decode customerSessionPrefix (customer_envelope_json (minted_envelope issuer v))) as (Hl & Hpre & Hraw); [apply json_marshal_nonempty|].
  cbv zeta in Hl, Hpre, Hraw. rewrite (proj2 (Z.leb_gt _ _) Hl), (proj2 (Z.ltb_ge _ _) Hsize), Hpre, Hraw. cbn [negb orb].
  unfold decodeCustomerSessionJSON. rewrite Hdec. cbn [bind_result fst snd]. change (json_blank EmptyString) with true. cbv iota.
  pose proof Hp as Hp'. unfold Principal_Validate in Hp'. rewrite Hrole in Hp'. cbn in Hp'.
  rewrite errors_Join_nil, !Forall_cons in Hp'. destruct Hp' as (Hproj & Happ & _).
  cbn [ce_ProjectID ce_ApplicationID ce_Fingerprint ce_Ciphertext ce_EncryptionKeyID minted_envelope]. rewrite Hproj, Happ, Hfp.
  change (32 =? 32) with true. cbn [negb refuse_if try_err].
  replace (mkProtected (Ciphertext v) (Fingerprint v) (KeyID v)) with v by (by destruct v). rewrite Hval. cbn [bind_result].
  unfold NewOpenRequest, OpenRequest_Validate. cbv zeta. cbn [open_Scope open_Value ce_ProjectID ce_ApplicationID minted_envelope].
  unfold Request_Validate in Hreq. apply seq_err_nil in Hreq as [_ Hreq]. cbn [req_Scope] in Hreq.
  rewrite Hreq, Hval. cbn [errors_Join omap list_omap id try_err bind_result]. rewrite Hopen. cbn [bind_result].
  rewrite Hclaims. cbn [bind_result fst snd]. change (json_blank EmptyString) with true. cbv iota.
  cbn [bind_result]. rewrite minted_refused by done. by destruct (now' <? now + defaultCustomerSessionTTL).
Qed.

(** A minted session at any later time and in any later state of its key. *)
Lemma customer_session_runs now issuer external session n now' db row :
  0 < now -> MintCustomerSession protection now issuer external = Ok session -> customer_codec now issuer external ->
  len (cs_Token session) <= maximumCustomerSessionBytes ->
  keys_wf db -> undisturbed n -> api_keys db !! pn_KeyID issuer = Some row -> ak_role row = pn_Role issuer ->
  ak_project row = Some (pn_ProjectID issuer) -> ak_application row = Some (pn_ApplicationID issuer) ->
  AuthenticateCustomer DecodeEnvelope DecodeClaims protection n now' (cs_Token session) db =
  (if (now' <? now + defaultCustomerSessionTTL) && is_active row
   then Ok (mkCustomerPrincipal issuer external (now + defaultCustomerSessionTTL)) else Err ErrUnauthorized, db).
Proof.
  intros Hnow Hmint Hcodec Hsize Hwf Hn Hrow Hr Hp Ha.
  destruct (minted_opens _ _ _ _ Hnow Hmint Hcodec Hsize) as (Hpv & He & Hrole & Hexp & v & Hopen).
  unfold AuthenticateCustomer. unfold tx_bind at 1, tx_lift. rewrite Hopen, Hexp.
  destruct (now' <? now + defaultCustomerSessionTTL); [|done]. cbn [andb]. unfold tx_bind. cbn [cc_IssuerKeyID minted_claims].
  rewrite (load_key_found n _ _ row db Hwf Hn Hrow). destruct (is_active row); [|done].
  unfold key_record. cbn [akr_ID akr_Role akr_ProjectID akr_ApplicationID ce_ProjectID ce_ApplicationID minted_envelope].
  rewrite Hr, Hp, Ha, Hrole. cbn [default id]. rewrite !String.eqb_refl. cbn [negb orb]. cbv zeta. rewrite <- Hrole.
  replace (mkPrincipal (pn_KeyID issuer) (pn_Role issuer) (pn_ProjectID issuer) (pn_ApplicationID issuer)) with issuer by (by destruct issuer).
  unfold CustomerPrincipal_Validate. cbn [cup_Principal cup_ExternalCustomerID cup_ExpiresAt cc_ExternalCustomerID cc_ExpiresAt minted_claims].
  rewrite Hpv, He. unfold validateSessionExpiry, IsZero. assert (Httl : 0 < defaultCustomerSessionTTL) by done.
  by rewrite (proj2 (Z.eqb_neq (now + defaultCustomerSessionTTL) 0)) by lia.
Qed.
End CustomerSessionLemmas.

Section AdminSessionLemmas.
Context {Operations : Store operations_db}.
Context (DecodeEnvelope : string -> result (adminSessionEnvelope * string)).
Context (DecodeClaims : string -> result (adminSessionClaims * string)).
Context (protection : ProtectionService).

(** A dashboard session that authenticates: what it carries and who issued it. *)
Record admin_session (now : time) (token : string) (p : AdminPrincipal) (db : operations_db) : Prop := {
  ase_opened : exists value payload claims,
    decodeAdminSession DecodeEnvelope token = Ok value /\
    ps_Open protection (mkOpenRequest (mkScope "iapstack-control-plane" "dashboard" "dashboard_admin_session") value) = Ok payload /\
    decodeAdminSessionJSON DecodeClaims payload = Ok claims /\
    ac_IssuedAt claims < ac_ExpiresAt claims /\ ac_IssuedAt claims <= now + Minute /\
    p = mkAdminPrincipal (mkPrincipal (ac_IssuerKeyID claims) "admin" EmptyString EmptyString) (ac_ExpiresAt claims) /\
    (ac_IssuerKeyID claims <> EmptyString -> exists row, api_keys db !! ac_IssuerKeyID claims = Some row /\
       ak_revoked row = None /\ ak_role row = "admin"%string);
  ase_size : len token <= maximumAdminSessionBytes /\ String.prefix "iapd_" token = true;
  ase_running : now < adp_ExpiresAt p
}.

Lemma decodeAdminSession_size token r :
  decodeAdminSession DecodeEnvelope token = Ok r -> len token <= maximumAdminSessionBytes /\ String.prefix "iapd_" token = true.
Proof.
  unfold decodeAdminSession. destruct (_ || _) eqn:E; [done|]. intros _.
  rewrite !orb_false_iff, negb_false_iff, Z.ltb_ge in E. tauto.
Qed.

Lemma admin_issuer_ok n claims db keyID db' :
  admin_issuer n claims db = (Ok keyID, db') ->
  db' = db /\ keyID = ac_IssuerKeyID claims /\
  (ac_IssuerKeyID claims <> EmptyString -> exists row, api_keys db !! ac_IssuerKeyID claims = Some row /\
     ak_revoked row = None /\ ak_role row = "admin"%string).
Proof.
  unfold admin_issuer. destruct (String.eqb_spec (ac_IssuerKeyID claims) EmptyString) as [E|E].
  { intros [<- <-]%tx_ret_ok. by rewrite E. }
  intros (issuer & s & Hload%load_key_ok & H)%tx_bind_ok. apply APIKey_ok in Hload as (-> & row & Hrow & Hact & -> & _).
  destruct (_ || _) eqn:Eg in H; [done|]. apply tx_ret_ok in H as [<- <-]. split; [done|]. split; [done|]. intros _.
  rewrite !orb_false_iff, !negb_false_iff, !String.eqb_eq in Eg. destruct Eg as [[_ Hr] _]. by exists row.
Qed.

Lemma AuthenticateAdmin_ok n now token db p db' :
  AuthenticateAdmin DecodeEnvelope DecodeClaims protection n now token db = (Ok p, db') ->
  db' = db /\ admin_session now token p db.
Proof.
  intros (claims & s1 & [Hopen%wrap_result_ok ->]%tx_lift_ok & H)%tx_bind_ok.
  apply bind_result_ok in Hopen as (value & Hdec & Hopen). apply bind_result_ok in Hopen as (request & Hreq & Hopen).
  apply bind_result_ok in Hopen as (payload & Hpay & Hopen). apply bind_result_ok in Hopen as (claims' & Hcl & Hopen).
  destruct (admin_claims_refused now claims') eqn:Hrefused; [done|]. injection Hopen as <-.
  unfold NewOpenRequest in Hreq. apply try_err_ok in Hreq as [_ [= <-]].
  unfold admin_claims_refused in Hrefused. rewrite !orb_false_iff, !negb_false_iff in Hrefused.
  destruct Hrefused as [[[_ Hafter] Hskew] Hrun]. unfold After, Before in *. apply Z.ltb_lt in Hafter, Hrun. apply Z.ltb_ge in Hskew.
  apply tx_bind_ok in H as (keyID & s2 & Hissuer & H). apply admin_issuer_ok in Hissuer as (-> & -> & Hissuer).
  cbv zeta in H. destruct (AdminPrincipal_Validate _) eqn:Hv in H; [done|]. apply tx_ret_ok in H as [<- <-]. split; [done|].
  constructor; [|by eapply decodeAdminSession_size|done]. exists value, payload, claims'. by split_and!.
Qed.

(** What the JSON decoder and the protection service answer about a minted session. *)
Definition minted_admin_claims (now : time) (issuer : Principal) : adminSessionClaims :=
  mkAdminClaims (pn_KeyID issuer) now (now + defaultAdminSessionTTL).
Definition minted_admin_envelope (v : ProtectedValue) : adminSessionEnvelope :=
  mkAdminEnvelope (KeyID v) (Ciphertext v) (Fingerprint v).

Record admin_codec (now : time) (issuer : Principal) : Prop := {
  aco_claims : forall text, admin_claims_json (minted_admin_claims now issuer) = Ok text ->
    DecodeClaims text = Ok (minted_admin_claims now issuer, EmptyString);
  aco_protected : forall text v, admin_claims_json (minted_admin_claims now issuer) = Ok text ->
    ps_Protect protection (mkRequest adminSessionScope text) = Ok v ->
    DecodeEnvelope (admin_envelope_json (minted_admin_envelope v)) = Ok (minted_admin_envelope v, EmptyString) /\
    ps_Open protection (mkOpenRequest adminSessionScope v) = Ok text /\
    ProtectedValue_Validate v = None /\ len (Fingerprint v) = 32
}.

Lemma minted_admin_refused now now' issuer :
  0 < now ->
  admin_claims_refused now' (minted_admin_claims now issuer)
  = negb ((now - Minute <=? now') && (now' <? now + defaultAdminSessionTTL)).
Proof.
  intros Hnow. unfold admin_claims_refused, minted_admin_claims, IsZero, After, Before. cbn [ac_IssuedAt ac_ExpiresAt].
  assert (Httl : 0 < defaultAdminSessionTTL) by done.
  rewrite (proj2 (Z.eqb_neq now 0)), (proj2 (Z.eqb_neq (now + _) 0)), (proj2 (Z.ltb_lt now (now + _))) by lia. cbn [orb negb].
  rewrite negb_andb. f_equal. unfold adminSessionClockSkew. destruct (Z.ltb_spec (now' + Minute) now), (Z.leb_spec (now - Minute) now'); done || lia.
Qed.

Lemma minted_admin_opens now issuer session :
  0 < now -> MintAdminSession protection now issuer = Ok session -> admin_codec now issuer ->
  len (as_Token session) <= maximumAdminSessionBytes ->
  Principal_Validate issuer = None /\ pn_Role issuer = "admin"%string /\ as_ExpiresAt session = now + defaultAdminSessionTTL /\
  forall now', open_admin_claims DecodeEnvelope DecodeClaims protection now' (as_Token session) =
    if (now - Minute <=? now') && (now' <? now + defaultAdminSessionTTL) then Ok (minted_admin_claims now issuer) else Err ErrUnauthorized.
Proof.
  intros Hnow Hmint [Hclaims Hcodec] Hsize. unfold MintAdminSession in Hmint.
  destruct (Principal_Validate issuer) eqn:Hp; [done|].
  apply try_err_ok in Hmint as [Hr Hmint]. rewrite refuse_if_nil, negb_false_iff, String.eqb_eq in Hr.
  cbv zeta in Hmint. apply bind_result_ok in Hmint as (text & Htext & Hmint).
  apply bind_result_ok in Hmint as (v & Hprot & [= <-]). cbn [as_Token as_ExpiresAt ac_ExpiresAt] in *.
  apply Protect_ok in Hprot as (p & [= <-] & Hreq & Hprot).
  destruct (Hcodec text v Htext Hprot) as (Hdec & Hopen & Hval & Hfp). specialize (Hclaims text Htext).
  split_and!; try done. intros now'. unfold open_admin_claims, decodeAdminSession, encodeAdminSession in *.
  cbv zeta in *. change (mkAdminEnvelope _ _ _) with (minted_admin_envelope v) in *.
  destruct (prefixed_decode adminSessionPrefix (admin_envelope_json (minted_admin_envelope v))) as (Hl & Hpre & Hraw); [apply json_marshal_nonempty|].
  cbv zeta in Hl, Hpre, Hraw. rewrite (proj2 (Z.leb_gt _ _) Hl), (proj2 (Z.ltb_ge _ _) Hsize), Hpre, Hraw. cbn [negb orb].
  unfold decodeAdminSessionJSON. rewrite Hdec. cbn [bind_result fst snd]. change (json_blank EmptyString) with true. cbv iota.
  cbn [ae_Fingerprint ae_Ciphertext ae_EncryptionKeyID minted_admin_envelope]. rewrite Hfp.
  change (32 =? 32) with true. cbn [negb refuse_if try_err].
  replace (mkProtected (Ciphertext v) (Fingerprint v) (KeyID v)) with v by (by destruct v). rewrite Hval. cbn [bind_result].
  unfold NewOpenRequest, OpenRequest_Validate. cbv zeta. cbn [open_Scope open_Value].
  unfold Request_Validate in Hreq. apply seq_err_nil in Hreq as [_ Hreq]. cbn [req_Scope] in Hreq.
  rewrite Hreq, Hval. cbn [errors_Join omap list_omap id try_err bind_result]. rewrite Hopen. cbn [bind_result].
  rewrite Hclaims. cbn [bind_result fst snd]. change (json_blank EmptyString) with true. cbv iota. cbn [bind_result].
  rewrite minted_admin_refused by done. by destruct (_ && _).
Qed.

(** A minted session at any later time and in any later state of its key. *)
Lemma admin_session_runs now issuer session n now' db :
  0 < now -> MintAdminSession protection now issuer = Ok session -> admin_codec now issuer ->
  len (as_Token session) <= maximumAdminSessionBytes -> keys_wf db -> undisturbed n ->
  (pn_KeyID issuer <> EmptyString -> exists row, api_keys db !! pn_KeyID issuer = Some row /\ ak_role row = "admin"%string) ->
  AuthenticateAdmin DecodeEnvelope DecodeClaims protection n now' (as_Token session) db =
  (if (now - Minute <=? now') && (now' <? now + defaultAdminSessionTTL)
      && match api_keys db !! pn_KeyID issuer with Some row => is_active row | None => true end
   then Ok (mkAdminPrincipal issuer (now + defaultAdminSessionTTL)) else Err ErrUnauthorized, db).
Proof.
  intros Hnow Hmint Hcodec Hsize Hwf Hn Hkey.
  destruct (minted_admin_opens _ _ _ Hnow Hmint Hcodec Hsize) as (Hpv & Hrole & Hexp & Hopen).
  unfold AuthenticateAdmin. unfold tx_bind at 1, tx_lift. rewrite Hopen. destruct (_ && _); [|done]. cbn [andb].
  assert (Hissuer : mkPrincipal (pn_KeyID issuer) "admin" EmptyString EmptyString = issuer).
  { unfold Principal_Validate in Hpv. rewrite Hrole in Hpv. cbn in Hpv. err_simpl in Hpv. destruct Hpv as [Hp Ha].
    destruct issuer; cbn in *. by subst. }
  assert (Hok : AdminPrincipal_Validate (mkAdminPrincipal issuer (now + defaultAdminSessionTTL)) = None).
  { unfold AdminPrincipal_Validate. cbn [adp_Principal adp_ExpiresAt]. rewrite Hrole, Hpv. cbn.
    unfold validateAdminSessionExpiry, IsZero. assert (0 < defaultAdminSessionTTL) by done.
    by rewrite (proj2 (Z.eqb_neq (now + defaultAdminSessionTTL) 0)) by lia. }
  unfold tx_bind, admin_issuer. cbn [ac_IssuerKeyID minted_admin_claims ac_ExpiresAt].
  destruct (String.eqb_spec (pn_KeyID issuer) EmptyString) as [E|E].
  { rewrite E in *. unfold tx_ret, APIKeyRoleAdmin. cbv beta iota zeta. rewrite Hissuer, Hok. destruct (api_keys db !! EmptyString) as [row|] eqn:Hrow; [|done].
    pose proof (record_id_valid _ (ko_record _ _ (Hwf _ _ Hrow))) as Hbad. by cbn in Hbad. }
  destruct (Hkey E) as (row & Hrow & Hadm). rewrite Hrow. unfold tx_bind.
  rewrite (load_key_found n _ _ row db Hwf Hn Hrow). destruct (is_active row); [|done].
  rewrite bool_decide_true by (by apply Hwf). unfold key_record. cbn [akr_ID akr_Role]. rewrite Hadm, !String.eqb_refl. cbn [negb orb].
  unfold tx_ret, APIKeyRoleAdmin. cbv beta iota zeta. by rewrite Hissuer, Hok.
Qed.
End AdminSessionLemmas.

Section Sessions.
Context {Operations : Store operations_db}.
Context (DecodeEnvelope : string -> result (customerSessionEnvelope * string)).
Context (DecodeClaims : string -> result (customerSessionClaims * string)).
Context (DecodeAdminEnvelope : string -> result (adminSessionEnvelope * string)).
Context (DecodeAdminClaims : string -> result (adminSessionClaims * string)).
Context (protection : ProtectionService).

(** C25. A session authenticates only while it runs and its issuer stands: an accepted
    customer token is of the customer kind and size, opens under the customer purpose of
    the very application it names, has not expired, and was issued by a key of that
    application that is stored and not revoked now; an accepted dashboard token opens
    under the fixed dashboard scope, has not expired, was not issued in the future
    beyond one minute, and names the bootstrap administrator or a stored administrator
    key that is not revoked.  The principal is what the opened claims and the stored key
    say, and nothing is changed. *)
Theorem sessions_authentic n now token db :
  keys_wf db ->
  (forall p db', AuthenticateCustomer DecodeEnvelope DecodeClaims protection n now token db = (Ok p, db') ->
     db' = db /\ customer_session DecodeEnvelope DecodeClaims protection now token p db) /\
  (forall p db', AuthenticateAdmin DecodeAdminEnvelope DecodeAdminClaims protection n now token db = (Ok p, db') ->
     db' = db /\ admin_session DecodeAdminEnvelope DecodeAdminClaims protection now token p db).
Proof. intros Hwf. split; intros p db' H; [by eapply AuthenticateCustomer_ok|by eapply AuthenticateAdmin_ok]. Qed.

(** A minted session works for exactly its lifetime: a customer session
    authenticates its issuer and its customer until fifteen minutes after it was minted,
    a dashboard session authenticates its administrator until twelve hours after (and
    from one minute before, on a clock that runs behind), both only while the issuing key
    is not revoked; afterwards, or once it is, they are unauthorized. *)
Theorem sessions_expire n now now' db :
  0 < now -> keys_wf db -> undisturbed n ->
  (forall issuer external session row,
     MintCustomerSession protection now issuer external = Ok session ->
     customer_codec DecodeEnvelope DecodeClaims protection now issuer external ->
     len (cs_Token session) <= maximumCustomerSessionBytes ->
     api_keys db !! pn_KeyID issuer = Some row -> ak_role row = pn_Role issuer ->
     ak_project row = Some (pn_ProjectID issuer) -> ak_application row = Some (pn_ApplicationID issuer) ->
     AuthenticateCustomer DecodeEnvelope DecodeClaims protection n now' (cs_Token session) db =
     (if (now' <? now + 15 * Minute) && is_active row
      then Ok (mkCustomerPrincipal issuer external (now + 15 * Minute)) else Err ErrUnauthorized, db)) /\
  (forall issuer session,
     MintAdminSession protection now issuer = Ok session ->
     admin_codec DecodeAdminEnvelope DecodeAdminClaims protection now issuer ->
     len (as_Token session) <= maximumAdminSessionBytes ->
     (pn_KeyID issuer <> EmptyString -> exists row, api_keys db !! pn_KeyID issuer = Some row /\ ak_role row = "admin"%string) ->
     AuthenticateAdmin DecodeAdminEnvelope DecodeAdminClaims protection n now' (as_Token session) db =
     (if (now - Minute <=? now') && (now' <? now + 12 * Hour)
         && match api_keys db !! pn_KeyID issuer with Some row => is_active row | None => true end
      then Ok (mkAdminPrincipal issuer (now + 12 * Hour)) else Err ErrUnauthorized, db)).
Proof. intros Hnow Hwf Hn. split; intros; [by apply customer_session_runs|by apply admin_session_runs]. Qed.
End Sessions.

(** ** Derivation slots *)

(** The slots of one process: what each step does to the number that are occupied. *)
Inductive slot_step (service : AuthService) : Z -> Z -> Prop :=
| slot_taken occupied : occupied < au_derivationSlots service -> slot_step service occupied (occupied + 1)
| slot_released occupied : 0 < occupied -> slot_step service occupied (occupied - 1).

(** However requests interleave, no more derivations run at once than there are slots,
    and one that finds them all occupied is refused at once. *)
Lemma derivations_bounded service occupied occupied' :
  0 < au_derivationSlots service -> rtc (slot_step service) occupied occupied' -> 0 <= occupied <= au_derivationSlots service ->
  0 <= occupied' <= au_derivationSlots service.
Proof.
  intros Hpos. induction 1 as [|x y z Hstep _ IH]; [done|]. intros Hx. apply IH. inversion Hstep; subst; lia.
Qed.

Lemma derivation_refused IDKey service env secret salt :
  dv_context env = None -> au_derivationSlots service <= dv_occupied env ->
  deriveVerifier IDKey service env secret salt = Err ErrCapacity.
Proof. intros Hc Ho. unfold deriveVerifier. rewrite Hc. cbn. by rewrite (proj2 (Z.ltb_ge _ _) Ho). Qed.

(** ** Witnesses *)

Definition quiet_operations : Store operations_db :=
  runner_Store quiet_attempts ltac:(intros n k; reflexivity) ltac:(intros n k c H; discriminate H).
#[local] Existing Instance quiet_operations.

Lemma quiet_undisturbed n : undisturbed (S := operations_db) n.
Proof.
  intros A op s. destruct (op s) as [[a|e] s'] eqn:E.
  - cbn. unfold transactOnce. cbn. by rewrite E.
  - intros He. cbn. unfold transactOnce. cbn. by rewrite E, He.
Qed.

(** A stand-in verifier that can be evaluated. *)
Definition demo_IDKey (secret salt : string) (_ _ _ _ : Z) : string := Sum256 (secret ++ salt)%string.
Definition demo_service : AuthService := mkAuthService (Some (Sum256 "bootstrap administrator key, 32 b")) 4.
Definition demo_random (k : nat) : result string :=
  Ok (of_bytes (replicate (nth k [12; 32; 16] 0)%nat (Z.of_nat k + 1))).
Definition calm : derivation := mkDerivation None 0.
Definition demo_principal : Principal := mkPrincipal EmptyString "application" "project-1" "app-1".

Definition demo_created : operations_db :=
  (Create demo_IDKey demo_service 0 demo_random calm (7 * Second) demo_principal demo_keys).2.
Definition demo_id : string := of_bytes (replicate 12 1).
Definition demo_bearer : string :=
  (bearerPrefix ++ EncodeToString demo_id ++ "." ++ RawURLEncode (of_bytes (replicate 32 2)))%string.

Lemma demo_created_ok :
  Create demo_IDKey demo_service 0 demo_random calm (7 * Second) demo_principal demo_keys = (Ok demo_bearer, demo_created).
Proof. unfold demo_created. apply answered_result. vm_compute. reflexivity. Qed.

Lemma demo_bearer_not_bootstrap : au_bootstrapAdminHash demo_service <> Some (Sum256 demo_bearer).
Proof.
  intros H. apply (f_equal (fun h => match h with Some s => bytes s | None => [] end)) in H. vm_compute in H. discriminate H.
Qed.

(** The first administrator is revoked again, and a third key fails to be created. *)
Definition demo_later : list key_call :=
  [CallRevokeKey "key-3" (8 * Second); CallPutKey (demo_key "key-2" "admin" EmptyString EmptyString (9 * Second))].

Lemma demo_key_active row :
  api_keys (run_keys demo_later demo_created) !! EncodeToString demo_id = Some row -> ak_revoked row = None.
Proof.
  assert (H : option_map ak_revoked (api_keys (run_keys demo_later demo_created) !! EncodeToString demo_id) = Some None)
    by (vm_compute; reflexivity).
  intros Hrow. rewrite Hrow in H. by injection H.
Qed.

Lemma demo_later_clocks : Forall (fun call => normalizeTime (key_call_clock call) <> 0) demo_later.
Proof. by repeat constructor. Qed.

Lemma bearer_round_trip_witness :
  Create demo_IDKey demo_service 0 demo_random calm (7 * Second) demo_principal demo_keys = (Ok demo_bearer, demo_created) /\
  Authenticate demo_IDKey demo_service 0 calm demo_bearer (run_keys demo_later demo_created)
  = (Ok (mkPrincipal (EncodeToString demo_id) "application" "project-1" "app-1"), run_keys demo_later demo_created).
Proof.
  split; [exact demo_created_ok|].
  destruct (bearer_round_trip demo_IDKey demo_service 0 demo_random calm (7 * Second) demo_principal demo_keys demo_bearer
              demo_created demo_id (of_bytes (replicate 32 2)) demo_keys_wf (fun H => ltac:(discriminate H)) eq_refl eq_refl eq_refl eq_refl
              demo_created_ok demo_bearer_not_bootstrap demo_later demo_later_clocks) as (row & Hrow & Hauth).
  rewrite (Hauth 0%nat calm (quiet_undisturbed 0) eq_refl eq_refl).
  rewrite (demo_key_active row Hrow). exact eq_refl.
Defined.

Lemma bearer_authentic_witness :
  exists p, Authenticate demo_IDKey demo_service 0 calm demo_bearer demo_created = (Ok p, demo_created) /\ Principal_Validate p = None.
Proof.
  destruct (Authenticate demo_IDKey demo_service 0 calm demo_bearer demo_created) as [r db'] eqn:E.
  assert (Hr : match r with Ok _ => true | Err _ => false end = true).
  { change r with (r, db').1. rewrite <- E. vm_compute. reflexivity. }
  destruct r as [p|e]; [|discriminate Hr]. exists p.
  destruct (bearer_authentic demo_IDKey demo_service 0 calm demo_bearer demo_created p db' E)
    as [-> [[Hb _]|(id & secret & encoded & row & Ha)]].
  - exfalso. exact (demo_bearer_not_bootstrap Hb).
  - split; [reflexivity|]. apply Ha.
Defined.

(** A stand-in protection service and decoders for one session each. *)
Definition demo_protection : ProtectionService :=
  mkProtection (fun request => Ok (mkProtected (scope_Purpose (req_Scope request) ++ req_plaintext request)%string
                                     (of_bytes (replicate 32 5)) "kek-1"))
               (fun request => Ok (TrimPrefix (Ciphertext (open_Value request)) (scope_Purpose (open_Scope request)))).
Definition demo_value (purpose text : string) : ProtectedValue :=
  mkProtected (purpose ++ text)%string (of_bytes (replicate 32 5)) "kek-1".
Definition decode_as {A} (expected : string) (a : A) (text : string) : result (A * string) :=
  if String.eqb text expected then Ok (a, EmptyString) else Err (New "invalid JSON").

Lemma decode_as_self {A} expected (a : A) : decode_as expected a expected = Ok (a, EmptyString).
Proof. unfold decode_as. by rewrite String.eqb_refl. Qed.

Lemma demo_value_valid purpose text : purpose <> EmptyString -> ProtectedValue_Validate (demo_value purpose text) = None.
Proof.
  intros Hp. unfold ProtectedValue_Validate, demo_value. cbn [Ciphertext Fingerprint KeyID].
  destruct purpose as [|c purpose]; [done|]. change (len (String c purpose ++ text)%string) with (Z.of_nat (Datatypes.S (String.length (purpose ++ text)))).
  rewrite (proj2 (Z.eqb_neq _ 0)) by lia. vm_compute. reflexivity.
Qed.

(** The decoders of one session. *)
Definition customer_envelope_of (issuer : Principal) (text : string) : customerSessionEnvelope :=
  minted_envelope issuer (demo_value customerSessionPurpose text).
Lemma demo_customer_codec now issuer external text :
  customer_claims_json (minted_claims now issuer external) = Ok text ->
  customer_codec (decode_as (customer_envelope_json (customer_envelope_of issuer text)) (customer_envelope_of issuer text))
    (decode_as text (minted_claims now issuer external)) demo_protection now issuer external.
Proof.
  intros Htext. constructor.
  - intros t Ht. rewrite Htext in Ht. injection Ht as <-. apply decode_as_self.
  - intros t v Ht Hv. rewrite Htext in Ht. injection Ht as <-. injection Hv as <-. split; [apply decode_as_self|].
    cbn [ps_Open demo_protection open_Value open_Scope Ciphertext scope_Purpose req_Scope req_plaintext customer_session_scope].
    rewrite TrimPrefix_app. split; [done|]. by split; [apply demo_value_valid|].
Qed.

Definition admin_envelope_of (text : string) : adminSessionEnvelope := minted_admin_envelope (demo_value adminSessionPurpose text).
Lemma demo_admin_codec now issuer text :
  admin_claims_json (minted_admin_claims now issuer) = Ok text ->
  admin_codec (decode_as (admin_envelope_json (admin_envelope_of text)) (admin_envelope_of text))
    (decode_as text (minted_admin_claims now issuer)) demo_protection now issuer.
Proof.
  intros Htext. constructor.
  - intros t Ht. rewrite Htext in Ht. injection Ht as <-. apply decode_as_self.
  - intros t v Ht Hv. rewrite Htext in Ht. injection Ht as <-. injection Hv as <-. split; [apply decode_as_self|].
    cbn [ps_Open demo_protection open_Value open_Scope Ciphertext scope_Purpose req_Scope req_plaintext adminSessionScope].
    rewrite TrimPrefix_app. split; [done|]. by split; [apply demo_value_valid|].
Qed.

Definition ok_or {A} (a : A) (r : result A) : A := match r with Ok x => x | Err _ => a end.
Lemma ok_or_ok {A} (a : A) r : match r with Ok _ => true | Err _ => false end = true -> r = Ok (ok_or a r).
Proof. by destruct r. Qed.

Definition demo_issuer : Principal := mkPrincipal "key-2" "application" "project-1" "app-1".
Definition demo_admin : Principal := mkPrincipal "key-3" "admin" EmptyString EmptyString.
Definition customer_text : string := ok_or EmptyString (customer_claims_json (minted_claims unixEpoch demo_issuer "user-1")).
Definition admin_text : string := ok_or EmptyString (admin_claims_json (minted_admin_claims unixEpoch demo_admin)).
Definition customer_minted : CustomerSession :=
  ok_or (mkCustomerSession EmptyString 0) (MintCustomerSession demo_protection unixEpoch demo_issuer "user-1").
Definition admin_minted : AdminSession :=
  ok_or (mkAdminSession EmptyString 0) (MintAdminSession demo_protection unixEpoch demo_admin).

Lemma customer_text_ok : customer_claims_json (minted_claims unixEpoch demo_issuer "user-1") = Ok customer_text.
Proof. apply ok_or_ok. vm_compute. reflexivity. Qed.
Lemma admin_text_ok : admin_claims_json (minted_admin_claims unixEpoch demo_admin) = Ok admin_text.
Proof. apply ok_or_ok. vm_compute. reflexivity. Qed.
Lemma customer_minted_ok : MintCustomerSession demo_protection unixEpoch demo_issuer "user-1" = Ok customer_minted.
Proof. apply ok_or_ok. vm_compute. reflexivity. Qed.
Lemma admin_minted_ok : MintAdminSession demo_protection unixEpoch demo_admin = Ok admin_minted.
Proof. apply ok_or_ok. vm_compute. reflexivity. Qed.
Lemma minted_sizes : len (cs_Token customer_minted) <= maximumCustomerSessionBytes /\ len (as_Token admin_minted) <= maximumAdminSessionBytes.
Proof. split; apply Z.leb_le; vm_compute; reflexivity. Qed.

Lemma demo_keys_rows :
  (exists row, api_keys demo_keys !! "key-2"%string = Some row /\ ak_role row = "application"%string /\
     ak_project row = Some "project-1"%string /\ ak_application row = Some "app-1"%string /\ is_active row = true) /\
  exists row, api_keys demo_keys !! "key-3"%string = Some row /\ ak_role row = "admin"%string /\ is_active row = true.
Proof. split; eexists; split_and!; vm_compute; reflexivity. Qed.

Lemma sessions_expire_witness :
  (AuthenticateCustomer (decode_as (customer_envelope_json (customer_envelope_of demo_issuer customer_text)) (customer_envelope_of demo_issuer customer_text))
    (decode_as customer_text (minted_claims unixEpoch demo_issuer "user-1")) demo_protection 0
    (unixEpoch + 14 * Minute) (cs_Token customer_minted) demo_keys).1
  = Ok (mkCustomerPrincipal demo_issuer "user-1" (unixEpoch + 15 * Minute)) /\
  (AuthenticateAdmin (decode_as (admin_envelope_json (admin_envelope_of admin_text)) (admin_envelope_of admin_text))
    (decode_as admin_text (minted_admin_claims unixEpoch demo_admin)) demo_protection 0
    (unixEpoch + 14 * Minute) (as_Token admin_minted) demo_keys).1
  = Ok (mkAdminPrincipal demo_admin (unixEpoch + 12 * Hour)).
Proof.
  destruct demo_keys_rows as [(row & Hrow & Hr & Hp & Ha & Hact) (arow & Harow & Hadm & Haact)].
  destruct (sessions_expire
    (decode_as (customer_envelope_json (customer_envelope_of demo_issuer customer_text)) (customer_envelope_of demo_issuer customer_text))
    (decode_as customer_text (minted_claims unixEpoch demo_issuer "user-1"))
    (decode_as (admin_envelope_json (admin_envelope_of admin_text)) (admin_envelope_of admin_text))
    (decode_as admin_text (minted_admin_claims unixEpoch demo_admin))
    demo_protection 0 unixEpoch (unixEpoch + 14 * Minute) demo_keys eq_refl demo_keys_wf (quiet_undisturbed 0)) as [Hcustomer Hadmin].
  split.
  - rewrite (Hcustomer demo_issuer "user-1"%string customer_minted row customer_minted_ok
               (demo_customer_codec _ _ _ _ customer_text_ok) (proj1 minted_sizes) Hrow Hr Hp Ha).
    rewrite Hact. reflexivity.
  - rewrite (Hadmin demo_admin admin_minted admin_minted_ok (demo_admin_codec _ _ _ admin_text_ok) (proj2 minted_sizes)
               (fun _ => ex_intro _ arow (conj Harow Hadm))).
    cbn [pn_KeyID demo_admin]. rewrite Harow, Haact. reflexivity.
Defined.

Lemma sessions_authentic_witness :
  let token := cs_Token customer_minted in
  exists p, customer_session (decode_as (customer_envelope_json (customer_envelope_of demo_issuer customer_text)) (customer_envelope_of demo_issuer customer_text))
    (decode_as customer_text (minted_claims unixEpoch demo_issuer "user-1")) demo_protection (unixEpoch + Minute) token p demo_keys /\
    cup_ExternalCustomerID p = "user-1"%string.
Proof.
  intros token. destruct demo_keys_rows as [(row & Hrow & Hr & Hp & Ha & Hact) _].
  pose proof (customer_session_runs _ _ demo_protection unixEpoch demo_issuer "user-1" customer_minted 0 (unixEpoch + Minute)
    demo_keys row eq_refl customer_minted_ok (demo_customer_codec _ _ _ _ customer_text_ok) (proj1 minted_sizes)
    demo_keys_wf (quiet_undisturbed 0) Hrow Hr Hp Ha) as H.
  rewrite Hact in H. eexists. split.
  - apply (proj1 (sessions_authentic _ _ (fun _ => Err ErrUnauthorized) (fun _ => Err ErrUnauthorized) demo_protection
      0 (unixEpoch + Minute) token demo_keys demo_keys_wf) _ demo_keys H).
  - reflexivity.
Defined.
