(* ===== verification/Credentials.v ===== *)
(** Provider credentials: the service that protects and resolves them
    ([internal/credentials/service.go]) and their table
    ([internal/persistence/postgres/credential.go]).

    The table is a finite map over the catalog's.  A row is at a revision that every
    rotation increments; a timestamp column holds the transaction's time.  Row locks
    order the transactions that rotate the same credential: a sequence of calls here is
    the order they got them in.  The CHECK on control characters is taken as Go's and
    [btrim] removes spaces only.  Defensive copies and the overwriting of plaintexts do
    not change what was computed. *)

From S2P Require Import Prelude GoText GoTime GoHttp GoCodec Sha256 GoMime Core Purchase Protection Persistence Stores Projector Repository EntitlementStore Runner Verification Webhooks QueueStore Identity Catalog OperationsStore Credential Auth AesGcm Keyring.
From stdpp Require Import base list strings gmap.
Local Open Scope Z_scope.

(** ** The table *)

Record credential_row : Type := mkCredentialRow {
  cl_project : ProjectID;
  cl_content_type : string;
  cl_schema_version : Z;
  cl_ciphertext : string;
  cl_fingerprint : string;
  cl_key : string;
  cl_revision : Z;
  cl_created : time;
  cl_updated : time
}.

Record credential_db : Type := mkCredentialDb {
  cdb_catalog : catalog_db;
  credential_rows : gmap (ApplicationID * string) credential_row
}.

Definition with_credentials f (db : credential_db) : credential_db :=
  mkCredentialDb (cdb_catalog db) (f (credential_rows db)).

Definition credential_slot (key : CredentialKey) : ApplicationID * string := (ck_ApplicationID key, ck_Kind key).

(** The CHECK constraints of the table. *)
Definition plain_text (s : string) : bool :=
  negb (String.eqb s EmptyString) && btrimmed s && negb (existsb IsControl (runes s)).
Definition credential_row_valid (kind : string) (row : credential_row) : bool :=
  plain_text kind && plain_text (cl_content_type row) && (0 <? cl_schema_version row)
  && (0 <? len (cl_ciphertext row)) && (len (cl_fingerprint row) =? 32) && plain_text (cl_key row)
  && (0 <? cl_revision row) && (cl_created row <=? cl_updated row).

Definition credential_record (slot : ApplicationID * string) (row : credential_row) : CredentialRecord :=
  mkCredentialRecord (mkCredentialKey (cl_project row) slot.1 slot.2) (cl_content_type row) (cl_schema_version row)
    (mkProtected (cl_ciphertext row) (cl_fingerprint row) (cl_key row)) (cl_revision row) (cl_created row) (cl_updated row).

(** The row of a write. *)
Definition credential_of (write : CredentialWrite) (revision : Z) (created updated : time) : credential_row :=
  mkCredentialRow (ck_ProjectID (cw_Key write)) (cw_ContentType write) (cw_SchemaVersion write)
    (Ciphertext (cw_Payload write)) (Fingerprint (cw_Payload write)) (KeyID (cw_Payload write)) revision created updated.

(** ** The repository *)

(* internal/persistence/contracts.go: CredentialRepository *)
Class CredentialRepository (S : Type) := {
  Credential_ : CredentialKey -> Tx S CredentialRecord;
  PutCredential : CredentialWrite -> Tx S CredentialRecord
}.

(* internal/persistence/postgres/credential.go: scanCredential *)
Definition scanCredential (slot : ApplicationID * string) (row : credential_row) : pg_error + CredentialRecord :=
  if negb (len (cl_fingerprint row) =? 32)
  then inl (OtherError (New "stored credential fingerprint has invalid length"))
  else
    let record := credential_record slot row in
    match CredentialRecord_Validate record with
    | Some e => inl (OtherError (Wrapf "validate stored application credential: %w" [] e))
    | None => inr record
    end.

(** A statement's own error is classified by its caller. *)
Definition statement_error (operation : string) (e : pg_error) : gerror :=
  default (New operation) (classifyError operation (Some e)).

(* internal/persistence/postgres/credential.go: transaction.loadCredential *)
Definition loadCredential (key : CredentialKey) (db : credential_db) : result CredentialRecord :=
  let failed e := Err (statement_error "load application credential" e) in
  match credential_rows db !! credential_slot key with
  | Some row =>
      if String.eqb (cl_project row) (ck_ProjectID key) then
        match scanCredential (credential_slot key) row with
        | inl e => failed e
        | inr record => Ok record
        end
      else failed ErrNoRows
  | None => failed ErrNoRows
  end.

(* internal/persistence/postgres/credential.go: transaction.Credential *)
Definition pg_Credential (key : CredentialKey) : Tx credential_db CredentialRecord :=
  tx_check (CredentialKey_Validate key) (fun db => (loadCredential key db, db)).

Definition same_key (a b : CredentialKey) : bool :=
  String.eqb (ck_ProjectID a) (ck_ProjectID b) && String.eqb (ck_ApplicationID a) (ck_ApplicationID b)
  && String.eqb (ck_Kind a) (ck_Kind b).

(* internal/persistence/postgres/credential.go: credentialWriteMatches *)
Definition credentialWriteMatches (record : CredentialRecord) (write : CredentialWrite) : bool :=
  same_key (cr_Key record) (cw_Key write) && String.eqb (cr_ContentType record) (cw_ContentType write)
  && (cr_SchemaVersion record =? cw_SchemaVersion write)
  && String.eqb (Fingerprint (cr_Payload record)) (Fingerprint (cw_Payload write)).

Section Writing.
Context (now : time).

(** Columns of 32 and 64 bits. *)
Definition maxInt32 : Z := 2 ^ 31 - 1.

(** [ON CONFLICT (application_id, kind) DO NOTHING RETURNING ...]. *)
(* internal/persistence/postgres/credential.go: transaction.insertCredential *)
Definition insertCredential (write : CredentialWrite) (db : credential_db) : (pg_error + CredentialRecord) * credential_db :=
  let slot := credential_slot (cw_Key write) in
  let row := credential_of write 1 now now in
  if maxInt32 <? cw_SchemaVersion write then (inl (OtherError (New "schema_version is out of range")), db)
  else if negb (credential_row_valid (ck_Kind (cw_Key write)) row)
  then (inl (PgError "23514" "application_credentials"), db)
  else match credential_rows db !! slot with
       | Some _ => (inl ErrNoRows, db)
       | None =>
           if negb (application_in (ck_ProjectID (cw_Key write)) (ck_ApplicationID (cw_Key write)) (cdb_catalog db))
           then (inl (PgError "23503" "application_credentials_application_fk"), db)
           else (scanCredential slot row, with_credentials <[slot := row]> db)
       end.

(* internal/persistence/postgres/credential.go: transaction.updateCredential *)
Definition updateCredential (write : CredentialWrite) (db : credential_db) : (pg_error + CredentialRecord) * credential_db :=
  let slot := credential_slot (cw_Key write) in
  if maxInt32 <? cw_SchemaVersion write then (inl (OtherError (New "schema_version is out of range")), db)
  else match credential_rows db !! slot with
       | None => (inl ErrNoRows, db)
       | Some row =>
           if negb (String.eqb (cl_project row) (ck_ProjectID (cw_Key write)) && (cl_revision row =? cw_ExpectedRevision write))
           then (inl ErrNoRows, db)
           else
             let row' := credential_of write (cl_revision row + 1) (cl_created row) now in
             if maxInt64 <? cl_revision row + 1 then (inl (PgError "22003" EmptyString), db)
             else if negb (credential_row_valid (ck_Kind (cw_Key write)) row')
             then (inl (PgError "23514" "application_credentials"), db)
             else (scanCredential slot row', with_credentials <[slot := row']> db)
       end.

(* internal/persistence/postgres/credential.go: transaction.resolveCredentialWriteMiss *)
Definition resolveCredentialWriteMiss (write : CredentialWrite) (db : credential_db) : result CredentialRecord :=
  let conflict := Wrapf "put application credential: %w" [] ErrConflict in
  match loadCredential (cw_Key write) db with
  | Err e =>
      if is_not_found e && (cw_ExpectedRevision write =? 0) then Err conflict else Err e
  | Ok record => if credentialWriteMatches record write then Ok record else Err conflict
  end.

(* internal/persistence/postgres/credential.go: transaction.PutCredential *)
Definition pg_PutCredential (write : CredentialWrite) : Tx credential_db CredentialRecord :=
  tx_check (CredentialWrite_Validate write) (fun db =>
    match (if cw_ExpectedRevision write =? 0 then insertCredential write db else updateCredential write db) with
    | (inr record, db') => (Ok record, db')
    | (inl ErrNoRows, db') => (resolveCredentialWriteMiss write db', db')
    | (inl e, db') => (Err (statement_error "put application credential" e), db')
    end).
End Writing.

(** ** The service *)

(** [Kind], a named string there. *)
(* internal/credentials/service.go: Metadata *)
Record Metadata : Type := mkMetadata {
  md_ProjectID : ProjectID;
  md_ApplicationID : ApplicationID;
  md_Kind : string;
  md_ContentType : string;
  md_SchemaVersion : Z;
  md_Revision : Z;
  md_CreatedAt : time;
  md_UpdatedAt : time
}.

(* internal/credentials/service.go: credentialProtectionPurposePrefix *)
Definition credentialProtectionPurposePrefix : string := "store_credential/".

(* internal/credentials/service.go: lengthPrefixedPurposeFields *)
Definition lengthPrefixedPurposeFields (fields : list string) : string :=
  fold_left (fun purpose field => purpose ++ FormatInt (len field) ++ ":" ++ field)%string fields EmptyString.

(* internal/credentials/service.go: credentialScope *)
Definition credentialScope (application : Application) (kind contentType : string) (schemaVersion : Z) : Scope :=
  mkScope (app_ProjectID application) (app_ID application)
    (credentialProtectionPurposePrefix ++ lengthPrefixedPurposeFields
       [sa_Provider (app_Store application); sa_Environment (app_Store application);
        sa_ID (app_Store application); kind; contentType; FormatInt schemaVersion]).

(* internal/credentials/service.go: metadataFromRecord *)
Definition metadataFromRecord (record : CredentialRecord) : Metadata :=
  mkMetadata (ck_ProjectID (cr_Key record)) (ck_ApplicationID (cr_Key record)) (ck_Kind (cr_Key record))
    (cr_ContentType record) (cr_SchemaVersion record) (cr_Revision record) (cr_CreatedAt record) (cr_UpdatedAt record).

(* internal/credentials/service.go: credentialPersistenceError *)
Definition credentialPersistenceError (operation : string) (e : gerror) : gerror :=
  if is_not_found e then Wrapf (operation ++ ": %w") [] ErrCredentialNotFound else Wrapf (operation ++ ": %w") [] e.

Section Service.
Context {S : Type} `{Catalog : !CatalogRepository S, Credentials : !CredentialRepository S, Operations : !Store S}.

(** Nil dependencies are [None]. *)
(* internal/credentials/service.go: NewService *)
Definition credentials_NewService (store : option unit) (protectionService : option ProtectionService) : result ProtectionService :=
  match store with
  | None => Err (New "credential persistence store is required")
  | Some _ => match protectionService with
              | None => Err (New "credential protection service is required")
              | Some protection => Ok protection
              end
  end.

Context (protection : ProtectionService).

(* internal/credentials/service.go: Service.Put *)
Definition cred_Put (n : nat) (application : Application) (credential : Credential) (expectedRevision : Z) : Tx S Metadata :=
  match errors_Join [Application_Validate application; Credential_Validate credential] with
  | Some e => invalid_input e
  | None =>
  if expectedRevision <? 0 then invalid_input (New "credential expected revision must not be negative")
  else
    let plaintext := Credential_Bytes credential in
    do protected <- tx_lift (wrap_result (Wrapf "protect application credential: %w" [])
                      (Protect (Some (ps_Protect protection))
                         (credentialScope application (cred_Kind credential) (cred_ContentType credential)
                            (cred_SchemaVersion credential)) plaintext));
    let write := mkCredentialWrite
      (mkCredentialKey (app_ProjectID application) (app_ID application) (cred_Kind credential))
      (cred_ContentType credential) (cred_SchemaVersion credential) protected expectedRevision in
    do record <- tx_catch (Wrapf "put application credential: %w" []) (StoreTransact n (
      do authoritative <- Application_ (app_ProjectID application) (app_ID application);
      if negb (bool_decide (authoritative = application))
      then tx_err (Wrapf "put application credential scope: %w" [] ErrConflict)
      else PutCredential write));
    tx_ret (metadataFromRecord record)
  end.

(* internal/credentials/service.go: Service.Credential *)
Definition cred_Credential (n : nat) (application : Application) (kind : string) : Tx S Credential :=
  tx_check (errors_Join [Application_Validate application; CredentialKind_Validate kind]) (
  let key := mkCredentialKey (app_ProjectID application) (app_ID application) kind in
  do record <- tx_catch (credentialPersistenceError "resolve application credential") (StoreTransact n (
    do authoritative <- Application_ (app_ProjectID application) (app_ID application);
    if negb (bool_decide (authoritative = application)) then tx_err ErrNotFound else Credential_ key));
  tx_lift (
    let* openRequest := wrap_result (Wrapf "prepare application credential opening: %w" [])
      (NewOpenRequest (credentialScope application kind (cr_ContentType record) (cr_SchemaVersion record)) (cr_Payload record)) in
    let* plaintext := wrap_result (Wrapf "open application credential: %w" []) (ps_Open protection openRequest) in
    wrap_result (Wrapf "validate opened application credential: %w" [])
      (NewCredential kind (cr_ContentType record) (cr_SchemaVersion record) plaintext))).
End Service.

(** ** The store *)

Definition over_catalog {A} (m : Tx catalog_db A) : Tx credential_db A :=
  tx_zoom cdb_catalog (fun catalog db => mkCredentialDb catalog (credential_rows db)) m.
Definition over_identity {A} (m : Tx identity_db A) : Tx credential_db A := over_catalog (tx_zoom cat_identity put_identity m).

#[export] Instance credential_catalog : CatalogRepository credential_db := {|
  Application_ := fun p a => over_catalog (pg_Application p a);
  CustomerByExternalID := fun p e => over_identity (id_CustomerByExternalID p e);
  CustomerInClosure := fun p c d => over_identity (id_CustomerInClosure p c d);
  CatalogProducts := fun p a products => over_catalog (pg_CatalogProducts p a products)
|}.

#[export] Instance credential_repository (now : time) : CredentialRepository credential_db :=
  {| Credential_ := pg_Credential; PutCredential := pg_PutCredential now |}.

(** ** What a write leaves *)

Lemma same_key_eq a b : same_key a b = true <-> a = b.
Proof.
  unfold same_key. rewrite !andb_true_iff, !String.eqb_eq. destruct a, b. cbn. split; [by intros [[-> ->] ->]|by intros [= -> -> ->]].
Qed.

(** A stored row reads back. *)
Definition readable (slot : ApplicationID * string) (row : credential_row) : Prop :=
  len (cl_fingerprint row) = 32 /\ CredentialRecord_Validate (credential_record slot row) = None.
Definition credentials_wf (db : credential_db) : Prop :=
  forall slot row, credential_rows db !! slot = Some row -> readable slot row.

Lemma credential_scan_ok slot row record :
  scanCredential slot row = inr record <-> readable slot row /\ record = credential_record slot row.
Proof.
  unfold scanCredential, readable. destruct (Z.eqb_spec (len (cl_fingerprint row)) 32); cbn [negb]; [|naive_solver].
  destruct (CredentialRecord_Validate _); naive_solver.
Qed.

Lemma credential_scanned slot row :
  scanCredential slot row = inr (credential_record slot row) \/ exists e, scanCredential slot row = inl (OtherError e).
Proof.
  unfold scanCredential. destruct (negb _); [right; by eexists|]. destruct (CredentialRecord_Validate _); [right; by eexists|by left].
Qed.

Lemma loadCredential_ok key db record :
  loadCredential key db = Ok record <->
  exists row, credential_rows db !! credential_slot key = Some row /\ cl_project row = ck_ProjectID key /\
    readable (credential_slot key) row /\ record = credential_record (credential_slot key) row.
Proof.
  unfold loadCredential. destruct (credential_rows db !! credential_slot key) as [row|]; [|naive_solver].
  destruct (String.eqb_spec (cl_project row) (ck_ProjectID key)) as [Hp|Hp]; [|naive_solver].
  destruct (scanCredential _ _) as [err|r] eqn:E; [|apply credential_scan_ok in E as [? ->]; naive_solver].
  split; [done|]. intros (row' & [= <-] & _ & Hr & _).
  rewrite (proj2 (credential_scan_ok _ row _) (conj Hr eq_refl)) in E. done.
Qed.

Lemma record_key key row : cl_project row = ck_ProjectID key -> cr_Key (credential_record (credential_slot key) row) = key.
Proof. destruct key. cbn. by intros ->. Qed.

(** What a write that succeeds leaves: a new row at the next revision, or the matching
    row that was there. *)
Definition credential_written (now : time) (write : CredentialWrite) (db : credential_db) (row : credential_row) : Prop :=
  let stored := credential_rows db !! credential_slot (cw_Key write) in
  if cw_ExpectedRevision write =? 0 then stored = None /\ row = credential_of write 1 now now
  else exists old, stored = Some old /\ cl_project old = ck_ProjectID (cw_Key write) /\
         cl_revision old = cw_ExpectedRevision write /\
         row = credential_of write (cw_ExpectedRevision write + 1) (cl_created old) now.

Definition credential_put (now : time) (write : CredentialWrite) (record : CredentialRecord) (db db' : credential_db) : Prop :=
  let slot := credential_slot (cw_Key write) in
  exists row, record = credential_record slot row /\ readable slot row /\ cr_Key record = cw_Key write /\
    credential_rows db' !! slot = Some row /\
    ((credential_written now write db row /\ db' = with_credentials <[slot := row]> db) \/
     (db' = db /\ credentialWriteMatches record write = true)).

Lemma PutCredential_ok now write db record db' :
  pg_PutCredential now write db = (Ok record, db') -> credential_put now write record db db'.
Proof.
  intros [_ H]%tx_check_ok.
  assert (written : forall slot row db1,
    match (scanCredential slot row, db1) with
    | (inr record, db') => (Ok record, db')
    | (inl ErrNoRows, db') => (resolveCredentialWriteMiss write db', db')
    | (inl e, db') => (Err (statement_error "put application credential" e), db')
    end = (Ok record, db') -> (scanCredential slot row, db1) = (inr record, db')).
  { intros slot row db1. destruct (credential_scanned slot row) as [-> | [e ->]]; [by intros [= <- <-]|done]. }
  assert (Hnew : forall row, credential_written now write db row ->
    (scanCredential (credential_slot (cw_Key write)) row, with_credentials <[credential_slot (cw_Key write) := row]> db) = (inr record, db') ->
    cl_project row = ck_ProjectID (cw_Key write) -> credential_put now write record db db').
  { intros row Hw [= [Hr ->]%credential_scan_ok <-] Hp. exists row. split_and!; [done..|by apply record_key| |by left].
    cbn. apply lookup_insert_eq. }
  assert (Hmiss : db' = db -> resolveCredentialWriteMiss write db = Ok record -> credential_put now write record db db').
  { intros -> Hm. unfold resolveCredentialWriteMiss in Hm. destruct (loadCredential (cw_Key write) db) as [r|e] eqn:El; [|by destruct (_ && _) in Hm].
    destruct (credentialWriteMatches r write) eqn:Em; [|done]. injection Hm as <-.
    apply loadCredential_ok in El as (row & Hrow & Hp & Hr & ->). exists row. split_and!; [done..|by apply record_key|done|by right]. }
  destruct (cw_ExpectedRevision write =? 0) eqn:E0.
  - unfold insertCredential in H. cbv zeta in H. destruct (maxInt32 <? _); [done|]. destruct (negb (credential_row_valid _ _)); [done|].
    destruct (credential_rows db !! credential_slot (cw_Key write)) as [row|] eqn:Hrow.
    + injection H as H <-. by apply Hmiss.
    + destruct (negb _); [done|]. apply (Hnew (credential_of write 1 now now)); [|by apply written|done].
      unfold credential_written. by rewrite E0.
  - unfold updateCredential in H. cbv zeta in H. destruct (maxInt32 <? _); [done|].
    destruct (credential_rows db !! credential_slot (cw_Key write)) as [row|] eqn:Hrow; [|injection H as H <-; by apply Hmiss].
    destruct (negb (_ && _)) eqn:Eg; [injection H as H <-; by apply Hmiss|]. apply negb_false_iff, andb_true_iff in Eg as [Hp Hrev].
    apply String.eqb_eq in Hp. apply Z.eqb_eq in Hrev. destruct (maxInt64 <? _); [done|]. destruct (negb _); [done|].
    apply (Hnew (credential_of write (cl_revision row + 1) (cl_created row) now)); [|by apply written|done].
    unfold credential_written. rewrite E0. exists row. by rewrite Hrev.
Qed.

(** Each call in a transaction of its own, at its time. *)
Definition run_credentials (calls : list (time * CredentialWrite)) (db : credential_db) : credential_db :=
  fold_left (fun db call => Repository.committed (pg_PutCredential call.1 call.2) db) calls db.

(** From one state to a later one: the catalog is not touched, rows stay readable, in
    their project, and their revisions do not go back; a row at the same revision is the
    same row. *)
Record credentials_grow (db db' : credential_db) : Prop := {
  cg_catalog : cdb_catalog db' = cdb_catalog db;
  cg_wf : credentials_wf db -> credentials_wf db';
  cg_rows : forall slot row, credential_rows db !! slot = Some row ->
    exists row', credential_rows db' !! slot = Some row' /\ cl_project row' = cl_project row /\
      cl_revision row <= cl_revision row' /\ (cl_revision row' = cl_revision row -> row' = row)
}.

#[export] Instance credentials_grow_order : PreOrder credentials_grow.
Proof.
  split.
  - intros db. split; [done..|]. intros slot row H. exists row. split_and!; [done..|lia|done].
  - intros x y z [H1 H2 H3] [G1 G2 G3]. split; [congruence|auto|]. intros slot row H.
    destruct (H3 _ _ H) as (r & Hr & Hp & Hle & Heq). destruct (G3 _ _ Hr) as (r' & Hr' & Hp' & Hle' & Heq').
    exists r'. split_and!; [done|congruence|lia|]. intros E. rewrite Heq' by lia. apply Heq. lia.
Qed.

Lemma PutCredential_grows now write db record db' :
  pg_PutCredential now write db = (Ok record, db') -> credentials_grow db db'.
Proof.
  intros (row & _ & Hread & _ & Hrow & [[Hw ->]|[-> _]])%PutCredential_ok; [|done]. split; [done|..].
  - intros Hwf slot r Hr. cbn in Hr. apply lookup_insert_Some in Hr as [[<- <-]|[_ Hr]]; [done|by apply Hwf].
  - intros slot r Hr. destruct (decide (slot = credential_slot (cw_Key write))) as [->|Hne].
    + exists row. split; [done|]. unfold credential_written in Hw. destruct (Z.eqb_spec (cw_ExpectedRevision write) 0).
      { destruct Hw as [Hnone _]. by rewrite Hr in Hnone. }
      destruct Hw as (old & Hold & Hp & Hrev & ->). rewrite Hr in Hold. injection Hold as <-. cbn. split_and!; [done|lia|lia].
    + exists r. cbn. rewrite lookup_insert_ne by done. split_and!; [done..|lia|done].
Qed.

Lemma run_credentials_grow calls db : credentials_grow db (run_credentials calls db).
Proof.
  unfold run_credentials. revert db. induction calls as [|[now write] calls IH]; intros db; [done|]. cbn [fold_left].
  etrans; [|apply IH]. apply (committed_rel credentials_grow). intros record db'. apply PutCredential_grows.
Qed.

(** A call about another application or kind leaves the row alone. *)
Lemma run_credentials_other calls db slot :
  Forall (fun call => credential_slot (cw_Key call.2) <> slot) calls ->
  credential_rows (run_credentials calls db) !! slot = credential_rows db !! slot.
Proof.
  unfold run_credentials. revert db. induction calls as [|[now write] calls IH]; intros db H; [done|]. cbn [fold_left].
  apply Forall_cons in H as [Hne H]. rewrite IH by done. unfold Repository.committed. cbn [fst snd] in *.
  destruct (pg_PutCredential now write db) as [[record|e] db'] eqn:E; [|done].
  apply PutCredential_ok in E as (row & _ & _ & _ & _ & [[_ ->]|[-> _]]); [|done]. cbn. by rewrite lookup_insert_ne.
Qed.

(** The stored row is the credential a write asks for: its content type, schema
    version and secret, by its fingerprint. *)
Definition same_credential (row : credential_row) (write : CredentialWrite) : Prop :=
  cl_content_type row = cw_ContentType write /\ cl_schema_version row = cw_SchemaVersion write /\
  cl_fingerprint row = Fingerprint (cw_Payload write).

(** The record of a row under a key. *)
Definition shown_credential (key : CredentialKey) (row : credential_row) : CredentialRecord :=
  mkCredentialRecord key (cl_content_type row) (cl_schema_version row)
    (mkProtected (cl_ciphertext row) (cl_fingerprint row) (cl_key row)) (cl_revision row) (cl_created row)
    (cl_updated row).

(** A write that succeeds left its own credential at revision one, or one above the
    revision it named, in its slot alone, or found the same credential there. *)
Definition credential_kept (now : time) (write : CredentialWrite) (record : CredentialRecord) (db db' : credential_db) : Prop :=
  let slot := (ck_ApplicationID (cw_Key write), ck_Kind (cw_Key write)) in
  exists row, credential_rows db' !! slot = Some row /\ record = shown_credential (cw_Key write) row /\
    ((db' = mkCredentialDb (cdb_catalog db) (<[slot := row]> (credential_rows db)) /\
      same_credential row write /\ cl_project row = ck_ProjectID (cw_Key write) /\
      cl_ciphertext row = Ciphertext (cw_Payload write) /\ cl_key row = KeyID (cw_Payload write) /\
      cl_updated row = now /\
      ((cw_ExpectedRevision write = 0 /\ credential_rows db !! slot = None /\ cl_revision row = 1 /\ cl_created row = now) \/
       (cw_ExpectedRevision write <> 0 /\ cl_revision row = cw_ExpectedRevision write + 1 /\
        exists old, credential_rows db !! slot = Some old /\ cl_project old = ck_ProjectID (cw_Key write) /\
          cl_revision old = cw_ExpectedRevision write /\ cl_created row = cl_created old))) \/
     (db' = db /\ same_credential row write)).

Lemma matches_same key row write :
  cw_Key write = key ->
  credentialWriteMatches (shown_credential key row) write = true <-> same_credential row write.
Proof.
  intros <-. unfold credentialWriteMatches, same_credential, same_key, shown_credential.
  cbn [cr_Key cr_ContentType cr_SchemaVersion cr_Payload Fingerprint].
  rewrite !andb_true_iff, !String.eqb_eq, Z.eqb_eq. tauto.
Qed.

Lemma record_shown key row :
  cr_Key (credential_record (credential_slot key) row) = key ->
  credential_record (credential_slot key) row = shown_credential key row.
Proof. destruct key. unfold credential_record, shown_credential, credential_slot. cbn. by intros [= ->]. Qed.

Lemma credential_put_kept now write record db db' :
  credential_put now write record db db' -> credential_kept now write record db db'.
Proof.
  intros (row & -> & _ & Hkey & Hrow & Hcase). apply record_shown in Hkey as Hshown.
  exists row. split; [exact Hrow|]. split; [exact Hshown|]. destruct Hcase as [[Hw ->]|[-> Hm]].
  - left. split; [done|]. unfold credential_written in Hw. destruct (Z.eqb_spec (cw_ExpectedRevision write) 0) as [E|E].
    + destruct Hw as [Hnone ->]. split; [done|]. split_and!; try done. left. done.
    + destruct Hw as (old & Hold & Hp & Hr & ->). split; [done|]. split_and!; try done. right. split; [done|].
      split; [done|]. by exists old.
  - right. split; [done|]. rewrite Hshown in Hm. by apply (matches_same (cw_Key write)) in Hm.
Qed.

(** C30. Rotating credentials loses no update.  A call that succeeds leaves the credential it
    was given at revision one, or one above the revision it named, and changes no other,
    or it found the same credential stored and changed nothing.  Once a rotation was
    written, whatever is put afterwards, another rotation that names the same revision
    changes nothing: it answers the stored record when that has the content type, schema
    version and secret fingerprint it asked for, and is refused as a conflict otherwise. *)
Theorem credential_no_lost_update now write db record db' calls now' write' :
  credentials_wf db -> pg_PutCredential now write db = (Ok record, db') ->
  credential_kept now write record db db' /\
  (db' <> db -> 0 < cw_ExpectedRevision write -> cw_ExpectedRevision write' = cw_ExpectedRevision write ->
   cw_Key write' = cw_Key write -> CredentialWrite_Validate write' = None -> cw_SchemaVersion write' <= maxInt32 ->
   let later := run_credentials calls db' in
   exists row, credential_rows later !! (ck_ApplicationID (cw_Key write), ck_Kind (cw_Key write)) = Some row /\
     cw_ExpectedRevision write < cl_revision row /\
     (same_credential row write' ->
      pg_PutCredential now' write' later = (Ok (shown_credential (cw_Key write) row), later)) /\
     (~ same_credential row write' -> exists e, pg_PutCredential now' write' later = (Err e, later) /\
        errors_Is e "persistence.ErrConflict" = true)).
Proof.
  intros Hwf Hput. pose proof (PutCredential_grows _ _ _ _ _ Hput) as [_ Hwf' _]. specialize (Hwf' Hwf).
  apply PutCredential_ok in Hput as Hspec. split; [by apply credential_put_kept|]. intros Hchanged Hpos Hsame Hkey Hv Hsv later.
  destruct Hspec as (row & _ & _ & _ & Hrow & [[Hw _]|[? _]]); [|done].
  unfold credential_written in Hw. rewrite (proj2 (Z.eqb_neq _ 0)) in Hw by lia. destruct Hw as (old & _ & Hp & _ & Hnew).
  destruct (run_credentials_grow calls db') as [_ Hwl Hrows]. fold later in Hwl, Hrows.
  destruct (Hrows _ _ Hrow) as (r & Hr & Hpr & Hle & _). rewrite Hnew in Hpr, Hle. cbn in Hpr, Hle.
  assert (Hmiss : updateCredential now' write' later = (inl ErrNoRows, later)).
  { unfold updateCredential. cbv zeta. destruct (Z.ltb_spec maxInt32 (cw_SchemaVersion write')); [lia|]. rewrite Hkey, Hr.
    rewrite (proj2 (Z.eqb_neq (cl_revision r) _)) by lia. by rewrite andb_false_r. }
  unfold pg_PutCredential. rewrite Hv. cbn [tx_check]. rewrite (proj2 (Z.eqb_neq (cw_ExpectedRevision write') 0)) by lia. rewrite Hmiss.
  assert (Hload : loadCredential (cw_Key write') later = Ok (shown_credential (cw_Key write) r)).
  { apply loadCredential_ok. exists r. rewrite Hkey. split_and!; [done|done|by apply Hwl|].
    symmetry. apply record_shown. by apply record_key. }
  unfold resolveCredentialWriteMiss. rewrite Hload. exists r. split; [done|]. split; [lia|].
  pose proof (matches_same (cw_Key write) r write' Hkey) as Hm. split.
  - intros Hs. by rewrite (proj2 Hm Hs).
  - intros Hs. destruct (credentialWriteMatches _ write'); [by destruct (Hs (proj1 Hm eq_refl))|].
    eexists. split; [done|reflexivity].
Qed.

(** ** Scopes *)

(** The length and the colon say where a field starts and ends. *)
Lemma before_colon a b (x y : list Z) : ~ In 58 a -> ~ In 58 b -> a ++ 58 :: x = b ++ 58 :: y -> a = b /\ x = y.
Proof.
  revert b. induction a as [|c a IH]; intros [|d b] Ha Hb H; cbn [app] in H; injection H.
  - by intros ->.
  - intros _ <-. exfalso. apply Hb. by left.
  - intros _ ->. exfalso. apply Ha. by left.
  - intros H' ->. apply IH in H' as [-> ->]; [done|by intros ?; apply Ha; right|by intros ?; apply Hb; right].
Qed.

Lemma no_colon z : ~ In 58 (bytes (FormatInt z)).
Proof. intros H. pose proof (FormatInt_chars z) as Hf. rewrite List.Forall_forall in Hf. apply Hf in H. lia. Qed.

Lemma purpose_field_unique f g x y :
  (FormatInt (len f) ++ ":" ++ f ++ x = FormatInt (len g) ++ ":" ++ g ++ y)%string -> f = g /\ x = y.
Proof.
  intros H%(f_equal bytes). rewrite !bytes_app in H. cbn [bytes app] in H. apply before_colon in H as [Hl H]; [|apply no_colon..].
  apply bytes_inj, FormatInt_inj in Hl. unfold len in Hl.
  apply app_inj_1 in H as [Hf Hx]; [|rewrite !length_bytes; lia]. by apply bytes_inj in Hf, Hx.
Qed.

Lemma purpose_fields_cons field fields :
  lengthPrefixedPurposeFields (field :: fields) = (FormatInt (len field) ++ ":" ++ field ++ lengthPrefixedPurposeFields fields)%string.
Proof.
  unfold lengthPrefixedPurposeFields. apply bytes_inj.
  assert (Hacc : forall fields acc, bytes (fold_left (fun purpose field => purpose ++ FormatInt (len field) ++ ":" ++ field)%string fields acc)
    = bytes acc ++ bytes (fold_left (fun purpose field => purpose ++ FormatInt (len field) ++ ":" ++ field)%string fields EmptyString)).
  { induction fields0 as [|f l IH]; intros acc; cbn [fold_left]; [by rewrite app_nil_r|].
    rewrite IH, (IH (EmptyString ++ _)%string), !bytes_app. cbn [bytes app]. by rewrite <- !app_assoc. }
  cbn [fold_left]. rewrite Hacc, !bytes_app. cbn [bytes app]. by rewrite <- !app_assoc.
Qed.

Lemma purpose_fields_unique fields fields' :
  length fields = length fields' -> lengthPrefixedPurposeFields fields = lengthPrefixedPurposeFields fields' -> fields = fields'.
Proof.
  revert fields'. induction fields as [|f fields IH]; intros [|g fields'] Hl; try done.
  rewrite !purpose_fields_cons. intros [-> H]%purpose_field_unique. injection Hl as Hl. by rewrite (IH fields').
Qed.

Lemma append_inj p (x y : string) : (p ++ x = p ++ y)%string -> x = y.
Proof. induction p as [|c p IH]; cbn; [done|]. intros [= H]. by apply IH. Qed.

Lemma six_fields {A} (a b c d e f a' b' c' d' e' f' : A) :
  [a; b; c; d; e; f] = [a'; b'; c'; d'; e'; f'] -> a = a' /\ b = b' /\ c = c' /\ d = d' /\ e = e' /\ f = f'.
Proof. by intros [= -> -> -> -> -> ->]. Qed.

(** A scope is that of one application, kind, content type and schema version. *)
Lemma credentialScope_unique a k c v a' k' c' v' :
  credentialScope a k c v = credentialScope a' k' c' v' -> a = a' /\ k = k' /\ c = c' /\ v = v'.
Proof.
  intros H. pose proof (f_equal scope_ProjectID H) as Hp. pose proof (f_equal scope_ApplicationID H) as Ha.
  apply (f_equal scope_Purpose) in H. cbn [credentialScope scope_ProjectID scope_ApplicationID scope_Purpose] in *.
  apply append_inj, purpose_fields_unique in H as Hpurpose; [|done].
  apply six_fields in Hpurpose as (Hpr & He & Hi & -> & -> & Hv). apply FormatInt_inj in Hv as ->.
  split; [|done]. destruct a as [ai ap [? ? ?]], a' as [ai' ap' [? ? ?]]. cbn in *. by subst.
Qed.

(** ** Put and resolve *)

Section RoundTrip.
Context {Operations : Store credential_db}.
Context (protection : ProtectionService) (now : time).

(** The write of a credential. *)
Definition credential_write (application : Application) (credential : Credential) (protected : ProtectedValue) (revision : Z) : CredentialWrite :=
  mkCredentialWrite (mkCredentialKey (app_ProjectID application) (app_ID application) (cred_Kind credential))
    (cred_ContentType credential) (cred_SchemaVersion credential) protected revision.

Lemma over_catalog_application p a (db : credential_db) :
  Application_ p a db = ((pg_Application p a (cdb_catalog db)).1, db).
Proof.
  cbn [Application_ credential_catalog over_catalog]. unfold over_catalog, tx_zoom. destruct (pg_Application p a (cdb_catalog db)) as [r c] eqn:E.
  assert (c = cdb_catalog db) as ->.
  { unfold pg_Application, tx_check, tx_err, sql_error in E. destruct (errors_Join _); [by injection E|].
    destruct (applications _ !! a) as [row|]; [|by injection E]. by destruct (String.eqb _ _); injection E. }
  by destruct db.
Qed.

Notation put := (@cred_Put credential_db credential_catalog (credential_repository now) Operations protection).
Notation resolve := (@cred_Credential credential_db credential_catalog (credential_repository now) Operations protection).

Lemma Put_ok n application credential revision db metadata db' :
  put n application credential revision db = (Ok metadata, db') ->
  Application_Validate application = None /\ Credential_Validate credential = None /\ 0 <= revision /\
  exists protected record,
    let scope := credentialScope application (cred_Kind credential) (cred_ContentType credential) (cred_SchemaVersion credential) in
    let write := credential_write application credential protected revision in
    Request_Validate (mkRequest scope (cred_payload credential)) = None /\
    ps_Protect protection (mkRequest scope (cred_payload credential)) = Ok protected /\
    (pg_Application (app_ProjectID application) (app_ID application) (cdb_catalog db)).1 = Ok application /\
    CredentialWrite_Validate write = None /\ pg_PutCredential now write db = (Ok record, db') /\
    metadata = metadataFromRecord record.
Proof.
  unfold cred_Put. destruct (errors_Join _) eqn:Ev; [done|]. rewrite errors_Join_nil, !Forall_cons in Ev. destruct Ev as (Ha & Hc & _).
  destruct (Z.ltb_spec revision 0) as [|Hrev]; [done|]. intros (protected & ? & [Hp <-]%tx_lift_ok & H)%tx_bind_ok.
  apply wrap_result_ok, Protect_ok in Hp as (? & [= <-] & Hreq & Hp).
  apply tx_bind_ok in H as (record & ? & Ht%tx_catch_ok%store_commits & [<- <-]%tx_ret_ok).
  apply tx_bind_ok in Ht as (authoritative & ? & Happ & Ht). rewrite over_catalog_application in Happ. injection Happ as Happ <-.
  case_bool_decide as Heq; [|done]. cbn [negb] in Ht. subst authoritative. apply tx_check_ok in Ht as Hw. destruct Hw as [Hw _].
  split_and!; [done..|]. by exists protected, record.
Qed.

Lemma resolve_ok n application kind db credential db' :
  resolve n application kind db = (Ok credential, db') ->
  db' = db /\ exists row,
    credential_rows db !! (app_ID application, kind) = Some row /\ cl_project row = app_ProjectID application /\
    (pg_Application (app_ProjectID application) (app_ID application) (cdb_catalog db)).1 = Ok application /\
    let value := mkProtected (cl_ciphertext row) (cl_fingerprint row) (cl_key row) in
    ps_Open protection (mkOpenRequest (credentialScope application kind (cl_content_type row) (cl_schema_version row)) value)
      = Ok (cred_payload credential) /\
    credential = mkCredential kind (cl_content_type row) (cl_schema_version row) (cred_payload credential).
Proof.
  unfold cred_Credential. intros [_ H]%tx_check_ok. apply tx_bind_ok in H as (record & db1 & Ht%tx_catch_ok%store_commits & [H <-]%tx_lift_ok).
  apply tx_bind_ok in Ht as (authoritative & ? & Happ & Ht). rewrite over_catalog_application in Happ. injection Happ as Happ <-.
  case_bool_decide as Heq; [|done]. cbn [negb] in Ht. subst authoritative. apply tx_check_ok in Ht as [_ [= Hl <-]].
  apply loadCredential_ok in Hl as (row & Hrow & Hp & _ & ->). split; [done|]. exists row.
  apply bind_result_ok in H as (request & Hr%wrap_result_ok & H). unfold NewOpenRequest in Hr. apply try_err_ok in Hr as [_ [= <-]].
  apply bind_result_ok in H as (plaintext & Ho%wrap_result_ok & H%wrap_result_ok). unfold NewCredential in H. by apply try_err_ok in H as [_ [= <-]].
Qed.

(** What resolving does with a stored row. *)
Definition opened (application : Application) (kind : string) (row : credential_row) : result Credential :=
  let* openRequest := wrap_result (Wrapf "prepare application credential opening: %w" [])
    (NewOpenRequest (credentialScope application kind (cl_content_type row) (cl_schema_version row))
       (mkProtected (cl_ciphertext row) (cl_fingerprint row) (cl_key row))) in
  let* plaintext := wrap_result (Wrapf "open application credential: %w" []) (ps_Open protection openRequest) in
  wrap_result (Wrapf "validate opened application credential: %w" [])
    (NewCredential kind (cl_content_type row) (cl_schema_version row) plaintext).

Lemma resolve_found m application kind row db :
  undisturbed m -> Application_Validate application = None -> CredentialKind_Validate kind = None ->
  let key := mkCredentialKey (app_ProjectID application) (app_ID application) kind in
  CredentialKey_Validate key = None ->
  (pg_Application (app_ProjectID application) (app_ID application) (cdb_catalog db)).1 = Ok application ->
  credential_rows db !! (app_ID application, kind) = Some row -> cl_project row = app_ProjectID application ->
  readable (app_ID application, kind) row ->
  resolve m application kind db = (opened application kind row, db).
Proof.
  intros Hm Ha Hk key Hkey Happ Hrow Hp Hread. unfold cred_Credential.
  rewrite (proj2 (errors_Join_nil _)) by (by repeat constructor). cbn [tx_check].
  set (op := tx_bind (Application_ _ _) _).
  assert (Hop : op db = (Ok (credential_record (app_ID application, kind) row), db)).
  { unfold op. apply tx_bind_ok. exists application, db. rewrite over_catalog_application, Happ. split; [done|].
    rewrite bool_decide_eq_true_2 by done. cbn [negb]. apply tx_check_ok. split; [exact Hkey|].
    f_equal. apply loadCredential_ok. by exists row. }
  specialize (Hm _ op db). rewrite Hop in Hm. unfold tx_bind at 1, tx_catch. rewrite Hm. done.
Qed.

(** A credential that was put resolves: after a call wrote it, whatever is put for other
    applications and kinds, the service answers exactly this credential, at the revision
    that was asked for, as long as the store serves the call and the protection service
    keeps its promise. *)
Theorem credential_round_trip `{Hlaws : !ProtectionLaws protection} n application credential revision db metadata db1 :
  put n application credential revision db = (Ok metadata, db1) -> db1 <> db ->
  md_Revision metadata = revision + 1 /\
  forall calls, Forall (fun call => credential_slot (cw_Key call.2) <> (app_ID application, cred_Kind credential)) calls ->
  let db2 := run_credentials calls db1 in
  forall m, undisturbed m -> resolve m application (cred_Kind credential) db2 = (Ok credential, db2).
Proof.
  intros (Ha & Hc & Hrev & protected & record & Hreq & Hprot & Happ & Hw & Hput & ->)%Put_ok Hchanged.
  pose proof (PutCredential_grows _ _ _ _ _ Hput) as [Hcat _ _].
  apply PutCredential_ok in Hput as (row & -> & Hread & _ & Hrow & [[Hwr _]|[? _]]); [|done].
  set (write := credential_write application credential protected revision) in *.
  assert (Hof : exists r c u, row = credential_of write r c u /\ r = revision + 1).
  { unfold credential_written in Hwr. destruct (Z.eqb_spec (cw_ExpectedRevision write) 0) as [E|E].
    - destruct Hwr as [_ ->]. cbn in E. eexists 1, now, now. split; [done|lia].
    - destruct Hwr as (old & _ & _ & _ & ->). by eexists _, _, _. }
  destruct Hof as (r & c & u & -> & ->). split; [done|]. intros calls Hcalls db2 m Hm.
  assert (Hrow2 : credential_rows db2 !! (app_ID application, cred_Kind credential) = Some (credential_of write (revision + 1) c u)).
  { unfold db2. by rewrite run_credentials_other. }
  assert (Hcat2 : cdb_catalog db2 = cdb_catalog db).
  { rewrite <- Hcat. unfold db2. by destruct (run_credentials_grow calls db1). }
  assert (Hkind : CredentialKind_Validate (cred_Kind credential) = None).
  { unfold Credential_Validate in Hc. rewrite errors_Join_nil in Hc. by apply Forall_cons in Hc as [Hc _]. }
  unfold CredentialWrite_Validate in Hw. cbv zeta in Hw. rewrite errors_Join_nil, !Forall_cons in Hw. destruct Hw as (Hkey & _ & _ & Hpv & _).
  rewrite (resolve_found m application (cred_Kind credential) (credential_of write (revision + 1) c u)); try done; [|by rewrite Hcat2].
  f_equal. unfold opened. cbn [cl_content_type cl_schema_version credential_of cl_ciphertext cl_fingerprint cl_key].
  replace (mkProtected _ _ _) with protected by (by destruct protected). unfold write. cbn [cw_ContentType cw_SchemaVersion credential_write].
  assert (Hscope : Scope_Validate (credentialScope application (cred_Kind credential) (cred_ContentType credential) (cred_SchemaVersion credential)) = None).
  { unfold Request_Validate in Hreq. err_simpl in Hreq. by destruct Hreq. }
  change (ProtectedValue_Validate protected = None) in Hpv.
  unfold NewOpenRequest, OpenRequest_Validate. cbn [open_Scope open_Value]. rewrite Hscope, Hpv, (proj2 (errors_Join_nil [None; None])) by (by repeat constructor).
  cbn [wrap_result bind_result try_err].
  rewrite (protected_opens _ _ _ Hprot Hpv). cbn [wrap_result bind_result].
  unfold NewCredential. destruct credential as [k ct v p]. cbn in *. by rewrite Hc.
Qed.
End RoundTrip.

(** A resolved credential is authentic: what the service answers from a keyring is of
    the application and kind that were asked for, and if the stored value was ever
    protected, by any keyring of the same fingerprint key, for some application, kind,
    content type, schema version and payload, then these are the answer's own (no row can
    be passed off as another's, or with other metadata), or two different inputs of the
    fingerprint collide. *)
Theorem credential_authentic {Operations : Store credential_db} now keyring nonce n application kind db credential db'
    keyring0 nonce0 application0 kind0 contentType0 schemaVersion0 payload0 row :
  @cred_Credential credential_db credential_catalog (credential_repository now) Operations (keyring_service keyring nonce)
    n application kind db = (Ok credential, db') ->
  credential_rows db !! (app_ID application, kind) = Some row ->
  kr_fingerprintKey keyring0 = kr_fingerprintKey keyring ->
  kr_Protect keyring0 None nonce0 (mkRequest (credentialScope application0 kind0 contentType0 schemaVersion0) payload0)
    = Ok (mkProtected (cl_ciphertext row) (cl_fingerprint row) (cl_key row)) ->
  let scope := credentialScope application kind (cl_content_type row) (cl_schema_version row) in
  let scope0 := credentialScope application0 kind0 contentType0 schemaVersion0 in
  db' = db /\ cred_Kind credential = kind /\
  ((application = application0 /\ credential = mkCredential kind0 contentType0 schemaVersion0 payload0) \/
   (fingerprint_input scope (cred_payload credential) <> fingerprint_input scope0 payload0 /\
    HmacSha256 (kr_fingerprintKey keyring0) (fingerprint_input scope (cred_payload credential))
    = HmacSha256 (kr_fingerprintKey keyring0) (fingerprint_input scope0 payload0))).
Proof.
  intros (-> & row' & Hrow' & _ & _ & Ho & Hc)%resolve_ok Hrow Hkey Hprot scope scope0. rewrite Hrow in Hrow'. injection Hrow' as <-.
  split; [done|]. split; [by rewrite Hc|].
  destruct (fingerprints_agree keyring0 keyring nonce0 scope0 scope payload0 (cred_payload credential)
              (mkProtected (cl_ciphertext row) (cl_fingerprint row) (cl_key row)) (eq_sym Hkey) Hprot Ho) as [[Hs Hp]|H]; [left|by right].
  apply credentialScope_unique in Hs as (-> & -> & Hct & Hsv). split; [done|]. by rewrite Hc, Hct, Hsv, Hp.
Qed.

(** ** Witnesses *)

#[local] Existing Instance credential_catalog.
Definition quiet_credentials : Store credential_db :=
  runner_Store quiet_attempts ltac:(intros n k; reflexivity) ltac:(intros n k c H; discriminate H).
#[local] Existing Instance quiet_credentials.

Lemma credentials_undisturbed n : undisturbed (S := credential_db) n.
Proof.
  intros A op s. destruct (op s) as [[a|e] s'] eqn:E.
  - cbn. unfold transactOnce. cbn. by rewrite E.
  - intros He. cbn. unfold transactOnce. cbn. by rewrite E, He.
Qed.

Definition no_credentials : credential_db := mkCredentialDb shop_catalog ∅.
Definition shop_keyring : ProtectionService := keyring_service (keyring_of demo_after) demo_nonce.
Definition shop_credential (payload : string) : Credential := mkCredential "service_account" "application/json" 1 payload.
Definition credential_now : time := 3 * Second.

Definition shop_put (payload : string) (revision : Z) (db : credential_db) : result Metadata * credential_db :=
  @cred_Put credential_db credential_catalog (credential_repository credential_now) quiet_credentials shop_keyring
    0 shop_application (shop_credential payload) revision db.
Definition shop_credentials : credential_db := (shop_put "{first}" 0 no_credentials).2.
Definition shop_metadata (revision : Z) : Metadata :=
  mkMetadata "project-1" "app-1" "service_account" "application/json" 1 revision credential_now credential_now.
Definition shop_row : credential_row :=
  default (mkCredentialRow EmptyString EmptyString 0 EmptyString EmptyString EmptyString 0 0 0) (credential_rows shop_credentials !! ("app-1", "service_account")%string).

Lemma shop_put_answers : (shop_put "{first}" 0 no_credentials).1 = Ok (shop_metadata 1).
Proof. vm_compute. reflexivity. Qed.
Lemma shop_put_writes : shop_credentials <> no_credentials.
Proof. intros H%(f_equal (fun db => map_to_list (credential_rows db))). vm_compute in H. discriminate H. Qed.
Lemma shop_keyring_laws : ProtectionLaws shop_keyring.
Proof. apply keyring_laws; [eexists; vm_compute; reflexivity|vm_compute; reflexivity]. Qed.
Lemma shop_row_stored : credential_rows shop_credentials !! (app_ID shop_application, "service_account"%string) = Some shop_row.
Proof. vm_compute. reflexivity. Qed.

Lemma credential_round_trip_answer :
  @cred_Credential credential_db credential_catalog (credential_repository credential_now) quiet_credentials shop_keyring
    1 shop_application "service_account" shop_credentials = (Ok (shop_credential "{first}"), shop_credentials).
Proof. vm_compute. reflexivity. Qed.

Lemma credential_round_trip_witness :
  @cred_Credential credential_db credential_catalog (credential_repository credential_now) quiet_credentials shop_keyring
    1 shop_application "service_account" shop_credentials = (Ok (shop_credential "{first}"), shop_credentials).
Proof.
  destruct (@credential_round_trip quiet_credentials shop_keyring credential_now shop_keyring_laws 0 shop_application
              (shop_credential "{first}") 0 no_credentials (shop_metadata 1) shop_credentials) as [_ H].
  - exact (answered_result _ _ shop_put_answers).
  - exact shop_put_writes.
  - exact (H [] ltac:(constructor) 1%nat (credentials_undisturbed 1)).
Defined.

Lemma credential_authentic_witness :
  cred_Kind (shop_credential "{first}") = "service_account"%string.
Proof.
  destruct (@credential_authentic quiet_credentials credential_now (keyring_of demo_after) demo_nonce 1 shop_application
              "service_account" shop_credentials (shop_credential "{first}") shop_credentials
              (keyring_of demo_after) demo_nonce shop_application "service_account" "application/json" 1 "{first}" shop_row)
    as (_ & H & _).
  - exact credential_round_trip_answer.
  - exact shop_row_stored.
  - reflexivity.
  - vm_compute. reflexivity.
  - exact H.
Defined.

(** A credential is created and rotated; a second rotation of the first revision is late. *)
Definition plain_write (payload : Z) (revision : Z) : CredentialWrite :=
  mkCredentialWrite (mkCredentialKey "project-1" "app-1" "service_account") "application/json" 1
    (mkProtected "sealed" (of_bytes (replicate 32 payload)) "key-1") revision.
Definition created_credentials : credential_db := (pg_PutCredential (2 * Second) (plain_write 1 0) no_credentials).2.
Definition rotated_credentials : credential_db := (pg_PutCredential (3 * Second) (plain_write 2 1) created_credentials).2.
Definition rotated_record : CredentialRecord :=
  mkCredentialRecord (cw_Key (plain_write 2 1)) "application/json" 1 (cw_Payload (plain_write 2 1)) 2 (2 * Second) (3 * Second).

Lemma created_wf : credentials_wf created_credentials.
Proof.
  intros slot row H. assert (Hin : (slot, row) ∈ map_to_list (credential_rows created_credentials)) by by apply elem_of_map_to_list.
  vm_compute in Hin. apply list_elem_of_singleton in Hin. injection Hin as -> ->. split; vm_compute; reflexivity.
Qed.
Lemma rotation_answers : (pg_PutCredential (3 * Second) (plain_write 2 1) created_credentials).1 = Ok rotated_record.
Proof. vm_compute. reflexivity. Qed.
Lemma rotation_writes : rotated_credentials <> created_credentials.
Proof. intros H%(f_equal (fun db => map_to_list (credential_rows db))). vm_compute in H. discriminate H. Qed.
Lemma late_write_valid : CredentialWrite_Validate (plain_write 3 1) = None /\ CredentialWrite_Validate (plain_write 2 1) = None.
Proof. split; vm_compute; reflexivity. Qed.
Lemma rotated_secret row :
  credential_rows rotated_credentials !! ("app-1", "service_account")%string = Some row ->
  cl_fingerprint row = of_bytes (replicate 32 2) /\ same_credential row (plain_write 2 1) /\
  shown_credential (cw_Key (plain_write 2 1)) row = rotated_record.
Proof. intros H. vm_compute in H. injection H as <-. split; [reflexivity|]. split; [split_and!; reflexivity|reflexivity]. Qed.

(** The late rotation with another secret is a conflict; repeated with the stored
    secret it answers the stored record. *)
Lemma credential_no_lost_update_witness :
  (exists e, pg_PutCredential (4 * Second) (plain_write 3 1) rotated_credentials = (Err e, rotated_credentials) /\
     errors_Is e "persistence.ErrConflict" = true) /\
  pg_PutCredential (4 * Second) (plain_write 2 1) rotated_credentials = (Ok rotated_record, rotated_credentials).
Proof.
  pose proof (fun write' => credential_no_lost_update (3 * Second) (plain_write 2 1) created_credentials rotated_record
              rotated_credentials [] (4 * Second) write' created_wf (answered_result _ _ rotation_answers)) as H.
  destruct (proj2 (H (plain_write 3 1)) rotation_writes eq_refl eq_refl eq_refl (proj1 late_write_valid) ltac:(discriminate))
    as (row & Hrow & _ & _ & Hother). apply rotated_secret in Hrow as (Hfp & _ & _).
  destruct (proj2 (H (plain_write 2 1)) rotation_writes eq_refl eq_refl eq_refl (proj2 late_write_valid) ltac:(discriminate))
    as (row' & Hrow' & _ & Hsame & _). apply rotated_secret in Hrow' as (_ & Hs & Hshown). split.
  - apply Hother. intros (_ & _ & Hbad). rewrite Hfp in Hbad. vm_compute in Hbad. discriminate Hbad.
  - rewrite <- Hshown. exact (Hsame Hs).
Defined.
