(* ===== verification/RevenueCat.v ===== *)
(** The RevenueCat export ([internal/revenuecatimport/parse.go], [read.go], [codes.go]):
    the rows of an export grouped into one draft per canonical user.

    The CSV reader, [time.Parse] and the JSON decoding of the export's structs are the
    class [ExportLibrary]; reading the file and its compression is I/O. *)

From S2P Require Import Prelude GoText GoTime GoHttp GoCodec Sha256 Core Purchase Protection Persistence.
From stdpp Require Import base list strings gmap.
Local Open Scope Z_scope.

(** ** Codes and errors *)

(* internal/revenuecatimport/codes.go: constants *)
Definition FormatTransactionsCSV : string := "transactions-csv".
Definition FormatSubscriberJSONL : string := "subscriber-jsonl".
Definition CodeMissingAppUserID : string := "missing_app_user_id".
Definition CodeInvalidExternalID : string := "invalid_external_id".
Definition CodeAliasRefused : string := "alias_refused".
Definition CodeConflictingSubscriber : string := "conflicting_subscriber".
Definition CodeUnknownEntitlement : string := "unknown_entitlement".
Definition CodeUnknownProduct : string := "unknown_product".
Definition CodeEntitlementNotGranted : string := "entitlement_not_granted".
Definition CodeUnsupportedProductKind : string := "unsupported_product_kind".
Definition CodeProductKindMismatch : string := "product_kind_mismatch".
Definition CodeEnvironmentMismatch : string := "environment_mismatch".
Definition CodeUnsupportedStore : string := "unsupported_store".
Definition CodeMissingEffectiveEnd : string := "missing_effective_end".
Definition CodeInvalidEntitlementList : string := "invalid_entitlement_list".
Definition CodeBatchConflict : string := "batch_conflict".
Definition anonymousPrefix : string := "$RCAnonymousID:".
Definition columnOriginalAppUserID : string := "rc_original_app_user_id".
Definition columnLastSeenAlias : string := "rc_last_seen_app_user_id_alias".

(* internal/revenuecatimport/codes.go: ErrUsage *)
Definition ErrUsage : gerror := Sentinel "revenuecatimport.ErrUsage".
(* internal/revenuecatimport/codes.go: ErrTruncated *)
Definition ErrTruncated : gerror := Sentinel "revenuecatimport.ErrTruncated".
(* internal/revenuecatimport/codes.go: ErrBatchConflict *)
Definition ErrBatchConflict : gerror := Sentinel "revenuecatimport.ErrBatchConflict".
(* internal/revenuecatimport/codes.go: errSubscriberConflict *)
Definition errSubscriberConflict : gerror := Sentinel "revenuecatimport.errSubscriberConflict".

Definition nul : string := of_bytes [0].

(** ** Rows *)

(* internal/revenuecatimport/parse.go: sourceRow *)
Record sourceRow : Type := mkRow {
  sr_line : Z;
  sr_canonicalID : string;
  sr_aliases : list string;
  sr_store : string;
  sr_sandbox : bool;
  sr_productIdentifier : string;
  sr_entitlementIDs : list string;
  sr_invalidEntitlementList : bool;
  sr_start : option time;
  sr_end : option time;
  sr_grace : option time;
  sr_effectiveEnd : option time;
  sr_updated : option time;
  sr_autoRenewable : bool;
  sr_refunded : option time;
  sr_unsubscribe : option time;
  sr_billing : option time;
  sr_autoResume : option time;
  sr_ownership : string;
  sr_trial : bool;
  sr_lineageMaterial : string;
  sr_observedAt : time;
  sr_nonSubscription : bool;
  sr_ambiguousProduct : bool;
  sr_missingPurchase : bool
}.

(* internal/revenuecatimport/parse.go: subscriberDraft *)
Record subscriberDraft : Type := mkDraft {
  dr_externalID : string;
  dr_line : Z;
  dr_aliases : list string;
  dr_rows : list sourceRow;
  dr_anonymous : bool
}.

Definition draft_with_rows f (draft : subscriberDraft) : subscriberDraft :=
  mkDraft (dr_externalID draft) (dr_line draft) (dr_aliases draft) (f (dr_rows draft)) (dr_anonymous draft).
Definition draft_with_aliases f (draft : subscriberDraft) : subscriberDraft :=
  mkDraft (dr_externalID draft) (dr_line draft) (f (dr_aliases draft)) (dr_rows draft) (dr_anonymous draft).

(** ** What the standard library reads *)

(** Why the CSV reader stops: at the end of the text, at a record whose quoting or text
    is unfinished, or at another malformed record. *)
Inductive csv_end : Type := CsvEOF | CsvUnfinished | CsvMalformed.

(** One Customer Info object, its maps of raw values by key. *)
Record json_envelope : Type := mkJsonEnvelope {
  je_AppUserID : string;
  je_RequestDate : string;
  je_Subscriber : string
}.
Record json_subscriber : Type := mkJsonSubscriber {
  js_RequestDate : string;
  js_OriginalAppUserID : string;
  js_Aliases : list string;
  js_Entitlements : gmap string string;
  js_Subscriptions : gmap string string;
  js_NonSubscriptions : gmap string string
}.
Definition no_subscriber : json_subscriber := mkJsonSubscriber EmptyString EmptyString [] ∅ ∅ ∅.
Record json_entitlement : Type := mkJsonEntitlement {
  jn_ExpiresDate : string;
  jn_GracePeriodExpiresDate : string;
  jn_ProductIdentifier : string;
  jn_PurchaseDate : string
}.
Record json_subscription : Type := mkJsonSubscription {
  jb_Store : string;
  jb_IsSandbox : bool;
  jb_ExpiresDate : string;
  jb_GracePeriodExpiresDate : string;
  jb_PurchaseDate : string;
  jb_RefundedAt : string;
  jb_UnsubscribeDetectedAt : string;
  jb_BillingIssuesDetectedAt : string;
  jb_OwnershipType : string;
  jb_StoreTransactionID : string;
  jb_AutoResumeDate : string
}.
Record json_purchase : Type := mkJsonPurchase {
  jp_ID : string;
  jp_IsSandbox : bool;
  jp_PurchaseDate : string;
  jp_Store : string
}.

(** The records the CSV reader gives, each with the line of its first field, and why it
    stops; [time.Parse] by layout; [json.Unmarshal] into each struct. *)
Class ExportLibrary := {
  ReadCSV : string -> list (list string * Z) * csv_end;
  ParseTime : string -> string -> option time;
  DecodeStrings : string -> option (list string);
  DecodeEnvelope : string -> option json_envelope;
  DecodeSubscriber : string -> option json_subscriber;
  DecodeEntitlement : string -> option json_entitlement;
  DecodeSubscription : string -> option json_subscription;
  DecodePurchases : string -> option (list json_purchase)
}.

(** [strings.ToLower] on ASCII, and [strings.EqualFold] against an ASCII text. *)
Definition lower_byte (b : Z) : Z := if in_range 65 90 b then b + 32 else b.
Definition ToLowerASCII (s : string) : string := of_bytes (map lower_byte (bytes s)).

Section ReadingExport.
Context `{Library : !ExportLibrary} `{Horder : !GoMapRange}.

(** ** Cells ([read.go]) *)

(* internal/revenuecatimport/read.go:80-86: parseExportTime *)
Definition export_time_layouts : list string :=
  ["2006-01-02T15:04:05.999999999Z07:00"; "2006-01-02 15:04:05.999999999"; "2006-01-02 15:04:05";
   "2006-01-02T15:04:05.999999999"; "2006-01-02T15:04:05"].

Definition byte_at (i : nat) (s : string) : option Z := bytes s !! i.

(** [None] is an empty cell. *)
(* internal/revenuecatimport/read.go: parseExportTime *)
Definition parseExportTime (value : string) : result (option time) :=
  let value := TrimSpace value in
  if String.eqb value EmptyString then Ok None
  else
    let value :=
      if (13 <=? len value) && bool_decide (byte_at 10 value = Some 32) && bool_decide (byte_at 12 value = Some 58)
      then (of_bytes (take 11 (bytes value)) ++ "0" ++ of_bytes (drop 11 (bytes value)))%string
      else value in
    match omap (fun layout => ParseTime layout value) export_time_layouts with
    | parsed :: _ => Ok (Some parsed)
    | [] => Err (Wrapf "revenuecat timestamp %q is invalid: %w" [AStr value] ErrUsage)
    end.

(** A text that lowers to an ASCII word is one in its letters, but for the Kelvin sign
    (U+212A lowers to k), which neither word has. *)
(* internal/revenuecatimport/read.go: parseBool *)
Definition parseBool (value : string) : result bool :=
  let lowered := ToLowerASCII (TrimSpace value) in
  if String.eqb lowered "true" then Ok true
  else if String.eqb lowered "false" then Ok false
  else Err (Wrapf "revenuecat boolean %q is invalid: %w" [AStr value] ErrUsage).

(* internal/revenuecatimport/read.go: CustomerID *)
Definition rc_CustomerID (projectID : ProjectID) (externalID : string) : CustomerID :=
  ("cust-" ++ EncodeToString (of_bytes (take 16 (bytes (Sum256 (projectID ++ nul ++ externalID))))))%string.

(* internal/revenuecatimport/read.go: GrantID *)
Definition rc_GrantID (projectID customerID applicationID productID entitlementID lineage : string) : string :=
  let material := (projectID ++ nul ++ customerID ++ nul ++ applicationID ++ nul ++ productID ++ nul
                   ++ entitlementID ++ nul ++ lineage)%string in
  ("imp-" ++ EncodeToString (of_bytes (take 16 (bytes (Sum256 material)))))%string.

(* internal/revenuecatimport/read.go: exportSHA256Hex *)
Definition exportSHA256Hex (sum : string) : string :=
  if String.eqb sum zero32 then EmptyString else EncodeToString sum.

(* internal/revenuecatimport/read.go: bytesTrimBOM *)
Definition bytesTrimBOM (payload : string) : string := TrimPrefix payload (of_bytes [239; 187; 191]).

(** ** Transactions ([parse.go]) *)

(* internal/revenuecatimport/parse.go: csvReadError *)
Definition csvReadError (e : csv_end) : gerror :=
  match e with
  | CsvUnfinished => Wrapf "revenuecat transactions record is unfinished: %w" [] ErrTruncated
  | _ => Wrapf "read revenuecat transactions export: %w" [] ErrUsage
  end.

(** Only a JSON array of strings; empty and null unlock nothing. *)
(* internal/revenuecatimport/parse.go: parseEntitlementList *)
Definition parseEntitlementList (cell : string) : option (list string) :=
  let cell := TrimSpace cell in
  if String.eqb cell EmptyString || String.eqb cell "null" then Some []
  else match DecodeStrings cell with
  | None => None
  | Some identifiers =>
      if existsb (fun identifier => String.eqb identifier EmptyString
                                    || negb (String.eqb (TrimSpace identifier) identifier)) identifiers
      then None else Some identifiers
  end.

(** The trimmed cell of a column, empty when the record or the header lacks it. *)
(* internal/revenuecatimport/parse.go:138-144: transactionRow *)
Definition cell (columns : gmap string nat) (record : list string) (name : string) : string :=
  match columns !! name with
  | Some index => match record !! index with Some value => TrimSpace value | None => EmptyString end
  | None => EmptyString
  end.

(** An error of a cell names its line. *)
Definition at_line {A} (line : Z) (r : result A) : result A := wrap_result (Wrapf "line %d: %w" [AInt line]) r.

(* internal/revenuecatimport/parse.go: transactionRow *)
Definition transactionRow (record : list string) (columns : gmap string nat) (canonicalColumn aliasColumn : string)
    (line : Z) (now : time) : result sourceRow :=
  let cell := cell columns record in
  let* sandbox := at_line line (parseBool (cell "is_sandbox")) in
  let* autoRenewable := at_line line (parseBool (cell "is_auto_renewable")) in
  let* start := at_line line (parseExportTime (cell "start_time")) in
  let* end_ := at_line line (parseExportTime (cell "end_time")) in
  let* grace := at_line line (parseExportTime (cell "grace_period_end_time")) in
  let* effectiveEnd := at_line line (parseExportTime (cell "effective_end_time")) in
  let* updated := at_line line (parseExportTime (cell "updated_at")) in
  let* refunded := at_line line (parseExportTime (cell "refunded_at")) in
  let* unsubscribe := at_line line (parseExportTime (cell "unsubscribe_detected_at")) in
  let* billing := at_line line (parseExportTime (cell "billing_issues_detected_at")) in
  let* autoResume := at_line line (parseExportTime (cell "auto_resume_time")) in
  let entitlements := parseEntitlementList (cell "entitlement_identifiers") in
  let material := cell "original_store_transaction_id" in
  let material := if String.eqb material EmptyString then cell "store_transaction_id" else material in
  let material := if String.eqb material EmptyString
                  then (cell "product_identifier" ++ nul ++ cell "start_time")%string else material in
  let* trial := (if bool_decide (is_Some (columns !! "is_trial_period"%string))
                    && negb (String.eqb (cell "is_trial_period") EmptyString)
                 then at_line line (parseBool (cell "is_trial_period")) else Ok false) in
  let canonicalID := cell canonicalColumn in
  let alias := cell aliasColumn in
  Ok (mkRow line canonicalID
        (if negb (String.eqb alias EmptyString) && negb (String.eqb alias canonicalID) then [alias] else [])
        (cell "store") sandbox (cell "product_identifier") (default [] entitlements)
        (match entitlements with Some _ => false | None => true end)
        start end_ grace effectiveEnd updated autoRenewable refunded unsubscribe billing autoResume
        (cell "ownership_type") trial material (default now updated) false false false).

(** The column positions of a header; a repeated name is refused. *)
(* internal/revenuecatimport/parse.go:78-86: parseTransactionsCSV *)
Fixpoint header_columns (index : nat) (columns : gmap string nat) (header : list string) : result (gmap string nat) :=
  match header with
  | [] => Ok columns
  | name :: header' =>
      let name := TrimSpace name in
      if bool_decide (is_Some (columns !! name))
      then Err (Wrapf "duplicate revenuecat column %q: %w" [AStr name] ErrUsage)
      else header_columns (Datatypes.S index) (<[name := index]> columns) header'
  end.

(** The drafts so far by their key, and the keys in the order they came. *)
Record csv_groups : Type := mkGroups {
  cg_order : list string;
  cg_grouped : gmap string subscriberDraft;
  cg_familyShared : Z;
  cg_trialPeriods : Z
}.

(* internal/revenuecatimport/parse.go:112-115: parseTransactionsCSV *)
Definition row_key (row : sourceRow) : string :=
  if String.eqb (sr_canonicalID row) EmptyString
  then (nul ++ "missing-" ++ FormatInt (sr_line row))%string else sr_canonicalID row.

Definition new_draft (row : sourceRow) : subscriberDraft :=
  mkDraft (sr_canonicalID row) (sr_line row) [] [] (String.prefix anonymousPrefix (sr_canonicalID row)).

(** One row joins the draft of its user. *)
(* internal/revenuecatimport/parse.go:106-124: parseTransactionsCSV *)
Definition group_row (groups : csv_groups) (row : sourceRow) : csv_groups :=
  let key := row_key row in
  let '(draft, order) := match cg_grouped groups !! key with
                         | Some draft => (draft, cg_order groups)
                         | None => (new_draft row, cg_order groups ++ [key])
                         end in
  mkGroups order
    (<[key := draft_with_aliases (fun l => l ++ sr_aliases row) (draft_with_rows (fun l => l ++ [row]) draft)]> (cg_grouped groups))
    (cg_familyShared groups + (if String.eqb (ToLowerASCII (sr_ownership row)) "family_shared" then 1 else 0))
    (cg_trialPeriods groups + (if sr_trial row then 1 else 0)).

Definition no_groups : csv_groups := mkGroups [] ∅ 0 0.
Definition group_rows (rows : list sourceRow) : csv_groups := fold_left group_row rows no_groups.

(** Draft pointers are looked up in the order of their keys. *)
Definition ordered_drafts (groups : csv_groups) : list subscriberDraft :=
  omap (fun key => cg_grouped groups !! key) (cg_order groups).

(** Rows are read until the reader stops; a malformed row is reported before a later
    failure of the reader. *)
(* internal/revenuecatimport/parse.go: parseTransactionsCSV *)
Definition parseTransactionsCSV (payload canonicalColumn : string) (now : time)
    : result (list subscriberDraft * Z * Z) :=
  let '(records, stop) := ReadCSV (bytesTrimBOM payload) in
  match records with
  | [] => match stop with
          | CsvEOF => Err (Wrapf "revenuecat transactions export is empty: %w" [] ErrUsage)
          | _ => Err (csvReadError stop)
          end
  | (header, _) :: records =>
      let* columns := header_columns 0 ∅ header in
      try* forEach (fun _ required => refuse_if (bool_decide (columns !! required = None))
                      (Wrapf "revenuecat column %q is required: %w" [AStr required] ErrUsage))
             [canonicalColumn; "product_identifier"; "entitlement_identifiers"; "store"; "is_auto_renewable"; "is_sandbox"]%string in
      let aliasColumn := if String.eqb canonicalColumn columnLastSeenAlias then columnOriginalAppUserID else columnLastSeenAlias in
      let* rows := collect (fun _ record => transactionRow (fst record) columns canonicalColumn aliasColumn (snd record) now) records in
      match stop with
      | CsvEOF =>
          let groups := group_rows rows in
          Ok (ordered_drafts groups, cg_familyShared groups, cg_trialPeriods groups)
      | _ => Err (csvReadError stop)
      end
  end.

(** ** Customer Info lines *)

(* internal/revenuecatimport/parse.go: subscriberBoundary *)
Definition subscriberBoundary (expiresDate graceDate : string) : result (option time) :=
  let* expires := parseExportTime expiresDate in
  let* grace := parseExportTime graceDate in
  Ok (match expires, grace with
      | Some e, Some g => if After g e then Some g else Some e
      | Some e, None => Some e
      | None, _ => grace
      end).

(** The row of one entitlement before its purchase is found. *)
Definition bare_row (line : Z) (productIdentifier entitlementID : string) (observed : time) : sourceRow :=
  mkRow line EmptyString [] EmptyString false productIdentifier [entitlementID] false
    None None None None None false None None None None EmptyString false EmptyString observed false false false.

Definition row_ambiguous (r : sourceRow) : sourceRow :=
  mkRow (sr_line r) (sr_canonicalID r) (sr_aliases r) (sr_store r) (sr_sandbox r) (sr_productIdentifier r)
    (sr_entitlementIDs r) (sr_invalidEntitlementList r) (sr_start r) (sr_end r) (sr_grace r) (sr_effectiveEnd r)
    (sr_updated r) (sr_autoRenewable r) (sr_refunded r) (sr_unsubscribe r) (sr_billing r) (sr_autoResume r)
    (sr_ownership r) (sr_trial r) (sr_lineageMaterial r) (sr_observedAt r) (sr_nonSubscription r) true (sr_missingPurchase r).
Definition row_missing (r : sourceRow) : sourceRow :=
  mkRow (sr_line r) (sr_canonicalID r) (sr_aliases r) (sr_store r) (sr_sandbox r) (sr_productIdentifier r)
    (sr_entitlementIDs r) (sr_invalidEntitlementList r) (sr_start r) (sr_end r) (sr_grace r) (sr_effectiveEnd r)
    (sr_updated r) (sr_autoRenewable r) (sr_refunded r) (sr_unsubscribe r) (sr_billing r) (sr_autoResume r)
    (sr_ownership r) (sr_trial r) (sr_lineageMaterial r) (sr_observedAt r) (sr_nonSubscription r) (sr_ambiguousProduct r) true.

(* internal/revenuecatimport/parse.go: fillSubscriberPurchase *)
Definition fillSubscriberPurchase (r : sourceRow) (store : string) (sandbox : bool)
    (purchaseDate expiresDate graceDate refunded unsubscribe billing autoResume : string) (subscription : bool)
    : result sourceRow :=
  let* start := parseExportTime purchaseDate in
  let* boundary := subscriberBoundary expiresDate graceDate in
  let* end_ := match boundary with Some _ => parseExportTime expiresDate | None => Ok None end in
  let* grace := parseExportTime graceDate in
  let* refundedAt := parseExportTime refunded in
  let* unsubscribedAt := parseExportTime unsubscribe in
  let* billingAt := parseExportTime billing in
  let* resumesAt := parseExportTime autoResume in
  let or_old (new old : option time) := match new with Some _ => new | None => old end in
  let effectiveEnd := or_old boundary (sr_effectiveEnd r) in
  Ok (mkRow (sr_line r) (sr_canonicalID r) (sr_aliases r) store sandbox (sr_productIdentifier r)
        (sr_entitlementIDs r) (sr_invalidEntitlementList r) (or_old start (sr_start r)) (or_old end_ (sr_end r))
        (or_old grace (sr_grace r)) effectiveEnd (sr_updated r) (sr_autoRenewable r) (or_old refundedAt (sr_refunded r))
        (or_old unsubscribedAt (sr_unsubscribe r)) (or_old billingAt (sr_billing r)) (or_old resumesAt (sr_autoResume r))
        (sr_ownership r) (sr_trial r) (sr_lineageMaterial r) (sr_observedAt r)
        (if negb subscription && bool_decide (effectiveEnd = None) then true else sr_nonSubscription r)
        (sr_ambiguousProduct r) (sr_missingPurchase r)).

(** What the two kinds of purchase set at the end. *)
Definition with_purchase (r : sourceRow) (ownership : string) (autoRenewable : bool) (material : string)
    (start : option time) (nonSubscription : bool) : sourceRow :=
  mkRow (sr_line r) (sr_canonicalID r) (sr_aliases r) (sr_store r) (sr_sandbox r) (sr_productIdentifier r)
    (sr_entitlementIDs r) (sr_invalidEntitlementList r) start (sr_end r) (sr_grace r) (sr_effectiveEnd r)
    (sr_updated r) autoRenewable (sr_refunded r) (sr_unsubscribe r) (sr_billing r) (sr_autoResume r)
    ownership (sr_trial r) material (sr_observedAt r) nonSubscription (sr_ambiguousProduct r) (sr_missingPurchase r).

(** The latest purchase by its instant; one without a date never replaces another. *)
(* internal/revenuecatimport/parse.go:446-465: subscriberGrantRow *)
Fixpoint select_purchase (selected : json_purchase * option time) (purchases : list json_purchase)
    : result json_purchase :=
  match purchases with
  | [] => Ok (fst selected)
  | purchase :: purchases' =>
      let* candidateAt := parseExportTime (jp_PurchaseDate purchase) in
      select_purchase
        (match candidateAt, snd selected with
         | None, _ => selected
         | Some c, Some s => if After c s then (purchase, candidateAt) else selected
         | Some _, None => (purchase, candidateAt)
         end) purchases'
  end.

(* internal/revenuecatimport/parse.go:403-437: subscriberGrantRow *)
Definition subscription_row (row : sourceRow) (line : Z) (productIdentifier raw : string) : result (sourceRow * Z) :=
  match DecodeSubscription raw with
  | None => Err (Wrapf "line %d subscription is invalid: %w" [AInt line] ErrUsage)
  | Some subscription =>
      let* filled := at_line line
        (fillSubscriberPurchase row (jb_Store subscription) (jb_IsSandbox subscription) (jb_PurchaseDate subscription)
           (jb_ExpiresDate subscription) (jb_GracePeriodExpiresDate subscription) (jb_RefundedAt subscription)
           (jb_UnsubscribeDetectedAt subscription) (jb_BillingIssuesDetectedAt subscription) (jb_AutoResumeDate subscription) true) in
      let material := if String.eqb (jb_StoreTransactionID subscription) EmptyString
                      then (productIdentifier ++ nul ++ jb_PurchaseDate subscription)%string
                      else jb_StoreTransactionID subscription in
      Ok (with_purchase filled (jb_OwnershipType subscription) true material (sr_start filled) (sr_nonSubscription filled),
          if String.eqb (ToLowerASCII (jb_OwnershipType subscription)) "family_shared" then 1 else 0)
  end.

(* internal/revenuecatimport/parse.go:438-490: subscriberGrantRow *)
Definition purchase_row (row : sourceRow) (line : Z) (productIdentifier expiresDate graceDate purchaseDate raw : string)
    : result (sourceRow * Z) :=
  match DecodePurchases raw with
  | None | Some [] => Ok (row_missing row, 0)
  | Some (first :: purchases) =>
      let* selectedAt := at_line line (parseExportTime (jp_PurchaseDate first)) in
      let* selected := at_line line (select_purchase (first, selectedAt) purchases) in
      let* filled := at_line line
        (fillSubscriberPurchase row (jp_Store selected) (jp_IsSandbox selected) (jp_PurchaseDate selected)
           expiresDate graceDate EmptyString EmptyString EmptyString EmptyString false) in
      let* start := (if bool_decide (sr_start filled = None) && negb (String.eqb purchaseDate EmptyString)
                     then at_line line (parseExportTime purchaseDate) else Ok (sr_start filled)) in
      let material := if String.eqb (jp_ID selected) EmptyString
                      then (productIdentifier ++ nul ++ jp_PurchaseDate selected)%string else jp_ID selected in
      Ok (with_purchase filled (sr_ownership filled) false material start true, 0)
  end.

(* internal/revenuecatimport/parse.go: subscriberGrantRow *)
Definition subscriberGrantRow (entitlementID productIdentifier expiresDate graceDate purchaseDate : string)
    (subscriptions nonSubscriptions : gmap string string) (line : Z) (observed : time) : result (sourceRow * Z) :=
  let row := bare_row line productIdentifier entitlementID observed in
  match subscriptions !! productIdentifier, nonSubscriptions !! productIdentifier with
  | Some _, Some _ => Ok (row_ambiguous row, 0)
  | None, None => Ok (row_missing row, 0)
  | Some raw, None => subscription_row row line productIdentifier raw
  | None, Some raw => purchase_row row line productIdentifier expiresDate graceDate purchaseDate raw
  end.

Definition row_of_customer (canonicalID : string) (r : sourceRow) : sourceRow :=
  mkRow (sr_line r) canonicalID (sr_aliases r) (sr_store r) (sr_sandbox r) (sr_productIdentifier r)
    (sr_entitlementIDs r) (sr_invalidEntitlementList r) (sr_start r) (sr_end r) (sr_grace r) (sr_effectiveEnd r)
    (sr_updated r) (sr_autoRenewable r) (sr_refunded r) (sr_unsubscribe r) (sr_billing r) (sr_autoResume r)
    (sr_ownership r) (sr_trial r) (sr_lineageMaterial r) (sr_observedAt r) (sr_nonSubscription r)
    (sr_ambiguousProduct r) (sr_missingPurchase r).

(** The entitlements of a subscriber come in an unspecified order. *)
(* internal/revenuecatimport/parse.go: decodeSubscriberLine *)
Definition decodeSubscriberLine (line : string) (number : Z) (now : time) : result (subscriberDraft * Z) :=
  match DecodeEnvelope line with
  | None => Err (Wrapf "line %d is not subscriber json: %w" [AInt number] ErrUsage)
  | Some envelope =>
  match (if String.eqb (je_Subscriber envelope) EmptyString then Some no_subscriber
         else DecodeSubscriber (je_Subscriber envelope)) with
  | None => Err (Wrapf "line %d subscriber is invalid: %w" [AInt number] ErrUsage)
  | Some subscriber =>
      let requestDate := if String.eqb (je_RequestDate envelope) EmptyString then js_RequestDate subscriber
                         else je_RequestDate envelope in
      let* observed := (if String.eqb requestDate EmptyString then Ok now
                        else let* parsed := at_line number (parseExportTime requestDate) in Ok (default zeroTime parsed)) in
      let externalID := TrimSpace (je_AppUserID envelope) in
      let original := js_OriginalAppUserID subscriber in
      let aliases := (if negb (String.eqb original EmptyString) && negb (String.eqb original externalID) then [original] else [])
                     ++ js_Aliases subscriber in
      let* rows := collect (fun _ entry =>
          match DecodeEntitlement (snd entry) with
          | None => Err (Wrapf "line %d entitlement is invalid: %w" [AInt number] ErrUsage)
          | Some entitlement =>
              let* answer := subscriberGrantRow (fst entry) (jn_ProductIdentifier entitlement) (jn_ExpiresDate entitlement)
                               (jn_GracePeriodExpiresDate entitlement) (jn_PurchaseDate entitlement)
                               (js_Subscriptions subscriber) (js_NonSubscriptions subscriber) number observed in
              Ok (row_of_customer externalID (fst answer), snd answer)
          end) (map_range 10 (map_to_list (js_Entitlements subscriber))) in
      Ok (mkDraft externalID number aliases (map fst rows) (String.prefix anonymousPrefix externalID),
          fold_left (fun n entry => n + snd entry) rows 0)
  end end.

(* internal/revenuecatimport/parse.go: parseSubscriberJSONL *)
Definition parseSubscriberJSONL (payload : string) (now : time) : result (list subscriberDraft * Z * Z) :=
  let lines := Split (bytesTrimBOM payload) 10 in
  let numbered := List.filter (fun entry => negb (String.eqb (snd entry) EmptyString))
                    (imap (fun number line => (Z.of_nat number + 1, TrimSpace line)) lines) in
  let* drafts := collect (fun _ entry => decodeSubscriberLine (snd entry) (fst entry) now) numbered in
  if Nat.eqb (length drafts) 0
  then Err (Wrapf "revenuecat subscriber export is empty: %w" [] ErrUsage)
  else Ok (map fst drafts, fold_left (fun n entry => n + snd entry) drafts 0, 0).

(* internal/revenuecatimport/parse.go: parseExport *)
Definition parseExport (payload format canonicalColumn : string) (now : time) : result (list subscriberDraft * Z * Z) :=
  if String.eqb format FormatTransactionsCSV then parseTransactionsCSV payload canonicalColumn now
  else if String.eqb format FormatSubscriberJSONL then parseSubscriberJSONL payload now
  else Err (Wrapf "unsupported revenuecat import format %q: %w" [AStr format] ErrUsage).
End ReadingExport.

(** ** The grouping is the partition of the rows *)

(** The keys of the rows, each where it first comes. *)
Definition row_keys (rows : list sourceRow) : list string :=
  fold_left (fun keys row => if contains_str keys (row_key row) then keys else keys ++ [row_key row]) rows [].

Definition rows_of (rows : list sourceRow) (key : string) : list sourceRow :=
  List.filter (fun row => String.eqb (row_key row) key) rows.

(** The draft of a key: its rows as they came, under the identity of the first. *)
Definition gather (rows : list sourceRow) (key : string) : option subscriberDraft :=
  match rows_of rows key with
  | [] => None
  | (first :: _) as mine =>
      Some (mkDraft (sr_canonicalID first) (sr_line first) (flat_map sr_aliases mine) mine
              (String.prefix anonymousPrefix (sr_canonicalID first)))
  end.

Lemma row_keys_snoc rows row :
  row_keys (rows ++ [row]) =
  if contains_str (row_keys rows) (row_key row) then row_keys rows else row_keys rows ++ [row_key row].
Proof. unfold row_keys. by rewrite fold_left_app. Qed.

Lemma group_rows_snoc rows row : group_rows (rows ++ [row]) = group_row (group_rows rows) row.
Proof. unfold group_rows. by rewrite fold_left_app. Qed.

Lemma rows_of_snoc rows row key :
  rows_of (rows ++ [row]) key = rows_of rows key ++ (if String.eqb (row_key row) key then [row] else []).
Proof. unfold rows_of. rewrite List.filter_app. cbn. by destruct (String.eqb _ key). Qed.

Lemma row_keys_spec rows : NoDup (row_keys rows) /\ forall key, key ∈ row_keys rows <-> rows_of rows key <> [].
Proof.
  induction rows as [|row rows [Hnd Hin]] using rev_ind; [split; [constructor|]; intros key; cbn; by rewrite elem_of_nil|].
  rewrite row_keys_snoc. setoid_rewrite rows_of_snoc.
  destruct (contains_str (row_keys rows) (row_key row)) eqn:E.
  - apply contains_str_In, list_elem_of_In in E. split; [done|]. intros key. rewrite Hin.
    destruct (String.eqb_spec (row_key row) key) as [<-|]; [|by rewrite app_nil_r].
    split; [by destruct (rows_of rows _)|]. intros _. by apply Hin.
  - apply contains_str_not_In in E. rewrite <- list_elem_of_In in E. split.
    + apply NoDup_app. split_and!; [done| |apply NoDup_singleton]. by intros x Hx ->%list_elem_of_singleton.
    + intros key. rewrite elem_of_app, list_elem_of_singleton, Hin.
      destruct (String.eqb_spec (row_key row) key) as [<-|Hne]; [|rewrite app_nil_r; naive_solver].
      split; [by destruct (rows_of rows _)|by right].
Qed.

Lemma groups_gathered rows :
  cg_order (group_rows rows) = row_keys rows /\ forall key, cg_grouped (group_rows rows) !! key = gather rows key.
Proof.
  induction rows as [|row rows [Ho Hg]] using rev_ind; [split; [done|intros key; apply lookup_empty]|].
  pose proof (row_keys_spec rows) as [_ Hin].
  rewrite group_rows_snoc, row_keys_snoc. unfold group_row. rewrite Hg.
  assert (Hc : contains_str (row_keys rows) (row_key row) = match rows_of rows (row_key row) with [] => false | _ => true end).
  { specialize (Hin (row_key row)). apply eq_true_iff_eq. rewrite contains_str_In, <- list_elem_of_In, Hin.
    by destruct (rows_of rows _). }
  rewrite Hc. unfold gather at 1 2. clear Hc.
  destruct (rows_of rows (row_key row)) as [|first mine] eqn:E; cbn [cg_order cg_grouped].
  all: split; [by rewrite Ho|]; intros key; unfold gather; rewrite rows_of_snoc;
    destruct (String.eqb_spec (row_key row) key) as [<-|Hne];
    [rewrite lookup_insert_eq, E|rewrite lookup_insert_ne, Hg, app_nil_r by done; done]; cbn.
  - by rewrite app_nil_r.
  - unfold draft_with_aliases, draft_with_rows. cbn. by rewrite flat_map_app, <- app_assoc; cbn; rewrite app_nil_r.
Qed.

(** Adding an element to the one block of its key. *)
Lemma flat_map_add {A} (f : string -> list A) (x : A) key keys :
  NoDup keys -> key ∈ keys ->
  flat_map (fun k => if String.eqb key k then x :: f k else f k) keys ≡ₚ x :: flat_map f keys.
Proof.
  induction 1 as [|k keys Hk Hnd IH]; [by rewrite elem_of_nil|]. rewrite elem_of_cons. cbn.
  destruct (String.eqb_spec key k) as [->|Hne]; intros Hin.
  - cbn. constructor. apply Permutation_app_head. clear -Hk. induction keys as [|k' keys IH]; [done|].
    apply not_elem_of_cons in Hk as [Hne Hk]. cbn. rewrite (proj2 (String.eqb_neq k k') Hne). by rewrite IH.
  - destruct Hin as [|Hin]; [done|]. rewrite (IH Hin). by rewrite Permutation_middle.
Qed.

Lemma rows_partitioned rows keys :
  NoDup keys -> Forall (fun row => row_key row ∈ keys) rows -> flat_map (rows_of rows) keys ≡ₚ rows.
Proof.
  intros Hnd. induction 1 as [|row rows Hin _ IH]; [by induction keys; [|inversion Hnd; subst; cbn; auto]|].
  rewrite <- IH at 2. rewrite <- (flat_map_add (rows_of rows) row (row_key row)) by done. done.
Qed.

Lemma omap_cons_eq {A B} (f : A -> option B) x l :
  omap f (x :: l) = match f x with Some y => y :: omap f l | None => omap f l end.
Proof. done. Qed.

Lemma ordered_drafts_gathered rows :
  ordered_drafts (group_rows rows) = omap (gather rows) (row_keys rows) /\
  map dr_rows (ordered_drafts (group_rows rows)) = map (rows_of rows) (row_keys rows).
Proof.
  destruct (groups_gathered rows) as [Ho Hg].
  assert (ordered_drafts (group_rows rows) = omap (gather rows) (row_keys rows)) as ->.
  { unfold ordered_drafts. rewrite Ho. clear Ho. induction (row_keys rows) as [|key keys IH]; [done|].
    rewrite !omap_cons_eq. by rewrite Hg, IH. }
  split; [done|].
  assert (Hall : Forall (fun key => rows_of rows key <> []) (row_keys rows)).
  { apply List.Forall_forall. intros key Hkey%list_elem_of_In. by apply row_keys_spec. }
  clear Ho. induction Hall as [|key keys Hkey _ IH]; [done|]. rewrite omap_cons_eq. cbn [map]. rewrite <- IH.
  unfold gather at 1. by destruct (rows_of rows key).
Qed.

Lemma draft_counts rows :
  cg_familyShared (group_rows rows) = Z.of_nat (length (List.filter (fun row => String.eqb (ToLowerASCII (sr_ownership row)) "family_shared") rows)) /\
  cg_trialPeriods (group_rows rows) = Z.of_nat (length (List.filter sr_trial rows)).
Proof.
  induction rows as [|row rows [IH1 IH2]] using rev_ind; [done|]. rewrite group_rows_snoc. unfold group_row.
  rewrite !List.filter_app, !length_app.
  destruct (cg_grouped (group_rows rows) !! row_key row); cbn [cg_familyShared cg_trialPeriods]; rewrite IH1, IH2;
    cbn [List.filter]; destruct (String.eqb _ _), (sr_trial row); cbn [length]; split; lia.
Qed.

(** The columns are the positions of the header's names, each of which comes once. *)
Lemma header_columns_spec header index columns columns' :
  header_columns index columns header = Ok columns' ->
  forall name i, columns' !! name = Some i <->
    columns !! name = Some i \/ ((index <= i)%nat /\ TrimSpace <$> header !! (i - index)%nat = Some name).
Proof.
  revert index columns. induction header as [|h header IH]; intros index columns; cbn [header_columns].
  { intros [= <-] name i. cbn. naive_solver. }
  destruct (bool_decide_reflect (is_Some (columns !! TrimSpace h))) as [|Hnew]; [done|].
  intros H name i. rewrite (IH _ _ H name i). clear IH H. rewrite lookup_insert_Some.
  split.
  - intros [[[<- <-]|[Hne Hc]]|[Hle Hh]]; [right|by left|right].
    + by rewrite Nat.sub_diag.
    + split; [lia|]. by replace (i - index)%nat with (S (i - S index)) by lia.
  - intros [Hc|[Hle Hh]].
    + left. right. split; [|done]. intros <-. destruct Hnew. by eexists.
    + destruct (decide (i = index)) as [->|Hne].
      * rewrite Nat.sub_diag in Hh. cbn in Hh. left. left. naive_solver.
      * right. split; [lia|]. by replace (i - index)%nat with (S (i - S index)) in Hh by lia.
Qed.

(** Reading a transactions export loses nothing.  When the parser answers, the reader
    reached the end of the text, the columns are the positions of the header's names, and
    every record after the header became exactly one row.  The drafts are those rows
    partitioned by canonical user, the users in the order they first come and the rows of
    each in the order they come: together they are all the rows and no others, and the
    family-shared and trial counts are those of the rows. *)
Theorem csv_rows_kept `{Library : !ExportLibrary} payload column now drafts familyShared trials :
  parseTransactionsCSV payload column now = Ok (drafts, familyShared, trials) ->
  exists header records columns rows,
    ReadCSV (bytesTrimBOM payload) = (header :: records, CsvEOF) /\
    (forall name i, columns !! name = Some i <-> TrimSpace <$> header.1 !! i = Some name) /\
    Forall2 (fun record row =>
        transactionRow record.1 columns column
          (if String.eqb column columnLastSeenAlias then columnOriginalAppUserID else columnLastSeenAlias)
          record.2 now = Ok row) records rows /\
    drafts = omap (gather rows) (row_keys rows) /\ NoDup (row_keys rows) /\
    concat (map dr_rows drafts) ≡ₚ rows /\
    familyShared = Z.of_nat (length (List.filter (fun row => String.eqb (ToLowerASCII (sr_ownership row)) "family_shared") rows)) /\
    trials = Z.of_nat (length (List.filter sr_trial rows)).
Proof.
  unfold parseTransactionsCSV. destruct (ReadCSV (bytesTrimBOM payload)) as [[|[header hline] records] stop]; [by destruct stop|].
  intros (columns & Hcols & H)%bind_result_ok. apply try_err_ok in H as [_ H].
  apply bind_result_ok in H as (rows & Hrows & H). destruct stop; [|done..]. injection H as <- <- <-.
  exists (header, hline), records, columns, rows.
  destruct (ordered_drafts_gathered rows) as [Hd Hr]. destruct (draft_counts rows) as [Hf Ht].
  destruct (row_keys_spec rows) as [Hnd Hin]. split_and!; try done.
  - intros name i. rewrite (header_columns_spec _ _ _ _ Hcols), lookup_empty, Nat.sub_0_r.
    split; [intros [|[_ ?]]; done|right; split; [lia|done]].
  - eapply collect_Forall2; [|exact Hrows]. intros i record row. done.
  - rewrite Hr, <- flat_map_concat_map. apply rows_partitioned; [done|]. apply List.Forall_forall. intros row Hrow.
    apply Hin. unfold rows_of. intros Hnil. assert (Hx : In row []); [|done].
    rewrite <- Hnil. apply filter_In. split; [done|]. apply String.eqb_refl.
Qed.

(** A reader of plain lines and cells, without quoting. *)
Definition plain_csv (text : string) : list (list string * Z) * csv_end :=
  (imap (fun number line => (Split line 44, Z.of_nat number + 1))
     (List.filter (fun line => negb (String.eqb line EmptyString)) (Split text 10)), CsvEOF).

(** A time as the number it writes. *)
Definition plain_time (layout value : string) : option time :=
  if forallb (in_range 48 57) (bytes value) then Some (value_of_digits (map (fun b => b - 48) (bytes value))) else None.

Definition plain_library : ExportLibrary :=
  Build_ExportLibrary plain_csv plain_time (fun cell => Some [cell]) (fun _ => None) (fun _ => None)
    (fun _ => None) (fun _ => None) (fun _ => None).

Definition plain_header : string :=
  "rc_original_app_user_id,rc_last_seen_app_user_id_alias,product_identifier,entitlement_identifiers,store,is_auto_renewable,is_sandbox,ownership_type".

Definition csv_lines (lines : list string) : string := String.concat (of_bytes [10]) lines.

Definition sample_csv : string :=
  csv_lines [plain_header; "ada,a1,coins,pro,app_store,false,false,PURCHASED";
             "bob,bob,coins,pro,app_store,FALSE,false,FAMILY_SHARED"; "ada,a2,gems,,play_store,false,true,PURCHASED"]%string.

(** Each draft as its identity, aliases and lines. *)
Definition draft_lines (drafts : list subscriberDraft) : list (string * list string * list Z) :=
  map (fun d => (dr_externalID d, dr_aliases d, map sr_line (dr_rows d))) drafts.

Definition sample_drafts : list subscriberDraft :=
  match parseTransactionsCSV (Library := plain_library) sample_csv columnOriginalAppUserID 5 with
  | Ok (drafts, _, _) => drafts | Err _ => []
  end.

Lemma sample_answered :
  parseTransactionsCSV (Library := plain_library) sample_csv columnOriginalAppUserID 5 = Ok (sample_drafts, 1, 0).
Proof. vm_compute. reflexivity. Qed.

Lemma sample_records header records :
  ReadCSV (ExportLibrary := plain_library) (bytesTrimBOM sample_csv) = (header :: records, CsvEOF) -> length records = 3%nat.
Proof.
  intros H. assert (Hl : length (fst (ReadCSV (ExportLibrary := plain_library) (bytesTrimBOM sample_csv))) = 4%nat)
    by (vm_compute; reflexivity). rewrite H in Hl. cbn in Hl. lia.
Qed.

Lemma csv_rows_kept_witness :
  draft_lines sample_drafts = [("ada", ["a1"; "a2"], [2; 4]); ("bob", [], [3])]%string /\
  exists rows : list sourceRow, concat (map dr_rows sample_drafts) ≡ₚ rows /\ length rows = 3%nat.
Proof.
  split; [vm_compute; reflexivity|].
  destruct (csv_rows_kept (Library := plain_library) sample_csv columnOriginalAppUserID 5 sample_drafts 1 0 sample_answered)
    as (header & records & columns & rows & Hread & _ & Hrows & _ & _ & Hperm & _).
  exists rows. split; [exact Hperm|]. rewrite <- (Forall2_length _ _ _ Hrows). exact (sample_records _ _ Hread).
Defined.
