(* ===== verification/RevenueCatPlan.v ===== *)
(** The import plan ([internal/revenuecatimport/mapping.go], [catalog.go], [report.go],
    [decide.go], [plan.go]): the operator's mapping file, the project catalog it may name,
    the access decided for one export row, and the subscribers and grants of an export
    planned without writing anything.

    [ParseMapping] decodes JSON and is not modelled: a [Mapping] is an argument.  Go sorts
    the grants with an unstable sort after ranging over a map: equal grants come in an
    unspecified order, which [map_range] gives. *)

From S2P Require Import Prelude GoText GoTime GoHttp GoCodec Sha256 Core Purchase Protection Persistence Projector RevenueCat.
From stdpp Require Import base list strings gmap sorting.
Local Open Scope Z_scope.

(** ** The mapping ([mapping.go]) *)

(* internal/revenuecatimport/mapping.go: ProductMapping *)
Record ProductMapping : Type := mkProductMapping {
  pm_Store : string;
  pm_Environment : string;
  pm_ProviderProductID : string;
  pm_ApplicationID : string;
  pm_ProductID : string
}.

(* internal/revenuecatimport/mapping.go: Mapping *)
Record Mapping : Type := mkMapping {
  mp_ProjectID : string;
  mp_CanonicalIDColumn : string;
  mp_Entitlements : gmap string string;
  mp_Products : list ProductMapping
}.

Definition blank (s : string) : bool := String.eqb (TrimSpace s) EmptyString.
Definition trimmed (s : string) : bool := String.eqb (TrimSpace s) s.

Definition mapping_key (product : ProductMapping) : string :=
  (pm_Store product ++ nul ++ pm_Environment product ++ nul ++ pm_ProviderProductID product)%string.

(* internal/revenuecatimport/mapping.go:98-121: Mapping.Validate *)
Definition validate_product (seen : list ProductMapping) (product : ProductMapping) : error :=
  refuse_if (String.eqb (pm_Store product) EmptyString || negb (trimmed (pm_Store product)))
    (Wrapf "mapping store is invalid: %w" [] ErrUsage) ;;?
  refuse_if (negb (String.eqb (pm_Environment product) EnvironmentProduction)
             && negb (String.eqb (pm_Environment product) EnvironmentSandbox))
    (Wrapf "mapping environment %q is invalid: %w" [AStr (pm_Environment product)] ErrUsage) ;;?
  refuse_if (bool_decide (is_Some (ValidateOpaqueIdentifier "provider product ID" (pm_ProviderProductID product))))
    (Wrapf "mapping provider product: %w" [] ErrUsage) ;;?
  refuse_if (bool_decide (is_Some (ApplicationID_Validate (pm_ApplicationID product))))
    (Wrapf "mapping application: %w" [] ErrUsage) ;;?
  refuse_if (bool_decide (is_Some (ProductID_Validate (pm_ProductID product))))
    (Wrapf "mapping product: %w" [] ErrUsage) ;;?
  refuse_if (contains_str (map mapping_key seen) (mapping_key product))
    (Wrapf "duplicate product mapping: %w" [] ErrUsage).

Section Plan.
Context `{Horder : !GoMapRange}.

(* internal/revenuecatimport/mapping.go: Mapping.Validate *)
Definition Mapping_Validate (mapping : Mapping) (projectID : ProjectID) (format : string) : error :=
  refuse_if (negb (String.eqb (mp_ProjectID mapping) projectID))
    (Wrapf "mapping project %q does not match %q: %w" [AStr (mp_ProjectID mapping); AStr projectID] ErrUsage) ;;?
  (if String.eqb format FormatTransactionsCSV then
     refuse_if (negb (String.eqb (mp_CanonicalIDColumn mapping) columnOriginalAppUserID)
                && negb (String.eqb (mp_CanonicalIDColumn mapping) columnLastSeenAlias))
       (Wrapf "canonical id column is invalid: %w" [] ErrUsage)
   else if String.eqb format FormatSubscriberJSONL then
     refuse_if (negb (String.eqb (mp_CanonicalIDColumn mapping) EmptyString))
       (Wrapf "canonical id column is forbidden for subscriber jsonl: %w" [] ErrUsage)
   else Some (Wrapf "unsupported revenuecat import format %q: %w" [AStr format] ErrUsage)) ;;?
  refuse_if (Nat.eqb (size (mp_Entitlements mapping)) 0 || Nat.eqb (length (mp_Products mapping)) 0)
    (Wrapf "mapping entitlements and products are required: %w" [] ErrUsage) ;;?
  forEach (fun _ entry =>
      refuse_if (blank entry.1 || blank entry.2 || negb (trimmed entry.1) || negb (trimmed entry.2))
        (Wrapf "mapping entitlement %q is invalid: %w" [AStr entry.1] ErrUsage))
    (map_range 11 (map_to_list (mp_Entitlements mapping))) ;;?
  forPrefix validate_product [] (mp_Products mapping).

(* internal/revenuecatimport/mapping.go: Mapping.productMapping *)
Definition productMapping (mapping : Mapping) (store environment providerProductID : string) : option ProductMapping :=
  List.find (fun product => String.eqb (pm_Store product) store && String.eqb (pm_Environment product) environment
                            && String.eqb (pm_ProviderProductID product) providerProductID) (mp_Products mapping).

(* internal/revenuecatimport/mapping.go: Mapping.storeMapped *)
Definition storeMapped (mapping : Mapping) (store : string) : bool :=
  existsb (fun product => String.eqb (pm_Store product) store) (mp_Products mapping).

(* internal/revenuecatimport/mapping.go: Mapping.productMappedOnOtherEnvironment *)
Definition productMappedOnOtherEnvironment (mapping : Mapping) (store environment providerProductID : string) : bool :=
  existsb (fun product => String.eqb (pm_Store product) store && String.eqb (pm_ProviderProductID product) providerProductID
                          && negb (String.eqb (pm_Environment product) environment)) (mp_Products mapping).

(** ** The catalog ([catalog.go]) *)

(* internal/revenuecatimport/catalog.go: Catalog *)
Record Catalog : Type := mkCatalog {
  ct_applications : gmap ApplicationID Application;
  ct_products : gmap ProductID Product;
  ct_entitlements : gmap string Entitlement;
  ct_storeProducts : gset string
}.

(* internal/revenuecatimport/catalog.go: storeProductKey *)
Definition storeProductKey (applicationID : ApplicationID) (providerProductID : string) : string :=
  (applicationID ++ nul ++ providerProductID)%string.

(* internal/revenuecatimport/catalog.go: NewCatalog *)
Definition NewCatalog (snapshot : ImportCatalog) : Catalog :=
  mkCatalog
    (fold_left (fun m application => <[app_ID application := application]> m) (ic_Applications snapshot) ∅)
    (fold_left (fun m product => <[prod_ID product := product]> m) (ic_Products snapshot) ∅)
    (fold_left (fun m entitlement => <[ent_Key entitlement := entitlement]> m) (ic_Entitlements snapshot) ∅)
    (fold_left (fun keys mapping => {[storeProductKey (sp_ApplicationID mapping) (sp_ProviderID mapping)]} ∪ keys)
       (ic_StoreProducts snapshot) ∅).

(* internal/revenuecatimport/catalog.go: requiresStoreProduct *)
Definition requiresStoreProduct (store : string) : bool :=
  String.eqb store "app_store" || String.eqb store "play_store".

(** ** The access of a row ([decide.go]) *)

(* internal/revenuecatimport/decide.go: accessDecision *)
Record accessDecision : Type := mkDecision {
  ad_access : AccessStatus;
  ad_reason : AccessReason;
  ad_start : time;
  ad_end : option time;
  ad_failure : string;
  ad_refundDisagreement : bool
}.

Definition decision_failure (code : string) : accessDecision :=
  mkDecision EmptyString EmptyString zeroTime None code false.

Definition some_after (t : option time) (now : time) : bool :=
  match t with Some t => After t now | None => false end.

(** The access and reason, and whether a refund disagrees with the end. *)
(* internal/revenuecatimport/decide.go:38-67: decideAccess *)
Definition decide_status (row : sourceRow) (now : time) : AccessStatus * AccessReason * bool :=
  let boundary := sr_effectiveEnd row in
  match sr_refunded row with
  | Some _ => (AccessDenied, AccessReasonRefunded, some_after boundary now)
  | None =>
      match boundary with
      | None => (AccessAllowed, AccessReasonPurchaseValid, false)
      | Some ends =>
          if negb (Before now ends) then
            (AccessDenied,
             (if some_after (sr_autoResume row) now then AccessReasonPaused
              else if bool_decide (is_Some (sr_billing row)) then AccessReasonBillingIssue
              else AccessReasonExpired), false)
          else
            (AccessAllowed,
             (if some_after (sr_grace row) now
                 && match sr_end row with None => true | Some e => negb (Before now e) end
              then AccessReasonGracePeriod
              else if bool_decide (is_Some (sr_unsubscribe row)) then AccessReasonCanceledAtPeriodEnd
              else AccessReasonPurchaseValid), false)
      end
  end.

(** A future start is stored as denied: readers grant any allowed projection at once. *)
(* internal/revenuecatimport/decide.go:85-92: decideAccess *)
Definition wait_for_start (now : time) (decision : accessDecision) : accessDecision :=
  if String.eqb (ad_access decision) AccessAllowed && Before now (ad_start decision)
  then mkDecision AccessDenied AccessReasonProviderDecision (ad_start decision) (ad_end decision)
         EmptyString (ad_refundDisagreement decision)
  else decision.

(** The decision once the kind fits. *)
(* internal/revenuecatimport/decide.go:68-93: decideAccess *)
Definition decide_period (row : sourceRow) (now : time) : accessDecision :=
  let '(access, reason, disagreement) := decide_status row now in
  let start := default zeroTime (sr_start row) in
  if String.eqb access AccessAllowed && IsZero start then decision_failure CodeMissingEffectiveEnd
  else
    let decided ends := wait_for_start now (mkDecision access reason start ends EmptyString disagreement) in
    match (if IsZero start then None else sr_effectiveEnd row) with
    | Some e =>
        if negb (IsZero start) && negb (After e start) then
          if String.eqb access AccessAllowed then decision_failure CodeMissingEffectiveEnd else decided None
        else decided (Some e)
    | None => decided None
    end.

(* internal/revenuecatimport/decide.go: decideAccess *)
Definition decideAccess (row : sourceRow) (kind : ProductKind) (kindKnown : bool) (now : time) : accessDecision :=
  let endless := bool_decide (sr_effectiveEnd row = None) in
  if kindKnown && String.eqb kind ProductKindConsumable then decision_failure CodeUnsupportedProductKind
  else if endless && sr_autoRenewable row then decision_failure CodeMissingEffectiveEnd
  else
    let durable := endless && negb (sr_autoRenewable row) in
    if kindKnown && durable && negb (String.eqb kind ProductKindNonConsumable)
    then decision_failure CodeProductKindMismatch
    else if kindKnown && negb endless && negb (String.eqb kind ProductKindSubscription)
    then decision_failure CodeProductKindMismatch
    else decide_period row now.

(** ** The report ([report.go]) *)

(* internal/revenuecatimport/report.go: Counts *)
Record Counts : Type := mkCounts {
  co_CustomersCreated : Z;
  co_CustomersReused : Z;
  co_GrantsUpserted : Z;
  co_GrantsUnchanged : Z;
  co_ProjectionsChanged : Z;
  co_WebhooksEnqueued : Z;
  co_AliasRefused : Z;
  co_AnonymousCustomers : Z;
  co_FamilyShared : Z;
  co_SkippedAnonymous : Z;
  co_Failed : Z;
  co_RefundEndDisagreement : Z;
  co_TrialPeriods : Z;
  co_NotYetStarted : Z
}.

(* internal/revenuecatimport/report.go: Failure *)
Record ImportFailure : Type := mkFailure {
  fl_Line : Z;
  fl_Code : string;
  fl_ExternalID : string;
  fl_EntitlementKey : string;
  fl_LineageFingerprint : string
}.

(* internal/revenuecatimport/report.go: Report *)
Record Report : Type := mkReport {
  rp_DryRun : bool;
  rp_ProjectID : string;
  rp_BatchID : string;
  rp_ExportSHA256 : string;
  rp_Format : string;
  rp_Counts : Counts;
  rp_NotYetStartedEarliestAt : option time;
  rp_Warning : string;
  rp_Failures : list ImportFailure
}.

(* internal/revenuecatimport/report.go: Grant *)
Record Grant : Type := mkGrant {
  gr_ID : string;
  gr_Line : Z;
  gr_EntitlementKey : string;
  gr_EntitlementID : EntitlementID;
  gr_ApplicationID : ApplicationID;
  gr_ProductID : ProductID;
  gr_OriginStore : string;
  gr_Environment : Environment;
  gr_Access : AccessStatus;
  gr_Reason : AccessReason;
  gr_StartsAt : time;
  gr_EndsAt : option time;
  gr_ObservedAt : time;
  gr_LineageFingerprint : string
}.

(* internal/revenuecatimport/report.go: Subscriber *)
Record Subscriber : Type := mkSubscriber {
  sb_ExternalID : string;
  sb_CustomerID : CustomerID;
  sb_Aliases : list string;
  sb_Grants : list Grant;
  sb_Failures : list ImportFailure;
  sb_Skipped : bool;
  sb_Anonymous : bool;
  sb_Fatal : bool;
  sb_Created : bool;
  sb_Reused : bool;
  sb_GrantsUpserted : Z;
  sb_GrantsUnchanged : Z;
  sb_ProjectionsChanged : Z;
  sb_WebhooksEnqueued : Z
}.

(** What planning sets of a subscriber; the rest is zero. *)
Definition planned (externalID : string) (customerID : CustomerID) (aliases : list string) (anonymous : bool)
    (grants : list Grant) (failures : list ImportFailure) (skipped fatal : bool) : Subscriber :=
  mkSubscriber externalID customerID aliases grants failures skipped anonymous fatal false false 0 0 0 0.

(** ** The plan ([plan.go]) *)

(* internal/revenuecatimport/plan.go: Input *)
Record Input : Type := mkInput {
  in_ProjectID : ProjectID;
  in_Mapping : Mapping;
  in_Format : string;
  in_Export : string;
  in_Now : time;
  in_BatchID : string;
  in_SkipAnonymous : bool;
  in_StoreAliases : bool;
  in_Catalog : option Catalog
}.

(* internal/revenuecatimport/plan.go: Result *)
Record ImportResult : Type := mkImportResult {
  ir_Subscribers : list Subscriber;
  ir_Report : Report
}.

(* internal/revenuecatimport/plan.go: uniqueAliases *)
Definition uniqueAliases (canonicalID : string) (aliases : list string) : list string :=
  fold_left (fun result alias =>
      let alias := TrimSpace alias in
      if String.eqb alias EmptyString || String.eqb alias canonicalID then result
      else if contains_str result alias then result
      else result ++ [alias]) aliases [].

(* internal/revenuecatimport/plan.go: firstEntitlement *)
Definition firstEntitlement (row : sourceRow) : string := hd EmptyString (sr_entitlementIDs row).

(* internal/revenuecatimport/plan.go: sourceRow.after *)
Definition row_after (row other : sourceRow) : bool :=
  let leftUpdated := default zeroTime (sr_updated row) in
  let rightUpdated := default zeroTime (sr_updated other) in
  let later_start := After (default zeroTime (sr_start row)) (default zeroTime (sr_start other)) in
  if negb (Equal leftUpdated rightUpdated) then After leftUpdated rightUpdated
  else match sr_effectiveEnd row, sr_effectiveEnd other with
       | Some _, None => true
       | None, Some _ => false
       | Some ends, Some otherEnds => if negb (Equal ends otherEnds) then After ends otherEnds else later_start
       | None, None => later_start
       end.

(* internal/revenuecatimport/plan.go: productGrants *)
Definition productGrants (product : Product) (entitlementID : EntitlementID) : bool :=
  contains_str (prod_EntitlementIDs product) entitlementID.

(* internal/revenuecatimport/plan.go: grantNotYetStarted *)
Definition grantNotYetStarted (grant : Grant) (now : time) : bool :=
  String.eqb (gr_Access grant) AccessDenied && String.eqb (gr_Reason grant) AccessReasonProviderDecision
  && negb (IsZero (gr_StartsAt grant)) && Before now (gr_StartsAt grant).

(** The catalog's verdict on a mapped product: a failure code, or the entitlement and kind. *)
(* internal/revenuecatimport/plan.go:229-259: mapGrant *)
Definition catalog_check (catalog : Catalog) (row : sourceRow) (environment key : string) (product : ProductMapping)
    : string + (EntitlementID * ProductKind) :=
  match ct_applications catalog !! pm_ApplicationID product, ct_products catalog !! pm_ProductID product with
  | Some application, Some known =>
      if negb (String.eqb (sa_Environment (app_Store application)) (pm_Environment product))
         || negb (String.eqb (sa_Environment (app_Store application)) environment)
      then inl CodeEnvironmentMismatch
      else match ct_entitlements catalog !! key with
           | None => inl CodeUnknownEntitlement
           | Some entitlement =>
               if negb (productGrants known (ent_ID entitlement)) then inl CodeEntitlementNotGranted
               else if requiresStoreProduct (sr_store row)
                       && negb (bool_decide (storeProductKey (app_ID application) (sr_productIdentifier row)
                                             ∈ ct_storeProducts catalog))
               then inl CodeUnknownProduct
               else inr (ent_ID entitlement, prod_Kind known)
           end
  | _, _ => inl CodeUnknownProduct
  end.

Definition row_environment (row : sourceRow) : Environment :=
  if sr_sandbox row then EnvironmentSandbox else EnvironmentProduction.

Definition planned_grant (input : Input) (externalID : string) (row : sourceRow) (key : string)
    (product : ProductMapping) (entitlementID : EntitlementID) (decision : accessDecision) : Grant :=
  let lineage := Sum256 (sr_lineageMaterial row) in
  mkGrant (rc_GrantID (in_ProjectID input) (rc_CustomerID (in_ProjectID input) externalID) (pm_ApplicationID product)
             (pm_ProductID product) entitlementID lineage)
    (sr_line row) key entitlementID (pm_ApplicationID product) (pm_ProductID product) (sr_store row)
    (row_environment row) (ad_access decision) (ad_reason decision) (ad_start decision) (ad_end decision)
    (sr_observedAt row) lineage.

(* internal/revenuecatimport/plan.go: mapGrant *)
Definition mapGrant (input : Input) (externalID : string) (row : sourceRow) (revenueCatEntitlementID : string)
    : ImportFailure + Grant :=
  let mapping := in_Mapping input in
  let refuse code key := inl (mkFailure (sr_line row) code externalID key EmptyString) in
  if sr_missingPurchase row then refuse CodeUnknownProduct revenueCatEntitlementID
  else match mp_Entitlements mapping !! revenueCatEntitlementID with
  | None => refuse CodeUnknownEntitlement revenueCatEntitlementID
  | Some key =>
      let environment := row_environment row in
      if String.eqb (sr_store row) EmptyString || negb (storeMapped mapping (sr_store row))
      then refuse CodeUnsupportedStore key
      else match productMapping mapping (sr_store row) environment (sr_productIdentifier row) with
      | None =>
          if productMappedOnOtherEnvironment mapping (sr_store row) environment (sr_productIdentifier row)
          then refuse CodeEnvironmentMismatch key else refuse CodeUnknownProduct key
      | Some product =>
          match (match in_Catalog input with
                 | None => inr (EmptyString, EmptyString, false)
                 | Some catalog => match catalog_check catalog row environment key product with
                                   | inl code => inl code
                                   | inr (entitlementID, kind) => inr (entitlementID, kind, true)
                                   end
                 end) with
          | inl code => refuse code key
          | inr (entitlementID, productKind, kindKnown) =>
              let decision := decideAccess row productKind kindKnown (in_Now input) in
              if negb (String.eqb (ad_failure decision) EmptyString) then refuse (ad_failure decision) key
              else inr (planned_grant input externalID row key product entitlementID decision)
          end
      end
  end.

End Plan.

(** The grants found so far by the identity of their lineage, with their rows. *)
Abbreviation candidates := (gmap string (sourceRow * Grant)).

Section Planning.
Context `{Horder : !GoMapRange}.

(* internal/revenuecatimport/plan.go:173: planSubscriber *)
Definition lineage_key (grant : Grant) : string :=
  (gr_ApplicationID grant ++ nul ++ gr_ProductID grant ++ nul ++ gr_EntitlementID grant ++ nul
   ++ EncodeToString (gr_LineageFingerprint grant))%string.

(** One row per lineage: the most recent. *)
(* internal/revenuecatimport/plan.go:173-177: planSubscriber *)
Definition keep_newest (grouped : candidates) (candidate : sourceRow * Grant) : candidates :=
  let key := lineage_key candidate.2 in
  match grouped !! key with
  | Some existing => if row_after candidate.1 existing.1 then <[key := candidate]> grouped else grouped
  | None => <[key := candidate]> grouped
  end.

(* internal/revenuecatimport/plan.go:166-178: planSubscriber *)
Definition plan_entitlement (input : Input) (externalID : string) (row : sourceRow)
    (state : candidates * list ImportFailure) (revenueCatEntitlementID : string) : candidates * list ImportFailure :=
  match mapGrant input externalID row revenueCatEntitlementID with
  | inl failure => (state.1, state.2 ++ [failure])
  | inr grant => (keep_newest state.1 (row, grant), state.2)
  end.

(* internal/revenuecatimport/plan.go:154-179: planSubscriber *)
Definition plan_row (input : Input) (externalID : string) (state : candidates * list ImportFailure) (row : sourceRow)
    : candidates * list ImportFailure :=
  let '(grouped, failures) := state in
  if sr_ambiguousProduct row
  then (grouped, failures ++ [mkFailure (sr_line row) CodeConflictingSubscriber externalID (firstEntitlement row) EmptyString])
  else if sr_invalidEntitlementList row
  then (grouped, failures ++ [mkFailure (sr_line row) CodeInvalidEntitlementList externalID EmptyString EmptyString])
  else fold_left (plan_entitlement input externalID row) (sr_entitlementIDs row) state.

(* internal/revenuecatimport/plan.go: draftHasConflict *)
Definition draftHasConflict (draft : subscriberDraft) : bool :=
  existsb (fun row => sr_ambiguousProduct row && String.eqb (sr_productIdentifier row) EmptyString
                      && Nat.eqb (length (sr_entitlementIDs row)) 0) (dr_rows draft).

(** The order the grants are sorted in. *)
(* internal/revenuecatimport/plan.go:189-194: planSubscriber *)
Definition grant_le (left right : Grant) : bool :=
  if negb (String.eqb (gr_EntitlementKey left) (gr_EntitlementKey right))
  then String.ltb (gr_EntitlementKey left) (gr_EntitlementKey right)
  else String.leb (EncodeToString (gr_LineageFingerprint left)) (EncodeToString (gr_LineageFingerprint right)).

Definition sorted_grants (grouped : candidates) : list Grant :=
  merge_sort (fun x y => Is_true (grant_le x y)) (map (fun entry => entry.2.2) (map_range 12 (map_to_list grouped))).

(** A refusal of the aliases of a subscriber, and the warnings when they are not stored. *)
(* internal/revenuecatimport/plan.go:139-148: planSubscriber *)
Fixpoint plan_aliases (input : Input) (draft : subscriberDraft) (failures : list ImportFailure) (aliases : list string)
    : bool * list ImportFailure :=
  match aliases with
  | [] => (false, failures)
  | alias :: aliases' =>
      match ValidateExternalCustomerID alias with
      | Some _ => (true, failures ++ [mkFailure (dr_line draft) CodeInvalidExternalID (dr_externalID draft) EmptyString EmptyString])
      | None =>
          plan_aliases input draft
            (if in_StoreAliases input then failures
             else failures ++ [mkFailure (dr_line draft) CodeAliasRefused alias EmptyString EmptyString]) aliases'
      end
  end.

(* internal/revenuecatimport/plan.go: planSubscriber *)
Definition planSubscriber (input : Input) (draft : subscriberDraft) : Subscriber :=
  let externalID := dr_externalID draft in
  let aliases := uniqueAliases externalID (dr_aliases draft) in
  let subscriber := planned externalID (rc_CustomerID (in_ProjectID input) externalID) aliases (dr_anonymous draft) in
  let refused code named := subscriber [] [mkFailure (dr_line draft) code named EmptyString EmptyString] false true in
  if String.eqb externalID EmptyString then refused CodeMissingAppUserID EmptyString
  else match ValidateExternalCustomerID externalID with
  | Some _ => refused CodeInvalidExternalID externalID
  | None =>
      if in_SkipAnonymous input && dr_anonymous draft then subscriber [] [] true false
      else if draftHasConflict draft then refused CodeConflictingSubscriber externalID
      else
        let '(invalid, warnings) := plan_aliases input draft [] aliases in
        if invalid then subscriber [] warnings false true
        else
          let '(grouped, failures) := fold_left (plan_row input externalID) (dr_rows draft) (∅, []) in
          match failures with
          | _ :: _ => subscriber [] failures false true
          | [] => subscriber (sorted_grants grouped) warnings false false
          end
  end.

(** *** Aliases two subscribers claim *)

(* internal/revenuecatimport/plan.go:324-327: applyAliasConflicts *)
Definition claim_alias (id : string) (owners : gmap string (gset string)) (alias : string) : gmap string (gset string) :=
  <[alias := {[id]} ∪ default ∅ (owners !! alias)]> owners.

(* internal/revenuecatimport/plan.go:318-328: applyAliasConflicts *)
Definition claim_aliases (state : gset string * gmap string (gset string)) (draft : subscriberDraft)
    : gset string * gmap string (gset string) :=
  let '(canonicals, owners) := state in
  if String.eqb (dr_externalID draft) EmptyString then state
  else ({[dr_externalID draft]} ∪ canonicals,
        fold_left (claim_alias (dr_externalID draft)) (uniqueAliases (dr_externalID draft) (dr_aliases draft)) owners).

(* internal/revenuecatimport/plan.go:330-343: applyAliasConflicts *)
Definition alias_conflicts (canonicals : gset string) (conflicts : gset string) (entry : string * gset string)
    : gset string :=
  let '(alias, canonicalIDs) := entry in
  (if bool_decide (alias ∈ canonicals) then canonicalIDs ∖ {[alias]} else ∅)
  ∪ ((if 1 <? Z.of_nat (size canonicalIDs) then canonicalIDs else ∅) ∪ conflicts).

(** The marker row of a refused draft. *)
(* internal/revenuecatimport/plan.go:346: applyAliasConflicts *)
Definition conflict_row (draft : subscriberDraft) : sourceRow :=
  mkRow (dr_line draft) (dr_externalID draft) [] EmptyString false EmptyString [] false None None None None None false
    None None None None EmptyString false EmptyString zeroTime false true false.

(* internal/revenuecatimport/plan.go: applyAliasConflicts *)
Definition applyAliasConflicts (drafts : list subscriberDraft) : list subscriberDraft :=
  let '(canonicals, owners) := fold_left claim_aliases drafts (∅, ∅) in
  let conflicts := fold_left (alias_conflicts canonicals) (map_range 13 (map_to_list owners)) ∅ in
  map (fun draft => if bool_decide (dr_externalID draft ∈ conflicts)
                    then draft_with_rows (fun rows => rows ++ [conflict_row draft]) draft else draft) drafts.

(** *** The report of a plan *)

Definition no_counts : Counts := mkCounts 0 0 0 0 0 0 0 0 0 0 0 0 0 0.

Definition counts_add (a b : Counts) : Counts :=
  mkCounts (co_CustomersCreated a + co_CustomersCreated b) (co_CustomersReused a + co_CustomersReused b)
    (co_GrantsUpserted a + co_GrantsUpserted b) (co_GrantsUnchanged a + co_GrantsUnchanged b)
    (co_ProjectionsChanged a + co_ProjectionsChanged b) (co_WebhooksEnqueued a + co_WebhooksEnqueued b)
    (co_AliasRefused a + co_AliasRefused b) (co_AnonymousCustomers a + co_AnonymousCustomers b)
    (co_FamilyShared a + co_FamilyShared b) (co_SkippedAnonymous a + co_SkippedAnonymous b) (co_Failed a + co_Failed b)
    (co_RefundEndDisagreement a + co_RefundEndDisagreement b) (co_TrialPeriods a + co_TrialPeriods b)
    (co_NotYetStarted a + co_NotYetStarted b).

Definition count_if {A} (f : A -> bool) (l : list A) : Z := Z.of_nat (length (List.filter f l)).
Definition one_if (b : bool) : Z := if b then 1 else 0.
Definition alias_refusals (subscriber : Subscriber) : Z :=
  count_if (fun failure => String.eqb (fl_Code failure) CodeAliasRefused) (sb_Failures subscriber).

(** What one planned subscriber adds to the counts. *)
(* internal/revenuecatimport/plan.go:65-95: Plan *)
Definition planned_counts (now : time) (subscriber : Subscriber) : Counts :=
  if sb_Skipped subscriber then mkCounts 0 0 0 0 0 0 0 0 0 1 0 0 0 0
  else if sb_Fatal subscriber then mkCounts 0 0 0 0 0 0 0 0 0 0 1 0 0 0
  else
    mkCounts 1 0 (Z.of_nat (length (sb_Grants subscriber))) 0 0 0 (alias_refusals subscriber)
      (one_if (sb_Anonymous subscriber)) 0 0 0
      (count_if (fun grant => String.eqb (gr_Reason grant) AccessReasonRefunded && some_after (gr_EndsAt grant) now)
         (sb_Grants subscriber))
      0 (count_if (fun grant => grantNotYetStarted grant now) (sb_Grants subscriber)).

Definition earliest (found : option time) (start : time) : option time :=
  match found with Some t => if Before start t then Some start else found | None => Some start end.

(** The starts still to come of what is imported. *)
Definition future_starts (now : time) (subscribers : list Subscriber) : list time :=
  flat_map (fun subscriber =>
      if sb_Skipped subscriber || sb_Fatal subscriber then []
      else map gr_StartsAt (List.filter (fun grant => grantNotYetStarted grant now) (sb_Grants subscriber))) subscribers.

(** [Format(time.RFC3339)] drops the fraction of a second. *)
Definition FormatRFC3339 (t : time) : string := FormatRFC3339Nano (Truncate t Second).

Context `{Library : !ExportLibrary}.

(* internal/revenuecatimport/plan.go: Plan *)
Definition Plan (input : Input) : result ImportResult :=
  let now := in_Now input in
  try* refuse_if (bool_decide (is_Some (ProjectID_Validate (in_ProjectID input)))) (Wrapf "project: %w" [] ErrUsage) in
  try* refuse_if (IsZero now) (Wrapf "import clock is required: %w" [] ErrUsage) in
  try* Mapping_Validate (in_Mapping input) (in_ProjectID input) (in_Format input) in
  let* parsed := parseExport (in_Export input) (in_Format input) (mp_CanonicalIDColumn (in_Mapping input)) now in
  let '(drafts, familyShared, trialPeriods) := parsed in
  let subscribers := map (planSubscriber input) (applyAliasConflicts drafts) in
  let counts := fold_left (fun counts subscriber => counts_add counts (planned_counts now subscriber)) subscribers
                  (mkCounts 0 0 0 0 0 0 0 0 familyShared 0 0 0 trialPeriods 0) in
  let start := fold_left earliest (future_starts now subscribers) None in
  Ok (mkImportResult subscribers
        (mkReport true (in_ProjectID input) (in_BatchID input) (EncodeToString (Sum256 (in_Export input)))
           (in_Format input) counts start
           (match start with
            | Some t => if 0 <? co_NotYetStarted counts then ("re-import at or after " ++ FormatRFC3339 t)%string else EmptyString
            | None => EmptyString
            end)
           (flat_map sb_Failures subscribers))).
End Planning.

(** ** What is decided of a row *)

(** The kind a row may have, and the period an allowed one must have. *)
Definition kind_fits (row : sourceRow) (kind : ProductKind) (kindKnown : bool) : Prop :=
  (sr_effectiveEnd row = None -> sr_autoRenewable row = false) /\
  (kindKnown = true ->
   kind = match sr_effectiveEnd row with None => ProductKindNonConsumable | Some _ => ProductKindSubscription end).

Definition still_valid (row : sourceRow) (now : time) : Prop :=
  sr_refunded row = None /\ forall e, sr_effectiveEnd row = Some e -> now < e.

Definition has_period (row : sourceRow) : Prop :=
  exists s, sr_start row = Some s /\ s <> zeroTime /\ forall e, sr_effectiveEnd row = Some e -> s < e.

Lemma decide_status_allowed row now :
  (decide_status row now).1.1 = AccessAllowed <-> still_valid row now.
Proof.
  unfold decide_status, still_valid, Before. destruct (sr_refunded row) as [r|]; [by split; [|intros []]|].
  destruct (sr_effectiveEnd row) as [e|]; [|naive_solver].
  destruct (Z.ltb_spec now e); cbn; split; intros H'; try done.
  - split; [done|]. by intros ? [= <-].
  - destruct H' as [_ H']. specialize (H' e eq_refl). lia.
Qed.

(** The status before the future start is looked at. *)
Lemma decide_status_denied row now :
  (decide_status row now).1.1 = AccessAllowed \/ (decide_status row now).1.1 = AccessDenied.
Proof. unfold decide_status. destruct (sr_refunded row), (sr_effectiveEnd row); auto. destruct (negb _); auto. Qed.

Lemma decide_reason_valid row now : AccessReason_Validate (decide_status row now).1.2 = None.
Proof. unfold decide_status. repeat (case_match; try done). Qed.

Lemma decideAccess_fits row kind kindKnown now :
  kind_fits row kind kindKnown -> decideAccess row kind kindKnown now = decide_period row now.
Proof.
  intros [Hend Hkind]. unfold decideAccess. destruct (sr_effectiveEnd row) as [e|] eqn:E, kindKnown; cbn;
    rewrite ?Hend by done; try specialize (Hkind eq_refl); subst; done.
Qed.

Lemma decideAccess_misfit row kind kindKnown now :
  ad_failure (decideAccess row kind kindKnown now) = EmptyString -> kind_fits row kind kindKnown.
Proof.
  unfold decideAccess, kind_fits. destruct (sr_effectiveEnd row) as [e|] eqn:E, kindKnown, (sr_autoRenewable row); cbn;
    rewrite ?andb_true_r, ?andb_false_r; try done;
    destruct (String.eqb_spec kind ProductKindConsumable); cbn; try done;
    try (destruct (String.eqb_spec kind ProductKindNonConsumable); cbn; try done);
    destruct (String.eqb_spec kind ProductKindSubscription); cbn; done.
Qed.

(** What waiting for the start leaves. *)
Lemma wait_for_start_spec now access reason start ends disagreement :
  let d := wait_for_start now (mkDecision access reason start ends EmptyString disagreement) in
  ad_failure d = EmptyString /\ ad_start d = start /\ ad_end d = ends /\
  ((access = AccessAllowed /\ now < start /\ ad_access d = AccessDenied /\ ad_reason d = AccessReasonProviderDecision) \/
   ((access = AccessAllowed -> start <= now) /\ ad_access d = access /\ ad_reason d = reason)).
Proof.
  unfold wait_for_start, Before. cbn.
  destruct (String.eqb_spec access AccessAllowed), (Z.ltb_spec now start); cbn; split_and!; try done; [by left|right..].
  all: split_and!; done || (intros; done || lia).
Qed.

Lemma decide_period_ok row now :
  ad_failure (decide_period row now) = EmptyString <-> (still_valid row now -> has_period row).
Proof.
  rewrite <- decide_status_allowed. unfold decide_period, has_period, IsZero, After.
  destruct (decide_status row now) as [[access reason] disagreement] eqn:Hs. cbn [fst snd].
  destruct (sr_start row) as [s|]; cbn [default].
  2:{ cbn. destruct (String.eqb_spec access AccessAllowed) as [->|Hne]; cbn; [split; [done|]|split; [done|]].
      - intros H. by destruct (H eq_refl) as (? & ? & ?).
      - intros _. apply wait_for_start_spec. }
  unfold id. destruct (Z.eqb_spec s 0) as [->|Hs0], (String.eqb_spec access AccessAllowed) as [->|Hne]; cbn [andb negb].
  - split; [done|]. intros H. destruct (H eq_refl) as (? & [= <-] & ? & _). done.
  - split; [done|]. intros _. apply wait_for_start_spec.
  - destruct (sr_effectiveEnd row) as [e|]; [destruct (Z.ltb_spec s e)|]; cbn [andb negb]; split; try done.
    + intros _ _. exists s. by split_and!; [..|intros ? [= <-]].
    + intros _. apply wait_for_start_spec.
    + intros H'. destruct (H' eq_refl) as (? & [= <-] & _ & He). specialize (He e eq_refl). lia.
    + intros _ _. by exists s.
    + intros _. apply wait_for_start_spec.
  - split; [done|]. intros _. destruct (sr_effectiveEnd row) as [e|]; [destruct (Z.ltb_spec s e)|]; apply wait_for_start_spec.
Qed.

(** The period a decision keeps. *)
Lemma decide_period_spec row now :
  ad_failure (decide_period row now) = EmptyString ->
  exists ends disagreement,
    decide_period row now = wait_for_start now
      (mkDecision (decide_status row now).1.1 (decide_status row now).1.2 (default zeroTime (sr_start row)) ends
         EmptyString disagreement) /\
    period_wf (mkPeriod (default zeroTime (sr_start row)) ends) /\
    ((decide_status row now).1.1 = AccessAllowed -> ends = sr_effectiveEnd row) /\ (forall e, ends = Some e -> sr_effectiveEnd row = Some e).
Proof.
  intros Hok. pose proof (proj1 (decide_period_ok row now) Hok) as Hp. rewrite <- decide_status_allowed in Hp.
  unfold decide_period, period_wf, IsZero, After in *.
  destruct (decide_status row now) as [[access reason] disagreement]. cbn [fst snd] in *.
  set (start := default zeroTime (sr_start row)) in *.
  destruct (String.eqb_spec access AccessAllowed) as [->|Hne]; cbn [andb] in *.
  - destruct (Hp eq_refl) as (s & Hs & Hs0 & He). assert (start = s) as -> by (unfold start; by rewrite Hs).
    rewrite (proj2 (Z.eqb_neq s 0) Hs0) in *. cbn [negb andb] in *.
    destruct (sr_effectiveEnd row) as [e|]; [specialize (He e eq_refl); rewrite (proj2 (Z.ltb_lt s e) He)|];
      cbn [negb]; eexists _, _; split_and!; try done; cbn.
    intros ? [= <-]. unfold zeroTime in *. lia.
  - destruct (Z.eqb_spec start 0) as [_|H0]; cbn [negb andb]; [by eexists _, _; split_and!|].
    destruct (sr_effectiveEnd row) as [e|]; [destruct (Z.ltb_spec start e)|]; cbn [negb andb];
      eexists _, _; split_and!; try done; cbn; by intros; simplify_eq.
Qed.

(** C20. The access imported for an export row is exact.  A row is refused unless its kind fits
    (an endless row is not auto-renewable, and when the product is known it is a
    non-consumable; one with an end is a subscription; a consumable is always refused) and,
    when it would still be valid, its period starts before it ends.  A row that is decided is
    allowed exactly when it was not refunded, its end has not come and its start has: a start
    still to come is stored as denied.  The decided status, reason and period are valid, an
    allowed row keeps its whole period, and a refunded row is denied as refunded. *)
Theorem import_access_exact row kind kindKnown now :
  let d := decideAccess row kind kindKnown now in
  (ad_failure d = EmptyString <-> kind_fits row kind kindKnown /\ (still_valid row now -> has_period row)) /\
  (ad_failure d = EmptyString ->
   (ad_access d = AccessAllowed <->
      still_valid row now /\ exists s, sr_start row = Some s /\ s <= now) /\
   (ad_access d = AccessAllowed -> Some (ad_start d) = sr_start row /\ ad_end d = sr_effectiveEnd row) /\
   (ad_access d <> AccessAllowed -> ad_access d = AccessDenied) /\
   (sr_refunded row <> None -> ad_reason d = AccessReasonRefunded) /\
   AccessReason_Validate (ad_reason d) = None /\
   EffectivePeriod_Validate (mkPeriod (ad_start d) (ad_end d)) = None).
Proof.
  cbn zeta. rewrite <- decide_period_ok. split.
  { split; [intros H|intros [H H']; by rewrite decideAccess_fits].
    pose proof (decideAccess_misfit _ _ _ _ H) as Hk. by rewrite decideAccess_fits in H. }
  intros H. rewrite decideAccess_fits in * by (by eapply decideAccess_misfit).
  pose proof (proj1 (decide_period_ok row now) H) as Hp.
  destruct (decide_period_spec row now H) as (ends & disagreement & -> & Hwf & Hall & Hsub). rewrite period_valid.
  pose proof (decide_status_allowed row now) as Hst. pose proof (decide_status_denied row now) as Hor.
  assert (Hrf : sr_refunded row <> None -> (decide_status row now).1 = (AccessDenied, AccessReasonRefunded)).
  { unfold decide_status. by destruct (sr_refunded row). }
  destruct (wait_for_start_spec now (decide_status row now).1.1 (decide_status row now).1.2
              (default zeroTime (sr_start row)) ends disagreement)
    as (_ & Hstart & Hend & Hcase). rewrite Hstart, Hend.
  destruct Hcase as [(Ha & Hlt & -> & ->)|(Hle & -> & ->)]; split_and!; try done.
  - split; [done|]. intros (_ & s & Hs & Hsn). rewrite Hs in Hlt. cbn in Hlt. lia.
  - intros Hr. by rewrite (Hrf Hr) in Ha.
  - rewrite Hst. split; [|tauto]. intros Hv. split; [done|]. destruct (Hp Hv) as (s & Hs & _). exists s. split; [done|].
    rewrite Hst, Hs in Hle. by apply Hle.
  - intros Ha. rewrite (Hall Ha). destruct (Hp (proj1 Hst Ha)) as (s & -> & _). done.
  - tauto.
  - intros Hr. by rewrite (Hrf Hr).
  - apply decide_reason_valid.
Qed.

(** ** The grants of a subscriber *)

(** The order compares the update, then the end (none is least), then the start. *)
Definition row_rank (r : sourceRow) : Z * Z * Z * Z :=
  (default zeroTime (sr_updated r), match sr_effectiveEnd r with Some _ => 1 | None => 0 end,
   default 0 (sr_effectiveEnd r), default zeroTime (sr_start r)).

Definition rank_gt (a b : Z * Z * Z * Z) : Prop :=
  b.1.1.1 < a.1.1.1 \/ (a.1.1.1 = b.1.1.1 /\
    (b.1.1.2 < a.1.1.2 \/ (a.1.1.2 = b.1.1.2 /\ (b.1.2 < a.1.2 \/ (a.1.2 = b.1.2 /\ b.2 < a.2))))).

Lemma row_after_rank r r' : row_after r r' = true <-> rank_gt (row_rank r) (row_rank r').
Proof.
  unfold row_after, rank_gt, row_rank, Equal, After. cbn [fst snd].
  set (u := default zeroTime (sr_updated r)). set (u' := default zeroTime (sr_updated r')).
  set (s := default zeroTime (sr_start r)). set (s' := default zeroTime (sr_start r')).
  destruct (Z.eqb_spec u u') as [Hu|Hu]; cbn [negb]; [|lia].
  destruct (sr_effectiveEnd r) as [e|], (sr_effectiveEnd r') as [e'|]; unfold default, id; try lia.
  destruct (Z.eqb_spec e e'); cbn [negb]; lia.
Qed.

(** A row is a more recent record of its lineage: updated later; or updated at the
    same time and the only one with an end, or with the later end, or with the same
    end and a later start.  A missing update or start is the zero time. *)
Definition newer (row other : sourceRow) : Prop :=
  default zeroTime (sr_updated other) < default zeroTime (sr_updated row) \/
  (default zeroTime (sr_updated other) = default zeroTime (sr_updated row) /\
   ((exists e, sr_effectiveEnd row = Some e /\ sr_effectiveEnd other = None) \/
    (exists e e', sr_effectiveEnd row = Some e /\ sr_effectiveEnd other = Some e' /\ e' < e) \/
    (sr_effectiveEnd row = sr_effectiveEnd other /\
     default zeroTime (sr_start other) < default zeroTime (sr_start row)))).

Lemma row_after_newer r r' : row_after r r' = true <-> newer r r'.
Proof.
  unfold row_after, newer, Equal, After.
  set (u := default zeroTime (sr_updated r)). set (u' := default zeroTime (sr_updated r')).
  set (s := default zeroTime (sr_start r)). set (s' := default zeroTime (sr_start r')).
  destruct (Z.eqb_spec u u') as [Hu|Hu]; cbn [negb].
  2: { rewrite Z.ltb_lt. split; [by left|]. intros [?|[? _]]; [done|congruence]. }
  destruct (sr_effectiveEnd r) as [e|], (sr_effectiveEnd r') as [e'|].
  - destruct (Z.eqb_spec e e') as [->|He]; cbn [negb]; rewrite Z.ltb_lt; split.
    + intros Hs. right. auto.
    + intros [?|[_ [(? & _ & [=])|[(? & ? & [= <-] & [= <-] & ?)|[_ ?]]]]]; [lia|lia|done].
    + intros Hs. right. split; [done|]. right. left. eauto.
    + intros [?|[_ [(? & _ & [=])|[(? & ? & [= <-] & [= <-] & ?)|[[= ?] ?]]]]]; [lia|done|congruence].
  - split; [|done]. intros _. right. split; [done|]. left. eauto.
  - split; [done|]. intros [?|[_ [(? & [=] & _)|[(? & ? & [=] & _)|[[=] _]]]]]. lia.
  - rewrite Z.ltb_lt. split; [intros Hs; right; auto|].
    intros [?|[_ [(? & [=] & _)|[(? & ? & [=] & _)|[_ ?]]]]]; [lia|done].
Qed.

Lemma row_not_after r r' : row_after r r' = false <-> ~ newer r r'.
Proof. rewrite <- row_after_newer. by destruct (row_after r r'). Qed.

Lemma row_after_irrefl r : row_after r r = false.
Proof. apply not_true_iff_false. rewrite row_after_rank. unfold rank_gt. lia. Qed.

Lemma row_after_trans r1 r2 r3 : row_after r1 r2 = true -> row_after r2 r3 = true -> row_after r1 r3 = true.
Proof. rewrite !row_after_rank. unfold rank_gt. lia. Qed.

(** What is kept is a candidate, under its key, and no candidate of the key is newer. *)
Definition newest_of (l : list (sourceRow * Grant)) (m : candidates) : Prop :=
  (forall k c, m !! k = Some c -> c ∈ l /\ lineage_key c.2 = k) /\
  (forall c, c ∈ l -> exists c', m !! lineage_key c.2 = Some c' /\ row_after c.1 c'.1 = false).

Lemma keep_newest_spec l : newest_of l (fold_left keep_newest l ∅).
Proof.
  induction l as [|c l [Hin Hnew]] using rev_ind.
  { cbn [fold_left]. split; [intros k c; by rewrite lookup_empty|intros c; by rewrite elem_of_nil]. }
  rewrite fold_left_app. cbn [fold_left]. set (m := fold_left keep_newest l ∅) in *. unfold keep_newest.
  assert (Hins : (forall c', m !! lineage_key c.2 = Some c' -> row_after c.1 c'.1 = true) ->
                 newest_of (l ++ [c]) (<[lineage_key c.2 := c]> m)).
  { intros Hlater. split.
    - intros k c'. rewrite lookup_insert_Some. intros [[<- <-]|[_ H]]; rewrite elem_of_app, list_elem_of_singleton; [tauto|].
      destruct (Hin k c' H). tauto.
    - intros c0. rewrite elem_of_app, list_elem_of_singleton. intros [H0| ->].
      + destruct (Hnew c0 H0) as (c' & Hc' & Ha). destruct (decide (lineage_key c.2 = lineage_key c0.2)) as [E|E].
        * rewrite <- E, lookup_insert_eq. exists c. split; [done|]. apply not_true_iff_false. intros Hbad.
          rewrite <- E in Hc'. specialize (Hlater c' Hc'). by rewrite (row_after_trans _ _ _ Hbad Hlater) in Ha.
        * exists c'. by rewrite lookup_insert_ne.
      + exists c. rewrite lookup_insert_eq. split; [done|apply row_after_irrefl]. }
  destruct (m !! lineage_key c.2) as [c'|] eqn:E; [|apply Hins; congruence].
  destruct (row_after c.1 c'.1) eqn:Ha; [apply Hins; congruence|]. split.
  - intros k c0 H0. destruct (Hin k c0 H0). rewrite elem_of_app. tauto.
  - intros c0. rewrite elem_of_app, list_elem_of_singleton. intros [H0| ->]; [by apply Hnew|by exists c'].
Qed.

(** The entitlement cells of rows, and the grants the mapping gives them. *)
Definition cells (rows : list sourceRow) : list (sourceRow * string) :=
  flat_map (fun row => map (pair row) (sr_entitlementIDs row)) rows.

Definition mapped_cell (input : Input) (externalID : string) (c : sourceRow * string) : option (sourceRow * Grant) :=
  match mapGrant input externalID c.1 c.2 with inr grant => Some (c.1, grant) | inl _ => None end.

Definition row_clean (row : sourceRow) : Prop := sr_ambiguousProduct row = false /\ sr_invalidEntitlementList row = false.

Section rows.
Context (input : Input) (externalID : string).

Lemma plan_entitlements_spec row ids state :
  let answer := fold_left (plan_entitlement input externalID row) ids state in
  answer.2 = [] ->
  state.2 = [] /\ Forall (fun c => is_Some (mapped_cell input externalID c)) (map (pair row) ids) /\
  answer.1 = fold_left keep_newest (omap (mapped_cell input externalID) (map (pair row) ids)) state.1.
Proof.
  revert state. induction ids as [|id ids IH]; intros state; cbn zeta; [by cbn|]. cbn [fold_left map].
  intros H. destruct (IH _ H) as (Hnil & Hall & Hfold). rewrite omap_cons_eq, Hfold.
  assert (Hm : mapped_cell input externalID (row, id) =
               match mapGrant input externalID row id with inr grant => Some (row, grant) | inl _ => None end) by done.
  unfold plan_entitlement in Hnil |- *.
  destruct (mapGrant input externalID row id) as [failure|grant]; cbn [fst snd] in *; [by apply app_nil in Hnil as [_ ?]|].
  rewrite Hm. split_and!; [done| |done]. constructor; [by rewrite Hm|done].
Qed.

Lemma plan_rows_spec rows state :
  let answer := fold_left (plan_row input externalID) rows state in
  answer.2 = [] ->
  state.2 = [] /\ Forall row_clean rows /\ Forall (fun c => is_Some (mapped_cell input externalID c)) (cells rows) /\
  answer.1 = fold_left keep_newest (omap (mapped_cell input externalID) (cells rows)) state.1.
Proof.
  revert state. induction rows as [|row rows IH]; intros state; cbn zeta; [by cbn|]. cbn [fold_left].
  intros H. destruct (IH _ H) as (Hnil & Hclean & Hall & Hfold). rewrite Hfold. clear IH H Hfold.
  unfold plan_row in *. destruct state as [grouped failures].
  destruct (sr_ambiguousProduct row) eqn:Ea; [by apply app_nil in Hnil as [_ ?]|].
  destruct (sr_invalidEntitlementList row) eqn:Ei; [by apply app_nil in Hnil as [_ ?]|].
  destruct (plan_entitlements_spec row (sr_entitlementIDs row) (grouped, failures) Hnil) as (Hf & Hcells & Hfold).
  cbn [cells flat_map]. rewrite Forall_app, omap_app, fold_left_app, Hfold. split_and!; try done. by constructor.
Qed.
End rows.

(** *** The sorted grants *)

Definition grant_key (grant : Grant) : string * string := (gr_EntitlementKey grant, EncodeToString (gr_LineageFingerprint grant)).

#[export] Instance grant_le_total : Total (fun x y => Is_true (grant_le x y)) := pair_le_total grant_key.
#[export] Instance grant_le_trans : Transitive (fun x y => Is_true (grant_le x y)) := pair_le_trans grant_key.

Lemma sorted_grants_perm `{Horder : !GoMapRange} grouped :
  sorted_grants grouped ≡ₚ map (fun entry => entry.2.2) (map_to_list grouped).
Proof. unfold sorted_grants. rewrite merge_sort_Permutation. apply Permutation_map, map_range_perm. Qed.

Lemma sorted_grants_elem `{Horder : !GoMapRange} grouped g :
  g ∈ sorted_grants grouped <-> exists k row, grouped !! k = Some (row, g).
Proof.
  rewrite sorted_grants_perm, list_elem_of_fmap. split.
  - intros ([k [row g']] & -> & H%elem_of_map_to_list). by exists k, row.
  - intros (k & row & H%elem_of_map_to_list). by exists (k, (row, g)).
Qed.

Lemma sorted_grants_keys `{Horder : !GoMapRange} (grouped : candidates) :
  (forall k c, grouped !! k = Some c -> lineage_key c.2 = k) -> NoDup (map lineage_key (sorted_grants grouped)).
Proof.
  intros Hk. rewrite sorted_grants_perm. rewrite map_map.
  rewrite (map_ext_in _ fst); [apply NoDup_fst_map_to_list|].
  intros [k c] Hin%list_elem_of_In%elem_of_map_to_list. cbn. by apply Hk.
Qed.

Lemma cells_elem rows row id : (row, id) ∈ cells rows <-> row ∈ rows /\ id ∈ sr_entitlementIDs row.
Proof.
  unfold cells. rewrite list_elem_of_In, in_flat_map. setoid_rewrite <- list_elem_of_In. split.
  - intros (row' & Hr & Hid). apply list_elem_of_fmap in Hid as (id' & [= <- <-] & Hid). done.
  - intros [Hr Hid]. exists row. split; [done|]. apply list_elem_of_fmap. by exists id.
Qed.

Lemma mapped_elem input externalID rows row g :
  (row, g) ∈ omap (mapped_cell input externalID) (cells rows) <->
  exists id, row ∈ rows /\ id ∈ sr_entitlementIDs row /\ mapGrant input externalID row id = inr g.
Proof.
  rewrite list_elem_of_omap. unfold mapped_cell. split.
  - intros ([row' id] & Hc%cells_elem & Hm). cbn in Hm. destruct (mapGrant input externalID row' id) eqn:E; [done|].
    injection Hm as -> ->. exists id. tauto.
  - intros (id & Hr & Hid & Hm). exists (row, id). rewrite cells_elem. cbn. by rewrite Hm.
Qed.

Definition live (s : Subscriber) : Prop := sb_Fatal s = false /\ sb_Skipped s = false.

(** The two ways planning a subscriber ends. *)
Lemma planSubscriber_cases `{Horder : !GoMapRange} input draft :
  let s := planSubscriber input draft in
  let grants := omap (mapped_cell input (dr_externalID draft)) (cells (dr_rows draft)) in
  (~ live s /\ sb_Grants s = []) \/
  (live s /\ sb_Grants s = sorted_grants (fold_left keep_newest grants ∅) /\ Forall row_clean (dr_rows draft) /\
   Forall (fun c => is_Some (mapped_cell input (dr_externalID draft) c)) (cells (dr_rows draft))).
Proof.
  cbn zeta. unfold planSubscriber. set (ext := dr_externalID draft).
  destruct (String.eqb ext EmptyString); [by left; split; [intros []|]|].
  destruct (ValidateExternalCustomerID ext); [by left; split; [intros []|]|].
  destruct (in_SkipAnonymous input && dr_anonymous draft); [by left; split; [intros []|]|].
  destruct (draftHasConflict draft); [by left; split; [intros []|]|].
  destruct (plan_aliases _ _ _ _) as [[|] warnings]; [by left; split; [intros []|]|].
  pose proof (plan_rows_spec input ext (dr_rows draft) (∅, [])) as Hrows. cbn zeta in Hrows.
  destruct (fold_left (plan_row input ext) (dr_rows draft) (∅, [])) as [grouped [|f fs]]; [|by left; split; [intros []|]].
  destruct (Hrows eq_refl) as (_ & Hclean & Hcells & Hfold). right. cbn [fst] in Hfold. by rewrite <- Hfold.
Qed.

Lemma grants_come_from_cells `{Horder : !GoMapRange} input draft g :
  g ∈ sb_Grants (planSubscriber input draft) ->
  live (planSubscriber input draft) /\
  exists row id, row ∈ dr_rows draft /\ id ∈ sr_entitlementIDs row /\ mapGrant input (dr_externalID draft) row id = inr g.
Proof.
  destruct (planSubscriber_cases input draft) as [[_ ->]|(Hlive & -> & _)]; [by intros ?%elem_of_nil|].
  intros (k & row & Hget)%sorted_grants_elem. split; [done|]. exists row. apply mapped_elem.
  by apply (proj1 (keep_newest_spec _) _ _ Hget).
Qed.

(** What a grant keeps of the cell it comes from. *)
Record from_cell (input : Input) (row : sourceRow) (id : string) (g : Grant) : Prop := {
  fc_key : mp_Entitlements (in_Mapping input) !! id = Some (gr_EntitlementKey g);
  fc_lineage : gr_LineageFingerprint g = Sum256 (sr_lineageMaterial row);
  fc_row : gr_Line g = sr_line row /\ gr_OriginStore g = sr_store row /\ gr_ObservedAt g = sr_observedAt row;
  fc_product : exists product, product ∈ mp_Products (in_Mapping input) /\
    pm_ApplicationID product = gr_ApplicationID g /\ pm_ProductID product = gr_ProductID g /\
    pm_Store product = sr_store row /\ pm_ProviderProductID product = sr_productIdentifier row /\
    pm_Environment product = (if sr_sandbox row then EnvironmentSandbox else EnvironmentProduction)
}.

Lemma mapGrant_from_cell input externalID row id g :
  mapGrant input externalID row id = inr g -> from_cell input row id g.
Proof.
  unfold mapGrant. destruct (sr_missingPurchase row); [done|].
  destruct (mp_Entitlements (in_Mapping input) !! id) as [key|] eqn:Hkey; [|done].
  destruct (_ || _); [done|].
  destruct (productMapping _ _ _ _) as [product|] eqn:Hp; [|by destruct (productMappedOnOtherEnvironment _ _ _ _)].
  unfold productMapping in Hp. apply List.find_some in Hp as [Hin%list_elem_of_In Hp].
  rewrite !andb_true_iff, !String.eqb_eq in Hp. destruct Hp as [[Hs He] Hpp].
  assert (Hgrant : forall entitlement decision, planned_grant input externalID row key product entitlement decision = g ->
            from_cell input row id g).
  { intros entitlement decision <-. split; [done..|]. exists product. by split_and!. }
  destruct (in_Catalog input) as [catalog|].
  - destruct (catalog_check _ _ _ _ _) as [|[entitlement kind]]; [done|].
    destruct (negb _); [done|]. intros [= Hg]. by eapply Hgrant.
  - destruct (negb _); [done|]. intros [= Hg]. by eapply Hgrant.
Qed.

Lemma strongly_sorted_weaken {A} (R R' : A -> A -> Prop) l :
  (forall x y, R x y -> R' x y) -> StronglySorted R l -> StronglySorted R' l.
Proof. intros H. induction 1; constructor; [done|]. eapply Forall_impl; [done|]. auto. Qed.

(** C21. A subscriber is imported whole or not at all, and each lineage once.  A refused or
    skipped subscriber has no grant.  Of an imported one no row is ambiguous or malformed and
    every entitlement cell of every row was mapped; each cell is represented by the grant of
    its lineage, which comes from a cell of the export than which it is not newer (by the
    update, then the end, then the start); every grant is one mapped cell's, for its
    entitlement, lineage, line and product; the lineages of the grants differ, and the grants
    are in the order of the report, by entitlement and then by lineage. *)
Theorem subscriber_all_or_nothing `{Horder : !GoMapRange} input draft :
  let s := planSubscriber input draft in
  let gives row grant := exists id, row ∈ dr_rows draft /\ id ∈ sr_entitlementIDs row /\
                                    mapGrant input (dr_externalID draft) row id = inr grant /\
                                    from_cell input row id grant in
  (sb_Fatal s = true \/ sb_Skipped s = true -> sb_Grants s = []) /\
  (sb_Fatal s = false -> sb_Skipped s = false ->
   (forall row, row ∈ dr_rows draft -> row_clean row /\
      forall id, id ∈ sr_entitlementIDs row -> exists g, mapGrant input (dr_externalID draft) row id = inr g) /\
   (forall row g, gives row g -> exists row' g', gives row' g' /\ g' ∈ sb_Grants s /\
      lineage_key g' = lineage_key g /\ ~ newer row row') /\
   (forall g, g ∈ sb_Grants s -> exists row, gives row g) /\
   NoDup (map (fun g => (gr_ApplicationID g, gr_ProductID g, gr_EntitlementID g, gr_LineageFingerprint g)) (sb_Grants s)) /\
   NoDup (map lineage_key (sb_Grants s)) /\
   StronglySorted (fun x y => String.ltb (gr_EntitlementKey x) (gr_EntitlementKey y) = true \/
     (gr_EntitlementKey x = gr_EntitlementKey y /\
      String.leb (EncodeToString (gr_LineageFingerprint x)) (EncodeToString (gr_LineageFingerprint y)) = true))
     (sb_Grants s)).
Proof.
  cbn zeta. split.
  { intros Hdead. destruct (planSubscriber_cases input draft) as [[_ ->]|([Hf Hs] & _)]; [done|].
    rewrite Hf, Hs in Hdead. by destruct Hdead. }
  intros Hf Hs. destruct (planSubscriber_cases input draft) as [[[] _]|(_ & Hg & Hclean & Hcells)]; [done|].
  rewrite Hg. destruct (keep_newest_spec (omap (mapped_cell input (dr_externalID draft)) (cells (dr_rows draft)))) as [Hin Hnew].
  set (ext := dr_externalID draft) in *.
  assert (Hkeys : NoDup (map lineage_key (sorted_grants (fold_left keep_newest
             (omap (mapped_cell input ext) (cells (dr_rows draft))) ∅)))).
  { apply sorted_grants_keys. intros k c Hget. by apply Hin. }
  split_and!.
  - intros row Hrow. split; [by eapply Forall_forall|]. intros id Hid.
    assert (Hc : is_Some (mapped_cell input ext (row, id))) by (eapply (proj1 (Forall_forall _ _) Hcells), cells_elem; done).
    destruct Hc as [c Hc]. unfold mapped_cell in Hc. cbn in Hc. destruct (mapGrant input ext row id) as [|g]; [done|by exists g].
  - intros row g (id & Hrow & Hid & Hmap & _). destruct (Hnew (row, g)) as ([row' g'] & Hget & Hafter);
      [apply mapped_elem; eauto|]. destruct (Hin _ _ Hget) as [Hel Hkey].
    apply mapped_elem in Hel as (id' & Hr' & Hi' & Hm'). apply row_not_after in Hafter.
    exists row', g'. split_and!; [by eauto 6 using mapGrant_from_cell|apply sorted_grants_elem; by eexists _, _|done|done].
  - rewrite <- Hg. intros g Hgs%grants_come_from_cells. destruct Hgs as (_ & row & id & ? & ? & ?). exists row, id.
    eauto using mapGrant_from_cell.
  - set (parts := fun g => (gr_ApplicationID g, gr_ProductID g, gr_EntitlementID g, gr_LineageFingerprint g)).
    set (key := fun t : string * string * string * string =>
      (t.1.1.1 ++ nul ++ t.1.1.2 ++ nul ++ t.1.2 ++ nul ++ EncodeToString t.2)%string).
    apply (NoDup_fmap_1 key). exact (eq_ind _ NoDup Hkeys _ (eq_sym (map_map parts key _))).
  - exact Hkeys.
  - eapply strongly_sorted_weaken; [|apply StronglySorted_merge_sort; apply _]. intros x y Hle.
    apply Is_true_true in Hle. unfold grant_le in Hle.
    destruct (String.eqb_spec (gr_EntitlementKey x) (gr_EntitlementKey y)); cbn [negb] in Hle; auto.
Qed.

(** ** Aliases *)

Lemma uniqueAliases_elem canonicalID aliases alias :
  alias ∈ uniqueAliases canonicalID aliases <->
  alias <> canonicalID /\ alias <> EmptyString /\ alias ∈ map TrimSpace aliases.
Proof.
  unfold uniqueAliases. induction aliases as [|a aliases IH] using rev_ind; [cbn; rewrite !elem_of_nil; tauto|].
  rewrite fold_left_app, map_app. cbn [fold_left map]. rewrite elem_of_app, list_elem_of_singleton.
  set (l := fold_left _ aliases []) in *.
  destruct (String.eqb_spec (TrimSpace a) EmptyString) as [E|E]; cbn [orb]; [naive_solver|].
  destruct (String.eqb_spec (TrimSpace a) canonicalID) as [E'|E']; [naive_solver|].
  destruct (contains_str l (TrimSpace a)) eqn:C.
  - apply contains_str_In, list_elem_of_In in C. naive_solver.
  - rewrite elem_of_app, list_elem_of_singleton. naive_solver.
Qed.

(** Which canonical users claim an alias. *)
Definition claims (drafts : list subscriberDraft) (alias id : string) : Prop :=
  exists draft, draft ∈ drafts /\ dr_externalID draft = id /\ id <> EmptyString /\
                alias ∈ uniqueAliases id (dr_aliases draft).

Lemma owners_insert id aliases owners alias x :
  x ∈ default ∅ (fold_left (claim_alias id) aliases owners !! alias) <->
  x ∈ default ∅ (owners !! alias) \/ (x = id /\ alias ∈ aliases).
Proof.
  induction aliases as [|a aliases IH] using rev_ind; [cbn; rewrite elem_of_nil; tauto|].
  rewrite fold_left_app. cbn [fold_left]. rewrite elem_of_app, list_elem_of_singleton. unfold claim_alias at 1.
  destruct (decide (a = alias)) as [->|Hne].
  - rewrite lookup_insert_eq. cbn. rewrite elem_of_union, elem_of_singleton, IH. naive_solver.
  - rewrite lookup_insert_ne, IH by done. naive_solver.
Qed.

Lemma claims_snoc drafts draft alias id :
  claims (drafts ++ [draft]) alias id <->
  claims drafts alias id \/ (id = dr_externalID draft /\ id <> EmptyString /\ alias ∈ uniqueAliases id (dr_aliases draft)).
Proof.
  unfold claims. setoid_rewrite elem_of_app. setoid_rewrite list_elem_of_singleton. split.
  - intros (d & [Hd| ->] & <- & H); [left; by exists d|by right].
  - intros [(d & Hd & H)|(-> & H)]; [exists d|exists draft]; tauto.
Qed.

Lemma claims_spec drafts :
  let state := fold_left claim_aliases drafts (∅, ∅) in
  (forall id, id ∈ state.1 <-> id <> EmptyString /\ id ∈ map dr_externalID drafts) /\
  (forall alias id, id ∈ default ∅ (state.2 !! alias) <-> claims drafts alias id).
Proof.
  cbn zeta. induction drafts as [|draft drafts [IHc IHo]] using rev_ind.
  { cbn. setoid_rewrite elem_of_nil. split; [intros id|intros alias id; rewrite lookup_empty; cbn].
    - rewrite elem_of_empty. tauto.
    - rewrite elem_of_empty. split; [done|]. intros (? & []%elem_of_nil & _). }
  rewrite fold_left_app, map_app. cbn [fold_left map]. destruct (fold_left claim_aliases drafts (∅, ∅)) as [canonicals owners].
  cbn [fst snd] in *. setoid_rewrite claims_snoc. setoid_rewrite elem_of_app. setoid_rewrite list_elem_of_singleton.
  unfold claim_aliases. destruct (String.eqb_spec (dr_externalID draft) EmptyString) as [E|E]; cbn [fst snd].
  - rewrite E. split; [intros id; rewrite IHc|intros alias id; rewrite IHo]; intuition congruence.
  - split; [intros id; rewrite elem_of_union, elem_of_singleton, IHc; intuition congruence|].
    intros alias id. rewrite owners_insert, IHo. intuition congruence.
Qed.

Lemma conflicts_elem canonicals entries conflicts id :
  id ∈ fold_left (alias_conflicts canonicals) entries conflicts <->
  id ∈ conflicts \/ exists alias ids, (alias, ids) ∈ entries /\ id ∈ ids /\
    (1 < Z.of_nat (size ids) \/ (alias ∈ canonicals /\ id <> alias)).
Proof.
  revert conflicts. induction entries as [|[alias ids] entries IH]; intros conflicts; cbn [fold_left].
  { setoid_rewrite elem_of_nil. naive_solver. }
  rewrite IH. unfold alias_conflicts. setoid_rewrite elem_of_cons.
  assert (H : id ∈ (if bool_decide (alias ∈ canonicals) then ids ∖ {[alias]} else ∅)
                 ∪ ((if 1 <? Z.of_nat (size ids) then ids else ∅) ∪ conflicts)
              <-> id ∈ conflicts \/ (id ∈ ids /\ (1 < Z.of_nat (size ids) \/ (alias ∈ canonicals /\ id <> alias)))).
  { rewrite !elem_of_union. case_bool_decide; destruct (Z.ltb_spec 1 (Z.of_nat (size ids)));
      rewrite ?elem_of_difference, ?elem_of_singleton, ?elem_of_empty; split; intros; naive_solver lia. }
  rewrite H. naive_solver.
Qed.

Section plans.
Context `{Horder : !GoMapRange} (input : Input).

Lemma planned_identity draft :
  sb_ExternalID (planSubscriber input draft) = dr_externalID draft /\
  sb_Aliases (planSubscriber input draft) = uniqueAliases (dr_externalID draft) (dr_aliases draft) /\
  (live (planSubscriber input draft) -> dr_externalID draft <> EmptyString /\ draftHasConflict draft = false).
Proof.
  unfold planSubscriber, live. destruct (String.eqb_spec (dr_externalID draft) EmptyString); [split_and!; [done..|by intros []]|].
  destruct (ValidateExternalCustomerID _); [split_and!; [done..|by intros []]|].
  destruct (in_SkipAnonymous input && dr_anonymous draft); [split_and!; [done..|by intros []]|].
  destruct (draftHasConflict draft) eqn:E; [split_and!; [done..|by intros []]|].
  destruct (plan_aliases _ _ _ _) as [[|] warnings]; [split_and!; [done..|by intros []]|].
  by destruct (fold_left _ _ _) as [grouped [|f fs]].
Qed.

(** A draft that is still imported claims no alias another user has or is. *)
Lemma unmarked_draft drafts draft :
  draft ∈ applyAliasConflicts drafts -> live (planSubscriber input draft) ->
  exists id, dr_externalID draft = id /\ id <> EmptyString /\ id ∈ map dr_externalID drafts /\
    (forall alias, alias ∈ uniqueAliases id (dr_aliases draft) -> claims drafts alias id) /\
    forall alias other, claims drafts alias id -> claims drafts alias other \/ (other = alias /\ other ∈ map dr_externalID drafts) ->
      other = id.
Proof.
  unfold applyAliasConflicts. pose proof (claims_spec drafts) as [Hcan Hown]. cbn zeta in *.
  destruct (fold_left claim_aliases drafts (∅, ∅)) as [canonicals owners]. cbn [fst snd] in *.
  set (conflicts := fold_left _ _ ∅). intros (d & -> & Hd)%list_elem_of_fmap Hlive.
  pose proof (planned_identity (if bool_decide (dr_externalID d ∈ conflicts)
    then draft_with_rows (fun rows => rows ++ [conflict_row d]) d else d)) as (_ & _ & Hid).
  destruct (Hid Hlive) as [Hne Hmark]. clear Hid.
  destruct (bool_decide_reflect (dr_externalID d ∈ conflicts)) as [Hbad|Hgood].
  { unfold draftHasConflict in Hmark. cbn in Hmark. by rewrite existsb_app, orb_true_r in Hmark. }
  exists (dr_externalID d). split_and!; [done|done| | |].
  { apply list_elem_of_fmap. by exists d. }
  { intros alias Ha. by exists d. }
  intros alias other Hmine%Hown Hother. apply dec_stable. intros Hdiff. apply Hgood. unfold conflicts. apply conflicts_elem. right.
  destruct (owners !! alias) as [ids|] eqn:Eo; cbn in Hmine; [|set_solver].
  exists alias, ids. split_and!; [by rewrite (map_range_perm 13), elem_of_map_to_list|done|].
  destruct Hother as [Hc|[-> Hc]].
  - left. apply Hown in Hc. rewrite Eo in Hc. cbn in Hc.
    assert (Hsub : ({[dr_externalID d; other]} : gset string) ⊆ ids) by set_solver.
    apply subseteq_size in Hsub. rewrite size_union, !size_singleton in Hsub by set_solver. lia.
  - right. split; [|done]. apply Hcan. split; [|done]. intros ->.
    pose proof (proj1 (Hown EmptyString (dr_externalID d))) as Hx. rewrite Eo in Hx. destruct (Hx Hmine) as (? & _ & _ & _ & Hx').
    by apply uniqueAliases_elem in Hx' as (_ & [] & _).
Qed.
End plans.

Lemma Plan_subscribers `{Horder : !GoMapRange} `{Library : !ExportLibrary} input r :
  Plan input = Ok r ->
  exists drafts familyShared trials,
    parseExport (in_Export input) (in_Format input) (mp_CanonicalIDColumn (in_Mapping input)) (in_Now input)
      = Ok (drafts, familyShared, trials) /\
    Mapping_Validate (in_Mapping input) (in_ProjectID input) (in_Format input) = None /\
    ir_Subscribers r = map (planSubscriber input) (applyAliasConflicts drafts).
Proof.
  unfold Plan. intros [_ H]%try_err_ok. apply try_err_ok in H as [_ H]. apply try_err_ok in H as [Hm H].
  apply bind_result_ok in H as ([[drafts familyShared] trials] & Hp & [= <-]). by exists drafts, familyShared, trials.
Qed.

Lemma mark_ids `{Horder : !GoMapRange} drafts : map dr_externalID (applyAliasConflicts drafts) = map dr_externalID drafts.
Proof.
  unfold applyAliasConflicts. destruct (fold_left claim_aliases drafts (∅, ∅)) as [canonicals owners].
  rewrite map_map. apply map_ext. intros d. by case_bool_decide.
Qed.

(** No identity is given to two customers.  Of the subscribers a plan would import, two
    with different canonical ids never share an alias, and none has the canonical id of
    another user of the export as its alias: those that do are refused.  Whatever the order
    the maps are ranged over. *)
Theorem aliases_unambiguous `{Horder : !GoMapRange} `{Library : !ExportLibrary} input r s :
  Plan input = Ok r -> s ∈ ir_Subscribers r -> live s ->
  forall alias, alias ∈ sb_Aliases s ->
    alias <> sb_ExternalID s /\
    forall other, other ∈ ir_Subscribers r ->
      sb_ExternalID other <> alias /\
      (live other -> sb_ExternalID other <> sb_ExternalID s -> ~ alias ∈ sb_Aliases other).
Proof.
  intros (drafts & familyShared & trials & _ & _ & ->)%Plan_subscribers (d & -> & Hd)%list_elem_of_fmap Hlive alias.
  destruct (planned_identity input d) as (-> & -> & _). intros Ha.
  destruct (unmarked_draft input drafts d Hd Hlive) as (id & <- & Hne & Hin & Hclaims & Hone).
  assert (Hself : alias <> dr_externalID d) by (by apply uniqueAliases_elem in Ha as (? & _)).
  split; [done|]. intros other (d' & -> & Hd')%list_elem_of_fmap. destruct (planned_identity input d') as (-> & -> & _). split.
  - intros <-. apply Hself, (Hone (dr_externalID d') (dr_externalID d')); [by apply Hclaims|]. right. split; [done|].
    rewrite <- mark_ids. apply list_elem_of_fmap. by exists d'.
  - intros Hlive' Hdiff Ha'. apply Hdiff, (Hone alias (dr_externalID d')); [by apply Hclaims|]. left.
    destruct (unmarked_draft input drafts d' Hd' Hlive') as (id & <- & _ & _ & Hclaims' & _). by apply Hclaims'.
Qed.

(** *** The catalog's part *)

Definition grant_backed (input : Input) (catalog : Catalog) (g : Grant) : Prop :=
  exists product application known entitlement,
    product ∈ mp_Products (in_Mapping input) /\
    pm_Store product = gr_OriginStore g /\ pm_Environment product = gr_Environment g /\
    pm_ApplicationID product = gr_ApplicationID g /\ pm_ProductID product = gr_ProductID g /\
    ct_applications catalog !! gr_ApplicationID g = Some application /\
    sa_Environment (app_Store application) = gr_Environment g /\
    ct_products catalog !! gr_ProductID g = Some known /\
    ct_entitlements catalog !! gr_EntitlementKey g = Some entitlement /\
    ent_ID entitlement = gr_EntitlementID g /\ gr_EntitlementID g ∈ prod_EntitlementIDs known /\
    (requiresStoreProduct (gr_OriginStore g) = true ->
     storeProductKey (app_ID application) (pm_ProviderProductID product) ∈ ct_storeProducts catalog) /\
    exists row, sr_observedAt row = gr_ObservedAt g /\ Sum256 (sr_lineageMaterial row) = gr_LineageFingerprint g /\
      sr_productIdentifier row = pm_ProviderProductID product /\
      let d := decideAccess row (prod_Kind known) true (in_Now input) in
      ad_failure d = EmptyString /\ gr_Access g = ad_access d /\ gr_Reason g = ad_reason d /\
      gr_StartsAt g = ad_start d /\ gr_EndsAt g = ad_end d.

Lemma catalog_check_ok catalog row environment key product entitlementID kind :
  catalog_check catalog row environment key product = inr (entitlementID, kind) ->
  exists application known entitlement,
    ct_applications catalog !! pm_ApplicationID product = Some application /\
    sa_Environment (app_Store application) = environment /\ pm_Environment product = environment /\
    ct_products catalog !! pm_ProductID product = Some known /\ prod_Kind known = kind /\
    ct_entitlements catalog !! key = Some entitlement /\ ent_ID entitlement = entitlementID /\
    entitlementID ∈ prod_EntitlementIDs known /\
    (requiresStoreProduct (sr_store row) = true ->
     storeProductKey (app_ID application) (sr_productIdentifier row) ∈ ct_storeProducts catalog).
Proof.
  unfold catalog_check. destruct (ct_applications catalog !! _) as [application|]; [|done].
  destruct (ct_products catalog !! _) as [known|]; [|done].
  destruct (_ || _) eqn:Henv; [done|]. apply orb_false_iff in Henv as [H1%negb_false_iff%String.eqb_eq H2%negb_false_iff%String.eqb_eq].
  destruct (ct_entitlements catalog !! key) as [entitlement|]; [|done].
  destruct (productGrants known (ent_ID entitlement)) eqn:Hg; cbn [negb]; [|done].
  apply contains_str_In, list_elem_of_In in Hg.
  destruct (requiresStoreProduct (sr_store row) && _) eqn:Hr; [done|]. intros [= <- <-].
  exists application, known, entitlement. split_and!; try done; [congruence|].
  intros Hreq. rewrite Hreq in Hr. cbn in Hr. by apply negb_false_iff, bool_decide_eq_true in Hr.
Qed.

Lemma mapGrant_backed input externalID row id g catalog :
  in_Catalog input = Some catalog -> mapGrant input externalID row id = inr g ->
  grant_backed input catalog g /\ mp_Entitlements (in_Mapping input) !! id = Some (gr_EntitlementKey g) /\
  gr_ID g = rc_GrantID (in_ProjectID input) (rc_CustomerID (in_ProjectID input) externalID) (gr_ApplicationID g)
              (gr_ProductID g) (gr_EntitlementID g) (gr_LineageFingerprint g).
Proof.
  intros Hcat. unfold mapGrant. rewrite Hcat. destruct (sr_missingPurchase row); [done|].
  destruct (mp_Entitlements (in_Mapping input) !! id) as [key|] eqn:Hkey; [|done].
  destruct (_ || _); [done|].
  destruct (productMapping _ _ _ _) as [product|] eqn:Hp; [|by destruct (productMappedOnOtherEnvironment _ _ _ _)].
  unfold productMapping in Hp. apply List.find_some in Hp as [Hin%list_elem_of_In Hp].
  rewrite !andb_true_iff, !String.eqb_eq in Hp. destruct Hp as [[Hs He] Hpp].
  destruct (catalog_check _ _ _ _ _) as [|[entitlementID kind]] eqn:Hc; [done|].
  apply catalog_check_ok in Hc as (application & known & entitlement & Ha & Henv & _ & Hk & Hkind & Hent & Hid & Hel & Hreq).
  destruct (String.eqb_spec (ad_failure (decideAccess row kind true (in_Now input))) EmptyString) as [Hd|]; cbn [negb]; [|done].
  intros [= <-]. split_and!; [|done|done].
  exists product, application, known, entitlement. rewrite Hpp. split_and!; try done.
  exists row. rewrite Hkind. by split_and!.
Qed.

(** An import grants only what the operator mapped and the catalog already has.  Every
    grant of a subscriber the plan would import names, for a product of the mapping with its
    store and environment, an existing application of that environment, an existing product
    and an existing entitlement that product grants, and for the App Store and Google Play a
    registered store product; its access, reason and period are what [decideAccess] says of a
    row of the export for the kind of that product. *)
Theorem imports_are_backed `{Horder : !GoMapRange} `{Library : !ExportLibrary} input catalog r :
  Plan input = Ok r -> in_Catalog input = Some catalog ->
  forall s g, s ∈ ir_Subscribers r -> g ∈ sb_Grants s -> live s /\ grant_backed input catalog g.
Proof.
  intros (drafts & familyShared & trials & _ & _ & ->)%Plan_subscribers Hcat s g (d & -> & _)%list_elem_of_fmap Hg.
  pose proof (grants_come_from_cells input d g Hg) as (Hlive & row & id & _ & _ & Hm). split; [done|].
  by apply (mapGrant_backed _ _ _ _ _ _ Hcat Hm).
Qed.

(** ** A planned export *)

Definition plan_header : string :=
  "rc_original_app_user_id,rc_last_seen_app_user_id_alias,product_identifier,entitlement_identifiers,store,is_auto_renewable,is_sandbox,start_time,updated_at,original_store_transaction_id".

(** One user with two rows of one purchase, and two users with one alias. *)
Definition plan_csv : string :=
  csv_lines [plan_header; "ada,a1,coins,pro,app_store,false,false,3,4,t1"; "ada,a2,coins,pro,app_store,false,false,3,9,t1";
             "eve,x,coins,pro,app_store,false,false,3,4,t2"; "bob,x,coins,pro,app_store,false,false,3,4,t3"]%string.

Definition sample_application : Application := mkApplication "app" "project" (mkStoreApplication ProviderAppleAppStore EnvironmentProduction "com.app").
Definition sample_snapshot : ImportCatalog :=
  mkImportCatalog [sample_application] [mkProduct "product" "project" ProductKindNonConsumable ["e1"]]
    [mkEntitlement "e1" "project" "premium"] [mkStoreProduct "app" "product" "coins"].
Definition sample_mapping : Mapping :=
  mkMapping "project" columnOriginalAppUserID {["pro" := "premium"]}
    [mkProductMapping "app_store" EnvironmentProduction "coins" "app" "product"].
Definition sample_input : Input :=
  mkInput "project" sample_mapping FormatTransactionsCSV plan_csv 7 "batch" false true (Some (NewCatalog sample_snapshot)).

Definition sample_plan : ImportResult :=
  match Plan (Horder := range_in_order) (Library := plain_library) sample_input with
  | Ok r => r
  | Err _ => mkImportResult [] (mkReport true "" "" "" "" no_counts None "" [])
  end.

Lemma sample_planned : Plan (Horder := range_in_order) (Library := plain_library) sample_input = Ok sample_plan.
Proof. vm_compute. reflexivity. Qed.

Definition sample_subscriber : Subscriber := hd (planned "" "" [] false [] [] false true) (ir_Subscribers sample_plan).

Lemma sample_subscriber_in : sample_subscriber ∈ ir_Subscribers sample_plan.
Proof. apply list_elem_of_In. vm_compute. by left. Qed.

Lemma aliases_unambiguous_witness :
  map (fun s => (sb_ExternalID s, sb_Aliases s, sb_Fatal s, map gr_Line (sb_Grants s))) (ir_Subscribers sample_plan)
    = [("ada", ["a1"; "a2"], false, [3]); ("eve", ["x"], true, []); ("bob", ["x"], true, [])]%string /\
  ("a1" <> sb_ExternalID sample_subscriber)%string.
Proof.
  split; [vm_compute; reflexivity|].
  refine (proj1 (aliases_unambiguous (Horder := range_in_order) (Library := plain_library) sample_input sample_plan sample_subscriber
            sample_planned sample_subscriber_in _ "a1" _)).
  - by split; vm_compute.
  - apply list_elem_of_In. vm_compute. by left.
Defined.

Definition sample_grant : Grant :=
  hd (mkGrant "" 0 "" "" "" "" "" "" "" "" 0 None 0 "") (sb_Grants sample_subscriber).

Lemma sample_grant_in : sample_grant ∈ sb_Grants sample_subscriber.
Proof. apply list_elem_of_In. vm_compute. by left. Qed.

Lemma imports_are_backed_witness :
  gr_Access sample_grant = AccessAllowed /\
  grant_backed sample_input (NewCatalog sample_snapshot) sample_grant.
Proof.
  split; [vm_compute; reflexivity|].
  exact (proj2 (imports_are_backed (Horder := range_in_order) (Library := plain_library) sample_input (NewCatalog sample_snapshot) sample_plan
            sample_planned eq_refl sample_subscriber sample_grant sample_subscriber_in sample_grant_in)).
Defined.

(** *** Two rows of one purchase *)

Definition sample_purchase_row (line updated : Z) : sourceRow :=
  mkRow line "ada" [] "app_store" false "coins" ["pro"%string] false (Some 3) None None None (Some updated)
    false None None None None EmptyString false "t1" updated false false false.

Definition sample_draft : subscriberDraft :=
  mkDraft "ada" 2 [] [sample_purchase_row 2 9; sample_purchase_row 3 4] false.

Lemma grant_lines (gs : list Grant) : map gr_Line gs = [2] -> forall g, g ∈ gs -> gr_Line g = 2.
Proof.
  intros H g Hg. apply (list_elem_of_fmap_2 gr_Line) in Hg. change (gr_Line <$> gs) with (map gr_Line gs) in Hg.
  rewrite H in Hg. by apply list_elem_of_singleton in Hg.
Qed.

(** The row updated later represents the purchase, wherever it stands. *)
Lemma subscriber_all_or_nothing_witness :
  map gr_Line (sb_Grants (planSubscriber (Horder := range_in_order) sample_input sample_draft)) = [2] /\
  exists row' g', row' ∈ dr_rows sample_draft /\
    g' ∈ sb_Grants (planSubscriber (Horder := range_in_order) sample_input sample_draft) /\ gr_Line g' = 2 /\
    ~ newer (sample_purchase_row 2 9) row'.
Proof.
  assert (Hlines : map gr_Line (sb_Grants (planSubscriber (Horder := range_in_order) sample_input sample_draft)) = [2])
    by (vm_compute; reflexivity).
  split; [exact Hlines|].
  destruct (subscriber_all_or_nothing (Horder := range_in_order) sample_input sample_draft) as [_ H].
  destruct (H ltac:(vm_compute; reflexivity) ltac:(vm_compute; reflexivity)) as (Hmapped & Hrep & _).
  assert (Hrow : sample_purchase_row 2 9 ∈ dr_rows sample_draft) by (left; reflexivity).
  destruct (Hmapped _ Hrow) as [_ Hcell]. destruct (Hcell "pro"%string ltac:(left; reflexivity)) as [g Hg].
  destruct (Hrep (sample_purchase_row 2 9) g) as (row' & g' & (id & Hr' & _) & Hin & _ & Hnot).
  { exists "pro"%string. split; [exact Hrow|]. split; [left; reflexivity|]. split; [exact Hg|].
    exact (mapGrant_from_cell _ _ _ _ _ Hg). }
  exists row', g'. exact (conj Hr' (conj Hin (conj (grant_lines _ Hlines g' Hin) Hnot))).
Defined.
