(* ===== verification/ImportStore.v ===== *)
(** Import batches and grants ([internal/persistence/postgres/import_grant.go] on the tables
    of migration 012): the export a batch belongs to, one historical grant per lineage, and
    the catalog an import may name.

    The tables are finite maps from their unique columns; of the CHECK constraints those
    that [Validate] of the record already requires are not repeated.  The catalog's and the
    identity's tables are a part of the state.  ORDER BY is bytewise. *)

From S2P Require Import Prelude GoText GoTime Core Purchase Protection Persistence Stores Projector Repository EntitlementStore QueueStore Frames Identity Catalog PurchaseStore.
From stdpp Require Import base list strings gmap sorting.
Local Open Scope Z_scope.

(** ** Tables *)

(** The lineage of a grant: project, customer, application, product, entitlement and
    fingerprint. *)
Definition lineage_columns : Type := string * string * string * string * string * string.

(** The rest of a row of [import_grants]. *)
Record import_row : Type := mkImportRow {
  im_id : string;
  im_origin : string;
  im_originStore : string;
  im_environment : Environment;
  im_access : AccessStatus;
  im_reason : AccessReason;
  im_startsAt : option time;
  im_endsAt : option time;
  im_observedAt : time;
  im_export : string
}.

(** Batches hold the hash of their export and its format. *)
Record import_db : Type := mkImportDb {
  imp_catalog : catalog_db;
  import_grants : gmap lineage_columns import_row;
  import_batches : gmap (ProjectID * string) (string * string)
}.

Definition with_grants f (db : import_db) : import_db :=
  mkImportDb (imp_catalog db) (f (import_grants db)) (import_batches db).
Definition with_batches f (db : import_db) : import_db :=
  mkImportDb (imp_catalog db) (import_grants db) (f (import_batches db)).
Definition put_imp_catalog (c : catalog_db) (db : import_db) : import_db :=
  mkImportDb c (import_grants db) (import_batches db).

Definition lineage_of (grant : ImportGrant) : lineage_columns :=
  (ig_ProjectID grant, ig_CustomerID grant, ig_ApplicationID grant, ig_ProductID grant, ig_EntitlementID grant,
   ig_LineageFingerprint grant).

(** The row a write stores under an id and origin. *)
Definition row_of_grant (id origin : string) (grant : ImportGrant) : import_row :=
  mkImportRow id origin (ig_OriginStore grant) (ig_Environment grant) (ig_Access grant) (ig_AccessReason grant)
    (nullableTime (StartsAt (ig_EffectivePeriod grant))) (nullableTimePointer (EndsAt (ig_EffectivePeriod grant)))
    (normalizeTime (ig_ObservedAt grant)) (ig_ExportSHA256 grant).

(** ** Constraints *)

Definition lower_hex (b : Z) : bool := in_range 48 57 b || in_range 97 102 b.

(** The pattern [^imp-[0-9a-f]{32}$], no control character in the origin store, the order of
    the period, and the start of an allowed grant. *)
Definition import_row_valid (row : import_row) : bool :=
  (String.prefix "imp-" (im_id row) && (len (im_id row) =? 36) && forallb lower_hex (drop 4 (bytes (im_id row))))
  && negb (existsb IsControl (runes (im_originStore row)))
  && match im_startsAt row, im_endsAt row with
     | None, None => negb (String.eqb (im_access row) AccessAllowed)
     | Some starts, Some ends => starts <? ends
     | Some _, None => true
     | None, Some _ => false
     end.

(** The foreign keys. *)
Definition import_references (grant : ImportGrant) (db : import_db) : bool :=
  let p := ig_ProjectID grant in
  match customers (cat_identity (imp_catalog db)) !! ig_CustomerID grant with
  | Some row => String.eqb (cu_project row) p | None => false end
  && application_in p (ig_ApplicationID grant) (imp_catalog db)
  && in_project p (products (imp_catalog db) !! ig_ProductID grant)
  && in_project p (entitlement_defs (imp_catalog db) !! ig_EntitlementID grant)
  && bool_decide (is_Some (product_entitlements (imp_catalog db) !! (ig_ProductID grant, ig_EntitlementID grant))).

Definition import_id_used (id : string) (db : import_db) : bool :=
  existsb (fun entry => String.eqb (im_id entry.2) id) (map_to_list (import_grants db)).

(** ** Batches *)

(* internal/persistence/postgres/import_grant.go: transaction.EnsureImportBatch *)
Definition pg_EnsureImportBatch (batch : ImportBatch) : Tx import_db unit :=
  tx_check (ImportBatch_Validate batch)
  (fun db =>
     match import_batches db !! (ib_ProjectID batch, ib_BatchID batch) with
     | None =>
         if negb (project_exists (ib_ProjectID batch) (imp_catalog db))
         then sql_error "insert import batch" (PgError "23503" "import_batches_project_fk") db
         else (Ok tt, with_batches <[(ib_ProjectID batch, ib_BatchID batch) := (ib_ExportSHA256 batch, ib_Format batch)]> db)
     | Some (existing, _) =>
         if negb (String.eqb existing (ib_ExportSHA256 batch)) then (Err (refused "import batch"), db) else (Ok tt, db)
     end).

(** ** Grants *)

(* internal/persistence/postgres/import_grant.go: transaction.loadImportGrant *)
Definition loadImportGrant (grant : ImportGrant) : Tx import_db ImportGrant :=
  fun db =>
    match import_grants db !! lineage_of grant with
    | None => sql_error "load import grant" ErrNoRows db
    | Some row =>
        (Ok (mkImportGrant (im_id row) (ig_ProjectID grant) (ig_CustomerID grant) (ig_ApplicationID grant)
               (ig_ProductID grant) (ig_EntitlementID grant) (im_origin row) (im_originStore row) (im_environment row)
               (im_access row) (im_reason row) (mkPeriod (timestampValue (im_startsAt row)) (timestampPointer (im_endsAt row)))
               (im_observedAt row) (im_export row) (ig_LineageFingerprint grant)), db)
    end.

(* internal/persistence/postgres/import_grant.go: importGrantsEqual *)
Definition importGrantsEqual (l r : ImportGrant) : bool :=
  String.eqb (ig_OriginStore l) (ig_OriginStore r) && String.eqb (ig_Environment l) (ig_Environment r)
  && String.eqb (ig_Access l) (ig_Access r) && String.eqb (ig_AccessReason l) (ig_AccessReason r)
  && Equal (normalizeTime (StartsAt (ig_EffectivePeriod l))) (normalizeTime (StartsAt (ig_EffectivePeriod r)))
  && timePointersEqual (EndsAt (ig_EffectivePeriod l)) (EndsAt (ig_EffectivePeriod r))
  && Equal (normalizeTime (ig_ObservedAt l)) (normalizeTime (ig_ObservedAt r))
  && String.eqb (ig_ExportSHA256 l) (ig_ExportSHA256 r).

(** [UPDATE import_grants]: the id and origin of the row stay. *)
(* internal/persistence/postgres/import_grant.go:61-99: transaction.UpsertImportGrant *)
Definition update_import_grant (grant : ImportGrant) : Tx import_db unit :=
  fun db =>
    match import_grants db !! lineage_of grant with
    | None => (Ok tt, db)
    | Some row =>
        let row' := row_of_grant (im_id row) (im_origin row) grant in
        if negb (import_row_valid row') then sql_error "update import grant" (PgError "23514" "import_grants") db
        else (Ok tt, with_grants <[lineage_of grant := row']> db)
    end.

(* internal/persistence/postgres/import_grant.go:102-138: transaction.UpsertImportGrant *)
Definition insert_import_grant (grant : ImportGrant) : Tx import_db unit :=
  fun db =>
    let row := row_of_grant (ig_ID grant) (ig_Origin grant) grant in
    if negb (import_row_valid row) then sql_error "insert import grant" (PgError "23514" "import_grants") db
    else if import_id_used (ig_ID grant) db then sql_error "insert import grant" (PgError "23505" "import_grants_pkey") db
    else if negb (import_references grant db) then sql_error "insert import grant" (PgError "23503" EmptyString) db
    else (Ok tt, with_grants <[lineage_of grant := row]> db).

(* internal/persistence/postgres/import_grant.go: transaction.UpsertImportGrant *)
Definition pg_UpsertImportGrant (grant : ImportGrant) : Tx import_db ImportGrantResult :=
  tx_check (ImportGrant_Validate grant)
  (tx_handle (loadImportGrant grant)
     (fun existing =>
        if importGrantsEqual existing grant then tx_ret (mkImportGrantResult false false)
        else do _ <- update_import_grant grant; tx_ret (mkImportGrantResult false true))
     (fun e =>
        if negb (errors_Is e "persistence.ErrNotFound") then tx_err e
        else do _ <- insert_import_grant grant; tx_ret (mkImportGrantResult true false))).

(* internal/persistence/postgres/import_grant.go: transaction.PrimaryCustomerByExternalID *)
Definition pg_PrimaryCustomerByExternalID (projectID : ProjectID) (externalID : string) : Tx import_db Customer :=
  tx_zoom (fun db => cat_identity (imp_catalog db)) (fun i db => put_imp_catalog (put_identity i (imp_catalog db)) db)
    (customerByExternalIDDirect projectID externalID).

(** ** The catalog of a project *)

(** The entries of a table that belong to a project, by their key. *)
Definition project_rows {A} (scope : string * A -> bool) (table : list (string * A)) : list (string * A) :=
  merge_sort (fun x y => Is_true (string_le x.1 y.1)) (List.filter scope table).

(* internal/persistence/postgres/import_grant.go: transaction.loadImportApplications *)
Definition loadImportApplications (projectID : ProjectID) (db : import_db) : result (list Application) :=
  collect (fun _ entry =>
      let application := mkApplication entry.1 projectID (app_Store entry.2) in
      try* wrap_err "validate stored import application: %w" [] (Application_Validate application) in Ok application)
    (project_rows (fun entry => String.eqb (app_ProjectID entry.2) projectID) (map_to_list (applications (imp_catalog db)))).

(** The join of products and their grants. *)
Definition import_product_rows (projectID : ProjectID) (db : import_db) : list (ProductID * ProductKind * EntitlementID) :=
  flat_map (fun entry => map (fun id => (entry.1, entry.2.2, id)) (granted projectID entry.1 (imp_catalog db)))
    (project_rows (fun entry => String.eqb entry.2.1 projectID) (map_to_list (products (imp_catalog db)))).

Definition grant_more (id : EntitlementID) (product : Product) : Product :=
  mkProduct (prod_ID product) (prod_ProjectID product) (prod_Kind product) (prod_EntitlementIDs product ++ [id]).

(** A row adds its entitlement to the product of its id, which it first adds if need be. *)
(* internal/persistence/postgres/import_grant.go:288-308: transaction.loadImportProducts *)
Definition scan_import_product (projectID : ProjectID) (loaded : list Product)
    (row : ProductID * ProductKind * EntitlementID) : list Product :=
  let '(productID, kind, id) := row in
  let known := if contains_str (map prod_ID loaded) productID then loaded
               else loaded ++ [mkProduct productID projectID kind []] in
  map (fun product => if String.eqb (prod_ID product) productID then grant_more id product else product) known.

(* internal/persistence/postgres/import_grant.go: transaction.loadImportProducts *)
Definition loadImportProducts (projectID : ProjectID) (db : import_db) : result (list Product) :=
  let loaded := fold_left (scan_import_product projectID) (import_product_rows projectID db) [] in
  try* forEach (fun _ product => wrap_err "validate stored import product: %w" [] (Product_Validate product)) loaded in
  Ok loaded.

(* internal/persistence/postgres/import_grant.go: transaction.loadImportEntitlements *)
Definition loadImportEntitlements (projectID : ProjectID) (db : import_db) : result (list Entitlement) :=
  collect (fun _ entry =>
      let entitlement := mkEntitlement entry.1 projectID entry.2.2 in
      try* wrap_err "validate stored import entitlement: %w" [] (Entitlement_Validate entitlement) in Ok entitlement)
    (project_rows (fun entry => String.eqb entry.2.1 projectID) (map_to_list (entitlement_defs (imp_catalog db)))).

(** ORDER BY application_id, provider_product_id. *)
Definition mapping_le (x y : (ApplicationID * ProviderProductID) * (ProjectID * ProductID)) : bool :=
  if negb (String.eqb x.1.1 y.1.1) then string_le x.1.1 y.1.1 else string_le x.1.2 y.1.2.

(* internal/persistence/postgres/import_grant.go: transaction.loadImportStoreProducts *)
Definition loadImportStoreProducts (projectID : ProjectID) (db : import_db) : result (list StoreProduct) :=
  collect (fun _ entry =>
      let mapping := mkStoreProduct entry.1.1 entry.2.2 entry.1.2 in
      try* wrap_err "validate stored import store product: %w" [] (StoreProduct_Validate mapping) in Ok mapping)
    (merge_sort (fun x y => Is_true (mapping_le x y))
       (List.filter (fun entry => String.eqb entry.2.1 projectID) (map_to_list (store_products (imp_catalog db))))).

(* internal/persistence/postgres/import_grant.go: transaction.LoadImportCatalog *)
Definition pg_LoadImportCatalog (projectID : ProjectID) : Tx import_db ImportCatalog :=
  tx_check (ProjectID_Validate projectID)
  (fun db =>
     (let* apps := loadImportApplications projectID db in
      let* goods := loadImportProducts projectID db in
      let* ents := loadImportEntitlements projectID db in
      let* mappings := loadImportStoreProducts projectID db in
      Ok (mkImportCatalog apps goods ents mappings), db)).

(** ** What an upsert does *)

Lemma normalizeTime_idem t : normalizeTime (normalizeTime t) = normalizeTime t.
Proof. by apply Truncate_idemp. Qed.

Lemma stored_time_equal t : Equal (normalizeTime (timestampValue (nullableTime t))) (normalizeTime t) = true.
Proof.
  unfold nullableTime, timestampValue, IsZero, Equal. destruct (Z.eqb_spec t 0) as [->|]; [done|]. cbn [default].
  apply Z.eqb_eq, normalizeTime_idem.
Qed.

Lemma stored_pointer_equal t : timePointersEqual (timestampPointer (nullableTimePointer t)) t = true.
Proof. destruct t as [t|]; [|done]. cbn. apply Z.eqb_eq. apply normalizeTime_idem. Qed.

(** The grant a row is read back as. *)
Definition grant_of_row (grant : ImportGrant) (row : import_row) : ImportGrant :=
  mkImportGrant (im_id row) (ig_ProjectID grant) (ig_CustomerID grant) (ig_ApplicationID grant) (ig_ProductID grant)
    (ig_EntitlementID grant) (im_origin row) (im_originStore row) (im_environment row) (im_access row) (im_reason row)
    (mkPeriod (timestampValue (im_startsAt row)) (timestampPointer (im_endsAt row))) (im_observedAt row) (im_export row)
    (ig_LineageFingerprint grant).

Lemma stored_grant_equal id origin grant :
  importGrantsEqual (grant_of_row grant (row_of_grant id origin grant)) grant = true.
Proof.
  unfold importGrantsEqual, grant_of_row, row_of_grant.
  cbn [ig_OriginStore ig_Environment ig_Access ig_AccessReason ig_EffectivePeriod ig_ObservedAt ig_ExportSHA256 StartsAt EndsAt
       im_originStore im_environment im_access im_reason im_startsAt im_endsAt im_observedAt im_export].
  rewrite !String.eqb_refl, stored_time_equal, stored_pointer_equal. cbn [andb].
  rewrite andb_true_r. apply Z.eqb_eq, normalizeTime_idem.
Qed.

Lemma load_found grant db row :
  import_grants db !! lineage_of grant = Some row -> loadImportGrant grant db = (Ok (grant_of_row grant row), db).
Proof. unfold loadImportGrant. by intros ->. Qed.

(** The ways an upsert succeeds. *)
Lemma upsert_ok grant res db db' :
  pg_UpsertImportGrant grant db = (Ok res, db') ->
  ImportGrant_Validate grant = None /\
  match import_grants db !! lineage_of grant with
  | Some row =>
      if importGrantsEqual (grant_of_row grant row) grant then res = mkImportGrantResult false false /\ db' = db
      else res = mkImportGrantResult false true /\ import_row_valid (row_of_grant (im_id row) (im_origin row) grant) = true /\
           db' = with_grants <[lineage_of grant := row_of_grant (im_id row) (im_origin row) grant]> db
  | None =>
      res = mkImportGrantResult true false /\ import_row_valid (row_of_grant (ig_ID grant) (ig_Origin grant) grant) = true /\
      import_id_used (ig_ID grant) db = false /\ import_references grant db = true /\
      db' = with_grants <[lineage_of grant := row_of_grant (ig_ID grant) (ig_Origin grant) grant]> db
  end.
Proof.
  intros [Hv H]%tx_check_ok. split; [done|]. unfold tx_handle in H.
  destruct (import_grants db !! lineage_of grant) as [row|] eqn:E.
  - rewrite (load_found _ _ _ E) in H. destruct (importGrantsEqual _ _); [by injection H as <- <-|].
    apply tx_bind_ok in H as ([] & db1 & Hu & [= <- <-]). unfold update_import_grant in Hu. rewrite E in Hu.
    destruct (import_row_valid _); cbn in Hu; [|done]. by injection Hu as <-.
  - unfold loadImportGrant in H. rewrite E in H. cbn in H.
    apply tx_bind_ok in H as ([] & db1 & Hi & [= <- <-]). unfold insert_import_grant in Hi.
    destruct (import_row_valid _); cbn [negb] in Hi; [|done].
    destruct (import_id_used _ _); [done|]. destruct (import_references _ _); cbn [negb] in Hi; [|done]. by injection Hi as <-.
Qed.

(** What an upsert leaves of the rest of the store. *)
Lemma upsert_frame grant res db db' :
  pg_UpsertImportGrant grant db = (Ok res, db') ->
  imp_catalog db' = imp_catalog db /\ import_batches db' = import_batches db /\
  (forall l, l <> lineage_of grant -> import_grants db' !! l = import_grants db !! l) /\
  exists row, import_grants db' !! lineage_of grant = Some row /\ importGrantsEqual (grant_of_row grant row) grant = true /\
    match import_grants db !! lineage_of grant with
    | Some old => im_id row = im_id old /\ im_origin row = im_origin old
    | None => im_id row = ig_ID grant /\ im_origin row = ig_Origin grant
    end.
Proof.
  intros [_ H]%upsert_ok. destruct (import_grants db !! lineage_of grant) as [old|] eqn:E.
  - destruct (importGrantsEqual (grant_of_row grant old) grant) eqn:Heq.
    + destruct H as [_ ->]. split_and!; [done..|]. by exists old.
    + destruct H as (_ & _ & ->). cbn. split_and!; [done..| |].
      * intros l Hl. by rewrite lookup_insert_ne.
      * eexists. rewrite lookup_insert_eq. split; [done|]. split; [apply stored_grant_equal|done].
  - destruct H as (_ & _ & _ & _ & ->). cbn. split_and!; [done..| |].
    + intros l Hl. by rewrite lookup_insert_ne.
    + eexists. rewrite lookup_insert_eq. split; [done|]. split; [apply stored_grant_equal|done].
Qed.

(** Once a lineage holds the grant, saving it again does nothing. *)
Lemma upsert_again grant db row :
  ImportGrant_Validate grant = None -> import_grants db !! lineage_of grant = Some row ->
  importGrantsEqual (grant_of_row grant row) grant = true ->
  pg_UpsertImportGrant grant db = (Ok (mkImportGrantResult false false), db).
Proof.
  intros Hv Hrow Heq. unfold pg_UpsertImportGrant, tx_handle. rewrite Hv. cbn [tx_check].
  rewrite (load_found _ _ _ Hrow), Heq. done.
Qed.

(** An answer that nothing changed is true. *)
Lemma upsert_unchanged grant res db db' :
  pg_UpsertImportGrant grant db = (Ok res, db') -> igr_Inserted res = false -> igr_Updated res = false -> db' = db.
Proof.
  intros [_ H]%upsert_ok. destruct (import_grants db !! lineage_of grant) as [old|]; [|by destruct H as [-> _]].
  destruct (importGrantsEqual _ _); destruct H as [-> H]; [done|by cbn].
Qed.

(** Saving an import grant settles its lineage.  When it succeeds the grant read back for
    the lineage carries the same decision, observation and export to the microsecond, and
    the id and origin the lineage first had; nothing else in the store changed, saving the
    grant again answers that nothing changed, and the answer tells an insert from an update
    from no change. *)
Theorem upsert_settles grant res db db' :
  pg_UpsertImportGrant grant db = (Ok res, db') ->
  (exists saved, loadImportGrant grant db' = (Ok saved, db') /\ importGrantsEqual saved grant = true /\
     match import_grants db !! lineage_of grant with
     | Some row => ig_ID saved = im_id row /\ ig_Origin saved = im_origin row
     | None => ig_ID saved = ig_ID grant /\ ig_Origin saved = ig_Origin grant
     end) /\
  pg_UpsertImportGrant grant db' = (Ok (mkImportGrantResult false false), db') /\
  (igr_Inserted res = true <-> import_grants db !! lineage_of grant = None) /\
  (igr_Inserted res = false -> igr_Updated res = false -> db' = db) /\
  imp_catalog db' = imp_catalog db /\ import_batches db' = import_batches db /\
  (forall l, l <> lineage_of grant -> import_grants db' !! l = import_grants db !! l).
Proof.
  intros H. pose proof (upsert_unchanged _ _ _ _ H) as Hsame.
  destruct (upsert_frame _ _ _ _ H) as (Hc & Hb & Hl & row & Hrow & Heq & Hid). apply upsert_ok in H as [Hv H].
  split_and!; try done.
  - exists (grant_of_row grant row). by rewrite (load_found _ _ _ Hrow).
  - by eapply upsert_again.
  - destruct (import_grants db !! lineage_of grant) as [old|]; [|by destruct H as [-> _]].
    destruct (importGrantsEqual _ _); destruct H as [-> _]; done.
Qed.

(** ** Any sequence of imports *)

Definition references_of (l : lineage_columns) (db : import_db) : bool :=
  let '(p, c, a, i, e, _) := l in
  match customers (cat_identity (imp_catalog db)) !! c with Some row => String.eqb (cu_project row) p | None => false end
  && application_in p a (imp_catalog db) && in_project p (products (imp_catalog db) !! i)
  && in_project p (entitlement_defs (imp_catalog db) !! e)
  && bool_decide (is_Some (product_entitlements (imp_catalog db) !! (i, e))).

(** The rows satisfy their checks and foreign keys, and no two share an id. *)
Record import_wf (db : import_db) : Prop := {
  iw_row : forall l row, import_grants db !! l = Some row -> import_row_valid row = true /\ references_of l db = true;
  iw_id : forall l l' row row', import_grants db !! l = Some row -> import_grants db !! l' = Some row' ->
    im_id row = im_id row' -> l = l'
}.

(** Rows are never removed, keep their id and origin; batches are never changed. *)
Record import_grows (db db' : import_db) : Prop := {
  ig_catalog : imp_catalog db' = imp_catalog db;
  ig_batches : import_batches db ⊆ import_batches db';
  ig_rows : forall l row, import_grants db !! l = Some row ->
    exists row', import_grants db' !! l = Some row' /\ im_id row' = im_id row /\ im_origin row' = im_origin row
}.

#[export] Instance import_grows_order : PreOrder import_grows.
Proof.
  split; [constructor; [done|done|by intros l row H; exists row]|].
  intros x y z [Hc1 Hb1 Hr1] [Hc2 Hb2 Hr2]. constructor; [congruence|by etrans|].
  intros l row H. destruct (Hr1 l row H) as (row1 & H1 & Hi1 & Ho1). destruct (Hr2 l row1 H1) as (row2 & H2 & Hi2 & Ho2).
  exists row2. split_and!; congruence.
Qed.

Inductive import_call : Type :=
| call_batch (batch : ImportBatch)
| call_grant (grant : ImportGrant).

Definition run_import (call : import_call) : Tx import_db unit :=
  match call with
  | call_batch batch => pg_EnsureImportBatch batch
  | call_grant grant => do _ <- pg_UpsertImportGrant grant; tx_ret tt
  end.

(** Each call in a transaction of its own. *)
Definition run_imports (calls : list import_call) (db : import_db) : import_db :=
  fold_left (fun db call => Repository.committed (run_import call) db) calls db.

Lemma batch_ok batch db db' :
  pg_EnsureImportBatch batch db = (Ok tt, db') ->
  import_batches db' !! (ib_ProjectID batch, ib_BatchID batch) <> None /\
  (forall h f, import_batches db' !! (ib_ProjectID batch, ib_BatchID batch) = Some (h, f) -> h = ib_ExportSHA256 batch) /\
  import_grants db' = import_grants db /\ imp_catalog db' = imp_catalog db /\ import_batches db ⊆ import_batches db'.
Proof.
  intros [_ H]%tx_check_ok. destruct (import_batches db !! _) as [[existing format]|] eqn:E.
  - destruct (String.eqb_spec existing (ib_ExportSHA256 batch)) as [->|]; cbn in H; [|done]. injection H as <-.
    rewrite E. split_and!; try done. by intros h f [= <- <-].
  - destruct (project_exists _ _); cbn in H; [|done]. injection H as <-. cbn. rewrite lookup_insert_eq.
    split_and!; try done; [by intros h f [= <- <-]|by apply insert_subseteq].
Qed.

Lemma unused_id id db l row : import_id_used id db = false -> import_grants db !! l = Some row -> im_id row <> id.
Proof.
  unfold import_id_used. rewrite existsb_false_Forall, List.Forall_forall. intros H Hl Heq.
  specialize (H (l, row)). cbn in H. rewrite Heq, String.eqb_refl in H.
  by specialize (H (proj1 (list_elem_of_In _ _) (proj2 (elem_of_map_to_list _ _ _) Hl))).
Qed.

Lemma put_grant_wf db l row :
  import_wf db -> import_row_valid row = true -> references_of l db = true ->
  (forall l' row', l' <> l -> import_grants db !! l' = Some row' -> im_id row' <> im_id row) ->
  import_wf (with_grants <[l := row]> db).
Proof.
  intros [Hrow Hid] Hv Hr Hnew. constructor; cbn.
  - intros l' row' [[<- <-]|[_ H]]%lookup_insert_Some; [done|by apply Hrow].
  - intros l1 l2 row1 row2 [[<- <-]|[Hn1 H1]]%lookup_insert_Some [[<- <-]|[Hn2 H2]]%lookup_insert_Some Heq.
    + done.
    + by destruct (Hnew l2 row2 (not_eq_sym Hn2) H2).
    + by destruct (Hnew l1 row1 (not_eq_sym Hn1) H1).
    + by eapply Hid.
Qed.

Lemma run_import_keeps call db db' :
  import_wf db -> run_import call db = (Ok tt, db') -> import_wf db' /\ import_grows db db'.
Proof.
  intros Hwf. destruct call as [batch|grant]; cbn [run_import].
  - intros (_ & _ & Hg & Hc & Hb)%batch_ok. destruct Hwf as [Hrow Hid]. split.
    + constructor; rewrite Hg; [|done]. intros l row Hl. destruct (Hrow l row Hl) as [Hv Hr]. split; [done|].
      unfold references_of in *. by rewrite Hc.
    + constructor; [done|done|]. rewrite Hg. intros l row Hl. by exists row.
  - intros (res & db1 & H & [= <-])%tx_bind_ok. destruct (upsert_frame _ _ _ _ H) as (Hc & Hb & Hl & row & Hrow & _ & Hsame).
    apply upsert_ok in H as [_ H]. split.
    + destruct (import_grants db !! lineage_of grant) as [old|] eqn:E.
      * destruct (importGrantsEqual _ _); [by destruct H as [_ ->]|]. destruct H as (_ & Hv & ->).
        apply put_grant_wf; [done|done|by apply (iw_row _ Hwf _ _ E)|]. cbn. intros l' row' Hne H' Heq.
        by apply Hne, (iw_id _ Hwf _ _ _ _ H' E).
      * destruct H as (_ & Hv & Hu & Hr & ->). apply put_grant_wf; [done|done|exact Hr|].
        cbn. intros l' row' _ H'. by eapply unused_id.
    + constructor; [done|by rewrite Hb|]. intros l old Hold. destruct (decide (l = lineage_of grant)) as [->|Hne].
      * exists row. rewrite Hold in Hsame. tauto.
      * exists old. by rewrite Hl.
Qed.

Lemma run_imports_keep calls db : import_wf db -> import_wf (run_imports calls db) /\ import_grows db (run_imports calls db).
Proof.
  revert db. induction calls as [|call calls IH]; intros db Hwf; [done|]. cbn [run_imports fold_left].
  assert (H : import_wf (Repository.committed (run_import call) db) /\ import_grows db (Repository.committed (run_import call) db)).
  { unfold Repository.committed. destruct (run_import call db) as [[[]|e] db1] eqn:E; [by eapply run_import_keeps|by split]. }
  destruct H as [Hwf1 Hg1]. destruct (IH _ Hwf1) as [Hwf2 Hg2]. split; [done|]. by etrans.
Qed.

(** Whatever is imported in whatever order, the store keeps what it has.  Every stored
    grant satisfies the constraints of its table, refers to a customer, application, product
    and entitlement of its own project where the product gives the entitlement, and no two
    share an id; a lineage, once stored, is never removed and keeps its id and origin; the
    catalog is not touched; and a batch stays with the export it was first given: the same
    batch with another export is a conflict that changes nothing. *)
Theorem import_history calls db :
  import_wf db ->
  import_wf (run_imports calls db) /\ import_grows db (run_imports calls db) /\
  forall batch hash format, import_batches db !! (ib_ProjectID batch, ib_BatchID batch) = Some (hash, format) ->
    ImportBatch_Validate batch = None -> hash <> ib_ExportSHA256 batch ->
    let db' := run_imports calls db in
    pg_EnsureImportBatch batch db' = (Err (refused "import batch"), db').
Proof.
  intros Hwf. destruct (run_imports_keep calls db Hwf) as [Hwf' Hg]. split; [done|]. split; [done|].
  intros batch hash format Hb Hv Hne. cbn zeta. unfold pg_EnsureImportBatch. rewrite Hv. cbn [tx_check].
  rewrite (lookup_weaken _ _ _ _ Hb (ig_batches _ _ Hg)). by rewrite (proj2 (String.eqb_neq _ _) Hne).
Qed.

(** ** The catalog is the reading of its tables *)

Lemma collect_map {A B} (f : nat -> A -> result B) (g : A -> B) l :
  (forall i x, x ∈ l -> f i x = Ok (g x)) -> collect f l = Ok (map g l).
Proof.
  unfold collect. generalize 0%nat. induction l as [|x l IH]; intros i H; [done|]. cbn [collectFrom map].
  rewrite (H i x) by (by left). cbn. rewrite IH; [done|]. intros j y Hy. apply H. by right.
Qed.

Lemma filter_elem {A} (f : A -> bool) l x : x ∈ List.filter f l <-> f x = true /\ x ∈ l.
Proof. rewrite !list_elem_of_In, filter_In. tauto. Qed.

Lemma project_rows_elem {A} (scope : string * A -> bool) (table : list (string * A)) x :
  x ∈ project_rows scope table <-> scope x = true /\ x ∈ table.
Proof. unfold project_rows. by rewrite merge_sort_Permutation, filter_elem. Qed.

Lemma project_rows_keys {A} (scope : string * A -> bool) (m : gmap string A) :
  NoDup (map fst (project_rows scope (map_to_list m))).
Proof.
  unfold project_rows. rewrite merge_sort_Permutation. assert (H : NoDup (map fst (map_to_list m))) by apply NoDup_fst_map_to_list.
  revert H. generalize (map_to_list m). intros l. induction l as [|x l IH]; [done|]. cbn. intros [Hx Hl]%NoDup_cons.
  destruct (scope x); cbn; [|by apply IH]. apply NoDup_cons. split; [|by apply IH].
  intros (y & Hy & Hin)%list_elem_of_fmap. apply Hx. rewrite Hy. apply list_elem_of_fmap. exists y.
  split; [done|]. by apply filter_elem in Hin as [_ ?].
Qed.

(** The rows of one product extend it entitlement by entitlement. *)
Lemma grant_others id e loaded :
  ~ id ∈ map prod_ID loaded ->
  map (fun product => if String.eqb (prod_ID product) id then grant_more e product else product) loaded = loaded.
Proof.
  induction loaded as [|x loaded IH]; [done|]. cbn. rewrite not_elem_of_cons. intros [Hx H].
  rewrite (proj2 (String.eqb_neq _ _) (not_eq_sym Hx)). by rewrite IH.
Qed.

Lemma scan_product_more p loaded id kind acc ids :
  ~ id ∈ map prod_ID loaded ->
  fold_left (scan_import_product p) (map (fun e => (id, kind, e)) ids) (loaded ++ [mkProduct id p kind acc])
  = loaded ++ [mkProduct id p kind (acc ++ ids)].
Proof.
  intros Hnew. revert acc. induction ids as [|e ids IH]; intros acc; cbn [map fold_left]; [by rewrite app_nil_r|].
  unfold scan_import_product at 2. rewrite map_app. cbn [map prod_ID].
  rewrite (proj2 (contains_str_In _ _)) by (apply in_app_iff; right; by left).
  rewrite map_app. cbn [map prod_ID]. rewrite String.eqb_refl, grant_others by done. unfold grant_more. cbn [prod_ID prod_ProjectID prod_Kind prod_EntitlementIDs].
  by rewrite IH, <- app_assoc.
Qed.

Lemma scan_product_new p loaded id kind ids :
  ~ id ∈ map prod_ID loaded ->
  fold_left (scan_import_product p) (map (fun e => (id, kind, e)) ids) loaded
  = loaded ++ match ids with [] => [] | _ => [mkProduct id p kind ids] end.
Proof.
  intros Hnew. destruct ids as [|e ids]; [by rewrite app_nil_r|]. cbn [map fold_left].
  pose proof (scan_product_more p loaded id kind [e] ids Hnew) as H. cbn [app] in H. rewrite <- H. f_equal. unfold scan_import_product.
  rewrite (proj2 (contains_str_not_In _ _)) by (by rewrite <- list_elem_of_In).
  rewrite map_app. cbn [map prod_ID]. by rewrite String.eqb_refl, grant_others.
Qed.

(** The products of a project that grant something, each with what it grants. *)
Definition granting (p : ProjectID) (c : catalog_db) (entry : ProductID * (ProjectID * ProductKind)) : list Product :=
  match granted p entry.1 c with [] => [] | ids => [mkProduct entry.1 p entry.2.2 ids] end.

Lemma scan_products p c entries loaded :
  NoDup (map fst entries) -> (forall entry, entry ∈ entries -> ~ entry.1 ∈ map prod_ID loaded) ->
  fold_left (scan_import_product p)
    (flat_map (fun entry => map (fun id => (entry.1, entry.2.2, id)) (granted p entry.1 c)) entries) loaded
  = loaded ++ flat_map (granting p c) entries.
Proof.
  revert loaded. induction entries as [|entry entries IH]; intros loaded Hnd Hnew; cbn [flat_map]; [by rewrite app_nil_r|].
  cbn [map] in Hnd. apply NoDup_cons in Hnd as [Hfresh Hnd].
  rewrite fold_left_app, (scan_product_new p loaded entry.1 entry.2.2) by (apply Hnew; by left).
  assert (Hg : match granted p entry.1 c with [] => [] | _ => [mkProduct entry.1 p entry.2.2 (granted p entry.1 c)] end
               = granting p c entry) by (unfold granting; by destruct (granted p entry.1 c)).
  rewrite Hg, IH, <- app_assoc; [done|done|].
  intros other Hin. rewrite map_app, elem_of_app. intros [Hold|Hself].
  - by apply (Hnew other); [right|].
  - unfold granting in Hself. destruct (granted p entry.1 c); [by apply elem_of_nil in Hself|].
    apply list_elem_of_singleton in Hself. cbn in Hself. apply Hfresh. rewrite <- Hself. apply list_elem_of_fmap. by exists other.
Qed.

Lemma project_rows_in {B} (m : gmap string (ProjectID * B)) p id q k :
  (id, (q, k)) ∈ project_rows (fun entry => String.eqb entry.2.1 p) (map_to_list m) <-> q = p /\ m !! id = Some (q, k).
Proof. rewrite project_rows_elem, elem_of_map_to_list. cbn. by rewrite String.eqb_eq. Qed.

Lemma granting_elem p c i :
  i ∈ flat_map (granting p c) (project_rows (fun entry => String.eqb entry.2.1 p) (map_to_list (products c))) <->
  products c !! prod_ID i = Some (p, prod_Kind i) /\ prod_ProjectID i = p /\
  prod_EntitlementIDs i = granted p (prod_ID i) c /\ prod_EntitlementIDs i <> [].
Proof.
  rewrite list_elem_of_In, in_flat_map. setoid_rewrite <- list_elem_of_In. unfold granting. split.
  - intros ([id [q k]] & [-> Hin]%project_rows_in & Hg). cbn [fst snd] in *.
    destruct (granted p id c) as [|e ids] eqn:E; [by apply elem_of_nil in Hg|].
    apply list_elem_of_singleton in Hg as ->. cbn. by rewrite E.
  - intros (Hi & Hp & Hids & Hne). exists (prod_ID i, (p, prod_Kind i)). split.
    + by apply project_rows_in.
    + cbn. rewrite <- Hids. destruct i as [id q k [|e ids]]; [done|]. cbn in *. subst q. apply list_elem_of_singleton. done.
Qed.

Lemma granting_ids p c :
  NoDup (map prod_ID (flat_map (granting p c) (project_rows (fun entry => String.eqb entry.2.1 p) (map_to_list (products c))))).
Proof.
  pose proof (project_rows_keys (fun entry => String.eqb entry.2.1 p) (products c)) as Hnd. revert Hnd.
  generalize (project_rows (fun entry => String.eqb entry.2.1 p) (map_to_list (products c))). intros entries.
  induction entries as [|entry entries IH]; [done|]. cbn [map flat_map]. intros [Hx Hnd]%NoDup_cons.
  specialize (IH Hnd). unfold granting at 1. destruct (granted p entry.1 c); [done|]. cbn. apply NoDup_cons. split; [|done].
  intros (i & Hi & Hin)%list_elem_of_fmap. apply Hx. rewrite Hi. clear -Hin.
  apply list_elem_of_In, in_flat_map in Hin as (other & Hin & Hg). unfold granting in Hg.
  destruct (granted p other.1 c); [done|]. destruct Hg as [<-|[]]. cbn. apply list_elem_of_fmap. exists other.
  split; [done|]. by apply list_elem_of_In.
Qed.

Lemma import_products_ok p db :
  catalog_wf (imp_catalog db) -> ProjectID_Validate p = None ->
  loadImportProducts p db = Ok (flat_map (granting p (imp_catalog db))
    (project_rows (fun entry => String.eqb entry.2.1 p) (map_to_list (products (imp_catalog db))))).
Proof.
  intros Hwf Hp. unfold loadImportProducts, import_product_rows.
  rewrite scan_products; [|apply project_rows_keys|by intros entry _ ?%elem_of_nil]. cbn [app].
  apply try_err_ok. split; [|done]. apply forEach_nil. intros i product Hi. apply wrap_err_nil.
  apply list_elem_of_lookup_2, list_elem_of_In, in_flat_map in Hi as ([id [q kind]] & Hin & Hg).
  apply list_elem_of_In, project_rows_in in Hin as [-> Hin]. cbn [fst snd] in *.
  unfold granting in Hg. cbn [fst snd] in Hg. destruct (granted p id (imp_catalog db)) as [|e ids] eqn:Eg; [done|].
  destruct Hg as [<-|[]]. destruct (cw_product _ Hwf _ _ _ Hin) as (Hid & _ & Hk & _).
  rewrite <- Eg. apply product_valid. cbn [prod_ID prod_ProjectID prod_Kind prod_EntitlementIDs].
  rewrite <- ProductID_Validate_nil, <- ProjectID_Validate_nil, <- ProductKind_Validate_nil. split_and!; try done; [by rewrite Eg| |].
  - apply List.Forall_forall. intros x Hx%granted_In. destruct (cw_grant _ Hwf _ _ _ Hx) as [_ [k' He]].
    destruct (cw_entitlement _ Hwf _ _ _ He) as [Hv _]. apply EntitlementID_Validate_nil.
    unfold Entitlement_Validate in Hv. rewrite errors_Join_nil, !Forall_cons in Hv. apply Hv.
  - apply granted_NoDup.
Qed.

Lemma import_applications_ok p db :
  catalog_wf (imp_catalog db) ->
  loadImportApplications p db = Ok (map snd (project_rows (fun entry => String.eqb (app_ProjectID entry.2) p)
                                              (map_to_list (applications (imp_catalog db))))).
Proof.
  intros Hwf. apply collect_map. intros _ [a r] [Hp%String.eqb_eq Hin%elem_of_map_to_list]%project_rows_elem. cbn in *.
  destruct (cw_application _ Hwf _ _ Hin) as (<- & Hv & _). destruct r as [id q store]. cbn in *. subst q. by rewrite Hv.
Qed.

Lemma import_entitlements_ok p db :
  catalog_wf (imp_catalog db) ->
  loadImportEntitlements p db = Ok (map (fun entry => mkEntitlement entry.1 p entry.2.2)
    (project_rows (fun entry => String.eqb entry.2.1 p) (map_to_list (entitlement_defs (imp_catalog db))))).
Proof.
  intros Hwf. apply collect_map. intros _ [e [q k]] [-> Hin]%project_rows_in. cbn in *.
  destruct (cw_entitlement _ Hwf _ _ _ Hin) as [Hv _]. by rewrite Hv.
Qed.

Lemma import_mappings_ok p db :
  catalog_wf (imp_catalog db) ->
  loadImportStoreProducts p db = Ok (map (fun entry => mkStoreProduct entry.1.1 entry.2.2 entry.1.2)
    (merge_sort (fun x y => Is_true (mapping_le x y))
       (List.filter (fun entry => String.eqb entry.2.1 p) (map_to_list (store_products (imp_catalog db)))))).
Proof.
  intros Hwf. apply collect_map. intros _ [[a x] [q i]] Hin. rewrite merge_sort_Permutation in Hin.
  apply filter_elem in Hin as [Hq%String.eqb_eq Hin%elem_of_map_to_list]. cbn in *. subst q.
  destruct (cw_mapping _ Hwf _ _ _ _ Hin) as [Hv _]. by rewrite Hv.
Qed.

(** The catalog an import sees is the project's.  On any well-formed catalog the load
    succeeds and changes nothing; it lists exactly the applications, entitlements and mapped
    store products of the project, and exactly its products that grant something, each once
    with its kind and everything it grants. *)
Theorem import_catalog_loaded p db :
  catalog_wf (imp_catalog db) -> ProjectID_Validate p = None ->
  exists snapshot, pg_LoadImportCatalog p db = (Ok snapshot, db) /\
    (forall a, a ∈ ic_Applications snapshot <->
       applications (imp_catalog db) !! app_ID a = Some a /\ app_ProjectID a = p) /\
    (forall e, e ∈ ic_Entitlements snapshot <->
       entitlement_defs (imp_catalog db) !! ent_ID e = Some (p, ent_Key e) /\ ent_ProjectID e = p) /\
    (forall m, m ∈ ic_StoreProducts snapshot <->
       store_products (imp_catalog db) !! (sp_ApplicationID m, sp_ProviderID m) = Some (p, sp_ProductID m)) /\
    (forall i, i ∈ ic_Products snapshot <->
       products (imp_catalog db) !! prod_ID i = Some (p, prod_Kind i) /\ prod_ProjectID i = p /\
       prod_EntitlementIDs i = granted p (prod_ID i) (imp_catalog db) /\ prod_EntitlementIDs i <> []) /\
    NoDup (map prod_ID (ic_Products snapshot)).
Proof.
  intros Hwf Hp. eexists. split.
  { unfold pg_LoadImportCatalog. rewrite Hp. cbn [tx_check].
    rewrite import_applications_ok, import_products_ok, import_entitlements_ok, import_mappings_ok by done. done. }
  cbn [ic_Applications ic_Products ic_Entitlements ic_StoreProducts]. split_and!.
  - intros a. rewrite list_elem_of_fmap. split.
    + intros ([id r] & -> & [Hq%String.eqb_eq Hin%elem_of_map_to_list]%project_rows_elem). cbn in *.
      by destruct (cw_application _ Hwf _ _ Hin) as (-> & _).
    + intros [H <-]. exists (app_ID a, a). split; [done|]. apply project_rows_elem. cbn. rewrite String.eqb_refl.
      split; [done|]. by apply elem_of_map_to_list.
  - intros e. rewrite list_elem_of_fmap. split.
    + by intros ([id [q k]] & -> & [-> Hin]%project_rows_in).
    + intros [H <-]. exists (ent_ID e, (ent_ProjectID e, ent_Key e)). split; [by destruct e|]. by apply project_rows_in.
  - intros m. rewrite list_elem_of_fmap. split.
    + intros ([[a x] [q i]] & -> & Hin). rewrite merge_sort_Permutation in Hin.
      apply filter_elem in Hin as [Hq%String.eqb_eq Hin%elem_of_map_to_list]. cbn in *. by subst q.
    + intros H. exists ((sp_ApplicationID m, sp_ProviderID m), (p, sp_ProductID m)). split; [by destruct m|].
      rewrite merge_sort_Permutation. apply filter_elem. cbn. rewrite String.eqb_refl. split; [done|]. by apply elem_of_map_to_list.
  - apply granting_elem.
  - apply granting_ids.
Qed.

(** ** Witnesses *)

Definition import_shop : import_db := mkImportDb shop_tables ∅ ∅.

Lemma import_shop_wf : import_wf import_shop.
Proof. by constructor; intros *; cbn; rewrite lookup_empty. Qed.

Lemma import_shop_catalog : catalog_wf (imp_catalog import_shop).
Proof. exact (pw_catalog _ shop_db_wf). Qed.

Definition shop_grant (access : AccessStatus) (reason : AccessReason) (observed : time) : ImportGrant :=
  mkImportGrant "imp-0123456789abcdef0123456789abcdef" "project-1" "c1" "app-1" "product-1" "ent-1" ImportOriginRevenueCat
    "play_store" EnvironmentProduction access reason (mkPeriod demo_now (Some (demo_now + Hour))) observed
    (shop_fingerprint 4) (shop_fingerprint 5).
Definition shop_grant_allowed : ImportGrant := shop_grant AccessAllowed AccessReasonPurchaseValid demo_now.
Definition shop_grant_refunded : ImportGrant := shop_grant AccessDenied AccessReasonRefunded (demo_now + Second).
Definition shop_batch (n : Z) : ImportBatch := mkImportBatch "project-1" "batch-1" (shop_fingerprint n) "transactions-csv".
Definition import_calls : list import_call :=
  [call_batch (shop_batch 4); call_grant shop_grant_allowed; call_batch (shop_batch 6)].
Definition imported_shop : import_db := run_imports import_calls import_shop.

(** Inserted, then unchanged, then updated. *)
Example upsert_answers :
  (pg_UpsertImportGrant shop_grant_allowed import_shop).1 = Ok (mkImportGrantResult true false) /\
  (pg_UpsertImportGrant shop_grant_allowed imported_shop).1 = Ok (mkImportGrantResult false false) /\
  (pg_UpsertImportGrant shop_grant_refunded imported_shop).1 = Ok (mkImportGrantResult false true).
Proof. vm_compute. done. Qed.

(** A period that is not empty, but is once cut to microseconds. *)
Example short_grant_refused :
  ImportGrant_Validate (mkImportGrant "imp-0123456789abcdef0123456789abcdef" "project-1" "c1" "app-1" "product-1" "ent-1"
    ImportOriginRevenueCat "play_store" EnvironmentProduction AccessAllowed AccessReasonPurchaseValid
    (mkPeriod 1000 (Some 1999)) 1000 (shop_fingerprint 4) (shop_fingerprint 5)) = None /\
  (pg_UpsertImportGrant (mkImportGrant "imp-0123456789abcdef0123456789abcdef" "project-1" "c1" "app-1" "product-1" "ent-1"
    ImportOriginRevenueCat "play_store" EnvironmentProduction AccessAllowed AccessReasonPurchaseValid
    (mkPeriod 1000 (Some 1999)) 1000 (shop_fingerprint 4) (shop_fingerprint 5)) import_shop).1
  = Err (Wrapf "%s: %w: PostgreSQL constraint %s" [AStr "insert import grant"; AStr "import_grants"] ErrConflict).
Proof. vm_compute. done. Qed.

Lemma upsert_refunded : (pg_UpsertImportGrant shop_grant_refunded imported_shop).1 = Ok (mkImportGrantResult false true).
Proof. vm_compute. reflexivity. Qed.

Lemma upsert_settles_witness :
  exists db', pg_UpsertImportGrant shop_grant_refunded imported_shop = (Ok (mkImportGrantResult false true), db') /\
              pg_UpsertImportGrant shop_grant_refunded db' = (Ok (mkImportGrantResult false false), db').
Proof.
  pose proof (answered_result _ _ upsert_refunded) as E. eexists. split; [exact E|].
  exact (proj1 (proj2 (upsert_settles _ _ _ _ E))).
Defined.

Lemma shop_batch_stored : import_batches imported_shop !! ("project-1", "batch-1")%string = Some (shop_fingerprint 4, "transactions-csv"%string).
Proof. vm_compute. reflexivity. Qed.

Lemma imported_shop_wf : import_wf imported_shop.
Proof. exact (proj1 (run_imports_keep import_calls import_shop import_shop_wf)). Qed.

Lemma import_history_witness :
  let db' := run_imports [call_grant shop_grant_refunded] imported_shop in
  import_wf db' /\ pg_EnsureImportBatch (shop_batch 7) db' = (Err (refused "import batch"), db').
Proof.
  destruct (import_history [call_grant shop_grant_refunded] imported_shop imported_shop_wf) as (Hwf & _ & H).
  split; [exact Hwf|]. by refine (H (shop_batch 7) (shop_fingerprint 4) "transactions-csv"%string shop_batch_stored _ _); vm_compute.
Defined.

Lemma import_catalog_loaded_witness :
  exists snapshot, pg_LoadImportCatalog "project-1" import_shop = (Ok snapshot, import_shop) /\
    mkProduct "product-1" "project-1" ProductKindSubscription ["ent-1"; "ent-2"]%string ∈ ic_Products snapshot.
Proof.
  destruct (import_catalog_loaded "project-1" import_shop import_shop_catalog eq_refl) as (snapshot & H & _ & _ & _ & Hp & _).
  exists snapshot. split; [exact H|]. apply Hp. split_and!; [vm_compute; reflexivity..|done].
Defined.
