(* ===== verification/AppleReports.v ===== *)
(** Apple's consolidated financial report ([internal/financialreports/apple.go],
    [currency.go]): the tab-delimited file, its checks row by row, and the exact totals per
    application and currency.

    A [RowFailure] is the error it prints as.  [time.Parse] is modelled for the one layout
    the file uses, month, day and year in digits. *)

From S2P Require Import Prelude GoText GoTime Core Decimal Projector GoHttp RevenueCat.
From stdpp Require Import base list strings gmap sorting.
Local Open Scope Z_scope.

(** ** Currencies ([currency.go]) *)

(** The words of a list separated by single spaces. *)
Definition words (text : string) : list string := Split text 32.

(* internal/financialreports/currency.go:7-13: currencyExponentSpecial *)
Definition currencyExponentSpecial (code : string) : option Z :=
  if contains_str (words "BIF CLP DJF GNF ISK JPY KMF KRW PYG RWF UGX VND VUV XAF XOF XPF") code then Some 0
  else if contains_str (words "BHD IQD JOD KWD LYD OMR TND") code then Some 3
  else if contains_str (words "CLF UYW") code then Some 4
  else None.

(* internal/financialreports/currency.go:15-23: currencyExponentTwo *)
Definition currencyExponentTwo : list string :=
  words (String.concat " "
    ["AED AFN ALL AMD ANG AOA ARS AUD AWG AZN BAM BBD BDT BGN BMD BND BOB BRL BSD";
     "BTN BWP BYN BZD CAD CDF CHF CNY COP CRC CUP CVE CZK DOP DZD EGP ERN ETB EUR";
     "FJD FKP GBP GEL GHS GIP GMD GTQ GYD HKD HNL HTG HUF IDR ILS INR IRR JMD KES";
     "KGS KHR KYD KZT LAK LBP LKR LRD LSL MAD MDL MGA MKD MMK MNT MOP MRU MUR MVR";
     "MWK MXN MZN NAD NGN NIO NOK NPR NZD PAB PEN PGK PHP PKR PLN QAR RON RSD RUB";
     "SAR SBD SCR SDG SEK SGD SHP SLE SOS SRD STN SVC SYP SZL THB TJS TMT TOP TRY";
     "TTD TWD TZS UAH USD UYU UZS VES WST XCD YER ZAR ZMW ZWL"]%string).

(* internal/financialreports/currency.go: CurrencyExponent *)
Definition CurrencyExponent (code : string) : Z * bool :=
  match currencyExponentSpecial code with
  | Some exponent => (exponent, true)
  | None => if contains_str currencyExponentTwo code then (2, true) else (0, false)
  end.

(* internal/financialreports/currency.go: ValidCurrencyCode *)
Definition ValidCurrencyCode (code : string) : bool :=
  (len code =? 3) && forallb (fun character => negb ((character <? 65) || (90 <? character))) (runes code).

(** ** Text and dates *)

(** [strings.ReplaceAll(text, "\r\n", "\n")] and then of the carriage returns left. *)
Fixpoint crlf_to_lf (l : list Z) : list Z :=
  match l with
  | 13 :: ((10 :: _) as l') => crlf_to_lf l'
  | b :: l' => b :: crlf_to_lf l'
  | [] => []
  end.
Definition unix_lines (payload : string) : list string :=
  Split (of_bytes (map (fun b => if b =? 13 then 10 else b) (crlf_to_lf (bytes payload)))) 10.

(** Midnight UTC of a date. *)
Definition days_before_year (y : Z) : Z := 365 * (y - 1) + (y - 1) / 4 - (y - 1) / 100 + (y - 1) / 400.
Definition Date (year month day : Z) : time :=
  (days_before_year year
   + fold_right Z.add 0 (take (Z.to_nat (month - 1)) (month_lengths (is_leap year))) + day - 1) * nanosPerDay.

Definition digits_value (l : list Z) : option Z :=
  if forallb is_digit_byte l then Some (value_of_digits (map (fun b => b - 48) l)) else None.

(** [time.Parse("01/02/2006", value)]. *)
Definition parse_slash_date (value : string) : option time :=
  match bytes value with
  | [m1; m2; 47; d1; d2; 47; y1; y2; y3; y4] =>
      month ← digits_value [m1; m2]; day ← digits_value [d1; d2]; year ← digits_value [y1; y2; y3; y4];
      if in_range 1 12 month && in_range 1 (nth (Z.to_nat (month - 1)) (month_lengths (is_leap year)) 0) day
      then Some (Date year month day) else None
  | _ => None
  end.

(** ** The report ([apple.go]) *)

(* internal/financialreports/apple.go: constants *)
Definition appleColumnStartDate : string := "Start Date".
Definition appleColumnEndDate : string := "End Date".
Definition appleColumnIdentifier : string := "Apple Identifier".
Definition appleColumnQuantity : string := "Quantity".
Definition appleColumnPartnerShare : string := "Partner Share".
Definition appleColumnExtendedPartnerShare : string := "Extended Partner Share".
Definition appleColumnPartnerShareCurrency : string := "Partner Share Currency".
Definition appleColumnSaleOrReturn : string := "Sale or Return".
Definition appleColumnCustomerPrice : string := "Customer Price".
Definition appleColumnCustomerCurrency : string := "Customer Currency".

(* internal/financialreports/apple.go:39-50: appleRequiredColumns *)
Definition appleRequiredColumns : list string :=
  [appleColumnStartDate; appleColumnEndDate; appleColumnIdentifier; appleColumnQuantity; appleColumnPartnerShare;
   appleColumnExtendedPartnerShare; appleColumnPartnerShareCurrency; appleColumnSaleOrReturn; appleColumnCustomerPrice;
   appleColumnCustomerCurrency].

(* internal/financialreports/apple.go:52-52: appleRejectedColumns *)
Definition appleRejectedColumns : list string := ["Transaction Date"; "Settlement Date"; "Order Type"]%string.

(* internal/financialreports/apple.go: RowFailure *)
Record RowFailure : Type := mkRowFailure {
  rf_Row : Z;
  rf_Column : string;
  rf_Code : string
}.

(* internal/financialreports/apple.go: RowFailure.Error *)
Definition RowFailure_Error (failure : RowFailure) : gerror :=
  if (0 <? rf_Row failure) && negb (String.eqb (rf_Column failure) EmptyString)
  then Errorf "financial report row %d column %s failed with code %s"
         [AInt (rf_Row failure); AStr (rf_Column failure); AStr (rf_Code failure)]
  else if negb (String.eqb (rf_Column failure) EmptyString)
  then Errorf "financial report column %s failed with code %s" [AStr (rf_Column failure); AStr (rf_Code failure)]
  else Errorf "financial report failed with code %s" [AStr (rf_Code failure)].

(* internal/financialreports/apple.go: reportFailure *)
Definition reportFailure (row : Z) (column code : string) : gerror := RowFailure_Error (mkRowFailure row column code).

(* internal/financialreports/apple.go: IdentifierTotal *)
Record IdentifierTotal : Type := mkIdentifierTotal {
  it_AppleIdentifier : string;
  it_Currency : string;
  it_Amount : Decimal;
  it_MinorUnits : option Z
}.

(* internal/financialreports/apple.go: ParsedConsolidated *)
Record ParsedConsolidated : Type := mkParsed {
  pc_PeriodStart : time;
  pc_PeriodEnd : time;
  pc_Totals : list IdentifierTotal
}.

(* internal/financialreports/apple.go: appleAccumulator *)
Record appleAccumulator : Type := mkAccumulator {
  acc_identifier : string;
  acc_currency : string;
  acc_amount : Decimal
}.

(** The positions of a header's fields. *)
(* internal/financialreports/apple.go:236-245: appleHeader *)
Fixpoint apple_columns (index : nat) (columns : gmap string nat) (fields : list string) : result (gmap string nat) :=
  match fields with
  | [] => Ok columns
  | field :: fields' =>
      if String.eqb field EmptyString then Err (reportFailure 1 EmptyString "header_invalid")
      else if bool_decide (is_Some (columns !! field)) then Err (reportFailure 1 field "duplicate_column")
      else apple_columns (S index) (<[field := index]> columns) fields'
  end.

(* internal/financialreports/apple.go: appleHeader *)
Definition appleHeader (fields : list string) : result (gmap string nat) :=
  try* refuse_if (Nat.eqb (length fields) 0) (reportFailure 1 EmptyString "header_missing") in
  let* columns := apple_columns 0 ∅ fields in
  try* forEach (fun _ column => refuse_if (bool_decide (is_Some (columns !! column)))
                  (reportFailure 1 column "detailed_report")) appleRejectedColumns in
  try* forEach (fun _ column => refuse_if (bool_decide (columns !! column = None))
                  (reportFailure 1 column "header_invalid")) appleRequiredColumns in
  Ok columns.

(* internal/financialreports/apple.go: splitAppleFields *)
Definition splitAppleFields (line : string) : list string := map TrimSpace (Split line 9).

(** [fields[columns[column]]]: a missing name is position 0. *)
Definition cell (fields : list string) (columns : gmap string nat) (column : string) : string :=
  nth (default 0%nat (columns !! column)) fields EmptyString.

(* internal/financialreports/apple.go: appleDate *)
Definition appleDate (value : string) : result time :=
  match parse_slash_date value with Some date => Ok date | None => Err (New "parsing time") end.

(* internal/financialreports/apple.go: applePeriod *)
Definition applePeriod (fields : list string) (columns : gmap string nat) (row : Z) : result (time * time) :=
  let* start := wrap_result (fun _ => reportFailure row appleColumnStartDate "date_invalid")
                  (appleDate (cell fields columns appleColumnStartDate)) in
  let* ends := wrap_result (fun _ => reportFailure row appleColumnEndDate "date_invalid")
                 (appleDate (cell fields columns appleColumnEndDate)) in
  try* refuse_if (Before ends start) (reportFailure row appleColumnEndDate "period_invalid") in
  Ok (start, ends).

(* internal/financialreports/apple.go: appleMoney *)
Definition appleMoney (value : string) (row : Z) (column : string) : result Decimal :=
  wrap_result (fun _ => reportFailure row column "money_invalid") (ParseDecimal value).

(* internal/financialreports/apple.go: appleSaleSign *)
Definition appleSaleSign (value : string) (extended : Decimal) (row : Z) : error :=
  if String.eqb value "S"
  then refuse_if (Decimal_Sign extended <? 0) (reportFailure row appleColumnExtendedPartnerShare "sale_return_sign")
  else if String.eqb value "R"
  then refuse_if (0 <? Decimal_Sign extended) (reportFailure row appleColumnExtendedPartnerShare "sale_return_sign")
  else Some (reportFailure row appleColumnSaleOrReturn "sale_return_invalid").

(* internal/financialreports/apple.go: appleMinorUnits *)
Definition appleMinorUnits (currency : string) (amount : Decimal) : result (option Z) :=
  let '(exponent, known) := CurrencyExponent currency in
  if negb known then Ok None
  else wrap_result (fun _ => reportFailure 0 appleColumnExtendedPartnerShare "minor_unit_scale")
         (Decimal_MinorUnits amount exponent).

(** *** The loop over the lines *)

Record appleState : Type := mkAppleState {
  as_columns : option (gmap string nat * nat);
  as_periodStart : time;
  as_periodEnd : time;
  as_scales : gmap string Z;
  as_totals : gmap string appleAccumulator;
  as_dataRows : Z
}.

(** The first period of the file, which the rows after it share. *)
(* internal/financialreports/apple.go:142-147: ParseAppleConsolidated *)
Definition note_period (row : Z) (period : time * time) (st : appleState) : result appleState :=
  let '(start, ends) := period in
  if IsZero (as_periodStart st)
  then Ok (mkAppleState (as_columns st) start ends (as_scales st) (as_totals st) (as_dataRows st))
  else if negb (Equal (as_periodStart st) start) || negb (Equal (as_periodEnd st) ends)
  then Err (reportFailure row appleColumnStartDate "mixed_period")
  else Ok st.

(** The checks of one row's own cells, and what it adds. *)
(* internal/financialreports/apple.go:148-179: ParseAppleConsolidated *)
Definition apple_entry (fields : list string) (columns : gmap string nat) (row : Z) : result appleAccumulator :=
  let identifier := cell fields columns appleColumnIdentifier in
  try* refuse_if (String.eqb identifier EmptyString) (reportFailure row appleColumnIdentifier "identifier_missing") in
  let* quantity := appleMoney (cell fields columns appleColumnQuantity) row appleColumnQuantity in
  let* partnerShare := appleMoney (cell fields columns appleColumnPartnerShare) row appleColumnPartnerShare in
  let* extended := appleMoney (cell fields columns appleColumnExtendedPartnerShare) row appleColumnExtendedPartnerShare in
  let* _ := appleMoney (cell fields columns appleColumnCustomerPrice) row appleColumnCustomerPrice in
  let currency := cell fields columns appleColumnPartnerShareCurrency in
  try* refuse_if (negb (ValidCurrencyCode currency)) (reportFailure row appleColumnPartnerShareCurrency "currency_invalid") in
  try* refuse_if (negb (ValidCurrencyCode (cell fields columns appleColumnCustomerCurrency)))
         (reportFailure row appleColumnCustomerCurrency "currency_invalid") in
  try* appleSaleSign (cell fields columns appleColumnSaleOrReturn) extended row in
  try* refuse_if (negb (Decimal_Cmp (Decimal_Mul quantity partnerShare) extended =? 0))
         (reportFailure row appleColumnExtendedPartnerShare "quantity_mismatch") in
  Ok (mkAccumulator identifier currency extended).

Definition total_key (identifier currency : string) : string := (identifier ++ nul ++ currency)%string.

(** One row joins the total of its application and currency. *)
(* internal/financialreports/apple.go:180-195: ParseAppleConsolidated *)
Definition add_entry (row : Z) (entry : appleAccumulator) (st : appleState) : result appleState :=
  let extended := acc_amount entry in
  let currency := acc_currency entry in
  try* refuse_if (match as_scales st !! currency with
                  | Some previous => negb (previous =? scale extended) | None => false end)
         (reportFailure row appleColumnExtendedPartnerShare "mixed_scale") in
  let key := total_key (acc_identifier entry) currency in
  let with_total current :=
    mkAppleState (as_columns st) (as_periodStart st) (as_periodEnd st) (<[currency := scale extended]> (as_scales st))
      (<[key := current]> (as_totals st)) (as_dataRows st) in
  match as_totals st !! key with
  | None => Ok (with_total entry)
  | Some current =>
      let* summed := wrap_result (fun _ => reportFailure row appleColumnExtendedPartnerShare "mixed_scale")
                       (Decimal_Add (acc_amount current) extended) in
      Ok (with_total (mkAccumulator (acc_identifier current) (acc_currency current) summed))
  end.

(* internal/financialreports/apple.go:116-196: ParseAppleConsolidated *)
Definition apple_line (rowLimit : Z) (index : nat) (line : string) (st : appleState) : result appleState :=
  if String.eqb (TrimSpace line) EmptyString then Ok st
  else
    let row := Z.of_nat index + 1 in
    let fields := splitAppleFields line in
    match as_columns st with
    | None =>
        let* columns := appleHeader fields in
        Ok (mkAppleState (Some (columns, length fields)) (as_periodStart st) (as_periodEnd st) (as_scales st)
              (as_totals st) (as_dataRows st))
    | Some (columns, width) =>
        let dataRows := as_dataRows st + 1 in
        try* refuse_if (rowLimit <? dataRows) (reportFailure row EmptyString "row_limit") in
        try* refuse_if (negb (Nat.eqb (length fields) width)) (reportFailure row EmptyString "truncated_row") in
        let st := mkAppleState (as_columns st) (as_periodStart st) (as_periodEnd st) (as_scales st) (as_totals st) dataRows in
        let* period := applePeriod fields columns row in
        let* st := note_period row period st in
        let* entry := apple_entry fields columns row in
        add_entry row entry st
    end.

Fixpoint apple_lines (rowLimit : Z) (index : nat) (lines : list string) (st : appleState) : result appleState :=
  match lines with
  | [] => Ok st
  | line :: lines' => let* st := apple_line rowLimit index line st in apple_lines rowLimit (S index) lines' st
  end.

(* internal/financialreports/apple.go:205-216: ParseAppleConsolidated *)
Definition apple_total (total : appleAccumulator) : result IdentifierTotal :=
  let* minor := appleMinorUnits (acc_currency total) (acc_amount total) in
  Ok (mkIdentifierTotal (acc_identifier total) (acc_currency total) (acc_amount total) minor).

(** The order the totals are sorted in. *)
(* internal/financialreports/apple.go:217-222: ParseAppleConsolidated *)
Definition total_le (left right : IdentifierTotal) : bool :=
  if negb (String.eqb (it_AppleIdentifier left) (it_AppleIdentifier right))
  then String.ltb (it_AppleIdentifier left) (it_AppleIdentifier right)
  else String.leb (it_Currency left) (it_Currency right).

Definition fresh_report : appleState := mkAppleState None zeroTime zeroTime ∅ ∅ 0.

(* internal/financialreports/apple.go: ParseAppleConsolidated *)
Definition ParseAppleConsolidated `{Horder : !GoMapRange} (payload : string) (rowLimit : Z) : result ParsedConsolidated :=
  try* refuse_if (rowLimit <=? 0) (reportFailure 0 EmptyString "row_limit") in
  let payload := bytesTrimBOM payload in
  try* refuse_if (negb (ValidString payload)) (reportFailure 0 EmptyString "encoding_invalid") in
  let* st := apple_lines rowLimit 0 (unix_lines payload) fresh_report in
  try* refuse_if (bool_decide (as_columns st = None)) (reportFailure 0 EmptyString "header_missing") in
  try* refuse_if (IsZero (as_periodStart st)) (reportFailure 0 appleColumnStartDate "period_missing") in
  let* totals := collect (fun _ => apple_total) (map snd (map_range 30 (map_to_list (as_totals st)))) in
  Ok (mkParsed (as_periodStart st) (as_periodEnd st) (merge_sort (fun x y => Is_true (total_le x y)) totals)).

(** ** The totals are exact *)

(** A decimal read from text has a value. *)
Lemma ParseDecimal_some raw d : ParseDecimal raw = Ok d -> exists c s, d = mkDecimal (Some c) s /\ 0 <= s <= 18.
Proof.
  intros Hd. destruct (parse_shape _ _ Hd) as (sign & W & F & Hshape & ->). rewrite (parse_text _ _ _ Hshape) in Hd.
  injection Hd as <-. eexists _, _. split; [done|]. destruct Hshape. lia.
Qed.

(** The value of a decimal that has one. *)
Definition unscaled (d : Decimal) : Z := default 0 (coefficient d).

(** *** Positions of columns *)

Lemma apple_columns_positions fields index columns positions :
  apple_columns index columns fields = Ok positions ->
  (forall name i, columns !! name = Some i -> (i < index)%nat) ->
  forall name i, positions !! name = Some i -> (i < index + length fields)%nat.
Proof.
  revert index columns. induction fields as [|field fields IH]; intros index columns; cbn [apple_columns length].
  - intros [= <-] H name i Hi. specialize (H _ _ Hi). lia.
  - destruct (String.eqb field EmptyString); [done|]. destruct (bool_decide _); [done|]. intros Hok H name i Hi.
    enough (i < S index + length fields)%nat by lia. eapply IH; [exact Hok| |exact Hi].
    intros n j [[-> <-]|[_ Hj%H]]%lookup_insert_Some; lia.
Qed.

(** A header gives every required column a position inside its row. *)
Definition header_of (fields : list string) (columns : gmap string nat) : Prop :=
  appleHeader fields = Ok columns /\
  forall column, column ∈ appleRequiredColumns -> exists i, columns !! column = Some i /\ (i < length fields)%nat.

Lemma appleHeader_positions fields columns : appleHeader fields = Ok columns -> header_of fields columns.
Proof.
  intros Hok. split; [done|]. unfold appleHeader in Hok. apply try_err_ok in Hok as [_ Hok].
  apply bind_result_ok in Hok as (positions & Hpos & Hok). apply try_err_ok in Hok as [_ Hok].
  apply try_err_ok in Hok as [Hreq [= ->]]. rewrite forEach_nil in Hreq.
  intros column [k Hk]%list_elem_of_lookup. specialize (Hreq _ _ Hk). apply refuse_if_nil, bool_decide_eq_false in Hreq.
  destruct (columns !! column) as [i|] eqn:E; [|done]. exists i. split; [done|].
  eapply (apple_columns_positions _ _ _ _ Hpos) in E; [lia|]. intros n j. by rewrite lookup_empty.
Qed.

(** *** The rows of a file *)

(** The lines that are not blank, with their index. *)
Fixpoint data_lines (index : nat) (lines : list string) : list (nat * string) :=
  match lines with
  | [] => []
  | line :: lines' =>
      if String.eqb (TrimSpace line) EmptyString then data_lines (S index) lines'
      else (index, line) :: data_lines (S index) lines'
  end.

Fixpoint read_lines (rowLimit : Z) (lines : list (nat * string)) (st : appleState) : result appleState :=
  match lines with
  | [] => Ok st
  | line :: lines' => let* st := apple_line rowLimit line.1 line.2 st in read_lines rowLimit lines' st
  end.

Lemma apple_lines_data rowLimit index lines st :
  apple_lines rowLimit index lines st = read_lines rowLimit (data_lines index lines) st.
Proof.
  revert index st. induction lines as [|line lines IH]; intros index st; [done|]. cbn [apple_lines data_lines].
  destruct (String.eqb (TrimSpace line) EmptyString) eqn:E.
  - unfold apple_line at 1. rewrite E. cbn [bind_result]. apply IH.
  - cbn [read_lines fst snd]. destruct (apple_line rowLimit index line st); cbn [bind_result]; [apply IH|done].
Qed.

(** What one row says: its period, and its application, currency and proceeds. *)
Record AppleRow : Type := mkAppleRow {
  ar_period : time * time;
  ar_entry : appleAccumulator
}.
Definition ar_identifier (row : AppleRow) : string := acc_identifier (ar_entry row).
Definition ar_currency (row : AppleRow) : string := acc_currency (ar_entry row).
Definition ar_amount (row : AppleRow) : Decimal := acc_amount (ar_entry row).

Definition row_read (columns : gmap string nat) (width : nat) (line : nat * string) (row : AppleRow) : Prop :=
  let fields := splitAppleFields line.2 in
  let number := Z.of_nat line.1 + 1 in
  length fields = width /\ applePeriod fields columns number = Ok (ar_period row) /\
  apple_entry fields columns number = Ok (ar_entry row).

(** The rows of one application and currency. *)
Definition rows_of (identifier currency : string) (rows : list AppleRow) : list AppleRow :=
  List.filter (fun row => String.eqb (ar_identifier row) identifier && String.eqb (ar_currency row) currency) rows.

Definition proceeds (rows : list AppleRow) : Z := total_of (fun row => unscaled (ar_amount row)) rows.

Lemma rows_of_elem identifier currency rows row :
  row ∈ rows_of identifier currency rows <-> row ∈ rows /\ ar_identifier row = identifier /\ ar_currency row = currency.
Proof. unfold rows_of. rewrite list_elem_of_In, filter_In, <- list_elem_of_In, andb_true_iff, !String.eqb_eq. tauto. Qed.

(** A row that passed: its proceeds are quantity times share, and their sign is that of the sale. *)
Definition row_sound (columns : gmap string nat) (fields : list string) (row : AppleRow) : Prop :=
  exists q qs p ps c s,
    ParseDecimal (cell fields columns appleColumnQuantity) = Ok (mkDecimal (Some q) qs) /\
    ParseDecimal (cell fields columns appleColumnPartnerShare) = Ok (mkDecimal (Some p) ps) /\
    ParseDecimal (cell fields columns appleColumnExtendedPartnerShare) = Ok (ar_amount row) /\
    ar_amount row = mkDecimal (Some c) s /\ 0 <= s <= 18 /\
    q * p * 10 ^ s = c * 10 ^ (qs + ps) /\
    ((cell fields columns appleColumnSaleOrReturn = "S"%string /\ 0 <= c) \/
     (cell fields columns appleColumnSaleOrReturn = "R"%string /\ c <= 0)) /\
    ar_identifier row = cell fields columns appleColumnIdentifier /\ ar_identifier row <> EmptyString /\
    ar_currency row = cell fields columns appleColumnPartnerShareCurrency /\ ValidCurrencyCode (ar_currency row) = true.

Lemma appleMoney_ok value row column d : appleMoney value row column = Ok d <-> ParseDecimal value = Ok d.
Proof. apply wrap_result_ok. Qed.

Lemma appleSaleSign_ok value c s row :
  appleSaleSign value (mkDecimal (Some c) s) row = None ->
  (value = "S"%string /\ 0 <= c) \/ (value = "R"%string /\ c <= 0).
Proof.
  unfold appleSaleSign, Decimal_Sign. cbn [coefficient].
  destruct (String.eqb_spec value "S"); [rewrite refuse_if_nil; intros ?%Z.ltb_ge; left; split; [done|]; by apply Z.sgn_nonneg|].
  destruct (String.eqb_spec value "R"); [rewrite refuse_if_nil; intros ?%Z.ltb_ge; right; split; [done|]; by apply Z.sgn_nonpos|done].
Qed.

Lemma apple_entry_sound fields columns number period entry :
  apple_entry fields columns number = Ok entry -> row_sound columns fields (mkAppleRow period entry).
Proof.
  unfold apple_entry. intros [Hid H]%try_err_ok. apply refuse_if_nil, eqb_str_false in Hid.
  apply bind_result_ok in H as (quantity & Hq%appleMoney_ok & H). apply bind_result_ok in H as (share & Hp%appleMoney_ok & H).
  apply bind_result_ok in H as (extended & He%appleMoney_ok & H). apply bind_result_ok in H as (price & _ & H).
  apply try_err_ok in H as [Hcur H]. apply refuse_if_nil, negb_false_iff in Hcur. apply try_err_ok in H as [_ H].
  apply try_err_ok in H as [Hsign H]. apply try_err_ok in H as [Hmul [= <-]].
  apply refuse_if_nil, negb_false_iff, Z.eqb_eq in Hmul.
  destruct (ParseDecimal_some _ _ Hq) as (q & qs & -> & Hqs), (ParseDecimal_some _ _ Hp) as (p & ps & -> & Hps),
    (ParseDecimal_some _ _ He) as (c & s & -> & Hs).
  unfold row_sound, ar_identifier, ar_currency, ar_amount. cbn [ar_entry acc_amount acc_identifier acc_currency].
  exists q, qs, p, ps, c, s. split_and!; try done; try lia.
  - unfold Decimal_Mul in Hmul. cbn [coefficient scale] in Hmul. rewrite int32_small in Hmul by lia.
    rewrite Cmp_sgn in Hmul by lia. lia.
  - by eapply appleSaleSign_ok.
Qed.

(** *** What a prefix of the rows leaves *)

Lemma total_key_inj i c i' c' :
  ValidCurrencyCode c = true -> ValidCurrencyCode c' = true -> total_key i c = total_key i' c' -> i = i' /\ c = c'.
Proof.
  unfold ValidCurrencyCode, len. intros [Hc _]%andb_true_iff [Hc' _]%andb_true_iff H. apply Z.eqb_eq in Hc, Hc'.
  apply (f_equal bytes) in H. unfold total_key in H. rewrite !bytes_app, !app_assoc in H.
  apply app_inj_2 in H as [H Hcc]; [|rewrite !length_bytes; lia]. apply app_inj_2 in H as [H _]; [|done].
  split; by apply bytes_inj.
Qed.

Record so_far (st : appleState) (rows : list AppleRow) : Prop := {
  sf_period : forall row, row ∈ rows -> (ar_period row).1 = zeroTime \/ ar_period row = (as_periodStart st, as_periodEnd st);
  sf_scale : forall row, row ∈ rows -> as_scales st !! ar_currency row = Some (scale (ar_amount row));
  sf_complete : forall row, row ∈ rows -> exists acc, as_totals st !! total_key (ar_identifier row) (ar_currency row) = Some acc /\
    acc_identifier acc = ar_identifier row /\ acc_currency acc = ar_currency row;
  sf_exact : forall key acc, as_totals st !! key = Some acc ->
    key = total_key (acc_identifier acc) (acc_currency acc) /\ ValidCurrencyCode (acc_currency acc) = true /\
    rows_of (acc_identifier acc) (acc_currency acc) rows <> [] /\
    exists s, as_scales st !! acc_currency acc = Some s /\
      acc_amount acc = mkDecimal (Some (proceeds (rows_of (acc_identifier acc) (acc_currency acc) rows))) s
}.

Lemma apple_rows_snoc i c rows row :
  rows_of i c (rows ++ [row]) = rows_of i c rows ++
    (if String.eqb (ar_identifier row) i && String.eqb (ar_currency row) c then [row] else []).
Proof. unfold rows_of. rewrite List.filter_app. cbn. by destruct (String.eqb _ i && String.eqb _ c). Qed.

Lemma rows_of_other i c rows row :
  (ar_identifier row, ar_currency row) <> (i, c) -> rows_of i c (rows ++ [row]) = rows_of i c rows.
Proof.
  intros Hne. rewrite apple_rows_snoc. destruct (String.eqb_spec (ar_identifier row) i), (String.eqb_spec (ar_currency row) c);
    cbn [andb]; rewrite ?app_nil_r; congruence.
Qed.

Lemma rows_of_same rows row :
  rows_of (ar_identifier row) (ar_currency row) (rows ++ [row]) = rows_of (ar_identifier row) (ar_currency row) rows ++ [row].
Proof. by rewrite apple_rows_snoc, !String.eqb_refl. Qed.

Lemma proceeds_snoc rows row : proceeds (rows ++ [row]) = proceeds rows + unscaled (ar_amount row).
Proof. unfold proceeds. rewrite total_app, total_cons. cbn. lia. Qed.

Lemma note_period_ok number period st st' rows :
  note_period number period st = Ok st' -> so_far st rows ->
  as_columns st' = as_columns st /\ as_dataRows st' = as_dataRows st /\ as_scales st' = as_scales st /\
  as_totals st' = as_totals st /\ (period.1 = zeroTime \/ period = (as_periodStart st', as_periodEnd st')) /\
  forall row, row ∈ rows -> (ar_period row).1 = zeroTime \/ ar_period row = (as_periodStart st', as_periodEnd st').
Proof.
  destruct period as [start ends]. unfold note_period, IsZero, Equal. destruct (Z.eqb_spec (as_periodStart st) 0) as [Hz|Hz].
  - intros [= <-] Hsf. cbn. split_and!; [done..|by right|]. intros row Hrow. left.
    destruct (sf_period _ _ Hsf row Hrow) as [H|H]; [done|]. by rewrite H.
  - destruct (negb _ || negb _) eqn:E; [done|]. intros [= <-] Hsf. split_and!; [done..| |exact (sf_period _ _ Hsf)].
    right. cbn [fst]. apply orb_false_iff in E as [E1 E2]. apply negb_false_iff, Z.eqb_eq in E1, E2. congruence.
Qed.

Lemma add_entry_ok number entry st st' :
  add_entry number entry st = Ok st' ->
  as_columns st' = as_columns st /\ as_dataRows st' = as_dataRows st /\ as_periodStart st' = as_periodStart st /\
  as_periodEnd st' = as_periodEnd st /\
  (as_scales st !! acc_currency entry = None \/ as_scales st !! acc_currency entry = Some (scale (acc_amount entry))) /\
  as_scales st' = <[acc_currency entry := scale (acc_amount entry)]> (as_scales st) /\
  let key := total_key (acc_identifier entry) (acc_currency entry) in
  exists acc, as_totals st' = <[key := acc]> (as_totals st) /\
    match as_totals st !! key with
    | None => acc = entry
    | Some current => acc_identifier acc = acc_identifier current /\ acc_currency acc = acc_currency current /\
        Decimal_Add (acc_amount current) (acc_amount entry) = Ok (acc_amount acc)
    end.
Proof.
  unfold add_entry. intros [Hs H]%try_err_ok. apply refuse_if_nil in Hs. cbn zeta.
  assert (Hsc : as_scales st !! acc_currency entry = None \/ as_scales st !! acc_currency entry = Some (scale (acc_amount entry))).
  { destruct (as_scales st !! acc_currency entry) as [previous|]; [right|by left]. f_equal. lia. }
  destruct (as_totals st !! total_key (acc_identifier entry) (acc_currency entry)) as [current|].
  - apply bind_result_ok in H as (summed & Hsum%wrap_result_ok & [= <-]). cbn. split_and!; [done..|]. by eexists.
  - injection H as <-. cbn. split_and!; [done..|]. by eexists.
Qed.

Lemma add_entry_so_far number period entry st st' rows :
  ValidCurrencyCode (acc_currency entry) = true -> (exists c s, acc_amount entry = mkDecimal (Some c) s) ->
  so_far st rows -> period.1 = zeroTime \/ period = (as_periodStart st, as_periodEnd st) ->
  add_entry number entry st = Ok st' -> so_far st' (rows ++ [mkAppleRow period entry]).
Proof.
  intros Hvalid (c & s & Hamount) Hsf Hper (_ & _ & Hstart & Hends & Hprev & Hscales & acc & Htotals & Hacc)%add_entry_ok.
  set (row := mkAppleRow period entry). set (key := total_key _ _) in *.
  assert (Hsame : rows_of (acc_identifier entry) (acc_currency entry) (rows ++ [row])
                  = rows_of (acc_identifier entry) (acc_currency entry) rows ++ [row]) by apply (rows_of_same rows row).
  constructor.
  - intros r [Hr| ->%list_elem_of_singleton]%elem_of_app; rewrite Hstart, Hends; [by apply (sf_period _ _ Hsf)|done].
  - intros r Hr. rewrite Hscales. destruct (decide (ar_currency r = acc_currency entry)) as [E|E].
    + rewrite E, lookup_insert_eq. apply elem_of_app in Hr as [Hr| ->%list_elem_of_singleton]; [|done].
      apply (sf_scale _ _ Hsf) in Hr. rewrite E in Hr. destruct Hprev; congruence.
    + rewrite lookup_insert_ne by done. apply (sf_scale _ _ Hsf).
      apply elem_of_app in Hr as [Hr| ->%list_elem_of_singleton]; done.
  - intros r Hr. rewrite Htotals. destruct (decide (total_key (ar_identifier r) (ar_currency r) = key)) as [E|E].
    + exists acc. rewrite E, lookup_insert_eq. split; [done|]. apply elem_of_app in Hr as [Hr| ->%list_elem_of_singleton].
      * destruct (sf_complete _ _ Hsf _ Hr) as (a & Ha & <- & <-). rewrite E in Ha. rewrite Ha in Hacc. by destruct Hacc as (-> & -> & _).
      * destruct (as_totals st !! key) as [a|] eqn:Ha; [|by subst]. destruct Hacc as (-> & -> & _).
        destruct (sf_exact _ _ Hsf _ _ Ha) as (Hkey & Hv & _). by apply total_key_inj in Hkey as [<- <-].
    + rewrite lookup_insert_ne by done. apply (sf_complete _ _ Hsf).
      apply elem_of_app in Hr as [Hr| ->%list_elem_of_singleton]; done.
  - intros k a. rewrite Htotals, lookup_insert_Some. intros [[<- <-]|[Hk Ha]].
    + assert (Hadd : acc_identifier acc = acc_identifier entry /\ acc_currency acc = acc_currency entry /\
                acc_amount acc = mkDecimal (Some (proceeds (rows_of (acc_identifier entry) (acc_currency entry) (rows ++ [row])))) s).
      { rewrite Hsame, proceeds_snoc. unfold unscaled, ar_amount, row. cbn [ar_entry]. rewrite Hamount. cbn [coefficient default id].
        destruct (as_totals st !! key) as [current|] eqn:Ecur.
        - destruct Hacc as (Hi & Hc & Hadd). destruct (sf_exact _ _ Hsf _ _ Ecur) as (Hkey & Hv & _ & s' & _ & Ham).
          apply total_key_inj in Hkey as [Hi' Hc']; [|done..]. rewrite Hi, Hc, <- Hi', <- Hc'. split_and!; [done..|].
          rewrite Ham, Hamount, <- Hi', <- Hc' in Hadd. unfold Decimal_Add in Hadd. cbn [coefficient scale] in Hadd.
          destruct (Z.eqb_spec s' s) as [Es|]; [|done]. cbn [negb] in Hadd. rewrite Es in Hadd. by injection Hadd as <-.
        - subst acc. rewrite Hamount. split_and!; [done..|].
          destruct (rows_of (acc_identifier entry) (acc_currency entry) rows) as [|r0 rest] eqn:Er; [done|].
          assert (Hin : r0 ∈ rows_of (acc_identifier entry) (acc_currency entry) rows) by (rewrite Er; by left).
          apply rows_of_elem in Hin as (Hin & Hi & Hc). apply (sf_complete _ _ Hsf) in Hin. rewrite Hi, Hc in Hin.
          destruct Hin as (? & Hin & _). unfold key in Ecur. congruence. }
      destruct Hadd as (-> & -> & Ham). split_and!; [done..| |].
      * rewrite Hsame. by destruct (rows_of _ _ rows).
      * exists s. rewrite Hscales, lookup_insert_eq, Ham, Hamount. done.
    + destruct (sf_exact _ _ Hsf _ _ Ha) as (Hkey & Hv & Hne & s' & Hs & Ham).
      assert (Hother : rows_of (acc_identifier a) (acc_currency a) (rows ++ [row]) = rows_of (acc_identifier a) (acc_currency a) rows).
      { apply rows_of_other. intros [= Hi Hc]. apply Hk. unfold key. rewrite Hkey.
        unfold row, ar_identifier, ar_currency in Hi, Hc. cbn in Hi, Hc. by rewrite Hi, Hc. }
      rewrite Hother. split_and!; [done..|]. exists s'. split; [|done]. rewrite Hscales.
      destruct (decide (acc_currency a = acc_currency entry)) as [E|E]; [|by rewrite lookup_insert_ne].
      rewrite E in *. rewrite lookup_insert_eq. destruct Hprev; congruence.
Qed.

Lemma apple_line_so_far rowLimit index line columns width st st' rows :
  as_columns st = Some (columns, width) -> so_far st rows -> TrimSpace line <> EmptyString ->
  apple_line rowLimit index line st = Ok st' ->
  exists row, row_read columns width (index, line) row /\ as_columns st' = Some (columns, width) /\
    so_far st' (rows ++ [row]) /\ as_dataRows st' = as_dataRows st + 1 /\ as_dataRows st' <= rowLimit.
Proof.
  intros Hcol Hsf Hline%String.eqb_neq. unfold apple_line. rewrite Hline, Hcol.
  intros [Hlim H]%try_err_ok. apply refuse_if_nil, Z.ltb_ge in Hlim.
  apply try_err_ok in H as [Hw H]. apply refuse_if_nil, negb_false_iff, Nat.eqb_eq in Hw.
  apply bind_result_ok in H as (period & Hper & H). apply bind_result_ok in H as (st1 & Hnote & H).
  apply bind_result_ok in H as (entry & Hentry & Hadd). cbn zeta in Hentry.
  pose proof (apple_entry_sound _ _ _ period _ Hentry) as (q & qs & p & ps & c & s & _ & _ & _ & Hamount & _ & _ & _ & _ & _ & _ & Hvalid).
  pose proof (note_period_ok _ _ _ _ rows Hnote ltac:(destruct Hsf; by constructor)) as (Hc1 & Hd1 & Hs1 & Ht1 & Hp1 & Hrows1).
  pose proof (add_entry_ok _ _ _ _ Hadd) as (Hc2 & Hd2 & _).
  exists (mkAppleRow period entry). split; [by split_and!|]. rewrite Hc2, Hc1, Hd2, Hd1. cbn [as_columns as_dataRows].
  split_and!; [done| |done|lia]. eapply add_entry_so_far; [exact Hvalid|by eexists _, _| |exact Hp1|exact Hadd].
  constructor; rewrite ?Hs1, ?Ht1; [exact Hrows1|exact (sf_scale _ _ Hsf)|exact (sf_complete _ _ Hsf)|exact (sf_exact _ _ Hsf)].
Qed.

Lemma read_lines_so_far rowLimit lines columns width st st' rows :
  as_columns st = Some (columns, width) -> so_far st rows -> as_dataRows st = Z.of_nat (length rows) ->
  Z.of_nat (length rows) <= rowLimit ->
  Forall (fun line => TrimSpace line.2 <> EmptyString) lines -> read_lines rowLimit lines st = Ok st' ->
  exists more, Forall2 (row_read columns width) lines more /\ so_far st' (rows ++ more) /\
    Z.of_nat (length (rows ++ more)) <= rowLimit.
Proof.
  revert st rows. induction lines as [|[index line] lines IH]; intros st rows Hcol Hsf Hn Hle Hl; cbn [read_lines].
  - intros [= <-]. exists []. by rewrite app_nil_r.
  - apply Forall_cons in Hl as [Hline Hl]. intros (st1 & Hone & H)%bind_result_ok.
    destruct (apple_line_so_far _ _ _ _ _ _ _ _ Hcol Hsf Hline Hone) as (row & Hread & Hcol1 & Hsf1 & Hn1 & Hle1).
    assert (Hlen : as_dataRows st1 = Z.of_nat (length (rows ++ [row]))) by (rewrite length_app; cbn; lia).
    destruct (IH _ _ Hcol1 Hsf1 Hlen ltac:(lia) Hl H) as (more & Hmore & Hsf2 & Hle2).
    exists (row :: more). rewrite <- app_assoc in Hsf2, Hle2. split_and!; [by constructor|done|done].
Qed.

Lemma data_lines_filled index lines : Forall (fun line => TrimSpace line.2 <> EmptyString) (data_lines index lines).
Proof.
  revert index. induction lines as [|line lines IH]; intros index; cbn [data_lines]; [constructor|].
  destruct (String.eqb_spec (TrimSpace line) EmptyString); [apply IH|]. by constructor.
Qed.

(** *** The totals of the file *)

Definition total_of_key (t : IdentifierTotal) : string * string := (it_AppleIdentifier t, it_Currency t).

#[export] Instance total_le_total : Total (fun x y => Is_true (total_le x y)) := pair_le_total total_of_key.
#[export] Instance total_le_trans : Transitive (fun x y => Is_true (total_le x y)) := pair_le_trans total_of_key.

Lemma MinorUnits_value c s e r :
  0 <= s < 2 ^ 31 -> 0 <= e < 2 ^ 31 -> Decimal_MinorUnits (mkDecimal (Some c) s) e = Ok r ->
  match r with None => s < e | Some v => e <= s /\ c = v * 10 ^ (s - e) /\ - 2 ^ 63 <= v < 2 ^ 63 end.
Proof.
  intros Hs He. unfold Decimal_MinorUnits. cbn [coefficient scale]. destruct (_ || _) eqn:E; [done|].
  destruct (Z.ltb_spec s e); [by intros [= <-]|]. rewrite int32_small, decimalPow10_pow by lia.
  destruct (Z.ltb_spec e s); cbn [andb].
  - destruct (Z.eqb_spec (Z.rem c (10 ^ (s - e))) 0) as [Hr|]; [|done]. cbn [negb]. destruct (fits_int64 _) eqn:Hf; [|done].
    intros [= <-]. apply fits_int64_true in Hf. split_and!; try lia. pose proof (pow10_pos (s - e) ltac:(lia)).
    pose proof (Z.quot_rem' c (10 ^ (s - e))). lia.
  - destruct (fits_int64 _) eqn:Hf; [|done]. intros [= <-]. apply fits_int64_true in Hf. split_and!; try lia.
    replace (s - e) with 0 by lia. lia.
Qed.

Lemma CurrencyExponent_range code e : CurrencyExponent code = (e, true) -> 0 <= e <= 4.
Proof.
  unfold CurrencyExponent, currencyExponentSpecial.
  repeat match goal with |- context [if contains_str ?l code then _ else _] => destruct (contains_str l code) end;
    intros [= <-]; lia.
Qed.

(** The minor units of a total: exactly its amount, where the currency's exponent is known
    and the amount is written at least that finely. *)
Definition minor_of (t : IdentifierTotal) : Prop :=
  match it_MinorUnits t, CurrencyExponent (it_Currency t) with
  | None, (exponent, known) => known = false \/ scale (it_Amount t) < exponent
  | Some v, (exponent, known) => known = true /\ exponent <= scale (it_Amount t) /\ - 2 ^ 63 <= v < 2 ^ 63 /\
      unscaled (it_Amount t) = v * 10 ^ (scale (it_Amount t) - exponent)
  end.

(** The totals a report gives for its rows: one for each application and currency of a row,
    the exact sum of their proceeds. *)
Record report_totals (rows : list AppleRow) (totals : list IdentifierTotal) : Prop := {
  rt_each : forall identifier currency, rows_of identifier currency rows <> [] <->
    exists t, t ∈ totals /\ it_AppleIdentifier t = identifier /\ it_Currency t = currency;
  rt_exact : forall t, t ∈ totals -> minor_of t /\ exists s,
    it_Amount t = mkDecimal (Some (proceeds (rows_of (it_AppleIdentifier t) (it_Currency t) rows))) s /\
    forall row, row ∈ rows -> ar_currency row = it_Currency t -> scale (ar_amount row) = s;
  rt_once : NoDup (map total_of_key totals);
  rt_sorted : StronglySorted (fun x y => Is_true (total_le x y)) totals
}.

#[local] Opaque CurrencyExponent.

Lemma apple_total_ok acc t :
  apple_total acc = Ok t -> it_AppleIdentifier t = acc_identifier acc /\ it_Currency t = acc_currency acc /\
  it_Amount t = acc_amount acc /\ (forall c s, acc_amount acc = mkDecimal (Some c) s -> 0 <= s <= 18 -> minor_of t).
Proof.
  unfold apple_total. intros (minor & Hm & [= <-])%bind_result_ok. split_and!; [done..|].
  intros c s Ham Hs. unfold minor_of. cbn [it_MinorUnits it_Currency it_Amount]. rewrite Ham in Hm |- *.
  unfold appleMinorUnits in Hm. destruct (CurrencyExponent (acc_currency acc)) as [exponent known] eqn:E.
  destruct known; cbn [negb] in Hm; [|injection Hm as <-; by left]. apply wrap_result_ok in Hm.
  apply CurrencyExponent_range in E. apply MinorUnits_value in Hm; [|lia..]. unfold unscaled. cbn [scale coefficient default id].
  destruct minor; [tauto|by right].
Qed.

Lemma Forall2_map_eq {A B C} (f : A -> C) (g : B -> C) l k : Forall2 (fun x y => f x = g y) l k -> map f l = map g k.
Proof. induction 1; [done|]. cbn [map]. by f_equal. Qed.

Section listed.
Context (st : appleState) (rows : list AppleRow) (accs : list appleAccumulator) (totals : list IdentifierTotal).
Hypothesis Hsf : so_far st rows.
Hypothesis Hscale : forall row, row ∈ rows -> 0 <= scale (ar_amount row) <= 18.
Hypothesis Hperm : accs ≡ₚ map snd (map_to_list (as_totals st)).
Hypothesis Hall : Forall2 (fun acc t => apple_total acc = Ok t) accs totals.

Lemma listed_elem t : t ∈ totals <-> exists k acc, as_totals st !! k = Some acc /\ apple_total acc = Ok t.
Proof.
  split.
  - intros [i Hi]%list_elem_of_lookup. destruct (Forall2_lookup_r _ _ _ _ _ Hall Hi) as (acc & Hacc%list_elem_of_lookup_2 & Ht).
    rewrite Hperm in Hacc. apply list_elem_of_fmap in Hacc as ([k a] & -> & Hin%elem_of_map_to_list). by exists k, a.
  - intros (k & acc & Hacc & Ht). assert (Hin : acc ∈ accs).
    { rewrite Hperm. apply list_elem_of_fmap. exists (k, acc). split; [done|]. by apply elem_of_map_to_list. }
    apply list_elem_of_lookup in Hin as [i Hi]. destruct (Forall2_lookup_l _ _ _ _ _ Hall Hi) as (t' & Ht' & Hok).
    apply list_elem_of_lookup_2 in Ht'. congruence.
Qed.

Lemma listed_each identifier currency :
  rows_of identifier currency rows <> [] <-> exists t, t ∈ totals /\ it_AppleIdentifier t = identifier /\ it_Currency t = currency.
Proof.
  split.
  - intros Hne. destruct (rows_of identifier currency rows) as [|row rest] eqn:E; [done|].
    assert (Hin : row ∈ rows_of identifier currency rows) by (rewrite E; by left).
    apply rows_of_elem in Hin as (Hin & <- & <-). destruct (sf_complete _ _ Hsf _ Hin) as (acc & Hacc & <- & <-).
    destruct (list_elem_of_lookup_1 accs acc) as [i Hi].
    { rewrite Hperm. apply list_elem_of_fmap. eexists (_, acc). split; [done|]. by apply elem_of_map_to_list. }
    destruct (Forall2_lookup_l _ _ _ _ _ Hall Hi) as (t & _ & Hok). destruct (apple_total_ok _ _ Hok) as (Hi1 & Hc1 & _).
    exists t. split; [|done]. apply listed_elem. eauto.
  - intros (t & (k & acc & Hacc & Hok)%listed_elem & <- & <-). destruct (apple_total_ok _ _ Hok) as (-> & -> & _).
    by destruct (sf_exact _ _ Hsf _ _ Hacc) as (_ & _ & Hne & _).
Qed.

Lemma listed_exact t : t ∈ totals ->
  minor_of t /\ exists s, it_Amount t = mkDecimal (Some (proceeds (rows_of (it_AppleIdentifier t) (it_Currency t) rows))) s /\
    forall row, row ∈ rows -> ar_currency row = it_Currency t -> scale (ar_amount row) = s.
Proof.
  intros (k & acc & Hacc & Hok)%listed_elem. destruct (apple_total_ok _ _ Hok) as (-> & -> & -> & Hminor).
  destruct (sf_exact _ _ Hsf _ _ Hacc) as (_ & _ & Hne & s & Hs & Ham).
  assert (Hsame : forall row, row ∈ rows -> ar_currency row = acc_currency acc -> scale (ar_amount row) = s).
  { intros row Hrow Hc. apply (sf_scale _ _ Hsf) in Hrow. rewrite Hc, Hs in Hrow. congruence. }
  split; [|by exists s]. apply (Hminor _ _ Ham). destruct (rows_of _ _ rows) as [|row rest] eqn:E; [done|].
  assert (Hin : row ∈ rows_of (acc_identifier acc) (acc_currency acc) rows) by (rewrite E; by left).
  apply rows_of_elem in Hin as (Hin & _ & Hc). rewrite <- (Hsame _ Hin Hc). by apply Hscale.
Qed.

Lemma listed_once : NoDup (map total_of_key totals).
Proof.
  assert (Hmap : map total_of_key totals = map (fun a => (acc_identifier a, acc_currency a)) accs).
  { symmetry. apply Forall2_map_eq. eapply Forall2_impl; [exact Hall|]. intros acc t H. cbn beta in H. unfold total_of_key.
    by destruct (apple_total_ok _ _ H) as (-> & -> & _). }
  rewrite Hmap, Hperm, map_map. apply NoDup_fmap_2_strong; [|apply NoDup_map_to_list].
  intros [k a] [k' a'] Ha%elem_of_map_to_list Ha'%elem_of_map_to_list [= Hi Hc].
  destruct (sf_exact _ _ Hsf _ _ Ha) as (Hk & _), (sf_exact _ _ Hsf _ _ Ha') as (Hk' & _).
  rewrite Hi, Hc, <- Hk' in Hk. subst k. congruence.
Qed.

(** The accumulated totals are the totals of the rows, in whatever order they are listed. *)
Lemma listed_totals : report_totals rows (merge_sort (fun x y => Is_true (total_le x y)) totals).
Proof.
  constructor; try (setoid_rewrite (merge_sort_Permutation _ totals)).
  - apply listed_each.
  - apply listed_exact.
  - apply listed_once.
  - apply StronglySorted_merge_sort; apply _.
Qed.
End listed.

Lemma so_far_header columns : so_far (mkAppleState columns zeroTime zeroTime ∅ ∅ 0) [].
Proof.
  constructor; cbn [as_totals as_scales]; try (intros row Hrow; by apply not_elem_of_nil in Hrow). by intros key acc; rewrite lookup_empty.
Qed.

(** A file is its header and its rows. *)
Lemma parse_rows `{Horder : !GoMapRange} payload rowLimit parsed :
  ParseAppleConsolidated payload rowLimit = Ok parsed ->
  exists header lines columns rows st totals,
    data_lines 0 (unix_lines (bytesTrimBOM payload)) = header :: lines /\ header_of (splitAppleFields header.2) columns /\
    Forall2 (row_read columns (length (splitAppleFields header.2))) lines rows /\ so_far st rows /\
    Z.of_nat (length rows) <= rowLimit /\ rows <> [] /\
    collect (fun _ => apple_total) (map snd (map_range 30 (map_to_list (as_totals st)))) = Ok totals /\
    parsed = mkParsed (as_periodStart st) (as_periodEnd st) (merge_sort (fun x y => Is_true (total_le x y)) totals).
Proof.
  unfold ParseAppleConsolidated. intros [Hlim H]%try_err_ok. apply refuse_if_nil, Z.leb_gt in Hlim.
  apply try_err_ok in H as [_ H]. apply bind_result_ok in H as (st & Hst & H). rewrite apple_lines_data in Hst.
  apply try_err_ok in H as [Hcol H]. apply refuse_if_nil, bool_decide_eq_false in Hcol.
  apply try_err_ok in H as [Hstart H]. apply refuse_if_nil, Z.eqb_neq in Hstart.
  apply bind_result_ok in H as (totals & Htotals & [= <-]).
  pose proof (data_lines_filled 0 (unix_lines (bytesTrimBOM payload))) as Hfilled.
  destruct (data_lines 0 (unix_lines (bytesTrimBOM payload))) as [|[index line] lines]; cbn [read_lines] in Hst.
  { injection Hst as <-. by destruct Hcol. }
  apply bind_result_ok in Hst as (st1 & Hhead & Hst). apply Forall_cons in Hfilled as [Hline%String.eqb_neq Hfilled].
  unfold apple_line in Hhead. cbn [fst snd] in Hhead, Hline. rewrite Hline in Hhead. cbn [as_columns fresh_report] in Hhead.
  apply bind_result_ok in Hhead as (columns & Hheader & [= <-]).
  edestruct (read_lines_so_far rowLimit lines columns (length (splitAppleFields line))) as (rows & Hrows & Hsf & Hle);
    [| | | |exact Hfilled|exact Hst|]; [done|apply so_far_header|done|cbn; lia|].
  exists (index, line), lines, columns, rows, st, totals. split_and!; try done.
  - by apply appleHeader_positions.
  - intros ->. inversion Hrows; subst. cbn [read_lines] in Hst. injection Hst as <-. by apply Hstart.
Qed.

(** The rows of a file and what its totals are of them. *)
Lemma parse_exact `{Horder : !GoMapRange} payload rowLimit parsed :
  ParseAppleConsolidated payload rowLimit = Ok parsed ->
  exists header lines columns rows,
    data_lines 0 (unix_lines (bytesTrimBOM payload)) = header :: lines /\ header_of (splitAppleFields header.2) columns /\
    Forall2 (fun line row => row_read columns (length (splitAppleFields header.2)) line row /\
                             row_sound columns (splitAppleFields line.2) row) lines rows /\
    0 < Z.of_nat (length rows) <= rowLimit /\
    (forall row, row ∈ rows -> (ar_period row).1 = zeroTime \/ ar_period row = (pc_PeriodStart parsed, pc_PeriodEnd parsed)) /\
    report_totals rows (pc_Totals parsed).
Proof.
  intros (header & lines & columns & rows & st & totals & Hl & Hh & Hrows & Hsf & Hle & Hne & Htotals & ->)%parse_rows.
  exists header, lines, columns, rows.
  assert (Hsound : Forall2 (fun line row => row_read columns (length (splitAppleFields header.2)) line row /\
                                            row_sound columns (splitAppleFields line.2) row) lines rows).
  { eapply Forall2_impl; [exact Hrows|]. intros line [period entry] Hread. split; [done|].
    destruct Hread as (_ & _ & Hentry). by eapply apple_entry_sound. }
  split_and!; try done.
  - destruct rows; [done|cbn; lia].
  - exact (sf_period _ _ Hsf).
  - eapply listed_totals; [exact Hsf| |apply Permutation_map, map_range_perm|eapply collect_Forall2; [|exact Htotals]; done].
    intros row [i Hi]%list_elem_of_lookup. destruct (Forall2_lookup_r _ _ _ _ _ Hsound Hi) as (line & _ & _ & Hs).
    destruct Hs as (q & qs & p & ps & c & s & _ & _ & _ & -> & Hs & _). done.
Qed.

(** C34. A consolidated report is accounted for exactly.  When it is accepted its first line
    gives every required column a position; every other line that is not blank is a row as wide
    as the header, whose proceeds are its quantity times its share and whose sign is that of its
    sale; the rows share the period of the report (a row that starts on the first day of year 1,
    Go's zero time, is not compared); there is one total for each application and currency of a
    row and no other, sorted, the exact sum of the proceeds of its rows at the one scale the
    currency is written in, and its minor units are that sum or absent. *)
Theorem apple_totals_exact `{Horder : !GoMapRange} payload rowLimit parsed :
  ParseAppleConsolidated payload rowLimit = Ok parsed ->
  exists header lines columns rows,
    data_lines 0 (unix_lines (bytesTrimBOM payload)) = header :: lines /\ header_of (splitAppleFields header.2) columns /\
    Forall2 (fun line row => row_read columns (length (splitAppleFields header.2)) line row /\
                             row_sound columns (splitAppleFields line.2) row) lines rows /\
    0 < Z.of_nat (length rows) <= rowLimit /\
    (forall row, row ∈ rows -> (ar_period row).1 = zeroTime \/ ar_period row = (pc_PeriodStart parsed, pc_PeriodEnd parsed)) /\
    report_totals rows (pc_Totals parsed).
Proof. apply parse_exact. Qed.

(** ** A report of two applications *)

Definition tab_line (cells : list string) : string := String.concat (of_bytes [9]) cells.
Definition report_row (app quantity share extended currency marker : string) : string :=
  tab_line ["09/28/2026"; "11/01/2026"; app; quantity; share; extended; currency; marker; "2.99"; "USD"]%string.
Definition sample_report : string :=
  String.concat (of_bytes [13; 10])
    [tab_line appleRequiredColumns; report_row "100" "2" "2.50" "5.00" "USD" "S"; EmptyString;
     report_row "100" "-1" "2.50" "-2.50" "USD" "R"; report_row "099" "1" "120.00" "120.00" "JPY" "S";
     report_row "100" "1" "1.25" "1.25" "EUR" "S"]%string.
Definition sample_parsed : ParsedConsolidated :=
  match ParseAppleConsolidated (Horder := range_reversed) sample_report 4 with
  | Ok parsed => parsed | Err _ => mkParsed 0 0 []
  end.

Lemma sample_report_parsed : ParseAppleConsolidated (Horder := range_reversed) sample_report 4 = Ok sample_parsed.
Proof. vm_compute. reflexivity. Qed.

Lemma apple_totals_exact_witness :
  FormatRFC3339Nano (pc_PeriodEnd sample_parsed) = "2026-11-01T00:00:00Z"%string /\
  map (fun t => (it_AppleIdentifier t, it_Currency t, Decimal_String (it_Amount t), it_MinorUnits t)) (pc_Totals sample_parsed)
    = [("099", "JPY", "120.00", Some 120); ("100", "EUR", "1.25", Some 125); ("100", "USD", "2.50", Some 250)]%string /\
  exists rows, length rows = 4%nat /\ report_totals rows (pc_Totals sample_parsed).
Proof.
  split; [vm_compute; reflexivity|]. split; [vm_compute; reflexivity|].
  destruct (apple_totals_exact (Horder := range_reversed) sample_report 4 sample_parsed sample_report_parsed)
    as (header & lines & columns & rows & Hlines & _ & Hrows & _ & _ & H).
  exists rows. split; [|exact H]. rewrite <- (Forall2_length _ _ _ Hrows).
  assert (Hl : length (data_lines 0 (unix_lines (bytesTrimBOM sample_report))) = 5%nat) by (vm_compute; reflexivity).
  rewrite Hlines in Hl. by injection Hl.
Defined.

Definition parse_sample (lines : list string) : result ParsedConsolidated :=
  ParseAppleConsolidated (Horder := range_in_order) (String.concat (of_bytes [10]) (tab_line appleRequiredColumns :: lines)) 3.

(** The whole file is refused for one bad row. *)
Example bad_rows :
  map (fun rows => match parse_sample rows with Ok _ => None | Err e => Some e end)
    [[report_row "100" "2" "2.50" "5.01" "USD" "S"]; [report_row "100" "1" "2.50" "2.50" "USD" "R"];
     [report_row "100" "1" "2.50" "2.50" "USD" "S"; report_row "100" "1" "2.5" "2.5" "USD" "S"];
     [report_row "100" "1" "2.505" "2.505" "USD" "S"]; [report_row "100" "1" "2.50" "2.50" "usd" "S"]]%string
  = [Some (reportFailure 2 appleColumnExtendedPartnerShare "quantity_mismatch");
     Some (reportFailure 2 appleColumnExtendedPartnerShare "sale_return_sign");
     Some (reportFailure 3 appleColumnExtendedPartnerShare "mixed_scale");
     Some (reportFailure 0 appleColumnExtendedPartnerShare "minor_unit_scale");
     Some (reportFailure 2 appleColumnPartnerShareCurrency "currency_invalid")].
Proof. vm_compute. reflexivity. Qed.

(** Rows of Go's zero date are not compared with the period of the rows after them. *)
Example zero_date_not_compared :
  let early := tab_line ["01/01/0001"; "12/31/2030"; "100"; "1"; "9.00"; "9.00"; "USD"; "S"; "2.99"; "USD"]%string in
  match parse_sample [early; report_row "100" "1" "2.50" "2.50" "USD" "S"] with
  | Ok parsed => map (fun t => Decimal_String (it_Amount t)) (pc_Totals parsed) = ["11.50"%string] /\
                 FormatRFC3339Nano (pc_PeriodStart parsed) = "2026-09-28T00:00:00Z"%string
  | Err _ => False
  end.
Proof. vm_compute. done. Qed.

(** A repeated field of the first line is in the refusal, whether it is a name or a cell. *)
Example header_cell_in_error :
  ParseAppleConsolidated (Horder := range_in_order) (report_row "100" "1" "2.50" "2.50" "USD" "S") 3
  = Err (reportFailure 1 "2.50" "duplicate_column").
Proof. vm_compute. reflexivity. Qed.
