(* ===== verification/ReportStore.v ===== *)
(** Financial reports in PostgreSQL ([internal/persistence/postgres/financial_report.go],
    with the records of [internal/persistence/financial_report.go] and the revenue of
    [persistence/admin.go]): imports, their amounts per application and currency, and what is
    recognized as revenue.

    The tables are finite maps over the catalog's.  A [date] column holds midnight UTC of the
    instant; a [numeric] keeps the digits and scale it was written with, and only printed
    decimals are written, so the row keeps the text.  CHECK constraints come before unique
    indexes, foreign keys after them.  Random ids are a parameter. *)

From S2P Require Import Prelude GoText GoTime GoHttp Core Decimal Purchase Protection Persistence Stores Projector Repository EntitlementStore Runner QueueStore Frames Identity Catalog OperationsStore ImportStore AppleReports.
From stdpp Require Import base list strings gmap sorting.
Local Open Scope Z_scope.

(** ** Records ([persistence/financial_report.go]) *)

(* internal/persistence/financial_report.go: constants *)
Definition FinancialReportStatusAccepted : string := "accepted".
Definition FinancialReportStatusUnrecognized : string := "unrecognized".
Definition FinancialReportStatusRejected : string := "rejected".
Definition FinancialReportStatusSuperseded : string := "superseded".
Definition FinancialReportSourceUpload : string := "upload".
Definition FinancialReportSourceProviderAPI : string := "provider_api".
Definition FinancialReportReasonFixtureRequired : string := "fixture_required".
Definition FinancialReportCommissionIncluded : string := "included".
Definition FinancialReportCommissionUnknown : string := "unknown".
Definition FinancialReportTaxNotItemized : string := "not_itemized".

(* internal/persistence/financial_report.go: ErrFinancialReportNotAccepted *)
Definition ErrFinancialReportNotAccepted : gerror := Sentinel "persistence.ErrFinancialReportNotAccepted".
(* internal/persistence/financial_report.go: ErrFinancialReportAmbiguous *)
Definition ErrFinancialReportAmbiguous : gerror := Sentinel "persistence.ErrFinancialReportAmbiguous".
(* internal/persistence/financial_report.go: ErrFinancialReportScopeMismatch *)
Definition ErrFinancialReportScopeMismatch : gerror := Sentinel "persistence.ErrFinancialReportScopeMismatch".

(* internal/persistence/financial_report.go: FinancialReportIdentifierTotal *)
Record FinancialReportIdentifierTotal : Type := mkReportTotal {
  frt_ProviderApplicationID : string;
  frt_Currency : string;
  frt_Amount : Decimal;
  frt_MinorUnits : option Z
}.

(* internal/persistence/financial_report.go: FinancialReportAmount *)
Record FinancialReportAmount : Type := mkAmount {
  fra_Currency : string;
  fra_AmountDecimal : string;
  fra_AmountScale : Z;
  fra_MinorUnits : option Z;
  fra_CommissionState : string;
  fra_TaxState : string;
  fra_CoveredApplicationID : ApplicationID
}.

(** [ResolvedAmounts] is never set or read. *)
(* internal/persistence/financial_report.go: FinancialReportDraft *)
Record FinancialReportDraft : Type := mkDraftReport {
  frd_ProjectID : ProjectID;
  frd_Provider : Provider;
  frd_ReportKind : string;
  frd_PeriodStart : time;
  frd_PeriodEnd : time;
  frd_Source : string;
  frd_SHA256 : string;
  frd_ByteSize : Z;
  frd_ContentType : string;
  frd_ParserVersion : string;
  frd_Status : string;
  frd_Reason : string;
  frd_IdentifierTotals : list FinancialReportIdentifierTotal;
  frd_SupersedesImportID : string
}.

(* internal/persistence/financial_report.go: FinancialReport *)
Record FinancialReport : Type := mkReport_ {
  fr_ID : string;
  fr_ProjectID : ProjectID;
  fr_Provider : Provider;
  fr_ReportKind : string;
  fr_PeriodStart : time;
  fr_PeriodEnd : time;
  fr_Source : string;
  fr_SHA256 : string;
  fr_ByteSize : Z;
  fr_ContentType : string;
  fr_ParserVersion : string;
  fr_Status : string;
  fr_Reason : string;
  fr_SupersedesImportID : option string;
  fr_CreatedAt : time;
  fr_Amounts : list FinancialReportAmount
}.

(** ** Tables *)

(** The scope a period is accepted for. *)
Definition report_period : Type := ProjectID * Provider * string * time * time.

Record import_report : Type := mkImportReport {
  rr_period : report_period;
  rr_source : string;
  rr_sha256 : string;
  rr_byteSize : Z;
  rr_contentType : string;
  rr_parserVersion : string;
  rr_status : string;
  rr_reason : string;
  rr_supersedes : option string;
  rr_created : time
}.

Record amount_row : Type := mkAmountRow {
  am_amount : string;
  am_scale : Z;
  am_minor : option Z;
  am_commission : string;
  am_tax : string
}.

(** The key of an amount: its import, application and currency. *)
Definition amount_key : Type := string * (ApplicationID * string).

Record financial_db : Type := mkFinancialDb {
  fin_catalog : catalog_db;
  fin_imports : gmap string import_report;
  fin_amounts : gmap amount_key amount_row
}.

Definition with_imports f (db : financial_db) : financial_db := mkFinancialDb (fin_catalog db) (f (fin_imports db)) (fin_amounts db).
Definition with_amounts f (db : financial_db) : financial_db := mkFinancialDb (fin_catalog db) (fin_imports db) (f (fin_amounts db)).

Definition rr_project (row : import_report) : ProjectID := let '(project, _, _, _, _) := rr_period row in project.
Definition rr_provider (row : import_report) : Provider := let '(_, provider, _, _, _) := rr_period row in provider.
Definition rr_kind (row : import_report) : string := let '(_, _, kind, _, _) := rr_period row in kind.
Definition rr_start (row : import_report) : time := let '(_, _, _, start, _) := rr_period row in start.
Definition rr_end (row : import_report) : time := let '(_, _, _, _, ends) := rr_period row in ends.
Definition rr_accepted (row : import_report) : bool := String.eqb (rr_status row) FinancialReportStatusAccepted.

(* internal/persistence/postgres/financial_report.go: financialDate *)
Definition financialDate (value : time) : time := Truncate value nanosPerDay.

(* internal/persistence/postgres/financial_report.go: sameFinancialDate *)
Definition sameFinancialDate (left right : time) : bool := Equal (financialDate left) (financialDate right).

Definition draft_period (draft : FinancialReportDraft) : report_period :=
  (frd_ProjectID draft, frd_Provider draft, frd_ReportKind draft, financialDate (frd_PeriodStart draft),
   financialDate (frd_PeriodEnd draft)).

(** ** Validation *)

(* internal/persistence/postgres/financial_report.go: currencyCodeValid *)
Definition currencyCodeValid (code : string) : bool :=
  (len code =? 3) && forallb (fun character => negb ((character <? 65) || (90 <? character))) (runes code).

(* internal/persistence/postgres/financial_report.go: constants *)
Definition financialReportListLimit : Z := 200.
Definition financialReportByteCeiling : Z := 33554432.

(* internal/persistence/postgres/financial_report.go: financialReportKind *)
Definition financialReportKind (provider : Provider) : string * bool := FinancialReportKindForProvider provider.

(* internal/persistence/postgres/financial_report.go: validateFinancialReportDraft *)
Definition validateFinancialReportDraft (draft : FinancialReportDraft) : error :=
  let '(kind, known) := financialReportKind (frd_Provider draft) in
  refuse_if (bool_decide (is_Some (ProjectID_Validate (frd_ProjectID draft))) || negb known
             || negb (String.eqb (frd_ReportKind draft) kind))
    (Invalid (New "financial report scope is invalid")) ;;?
  refuse_if (IsZero (frd_PeriodStart draft) || IsZero (frd_PeriodEnd draft)
             || Before (frd_PeriodEnd draft) (frd_PeriodStart draft))
    (Invalid (New "financial report period is invalid")) ;;?
  refuse_if (negb (String.eqb (frd_Source draft) FinancialReportSourceUpload)
             && negb (String.eqb (frd_Source draft) FinancialReportSourceProviderAPI))
    (Invalid (New "financial report source is invalid")) ;;?
  refuse_if ((frd_ByteSize draft <=? 0) || (financialReportByteCeiling <? frd_ByteSize draft))
    (Invalid (New "financial report size is invalid")) ;;?
  refuse_if (String.eqb (frd_ContentType draft) EmptyString || String.eqb (frd_ParserVersion draft) EmptyString)
    (Invalid (New "financial report metadata is invalid")) ;;?
  if String.eqb (frd_Status draft) FinancialReportStatusAccepted
  then refuse_if (negb (String.eqb (frd_Reason draft) EmptyString)) (Invalid ErrFinancialReportNotAccepted)
  else if contains_str [FinancialReportStatusUnrecognized; FinancialReportStatusRejected; FinancialReportStatusSuperseded]
            (frd_Status draft)
  then refuse_if (String.eqb (frd_Reason draft) EmptyString || negb (Nat.eqb (length (frd_IdentifierTotals draft)) 0))
         (Invalid (New "financial report status is invalid"))
  else Some (Invalid (New "financial report status is invalid")).

(** The exponents from 0 to the scale, in order. *)
(* internal/persistence/postgres/financial_report.go: financialMinorUnitsMatch *)
Definition financialMinorUnitsMatch (amount : Decimal) (minor : Z) : bool :=
  existsb (fun exponent => match Decimal_MinorUnits amount exponent with
                           | Ok (Some candidate) => candidate =? minor | _ => false end)
    (map Z.of_nat (seq 0 (Z.to_nat (scale amount + 1)))).

(* internal/persistence/postgres/financial_report.go: validateIdentifierTotal *)
Definition validateIdentifierTotal (total : FinancialReportIdentifierTotal) : error :=
  refuse_if (String.eqb (frt_ProviderApplicationID total) EmptyString
             || ((Decimal_Sign (frt_Amount total) =? 0) && String.eqb (Decimal_String (frt_Amount total)) EmptyString))
    (Invalid (New "financial report amount is invalid")) ;;?
  refuse_if (negb (currencyCodeValid (frt_Currency total))) (Invalid (New "financial report currency is invalid")) ;;?
  match frt_MinorUnits total with
  | Some minor => refuse_if (negb (financialMinorUnitsMatch (frt_Amount total) minor))
                    (Invalid (New "financial report minor units do not match the decimal"))
  | None => None
  end.

(* internal/persistence/postgres/financial_report.go: addInt64 *)
Definition addInt64 (left right : Z) : Z * bool :=
  if (0 <? right) && (2 ^ 63 - 1 - right <? left) then (0, false)
  else if (right <? 0) && (left <? - 2 ^ 63 - right) then (0, false)
  else (left + right, true).

(* internal/persistence/postgres/financial_report.go: combineMinorUnits *)
Definition combineMinorUnits (left_ right_ : option Z) : option Z :=
  match left_, right_ with
  | Some l, Some r => let '(sum, ok) := addInt64 l r in if ok then Some sum else None
  | _, _ => None
  end.

(* internal/persistence/postgres/financial_report.go: financialAmountFromTotal *)
Definition financialAmountFromTotal (applicationID : ApplicationID) (total : FinancialReportIdentifierTotal)
    : result FinancialReportAmount :=
  try* refuse_if (String.eqb (Decimal_String (frt_Amount total)) EmptyString)
         (Invalid (New "financial report amount is invalid")) in
  Ok (mkAmount (frt_Currency total) (Decimal_String (frt_Amount total)) (scale (frt_Amount total)) (frt_MinorUnits total)
        FinancialReportCommissionIncluded FinancialReportTaxNotItemized applicationID).

(* internal/persistence/postgres/financial_report.go: mergeFinancialAmounts *)
Definition mergeFinancialAmounts (left right : FinancialReportAmount) : result FinancialReportAmount :=
  let* leftDecimal := wrap_result Invalid (ParseDecimal (fra_AmountDecimal left)) in
  let* rightDecimal := wrap_result Invalid (ParseDecimal (fra_AmountDecimal right)) in
  let* summed := wrap_result Invalid (Decimal_Add leftDecimal rightDecimal) in
  let minor := combineMinorUnits (fra_MinorUnits left) (fra_MinorUnits right) in
  try* match minor with
       | Some m => refuse_if (negb (financialMinorUnitsMatch summed m))
                     (Invalid (New "financial report minor units do not match the decimal"))
       | None => None
       end in
  Ok (mkAmount (fra_Currency left) (Decimal_String summed) (scale summed) minor (fra_CommissionState left)
        (fra_TaxState left) (fra_CoveredApplicationID left)).

(* internal/persistence/postgres/financial_report.go: canonicalFinancialDecimal *)
Definition canonicalFinancialDecimal (raw : string) (scale : Z) : result string :=
  let* parsed := wrap_result (Wrapf "parse stored financial amount: %w" []) (ParseDecimal raw) in
  let* scaled := wrap_result (Wrapf "restore stored financial amount scale: %w" []) (Decimal_Rescale parsed scale) in
  Ok (Decimal_String scaled).

(** ** Reading *)

Definition check_report (e : error) : Tx financial_db unit := fun db => (match e with Some e => Err e | None => Ok tt end, db).

(* internal/persistence/postgres/financial_report.go: transaction.requireFinancialProject *)
Definition requireFinancialProject (projectID : ProjectID) : Tx financial_db unit :=
  fun db => ((if project_exists projectID (fin_catalog db) then Ok tt else Err ErrNotFound), db).

(* internal/persistence/postgres/financial_report.go: scanFinancialReport *)
Definition scanFinancialReport (id : string) (row : import_report) : result FinancialReport :=
  if negb (len (rr_sha256 row) =? 32) then Err (New "financial report digest has an invalid length")
  else Ok (mkReport_ id (rr_project row) (rr_provider row) (rr_kind row) (rr_start row) (rr_end row) (rr_source row)
             (rr_sha256 row) (rr_byteSize row) (rr_contentType row) (rr_parserVersion row) (rr_status row) (rr_reason row)
             (rr_supersedes row) (rr_created row) []).

Definition with_report_amounts (report : FinancialReport) (amounts : list FinancialReportAmount) : FinancialReport :=
  mkReport_ (fr_ID report) (fr_ProjectID report) (fr_Provider report) (fr_ReportKind report) (fr_PeriodStart report)
    (fr_PeriodEnd report) (fr_Source report) (fr_SHA256 report) (fr_ByteSize report) (fr_ContentType report)
    (fr_ParserVersion report) (fr_Status report) (fr_Reason report) (fr_SupersedesImportID report) (fr_CreatedAt report) amounts.

(** ORDER BY import_id, covered_application_id, currency. *)
Definition amount_le (x y : amount_key * amount_row) : bool :=
  if negb (String.eqb x.1.1 y.1.1) then String.ltb x.1.1 y.1.1 else pair_le x.1.2 y.1.2.

(* internal/persistence/postgres/financial_report.go:549-564: transaction.financialReportAmounts *)
Definition scan_amount (entry : amount_key * amount_row) : result (string * FinancialReportAmount) :=
  let '((importID, (applicationID, currency)), row) := entry in
  let* canonical := canonicalFinancialDecimal (am_amount row) (am_scale row) in
  Ok (importID, mkAmount currency canonical (am_scale row) (am_minor row) (am_commission row) (am_tax row) applicationID).

Definition group_amount (grouped : gmap string (list FinancialReportAmount)) (entry : string * FinancialReportAmount)
    : gmap string (list FinancialReportAmount) :=
  <[entry.1 := default [] (grouped !! entry.1) ++ [entry.2]]> grouped.

Definition amount_rows (importIDs : list string) (db : financial_db) : list (amount_key * amount_row) :=
  merge_sort (fun x y => Is_true (amount_le x y))
    (List.filter (fun entry => contains_str importIDs entry.1.1) (map_to_list (fin_amounts db))).

(* internal/persistence/postgres/financial_report.go: transaction.financialReportAmounts *)
Definition financialReportAmounts (importIDs : list string) (db : financial_db)
    : result (gmap string (list FinancialReportAmount)) :=
  if Nat.eqb (length importIDs) 0 then Ok ∅
  else
    let* amounts := collect (fun _ => scan_amount) (amount_rows importIDs db) in
    Ok (fold_left group_amount amounts ∅).

(* internal/persistence/postgres/financial_report.go: transaction.loadFinancialReport *)
Definition loadFinancialReport (projectID : ProjectID) (importID : string) : Tx financial_db FinancialReport :=
  fun db =>
    match fin_imports db !! importID with
    | Some row =>
        if String.eqb (rr_project row) projectID then
          ((let* report := scanFinancialReport importID row in
            if String.eqb (fr_Status report) FinancialReportStatusAccepted then
              let* amounts := financialReportAmounts [fr_ID report] db in
              Ok (with_report_amounts report (default [] (amounts !! fr_ID report)))
            else Ok report), db)
        else sql_error "scan financial report" ErrNoRows db
    | None => sql_error "scan financial report" ErrNoRows db
    end.

(* internal/persistence/postgres/financial_report.go: transaction.lockFinancialReport *)
Definition lockFinancialReport (projectID : ProjectID) (importID : string) : Tx financial_db FinancialReport :=
  fun db =>
    match fin_imports db !! importID with
    | Some row => if String.eqb (rr_project row) projectID then loadFinancialReport projectID importID db
                  else sql_error "lock financial report" ErrNoRows db
    | None => sql_error "lock financial report" ErrNoRows db
    end.

(** The imports with one digest in one period: at most one, by a unique index. *)
Definition has_digest (draft : FinancialReportDraft) (row : import_report) : bool :=
  bool_decide (rr_period row = draft_period draft) && String.eqb (rr_sha256 row) (frd_SHA256 draft).
Definition imports_where (f : import_report -> bool) (db : financial_db) : list (string * import_report) :=
  List.filter (fun entry => f entry.2) (map_to_list (fin_imports db)).

(* internal/persistence/postgres/financial_report.go: transaction.findFinancialReportByDigest *)
Definition findFinancialReportByDigest (draft : FinancialReportDraft) : Tx financial_db FinancialReport :=
  fun db => match imports_where (has_digest draft) db with
            | (importID, _) :: _ => loadFinancialReport (frd_ProjectID draft) importID db
            | [] => sql_error "find financial report digest" ErrNoRows db
            end.

Definition accepted_in (period : report_period) (row : import_report) : bool :=
  bool_decide (rr_period row = period) && rr_accepted row.

(* internal/persistence/postgres/financial_report.go: transaction.ensureAcceptedPeriodAvailable *)
Definition ensureAcceptedPeriodAvailable (draft : FinancialReportDraft) : Tx financial_db unit :=
  fun db => match imports_where (accepted_in (draft_period draft)) db with
            | [] => (Ok tt, db)
            | _ :: _ => (Err ErrConflict, db)
            end.

(** ** Matching the totals to applications *)

(** The production applications of a project at one provider by their provider's id. *)
(* internal/persistence/postgres/financial_report.go:415-436: transaction.resolveFinancialReportAmounts *)
Definition matching_applications (projectID : ProjectID) (provider : Provider) (providerApplicationID : string)
    (db : financial_db) : list ApplicationID :=
  map fst (List.filter (fun entry => String.eqb (app_ProjectID entry.2) projectID
                                     && String.eqb (sa_Provider (app_Store entry.2)) provider
                                     && String.eqb (sa_Environment (app_Store entry.2)) EnvironmentProduction
                                     && String.eqb (sa_ID (app_Store entry.2)) providerApplicationID)
             (map_to_list (applications (fin_catalog db)))).

(* internal/persistence/postgres/financial_report.go:440-465: transaction.resolveFinancialReportAmounts *)
Definition resolve_total (projectID : ProjectID) (provider : Provider) (db : financial_db)
    (resolved : gmap string FinancialReportAmount) (total : FinancialReportIdentifierTotal)
    : result (gmap string FinancialReportAmount) :=
  try* validateIdentifierTotal total in
  match matching_applications projectID provider (frt_ProviderApplicationID total) db with
  | [] => Ok resolved
  | [application] =>
      let key := total_key application (frt_Currency total) in
      let* amount := financialAmountFromTotal application total in
      match resolved !! key with
      | None => Ok (<[key := amount]> resolved)
      | Some current => let* merged := mergeFinancialAmounts current amount in Ok (<[key := merged]> resolved)
      end
  | _ :: _ :: _ => Err ErrFinancialReportAmbiguous
  end.

Fixpoint resolve_totals (projectID : ProjectID) (provider : Provider) (db : financial_db)
    (resolved : gmap string FinancialReportAmount) (totals : list FinancialReportIdentifierTotal)
    : result (gmap string FinancialReportAmount) :=
  match totals with
  | [] => Ok resolved
  | total :: totals' =>
      let* resolved := resolve_total projectID provider db resolved total in
      resolve_totals projectID provider db resolved totals'
  end.

Definition amount_scope (amount : FinancialReportAmount) : ApplicationID * string :=
  (fra_CoveredApplicationID amount, fra_Currency amount).

Section Reports.
Context `{Horder : !GoMapRange}.

(* internal/persistence/postgres/financial_report.go: transaction.resolveFinancialReportAmounts *)
Definition resolveFinancialReportAmounts (projectID : ProjectID) (provider : Provider)
    (totals : list FinancialReportIdentifierTotal) (db : financial_db) : result (list FinancialReportAmount) :=
  let* resolved := resolve_totals projectID provider db ∅ totals in
  Ok (merge_sort (fun x y => Is_true (pair_le (amount_scope x) (amount_scope y)))
        (map snd (map_range 31 (map_to_list resolved)))).

(** ** Writing *)

(** The CHECK constraints. *)
Definition name_valid (s : string) : bool :=
  negb (String.eqb s EmptyString) && btrimmed s && negb (existsb IsControl (runes s)).
Definition text_valid (limit : nat) (s : string) : bool :=
  negb (String.eqb s EmptyString) && btrimmed s && Nat.leb (length (runes s)) limit.
Definition import_valid (id : string) (row : import_report) : bool :=
  name_valid id && (let '(kind, known) := financialReportKind (rr_provider row) in known && String.eqb (rr_kind row) kind)
  && (rr_start row <=? rr_end row)
  && contains_str [FinancialReportSourceUpload; FinancialReportSourceProviderAPI] (rr_source row)
  && contains_str [FinancialReportStatusAccepted; FinancialReportStatusUnrecognized; FinancialReportStatusRejected;
                   FinancialReportStatusSuperseded] (rr_status row)
  && (if rr_accepted row then String.eqb (rr_reason row) EmptyString
      else negb (String.eqb (rr_reason row) EmptyString) && btrimmed (rr_reason row))
  && (len (rr_sha256 row) =? 32) && (0 <? rr_byteSize row) && (rr_byteSize row <=? financialReportByteCeiling)
  && text_valid 200 (rr_contentType row) && text_valid 100 (rr_parserVersion row)
  && negb (bool_decide (rr_supersedes row = Some id)).

Definition amount_valid (application : ApplicationID) (currency : string) (row : amount_row) : bool :=
  currencyCodeValid currency && (0 <=? am_scale row) && (am_scale row <=? 18)
  && contains_str [FinancialReportCommissionIncluded; FinancialReportCommissionUnknown] (am_commission row)
  && String.eqb (am_tax row) FinancialReportTaxNotItemized
  && negb (String.eqb application EmptyString) && btrimmed application.

(** The trigger on amounts: the import is accepted, and the application is one of its
    project's in production. *)
Definition amount_allowed (importID : string) (application : ApplicationID) (db : financial_db) : bool :=
  match fin_imports db !! importID, applications (fin_catalog db) !! application with
  | Some row, Some app => rr_accepted row && String.eqb (app_ProjectID app) (rr_project row)
                          && String.eqb (sa_Environment (app_Store app)) EnvironmentProduction
  | _, _ => false
  end.

Definition row_of_amount (amount : FinancialReportAmount) : amount_row :=
  mkAmountRow (fra_AmountDecimal amount) (fra_AmountScale amount) (fra_MinorUnits amount) (fra_CommissionState amount)
    (fra_TaxState amount).

(* internal/persistence/postgres/financial_report.go:389-404: transaction.insertFinancialReportAmounts *)
Definition insert_amount (importID : string) (amount : FinancialReportAmount) : Tx financial_db unit :=
  fun db =>
    let application := fra_CoveredApplicationID amount in
    let key := (importID, amount_scope amount) in
    let row := row_of_amount amount in
    let failed code constraint := sql_error "insert financial report amount" (PgError code constraint) db in
    if negb (amount_allowed importID application db) then failed "23514" "financial_report_amounts_accepted_valid"
    else if negb (amount_valid application (fra_Currency amount) row) then failed "23514" "financial_report_amounts"
    else if bool_decide (is_Some (fin_amounts db !! key)) then failed "23505" "financial_report_amounts_pkey"
    else (Ok tt, with_amounts <[key := row]> db).

(* internal/persistence/postgres/financial_report.go: transaction.insertFinancialReportAmounts *)
Definition insertFinancialReportAmounts (projectID : ProjectID) (importID : string) (draft : FinancialReportDraft)
    : Tx financial_db unit :=
  if negb (String.eqb (frd_Status draft) FinancialReportStatusAccepted) then tx_ret tt
  else fun db =>
    match resolveFinancialReportAmounts projectID (frd_Provider draft) (frd_IdentifierTotals draft) db with
    | Err e => (Err e, db)
    | Ok resolved => tx_each (insert_amount importID) resolved db
    end.

(** The row of a draft. *)
Definition import_of (now : time) (draft : FinancialReportDraft) : import_report :=
  mkImportReport (draft_period draft) (frd_Source draft) (frd_SHA256 draft) (frd_ByteSize draft) (frd_ContentType draft)
    (frd_ParserVersion draft) (frd_Status draft) (frd_Reason draft)
    (if String.eqb (frd_SupersedesImportID draft) EmptyString then None else Some (frd_SupersedesImportID draft)) now.

Section Writing.
Context (now : time) (random : result string).

(** [random] is 16 random bytes or an error. *)
(* internal/persistence/postgres/financial_report.go: newFinancialReportID *)
Definition newFinancialReportID : result string :=
  match random with
  | Ok buf => Ok (EncodeToString buf)
  | Err e => Err (Wrapf "create financial report id: %w" [] e)
  end.

(* internal/persistence/postgres/financial_report.go: transaction.insertFinancialReport *)
Definition insertFinancialReport (draft : FinancialReportDraft) : Tx financial_db (FinancialReport * bool) :=
  do importID <- tx_lift newFinancialReportID;
  fun db =>
    let row := import_of now draft in
    if negb (import_valid importID row)
    then sql_error "insert financial report" (PgError "23514" "financial_report_imports") db
    else match imports_where (has_digest draft) db with
         | _ :: _ => tx_bind (findFinancialReportByDigest draft) (fun existing => tx_ret (existing, false)) db
         | [] =>
             if bool_decide (is_Some (fin_imports db !! importID))
             then sql_error "insert financial report" (PgError "23505" "financial_report_imports_pkey") db
             else if rr_accepted row && negb (Nat.eqb (length (imports_where (accepted_in (rr_period row)) db)) 0)
             then (Err ErrConflict, db)
             else if negb (project_exists (frd_ProjectID draft) (fin_catalog db))
                     || match rr_supersedes row with
                        | Some other => bool_decide (fin_imports db !! other = None) | None => false end
             then sql_error "insert financial report" (PgError "23503" "financial_report_imports") db
             else
               (do _ <- insertFinancialReportAmounts (frd_ProjectID draft) importID draft;
                do report <- loadFinancialReport (frd_ProjectID draft) importID;
                tx_ret (report, true)) (with_imports <[importID := row]> db)
         end.

Definition set_status (status reason : string) (supersedes : option string) (row : import_report) : import_report :=
  mkImportReport (rr_period row) (rr_source row) (rr_sha256 row) (rr_byteSize row) (rr_contentType row) (rr_parserVersion row)
    status reason supersedes (rr_created row).

Definition drop_amounts (importID : string) (db : financial_db) : financial_db :=
  with_amounts (filter (fun entry : amount_key * amount_row => entry.1.1 <> importID)) db.

(* internal/persistence/postgres/financial_report.go: transaction.reviveFinancialReport *)
Definition reviveFinancialReport (importID supersedesID : string) (draft : FinancialReportDraft) : Tx financial_db unit :=
  fun db =>
    match fin_imports db !! importID with
    | Some row =>
        if rr_accepted row then (Err ErrConflict, db)
        else
          let row' := set_status FinancialReportStatusAccepted EmptyString (Some supersedesID) row in
          if negb (import_valid importID row')
          then sql_error "revive financial report" (PgError "23514" "financial_report_imports") db
          else if negb (Nat.eqb (length (imports_where (accepted_in (rr_period row)) db)) 0)
          then sql_error "revive financial report" (PgError "23505" "financial_report_imports_one_accepted_period_idx") db
          else if bool_decide (fin_imports db !! supersedesID = None)
          then sql_error "revive financial report" (PgError "23503" "financial_report_imports_supersedes_fk") db
          else insertFinancialReportAmounts (frd_ProjectID draft) importID draft
                 (drop_amounts importID (with_imports <[importID := row']> db))
    | None => (Err ErrConflict, db)
    end.

(* internal/persistence/postgres/financial_report.go: transaction.markFinancialReportSuperseded *)
Definition markFinancialReportSuperseded (importID : string) : Tx financial_db unit :=
  fun db =>
    let db := drop_amounts importID db in
    match fin_imports db !! importID with
    | Some row =>
        if rr_accepted row
        then (Ok tt, with_imports <[importID := set_status FinancialReportStatusSuperseded "superseded" (rr_supersedes row) row]> db)
        else (Err ErrConflict, db)
    | None => (Err ErrConflict, db)
    end.

(* internal/persistence/postgres/financial_report.go: transaction.saveFinancialReport *)
Definition saveFinancialReport (draft : FinancialReportDraft) : Tx financial_db (FinancialReport * bool) :=
  do _ <- requireFinancialProject (frd_ProjectID draft);
  tx_handle (findFinancialReportByDigest draft)
    (fun existing => tx_ret (existing, false))
    (fun e =>
       if negb (errors_Is e "persistence.ErrNotFound") then tx_err e
       else
         do _ <- (if String.eqb (frd_Status draft) FinancialReportStatusAccepted
                  then ensureAcceptedPeriodAvailable draft else tx_ret tt);
         insertFinancialReport draft).

Definition superseding (draft : FinancialReportDraft) (currentID : string) : FinancialReportDraft :=
  mkDraftReport (frd_ProjectID draft) (frd_Provider draft) (frd_ReportKind draft) (frd_PeriodStart draft)
    (frd_PeriodEnd draft) (frd_Source draft) (frd_SHA256 draft) (frd_ByteSize draft) (frd_ContentType draft)
    (frd_ParserVersion draft) (frd_Status draft) (frd_Reason draft) (frd_IdentifierTotals draft) currentID.

(** The file of the draft takes the place of the current report. *)
(* internal/persistence/postgres/financial_report.go:163-184: transaction.supersedeFinancialReport *)
Definition replace_report (projectID : ProjectID) (current : FinancialReport) (draft : FinancialReportDraft)
    : Tx financial_db (FinancialReport * bool) :=
  tx_handle (findFinancialReportByDigest draft)
    (fun existing =>
       if String.eqb (fr_ID existing) (fr_ID current) then tx_ret (existing, false)
       else
         do _ <- markFinancialReportSuperseded (fr_ID current);
         do _ <- reviveFinancialReport (fr_ID existing) (fr_ID current) draft;
         do report <- loadFinancialReport projectID (fr_ID existing);
         tx_ret (report, true))
    (fun e =>
       if negb (errors_Is e "persistence.ErrNotFound") then tx_err e
       else
         do _ <- markFinancialReportSuperseded (fr_ID current);
         insertFinancialReport (superseding draft (fr_ID current))).

(* internal/persistence/postgres/financial_report.go: transaction.supersedeFinancialReport *)
Definition supersedeFinancialReport (projectID : ProjectID) (importID : string) (draft : FinancialReportDraft)
    : Tx financial_db (FinancialReport * bool) :=
  do _ <- requireFinancialProject projectID;
  do current <- lockFinancialReport projectID importID;
  if negb (String.eqb (fr_Status current) FinancialReportStatusAccepted) then tx_err ErrFinancialReportNotAccepted
  else if negb (String.eqb (fr_Provider current) (frd_Provider draft))
          || negb (String.eqb (fr_ReportKind current) (frd_ReportKind draft))
          || negb (sameFinancialDate (fr_PeriodStart current) (frd_PeriodStart draft))
          || negb (sameFinancialDate (fr_PeriodEnd current) (frd_PeriodEnd draft))
  then tx_err ErrFinancialReportScopeMismatch
  else if negb (String.eqb (frd_Status draft) FinancialReportStatusAccepted) then tx_err ErrFinancialReportNotAccepted
  else replace_report projectID current draft.
End Writing.

(* internal/persistence/postgres/financial_report.go:195-203: transaction.listFinancialReports *)
Definition newest_import (x y : string * import_report) : bool :=
  (rr_created y.2 <? rr_created x.2) || ((rr_created x.2 =? rr_created y.2) && String.leb y.1 x.1).

Definition listed_imports (projectID : ProjectID) (db : financial_db) : list (string * import_report) :=
  take (Z.to_nat financialReportListLimit)
    (merge_sort (fun x y => Is_true (newest_import x y))
       (imports_where (fun row => String.eqb (rr_project row) projectID) db)).

(* internal/persistence/postgres/financial_report.go: transaction.listFinancialReports *)
Definition listFinancialReports (projectID : ProjectID) : Tx financial_db (list FinancialReport) :=
  do _ <- requireFinancialProject projectID;
  fun db =>
    ((let* reports := collect (fun _ entry => scanFinancialReport entry.1 entry.2) (listed_imports projectID db) in
      let acceptedIDs := map fr_ID (List.filter (fun report => String.eqb (fr_Status report) FinancialReportStatusAccepted) reports) in
      let* amounts := financialReportAmounts acceptedIDs db in
      Ok (map (fun report => with_report_amounts report (default [] (amounts !! fr_ID report))) reports)), db).

(** *** The store's methods, as the bodies of their transactions *)

(* internal/persistence/postgres/financial_report.go: Store.SaveFinancialReport *)
Definition pg_SaveFinancialReport (now : time) (random : result string) (draft : FinancialReportDraft)
    : Tx financial_db (FinancialReport * bool) :=
  tx_check (validateFinancialReportDraft draft) (saveFinancialReport now random draft).

(* internal/persistence/postgres/financial_report.go: Store.SupersedeFinancialReport *)
Definition pg_SupersedeFinancialReport (now : time) (random : result string) (projectID : ProjectID) (importID : string)
    (draft : FinancialReportDraft) : Tx financial_db (FinancialReport * bool) :=
  tx_check (ProjectID_Validate projectID)
    (tx_check (validateFinancialReportDraft draft) (supersedeFinancialReport now random projectID importID draft)).

(* internal/persistence/postgres/financial_report.go: Store.ListFinancialReports *)
Definition pg_ListFinancialReports (projectID : ProjectID) : Tx financial_db (list FinancialReport) :=
  tx_check (ProjectID_Validate projectID) (listFinancialReports projectID).

End Reports.

(** ** Lemmas on stored decimals *)

Lemma length_digit_text ds : length (digit_text ds) = length ds.
Proof. apply length_map. Qed.

(** A printed decimal that reads at all reads as itself. *)
Lemma reparse_printed c s d :
  0 <= s <= 18 -> ParseDecimal (Decimal_String (mkDecimal (Some c) s)) = Ok d -> d = mkDecimal (Some c) s.
Proof.
  intros Hs Hd. destruct (parse_shape _ _ Hd) as (sign & W & F & [_ _ _ _ _ Hlen] & Hraw).
  set (raw := Decimal_String (mkDecimal (Some c) s)) in *.
  assert (Hl : (String.length raw <= 80)%nat) by (by rewrite Hraw, length_of_bytes).
  assert (Hdig : (length (digits (Z.abs c)) <= String.length raw)%nat).
  { unfold raw, Decimal_String. cbn [coefficient scale]. rewrite length_of_bytes, digits_abs_text, length_digit_text.
    repeat case_match; rewrite ?length_app; cbn [length]; rewrite ?length_app, ?length_take, ?length_drop, ?length_digit_text; lia. }
  assert (Hn : Z.of_nat (length (digits (Z.abs c))) < 2 ^ 31) by lia.
  assert (Hp : ParseDecimal raw = Ok (mkDecimal (Some c) (Z.of_nat (Z.to_nat s)))).
  { unfold raw. rewrite <- (Z2Nat.id s) at 1 by lia. apply printed_reparse; [done|lia|].
    unfold raw in Hl. rewrite <- (Z2Nat.id s), print_text, length_of_bytes in Hl by lia. done. }
  rewrite Z2Nat.id in Hp by lia. congruence.
Qed.

(** ** What the calls leave *)

Lemma imports_where_elem f db entry : entry ∈ imports_where f db <-> f entry.2 = true /\ fin_imports db !! entry.1 = Some entry.2.
Proof.
  unfold imports_where. rewrite list_elem_of_In, filter_In, <- list_elem_of_In. destruct entry as [id row].
  rewrite elem_of_map_to_list. cbn. tauto.
Qed.

Lemma imports_where_nil f db : imports_where f db = [] <-> forall id row, fin_imports db !! id = Some row -> f row = false.
Proof.
  split.
  - intros Hnil id row Hrow. destruct (f row) eqn:E; [|done].
    assert (H : (id, row) ∈ imports_where f db) by (by apply imports_where_elem). rewrite Hnil in H. by apply not_elem_of_nil in H.
  - intros H. destruct (imports_where f db) as [|[id row] l] eqn:E; [done|].
    assert (Hin : (id, row) ∈ imports_where f db) by (rewrite E; by left).
    apply imports_where_elem in Hin as [Hf Hrow]. cbn in *. by rewrite (H _ _ Hrow) in Hf.
Qed.

(** The columns of an import that never change. *)
Definition fixed_columns (row : import_report) : report_period * string * string * Z * string * string * time :=
  (rr_period row, rr_source row, rr_sha256 row, rr_byteSize row, rr_contentType row, rr_parserVersion row, rr_created row).

Definition readable (row : amount_row) : Prop := canonicalFinancialDecimal (am_amount row) (am_scale row) = Ok (am_amount row).

(** The period of a row is of whole days. *)
Definition dated (row : import_report) : Prop := financialDate (rr_start row) = rr_start row /\ financialDate (rr_end row) = rr_end row.

(** The invariant: rows satisfy their checks, an import has one row per digest and one
    accepted row per period, and an amount belongs to an accepted import and a production
    application of its project, and reads as it was written. *)
Record financial_wf (db : financial_db) : Prop := {
  fw_row : forall id row, fin_imports db !! id = Some row -> import_valid id row = true /\ dated row;
  fw_digest : forall id id' row row', fin_imports db !! id = Some row -> fin_imports db !! id' = Some row' ->
    rr_period row = rr_period row' -> rr_sha256 row = rr_sha256 row' -> id = id';
  fw_accepted : forall id id' row row', fin_imports db !! id = Some row -> fin_imports db !! id' = Some row' ->
    rr_period row = rr_period row' -> rr_accepted row = true -> rr_accepted row' = true -> id = id';
  fw_amount : forall id application currency row, fin_amounts db !! (id, (application, currency)) = Some row ->
    amount_allowed id application db = true /\ amount_valid application currency row = true /\ readable row
}.

(** What every call keeps: imports stay with their columns, the catalog is not touched. *)
Record financial_grows (db db' : financial_db) : Prop := {
  fg_catalog : fin_catalog db' = fin_catalog db;
  fg_imports : forall id row, fin_imports db !! id = Some row ->
    exists row', fin_imports db' !! id = Some row' /\ fixed_columns row' = fixed_columns row
}.

#[export] Instance financial_grows_preorder : PreOrder financial_grows.
Proof.
  split.
  - intros db. constructor; [done|]. intros id row H. by exists row.
  - intros a b c [Hc Hi] [Hc' Hi']. constructor; [by rewrite Hc'|]. intros id row H.
    destruct (Hi _ _ H) as (row1 & H1 & E1). destruct (Hi' _ _ H1) as (row2 & H2 & E2). exists row2. split; [done|congruence].
Qed.

(** *** Loading *)

Lemma collect_ok_elem {A B} (f : A -> result B) l ys : collect (fun _ => f) l = Ok ys -> forall x, x ∈ l -> exists y, y ∈ ys /\ f x = Ok y.
Proof.
  intros H x [i Hi]%list_elem_of_lookup. assert (Hall : Forall2 (fun x y => f x = Ok y) l ys) by (eapply collect_Forall2; [|exact H]; done).
  destruct (Forall2_lookup_l _ _ _ _ _ Hall Hi) as (y & Hy & Hok). exists y. split; [by eapply list_elem_of_lookup_2|done].
Qed.

Lemma amount_rows_elem importIDs db entry :
  entry ∈ amount_rows importIDs db <-> In entry.1.1 importIDs /\ fin_amounts db !! entry.1 = Some entry.2.
Proof.
  unfold amount_rows. rewrite merge_sort_Permutation, list_elem_of_In, filter_In, <- list_elem_of_In, contains_str_In.
  destruct entry as [key row]. rewrite elem_of_map_to_list. cbn. tauto.
Qed.

(** What a report is loaded from. *)
Definition report_loaded (projectID : ProjectID) (db : financial_db) (report : FinancialReport) : Prop :=
  exists row, fin_imports db !! fr_ID report = Some row /\ rr_project row = projectID /\ fr_ProjectID report = projectID /\
    fr_Provider report = rr_provider row /\ fr_ReportKind report = rr_kind row /\ fr_PeriodStart report = rr_start row /\
    fr_PeriodEnd report = rr_end row /\ fr_SHA256 report = rr_sha256 row /\ fr_Status report = rr_status row /\
    fr_SupersedesImportID report = rr_supersedes row /\
    (rr_accepted row = true -> exists amounts, financialReportAmounts [fr_ID report] db = Ok amounts /\
       fr_Amounts report = default [] (amounts !! fr_ID report)).

Lemma load_report_ok projectID importID db report db' :
  loadFinancialReport projectID importID db = (Ok report, db') ->
  db' = db /\ fr_ID report = importID /\ report_loaded projectID db report.
Proof.
  unfold loadFinancialReport. destruct (fin_imports db !! importID) as [row|] eqn:E; [|done].
  destruct (String.eqb_spec (rr_project row) projectID) as [Hp|]; [|done]. intros [= H <-]. split; [done|].
  apply bind_result_ok in H as (scanned & Hscan & H). unfold scanFinancialReport in Hscan.
  destruct (negb (len (rr_sha256 row) =? 32)); [done|]. injection Hscan as <-. cbn [fr_Status fr_ID] in H.
  destruct (rr_accepted row) eqn:Eacc; unfold rr_accepted in Eacc; rewrite Eacc in H.
  - apply bind_result_ok in H as (amounts & Hamounts & [= <-]). split; [done|]. exists row.
    cbn [with_report_amounts fr_ID fr_ProjectID fr_Provider fr_ReportKind fr_PeriodStart fr_PeriodEnd fr_SHA256 fr_Status
         fr_SupersedesImportID fr_Amounts].
    split_and!; try done. intros _. by exists amounts.
  - injection H as <-. split; [done|]. exists row. cbn. split_and!; try done. unfold rr_accepted. by rewrite Eacc.
Qed.

Lemma amounts_readable importIDs db grouped :
  importIDs <> [] -> financialReportAmounts importIDs db = Ok grouped ->
  forall id scope row, In id importIDs -> fin_amounts db !! (id, scope) = Some row ->
  exists text, canonicalFinancialDecimal (am_amount row) (am_scale row) = Ok text.
Proof.
  intros Hne. unfold financialReportAmounts. destruct importIDs as [|first rest]; [done|]. cbn [length Nat.eqb].
  intros (amounts & Hcollect & _)%bind_result_ok id [application currency] row Hin Hrow.
  destruct (collect_ok_elem _ _ _ Hcollect ((id, (application, currency)), row)) as (y & _ & Hy); [by apply amount_rows_elem|].
  unfold scan_amount in Hy. apply bind_result_ok in Hy as (text & Htext & _). by exists text.
Qed.

(** *** Amounts *)

(** An amount as a decimal was printed. *)
Definition amount_printed (amount : FinancialReportAmount) : Prop :=
  exists c, fra_AmountDecimal amount = Decimal_String (mkDecimal (Some c) (fra_AmountScale amount)).

Lemma printed_amount_text c s : Decimal_String (mkDecimal (Some c) s) <> EmptyString.
Proof.
  unfold Decimal_String. cbn [coefficient scale]. intros H%(f_equal String.length). rewrite length_of_bytes in H.
  rewrite digits_abs_text in H. pose proof (digits_length (Z.abs c)).
  repeat case_match; rewrite ?length_app in H; cbn [length String.length] in H;
    rewrite ?length_app, ?length_take, ?length_drop, ?length_digit_text in H; cbn [length] in H; lia.
Qed.

Lemma amount_from_total application total amount :
  financialAmountFromTotal application total = Ok amount ->
  amount_printed amount /\ amount_scope amount = (application, frt_Currency total).
Proof.
  unfold financialAmountFromTotal. intros [Hne [= <-]]%try_err_ok. apply refuse_if_nil, eqb_str_false in Hne.
  split; [|done]. unfold amount_printed. cbn. destruct (frt_Amount total) as [[c|] s]; [by exists c|done].
Qed.

Lemma Decimal_Add_some d d' r : Decimal_Add d d' = Ok r -> exists c, r = mkDecimal (Some c) (scale r).
Proof.
  unfold Decimal_Add. destruct (coefficient d), (coefficient d'); try done. destruct (negb _); [done|]. intros [= <-]. by eexists.
Qed.

Lemma amount_merged current amount merged :
  mergeFinancialAmounts current amount = Ok merged -> amount_printed merged /\ amount_scope merged = amount_scope current.
Proof.
  unfold mergeFinancialAmounts. intros (l & _ & H)%bind_result_ok. apply bind_result_ok in H as (r & _ & H).
  apply bind_result_ok in H as (summed & Hsum%wrap_result_ok & H). apply try_err_ok in H as [_ [= <-]]. split; [|done].
  destruct (Decimal_Add_some _ _ _ Hsum) as (c & ->). by exists c.
Qed.

Lemma resolve_totals_ok projectID provider db totals resolved resolved' :
  resolve_totals projectID provider db resolved totals = Ok resolved' ->
  (forall key amount, resolved !! key = Some amount -> amount_printed amount /\ key = total_key (fra_CoveredApplicationID amount) (fra_Currency amount)) ->
  forall key amount, resolved' !! key = Some amount -> amount_printed amount /\ key = total_key (fra_CoveredApplicationID amount) (fra_Currency amount).
Proof.
  revert resolved. induction totals as [|total totals IH]; intros resolved; cbn [resolve_totals]; [by intros [= <-]|].
  intros (resolved1 & Hone & H)%bind_result_ok Hpre. apply (IH _ H). unfold resolve_total in Hone.
  apply try_err_ok in Hone as [_ Hone]. destruct (matching_applications _ _ _ _) as [|application [|]]; [by injection Hone as <-| |done].
  apply bind_result_ok in Hone as (amount & Hamount%amount_from_total & Hone). destruct Hamount as [Hprinted Hscope].
  destruct (resolved !! total_key application (frt_Currency total)) as [current|] eqn:E.
  - apply bind_result_ok in Hone as (merged & [Hp Hs]%amount_merged & [= <-]).
    intros key a [[<- <-]|[_ Ha]]%lookup_insert_Some; [|by apply Hpre]. split; [done|].
    destruct (Hpre _ _ E) as [_ ->]. unfold amount_scope in Hs. injection Hs as <- <-. done.
  - injection Hone as <-. intros key a [[<- <-]|[_ Ha]]%lookup_insert_Some; [|by apply Hpre]. split; [done|].
    unfold amount_scope in Hscope. by injection Hscope as -> ->.
Qed.

(** *** The amounts of totals that are one for each identifier and currency *)

(** The amount of a total for the application it covers. *)
Definition covered_amount (application : ApplicationID) (total : FinancialReportIdentifierTotal) : FinancialReportAmount :=
  mkAmount (frt_Currency total) (Decimal_String (frt_Amount total)) (scale (frt_Amount total)) (frt_MinorUnits total)
    FinancialReportCommissionIncluded FinancialReportTaxNotItemized application.
Definition total_scope (total : FinancialReportIdentifierTotal) : string * string :=
  (frt_ProviderApplicationID total, frt_Currency total).

(** The one application of a total. *)
Definition covers (projectID : ProjectID) (provider : Provider) (db : financial_db) (total : FinancialReportIdentifierTotal)
    (application : ApplicationID) : Prop :=
  matching_applications projectID provider (frt_ProviderApplicationID total) db = [application].

(** An application is of one identifier. *)
Lemma covers_identifier projectID provider db t t' application :
  covers projectID provider db t application -> covers projectID provider db t' application ->
  frt_ProviderApplicationID t = frt_ProviderApplicationID t'.
Proof.
  assert (Happ : forall u, covers projectID provider db u application ->
            exists app, applications (fin_catalog db) !! application = Some app /\ sa_ID (app_Store app) = frt_ProviderApplicationID u).
  { intros u H. unfold covers, matching_applications in H.
    assert (Hin : In application (map fst (List.filter (fun entry => String.eqb (app_ProjectID entry.2) projectID
                                     && String.eqb (sa_Provider (app_Store entry.2)) provider
                                     && String.eqb (sa_Environment (app_Store entry.2)) EnvironmentProduction
                                     && String.eqb (sa_ID (app_Store entry.2)) (frt_ProviderApplicationID u))
             (map_to_list (applications (fin_catalog db)))))) by (rewrite H; by left).
    apply in_map_iff in Hin as ([id app] & <- & [Hin Hf]%filter_In). exists app.
    apply list_elem_of_In, elem_of_map_to_list in Hin. split; [done|]. cbn in Hf. bool_simpl in *. tauto. }
  intros (app & H1 & <-)%Happ (app' & H2 & <-)%Happ. congruence.
Qed.

(** What has been resolved of some totals. *)
Definition resolved_totals (projectID : ProjectID) (provider : Provider) (db : financial_db)
    (totals : list FinancialReportIdentifierTotal) (resolved : gmap string FinancialReportAmount) : Prop :=
  (forall t, t ∈ totals -> currencyCodeValid (frt_Currency t) = true) /\
  forall key amount, resolved !! key = Some amount <->
    exists t application, t ∈ totals /\ covers projectID provider db t application /\
      key = total_key application (frt_Currency t) /\ amount = covered_amount application t.

Lemma validateIdentifierTotal_currency total : validateIdentifierTotal total = None -> currencyCodeValid (frt_Currency total) = true.
Proof.
  unfold validateIdentifierTotal, seq_err. destruct (refuse_if _ _); [done|].
  destruct (currencyCodeValid _); [done|]. cbn. by destruct (frt_MinorUnits total).
Qed.

Lemma resolve_totals_exact projectID provider db totals seen resolved resolved' :
  NoDup (map total_scope (seen ++ totals)) -> resolved_totals projectID provider db seen resolved ->
  resolve_totals projectID provider db resolved totals = Ok resolved' ->
  resolved_totals projectID provider db (seen ++ totals) resolved'.
Proof.
  revert seen resolved. induction totals as [|t totals IH]; intros seen resolved Hnd [Hcur Hmap]; cbn [resolve_totals].
  { intros [= <-]. by rewrite app_nil_r. }
  intros (resolved1 & Hone & H)%bind_result_ok. rewrite (cons_middle t), app_assoc in Hnd |- *. eapply IH; [exact Hnd| |exact H].
  rewrite map_app, NoDup_app in Hnd. destruct Hnd as [Hnd _]. rewrite map_app, NoDup_app in Hnd. destruct Hnd as (_ & Hnew & _).
  unfold resolve_total in Hone. apply try_err_ok in Hone as [Hc%validateIdentifierTotal_currency Hone].
  assert (Hcur' : forall u, u ∈ seen ++ [t] -> currencyCodeValid (frt_Currency u) = true).
  { intros u [Hu|Hu%list_elem_of_singleton]%elem_of_app; [by apply Hcur|by subst]. }
  split; [done|]. destruct (matching_applications projectID provider (frt_ProviderApplicationID t) db) as [|application [|]] eqn:Hm; [| |done].
  - injection Hone as <-. intros key amount. rewrite Hmap. split.
    + intros (u & app & Hu & Hrest). exists u, app. rewrite elem_of_app. tauto.
    + intros (u & app & [Hu|Hu%list_elem_of_singleton]%elem_of_app & Hcov & Hrest); [by exists u, app|].
      subst u. unfold covers in Hcov. congruence.
  - apply bind_result_ok in Hone as (amount & Hamount & Hone).
    assert (amount = covered_amount application t) as ->.
    { unfold financialAmountFromTotal in Hamount. apply try_err_ok in Hamount as [_ Hamount]. by injection Hamount as <-. }
    assert (Hfresh : resolved !! total_key application (frt_Currency t) = None).
    { destruct (resolved !! total_key application (frt_Currency t)) as [a|] eqn:E; [|done]. exfalso.
      apply Hmap in E as (u & app & Hu & Hcov & Hk & _). apply total_key_inj in Hk as [-> Hcu]; [|done|by apply Hcur].
      apply (Hnew (total_scope u)); [by apply list_elem_of_fmap_2|]. apply list_elem_of_singleton. unfold total_scope. cbn.
      f_equal; [|done]. by eapply covers_identifier. }
    rewrite Hfresh in Hone. injection Hone as <-. intros key amount. rewrite lookup_insert_Some, Hmap. split.
    + intros [[<- <-]|(_ & u & app & Hu & Hrest)]; [exists t, application|exists u, app]; rewrite elem_of_app;
        [split_and!; [right; by left|done..]|tauto].
    + intros (u & app & [Hu|Hu%list_elem_of_singleton]%elem_of_app & Hcov & -> & ->).
      * right. split; [|by exists u, app]. intros Hk. apply total_key_inj in Hk as [-> Hcu]; [|done|by apply Hcur].
        apply (Hnew (total_scope u)); [by apply list_elem_of_fmap_2|]. apply list_elem_of_singleton. unfold total_scope.
        f_equal; [|done]. by eapply covers_identifier.
      * subst u. left. unfold covers in Hcov. rewrite Hm in Hcov. by injection Hcov as <-.
Qed.

Lemma resolve_exact `{Horder : !GoMapRange} projectID provider totals db amounts :
  NoDup (map total_scope totals) -> resolveFinancialReportAmounts projectID provider totals db = Ok amounts ->
  forall amount, amount ∈ amounts <-> exists t application, t ∈ totals /\ covers projectID provider db t application /\
                                                         amount = covered_amount application t.
Proof.
  intros Hnd (resolved & H & [= <-])%bind_result_ok amount.
  destruct (resolve_totals_exact projectID provider db totals [] ∅ resolved Hnd) as [_ Hmap]; [|exact H|].
  { split; [intros t Ht; by apply not_elem_of_nil in Ht|]. intros key a. rewrite lookup_empty. split; [done|].
    intros (t & app & Ht & _). by apply not_elem_of_nil in Ht. }
  rewrite merge_sort_Permutation, (Permutation_map snd (map_range_perm _ _ _)), list_elem_of_fmap. split.
  - intros ([k a] & -> & (t & app & Ht & Hcov & _ & Ha)%elem_of_map_to_list%Hmap). by exists t, app.
  - intros (t & app & Ht & Hcov & ->). exists (total_key app (frt_Currency t), covered_amount app t). split; [done|].
    apply elem_of_map_to_list, Hmap. by exists t, app.
Qed.

(** What inserting a list of amounts adds. *)
Record amounts_added (id : string) (amounts : list FinancialReportAmount) (db db' : financial_db) : Prop := {
  aa_catalog : fin_catalog db' = fin_catalog db;
  aa_imports : fin_imports db' = fin_imports db;
  aa_origin : forall key row, fin_amounts db' !! key = Some row -> fin_amounts db !! key = Some row \/
    exists amount, amount ∈ amounts /\ key = (id, amount_scope amount) /\ row = row_of_amount amount /\
      amount_allowed id (fra_CoveredApplicationID amount) db = true /\
      amount_valid (fra_CoveredApplicationID amount) (fra_Currency amount) row = true;
  aa_kept : fin_amounts db ⊆ fin_amounts db';
  aa_written : forall amount, amount ∈ amounts -> fin_amounts db' !! (id, amount_scope amount) = Some (row_of_amount amount)
}.

Lemma insert_amounts_added id amounts db db' :
  tx_each (insert_amount id) amounts db = (Ok tt, db') -> amounts_added id amounts db db'.
Proof.
  revert db. induction amounts as [|amount amounts IH]; intros db; cbn [tx_each].
  - intros [= <-]. constructor; try done; [by left|]. intros a Ha. by apply not_elem_of_nil in Ha.
  - intros ([] & db1 & Hone & [Hc Hi Ho Hk Hw]%IH)%tx_bind_ok. unfold insert_amount in Hone. cbn zeta in Hone.
    destruct (amount_allowed id _ db) eqn:Hallowed; [|done]. destruct (amount_valid _ _ _) eqn:Hvalid; [|done].
    cbn [negb] in Hone. destruct (fin_amounts db !! (id, amount_scope amount)) eqn:Hnone; [by rewrite bool_decide_eq_true_2 in Hone|].
    rewrite bool_decide_eq_false_2 in Hone by (intros [? ?]; done). injection Hone as <-. cbn in Hc, Hi, Hk.
    assert (Hsub : fin_amounts db ⊆ <[(id, amount_scope amount) := row_of_amount amount]> (fin_amounts db)) by by apply insert_subseteq.
    constructor; try done; [| |].
    + intros key row Hrow. destruct (Ho _ _ Hrow) as [Hold|(a & Ha & Hrest)].
      * cbn in Hold. apply lookup_insert_Some in Hold as [[<- <-]|[_ Hold]]; [|by left]. right. exists amount. split; [by left|done].
      * right. exists a. split; [by right|exact Hrest].
    + by etrans.
    + intros a [-> |Ha]%elem_of_cons; [|by apply Hw]. eapply lookup_weaken; [|exact Hk]. apply lookup_insert_eq.
Qed.

Lemma amount_of_row amount amount' : amount_scope amount = amount_scope amount' -> row_of_amount amount = row_of_amount amount' -> amount = amount'.
Proof. destruct amount, amount'. unfold amount_scope, row_of_amount. cbn. congruence. Qed.

(** The amounts of an import that had none. *)
Lemma added_amounts id amounts db db' amount :
  amounts_added id amounts db db' -> (forall scope row, fin_amounts db !! (id, scope) = Some row -> False) ->
  fin_amounts db' !! (id, amount_scope amount) = Some (row_of_amount amount) <-> amount ∈ amounts.
Proof.
  intros Hadded Hnone. split; [|apply (aa_written _ _ _ _ Hadded)].
  intros [H|(a & Ha & Hs & Hr & _)]%(aa_origin _ _ _ _ Hadded); [by destruct (Hnone _ _ H)|].
  injection Hs as Hs1 Hs2. rewrite (amount_of_row amount a); [done| |exact Hr]. unfold amount_scope. by rewrite Hs1, Hs2.
Qed.

Section Kept.
Context `{Horder : !GoMapRange}.

(** The two ways the amounts of a draft are written. *)
Lemma insert_draft_amounts projectID id draft db db' :
  insertFinancialReportAmounts projectID id draft db = (Ok tt, db') ->
  exists amounts, amounts_added id amounts db db' /\ (forall amount, amount ∈ amounts -> amount_printed amount) /\
    if String.eqb (frd_Status draft) FinancialReportStatusAccepted
    then resolveFinancialReportAmounts projectID (frd_Provider draft) (frd_IdentifierTotals draft) db = Ok amounts
    else amounts = [].
Proof.
  unfold insertFinancialReportAmounts. destruct (String.eqb (frd_Status draft) FinancialReportStatusAccepted); cbn [negb].
  - destruct (resolveFinancialReportAmounts _ _ _ _) as [amounts|] eqn:E; [|done]. intros H%insert_amounts_added.
    exists amounts. split_and!; try done. unfold resolveFinancialReportAmounts in E.
    apply bind_result_ok in E as (resolved & Hres & [= <-]). intros amount Hin.
    rewrite merge_sort_Permutation, map_range_perm in Hin. apply list_elem_of_fmap in Hin as ([key a] & -> & Hin%elem_of_map_to_list).
    eapply resolve_totals_ok in Hin; [|exact Hres|intros k x; by rewrite lookup_empty]. by destruct Hin.
  - intros [= <-]. exists []. split_and!; try done; [|intros a Ha; by apply not_elem_of_nil in Ha].
    apply (insert_amounts_added id [] db db eq_refl).
Qed.

Lemma printed_readable amount :
  amount_printed amount -> 0 <= fra_AmountScale amount <= 18 ->
  (exists text, canonicalFinancialDecimal (fra_AmountDecimal amount) (fra_AmountScale amount) = Ok text) ->
  readable (row_of_amount amount).
Proof.
  intros (c & Hc) Hs (text & Htext). unfold readable. cbn [am_amount am_scale row_of_amount]. rewrite Htext. f_equal.
  unfold canonicalFinancialDecimal in Htext. apply bind_result_ok in Htext as (d & Hd%wrap_result_ok & Htext).
  rewrite Hc in Hd |- *. apply (reparse_printed c _ _ Hs) in Hd as ->.
  apply bind_result_ok in Htext as (scaled & Hscaled%wrap_result_ok & [= <-]). f_equal.
  unfold Decimal_Rescale in Hscaled. cbn [coefficient scale] in Hscaled.
  rewrite (proj2 (Z.ltb_ge _ _) (proj1 Hs)), Z.ltb_irrefl, Z.eqb_refl in Hscaled. by injection Hscaled as <-.
Qed.

(** Amounts that could be read back keep the invariant. *)
Lemma added_wf id amounts projectID db db' report :
  financial_wf db -> amounts_added id amounts db db' -> (forall amount, amount ∈ amounts -> amount_printed amount) ->
  report_loaded projectID db' report -> fr_ID report = id -> (amounts = [] \/ exists row, fin_imports db !! id = Some row /\ rr_accepted row = true) ->
  financial_wf db'.
Proof.
  intros [Hrow Hdig Hacc Ham] [Hc Hi Ho Hk Hw] Hprinted Hload <- Hcase. constructor; rewrite ?Hi; try done.
  intros i application currency row [Hold|(amount & Hin & Hkey & -> & Hallowed & Hvalid)]%Ho.
  - destruct (Ham _ _ _ _ Hold) as (Hallow & Hrest). split; [|exact Hrest]. unfold amount_allowed in *. by rewrite Hi, Hc.
  - unfold amount_scope in Hkey. injection Hkey as -> -> ->. split; [unfold amount_allowed in *; by rewrite Hi, Hc|]. split; [done|].
    destruct Hcase as [-> |(r & Hr & Hracc)]; [by apply not_elem_of_nil in Hin|].
    apply printed_readable; [by apply Hprinted|unfold amount_valid in Hvalid; bool_simpl in *; cbn in Hvalid; lia|].
    destruct Hload as (r' & Hr' & _ & _ & _ & _ & _ & _ & _ & _ & _ & Hread). rewrite Hi, Hr in Hr'. injection Hr' as <-.
    destruct (Hread Hracc) as (grouped & Hgrouped & _).
    eapply amounts_readable in Hgrouped; [|done|by left|exact (Hw _ Hin)]. exact Hgrouped.
Qed.

(** *** Imports *)

Lemma drop_amounts_lookup id db key row :
  fin_amounts (drop_amounts id db) !! key = Some row <-> key.1 <> id /\ fin_amounts db !! key = Some row.
Proof. unfold drop_amounts. cbn. rewrite map_lookup_filter_Some. cbn. tauto. Qed.

Lemma drop_amounts_wf id db : financial_wf db -> financial_wf (drop_amounts id db).
Proof.
  intros [Hrow Hdig Hacc Ham]. constructor; try done. intros i a c row [_ H]%drop_amounts_lookup. exact (Ham _ _ _ _ H).
Qed.

Lemma financialDate_date t : financialDate (financialDate t) = financialDate t.
Proof.
  unfold financialDate, Truncate. pose proof (Zminus_mod t (t mod nanosPerDay) nanosPerDay) as E.
  rewrite Zmod_mod, Z.sub_diag, Zmod_0_l in E. lia.
Qed.

Lemma draft_dated now draft : dated (import_of now draft).
Proof. split; apply financialDate_date. Qed.

Lemma put_import_wf id row' db :
  financial_wf db -> import_valid id row' = true -> dated row' ->
  (forall i r, i <> id -> fin_imports db !! i = Some r -> rr_period r = rr_period row' -> rr_sha256 r <> rr_sha256 row') ->
  (rr_accepted row' = true -> forall i r, i <> id -> fin_imports db !! i = Some r -> rr_period r = rr_period row' -> rr_accepted r = false) ->
  (forall scope row, fin_amounts db !! (id, scope) = Some row -> False) ->
  financial_wf (with_imports <[id := row']> db).
Proof.
  intros [Hrow Hdig Hacc Ham] Hvalid Hdated Hnew Honly Hnone. constructor; cbn [fin_imports fin_amounts with_imports].
  - intros i r [[<- <-]|[_ H]]%lookup_insert_Some; [done|by apply Hrow].
  - intros i j r r' [[<- <-]|[Hi Hr]]%lookup_insert_Some [[<- <-]|[Hj Hr']]%lookup_insert_Some Hp Hs; [done|..].
    + exfalso. by eapply Hnew.
    + exfalso. by eapply (Hnew i r).
    + by eapply Hdig.
  - intros i j r r' [[<- <-]|[Hi Hr]]%lookup_insert_Some [[<- <-]|[Hj Hr']]%lookup_insert_Some Hp Ha Ha'; [done|..].
    + rewrite (Honly Ha j r') in Ha'; done.
    + rewrite (Honly Ha' i r) in Ha; done.
    + by eapply Hacc.
  - intros i a c row H. destruct (decide (i = id)) as [->|Hne]; [by destruct (Hnone _ _ H)|].
    destruct (Ham _ _ _ _ H) as (Hallow & Hrest). split; [|exact Hrest]. unfold amount_allowed in *. cbn.
    by rewrite lookup_insert_ne.
Qed.

Lemma put_import_grows id row' db :
  (forall row, fin_imports db !! id = Some row -> fixed_columns row' = fixed_columns row) ->
  financial_grows db (with_imports <[id := row']> db).
Proof.
  intros Hfixed. constructor; [done|]. intros i row Hrow. cbn. destruct (decide (i = id)) as [->|Hne].
  - exists row'. rewrite lookup_insert_eq. auto.
  - exists row. by rewrite lookup_insert_ne.
Qed.

Lemma added_grows id amounts db db' : amounts_added id amounts db db' -> financial_grows db db'.
Proof. intros [Hc Hi _ _ _]. constructor; [done|]. intros i row H. exists row. by rewrite Hi. Qed.

Lemma resolve_totals_catalog projectID provider db db' resolved totals :
  fin_catalog db' = fin_catalog db -> resolve_totals projectID provider db' resolved totals = resolve_totals projectID provider db resolved totals.
Proof.
  intros Hc. revert resolved. induction totals as [|total totals IH]; intros resolved; [done|]. cbn [resolve_totals].
  assert (Hm : resolve_total projectID provider db' resolved total = resolve_total projectID provider db resolved total)
    by (unfold resolve_total, matching_applications; by rewrite Hc).
  rewrite Hm. destruct (resolve_total projectID provider db resolved total); cbn [bind_result]; [apply IH|done].
Qed.

Lemma resolve_catalog projectID provider totals db db' :
  fin_catalog db' = fin_catalog db ->
  resolveFinancialReportAmounts projectID provider totals db' = resolveFinancialReportAmounts projectID provider totals db.
Proof. intros Hc. unfold resolveFinancialReportAmounts. by rewrite (resolve_totals_catalog _ _ _ _ _ _ Hc). Qed.

Lemma has_digest_true draft row : has_digest draft row = true <-> rr_period row = draft_period draft /\ rr_sha256 row = frd_SHA256 draft.
Proof. unfold has_digest. by rewrite andb_true_iff, bool_decide_eq_true, String.eqb_eq. Qed.

Lemma accepted_in_true period row : accepted_in period row = true <-> rr_period row = period /\ rr_accepted row = true.
Proof. unfold accepted_in. by rewrite andb_true_iff, bool_decide_eq_true. Qed.

Lemma filled_where f db : Nat.eqb (length (imports_where f db)) 0 = false -> exists id row, fin_imports db !! id = Some row /\ f row = true.
Proof.
  destruct (imports_where f db) as [|[id row] l] eqn:E; [done|]. intros _. exists id, row.
  assert (Hin : (id, row) ∈ imports_where f db) by (rewrite E; by left). apply imports_where_elem in Hin. tauto.
Qed.

Lemma empty_where f db : negb (Nat.eqb (length (imports_where f db)) 0) = false ->
  forall id row, fin_imports db !! id = Some row -> f row = false.
Proof. intros H%negb_false_iff%Nat.eqb_eq%nil_length_inv. by apply imports_where_nil. Qed.

(** The amounts a draft gives its import. *)
Definition draft_amounts (projectID : ProjectID) (draft : FinancialReportDraft) (db : financial_db) (amounts : list FinancialReportAmount) : Prop :=
  if String.eqb (frd_Status draft) FinancialReportStatusAccepted
  then resolveFinancialReportAmounts projectID (frd_Provider draft) (frd_IdentifierTotals draft) db = Ok amounts
  else amounts = [].

(** A new import: its row, its amounts, and what the answer was loaded from. *)
Definition report_inserted (now : time) (draft : FinancialReportDraft) (report : FinancialReport) (db db' : financial_db) : Prop :=
  let id := fr_ID report in
  fin_imports db !! id = None /\ fin_imports db' = <[id := import_of now draft]> (fin_imports db) /\
  (forall i row, fin_imports db !! i = Some row -> has_digest draft row = false) /\
  (frd_Status draft = FinancialReportStatusAccepted -> forall i row, fin_imports db !! i = Some row -> accepted_in (draft_period draft) row = false) /\
  (exists amounts, draft_amounts (frd_ProjectID draft) draft db amounts /\
     amounts_added id amounts (with_imports <[id := import_of now draft]> db) db') /\
  loadFinancialReport (frd_ProjectID draft) id db' = (Ok report, db').

Lemma no_amounts_without id db scope row : financial_wf db -> fin_imports db !! id = None -> fin_amounts db !! (id, scope) = Some row -> False.
Proof.
  intros Hwf Hnone Hrow. destruct scope as [a c]. destruct (fw_amount _ Hwf _ _ _ _ Hrow) as (Hallow & _).
  unfold amount_allowed in Hallow. by rewrite Hnone in Hallow.
Qed.

Lemma insert_report_ok now random draft db report created db' :
  insertFinancialReport now random draft db = (Ok (report, created), db') -> financial_wf db ->
  (forall i row, fin_imports db !! i = Some row -> has_digest draft row = false) ->
  created = true /\ report_inserted now draft report db db' /\ financial_wf db' /\ financial_grows db db'.
Proof.
  intros (importID & s1 & [_ <-]%tx_lift_ok & H)%tx_bind_ok Hwf Hnew. cbn zeta in H.
  destruct (import_valid importID (import_of now draft)) eqn:Hvalid; [|done]. cbn [negb] in H.
  rewrite (proj2 (imports_where_nil _ _) Hnew) in H.
  destruct (fin_imports db !! importID) eqn:Hfresh; [by rewrite bool_decide_eq_true_2 in H|].
  rewrite bool_decide_eq_false_2 in H by (intros [? ?]; done).
  destruct (rr_accepted (import_of now draft) && _) eqn:Hone; [done|]. destruct (_ || _); [done|].
  apply tx_bind_ok in H as ([] & db2 & Hins & H). apply tx_bind_ok in H as (loaded & db3 & Hload & [= <- <- <-]).
  destruct (load_report_ok _ _ _ _ _ Hload) as (-> & Hid & Hl). subst importID. split; [done|].
  apply insert_draft_amounts in Hins as (amounts & Hadded & Hprinted & Hamounts).
  assert (Honly : frd_Status draft = FinancialReportStatusAccepted -> forall i row, fin_imports db !! i = Some row ->
            accepted_in (draft_period draft) row = false).
  { intros Hs. apply empty_where. unfold rr_accepted in Hone. cbn in Hone. by rewrite Hs in Hone. }
  assert (Hwf1 : financial_wf (with_imports <[fr_ID loaded := import_of now draft]> db)).
  { apply put_import_wf; [done|done|apply draft_dated| | |].
    - intros i r _ Hr Hp Hs. specialize (Hnew _ _ Hr). by rewrite (proj2 (has_digest_true _ _)) in Hnew.
    - intros Hacc%String.eqb_eq i r _ Hr Hp. specialize (Honly Hacc _ _ Hr). destruct (rr_accepted r) eqn:E; [|done].
      by rewrite (proj2 (accepted_in_true _ _)) in Honly.
    - intros scope row. by apply no_amounts_without. }
  split_and!.
  - split_and!; try done; [exact (aa_imports _ _ _ _ Hadded)|]. exists amounts. split; [|done]. unfold draft_amounts.
    by destruct (String.eqb _ _); [rewrite <- Hamounts; apply resolve_catalog|].
  - eapply added_wf; [exact Hwf1|exact Hadded|exact Hprinted|exact Hl|done|].
    destruct (String.eqb (frd_Status draft) FinancialReportStatusAccepted) eqn:Es; [right|by left].
    exists (import_of now draft). split; [apply lookup_insert_eq|done].
  - etrans; [|by eapply added_grows]. apply put_import_grows. intros row. by rewrite Hfresh.
Qed.

(** *** Reading what is stored *)

(** An amount as it is read from its row. *)
Definition stored_amount (entry : amount_key * amount_row) : FinancialReportAmount :=
  let '((_, (applicationID, currency)), row) := entry in
  mkAmount currency (am_amount row) (am_scale row) (am_minor row) (am_commission row) (am_tax row) applicationID.
Definition rows_of_import (id : string) (l : list (amount_key * amount_row)) : list (amount_key * amount_row) :=
  List.filter (fun entry => String.eqb entry.1.1 id) l.

Lemma grouped_amounts l grouped importID :
  default [] (fold_left group_amount l grouped !! importID)
  = default [] (grouped !! importID) ++ map snd (List.filter (fun entry => String.eqb entry.1 importID) l).
Proof.
  revert grouped. induction l as [|[i a] l IH]; intros grouped; cbn [fold_left List.filter]; [by rewrite app_nil_r|].
  rewrite IH. unfold group_amount. cbn [fst snd]. destruct (String.eqb_spec i importID) as [-> |Hne].
  - rewrite lookup_insert_eq. cbn [default from_option id map snd]. by rewrite <- app_assoc.
  - by rewrite lookup_insert_ne.
Qed.

Lemma filter_rows_of id l :
  map snd (List.filter (fun entry : string * FinancialReportAmount => String.eqb entry.1 id) (map (fun entry => (entry.1.1, stored_amount entry)) l))
  = map stored_amount (rows_of_import id l).
Proof. induction l as [|e l IH]; [done|]. cbn. destruct (String.eqb e.1.1 id); cbn; by rewrite IH. Qed.

(** The amounts of every import that is asked for are read, in the order of the rows. *)
Lemma amounts_load importIDs db :
  financial_wf db -> exists grouped, financialReportAmounts importIDs db = Ok grouped /\
    (importIDs <> [] -> forall id, default [] (grouped !! id) = map stored_amount (rows_of_import id (amount_rows importIDs db))).
Proof.
  intros Hwf. unfold financialReportAmounts. destruct (Nat.eqb_spec (length importIDs) 0) as [E|E].
  { exists ∅. split; [done|]. intros Hne. by destruct importIDs. }
  rewrite (collect_map _ (fun entry : amount_key * amount_row => (entry.1.1, stored_amount entry))).
  - eexists. split; [done|]. intros _ id. by rewrite grouped_amounts, lookup_empty, filter_rows_of.
  - intros _ [[id [application currency]] row] [_ Hin]%amount_rows_elem. cbn in Hin.
    destruct (fw_amount _ Hwf _ _ _ _ Hin) as (_ & _ & Hread). unfold scan_amount. by rewrite Hread.
Qed.

Lemma rows_of_import_elem id importIDs db entry :
  entry ∈ rows_of_import id (amount_rows importIDs db) <-> entry.1.1 = id /\ In id importIDs /\ fin_amounts db !! entry.1 = Some entry.2.
Proof.
  unfold rows_of_import. rewrite list_elem_of_In, filter_In, <- list_elem_of_In, amount_rows_elem, String.eqb_eq. naive_solver.
Qed.

(** The amounts read for an import are its stored rows, each once. *)
Lemma import_amounts importIDs db grouped id :
  financial_wf db -> financialReportAmounts importIDs db = Ok grouped -> In id importIDs ->
  NoDup (default [] (grouped !! id)) /\
  forall amount, amount ∈ default [] (grouped !! id) <-> fin_amounts db !! (id, amount_scope amount) = Some (row_of_amount amount).
Proof.
  intros Hwf Hg Hid. destruct (amounts_load importIDs db Hwf) as (grouped' & Hg' & Hrows). rewrite Hg in Hg'. injection Hg' as <-.
  rewrite Hrows by (by intros ->). split.
  - apply NoDup_fmap_2_strong.
    + intros [[i [a c]] r] [[i' [a' c']] r'] (Hi & _)%rows_of_import_elem (Hi' & _)%rows_of_import_elem. cbn in Hi, Hi'. subst i i'.
      intros [= -> ? ? ? ? ? ->]. destruct r, r'; cbn in *. by subst.
    + apply NoDup_ListNoDup, List.NoDup_filter, NoDup_ListNoDup. unfold amount_rows. rewrite merge_sort_Permutation.
      apply NoDup_ListNoDup, List.NoDup_filter, NoDup_ListNoDup, NoDup_map_to_list.
  - intros amount. rewrite list_elem_of_fmap. split.
    + intros ([[i [a c]] r] & -> & (Hi & _ & Hr)%rows_of_import_elem). cbn in Hi, Hr. subst i. transitivity (Some r); [exact Hr|by destruct r].
    + intros Hr. exists ((id, amount_scope amount), row_of_amount amount). split; [by destruct amount|]. by apply rows_of_import_elem.
Qed.

(** The amounts of a report are the stored rows of its import. *)
Lemma loaded_amounts projectID db report :
  financial_wf db -> report_loaded projectID db report -> fr_Status report = FinancialReportStatusAccepted ->
  forall amount, amount ∈ fr_Amounts report <->
    fin_amounts db !! (fr_ID report, amount_scope amount) = Some (row_of_amount amount).
Proof.
  intros Hwf (row & _ & _ & _ & _ & _ & _ & _ & _ & Hstatus & _ & Hload) Hacc.
  destruct Hload as (grouped & Hg & ->); [unfold rr_accepted; by rewrite <- Hstatus, Hacc|].
  eapply import_amounts; [done|exact Hg|by left].
Qed.

(** What is stored can be loaded. *)
Lemma load_total projectID id db row :
  financial_wf db -> fin_imports db !! id = Some row -> rr_project row = projectID ->
  exists report, loadFinancialReport projectID id db = (Ok report, db).
Proof.
  intros Hwf Hrow Hp. unfold loadFinancialReport. rewrite Hrow, Hp, String.eqb_refl.
  destruct (fw_row _ Hwf _ _ Hrow) as [Hvalid _]. unfold scanFinancialReport.
  assert (Hsha : len (rr_sha256 row) =? 32 = true) by (unfold import_valid in Hvalid; bool_simpl in *; tauto).
  rewrite Hsha. cbn [negb bind_result fr_ID fr_Status]. destruct (String.eqb _ _); [|by eexists].
  destruct (amounts_load [id] db Hwf) as (grouped & -> & _). by eexists.
Qed.

Lemma digest_project draft row : has_digest draft row = true -> rr_project row = frd_ProjectID draft.
Proof. intros [H _]%has_digest_true. unfold rr_project. by rewrite H. Qed.

(** The import with the digest, or none. *)
Lemma find_cases draft db :
  financial_wf db ->
  (exists row report, fin_imports db !! fr_ID report = Some row /\ has_digest draft row = true /\
     loadFinancialReport (frd_ProjectID draft) (fr_ID report) db = (Ok report, db) /\
     findFinancialReportByDigest draft db = (Ok report, db)) \/
  (forall id row, fin_imports db !! id = Some row -> has_digest draft row = false) /\
  exists e, findFinancialReportByDigest draft db = (Err e, db) /\ errors_Is e "persistence.ErrNotFound" = true.
Proof.
  intros Hwf. unfold findFinancialReportByDigest. destruct (imports_where (has_digest draft) db) as [|[id row] l] eqn:E.
  - right. split; [by apply imports_where_nil|]. by eexists.
  - left. assert (Hin : (id, row) ∈ imports_where (has_digest draft) db) by (rewrite E; by left).
    apply imports_where_elem in Hin as [Hd Hrow]. cbn in *.
    destruct (load_total _ _ _ _ Hwf Hrow (digest_project _ _ Hd)) as [report Hload].
    destruct (load_report_ok _ _ _ _ _ Hload) as (_ & Hid & _). exists row, report. by rewrite Hid.
Qed.

Lemma find_unique draft db report :
  financial_wf db -> (exists row, fin_imports db !! fr_ID report = Some row /\ has_digest draft row = true) ->
  loadFinancialReport (frd_ProjectID draft) (fr_ID report) db = (Ok report, db) ->
  findFinancialReportByDigest draft db = (Ok report, db).
Proof.
  intros Hwf (row & Hrow & Hd) Hload. destruct (find_cases draft db Hwf) as [(row' & report' & Hrow' & Hd' & Hload' & Hfind)|[Hnone _]].
  - apply has_digest_true in Hd as [Hp Hs], Hd' as [Hp' Hs'].
    assert (Hid : fr_ID report = fr_ID report') by (eapply (fw_digest _ Hwf); [done|done|congruence|congruence]).
    rewrite Hid in Hload. rewrite Hfind. rewrite Hload in Hload'. by injection Hload' as ->.
  - by rewrite (Hnone _ _ Hrow) in Hd.
Qed.

(** *** Saving *)

Lemma pg_Save_ok now random draft db report created db' :
  pg_SaveFinancialReport now random draft db = (Ok (report, created), db') -> financial_wf db ->
  validateFinancialReportDraft draft = None /\ project_exists (frd_ProjectID draft) (fin_catalog db) = true /\
  financial_wf db' /\ financial_grows db db' /\
  (created = false /\ db' = db /\ (exists row, fin_imports db !! fr_ID report = Some row /\ has_digest draft row = true) /\
     loadFinancialReport (frd_ProjectID draft) (fr_ID report) db = (Ok report, db) \/
   created = true /\ report_inserted now draft report db db').
Proof.
  intros [Hv H]%tx_check_ok Hwf. apply tx_bind_ok in H as ([] & s1 & Hproj & H). unfold requireFinancialProject in Hproj.
  destruct (project_exists _ _) eqn:Hp; [|done]. injection Hproj as <-. split; [done|]. split; [done|].
  unfold tx_handle in H. destruct (find_cases draft db Hwf) as [(row & found & Hrow & Hd & Hload & Hfind)|(Hnone & e & Hfind & He)];
    rewrite Hfind in H.
  - injection H as <- <- <-. split_and!; [done|done|]. left. split_and!; try done. by exists row.
  - rewrite He in H. cbn [negb] in H. apply tx_bind_ok in H as ([] & s2 & Havail & H).
    assert (s2 = db) as ->.
    { destruct (String.eqb _ _); [|by injection Havail]. unfold ensureAcceptedPeriodAvailable in Havail.
      destruct (imports_where _ _); [by injection Havail|done]. }
    destruct (insert_report_ok _ _ _ _ _ _ _ H Hwf Hnone) as (-> & Hins & Hwf' & Hg). split_and!; [done|done|]. by right.
Qed.

(** A report is saved once.  A save that succeeds on a sound store either finds the import
    that already has the digest and changes nothing, or adds exactly one import with the
    columns of the draft and, when the draft is accepted, the amounts its totals resolve to; it
    answers what it then loads.  Saving the same draft again, at any time and with any random
    bytes, answers the same report and changes nothing; and while the report is accepted
    another file for the same period is a conflict that changes nothing. *)
Theorem report_saved_once now random draft db report created db' :
  financial_wf db -> pg_SaveFinancialReport now random draft db = (Ok (report, created), db') ->
  financial_wf db' /\ financial_grows db db' /\
  (created = false /\ db' = db \/ created = true /\ report_inserted now draft report db db') /\
  (forall now' random', pg_SaveFinancialReport now' random' draft db' = (Ok (report, false), db')) /\
  forall now' random' other, fr_Status report = FinancialReportStatusAccepted ->
    validateFinancialReportDraft other = None -> frd_Status other = FinancialReportStatusAccepted ->
    draft_period other = draft_period draft -> (forall id row, fin_imports db' !! id = Some row -> has_digest other row = false) ->
    pg_SaveFinancialReport now' random' other db' = (Err ErrConflict, db').
Proof.
  intros Hwf H. destruct (pg_Save_ok _ _ _ _ _ _ _ H Hwf) as (Hv & Hproj & Hwf' & Hg & Hcase).
  assert (Hproj' : project_exists (frd_ProjectID draft) (fin_catalog db') = true) by (by rewrite (fg_catalog _ _ Hg)).
  assert (Hstored : (exists row, fin_imports db' !! fr_ID report = Some row /\ has_digest draft row = true) /\
            loadFinancialReport (frd_ProjectID draft) (fr_ID report) db' = (Ok report, db')).
  { destruct Hcase as [(_ & -> & Hrow & Hload)|(_ & (_ & Himports & _ & _ & _ & Hload))]; [done|]. split; [|done].
    exists (import_of now draft). rewrite Himports, lookup_insert_eq. split; [done|]. by apply has_digest_true. }
  destruct Hstored as [Hrow Hload]. split_and!; [done|done| | |].
  - destruct Hcase as [(? & ? & _)|?]; [by left|by right].
  - intros now' random'. unfold pg_SaveFinancialReport. rewrite Hv. cbn [tx_check]. unfold saveFinancialReport, tx_bind, requireFinancialProject.
    rewrite Hproj'. unfold tx_handle. by rewrite (find_unique _ _ _ Hwf' Hrow Hload).
  - intros now' random' other Hacc Hvo Hso Hper Hnone. unfold pg_SaveFinancialReport. rewrite Hvo. cbn [tx_check].
    unfold saveFinancialReport, tx_bind, requireFinancialProject.
    assert (Hp : frd_ProjectID other = frd_ProjectID draft) by (unfold draft_period in Hper; by injection Hper).
    rewrite Hp, Hproj'. unfold tx_handle. destruct (find_cases other db' Hwf') as [(r & ? & Hr & Hd & _)|(_ & e & -> & He)].
    { by rewrite (Hnone _ _ Hr) in Hd. }
    rewrite He, Hso. cbn [negb]. rewrite String.eqb_refl. unfold ensureAcceptedPeriodAvailable.
    destruct (imports_where _ db') eqn:E; [|done]. destruct Hrow as (row & Hrow & [Hperiod _]%has_digest_true).
    pose proof (proj1 (imports_where_nil _ _) E _ _ Hrow) as Hno.
    destruct (load_report_ok _ _ _ _ _ Hload) as (_ & _ & row' & Hrow' & _ & _ & _ & _ & _ & _ & _ & Hstatus & _).
    rewrite Hrow in Hrow'. injection Hrow' as <-. rewrite (proj2 (accepted_in_true _ _)) in Hno; [done|].
    split; [congruence|]. unfold rr_accepted. by rewrite <- Hstatus, Hacc.
Qed.

(** *** Superseding *)

Definition superseded_row (row : import_report) : import_report :=
  set_status FinancialReportStatusSuperseded "superseded" (rr_supersedes row) row.

Lemma superseded_valid id row : import_valid id row = true -> rr_accepted row = true -> import_valid id (superseded_row row) = true.
Proof.
  unfold import_valid. intros H Ha. rewrite Ha in H. cbn [rr_accepted superseded_row set_status rr_status rr_provider rr_kind rr_start rr_end
    rr_period rr_source rr_reason rr_sha256 rr_byteSize rr_contentType rr_parserVersion rr_supersedes].
  assert (Hs : rr_accepted (superseded_row row) = false) by done. rewrite Hs. bool_simpl in *.
  destruct H as [[[[[[[[[[[H1 H2] H3] H4] H5] H6] H7] H8] H9] H10] H11] H12]. split_and!; try done.
  right. right. right. by left.
Qed.

Lemma mark_ok id db db' :
  markFinancialReportSuperseded id db = (Ok tt, db') -> financial_wf db ->
  exists row, fin_imports db !! id = Some row /\ rr_accepted row = true /\
    db' = with_imports <[id := superseded_row row]> (drop_amounts id db) /\ financial_wf db' /\ financial_grows db db'.
Proof.
  unfold markFinancialReportSuperseded. intros H Hwf. cbn zeta in H. destruct (fin_imports (drop_amounts id db) !! id) as [row|] eqn:E; [|done].
  cbn in E. destruct (rr_accepted row) eqn:Ha; [|done]. injection H as <-. exists row. destruct (fw_row _ Hwf _ _ E) as [Hvalid Hdated].
  split_and!; [done..| |].
  - apply put_import_wf; [by apply drop_amounts_wf|by apply superseded_valid|done| |done|].
    + intros i r Hi Hr Hp Hs. apply Hi. by eapply (fw_digest _ Hwf).
    + intros scope r [Hne _]%drop_amounts_lookup. done.
  - etrans; [|apply put_import_grows]; [by constructor; [|intros i r Hr; exists r]|].
    intros r Hr. cbn in Hr. rewrite E in Hr. by injection Hr as <-.
Qed.

Lemma revive_ok id current draft db db' report :
  reviveFinancialReport id current draft db = (Ok tt, db') -> financial_wf db -> report_loaded (frd_ProjectID draft) db' report ->
  fr_ID report = id ->
  exists row amounts, fin_imports db !! id = Some row /\ rr_accepted row = false /\
    let row' := set_status FinancialReportStatusAccepted EmptyString (Some current) row in
    draft_amounts (frd_ProjectID draft) draft db amounts /\ amounts_added id amounts (with_imports <[id := row']> db) db' /\
    financial_wf db' /\ financial_grows db db'.
Proof.
  unfold reviveFinancialReport. intros H Hwf Hl Hid. destruct (fin_imports db !! id) as [row|] eqn:E; [|done].
  destruct (rr_accepted row) eqn:Ha; [done|]. set (row' := set_status _ _ _ row) in *.
  destruct (import_valid id row') eqn:Hvalid; [|done]. cbn [negb] in H.
  destruct (negb (Nat.eqb _ 0)) eqn:Hone; [done|]. destruct (bool_decide _); [done|].
  assert (Hsame : drop_amounts id (with_imports <[id := row']> db) = with_imports <[id := row']> db).
  { unfold drop_amounts, with_amounts, with_imports. cbn. f_equal. apply map_filter_id. intros [i [a c]] r Hr Hi. cbn in Hi. subst i.
    destruct (fw_amount _ Hwf _ _ _ _ Hr) as (Hallow & _). unfold amount_allowed in Hallow. rewrite E, Ha in Hallow.
    by destruct (applications _ !! a). }
  rewrite Hsame in H. apply insert_draft_amounts in H as (amounts & Hadded & Hprinted & Hamounts). exists row, amounts.
  assert (Hwf1 : financial_wf (with_imports <[id := row']> db)).
  { apply put_import_wf; [done|done|exact (proj2 (fw_row _ Hwf _ _ E))| | |].
    - intros i r Hi Hr Hp Hs. apply Hi. by eapply (fw_digest _ Hwf).
    - intros _ i r _ Hr Hp. pose proof (empty_where _ _ Hone _ _ Hr) as Hno. destruct (rr_accepted r) eqn:Er; [|done].
      by rewrite (proj2 (accepted_in_true _ _)) in Hno.
    - intros [a c] r Hr. destruct (fw_amount _ Hwf _ _ _ _ Hr) as (Hallow & _). unfold amount_allowed in Hallow. rewrite E, Ha in Hallow.
      by destruct (applications _ !! a). }
  split_and!; try done.
  - unfold draft_amounts. by destruct (String.eqb _ _); [rewrite <- Hamounts; apply resolve_catalog|].
  - eapply added_wf; [exact Hwf1|exact Hadded|exact Hprinted|exact Hl|done|]. right. exists row'. split; [apply lookup_insert_eq|done].
  - etrans; [|by eapply added_grows]. apply put_import_grows. intros r Hr. rewrite E in Hr. by injection Hr as <-.
Qed.

(** One accepted import replaced by another. *)
Record report_superseded (importID : string) (draft : FinancialReportDraft) (report : FinancialReport) (db db' : financial_db) : Prop := {
  rs_other : fr_ID report <> importID;
  rs_old : exists old, fin_imports db !! importID = Some old /\ rr_accepted old = true /\ rr_period old = draft_period draft /\
    fin_imports db' !! importID = Some (superseded_row old);
  rs_new : exists new, fin_imports db' !! fr_ID report = Some new /\ rr_accepted new = true /\ rr_period new = draft_period draft /\
    rr_sha256 new = frd_SHA256 draft /\ rr_supersedes new = Some importID;
  rs_imports : forall id, id <> fr_ID report -> id <> importID -> fin_imports db' !! id = fin_imports db !! id;
  rs_dropped : forall scope, fin_amounts db' !! (importID, scope) = None;
  rs_amounts : exists amounts, resolveFinancialReportAmounts (frd_ProjectID draft) (frd_Provider draft) (frd_IdentifierTotals draft) db = Ok amounts /\
    forall scope row, fin_amounts db' !! (fr_ID report, scope) = Some row <->
      exists amount, amount ∈ amounts /\ scope = amount_scope amount /\ row = row_of_amount amount;
  rs_untouched : forall id scope, id <> fr_ID report -> id <> importID -> fin_amounts db' !! (id, scope) = fin_amounts db !! (id, scope)
}.

Lemma superseded_by importID draft report db old new amounts db' :
  financial_wf db -> fr_ID report <> importID -> fin_imports db !! importID = Some old -> rr_accepted old = true -> rr_period old = draft_period draft ->
  rr_accepted new = true -> rr_period new = draft_period draft -> rr_sha256 new = frd_SHA256 draft -> rr_supersedes new = Some importID ->
  (forall scope row, fin_amounts db !! (fr_ID report, scope) = Some row -> False) ->
  resolveFinancialReportAmounts (frd_ProjectID draft) (frd_Provider draft) (frd_IdentifierTotals draft) db = Ok amounts ->
  amounts_added (fr_ID report) amounts
    (with_imports <[fr_ID report := new]> (with_imports <[importID := superseded_row old]> (drop_amounts importID db))) db' ->
  report_superseded importID draft report db db'.
Proof.
  intros Hwf Hne Hold Hacc Hper Hnacc Hnper Hnsha Hnsup Hnone Hres [_ Himports Horigin Hkept Hwritten]. cbn in Himports.
  assert (Hother : forall key row, key.1 <> fr_ID report -> fin_amounts db' !! key = Some row <-> fin_amounts (drop_amounts importID db) !! key = Some row).
  { intros key row Hk. split; [|intros H; eapply lookup_weaken; [exact H|exact Hkept]].
    intros [H|(a & _ & -> & _)]%Horigin; [exact H|done]. }
  constructor; [done| | | | | |].
  - exists old. split_and!; [done..|]. by rewrite Himports, lookup_insert_ne, lookup_insert_eq.
  - exists new. by rewrite Himports, lookup_insert_eq.
  - intros id H1 H2. by rewrite Himports, !lookup_insert_ne.
  - intros scope. destruct (fin_amounts db' !! (importID, scope)) eqn:E; [|done].
    apply Hother in E; [|done]. by apply drop_amounts_lookup in E as [? _].
  - exists amounts. split; [done|]. intros scope row. split.
    + intros [H|(a & Ha & [= ->] & -> & _)]%Horigin; [|by exists a].
      cbn in H. apply drop_amounts_lookup in H as [_ H]. by destruct (Hnone _ _ H).
    + intros (a & Ha & -> & ->). by apply Hwritten.
  - intros id scope H1 H2. apply option_eq. intros row. rewrite Hother by done. rewrite drop_amounts_lookup. cbn. tauto.
Qed.

Lemma find_in_period draft db report row :
  financial_wf db -> fin_imports db !! fr_ID report = Some row -> loadFinancialReport (frd_ProjectID draft) (fr_ID report) db = (Ok report, db) ->
  fr_Provider report = rr_provider row /\ fr_ReportKind report = rr_kind row /\ fr_PeriodStart report = rr_start row /\
  fr_PeriodEnd report = rr_end row /\ fr_Status report = rr_status row /\ rr_project row = frd_ProjectID draft.
Proof.
  intros Hwf Hrow Hload. destruct (load_report_ok _ _ _ _ _ Hload) as (_ & _ & row' & Hrow' & Hp & _ & H1 & H2 & H3 & H4 & _ & H5 & _).
  rewrite Hrow in Hrow'. by injection Hrow' as <-.
Qed.

Lemma same_period draft row :
  dated row -> rr_project row = frd_ProjectID draft -> rr_provider row = frd_Provider draft -> rr_kind row = frd_ReportKind draft ->
  sameFinancialDate (rr_start row) (frd_PeriodStart draft) = true -> sameFinancialDate (rr_end row) (frd_PeriodEnd draft) = true ->
  rr_period row = draft_period draft.
Proof.
  unfold sameFinancialDate, Equal, dated, draft_period, rr_project, rr_provider, rr_kind, rr_start, rr_end.
  destruct (rr_period row) as [[[[p v] k] st] en]. intros [Hs He] -> -> -> H1%Z.eqb_eq H2%Z.eqb_eq. congruence.
Qed.

(** The report an accepted draft can replace. *)
Record replaceable (draft : FinancialReportDraft) (current : FinancialReport) (old : import_report) (db : financial_db) : Prop := {
  ra_row : fin_imports db !! fr_ID current = Some old;
  ra_accepted : rr_accepted old = true;
  ra_period : rr_period old = draft_period draft;
  ra_draft : frd_Status draft = FinancialReportStatusAccepted
}.

Lemma supersede_passed now random importID draft db answer db' :
  financial_wf db -> pg_SupersedeFinancialReport now random (frd_ProjectID draft) importID draft db = (Ok answer, db') ->
  exists current old, fr_ID current = importID /\ replaceable draft current old db /\
    replace_report now random (frd_ProjectID draft) current draft db = (Ok answer, db').
Proof.
  intros Hwf H. apply tx_check_ok in H as [_ H]. apply tx_check_ok in H as [_ H].
  apply tx_bind_ok in H as ([] & s1 & Hproj & H). unfold requireFinancialProject in Hproj.
  destruct (project_exists _ _) eqn:Hp; [|done]. injection Hproj as <-.
  apply tx_bind_ok in H as (current & s2 & Hlock & H). unfold lockFinancialReport in Hlock.
  destruct (fin_imports db !! importID) as [old|] eqn:Hold; [|done]. destruct (String.eqb _ _); [|done].
  destruct (load_report_ok _ _ _ _ _ Hlock) as (-> & Hid & _). subst importID.
  destruct (find_in_period draft db current old Hwf Hold Hlock) as (Hpv & Hk & Hst & Hen & Hstatus & Hpr).
  rewrite Hpv, Hk, Hst, Hen in H.
  destruct (String.eqb_spec (fr_Status current) FinancialReportStatusAccepted) as [Hcs|]; [|done].
  destruct (String.eqb_spec (rr_provider old) (frd_Provider draft)) as [Hv|]; [|done].
  destruct (String.eqb_spec (rr_kind old) (frd_ReportKind draft)) as [Hkd|]; [|done].
  destruct (sameFinancialDate (rr_start old) _) eqn:Hd1; [|done]. destruct (sameFinancialDate (rr_end old) _) eqn:Hd2; [|done].
  destruct (String.eqb_spec (frd_Status draft) FinancialReportStatusAccepted) as [Hds|]; [|done].
  exists current, old. split_and!; [done| |exact H]. constructor; [done| |by apply same_period; try done; apply (fw_row _ Hwf _ _ Hold)|done].
  unfold rr_accepted. by rewrite <- Hstatus, Hcs.
Qed.

(** A file that was imported before becomes the report of the period again. *)
Lemma replace_revived draft current old row found db db1 db2 report db' :
  financial_wf db -> replaceable draft current old db -> fr_ID found <> fr_ID current ->
  fin_imports db !! fr_ID found = Some row -> has_digest draft row = true ->
  markFinancialReportSuperseded (fr_ID current) db = (Ok tt, db1) ->
  reviveFinancialReport (fr_ID found) (fr_ID current) draft db1 = (Ok tt, db2) ->
  loadFinancialReport (frd_ProjectID draft) (fr_ID found) db2 = (Ok report, db') ->
  financial_wf db' /\ financial_grows db db' /\ report_superseded (fr_ID current) draft report db db' /\
  loadFinancialReport (frd_ProjectID draft) (fr_ID report) db' = (Ok report, db').
Proof.
  intros Hwf [Hold Hacc Hper Hds] Hne Hrow Hd Hmark Hrev Hl.
  destruct (load_report_ok _ _ _ _ _ Hl) as (-> & Hid & Hloaded).
  destruct (mark_ok _ _ _ Hmark Hwf) as (old' & Hold' & _ & -> & Hwf1 & Hg1). rewrite Hold in Hold'. injection Hold' as <-.
  destruct (revive_ok _ _ _ _ _ report Hrev Hwf1 Hloaded Hid) as (row' & amounts & Hrow' & Hracc & Hamounts & Hadded & Hwf2 & Hg2).
  cbn in Hrow'. rewrite lookup_insert_ne, Hrow in Hrow' by done. injection Hrow' as <-.
  rewrite <- Hid in Hadded, Hne. apply has_digest_true in Hd as [Hdp Hds'].
  split_and!; [done|by etrans| |by rewrite Hid].
  eapply superseded_by; [exact Hwf|exact Hne|exact Hold|exact Hacc|exact Hper| | | | | | |exact Hadded]; try done.
  - intros [a c] r Hr. destruct (fw_amount _ Hwf _ _ _ _ Hr) as (Hallow & _). unfold amount_allowed in Hallow.
    rewrite Hid, Hrow, Hracc in Hallow. by destruct (applications _ !! a).
  - unfold draft_amounts in Hamounts. rewrite Hds, String.eqb_refl in Hamounts. rewrite <- Hamounts. by apply resolve_catalog.
Qed.

(** A new file is imported in the place of the current report. *)
Lemma replace_inserted now random draft current old db db1 report created db' :
  financial_wf db -> replaceable draft current old db ->
  (forall id row, fin_imports db !! id = Some row -> has_digest draft row = false) ->
  markFinancialReportSuperseded (fr_ID current) db = (Ok tt, db1) ->
  insertFinancialReport now random (superseding draft (fr_ID current)) db1 = (Ok (report, created), db') ->
  financial_wf db' /\ financial_grows db db' /\ created = true /\ report_superseded (fr_ID current) draft report db db' /\
  loadFinancialReport (frd_ProjectID draft) (fr_ID report) db' = (Ok report, db').
Proof.
  intros Hwf [Hold Hacc Hper Hds] Hnone Hmark H.
  destruct (mark_ok _ _ _ Hmark Hwf) as (old' & Hold' & _ & -> & Hwf1 & Hg1). rewrite Hold in Hold'. injection Hold' as <-.
  destruct (insert_report_ok _ _ _ _ _ _ _ H Hwf1) as (-> & (Hfresh & Himports & _ & _ & (amounts & Hamounts & Hadded) & Hl) & Hwf2 & Hg2).
  { intros i r. cbn. intros [[<- <-]|[_ Hr]]%lookup_insert_Some; [|by apply (Hnone i)].
    specialize (Hnone _ _ Hold). unfold has_digest in *. exact Hnone. }
  cbn in Hfresh. apply lookup_insert_None in Hfresh as [Hfresh Hne].
  assert (Hname : fr_ID current <> EmptyString).
  { destruct (fw_row _ Hwf _ _ Hold) as [Hvalid _]. unfold import_valid, name_valid in Hvalid. bool_simpl in *. tauto. }
  split_and!; [done|by etrans|done| |exact Hl].
  eapply superseded_by; [exact Hwf|by apply not_eq_sym|exact Hold|exact Hacc|exact Hper| | | | | | |exact Hadded]; try done.
  - unfold rr_accepted. cbn. by rewrite Hds.
  - cbn. by rewrite (proj2 (String.eqb_neq _ _) Hname).
  - intros scope r. by apply no_amounts_without.
  - unfold draft_amounts in Hamounts. cbn in Hamounts. rewrite Hds in Hamounts. rewrite <- Hamounts. by apply resolve_catalog.
Qed.

(** C33. Superseding replaces the current report of its period and nothing else.  A call that
    succeeds on a sound store either found that the file is the import it would replace and
    changed nothing, or left the named import, which was accepted, superseded and without
    amounts, and the answered report, another import, accepted for the same period with the
    digest of the file, as the import that superseded it; its amounts are exactly what the
    file's totals resolve to, every other import and amount is as it was, and the store is
    sound: one accepted report a period. *)
Theorem supersede_replaces now random projectID importID draft db report created db' :
  financial_wf db -> frd_ProjectID draft = projectID ->
  pg_SupersedeFinancialReport now random projectID importID draft db = (Ok (report, created), db') ->
  financial_wf db' /\ financial_grows db db' /\
  (created = false /\ db' = db /\ fr_ID report = importID \/
   created = true /\ report_superseded importID draft report db db' /\ loadFinancialReport projectID (fr_ID report) db' = (Ok report, db')).
Proof.
  intros Hwf <- H. destruct (supersede_passed _ _ _ _ _ _ _ Hwf H) as (current & old & <- & Hra & Hrep).
  unfold replace_report, tx_handle in Hrep.
  destruct (find_cases draft db Hwf) as [(row & found & Hrow & Hd & Hload & Hfind)|(Hnone & e & Hfind & He)]; rewrite Hfind in Hrep.
  - destruct (String.eqb_spec (fr_ID found) (fr_ID current)) as [Heq|Hne].
    { injection Hrep as <- <- <-. split_and!; [done|done|by left]. }
    apply tx_bind_ok in Hrep as ([] & db1 & Hmark & Hrep). apply tx_bind_ok in Hrep as ([] & db2 & Hrev & Hrep).
    apply tx_bind_ok in Hrep as (loaded & db3 & Hl & [= <- <- <-]).
    destruct (replace_revived _ _ _ _ _ _ _ _ _ _ Hwf Hra Hne Hrow Hd Hmark Hrev Hl) as (? & ? & ? & ?).
    split_and!; [done|done|by right].
  - rewrite He in Hrep. cbn [negb] in Hrep. apply tx_bind_ok in Hrep as ([] & db1 & Hmark & Hrep).
    destruct (replace_inserted _ _ _ _ _ _ _ _ _ _ Hwf Hra Hnone Hmark Hrep) as (? & ? & ? & ? & ?).
    split_and!; [done|done|by right].
Qed.
End Kept.

(** ** Witnesses *)

(** The shop with an application at Apple, and two files for its first day. *)
Definition report_shop : financial_db :=
  mkFinancialDb
    (run_catalog_all [CallApplication (mkApplication "app-2" "project-1"
                        (mkStoreApplication ProviderAppleAppStore EnvironmentProduction "6740000001"))]%string shop_catalog).2
    ∅ ∅.

Definition report_draft (digest : string) (totals : list FinancialReportIdentifierTotal) : FinancialReportDraft :=
  mkDraftReport "project-1" ProviderAppleAppStore FinancialReportKindAppleConsolidated (20000 * nanosPerDay + 5) (20027 * nanosPerDay)
    FinancialReportSourceUpload digest 120 "text/plain" "apple-1" FinancialReportStatusAccepted EmptyString totals EmptyString.
Definition first_file : FinancialReportDraft :=
  report_draft "0123456789abcdef0123456789abcdef"
    [mkReportTotal "6740000001" "USD" (mkDecimal (Some 250) 2) (Some 250);
     mkReportTotal "6740000002" "USD" (mkDecimal (Some 900) 2) (Some 900)]%string.
Definition second_file : FinancialReportDraft :=
  report_draft "fedcba9876543210fedcba9876543210" [mkReportTotal "6740000001" "EUR" (mkDecimal (Some 300) 2) (Some 300)]%string.

#[local] Notation "'saving' now bytes draft db" := (pg_SaveFinancialReport (Horder := range_in_order) now (Ok bytes) draft db)
  (at level 10, now, bytes, draft, db at level 9, only parsing).
#[local] Notation "'replacing' now bytes id draft db" := (pg_SupersedeFinancialReport (Horder := range_in_order) now (Ok bytes) "project-1" id draft db)
  (at level 10, now, bytes, id, draft, db at level 9, only parsing).

Definition saved_shop : financial_db := Eval vm_compute in (saving (4 * Second) "aaaaaaaaaaaaaaaa" first_file report_shop).2.
Definition first_report : FinancialReport :=
  Eval vm_compute in match (saving (4 * Second) "aaaaaaaaaaaaaaaa" first_file report_shop).1 with
                     | Ok (report, _) => report
                     | Err _ => mkReport_ EmptyString EmptyString EmptyString EmptyString 0 0 EmptyString EmptyString 0 EmptyString EmptyString
                                  EmptyString EmptyString None 0 []
                     end.

Lemma first_saved : saving (4 * Second) "aaaaaaaaaaaaaaaa" first_file report_shop = (Ok (first_report, true), saved_shop).
Proof. vm_compute. reflexivity. Qed.

Lemma report_shop_wf : financial_wf report_shop.
Proof. by constructor; intros *; cbn; rewrite lookup_empty. Qed.

Lemma saved_shop_wf : financial_wf saved_shop.
Proof. by destruct (pg_Save_ok _ _ _ _ _ _ _ first_saved report_shop_wf) as (_ & _ & Hwf & _). Qed.

(** An identifier no application has is left out; the other total is stored. *)
Lemma report_saved_once_witness :
  map (fun amount => (fra_CoveredApplicationID amount, fra_AmountDecimal amount, fra_MinorUnits amount)) (fr_Amounts first_report)
    = [("app-2", "2.50", Some 250)]%string /\
  saving (9 * Second) "bbbbbbbbbbbbbbbb" first_file saved_shop = (Ok (first_report, false), saved_shop) /\
  saving (9 * Second) "cccccccccccccccc" second_file saved_shop = (Err ErrConflict, saved_shop).
Proof.
  split; [vm_compute; reflexivity|].
  destruct (report_saved_once (Horder := range_in_order) _ _ _ _ _ _ _ report_shop_wf first_saved) as (_ & _ & _ & Hagain & Hother).
  split; [apply Hagain|]. apply Hother; try (vm_compute; reflexivity).
  apply imports_where_nil. vm_compute. reflexivity.
Defined.

Definition replaced_shop : financial_db :=
  Eval vm_compute in (replacing (9 * Second) "cccccccccccccccc" (fr_ID first_report) second_file saved_shop).2.
Definition second_report : FinancialReport :=
  Eval vm_compute in match (replacing (9 * Second) "cccccccccccccccc" (fr_ID first_report) second_file saved_shop).1 with
                     | Ok (report, _) => report | Err _ => first_report end.

Lemma first_replaced :
  replacing (9 * Second) "cccccccccccccccc" (fr_ID first_report) second_file saved_shop = (Ok (second_report, true), replaced_shop).
Proof. vm_compute. reflexivity. Qed.

Lemma supersede_replaces_witness :
  financial_wf replaced_shop /\ report_superseded (Horder := range_in_order) (fr_ID first_report) second_file second_report saved_shop replaced_shop.
Proof.
  destruct (supersede_replaces (Horder := range_in_order) (9 * Second) (Ok "cccccccccccccccc"%string) "project-1"
              (fr_ID first_report) second_file saved_shop second_report true replaced_shop saved_shop_wf eq_refl first_replaced)
    as (Hwf & _ & [(H & _)|(_ & H & _)]); [done|by split].
Defined.

(** The first file supersedes the second in turn: its import is revived with its amounts. *)
Example replaced_back :
  match (replacing (12 * Second) "dddddddddddddddd" (fr_ID second_report) first_file replaced_shop).1 with
  | Ok (report, created) => created = true /\ fr_ID report = fr_ID first_report /\ fr_Amounts report = fr_Amounts first_report /\
                            fr_SupersedesImportID report = Some (fr_ID second_report)
  | Err _ => False
  end.
Proof. vm_compute. done. Qed.
