(* ===== verification/Revenue.v ===== *)
(** What is recognized as revenue ([internal/persistence/postgres/financial_report.go], from
    [adminRecognizedRevenue] on, with the records of [persistence/admin.go]): the accepted
    report of each provider, whether it covers the provider's production applications, and
    the exact sums per currency. *)

From S2P Require Import Prelude GoText GoTime Core Decimal Purchase Protection Persistence Projector Repository Identity Catalog ImportStore AppleReports ReportStore.
From stdpp Require Import base list strings gmap sorting.
Local Open Scope Z_scope.

Section Revenue.
Context `{Horder : !GoMapRange}.

(** ** Recognized revenue *)

Abbreviation AdminRevenueStatus := string.
(* internal/persistence/admin.go: constants *)
Definition AdminRevenueSandboxOnly : AdminRevenueStatus := "sandbox_only".
Definition AdminRevenueStoreReportsRequired : AdminRevenueStatus := "store_reports_required".
Definition AdminRevenueReportsImported : AdminRevenueStatus := "reports_imported".
Definition AdminRevenueNoApplications : AdminRevenueStatus := "no_applications".

(* internal/persistence/admin.go: AdminRevenueQuery *)
Record AdminRevenueQuery : Type := mkRevenueQuery {
  rq_FinancialPeriodStart : option time;
  rq_FinancialPeriodEnd : option time
}.

(* internal/persistence/admin.go: AdminRecognizedAmount *)
Record AdminRecognizedAmount : Type := mkRecognized {
  ra_Provider : Provider;
  ra_ReportKind : string;
  ra_PeriodStart : time;
  ra_PeriodEnd : time;
  ra_Currency : string;
  ra_AmountDecimal : string;
  ra_AmountScale : Z;
  ra_MinorUnits : option Z;
  ra_CommissionState : string;
  ra_TaxState : string
}.

(** [Currency] is never set. *)
(* internal/persistence/admin.go: AdminRevenue *)
Record AdminRevenue : Type := mkRevenue {
  ar_Status : AdminRevenueStatus;
  ar_RecognizedMinorUnits : option Z;
  ar_Amounts : list AdminRecognizedAmount;
  ar_UncoveredProviders : list Provider;
  ar_ZeroFilledApplicationIDs : list ApplicationID;
  ar_ProductionApplicationCount : Z;
  ar_TestApplicationCount : Z
}.

(* internal/persistence/postgres/financial_report.go: productionApplication *)
Record productionApplication : Type := mkProductionApplication {
  pa_id : ApplicationID;
  pa_provider : Provider
}.

(* internal/persistence/postgres/financial_report.go: acceptedFinancialImport *)
Record acceptedFinancialImport : Type := mkAcceptedImport {
  ai_ID : string;
  ai_Provider : Provider;
  ai_ReportKind : string;
  ai_PeriodStart : time;
  ai_PeriodEnd : time;
  ai_CreatedAt : time
}.

(* internal/persistence/postgres/financial_report.go: providerCoverage *)
Record providerCoverage : Type := mkCoverage {
  cv_matched : bool;
  cv_complete : bool;
  cv_zeroFilled : list ApplicationID
}.

(* internal/persistence/postgres/financial_report.go: validateFinancialPeriod *)
Definition validateFinancialPeriod (query : AdminRevenueQuery) : error :=
  match rq_FinancialPeriodStart query, rq_FinancialPeriodEnd query with
  | Some start, Some ends => refuse_if (Before ends start) (Invalid (New "financial period end is before the start"))
  | None, None => None
  | _, _ => Some (Invalid (New "financial period requires both bounds"))
  end.

(** ORDER BY provider, id. *)
(* internal/persistence/postgres/financial_report.go: transaction.productionApplications *)
Definition productionApplications (projectID : ProjectID) (db : financial_db) : list productionApplication :=
  merge_sort (fun x y => Is_true (pair_le (pa_provider x, pa_id x) (pa_provider y, pa_id y)))
    (map (fun entry => mkProductionApplication entry.1 (sa_Provider (app_Store entry.2)))
       (List.filter (fun entry => String.eqb (app_ProjectID entry.2) projectID
                                  && String.eqb (sa_Environment (app_Store entry.2)) EnvironmentProduction)
          (map_to_list (applications (fin_catalog db))))).

(** ORDER BY provider, period_end DESC, period_start DESC, created_at DESC, id DESC. *)
Definition accepted_le (x y : acceptedFinancialImport) : bool :=
  if negb (String.eqb (ai_Provider x) (ai_Provider y)) then String.ltb (ai_Provider x) (ai_Provider y)
  else if negb (ai_PeriodEnd x =? ai_PeriodEnd y) then ai_PeriodEnd y <? ai_PeriodEnd x
  else if negb (ai_PeriodStart x =? ai_PeriodStart y) then ai_PeriodStart y <? ai_PeriodStart x
  else if negb (ai_CreatedAt x =? ai_CreatedAt y) then ai_CreatedAt y <? ai_CreatedAt x
  else String.leb (ai_ID y) (ai_ID x).

Definition accepted_import (entry : string * import_report) : acceptedFinancialImport :=
  mkAcceptedImport entry.1 (rr_provider entry.2) (rr_kind entry.2) (rr_start entry.2) (rr_end entry.2) (rr_created entry.2).

(* internal/persistence/postgres/financial_report.go: transaction.acceptedFinancialImports *)
Definition acceptedFinancialImports (projectID : ProjectID) (db : financial_db) : list acceptedFinancialImport :=
  merge_sort (fun x y => Is_true (accepted_le x y))
    (map accepted_import (imports_where (fun row => String.eqb (rr_project row) projectID && rr_accepted row) db)).

(** The period the query asks for, if it asks for one. *)
(* internal/persistence/postgres/financial_report.go:746-751: chooseFinancialImports *)
Definition in_period (query : AdminRevenueQuery) (report : acceptedFinancialImport) : bool :=
  match rq_FinancialPeriodStart query with
  | Some start => sameFinancialDate (ai_PeriodStart report) start
                  && sameFinancialDate (ai_PeriodEnd report) (default zeroTime (rq_FinancialPeriodEnd query))
  | None => true
  end.

(* internal/persistence/postgres/financial_report.go:745-756: chooseFinancialImports *)
Definition choose_import (query : AdminRevenueQuery) (chosen : gmap Provider acceptedFinancialImport) (report : acceptedFinancialImport)
    : gmap Provider acceptedFinancialImport :=
  if negb (in_period query report) then chosen
  else if bool_decide (is_Some (chosen !! ai_Provider report)) then chosen
  else <[ai_Provider report := report]> chosen.

(* internal/persistence/postgres/financial_report.go: chooseFinancialImports *)
Definition chooseFinancialImports (imports : list acceptedFinancialImport) (query : AdminRevenueQuery)
    : gmap Provider acceptedFinancialImport := fold_left (choose_import query) imports ∅.

(* internal/persistence/postgres/financial_report.go: productionProviders *)
Definition productionProviders (applications : list productionApplication) : list Provider :=
  merge_sort (fun x y => Is_true (String.leb x y))
    (fold_left (fun providers application =>
       if contains_str providers (pa_provider application) then providers else providers ++ [pa_provider application])
       applications []).

(* internal/persistence/postgres/financial_report.go: providerReportCoverage *)
Definition providerReportCoverage (applications : list productionApplication) (provider : Provider)
    (amounts : list FinancialReportAmount) : providerCoverage :=
  let covered := map fra_CoveredApplicationID amounts in
  let apps := List.filter (fun application => String.eqb (pa_provider application) provider) applications in
  let missing := List.filter (fun id => negb (contains_str covered id)) (map pa_id apps) in
  let matched := (length apps - length missing)%nat in
  if Nat.eqb (length apps) 0 then mkCoverage true true []
  else if Nat.eqb matched 0 then mkCoverage false false []
  else if Nat.eqb (length missing) 0 then mkCoverage true true []
  else mkCoverage true false (merge_sort (fun x y => Is_true (String.leb x y)) missing).

(** *** Summing *)

Record sum_state : Type := mkSumState {
  ss_total : Decimal;
  ss_commission : string;
  ss_tax : string;
  ss_minorValid : bool;
  ss_running : Z
}.

(* internal/persistence/postgres/financial_report.go:855-871: sumRecognizedAmounts *)
Definition sum_minor (index : nat) (minor : option Z) (valid : bool) (running : Z) : bool * Z :=
  match minor with
  | None => (false, running)
  | Some minor =>
      if negb valid then (valid, running)
      else if Nat.eqb index 0 then (valid, minor)
      else let '(next, ok) := addInt64 running minor in if ok then (valid, next) else (false, running)
  end.

(* internal/persistence/postgres/financial_report.go:838-871: sumRecognizedAmounts *)
Definition sum_row (index : nat) (row : FinancialReportAmount) (st : sum_state) : option sum_state :=
  match ParseDecimal (fra_AmountDecimal row) with
  | Err _ => None
  | Ok parsed =>
      let '(valid, running) := sum_minor index (fra_MinorUnits row) (ss_minorValid st) (ss_running st) in
      if String.eqb (ss_commission st) EmptyString
      then Some (mkSumState parsed (fra_CommissionState row) (fra_TaxState row) valid running)
      else if negb (String.eqb (ss_commission st) (fra_CommissionState row)) || negb (String.eqb (ss_tax st) (fra_TaxState row))
      then None
      else match Decimal_Add (ss_total st) parsed with
           | Err _ => None
           | Ok summed => Some (mkSumState summed (ss_commission st) (ss_tax st) valid running)
           end
  end.

Fixpoint sum_rows (index : nat) (rows : list FinancialReportAmount) (st : sum_state) : option sum_state :=
  match rows with
  | [] => Some st
  | row :: rows' => st ← sum_row index row st; sum_rows (S index) rows' st
  end.

Definition currency_rows (currency : string) (rows : list FinancialReportAmount) : list FinancialReportAmount :=
  List.filter (fun row => String.eqb (fra_Currency row) currency) rows.

(* internal/persistence/postgres/financial_report.go:831-881: sumRecognizedAmounts *)
Definition sum_currency (provider : Provider) (report : acceptedFinancialImport) (rows : list FinancialReportAmount)
    (currency : string) : option AdminRecognizedAmount :=
  st ← sum_rows 0 (currency_rows currency rows) (mkSumState (mkDecimal None 0) EmptyString EmptyString true 0);
  Some (mkRecognized provider (ai_ReportKind report) (ai_PeriodStart report) (ai_PeriodEnd report) currency
          (Decimal_String (ss_total st)) (scale (ss_total st))
          (if ss_minorValid st then Some (ss_running st) else None) (ss_commission st) (ss_tax st)).

(** The currencies of the rows, sorted. *)
Definition currencies_of (rows : list FinancialReportAmount) : list string :=
  merge_sort (fun x y => Is_true (String.leb x y)) (elements (list_to_set (C := gset string) (map fra_Currency rows))).

(** [None] is an answer of [false]. *)
(* internal/persistence/postgres/financial_report.go: sumRecognizedAmounts *)
Definition sumRecognizedAmounts (provider : Provider) (report : acceptedFinancialImport) (rows : list FinancialReportAmount)
    : option (list AdminRecognizedAmount) := mapM (sum_currency provider report rows) (currencies_of rows).

(* internal/persistence/postgres/financial_report.go:650-669: recognizeProviderAmounts *)
Definition recognize_provider (applications : list productionApplication) (chosen : gmap Provider acceptedFinancialImport)
    (amountRows : gmap string (list FinancialReportAmount))
    (state : list AdminRecognizedAmount * list Provider * list ApplicationID * bool) (provider : Provider)
    : list AdminRecognizedAmount * list Provider * list ApplicationID * bool :=
  let '(amounts, uncovered, zeroFilled, allCovered) := state in
  let '(kind, known) := financialReportKind provider in
  let report := default (mkAcceptedImport EmptyString EmptyString EmptyString zeroTime zeroTime zeroTime) (chosen !! provider) in
  let selected := bool_decide (is_Some (chosen !! provider)) in
  let rows := default [] (amountRows !! ai_ID report) in
  let coverage := providerReportCoverage applications provider rows in
  if negb known || negb selected || negb (String.eqb (ai_ReportKind report) kind) || negb (cv_matched coverage)
  then (amounts, uncovered ++ [provider], zeroFilled, false)
  else match sumRecognizedAmounts provider report rows with
       | None => (amounts, uncovered ++ [provider], zeroFilled, false)
       | Some summed =>
           if negb (cv_complete coverage)
           then (amounts ++ summed, uncovered, zeroFilled ++ cv_zeroFilled coverage, false)
           else (amounts ++ summed, uncovered, zeroFilled, allCovered)
       end.

(* internal/persistence/postgres/financial_report.go: recognizeProviderAmounts *)
Definition recognizeProviderAmounts (applications : list productionApplication) (chosen : gmap Provider acceptedFinancialImport)
    (amountRows : gmap string (list FinancialReportAmount))
    : list AdminRecognizedAmount * list Provider * list ApplicationID * bool :=
  fold_left (recognize_provider applications chosen amountRows) (productionProviders applications) ([], [], [], true).

(* internal/persistence/postgres/financial_report.go: transaction.adminRecognizedRevenue *)
Definition adminRecognizedRevenue (projectID : ProjectID) (productionCount testCount : Z) (query : AdminRevenueQuery)
    (db : financial_db) : result AdminRevenue :=
  try* validateFinancialPeriod query in
  let revenue status minor amounts uncovered zeroFilled :=
    mkRevenue status minor amounts uncovered zeroFilled productionCount testCount in
  if productionCount =? 0
  then Ok (revenue (if 0 <? testCount then AdminRevenueSandboxOnly else AdminRevenueNoApplications) (Some 0) [] [] [])
  else
    let applications := productionApplications projectID db in
    if Nat.eqb (length applications) 0 then Ok (revenue AdminRevenueStoreReportsRequired None [] [] [])
    else
      let chosen := chooseFinancialImports (acceptedFinancialImports projectID db) query in
      let importIDs := map (fun entry => ai_ID entry.2) (map_range 32 (map_to_list chosen)) in
      let* amountRows := financialReportAmounts importIDs db in
      let '(amounts, uncovered, zeroFilled, allCovered) := recognizeProviderAmounts applications chosen amountRows in
      if negb allCovered then Ok (revenue AdminRevenueStoreReportsRequired None amounts uncovered zeroFilled)
      else Ok (revenue AdminRevenueReportsImported None amounts [] zeroFilled).
End Revenue.

(** ** The order of the accepted imports *)

#[export] Instance accepted_le_total : Total (fun x y => Is_true (accepted_le x y)).
Proof.
  intros x y. unfold accepted_le. rewrite (String.eqb_sym (ai_Provider y)), (Z.eqb_sym (ai_PeriodEnd y)), (Z.eqb_sym (ai_PeriodStart y)),
    (Z.eqb_sym (ai_CreatedAt y)).
  destruct (String.eqb_spec (ai_Provider x) (ai_Provider y)) as [E|E]; cbn [negb].
  - repeat match goal with |- context [Z.eqb ?a ?b] => destruct (Z.eqb_spec a b); cbn [negb];
      [|rewrite <- !Z.ltb_lt || idtac; destruct (Z.ltb_spec b a); [by left|right; apply Is_true_eq_left, Z.ltb_lt; lia]] end.
    destruct (String.leb_total (ai_ID y) (ai_ID x)) as [-> | ->]; [by left|by right].
  - destruct (String.ltb (ai_Provider x) (ai_Provider y)) eqn:Hxy; [by left|right].
    destruct (String.ltb (ai_Provider y) (ai_Provider x)) eqn:Hyx; [done|]. by destruct E; apply str_ltb_tie.
Qed.

#[export] Instance accepted_le_trans : Transitive (fun x y => Is_true (accepted_le x y)).
Proof.
  intros x y z. unfold accepted_le.
  destruct (String.eqb_spec (ai_Provider x) (ai_Provider y)) as [Exy|Exy], (String.eqb_spec (ai_Provider y) (ai_Provider z)) as [Eyz|Eyz];
    rewrite ?Exy, ?Eyz, ?String.eqb_refl in *; cbn [negb]; rewrite !Is_true_true.
  - repeat match goal with |- context [Z.eqb ?a ?b] => destruct (Z.eqb_spec a b); cbn [negb] end; rewrite ?Z.ltb_lt;
      try (intros; lia). intros H1 H2. by eapply str_leb_trans.
  - by rewrite (proj2 (String.eqb_neq _ _) Eyz).
  - by rewrite (proj2 (String.eqb_neq _ _) Exy).
  - intros H1 H2. pose proof (str_ltb_trans _ _ _ H1 H2) as H. destruct (String.eqb_spec (ai_Provider x) (ai_Provider z)) as [E|E]; [|done].
    by rewrite E, str_ltb_irrefl in H.
Qed.

(** ** The import chosen for a provider *)

Definition candidate (query : AdminRevenueQuery) (p : Provider) (report : acceptedFinancialImport) : bool :=
  in_period query report && String.eqb (ai_Provider report) p.

Lemma choose_import_lookup query chosen report p :
  choose_import query chosen report !! p
  = match chosen !! p with
    | Some found => Some found
    | None => if candidate query p report then Some report else None
    end.
Proof.
  unfold choose_import, candidate. destruct (in_period query report); cbn [negb andb]; [|by destruct (chosen !! p)].
  destruct (String.eqb_spec (ai_Provider report) p) as [<-|Hne].
  - destruct (chosen !! ai_Provider report) as [found|] eqn:E.
    + by rewrite bool_decide_eq_true_2.
    + rewrite bool_decide_eq_false_2 by (intros [? ?]; done). by rewrite lookup_insert_eq.
  - case_bool_decide; rewrite ?lookup_insert_ne by done; by destruct (chosen !! p).
Qed.

Lemma choose_lookup query imports (chosen : gmap Provider acceptedFinancialImport) p :
  fold_left (choose_import query) imports chosen !! p
  = match chosen !! p with Some found => Some found | None => List.find (candidate query p) imports end.
Proof.
  revert chosen. induction imports as [|r imports IH]; intros chosen; cbn [fold_left List.find]; [by destruct (chosen !! p)|].
  rewrite IH, choose_import_lookup. destruct (chosen !! p); [done|]. by destruct (candidate query p r).
Qed.

Lemma find_sorted {A} (R : A -> A -> Prop) (f : A -> bool) l x :
  Reflexive R -> StronglySorted R l -> List.find f l = Some x -> x ∈ l /\ f x = true /\ forall y, y ∈ l -> f y = true -> R x y.
Proof.
  intros Hrefl. induction 1 as [|a l Hs IH Hall]; cbn [List.find]; [done|]. destruct (f a) eqn:E.
  - intros [= <-]. split_and!; [by left|done|]. intros y [-> |Hy]%elem_of_cons _; [apply Hrefl|]. rewrite Forall_forall in Hall. by apply Hall.
  - intros (Hx & Hf & Hbest)%IH. split_and!; [by right|done|]. intros y [-> |Hy]%elem_of_cons Hfy; [congruence|by apply Hbest].
Qed.

(** The import a query is answered from: of the provider's accepted imports in the period, the
    one whose period ends last, and where that is the same starts last or was stored last. *)
Definition chosen_import (projectID : ProjectID) (query : AdminRevenueQuery) (p : Provider) (db : financial_db)
    (id : string) (row : import_report) : Prop :=
  let eligible id row := fin_imports db !! id = Some row /\ rr_project row = projectID /\ rr_accepted row = true /\
    rr_provider row = p /\ in_period query (accepted_import (id, row)) = true in
  eligible id row /\
  forall id' row', eligible id' row' -> Is_true (accepted_le (accepted_import (id, row)) (accepted_import (id', row'))).

Lemma accepted_import_elem projectID db r :
  r ∈ acceptedFinancialImports projectID db <-> exists id row, r = accepted_import (id, row) /\ fin_imports db !! id = Some row /\
    rr_project row = projectID /\ rr_accepted row = true.
Proof.
  unfold acceptedFinancialImports. rewrite merge_sort_Permutation, list_elem_of_fmap. split.
  - intros ([id row] & -> & [[Hp%String.eqb_eq Ha]%andb_true_iff Hrow]%imports_where_elem). by exists id, row.
  - intros (id & row & -> & Hrow & Hp & Ha). exists (id, row). split; [done|]. apply imports_where_elem. cbn. by rewrite Hp, String.eqb_refl, Ha.
Qed.

Lemma chosen_lookup projectID query db p r :
  chooseFinancialImports (acceptedFinancialImports projectID db) query !! p = Some r ->
  exists id row, r = accepted_import (id, row) /\ chosen_import projectID query p db id row.
Proof.
  unfold chooseFinancialImports. rewrite choose_lookup, lookup_empty. intros H.
  apply (find_sorted (fun x y => Is_true (accepted_le x y))) in H as (Hin & Hf & Hbest);
    [|intros x; by destruct (accepted_le_total x x)|apply StronglySorted_merge_sort; apply _].
  apply accepted_import_elem in Hin as (id & row & -> & Hrow & Hp & Ha). exists id, row. split; [done|].
  unfold candidate in Hf. apply andb_true_iff in Hf as [Hperiod Hprov%String.eqb_eq]. split; [done|].
  intros id' row' (Hrow' & Hp' & Ha' & Hprov' & Hperiod'). apply Hbest; [apply accepted_import_elem; by exists id', row'|].
  unfold candidate. rewrite Hperiod'. cbn. by rewrite Hprov', String.eqb_refl.
Qed.

(** ** The sum of a currency *)

(** An amount as its digits, and its minor units where it has them. *)
Definition amount_units (amount : FinancialReportAmount) : Z :=
  match ParseDecimal (fra_AmountDecimal amount) with Ok d => unscaled d | Err _ => 0 end.
Definition amount_minor (amount : FinancialReportAmount) : Z := default 0 (fra_MinorUnits amount).

Lemma ParseDecimal_unscaled raw d : ParseDecimal raw = Ok d -> d = mkDecimal (Some (unscaled d)) (scale d).
Proof.
  unfold ParseDecimal. intros H. repeat case_match; try done; injection H as <-; done.
Qed.

(** What a sum is of: at least one amount, all of one scale and of the same states. *)
Record summed (l : list FinancialReportAmount) (st : sum_state) : Prop := {
  sm_total : ss_total st = mkDecimal (Some (total_of amount_units l)) (scale (ss_total st));
  sm_each : forall amount, amount ∈ l -> ParseDecimal (fra_AmountDecimal amount) = Ok (mkDecimal (Some (amount_units amount)) (scale (ss_total st))) /\
    fra_CommissionState amount = ss_commission st /\ fra_TaxState amount = ss_tax st;
  sm_minor : ss_minorValid st = true -> ss_running st = total_of amount_minor l /\ forall amount, amount ∈ l -> is_Some (fra_MinorUnits amount)
}.

Lemma parsed_units amount d : ParseDecimal (fra_AmountDecimal amount) = Ok d ->
  ParseDecimal (fra_AmountDecimal amount) = Ok (mkDecimal (Some (amount_units amount)) (scale d)).
Proof. intros H. unfold amount_units. rewrite H. f_equal. by eapply ParseDecimal_unscaled. Qed.

Lemma addInt64_exact l r v : addInt64 l r = (v, true) -> v = l + r.
Proof. unfold addInt64. destruct (_ && _); [done|]. destruct (_ && _); [done|]. by intros [= <-]. Qed.

Lemma sum_row_first amount st :
  fra_CommissionState amount <> EmptyString -> sum_row 0 amount (mkSumState (mkDecimal None 0) EmptyString EmptyString true 0) = Some st ->
  summed [amount] st.
Proof.
  intros Hne. unfold sum_row. destruct (ParseDecimal (fra_AmountDecimal amount)) as [d|] eqn:Hd; [|done].
  destruct (sum_minor _ _ _ _) as [valid running] eqn:Hm. cbn [ss_commission ss_minorValid ss_running String.eqb] in *. intros [= <-].
  constructor; cbn.
  - rewrite Z.add_0_r. unfold amount_units. rewrite Hd. by apply (ParseDecimal_unscaled (fra_AmountDecimal amount)).
  - intros a ->%list_elem_of_singleton. split; [by apply parsed_units|done].
  - intros ->. unfold sum_minor in Hm. unfold amount_minor. destruct (fra_MinorUnits amount) as [m|] eqn:E; [|by injection Hm].
    injection Hm as <-. split; [cbn; lia|]. intros a ->%list_elem_of_singleton. by rewrite E.
Qed.

Lemma sum_row_next index seen amount st st' :
  seen <> [] -> ss_commission st <> EmptyString -> (0 < index)%nat -> summed seen st -> sum_row index amount st = Some st' ->
  summed (seen ++ [amount]) st' /\ ss_commission st' <> EmptyString.
Proof.
  intros Hseen Hne Hi [Htotal Heach Hminor]. unfold sum_row. destruct (ParseDecimal (fra_AmountDecimal amount)) as [d|] eqn:Hd; [|done].
  destruct (sum_minor _ _ _ _) as [valid running] eqn:Hm. rewrite (proj2 (String.eqb_neq _ _) Hne).
  destruct (String.eqb_spec (ss_commission st) (fra_CommissionState amount)) as [Hc|]; [|done].
  destruct (String.eqb_spec (ss_tax st) (fra_TaxState amount)) as [Ht|]; [|done]. cbn [negb orb].
  destruct (Decimal_Add (ss_total st) d) as [sum|] eqn:Hadd; [|done]. intros [= <-]. split; [|done].
  rewrite Htotal, (ParseDecimal_unscaled _ _ Hd) in Hadd. unfold Decimal_Add in Hadd. cbn [coefficient scale] in Hadd.
  destruct (Z.eqb_spec (scale (ss_total st)) (scale d)) as [Hs|]; [|done]. cbn [negb] in Hadd. injection Hadd as <-.
  assert (Hu : unscaled d = amount_units amount) by (unfold amount_units; by rewrite Hd).
  constructor; cbn.
  - rewrite total_app. cbn. by rewrite Z.add_0_r, Hu.
  - intros a [Ha|Ha%list_elem_of_singleton]%elem_of_app; [by apply Heach|]. subst a. split; [|done]. rewrite Hs. by apply parsed_units.
  - intros ->. unfold sum_minor in Hm. destruct (fra_MinorUnits amount) as [m|] eqn:E; [|by injection Hm].
    destruct (ss_minorValid st); cbn [negb] in Hm; [|by injection Hm]. destruct Hminor as [Hrun Hall]; [done|].
    destruct index as [|index]; [lia|]. cbn [Nat.eqb] in Hm. destruct (addInt64 (ss_running st) m) as [next ok] eqn:Ha.
    destruct ok; [|by injection Hm]. injection Hm as <-. apply addInt64_exact in Ha as ->. split.
    + rewrite total_app, total_cons, Hrun. unfold amount_minor at 3. rewrite E. cbn. lia.
    + intros a [Hin|Hin%list_elem_of_singleton]%elem_of_app; [by apply Hall|]. subst a. by rewrite E.
Qed.

Lemma sum_rows_next index seen rows st st' :
  seen <> [] -> ss_commission st <> EmptyString -> (0 < index)%nat -> summed seen st -> sum_rows index rows st = Some st' -> summed (seen ++ rows) st'.
Proof.
  revert index seen st. induction rows as [|row rows IH]; intros index seen st Hseen Hne Hi Hs; cbn [sum_rows].
  { intros [= <-]. by rewrite app_nil_r. }
  intros (st1 & Hone & H)%bind_Some. destruct (sum_row_next _ _ _ _ _ Hseen Hne Hi Hs Hone) as [Hs1 Hne1].
  rewrite cons_middle, app_assoc. eapply IH; [|exact Hne1| |exact Hs1|exact H]; [by destruct seen|lia].
Qed.

Lemma sum_rows_exact rows st :
  rows <> [] -> (forall amount, amount ∈ rows -> fra_CommissionState amount <> EmptyString) ->
  sum_rows 0 rows (mkSumState (mkDecimal None 0) EmptyString EmptyString true 0) = Some st -> summed rows st.
Proof.
  destruct rows as [|row rows]; [done|]. intros _ Hne. cbn [sum_rows]. intros (st1 & Hone & H)%bind_Some.
  assert (Hrow : fra_CommissionState row <> EmptyString) by (apply Hne; by left).
  apply sum_row_first in Hone; [|done]. apply (sum_rows_next 1 [row] rows st1 st); [done| |lia|exact Hone|exact H].
  destruct (sm_each _ _ Hone row) as (_ & <- & _); [by left|done].
Qed.

(** ** What is recognized *)

(** What one provider adds: its amounts and whether they cover its applications. *)
Definition provider_amounts (applications : list productionApplication) (chosen : gmap Provider acceptedFinancialImport)
    (amountRows : gmap string (list FinancialReportAmount)) (provider : Provider) : option (list AdminRecognizedAmount * bool) :=
  report ← chosen !! provider;
  let rows := default [] (amountRows !! ai_ID report) in
  let coverage := providerReportCoverage applications provider rows in
  let '(kind, known) := financialReportKind provider in
  if negb known || negb (String.eqb (ai_ReportKind report) kind) || negb (cv_matched coverage) then None
  else summed ← sumRecognizedAmounts provider report rows; Some (summed, cv_complete coverage).

Lemma recognize_provider_eq applications chosen amountRows amounts uncovered zeroFilled allCovered p :
  exists uncovered' zeroFilled',
    recognize_provider applications chosen amountRows (amounts, uncovered, zeroFilled, allCovered) p
    = (amounts ++ from_option fst [] (provider_amounts applications chosen amountRows p), uncovered', zeroFilled',
       allCovered && from_option snd false (provider_amounts applications chosen amountRows p)).
Proof.
  unfold recognize_provider, provider_amounts. destruct (financialReportKind p) as [kind known].
  destruct (chosen !! p) as [report|]; cbn [option_bind mbind default from_option id].
  - rewrite bool_decide_eq_true_2 by done. cbn [negb]. rewrite orb_false_r. destruct (negb known || _ || _).
    { eexists _, _. cbn. by rewrite app_nil_r, andb_false_r. }
    destruct (sumRecognizedAmounts _ _ _) as [summed|]; cbn [option_bind mbind]; [|eexists _, _; cbn; by rewrite app_nil_r, andb_false_r].
    destruct (cv_complete _); eexists _, _; cbn; by rewrite ?andb_true_r, ?andb_false_r.
  - rewrite bool_decide_eq_false_2 by (intros [? ?]; done). cbn [negb]. rewrite orb_true_r. eexists _, _. cbn. by rewrite app_nil_r, andb_false_r.
Qed.

Lemma recognize_all applications chosen amountRows ps amounts uncovered zeroFilled allCovered :
  exists uncovered' zeroFilled',
    fold_left (recognize_provider applications chosen amountRows) ps (amounts, uncovered, zeroFilled, allCovered)
    = (amounts ++ concat (map (fun p => from_option fst [] (provider_amounts applications chosen amountRows p)) ps), uncovered', zeroFilled',
       allCovered && forallb (fun p => from_option snd false (provider_amounts applications chosen amountRows p)) ps).
Proof.
  revert amounts uncovered zeroFilled allCovered. induction ps as [|p ps IH]; intros amounts uncovered zeroFilled allCovered.
  { eexists _, _. cbn. by rewrite app_nil_r, andb_true_r. }
  cbn [fold_left]. destruct (recognize_provider_eq applications chosen amountRows amounts uncovered zeroFilled allCovered p) as (u & z & ->).
  destruct (IH (amounts ++ from_option fst [] (provider_amounts applications chosen amountRows p)) u z
              (allCovered && from_option snd false (provider_amounts applications chosen amountRows p))) as (u' & z' & ->).
  exists u', z'. cbn [map concat forallb]. by rewrite app_assoc, andb_assoc.
Qed.

Lemma productionProviders_elem applications p : p ∈ productionProviders applications <-> exists a, a ∈ applications /\ pa_provider a = p.
Proof.
  unfold productionProviders. rewrite merge_sort_Permutation.
  assert (H : forall seen, p ∈ fold_left (fun providers application => if contains_str providers (pa_provider application) then providers
                else providers ++ [pa_provider application]) applications seen <-> p ∈ seen \/ exists a, a ∈ applications /\ pa_provider a = p).
  { induction applications as [|a applications IH]; intros seen; cbn [fold_left].
    - split; [by left|]. intros [H|(a & Ha & _)]; [done|by apply not_elem_of_nil in Ha].
    - rewrite IH. setoid_rewrite elem_of_cons. destruct (contains_str seen (pa_provider a)) eqn:E.
      + apply contains_str_In, list_elem_of_In in E. split; [naive_solver|]. intros [H|(b & [-> |Hb] & Hp)]; [by left|left; by subst|right; eauto].
      + rewrite elem_of_app, list_elem_of_singleton. split; [intros [[H|H]|H]; naive_solver|]. intros [H|(b & [-> |Hb] & Hp)]; naive_solver. }
  rewrite H. split; [|by right]. intros [Hn|Hn]; [by apply not_elem_of_nil in Hn|done].
Qed.

Lemma currencies_elem rows c : c ∈ currencies_of rows <-> exists amount, amount ∈ rows /\ fra_Currency amount = c.
Proof.
  unfold currencies_of. rewrite merge_sort_Permutation, elem_of_elements, elem_of_list_to_set, list_elem_of_fmap. naive_solver.
Qed.

Lemma currency_rows_elem c rows amount : amount ∈ currency_rows c rows <-> amount ∈ rows /\ fra_Currency amount = c.
Proof. unfold currency_rows. by rewrite list_elem_of_In, filter_In, <- list_elem_of_In, String.eqb_eq. Qed.

Lemma Forall2_inside {A B} (P Q : A -> B -> Prop) l k : Forall2 P l k -> (forall x y, x ∈ l -> P x y -> Q x y) -> Forall2 Q l k.
Proof.
  induction 1 as [|x y l k Hxy _ IH]; intros HQ; constructor; [apply HQ; [by left|done]|].
  apply IH. intros x' y' Hx'. apply HQ. by right.
Qed.

Definition stored_in (db : financial_db) (id : string) (amount : FinancialReportAmount) : Prop :=
  fin_amounts db !! (id, amount_scope amount) = Some (row_of_amount amount).

(** A recognized amount as the exact sum of the amounts of an import in its currency. *)
Definition exact_sum (db : financial_db) (id : string) (row : import_report) (recognized : AdminRecognizedAmount) : Prop :=
  ra_Provider recognized = rr_provider row /\ ra_ReportKind recognized = rr_kind row /\
  ra_PeriodStart recognized = rr_start row /\ ra_PeriodEnd recognized = rr_end row /\
  exists amounts, amounts <> [] /\ NoDup amounts /\
    (forall amount, amount ∈ amounts <-> stored_in db id amount /\ fra_Currency amount = ra_Currency recognized) /\
    (forall amount, amount ∈ amounts ->
       ParseDecimal (fra_AmountDecimal amount) = Ok (mkDecimal (Some (amount_units amount)) (ra_AmountScale recognized)) /\
       fra_CommissionState amount = ra_CommissionState recognized /\ fra_TaxState amount = ra_TaxState recognized) /\
    ra_AmountDecimal recognized = Decimal_String (mkDecimal (Some (total_of amount_units amounts)) (ra_AmountScale recognized)) /\
    forall minor, ra_MinorUnits recognized = Some minor ->
      minor = total_of amount_minor amounts /\ forall amount, amount ∈ amounts -> is_Some (fra_MinorUnits amount).

Section Exact.
Context (projectID : ProjectID) (query : AdminRevenueQuery) (db : financial_db).
Hypothesis Hwf : financial_wf db.

Lemma sum_currency_exact p id row rows c recognized :
  rr_provider row = p -> NoDup rows -> (forall amount, amount ∈ rows <-> stored_in db id amount) -> c ∈ currencies_of rows ->
  sum_currency p (accepted_import (id, row)) rows c = Some recognized -> exact_sum db id row recognized /\ ra_Currency recognized = c.
Proof.
  intros Hp Hnd Hrows (amount & Hin & Hc)%currencies_elem. unfold sum_currency. intros (st & Hsum & [= <-])%bind_Some.
  apply sum_rows_exact in Hsum as [Htotal Heach Hminor].
  - split; [|done]. split_and!; [done..|]. exists (currency_rows c rows). cbn. split_and!.
    + intros Hnil. assert (H : amount ∈ currency_rows c rows) by (by apply currency_rows_elem). rewrite Hnil in H. by apply not_elem_of_nil in H.
    + unfold currency_rows. by apply NoDup_ListNoDup, List.NoDup_filter, NoDup_ListNoDup.
    + intros a. by rewrite currency_rows_elem, Hrows.
    + exact Heach.
    + by rewrite Htotal.
    + intros minor. destruct (ss_minorValid st); [|done]. intros [= <-]. by apply Hminor.
  - intros Hnil. assert (H : amount ∈ currency_rows c rows) by (by apply currency_rows_elem). rewrite Hnil in H. by apply not_elem_of_nil in H.
  - intros a [Ha _]%currency_rows_elem. apply Hrows in Ha. destruct (fw_amount _ Hwf _ _ _ _ Ha) as (_ & Hvalid & _).
    unfold amount_valid in Hvalid. cbn [am_commission row_of_amount] in Hvalid. intros He. rewrite He in Hvalid.
    change (contains_str [FinancialReportCommissionIncluded; FinancialReportCommissionUnknown] EmptyString) with false in Hvalid.
    by rewrite andb_false_r in Hvalid.
Qed.

(** An application is covered by an amount. *)
Lemma coverage_complete applications p rows a :
  cv_complete (providerReportCoverage applications p rows) = true -> a ∈ applications -> pa_provider a = p ->
  exists amount, amount ∈ rows /\ fra_CoveredApplicationID amount = pa_id a.
Proof.
  intros Hc Ha Hp. unfold providerReportCoverage in Hc. cbv zeta in Hc.
  set (apps := List.filter (fun application => String.eqb (pa_provider application) p) applications) in *.
  assert (Hin : In a apps) by (apply filter_In; rewrite String.eqb_eq; split; [by apply list_elem_of_In|done]).
  destruct (Nat.eqb_spec (length apps) 0) as [E|_]; [by destruct apps|].
  destruct (Nat.eqb _ 0); [done|]. destruct (List.filter _ (map pa_id apps)) as [|m ms] eqn:Em; [|done].
  destruct (contains_str (map fra_CoveredApplicationID rows) (pa_id a)) eqn:Ec.
  - apply contains_str_In, in_map_iff in Ec as (amount & Heq & Hamount%list_elem_of_In). by exists amount.
  - exfalso. assert (Hm : In (pa_id a) (List.filter (fun id => negb (contains_str (map fra_CoveredApplicationID rows) id)) (map pa_id apps))).
    { apply filter_In. rewrite Ec. split; [by apply in_map|done]. }
    by rewrite Em in Hm.
Qed.

Let chosen := chooseFinancialImports (acceptedFinancialImports projectID db) query.

Lemma chosen_asked `{Horder : !GoMapRange} p report :
  chosen !! p = Some report -> In (ai_ID report) (map (fun entry => ai_ID entry.2) (map_range 32 (map_to_list chosen))).
Proof.
  intros H%elem_of_map_to_list. apply in_map_iff. exists (p, report). split; [done|]. apply list_elem_of_In. by rewrite map_range_perm.
Qed.

Lemma provider_exact applications ids grouped p summed complete :
  financialReportAmounts ids db = Ok grouped -> (forall q report, chosen !! q = Some report -> In (ai_ID report) ids) ->
  provider_amounts applications chosen grouped p = Some (summed, complete) ->
  exists id row, chosen_import projectID query p db id row /\ NoDup (map ra_Currency summed) /\
    (forall recognized, recognized ∈ summed -> exact_sum db id row recognized) /\
    (forall amount, stored_in db id amount -> exists recognized, recognized ∈ summed /\ ra_Currency recognized = fra_Currency amount) /\
    (complete = true -> forall a, a ∈ applications -> pa_provider a = p ->
       exists amount, stored_in db id amount /\ fra_CoveredApplicationID amount = pa_id a).
Proof.
  intros Hg Hids. unfold provider_amounts. intros (report & Hreport & H)%bind_Some. destruct (financialReportKind p) as [kind known].
  destruct (_ || _); [done|]. apply bind_Some in H as (sums & Hsums & [= <- <-]).
  destruct (chosen_lookup _ _ _ _ _ Hreport) as (id & row & -> & Hchosen). exists id, row.
  destruct (import_amounts _ _ _ id Hwf Hg) as [Hnd Hrows]; [by apply (Hids p _ Hreport)|].
  cbn [ai_ID accepted_import fst] in Hsums |- *. set (rows := default [] (grouped !! id)) in *.
  apply mapM_Some in Hsums. assert (Hp : rr_provider row = p) by apply Hchosen.
  assert (Hall : Forall2 (fun c r => exact_sum db id row r /\ ra_Currency r = c) (currencies_of rows) sums).
  { eapply Forall2_inside; [exact Hsums|]. intros c r Hin Hr. by eapply sum_currency_exact. }
  assert (Hcurrencies : map ra_Currency sums = currencies_of rows).
  { clear -Hall. induction Hall as [|c r cs rs [_ Hc] _ IH]; [done|]. cbn. by rewrite IH, Hc. }
  split_and!; [done| | | |].
  - rewrite Hcurrencies. unfold currencies_of. rewrite merge_sort_Permutation. apply NoDup_elements.
  - intros r [i Hi]%list_elem_of_lookup. destruct (Forall2_lookup_r _ _ _ _ _ Hall Hi) as (c & _ & Hr & _). done.
  - intros amount Ha%Hrows. assert (Hc : fra_Currency amount ∈ map ra_Currency sums) by (rewrite Hcurrencies; apply currencies_elem; by exists amount).
    apply list_elem_of_fmap in Hc as (r & -> & Hr). by exists r.
  - intros Hc a Ha Hap. destruct (coverage_complete _ _ _ _ Hc Ha Hap) as (amount & Hin%Hrows & Heq). by exists amount.
Qed.
End Exact.

Lemma productionProviders_once applications : NoDup (productionProviders applications).
Proof.
  unfold productionProviders. rewrite merge_sort_Permutation.
  assert (H : forall seen, NoDup seen -> NoDup (fold_left (fun providers application => if contains_str providers (pa_provider application)
                then providers else providers ++ [pa_provider application]) applications seen)).
  { induction applications as [|a applications IH]; intros seen Hseen; cbn [fold_left]; [done|]. apply IH.
    destruct (contains_str seen (pa_provider a)) eqn:E; [done|]. rewrite contains_str_not_In, <- list_elem_of_In in E.
    apply NoDup_app. split_and!; [done| |apply NoDup_singleton]. by intros x Hx ->%list_elem_of_singleton. }
  apply H, NoDup_nil_2.
Qed.

Lemma productionApplications_elem projectID db a :
  a ∈ productionApplications projectID db <-> exists app, applications (fin_catalog db) !! pa_id a = Some app /\
    app_ProjectID app = projectID /\ sa_Environment (app_Store app) = EnvironmentProduction /\ pa_provider a = sa_Provider (app_Store app).
Proof.
  unfold productionApplications. rewrite merge_sort_Permutation, list_elem_of_fmap. split.
  - intros ([id app] & -> & H). rewrite list_elem_of_In, filter_In, <- list_elem_of_In, elem_of_map_to_list in H. cbn in H.
    rewrite andb_true_iff, !String.eqb_eq in H. exists app. naive_solver.
  - intros (app & Happ & Hp & He & Hprov). exists (pa_id a, app). split; [destruct a; cbn in *; by rewrite Hprov|].
    rewrite list_elem_of_In, filter_In, <- list_elem_of_In, elem_of_map_to_list. cbn. by rewrite Hp, He, !String.eqb_refl.
Qed.

(** The pairs of a concatenation whose groups are of different keys. *)
Lemma concat_once {A B} (f : A -> list B) (key : B -> A) (k : B -> string) l :
  NoDup l -> (forall x, x ∈ l -> NoDup (map k (f x)) /\ forall y, y ∈ f x -> key y = x) ->
  NoDup (map (fun y => (key y, k y)) (concat (map f l))).
Proof.
  induction 1 as [|x l Hx _ IH]; intros Hf; cbn [map concat]; [apply NoDup_nil_2|].
  rewrite map_app. destruct (Hf x) as [Hk Hkey]; [by left|]. apply NoDup_app. split_and!.
  - assert (Heq : map (fun y => (key y, k y)) (f x) = map (fun c => (x, c)) (map k (f x))).
    { rewrite map_map. apply map_ext_in. intros y Hy%list_elem_of_In. by rewrite Hkey. }
    rewrite Heq. apply NoDup_fmap_2; [|done]. by intros ? ? [=].
  - intros p (y & -> & Hy)%list_elem_of_fmap (z & Hz & Hin)%list_elem_of_fmap.
    rewrite list_elem_of_In, in_concat in Hin. destruct Hin as (g & (x' & <- & Hx'%list_elem_of_In)%in_map_iff & Hg%list_elem_of_In).
    destruct (Hf x') as [_ Hkey']; [by right|]. injection Hz as Hz _. rewrite (Hkey _ Hy), (Hkey' _ Hg) in Hz. by subst.
  - apply IH. intros y Hy. apply Hf. by right.
Qed.

(** What a query answers: every amount from the one import chosen for its provider, its
    currency's exact sum, once; and where the reports are called imported, every production
    application of the project covered. *)
Record revenue_sound (projectID : ProjectID) (query : AdminRevenueQuery) (db : financial_db) (productionCount : Z) (revenue : AdminRevenue) : Prop := {
  rv_exact : forall recognized, recognized ∈ ar_Amounts revenue ->
    exists id row, chosen_import projectID query (ra_Provider recognized) db id row /\ exact_sum db id row recognized;
  rv_once : NoDup (map (fun recognized => (ra_Provider recognized, ra_Currency recognized)) (ar_Amounts revenue));
  rv_covered : ar_Status revenue = AdminRevenueReportsImported ->
    forall id app, applications (fin_catalog db) !! id = Some app -> app_ProjectID app = projectID ->
      sa_Environment (app_Store app) = EnvironmentProduction ->
      exists report row, chosen_import projectID query (sa_Provider (app_Store app)) db report row /\
        (exists amount, stored_in db report amount /\ fra_CoveredApplicationID amount = id) /\
        forall amount, stored_in db report amount -> exists recognized, recognized ∈ ar_Amounts revenue /\
          ra_Provider recognized = sa_Provider (app_Store app) /\ ra_Currency recognized = fra_Currency amount;
  rv_zero : forall minor, ar_RecognizedMinorUnits revenue = Some minor -> minor = 0 /\ productionCount = 0 /\ ar_Amounts revenue = []
}.

Lemma no_amounts_sound projectID query db productionCount status minor testCount uncovered zeroFilled :
  status <> AdminRevenueReportsImported -> (forall m, minor = Some m -> m = 0 /\ productionCount = 0) ->
  revenue_sound projectID query db productionCount (mkRevenue status minor [] uncovered zeroFilled productionCount testCount).
Proof.
  intros Hs Hm. constructor; cbn.
  - intros r Hr. by apply not_elem_of_nil in Hr.
  - apply NoDup_nil_2.
  - done.
  - intros m Hm'. by destruct (Hm m Hm').
Qed.

(** What one provider of the project adds to the answer. *)
Lemma recognized_by `{Horder : !GoMapRange} projectID query db (Hwf : financial_wf db) applications grouped p :
  let chosen := chooseFinancialImports (acceptedFinancialImports projectID db) query in
  financialReportAmounts (map (fun entry => ai_ID entry.2) (map_range 32 (map_to_list chosen))) db = Ok grouped ->
  let added := provider_amounts applications chosen grouped p in
  NoDup (map ra_Currency (from_option fst [] added)) /\
  (forall r, r ∈ from_option fst [] added -> ra_Provider r = p /\
     exists id row, chosen_import projectID query (ra_Provider r) db id row /\ exact_sum db id row r) /\
  (from_option snd false added = true -> forall a, a ∈ applications -> pa_provider a = p ->
     exists id row, chosen_import projectID query p db id row /\ (exists amount, stored_in db id amount /\ fra_CoveredApplicationID amount = pa_id a) /\
       forall amount, stored_in db id amount -> exists r, r ∈ from_option fst [] added /\ ra_Currency r = fra_Currency amount).
Proof.
  intros chosen Hg added. destruct added as [[summed complete]|] eqn:E; cbn.
  - destruct (provider_exact projectID query db Hwf applications _ grouped p summed complete Hg (chosen_asked projectID query db) E)
      as (id & row & Hchosen & Hnd & Hsum & Hall & Hcover).
    split_and!; [done| |].
    + intros r Hr. assert (Hp : ra_Provider r = p) by (destruct (Hsum _ Hr) as (-> & _); apply Hchosen). split; [done|].
      exists id, row. rewrite Hp. split; [done|by apply Hsum].
    + intros Hc a Ha Hap. exists id, row. split_and!; [done|by apply Hcover|done].
  - split_and!; [apply NoDup_nil_2|intros r Hr; by apply not_elem_of_nil in Hr|done].
Qed.

(** C35. Recognized revenue is what the accepted reports say.  On a sound store a query whose
    answer is not refused gives amounts of one import for each provider: of the accepted imports
    of the project in the period asked for, the one whose period ends last; each amount is the
    exact sum of that import's amounts in its currency, which have one scale and the same
    commission and tax states, its minor units are their sum or absent, and no provider and
    currency appears twice.  The reports are called imported only when every production
    application of the project has an amount in its provider's import, and every currency of
    that import is answered; and no total is given except the zero of a project without
    production applications. *)
Theorem revenue_exact `{Horder : !GoMapRange} projectID productionCount testCount query db revenue :
  financial_wf db -> adminRecognizedRevenue projectID productionCount testCount query db = Ok revenue ->
  revenue_sound projectID query db productionCount revenue.
Proof.
  intros Hwf [_ H]%try_err_ok. cbv zeta in H. destruct (Z.eqb_spec productionCount 0) as [Hz|Hz].
  { injection H as <-. apply no_amounts_sound; [by destruct (0 <? testCount)|by intros m [= <-]]. }
  destruct (Nat.eqb_spec (length (productionApplications projectID db)) 0).
  { injection H as <-. by apply no_amounts_sound. }
  apply bind_result_ok in H as (grouped & Hg & H). unfold recognizeProviderAmounts in H.
  set (apps := productionApplications projectID db) in *. set (chosen := chooseFinancialImports _ query) in *.
  destruct (recognize_all apps chosen grouped (productionProviders apps) [] [] [] true) as (u & z & Hall). rewrite Hall in H.
  set (amounts := concat _) in *. cbn [app andb] in H.
  pose proof (fun p => recognized_by projectID query db Hwf apps grouped p Hg) as Hby. fold chosen in Hby.
  assert (Hexact : forall r, r ∈ amounts -> exists id row, chosen_import projectID query (ra_Provider r) db id row /\ exact_sum db id row r).
  { intros r Hr. unfold amounts in Hr. rewrite list_elem_of_In, in_concat in Hr. destruct Hr as (g & (p & <- & _)%in_map_iff & Hr%list_elem_of_In).
    destruct (Hby p) as (_ & Hby' & _). destruct (Hby' _ Hr) as (<- & Hr'). exact Hr'. }
  assert (Honce : NoDup (map (fun r => (ra_Provider r, ra_Currency r)) amounts)).
  { apply (concat_once _ ra_Provider); [apply productionProviders_once|]. intros p _. destruct (Hby p) as (Hnd & Hby' & _).
    split; [done|]. intros r Hr. by apply Hby'. }
  destruct (forallb _ _) eqn:Ecov; injection H as <-; constructor; cbn; try done.
  intros _ id app Happ Hp He. rewrite forallb_forall in Ecov.
  assert (Hin : mkProductionApplication id (sa_Provider (app_Store app)) ∈ apps) by (apply productionApplications_elem; by exists app).
  assert (Hpp : sa_Provider (app_Store app) ∈ productionProviders apps) by (apply productionProviders_elem; by eexists).
  destruct (Hby (sa_Provider (app_Store app))) as (_ & Hby' & Hcover).
  destruct (Hcover (Ecov _ (proj1 (list_elem_of_In _ _) Hpp)) _ Hin eq_refl) as (report & row & Hchosen & Hamount & Hcur).
  exists report, row. split_and!; [done|done|]. intros amount Ha. destruct (Hcur _ Ha) as (r & Hr & Hc). exists r.
  split_and!; [|by apply Hby'|done]. unfold amounts. rewrite list_elem_of_In, in_concat. eexists. split; [|apply list_elem_of_In, Hr].
  apply in_map_iff. eexists. split; [done|]. by apply list_elem_of_In.
Qed.

(** ** Witnesses *)

(** A project with one application in production, at Apple, and one accepted file. *)
Definition apple_only : financial_db :=
  mkFinancialDb
    (run_catalog_all [CallProject "project-1"; CallApplication (mkApplication "app-2" "project-1"
                        (mkStoreApplication ProviderAppleAppStore EnvironmentProduction "6740000001"))]%string no_catalog).2
    ∅ ∅.
Definition apple_saved : financial_db :=
  Eval vm_compute in (pg_SaveFinancialReport (Horder := range_in_order) (4 * Second) (Ok "aaaaaaaaaaaaaaaa"%string) first_file apple_only).2.

Lemma apple_saved_wf : financial_wf apple_saved.
Proof.
  assert (H : exists report, pg_SaveFinancialReport (Horder := range_in_order) (4 * Second) (Ok "aaaaaaaaaaaaaaaa"%string) first_file apple_only
                             = (Ok (report, true), apple_saved)) by (eexists; vm_compute; reflexivity).
  destruct H as [report H]. destruct (pg_Save_ok (Horder := range_in_order) _ _ _ _ _ _ _ H) as (_ & _ & Hwf & _); [|done].
  by constructor; intros *; cbn; rewrite lookup_empty.
Qed.

Definition apple_revenue : AdminRevenue :=
  Eval vm_compute in match adminRecognizedRevenue (Horder := range_in_order) "project-1" 1 0 (mkRevenueQuery None None) apple_saved with
                     | Ok revenue => revenue | Err _ => mkRevenue EmptyString None [] [] [] 0 0 end.

Lemma revenue_exact_witness :
  ar_Status apple_revenue = AdminRevenueReportsImported /\
  map (fun r => (ra_Currency r, ra_AmountDecimal r, ra_MinorUnits r)) (ar_Amounts apple_revenue) = [("USD", "2.50", Some 250)]%string /\
  revenue_sound "project-1" (mkRevenueQuery None None) apple_saved 1 apple_revenue.
Proof.
  split; [reflexivity|]. split; [reflexivity|].
  apply (revenue_exact (Horder := range_in_order) "project-1" 1 0 (mkRevenueQuery None None) apple_saved); [exact apple_saved_wf|].
  vm_compute. reflexivity.
Defined.

(** Beside an application at Google Play without a report, the proceeds are still listed. *)
Example uncovered_provider :
  match adminRecognizedRevenue (Horder := range_in_order) "project-1" 2 0 (mkRevenueQuery None None) saved_shop with
  | Ok revenue => ar_Status revenue = AdminRevenueStoreReportsRequired /\ ar_UncoveredProviders revenue = [ProviderGooglePlay] /\
                  map ra_AmountDecimal (ar_Amounts revenue) = ["2.50"%string]
  | Err _ => False
  end.
Proof. vm_compute. done. Qed.
