(* ===== verification/FinancialReports.v ===== *)
(** The import of a provider's financial report ([internal/financialreports/service.go]): a
    received file is unwrapped, digested and parsed into a draft, which the store keeps; every
    outcome is logged without the file's contents.  The unwrapping of gzip is a
    parameter ([GoGzip]) with the law that a read that ends before its limit without an error
    gave all the contents ([GoGzipLaws]). *)

From S2P Require Import Prelude GoText GoTime Sha256 GoMime Core Decimal Purchase Protection Persistence Stores Projector Repository Verification Identity Catalog GoHttp RevenueCat AppleReports ReportStore.
From stdpp Require Import base list strings gmap sorting.
Local Open Scope Z_scope.

(* internal/financialreports/service.go: constants *)
Definition DefaultByteLimit : Z := 33554432.
Definition DefaultRowLimit : Z := 100000.
Definition ParserVersionAppleConsolidated : string := "apple-financial-consolidated-1".
Definition ParserVersionFixtureRequired : string := "fixture-required".

(* internal/financialreports/service.go: ErrReportTooLarge *)
Definition ErrReportTooLarge : gerror := Sentinel "financialreports.ErrReportTooLarge".
(* internal/financialreports/service.go: ErrPullUnpinned *)
Definition ErrPullUnpinned : gerror := Sentinel "financialreports.ErrPullUnpinned".

(** [compress/gzip] over a byte slice: whether [gzip.NewReader] accepts the header, and what
    [io.ReadAll] gives over a reader limited to some bytes, with whether it ended in an error. *)
Class GoGzip := {
  gzip_header : string -> bool;
  gzip_read : string -> Z -> string * bool
}.

(** What [compress/gzip] promises: a read that ends without an error and short of its limit
    gave the whole contents, checksum verified; [gzip_contents] is those of a complete file. *)
Class GoGzipLaws `{!GoGzip} := {
  gzip_contents : string -> option string;
  gzip_read_whole : forall file limit decoded,
    gzip_header file = true -> gzip_read file limit = (decoded, false) -> len decoded < limit ->
    gzip_contents file = Some decoded
}.

(* internal/persistence/financial_report.go: FinancialReportStore *)
Class FinancialReportStore (S : Type) := {
  SaveFinancialReport : FinancialReportDraft -> Tx S (FinancialReport * bool);
  SupersedeFinancialReport : ProjectID -> string -> FinancialReportDraft -> Tx S (FinancialReport * bool);
  ListFinancialReports : ProjectID -> Tx S (list FinancialReport)
}.

(** The store and the logger are not in the record: the store is the instance of
    [FinancialReportStore], the logger the list of records beside its state. *)
(* internal/financialreports/service.go: Service *)
Record FinancialReportService : Type := mkReportService {
  rs_byteLimit : Z;
  rs_rowLimit : Z
}.

(* internal/financialreports/service.go: Upload *)
Record Upload : Type := mkUpload {
  up_ProjectID : ProjectID;
  up_Provider : Provider;
  up_ReportKind : string;
  up_ContentType : string;
  up_PeriodStart : option time;
  up_PeriodEnd : option time;
  up_Body : string
}.

(* internal/financialreports/service.go: PullRequest *)
Record PullRequest : Type := mkPull {
  pl_ProjectID : ProjectID;
  pl_Provider : Provider;
  pl_ReportKind : string;
  pl_PeriodStart : time;
  pl_PeriodEnd : time
}.

(** Nil dependencies are [None]. *)
(* internal/financialreports/service.go: NewService *)
Definition reports_NewService (store logger : option unit) (byteLimit rowLimit : Z) : result FinancialReportService :=
  match store, logger with
  | None, _ => Err (New "financial report store is required")
  | _, None => Err (New "financial report logger is required")
  | Some _, Some _ =>
      if (byteLimit <=? 0) || (rowLimit <=? 0) then Err (New "financial report limits must be positive")
      else Ok (mkReportService byteLimit rowLimit)
  end.

(** A nil service is [None]. *)
(* internal/financialreports/service.go: Service.ByteLimit *)
Definition ByteLimit (service : option FinancialReportService) : Z :=
  match service with Some service => rs_byteLimit service | None => 0 end.

(* internal/financialreports/service.go: ReportKind *)
Definition ReportKind (provider : Provider) : string * bool := FinancialReportKindForProvider provider.

(** ** Preparing a draft *)

(** [mime.ParseMediaType], without the parameters. *)
Definition ParseMediaType (v : string) : option string :=
  if ParseMediaType_ok v then Some (of_bytes (lowered_base (until_semicolon (bytes v)).1)) else None.

(* internal/financialreports/service.go: normalizeContentType *)
Definition normalizeContentType (value : string) : string :=
  let value := TrimSpace value in
  if String.eqb value EmptyString then "application/octet-stream"
  else match ParseMediaType value with
       | None => "application/octet-stream"
       | Some mediaType =>
           if String.eqb mediaType EmptyString || (200 <? len mediaType) then "application/octet-stream" else mediaType
       end.

(** The three characters are a colon and two slashes. *)
(* internal/financialreports/service.go: validImportID *)
Definition validImportID (id : string) : error :=
  let invalid := New "financial report import id is invalid" in
  refuse_if (String.eqb id EmptyString || negb (String.eqb (TrimSpace id) id)
             || existsb (fun b => (b =? 58) || (b =? 47) || (b =? 92)) (bytes id)) invalid ;;?
  refuse_if (existsb IsControl (runes id)) invalid.

(* internal/financialreports/service.go: dateOnly *)
Definition dateOnly (value : time) : time :=
  let '(year, month, day) := date_of value in Date year month day.

(* internal/financialreports/service.go: classifyFinancialError *)
Definition classifyFinancialError (err : gerror) : gerror :=
  if existsb (errors_Is err) ["financialreports.ErrReportTooLarge"; "persistence.ErrNotFound"; "persistence.ErrConflict";
                              "persistence.ErrUnavailable"]%string
  then err else default err (validation_Wrap (Some err)).

Section Prepare.
Context `{Horder : !GoMapRange} `{Hgzip : !GoGzip}.

(** [zeroBytes] overwrites the buffer after the draft is made of copies of it. *)
(* internal/financialreports/service.go: decodeReportBody *)
Definition decodeReportBody (received : string) (limit : Z) : result string :=
  match bytes received with
  | 31 :: 139 :: _ =>
      if negb (gzip_header received) then Err (New "financial report gzip is invalid")
      else
        let '(decoded, failed) := gzip_read received (limit + 1) in
        if failed then Err (New "financial report gzip is truncated")
        else if limit <? len decoded then Err ErrReportTooLarge
        else Ok decoded
  | _ => Ok received
  end.

Definition identifier_total (t : IdentifierTotal) : FinancialReportIdentifierTotal :=
  mkReportTotal (it_AppleIdentifier t) (it_Currency t) (it_Amount t) (it_MinorUnits t).

(** A draft of a file, before its provider's part. *)
(* internal/financialreports/service.go:210-221: Service.prepareDraft *)
Definition file_draft (upload : Upload) (periodStart periodEnd : time) (parserVersion status reason : string)
    (totals : list FinancialReportIdentifierTotal) : FinancialReportDraft :=
  mkDraftReport (up_ProjectID upload) (up_Provider upload) (up_ReportKind upload) periodStart periodEnd
    FinancialReportSourceUpload (Sum256 (up_Body upload)) (len (up_Body upload)) (normalizeContentType (up_ContentType upload))
    parserVersion status reason totals EmptyString.

(* internal/financialreports/service.go: Service.prepareDraft *)
Definition prepareDraft (service : FinancialReportService) (upload : Upload) : result FinancialReportDraft :=
  try* ProjectID_Validate (up_ProjectID upload) in
  let '(kind, ok) := ReportKind (up_Provider upload) in
  try* refuse_if (negb ok || negb (String.eqb (up_ReportKind upload) kind)) (New "report kind does not match provider") in
  try* refuse_if (len (up_Body upload) =? 0) (New "financial report file is empty") in
  try* refuse_if (rs_byteLimit service <? len (up_Body upload)) ErrReportTooLarge in
  let* decoded := decodeReportBody (up_Body upload) (rs_byteLimit service) in
  if String.eqb (up_Provider upload) ProviderAppleAppStore then
    try* refuse_if (bool_decide (is_Some (up_PeriodStart upload)) || bool_decide (is_Some (up_PeriodEnd upload)))
           (New "apple financial report period comes from the file") in
    let* parsed := ParseAppleConsolidated decoded (rs_rowLimit service) in
    Ok (file_draft upload (pc_PeriodStart parsed) (pc_PeriodEnd parsed) ParserVersionAppleConsolidated
          FinancialReportStatusAccepted EmptyString (map identifier_total (pc_Totals parsed)))
  else if String.eqb (up_Provider upload) ProviderGooglePlay || String.eqb (up_Provider upload) ProviderHuaweiAppGallery then
    match up_PeriodStart upload, up_PeriodEnd upload with
    | Some start, Some ends =>
        try* refuse_if (Before ends start) (New "financial report period is required") in
        Ok (file_draft upload (dateOnly start) (dateOnly ends) ParserVersionFixtureRequired
              FinancialReportStatusUnrecognized FinancialReportReasonFixtureRequired [])
    | _, _ => Err (New "financial report period is required")
    end
  else Err (New "financial report provider is unsupported").
End Prepare.

(** ** Logging *)

(** [errors.As(err, &rowFailure)]: the failure is read back from its message. *)
Definition row_failure (format : string) (args : list arg) : option RowFailure :=
  match args with
  | [AInt row; AStr column; AStr code] =>
      if String.eqb format "financial report row %d column %s failed with code %s" then Some (mkRowFailure row column code) else None
  | [AStr column; AStr code] =>
      if String.eqb format "financial report column %s failed with code %s" then Some (mkRowFailure 0 column code) else None
  | [AStr code] =>
      if String.eqb format "financial report failed with code %s" then Some (mkRowFailure 0 EmptyString code) else None
  | _ => None
  end.

Fixpoint as_row_failure (e : gerror) : option RowFailure :=
  match e with
  | Errorf format args => row_failure format args
  | Wrapf _ _ cause | Invalid cause => as_row_failure cause
  | Failure _ _ _ _ (Some cause) => as_row_failure cause
  | Joined errs => (fix go es := match es with
                                 | [] => None
                                 | e' :: es' => match as_row_failure e' with Some f => Some f | None => go es' end
                                 end) errs
  | _ => None
  end.

(* internal/financialreports/service.go: failureCode *)
Definition failureCode (err : gerror) : string * Z * string :=
  match as_row_failure err with
  | Some failure => (rf_Code failure, rf_Row failure, rf_Column failure)
  | None =>
      let code :=
        if errors_Is err "persistence.ErrFinancialReportAmbiguous" then "ambiguous_application"
        else if errors_Is err "persistence.ErrFinancialReportNotAccepted" then "not_accepted"
        else if errors_Is err "persistence.ErrFinancialReportScopeMismatch" then "scope_mismatch"
        else if errors_Is err "financialreports.ErrReportTooLarge" then "body_too_large"
        else if errors_Is err "financialreports.ErrPullUnpinned" then "pull_unpinned"
        else if errors_Is err "persistence.ErrConflict" then "period_occupied"
        else "invalid_report" in
      (code, 0, EmptyString)
  end%string.

Definition safe_character (character : Z) : bool :=
  in_range 97 122 character || in_range 65 90 character || in_range 48 57 character
  || (character =? 46) || (character =? 95) || (character =? 45).

(** Line feeds and carriage returns first, then every rune; the text is then of single bytes. *)
(* internal/financialreports/service.go: safeLogText *)
Definition safeLogText (value : string) : string :=
  let value := of_bytes (map (fun b => if (b =? 10) || (b =? 13) then 95 else b) (bytes value)) in
  of_bytes (take 128 (map (fun character => if safe_character character then character else 95) (runes value))).

(** [t.UTC().Format(time.DateOnly)]. *)
Definition FormatDateOnly (t : time) : string :=
  let '(year, month, day) := date_of t in (pad 4 year ++ "-" ++ pad 2 month ++ "-" ++ pad 2 day)%string.

Inductive log_level : Type := LevelInfo | LevelWarn.

(** One record: its level and its attributes. *)
Definition import_log : Type := log_level * list (string * arg).

(* internal/financialreports/service.go: Service.logImport *)
Definition logImport (level : log_level) (projectID : ProjectID) (provider : Provider) (kind status failureCode importID : string)
    (periodStart periodEnd : time) (row : Z) (column : string) : import_log :=
  let text (name value : string) := if String.eqb value EmptyString then [] else [(name, AStr (safeLogText value))] in
  let date (name : string) t := if IsZero t then [] else [(name, AStr (FormatDateOnly t))] in
  (level,
   [("project_id"%string, AStr (safeLogText projectID)); ("provider"%string, AStr (safeLogText provider));
    ("report_kind"%string, AStr (safeLogText kind))]
   ++ text "status" status ++ text "import_id" importID ++ date "period_start" periodStart ++ date "period_end" periodEnd
   ++ text "failure_code" failureCode ++ (if 0 <? row then [("row"%string, AInt row)] else []) ++ text "column" column).

(* internal/financialreports/service.go: Service.logSuccess *)
Definition logSuccess (report : FinancialReport) : import_log :=
  logImport LevelInfo (fr_ProjectID report) (fr_Provider report) (fr_ReportKind report) (fr_Status report) EmptyString (fr_ID report)
    (fr_PeriodStart report) (fr_PeriodEnd report) 0 EmptyString.

(* internal/financialreports/service.go: Service.logFailure *)
Definition logFailure (projectID : ProjectID) (provider : Provider) (kind : string) (periodStart periodEnd : option time)
    (importID : string) (err : gerror) : import_log :=
  let '(code, row, column) := failureCode err in
  logImport LevelWarn projectID provider kind EmptyString code importID (default zeroTime periodStart) (default zeroTime periodEnd)
    row column.

(** ** The service *)

Section ReportCalls.
Context `{Horder : !GoMapRange} `{Hgzip : !GoGzip} {S : Type} `{Hreports : !FinancialReportStore S}.

(** The state of the store and the records written so far. *)
Definition Logged : Type := S * list import_log.
Definition log_record (record : import_log) : Tx Logged unit := fun s => (Ok tt, (s.1, s.2 ++ [record])).
Definition from_store {A} (m : Tx S A) : Tx Logged A := tx_zoom fst (fun s logged => (s, logged.2)) m.

(** A refusal is logged, then returned. *)
Definition refuse {A} (record : import_log) (e : gerror) : Tx Logged A := do _ <- log_record record; tx_err e.

(** The end of a call of the store. *)
Definition logged_report (draft : FinancialReportDraft) (importID : string) (m : Tx S (FinancialReport * bool))
    : Tx Logged (FinancialReport * bool) :=
  tx_handle (from_store m)
    (fun answer => do _ <- log_record (logSuccess answer.1); tx_ret answer)
    (fun err => refuse (logFailure (frd_ProjectID draft) (frd_Provider draft) (frd_ReportKind draft)
                          (Some (frd_PeriodStart draft)) (Some (frd_PeriodEnd draft)) importID err)
                  (classifyFinancialError err)).

(* internal/financialreports/service.go: Service.Upload *)
Definition Service_Upload (service : FinancialReportService) (upload : Upload) : Tx Logged (FinancialReport * bool) :=
  match prepareDraft service upload with
  | Err err => refuse (logFailure (up_ProjectID upload) (up_Provider upload) (up_ReportKind upload) (up_PeriodStart upload)
                         (up_PeriodEnd upload) EmptyString err) (classifyFinancialError err)
  | Ok draft => logged_report draft EmptyString (SaveFinancialReport draft)
  end.

Definition for_project (projectID : ProjectID) (upload : Upload) : Upload :=
  mkUpload projectID (up_Provider upload) (up_ReportKind upload) (up_ContentType upload) (up_PeriodStart upload)
    (up_PeriodEnd upload) (up_Body upload).

(* internal/financialreports/service.go: Service.Supersede *)
Definition Service_Supersede (service : FinancialReportService) (projectID : ProjectID) (importID : string) (upload : Upload)
    : Tx Logged (FinancialReport * bool) :=
  match validImportID importID with
  | Some err => refuse (logFailure projectID (up_Provider upload) (up_ReportKind upload) None None importID err)
                  (default err (validation_Wrap (Some err)))
  | None =>
      let upload := for_project projectID upload in
      match prepareDraft service upload with
      | Err err => refuse (logFailure projectID (up_Provider upload) (up_ReportKind upload) (up_PeriodStart upload)
                             (up_PeriodEnd upload) importID err) (classifyFinancialError err)
      | Ok draft =>
          if negb (String.eqb (frd_Status draft) FinancialReportStatusAccepted)
          then let err := ErrFinancialReportNotAccepted in
               refuse (logFailure projectID (up_Provider upload) (up_ReportKind upload) (Some (frd_PeriodStart draft))
                         (Some (frd_PeriodEnd draft)) importID err) (default err (validation_Wrap (Some err)))
          else logged_report draft importID (SupersedeFinancialReport projectID importID draft)
      end
  end.

(** No reports are an empty list either way. *)
(* internal/financialreports/service.go: Service.List *)
Definition Service_List (projectID : ProjectID) : Tx Logged (list FinancialReport) :=
  tx_check (validation_Wrap (ProjectID_Validate projectID)) (from_store (ListFinancialReports projectID)).

(** A pull never succeeds. *)
(* internal/financialreports/service.go: Service.Pull *)
Definition Service_Pull (request : PullRequest) : Tx Logged unit :=
  tx_check (validation_Wrap (ProjectID_Validate (pl_ProjectID request)))
    (let failed err := refuse (logFailure (pl_ProjectID request) (pl_Provider request) (pl_ReportKind request)
                                 (Some (pl_PeriodStart request)) (Some (pl_PeriodEnd request)) EmptyString err)
                         (default err (validation_Wrap (Some err))) in
     let '(kind, ok) := ReportKind (pl_Provider request) in
     if negb ok || negb (String.eqb (pl_ReportKind request) kind) then failed (New "report kind does not match provider")
     else if IsZero (pl_PeriodStart request) || IsZero (pl_PeriodEnd request) || Before (pl_PeriodEnd request) (pl_PeriodStart request)
     then failed (New "financial report period is invalid")
     else failed ErrPullUnpinned).
End ReportCalls.
Arguments Logged S : clear implicits.

(** The PostgreSQL store.  Every attempt of a transaction reads the clock and draws the
    identifier anew; [now] and [random] are those of the attempt that counts. *)
Section Stored.
Context `{Horder : !GoMapRange} {Operations : Store financial_db} (n : nat) (now : time) (random : result string).

#[export] Instance financial_store : FinancialReportStore financial_db := {|
  SaveFinancialReport := fun draft =>
    tx_check (validateFinancialReportDraft draft) (StoreTransact n (saveFinancialReport now random draft));
  SupersedeFinancialReport := fun projectID importID draft =>
    tx_check (ProjectID_Validate projectID)
      (tx_check (validateFinancialReportDraft draft) (StoreTransact n (supersedeFinancialReport now random projectID importID draft)));
  ListFinancialReports := fun projectID =>
    tx_check (ProjectID_Validate projectID) (StoreTransact n (listFinancialReports projectID))
|}.
End Stored.

(** A call of the store that fails leaves it as it was. *)
Class FinancialReportLaws (S : Type) `{Hreports : !FinancialReportStore S} := {
  save_fails : forall draft s e s', SaveFinancialReport draft s = (Err e, s') -> s' = s;
  supersede_fails : forall projectID importID draft s e s', SupersedeFinancialReport projectID importID draft s = (Err e, s') -> s' = s;
  list_reads : forall projectID s r s', ListFinancialReports projectID s = (r, s') -> s' = s
}.

(** ** What is logged *)

(** A text of a record is a date or of few safe characters. *)
Definition log_text_safe (text : string) : Prop :=
  (exists t, text = FormatDateOnly t) \/ forallb safe_character (bytes text) = true /\ len text <= 128.
Definition record_safe (record : import_log) : Prop :=
  Forall (fun attribute : string * arg => match attribute.2 with AStr text => log_text_safe text | AInt _ => True end) record.2.

Lemma safe_character_byte c : safe_character c = true -> is_byte c.
Proof. unfold safe_character, in_range, is_byte. rewrite !orb_true_iff, !andb_true_iff, !Z.eqb_eq, !Z.leb_le. lia. Qed.

Lemma safeLogText_safe value : log_text_safe (safeLogText value).
Proof.
  right. unfold safeLogText. set (l := map _ (runes _)).
  assert (Hl : Forall (fun c => safe_character c = true) l).
  { apply Forall_forall. intros c (r & -> & _)%list_elem_of_fmap. by destruct (safe_character r) eqn:E. }
  assert (Hb : Forall (fun c => safe_character c = true) (take 128 l)) by by apply Forall_take.
  unfold len. rewrite length_of_bytes, length_take, bytes_of_bytes by (eapply Forall_impl; [exact Hb|exact safe_character_byte]).
  split; [|lia]. apply forallb_forall. intros c Hc%list_elem_of_In. rewrite Forall_forall in Hb. by apply Hb.
Qed.

Lemma logImport_safe level projectID provider kind status code importID periodStart periodEnd row column :
  record_safe (logImport level projectID provider kind status code importID periodStart periodEnd row column).
Proof.
  unfold record_safe, logImport. cbn [snd]. cbv zeta. rewrite !Forall_app.
  split_and!; repeat match goal with |- context [if ?b then _ else _] => destruct b end; rewrite ?Forall_cons, ?Forall_nil; cbn [snd];
    split_and?; first [done|apply safeLogText_safe|left; by eexists].
Qed.

Lemma logFailure_safe projectID provider kind periodStart periodEnd importID err :
  record_safe (logFailure projectID provider kind periodStart periodEnd importID err).
Proof. unfold logFailure. destruct (failureCode err) as [[code row] column]. apply logImport_safe. Qed.

Section Calls.
Context `{Horder : !GoMapRange} `{Hgzip : !GoGzip} {S : Type} `{Hlaws : FinancialReportLaws S}.
Context (service : FinancialReportService).

Inductive report_call : Type :=
| CallUpload (upload : Upload)
| CallSupersede (projectID : ProjectID) (importID : string) (upload : Upload)
| CallList (projectID : ProjectID)
| CallPull (request : PullRequest).

Definition run_report_call (call : report_call) : Tx (Logged S) unit :=
  match call with
  | CallUpload upload => do _ <- Service_Upload service upload; tx_ret tt
  | CallSupersede projectID importID upload => do _ <- Service_Supersede service projectID importID upload; tx_ret tt
  | CallList projectID => do _ <- Service_List projectID; tx_ret tt
  | CallPull request => Service_Pull request
  end.

(** What a call leaves beside its answer: at most one safe record, and on an error the store
    it found. *)
Definition logged_once {A} (logged : Logged S) (answer : result A * Logged S) : Prop :=
  (exists records, answer.2.2 = logged.2 ++ records /\ (length records <= 1)%nat /\ Forall record_safe records) /\
  match answer.1 with Err _ => answer.2.1 = logged.1 | Ok _ => True end.

Lemma refuse_logged_once {A} record e logged : record_safe record -> logged_once logged (refuse (A := A) record e logged).
Proof. intros Hr. split; [|done]. exists [record]. cbn. split_and!; [done|lia|by constructor]. Qed.

Lemma err_logged_once {A} e logged : logged_once logged (Err e : result A, logged).
Proof. split; [|done]. exists []. rewrite app_nil_r. split_and!; [done|cbn; lia|constructor]. Qed.

Lemma done_logged_once {A} (m : Tx (Logged S) A) logged :
  logged_once logged (m logged) -> logged_once logged ((do _ <- m; tx_ret tt) logged).
Proof. unfold logged_once, tx_bind. by destruct (m logged) as [[a|e] s]. Qed.

Lemma report_logged_once draft importID (m : Tx S (FinancialReport * bool)) logged :
  (forall e s', m logged.1 = (Err e, s') -> s' = logged.1) -> logged_once logged (logged_report draft importID m logged).
Proof.
  intros Hm. unfold logged_report, tx_handle, from_store, tx_zoom. destruct (m logged.1) as [[a|e] s1] eqn:E.
  - split; [|done]. exists [logSuccess a.1]. cbn. split_and!; [done|lia|constructor; [apply logImport_safe|constructor]].
  - specialize (Hm _ _ eq_refl). subst s1. split; [|done]. eexists [_]. cbn. split_and!; [done|lia|constructor; [apply logFailure_safe|constructor]].
Qed.

(** The log cannot be forged and a failure changes nothing.  Every call writes at most one
    record, in which every text but the two dates is at most 128 letters, digits, dots, dashes
    and underscores, whatever the request, the file or the failure held; a call that fails
    leaves the store as it was; a pull always fails. *)
Theorem report_calls_logged call logged :
  logged_once logged (run_report_call call logged) /\
  (forall request, call = CallPull request -> exists e, (run_report_call call logged).1 = Err e).
Proof.
  split.
  - destruct call as [upload|projectID importID upload|projectID|request]; cbn [run_report_call].
    + apply done_logged_once. unfold Service_Upload. destruct (prepareDraft service upload); [|apply refuse_logged_once, logFailure_safe].
      apply report_logged_once. intros e s'. apply save_fails.
    + apply done_logged_once. unfold Service_Supersede. destruct (validImportID importID); [apply refuse_logged_once, logFailure_safe|].
      cbv zeta. destruct (prepareDraft service _); [|apply refuse_logged_once, logFailure_safe].
      destruct (negb _); [apply refuse_logged_once, logFailure_safe|].
      apply report_logged_once. intros e s'. apply supersede_fails.
    + apply done_logged_once. unfold Service_List, tx_check. destruct (validation_Wrap _); [apply err_logged_once|].
      unfold from_store, tx_zoom. destruct (ListFinancialReports projectID logged.1) as [r s1] eqn:E. apply list_reads in E as ->.
      split; [|by destruct r]. exists []. cbn. rewrite app_nil_r. split_and!; [done|lia|constructor].
    + unfold Service_Pull, tx_check. destruct (validation_Wrap _); [apply err_logged_once|]. cbv zeta.
      destruct (ReportKind _) as [kind ok]. repeat destruct (_ || _); apply refuse_logged_once, logFailure_safe.
  - intros request ->. cbn [run_report_call]. unfold Service_Pull, tx_check. destruct (validation_Wrap _); [by eexists|]. cbv zeta.
    destruct (ReportKind _) as [kind ok]. repeat destruct (_ || _); by eexists.
Qed.
End Calls.

#[export] Instance financial_laws `{Horder : !GoMapRange} {Operations : Store financial_db} n now random :
  FinancialReportLaws financial_db (Hreports := financial_store n now random).
Proof.
  split.
  - intros draft s e s'. cbn [SaveFinancialReport financial_store]. unfold tx_check.
    destruct (validateFinancialReportDraft draft); [by intros [= _ <-]|]. apply store_rolls_back.
  - intros projectID importID draft s e s'. cbn [SupersedeFinancialReport financial_store]. unfold tx_check.
    destruct (ProjectID_Validate projectID); [by intros [= _ <-]|].
    destruct (validateFinancialReportDraft draft); [by intros [= _ <-]|]. apply store_rolls_back.
  - intros projectID s r s'. cbn [ListFinancialReports financial_store]. unfold tx_check.
    destruct (ProjectID_Validate projectID); [by intros [= _ <-]|]. intros H. destruct r as [reports|e]; [|by eapply store_rolls_back].
    apply store_commits in H. unfold listFinancialReports in H. apply tx_bind_ok in H as ([] & s1 & Hproj & [= _ <-]).
    unfold requireFinancialProject in Hproj. by injection Hproj.
Qed.

(** ** What an upload stores *)

Section Exact.
Context `{Horder : !GoMapRange} `{Hgzip : !GoGzip} {Operations : Store financial_db}.

(** The file a received body holds: the contents of a gzip file when it begins as one, which
    must be complete and within the limit, and otherwise the body itself. *)
Definition holds_file `{!GoGzipLaws} (body : string) (limit : Z) (file : string) : Prop :=
  if bool_decide (firstn 2 (bytes body) = [31; 139])
  then gzip_contents body = Some file /\ len file <= limit
  else file = body.

Lemma decoded_file `{!GoGzipLaws} body limit decoded :
  decodeReportBody body limit = Ok decoded -> holds_file body limit decoded.
Proof.
  unfold decodeReportBody, holds_file. case_bool_decide as Hg; intros Hdec.
  - destruct (bytes body) as [|a [|b rest]]; try done. injection Hg as -> ->.
    destruct (gzip_header body) eqn:Hh; [|done]. cbn [negb] in Hdec.
    destruct (gzip_read body (limit + 1)) as [d failed] eqn:Hr. destruct failed; [done|].
    destruct (limit <? len d) eqn:Hl; [done|]. apply Z.ltb_ge in Hl. injection Hdec as ->.
    split; [|done]. eapply gzip_read_whole; [done|exact Hr|lia].
  - repeat case_match; naive_solver.
Qed.

Lemma from_store_ok {S A} (m : Tx S A) logged a logged' :
  from_store m logged = (Ok a, logged') -> exists s', m logged.1 = (Ok a, s') /\ logged' = (s', logged.2).
Proof. intros (s' & H & ->)%tx_zoom_eq. by exists s'. Qed.

Lemma logged_report_ok {S} draft importID (m : Tx S (FinancialReport * bool)) logged answer logged' :
  logged_report draft importID m logged = (Ok answer, logged') ->
  m logged.1 = (Ok answer, logged'.1) /\ logged'.2 = logged.2 ++ [logSuccess answer.1].
Proof.
  unfold logged_report, tx_handle. destruct (from_store m logged) as [[a|e] s1] eqn:E; [|done].
  apply from_store_ok in E as (s' & Hm & ->). intros [= <- <-]. by rewrite Hm.
Qed.

(** The draft of a file of Apple's. *)
Lemma apple_draft service upload draft :
  prepareDraft service upload = Ok draft -> up_Provider upload = ProviderAppleAppStore ->
  exists decoded parsed, decodeReportBody (up_Body upload) (rs_byteLimit service) = Ok decoded /\
    ParseAppleConsolidated decoded (rs_rowLimit service) = Ok parsed /\
    draft = file_draft upload (pc_PeriodStart parsed) (pc_PeriodEnd parsed) ParserVersionAppleConsolidated
              FinancialReportStatusAccepted EmptyString (map identifier_total (pc_Totals parsed)).
Proof.
  unfold prepareDraft. intros H Hp. apply try_err_ok in H as [_ H]. destruct (ReportKind _) as [kind ok].
  apply try_err_ok in H as [_ H]. apply try_err_ok in H as [_ H]. apply try_err_ok in H as [_ H].
  apply bind_result_ok in H as (decoded & Hd & H). rewrite Hp in H. change (String.eqb ProviderAppleAppStore ProviderAppleAppStore) with true in H.
  cbv iota in H. apply try_err_ok in H as [_ H]. apply bind_result_ok in H as (parsed & Hparsed & [= <-]). by exists decoded, parsed.
Qed.

Lemma scopes_once totals : NoDup (map total_of_key totals) -> NoDup (map total_scope (map identifier_total totals)).
Proof. by rewrite map_map. Qed.

Lemma identifier_totals_covered projectID provider db totals amount :
  (exists t application, t ∈ map identifier_total totals /\ covers projectID provider db t application /\ amount = covered_amount application t) <->
  exists t application, t ∈ totals /\ matching_applications projectID provider (it_AppleIdentifier t) db = [application] /\
    amount = mkAmount (it_Currency t) (Decimal_String (it_Amount t)) (scale (it_Amount t)) (it_MinorUnits t)
               FinancialReportCommissionIncluded FinancialReportTaxNotItemized application.
Proof.
  split.
  - intros (u & app & (t & -> & Ht)%list_elem_of_fmap & Hcov & ->). by exists t, app.
  - intros (t & app & Ht & Hcov & ->). exists (identifier_total t), app. split; [by apply list_elem_of_fmap_2|done].
Qed.

(** C32. The proceeds a store reports are stored exactly.  When an upload of a file of Apple's
    succeeds and creates an import, the file is the received body or, when that begins as a
    gzip file, the whole of its contents, no longer than the byte limit; every line of it after
    the header that is not blank is a row, read by the header's columns, and the rows are no
    more than the row limit and have the totals the file was read to have; the import is
    accepted, with the digest of the received bytes and the period of the rows; and its amounts
    are exactly one for every total whose Apple identifier is that of exactly one production
    application of the project: for that application, with the total's currency, decimal, scale
    and minor units. *)
Theorem upload_stores_exactly `{Hgz : !GoGzipLaws} n now random service upload logged report logged' :
  financial_wf logged.1 -> up_Provider upload = ProviderAppleAppStore ->
  Service_Upload (S := financial_db) (Hreports := financial_store n now random) service upload logged = (Ok (report, true), logged') ->
  exists file parsed header lines columns rows,
    holds_file (up_Body upload) (rs_byteLimit service) file /\
    data_lines 0 (unix_lines (bytesTrimBOM file)) = header :: lines /\ header_of (splitAppleFields header.2) columns /\
    Forall2 (fun line row => row_read columns (length (splitAppleFields header.2)) line row /\
                             row_sound columns (splitAppleFields line.2) row) lines rows /\
    0 < Z.of_nat (length rows) <= rs_rowLimit service /\
    (forall row, row ∈ rows -> (ar_period row).1 = zeroTime \/ ar_period row = (pc_PeriodStart parsed, pc_PeriodEnd parsed)) /\
    report_totals rows (pc_Totals parsed) /\
    financial_wf logged'.1 /\ financial_grows logged.1 logged'.1 /\ fr_Status report = FinancialReportStatusAccepted /\
    fr_SHA256 report = Sum256 (up_Body upload) /\ fr_PeriodStart report = financialDate (pc_PeriodStart parsed) /\
    fr_PeriodEnd report = financialDate (pc_PeriodEnd parsed) /\
    (forall amount, amount ∈ fr_Amounts report <->
       exists t application, t ∈ pc_Totals parsed /\
         matching_applications (up_ProjectID upload) ProviderAppleAppStore (it_AppleIdentifier t) logged.1 = [application] /\
         amount = mkAmount (it_Currency t) (Decimal_String (it_Amount t)) (scale (it_Amount t)) (it_MinorUnits t)
                    FinancialReportCommissionIncluded FinancialReportTaxNotItemized application) /\
    forall amount, amount ∈ fr_Amounts report <->
      fin_amounts logged'.1 !! (fr_ID report, amount_scope amount) = Some (row_of_amount amount).
Proof.
  intros Hwf Hp H. unfold Service_Upload in H. destruct (prepareDraft service upload) as [draft|e] eqn:Hdraft; [|done].
  destruct (apple_draft _ _ _ Hdraft Hp) as (decoded & parsed & Hdec & Hparsed & ->).
  apply logged_report_ok in H as [H _]. cbn [SaveFinancialReport financial_store] in H. apply tx_check_ok in H as [Hvalid H].
  apply store_commits in H. edestruct (pg_Save_ok now random) as (_ & _ & Hwf' & Hg & Hcase); [|exact Hwf|].
  { unfold pg_SaveFinancialReport. rewrite Hvalid. cbn [tx_check]. exact H. }
  destruct Hcase as [(? & _)|(_ & Hins)]; [done|]. destruct Hins as (Hfresh & Himports & _ & _ & (amounts & Hamounts & Hadded) & Hload).
  destruct (load_report_ok _ _ _ _ _ Hload) as (_ & _ & Hloaded). assert (Hl := Hloaded).
  destruct Hl as (row & Hrow & _ & _ & _ & _ & Hst & Hen & Hsha & Hstatus & _). rewrite Himports, lookup_insert_eq in Hrow. injection Hrow as <-.
  destruct (parse_exact _ _ _ Hparsed) as (header & lines & columns & rows & Hlines & Hheader & Hrows & Hle & Hperiod & Htotals).
  pose proof (loaded_amounts _ _ _ Hwf' Hloaded Hstatus) as Hread.
  exists decoded, parsed, header, lines, columns, rows. pose proof (decoded_file _ _ _ Hdec) as Hfile.
  split_and!; try done; try tauto. intros amount.
  rewrite Hread, (added_amounts _ _ _ _ amount Hadded) by (intros scope row; exact (no_amounts_without _ _ scope row Hwf Hfresh)).
  unfold draft_amounts in Hamounts. cbn [frd_Status file_draft] in Hamounts. rewrite String.eqb_refl in Hamounts.
  rewrite (resolve_exact _ _ _ _ _ (scopes_once _ (rt_once _ _ Htotals)) Hamounts). cbn [frd_ProjectID frd_Provider file_draft].
  rewrite Hp. apply identifier_totals_covered.
Qed.
End Exact.

(** ** Witnesses *)

(** The shop's store, with the application of one of the two identifiers of the sample file. *)
#[local] Instance report_order : GoMapRange := range_in_order.

(** A gzip of its own: three bytes of header, the contents, and a zero byte that ends them. *)
Fixpoint until_zero (l : list Z) : list Z * bool :=
  match l with
  | [] => ([], false)
  | 0 :: _ => ([], true)
  | b :: l' => let '(contents, ended) := until_zero l' in (b :: contents, ended)
  end.
Definition framed (file : string) : list Z * bool := until_zero (skipn 3 (bytes file)).
#[local] Instance framed_gzip : GoGzip := {|
  gzip_header := fun file => bool_decide (firstn 3 (bytes file) = [31; 139; 8]);
  gzip_read := fun file limit =>
    let '(contents, ended) := framed file in
    (of_bytes (firstn (Z.to_nat limit) contents), negb ended && (Z.of_nat (length contents) <? limit))
|}.

Lemma framed_short contents limit :
  len (of_bytes (firstn (Z.to_nat limit) contents)) < limit ->
  Z.of_nat (length contents) < limit /\ firstn (Z.to_nat limit) contents = contents.
Proof.
  unfold len. rewrite length_of_bytes, length_firstn. intros H. assert (Hc : Z.of_nat (length contents) < limit) by lia.
  split; [exact Hc|]. apply firstn_all2. lia.
Qed.

#[local] Program Instance framed_laws : GoGzipLaws := {
  gzip_contents := fun file => let '(contents, ended) := framed file in if ended then Some (of_bytes contents) else None
}.
Next Obligation.
  intros file limit decoded _. cbn. destruct (framed file) as [contents ended]. intros [= <- Hended] Hl.
  apply framed_short in Hl as [Hl ->]. destruct ended; [done|]. cbn in Hended. lia.
Qed.
#[local] Instance report_runner : Store financial_db :=
  runner_Store quiet_attempts ltac:(intros n k; reflexivity) ltac:(intros n k c H; discriminate H).
#[local] Instance demo_reports : FinancialReportStore financial_db := financial_store 0 (4 * Second) (Ok "aaaaaaaaaaaaaaaa"%string).

Definition apple_shop : financial_db :=
  mkFinancialDb
    (run_catalog_all [CallApplication (mkApplication "app-2" "project-1"
                        (mkStoreApplication ProviderAppleAppStore EnvironmentProduction "100"))]%string shop_catalog).2
    ∅ ∅.
Definition demo_service : FinancialReportService := mkReportService DefaultByteLimit DefaultRowLimit.
Definition demo_upload : Upload :=
  mkUpload "project-1" ProviderAppleAppStore FinancialReportKindAppleConsolidated "Text/Plain; name=x.txt" None None
    (of_bytes [31; 139; 8] ++ sample_report ++ of_bytes [0])%string.

Definition demo_uploaded : result (FinancialReport * bool) * Logged financial_db :=
  Eval vm_compute in Service_Upload demo_service demo_upload (apple_shop, []).
Lemma demo_uploaded_eq : Service_Upload demo_service demo_upload (apple_shop, []) = demo_uploaded.
Proof. vm_compute. reflexivity. Qed.

Definition demo_report : FinancialReport :=
  match demo_uploaded.1 with Ok (report, _) => report | Err _ => first_report end.

Lemma demo_file file : holds_file (up_Body demo_upload) DefaultByteLimit file -> file = sample_report.
Proof.
  unfold holds_file. rewrite bool_decide_true by (vm_compute; reflexivity). intros [H _].
  assert (Hc : gzip_contents (up_Body demo_upload) = Some sample_report) by (vm_compute; reflexivity).
  congruence.
Qed.

Lemma upload_stores_exactly_witness :
  financial_wf demo_uploaded.2.1 /\
  map (fun a => (fra_CoveredApplicationID a, fra_Currency a, fra_AmountDecimal a, fra_MinorUnits a)) (fr_Amounts demo_report)
    = [("app-2", "EUR", "1.25", Some 125); ("app-2", "USD", "2.50", Some 250)]%string /\
  fr_ContentType demo_report = "text/plain"%string /\
  exists file, holds_file (up_Body demo_upload) DefaultByteLimit file /\ file = sample_report.
Proof.
  destruct (upload_stores_exactly 0 (4 * Second) (Ok "aaaaaaaaaaaaaaaa"%string) demo_service demo_upload (apple_shop, [])
              demo_report demo_uploaded.2) as (file & _ & _ & _ & _ & _ & Hfile & _ & _ & _ & _ & _ & _ & Hwf & _).
  - by constructor; intros *; cbn; rewrite lookup_empty.
  - reflexivity.
  - exact demo_uploaded_eq.
  - split; [exact Hwf|]. split; [vm_compute; reflexivity|]. split; [vm_compute; reflexivity|].
    exists file. split; [exact Hfile|]. by eapply demo_file.
Defined.

(** A gzip file cut short is not a shorter report. *)
Example truncated_refused :
  decodeReportBody (of_bytes [31; 139; 8] ++ sample_report)%string DefaultByteLimit = Err (New "financial report gzip is truncated").
Proof. vm_compute. reflexivity. Qed.

(** A refused file is logged by the code of its failure. *)
Lemma report_calls_logged_witness :
  run_report_call demo_service (CallUpload (mkUpload "project-1" ProviderAppleAppStore FinancialReportKindAppleConsolidated
      EmptyString None None (report_row "100" "1" "2.50" "2.50" "USD" "S"))) (apple_shop, [])
    = (Err (Invalid (reportFailure 1 "2.50" "duplicate_column")),
       (apple_shop, [(LevelWarn, [("project_id", AStr "project-1"); ("provider", AStr "apple_app_store");
                                  ("report_kind", AStr FinancialReportKindAppleConsolidated); ("failure_code", AStr "duplicate_column");
                                  ("row", AInt 1); ("column", AStr "2.50")])])) /\
  forall call, logged_once (apple_shop, []) (run_report_call demo_service call (apple_shop, [])).
Proof.
  split; [vm_compute; reflexivity|]. intros call. exact (proj1 (report_calls_logged demo_service call (apple_shop, []))).
Defined.

(** Text of a request cannot forge a record. *)
Example forged_text : safeLogText (of_bytes [97; 10; 61; 32; 208; 175; 255; 46]) = "a_____."%string.
Proof. vm_compute. reflexivity. Qed.
