(* ===== verification/EntitlementSources.v ===== *)
(** The sources of a customer's entitlements
    ([CustomerEntitlementSources] of [internal/persistence/postgres/entitlement.go]): for
    every purchase lineage of the customer and those merged into it, the latest observation
    of the stores or grant of an import, and what the select statement joins to a stored
    projection.

    [DISTINCT ON] keeps of each group the row that comes first in the order of the query;
    the groups come in no particular order, and here in the order of the tables. *)

From S2P Require Import Prelude GoText GoTime Core Purchase Protection Persistence Stores Projector Repository EntitlementStore QueueStore Frames Identity Catalog PurchaseStore ImportStore.
From stdpp Require Import base list strings gmap sorting.
Local Open Scope Z_scope.

(** What the query reads. *)
Record source_tables : Type := mkSourceTables {
  src_purchase : purchase_db;
  src_imports : gmap lineage_columns import_row
}.

(** ** Lineages *)

(** The references linked to an observation that name its lineage: a lineage reference, or
    the purchase token of a query. *)
Definition names_lineage (columns : reference_columns) : bool :=
  let '(_, role, kind, _) := columns in
  String.eqb role ReferenceLineage || (String.eqb role ReferenceQuery && String.eqb kind "purchase_token").

Definition lineage_references (id : ObservationID) (db : purchase_db) : list (reference_columns * reference_row) :=
  List.filter (fun entry => names_lineage entry.1
                 && bool_decide (reference_links db !! (id, rr_id entry.2) = Some entry.1.1.1.1))
    (map_to_list (references db)).

(** A lineage reference before a query token, then the smallest id. *)
Definition lineage_first (x y : reference_columns * reference_row) : bool :=
  let rank (e : reference_columns * reference_row) := if String.eqb e.1.1.1.2 ReferenceLineage then 0 else 1 in
  (rank x <? rank y) || ((rank x =? rank y) && (rr_id x.2 <? rr_id y.2)).

(* internal/persistence/postgres/entitlement.go:19-33: observationLineageSQL *)
Definition observation_lineage (id : ObservationID) (db : purchase_db) : string :=
  match fold_left (keep_better lineage_first) (lineage_references id db) None with
  | Some entry => ("reference:" ++ FormatInt (rr_id entry.2))%string
  | None => EmptyString
  end.

(* internal/persistence/postgres/entitlement.go:34-35: importLineageSQL *)
Definition import_lineage (fingerprint : string) : string := ("import:" ++ EncodeToString fingerprint)%string.

(** ** The rows of the query *)

(* internal/persistence/postgres/entitlement.go: entitlementSourceRow *)
Record entitlementSourceRow : Type := mkSourceRow {
  sw_projectID : string;
  sw_customerID : string;
  sw_entitlementID : string;
  sw_sourceKind : string;
  sw_sourceObservationID : string;
  sw_sourceImportID : string;
  sw_sourceApplicationID : string;
  sw_sourceProductID : string;
  sw_sourceLineage : string;
  sw_access : string;
  sw_accessReason : string;
  sw_effectiveStartsAt : option time;
  sw_effectiveEndsAt : option time;
  sw_observedAt : time
}.

(** The entitlements a product of a project gives. *)
Definition gives (projectID : ProjectID) (productID : ProductID) (db : purchase_db) : list EntitlementID :=
  map (fun entry => entry.1.2)
    (List.filter (fun entry => String.eqb entry.1.1 productID && String.eqb entry.2 projectID)
       (map_to_list (product_entitlements (pur_catalog db)))).

(** An observation once for each entitlement of its product. *)
(* internal/persistence/postgres/entitlement.go:276-301: transaction.CustomerEntitlementSources *)
Definition observation_source (db : purchase_db) (id : ObservationID) (row : observation_row) (entitlementID : EntitlementID)
    : entitlementSourceRow :=
  let s := or_snapshot row in
  mkSourceRow (ss_project s) (or_customer row) entitlementID SourceKindStoreObservation id EmptyString (ss_application s)
    (ss_product s) (observation_lineage id db) (ss_access s) (ss_reason s) (ss_startsAt s) (ss_endsAt s) (or_observedAt row).

Definition observation_sources (projectID : ProjectID) (members : list string) (db : purchase_db) : list entitlementSourceRow :=
  flat_map (fun entry => map (observation_source db entry.1 entry.2) (gives projectID (ss_product (or_snapshot entry.2)) db))
    (List.filter (fun entry => String.eqb (ss_project (or_snapshot entry.2)) projectID && contains_str members (or_customer entry.2))
       (map_to_list (observations db))).

(* internal/persistence/postgres/entitlement.go:303-327: transaction.CustomerEntitlementSources *)
Definition import_source (l : lineage_columns) (row : import_row) : entitlementSourceRow :=
  let '(p, c, a, i, e, fingerprint) := l in
  mkSourceRow p c e SourceKindImport EmptyString (im_id row) a i (import_lineage fingerprint) (im_access row) (im_reason row)
    (im_startsAt row) (im_endsAt row) (im_observedAt row).

Definition lineage_project (l : lineage_columns) : ProjectID := let '(p, _, _, _, _, _) := l in p.
Definition lineage_customer (l : lineage_columns) : CustomerID := let '(_, c, _, _, _, _) := l in c.

Definition import_sources (projectID : ProjectID) (members : list string) (imports : gmap lineage_columns import_row)
    : list entitlementSourceRow :=
  map (fun entry => import_source entry.1 entry.2)
    (List.filter (fun entry => String.eqb (lineage_project entry.1) projectID && contains_str members (lineage_customer entry.1))
       (map_to_list imports)).

(** *** DISTINCT ON *)

(** The columns of a group. *)
Definition source_group (row : entitlementSourceRow) : string * string * string * string :=
  (sw_entitlementID row, sw_sourceApplicationID row, sw_sourceProductID row, sw_sourceLineage row).

(** Within a group: the newest, then an allowed one, then the smallest id. *)
(* internal/persistence/postgres/entitlement.go:297-300: transaction.CustomerEntitlementSources *)
Definition observation_first (x y : entitlementSourceRow) : bool :=
  let rank r := if String.eqb (sw_access r) AccessAllowed then 0 else 1 in
  (sw_observedAt y <? sw_observedAt x)
  || ((sw_observedAt x =? sw_observedAt y)
      && ((rank x <? rank y) || ((rank x =? rank y) && String.ltb (sw_sourceObservationID x) (sw_sourceObservationID y)))).

(** Within a group: the newest, then the smallest id. *)
(* internal/persistence/postgres/entitlement.go:324-326: transaction.CustomerEntitlementSources *)
Definition import_first (x y : entitlementSourceRow) : bool :=
  (sw_observedAt y <? sw_observedAt x)
  || ((sw_observedAt x =? sw_observedAt y) && String.ltb (sw_sourceImportID x) (sw_sourceImportID y)).

(** The first row of every group. *)
Definition distinct_on (first : entitlementSourceRow -> entitlementSourceRow -> bool) (rows : list entitlementSourceRow)
    : list entitlementSourceRow :=
  omap (fun group => fold_left (keep_better first) (List.filter (fun row => bool_decide (source_group row = group)) rows) None)
    (remove_dups (map source_group rows)).

(** ** The sources *)

(* internal/persistence/postgres/entitlement.go: entitlementSourceRow.entitlementSource *)
Definition row_source (row : entitlementSourceRow) : result EntitlementSource :=
  let source := mkEntitlementSource
    (mkProjection (sw_projectID row) (sw_customerID row) (sw_entitlementID row) (sw_sourceKind row) (sw_sourceObservationID row)
       (sw_sourceImportID row) (sw_sourceProductID row) (sw_customerID row) (sw_access row) (sw_accessReason row)
       (mkPeriod (timestampValue (sw_effectiveStartsAt row)) (timestampPointer (sw_effectiveEndsAt row))))
    (sw_sourceApplicationID row) (sw_sourceLineage row) (sw_observedAt row) in
  try* wrap_err "validate stored entitlement source: %w" [] (EntitlementSource_Validate source) in Ok source.

Definition with_source_customer (customerID : CustomerID) (source : EntitlementSource) : EntitlementSource :=
  let p := es_Projection source in
  mkEntitlementSource
    (mkProjection (ep_ProjectID p) customerID (ep_EntitlementID p) (ep_SourceKind p) (ep_SourceObservationID p)
       (ep_SourceImportID p) (ep_SourceProductID p) (ep_SourceCustomerID p) (ep_Access p) (ep_AccessReason p) (ep_EffectivePeriod p))
    (es_SourceApplicationID source) (es_SourceLineage source) (es_ObservedAt source).

(** The rows of the query for the members of a closure. *)
Definition source_rows (projectID : ProjectID) (members : list string) (t : source_tables) : list entitlementSourceRow :=
  distinct_on observation_first (observation_sources projectID members (src_purchase t))
  ++ distinct_on import_first (import_sources projectID members (src_imports t)).

(** The closure is read from the identity tables, which the query leaves alone. *)
(* internal/persistence/postgres/entitlement.go: transaction.CustomerEntitlementSources *)
Definition entitlement_sources (projectID : ProjectID) (customerID : CustomerID) (t : source_tables)
    : result (list EntitlementSource) :=
  try* errors_Join [ProjectID_Validate projectID; CustomerID_Validate customerID] in
  let* closure := fst (customerClosure projectID customerID (pur_identity (src_purchase t))) in
  let '(canonicalID, members) := closure in
  collect (fun _ row => let* source := row_source row in Ok (with_source_customer canonicalID source))
    (source_rows projectID members t).

(** ** What a stored projection joins *)

(* internal/persistence/postgres/entitlement.go:36-73: entitlementSelectSQL *)
Definition joined_source (t : source_tables) (p : EntitlementProjection) : option SourceInfo :=
  let db := src_purchase t in
  let key := match entitlement_defs (pur_catalog db) !! ep_EntitlementID p with
             | Some (project, key) => if String.eqb project (ep_ProjectID p) then Some key else None
             | None => None
             end in
  match key with
  | None => None
  | Some key =>
      if String.eqb (ep_SourceKind p) SourceKindStoreObservation then
        match observations db !! ep_SourceObservationID p with
        | Some row =>
            if String.eqb (or_customer row) (ep_SourceCustomerID p) && String.eqb (ss_project (or_snapshot row)) (ep_ProjectID p)
            then Some (mkSourceInfo (ss_application (or_snapshot row)) (observation_lineage (ep_SourceObservationID p) db) key)
            else None
        | None => None
        end
      else if String.eqb (ep_SourceKind p) SourceKindImport then
        match List.find (fun entry => let '(project, c, a, i, e, _) := entry.1 in
                           String.eqb (im_id entry.2) (ep_SourceImportID p) && String.eqb project (ep_ProjectID p)
                           && String.eqb c (ep_SourceCustomerID p) && String.eqb i (ep_SourceProductID p)
                           && String.eqb e (ep_EntitlementID p)) (map_to_list (src_imports t)) with
        | Some ((_, _, a, _, _, fingerprint), _) => Some (mkSourceInfo a (import_lineage fingerprint) key)
        | None => None
        end
      else None
  end.

(** ** The first of each group *)

#[export] Instance import_first_swo : StrictWeakOrder import_first.
Proof.
  split.
  - intros a b. unfold import_first. pose proof (str_ltb_asym (sw_sourceImportID a) (sw_sourceImportID b)) as Hs.
    destruct (String.ltb (sw_sourceImportID a) _), (String.ltb (sw_sourceImportID b) _); try (specialize (Hs eq_refl)); lia.
  - intros a b c. unfold import_first. pose proof (str_ltb_negtrans (sw_sourceImportID a) (sw_sourceImportID b) (sw_sourceImportID c)) as Hs.
    destruct (String.ltb (sw_sourceImportID a) (sw_sourceImportID b)), (String.ltb (sw_sourceImportID b) _),
      (String.ltb (sw_sourceImportID a) (sw_sourceImportID c)); try (specialize (Hs eq_refl eq_refl)); lia.
Qed.

#[export] Instance observation_first_swo : StrictWeakOrder observation_first.
Proof.
  split.
  - intros a b. unfold observation_first. pose proof (str_ltb_asym (sw_sourceObservationID a) (sw_sourceObservationID b)) as Hs.
    destruct (String.ltb (sw_sourceObservationID a) _), (String.ltb (sw_sourceObservationID b) _); try (specialize (Hs eq_refl)); lia.
  - intros a b c. unfold observation_first.
    pose proof (str_ltb_negtrans (sw_sourceObservationID a) (sw_sourceObservationID b) (sw_sourceObservationID c)) as Hs.
    destruct (String.ltb (sw_sourceObservationID a) (sw_sourceObservationID b)), (String.ltb (sw_sourceObservationID b) _),
      (String.ltb (sw_sourceObservationID a) (sw_sourceObservationID c)); try (specialize (Hs eq_refl eq_refl)); lia.
Qed.

Section Distinct.
Context (first : entitlementSourceRow -> entitlementSourceRow -> bool) `{Hswo : !StrictWeakOrder first}.

Lemma distinct_on_elem rows x :
  x ∈ distinct_on first rows -> x ∈ rows /\ forall y, y ∈ rows -> source_group y = source_group x -> first y x = false.
Proof.
  unfold distinct_on. intros (group & _ & H)%list_elem_of_omap.
  apply (keep_better_fold first) in H as ([?|Hin] & Hbest & _); [done|].
  apply list_elem_of_In, filter_elem in Hin as [Hg%bool_decide_eq_true Hin]. split; [done|].
  intros y Hy Hyg. apply Hbest. apply list_elem_of_In, filter_elem. split; [|done]. apply bool_decide_eq_true. congruence.
Qed.

Lemma distinct_on_covers rows y : y ∈ rows -> exists x, x ∈ distinct_on first rows /\ source_group x = source_group y.
Proof.
  intros Hy. destruct (fold_left (keep_better first)
    (List.filter (fun row => bool_decide (source_group row = source_group y)) rows) None) as [x|] eqn:E.
  - exists x. pose proof E as E'. apply (keep_better_fold first) in E' as ([?|Hin] & _ & _); [done|].
    apply list_elem_of_In, filter_elem in Hin as [Hg%bool_decide_eq_true _]. split; [|done].
    apply list_elem_of_omap. exists (source_group y). split; [|done]. apply elem_of_remove_dups, list_elem_of_fmap. by exists y.
  - exfalso. revert E. apply (keep_better_some first). left. intros Hnil.
    assert (Hin : y ∈ []); [|by apply elem_of_nil in Hin]. rewrite <- Hnil. apply filter_elem. by rewrite bool_decide_eq_true_2.
Qed.

Lemma distinct_on_groups rows : NoDup (map source_group (distinct_on first rows)).
Proof.
  unfold distinct_on. pose proof (NoDup_remove_dups (map source_group rows)) as Hnd.
  induction Hnd as [|group groups Hnew _ IH]; [constructor|]. cbn [omap list_omap].
  destruct (fold_left _ _ None) as [x|] eqn:E; [|done]. cbn [map]. apply NoDup_cons. split; [|done].
  apply (keep_better_fold first) in E as ([?|Hin] & _ & _); [done|].
  apply list_elem_of_In, filter_elem in Hin as [Hg%bool_decide_eq_true _]. rewrite Hg.
  intros (y & Hy & Hin)%list_elem_of_fmap. apply list_elem_of_omap in Hin as (group' & Hin' & Hf).
  apply (keep_better_fold first) in Hf as ([?|Hinf] & _ & _); [done|].
  apply list_elem_of_In, filter_elem in Hinf as [Hg'%bool_decide_eq_true _]. apply Hnew. congruence.
Qed.
End Distinct.

(** ** The sources are the latest of every lineage *)

(** A row of the closure: an observation for an entitlement its product gives, or a grant. *)
Definition closure_row (p : ProjectID) (members : list string) (t : source_tables) (row : entitlementSourceRow) : Prop :=
  (exists id o e, observations (src_purchase t) !! id = Some o /\ ss_project (or_snapshot o) = p /\ or_customer o ∈ members /\
     product_entitlements (pur_catalog (src_purchase t)) !! (ss_product (or_snapshot o), e) = Some p /\
     row = observation_source (src_purchase t) id o e) \/
  (exists l r, src_imports t !! l = Some r /\ lineage_project l = p /\ lineage_customer l ∈ members /\ row = import_source l r).

Lemma gives_elem p i db e : e ∈ gives p i db <-> product_entitlements (pur_catalog db) !! (i, e) = Some p.
Proof.
  unfold gives. rewrite list_elem_of_fmap. split.
  - intros ([[i' e'] q] & -> & [Hb Hin%elem_of_map_to_list]%filter_elem). cbn in Hb.
    apply andb_true_iff in Hb as [->%String.eqb_eq ->%String.eqb_eq]. done.
  - intros H. exists ((i, e), p). split; [done|]. apply filter_elem. cbn. rewrite !String.eqb_refl. split; [done|].
    by apply elem_of_map_to_list.
Qed.

Lemma observation_sources_elem p members db row :
  row ∈ observation_sources p members db <->
  exists id o e, observations db !! id = Some o /\ ss_project (or_snapshot o) = p /\ or_customer o ∈ members /\
    product_entitlements (pur_catalog db) !! (ss_product (or_snapshot o), e) = Some p /\ row = observation_source db id o e.
Proof.
  unfold observation_sources. rewrite list_elem_of_In, in_flat_map. setoid_rewrite <- list_elem_of_In. split.
  - intros ([id o] & [Hb Hin%elem_of_map_to_list]%filter_elem & (e & -> & He)%list_elem_of_fmap). cbn in *.
    apply andb_true_iff in Hb as [Hp%String.eqb_eq Hm%contains_str_In%list_elem_of_In]. apply gives_elem in He.
    by exists id, o, e.
  - intros (id & o & e & Ho & Hp & Hm & He & ->). exists (id, o). rewrite filter_elem, elem_of_map_to_list. cbn. split.
    + split; [|done]. rewrite Hp, String.eqb_refl. by apply contains_str_In, list_elem_of_In.
    + apply list_elem_of_fmap. exists e. split; [done|]. by apply gives_elem.
Qed.

Lemma import_sources_elem p members imports row :
  row ∈ import_sources p members imports <->
  exists l r, imports !! l = Some r /\ lineage_project l = p /\ lineage_customer l ∈ members /\ row = import_source l r.
Proof.
  unfold import_sources. rewrite list_elem_of_fmap. split.
  - intros ([l r] & -> & [Hb Hin%elem_of_map_to_list]%filter_elem). cbn in *.
    apply andb_true_iff in Hb as [Hp%String.eqb_eq Hm%contains_str_In%list_elem_of_In]. by exists l, r.
  - intros (l & r & Hl & Hp & Hm & ->). exists (l, r). split; [done|]. rewrite filter_elem, elem_of_map_to_list. cbn.
    split; [|done]. rewrite Hp, String.eqb_refl. by apply contains_str_In, list_elem_of_In.
Qed.

Lemma closure_row_elem p members t row :
  closure_row p members t row <->
  row ∈ observation_sources p members (src_purchase t) \/ row ∈ import_sources p members (src_imports t).
Proof. by rewrite observation_sources_elem, import_sources_elem. Qed.

Lemma observation_kind p members db row : row ∈ observation_sources p members db -> sw_sourceKind row = SourceKindStoreObservation.
Proof. by intros (id & o & e & _ & _ & _ & _ & ->)%observation_sources_elem. Qed.

Lemma import_kind p members imports row : row ∈ import_sources p members imports -> sw_sourceKind row = SourceKindImport.
Proof. by intros (([[[[p' c] a] i] e] & f) & r & _ & _ & _ & ->)%import_sources_elem. Qed.

Lemma kind_groups (rows rows' : list entitlementSourceRow) k k' :
  (forall r, r ∈ rows -> sw_sourceKind r = k) -> (forall r, r ∈ rows' -> sw_sourceKind r = k') -> k <> k' ->
  NoDup (map source_group rows) -> NoDup (map source_group rows') ->
  NoDup (map (fun r => (sw_sourceKind r, source_group r)) (rows ++ rows')).
Proof.
  intros Hk Hk' Hne H H'. rewrite map_app. apply NoDup_app. split_and!.
  - rewrite (map_ext_in _ (fun r => (k, source_group r))); [|intros r Hr%list_elem_of_In; by rewrite Hk].
    rewrite <- (map_map source_group (pair k)). by apply (NoDup_fmap_2 (pair k)).
  - intros x (r & -> & Hr)%list_elem_of_fmap (r' & Heq & Hr')%list_elem_of_fmap. injection Heq as Heq _.
    rewrite (Hk r Hr), (Hk' r' Hr') in Heq. done.
  - rewrite (map_ext_in _ (fun r => (k', source_group r))); [|intros r Hr%list_elem_of_In; by rewrite Hk'].
    rewrite <- (map_map source_group (pair k')). by apply (NoDup_fmap_2 (pair k')).
Qed.

(** *** The rows spelled out *)

(** A reference linked to the observation that names its lineage: a lineage
    reference first, or the purchase token of a query. *)
Definition names (db : purchase_db) (id : ObservationID) (columns : reference_columns) (row : reference_row)
    (rank : Z) : Prop :=
  let '(application, role, kind, _) := columns in
  references db !! columns = Some row /\ reference_links db !! (id, rr_id row) = Some application /\
  ((role = "lineage"%string /\ rank = 0) \/
   (role = "query"%string /\ kind = "purchase_token"%string /\ rank = 1)).

(** The lineage of an observation is the first reference that names it, by rank and
    then by id, and empty when there is none. *)
Definition observed_lineage (db : purchase_db) (id : ObservationID) (lineage : string) : Prop :=
  (lineage = EmptyString /\ forall columns row rank, ~ names db id columns row rank) \/
  exists columns row rank, names db id columns row rank /\ lineage = ("reference:" ++ FormatInt (rr_id row))%string /\
    forall columns' row' rank', names db id columns' row' rank' ->
      rank < rank' \/ (rank = rank' /\ rr_id row <= rr_id row').

(** An observation of a product that gives the entitlement, as a row. *)
Record observed_row (db : purchase_db) (p : ProjectID) (members : list string) (row : entitlementSourceRow)
    (id : ObservationID) (o : observation_row) : Prop := {
  orw_stored : observations db !! id = Some o;
  orw_scope : ss_project (or_snapshot o) = p /\ or_customer o ∈ members;
  orw_gives : product_entitlements (pur_catalog db) !! (ss_product (or_snapshot o), sw_entitlementID row) = Some p;
  orw_owner : sw_projectID row = p /\ sw_customerID row = or_customer o;
  orw_source : sw_sourceKind row = "store_observation"%string /\ sw_sourceObservationID row = id /\
    sw_sourceImportID row = EmptyString;
  orw_product : sw_sourceApplicationID row = ss_application (or_snapshot o) /\
    sw_sourceProductID row = ss_product (or_snapshot o);
  orw_lineage : observed_lineage db id (sw_sourceLineage row);
  orw_access : sw_access row = ss_access (or_snapshot o) /\ sw_accessReason row = ss_reason (or_snapshot o);
  orw_period : sw_effectiveStartsAt row = ss_startsAt (or_snapshot o) /\
    sw_effectiveEndsAt row = ss_endsAt (or_snapshot o);
  orw_observedAt : sw_observedAt row = or_observedAt o
}.

(** A grant of an import as a row, its lineage the fingerprint's. *)
Record granted_row (p : ProjectID) (members : list string) (row : entitlementSourceRow)
    (fingerprint : string) (g : import_row) : Prop := {
  grw_scope : sw_projectID row = p /\ sw_customerID row ∈ members;
  grw_source : sw_sourceKind row = "import"%string /\ sw_sourceObservationID row = EmptyString /\
    sw_sourceImportID row = im_id g;
  grw_lineage : sw_sourceLineage row = ("import:" ++ EncodeToString fingerprint)%string;
  grw_access : sw_access row = im_access g /\ sw_accessReason row = im_reason g;
  grw_period : sw_effectiveStartsAt row = im_startsAt g /\ sw_effectiveEndsAt row = im_endsAt g;
  grw_observedAt : sw_observedAt row = im_observedAt g
}.

Definition lineage_row (p : ProjectID) (members : list string) (t : source_tables) (row : entitlementSourceRow) : Prop :=
  (exists id o, observed_row (src_purchase t) p members row id o) \/
  (exists fingerprint g,
     src_imports t !! (p, sw_customerID row, sw_sourceApplicationID row, sw_sourceProductID row,
                       sw_entitlementID row, fingerprint) = Some g /\ granted_row p members row fingerprint g).

#[export] Instance lineage_first_swo : StrictWeakOrder lineage_first.
Proof.
  split.
  - intros a b. unfold lineage_first. destruct (String.eqb _ _), (String.eqb _ _); lia.
  - intros a b c. unfold lineage_first. destruct (String.eqb _ _), (String.eqb _ _), (String.eqb _ _); lia.
Qed.

Lemma lineage_references_names id db columns row :
  In (columns, row) (lineage_references id db) <->
  names db id columns row (if String.eqb columns.1.1.2 ReferenceLineage then 0 else 1).
Proof.
  unfold lineage_references, names, names_lineage. rewrite List.filter_In, <- list_elem_of_In, elem_of_map_to_list.
  destruct columns as [[[application role] kind] fingerprint]. cbn [fst snd].
  rewrite andb_true_iff, bool_decide_eq_true, orb_true_iff, andb_true_iff, !String.eqb_eq.
  change ReferenceLineage with "lineage"%string. change ReferenceQuery with "query"%string.
  destruct (String.eqb_spec role "lineage"); naive_solver.
Qed.

Lemma names_rank db id columns row rank :
  names db id columns row rank -> rank = if String.eqb columns.1.1.2 ReferenceLineage then 0 else 1.
Proof.
  unfold names. destruct columns as [[[application role] kind] fingerprint].
  intros (_ & _ & [[-> ->]|(-> & _ & ->)]); reflexivity.
Qed.

Lemma observation_lineage_spelled db id : observed_lineage db id (observation_lineage id db).
Proof.
  unfold observation_lineage. destruct (fold_left _ _ None) as [[columns row]|] eqn:E.
  - right. apply (keep_better_fold lineage_first) in E as ([?|Hin] & Hbest & _); [done|].
    apply lineage_references_names in Hin. do 3 eexists. split; [exact Hin|]. split; [done|].
    intros columns' row' rank' H'. pose proof (names_rank _ _ _ _ _ H') as Hr. subst rank'.
    apply lineage_references_names in H'. specialize (Hbest _ H'). unfold lineage_first in Hbest. cbn [fst snd] in Hbest. lia.
  - left. split; [done|]. intros columns row rank H. pose proof (names_rank _ _ _ _ _ H) as Hr. subst rank.
    apply lineage_references_names in H. revert E. apply (keep_better_some lineage_first). left. intros Hnil.
    by rewrite Hnil in H.
Qed.

Lemma observed_lineage_unique db id a b : observed_lineage db id a -> observed_lineage db id b -> a = b.
Proof.
  intros [[-> Ha]|(c & r & k & Hc & -> & Ha)] [[-> Hb]|(c' & r' & k' & Hc' & -> & Hb)]; [done|by destruct (Ha _ _ _ Hc')|by destruct (Hb _ _ _ Hc)|].
  specialize (Ha _ _ _ Hc'). specialize (Hb _ _ _ Hc). assert (rr_id r = rr_id r') as -> by lia. done.
Qed.

Lemma closure_row_spelled p members t row : closure_row p members t row <-> lineage_row p members t row.
Proof.
  split; intros [H|H].
  - left. destruct H as (id & o & e & Ho & Hp & Hm & He & ->). exists id, o.
    split; try done. apply observation_lineage_spelled.
  - right. destruct H as ([[[[[p' c] a] i] e] f] & r & Hl & Hp & Hm & ->). cbn in Hp, Hm. subst p'.
    exists f, r. by split.
  - left. destruct H as (id & o & [Ho [Hp Hm] He Hown Hsrc Hprod Hl Hacc Hper Hat]).
    exists id, o, (sw_entitlementID row). split_and!; [done..|].
    pose proof (observed_lineage_unique _ _ _ _ Hl (observation_lineage_spelled (src_purchase t) id)) as Hl'.
    destruct row. unfold observation_source. cbn in *. destruct Hown, Hsrc as (? & ? & ?), Hprod, Hacc, Hper. subst. done.
  - right. destruct H as (f & g & Hg & [[Hp Hm] Hsrc Hl Hacc Hper Hat]). do 2 eexists. split; [exact Hg|].
    split; [done|]. split; [done|]. destruct row. unfold import_source, import_lineage. cbn in *.
    destruct Hsrc as (? & ? & ?), Hacc, Hper. subst. done.
Qed.

(** The source a row is answered as, for the canonical customer. *)
Definition answers_row (canonical : CustomerID) (row : entitlementSourceRow) (source : EntitlementSource) : Prop :=
  source = mkEntitlementSource
    (mkProjection (sw_projectID row) canonical (sw_entitlementID row) (sw_sourceKind row) (sw_sourceObservationID row)
       (sw_sourceImportID row) (sw_sourceProductID row) (sw_customerID row) (sw_access row) (sw_accessReason row)
       (mkPeriod (default zeroTime (sw_effectiveStartsAt row)) (sw_effectiveEndsAt row)))
    (sw_sourceApplicationID row) (sw_sourceLineage row) (sw_observedAt row) /\
  EntitlementSource_Validate (with_source_customer (sw_customerID row) source) = None.

Lemma row_source_answers canonical row source s :
  row_source row = Ok source -> s = with_source_customer canonical source -> answers_row canonical row s.
Proof. unfold row_source. intros [Hv [= <-]]%try_err_ok ->. split; [done|]. by apply wrap_err_nil in Hv. Qed.

(** C22. The sources of a customer are the latest of every lineage.  When the query answers,
    its rows are observations and import grants of the project and of the customers of the
    closure, with their own access, reason, period and time, for entitlements the observed
    product gives; an observation's lineage is its lineage reference, or without one its
    query token, and a grant's is its fingerprint.  No two rows are of the same kind and
    lineage of one application product and entitlement; every such observation and grant is
    represented by a row of its lineage that was not observed earlier, and of two
    observations at one time an allowed one; and each source is its row, valid, for the
    canonical customer. *)
Theorem sources_are_latest p c t sources :
  entitlement_sources p c t = Ok sources ->
  exists canonical members rows,
    (customerClosure p c (pur_identity (src_purchase t))).1 = Ok (canonical, members) /\
    Forall2 (answers_row canonical) rows sources /\
    NoDup (map (fun r => (sw_sourceKind r, sw_entitlementID r, sw_sourceApplicationID r, sw_sourceProductID r,
                          sw_sourceLineage r)) rows) /\
    (forall row, row ∈ rows -> lineage_row p members t row) /\
    forall row, lineage_row p members t row -> exists row', row' ∈ rows /\
      sw_sourceKind row' = sw_sourceKind row /\ sw_entitlementID row' = sw_entitlementID row /\
      sw_sourceApplicationID row' = sw_sourceApplicationID row /\ sw_sourceProductID row' = sw_sourceProductID row /\
      sw_sourceLineage row' = sw_sourceLineage row /\ sw_observedAt row <= sw_observedAt row' /\
      (sw_sourceKind row = SourceKindStoreObservation -> sw_observedAt row = sw_observedAt row' ->
       sw_access row = AccessAllowed -> sw_access row' = AccessAllowed).
Proof.
  unfold entitlement_sources. intros [_ H]%try_err_ok. apply bind_result_ok in H as ([canonical members] & Hc & H).
  set (observed := observation_sources p members (src_purchase t)) in *.
  set (imported := import_sources p members (src_imports t)) in *.
  exists canonical, members, (source_rows p members t). unfold source_rows in *. fold observed imported in H |- *.
  assert (Hsub : forall row, row ∈ distinct_on observation_first observed ++ distinct_on import_first imported ->
                   lineage_row p members t row).
  { intros row [Hr|Hr]%elem_of_app; apply closure_row_spelled, closure_row_elem; [left|right];
    (apply distinct_on_elem in Hr as [? _]; [done|apply _]). }
  split_and!; [done| | |done|].
  - eapply collect_Forall2; [|exact H]. intros _ row s (source & Hs & [= <-])%bind_result_ok. by eapply row_source_answers.
  - set (whole := fun x : string * (string * string * string * string) => (x.1, x.2.1.1.1, x.2.1.1.2, x.2.1.2, x.2.2)).
    assert (Hinj : Inj (=) (=) whole) by (intros [? [[[? ?] ?] ?]] [? [[[? ?] ?] ?]] [= -> -> -> -> ->]; done).
    rewrite <- (map_map (fun r => (sw_sourceKind r, source_group r)) whole). apply (NoDup_fmap_2 whole).
    apply (kind_groups _ _ SourceKindStoreObservation SourceKindImport); [| |done|by apply distinct_on_groups; apply _..].
    + intros r [Hr _]%distinct_on_elem; [|apply _]. by eapply observation_kind.
    + intros r [Hr _]%distinct_on_elem; [|apply _]. by eapply import_kind.
  - intros row [Hr|Hr]%closure_row_spelled%closure_row_elem.
    + destruct (distinct_on_covers observation_first _ _ Hr) as (x & Hx & Hg). exists x.
      apply distinct_on_elem in Hx as Hx'; [|apply _]. destruct Hx' as [Hin Hbest]. specialize (Hbest row Hr (eq_sym Hg)).
      rewrite (observation_kind _ _ _ _ Hr), (observation_kind _ _ _ _ Hin). rewrite elem_of_app. injection Hg as ? ? ? ?.
      split_and!; [by left|done..| |]; unfold observation_first in Hbest; [lia|]. intros _ Ht Ha.
      rewrite Ha, String.eqb_refl in Hbest. destruct (String.eqb_spec (sw_access x) AccessAllowed); [done|]. lia.
    + destruct (distinct_on_covers import_first _ _ Hr) as (x & Hx & Hg). exists x.
      apply distinct_on_elem in Hx as Hx'; [|apply _]. destruct Hx' as [Hin Hbest]. specialize (Hbest row Hr (eq_sym Hg)).
      rewrite (import_kind _ _ _ _ Hr), (import_kind _ _ _ _ Hin). rewrite elem_of_app. injection Hg as ? ? ? ?.
      split_and!; [by right|done..| |done]. unfold import_first in Hbest. lia.
Qed.

(** ** Witnesses *)

(** One lineage of two merged customers, observed at one time: [c1]'s grant is denied,
    [c2]'s allowed. *)
Definition twin_grant (id customer : string) (access : AccessStatus) (reason : AccessReason) : lineage_columns * import_row :=
  (("project-1", customer, "app-1", "product-1", "ent-1", shop_fingerprint 5)%string,
   mkImportRow id ImportOriginRevenueCat "play_store" EnvironmentProduction access reason (Some demo_now)
     (Some (demo_now + Hour)) demo_now (shop_fingerprint 4)).

Definition twins (denied allowed : string) : source_tables :=
  mkSourceTables shop_ready
    (list_to_map [twin_grant denied "c1" AccessDenied AccessReasonRefunded;
                  twin_grant allowed "c2" AccessAllowed AccessReasonPurchaseValid]).

Definition source_access (r : result (list EntitlementSource)) : list (string * AccessStatus) :=
  match r with Ok l => map (fun s => (ep_SourceImportID (es_Projection s), ep_Access (es_Projection s))) l | Err _ => [] end.

(** The comment of the function says that equal times prefer an allowed snapshot, so that a
    merged grant is not hidden by a denied twin; for imports the smaller id decides. *)
Lemma import_twin_hides_access :
  source_access (entitlement_sources "project-1" "c1" (twins "imp-0" "imp-1")) = [("imp-0", AccessDenied)]%string /\
  source_access (entitlement_sources "project-1" "c1" (twins "imp-1" "imp-0")) = [("imp-0", AccessAllowed)]%string.
Proof. vm_compute. done. Qed.

Definition shop_twins : source_tables := twins "imp-0" "imp-1".

Lemma shop_closure :
  (customerClosure "project-1" "c2" (pur_identity (src_purchase shop_twins))).1 = Ok ("c1", ["c1"; "c2"])%string.
Proof. vm_compute. reflexivity. Qed.

Definition result_ok {A} (r : result A) : bool := match r with Ok _ => true | Err _ => false end.

Lemma shop_sources_answer : result_ok (entitlement_sources "project-1" "c2" shop_twins) = true.
Proof. vm_compute. reflexivity. Qed.

Lemma result_ok_some {A} (r : result A) : result_ok r = true -> exists a, r = Ok a.
Proof. destruct r as [a|]; [by exists a|done]. Qed.

(** The two twins are of one lineage, so one row represents both. *)
Lemma sources_are_latest_witness :
  exists sources rows, length rows = length (sources : list EntitlementSource) /\
    forall row, lineage_row "project-1" ["c1"; "c2"]%string shop_twins row ->
      exists row', row' ∈ rows /\ sw_sourceLineage row' = sw_sourceLineage row /\
        sw_observedAt row <= sw_observedAt row'.
Proof.
  destruct (result_ok_some _ shop_sources_answer) as [sources E].
  destruct (sources_are_latest "project-1" "c2" shop_twins sources E) as (canonical & members & rows & Hc & Hf & _ & _ & Hcover).
  rewrite shop_closure in Hc. injection Hc as <- <-. exists sources, rows. split; [exact (Forall2_length _ _ _ Hf)|].
  intros row Hrow. destruct (Hcover row Hrow) as (row' & Hin & _ & _ & _ & _ & Hl & Hle & _). exists row'.
  exact (conj Hin (conj Hl Hle)).
Defined.
