(* ===== verification/RevenueCatApply.v ===== *)
(** Applying an import ([internal/revenuecatimport/apply.go]): the catalog is loaded, the
    export planned against it, the batch recorded, and each subscriber written in a
    transaction of its own, which resolves the customer, records its aliases, saves its
    grants and refreshes its projections.

    The repository is the interface [ImportRepository]; the transactions are those of
    [Verification.Store], numbered in the order they are opened.  A repository that is not
    an import repository is not modelled: [*postgres.Store] gives one. *)

From S2P Require Import Prelude GoText GoTime Sha256 Core Purchase Protection Persistence Projector Repository EntitlementStore Refresh Verification QueueStore Frames Identity Catalog PurchaseStore GoCodec RevenueCat RevenueCatPlan ImportStore.
From stdpp Require Import base list strings gmap sorting.
Local Open Scope Z_scope.

(* internal/revenuecatimport/apply.go: constants *)
Definition importAliasActorKeyID : string := "revenuecat-import".

(** What the importer uses inside one transaction. *)
(* internal/revenuecatimport/apply.go: importRepository *)
Class ImportRepository (S : Type) := {
  imp_entitlement :: EntitlementRepository S;
  imp_outbox :: OutboxRepository S;
  imp_identity :: IdentityRepository S;
  PutCustomerAlias_ : CustomerAliasWrite -> Tx S CustomerResolution;
  PutCustomer_ : Customer -> Tx S Customer;
  EnsureImportBatch : ImportBatch -> Tx S unit;
  UpsertImportGrant : ImportGrant -> Tx S ImportGrantResult;
  LoadImportCatalog : ProjectID -> Tx S ImportCatalog
}.

(** ** The report ([finalizeReport]) *)

(** What one subscriber adds to the counts of an applied import. *)
(* internal/revenuecatimport/apply.go:245-273: finalizeReport *)
Definition applied_counts (subscriber : Subscriber) : Counts :=
  let refusals := alias_refusals subscriber in
  if sb_Skipped subscriber then mkCounts 0 0 0 0 0 0 refusals 0 0 0 0 0 0 0
  else if sb_Fatal subscriber then mkCounts 0 0 0 0 0 0 refusals 0 0 0 1 0 0 0
  else mkCounts (one_if (sb_Created subscriber)) (one_if (sb_Reused subscriber)) (sb_GrantsUpserted subscriber)
         (sb_GrantsUnchanged subscriber) (sb_ProjectionsChanged subscriber) (sb_WebhooksEnqueued subscriber) refusals
         (one_if (sb_Anonymous subscriber)) 0 0 0 0 0 0.

(** The counts that only the export decides. *)
Definition export_counts (counts : Counts) : Counts :=
  mkCounts 0 0 0 0 0 0 0 0 (co_FamilyShared counts) (co_SkippedAnonymous counts) 0 (co_RefundEndDisagreement counts)
    (co_TrialPeriods counts) (co_NotYetStarted counts).

(* internal/revenuecatimport/apply.go: finalizeReport *)
Definition finalizeReport (result : ImportResult) (dryRun : bool) : Report :=
  let report := ir_Report result in
  mkReport dryRun (rp_ProjectID report) (rp_BatchID report) (rp_ExportSHA256 report) (rp_Format report)
    (fold_left (fun counts subscriber => counts_add counts (applied_counts subscriber)) (ir_Subscribers result)
       (export_counts (rp_Counts report)))
    (rp_NotYetStartedEarliestAt report) (rp_Warning report) (flat_map sb_Failures (ir_Subscribers result)).

(** The report of a batch that belongs to another export. *)
(* internal/revenuecatimport/apply.go:89-95: Apply *)
Definition conflict_report (report : Report) : Report :=
  let counts := rp_Counts report in
  mkReport false (rp_ProjectID report) (rp_BatchID report) (rp_ExportSHA256 report) (rp_Format report)
    (mkCounts 0 (co_CustomersReused counts) 0 (co_GrantsUnchanged counts) (co_ProjectionsChanged counts)
       (co_WebhooksEnqueued counts) (co_AliasRefused counts) (co_AnonymousCustomers counts) (co_FamilyShared counts)
       (co_SkippedAnonymous counts) (co_Failed counts) (co_RefundEndDisagreement counts) (co_TrialPeriods counts)
       (co_NotYetStarted counts))
    (rp_NotYetStartedEarliestAt report) (rp_Warning report)
    (rp_Failures report ++ [mkFailure 0 CodeBatchConflict EmptyString EmptyString EmptyString]).

(* internal/revenuecatimport/apply.go: subscriberLine *)
Definition subscriberLine (subscriber : Subscriber) : Z :=
  match sb_Failures subscriber, sb_Grants subscriber with
  | failure :: _, _ => fl_Line failure
  | [], grant :: _ => gr_Line grant
  | [], [] => 0
  end.

(** A subscriber refused while it was written. *)
(* internal/revenuecatimport/apply.go:107-115: Apply *)
Definition refuse_subscriber (subscriber : Subscriber) : Subscriber :=
  mkSubscriber (sb_ExternalID subscriber) (sb_CustomerID subscriber) (sb_Aliases subscriber) []
    (sb_Failures subscriber ++ [mkFailure (subscriberLine subscriber) CodeConflictingSubscriber (sb_ExternalID subscriber)
                                  EmptyString EmptyString])
    (sb_Skipped subscriber) (sb_Anonymous subscriber) true (sb_Created subscriber) (sb_Reused subscriber)
    (sb_GrantsUpserted subscriber) (sb_GrantsUnchanged subscriber) (sb_ProjectionsChanged subscriber)
    (sb_WebhooksEnqueued subscriber).

(** What a written subscriber records. *)
(* internal/revenuecatimport/apply.go:186-193: applySubscriber *)
Definition record_subscriber (subscriber : Subscriber) (customerID : CustomerID) (created : bool) (upserted unchanged : Z)
    (refreshed : ProjectionRefreshResult) : Subscriber :=
  mkSubscriber (sb_ExternalID subscriber) customerID (sb_Aliases subscriber) (sb_Grants subscriber) (sb_Failures subscriber)
    (sb_Skipped subscriber) (sb_Anonymous subscriber) (sb_Fatal subscriber) created (negb created) upserted unchanged
    (ProjectionsChanged refreshed) (WebhooksEnqueued refreshed).

(* internal/revenuecatimport/apply.go: importGrantRecord *)
Definition importGrantRecord (input : Input) (customerID : CustomerID) (grant : Grant) : ImportGrant :=
  mkImportGrant (gr_ID grant) (in_ProjectID input) customerID (gr_ApplicationID grant) (gr_ProductID grant)
    (gr_EntitlementID grant) ImportOriginRevenueCat (gr_OriginStore grant) (gr_Environment grant) (gr_Access grant)
    (gr_Reason grant) (mkPeriod (gr_StartsAt grant) (gr_EndsAt grant)) (gr_ObservedAt grant) (Sum256 (in_Export input))
    (gr_LineageFingerprint grant).

(** The grant of the customer the subscriber resolved to. *)
(* internal/revenuecatimport/apply.go:161: applySubscriber *)
Definition grant_for (input : Input) (customerID : CustomerID) (grant : Grant) : Grant :=
  mkGrant (rc_GrantID (in_ProjectID input) customerID (gr_ApplicationID grant) (gr_ProductID grant) (gr_EntitlementID grant)
             (gr_LineageFingerprint grant))
    (gr_Line grant) (gr_EntitlementKey grant) (gr_EntitlementID grant) (gr_ApplicationID grant) (gr_ProductID grant)
    (gr_OriginStore grant) (gr_Environment grant) (gr_Access grant) (gr_Reason grant) (gr_StartsAt grant) (gr_EndsAt grant)
    (gr_ObservedAt grant) (gr_LineageFingerprint grant).

Section Apply.
Context `{Horder : !GoMapRange} `{Library : !ExportLibrary} (zone : time -> Z).
Context {S : Type} `{Hrep : !ImportRepository S, Hstore : !Store S}.

(** ** One subscriber *)

(* internal/revenuecatimport/apply.go: importCustomer *)
Definition importCustomer (projectID : ProjectID) (subscriber : Subscriber) : Tx S (CustomerID * bool) :=
  tx_handle (ResolveCustomer projectID (sb_ExternalID subscriber))
    (fun resolution => tx_ret (res_CanonicalCustomerID resolution, false))
    (fun e =>
       if negb (errors_Is e "persistence.ErrNotFound") then tx_err e
       else tx_handle (PutCustomer_ (mkCustomer (sb_CustomerID subscriber) projectID (sb_ExternalID subscriber)))
              (fun customer => tx_ret (cus_ID customer, true))
              (fun e => if errors_Is e "persistence.ErrConflict" then tx_err errSubscriberConflict else tx_err e)).

(* internal/revenuecatimport/apply.go:143-157: applySubscriber *)
Definition put_import_alias (projectID : ProjectID) (customerID : CustomerID) (alias : string) : Tx S unit :=
  tx_handle (PutCustomerAlias_ (mkAliasWrite projectID customerID alias APIKeyRoleAdmin importAliasActorKeyID))
    (fun _ => tx_ret tt)
    (fun e => if errors_Is e "persistence.ErrConflict" then tx_err errSubscriberConflict else tx_err e).

(** The grants in order, with the counts of what changed and what did not. *)
(* internal/revenuecatimport/apply.go:158-172: applySubscriber *)
Fixpoint put_import_grants (input : Input) (customerID : CustomerID) (upserted unchanged : Z) (grants : list Grant)
    : Tx S (Z * Z) :=
  match grants with
  | [] => tx_ret (upserted, unchanged)
  | grant :: grants' =>
      do result <- UpsertImportGrant (importGrantRecord input customerID (grant_for input customerID grant));
      if igr_Inserted result || igr_Updated result
      then put_import_grants input customerID (upserted + 1) unchanged grants'
      else put_import_grants input customerID upserted (unchanged + 1) grants'
  end.

(** The subscriber as its transaction leaves it. *)
(* internal/revenuecatimport/apply.go: applySubscriber *)
Definition applySubscriber (input : Input) (subscriber : Subscriber) (webhooks : bool) : Tx S Subscriber :=
  do imported <- importCustomer (in_ProjectID input) subscriber;
  let '(customerID, created) := imported in
  do _ <- LockCustomerClosure (in_ProjectID input) customerID;
  do _ <- tx_each (put_import_alias (in_ProjectID input) customerID) (sb_Aliases subscriber);
  do counts <- put_import_grants input customerID 0 0 (sb_Grants subscriber);
  do refreshed <- RefreshCustomerProjectionWithOptions zone DefaultProjector (in_ProjectID input) customerID
                    (in_Now input) webhooks;
  tx_ret (record_subscriber subscriber customerID created counts.1 counts.2 refreshed).

(** ** The import *)

(* internal/revenuecatimport/apply.go: LoadCatalog *)
Definition LoadCatalog (number : nat) (projectID : ProjectID) : Tx S Catalog :=
  do snapshot <- StoreTransact number (LoadImportCatalog projectID);
  tx_ret (NewCatalog snapshot).

(** The subscribers in order; one refused for a conflict does not stop the others. *)
(* internal/revenuecatimport/apply.go:100-119: Apply *)
Fixpoint apply_subscribers (input : Input) (webhooks : bool) (number : nat) (subscribers : list Subscriber)
    : Tx S (list Subscriber) :=
  match subscribers with
  | [] => tx_ret []
  | subscriber :: subscribers' =>
      if sb_Skipped subscriber || sb_Fatal subscriber then
        do rest <- apply_subscribers input webhooks number subscribers'; tx_ret (subscriber :: rest)
      else
        do written <- tx_handle (StoreTransact number (applySubscriber input subscriber webhooks))
                        (fun written => tx_ret written)
                        (fun e => if errors_Is e "revenuecatimport.errSubscriberConflict"
                                  then tx_ret (refuse_subscriber subscriber) else tx_err e);
        do rest <- apply_subscribers input webhooks (Datatypes.S number) subscribers';
        tx_ret (written :: rest)
  end.

Definition apply_input (input : Input) (catalog : Catalog) : Input :=
  mkInput (in_ProjectID input) (in_Mapping input) (in_Format input) (in_Export input) (in_Now input) (in_BatchID input)
    (in_SkipAnonymous input) true (Some catalog).

Definition no_report : Report :=
  mkReport false EmptyString EmptyString EmptyString EmptyString no_counts None EmptyString [].

(** Both a report and an error may be returned. *)
(* internal/revenuecatimport/apply.go: Apply *)
Definition Apply (store : option unit) (input : Input) (webhooks : bool) : S -> (Report * error) * S :=
  fun s =>
    match store with
    | None => ((no_report, Some (Wrapf "import store is required: %w" [] ErrUsage)), s)
    | Some _ =>
    match ValidateOpaqueIdentifier "import batch ID" (in_BatchID input) with
    | Some _ => ((no_report, Some (Wrapf "batch id: %w" [] ErrUsage)), s)
    | None =>
    match LoadCatalog 0 (in_ProjectID input) s with
    | (Err e, s1) => ((no_report, Some e), s1)
    | (Ok catalog, s1) =>
        let input := apply_input input catalog in
        match Plan input with
        | Err e => ((no_report, Some e), s1)
        | Ok result =>
            match StoreTransact 1 (EnsureImportBatch (mkImportBatch (in_ProjectID input) (in_BatchID input)
                                                        (Sum256 (in_Export input)) (in_Format input))) s1 with
            | (Err e, s2) =>
                if errors_Is e "persistence.ErrConflict"
                then ((conflict_report (ir_Report result), Some ErrBatchConflict), s2)
                else ((no_report, Some e), s2)
            | (Ok _, s2) =>
                match apply_subscribers input webhooks 2 (ir_Subscribers result) s2 with
                | (Err e, s3) => ((no_report, Some e), s3)
                | (Ok written, s3) => ((finalizeReport (mkImportResult written (ir_Report result)) false, None), s3)
                end
            end
        end
    end end end.
End Apply.

(** ** What applying does *)

(** The store holds the grant: saving it would change nothing. *)
Definition settled {S} `{ImportRepository S} (grant : ImportGrant) (s : S) : Prop :=
  UpsertImportGrant grant s = (Ok (mkImportGrantResult false false), s).

(** What the import repository promises: a saved grant is settled, saving a grant of another
    lineage and writing projections and events leave it so. *)
Class ImportLaws (S : Type) `{Hrep : !ImportRepository S} := {
  il_entitlement :: EntitlementLaws S;
  upsert_settled : forall grant s r s', UpsertImportGrant grant s = (Ok r, s') -> settled grant s';
  upsert_others : forall grant other s r s', UpsertImportGrant grant s = (Ok r, s') ->
    lineage_of other <> lineage_of grant -> settled other s -> settled other s';
  put_keeps_grants : forall p s w s' grant, PutEntitlement p s = (Ok w, s') -> settled grant s -> settled grant s';
  event_keeps_grants : forall e s i s' grant, SaveOutboxEvent e s = (Ok i, s') -> settled grant s -> settled grant s'
}.

Section Applied.
Context `{Horder : !GoMapRange} `{Library : !ExportLibrary} (zone : time -> Z).
Context {S : Type} `{Hrep : !ImportRepository S, Hstore : !Store S}.
Context (input : Input) (webhooks : bool).

Definition record_for (customerID : CustomerID) (grant : Grant) : ImportGrant :=
  importGrantRecord input customerID (grant_for input customerID grant).

Lemma record_lineage customerID g g' :
  lineage_of (record_for customerID g) = lineage_of (record_for customerID g') -> lineage_key g = lineage_key g'.
Proof. unfold lineage_key. cbn. by intros [= -> -> -> ->]. Qed.

Section Laws.
Context `{Hlaws : !ImportLaws S}.

Lemma put_grants_settle customerID grants up un s counts s' :
  NoDup (map lineage_key grants) -> put_import_grants input customerID up un grants s = (Ok counts, s') ->
  counts.1 + counts.2 = up + un + Z.of_nat (length grants) /\
  (forall g, g ∈ grants -> settled (record_for customerID g) s') /\
  (forall g, ~ lineage_key g ∈ map lineage_key grants -> settled (record_for customerID g) s -> settled (record_for customerID g) s').
Proof.
  revert up un s. induction grants as [|g grants IH]; intros up un s Hnd; cbn [put_import_grants].
  { intros [= <- <-]. cbn. split_and!; [lia|by intros g ?%elem_of_nil|done]. }
  cbn [map] in Hnd. apply NoDup_cons in Hnd as [Hfresh Hnd]. intros (r & s1 & Hu & H)%tx_bind_ok.
  assert (Hrest : exists up' un', put_import_grants input customerID up' un' grants s1 = (Ok counts, s') /\ up' + un' = up + un + 1).
  { destruct (igr_Inserted r || igr_Updated r); eexists _, _; (split; [exact H|lia]). }
  destruct Hrest as (up' & un' & Hrest & Hsum). destruct (IH up' un' s1 Hnd Hrest) as (Hc & Hin & Hout). split_and!.
  - rewrite Hc, Hsum. cbn [length]. lia.
  - intros g' [-> |Hg']%elem_of_cons; [|by apply Hin]. apply Hout; [done|]. by eapply upsert_settled.
  - intros g' Hnot Hs. cbn [map] in Hnot. rewrite elem_of_cons in Hnot. apply Hout; [tauto|].
    eapply upsert_others; [exact Hu| |done]. intros Heq. apply Hnot. left. by eapply record_lineage.
Qed.

Lemma write_keeps_grants project customer at_ enqueue ps r s r' s' grant :
  write_projections zone project customer at_ enqueue ps r s = (Ok r', s') -> settled grant s -> settled grant s'.
Proof.
  revert r s. induction ps as [|p ps IH]; intros r s; cbn [write_projections]; [by intros [= _ <-]|].
  intros (w & s1 & Hp & H)%tx_bind_ok Hs. apply (put_keeps_grants _ _ _ _ _ Hp) in Hs.
  destruct (negb (wr_Changed w)); [by eapply IH|]. destruct (negb enqueue); [by eapply IH|].
  apply tx_bind_ok in H as (e & s2 & [_ ->]%tx_lift_ok & H). apply tx_bind_ok in H as (i & s3 & He & H).
  apply (event_keeps_grants _ _ _ _ _ He) in Hs. by eapply IH.
Qed.

Lemma refresh_keeps_grants project customer at_ enqueue s r s' grant :
  RefreshCustomerProjectionWithOptions zone DefaultProjector project customer at_ enqueue s = (Ok r, s') ->
  settled grant s -> settled grant s'.
Proof.
  intros H. apply (refresh_steps zone) in H as (sources & current & ps & _ & _ & _ & Hw). by eapply write_keeps_grants.
Qed.

Lemma applySubscriber_steps subscriber s written s' :
  applySubscriber zone input subscriber webhooks s = (Ok written, s') ->
  exists customerID created s1 counts s2 refreshed,
    written = record_subscriber subscriber customerID created counts.1 counts.2 refreshed /\
    put_import_grants input customerID 0 0 (sb_Grants subscriber) s1 = (Ok counts, s2) /\
    RefreshCustomerProjectionWithOptions zone DefaultProjector (in_ProjectID input) customerID (in_Now input) webhooks s2
      = (Ok refreshed, s').
Proof.
  intros ([customerID created] & sa & _ & H)%tx_bind_ok. apply tx_bind_ok in H as ([] & sb & _ & H).
  apply tx_bind_ok in H as ([] & s1 & _ & H). apply tx_bind_ok in H as (counts & s2 & Hg & H).
  apply tx_bind_ok in H as (refreshed & s3 & Hr & [= <- <-]). by exists customerID, created, s1, counts, s2, refreshed.
Qed.
End Laws.

(** *** What one transaction wrote *)

(** The customer of a subscriber, and whether it is new: the one its external identifier
    resolves to, or, when nothing is found under it, the one saved for it. *)
Inductive customer_obtained (subscriber : Subscriber) (s : S) : CustomerID -> bool -> S -> Prop :=
| customer_reused resolution s1 :
    ResolveCustomer (in_ProjectID input) (sb_ExternalID subscriber) s = (Ok resolution, s1) ->
    customer_obtained subscriber s (res_CanonicalCustomerID resolution) false s1
| customer_created e s0 customer s1 :
    ResolveCustomer (in_ProjectID input) (sb_ExternalID subscriber) s = (Err e, s0) ->
    errors_Is e "persistence.ErrNotFound" = true ->
    PutCustomer_ (mkCustomer (sb_CustomerID subscriber) (in_ProjectID input) (sb_ExternalID subscriber)) s0
      = (Ok customer, s1) ->
    customer_obtained subscriber s (cus_ID customer) true s1.

(** The aliases were saved, one after the other, for the customer. *)
Inductive aliases_saved (customerID : CustomerID) : list string -> S -> S -> Prop :=
| aliases_done s : aliases_saved customerID [] s s
| aliases_next alias rest s resolution s1 s' :
    PutCustomerAlias_ (mkAliasWrite (in_ProjectID input) customerID alias APIKeyRoleAdmin importAliasActorKeyID) s
      = (Ok resolution, s1) ->
    aliases_saved customerID rest s1 s' -> aliases_saved customerID (alias :: rest) s s'.

(** The grants were saved, one after the other, each with its answer. *)
Inductive grants_saved (customerID : CustomerID) : list Grant -> S -> list ImportGrantResult -> S -> Prop :=
| grants_done s : grants_saved customerID [] s [] s
| grants_next grant rest s r s1 answers s' :
    UpsertImportGrant (record_for customerID grant) s = (Ok r, s1) ->
    grants_saved customerID rest s1 answers s' ->
    grants_saved customerID (grant :: rest) s (r :: answers) s'.

Definition grant_changed (r : ImportGrantResult) : bool := igr_Inserted r || igr_Updated r.

(** What a subscriber's transaction did, and that what is kept of the subscriber says so. *)
Record wrote (subscriber : Subscriber) (s : S) (w : Subscriber) (s' : S) : Prop := {
  wr_customer : exists sa, customer_obtained subscriber s (sb_CustomerID w) (sb_Created w) sa /\
    exists sb sc sd answers refreshed,
      LockCustomerClosure (in_ProjectID input) (sb_CustomerID w) sa = (Ok tt, sb) /\
      aliases_saved (sb_CustomerID w) (sb_Aliases subscriber) sb sc /\
      grants_saved (sb_CustomerID w) (sb_Grants subscriber) sc answers sd /\
      sb_GrantsUpserted w = count_if grant_changed answers /\
      sb_GrantsUnchanged w = count_if (fun r => negb (grant_changed r)) answers /\
      RefreshCustomerProjectionWithOptions zone DefaultProjector (in_ProjectID input) (sb_CustomerID w) (in_Now input)
        webhooks sd = (Ok refreshed, s') /\
      sb_ProjectionsChanged w = ProjectionsChanged refreshed /\ sb_WebhooksEnqueued w = WebhooksEnqueued refreshed;
  wr_reused : sb_Reused w = negb (sb_Created w);
  wr_kept : sb_ExternalID w = sb_ExternalID subscriber /\ sb_Aliases w = sb_Aliases subscriber /\
    sb_Grants w = sb_Grants subscriber /\ sb_Failures w = sb_Failures subscriber
}.

Lemma importCustomer_obtained subscriber s customerID created s' :
  importCustomer (in_ProjectID input) subscriber s = (Ok (customerID, created), s') ->
  customer_obtained subscriber s customerID created s'.
Proof.
  unfold importCustomer, tx_handle. destruct (ResolveCustomer _ _ s) as [[resolution|e] s0] eqn:E.
  { intros [= <- <- <-]. by apply customer_reused. }
  destruct (errors_Is e _) eqn:Hnf; cbn [negb]; [|done].
  destruct (PutCustomer_ _ s0) as [[customer|e'] s1] eqn:Ep; [|by destruct (errors_Is e' _)].
  intros [= <- <- <-]. by eapply customer_created.
Qed.

Lemma put_aliases_saved customerID names s s' :
  tx_each (put_import_alias (in_ProjectID input) customerID) names s = (Ok tt, s') -> aliases_saved customerID names s s'.
Proof.
  revert s. induction names as [|alias names IH]; intros s; cbn [tx_each]; [intros [= <-]; constructor|].
  intros ([] & s1 & Ha & H)%tx_bind_ok. unfold put_import_alias, tx_handle in Ha.
  destruct (PutCustomerAlias_ _ s) as [[r|e] s0] eqn:E; [|by destruct (errors_Is e _)].
  injection Ha as <-. by eapply aliases_next; [|apply IH].
Qed.

Lemma put_grants_saved customerID grants up un s counts s' :
  put_import_grants input customerID up un grants s = (Ok counts, s') ->
  exists answers, grants_saved customerID grants s answers s' /\ counts.1 = up + count_if grant_changed answers /\
    counts.2 = un + count_if (fun r => negb (grant_changed r)) answers.
Proof.
  revert up un s. induction grants as [|g grants IH]; intros up un s; cbn [put_import_grants].
  { intros [= <- <-]. exists []. split; [apply grants_done|]. unfold count_if. cbn. lia. }
  intros (r & s1 & Hu & H)%tx_bind_ok.
  destruct (igr_Inserted r || igr_Updated r) eqn:Hr; apply IH in H as (answers & Hs & H1 & H2); exists (r :: answers);
    (split; [by eapply grants_next|]); rewrite H1, H2; unfold count_if, grant_changed; cbn [List.filter]; rewrite Hr;
    cbn [negb length]; lia.
Qed.

Lemma applySubscriber_wrote subscriber s w s' :
  applySubscriber zone input subscriber webhooks s = (Ok w, s') -> wrote subscriber s w s'.
Proof.
  intros ([customerID created] & sa & Hc & H)%tx_bind_ok. apply tx_bind_ok in H as ([] & sb & Hlock & H).
  apply tx_bind_ok in H as ([] & sc & Ha & H). apply tx_bind_ok in H as (counts & sd & Hg & H).
  apply tx_bind_ok in H as (refreshed & s3 & Hr & [= <- <-]).
  apply put_grants_saved in Hg as (answers & Hg & Hup & Hun).
  constructor; [|done..]. exists sa. split; [by apply importCustomer_obtained|]. exists sb, sc, sd, answers, refreshed.
  apply put_aliases_saved in Ha. split_and!; try done; cbn; lia.
Qed.

(** *** The subscribers one after the other *)

Inductive applied : list Subscriber -> S -> list Subscriber -> S -> Prop :=
| applied_none s : applied [] s [] s
| applied_left subscriber rest s written s' :
    ~ live subscriber -> applied rest s written s' -> applied (subscriber :: rest) s (subscriber :: written) s'
| applied_written subscriber rest s w s1 written s' :
    live subscriber -> live w -> wrote subscriber s w s1 ->
    applied rest s1 written s' -> applied (subscriber :: rest) s (w :: written) s'
| applied_refused subscriber rest s number e written s' :
    live subscriber -> StoreTransact number (applySubscriber zone input subscriber webhooks) s = (Err e, s) ->
    errors_Is e "revenuecatimport.errSubscriberConflict" = true ->
    applied rest s written s' ->
    applied (subscriber :: rest) s (refuse_subscriber subscriber :: written) s'.

Lemma apply_subscribers_applied number subscribers s written s' :
  apply_subscribers zone input webhooks number subscribers s = (Ok written, s') -> applied subscribers s written s'.
Proof.
  revert number s written. induction subscribers as [|subscriber rest IH]; intros number s written; cbn [apply_subscribers].
  { intros [= <- <-]. constructor. }
  destruct (sb_Skipped subscriber || sb_Fatal subscriber) eqn:E.
  - intros (ws & s1 & Hr & [= <- <-])%tx_bind_ok. constructor; [|by eapply IH].
    intros [Hf Hs]. by rewrite Hf, Hs in E.
  - apply orb_false_iff in E as [Es Ef]. intros (w & s1 & Hw & H)%tx_bind_ok.
    apply tx_bind_ok in H as (ws & s2 & Hr & [= <- <-]). unfold tx_handle in Hw.
    destruct (StoreTransact number (applySubscriber zone input subscriber webhooks) s) as [[w0|e] s0] eqn:Et.
    + injection Hw as <- <-. apply store_commits in Et. eapply applied_written; [by split| |by eapply applySubscriber_wrote|by eapply IH].
      apply (applySubscriber_steps) in Et as (? & ? & ? & ? & ? & ? & -> & _). by split.
    + pose proof Et as ->%store_rolls_back. destruct (errors_Is e _) eqn:He; [|done]. injection Hw as <- <-.
      eapply applied_refused; [by split|exact Et|exact He|by eapply IH].
Qed.
End Applied.

(** ** The report adds up *)

Lemma total_count {A} (f : A -> bool) l : total_of (fun x => one_if (f x)) l = count_if f l.
Proof.
  unfold count_if. induction l as [|x l IH]; [done|]. rewrite total_cons, IH. cbn [List.filter].
  destruct (f x); cbn [length one_if]; lia.
Qed.

(** A count of a report is the sum over its subscribers. *)
Lemma counts_total (f : Counts -> Z) (g : Subscriber -> Counts) subscribers init :
  (forall a b, f (counts_add a b) = f a + f b) ->
  f (fold_left (fun counts subscriber => counts_add counts (g subscriber)) subscribers init)
  = f init + total_of (fun subscriber => f (g subscriber)) subscribers.
Proof.
  intros Hf. revert init. induction subscribers as [|x l IH]; intros init; cbn [fold_left]; [cbn; lia|].
  rewrite IH, Hf, total_cons. lia.
Qed.

Definition is_live (s : Subscriber) : bool := negb (sb_Fatal s) && negb (sb_Skipped s).

Lemma is_live_spec s : is_live s = true <-> live s.
Proof. unfold is_live, live. destruct (sb_Fatal s), (sb_Skipped s); naive_solver. Qed.

(** What is known of a subscriber once its turn is over. *)
Record accounted (subscriber written : Subscriber) : Prop := {
  ac_skipped : sb_Skipped written = sb_Skipped subscriber;
  ac_created : live written -> sb_Reused written = negb (sb_Created written);
  ac_grants : live written -> sb_GrantsUpserted written + sb_GrantsUnchanged written = Z.of_nat (length (sb_Grants written)) /\
                             sb_Grants written = sb_Grants subscriber;
  ac_refused : live subscriber -> ~ live written -> sb_Grants written = []
}.

Section Accounts.
Context `{Horder : !GoMapRange} `{Library : !ExportLibrary} (zone : time -> Z).
Context {S : Type} `{Hrep : !ImportRepository S, Hstore : !Store S}.
Context (input : Input) (webhooks : bool).

Lemma grants_saved_count customerID grants (s : S) answers s' :
  grants_saved input customerID grants s answers s' ->
  count_if grant_changed answers + count_if (fun r => negb (grant_changed r)) answers = Z.of_nat (length grants).
Proof.
  unfold count_if. induction 1 as [|grant rest s r s1 answers s' _ _ IH]; [done|]. cbn [List.filter length].
  destruct (grant_changed r); cbn [negb length]; lia.
Qed.

Lemma wrote_accounted subscriber (s : S) w s' :
  live subscriber -> live w -> wrote zone input webhooks subscriber s w s' -> accounted subscriber w.
Proof.
  intros [_ Hs] [Hf Hw] [(sa & _ & sb & sc & sd & answers & refreshed & _ & _ & Hg & Hup & Hun & _) Hr (_ & _ & Hgr & _)].
  apply grants_saved_count in Hg. constructor; [by rewrite Hs, Hw|done| |].
  - intros _. rewrite Hup, Hun, Hg, Hgr. done.
  - intros _ []. by split.
Qed.

Lemma applied_accounted subscribers (s : S) written s' :
  applied zone input webhooks subscribers s written s' ->
  Forall2 accounted subscribers written.
Proof.
  induction 1 as [|subscriber rest s written s' Hdead _ IH|subscriber rest s w s1 written s' Hlive Hw Hwr _ IH|subscriber rest s number e written s' Hlive _ _ _ IH];
    constructor; try done.
  - by eapply wrote_accounted.
  - constructor; try done; by intros [].
Qed.
End Accounts.

Lemma live_count l : total_of (fun w => one_if (is_live w) + (one_if (sb_Fatal w && negb (sb_Skipped w)) + one_if (sb_Skipped w))) l
                     = Z.of_nat (length l).
Proof.
  induction l as [|w l IH]; [done|]. rewrite total_cons, IH. unfold is_live.
  destruct (sb_Fatal w), (sb_Skipped w); cbn [andb negb one_if length]; lia.
Qed.

(** The counts of the report of an applied import. *)
Record report_adds_up (report : Report) (written : list Subscriber) : Prop := {
  ra_created : co_CustomersCreated (rp_Counts report) = count_if (fun w => is_live w && sb_Created w) written;
  ra_reused : co_CustomersReused (rp_Counts report) = count_if (fun w => is_live w && negb (sb_Created w)) written;
  ra_failed : co_Failed (rp_Counts report) = count_if (fun w => sb_Fatal w && negb (sb_Skipped w)) written;
  ra_skipped : co_SkippedAnonymous (rp_Counts report) = count_if sb_Skipped written;
  ra_total : co_CustomersCreated (rp_Counts report) + co_CustomersReused (rp_Counts report)
             + co_Failed (rp_Counts report) + co_SkippedAnonymous (rp_Counts report) = Z.of_nat (length written);
  ra_upserted : co_GrantsUpserted (rp_Counts report)
                = total_of (fun w => if is_live w then sb_GrantsUpserted w else 0) written;
  ra_unchanged : co_GrantsUnchanged (rp_Counts report)
                 = total_of (fun w => if is_live w then sb_GrantsUnchanged w else 0) written;
  ra_grants : co_GrantsUpserted (rp_Counts report) + co_GrantsUnchanged (rp_Counts report)
              = total_of (fun w => if is_live w then Z.of_nat (length (sb_Grants w)) else 0) written;
  ra_projections : co_ProjectionsChanged (rp_Counts report)
                   = total_of (fun w => if is_live w then sb_ProjectionsChanged w else 0) written;
  ra_webhooks : co_WebhooksEnqueued (rp_Counts report)
                = total_of (fun w => if is_live w then sb_WebhooksEnqueued w else 0) written;
  ra_failures : rp_Failures report = flat_map sb_Failures written;
  ra_aliases : co_AliasRefused (rp_Counts report)
               = count_if (fun failure => String.eqb (fl_Code failure) CodeAliasRefused) (rp_Failures report)
}.

Lemma count_if_flat {A B} (f : B -> bool) (g : A -> list B) l : count_if f (flat_map g l) = total_of (fun x => count_if f (g x)) l.
Proof.
  unfold count_if. induction l as [|x l IH]; [done|]. cbn [flat_map]. rewrite total_cons, <- IH, List.filter_app, length_app. lia.
Qed.

(** A count of the report of what only the live subscribers add to. *)
Lemma live_total (f : Counts -> Z) (g : Subscriber -> Z) result written :
  (forall a b, f (counts_add a b) = f a + f b) -> f (export_counts (rp_Counts (ir_Report result))) = 0 ->
  (forall w, w ∈ written -> f (applied_counts w) = if is_live w then g w else 0) ->
  f (rp_Counts (finalizeReport (mkImportResult written (ir_Report result)) false))
  = total_of (fun w => if is_live w then g w else 0) written.
Proof.
  intros Hadd H0 Hg. cbn [rp_Counts finalizeReport ir_Subscribers ir_Report].
  rewrite (counts_total f applied_counts) by done. rewrite H0, Z.add_0_l. by apply total_ext.
Qed.

Lemma live_counted (f : Subscriber -> bool) l :
  total_of (fun w => if is_live w then one_if (f w) else 0) l = count_if (fun w => is_live w && f w) l.
Proof. rewrite <- total_count. apply total_ext. intros w _. by destruct (is_live w), (f w). Qed.

Lemma applied_live w : is_live w = true -> applied_counts w =
  mkCounts (one_if (sb_Created w)) (one_if (sb_Reused w)) (sb_GrantsUpserted w) (sb_GrantsUnchanged w)
    (sb_ProjectionsChanged w) (sb_WebhooksEnqueued w) (alias_refusals w) (one_if (sb_Anonymous w)) 0 0 0 0 0 0.
Proof. unfold applied_counts, is_live. by destruct (sb_Fatal w), (sb_Skipped w). Qed.

Lemma applied_dead w : is_live w = false -> applied_counts w =
  mkCounts 0 0 0 0 0 0 (alias_refusals w) 0 0 0 (one_if (sb_Fatal w && negb (sb_Skipped w))) 0 0 0.
Proof. unfold applied_counts, is_live. by destruct (sb_Fatal w), (sb_Skipped w). Qed.

Ltac live_cases w := intros; destruct (is_live w) eqn:?; [rewrite applied_live by done|rewrite applied_dead by done]; cbn.

Lemma finalized_adds_up result subscribers written :
  Forall2 accounted subscribers written ->
  co_SkippedAnonymous (rp_Counts (ir_Report result)) = count_if sb_Skipped subscribers ->
  report_adds_up (finalizeReport (mkImportResult written (ir_Report result)) false) written.
Proof.
  intros Hacc Hskip.
  assert (Hsk : count_if sb_Skipped subscribers = count_if sb_Skipped written).
  { rewrite <- !total_count. clear Hskip. induction Hacc as [|x w l ws [Hs _ _ _] _ IH]; [done|]. by rewrite !total_cons, Hs, IH. }
  assert (Hlive : forall w, w ∈ written -> is_live w = true ->
            sb_Reused w = negb (sb_Created w) /\ sb_GrantsUpserted w + sb_GrantsUnchanged w = Z.of_nat (length (sb_Grants w))).
  { intros w Hw Hl%is_live_spec. apply list_elem_of_lookup in Hw as [i Hi]. destruct (Forall2_lookup_r _ _ _ _ _ Hacc Hi) as (x & _ & [_ Hc Hg _]).
    split; [by apply Hc|by apply Hg]. }
  set (report := finalizeReport _ _).
  assert (H1 : co_CustomersCreated (rp_Counts report) = count_if (fun w => is_live w && sb_Created w) written).
  { rewrite <- live_counted. by apply live_total; [..|live_cases w]. }
  assert (H2 : co_CustomersReused (rp_Counts report) = count_if (fun w => is_live w && negb (sb_Created w)) written).
  { rewrite <- live_counted. apply live_total; try done. intros w Hw. live_cases w; [|done]. by rewrite (proj1 (Hlive w Hw ltac:(done))). }
  assert (H3 : co_Failed (rp_Counts report) = count_if (fun w => sb_Fatal w && negb (sb_Skipped w)) written).
  { unfold report. cbn [rp_Counts finalizeReport ir_Subscribers ir_Report]. rewrite (counts_total co_Failed applied_counts) by done.
    cbn [export_counts co_Failed]. rewrite Z.add_0_l, <- total_count. apply total_ext.
    intros w _. unfold applied_counts. by destruct (sb_Fatal w), (sb_Skipped w). }
  assert (H4 : co_SkippedAnonymous (rp_Counts report) = count_if sb_Skipped written).
  { unfold report. cbn [rp_Counts finalizeReport ir_Subscribers ir_Report]. rewrite (counts_total co_SkippedAnonymous applied_counts) by done.
    cbn [export_counts co_SkippedAnonymous]. rewrite Hskip, Hsk, (total_ext _ (fun _ => 0)), total_zero; [lia|].
    intros w _. unfold applied_counts. by destruct (sb_Fatal w), (sb_Skipped w). }
  assert (H5 : co_GrantsUpserted (rp_Counts report) = total_of (fun w => if is_live w then sb_GrantsUpserted w else 0) written)
    by (by apply live_total; [..|live_cases w]).
  assert (H6 : co_GrantsUnchanged (rp_Counts report) = total_of (fun w => if is_live w then sb_GrantsUnchanged w else 0) written)
    by (by apply live_total; [..|live_cases w]).
  constructor; try done.
  - rewrite H1, H2, H3, H4, <- live_count, <- !total_count, <- !total_add. apply total_ext. intros w _.
    unfold is_live. by destruct (sb_Fatal w), (sb_Skipped w), (sb_Created w).
  - rewrite H5, H6, <- total_add. apply total_ext. intros w Hw. destruct (is_live w) eqn:Hl; [|done]. by apply Hlive.
  - by apply live_total; [..|live_cases w].
  - by apply live_total; [..|live_cases w].
  - unfold report. cbn [rp_Counts rp_Failures finalizeReport ir_Subscribers ir_Report]. rewrite (counts_total co_AliasRefused applied_counts) by done.
    rewrite count_if_flat. cbn [export_counts co_AliasRefused]. rewrite Z.add_0_l. apply total_ext. intros w _.
    unfold applied_counts, alias_refusals. by destruct (sb_Fatal w), (sb_Skipped w).
Qed.

(** The skipped subscribers of a plan are those it counts. *)
Lemma plan_skipped `{Horder : !GoMapRange} `{Library : !ExportLibrary} input result :
  Plan input = Ok result -> co_SkippedAnonymous (rp_Counts (ir_Report result)) = count_if sb_Skipped (ir_Subscribers result).
Proof.
  unfold Plan. intros [_ H]%try_err_ok. apply try_err_ok in H as [_ H]. apply try_err_ok in H as [_ H].
  apply bind_result_ok in H as ([[drafts familyShared] trials] & _ & [= <-]). cbn [ir_Report rp_Counts ir_Subscribers].
  rewrite (counts_total co_SkippedAnonymous (planned_counts (in_Now input))) by done. cbn [co_SkippedAnonymous].
  rewrite Z.add_0_l, <- total_count. apply total_ext. intros w _. unfold planned_counts. by destruct (sb_Skipped w), (sb_Fatal w).
Qed.

(** C31. An import writes each subscriber whole or not at all, and reports what it wrote.
    When [Apply] answers without an error it has loaded the catalog, planned the export
    against it and recorded the batch; then, one transaction after the other, each subscriber
    the plan would import was either written from the state its predecessors left, or refused,
    for a conflict and with the state untouched, and the others were left alone.  Writing it used the customer
    its external identifier resolves to, or, only when there is none, created one; locked it,
    saved every alias and every grant for it and refreshed its projections.  In the report a
    subscriber is created exactly when its transaction created the customer, and reused
    exactly when it found it; the grants upserted are those a save inserted or updated and the
    grants unchanged the others; the projections and webhooks are those of the refreshes; the
    refused and the skipped are counted as such, so that every subscriber is counted once; and
    the failures are those of the subscribers. *)
Theorem apply_accounts `{Horder : !GoMapRange} `{Library : !ExportLibrary} (zone : time -> Z) {S : Type}
    `{Hrep : !ImportRepository S, Hstore : !Store S} input webhooks report (s s' : S) :
  Apply zone (Some tt) input webhooks s = ((report, None), s') ->
  exists snapshot result s0 s1 written,
    LoadImportCatalog (in_ProjectID input) s = (Ok snapshot, s0) /\
    let input := apply_input input (NewCatalog snapshot) in
    Plan input = Ok result /\
    EnsureImportBatch (mkImportBatch (in_ProjectID input) (in_BatchID input) (Sum256 (in_Export input)) (in_Format input)) s0
      = (Ok tt, s1) /\
    applied zone input webhooks (ir_Subscribers result) s1 written s' /\
    length written = length (ir_Subscribers result) /\
    rp_DryRun report = false /\ report_adds_up report written.
Proof.
  unfold Apply. destruct (ValidateOpaqueIdentifier _ _); [done|].
  destruct (LoadCatalog 0 (in_ProjectID input) s) as [[catalog|e] s0] eqn:Hload; [|done].
  apply tx_bind_ok in Hload as (snapshot & sx & Hload & [= <- <-]). apply store_commits in Hload.
  cbv zeta. destruct (Plan (apply_input input (NewCatalog snapshot))) as [result|] eqn:Hplan; [|done].
  destruct (StoreTransact 1 _ _) as [[[]|e] s1] eqn:Hbatch; [|by destruct (errors_Is _ _)]. apply store_commits in Hbatch.
  destruct (apply_subscribers _ _ _ _ _ _) as [[written|] s2] eqn:Happly; [|done]. intros [= <- <-].
  apply apply_subscribers_applied in Happly. pose proof (applied_accounted _ _ _ _ _ _ _ Happly) as Hacc.
  exists snapshot, result, sx, s1, written. split_and!; try done.
  - symmetry. by eapply Forall2_length.
  - eapply finalized_adds_up; [exact Hacc|]. by eapply plan_skipped.
Qed.

(** A written subscriber is settled.  When [applySubscriber] succeeds for a subscriber
    whose grants are of different lineages, every one of its grants is stored for the
    customer it resolved to, and saving it again would change nothing, and after that the
    projections of that customer were refreshed: every projection the projector decides is
    the row of its entitlement, and the counters are those of the grants and of the rows that
    changed. *)
Theorem subscriber_settled `{Horder : !GoMapRange} (zone : time -> Z) {S : Type}
    `{Hrep : !ImportRepository S, Hlaws : !ImportLaws S} input webhooks subscriber written (s s' : S) :
  applySubscriber zone input subscriber webhooks s = (Ok written, s') -> NoDup (map lineage_key (sb_Grants subscriber)) ->
  (forall g, g ∈ sb_Grants subscriber -> settled (record_for input (sb_CustomerID written) g) s') /\
  sb_GrantsUpserted written + sb_GrantsUnchanged written = Z.of_nat (length (sb_Grants subscriber)) /\
  exists s1 sources current projections,
    CustomerEntitlementSources (in_ProjectID input) (sb_CustomerID written) s1 = (Ok sources, s1) /\
    CustomerEntitlements (in_ProjectID input) (sb_CustomerID written) s1 = (Ok current, s1) /\
    Project (Some tt) current (map candidate_of_source sources) = Ok projections /\
    (forall p, In p projections -> exists c, row_written (in_ProjectID input) (sb_CustomerID written) s' p c) /\
    sb_ProjectionsChanged written = Z.of_nat (length (outdated (in_ProjectID input) (sb_CustomerID written) s1 projections)) /\
    sb_WebhooksEnqueued written = (if webhooks then sb_ProjectionsChanged written else 0).
Proof.
  intros H Hnd. apply (applySubscriber_steps zone) in H as (customerID & created & sa & counts & s1 & refreshed & -> & Hg & Hr).
  cbn [sb_CustomerID record_subscriber sb_GrantsUpserted sb_GrantsUnchanged sb_ProjectionsChanged sb_WebhooksEnqueued].
  pose proof (put_grants_settle zone input customerID (sb_Grants subscriber) 0 0 sa counts s1 Hnd Hg) as (Hc & Hin & _). split_and!.
  - intros g Hgin. eapply (refresh_keeps_grants zone (Hlaws := Hlaws)); [exact Hr|by apply Hin].
  - lia.
  - apply (refresh_steps zone) in Hr as (sources & current & ps & H1 & H2 & H3 & Hw).
    destruct (write_projections_ok _ _ _ _ _ _ (Project_unique _ _ _ H3) _ _ _ _ Hw) as ([Hrows _ _ _ _] & Hp & Hq).
    cbn in Hp, Hq. exists s1, sources, current, ps. split_and!; try done. destruct webhooks; lia.
Qed.
