(* ===== verification/Postgres.v ===== *)
(** The PostgreSQL store as one state: the identity, catalog, purchase, import,
    entitlement and outbox tables of the repositories of
    [internal/persistence/postgres] together, with every repository a view of it, so that
    the use cases written against the interfaces ([Verification], [RevenueCatApply]) run
    over the tables their repositories share.

    The rows of an entitlement join the purchase and import tables, and the sources of a
    projection are the query over them: what one repository writes another one reads. *)

From S2P Require Import Prelude GoText GoTime Sha256 Core Purchase Protection Persistence Stores Projector Repository EntitlementStore Runner Refresh Verification QueueStore Frames Identity Catalog PurchaseStore GoCodec RevenueCat RevenueCatPlan ImportStore EntitlementSources RevenueCatApply.
From stdpp Require Import base list strings gmap.
Local Open Scope Z_scope.

(** ** The state and its views *)

Record store_db : Type := mkStoreDb {
  sd_purchase : purchase_db;
  sd_grants : gmap lineage_columns import_row;
  sd_batches : gmap (ProjectID * string) (string * string);
  sd_entitlements : Db
}.

Definition over_purchase {A} (m : Tx purchase_db A) : Tx store_db A :=
  tx_zoom sd_purchase (fun p s => mkStoreDb p (sd_grants s) (sd_batches s) (sd_entitlements s)) m.
Definition over_catalog {A} (m : Tx catalog_db A) : Tx store_db A := over_purchase (tx_zoom pur_catalog put_catalog m).
Definition over_identity {A} (m : Tx identity_db A) : Tx store_db A := over_purchase (on_identity m).
Definition over_entitlements {A} (m : Tx Db A) : Tx store_db A :=
  tx_zoom sd_entitlements (fun e s => mkStoreDb (sd_purchase s) (sd_grants s) (sd_batches s) e) m.

(** The tables of the import repository; it writes its own two. *)
Definition import_view (s : store_db) : import_db := mkImportDb (pur_catalog (sd_purchase s)) (sd_grants s) (sd_batches s).
Definition over_import {A} (m : Tx import_db A) : Tx store_db A :=
  tx_zoom import_view (fun i s => mkStoreDb (sd_purchase s) (import_grants i) (import_batches i) (sd_entitlements s)) m.

(** What the entitlement rows join. *)
Definition tables_of (s : store_db) : source_tables := mkSourceTables (sd_purchase s) (sd_grants s).
Definition sources_of (s : store_db) : EntitlementProjection -> option SourceInfo := joined_source (tables_of s).

(** ** The repositories *)

#[export] Instance store_catalog : CatalogRepository store_db := {|
  Application_ := fun p a => over_catalog (pg_Application p a);
  CustomerByExternalID := fun p e => over_identity (id_CustomerByExternalID p e);
  CustomerInClosure := fun p c d => over_identity (id_CustomerInClosure p c d);
  CatalogProducts := fun p a ids => over_catalog (pg_CatalogProducts p a ids)
|}.

(** [now] is the transaction's time. *)
#[export] Instance store_purchase (now : time) : PurchaseRepository store_db := {|
  SaveEvidence := fun w => over_purchase (pg_SaveEvidence w);
  SaveArtifact := fun w => over_purchase (pg_SaveArtifact w);
  SaveObservation := fun w => over_purchase (pg_SaveObservation now w)
|}.

#[export] Instance store_entitlement : EntitlementRepository store_db := {|
  LockCustomerClosure := fun p c => over_identity (id_LockCustomerClosure p c);
  PutEntitlement := fun p s => over_entitlements (pg_PutEntitlement (sources_of s) p) s;
  CustomerEntitlementSources := fun p c s => (entitlement_sources p c (tables_of s), s);
  CustomerEntitlements := fun p c s => over_entitlements (pg_CustomerEntitlements (sources_of s) p c) s
|}.

#[export] Instance store_outbox : OutboxRepository store_db := {| SaveOutboxEvent := fun e => over_entitlements (pg_SaveOutboxEvent e) |}.

#[export] Instance store_identity : IdentityRepository store_db :=
  {| ResolveCustomer := fun p e => over_identity (id_ResolveCustomer p e) |}.

#[export] Instance store_transaction (now : time) : Transaction store_db := {| tr_purchase := store_purchase now |}.

#[export] Instance store_import : ImportRepository store_db := {|
  PutCustomerAlias_ := fun w => over_identity (PutCustomerAlias w);
  PutCustomer_ := fun c => over_identity (PutCustomer c);
  EnsureImportBatch := fun b => over_import (pg_EnsureImportBatch b);
  UpsertImportGrant := fun g => over_import (pg_UpsertImportGrant g);
  LoadImportCatalog := fun p => over_import (pg_LoadImportCatalog p)
|}.

(** ** They keep the laws of the interfaces *)

Lemma over_entitlements_ok {A} (m : Tx Db A) s r s' :
  over_entitlements m s = (r, s') ->
  m (sd_entitlements s) = (r, sd_entitlements s') /\ tables_of s' = tables_of s /\ sd_batches s' = sd_batches s /\
  (sd_entitlements s' = sd_entitlements s -> s' = s).
Proof.
  intros (e & Hm & ->)%tx_zoom_eq. cbn. split_and!; [done..|]. intros ->. by destruct s.
Qed.

Definition store_view (s : store_db) : gmap (CustomerID * EntitlementID) CustomerEntitlement := db_view (sources_of s) (sd_entitlements s).

#[export] Program Instance store_EntitlementLaws : EntitlementLaws store_db := {
  view := store_view;
  events := fun s => outbox_events (sd_entitlements s)
}.
Next Obligation.
  intros p s w s' (Hm & Ht & _)%over_entitlements_ok. unfold store_view, sources_of. rewrite Ht.
  exact (put_ok (EntitlementLaws := pg_EntitlementLaws (sources_of s) (fun _ _ => Ok [])) p _ _ _ Hm).
Qed.
Next Obligation.
  intros p s w s' (Hm & Ht & _ & Hsame)%over_entitlements_ok. unfold store_view, sources_of.
  destruct (put_changed (EntitlementLaws := pg_EntitlementLaws (sources_of s) (fun _ _ => Ok [])) p _ _ _ Hm) as [Hiff Hs].
  split; [exact Hiff|]. intros Hc. by apply Hsame, Hs.
Qed.
Next Obligation.
  intros e s i s' (Hm & Ht & _)%over_entitlements_ok. unfold store_view, sources_of. rewrite Ht.
  exact (event_ok (EntitlementLaws := pg_EntitlementLaws (sources_of s) (fun _ _ => Ok [])) e _ _ _ Hm).
Qed.
Next Obligation. by intros project customer s l s' [= _ <-]. Qed.
Next Obligation.
  intros project customer s l s' (Hm & _ & _ & Hsame)%over_entitlements_ok.
  destruct (pg_current_ok (sources_of s) project customer _ _ _ Hm) as [Hs Hl]. split; [by apply Hsame|exact Hl].
Qed.

Lemma over_import_ok {A} (m : Tx import_db A) s r s' :
  over_import m s = (r, s') -> exists db', m (import_view s) = (r, db') /\
    s' = mkStoreDb (sd_purchase s) (import_grants db') (import_batches db') (sd_entitlements s).
Proof. intros (i & Hm & ->)%tx_zoom_eq. by exists i. Qed.

(** A grant is settled exactly when its row is there and equals it: whatever else the
    database holds. *)
Lemma settled_row grant s :
  settled grant s <-> ImportGrant_Validate grant = None /\
    exists row, sd_grants s !! lineage_of grant = Some row /\ importGrantsEqual (grant_of_row grant row) grant = true.
Proof.
  unfold settled. cbn [UpsertImportGrant store_import]. split.
  - intros (db' & Hm & _)%over_import_ok. pose proof Hm as Hv. apply tx_check_ok in Hv as [Hv _]. split; [done|].
    pose proof (upsert_unchanged _ _ _ _ Hm eq_refl eq_refl) as ->.
    destruct (upsert_frame _ _ _ _ Hm) as (_ & _ & _ & row & Hrow & Heq & _). by exists row.
  - intros (Hv & row & Hrow & Heq). unfold over_import, tx_zoom.
    rewrite (upsert_again grant (import_view s) row Hv Hrow Heq). cbn. by destruct s.
Qed.

#[export] Program Instance store_ImportLaws : ImportLaws store_db := {}.
Next Obligation.
  intros grant s r s' (db' & Hm & ->)%over_import_ok. apply settled_row. pose proof Hm as Hv. apply tx_check_ok in Hv as [Hv _].
  split; [done|]. destruct (upsert_frame _ _ _ _ Hm) as (_ & _ & _ & row & Hrow & Heq & _). by exists row.
Qed.
Next Obligation.
  intros grant other s r s' (db' & Hm & ->)%over_import_ok Hne (Hv & row & Hrow & Heq)%settled_row. apply settled_row.
  split; [done|]. destruct (upsert_frame _ _ _ _ Hm) as (_ & _ & Hothers & _). exists row. cbn. by rewrite Hothers.
Qed.
Next Obligation.
  intros p s w s' grant (_ & Ht & _)%over_entitlements_ok Hs%settled_row. apply settled_row.
  by rewrite (f_equal src_imports Ht : sd_grants s' = sd_grants s).
Qed.
Next Obligation.
  intros e s i s' grant (_ & Ht & _)%over_entitlements_ok Hs%settled_row. apply settled_row.
  by rewrite (f_equal src_imports Ht : sd_grants s' = sd_grants s).
Qed.

(** *** Reading *)

(** A call that only reads leaves the state the same. *)
Abbreviation reads m := (leaves eq m).

Lemma leaves_handle {S A B} (R : S -> S -> Prop) `{!PreOrder R} (m : Tx S A) (f : A -> Tx S B) g :
  leaves R m -> (forall a, leaves R (f a)) -> (forall e, leaves R (g e)) -> leaves R (tx_handle m f g).
Proof.
  intros Hm Hf Hg s r s'. unfold tx_handle. destruct (m s) as [[a|e] s1] eqn:E; intros H; (etransitivity; [by eapply Hm|]);
    [by eapply Hf|by eapply Hg].
Qed.
#[export] Hint Resolve leaves_handle : frame.
#[export] Hint Extern 1 (PreOrder _) => apply _ : frame.

(** A call over a part of the state is a call over the whole. *)
Lemma zoom_reads {S T A} (get : S -> T) put (m : Tx T A) :
  (forall s, put (get s) s = s) -> reads m -> reads (tx_zoom get put m).
Proof. intros Hput Hm s r s' (t & H & ->)%tx_zoom_eq. apply Hm in H as <-. by rewrite Hput. Qed.

Lemma reads_byID p c : reads (customerIdentityByID p c).
Proof. intros db r db' H. symmetry. by eapply byID_reads. Qed.
Lemma reads_byExternalID p e : reads (customerIdentityByExternalID p e).
Proof. intros db r db'. unfold customerIdentityByExternalID. by destruct (find_external p e db) as [[]|]; intros [= _ <-]. Qed.
Lemma reads_alias p e : reads (fun db : identity_db => match aliases db !! (p, e) with
  | Some row => (Ok (al_canonical row), db) | None => identity_error "load customer alias" ErrNoRows db end).
Proof. intros db r db'. by destruct (aliases db !! (p, e)); intros [= _ <-]. Qed.
#[export] Hint Resolve reads_byID reads_byExternalID reads_alias : frame.

Lemma reads_ResolveCustomer p e : reads (id_ResolveCustomer p e).
Proof.
  unfold id_ResolveCustomer, resolutionFromCustomer, resolve_alias. apply leaves_check; [apply _|]. apply leaves_handle; [apply _|auto with frame|..].
  - intros identity. destruct (ci_mergedInto identity); [|auto with frame]. apply leaves_bind; [apply _|auto with frame|].
    intros target. destruct (ci_mergedInto target); auto with frame.
  - intros err. apply leaves_if; [auto with frame|]. apply leaves_bind; [apply _|auto with frame|].
    intros id. apply leaves_bind; [apply _|auto with frame|]. intros canonical. destruct (ci_mergedInto canonical); auto with frame.
Qed.

Lemma reads_CustomerByExternalID p e : reads (id_CustomerByExternalID p e).
Proof.
  apply leaves_bind; [apply _|apply reads_ResolveCustomer|]. intros r. apply leaves_bind; [apply _|auto with frame|].
  intros identity. destruct (ci_mergedInto identity); auto with frame.
Qed.

Lemma reads_Application p a : reads (pg_Application p a).
Proof.
  apply leaves_check; [apply _|]. intros db r db'. destruct (applications db !! a) as [row|]; [|by intros [= _ <-]].
  by destruct (String.eqb _ _); intros [= _ <-].
Qed.

Lemma reads_CatalogProducts p a ids : reads (pg_CatalogProducts p a ids).
Proof. apply leaves_check; [apply _|]. apply leaves_if; [auto with frame|]. by intros db r db' [= _ <-]. Qed.

Lemma over_catalog_reads {A} (m : Tx catalog_db A) : reads m -> reads (over_catalog m).
Proof. intros Hm. apply zoom_reads; [by intros []|]. apply zoom_reads; [by intros []|done]. Qed.
Lemma over_identity_reads {A} (m : Tx identity_db A) : reads m -> reads (over_identity m).
Proof. intros Hm. apply zoom_reads; [by intros []|]. apply zoom_reads; [apply put_identity_same|done]. Qed.

#[export] Instance store_ReadLaws : ReadLaws store_db.
Proof.
  split; intros * H; symmetry.
  - by eapply over_catalog_reads, H; apply reads_Application.
  - by eapply over_identity_reads, H; apply reads_CustomerByExternalID.
  - by eapply over_catalog_reads, H; apply reads_CatalogProducts.
Qed.

(** ** An import over the tables of a shop *)

Definition shop_store : store_db := mkStoreDb shop_db ∅ ∅ (mkDb ∅ [] []).
#[local] Instance shop_runner : Store store_db :=
  runner_Store quiet_attempts ltac:(intros n k; reflexivity) ltac:(intros n k c H; discriminate H).
#[local] Instance shop_order : GoMapRange := range_in_order.
#[local] Instance shop_exports : ExportLibrary := plain_library.
#[local] Instance shop_transaction : Transaction store_db := store_transaction demo_now.

(** A merged customer with an alias of the survivor, two new customers with an alias, one whose
    alias is another customer's, and one whose product is not mapped. *)
Definition shop_line (user alias product id : string) : string :=
  String.concat "," [user; alias; product; "pro"; "play_store"; "false"; "false"; "62135596800500000000"; "62135596801000000000"; id]%string.
Definition shop_csv : string :=
  csv_lines [RevenueCatPlan.plan_header; shop_line "user-2" "user-3" "remove_ads" "t1"; shop_line "eve" "x" "remove_ads" "t2";
             shop_line "zed" "user-1" "remove_ads" "t3"; shop_line "bob" "y" "coins" "t4"; shop_line "fay" "w" "remove_ads" "t5"]%string.
Definition shop_mapping : Mapping :=
  mkMapping "project-1" columnOriginalAppUserID {["pro" := "ads_removed"]}
    [mkProductMapping "play_store" EnvironmentProduction "remove_ads" "app-1" "product-2"].
Definition shop_input : Input :=
  mkInput "project-1" shop_mapping FormatTransactionsCSV shop_csv demo_now "batch-1" false false None.

Lemma answered_pair {S A} (x : A * S) a : x.1 = a -> x = (a, x.2).
Proof. destruct x. by intros <-. Qed.

Definition shop_applied : (Report * error) * store_db := Apply (fun _ => 0) (Some tt) shop_input true shop_store.
Definition shop_report : Report := shop_applied.1.1.

Lemma shop_accepted : shop_applied.1 = (shop_report, None).
Proof. vm_compute. reflexivity. Qed.

Lemma shop_answered : Apply (fun _ => 0) (Some tt) shop_input true shop_store = ((shop_report, None), shop_applied.2).
Proof. exact (answered_pair shop_applied _ shop_accepted). Qed.

Lemma apply_accounts_witness :
  rp_Counts shop_report = mkCounts 2 1 3 0 3 3 0 0 0 0 2 0 0 0 /\
  map fl_Code (rp_Failures shop_report) = [CodeConflictingSubscriber; CodeUnknownProduct] /\
  exists written, report_adds_up shop_report written.
Proof.
  split; [vm_compute; reflexivity|]. split; [vm_compute; reflexivity|].
  destruct (apply_accounts (fun _ => 0) shop_input true shop_report shop_store shop_applied.2 shop_answered)
    as (snapshot & result & s0 & s1 & written & _ & _ & _ & _ & _ & _ & H).
  by exists written.
Defined.

(** The first subscriber of the plan, written from the start. *)
Definition shop_subscriber : Subscriber :=
  match Plan (apply_input shop_input (NewCatalog (mkImportCatalog [shop_application]
      [mkProduct "product-2" "project-1" ProductKindNonConsumable ["ent-2"]]
      [mkEntitlement "ent-2" "project-1" "ads_removed"] [mkStoreProduct "app-1" "product-2" "remove_ads"]))) with
  | Ok result => hd (planned "" "" [] false [] [] false true) (ir_Subscribers result)
  | Err _ => planned "" "" [] false [] [] false true
  end.
Definition shop_written : result Subscriber * store_db := applySubscriber (fun _ => 0) shop_input shop_subscriber true shop_store.
Definition shop_imported : Subscriber := match shop_written.1 with Ok written => written | Err _ => shop_subscriber end.

Lemma shop_imported_ok : shop_written.1 = Ok shop_imported.
Proof. vm_compute. reflexivity. Qed.

Lemma shop_imported_id : sb_CustomerID shop_imported = "c1"%string.
Proof. vm_compute. reflexivity. Qed.

Lemma shop_grants_distinct : NoDup (map lineage_key (sb_Grants shop_subscriber)).
Proof. apply (bool_decide_unpack _). vm_compute. exact I. Qed.

Lemma subscriber_settled_witness :
  sb_CustomerID shop_imported = "c1"%string /\ sb_GrantsUpserted shop_imported = 1 /\
  forall g, g ∈ sb_Grants shop_subscriber -> settled (record_for shop_input "c1" g) shop_written.2.
Proof.
  split; [exact shop_imported_id|]. split; [vm_compute; reflexivity|]. rewrite <- shop_imported_id.
  exact (proj1 (subscriber_settled (fun _ => 0) shop_input true shop_subscriber shop_imported shop_store shop_written.2
    (answered_result _ _ shop_imported_ok) shop_grants_distinct)).
Defined.
