(* ===== verification/Processing.v ===== *)
(** The durable processing handlers ([internal/processing/handlers.go]) and the job
    payloads they read ([internal/jobs/contracts.go]): a provider notification or a
    scheduled refresh is opened, bound to a customer it may concern, verified or
    reconciled with the provider, and followed by the next refresh.

    The handlers run on the world of the verification service: the store and the
    calls made to providers.  Transactions of the operations store are numbered
    within a run, as are the readings of the clock.  JSON decoding of the private
    payloads and the encoding of the next one are parameters; the erasure of opened
    plaintext is not visible. *)

From S2P Require Import Prelude GoText GoTime GoJson Sha256 Core Purchase Protection Persistence Stores Projector Repository EntitlementStore Runner Refresh Verification Apple Huawei QueueStore Worker Notifications Frames.
From stdpp Require Import base list strings gmap.
Local Open Scope Z_scope.

(** ** Job payloads *)

(* internal/jobs/contracts.go: Binding *)
Record Binding : Type := mkBinding {
  bd_Kind : string;
  bd_Value : string
}.

(* internal/jobs/contracts.go: VerificationPayload *)
Record VerificationPayload : Type := mkVerificationPayload {
  vp_ExternalCustomerID : string;
  vp_ClaimedProducts : list ProviderProductID;
  vp_CustomerBindings : list Binding;
  vp_Evidence : string
}.

(* internal/jobs/contracts.go: ReconciliationPayload *)
Record ReconciliationPayload : Type := mkReconciliationPayload {
  rpl_Verification : VerificationPayload;
  rpl_ScheduledFor : time
}.

(* internal/jobs/contracts.go:46-56: VerificationPayload.VerificationInputs *)
Definition binding_kind (provider : Provider) : option string :=
  if String.eqb provider ProviderAppleAppStore then Some "app_account_token"%string
  else if String.eqb provider ProviderGooglePlay then Some "obfuscated_external_account_id"%string
  else if String.eqb provider ProviderHuaweiAppGallery then Some "developer_payload"%string
  else None.

(** The client's further bindings; one that repeats the authoritative kind must
    repeat its value. *)
(* internal/jobs/contracts.go:66-81: VerificationPayload.VerificationInputs *)
Fixpoint further_bindings (provider : Provider) (bindingKind externalCustomerID : string)
    (bindings : list Binding) : result (list StoreReference) :=
  match bindings with
  | [] => Ok []
  | binding :: rest =>
      if (String.eqb provider ProviderAppleAppStore || String.eqb provider ProviderGooglePlay)
         && negb (String.eqb (bd_Kind binding) bindingKind)
      then Err (Errorf "unsupported %s customer binding %q" [AStr provider; AStr (bd_Kind binding)])
      else if String.eqb (bd_Kind binding) bindingKind then
        if negb (String.eqb (bd_Value binding) externalCustomerID)
        then Err (New "provider customer binding mismatch")
        else further_bindings provider bindingKind externalCustomerID rest
      else
        let* reference := NewStoreReference ReferenceCustomerBinding (bd_Kind binding) (bd_Value binding) in
        let* references := further_bindings provider bindingKind externalCustomerID rest in
        Ok (reference :: references)
  end.

(* internal/jobs/contracts.go: VerificationPayload.VerificationInputs *)
Definition VerificationInputs (payload : VerificationPayload) (provider : Provider)
    : result (Evidence * list StoreReference) :=
  let* contentType := EvidenceContentType provider in
  let* evidence := NewEvidence contentType (vp_Evidence payload) in
  match binding_kind provider with
  | None => Err (Errorf "unsupported purchase provider %q" [AStr provider])
  | Some bindingKind =>
      let* authoritativeBinding :=
        NewStoreReference ReferenceCustomerBinding bindingKind (vp_ExternalCustomerID payload) in
      let* bindings := further_bindings provider bindingKind (vp_ExternalCustomerID payload)
                         (vp_CustomerBindings payload) in
      Ok (evidence, authoritativeBinding :: bindings)
  end.

(** ** Dependencies *)

(** The purposes and kinds shared with the verification service are its constants. *)
(* internal/processing/handlers.go: constants *)
Definition inboxProtectionPurpose : string := "inbox_notification".
Definition reconciliationProtectionPurpose : string := "reconciliation_request".
Definition reconciliationInterval : duration := 24 * Hour.
Definition googlePlayAccountBindingKind : string := "obfuscated_external_account_id".

(* internal/persistence/contracts.go: ProviderReferenceRepository *)
Class ProviderReferenceRepository (S : Type) := {
  PurchaseContextByReference : ProviderReferenceLookup -> Tx S PurchaseReferenceContext;
  PurchaseSubmissionByReference : ProviderReferenceLookup -> Tx S PurchaseEvidenceRecord
}.

(** [persistence.OperationsStore]: one atomic unit of work, numbered within a run. *)
(* internal/persistence/contracts.go: OperationsStore *)
Class OperationsStore (S : Type) := {
  Operate : nat -> forall A, Tx S A -> Tx S A;
  operate_commits : forall n A (op : Tx S A) s a s',
    Operate n A op s = (Ok a, s') -> op s = (Ok a, s');
  operate_rolls_back : forall n A (op : Tx S A) s e s',
    Operate n A op s = (Err e, s') -> s' = s
}.
Arguments Operate {S _} n {A} op.

(* internal/processing/handlers.go: decodeStrict *)
Definition processing_decodeStrict {P} (decoder : string -> result (P * string)) (payload : string) : result P :=
  let* decoded := decoder payload in
  if json_blank (snd decoded) then Ok (fst decoded) else Err (New "unexpected trailing JSON").

(** The strict JSON decoders of the private payloads, [json.Marshal] of the next one,
    and [json.Unmarshal] into the anonymous structs of one field. *)
Class ProcessingLibrary := {
  DecodeAppleEnvelope : string -> result (apple_NotificationEnvelope * string);
  DecodeGoogleEnvelope : string -> result (google_NotificationEnvelope * string);
  DecodeHuaweiEnvelope : string -> result (huawei_NotificationEnvelope * string);
  DecodeReconciliation : string -> result (ReconciliationPayload * string);
  MarshalReconciliation : ReconciliationPayload -> result string;
  UnmarshalProductKind : string -> option ProductKind;
  UnmarshalPurchaseDataField : string -> result string;
  UnmarshalSubscriptionIDField : string -> result string
}.

(** ** Pure parts *)

(* internal/processing/handlers.go: nextReconciliationTime *)
Definition nextReconciliationTime (now : time) : time :=
  Truncate now reconciliationInterval + reconciliationInterval.

(* internal/processing/handlers.go: deterministicID *)
Definition deterministicID (prefix fingerprint : string) : string :=
  let digest := Sum256 (prefix ++ of_bytes [0] ++ fingerprint)%string in
  (prefix ++ "-" ++ EncodeToString (str_take 16 digest))%string.

(* internal/processing/handlers.go: lineageEnded *)
Definition lineageEnded (observations : list PurchaseObservation) : bool :=
  negb (Nat.eqb (length observations) 0)
  && forallb (fun observation =>
       String.eqb (obs_State observation) LifecycleExpired
       && String.eqb (obs_Access observation) AccessDenied
       && (String.eqb (ren_Status (obs_Renewal observation)) RenewalDisabled
           || String.eqb (ren_Status (obs_Renewal observation)) RenewalNotApplicable)) observations.

(* internal/processing/handlers.go: googlePlayLookupFailure *)
Definition googlePlayLookupFailure (e : gerror) : gerror :=
  if errors_Is e "persistence.ErrNotFound" || errors_Is e "persistence.ErrUnavailable"
  then NewFailure ProviderGooglePlay "notification_lookup" FailureTemporary 0 (Some e) else e.

Definition google_lookup_invalid : gerror :=
  NewFailure ProviderGooglePlay "notification_lookup" FailureInvalidEvidence 0 None.
Definition huawei_lookup (kind : FailureKind) (cause : error) : gerror :=
  NewFailure ProviderHuaweiAppGallery "notification_lookup" kind 0 cause.

Section Pure.
Context `{Lib : ProcessingLibrary}.

(* internal/processing/handlers.go: huaweiSubscriptionID *)
Definition huaweiSubscriptionID (evidence : string) : result string :=
  let* data := UnmarshalPurchaseDataField evidence in
  if String.eqb (TrimSpace data) EmptyString then Ok EmptyString
  else let* subscriptionID := UnmarshalSubscriptionIDField data in Ok (TrimSpace subscriptionID).

(* internal/processing/handlers.go: requiresReconciliation *)
Definition requiresReconciliation (evidence : string) : bool :=
  match UnmarshalProductKind evidence with
  | Some kind => String.eqb kind ProductKindSubscription
  | None => false
  end.
End Pure.

(** ** The handlers *)

Section Handlers.
Context `{Horder : !GoMapRange, Lib : ProcessingLibrary} (zone : time -> Z).
Context (verification_ : Service) (open_value : OpenRequest -> result string) (clock : nat -> time).
Context {S : Type} `{Htx : !Transaction S, Hstore : !Store S, Hops : !OperationsStore S}.
Context `{Hqueue : !QueueRepository S, Hrefs : !ProviderReferenceRepository S}.

Abbreviation WS := (World (S := S)).

(** A transaction of the operations store. *)
Definition operated {A} (n : nat) (op : Tx S A) : Tx WS A :=
  fun w => let '(r, s) := Operate n op (w_store w) in (r, mkWorld s (w_calls w)).

Definition protect_value (scope : Scope) (plaintext : string) : result ProtectedValue :=
  Protect (Some (svc_protector verification_)) scope plaintext.

(* internal/processing/handlers.go: Service.open *)
Definition processing_open (message : QueueMessage) (purpose : string) : result string :=
  let* request := NewOpenRequest (mkScope (qm_ProjectID message) (qm_ApplicationID message) purpose)
                    (qm_ProtectedPayload message) in
  wrap_result (Wrapf "open protected worker payload: %w" []) (open_value request).

(* internal/processing/handlers.go: Service.verify *)
Definition processing_verify (n : nat) (projectID : ProjectID) (applicationID : ApplicationID)
    (payload : VerificationPayload) : Tx WS Result :=
  do application <- operated n (Application_ projectID applicationID);
  do inputs <- tx_lift (VerificationInputs payload (sa_Provider (app_Store application)));
  let '(evidence, bindings) := inputs in
  Verify zone verification_ (mkCommand projectID applicationID (vp_ExternalCustomerID payload)
    (vp_ClaimedProducts payload) bindings evidence).

(* internal/processing/handlers.go: Service.scheduleNext *)
Definition scheduleNext (n : nat) (projectID : ProjectID) (applicationID : ApplicationID)
    (customerID : CustomerID) (payload : VerificationPayload) : Tx WS string :=
  let availableAt := nextReconciliationTime (clock 0) in
  do encoded <- tx_lift (MarshalReconciliation (mkReconciliationPayload payload availableAt));
  do protected <- tx_lift (wrap_result (Wrapf "protect reconciliation request: %w" [])
    (protect_value (mkScope projectID applicationID reconciliationProtectionPurpose) encoded));
  operated n (SaveReconciliationJob
    (mkReconciliationJob (deterministicID "reconcile" (Fingerprint protected)) projectID applicationID
       customerID protected availableAt)).

(* internal/processing/handlers.go: Service.schedule *)
Definition schedule (n : nat) (projectID : ProjectID) (applicationID : ApplicationID)
    (customerID : CustomerID) (payload : VerificationPayload) : Tx WS unit :=
  do _ <- scheduleNext n projectID applicationID customerID payload;
  tx_ret tt.

(* internal/processing/handlers.go: Service.retire *)
Definition retire (n : nat) (jobID : string) : Tx WS unit :=
  operated n (CompleteQueue (mkQueueCompletion QueueReconciliation jobID (clock 1))).

(** *** App Store *)

(* internal/processing/handlers.go: Service.handleAppleInbox *)
Definition handleAppleInbox (message : QueueMessage) (payload : string) : Tx WS unit :=
  do notification <- tx_lift (wrap_result (Wrapf "decode App Store notification: %w" [])
                                (processing_decodeStrict DecodeAppleEnvelope payload));
  do evidence <- tx_lift (apple_VerificationEvidence notification);
  let '(evidence, process) := evidence in
  if negb process then tx_ret tt
  else
    let verificationPayload := mkVerificationPayload (an_ExternalCustomerID notification)
      [an_ProviderProductID notification] [] evidence in
    do result_ <- processing_verify 0 (qm_ProjectID message) (qm_ApplicationID message) verificationPayload;
    if negb (requiresReconciliation evidence) then tx_ret tt
    else schedule 1 (qm_ProjectID message) (qm_ApplicationID message) (cus_ID (out_Customer result_))
           verificationPayload.

(** *** Lookups by purchase token *)

(** The protected form of a purchase token in its query scope. *)
Definition protect_token (format : string) (message : QueueMessage) (token : string) : result ProtectedValue :=
  wrap_result (Wrapf format [])
    (protect_value (mkScope (qm_ProjectID message) (qm_ApplicationID message)
       (providerReferencePurpose ++ ":" ++ ReferenceQuery ++ ":purchase_token")%string) token).

Definition token_lookup (message : QueueMessage) (fingerprint : string) : ProviderReferenceLookup :=
  mkLookup (qm_ProjectID message) (qm_ApplicationID message) ReferenceQuery "purchase_token" fingerprint.

(** *** Huawei *)

(* internal/processing/handlers.go: Service.storedHuaweiSubscriptionID *)
Definition storedHuaweiSubscriptionID (n : nat) (message : QueueMessage) (fingerprint : string)
    : Tx WS string :=
  let temporary (cause : error) := huawei_lookup FailureTemporary cause in
  do evidence <- tx_catch (fun e => if errors_Is e "persistence.ErrNotFound" || errors_Is e "persistence.ErrUnavailable"
                                     then temporary (Some e) else e)
    (operated n (PurchaseSubmissionByReference (token_lookup message fingerprint)));
  let evidenceErr := PurchaseEvidenceRecord_Validate evidence in
  if bool_decide (is_Some evidenceErr)
     || negb (String.eqb (per_Kind evidence) purchaseSubmissionEvidenceKind)
     || negb (String.eqb (per_ContentType evidence) HuaweiEvidenceContentType)
  then tx_err (temporary evidenceErr)
  else
    do request <- tx_lift (wrap_result (fun e => temporary (Some e))
      (NewOpenRequest (mkScope (qm_ProjectID message) (qm_ApplicationID message) purchaseEvidencePurpose)
         (per_Payload evidence)));
    do plaintext <- tx_lift (wrap_result (fun e => temporary (Some e)) (open_value request));
    do subscriptionID <- tx_lift (wrap_result (fun e => temporary (Some e)) (huaweiSubscriptionID plaintext));
    if String.eqb subscriptionID EmptyString then tx_err (temporary None) else tx_ret subscriptionID.

(** The classification of a failed lookup of the purchase. *)
(* internal/processing/handlers.go:170-182: Service.huaweiReconciliationCommand *)
Definition huawei_lookup_failure (e : gerror) : gerror :=
  if errors_Is e "persistence.ErrNotFound" then huawei_lookup FailureInvalidEvidence (Some e)
  else if errors_Is e "persistence.ErrUnavailable" then huawei_lookup FailureTemporary (Some e)
  else e.

(* internal/processing/handlers.go: Service.huaweiReconciliationCommand *)
Definition huaweiReconciliationCommand (message : QueueMessage) (notification : huawei_NotificationEnvelope)
    (payload : string) : Tx WS ReconciliationCommand :=
  do protected <- tx_lift (protect_token "protect Huawei notification lookup: %w" message
                             (hn_PurchaseToken notification));
  do purchase <- tx_catch huawei_lookup_failure
    (operated 0 (PurchaseContextByReference (token_lookup message (Fingerprint protected))));
  if negb (String.eqb (prc_ProductKind purchase) (hn_ProductKind notification))
     || negb (String.eqb (prc_ProviderProductID purchase) (hn_ProviderProductID notification))
  then tx_err (huawei_lookup FailureInvalidEvidence None)
  else
    do queryReference <- tx_lift (NewStoreReference ReferenceQuery "purchase_token" (hn_PurchaseToken notification));
    let subscription := String.eqb (hn_ProductKind notification) ProductKindSubscription in
    do subscriptionID <-
      (if subscription && String.eqb (hn_SubscriptionID notification) EmptyString
       then storedHuaweiSubscriptionID 1 message (Fingerprint protected)
       else tx_ret (hn_SubscriptionID notification));
    do queryReferences <-
      (if subscription then
         if String.eqb subscriptionID EmptyString then tx_err (huawei_lookup FailureTemporary None)
         else
           do subscriptionReference <- tx_lift (NewStoreReference ReferenceQuery "subscription_id" subscriptionID);
           tx_ret [queryReference; subscriptionReference]
       else tx_ret [queryReference]);
    do customerBinding <- tx_lift (NewStoreReference ReferenceCustomerBinding "developer_payload"
                                     (cus_ExternalID (prc_Customer purchase)));
    do signal <- tx_lift (NewEvidence HuaweiNotificationContentType payload);
    tx_ret (mkReconciliationCommand (qm_ProjectID message) (qm_ApplicationID message)
              (cus_ExternalID (prc_Customer purchase)) [prc_ProviderProductID purchase]
              (prc_ProductKind purchase) [customerBinding] queryReferences signal).

(* internal/processing/handlers.go: Service.handleHuaweiInbox *)
Definition handleHuaweiInbox (message : QueueMessage) (payload : string) : Tx WS unit :=
  do notification <- tx_lift (wrap_result (Wrapf "decode Huawei notification: %w" [])
                                (processing_decodeStrict DecodeHuaweiEnvelope payload));
  do command <- huaweiReconciliationCommand message notification payload;
  do _ <- Reconcile zone verification_ command;
  tx_ret tt.

(** *** Google Play *)

(* internal/processing/handlers.go: Service.googlePlayPurchase *)
Definition googlePlayPurchase (n : nat) (message : QueueMessage) (purchaseToken : string)
    : Tx WS PurchaseReferenceContext :=
  do protected <- tx_lift (protect_token "protect Google Play notification lookup: %w" message purchaseToken);
  operated n (PurchaseContextByReference (token_lookup message (Fingerprint protected))).

(** An unknown id is not the same customer. *)
(* internal/processing/handlers.go: Service.sameCanonicalCustomer *)
Definition sameCanonicalCustomer (n : nat) (projectID : ProjectID) (left right : string) : Tx WS bool :=
  tx_handle
    (operated n (do leftCustomer <- CustomerByExternalID projectID left;
                 do rightCustomer <- CustomerByExternalID projectID right;
                 tx_ret (String.eqb (cus_ID leftCustomer) (cus_ID rightCustomer))))
    tx_ret
    (fun e => if errors_Is e "persistence.ErrNotFound" then tx_ret false
              else tx_err (googlePlayLookupFailure e)).

(** [New] installs the verification service as the reader of replacements. *)
(* internal/processing/handlers.go:68-71: New *)
Definition replacements : option (LinkedPurchaseCommand -> Tx WS LinkedPurchase) :=
  Some (Service_LinkedPurchase verification_).

(** A missing purchase was announced by the notification, so it is asked for again. *)
(* internal/processing/handlers.go:432-439: Service.googlePlayReplacement *)
Definition linked_failure (e : gerror) : gerror :=
  match as_failure e with
  | Some (_, _, kind, _) =>
      if String.eqb kind FailureNotFound
      then NewFailure ProviderGooglePlay "notification_lookup" FailureTemporary 0 (Some e) else e
  | None => e
  end.

(* internal/processing/handlers.go: Service.googlePlayReplacement *)
Definition googlePlayReplacement (message : QueueMessage) (notification : google_NotificationEnvelope)
    : Tx WS (string * ProviderProductID) :=
  match replacements with
  | None => tx_err (New "google play linked purchase reader is not configured")
  | Some LinkedPurchase =>
      do queryReference <- tx_lift (NewStoreReference ReferenceQuery "purchase_token" (gn_PurchaseToken notification));
      do linked <- tx_catch linked_failure
        (LinkedPurchase (mkLinkedPurchaseCommand (qm_ProjectID message) (qm_ApplicationID message)
                           ProductKindSubscription [queryReference]));
      let linkedToken := FirstReferenceValue (lp_LinkedReferences linked) "purchase_token" in
      if String.eqb linkedToken EmptyString then tx_err (googlePlayLookupFailure ErrNotFound)
      else
        do replaced <- tx_catch googlePlayLookupFailure (googlePlayPurchase 1 message linkedToken);
        if negb (String.eqb (prc_ProductKind replaced) ProductKindSubscription)
        then tx_err google_lookup_invalid
        else
          let accountID := FirstReferenceValue (lp_CustomerBindings linked) googlePlayAccountBindingKind in
          if String.eqb accountID EmptyString then tx_err google_lookup_invalid
          else if String.eqb accountID (cus_ExternalID (prc_Customer replaced))
          then tx_ret (accountID, lp_ProductID linked)
          else
            do same <- sameCanonicalCustomer 2 (qm_ProjectID message) accountID
                         (cus_ExternalID (prc_Customer replaced));
            if negb same then tx_err google_lookup_invalid else tx_ret (accountID, lp_ProductID linked)
  end.

(** The customer and the product a known token is bound to. *)
(* internal/processing/handlers.go:365-372: Service.googlePlayReconciliationCommand *)
Definition known_purchase (notification : google_NotificationEnvelope) (purchase : PurchaseReferenceContext)
    : Tx WS (string * ProviderProductID) :=
  if negb (String.eqb (prc_ProductKind purchase) (gn_ProductKind notification))
     || (negb (String.eqb (gn_ProviderProductID notification) EmptyString)
         && negb (String.eqb (gn_ProviderProductID notification) (prc_ProviderProductID purchase)))
  then tx_err google_lookup_invalid
  else tx_ret (cus_ExternalID (prc_Customer purchase), prc_ProviderProductID purchase).

(** [None] is a notification without effect on purchases. *)
(* internal/processing/handlers.go: Service.googlePlayReconciliationCommand *)
Definition googlePlayReconciliationCommand (message : QueueMessage) (notification : google_NotificationEnvelope)
    (payload : string) : Tx WS (option ReconciliationCommand) :=
  tx_check (google_envelope_Validate notification) (
  if String.eqb (gn_Kind notification) NotificationKindTest
     || String.eqb (gn_Kind notification) NotificationKindPendingRefundReview
  then tx_ret None
  else
    do bound <- tx_handle (googlePlayPurchase 0 message (gn_PurchaseToken notification))
      (known_purchase notification)
      (fun e => if errors_Is e "persistence.ErrNotFound"
                   && String.eqb (gn_Kind notification) NotificationKindSubscription
                then googlePlayReplacement message notification
                else tx_err (googlePlayLookupFailure e));
    let '(externalCustomerID, expectedProduct) := bound in
    do queryReference <- tx_lift (NewStoreReference ReferenceQuery "purchase_token" (gn_PurchaseToken notification));
    do customerBinding <- tx_lift (NewStoreReference ReferenceCustomerBinding googlePlayAccountBindingKind
                                     externalCustomerID);
    do signal <- tx_lift (NewEvidence GoogleNotificationContentType payload);
    tx_ret (Some (mkReconciliationCommand (qm_ProjectID message) (qm_ApplicationID message)
                    externalCustomerID [expectedProduct] (gn_ProductKind notification)
                    [customerBinding] [queryReference] signal))).

(* internal/processing/handlers.go: Service.handleGooglePlayInbox *)
Definition handleGooglePlayInbox (message : QueueMessage) (payload : string) : Tx WS unit :=
  do notification <- tx_lift (wrap_result (Wrapf "decode Google Play notification: %w" [])
                                (processing_decodeStrict DecodeGoogleEnvelope payload));
  do command <- googlePlayReconciliationCommand message notification payload;
  match command with
  | None => tx_ret tt
  | Some command =>
      do result_ <- Reconcile zone verification_ command;
      if negb (String.eqb (gn_ProductKind notification) ProductKindSubscription) then tx_ret tt
      else
        do queryEvidence <- tx_lift (google_VerificationEvidence notification);
        schedule 3 (qm_ProjectID message) (qm_ApplicationID message) (cus_ID (out_Customer result_))
          (mkVerificationPayload (rc_ExternalCustomerID command) (rc_ExpectedProducts command) []
             (fst queryEvidence))
  end.

(** *** Dispatch *)

(* internal/processing/handlers.go: Service.HandleInbox *)
Definition HandleInbox (message : QueueMessage) : Tx WS unit :=
  tx_check (refuse_if (negb (String.eqb (qm_Queue message) QueueInbox)) (New "unsupported inbox message")) (
  do payload <- tx_lift (processing_open message inboxProtectionPurpose);
  if String.eqb (qm_Provider message) ProviderHuaweiAppGallery then handleHuaweiInbox message payload
  else if String.eqb (qm_Provider message) ProviderAppleAppStore then handleAppleInbox message payload
  else if String.eqb (qm_Provider message) ProviderGooglePlay then handleGooglePlayInbox message payload
  else tx_err (New "unsupported inbox provider")).

(** The customer the external id resolves to now, or the one the job was saved for. *)
(* internal/processing/handlers.go:557-575: Service.HandleReconciliation *)
Definition current_customer (message : QueueMessage) (externalID : string) : Tx S CustomerID :=
  tx_handle (CustomerByExternalID (qm_ProjectID message) externalID)
    (fun customer => tx_ret (cus_ID customer))
    (fun e => if errors_Is e "persistence.ErrNotFound" then tx_ret (qm_CustomerID message) else tx_err e).

(** A failure to retire the next refresh is only logged. *)
(* internal/processing/handlers.go: Service.HandleReconciliation *)
Definition HandleReconciliation (message : QueueMessage) : Tx WS unit :=
  tx_check (refuse_if (negb (String.eqb (qm_Queue message) QueueReconciliation))
              (New "unsupported reconciliation message")) (
  do payload <- tx_lift (processing_open message reconciliationProtectionPurpose);
  do scheduled <- tx_lift (wrap_result (Wrapf "decode reconciliation request: %w" [])
                             (processing_decodeStrict DecodeReconciliation payload));
  do customerID <- operated 0 (current_customer message (vp_ExternalCustomerID (rpl_Verification scheduled)));
  do nextID <- scheduleNext 1 (qm_ProjectID message) (qm_ApplicationID message) customerID
                 (rpl_Verification scheduled);
  do result_ <- processing_verify 2 (qm_ProjectID message) (qm_ApplicationID message) (rpl_Verification scheduled);
  if negb (lineageEnded (out_Observations result_)) then tx_ret tt
  else tx_handle (retire 3 nextID) tx_ret (fun _ => tx_ret tt)).
End Handlers.

(** ** Scheduling *)

(** The next boundary is after now, at most a day away, and on a day boundary. *)
Lemma nextReconciliationTime_spec now :
  now < nextReconciliationTime now <= now + reconciliationInterval /\
  nextReconciliationTime now mod reconciliationInterval = 0.
Proof.
  unfold nextReconciliationTime, Truncate. set (d := reconciliationInterval).
  assert (Hd : 0 < d) by reflexivity. pose proof (Z.mod_pos_bound now d Hd).
  pose proof (Z.div_mod now d ltac:(lia)) as Hdiv. split; [lia|].
  replace (now - now mod d + d) with ((now / d + 1) * d) by lia. apply Z.mod_mul. lia.
Qed.

(** A refresh that runs when it is due, or later, schedules a later one. *)
Lemma next_after scheduled now : scheduled <= now -> scheduled < nextReconciliationTime now.
Proof. pose proof (nextReconciliationTime_spec now). lia. Qed.

(** There is one day boundary in the day after an instant. *)
Lemma day_boundary_unique now a b :
  a mod (24 * Hour) = 0 -> b mod (24 * Hour) = 0 -> now < a <= now + 24 * Hour -> now < b <= now + 24 * Hour -> b = a.
Proof.
  set (d := 24 * Hour). assert (Hd : 0 < d) by reflexivity. intros Ha Hb Hna Hnb.
  pose proof (Z.div_mod a d ltac:(lia)). pose proof (Z.div_mod b d ltac:(lia)).
  rewrite Ha, Hb in *. assert (a / d = b / d) by nia. nia.
Qed.

(** Runs on one day schedule the same refresh. *)
Lemma next_idempotent a b :
  a / reconciliationInterval = b / reconciliationInterval -> nextReconciliationTime a = nextReconciliationTime b.
Proof.
  unfold nextReconciliationTime, Truncate. intros H.
  rewrite (Z.mod_eq a), (Z.mod_eq b) by discriminate. rewrite H. lia.
Qed.

(** ** The chain of refreshes *)

(** What saving and completing promise of the other records. *)
Class ReconciliationLaws (S : Type) `{Hqueue : !QueueRepository S, Hlaws : !QueueLaws S} := {
  save_refresh : forall job s id s',
    queue_valid s -> SaveReconciliationJob job s = (Ok id, s') ->
    queue_valid s' /\
    record_of s' (QueueReconciliation, id) = reconciliation_next (record_of s (QueueReconciliation, id)) /\
    forall key, key <> (QueueReconciliation, id) -> record_of s' key = record_of s key
}.

(** The same inbox and reconciliation records; a verification adds outbox events. *)
Definition same_jobs {S} `{Hqueue : !QueueRepository S, Hlaws : !QueueLaws S} (s s' : S) : Prop :=
  queue_valid s -> queue_valid s' /\ forall key, key.1 <> QueueOutbox -> record_of s' key = record_of s key.

#[export] Instance same_jobs_order {S} `{Hqueue : !QueueRepository S, Hlaws : !QueueLaws S} :
  PreOrder (same_jobs (S := S)).
Proof.
  split; [done|]. intros s1 s2 s3 H1 H2 Hv. destruct (H1 Hv) as [Hv2 E1]. destruct (H2 Hv2) as [Hv3 E2].
  split; [done|]. intros key Hk. rewrite E2, E1; done.
Qed.

Section Chain.
Context `{Horder : !GoMapRange, Lib : ProcessingLibrary} (zone : time -> Z).
Context (verification_ : Service) (open_value : OpenRequest -> result string) (clock : nat -> time).
Context {S : Type} `{Htx : !Transaction S, Hstore : !Store S, Hops : !OperationsStore S}.
Context `{Hqueue : !QueueRepository S, Hqlaws : !QueueLaws S, Hrlaws : !ReconciliationLaws S}.
Context `{Hframe : !VerificationFrame S same_jobs}.

Abbreviation WS := (World (S := S)).
Abbreviation same := (on_store (S := S) same_jobs).

Lemma operated_ok {A} n (op : Tx S A) (w : WS) a w' :
  operated n op w = (Ok a, w') -> op (w_store w) = (Ok a, w_store w') /\ w_calls w' = w_calls w.
Proof.
  unfold operated. destruct (Operate n op (w_store w)) as [r s] eqn:E. intros [= -> <-].
  split; [by apply operate_commits in E|done].
Qed.

Lemma operated_err {A} n (op : Tx S A) (w : WS) e w' :
  operated n op w = (Err e, w') -> w' = w.
Proof.
  unfold operated. destruct (Operate n op (w_store w)) as [r s] eqn:E. intros [= -> <-].
  apply operate_rolls_back in E as ->. by destruct w.
Qed.

Lemma leaves_operated {A} n (op : Tx S A) : leaves same_jobs op -> leaves same (operated n op).
Proof.
  intros Hop w r w' H. unfold on_store. destruct r.
  - apply operated_ok in H as [H _]. by eapply Hop.
  - apply operated_err in H as ->. reflexivity.
Qed.

Lemma leaves_verify n project application payload :
  leaves same (processing_verify zone verification_ n project application payload).
Proof.
  unfold processing_verify. apply leaves_bind; [apply _| |intros a].
  { apply leaves_operated. eauto with frame. }
  apply leaves_bind; [apply _|apply leaves_lift; apply _|]. intros [evidence bindings].
  apply Verify_leaves. apply _.
Qed.

Lemma leaves_current_customer message external : leaves same_jobs (current_customer message external).
Proof.
  intros s r s' H. unfold current_customer, tx_handle in H.
  apply handle_cases in H as (s1 & [(c & Hc & H)|(e & Hc & H)]).
  - apply frame_customer in Hc. by injection H as _ <-.
  - apply frame_customer in Hc. by destruct (errors_Is _ _); injection H as _ <-.
Qed.

Lemma scheduleNext_err n project application customer payload (w : WS) e w' :
  scheduleNext verification_ clock n project application customer payload w = (Err e, w') -> w' = w.
Proof.
  unfold scheduleNext. intros H. unfold tx_bind, tx_lift in H.
  destruct (MarshalReconciliation _); [|by injection H as _ <-].
  destruct (wrap_result _ _); [|by injection H as _ <-]. by apply operated_err in H.
Qed.

(** The next refresh of a run at [now]: for the first day boundary after it, with
    the same verification, protected in the application's scope, under the id of
    its protected payload. *)
Record refresh_job (now : time) (project : ProjectID) (application : ApplicationID) (customer : CustomerID)
    (payload : VerificationPayload) (job : ReconciliationJob) : Prop := {
  rfj_boundary : now < rj_AvailableAt job <= now + 24 * Hour /\ rj_AvailableAt job mod (24 * Hour) = 0;
  rfj_scope : rj_ProjectID job = project /\ rj_ApplicationID job = application /\ rj_CustomerID job = customer;
  rfj_payload : exists encoded,
    MarshalReconciliation (mkReconciliationPayload payload (rj_AvailableAt job)) = Ok encoded /\
    Protect (Some (svc_protector verification_)) (mkScope project application "reconciliation_request") encoded
      = Ok (rj_Payload job);
  rfj_id : rj_ID job = ("reconcile-" ++ EncodeToString (str_take 16
             (Sum256 ("reconcile" ++ of_bytes [0] ++ Fingerprint (rj_Payload job)))))%string
}.

(** The refresh is saved for the next boundary, protected in its own scope. *)
Lemma scheduleNext_ok n project application customer payload (w : WS) id w' :
  scheduleNext verification_ clock n project application customer payload w = (Ok id, w') ->
  exists job, SaveReconciliationJob job (w_store w) = (Ok id, w_store w') /\
    refresh_job (clock 0) project application customer payload job /\ w_calls w' = w_calls w.
Proof.
  unfold scheduleNext. rewrite tx_bind_ok. intros (encoded & w1 & Henc & H). apply tx_lift_ok in Henc as [Henc <-].
  apply tx_bind_ok in H as (protected & w1 & Hp & H). apply tx_lift_ok in Hp as [Hp%wrap_result_ok <-].
  apply operated_ok in H as [H Hc]. eexists. split; [exact H|]. split; [|done].
  split; [exact (nextReconciliationTime_spec (clock 0))|done|by exists encoded|done].
Qed.

Lemma scheduleNext_state n project application customer payload (w : WS) id w' :
  queue_valid (w_store w) ->
  scheduleNext verification_ clock n project application customer payload w = (Ok id, w') ->
  queue_valid (w_store w') /\
  record_of (w_store w') (QueueReconciliation, id)
    = reconciliation_next (record_of (w_store w) (QueueReconciliation, id)) /\
  forall key, key <> (QueueReconciliation, id) -> record_of (w_store w') key = record_of (w_store w) key.
Proof. intros Hv H. apply scheduleNext_ok in H as (job & H & _). by eapply save_refresh. Qed.

Lemma retire_cases n id (w : WS) r w' :
  queue_valid (w_store w) -> retire clock n id w = (r, w') ->
  w' = w \/ record_of (w_store w') (QueueReconciliation, id) = Completed.
Proof.
  unfold retire. intros Hv H. destruct r as [[]|e]; [|left; by apply operated_err in H].
  right. apply operated_ok in H as [H _]. by apply (complete_sets _ _ _ Hv) in H as [_ H].
Qed.

(** The customer a refresh is for: the one its external id resolves to now, or the
    one it was saved for when there is none. *)
Definition refresh_customer (message : QueueMessage) (external : string) (s s' : S) (customer : CustomerID) : Prop :=
  (exists c, CustomerByExternalID (qm_ProjectID message) external s = (Ok c, s') /\ customer = cus_ID c) \/
  (exists e, CustomerByExternalID (qm_ProjectID message) external s = (Err e, s') /\
     errors_Is e "persistence.ErrNotFound" = true /\ customer = qm_CustomerID message).

Lemma current_customer_found message external (s : S) customer s' :
  current_customer message external s = (Ok customer, s') -> refresh_customer message external s s' customer.
Proof.
  unfold current_customer, tx_handle, refresh_customer. intros H.
  apply handle_cases in H as (s1 & [(c & Hc & H)|(e & Hc & H)]).
  - injection H as <- <-. left. eauto.
  - destruct (errors_Is e _) eqn:He; [|done]. injection H as <- <-. right. eauto.
Qed.

(** The lineage needs no further refresh. *)
Definition lineage_over (observations : list PurchaseObservation) : Prop :=
  observations <> [] /\
  Forall (fun o => obs_State o = LifecycleExpired /\ obs_Access o = AccessDenied /\
            (ren_Status (obs_Renewal o) = RenewalDisabled \/ ren_Status (obs_Renewal o) = RenewalNotApplicable))
    observations.

Lemma lineageEnded_over observations : lineageEnded observations = true -> lineage_over observations.
Proof.
  unfold lineageEnded. intros [Hn Hall]%andb_true_iff. split; [by destruct observations|].
  apply List.Forall_forall. intros o Ho. rewrite forallb_forall in Hall. specialize (Hall o Ho).
  rewrite !andb_true_iff, orb_true_iff, !String.eqb_eq in Hall. tauto.
Qed.

(** C12. The chain of daily refreshes goes on whatever a refresh comes to.  A run
    either fails before it has saved anything, and every job is as it was, this one to
    be run again; or it has saved the next refresh: the same verification, for the
    customer it resolves to now, available at the first day boundary after the run's
    clock, so at most a day away.  After the run that refresh is still in the state it
    was saved in (pending, unless it had failed for good before), whether the provider
    answered or not; the one exception is an accepted answer in which every
    observation of the lineage is expired and denied with no renewal enabled, and
    then the next refresh may be completed.  A refresh that runs at its own boundary
    or after it saves a strictly later one; only a run whose clock is still before
    its own boundary saves that same boundary again, which is no later refresh. *)
Theorem refresh_chain_continues message (w w' : WS) r :
  queue_valid (w_store w) ->
  HandleReconciliation zone verification_ open_value clock message w = (r, w') ->
  ((exists e, r = Err e) /\ w_calls w' = w_calls w /\
   forall key, key.1 <> QueueOutbox -> record_of (w_store w') key = record_of (w_store w) key) \/
  exists next scheduled customer s1 s2 job,
    let key := (QueueReconciliation, next) in
    let saved := reconciliation_next (record_of (w_store w) key) in
    (exists plaintext, processing_open open_value message reconciliationProtectionPurpose = Ok plaintext /\
                       processing_decodeStrict DecodeReconciliation plaintext = Ok scheduled) /\
    refresh_customer message (vp_ExternalCustomerID (rpl_Verification scheduled)) (w_store w) s1 customer /\
    SaveReconciliationJob job s1 = (Ok next, s2) /\
    refresh_job (clock 0) (qm_ProjectID message) (qm_ApplicationID message) customer
      (rpl_Verification scheduled) job /\
    (rpl_ScheduledFor scheduled <= clock 0 -> rpl_ScheduledFor scheduled < rj_AvailableAt job) /\
    (rpl_ScheduledFor scheduled mod (24 * Hour) = 0 ->
     clock 0 < rpl_ScheduledFor scheduled <= clock 0 + 24 * Hour ->
     rj_AvailableAt job = rpl_ScheduledFor scheduled) /\
    (record_of (w_store w') key = saved \/
     r = Ok tt /\ record_of (w_store w') key = Completed /\
     exists w1 w2 result_,
       processing_verify zone verification_ 2 (qm_ProjectID message) (qm_ApplicationID message)
         (rpl_Verification scheduled) w1 = (Ok result_, w2) /\
       lineage_over (out_Observations result_)).
Proof.
  intros Hv H. unfold HandleReconciliation, tx_check in H.
  destruct (refuse_if _ _); [injection H as <- <-; left; eauto|]. unfold tx_bind at 1, tx_lift at 1 in H.
  destruct (processing_open _ _ _) as [plaintext|e] eqn:Ho; [|injection H as <- <-; left; eauto].
  unfold tx_bind at 1, tx_lift at 1 in H.
  destruct (wrap_result _ _) as [scheduled|e] eqn:Hs; [|injection H as <- <-; left; eauto].
  apply wrap_result_ok in Hs. unfold tx_bind at 1 in H.
  destruct (operated 0 _ w) as [[customer|e] w1] eqn:Hc;
    [|injection H as <- <-; apply operated_err in Hc as ->; left; eauto].
  assert (Hsame : same w w1) by (eapply leaves_operated; [apply leaves_current_customer|exact Hc]).
  destruct (Hsame Hv) as [Hv1 E1]. apply operated_ok in Hc as [Hc%current_customer_found Hcalls]. unfold tx_bind at 1 in H.
  destruct (scheduleNext _ _ _ _ _ _ _ w1) as [[next|e] w2] eqn:Hn;
    [|injection H as <- <-; apply scheduleNext_err in Hn as ->; left; split_and!; [eauto|exact Hcalls|exact E1]].
  destruct (scheduleNext_state _ _ _ _ _ _ _ _ Hv1 Hn) as (Hv2 & E2 & _).
  apply scheduleNext_ok in Hn as (job & Hsave & Hjob & _).
  right. exists next, scheduled, customer, (w_store w1), (w_store w2), job. cbv zeta.
  pose proof (rfj_boundary _ _ _ _ _ _ Hjob) as [Hbound Hday].
  split_and!; [by exists plaintext|done|done|done|intros; lia|intros; by eapply day_boundary_unique|].
  rewrite (E1 (QueueReconciliation, next)) in E2 by done. rewrite <- E2. unfold tx_bind at 1 in H.
  destruct (processing_verify _ _ _ _ _ _ w2) as [[result_|e] w3] eqn:Hp;
    destruct (leaves_verify _ _ _ _ _ _ _ Hp Hv2) as [Hv3 E3];
    rewrite <- (E3 (QueueReconciliation, next)) by done; [|injection H as <- <-; by left].
  destruct (lineageEnded _) eqn:El; cbn [negb] in H; [|injection H as <- <-; by left].
  unfold tx_handle in H.
  assert (Hr : r = Ok tt /\ exists x, retire clock 3 next w3 = (x, w')).
  { destruct (retire clock 3 next w3) as [[[]|e] w4]; injection H as <- <-; eauto. }
  destruct Hr as (-> & x & Hr). destruct (retire_cases _ _ _ _ _ Hv3 Hr) as [->|Hdone]; [by left|].
  right. split_and!; [done|done|]. exists w2, w3, result_. split; [done|]. by apply lineageEnded_over.
Qed.
End Chain.

(** ** Binding a notification to a customer *)

(** Looking a purchase up changes nothing. *)
Class ReferenceLaws (S : Type) `{Hrefs : !ProviderReferenceRepository S} := {
  purchase_reads : forall lookup s r s', PurchaseContextByReference lookup s = (r, s') -> s' = s;
  submission_reads : forall lookup s r s', PurchaseSubmissionByReference lookup s = (r, s') -> s' = s
}.

Section Binding.
Context (verification_ : Service).
Context {S : Type} `{Htx : !Transaction S, Hstore : !Store S, Hops : !OperationsStore S}.
Context `{Hrefs : !ProviderReferenceRepository S, Hreads : !ReadLaws S, Hrlaws : !ReferenceLaws S}.

Abbreviation WS := (World (S := S)).

(** The store holds a purchase under the protected form of this token. *)
Definition stored_for (message : QueueMessage) (s : S) (token : string) (p : PurchaseReferenceContext) : Prop :=
  exists v format, protect_token verification_ format message token = Ok v /\
    PurchaseContextByReference (token_lookup message (Fingerprint v)) s = (Ok p, s).

(** Two external ids of one customer. *)
Definition same_customer (project : ProjectID) (s : S) (a b : string) : Prop :=
  a = b \/ exists ca cb, CustomerByExternalID project a s = (Ok ca, s) /\
    CustomerByExternalID project b s = (Ok cb, s) /\ cus_ID ca = cus_ID cb.

Lemma googlePlayPurchase_reads n message token (w : WS) r w' :
  googlePlayPurchase verification_ n message token w = (r, w') ->
  w' = w /\ forall p, r = Ok p -> stored_for message (w_store w) token p.
Proof.
  unfold googlePlayPurchase, tx_bind, tx_lift.
  destruct (protect_token _ _ _ _) as [v|e] eqn:Hv; [|intros [= <- <-]; done].
  intros H. destruct r as [p|e]; [|by apply operated_err in H].
  apply operated_ok in H as [H Hc]. pose proof (purchase_reads _ _ _ _ H) as Hs. rewrite Hs in H.
  split; [destruct w, w'; simpl in *; congruence|]. intros ? [= <-]. by eexists _, _.
Qed.

Lemma sameCanonicalCustomer_true n project a b (w w' : WS) :
  sameCanonicalCustomer n project a b w = (Ok true, w') -> w' = w /\ same_customer project (w_store w) a b.
Proof.
  unfold sameCanonicalCustomer, tx_handle. intros H.
  destruct (operated n _ w) as [[same|e] w1] eqn:Ho; [|by destruct (errors_Is _ _)].
  injection H as -> <-. apply operated_ok in Ho as [Ho Hc].
  apply tx_bind_ok in Ho as (ca & s1 & Ha & Ho). pose proof (customer_reads _ _ _ _ _ Ha) as ->.
  apply tx_bind_ok in Ho as (cb & s2 & Hb & Ho). pose proof (customer_reads _ _ _ _ _ Hb) as ->.
  apply tx_ret_ok in Ho as [Heq Hs]. rewrite String.eqb_eq in Heq.
  split; [destruct w, w1; simpl in *; congruence|]. right. by exists ca, cb.
Qed.

(** What a linked purchase read from the provider is. *)
Record read_link (command : LinkedPurchaseCommand) (w w' : WS) (linked : LinkedPurchase) : Prop := {
  rl_store : w_store w' = w_store w;
  rl_valid : LinkedPurchase_Validate linked = None;
  rl_answer : exists application adapter resolver,
    let request := mkLinkedPurchaseRequest application (lc_ProductKind command) (lc_QueryReferences command) in
    Application_ (lc_ProjectID command) (lc_ApplicationID command) (w_store w) = (Ok application, w_store w) /\
    svc_adapters verification_ (sa_Provider (app_Store application)) = Ok adapter /\
    ad_LinkedPurchase adapter = Some resolver /\ resolver request = Ok linked /\
    w_calls w' = w_calls w ++ [CallLinkedPurchase request]
}.

Lemma LinkedPurchase_ok command (w w' : WS) linked :
  Service_LinkedPurchase verification_ command w = (Ok linked, w') -> read_link command w w' linked.
Proof.
  unfold Service_LinkedPurchase. rewrite tx_check_ok. intros [_ H].
  apply tx_bind_ok in H as (application & w1 & Ha & H). apply stored_ok in Ha as [Ha Hc1].
  pose proof (application_reads _ _ _ _ _ Ha) as Hs1.
  apply tx_check_ok in H as [_ H]. apply tx_bind_ok in H as (adapter & w2 & Had & H).
  apply tx_lift_ok in Had as [Had <-]. apply wrap_result_ok in Had.
  destruct (ad_LinkedPurchase adapter) as [resolver|] eqn:Hr; [|done].
  apply tx_bind_ok in H as (l & w3 & Hl & H). unfold calling in Hl. injection Hl as Hl Hw3.
  apply wrap_result_ok in Hl. apply tx_check_ok in H as [Hval H]. apply tx_ret_ok in H as [-> <-].
  apply wrap_err_nil in Hval. subst w3. split; [done|done|].
  exists application, adapter, resolver. cbv zeta. rewrite Hs1 in Ha. split_and!; try done. cbn. by rewrite Hc1.
Qed.

(** A subscription token no client has verified, bound through the purchase it
    replaces: the provider names the replaced token and an account, the store holds
    the replaced subscription, and the account is its customer's. *)
Definition bound_by_replacement (message : QueueMessage) (w w' : WS) (token account : string)
    (product : ProviderProductID) : Prop :=
  exists reference linked replaced,
    NewStoreReference ReferenceQuery "purchase_token" token = Ok reference /\
    read_link (mkLinkedPurchaseCommand (qm_ProjectID message) (qm_ApplicationID message)
                 ProductKindSubscription [reference]) w w' linked /\
    stored_for message (w_store w) (FirstReferenceValue (lp_LinkedReferences linked) "purchase_token") replaced /\
    prc_ProductKind replaced = ProductKindSubscription /\
    account = FirstReferenceValue (lp_CustomerBindings linked) googlePlayAccountBindingKind /\
    account <> EmptyString /\ product = lp_ProductID linked /\
    same_customer (qm_ProjectID message) (w_store w) account (cus_ExternalID (prc_Customer replaced)).

Lemma googlePlayReplacement_ok message notification (w w' : WS) account product :
  googlePlayReplacement verification_ message notification w = (Ok (account, product), w') ->
  bound_by_replacement message w w' (gn_PurchaseToken notification) account product.
Proof.
  unfold googlePlayReplacement, replacements. rewrite tx_bind_ok. intros (reference & w1 & Href & H).
  apply tx_lift_ok in Href as [Href <-]. apply tx_bind_ok in H as (linked & w1 & Hl & H).
  apply tx_catch_ok in Hl. apply LinkedPurchase_ok in Hl as Hlink.
  destruct (String.eqb (FirstReferenceValue _ _) EmptyString); [done|].
  apply tx_bind_ok in H as (replaced & w2 & Hp & H). apply tx_catch_ok in Hp.
  destruct (googlePlayPurchase_reads _ _ _ _ _ _ Hp) as [-> Hst]. specialize (Hst _ eq_refl).
  destruct (String.eqb_spec (prc_ProductKind replaced) ProductKindSubscription) as [Hk|]; [cbn [negb] in H|done].
  destruct (String.eqb_spec (FirstReferenceValue (lp_CustomerBindings linked) googlePlayAccountBindingKind)
              EmptyString) as [|Hne]; [done|].
  pose proof (rl_store _ _ _ _ Hlink) as Hs. rewrite Hs in Hst.
  destruct (String.eqb_spec (FirstReferenceValue (lp_CustomerBindings linked) googlePlayAccountBindingKind)
              (cus_ExternalID (prc_Customer replaced))) as [Heq|_].
  - apply tx_ret_ok in H as [Hr <-]. injection Hr as <- <-. exists reference, linked, replaced.
    split_and!; try done. by left.
  - apply tx_bind_ok in H as (same & w3 & Hsame & H). destruct same; cbn [negb] in H; [|done].
    apply sameCanonicalCustomer_true in Hsame as [-> Hsame]. rewrite Hs in Hsame.
    apply tx_ret_ok in H as [Hr <-]. injection Hr as <- <-. by exists reference, linked, replaced.
Qed.

(** C13. A Google Play notification is reconciled only for a customer it may concern:
    the customer a client proved to own the announced token, or, for a subscription
    token no client has verified, the account the provider names for it, which must
    be the same customer as the owner of the stored purchase the token replaces.  The
    command asks the provider for exactly the announced token and expects exactly
    that account, and binding stores nothing. *)
Theorem google_command_bound message notification payload command (w w' : WS) :
  googlePlayReconciliationCommand verification_ message notification payload w = (Ok (Some command), w') ->
  w_store w' = w_store w /\
  google_envelope_Validate notification = None /\
  (exists query binding,
     NewStoreReference ReferenceQuery "purchase_token" (gn_PurchaseToken notification) = Ok query /\
     NewStoreReference ReferenceCustomerBinding googlePlayAccountBindingKind (rc_ExternalCustomerID command)
       = Ok binding /\
     rc_QueryReferences command = [query] /\ rc_ExpectedCustomerBindings command = [binding]) /\
  rc_ExpectedProductKind command = gn_ProductKind notification /\
  ((exists purchase, stored_for message (w_store w) (gn_PurchaseToken notification) purchase /\
      prc_ProductKind purchase = gn_ProductKind notification /\
      (gn_ProviderProductID notification = EmptyString \/
       gn_ProviderProductID notification = prc_ProviderProductID purchase) /\
      rc_ExternalCustomerID command = cus_ExternalID (prc_Customer purchase) /\
      rc_ExpectedProducts command = [prc_ProviderProductID purchase]) \/
   (gn_Kind notification = NotificationKindSubscription /\
    exists product, rc_ExpectedProducts command = [product] /\
      bound_by_replacement message w w' (gn_PurchaseToken notification) (rc_ExternalCustomerID command) product)).
Proof.
  unfold googlePlayReconciliationCommand. rewrite tx_check_ok. intros [Hval H].
  destruct (_ || _) in H; [by apply tx_ret_ok in H as []|].
  apply tx_bind_ok in H as ([external product] & w1 & Hb & H).
  apply tx_bind_ok in H as (query & w2 & Hq & H). apply tx_lift_ok in Hq as [Hq <-].
  apply tx_bind_ok in H as (binding & w2 & Hbind & H). apply tx_lift_ok in Hbind as [Hbind <-].
  apply tx_bind_ok in H as (signal & w2 & Hsig & H). apply tx_lift_ok in Hsig as [_ <-].
  apply tx_ret_ok in H as [Hcmd <-]. injection Hcmd as <-. cbn.
  unfold tx_handle in Hb. apply handle_cases in Hb as (w2 & [(p & Hp & Hb)|(e & Hp & Hb)]);
    destruct (googlePlayPurchase_reads _ _ _ _ _ _ Hp) as [-> Hst].
  - unfold known_purchase in Hb. destruct (negb _ || _) eqn:Ek in Hb; [done|].
    apply tx_ret_ok in Hb as [Hb <-]. injection Hb as <- <-.
    rewrite orb_false_iff, andb_false_iff, !negb_false_iff, !String.eqb_eq in Ek. destruct Ek as [Ek Ep].
    split_and!; [done|done|by exists query, binding|done|]. left. exists p. split_and!; auto.
  - destruct (errors_Is e _ && _) eqn:Ee in Hb; [|done]. apply andb_true_iff in Ee as [_ Ee%String.eqb_eq].
    apply googlePlayReplacement_ok in Hb as Hr. pose proof Hr as (reference & linked & replaced & _ & Hl & _).
    split_and!; [apply (rl_store _ _ _ _ Hl)|done|by exists query, binding|done|]. right. eauto.
Qed.

(** The subscription identity a Huawei callback is completed with: its own, or the one
    in the client's stored evidence for the token. *)
Definition stored_subscription `{Lib : ProcessingLibrary} (open_value : OpenRequest -> result string)
    (message : QueueMessage) (s : S) (fingerprint subscriptionID : string) : Prop :=
  exists evidence request plaintext,
    PurchaseSubmissionByReference (token_lookup message fingerprint) s = (Ok evidence, s) /\
    per_Kind evidence = purchaseSubmissionEvidenceKind /\
    NewOpenRequest (mkScope (qm_ProjectID message) (qm_ApplicationID message) purchaseEvidencePurpose)
      (per_Payload evidence) = Ok request /\
    open_value request = Ok plaintext /\ huaweiSubscriptionID plaintext = Ok subscriptionID.

Lemma storedHuaweiSubscriptionID_ok `{Lib : ProcessingLibrary} open_value n message fingerprint (w : WS) id w' :
  storedHuaweiSubscriptionID open_value n message fingerprint w = (Ok id, w') ->
  w' = w /\ id <> EmptyString /\ stored_subscription open_value message (w_store w) fingerprint id.
Proof.
  unfold storedHuaweiSubscriptionID. rewrite tx_bind_ok. intros (evidence & w1 & Hev & H).
  apply tx_catch_ok, operated_ok in Hev as [Hev Hc]. pose proof (submission_reads _ _ _ _ Hev) as Hs.
  rewrite Hs in Hev. assert (w1 = w) as -> by (destruct w, w1; simpl in *; congruence).
  destruct (_ || _) eqn:Ek in H; [done|].
  rewrite !orb_false_iff, !negb_false_iff, !String.eqb_eq in Ek. destruct Ek as [[_ Hk] _].
  apply tx_bind_ok in H as (request & w2 & Hr & H). apply tx_lift_ok in Hr as [Hr%wrap_result_ok <-].
  apply tx_bind_ok in H as (plaintext & w2 & Hp & H). apply tx_lift_ok in Hp as [Hp%wrap_result_ok <-].
  apply tx_bind_ok in H as (i & w2 & Hi & H). apply tx_lift_ok in Hi as [Hi%wrap_result_ok <-].
  destruct (String.eqb_spec i EmptyString); [done|]. apply tx_ret_ok in H as [-> <-].
  split_and!; [done|done|]. by exists evidence, request, plaintext.
Qed.

(** A Huawei callback is reconciled only for the customer and the product of the
    purchase the store holds for its token, with the token as the query, a binding to
    that customer, and, for a subscription, a subscription identity that comes from
    the callback or from the client's own stored evidence; binding stores nothing and
    calls no provider. *)
Theorem huawei_command_bound `{Lib : ProcessingLibrary} open_value message notification payload command (w w' : WS) :
  huaweiReconciliationCommand verification_ open_value message notification payload w = (Ok command, w') ->
  w' = w /\
  exists purchase query binding v,
    protect_token verification_ "protect Huawei notification lookup: %w" message (hn_PurchaseToken notification) = Ok v /\
    PurchaseContextByReference (token_lookup message (Fingerprint v)) (w_store w) = (Ok purchase, w_store w) /\
    prc_ProductKind purchase = hn_ProductKind notification /\
    prc_ProviderProductID purchase = hn_ProviderProductID notification /\
    rc_ExternalCustomerID command = cus_ExternalID (prc_Customer purchase) /\
    rc_ExpectedProducts command = [prc_ProviderProductID purchase] /\
    NewStoreReference ReferenceQuery "purchase_token" (hn_PurchaseToken notification) = Ok query /\
    NewStoreReference ReferenceCustomerBinding "developer_payload" (rc_ExternalCustomerID command) = Ok binding /\
    rc_ExpectedCustomerBindings command = [binding] /\
    (if String.eqb (hn_ProductKind notification) ProductKindSubscription then
       exists id subscription, rc_QueryReferences command = [query; subscription] /\ id <> EmptyString /\
         NewStoreReference ReferenceQuery "subscription_id" id = Ok subscription /\
         (id = hn_SubscriptionID notification \/
          hn_SubscriptionID notification = EmptyString /\
          stored_subscription open_value message (w_store w) (Fingerprint v) id)
     else rc_QueryReferences command = [query]).
Proof.
  unfold huaweiReconciliationCommand. rewrite tx_bind_ok. intros (v & w1 & Hv & H).
  apply tx_lift_ok in Hv as [Hv <-]. apply tx_bind_ok in H as (p & w1 & Hp & H).
  apply tx_catch_ok, operated_ok in Hp as [Hp Hc]. pose proof (purchase_reads _ _ _ _ Hp) as Hs.
  rewrite Hs in Hp. assert (w1 = w) as -> by (destruct w, w1; simpl in *; congruence).
  destruct (_ || _) eqn:Ek in H; [done|].
  rewrite orb_false_iff, !negb_false_iff, !String.eqb_eq in Ek. destruct Ek as [Ek Ep].
  apply tx_bind_ok in H as (query & w2 & Hq & H). apply tx_lift_ok in Hq as [Hq <-].
  apply tx_bind_ok in H as (id & w2 & Hid & H). apply tx_bind_ok in H as (queries & w3 & Hqs & H).
  apply tx_bind_ok in H as (binding & w4 & Hbind & H). apply tx_lift_ok in Hbind as [Hbind <-].
  apply tx_bind_ok in H as (signal & w4 & Hsig & H). apply tx_lift_ok in Hsig as [_ <-].
  apply tx_ret_ok in H as [<- <-]. cbn.
  enough (Hrest : w3 = w /\
    if String.eqb (hn_ProductKind notification) ProductKindSubscription then
       exists id subscription, queries = [query; subscription] /\ id <> EmptyString /\
         NewStoreReference ReferenceQuery "subscription_id" id = Ok subscription /\
         (id = hn_SubscriptionID notification \/
          hn_SubscriptionID notification = EmptyString /\
          stored_subscription open_value message (w_store w) (Fingerprint v) id)
     else queries = [query]) by (destruct Hrest as [-> Hrest]; split; [done|]; by exists p, query, binding, v).
  destruct (String.eqb (hn_ProductKind notification) ProductKindSubscription); cbn [andb] in Hid.
  - destruct (String.eqb_spec id EmptyString); [done|].
    apply tx_bind_ok in Hqs as (sub & w4 & Hsub & Hqs). apply tx_lift_ok in Hsub as [Hsub <-].
    apply tx_ret_ok in Hqs as [<- <-].
    destruct (String.eqb_spec (hn_SubscriptionID notification) EmptyString) as [Hnil|].
    + apply storedHuaweiSubscriptionID_ok in Hid as (-> & _ & Hst). split; [done|]. exists id, sub. split_and!; auto.
    + apply tx_ret_ok in Hid as [<- <-]. split; [done|]. exists (hn_SubscriptionID notification), sub. split_and!; auto.
  - apply tx_ret_ok in Hqs as [<- <-]. by apply tx_ret_ok in Hid as [_ <-].
Qed.
End Binding.

(** ** A concrete deployment *)

(** The verification repositories beside the PostgreSQL queues. *)
Definition on_fst {A B X} (m : Tx A X) : Tx (A * B) X := fun s => let '(r, a) := m s.1 in (r, (a, s.2)).
Definition on_snd {A B X} (m : Tx B X) : Tx (A * B) X := fun s => let '(r, b) := m s.2 in (r, (s.1, b)).

Section Deployment.
Context (T : Transaction Db) (now : time).
Abbreviation DS := (Db * queue_db)%type.

Definition deployed_transaction : Transaction DS := {|
  tr_catalog := {| Application_ := fun p a => on_fst (Application_ p a);
                   CustomerByExternalID := fun p x => on_fst (CustomerByExternalID p x);
                   CustomerInClosure := fun p a b => on_fst (CustomerInClosure p a b);
                   CatalogProducts := fun p a l => on_fst (CatalogProducts p a l) |};
  tr_purchase := {| SaveEvidence := fun e => on_fst (SaveEvidence e);
                    SaveArtifact := fun a => on_fst (SaveArtifact a);
                    SaveObservation := fun o => on_fst (SaveObservation o) |};
  tr_entitlement := {| LockCustomerClosure := fun p c => on_fst (LockCustomerClosure p c);
                       PutEntitlement := fun e => on_fst (PutEntitlement e);
                       CustomerEntitlementSources := fun p c => on_fst (CustomerEntitlementSources p c);
                       CustomerEntitlements := fun p c => on_fst (CustomerEntitlements p c) |};
  tr_outbox := {| SaveOutboxEvent := fun e => on_fst (SaveOutboxEvent e) |};
  tr_identity := {| ResolveCustomer := fun p x => on_fst (ResolveCustomer p x) |}
|}.

Lemma on_snd_inv {A B X} (m : Tx B X) (s : A * B) r s' :
  on_snd m s = (r, s') -> m s.2 = (r, s'.2) /\ s'.1 = s.1.
Proof. unfold on_snd. destruct (m s.2) as [r0 b]. by intros [= -> <-]. Qed.

Lemma on_fst_inv {A B X} (m : Tx A X) (s : A * B) r s' :
  on_fst m s = (r, s') -> m s.1 = (r, s'.1) /\ s'.2 = s.2.
Proof. unfold on_fst. destruct (m s.1) as [r0 a]. by intros [= -> <-]. Qed.

Lemma on_fst_reads {A B X} (m : Tx A X) (s : A * B) r s' :
  (forall a x b, m a = (x, b) -> b = a) -> on_fst m s = (r, s') -> s' = s.
Proof.
  intros Hm [H Hs]%on_fst_inv. apply Hm in H. destruct s, s'; simpl in *; congruence.
Qed.

Definition deployed_reads (L : @ReadLaws Db (@tr_catalog _ T)) : @ReadLaws DS (@tr_catalog _ deployed_transaction).
Proof.
  split.
  - intros p a s r s' H. refine (on_fst_reads _ _ _ _ _ H). apply application_reads.
  - intros p x s r s' H. refine (on_fst_reads _ _ _ _ _ H). apply customer_reads.
  - intros p a l s r s' H. refine (on_fst_reads _ _ _ _ _ H). apply catalog_reads.
Defined.

Definition pg_queue : QueueRepository queue_db :=
  pg_QueueRepository now (fun _ _ => true) (fun _ _ => true) None (fun _ => false).

Definition deployed_queue : QueueRepository DS := {|
  SaveInboxMessage := fun m => on_snd (@SaveInboxMessage _ pg_queue m);
  SaveReconciliationJob := fun j => on_snd (@SaveReconciliationJob _ pg_queue j);
  LoadQueueMessage := fun q i => on_snd (@LoadQueueMessage _ pg_queue q i);
  CompleteQueue := fun c => on_snd (@CompleteQueue _ pg_queue c);
  FailQueue := fun f => on_snd (@FailQueue _ pg_queue f);
  PurgeTerminalQueueRecords := fun b n => on_snd (@PurgeTerminalQueueRecords _ pg_queue b n)
|}.

#[program] Definition deployed_queue_laws : @QueueLaws DS deployed_queue :=
  {| queue_valid := fun s => queue_wf s.2; record_of := fun s => state_of s.2 |}.
Next Obligation.
  intros queue id s m s' _ [H Hs]%on_snd_inv. apply pg_load_shows in H as [Hb H].
  split; [destruct s, s'; simpl in *; congruence|exact H].
Qed.
Next Obligation.
  intros completion s s' Hwf [H _]%on_snd_inv. pose proof (complete_moved _ _ _ Hwf H) as Hm.
  split; [apply (mv_wf _ _ _ _ _ Hm)|apply (mv_to _ _ _ _ _ Hm)].
Qed.
Next Obligation.
  intros failure s s' Hwf [H _]%on_snd_inv. pose proof (fail_moved _ _ _ Hwf H) as Hm.
  split; [apply (mv_wf _ _ _ _ _ Hm)|apply (mv_to _ _ _ _ _ Hm)].
Qed.

#[program] Definition deployed_reconciliation_laws
    : @ReconciliationLaws DS deployed_queue deployed_queue_laws := {| save_refresh := _ |}.
Next Obligation.
  intros job s id s' Hwf [H _]%on_snd_inv. cbn.
  pose proof (save_reconciliation_saved now (fun _ _ => true) (fun _ _ => true) None _ _ _ _ Hwf H) as Hs.
  split; [apply (sv_wf _ _ _ _ _ _ _ _ Hs)|]. split; [apply (sv_state _ _ _ _ _ _ _ _ Hs)|].
  intros key Hk. unfold state_of. by rewrite (sv_others _ _ _ _ _ _ _ _ Hs).
Qed.

Lemma on_fst_frame {X} (m : Tx Db X) :
  leaves (@same_jobs DS deployed_queue deployed_queue_laws) (on_fst m).
Proof. intros s r s' [_ Hs]%on_fst_inv. unfold same_jobs. cbn. by rewrite Hs. Qed.

Definition deployed_frame :
  @VerificationFrame DS (@same_jobs DS deployed_queue deployed_queue_laws) deployed_transaction.
Proof. constructor; [apply _|intros; apply on_fst_frame..]. Defined.
End Deployment.

(** Operations that run once and commit. *)
Definition run_once {S A} (op : Tx S A) : Tx S A :=
  fun s => match op s with (Ok a, s') => (Ok a, s') | (Err e, _) => (Err e, s) end.

#[program] Definition plain_operations (S : Type) : OperationsStore S :=
  {| Operate := fun _ _ op => run_once op |}.
Next Obligation.
  intros S n A op s a s'. cbn. unfold run_once. destruct (op s) as [[x|e] s1]; [done|discriminate].
Qed.
Next Obligation.
  intros S n A op s e s'. cbn. unfold run_once. destruct (op s) as [[x|e'] s1]; [discriminate|].
  intros H. by injection H as _ <-.
Qed.

Definition deployed_store (S : Type) : Store S :=
  runner_Store quiet_attempts ltac:(intros n k; reflexivity) ltac:(intros n k c H; discriminate H).

(** The token fingerprint identifies the plaintext, and opening returns it. *)
Definition sample_protector (request : Request) : result ProtectedValue :=
  Ok (mkProtected (req_plaintext request) (Sum256 (req_plaintext request)) "key-1").
Definition sample_open (request : OpenRequest) : result string := Ok (Ciphertext (open_Value request)).

Definition down : gerror := NewFailure ProviderGooglePlay "query" FailureTemporary 0 None.
(** The provider is down for verification and knows what the new token replaces. *)
Definition busy_adapter : Adapter :=
  mkAdapter (fun _ => Err down) (fun _ => Err down) None
    (Some (fun _ => Ok (mkLinkedPurchase "premium_monthly"
       [mkStoreReference ReferenceQuery "purchase_token" "old-token"]
       [mkStoreReference ReferenceCustomerBinding googlePlayAccountBindingKind "user-1"]))).
Definition busy_service : Service :=
  mkService (fun _ => Ok busy_adapter) sample_protector (@Project range_in_order (Some tt)) 2500.

Definition sample_refresh : ReconciliationPayload :=
  mkReconciliationPayload (mkVerificationPayload "user-1" ["premium_monthly"%string] [] "{}")
    (nextReconciliationTime (UnixMilli 1699900000000)).
Definition sample_rtdn : google_NotificationEnvelope :=
  mkGoogleEnvelope "message-1" NotificationKindSubscription 4 (UnixMilli 1700000000000) "new-token"
    ProductKindSubscription EmptyString.
Definition sample_callback : huawei_NotificationEnvelope :=
  mkHuaweiEnvelope "v2" subscriptionEventType (UnixMilli 1700000000000) "app-102" 2 "old-token" EmptyString
    "premium_monthly" ProductKindSubscription.

Definition sample_processing : ProcessingLibrary := {|
  DecodeAppleEnvelope := fun _ => Err (New "unexpected end of JSON input");
  DecodeGoogleEnvelope := fun _ => Ok (sample_rtdn, EmptyString);
  DecodeHuaweiEnvelope := fun _ => Ok (sample_callback, EmptyString);
  DecodeReconciliation := fun _ => Ok (sample_refresh, EmptyString);
  MarshalReconciliation := fun payload => Ok ("refresh " ++ FormatInt (toUnix (rpl_ScheduledFor payload)))%string;
  UnmarshalProductKind := fun _ => Some ProductKindSubscription;
  UnmarshalPurchaseDataField := fun _ => Ok "{}"%string;
  UnmarshalSubscriptionIDField := fun _ => Ok "sub-1"%string
|}.

Definition sample_message (payload : string) : QueueMessage :=
  mkQueueMessage QueueReconciliation "reconcile-1" "project-1" "app-1" "customer-1" EmptyString EmptyString
    EmptyString (mkProtected payload (Sum256 payload) "key-1") EmptyString (UnixMilli 1699900000000) false false.

(** Only the old token is stored. *)
Definition sample_references (S : Type) : ProviderReferenceRepository S := {|
  PurchaseContextByReference := fun lookup =>
    if String.eqb (prl_Fingerprint lookup) (Sum256 "old-token")
    then tx_ret (mkPurchaseContext (mkCustomer "customer-1" "project-1" "user-1") "premium_monthly" ProductKindSubscription)
    else tx_err ErrNotFound;
  PurchaseSubmissionByReference := fun lookup =>
    if String.eqb (prl_Fingerprint lookup) (Sum256 "old-token")
    then tx_ret (mkPurchaseEvidence purchaseSubmissionEvidenceKind HuaweiEvidenceContentType
                   (mkProtected "{evidence}" (Sum256 "{evidence}") "key-1"))
    else tx_err ErrNotFound
|}.

Definition sample_deployment : Transaction (Db * queue_db) := deployed_transaction sample_transaction.
Definition sample_world : World (S := (Db * queue_db)%type) := mkWorld (empty_db, empty_queue) [].

Definition sample_deployment_reads : @ReadLaws _ (@tr_catalog _ sample_deployment) :=
  deployed_reads sample_transaction sample_reads.
Lemma answer_reads {S X} (b : bool) (x : X) (e : gerror) (s : S) r s' :
  (if b then tx_ret x else tx_err e) s = (r, s') -> s' = s.
Proof. destruct b; intros H; injection H as _ <-; reflexivity. Qed.

Definition sample_reference_laws (S : Type) : @ReferenceLaws S (sample_references S).
Proof. split; intros lookup s r s' H; exact (answer_reads _ _ _ _ _ _ H). Defined.

Definition sample_now_ (n : nat) : time := UnixMilli 1700006400000 + Z.of_nat n.
Definition sample_handle : result unit * World :=
  @HandleReconciliation range_in_order sample_processing utc busy_service sample_open sample_now_
    _ sample_deployment (deployed_store _) (plain_operations _) (deployed_queue (sample_now_ 0))
    (sample_message "refresh") sample_world.

(** The provider is down: the run fails, and the next refresh is pending, from the
    boundary after the run on. *)
Lemma refresh_chain_continues_witness :
  exists e w' next, sample_handle = (Err e, w') /\
    state_of (w_store w').2 (QueueReconciliation, next) = Pending /\
    (exists job, @refresh_job sample_processing busy_service (sample_now_ 0) "project-1" "app-1" "customer-1"
       (rpl_Verification sample_refresh) job) /\
    map (fun entry => row_available entry.2) (map_to_list (records (w_store w').2)) = [UnixMilli 1700092800000].
Proof.
  destruct sample_handle as [[[]|e] w'] eqn:E; [vm_compute in E; discriminate|].
  assert (Hv : queue_wf empty_queue) by (intros key row H; vm_compute in H; discriminate).
  assert (Hnew : forall key, state_of empty_queue key = Absent) by (intros key; reflexivity).
  set (key := (QueueReconciliation, "reconcile-532b748580738a096fb16ec0ef4c4d40"%string)).
  assert (Hsaved : state_of (w_store w').2 key = Pending /\
    map (fun entry => row_available entry.2) (map_to_list (records (w_store w').2)) = [UnixMilli 1700092800000])
    by (vm_compute in E; injection E as _ <-; split; vm_compute; reflexivity).
  destruct Hsaved as [Hsaved Hrow].
  destruct (@refresh_chain_continues range_in_order sample_processing utc busy_service sample_open sample_now_
    _ sample_deployment (deployed_store _) (plain_operations _) (deployed_queue (sample_now_ 0))
    (deployed_queue_laws (sample_now_ 0)) (deployed_reconciliation_laws (sample_now_ 0))
    (deployed_frame sample_transaction (sample_now_ 0)) (sample_message "refresh") sample_world w' (Err e) Hv E)
    as [(_ & _ & Hold)|(next & scheduled & customer & s1 & s2 & job & (pt & _ & Hd) & Hcust & _ & Hjob & _ & _ & [H|[H _]])].
  - exfalso. pose proof (eq_trans (Hold key ltac:(discriminate)) (Hnew key)) as Ho.
    pose proof (eq_trans (eq_sym Hsaved) Ho) as Hbad. discriminate Hbad.
  - exists e, w', next. split; [reflexivity|]. split.
    { exact (eq_trans H (f_equal reconciliation_next (Hnew (QueueReconciliation, next)))). }
    split; [|exact Hrow]. exists job. vm_compute in Hd. injection Hd as <-.
    destruct Hcust as [(c & Hc & ->)|(e' & _ & _ & ->)]; [|exact Hjob].
    apply (f_equal fst) in Hc. vm_compute in Hc. injection Hc as <-. exact Hjob.
  - discriminate H.
Defined.

Definition sample_binding_run : result (option ReconciliationCommand) * World :=
  @googlePlayReconciliationCommand busy_service _ sample_deployment (deployed_store _) (plain_operations _)
    (sample_references _) (sample_message "rtdn") sample_rtdn "rtdn" sample_world.

(** No client verified the new token: it is bound through the one it replaces. *)
Lemma google_command_bound_witness :
  exists command w', sample_binding_run = (Ok (Some command), w') /\
    rc_ExternalCustomerID command = "user-1"%string /\ length (w_calls w') = 1%nat /\
    w_store w' = w_store sample_world.
Proof.
  destruct sample_binding_run as [[[command|]|e] w'] eqn:E; [|vm_compute in E; discriminate..].
  destruct (@google_command_bound busy_service _ sample_deployment (deployed_store _) (plain_operations _)
    (sample_references _) sample_deployment_reads (sample_reference_laws _) (sample_message "rtdn") sample_rtdn
    "rtdn" command sample_world w' E) as [Hs _].
  exists command, w'. split; [reflexivity|]. vm_compute in E. injection E as <- <-.
  split; [reflexivity|]. split; [reflexivity|exact Hs].
Defined.

Definition sample_callback_run : result ReconciliationCommand * World :=
  @huaweiReconciliationCommand sample_processing busy_service sample_open _ (plain_operations _)
    (sample_references _) (sample_message "callback") sample_callback "callback" sample_world.

(** The callback lacks the subscription identity; the stored evidence has it. *)
Lemma huawei_command_bound_witness :
  exists command, sample_callback_run = (Ok command, sample_world) /\
    map StoreReference_Value (rc_QueryReferences command) = ["old-token"; "sub-1"]%string.
Proof.
  destruct sample_callback_run as [[command|e] w'] eqn:E; [|vm_compute in E; discriminate].
  destruct (@huawei_command_bound busy_service _ (plain_operations _) (sample_references _)
    (sample_reference_laws _) sample_processing sample_open (sample_message "callback") sample_callback "callback"
    command sample_world w' E) as [Hw _].
  exists command. split; [exact (f_equal (pair (Ok command)) Hw)|]. vm_compute in E. injection E as <- _. reflexivity.
Defined.

(** A refresh that runs before its boundary schedules its own generation again. *)
Lemma early_refresh_is_itself scheduled now :
  scheduled mod reconciliationInterval = 0 -> scheduled - reconciliationInterval <= now < scheduled ->
  nextReconciliationTime now = scheduled.
Proof.
  unfold nextReconciliationTime, Truncate. set (d := reconciliationInterval).
  assert (Hd : 0 < d) by reflexivity. intros Hs Hn.
  assert (Hq : scheduled = d * (scheduled / d)) by (pose proof (Z.div_mod scheduled d ltac:(lia)); lia).
  set (q := scheduled / d) in *. assert (Hnow : now / d = q - 1).
  { symmetry. apply (Z.div_unique_pos now d (q - 1) (now - d * (q - 1))); lia. }
  pose proof (Z.div_mod now d ltac:(lia)). rewrite Hnow in *. lia.
Qed.
