(* ===== verification/HttpCore.v ===== *)
(** The frame of the HTTP API ([internal/transport/httpapi]): requests and replies, a handler
    as a computation that may end early with a reply, the mapping of failures to replies, and
    the guards that authenticate a caller ([api.go], [dashboard_session.go]).

    A handler runs on the state of the services, [S].  The bytes of a reply are the encoding of
    the value given here; the decoding of request bodies, URLs and cookies is a parameter. *)

From S2P Require Import Prelude GoText GoTime GoMime GoHttp Core Purchase Protection Persistence Stores Projector Repository GoCodec Auth.
From stdpp Require Import base list strings gmap.
Local Open Scope Z_scope.

(** ** Requests and replies *)

(** A value to be encoded; fields that are omitted when empty are left out, and a list without
    elements is also what a nil slice is. *)
Inductive json : Type :=
| JText (s : string)
| JNumber (z : Z)
| JFlag (b : bool)
| JTime (t : time)
| JNull
| JList (l : list json)
| JObject (fields : list (string * json)).

Definition omit_empty (name value : string) : list (string * json) :=
  if String.eqb value EmptyString then [] else [(name, JText value)].
Definition omit_nil (name : string) (value : option time) : list (string * json) :=
  match value with Some t => [(name, JTime t)] | None => [] end.

(** A request as the handlers see it: the segments of its clean path, decoded, a slash at its end
    being a segment of its own; headers, query
    and cookies by name; what reading its body gives, with whether that failed; the parts of a
    multipart body; the values the router found in the path; and the identity the server gave it. *)
Record http_call : Type := mkCall {
  rq_Method : string;
  rq_Segments : list string;
  rq_Host : string;
  rq_Headers : list (string * string);
  rq_Query : list (string * string);
  rq_Cookies : list (string * string);
  rq_Body : string * bool;
  rq_PathValues : list (string * string);
  rq_RequestID : string
}.

(** The first value of a name. *)
Fixpoint first_value (values : list (string * string)) (name : string) : option string :=
  match values with
  | [] => None
  | (n, v) :: values' => if String.eqb n name then Some v else first_value values' name
  end.
Definition Header_Get (request : http_call) (name : string) : string := default EmptyString (first_value (rq_Headers request) name).
Definition Query_Get (request : http_call) (name : string) : string := default EmptyString (first_value (rq_Query request) name).
Definition PathValue (request : http_call) (name : string) : string := default EmptyString (first_value (rq_PathValues request) name).

(** The fields of [http.Cookie] the API sets. *)
Record cookie : Type := mkCookie {
  ck_Name : string;
  ck_Value : string;
  ck_Path : string;
  ck_Expires : time;
  ck_MaxAge : Z;
  ck_HttpOnly : bool;
  ck_Secure : bool;
  ck_SameSiteStrict : bool
}.

Record reply : Type := mkReply {
  rp_Status : Z;
  rp_Headers : list (string * string);
  rp_Cookies : list cookie;
  rp_Body : option json
}.

Definition refusal (r : reply) : Prop := 400 <= rp_Status r.

(** *** Handlers *)

(** A computation of a handler: a value, or the reply it ends with. *)
Definition H (S A : Type) : Type := S -> (reply + A) * S.
Definition h_ret {S A} (a : A) : H S A := fun s => (inr a, s).
Definition h_reply {S A} (r : reply) : H S A := fun s => (inl r, s).
Definition h_bind {S A B} (m : H S A) (f : A -> H S B) : H S B :=
  fun s => match m s with (inl r, s') => (inl r, s') | (inr a, s') => f a s' end.
(** A call of a service; its error ends the handler. *)
Definition h_call {S A} (failed : gerror -> reply) (m : Tx S A) : H S A :=
  fun s => match m s with (Ok a, s') => (inr a, s') | (Err e, s') => (inl (failed e), s') end.
(** End with a reply unless the condition holds. *)
Definition h_require {S} (condition : bool) (otherwise : reply) : H S unit :=
  if condition then h_ret tt else h_reply otherwise.
Definition h_check {S} (failed : gerror -> reply) (e : error) : H S unit :=
  match e with Some x => h_reply (failed x) | None => h_ret tt end.

Declare Scope http_scope.
Delimit Scope http_scope with http.
Notation "'let!' x := m 'in' k" := (h_bind m (fun x => k))
  (at level 10, x pattern, m at level 100, k at level 200) : http_scope.
Open Scope http_scope.

Definition run_handler {S} (m : H S reply) : S -> reply * S :=
  fun s => match m s with (inl r, s') => (r, s') | (inr r, s') => (r, s') end.

(** ** Replies ([api.go]) *)

(* internal/transport/httpapi/api.go: writeJSON *)
Definition writeJSON (status : Z) (value : json) : reply :=
  mkReply status [("Cache-Control", "no-store"); ("Content-Type", "application/json")]%string [] (Some value).

Section Replies.
Context (request : http_call).

(* internal/transport/httpapi/api.go: apiError *)
Definition apiError (code message : string) : json :=
  JObject ([("code", JText code); ("message", JText message)]%string ++ omit_empty "request_id" (rq_RequestID request)).

(* internal/transport/httpapi/api.go: writeAPIError *)
Definition writeAPIError (status : Z) (code message : string) : reply :=
  writeJSON status (JObject [("error"%string, apiError code message)]).

(* internal/transport/httpapi/identity.go: constants *)
Definition entitlementConflictMessage : string := "the customers have conflicting active entitlements".
Definition identityActorForbiddenMessage : string := "stored credentials are required".

(** Rounded up, in 64 bits. *)
(* internal/transport/httpapi/api.go:1140-1145: API.writeError *)
Definition retry_after_header (retryAfter : duration) : list (string * string) :=
  if 0 <? retryAfter then [("Retry-After"%string, FormatInt (Z.quot (wrap64 (retryAfter + Second - 1)) Second))] else [].

(* internal/transport/httpapi/api.go:1125-1149: API.writeError *)
Definition failure_reply (kind : FailureKind) (retryAfter : duration) : reply :=
  if String.eqb kind FailureInvalidEvidence
  then writeAPIError 422 "invalid_purchase" "purchase evidence could not be verified"
  else if String.eqb kind FailureUnauthorized then writeAPIError 502 "provider_unauthorized" "provider credentials were rejected"
  else if String.eqb kind FailureNotFound then writeAPIError 404 "purchase_not_found" "the provider did not find the purchase"
  else if String.eqb kind FailureRateLimited || String.eqb kind FailureTemporary
  then let r := writeAPIError 503 "provider_unavailable" "the provider is temporarily unavailable" in
       mkReply (rp_Status r) (retry_after_header retryAfter ++ rp_Headers r) [] (rp_Body r)
  else writeAPIError 502 "provider_error" "the provider request failed".

(* internal/transport/httpapi/api.go: API.writeError *)
Definition writeError (err : gerror) : reply :=
  if errors_Is err "context.DeadlineExceeded"
  then writeAPIError 503 "request_timeout" "the request exceeded its processing deadline"
  else if errors_Is err "auth.ErrCapacity"
  then writeAPIError 503 "authentication_unavailable" "authentication is temporarily unavailable"
  else if errors_Is err "googleplay.ErrNotificationUnauthorized"
  then writeAPIError 401 "unauthorized" "notification authentication failed"
  else if errors_Is err "googleplay.ErrNotificationInvalid" || errors_Is err "apple.ErrNotificationInvalid"
  then writeAPIError 400 "invalid_notification" "notification payload is invalid"
  else if errors_Is err "persistence.ErrNotFound" then writeAPIError 404 "not_found" "the requested resource was not found"
  else if errors_Is err "persistence.ErrEntitlementConflict" then writeAPIError 409 "entitlement_conflict" entitlementConflictMessage
  else if errors_Is err "persistence.ErrConflict" then writeAPIError 409 "conflict" "the request conflicts with current state"
  else if errors_Is err "persistence.ErrUnavailable"
  then writeAPIError 503 "storage_unavailable" "durable storage is temporarily unavailable"
  else match as_failure err with
       | Some (_, _, kind, retryAfter) => failure_reply kind retryAfter
       | None =>
           if errors_Is err "validation.ErrInvalid" then writeAPIError 400 "invalid_request" "request values are invalid"
           else writeAPIError 500 "internal_error" "the request could not be completed"
       end.

(* internal/transport/httpapi/api.go: API.notFound *)
Definition notFound : reply := writeAPIError 404 "not_found" "the requested resource was not found".

Definition unauthorized : reply := writeAPIError 401 "unauthorized" "authentication required".

(** An error of [None] is a caller of the wrong kind. *)
(* internal/transport/httpapi/api.go: API.writeAuthenticationFailure *)
Definition writeAuthenticationFailure (err : error) : reply :=
  match err with
  | Some e =>
      if errors_Is e "auth.ErrCapacity" || errors_Is e "persistence.ErrUnavailable"
      then writeAPIError 503 "authentication_unavailable" "authentication is temporarily unavailable"
      else if negb (errors_Is e "auth.ErrUnauthorized") then writeError e else unauthorized
  | None => unauthorized
  end.

(* internal/transport/httpapi/api.go: API.writeMutation *)
Definition mutation_ok : reply := writeJSON 200 (JObject [("status", JText "ok")]%string).

Context {S : Type}.

(* internal/transport/httpapi/api.go: API.requireValidInput *)
Definition requireValidInput (err : error) : H S unit :=
  h_check (fun e => writeError (default e (validation_Wrap (Some e)))) err.

(** A call of a service whose error is written. *)
Definition attempt {A} (m : Tx S A) : H S A := h_call writeError m.

(** *** Bodies *)

(** [strings.ToLower] of the type of the content, as far as it can be the one accepted. *)
(* internal/transport/httpapi/api.go: API.readBody *)
Definition readBody (bodyLimit : Z) : H S string :=
  let mediaType := map lower_rune (runes (TrimSpace (default EmptyString (head (Split (Header_Get request "Content-Type") 59))))) in
  let! _ := h_require (bool_decide (mediaType = bytes "application/json"))
              (writeAPIError 415 "unsupported_media_type" "Content-Type must be application/json") in
  let payload := str_take (Z.to_nat (bodyLimit + 1)) (fst (rq_Body request)) in
  let! _ := h_require (negb (snd (rq_Body request) && (len (fst (rq_Body request)) <=? bodyLimit)))
              (writeAPIError 400 "invalid_request" "request body could not be read") in
  let! _ := h_require (len payload <=? bodyLimit)
              (writeAPIError 413 "request_too_large" "request body exceeds the configured limit") in
  h_ret payload.

(** A strict decoder gives the first value and says whether anything follows it. *)
(* internal/transport/httpapi/api.go: API.decode *)
Definition decode_body {A} (bodyLimit : Z) (Decode : string -> option (A * bool)) : H S A :=
  let! payload := readBody bodyLimit in
  match Decode payload with
  | None => h_reply (writeAPIError 400 "invalid_json" "request body is invalid")
  | Some (value, trailing) =>
      if trailing then h_reply (writeAPIError 400 "invalid_json" "request body must contain one JSON value") else h_ret value
  end.
End Replies.

(** ** Authentication ([api.go], [dashboard_session.go]) *)

(** The authentication services of [internal/auth]. *)
Class ApiAuthentication (S : Type) := {
  AuthenticateBearer : string -> Tx S Principal;
  AuthenticateCustomerSession : string -> Tx S CustomerPrincipal;
  AuthenticateAdminSession : string -> Tx S AdminPrincipal
}.

(** They only read. *)
Class ApiAuthenticationLaws (S : Type) `{Hauth : !ApiAuthentication S} := {
  bearer_reads : forall token s r s', AuthenticateBearer token s = (r, s') -> s' = s;
  customer_session_reads : forall token s r s', AuthenticateCustomerSession token s = (r, s') -> s' = s;
  admin_session_reads : forall token s r s', AuthenticateAdminSession token s = (r, s') -> s' = s
}.

(** What is used of a parsed URL. *)
Record origin_url : Type := mkOrigin {
  or_Scheme : string;
  or_User : bool;
  or_Host : string;
  or_Path : string;
  or_RawQuery : string;
  or_Fragment : string
}.

(** [url.Parse]. *)
Class UrlLibrary := { ParseURL : string -> option origin_url }.

(** [strings.EqualFold] for hosts: of the letters outside ASCII only the two that fold into it
    are folded. *)
Definition fold_rune (r : Z) : Z := if r =? 8490 then 107 else if r =? 383 then 115 else lower_byte r.
Definition EqualFold (s t : string) : bool := bool_decide (map fold_rune (runes s) = map fold_rune (runes t)).

(** A bearer has none of space, tab, carriage return and line feed. *)
(* internal/transport/httpapi/api.go: strictBearerToken *)
Definition strictBearerToken (header : string) : option string :=
  if negb (String.prefix "Bearer " header) then None
  else let token := TrimPrefix header "Bearer " in
       if String.eqb token EmptyString || existsb (fun b => (b =? 32) || (b =? 9) || (b =? 13) || (b =? 10)) (bytes token)
       then None else Some token.

(* internal/transport/httpapi/dashboard_session.go: constants *)
Definition dashboardSessionCookieName : string := "__Secure-iapstack_admin".
Definition dashboardSessionCookiePath : string := "/v1/admin".
Definition dashboardRequestHeader : string := "X-IAPStack-Dashboard".
Definition dashboardRequestHeaderValue : string := "1".

(* internal/transport/httpapi/dashboard_session.go: safeRequestMethod *)
Definition safeRequestMethod (method : string) : bool :=
  String.eqb method "GET" || String.eqb method "HEAD" || String.eqb method "OPTIONS".

(* internal/transport/httpapi/dashboard_session.go: validDashboardMutation *)
Definition validDashboardMutation `{Url : !UrlLibrary} (request : http_call) : bool :=
  if negb (String.eqb (Header_Get request dashboardRequestHeader) dashboardRequestHeaderValue) then false
  else
    let fetchSite := Header_Get request "Sec-Fetch-Site" in
    if negb (String.eqb fetchSite EmptyString) && negb (String.eqb fetchSite "same-origin") && negb (String.eqb fetchSite "none") then false
    else match ParseURL (Header_Get request "Origin") with
         | None => false
         | Some origin =>
             negb ((negb (String.eqb (or_Scheme origin) "https") && negb (String.eqb (or_Scheme origin) "http")) || or_User origin
                   || String.eqb (or_Host origin) EmptyString || negb (EqualFold (or_Host origin) (rq_Host request))
                   || negb (String.eqb (or_Path origin) EmptyString) || negb (String.eqb (or_RawQuery origin) EmptyString)
                   || negb (String.eqb (or_Fragment origin) EmptyString))
         end.

Section Guards.
Context {S : Type} `{Hauth : !ApiAuthentication S} `{Url : !UrlLibrary}.
Context (request : http_call).

(* internal/transport/httpapi/api.go: API.authenticate *)
Definition authenticate : Tx S Principal :=
  match strictBearerToken (Header_Get request "Authorization") with
  | None => tx_err ErrUnauthorized
  | Some token => AuthenticateBearer token
  end.

(** The caller, and whether it is a dashboard session. *)
(* internal/transport/httpapi/dashboard_session.go: API.authenticateAdmin *)
Definition authenticateAdmin : Tx S (Principal * bool) :=
  if negb (String.eqb (Header_Get request "Authorization") EmptyString)
  then do principal <- authenticate; tx_ret (principal, false)
  else match first_value (rq_Cookies request) dashboardSessionCookieName with
       | None => tx_err ErrUnauthorized
       | Some cookie =>
           if String.eqb cookie EmptyString then tx_err ErrUnauthorized
           else do principal <- AuthenticateAdminSession cookie; tx_ret (adp_Principal principal, true)
       end.

Definition authenticated {A} (m : Tx S A) : H S A := h_call (fun e => writeAuthenticationFailure request (Some e)) m.

(* internal/transport/httpapi/api.go: API.requireAdmin *)
Definition requireAdmin : H S Principal :=
  let! (principal, dashboardSession) := authenticated authenticateAdmin in
  let! _ := h_require (String.eqb (pn_Role principal) APIKeyRoleAdmin) (writeAuthenticationFailure request None) in
  let! _ := h_require (negb (dashboardSession && negb (safeRequestMethod (rq_Method request)) && negb (validDashboardMutation request)))
              (writeAPIError request 403 "csrf_rejected" "dashboard request origin could not be verified") in
  h_ret principal.

(* internal/transport/httpapi/api.go: API.requireApplication *)
Definition requireApplication : H S Principal :=
  let! principal := authenticated authenticate in
  let! _ := h_require (String.eqb (pn_Role principal) APIKeyRoleApplication
                       && String.eqb (pn_ApplicationID principal) (PathValue request "application_id"))
              (writeAuthenticationFailure request None) in
  h_ret principal.

(* internal/transport/httpapi/api.go: API.requireCustomerSession *)
Definition requireCustomerSession : H S CustomerPrincipal :=
  match strictBearerToken (Header_Get request "Authorization") with
  | None => h_reply (unauthorized request)
  | Some token =>
      let! principal := authenticated (AuthenticateCustomerSession token) in
      let! _ := h_require (String.eqb (pn_ApplicationID (cup_Principal principal)) (PathValue request "application_id"))
                  (writeAuthenticationFailure request None) in
      h_ret principal
  end.

(* internal/transport/httpapi/identity.go: API.requireDurableActor *)
Definition requireDurableActor (principal : Principal) : H S unit :=
  h_require (negb (String.eqb (pn_KeyID principal) EmptyString))
    (writeAPIError request 403 "forbidden" identityActorForbiddenMessage).
End Guards.

(** ** Reasoning about handlers *)

(** A guard: it leaves the state as it is, and either ends with a refusal or goes on with a
    value it promises something of. *)
Definition guards {S A} (m : H S A) (P : S -> A -> Prop) : Prop :=
  forall s x s', m s = (x, s') -> s' = s /\ match x with inl r => refusal r | inr a => P s a end.

(** A handler that refuses and changes nothing, or answers and changes the state as [R] says. *)
Definition allowed {S} (m : H S reply) (R : S -> reply -> S -> Prop) : Prop :=
  forall s r s', run_handler m s = (r, s') -> (refusal r /\ s' = s) \/ R s r s'.

(** A handler that refuses and changes nothing unless what it needs holds. *)
Definition authorized {S} (m : H S reply) (G : S -> Prop) : Prop := allowed m (fun s _ _ => G s).

Section Rules.
Context {S : Type}.

Lemma guards_ret {A} (a : A) (P : S -> A -> Prop) : (forall s, P s a) -> guards (h_ret a) P.
Proof. intros H s x s' [= <- <-]. auto. Qed.

Lemma guards_reply {A} r (P : S -> A -> Prop) : refusal r -> guards (h_reply r) P.
Proof. intros H s x s' [= <- <-]. auto. Qed.

Lemma guards_bind {A B} (m : H S A) (f : A -> H S B) P Q :
  guards m P -> (forall a, guards (f a) (fun s b => P s a -> Q s b)) -> guards (h_bind m f) Q.
Proof.
  intros Hm Hf s x s'. unfold h_bind. destruct (m s) as [[r|a] s1] eqn:E; apply Hm in E as [-> E]; [by intros [= <- <-]|].
  intros [-> H]%Hf. split; [done|]. destruct x; auto.
Qed.

Lemma guards_require b r (P : S -> unit -> Prop) : refusal r -> (b = true -> forall s, P s tt) -> guards (h_require b r) P.
Proof. intros Hr Hb. unfold h_require. destruct b; [apply guards_ret; auto|by apply guards_reply]. Qed.

Lemma guards_check failed e (P : S -> unit -> Prop) :
  (forall x, refusal (failed x)) -> (e = None -> forall s, P s tt) -> guards (h_check failed e) P.
Proof. intros Hr He. unfold h_check. destruct e; [by apply guards_reply|apply guards_ret; auto]. Qed.

Lemma guards_require_bind {B} b r (f : unit -> H S B) (Q : S -> B -> Prop) :
  refusal r -> (b = true -> guards (f tt) Q) -> guards (h_bind (h_require b r) f) Q.
Proof.
  intros Hr Hf. unfold h_require. destruct b; [exact (Hf eq_refl)|]. intros s x s' [= <- <-]. auto.
Qed.

(** A service that only reads. *)
Lemma guards_call {A} failed (m : Tx S A) (P : S -> A -> Prop) :
  (forall x, refusal (failed x)) -> (forall s r s', m s = (r, s') -> s' = s) -> (forall s a, m s = (Ok a, s) -> P s a) ->
  guards (h_call failed m) P.
Proof.
  intros Hr Hm HP s x s'. unfold h_call. destruct (m s) as [[a|e] s1] eqn:E; pose proof (Hm _ _ _ E) as ->; intros [= <- <-]; auto.
Qed.

Lemma guards_weaken {A} (m : H S A) (P Q : S -> A -> Prop) : guards m P -> (forall s a, P s a -> Q s a) -> guards m Q.
Proof. intros Hm HPQ s x s' [-> H]%Hm. split; [done|]. destruct x; auto. Qed.

Lemma allowed_bind {A} (m : H S A) (f : A -> H S reply) P R :
  guards m P -> (forall a, allowed (f a) (fun s r s' => P s a -> R s r s')) -> allowed (h_bind m f) R.
Proof.
  intros Hm Hf s r s'. unfold run_handler, h_bind. destruct (m s) as [[x|a] s1] eqn:E; apply Hm in E as [-> E].
  - intros [= <- <-]. by left.
  - intros [H|H]%Hf; [by left|right; auto].
Qed.

Lemma authorized_bind {A} (m : H S A) (f : A -> H S reply) P G :
  guards m P -> (forall a, authorized (f a) (fun s => P s a -> G s)) -> authorized (h_bind m f) G.
Proof. apply allowed_bind. Qed.

Lemma allowed_reply x R : refusal x -> allowed (S := S) (h_reply x) R.
Proof. intros Hx s r s' [= <- <-]. by left. Qed.

(** The last call of a handler: its failure refuses, and undoes what it did. *)
Lemma allowed_call {A} failed (m : Tx S A) (f : A -> reply) (R : S -> reply -> S -> Prop) :
  (forall e, refusal (failed e)) -> (forall s e s', m s = (Err e, s') -> s' = s) ->
  (forall s a s', m s = (Ok a, s') -> R s (f a) s') -> allowed (h_bind (h_call failed m) (fun a => h_ret (f a))) R.
Proof.
  intros Hr He Ha s r s'. unfold run_handler, h_bind, h_call, h_ret. destruct (m s) as [[a|e] s1] eqn:E; intros [= <- <-]; [right; auto|].
  apply He in E as ->. auto.
Qed.

(** Once the need is established the rest of the handler does not matter. *)
Lemma authorized_by (m : H S reply) (G : S -> Prop) : (forall s, G s) -> authorized m G.
Proof. intros H s r s' _. by right. Qed.

Lemma authorized_guard {A} (m : H S A) (f : A -> H S reply) (G : S -> Prop) :
  guards m (fun s _ => G s) -> authorized (h_bind m f) G.
Proof. intros Hm. eapply authorized_bind; [exact Hm|]. intros a. apply authorized_by. auto. Qed.
End Rules.

(** Every failure is a refusal. *)
Lemma writeAPIError_refuses request status code message : 400 <= status -> refusal (writeAPIError request status code message).
Proof. done. Qed.

Lemma writeError_refuses request e : refusal (writeError request e).
Proof. unfold writeError, failure_reply, refusal. repeat case_match; cbn; lia. Qed.

Lemma writeAuthenticationFailure_refuses request e : refusal (writeAuthenticationFailure request e).
Proof. unfold writeAuthenticationFailure. repeat case_match; try (by apply writeError_refuses); unfold refusal, unauthorized; cbn; lia. Qed.

Create HintDb http.
#[export] Hint Resolve writeError_refuses writeAuthenticationFailure_refuses : http.
#[export] Hint Extern 1 (refusal _) => (unfold refusal; cbn; lia) : http.

(** A string that is cut off after more than it may have, and has no more, is whole. *)
Lemma str_take_all s n : len (str_take (Z.to_nat (n + 1)) s) <= n -> str_take (Z.to_nat (n + 1)) s = s.
Proof.
  unfold len, str_take. rewrite length_of_bytes, length_take, length_bytes. intros H.
  rewrite take_ge by (rewrite length_bytes; lia). apply of_bytes_bytes.
Qed.

Section GuardRules.
Context {S : Type} (request : http_call).

Lemma requireValidInput_guards err : guards (requireValidInput request err) (fun (_ : S) _ => err = None).
Proof. apply guards_check; auto with http. Qed.

Lemma readBody_guards bodyLimit :
  guards (readBody request bodyLimit) (fun (_ : S) payload => payload = fst (rq_Body request) /\ len payload <= bodyLimit).
Proof.
  unfold readBody. apply guards_require_bind; [auto with http|intros _]. apply guards_require_bind; [auto with http|intros _].
  apply guards_require_bind; [auto with http|]. intros Hl%Z.leb_le. apply guards_ret. intros _. split; [|done].
  by apply str_take_all.
Qed.

Lemma decode_body_guards {A} bodyLimit (Decode : string -> option (A * bool)) :
  guards (decode_body request bodyLimit Decode)
    (fun (_ : S) value => len (fst (rq_Body request)) <= bodyLimit /\ Decode (fst (rq_Body request)) = Some (value, false)).
Proof.
  unfold decode_body. eapply guards_bind; [apply readBody_guards|]. intros payload.
  destruct (Decode payload) as [[value [|]]|] eqn:E; [apply guards_reply; auto with http| |apply guards_reply; auto with http].
  apply guards_ret. by intros _ [-> H].
Qed.

Context `{Hauth : ApiAuthenticationLaws S} `{Url : !UrlLibrary}.

Lemma authenticate_reads s r s' : authenticate request s = (r, s') -> s' = s.
Proof. unfold authenticate. destruct (strictBearerToken _); [apply bearer_reads|by intros [= _ <-]]. Qed.

Lemma authenticateAdmin_reads s r s' : authenticateAdmin request s = (r, s') -> s' = s.
Proof.
  unfold authenticateAdmin. destruct (negb _).
  - unfold tx_bind. destruct (authenticate request s) as [[p|e] s1] eqn:E; apply authenticate_reads in E as ->; by intros [= _ <-].
  - destruct (first_value _ _) as [cookie|]; [|by intros [= _ <-]]. destruct (String.eqb _ _); [by intros [= _ <-]|].
    unfold tx_bind. destruct (AuthenticateAdminSession cookie s) as [[p|e] s1] eqn:E; apply admin_session_reads in E as ->; by intros [= _ <-].
Qed.

(** The request carries a token as its bearer: a text that is not empty and has no space, tab,
    carriage return or line feed. *)
Definition bears (token : string) : Prop :=
  Header_Get request "Authorization" = ("Bearer " ++ token)%string /\ token <> EmptyString /\
  Forall (fun b => b <> 32 /\ b <> 9 /\ b <> 13 /\ b <> 10) (bytes token).

Lemma blanks_none l :
  existsb (fun b => (b =? 32) || (b =? 9) || (b =? 13) || (b =? 10)) l = false <->
  Forall (fun b : Z => b <> 32 /\ b <> 9 /\ b <> 13 /\ b <> 10) l.
Proof.
  induction l as [|b l IH]; cbn [existsb]; [by split; [constructor|]|].
  rewrite orb_false_iff, Forall_cons, IH, !orb_false_iff, !Z.eqb_neq. tauto.
Qed.

Lemma strict_bears token : strictBearerToken (Header_Get request "Authorization") = Some token <-> bears token.
Proof.
  unfold strictBearerToken, bears. rewrite <- blanks_none. split.
  - destruct (String.prefix "Bearer " _) eqn:Hp; cbn [negb]; [|done]. apply prefix_split in Hp as [rest ->].
    rewrite TrimPrefix_app. destruct (String.eqb_spec rest EmptyString); cbn [orb]; [done|].
    destruct (existsb _ (bytes rest)) eqn:Hb; [done|]. by intros [= <-].
  - intros (-> & Hne & Hb). rewrite str_prefix_app. cbn [negb]. rewrite TrimPrefix_app, Hb, orb_false_r.
    by destruct (String.eqb_spec token EmptyString).
Qed.

(** The caller a bearer proves to be. *)
Definition bearer_of (s : S) (principal : Principal) : Prop :=
  exists token, bears token /\ AuthenticateBearer token s = (Ok principal, s).

Lemma authenticate_bearer s principal : authenticate request s = (Ok principal, s) -> bearer_of s principal.
Proof.
  unfold authenticate. destruct (strictBearerToken _) as [token|] eqn:Ht; [|done]. intros H. exists token.
  by apply strict_bears in Ht.
Qed.

(** A request of the dashboard's own pages, as a browser describes it: with the dashboard's
    header, not from another site, and with an origin that is a scheme of the web and the host
    the request was sent to, and nothing else. *)
Definition own_origin : Prop :=
  Header_Get request "X-IAPStack-Dashboard" = "1"%string /\
  In (Header_Get request "Sec-Fetch-Site") [""; "same-origin"; "none"]%string /\
  exists origin, ParseURL (Header_Get request "Origin") = Some origin /\
    (or_Scheme origin = "https"%string \/ or_Scheme origin = "http"%string) /\ or_User origin = false /\
    or_Host origin <> EmptyString /\ map fold_rune (runes (or_Host origin)) = map fold_rune (runes (rq_Host request)) /\
    or_Path origin = EmptyString /\ or_RawQuery origin = EmptyString /\ or_Fragment origin = EmptyString.

Lemma validDashboardMutation_origin : validDashboardMutation request = true -> own_origin.
Proof.
  unfold validDashboardMutation, own_origin. change dashboardRequestHeader with "X-IAPStack-Dashboard"%string.
  change dashboardRequestHeaderValue with "1"%string. cbv zeta.
  destruct (String.eqb_spec (Header_Get request "X-IAPStack-Dashboard") "1") as [->|]; cbn [negb]; [|done].
  destruct (negb _ && _ && _) eqn:Hf; [done|]. destruct (ParseURL _) as [origin|]; [|done].
  rewrite negb_true_iff, !orb_false_iff, !negb_false_iff, !String.eqb_eq, andb_false_iff, !negb_false_iff, !String.eqb_eq, String.eqb_neq.
  intros ((((((Hs & Hu) & Hh) & Heq%bool_decide_eq_true) & Hp) & Hq) & Hfr). split; [done|]. split; [|by exists origin].
  rewrite !andb_false_iff, !negb_false_iff, !String.eqb_eq in Hf. cbn [In]. naive_solver.
Qed.

(** A dashboard session's call: no bearer at all, the session's cookie, and a method that only
    reads or a request of the dashboard's own origin. *)
Definition dashboard_session_of (s : S) (principal : Principal) : Prop :=
  Header_Get request "Authorization" = EmptyString /\
  exists token session, first_value (rq_Cookies request) "__Secure-iapstack_admin" = Some token /\ token <> EmptyString /\
    AuthenticateAdminSession token s = (Ok session, s) /\ principal = adp_Principal session /\
    (In (rq_Method request) ["GET"; "HEAD"; "OPTIONS"]%string \/ own_origin).

(** An administrator's call: a bearer or a session, of the administrator role. *)
Definition admin_granted (s : S) (principal : Principal) : Prop :=
  pn_Role principal = APIKeyRoleAdmin /\ (bearer_of s principal \/ dashboard_session_of s principal).

Lemma authenticateAdmin_caller s principal session :
  authenticateAdmin request s = (Ok (principal, session), s) ->
  (session = true -> safeRequestMethod (rq_Method request) = true \/ validDashboardMutation request = true) ->
  bearer_of s principal \/ dashboard_session_of s principal.
Proof.
  unfold authenticateAdmin. destruct (String.eqb_spec (Header_Get request "Authorization") EmptyString) as [Hnone|]; cbn [negb].
  - change dashboardSessionCookieName with "__Secure-iapstack_admin"%string. intros H Hsafe. right. split; [done|].
    destruct (first_value _ _) as [token|]; [|done]. destruct (String.eqb_spec token EmptyString); [done|].
    apply tx_bind_ok in H as (adm & s1 & Ha & [= <- <- ->]). exists token, adm. split_and!; try done.
    destruct (Hsafe eq_refl) as [Hm|Hm]; [left|right; by apply validDashboardMutation_origin].
    unfold safeRequestMethod in Hm. rewrite !orb_true_iff, !String.eqb_eq in Hm. cbn [In]. naive_solver.
  - intros (p & s1 & Hp & [= <- <- ->])%tx_bind_ok _. left. by apply authenticate_bearer.
Qed.

Lemma requireAdmin_guards : guards (requireAdmin request) admin_granted.
Proof.
  unfold requireAdmin, authenticated. eapply guards_bind.
  { apply (guards_call _ _ (fun s a => authenticateAdmin request s = (Ok a, s))); [auto with http|apply authenticateAdmin_reads|done]. }
  intros [principal session]. apply guards_require_bind; [auto with http|]. intros Hrole%String.eqb_eq.
  apply guards_require_bind; [auto with http|]. intros Hsafe. apply guards_ret. intros s Hp. split; [done|].
  eapply authenticateAdmin_caller; [exact Hp|]. intros ->. cbn in Hsafe.
  destruct (safeRequestMethod _), (validDashboardMutation _); auto.
Qed.

(** An application's call: its own bearer, for the application the path names. *)
Definition application_granted (s : S) (principal : Principal) : Prop :=
  bearer_of s principal /\ pn_Role principal = APIKeyRoleApplication /\
  pn_ApplicationID principal = PathValue request "application_id".

Lemma requireApplication_guards : guards (requireApplication request) application_granted.
Proof.
  unfold requireApplication, authenticated. eapply guards_bind.
  { apply (guards_call _ _ (fun s a => authenticate request s = (Ok a, s))); [auto with http|apply authenticate_reads|done]. }
  intros principal. apply guards_require_bind; [auto with http|]. intros [Hrole%String.eqb_eq Hid%String.eqb_eq]%andb_true_iff.
  apply guards_ret. intros s Hp%authenticate_bearer. by split.
Qed.

(** A customer's call: a session of the application the path names. *)
Definition customer_granted (s : S) (principal : CustomerPrincipal) : Prop :=
  exists token, bears token /\ AuthenticateCustomerSession token s = (Ok principal, s) /\
    pn_ApplicationID (cup_Principal principal) = PathValue request "application_id".

Lemma customer_granted_unique s p q : customer_granted s p -> customer_granted s q -> p = q.
Proof.
  intros (token & Ht%strict_bears & Hp & _) (token' & Ht'%strict_bears & Hq & _). assert (token' = token) as -> by congruence. congruence.
Qed.

Lemma requireCustomerSession_guards : guards (requireCustomerSession request) customer_granted.
Proof.
  unfold requireCustomerSession, authenticated. destruct (strictBearerToken _) as [token|] eqn:Ht; [|apply guards_reply; auto with http].
  apply strict_bears in Ht. eapply guards_bind.
  { apply (guards_call _ _ (fun s a => AuthenticateCustomerSession token s = (Ok a, s))); [auto with http| |done].
    intros s r s'. apply customer_session_reads. }
  intros principal. apply guards_require_bind; [auto with http|]. intros Hid%String.eqb_eq.
  apply guards_ret. intros s Hp. by exists token.
Qed.

Lemma requireDurableActor_guards principal :
  guards (requireDurableActor request principal) (fun (_ : S) _ => pn_KeyID principal <> EmptyString).
Proof. apply guards_require; [auto with http|]. by intros H%negb_true_iff%String.eqb_neq _. Qed.
End GuardRules.
