(* ===== verification/HttpAdmin.v ===== *)
(** The administrator's views and financial uploads of the HTTP API
    ([internal/transport/httpapi/admin.go], [financial_report.go]), with the read-only records of
    [internal/persistence/admin.go] they show. *)

From S2P Require Import Prelude GoText GoTime GoMime GoHttp GoCodec Core Decimal Purchase Protection Persistence Stores Projector Repository Auth Verification Identity Catalog AppleReports ReportStore Revenue FinancialReports HttpCore.
From stdpp Require Import base list strings gmap sorting.
Local Open Scope Z_scope.

(** ** Records ([persistence/admin.go]) *)

(* internal/persistence/admin.go: AdminProject *)
Record AdminProject : Type := mkAdminProject {
  apj_ID : ProjectID;
  apj_ApplicationCount : Z;
  apj_CustomerCount : Z;
  apj_ProductCount : Z;
  apj_CreatedAt : time
}.

(* internal/persistence/admin.go: AdminMoney *)
Record AdminMoney : Type := mkAdminMoney { mny_Milliunits : Z; mny_Currency : string }.

(* internal/persistence/admin.go: AdminSandboxValue *)
Record AdminSandboxValue : Type := mkSandboxValue {
  sbv_Amounts : list AdminMoney;
  sbv_TransactionCount : Z;
  sbv_MissingPriceCount : Z
}.

(* internal/persistence/admin.go: AdminDailyActivity *)
Record AdminDailyActivity : Type := mkDailyActivity {
  day_Date : string;
  day_Verified : Z;
  day_Allowed : Z;
  day_Denied : Z;
  day_Unresolved : Z;
  day_Reversed : Z
}.

(* internal/persistence/admin.go: AdminAnalytics *)
Record AdminAnalytics : Type := mkAnalytics {
  an_WindowDays : Z;
  an_GeneratedAt : time;
  an_VerifiedCount : Z;
  an_AllowedCount : Z;
  an_DeniedCount : Z;
  an_UnresolvedCount : Z;
  an_ReversedCount : Z;
  an_ActiveEntitlementCount : Z;
  an_Revenue : AdminRevenue;
  an_SandboxValue : AdminSandboxValue;
  an_DailyActivity : list AdminDailyActivity
}.

(* internal/persistence/admin.go: AdminApplication *)
Record AdminApplication : Type := mkAdminApplication {
  aap_ID : ApplicationID;
  aap_Provider : Provider;
  aap_Environment : Environment;
  aap_ProviderApplicationID : string;
  aap_CredentialConfigured : bool;
  aap_CredentialRevision : Z;
  aap_WebhookConfigured : bool;
  aap_WebhookRevision : Z;
  aap_CreatedAt : time
}.

(* internal/persistence/admin.go: AdminProduct *)
Record AdminProduct : Type := mkAdminProduct {
  apr_ID : ProductID;
  apr_Kind : ProductKind;
  apr_EntitlementKeys : list string;
  apr_StoreMappingCount : Z;
  apr_CreatedAt : time
}.

(* internal/persistence/admin.go: AdminCustomer *)
Record AdminCustomer : Type := mkAdminCustomer {
  acu_ID : CustomerID;
  acu_ExternalID : string;
  acu_MergedIntoCustomerID : option string;
  acu_AliasCount : Z;
  acu_EntitlementCount : Z;
  acu_AllowedCount : Z;
  acu_LastObservedAt : option time;
  acu_CreatedAt : time
}.

(* internal/persistence/admin.go: AdminTransaction *)
Record AdminTransaction : Type := mkAdminTransaction {
  atx_ID : ObservationID;
  atx_ApplicationID : ApplicationID;
  atx_CustomerID : CustomerID;
  atx_ProductID : ProductID;
  atx_ProviderProductID : ProviderProductID;
  atx_LifecycleState : LifecycleState;
  atx_Access : AccessStatus;
  atx_AccessReason : AccessReason;
  atx_ObservedAt : time;
  atx_EffectiveEndsAt : option time
}.

(* internal/persistence/admin.go: AdminQueue *)
Record AdminQueue : Type := mkAdminQueue {
  aqu_Name : QueueName;
  aqu_Pending : Z;
  aqu_Completed : Z;
  aqu_Failed : Z
}.

(* internal/persistence/admin.go: AdminWebhookEvent *)
Record AdminWebhookEvent : Type := mkAdminWebhookEvent {
  awe_ID : string;
  awe_ApplicationID : ApplicationID;
  awe_EventType : string;
  awe_AggregateID : string;
  awe_Status : string;
  awe_ErrorCode : string;
  awe_OccurredAt : time;
  awe_DeliveredAt : option time;
  awe_FailedAt : option time
}.

(* internal/persistence/admin.go: AdminProjectOverview *)
Record AdminProjectOverview : Type := mkOverview {
  ov_Project : AdminProject;
  ov_Analytics : AdminAnalytics;
  ov_Applications : list AdminApplication;
  ov_Products : list AdminProduct;
  ov_Customers : list AdminCustomer;
  ov_RecentTransactions : list AdminTransaction;
  ov_Queues : list AdminQueue;
  ov_RecentWebhookEvents : list AdminWebhookEvent
}.

(* internal/persistence/admin.go: AdminQueryStore *)
Class AdminQueryStore (S : Type) := {
  AdminProjects : Tx S (list AdminProject);
  AdminProjectOverview_ : ProjectID -> AdminRevenueQuery -> Tx S AdminProjectOverview
}.

(** ** Views ([admin.go]) *)

(* internal/transport/httpapi/admin.go: adminProjectFromRecord *)
Definition adminProjectFromRecord (project : AdminProject) : json :=
  JObject [("id", JText (apj_ID project)); ("application_count", JNumber (apj_ApplicationCount project));
           ("customer_count", JNumber (apj_CustomerCount project)); ("product_count", JNumber (apj_ProductCount project));
           ("created_at", JTime (apj_CreatedAt project))]%string.

Definition minor_units_json (minor : option Z) : json := match minor with Some m => JNumber m | None => JNull end.

(* internal/transport/httpapi/admin.go:329-341: adminRevenueFromRecord *)
Definition recognized_json (amount : AdminRecognizedAmount) : json :=
  JObject [("provider", JText (ra_Provider amount)); ("report_kind", JText (ra_ReportKind amount));
           ("period_start", JText (FormatDateOnly (ra_PeriodStart amount))); ("period_end", JText (FormatDateOnly (ra_PeriodEnd amount)));
           ("currency", JText (ra_Currency amount)); ("amount_decimal", JText (ra_AmountDecimal amount));
           ("amount_scale", JNumber (ra_AmountScale amount)); ("minor_units", minor_units_json (ra_MinorUnits amount));
           ("commission_state", JText (ra_CommissionState amount)); ("tax_state", JText (ra_TaxState amount))]%string.

(** The currency is never set. *)
(* internal/transport/httpapi/admin.go: adminRevenueFromRecord *)
Definition adminRevenueFromRecord (revenue : AdminRevenue) : json :=
  JObject [("status", JText (ar_Status revenue)); ("recognized_minor_units", minor_units_json (ar_RecognizedMinorUnits revenue));
           ("currency", JNull); ("amounts", JList (map recognized_json (ar_Amounts revenue)));
           ("uncovered_providers", JList (map JText (ar_UncoveredProviders revenue)));
           ("zero_filled_application_ids", JList (map JText (ar_ZeroFilledApplicationIDs revenue)));
           ("production_application_count", JNumber (ar_ProductionApplicationCount revenue));
           ("test_application_count", JNumber (ar_TestApplicationCount revenue))]%string.

(* internal/transport/httpapi/admin.go: adminAnalyticsFromRecord *)
Definition adminAnalyticsFromRecord (analytics : AdminAnalytics) : json :=
  let money amount := JObject [("milliunits", JNumber (mny_Milliunits amount)); ("currency", JText (mny_Currency amount))]%string in
  let day d := JObject [("date", JText (day_Date d)); ("verified", JNumber (day_Verified d)); ("allowed", JNumber (day_Allowed d));
                        ("denied", JNumber (day_Denied d)); ("unresolved", JNumber (day_Unresolved d));
                        ("reversed", JNumber (day_Reversed d))]%string in
  let sandbox := an_SandboxValue analytics in
  JObject [("window_days", JNumber (an_WindowDays analytics)); ("generated_at", JTime (an_GeneratedAt analytics));
           ("verified_count", JNumber (an_VerifiedCount analytics)); ("allowed_count", JNumber (an_AllowedCount analytics));
           ("denied_count", JNumber (an_DeniedCount analytics)); ("unresolved_count", JNumber (an_UnresolvedCount analytics));
           ("reversed_count", JNumber (an_ReversedCount analytics));
           ("active_entitlement_count", JNumber (an_ActiveEntitlementCount analytics));
           ("revenue", adminRevenueFromRecord (an_Revenue analytics));
           ("sandbox_value", JObject [("amounts", JList (map money (sbv_Amounts sandbox)));
                                      ("transaction_count", JNumber (sbv_TransactionCount sandbox));
                                      ("missing_price_count", JNumber (sbv_MissingPriceCount sandbox))]);
           ("daily_activity", JList (map day (an_DailyActivity analytics)))]%string.

(* internal/transport/httpapi/admin.go:221-230: adminOverviewFromRecord *)
Definition application_json (application : AdminApplication) : json :=
  JObject [("id", JText (aap_ID application)); ("provider", JText (aap_Provider application));
           ("environment", JText (aap_Environment application));
           ("provider_application_id", JText (aap_ProviderApplicationID application));
           ("credential_configured", JFlag (aap_CredentialConfigured application));
           ("credential_revision", JNumber (aap_CredentialRevision application));
           ("webhook_configured", JFlag (aap_WebhookConfigured application));
           ("webhook_revision", JNumber (aap_WebhookRevision application)); ("created_at", JTime (aap_CreatedAt application))]%string.

(* internal/transport/httpapi/admin.go:231-236: adminOverviewFromRecord *)
Definition product_json (product : AdminProduct) : json :=
  JObject [("id", JText (apr_ID product)); ("kind", JText (apr_Kind product));
           ("entitlement_keys", JList (map JText (apr_EntitlementKeys product)));
           ("store_mapping_count", JNumber (apr_StoreMappingCount product)); ("created_at", JTime (apr_CreatedAt product))]%string.

(* internal/transport/httpapi/admin.go:237-244: adminOverviewFromRecord *)
Definition customer_json (customer : AdminCustomer) : json :=
  JObject ([("id", JText (acu_ID customer)); ("external_id", JText (acu_ExternalID customer))]%string
           ++ match acu_MergedIntoCustomerID customer with Some id => [("merged_into_customer_id"%string, JText id)] | None => [] end
           ++ [("alias_count", JNumber (acu_AliasCount customer)); ("entitlement_count", JNumber (acu_EntitlementCount customer));
               ("allowed_count", JNumber (acu_AllowedCount customer))]%string
           ++ omit_nil "last_observed_at" (acu_LastObservedAt customer) ++ [("created_at"%string, JTime (acu_CreatedAt customer))]).

(* internal/transport/httpapi/admin.go:245-254: adminOverviewFromRecord *)
Definition transaction_json (transaction : AdminTransaction) : json :=
  JObject ([("id", JText (atx_ID transaction)); ("application_id", JText (atx_ApplicationID transaction));
            ("customer_id", JText (atx_CustomerID transaction)); ("product_id", JText (atx_ProductID transaction));
            ("provider_product_id", JText (atx_ProviderProductID transaction));
            ("lifecycle_state", JText (atx_LifecycleState transaction)); ("access", JText (atx_Access transaction));
            ("access_reason", JText (atx_AccessReason transaction)); ("observed_at", JTime (atx_ObservedAt transaction))]%string
           ++ omit_nil "effective_ends_at" (atx_EffectiveEndsAt transaction)).

(* internal/transport/httpapi/admin.go:255-260: adminOverviewFromRecord *)
Definition queue_json (queue : AdminQueue) : json :=
  JObject [("name", JText (aqu_Name queue)); ("pending", JNumber (aqu_Pending queue)); ("completed", JNumber (aqu_Completed queue));
           ("failed", JNumber (aqu_Failed queue))]%string.

(* internal/transport/httpapi/admin.go:261-267: adminOverviewFromRecord *)
Definition event_json (event : AdminWebhookEvent) : json :=
  JObject ([("id", JText (awe_ID event)); ("application_id", JText (awe_ApplicationID event)); ("event_type", JText (awe_EventType event));
            ("aggregate_id", JText (awe_AggregateID event)); ("status", JText (awe_Status event))]%string
           ++ omit_empty "error_code" (awe_ErrorCode event) ++ [("occurred_at"%string, JTime (awe_OccurredAt event))]
           ++ omit_nil "delivered_at" (awe_DeliveredAt event) ++ omit_nil "failed_at" (awe_FailedAt event)).

(* internal/transport/httpapi/admin.go: adminOverviewFromRecord *)
Definition adminOverviewFromRecord (overview : AdminProjectOverview) : json :=
  JObject [("project", adminProjectFromRecord (ov_Project overview)); ("analytics", adminAnalyticsFromRecord (ov_Analytics overview));
           ("applications", JList (map application_json (ov_Applications overview)));
           ("products", JList (map product_json (ov_Products overview)));
           ("customers", JList (map customer_json (ov_Customers overview)));
           ("recent_transactions", JList (map transaction_json (ov_RecentTransactions overview)));
           ("queues", JList (map queue_json (ov_Queues overview)));
           ("recent_webhook_events", JList (map event_json (ov_RecentWebhookEvents overview)))]%string.

(** [time.Parse(time.DateOnly, value)]. *)
Definition parse_dash_date (value : string) : option time :=
  match bytes value with
  | [y1; y2; y3; y4; 45; m1; m2; 45; d1; d2] =>
      year ← digits_value [y1; y2; y3; y4]; month ← digits_value [m1; m2]; day ← digits_value [d1; d2];
      if in_range 1 12 month && in_range 1 (nth (Z.to_nat (month - 1)) (month_lengths (is_leap year)) 0) day
      then Some (Date year month day) else None
  | _ => None
  end.

(* internal/transport/httpapi/admin.go: adminRevenueQuery *)
Definition adminRevenueQuery (request : http_call) : result AdminRevenueQuery :=
  let startRaw := Query_Get request "financial_period_start" in
  let endRaw := Query_Get request "financial_period_end" in
  if String.eqb startRaw EmptyString && String.eqb endRaw EmptyString then Ok (mkRevenueQuery None None)
  else if String.eqb startRaw EmptyString || String.eqb endRaw EmptyString then Err (New "financial period requires both start and end")
  else match parse_dash_date startRaw with
       | None => Err (New "financial period start is invalid")
       | Some start =>
           match parse_dash_date endRaw with
           | None => Err (New "financial period end is invalid")
           | Some ends =>
               if Before ends start then Err (New "financial period end is before the start")
               else Ok (mkRevenueQuery (Some start) (Some ends))
           end
       end.

(** ** Financial reports ([financial_report.go]) *)

(** The distinct values, sorted. *)
Definition distinct_sorted (l : list string) : list string :=
  merge_sort (fun x y => Is_true (String.leb x y)) (elements (list_to_set (C := gset string) l)).

(* internal/transport/httpapi/financial_report.go:311-320: financialReportResponseFrom *)
Definition amount_json (amount : FinancialReportAmount) : json :=
  JObject [("currency", JText (fra_Currency amount)); ("amount_decimal", JText (fra_AmountDecimal amount));
           ("amount_scale", JNumber (fra_AmountScale amount)); ("minor_units", minor_units_json (fra_MinorUnits amount));
           ("commission_state", JText (fra_CommissionState amount)); ("tax_state", JText (fra_TaxState amount));
           ("covered_application_id", JText (fra_CoveredApplicationID amount))]%string.

(* internal/transport/httpapi/financial_report.go: financialReportResponseFrom *)
Definition financialReportResponseFrom (report : FinancialReport) : json :=
  let amounts := if String.eqb (fr_Status report) FinancialReportStatusAccepted then fr_Amounts report else [] in
  JObject ([("id", JText (fr_ID report)); ("provider", JText (fr_Provider report)); ("report_kind", JText (fr_ReportKind report));
            ("period_start", JText (FormatDateOnly (fr_PeriodStart report))); ("period_end", JText (FormatDateOnly (fr_PeriodEnd report)));
            ("source", JText (fr_Source report)); ("sha256", JText (EncodeToString (fr_SHA256 report)));
            ("byte_size", JNumber (fr_ByteSize report)); ("content_type", JText (fr_ContentType report));
            ("parser_version", JText (fr_ParserVersion report)); ("status", JText (fr_Status report)); ("reason", JText (fr_Reason report))]%string
           ++ match fr_SupersedesImportID report with Some id => [("supersedes_import_id"%string, JText id)] | None => [] end
           ++ [("currencies", JList (map JText (distinct_sorted (map fra_Currency amounts))));
               ("amounts", JList (map amount_json amounts));
               ("covered_application_ids", JList (map JText (distinct_sorted (map fra_CoveredApplicationID amounts))));
               ("created_at", JTime (fr_CreatedAt report))]%string).

(** What reading a multipart body gives, in order: a part's name, its content type and at most
    one byte more of it than the limit, with whether the reading failed (and whether because the
    body is too large); or that the next part could not be read.  The end of the list is the end
    of the body. *)
Inductive part_event : Type :=
| Part (name contentType payload : string) (failed : option bool)
| PartsFailed (tooLarge : bool).

(** [request.MultipartReader] over a body cut off at a number of bytes. *)
Class MultipartLibrary := { MultipartParts : http_call -> Z -> option (list part_event) }.

(** The fields read so far, and the file with its content type. *)
Record upload_state : Type := mkUploadState {
  us_fields : gmap string string;
  us_file : option (string * string)
}.

Section Uploads.
Context (request : http_call) {S : Type}.

Definition invalid_values : reply := writeAPIError request 400 "invalid_request" "request values are invalid".

(* internal/transport/httpapi/financial_report.go: API.writeUploadReadError *)
Definition writeUploadReadError (tooLarge : bool) : reply :=
  if tooLarge then writeAPIError request 413 "request_too_large" "request body exceeds the configured limit" else invalid_values.

(* internal/transport/httpapi/financial_report.go: API.writeFinancialError *)
Definition writeFinancialError (err : gerror) : reply :=
  if errors_Is err "financialreports.ErrReportTooLarge"
  then writeAPIError request 413 "request_too_large" "request body exceeds the configured limit" else writeError request err.

(* internal/transport/httpapi/financial_report.go: optionalFinancialDate *)
Definition optionalFinancialDate (value : string) : option (option time) :=
  let value := TrimSpace value in
  if String.eqb value EmptyString then Some None
  else match parse_dash_date value with Some date => Some (Some date) | None => None end.

(* internal/transport/httpapi/financial_report.go:165-213: API.readFinancialUpload *)
Definition read_part (limit : Z) (event : part_event) (st : upload_state) : reply + upload_state :=
  match event with
  | PartsFailed tooLarge => inl (writeUploadReadError tooLarge)
  | Part _ _ _ (Some tooLarge) => inl (writeUploadReadError tooLarge)
  | Part name contentType payload None =>
      if limit <? len payload then inl (writeUploadReadError true)
      else if String.eqb name "file" then
        match us_file st with
        | Some _ => inl invalid_values
        | None => inr (mkUploadState (us_fields st) (Some (payload, contentType)))
        end
      else if contains_str ["provider"; "report_kind"; "period_start"; "period_end"]%string name then
        match us_fields st !! name with
        | Some _ => inl invalid_values
        | None => inr (mkUploadState (<[name := payload]> (us_fields st)) (us_file st))
        end
      else inl invalid_values
  end.

Fixpoint read_parts (limit : Z) (events : list part_event) (st : upload_state) : reply + upload_state :=
  match events with
  | [] => inr st
  | event :: events' => match read_part limit event st with inl r => inl r | inr st' => read_parts limit events' st' end
  end.

(* internal/transport/httpapi/financial_report.go: API.readFinancialUpload *)
Definition readFinancialUpload `{Multipart : !MultipartLibrary} (limit : Z) (projectID : ProjectID) : H S Upload :=
  let! _ := h_require (bool_decide (ParseMediaType (Header_Get request "Content-Type") = Some "multipart/form-data"%string))
              (writeAPIError request 415 "unsupported_media_type" "Content-Type must be multipart/form-data") in
  match MultipartParts request limit with
  | None => h_reply (writeUploadReadError false)
  | Some events =>
      match read_parts limit events (mkUploadState ∅ None) with
      | inl r => h_reply r
      | inr st =>
          let field name := default EmptyString (us_fields st !! name) in
          match optionalFinancialDate (field "period_start"%string), optionalFinancialDate (field "period_end"%string) with
          | Some periodStart, Some periodEnd =>
              h_ret (mkUpload projectID (field "provider"%string) (field "report_kind"%string) (default EmptyString (option_map snd (us_file st)))
                       periodStart periodEnd (default EmptyString (option_map fst (us_file st))))
          | _, _ => h_reply invalid_values
          end
      end
  end.
End Uploads.
