(* ===== verification/HttpApi.v ===== *)
(** The handlers of the HTTP API ([internal/transport/httpapi]: [api.go], [identity.go],
    [dashboard_session.go], [financial_report.go], [offering.go], [admin.go]).

    A handler takes a request to a computation over the state of the services, which ends with
    a reply.  The services it calls are classes over that state: the repositories of
    [Repository], [QueueStore] and [Processing], and the classes below for the remaining ones.
    The strict JSON decoders of the request bodies, the provider adapters' validation of their
    callbacks (their models are in [Notifications]) and the protection service are parameters.
    The transactions of a handler are numbered, as are its readings of the clock; the erasure
    of plaintext is not visible, and a deadline is an error of the call it ends. *)

From S2P Require Import Prelude GoText GoTime GoMime GoHttp GoCodec GoJson Sha256 Core Decimal Purchase Protection Persistence Stores Projector Repository EntitlementStore Runner Credential Refresh Verification Apple Huawei QueueStore Notifications Webhooks Worker Identity Catalog Offering OperationsStore Auth Credentials AppleReports ReportStore Revenue FinancialReports Processing HttpCore HttpAdmin.
From stdpp Require Import base list strings gmap.
Local Open Scope Z_scope.

(** ** Request bodies *)

(* internal/transport/httpapi/api.go: applicationRequest *)
Record applicationRequest : Type := mkApplicationRequest {
  arq_Provider : Provider;
  arq_Environment : Environment;
  arq_ProviderApplicationID : ProviderApplicationID
}.

(* internal/transport/httpapi/api.go: customerRequest *)
Record customerRequest : Type := mkCustomerRequest { cuq_ExternalID : string }.

(* internal/transport/httpapi/api.go: customerSessionRequest *)
Record customerSessionRequest : Type := mkSessionRequest { csq_ExternalCustomerID : string }.

(* internal/transport/httpapi/api.go: entitlementRequest *)
Record entitlementRequest : Type := mkEntitlementRequest { enq_Key : string }.

(* internal/transport/httpapi/api.go: productRequest *)
Record productRequest : Type := mkProductRequest {
  prq_Kind : ProductKind;
  prq_EntitlementIDs : list EntitlementID
}.

(* internal/transport/httpapi/api.go: storeProductRequest *)
Record storeProductRequest : Type := mkStoreProductRequest { spq_ProductID : ProductID }.

(* internal/transport/httpapi/api.go: credentialRequest *)
Record credentialRequest : Type := mkCredentialRequest {
  cdq_ContentType : string;
  cdq_SchemaVersion : Z;
  cdq_ExpectedRevision : Z;
  cdq_Payload : string
}.

(* internal/transport/httpapi/api.go: webhookRequest *)
Record webhookRequest : Type := mkWebhookBody {
  whq_URL : string;
  whq_SigningSecret : string;
  whq_ExpectedRevision : Z
}.

(* internal/transport/httpapi/api.go: keyRequest *)
Record keyRequest : Type := mkKeyRequest {
  keq_Role : APIKeyRole;
  keq_ProjectID : ProjectID;
  keq_ApplicationID : ApplicationID
}.

(* internal/transport/httpapi/api.go: verificationRequest *)
Definition verificationRequest : Type := VerificationPayload.

(* internal/transport/httpapi/api.go: restoreRequest *)
Record restoreRequest : Type := mkRestoreRequest { req_Purchases : list verificationRequest }.

(* internal/transport/httpapi/identity.go: customerMergeRequest *)
Record customerMergeRequest : Type := mkMergeRequest {
  cmq_IdempotencyKey : string;
  cmq_CanonicalCustomerID : CustomerID;
  cmq_SourceCustomerID : CustomerID
}.

(* internal/transport/httpapi/financial_report.go: financialReportPullRequest *)
Record financialReportPullRequest : Type := mkPullBody {
  fpq_Provider : Provider;
  fpq_ReportKind : string;
  fpq_PeriodStart : string;
  fpq_PeriodEnd : string
}.

(** The strict decoders: the first value of a body, and whether anything follows it. *)
Class RequestDecoders := {
  DecodeKey : string -> option (keyRequest * bool);
  DecodeSession : string -> option (customerSessionRequest * bool);
  DecodeApplication : string -> option (applicationRequest * bool);
  DecodeCustomer : string -> option (customerRequest * bool);
  DecodeEntitlement : string -> option (entitlementRequest * bool);
  DecodeProduct : string -> option (productRequest * bool);
  DecodeStoreProduct : string -> option (storeProductRequest * bool);
  DecodeCredential : string -> option (credentialRequest * bool);
  DecodeWebhook : string -> option (webhookRequest * bool);
  DecodeVerification : string -> option (verificationRequest * bool);
  DecodeRestore : string -> option (restoreRequest * bool);
  DecodeMerge : string -> option (customerMergeRequest * bool);
  DecodePull : string -> option (financialReportPullRequest * bool);
  DecodeEmpty : string -> option (unit * bool)
}.

(** ** Views *)

(* internal/transport/httpapi/api.go: customerSessionResponse *)
Definition customerSessionResponse (session : CustomerSession) : json :=
  JObject [("token", JText (cs_Token session)); ("expires_at", JTime (cs_ExpiresAt session))]%string.

(* internal/transport/httpapi/dashboard_session.go: dashboardSessionResponse *)
Definition dashboardSessionResponse (session : AdminSession) : json := JObject [("expires_at"%string, JTime (as_ExpiresAt session))].

(* internal/transport/httpapi/api.go: apiKeyFromSummary *)
Definition apiKeyFromSummary (summary : APIKeySummary) (currentKeyID : string) : json :=
  JObject ([("id", JText (aks_ID summary)); ("role", JText (aks_Role summary))]%string
           ++ omit_empty "project_id" (aks_ProjectID summary) ++ omit_empty "application_id" (aks_ApplicationID summary)
           ++ [("created_at"%string, JTime (aks_CreatedAt summary))] ++ omit_nil "revoked_at" (aks_RevokedAt summary)
           ++ [("current"%string, JFlag (negb (String.eqb currentKeyID EmptyString) && String.eqb (aks_ID summary) currentKeyID))]).

(* internal/transport/httpapi/api.go: apiKeyCollectionResponse *)
Definition apiKeyCollectionResponse (page : APIKeyPage) (currentKeyID : string) : json :=
  JObject ([("api_keys"%string, JList (map (fun summary => apiKeyFromSummary summary currentKeyID) (akp_Keys page)))]
           ++ omit_empty "next_page_token" (akp_NextPageToken page)).

(* internal/transport/httpapi/api.go: effectiveEntitlementAccess *)
Definition effectiveEntitlementAccess (projection : EntitlementProjection) (now : time) : AccessStatus * AccessReason :=
  AccessAt (ep_Access projection) (ep_AccessReason projection) (EndsAt (ep_EffectivePeriod projection)) now.

(* internal/transport/httpapi/api.go: entitlementResponse *)
Record entitlementResponse : Type := mkEntitlementResponse {
  er_Key : string;
  er_Access : AccessStatus;
  er_Reason : AccessReason;
  er_EffectiveStartsAt : option time;
  er_EffectiveEndsAt : option time;
  er_Version : Z
}.

(* internal/transport/httpapi/api.go: entitlementResponses *)
Definition entitlementResponses (values : list CustomerEntitlement) (now : time) : list entitlementResponse :=
  map (fun value =>
         let period := ep_EffectivePeriod (ce_Projection value) in
         let '(access, reason) := effectiveEntitlementAccess (ce_Projection value) now in
         mkEntitlementResponse (ce_Key value) access reason (if IsZero (StartsAt period) then None else Some (StartsAt period))
           (EndsAt period) (ce_Version value)) values.

Definition entitlement_json (r : entitlementResponse) : json :=
  JObject ([("key", JText (er_Key r)); ("access", JText (er_Access r)); ("reason", JText (er_Reason r))]%string
           ++ omit_nil "effective_starts_at" (er_EffectiveStartsAt r) ++ omit_nil "effective_ends_at" (er_EffectiveEndsAt r)
           ++ [("version"%string, JNumber (er_Version r))]).

(* internal/transport/httpapi/api.go: responseFromResult *)
Definition responseFromResult (result_ : Result) (now : time) : json :=
  JObject [("verified_at", JTime (out_VerifiedAt result_)); ("customer_id", JText (cus_ID (out_Customer result_)));
           ("entitlements", JList (map entitlement_json (entitlementResponses (out_Entitlements result_) now)))]%string.

(* internal/transport/httpapi/identity.go: customerResolutionFromRecord *)
Definition customerResolutionFromRecord (resolution : CustomerResolution) : json :=
  JObject [("project_id", JText (res_ProjectID resolution)); ("external_id", JText (res_ExternalID resolution));
           ("canonical_customer_id", JText (res_CanonicalCustomerID resolution)); ("match", JText (res_Match resolution))]%string.

(* internal/transport/httpapi/identity.go: customerMergeFromRecord *)
Definition customerMergeFromRecord (merge : CustomerMerge) : json :=
  JObject [("id", JText (cm_ID merge)); ("project_id", JText (cm_ProjectID merge));
           ("canonical_customer_id", JText (cm_CanonicalCustomerID merge)); ("source_customer_id", JText (cm_SourceCustomerID merge));
           ("idempotency_key", JText (cm_IdempotencyKey merge)); ("created_at", JTime (cm_CreatedAt merge))]%string.

Definition metadata_json (metadata : Metadata) : json :=
  JObject [("project_id", JText (md_ProjectID metadata)); ("application_id", JText (md_ApplicationID metadata));
           ("kind", JText (md_Kind metadata)); ("content_type", JText (md_ContentType metadata));
           ("schema_version", JNumber (md_SchemaVersion metadata)); ("revision", JNumber (md_Revision metadata));
           ("created_at", JTime (md_CreatedAt metadata)); ("updated_at", JTime (md_UpdatedAt metadata))]%string.

Definition document_json (document : Document) : json :=
  let package item := JObject ([("id", JText (pkg_ID item)); ("store_product_id", JText (pkg_StoreProductID item))]%string
                               ++ omit_empty "display_key" (pkg_DisplayKey item)) in
  let offering group := JObject [("id", JText (off_ID group)); ("packages", JList (map package (off_Packages group)))]%string in
  JObject [("schema_version", JNumber (doc_SchemaVersion document)); ("application_id", JText (doc_ApplicationID document));
           ("revision", JText (doc_Revision document)); ("offerings", JList (map offering (doc_Offerings document)))]%string.

(** *** Cookies *)

(** [int(time.Until(t).Seconds())]: exact for the seconds of a session's life. *)
(* internal/transport/httpapi/dashboard_session.go: setDashboardSessionCookie *)
Definition setDashboardSessionCookie (session : AdminSession) (now : time) : cookie :=
  mkCookie dashboardSessionCookieName (as_Token session) dashboardSessionCookiePath (as_ExpiresAt session)
    (Z.max 1 (Z.quot (as_ExpiresAt session - now) Second)) true true true.

(* internal/transport/httpapi/dashboard_session.go: clearDashboardSessionCookie *)
Definition clearDashboardSessionCookie : cookie :=
  mkCookie dashboardSessionCookieName EmptyString dashboardSessionCookiePath (unixEpoch + Second) (-1) true true true.

Definition with_cookie (c : cookie) (r : reply) : reply := mkReply (rp_Status r) (rp_Headers r) (rp_Cookies r ++ [c]) (rp_Body r).

(* internal/transport/httpapi/offering.go: constants *)
Definition offeringCacheControl : string := "public, max-age=300".

(** The revision of a valid document needs no escapes in quotes. *)
(* internal/transport/httpapi/offering.go: writeOffering *)
Definition writeOffering (document : Document) : reply :=
  let quote := of_bytes [34] in
  mkReply 200 [("Content-Type", "application/json"); ("Cache-Control", offeringCacheControl);
               ("ETag", quote ++ doc_Revision document ++ quote)]%string [] (Some (document_json document)).

(** ** Services *)

(* internal/persistence/contracts.go: CatalogWriter *)
Class CatalogWriter (S : Type) := {
  PutProject : ProjectID -> Tx S unit;
  PutApplication : Application -> Tx S unit;
  PutCustomer : Customer -> Tx S Customer;
  PutEntitlementDefinition : Entitlement -> Tx S unit;
  PutProduct : Product -> Tx S unit;
  PutStoreProduct : ProjectID -> StoreProduct -> Tx S unit
}.

(** The writes of [persistence.IdentityRepository]. *)
(* internal/persistence/identity.go:25-28: IdentityRepository *)
Class IdentityWriter (S : Type) := {
  PutCustomerAlias : CustomerAliasWrite -> Tx S CustomerResolution;
  MergeCustomers : CustomerMergeWrite -> Tx S CustomerMergeResult
}.

(** [verification.Service] as the API sees it. *)
(* internal/transport/httpapi/api.go: purchaseVerifier *)
Class purchaseVerifier (S : Type) := { Verifier_Verify : Command -> Tx S Result }.

(** The other services: keys and sessions ([internal/auth]), credentials, webhooks, financial
    reports, and the log and counter of a missed refresh. *)
Class ApiServices (S : Type) := {
  Keys_List : string -> Tx S APIKeyPage;
  Keys_Create : Principal -> Tx S string;
  Keys_Revoke : string -> Tx S APIKeySummary;
  AdminSessions_Mint : Principal -> Tx S AdminSession;
  CustomerSessions_Mint : Principal -> string -> Tx S CustomerSession;
  Credentials_Put : Application -> Credential -> Z -> Tx S Metadata;
  Webhooks_Configure : Application -> string -> string -> Z -> Tx S WebhookEndpointRecord;
  Reports_List : ProjectID -> Tx S (list FinancialReport);
  Reports_Upload : Upload -> Tx S (FinancialReport * bool);
  Reports_Supersede : ProjectID -> string -> Upload -> Tx S (FinancialReport * bool);
  Reports_Pull : PullRequest -> Tx S unit;
  ObserveScheduleFailure : list (string * arg) -> option string -> S -> S
}.

(** The adapters' [ValidateNotification], and [json.Marshal] of what they accept. *)
Class ProviderCallbacks := {
  ValidateHuawei : Application -> string -> result huawei_NotificationEnvelope;
  ValidateApple : Application -> string -> result apple_NotificationEnvelope;
  ValidateGoogle : Application -> string -> string -> result google_NotificationEnvelope;
  MarshalHuawei : huawei_NotificationEnvelope -> result string;
  MarshalApple : apple_NotificationEnvelope -> result string;
  MarshalGoogle : google_NotificationEnvelope -> result string
}.

(** ** The API *)

(** The optional parts of the configuration: a counter registry, the directory of the
    offerings and the catalog that confirms them. *)
(* internal/transport/httpapi/api.go: API *)
Record API (S : Type) : Type := mkAPI {
  api_bodyLimit : Z;
  api_metrics : option unit;
  api_offeringDirectory : string;
  api_offeringCatalog : option (ApplicationID -> list ProviderProductID -> Tx S unit)
}.
Arguments mkAPI {S}.
Arguments api_bodyLimit {S}.
Arguments api_metrics {S}.
Arguments api_offeringDirectory {S}.
Arguments api_offeringCatalog {S}.

(** The services are the instances of the classes; whether one is nil is [None]. *)
(* internal/transport/httpapi/api.go: Dependencies *)
Record Dependencies (S : Type) : Type := mkDependencies {
  dep_Store : option unit;
  dep_Operations : option unit;
  dep_Admin : option unit;
  dep_Authentication : option unit;
  dep_AdminSessions : option unit;
  dep_CustomerSessions : option unit;
  dep_Credentials : option unit;
  dep_Webhooks : option unit;
  dep_Verification : option unit;
  dep_Huawei : option unit;
  dep_Apple : option unit;
  dep_GooglePlay : option unit;
  dep_Protection : option unit;
  dep_FinancialReports : option unit;
  dep_Metrics : option unit;
  dep_BodyLimit : Z;
  dep_OfferingDirectory : string;
  dep_OfferingCatalog : option (ApplicationID -> list ProviderProductID -> Tx S unit)
}.

(* internal/transport/httpapi/api.go: New *)
Definition api_New {S} (d : Dependencies S) : result (API S) :=
  let missing {A} (x : option A) := match x with Some _ => false | None => true end in
  if existsb missing [dep_Store _ d; dep_Operations _ d; dep_Admin _ d; dep_Authentication _ d; dep_AdminSessions _ d;
                      dep_CustomerSessions _ d; dep_Credentials _ d; dep_Webhooks _ d; dep_Verification _ d; dep_Huawei _ d;
                      dep_Apple _ d; dep_GooglePlay _ d; dep_Protection _ d; dep_FinancialReports _ d]
     || (dep_BodyLimit _ d <=? 0)
     || (negb (String.eqb (TrimSpace (dep_OfferingDirectory _ d)) EmptyString) && missing (dep_OfferingCatalog _ d))
  then Err (New "HTTP API dependencies are incomplete")
  else Ok (mkAPI (dep_BodyLimit _ d) (dep_Metrics _ d) (TrimSpace (dep_OfferingDirectory _ d)) (dep_OfferingCatalog _ d)).

(* internal/transport/httpapi/api.go: constants *)
Definition api_inboxProtectionPurpose : string := "inbox_notification".
Definition api_providerReferencePurpose : string := "provider_reference".
Definition api_reconciliationProtectionPurpose : string := "reconciliation_request".
Definition defaultReconciliationDelay : duration := 24 * Hour.
Definition restoreRequestTimeout : duration := 25 * Second.

(* internal/transport/httpapi/api.go: nextReconciliationTime *)
Definition api_nextReconciliationTime (now : time) : time := Truncate now defaultReconciliationDelay + defaultReconciliationDelay.

(* internal/transport/httpapi/api.go: deterministicID *)
Definition api_deterministicID (prefix fingerprint : string) : string :=
  (prefix ++ "-" ++ EncodeToString (str_take 16 (Sum256 (prefix ++ of_bytes [0] ++ fingerprint))))%string.

(* internal/transport/httpapi/api.go: requiresReconciliation *)
Definition api_requiresReconciliation `{Lib : ProcessingLibrary} (evidence : string) : bool :=
  match UnmarshalProductKind evidence with
  | Some kind => String.eqb kind ProductKindSubscription
  | None => false
  end.

(* internal/transport/httpapi/api.go: reconciliationScheduleProvider *)
Definition reconciliationScheduleProvider (provider : Provider) : string :=
  if contains_str [ProviderAppleAppStore; ProviderGooglePlay; ProviderHuaweiAppGallery; ProviderAmazonAppstore;
                   ProviderSamsungGalaxyStore] provider then provider else "unknown".

(** [validation.Wrap] of an error that is not nil. *)
Definition invalid (e : gerror) : gerror := default e (validation_Wrap (Some e)).

Section Api.
Context `{Horder : !GoMapRange, Url : !UrlLibrary, Multipart : !MultipartLibrary, Offers : !OfferingLibrary}.
Context `{Lib : !ProcessingLibrary, Decoders : !RequestDecoders, Callbacks : !ProviderCallbacks}.
Context {S : Type} `{Hauth : !ApiAuthentication S, Htx : !Transaction S, Hstore : !Store S, Hops : !OperationsStore S}.
Context `{Hqueue : !QueueRepository S, Hrefs : !ProviderReferenceRepository S, Hwriter : !CatalogWriter S, Hidentity : !IdentityWriter S}.
Context `{Hadmin : !AdminQueryStore S, Hverifier : !purchaseVerifier S, Hservices : !ApiServices S}.
Context (zone : time -> Z) (api : API S) (protector : Request -> result ProtectedValue) (clock : nat -> time).

Abbreviation handler := (http_call -> H S reply).

(** *** Shared parts ([api.go]) *)

(** [n] is the number of the transaction within the request. *)
(* internal/transport/httpapi/api.go: API.application *)
Definition api_application (n : nat) (projectID : ProjectID) (applicationID : ApplicationID) : Tx S Application :=
  tx_check (validation_Wrap (errors_Join [ProjectID_Validate projectID; ApplicationID_Validate applicationID]))
    (StoreTransact n (Application_ projectID applicationID)).

(* internal/transport/httpapi/api.go: API.notificationApplication *)
Definition notificationApplication (projectID : ProjectID) (applicationID : ApplicationID) : Tx S Application :=
  tx_check (validation_Wrap (errors_Join [ProjectID_Validate projectID; ApplicationID_Validate applicationID]))
    (Operate 0 (Application_ projectID applicationID)).

(* internal/transport/httpapi/api.go: API.protect *)
Definition api_protect (application : Application) (purpose payload : string) : result ProtectedValue :=
  Protect (Some protector) (mkScope (app_ProjectID application) (app_ID application) purpose) payload.

Definition decode {A} (request : http_call) (Decode : string -> option (A * bool)) : H S A :=
  decode_body request (api_bodyLimit api) Decode.

(** An operation that answers only that it was done. *)
Definition mutation (request : http_call) (op : Tx S unit) : H S reply :=
  let! _ := attempt request (Operate 0 op) in h_ret mutation_ok.

(** *** Keys and sessions ([api.go], [dashboard_session.go]) *)

(* internal/transport/httpapi/api.go: API.createCustomerSession *)
Definition createCustomerSession : handler := fun request =>
  let! principal := requireApplication request in
  let! input := decode request DecodeSession in
  let! session := attempt request (CustomerSessions_Mint principal (csq_ExternalCustomerID input)) in
  h_ret (writeJSON 201 (customerSessionResponse session)).

(* internal/transport/httpapi/api.go: API.listAPIKeys *)
Definition listAPIKeys : handler := fun request =>
  let! principal := requireAdmin request in
  let! page := attempt request (Keys_List (Query_Get request "page_token")) in
  h_ret (writeJSON 200 (apiKeyCollectionResponse page (pn_KeyID principal))).

(* internal/transport/httpapi/api.go: API.createAPIKey *)
Definition createAPIKey : handler := fun request =>
  let! _ := requireAdmin request in
  let! input := decode request DecodeKey in
  let! bearer := attempt request (Keys_Create (mkPrincipal EmptyString (keq_Role input) (keq_ProjectID input) (keq_ApplicationID input))) in
  h_ret (writeJSON 201 (JObject [("key"%string, JText bearer)])).

(* internal/transport/httpapi/api.go: API.revokeAPIKey *)
Definition revokeAPIKey : handler := fun request =>
  let! principal := requireAdmin request in
  let id := PathValue request "key_id" in
  let! _ := h_require (negb (negb (String.eqb (pn_KeyID principal) EmptyString) && String.eqb (pn_KeyID principal) id))
              (writeError request (Wrapf "revoke current API key: %w" [] ErrConflict)) in
  let! summary := attempt request (Keys_Revoke id) in
  h_ret (writeJSON 200 (apiKeyFromSummary summary (pn_KeyID principal))).

(* internal/transport/httpapi/dashboard_session.go: API.createDashboardSession *)
Definition createDashboardSession : handler := fun request =>
  let! principal := authenticated request (authenticate request) in
  let! _ := h_require (String.eqb (pn_Role principal) APIKeyRoleAdmin) (writeAuthenticationFailure request None) in
  let! session := attempt request (AdminSessions_Mint principal) in
  h_ret (with_cookie (setDashboardSessionCookie session (clock 0)) (writeJSON 201 (dashboardSessionResponse session))).

(* internal/transport/httpapi/dashboard_session.go: API.deleteDashboardSession *)
Definition deleteDashboardSession : handler := fun request =>
  let! _ := requireAdmin request in
  h_ret (mkReply 204 [("Cache-Control", "no-store")]%string [clearDashboardSessionCookie] None).

(** *** The catalog ([api.go]) *)

(* internal/transport/httpapi/api.go: API.putProject *)
Definition putProject : handler := fun request =>
  let! _ := requireAdmin request in
  let projectID := PathValue request "project_id" in
  let! _ := requireValidInput request (ProjectID_Validate projectID) in
  mutation request (PutProject projectID).

(* internal/transport/httpapi/api.go: API.putApplication *)
Definition putApplication : handler := fun request =>
  let! _ := requireAdmin request in
  let! input := decode request DecodeApplication in
  let application := mkApplication (PathValue request "application_id") (PathValue request "project_id")
                       (mkStoreApplication (arq_Provider input) (arq_Environment input) (arq_ProviderApplicationID input)) in
  let! _ := requireValidInput request (Application_Validate application) in
  mutation request (PutApplication application).

(* internal/transport/httpapi/api.go: API.putCustomer *)
Definition putCustomer : handler := fun request =>
  let! _ := requireAdmin request in
  let! input := decode request DecodeCustomer in
  let customer := mkCustomer (PathValue request "customer_id") (PathValue request "project_id") (cuq_ExternalID input) in
  let! _ := requireValidInput request (Customer_Validate customer) in
  let! stored := attempt request (Operate 0 (PutCustomer customer)) in
  h_ret (writeJSON 200 (JObject [("id", JText (cus_ID stored)); ("project_id", JText (cus_ProjectID stored));
                                 ("external_id", JText (cus_ExternalID stored))]%string)).

(* internal/transport/httpapi/api.go: API.putEntitlement *)
Definition putEntitlement : handler := fun request =>
  let! _ := requireAdmin request in
  let! input := decode request DecodeEntitlement in
  let entitlement := mkEntitlement (PathValue request "entitlement_id") (PathValue request "project_id") (enq_Key input) in
  let! _ := requireValidInput request (Entitlement_Validate entitlement) in
  mutation request (PutEntitlementDefinition entitlement).

(* internal/transport/httpapi/api.go: API.putProduct *)
Definition putProduct : handler := fun request =>
  let! _ := requireAdmin request in
  let! input := decode request DecodeProduct in
  let product := mkProduct (PathValue request "product_id") (PathValue request "project_id") (prq_Kind input) (prq_EntitlementIDs input) in
  let! _ := requireValidInput request (Product_Validate product) in
  mutation request (PutProduct product).

(* internal/transport/httpapi/api.go: API.putStoreProduct *)
Definition putStoreProduct : handler := fun request =>
  let! _ := requireAdmin request in
  let! input := decode request DecodeStoreProduct in
  let projectID := PathValue request "project_id" in
  let mapping := mkStoreProduct (PathValue request "application_id") (spq_ProductID input) (PathValue request "provider_product_id") in
  let! _ := requireValidInput request (errors_Join [ProjectID_Validate projectID; StoreProduct_Validate mapping]) in
  mutation request (PutStoreProduct projectID mapping).

(* internal/transport/httpapi/api.go: API.putCredential *)
Definition putCredential : handler := fun request =>
  let! _ := requireAdmin request in
  let! input := decode request DecodeCredential in
  let! application := attempt request (api_application 0 (PathValue request "project_id") (PathValue request "application_id")) in
  let! credential := attempt request (tx_lift (wrap_result invalid
    (NewCredential (PathValue request "kind") (cdq_ContentType input) (cdq_SchemaVersion input) (cdq_Payload input)))) in
  let! metadata := attempt request (Credentials_Put application credential (cdq_ExpectedRevision input)) in
  h_ret (writeJSON 200 (metadata_json metadata)).

(* internal/transport/httpapi/api.go: API.putWebhook *)
Definition putWebhook : handler := fun request =>
  let! _ := requireAdmin request in
  let! input := decode request DecodeWebhook in
  let! application := attempt request (api_application 0 (PathValue request "project_id") (PathValue request "application_id")) in
  let! record := attempt request (Webhooks_Configure application (whq_URL input) (whq_SigningSecret input) (whq_ExpectedRevision input)) in
  h_ret (writeJSON 200 (JObject [("url", JText (we_URL record)); ("revision", JNumber (we_Revision record))]%string)).

(** *** Purchases ([api.go]) *)

(** [k] numbers the purchases of a request. *)
(* internal/transport/httpapi/api.go: API.scheduleReconciliation *)
Definition scheduleReconciliation (k : nat) (principal : Principal) (customerID : CustomerID) (input : verificationRequest) : Tx S unit :=
  let availableAt := api_nextReconciliationTime (clock (2 * k)) in
  do payload <- tx_lift (MarshalReconciliation (mkReconciliationPayload input availableAt));
  do application <- api_application (2 * k + 1) (pn_ProjectID principal) (pn_ApplicationID principal);
  do protected <- tx_lift (api_protect application api_reconciliationProtectionPurpose payload);
  Operate k (do _ <- SaveReconciliationJob (mkReconciliationJob (api_deterministicID "reconcile" (Fingerprint protected))
                       (pn_ProjectID principal) (pn_ApplicationID principal) customerID protected availableAt);
             tx_ret tt).

(* internal/transport/httpapi/api.go: API.recordReconcileScheduleFailure *)
Definition recordReconcileScheduleFailure (principal : Principal) (customerID : CustomerID) (provider : Provider) : Tx S unit :=
  fun s => (Ok tt, ObserveScheduleFailure
    [("error_code", AStr "reconciliation_schedule_failed"); ("project_id", AStr (pn_ProjectID principal));
     ("application_id", AStr (pn_ApplicationID principal)); ("customer_id", AStr customerID)]%string
    (option_map (fun _ => reconciliationScheduleProvider provider) (api_metrics api)) s).

(** The purchase is committed before its refresh is scheduled: a failure of that is recorded. *)
(* internal/transport/httpapi/api.go: API.verify *)
Definition api_verify (k : nat) (principal : Principal) (input : verificationRequest) : Tx S Result :=
  do application <- api_application (2 * k) (pn_ProjectID principal) (pn_ApplicationID principal);
  let provider := sa_Provider (app_Store application) in
  do inputs <- tx_lift (wrap_result invalid (VerificationInputs input provider));
  let '(evidence, bindings) := inputs in
  do result_ <- Verifier_Verify (mkCommand (pn_ProjectID principal) (pn_ApplicationID principal) (vp_ExternalCustomerID input)
                                  (vp_ClaimedProducts input) bindings evidence);
  do _ <- (if api_requiresReconciliation (vp_Evidence input)
           then tx_handle (scheduleReconciliation k principal (cus_ID (out_Customer result_)) input) tx_ret
                  (fun _ => recordReconcileScheduleFailure principal (cus_ID (out_Customer result_)) provider)
           else tx_ret tt);
  tx_ret result_.

(** A call that names another customer than the session's. *)
Definition same_customer (request : http_call) (principal : CustomerPrincipal) (externalID : string) : H S unit :=
  h_require (String.eqb externalID (cup_ExternalCustomerID principal)) (unauthorized request).

(* internal/transport/httpapi/api.go: API.verifyPurchase *)
Definition verifyPurchase : handler := fun request =>
  let! principal := requireCustomerSession request in
  let! input := decode request DecodeVerification in
  let! _ := same_customer request principal (vp_ExternalCustomerID input) in
  let! result_ := attempt request (api_verify 0 (cup_Principal principal) input) in
  h_ret (writeJSON 200 (responseFromResult result_ (clock 1))).

(** One after the other; the first failure ends the loop. *)
(* internal/transport/httpapi/api.go:629-636: API.restorePurchases *)
Fixpoint restore_each (k : nat) (principal : Principal) (purchases : list verificationRequest) : Tx S (list json) :=
  match purchases with
  | [] => tx_ret []
  | purchase :: purchases' =>
      do result_ <- api_verify k principal purchase;
      do results <- restore_each (1 + k) principal purchases';
      tx_ret (responseFromResult result_ (clock (2 * k + 1)) :: results)
  end.

(* internal/transport/httpapi/api.go: API.restorePurchases *)
Definition restorePurchases : handler := fun request =>
  let! principal := requireCustomerSession request in
  let! input := decode request DecodeRestore in
  let purchases := req_Purchases input in
  let! _ := h_require (negb (Nat.eqb (length purchases) 0 || Nat.ltb 100 (length purchases)))
              (writeAPIError request 400 "invalid_request" "purchases must contain between 1 and 100 items") in
  let! _ := h_require (forallb (fun purchase => String.eqb (vp_ExternalCustomerID purchase) (cup_ExternalCustomerID principal)) purchases)
              (unauthorized request) in
  let! results := attempt request (restore_each 0 (cup_Principal principal) purchases) in
  h_ret (writeJSON 200 (JObject [("results"%string, JList results)])).

(* internal/transport/httpapi/api.go:651-661: API.customerEntitlements *)
Definition load_entitlements (projectID : ProjectID) (externalID : string) : Tx S (Customer * list CustomerEntitlement) :=
  do customer <- CustomerByExternalID projectID externalID;
  do entitlements <- CustomerEntitlements projectID (cus_ID customer);
  tx_ret (customer, entitlements).

(* internal/transport/httpapi/api.go: API.customerEntitlements *)
Definition customerEntitlements : handler := fun request =>
  let! principal := requireCustomerSession request in
  let externalID := PathValue request "external_customer_id" in
  let! _ := same_customer request principal externalID in
  let! (customer, entitlements) :=
    attempt request (StoreTransact 0 (load_entitlements (pn_ProjectID (cup_Principal principal)) externalID)) in
  h_ret (writeJSON 200 (JObject [("customer_id", JText (cus_ID customer));
                                 ("entitlements", JList (map entitlement_json (entitlementResponses entitlements (clock 0))))]%string)).

(** *** Provider callbacks ([api.go]) *)

Definition accepted : reply := writeJSON 200 (JObject [("status", JText "accepted")]%string).

(** The message one transaction stores, after [check]. *)
Definition inbox_message (application : Application) (kind contentType : string) (protected : ProtectedValue) : InboxMessage :=
  mkInboxMessage (api_deterministicID "inbox" (Fingerprint protected)) (app_ProjectID application) (app_ID application)
    (sa_Provider (app_Store application)) kind contentType protected (clock 0) (clock 0).

Definition store_notification (request : http_call) (application : Application) (kind contentType : string)
    (validated : result string) (check : Tx S unit) : H S reply :=
  let! validatedPayload := attempt request (tx_lift validated) in
  let! protected := attempt request (tx_lift (api_protect application api_inboxProtectionPurpose validatedPayload)) in
  let! _ := attempt request (Operate 1 (do _ <- check; do _ <- SaveInboxMessage (inbox_message application kind contentType protected);
                                        tx_ret tt)) in
  h_ret accepted.

Definition notification_denied : gerror :=
  NewFailure ProviderHuaweiAppGallery "notification_authentication" FailureInvalidEvidence 0 None.

(** The lookup of an ORDER's token, protected in the scope it is stored in. *)
(* internal/transport/httpapi/api.go:693-713: API.huaweiNotification *)
Definition order_lookup (application : Application) (notification : huawei_NotificationEnvelope) : result (option ProviderReferenceLookup) :=
  if RequiresReferenceAuthentication notification then
    let* protectedReference := api_protect application (api_providerReferencePurpose ++ ":" ++ ReferenceQuery ++ ":purchase_token")%string
                                 (hn_PurchaseToken notification) in
    Ok (Some (mkLookup (app_ProjectID application) (app_ID application) ReferenceQuery "purchase_token" (Fingerprint protectedReference)))
  else Ok None.

(** Only an ORDER for a purchase that is known is accepted. *)
(* internal/transport/httpapi/api.go:728-752: API.huaweiNotification *)
Definition known_order (lookup : option ProviderReferenceLookup) (notification : huawei_NotificationEnvelope) : Tx S unit :=
  match lookup with
  | None => tx_ret tt
  | Some lookup =>
      do purchase <- tx_catch (fun e => if errors_Is e "persistence.ErrNotFound" then notification_denied else e)
                       (PurchaseContextByReference lookup);
      if negb (String.eqb (prc_ProviderProductID purchase) (hn_ProviderProductID notification))
         || negb (String.eqb (prc_ProductKind purchase) (hn_ProductKind notification))
      then tx_err notification_denied else tx_ret tt
  end.

(* internal/transport/httpapi/api.go: API.huaweiNotification *)
Definition huaweiNotification : handler := fun request =>
  let! payload := readBody request (api_bodyLimit api) in
  let! application := attempt request (notificationApplication (PathValue request "project_id") (PathValue request "application_id")) in
  let! notification := attempt request (tx_lift (ValidateHuawei application payload)) in
  let! lookup := attempt request (tx_lift (order_lookup application notification)) in
  store_notification request application "huawei_iap_notification_v2" HuaweiNotificationContentType (MarshalHuawei notification)
    (known_order lookup notification).

(* internal/transport/httpapi/api.go: API.googlePlayNotification *)
Definition googlePlayNotification : handler := fun request =>
  match strictBearerToken (Header_Get request "Authorization") with
  | None => h_reply (writeAPIError request 401 "unauthorized" "notification authentication required")
  | Some bearerToken =>
      let! payload := readBody request (api_bodyLimit api) in
      let! application := attempt request (notificationApplication (PathValue request "project_id") (PathValue request "application_id")) in
      let! notification := attempt request (tx_lift (ValidateGoogle application bearerToken payload)) in
      store_notification request application "google_play_rtdn" GoogleNotificationContentType (MarshalGoogle notification) (tx_ret tt)
  end.

(* internal/transport/httpapi/api.go: API.appleNotification *)
Definition appleNotification : handler := fun request =>
  let! payload := readBody request (api_bodyLimit api) in
  let! application := attempt request (notificationApplication (PathValue request "project_id") (PathValue request "application_id")) in
  let! notification := attempt request (tx_lift (ValidateApple application payload)) in
  store_notification request application "app_store_server_notification_v2" AppleNotificationContentType (MarshalApple notification) (tx_ret tt).

(** *** Customer identity ([identity.go]) *)

(** The application of an application's call has to exist; [EmptyString] is an administrator's. *)
Definition own_application (projectID : ProjectID) (applicationID : ApplicationID) : Tx S unit :=
  if String.eqb applicationID EmptyString then tx_ret tt else do _ <- Application_ projectID applicationID; tx_ret tt.

(* internal/transport/httpapi/identity.go: API.putCustomerAlias *)
Definition putCustomerAlias (request : http_call) (projectID : ProjectID) (principal : Principal) : H S reply :=
  let! _ := decode request DecodeEmpty in
  let write := mkAliasWrite projectID (PathValue request "customer_id") (PathValue request "external_id") (pn_Role principal)
                 (pn_KeyID principal) in
  let! _ := requireValidInput request (CustomerAliasWrite_Validate write) in
  let! resolution := attempt request (StoreTransact 0
    (do _ <- (if String.eqb (pn_Role principal) APIKeyRoleApplication
              then do _ <- Application_ projectID (pn_ApplicationID principal); tx_ret tt else tx_ret tt);
     PutCustomerAlias write)) in
  h_ret (writeJSON 200 (customerResolutionFromRecord resolution)).

(* internal/transport/httpapi/identity.go: API.putAdminCustomerAlias *)
Definition putAdminCustomerAlias : handler := fun request =>
  let! principal := requireAdmin request in
  let! _ := requireDurableActor request principal in
  putCustomerAlias request (PathValue request "project_id") principal.

(* internal/transport/httpapi/identity.go: API.putApplicationCustomerAlias *)
Definition putApplicationCustomerAlias : handler := fun request =>
  let! principal := requireApplication request in
  let! _ := requireDurableActor request principal in
  putCustomerAlias request (pn_ProjectID principal) principal.

(* internal/transport/httpapi/identity.go: API.getCustomerResolution *)
Definition getCustomerResolution (request : http_call) (projectID : ProjectID) (applicationID : ApplicationID) : H S reply :=
  let externalID := PathValue request "external_id" in
  let! _ := requireValidInput request (errors_Join [ProjectID_Validate projectID; ValidateExternalCustomerID externalID]) in
  let! resolution := attempt request (StoreTransact 0
    (do _ <- own_application projectID applicationID; ResolveCustomer projectID externalID)) in
  h_ret (writeJSON 200 (customerResolutionFromRecord resolution)).

(* internal/transport/httpapi/identity.go: API.getAdminCustomerResolution *)
Definition getAdminCustomerResolution : handler := fun request =>
  let! _ := requireAdmin request in
  getCustomerResolution request (PathValue request "project_id") EmptyString.

(* internal/transport/httpapi/identity.go: API.getApplicationCustomerResolution *)
Definition getApplicationCustomerResolution : handler := fun request =>
  let! principal := requireApplication request in
  getCustomerResolution request (pn_ProjectID principal) (pn_ApplicationID principal).

(** A merge that was recorded before answers it again; a new one refreshes the projections. *)
(* internal/transport/httpapi/identity.go:114-129: API.postAdminCustomerMerge *)
Definition merge_transaction (write : CustomerMergeWrite) (occurredAt : time) : Tx S CustomerMerge :=
  do result_ <- MergeCustomers write;
  if mr_Replay result_ then tx_ret (mr_Merge result_)
  else do _ <- RefreshCustomerProjection zone DefaultProjector (cmw_ProjectID write) (cmw_CanonicalCustomerID write) occurredAt;
       tx_ret (mr_Merge result_).

(* internal/transport/httpapi/identity.go: API.postAdminCustomerMerge *)
Definition postAdminCustomerMerge : handler := fun request =>
  let! principal := requireAdmin request in
  let! _ := requireDurableActor request principal in
  let! input := decode request DecodeMerge in
  let write := mkMergeWrite (PathValue request "project_id") (cmq_CanonicalCustomerID input) (cmq_SourceCustomerID input)
                 (cmq_IdempotencyKey input) (pn_KeyID principal) in
  let! _ := h_require (negb (negb (String.eqb (cmq_CanonicalCustomerID input) EmptyString)
                             && String.eqb (cmq_CanonicalCustomerID input) (cmq_SourceCustomerID input)))
              (writeError request (invalid (New "canonical and source customers must differ"))) in
  let! _ := requireValidInput request (CustomerMergeWrite_Validate write) in
  let! merge := attempt request (StoreTransact 0 (merge_transaction write (clock 0))) in
  h_ret (writeJSON 200 (customerMergeFromRecord merge)).

(** *** Financial reports ([financial_report.go]) *)

Definition reported {A} (request : http_call) (m : Tx S A) : H S A := h_call (writeFinancialError request) m.

(* internal/transport/httpapi/financial_report.go: API.listFinancialReports *)
Definition api_listFinancialReports : handler := fun request =>
  let! _ := requireAdmin request in
  let projectID := PathValue request "project_id" in
  let! _ := requireValidInput request (ProjectID_Validate projectID) in
  let! reports := reported request (Reports_List projectID) in
  h_ret (writeJSON 200 (JObject [("financial_reports"%string, JList (map financialReportResponseFrom reports))])).

(** [financialReports.ByteLimit()], which also bounds the whole multipart body. *)
Context (uploadLimit : Z).

(* internal/transport/httpapi/financial_report.go: API.uploadFinancialReport *)
Definition uploadFinancialReport : handler := fun request =>
  let! _ := requireAdmin request in
  let projectID := PathValue request "project_id" in
  let! _ := requireValidInput request (ProjectID_Validate projectID) in
  let! upload := readFinancialUpload request uploadLimit projectID in
  let! (report, created) := reported request (Reports_Upload upload) in
  h_ret (writeJSON (if created : bool then 201 else 200) (financialReportResponseFrom report)).

(** [strings.CutSuffix]. *)
Definition CutSuffix (s suffix : string) : option string :=
  let n := (String.length s - String.length suffix)%nat in
  if String.eqb (str_drop n s) suffix then Some (str_take n s) else None.

(* internal/transport/httpapi/financial_report.go: API.supersedeFinancialReport *)
Definition api_supersedeFinancialReport : handler := fun request =>
  let! _ := requireAdmin request in
  let projectID := PathValue request "project_id" in
  match CutSuffix (PathValue request "import_id") ":supersede" with
  | None => h_reply (notFound request)
  | Some importID =>
      let! _ := h_require (negb (String.eqb importID EmptyString || existsb (Z.eqb 58) (bytes importID))) (notFound request) in
      let! _ := requireValidInput request (ProjectID_Validate projectID) in
      let! upload := readFinancialUpload request uploadLimit projectID in
      let! (report, _) := reported request (Reports_Supersede projectID importID upload) in
      h_ret (writeJSON 200 (financialReportResponseFrom report))
  end.

(** A date the request has to give. *)
Definition pull_date (request : http_call) (value : string) : H S time :=
  match parse_dash_date value with
  | Some date => h_ret date
  | None => h_reply (writeError request (invalid (New "parsing time")))
  end.

(** A pull that succeeded would be written as an error all the same. *)
(* internal/transport/httpapi/financial_report.go: API.pullFinancialReport *)
Definition pullFinancialReport : handler := fun request =>
  let! _ := requireAdmin request in
  let projectID := PathValue request "project_id" in
  let! _ := requireValidInput request (ProjectID_Validate projectID) in
  let! input := decode request DecodePull in
  let! periodStart := pull_date request (fpq_PeriodStart input) in
  let! periodEnd := pull_date request (fpq_PeriodEnd input) in
  let! _ := reported request (Reports_Pull (mkPull projectID (fpq_Provider input) (fpq_ReportKind input) periodStart periodEnd)) in
  h_ret (writeAPIError request 500 "internal_error" "the request could not be completed").

(** *** Offerings and the administrator's views ([offering.go], [admin.go]) *)

(* internal/transport/httpapi/offering.go:28-38: API.getApplicationOffering *)
Definition offering_failure (request : http_call) (err : gerror) : reply :=
  if errors_Is err "persistence.ErrUnavailable" then writeError request err
  else if errors_Is err "offering.ErrNotFound" || errors_Is err "offering.ErrRejected" then notFound request
  else writeError request err.

(** Public: nothing of the request but the application is used. *)
(* internal/transport/httpapi/offering.go: API.getApplicationOffering *)
Definition getApplicationOffering : handler := fun request =>
  let! document := h_call (offering_failure request)
    (Load (api_offeringDirectory api) (PathValue request "application_id") (api_offeringCatalog api)) in
  h_ret (writeOffering document).

(* internal/transport/httpapi/admin.go: API.adminProjects *)
Definition adminProjects : handler := fun request =>
  let! _ := requireAdmin request in
  let! projects := attempt request AdminProjects in
  h_ret (writeJSON 200 (JObject [("projects"%string, JList (map adminProjectFromRecord projects))])).

(* internal/transport/httpapi/admin.go: API.adminProjectOverview *)
Definition adminProjectOverview : handler := fun request =>
  let! _ := requireAdmin request in
  let projectID := PathValue request "project_id" in
  let! _ := requireValidInput request (ProjectID_Validate projectID) in
  let query := adminRevenueQuery request in
  let! _ := requireValidInput request (match query with Err e => Some e | Ok _ => None end) in
  match query with
  | Err e => h_reply (writeError request (invalid e))
  | Ok query =>
      let! overview := attempt request (AdminProjectOverview_ projectID query) in
      h_ret (writeJSON 200 (adminOverviewFromRecord overview))
  end.
End Api.
