(* ===== verification/HttpRoutes.v ===== *)
(** The routes of the HTTP API ([internal/transport/httpapi/api.go]): the registry, its
    matching, and what the API promises about its callers.

    The router takes the pattern that matches a method and the segments of a path; no two
    patterns of the registry match the same request ([routes_disjoint]), so the first is the
    one the router's precedence chooses.  Every other path below [/v1/] is not found. *)

From S2P Require Import Prelude GoText GoTime GoMime GoHttp GoCodec GoJson Sha256 Core Decimal Purchase Protection Persistence Stores Projector Repository EntitlementStore Runner Credential Refresh Verification Apple Huawei QueueStore Notifications Webhooks Worker Identity Catalog Offering OperationsStore Auth Credentials AppleReports ReportStore Revenue FinancialReports PurchaseStore RevenueCat RevenueCatPlan ImportStore EntitlementSources RevenueCatApply Postgres Processing HttpCore HttpAdmin HttpApi.
From stdpp Require Import base list strings gmap.
Local Open Scope Z_scope.

(** ** Patterns *)

Definition supersede_marker : string := "{import_id}:supersede".

(* internal/transport/httpapi/api.go: serveMuxPath *)
Definition serveMuxPath (path : string) : string :=
  match CutSuffix path supersede_marker with Some prefix => (prefix ++ "{import_id}")%string | None => path end.

(** A segment of a pattern is a literal or a name in braces. *)
Inductive path_segment : Type :=
| Literal (s : string)
| Wildcard (name : string).

Definition pattern_segment (s : string) : path_segment :=
  match bytes s, rev (bytes s) with
  | 123 :: rest, 125 :: _ => Wildcard (of_bytes (removelast rest))
  | _, _ => Literal s
  end.
Definition pattern_of (path : string) : list path_segment := map pattern_segment (tl (Split path 47)).

(** A name stands for one segment that is not the slash at the end. *)
Fixpoint match_path (pattern : list path_segment) (segments : list string) : option (list (string * string)) :=
  match pattern, segments with
  | [], [] => Some []
  | Literal s :: pattern', segment :: segments' => if String.eqb s segment then match_path pattern' segments' else None
  | Wildcard name :: pattern', segment :: segments' =>
      if String.eqb segment "/" then None
      else values ← match_path pattern' segments'; Some ((name, segment) :: values)
  | _, _ => None
  end.

(** A pattern for GET also matches HEAD. *)
Definition method_matches (pattern method : string) : bool :=
  String.eqb pattern method || (String.eqb pattern "GET" && String.eqb method "HEAD").

Definition with_values (request : http_call) (values : list (string * string)) : http_call :=
  mkCall (rq_Method request) (rq_Segments request) (rq_Host request) (rq_Headers request) (rq_Query request) (rq_Cookies request)
    (rq_Body request) values (rq_RequestID request).

(* internal/transport/httpapi/api.go: v1Route *)
Record v1Route (S : Type) : Type := mkRoute {
  vr_Method : string;
  vr_Path : string;
  vr_OperationID : string;
  vr_Handler : http_call -> H S reply
}.
Arguments mkRoute {S}.
Arguments vr_Method {S}.
Arguments vr_Path {S}.
Arguments vr_OperationID {S}.
Arguments vr_Handler {S}.

Definition route_matches {S} (request : http_call) (route : v1Route S) : option (list (string * string)) :=
  if method_matches (vr_Method route) (rq_Method request)
  then match_path (pattern_of (serveMuxPath (vr_Path route))) (rq_Segments request) else None.

Fixpoint find_route {S} (routes : list (v1Route S)) (request : http_call) : option (v1Route S * list (string * string)) :=
  match routes with
  | [] => None
  | route :: routes' =>
      match route_matches request route with Some values => Some (route, values) | None => find_route routes' request end
  end.

Lemma find_route_some {S} (routes : list (v1Route S)) request route values :
  find_route routes request = Some (route, values) -> In route routes /\ route_matches request route = Some values.
Proof.
  induction routes as [|r routes IH]; cbn; [done|]. destruct (route_matches request r) eqn:E; [|intros [? ?]%IH; auto].
  intros [= <- <-]. auto.
Qed.

(** The entries of an answer are allowed while the stored access lasts. *)
Lemma shown_entitlements entitlements now :
  Forall2 (fun stored answer => er_Key answer = ce_Key stored /\ er_Version answer = ce_Version stored /\
             (er_Access answer = AccessAllowed <->
              ep_Access (ce_Projection stored) = AccessAllowed /\
              forall ends, EndsAt (ep_EffectivePeriod (ce_Projection stored)) = Some ends -> Before now ends = true))
    entitlements (entitlementResponses entitlements now).
Proof.
  induction entitlements as [|stored l IH]; [constructor|]. cbn [entitlementResponses map]. constructor; [|exact IH].
  unfold effectiveEntitlementAccess, AccessAt. destruct (EndsAt _) as [ends|] eqn:Hend; cbn zeta.
  - destruct (String.eqb_spec (ep_Access (ce_Projection stored)) AccessAllowed) as [Ha|Ha]; cbn [andb];
      [destruct (Before now ends) eqn:Hb; cbn [negb]|]; cbn; split_and!; try done.
    + split; [|done]. intros _. split; [done|]. by intros ? [= <-].
    + split; [done|]. intros [_ H]. specialize (H _ eq_refl). congruence.
    + split; [done|tauto].
  - cbn. split_and!; try done. split; [|tauto]. by split.
Qed.

Section Routes.
Context `{Horder : !GoMapRange, Url : !UrlLibrary, Multipart : !MultipartLibrary, Offers : !OfferingLibrary}.
Context `{Lib : !ProcessingLibrary, Decoders : !RequestDecoders, Callbacks : !ProviderCallbacks}.
Context {S : Type} `{Hauth : !ApiAuthentication S, Htx : !Transaction S, Hstore : !Store S, Hops : !OperationsStore S}.
Context `{Hqueue : !QueueRepository S, Hrefs : !ProviderReferenceRepository S, Hwriter : !CatalogWriter S, Hidentity : !IdentityWriter S}.
Context `{Hadmin : !AdminQueryStore S, Hverifier : !purchaseVerifier S, Hservices : !ApiServices S}.
Context (zone : time -> Z) (api : API S) (protector : Request -> result ProtectedValue) (clock : nat -> time) (uploadLimit : Z).

(* internal/transport/httpapi/api.go: API.v1Routes *)
Definition v1Routes : list (v1Route S) := [
  mkRoute "POST" "/v1/admin/dashboard-session" "createAdminDashboardSession" (createDashboardSession clock);
  mkRoute "DELETE" "/v1/admin/dashboard-session" "deleteAdminDashboardSession" deleteDashboardSession;
  mkRoute "GET" "/v1/admin/api-keys" "listApiKeys" listAPIKeys;
  mkRoute "POST" "/v1/admin/api-keys" "createApiKey" (createAPIKey api);
  mkRoute "DELETE" "/v1/admin/api-keys/{key_id}" "revokeApiKey" revokeAPIKey;
  mkRoute "GET" "/v1/admin/projects" "listAdminProjects" adminProjects;
  mkRoute "GET" "/v1/admin/projects/{project_id}/overview" "getAdminProjectOverview" adminProjectOverview;
  mkRoute "GET" "/v1/admin/projects/{project_id}/financial-reports" "listFinancialReports" api_listFinancialReports;
  mkRoute "POST" "/v1/admin/projects/{project_id}/financial-reports" "uploadFinancialReport" (uploadFinancialReport uploadLimit);
  mkRoute "POST" "/v1/admin/projects/{project_id}/financial-reports/{import_id}:supersede" "supersedeFinancialReport"
    (api_supersedeFinancialReport uploadLimit);
  mkRoute "POST" "/v1/admin/projects/{project_id}/financial-reports:pull" "pullFinancialReport" (pullFinancialReport api);
  mkRoute "PUT" "/v1/admin/projects/{project_id}" "putAdminProject" putProject;
  mkRoute "PUT" "/v1/admin/projects/{project_id}/applications/{application_id}" "putAdminApplication" (putApplication api);
  mkRoute "PUT" "/v1/admin/projects/{project_id}/customers/{customer_id}" "putAdminCustomer" (putCustomer api);
  mkRoute "PUT" "/v1/admin/projects/{project_id}/customers/{customer_id}/aliases/{external_id}" "putAdminCustomerAlias"
    (putAdminCustomerAlias api);
  mkRoute "GET" "/v1/admin/projects/{project_id}/customer-resolutions/{external_id}" "getAdminCustomerResolution" getAdminCustomerResolution;
  mkRoute "POST" "/v1/admin/projects/{project_id}/customer-merges" "postAdminCustomerMerge" (postAdminCustomerMerge zone api clock);
  mkRoute "PUT" "/v1/admin/projects/{project_id}/entitlements/{entitlement_id}" "putAdminEntitlement" (putEntitlement api);
  mkRoute "PUT" "/v1/admin/projects/{project_id}/products/{product_id}" "putAdminProduct" (putProduct api);
  mkRoute "PUT" "/v1/admin/projects/{project_id}/applications/{application_id}/store-products/{provider_product_id}" "putAdminStoreProduct"
    (putStoreProduct api);
  mkRoute "PUT" "/v1/admin/projects/{project_id}/applications/{application_id}/credentials/{kind}" "putAdminCredential" (putCredential api);
  mkRoute "PUT" "/v1/admin/projects/{project_id}/applications/{application_id}/webhook" "putAdminWebhook" (putWebhook api);
  mkRoute "POST" "/v1/applications/{application_id}/customer-sessions" "createCustomerSession" (createCustomerSession api);
  mkRoute "GET" "/v1/applications/{application_id}/offering" "getApplicationOffering" (getApplicationOffering api);
  mkRoute "POST" "/v1/applications/{application_id}/purchases:verify" "verifyPurchase" (verifyPurchase api protector clock);
  mkRoute "POST" "/v1/applications/{application_id}/purchases:restore" "restorePurchases" (restorePurchases api protector clock);
  mkRoute "GET" "/v1/applications/{application_id}/customers/{external_customer_id}/entitlements" "getCustomerEntitlements"
    (customerEntitlements clock);
  mkRoute "PUT" "/v1/applications/{application_id}/customers/{customer_id}/aliases/{external_id}" "putApplicationCustomerAlias"
    (putApplicationCustomerAlias api);
  mkRoute "GET" "/v1/applications/{application_id}/customer-resolutions/{external_id}" "getApplicationCustomerResolution"
    getApplicationCustomerResolution;
  mkRoute "POST" "/v1/providers/huawei/projects/{project_id}/applications/{application_id}/notifications" "acceptHuaweiNotification"
    (huaweiNotification api protector clock);
  mkRoute "POST" "/v1/providers/apple/projects/{project_id}/applications/{application_id}/notifications" "acceptAppleNotification"
    (appleNotification api protector clock);
  mkRoute "POST" "/v1/providers/google-play/projects/{project_id}/applications/{application_id}/notifications"
    "acceptGooglePlayNotification" (googlePlayNotification api protector clock)
]%string.

(** Paths outside [/v1/] are the router's own: [None]. *)
(* internal/transport/httpapi/api.go: API.ServeHTTP *)
Definition api_ServeHTTP (request : http_call) : S -> option reply * S := fun s =>
  match find_route v1Routes request with
  | Some (route, values) => let '(r, s') := run_handler (vr_Handler route (with_values request values)) s in (Some r, s')
  | None =>
      match rq_Segments request with
      | version :: _ :: _ => if String.eqb version "v1" then (Some (notFound request), s) else (None, s)
      | _ => (None, s)
      end
  end.

(** ** Who may call *)

Inductive access : Type :=
| AdminCall        (* an administrator, by bearer or dashboard session *)
| AdminBearer      (* an administrator's bearer, to open a dashboard session *)
| ApplicationCall  (* an application's bearer, for itself *)
| CustomerCall     (* a customer's session, in its application *)
| ProviderCall (provider : Provider)
| PublicCall.

(** What each operation needs. *)
Definition route_access (operation : string) : option access :=
  if contains_str ["deleteAdminDashboardSession"; "listApiKeys"; "createApiKey"; "revokeApiKey"; "listAdminProjects";
                   "getAdminProjectOverview"; "listFinancialReports"; "uploadFinancialReport"; "supersedeFinancialReport";
                   "pullFinancialReport"; "putAdminProject"; "putAdminApplication"; "putAdminCustomer"; "putAdminCustomerAlias";
                   "getAdminCustomerResolution"; "postAdminCustomerMerge"; "putAdminEntitlement"; "putAdminProduct";
                   "putAdminStoreProduct"; "putAdminCredential"; "putAdminWebhook"]%string operation then Some AdminCall
  else if String.eqb operation "createAdminDashboardSession" then Some AdminBearer
  else if contains_str ["createCustomerSession"; "putApplicationCustomerAlias"; "getApplicationCustomerResolution"]%string operation
  then Some ApplicationCall
  else if contains_str ["verifyPurchase"; "restorePurchases"; "getCustomerEntitlements"]%string operation then Some CustomerCall
  else if String.eqb operation "acceptHuaweiNotification" then Some (ProviderCall ProviderHuaweiAppGallery)
  else if String.eqb operation "acceptAppleNotification" then Some (ProviderCall ProviderAppleAppStore)
  else if String.eqb operation "acceptGooglePlayNotification" then Some (ProviderCall ProviderGooglePlay)
  else if String.eqb operation "getApplicationOffering" then Some PublicCall
  else None.

(** A provider's callback: its adapter accepts the received bytes, with the bearer of Google's
    push, for the application the path names. *)
Definition provider_granted (provider : Provider) (request : http_call) (s : S) : Prop :=
  exists application, Application_ (PathValue request "project_id") (PathValue request "application_id") s = (Ok application, s) /\
    if String.eqb provider ProviderHuaweiAppGallery then exists n, ValidateHuawei application (fst (rq_Body request)) = Ok n
    else if String.eqb provider ProviderAppleAppStore then exists n, ValidateApple application (fst (rq_Body request)) = Ok n
    else exists token n, bears request token /\ ValidateGoogle application token (fst (rq_Body request)) = Ok n.

Definition granted (a : access) (request : http_call) (s : S) : Prop :=
  match a with
  | AdminCall => exists principal, admin_granted request s principal
  | AdminBearer => exists principal, bearer_of request s principal /\ pn_Role principal = APIKeyRoleAdmin
  | ApplicationCall => exists principal, application_granted request s principal
  | CustomerCall => exists principal, customer_granted request s principal
  | ProviderCall provider => provider_granted provider request s
  | PublicCall => True
  end.

Context `{Hauthlaws : !ApiAuthenticationLaws S, Hreads : !ReadLaws S}.

(** One guard is enough for a handler that begins with it. *)
Lemma admin_handler request (f : Principal -> H S reply) : authorized (h_bind (requireAdmin request) f) (granted AdminCall request).
Proof. apply authorized_guard. eapply guards_weaken; [exact (requireAdmin_guards request)|]. intros s p Hp. by exists p. Qed.

Lemma application_handler request (f : Principal -> H S reply) :
  authorized (h_bind (requireApplication request) f) (granted ApplicationCall request).
Proof. apply authorized_guard. eapply guards_weaken; [exact (requireApplication_guards request)|]. intros s p Hp. by exists p. Qed.

Lemma customer_handler request (f : CustomerPrincipal -> H S reply) :
  authorized (h_bind (requireCustomerSession request) f) (granted CustomerCall request).
Proof. apply authorized_guard. eapply guards_weaken; [exact (requireCustomerSession_guards request)|]. intros s p Hp. by exists p. Qed.

Lemma login_handler request : authorized (createDashboardSession clock request) (granted AdminBearer request).
Proof.
  unfold createDashboardSession, authenticated. eapply authorized_bind.
  { apply (guards_call _ _ (fun s a => authenticate request s = (Ok a, s))); [auto with http|exact (authenticate_reads request)|done]. }
  intros principal. eapply authorized_bind.
  { apply (guards_require _ _ (fun _ _ => pn_Role principal = APIKeyRoleAdmin)); [auto with http|]. by intros H%String.eqb_eq _. }
  intros []. apply authorized_by. intros s Hr Hp%authenticate_bearer. by exists principal.
Qed.

Lemma attempt_lift request {A} (r : result A) : guards (attempt request (tx_lift r)) (fun (_ : S) a => r = Ok a).
Proof. apply guards_call; [auto with http|by intros s x s' [= _ <-]|by intros s a [= ->]]. Qed.

Lemma notificationApplication_reads projectID applicationID s r s' :
  notificationApplication projectID applicationID s = (r, s') ->
  s' = s /\ forall application, r = Ok application -> Application_ projectID applicationID s = (Ok application, s).
Proof.
  unfold notificationApplication, tx_check. destruct (validation_Wrap _); [by intros [= <- <-]|]. destruct r as [application|e]; intros H.
  - apply operate_commits in H. pose proof (application_reads _ _ _ _ _ H) as ->. split; [done|]. by intros ? [= <-].
  - apply operate_rolls_back in H. by split.
Qed.

Lemma notificationApplication_guards request projectID applicationID :
  guards (attempt request (notificationApplication projectID applicationID))
    (fun (s : S) application => Application_ projectID applicationID s = (Ok application, s)).
Proof.
  apply guards_call; [auto with http| |].
  - intros s r s' H. by apply notificationApplication_reads in H as [-> _].
  - intros s a H. apply notificationApplication_reads in H as [_ H]. by apply H.
Qed.

(** A callback begins with its body, its application and what its adapter says. *)
Lemma callback_handler {A} request bodyLimit (validate : Application -> string -> result A) (f : Application -> A -> H S reply) G :
  (forall s application n, Application_ (PathValue request "project_id") (PathValue request "application_id") s = (Ok application, s) ->
     validate application (fst (rq_Body request)) = Ok n -> G s) ->
  authorized (let! payload := readBody request bodyLimit in
              let! application := attempt request (notificationApplication (PathValue request "project_id") (PathValue request "application_id")) in
              let! n := attempt request (tx_lift (validate application payload)) in f application n) G.
Proof.
  intros HG. eapply authorized_bind; [apply readBody_guards|]. intros payload.
  eapply authorized_bind; [apply notificationApplication_guards|]. intros application.
  eapply authorized_bind; [apply attempt_lift|]. intros n. apply authorized_by. cbn beta.
  intros s Hn Ha [-> _]. by eapply HG.
Qed.

Lemma huawei_handler request : authorized (huaweiNotification api protector clock request) (granted (ProviderCall ProviderHuaweiAppGallery) request).
Proof. apply callback_handler. intros s application n Ha Hn. exists application. split; [done|]. by exists n. Qed.

Lemma apple_handler request : authorized (appleNotification api protector clock request) (granted (ProviderCall ProviderAppleAppStore) request).
Proof. apply callback_handler. intros s application n Ha Hn. exists application. split; [done|]. by exists n. Qed.

Lemma google_handler request : authorized (googlePlayNotification api protector clock request) (granted (ProviderCall ProviderGooglePlay) request).
Proof.
  unfold googlePlayNotification. destruct (strictBearerToken _) as [token|] eqn:Ht.
  - apply (callback_handler _ _ (fun application => ValidateGoogle application token)). intros s application n Ha Hn.
    exists application. split; [done|]. exists token, n. by apply strict_bears in Ht.
  - apply allowed_reply. auto with http.
Qed.

Lemma routes_authorized :
  Forall (fun route => forall request, exists a, route_access (vr_OperationID route) = Some a /\
            authorized (vr_Handler route request) (granted a request)) v1Routes.
Proof.
  repeat (apply Forall_cons; split);
    [intros request; cbn [vr_Handler vr_OperationID]; eexists; (split; [vm_compute; reflexivity|]);
     first [apply admin_handler | apply application_handler | apply customer_handler | apply login_handler | apply huawei_handler
           | apply apple_handler | apply google_handler | by apply authorized_by] .. | by apply Forall_nil].
Qed.

(** C37. Only authenticated callers reach the services.  Every request to the API is either
    refused, with a status of at least 400 and the state as it was, or goes to a route of the
    registry whose caller proved what its operation needs: administration, the administrator
    role, by a bearer or, with no bearer at all, by the cookie of a dashboard session, and then
    with a method that only reads or with the headers of the dashboard's own pages, whose origin
    is the host the request was sent to; opening such a session, a bearer of that role; an
    application's operations, its own bearer for the application of the path; a customer's, a
    session of that application; and a provider's callback, its adapter's acceptance of the
    received bytes for the application of the path.  Only the offerings are public. *)
Theorem api_authorized request s r s' :
  api_ServeHTTP request s = (Some r, s') ->
  (refusal r /\ s' = s) \/
  exists route values a, In route v1Routes /\ route_matches request route = Some values /\
    route_access (vr_OperationID route) = Some a /\ granted a (with_values request values) s.
Proof.
  unfold api_ServeHTTP. destruct (find_route v1Routes request) as [[route values]|] eqn:E.
  - apply find_route_some in E as [Hin Hmatch]. destruct (run_handler _ s) as [r1 s1] eqn:Hrun. intros [= <- <-].
    pose proof routes_authorized as Hall. rewrite List.Forall_forall in Hall.
    destruct (Hall _ Hin (with_values request values)) as (a & Ha & Hauthorized).
    destruct (Hauthorized _ _ _ Hrun) as [?|?]; [by left|right]. by exists route, values, a.
  - destruct (rq_Segments request) as [|version [|]]; try done. destruct (String.eqb _ _); [|done].
    intros [= <- <-]. left. split; [|done]. auto with http.
Qed.

(** ** What a customer's session can do *)

(** A refresh scheduled in the scope of a session, or the record of a missed one. *)
Inductive refresh_step (p : CustomerPrincipal) : S -> S -> Prop :=
| StepSchedule job id s s' :
    rj_ProjectID job = pn_ProjectID (cup_Principal p) -> rj_ApplicationID job = pn_ApplicationID (cup_Principal p) ->
    SaveReconciliationJob job s = (Ok id, s') -> refresh_step p s s'
| StepObserve fields provider s : refresh_step p s (ObserveScheduleFailure fields provider s).

(** A verification in the scope of a session, or what follows it. *)
Inductive session_step (p : CustomerPrincipal) : S -> S -> Prop :=
| StepVerify command answer s s' :
    cmd_ProjectID command = pn_ProjectID (cup_Principal p) -> cmd_ApplicationID command = pn_ApplicationID (cup_Principal p) ->
    cmd_ExternalCustomerID command = cup_ExternalCustomerID p -> Verifier_Verify command s = (answer, s') -> session_step p s s'
| StepRefresh s s' : refresh_step p s s' -> session_step p s s'.

(** Every purchase of a list was verified, one after the other: each by the verifier's success
    on what it submitted, for the session's project, application and customer. *)
Inductive all_verified (p : CustomerPrincipal) : list verificationRequest -> S -> S -> Prop :=
| NoneLeft s : all_verified p [] s s
| NextVerified purchase rest application evidence bindings result_ s s1 s2 s' :
    Application_ (pn_ProjectID (cup_Principal p)) (pn_ApplicationID (cup_Principal p)) s = (Ok application, s) ->
    VerificationInputs purchase (sa_Provider (app_Store application)) = Ok (evidence, bindings) ->
    Verifier_Verify (mkCommand (pn_ProjectID (cup_Principal p)) (pn_ApplicationID (cup_Principal p)) (cup_ExternalCustomerID p)
                       (vp_ClaimedProducts purchase) bindings evidence) s = (Ok result_, s1) ->
    rtc (refresh_step p) s1 s2 -> all_verified p rest s2 s' -> all_verified p (purchase :: rest) s s'.

Lemma refresh_session p s s' : rtc (refresh_step p) s s' -> rtc (session_step p) s s'.
Proof. induction 1 as [|s s1 s' H _ IH]; [done|]. eapply rtc_l; [by apply StepRefresh|done]. Qed.

Lemma api_application_reads n projectID applicationID s r s' : api_application n projectID applicationID s = (r, s') -> s' = s.
Proof.
  unfold api_application, tx_check. destruct (validation_Wrap _); [by intros [= _ <-]|]. destruct r; intros H.
  - apply store_commits in H. by eapply application_reads.
  - by eapply store_rolls_back.
Qed.

Lemma api_application_ok n projectID applicationID s application s' :
  api_application n projectID applicationID s = (Ok application, s') -> Application_ projectID applicationID s = (Ok application, s).
Proof.
  unfold api_application, tx_check. destruct (validation_Wrap _); [done|]. intros H%store_commits.
  pose proof (application_reads _ _ _ _ _ H) as ->. done.
Qed.

Lemma schedule_step p k customerID input s r s' :
  scheduleReconciliation protector clock k (cup_Principal p) customerID input s = (r, s') -> rtc (refresh_step p) s s'.
Proof.
  unfold scheduleReconciliation. unfold tx_bind at 1, tx_lift at 1.
  destruct (MarshalReconciliation _) as [payload|e]; [|by intros [= _ <-]]. unfold tx_bind at 1.
  destruct (api_application _ _ _ s) as [[application|e] s1] eqn:Ha; apply api_application_reads in Ha as ->; [|by intros [= _ <-]].
  unfold tx_bind at 1, tx_lift. destruct (api_protect _ _ _ _) as [protected|e]; [|by intros [= _ <-]].
  destruct r as [[]|e]; intros H; [|by apply operate_rolls_back in H as ->].
  apply operate_commits, tx_bind_ok in H as (id & s2 & Hsave & [= <-]). apply rtc_once. by eapply StepSchedule; [| |exact Hsave].
Qed.

Lemma verify_steps p k input s r s' :
  vp_ExternalCustomerID input = cup_ExternalCustomerID p ->
  api_verify api protector clock k (cup_Principal p) input s = (r, s') ->
  rtc (session_step p) s s' /\
  match r with Err _ => True | Ok _ => forall rest s2, all_verified p rest s' s2 -> all_verified p (input :: rest) s s2 end.
Proof.
  intros Hext. unfold api_verify. unfold tx_bind at 1.
  destruct (api_application _ _ _ s) as [[application|e] s1] eqn:Ha; pose proof (api_application_reads _ _ _ _ _ _ Ha) as ->;
    [|by intros [= <- <-]]. apply api_application_ok in Ha.
  unfold tx_bind at 1, tx_lift. destruct (wrap_result _ _) as [[evidence bindings]|e] eqn:Hin; [|by intros [= <- <-]].
  apply wrap_result_ok in Hin. unfold tx_bind at 1. destruct (Verifier_Verify _ s) as [answer s2] eqn:Hv.
  assert (Hs : session_step p s s2) by (by eapply StepVerify; [| | |exact Hv]). rewrite Hext in Hv.
  destruct answer as [result_|e]; [|by intros [= <- <-]; split; [apply rtc_once|]].
  assert (Hdone : forall s3, rtc (refresh_step p) s2 s3 -> rtc (session_step p) s s3 /\
            forall rest s4, all_verified p rest s3 s4 -> all_verified p (input :: rest) s s4).
  { intros s3 H3. split; [eapply rtc_l; [exact Hs|by apply refresh_session]|]. intros rest s4 Hrest. by eapply NextVerified. }
  unfold tx_bind. destruct (api_requiresReconciliation _); [|by intros [= <- <-]; apply Hdone].
  unfold tx_handle. destruct (scheduleReconciliation _ _ _ _ _ _ s2) as [[[]|e] s3] eqn:Hk; apply schedule_step in Hk;
    intros [= <- <-]; apply Hdone; [done|]. eapply rtc_r; [exact Hk|]. apply StepObserve.
Qed.

Lemma restore_steps p k purchases s r s' :
  Forall (fun purchase => vp_ExternalCustomerID purchase = cup_ExternalCustomerID p) purchases ->
  restore_each api protector clock k (cup_Principal p) purchases s = (r, s') ->
  rtc (session_step p) s s' /\ match r with Err _ => True | Ok _ => all_verified p purchases s s' end.
Proof.
  intros Hall. revert k s r s'. induction Hall as [|purchase purchases Hext _ IH]; intros k s r s'; cbn [restore_each].
  { intros [= <- <-]. split; [done|constructor]. }
  unfold tx_bind. destruct (api_verify _ _ _ k _ purchase s) as [[result_|e] s1] eqn:Hv; apply (verify_steps _ _ _ _ _ _ Hext) in Hv as [Hv Hone];
    [|by intros [= <- <-]].
  destruct (restore_each _ _ _ (1 + k) _ purchases s1) as [[results|e] s2] eqn:Hr; apply IH in Hr as [Hr Hrest]; intros [= <- <-];
    (split; [by etrans|]); auto.
Qed.

(** What one call of a service leaves behind, and what its success does. *)
Lemma allowed_attempt {A} request (m : Tx S A) (f : A -> reply) (R V : S -> S -> Prop) :
  (forall s r s', m s = (r, s') -> R s s' /\ match r with Err _ => True | Ok _ => V s s' end) ->
  allowed (h_bind (attempt request m) (fun a => h_ret (f a))) (fun s r s' => R s s' /\ (refusal r \/ V s s')).
Proof.
  intros HR s r s'. unfold run_handler, h_bind, attempt, h_call, h_ret.
  destruct (m s) as [[a|e] s1] eqn:E; apply HR in E as [E Ev]; intros [= <- <-]; right; split; auto with http.
Qed.

(** The purchases a request submits. *)
Definition submitted (restore : bool) (request : http_call) (purchases : list verificationRequest) : Prop :=
  if restore then exists input, DecodeRestore (fst (rq_Body request)) = Some (input, false) /\ purchases = req_Purchases input
  else exists input, DecodeVerification (fst (rq_Body request)) = Some (input, false) /\ purchases = [input].

Definition of_customer (p : CustomerPrincipal) (purchase : verificationRequest) : Prop :=
  vp_ExternalCustomerID purchase = cup_ExternalCustomerID p.

Definition in_session (restore : bool) (request : http_call) (s : S) (r : reply) (s' : S) : Prop :=
  exists p purchases, customer_granted request s p /\ submitted restore request purchases /\
    (1 <= length purchases <= 100)%nat /\ Forall (of_customer p) purchases /\
    rtc (session_step p) s s' /\ (refusal r \/ all_verified p purchases s s').

Lemma verifyPurchase_confined request : allowed (verifyPurchase api protector clock request) (in_session false request).
Proof.
  eapply allowed_bind; [exact (requireCustomerSession_guards request)|]. intros p.
  eapply allowed_bind; [apply decode_body_guards|]. intros input.
  eapply allowed_bind; [apply (guards_require _ _ (fun _ _ => of_customer p input)); [auto with http|]|].
  { by intros H%String.eqb_eq _. }
  intros [] s r s' H. apply (allowed_attempt _ _ _ (fun s s' => of_customer p input -> rtc (session_step p) s s')
    (fun s s' => of_customer p input -> all_verified p [input] s s')) in H as [H|[H Hv]].
  - by left.
  - right. intros Hext [_ Hdec] Hp. exists p, [input]. split_and!; [done|by exists input|cbn; lia..|by constructor|auto|].
    destruct Hv; auto.
  - intros t x t' Hx. split; [|destruct x; [|done]]; intros Hext; apply (verify_steps _ _ _ _ _ _ Hext) in Hx as [Hx Hone]; [done|].
    apply Hone. constructor.
Qed.

Lemma restorePurchases_confined request : allowed (restorePurchases api protector clock request) (in_session true request).
Proof.
  eapply allowed_bind; [exact (requireCustomerSession_guards request)|]. intros p.
  eapply allowed_bind; [apply decode_body_guards|]. intros input. cbn zeta.
  eapply allowed_bind; [apply (guards_require _ _ (fun _ _ => (1 <= length (req_Purchases input) <= 100)%nat)); [auto with http|]|].
  { intros [Hz%Nat.eqb_neq Hb%Nat.ltb_ge]%negb_true_iff%orb_false_iff _. lia. }
  intros []. eapply allowed_bind; [apply (guards_require _ _ (fun _ _ => Forall (of_customer p) (req_Purchases input))); [auto with http|]|].
  { intros H _. apply Forall_forall. intros purchase Hin. rewrite forallb_forall in H.
    by apply String.eqb_eq, H, list_elem_of_In. }
  intros [] s r s' H. apply (allowed_attempt _ _ _ (fun s s' => Forall (of_customer p) (req_Purchases input) -> rtc (session_step p) s s')
    (fun s s' => Forall (of_customer p) (req_Purchases input) -> all_verified p (req_Purchases input) s s')) in H as [H|[H Hv]].
  - by left.
  - right. intros Hall Hlen [_ Hdec] Hp. exists p, (req_Purchases input). split_and!; [done|by exists input|lia..|done|auto|].
    destruct Hv; auto.
  - intros t x t' Hx. split; [|destruct x; [|done]]; intros Hall; by apply (restore_steps _ _ _ _ _ _ Hall) in Hx as [Hx Hv].
Qed.

Lemma submitted_once restore request l l' : submitted restore request l -> submitted restore request l' -> l = l'.
Proof. destruct restore; intros (input & Hi & ->) (input' & Hi' & ->); congruence. Qed.

(** C38. A customer's session reaches nothing but that customer's purchases.  A request to
    verify or restore purchases is either refused and changes nothing, or it carries a session
    of the application of the path and submits between one and a hundred purchases, all of
    them the session's customer's.  Then all it does, whatever its reply, is a sequence of
    verifications for the project, the application and the customer of the session, and of
    refreshes scheduled in that project and application; and unless the reply is a refusal
    every submitted purchase was verified, in the order of the list.  So a list that names
    another customer anywhere is refused, with nothing changed, before the first purchase. *)
Theorem session_confined (restore : bool) request s r s' :
  run_handler ((if restore then restorePurchases api protector clock else verifyPurchase api protector clock) request) s = (r, s') ->
  ((refusal r /\ s' = s) \/
   exists p purchases, customer_granted request s p /\ submitted restore request purchases /\
     (1 <= length purchases <= 100)%nat /\
     Forall (fun purchase => vp_ExternalCustomerID purchase = cup_ExternalCustomerID p) purchases /\
     rtc (session_step p) s s' /\ (refusal r \/ all_verified p purchases s s')) /\
  (forall p purchases, customer_granted request s p -> submitted restore request purchases ->
     Exists (fun purchase => vp_ExternalCustomerID purchase <> cup_ExternalCustomerID p) purchases -> refusal r /\ s' = s).
Proof.
  intros H.
  assert (Hcase : (refusal r /\ s' = s) \/ in_session restore request s r s')
    by (destruct restore; [by apply restorePurchases_confined|by apply verifyPurchase_confined]).
  split; [exact Hcase|]. intros p purchases Hp Hsub Hforeign. destruct Hcase as [?|(q & l & Hq & Hl & _ & Hall & _)]; [done|exfalso].
  pose proof (customer_granted_unique _ _ _ _ Hp Hq) as ->. pose proof (submitted_once _ _ _ _ Hsub Hl) as ->.
  apply Exists_exists in Hforeign as (x & Hx & Hne). rewrite Forall_forall in Hall. by apply Hne, Hall.
Qed.

(** ** What a callback leaves behind *)

Context `{Hreflaws : !ReferenceLaws S}.












(** ** What a customer is shown *)

Context `{Hentitlements : !EntitlementLaws S}.

(** The snapshot of the session's customer, and nothing allowed beyond its end. *)
Definition snapshot_shown (request : http_call) (s : S) (r : reply) (s' : S) : Prop :=
  s' = s /\ exists p customer entitlements,
    customer_granted request s p /\ PathValue request "external_customer_id" = cup_ExternalCustomerID p /\
    CustomerByExternalID (pn_ProjectID (cup_Principal p)) (cup_ExternalCustomerID p) s = (Ok customer, s) /\
    CustomerEntitlements (pn_ProjectID (cup_Principal p)) (cus_ID customer) s = (Ok entitlements, s) /\
    let shown := entitlementResponses entitlements (clock 0) in
    r = writeJSON 200 (JObject [("customer_id", JText (cus_ID customer)); ("entitlements", JList (map entitlement_json shown))]%string) /\
    Forall2 (fun stored answer => er_Key answer = ce_Key stored /\ er_Version answer = ce_Version stored /\
               (er_Access answer = AccessAllowed <->
                ep_Access (ce_Projection stored) = AccessAllowed /\
                forall ends, EndsAt (ep_EffectivePeriod (ce_Projection stored)) = Some ends -> Before (clock 0) ends = true))
      entitlements shown.

Lemma customerEntitlements_shown request : allowed (customerEntitlements clock request) (snapshot_shown request).
Proof.
  clear zone uploadLimit.
  eapply allowed_bind; [exact (requireCustomerSession_guards request)|]. intros p. cbn zeta.
  eapply allowed_bind; [apply (guards_require _ _ (fun _ _ => PathValue request "external_customer_id" = cup_ExternalCustomerID p));
    [auto with http|]|].
  { by intros H%String.eqb_eq _. }
  intros []. intros s r s' H. revert H.
  unfold run_handler, h_bind, attempt, h_call. destruct (StoreTransact 0 _ s) as [[[customer entitlements]|e] s1] eqn:E.
  - intros [= <- <-]. right. intros Hext Hp. apply store_commits, tx_bind_ok in E as (c & s2 & Hc & E).
    pose proof (customer_reads _ _ _ _ _ Hc) as ->. apply tx_bind_ok in E as (l & s3 & Hl & [= <- <- <-]).
    destruct (current_ok_ _ _ _ _ _ Hl) as [-> _]. rewrite Hext in Hc. split; [done|]. exists p, c, l. cbn zeta.
    split_and!; try done. apply shown_entitlements.
  - intros [= <- <-]. left. apply store_rolls_back in E as ->. auto with http.
Qed.

(** C40. A customer sees only their own entitlements, as they are now.  A request for a
    customer's entitlements changes nothing; unless it is refused it carries a session of the
    application of the path for the customer it names, and the answer has one entry for every
    current entitlement that customer has in the session's project, with its key and version,
    which is allowed exactly when the stored one is and its period has not ended by the time
    of the answer. *)
Theorem entitlements_shown request s r s' :
  run_handler (customerEntitlements clock request) s = (r, s') -> (refusal r /\ s' = s) \/ snapshot_shown request s r s'.
Proof. apply customerEntitlements_shown. Qed.
End Routes.

(** ** The registry is unambiguous *)

Definition segments_apart (p q : path_segment) : bool :=
  match p, q with Literal a, Literal b => negb (String.eqb a b) | _, _ => false end.
Fixpoint patterns_apart (p q : list path_segment) : bool :=
  match p, q with
  | [], [] => false
  | a :: p', b :: q' => segments_apart a b || patterns_apart p' q'
  | _, _ => true
  end.
Definition routes_apart {S} (x y : v1Route S) : bool :=
  negb (String.eqb (vr_Method x) (vr_Method y))
  || patterns_apart (pattern_of (serveMuxPath (vr_Path x))) (pattern_of (serveMuxPath (vr_Path y))).
Fixpoint pairwise_apart {S} (routes : list (v1Route S)) : bool :=
  match routes with [] => true | route :: routes' => forallb (routes_apart route) routes' && pairwise_apart routes' end.

Lemma apart_match p q segments v w :
  match_path p segments = Some v -> match_path q segments = Some w -> patterns_apart p q = false.
Proof.
  revert q segments v w. induction p as [|a p IH]; intros [|b q] [|segment segments] v w; cbn; try done;
    try (destruct a; done); try (destruct b; done).
  intros Hp Hq.
  assert (Hp' : exists v', match_path p segments = Some v' /\ forall l, a = Literal l -> l = segment).
  { destruct a as [l|name].
    - destruct (String.eqb_spec l segment); [|done]. exists v. split; [done|]. by intros ? [= <-].
    - destruct (String.eqb segment "/"); [done|]. destruct (match_path p segments) as [v'|]; [|done]. by exists v'. }
  assert (Hq' : exists w', match_path q segments = Some w' /\ forall l, b = Literal l -> l = segment).
  { destruct b as [l|name].
    - destruct (String.eqb_spec l segment); [|done]. exists w. split; [done|]. by intros ? [= <-].
    - destruct (String.eqb segment "/"); [done|]. destruct (match_path q segments) as [w'|]; [|done]. by exists w'. }
  destruct Hp' as (v' & Hp' & Ha), Hq' as (w' & Hq' & Hb). rewrite (IH _ _ _ _ Hp' Hq'), orb_false_r.
  destruct a as [l|], b as [l'|]; try done. cbn. rewrite (Ha _ eq_refl), (Hb _ eq_refl). by rewrite String.eqb_refl.
Qed.

Lemma apart_routes {S} (x y : v1Route S) request v w :
  vr_Method x <> "HEAD"%string -> vr_Method y <> "HEAD"%string ->
  route_matches request x = Some v -> route_matches request y = Some w -> routes_apart x y = false.
Proof.
  unfold route_matches, method_matches, routes_apart. intros Hx Hy Hv Hw.
  destruct (_ || _) eqn:Ex in Hv; [|done]. destruct (_ || _) eqn:Ey in Hw; [|done].
  rewrite (apart_match _ _ _ _ _ Hv Hw), orb_false_r. apply negb_false_iff, String.eqb_eq.
  rewrite orb_true_iff, andb_true_iff, !String.eqb_eq in Ex, Ey. intuition congruence.
Qed.

Lemma pairwise_unique {S} (routes : list (v1Route S)) request x y v w :
  pairwise_apart routes = true -> forallb (fun route => negb (String.eqb (vr_Method route) "HEAD")) routes = true ->
  In x routes -> In y routes -> route_matches request x = Some v -> route_matches request y = Some w -> x = y.
Proof.
  intros Hp Hh. assert (Hm : forall z, In z routes -> vr_Method z <> "HEAD"%string).
  { intros z Hz. rewrite forallb_forall in Hh. by apply String.eqb_neq, negb_true_iff, Hh. }
  clear Hh. induction routes as [|route routes IH]; [done|]. cbn [pairwise_apart] in Hp.
  apply andb_true_iff in Hp as [Hr Hp]. rewrite forallb_forall in Hr.
  intros [<-|Hx] [<-|Hy] Hv Hw; [done| | |].
  - specialize (Hr _ Hy). rewrite (apart_routes _ _ request v w) in Hr; [done|..]; [apply Hm; by left|apply Hm; by right|done|done].
  - specialize (Hr _ Hx). rewrite (apart_routes _ _ request w v) in Hr; [done|..]; [apply Hm; by left|apply Hm; by right|done|done].
  - apply IH; try done. intros z Hz. apply Hm. by right.
Qed.

Section Registry.
Context `{Horder : !GoMapRange, Url : !UrlLibrary, Multipart : !MultipartLibrary, Offers : !OfferingLibrary}.
Context `{Lib : !ProcessingLibrary, Decoders : !RequestDecoders, Callbacks : !ProviderCallbacks}.
Context {S : Type} `{Hauth : !ApiAuthentication S, Htx : !Transaction S, Hstore : !Store S, Hops : !OperationsStore S}.
Context `{Hqueue : !QueueRepository S, Hrefs : !ProviderReferenceRepository S, Hwriter : !CatalogWriter S, Hidentity : !IdentityWriter S}.
Context `{Hadmin : !AdminQueryStore S, Hverifier : !purchaseVerifier S, Hservices : !ApiServices S}.
Context (zone : time -> Z) (api : API S) (protector : Request -> result ProtectedValue) (clock : nat -> time) (uploadLimit : Z).

(** Two routes that match the same request are the same route. *)
Lemma routes_disjoint request x y v w :
  In x (v1Routes zone api protector clock uploadLimit) -> In y (v1Routes zone api protector clock uploadLimit) ->
  route_matches request x = Some v -> route_matches request y = Some w -> x = y.
Proof. apply pairwise_unique; vm_compute; reflexivity. Qed.
End Registry.

(** ** A shop behind the API *)

#[local] Instance desk_range : GoMapRange := range_in_order.
#[local] Instance desk_store : Store store_db := deployed_store store_db.
#[local] Instance desk_operations : OperationsStore store_db := plain_operations store_db.
#[local] Instance desk_transaction : Transaction store_db := store_transaction demo_now.
#[local] Instance desk_references : ProviderReferenceRepository store_db := sample_references store_db.
#[local] Instance desk_reference_laws : ReferenceLaws store_db := sample_reference_laws store_db.
#[local] Instance desk_processing : ProcessingLibrary := sample_processing.

(** The catalog and identity calls are those of the tables. *)
#[local] Instance desk_catalog : CatalogWriter store_db := {|
  PutProject := fun p => over_catalog (Catalog.PutProject p);
  PutApplication := fun a => over_catalog (Catalog.PutApplication a);
  PutCustomer := fun c => over_identity (Identity.PutCustomer c);
  PutEntitlementDefinition := fun e => over_catalog (Catalog.PutEntitlementDefinition e);
  PutProduct := fun p => over_catalog (Catalog.PutProduct p);
  PutStoreProduct := fun p m => over_catalog (Catalog.PutStoreProduct p m)
|}.
#[local] Instance desk_identity : IdentityWriter store_db := {|
  PutCustomerAlias := fun w => over_identity (Identity.PutCustomerAlias w);
  MergeCustomers := fun w => over_identity (Identity.MergeCustomers demo_now (Ok "0123456789ab"%string) (fun _ _ => []) w)
|}.

(** Queues that take what they are given, and services that are not used. *)
#[local] Instance desk_queue : QueueRepository store_db := {|
  SaveInboxMessage := fun m => tx_ret (im_ID m);
  SaveReconciliationJob := fun j => tx_ret (rj_ID j);
  LoadQueueMessage := fun _ _ => tx_err ErrNotFound;
  CompleteQueue := fun _ => tx_ret tt;
  FailQueue := fun _ => tx_ret tt;
  PurgeTerminalQueueRecords := fun _ _ => tx_ret 0
|}.
#[local] Instance desk_admin : AdminQueryStore store_db := {|
  AdminProjects := tx_ret [];
  AdminProjectOverview_ := fun _ _ => tx_err ErrNotFound
|}.
Definition unused {A} : Tx store_db A := tx_err ErrUnavailable.
#[local] Instance desk_services : ApiServices store_db := {|
  Keys_List := fun _ => unused; Keys_Create := fun _ => unused; Keys_Revoke := fun _ => unused; AdminSessions_Mint := fun _ => unused;
  CustomerSessions_Mint := fun _ _ => unused; Credentials_Put := fun _ _ _ => unused; Webhooks_Configure := fun _ _ _ _ => unused;
  Reports_List := fun _ => unused; Reports_Upload := fun _ => unused; Reports_Supersede := fun _ _ _ => unused; Reports_Pull := fun _ => unused;
  ObserveScheduleFailure := fun _ _ s => s
|}.

(** A verifier that finds the customer and the current entitlements. *)
#[local] Instance desk_verifier : purchaseVerifier store_db := {|
  Verifier_Verify := fun command =>
    do customer <- CustomerByExternalID (cmd_ProjectID command) (cmd_ExternalCustomerID command);
    do entitlements <- CustomerEntitlements (cmd_ProjectID command) (cus_ID customer);
    tx_ret (mkResult [] demo_now customer entitlements)
|}.

(** One administrator's key, one application's and one customer's session. *)
Definition desk_session : CustomerPrincipal :=
  mkCustomerPrincipal (mkPrincipal "key-2" APIKeyRoleApplication "project-1" "app-1") "user-1" (demo_now + Hour).
#[local] Instance desk_authentication : ApiAuthentication store_db := {|
  AuthenticateBearer := fun token =>
    if String.eqb token "admin" then tx_ret (mkPrincipal "key-1" APIKeyRoleAdmin EmptyString EmptyString)
    else if String.eqb token "app" then tx_ret (cup_Principal desk_session) else tx_err ErrUnauthorized;
  AuthenticateCustomerSession := fun token => if String.eqb token "session" then tx_ret desk_session else tx_err ErrUnauthorized;
  AuthenticateAdminSession := fun token =>
    if String.eqb token "cookie" then tx_ret (mkAdminPrincipal (mkPrincipal "key-1" APIKeyRoleAdmin EmptyString EmptyString) (demo_now + Hour))
    else tx_err ErrUnauthorized
|}.
#[local] Instance desk_authentication_laws : ApiAuthenticationLaws store_db.
Proof.
  split; intros token s r s'; cbn.
  - destruct (String.eqb _ _); [by intros [= _ <-]|]. destruct (String.eqb _ _); by intros [= _ <-].
  - destruct (String.eqb _ _); by intros [= _ <-].
  - destruct (String.eqb _ _); by intros [= _ <-].
Qed.

#[local] Instance desk_urls : UrlLibrary := {|
  ParseURL := fun url =>
    if String.prefix "https://" url then Some (mkOrigin "https" false (TrimPrefix url "https://") EmptyString EmptyString EmptyString) else None
|}.
#[local] Instance desk_multipart : MultipartLibrary := {| MultipartParts := fun _ _ => None |}.
#[local] Instance desk_offerings : OfferingLibrary := {| OpenRoot := fun _ => Missing; DecodeDocument := fun _ => Err (New "EOF") |}.
Definition desk_purchase (customer : string) : verificationRequest := mkVerificationPayload customer ["premium_monthly"%string] [] "{evidence}".
#[local] Instance desk_decoders : RequestDecoders := {|
  DecodeKey := fun _ => None; DecodeSession := fun _ => None; DecodeApplication := fun _ => None; DecodeCustomer := fun _ => None;
  DecodeEntitlement := fun _ => None; DecodeProduct := fun _ => None; DecodeStoreProduct := fun _ => None; DecodeCredential := fun _ => None;
  DecodeWebhook := fun _ => None; 
  DecodeRestore := fun body => Some (mkRestoreRequest (map desk_purchase (Split body 44)), false); DecodeMerge := fun _ => None; DecodePull := fun _ => None;
  DecodeEmpty := fun _ => None;
  DecodeVerification := fun body => Some (desk_purchase body, false)
|}.
#[local] Instance desk_callbacks : ProviderCallbacks := {|
  ValidateHuawei := fun _ body => if String.eqb body "order" then Ok (mkHuaweiEnvelope "v2" orderEventType demo_now "app-102" 1 "old-token"
                       EmptyString "premium_monthly" ProductKindSubscription) else Err (New "invalid");
  ValidateApple := fun _ _ => Err apple_ErrNotificationInvalid;
  ValidateGoogle := fun _ _ _ => Err google_ErrNotificationUnauthorized;
  MarshalHuawei := fun n => Ok (hn_PurchaseToken n);
  MarshalApple := fun n => Ok (an_NotificationUUID n);
  MarshalGoogle := fun n => Ok (gn_PurchaseToken n)
|}.

Definition desk : API store_db := mkAPI 65536 None EmptyString None.
Definition desk_clock (n : nat) : time := demo_now + Z.of_nat n.
Definition desk_call (method bearer body : string) (segments : list string) : http_call :=
  mkCall method segments "api.example"
    (("Content-Type", "application/json") :: if String.eqb bearer "" then [] else [("Authorization", "Bearer " ++ bearer)])%string
    [] [] (body, false) [] "req-1".
Definition desk_serve (request : http_call) (s : store_db) : option reply * store_db :=
  api_ServeHTTP (fun _ => 0) desk sample_protector desk_clock 33554432 request s.
Definition status_of (r : option reply) : option Z := option_map rp_Status r.

(** A project is configured with the administrator's key, and with no other. *)
Definition desk_put (bearer : string) : http_call := desk_call "PUT" bearer EmptyString ["v1"; "admin"; "projects"; "project-2"]%string.

Example desk_answers :
  map (fun request => status_of (desk_serve request shop_store).1)
    [desk_put "admin"; desk_put "app"; desk_put ""; desk_call "HEAD" "admin" "" ["v1"; "admin"; "projects"];
     desk_call "GET" "" "" ["v1"; "admin"]; desk_call "GET" "" "" ["healthz"]; desk_call "GET" "" "" ["v1"; "applications"; "app-1"; "offering"]]%string
  = [Some 200; Some 401; Some 401; Some 200; Some 404; None; Some 404].
Proof. vm_compute. reflexivity. Qed.

(** The same from the dashboard, whose browser sends its session and the origin of its page. *)
Definition desk_browser (origin : string) : http_call :=
  mkCall "PUT" ["v1"; "admin"; "projects"; "project-2"]%string "api.example"
    [("Content-Type", "application/json"); ("X-IAPStack-Dashboard", "1"); ("Sec-Fetch-Site", "same-origin"); ("Origin", origin)]%string
    [] [("__Secure-iapstack_admin", "cookie")]%string (EmptyString, false) [] "req-1".

Lemma api_authorized_witness :
  map (fun origin => status_of (desk_serve (desk_browser origin) shop_store).1) ["https://API.example"; "https://evil.example"; "http:"]%string
    = [Some 200; Some 403; Some 403] /\
  exists principal,
    admin_granted (with_values (desk_browser "https://API.example") [("project_id", "project-2")]%string) shop_store principal.
Proof.
  split; [vm_compute; reflexivity|].
  destruct (desk_serve (desk_browser "https://API.example") shop_store) as [o s'] eqn:E.
  assert (Hs : status_of o = Some 200) by (change (status_of (o, s').1 = Some 200); rewrite <- E; vm_compute; reflexivity).
  destruct o as [r|]; [|discriminate Hs]. injection Hs as Hs.
  destruct (api_authorized (fun _ => 0) desk sample_protector desk_clock 33554432 _ _ _ _ E)
    as [[Hr _]|(route & values & a & Hin & Hm & Ha & Hg)].
  - exfalso. unfold refusal in Hr. rewrite Hs in Hr. vm_compute in Hr. by apply Hr.
  - repeat (destruct Hin as [<-|Hin]; [vm_compute in Hm; (discriminate Hm || (injection Hm as <-; vm_compute in Ha; injection Ha as <-; exact Hg))|]).
    destruct Hin.
Defined.

(** A customer restores two purchases of their own; a list that ends with another customer's
    is refused. *)
Definition desk_restore (customers : string) : http_call :=
  with_values (desk_call "POST" "session" customers ["v1"; "applications"; "app-1"; "purchases:restore"]%string) [("application_id", "app-1")]%string.
Definition desk_restored (customers : string) : reply * store_db :=
  run_handler (restorePurchases desk sample_protector desk_clock (desk_restore customers)) shop_store.
Definition desk_verified (customer : string) : reply * store_db :=
  run_handler (verifyPurchase desk sample_protector desk_clock (desk_restore customer)) shop_store.

Example desk_verifies : map (fun customer => rp_Status (desk_verified customer).1) ["user-1"; "user-2"]%string = [200; 401].
Proof. vm_compute. reflexivity. Qed.

Lemma desk_submitted : submitted true (desk_restore "user-1,user-2") [desk_purchase "user-1"; desk_purchase "user-2"].
Proof. exists (mkRestoreRequest [desk_purchase "user-1"; desk_purchase "user-2"]). split; [vm_compute; reflexivity|reflexivity]. Qed.

Lemma desk_customer customers : customer_granted (desk_restore customers) shop_store desk_session.
Proof.
  exists "session"%string. split; [|split; reflexivity]. split; [reflexivity|]. split; [discriminate|].
  vm_compute bytes. repeat (constructor; [lia|]). constructor.
Qed.

Lemma session_confined_witness :
  rp_Status (desk_restored "user-1,user-1").1 = 200 /\
  (exists p purchases, all_verified p purchases shop_store (desk_restored "user-1,user-1").2 /\ length purchases = 2%nat) /\
  rp_Status (desk_restored "user-1,user-2").1 = 401 /\ (desk_restored "user-1,user-2").2 = shop_store.
Proof.
  assert (Hs : rp_Status (desk_restored "user-1,user-1").1 = 200) by (vm_compute; reflexivity).
  split; [exact Hs|]. split; [|split; [vm_compute; reflexivity|]].
  - destruct (desk_restored "user-1,user-1") as [r s'] eqn:E. cbn in Hs.
    assert (Hr : ~ refusal r) by (unfold refusal; rewrite Hs; lia).
    destruct (session_confined desk sample_protector desk_clock true _ _ _ _ E) as [[[? _]|(p & purchases & _ & Hsub & _ & _ & _ & [?|Hv])] _];
      [contradiction..|].
    exists p, purchases. split; [exact Hv|]. destruct Hsub as (input & Hd & ->). vm_compute in Hd. injection Hd as <-. reflexivity.
  - destruct (desk_restored "user-1,user-2") as [r s'] eqn:E.
    apply (proj2 (session_confined desk sample_protector desk_clock true _ _ _ _ E) desk_session _ (desk_customer _) desk_submitted).
    apply Exists_cons_tl, Exists_cons_hd. discriminate.
Defined.



(** The customer of the import sees what it gave them. *)
Definition desk_snapshot : http_call :=
  with_values (desk_call "GET" "session" "" ["v1"]%string) [("application_id", "app-1"); ("external_customer_id", "user-1")]%string.
Definition desk_shown : reply * store_db := run_handler (customerEntitlements desk_clock desk_snapshot) shop_written.2.

Lemma entitlements_shown_witness :
  rp_Status desk_shown.1 = 200 /\ snapshot_shown desk_clock desk_snapshot shop_written.2 desk_shown.1 desk_shown.2 /\
  exists body, rp_Body desk_shown.1 = Some body.
Proof.
  assert (Hs : rp_Status desk_shown.1 = 200) by (vm_compute; reflexivity).
  split; [exact Hs|]. destruct desk_shown as [r s'] eqn:E.
  destruct (entitlements_shown desk_clock _ _ _ _ E) as [[Hr _]|H].
  - exfalso. unfold refusal in Hr. cbn in Hs. rewrite Hs in Hr. vm_compute in Hr. by apply Hr.
  - split; [exact H|]. destruct H as (_ & p & customer & entitlements & _ & _ & _ & _ & -> & _). eexists. reflexivity.
Defined.
